(* ===== verification/_CoqProject ===== *)
-Q . S2P
Prelude.v
LibC.v
Bytes.v
Floats.v
Scan.v
IniReader.v
ProcessIni.v
OptionalIni.v
SysImage.v
JpegHeader.v
Exif.v
Dsc.v
Device.v
Runs.v
Misc.v
V4l.v
JpegEnc.v
Tslib.v
FbUtils.v
TsTest.v
TsCalib.v
TsFilters.v
Calibrate.v
FbOpen.v
TsCalibMain.v
TsTestMain.v
TsH2200.v
TsVariance.v
Spi.v
SpiFlash.v
HidGadget.v
Motion.v
VinDemo.v
VinFds.v
VinLoop.v
TsRaw.v
TouchKit.v
TsInput.v
TsGalax.v
TsPalm.v
TsConfig.v
JpegCodec.v
JpegStream.v
JpegWindow.v
JpegResize.v
SerialLoop.v
Blt.v
Rtc.v
OssAudio.v
IjgScale.v
IjgPixels.v
IjgDemo.v
Osd.v
Sysfs.v
Gpio.v
Bma220.v
Demos.v
Lcm.v
Backlight.v
Watchdog.v
Keypad.v
DevMem.v
TsDemo.v
Lvd.v
Spidev.v
Webcam.v
