(* ===== verification/Prelude.v ===== *)
(** * A verification library for the N32905 Linux applications

    The repository holds the applications that Nuvoton ships for its N32905
    board: independent C programs, one per directory of src/, around a few
    shared modules.  This library models the programs that carry logic of their
    own and proves what makes them correct.  All of them are C code for a
    32-bit ARM Linux; what they share with the rest of the system is the C
    library, the file system and the device drivers.

    ** The programs and the files that model them

    The NAND writer (src/mtdnand/mn_writer/src) reads two INI files, builds the
    block that the boot ROM reads and writes it and the firmware images to the
    flash with external commands.
    - [IniReader]: [readLine], the buffered line reader of ProcessIni.c and its
      copy in ProcessOptionalIni.c.  State: the buffer of INI_BUF_SIZE bytes,
      its two positions and the unread bytes of the file.
    - [ProcessIni]: [ProcessINI], the parser of NANDWRITER.ini, as a machine
      whose program counter stands for the loops and the goto of the code.
    - [OptionalIni]: ProcessOptionalIni.c, the parser of the address/value
      pairs of TurboWriter.ini with its hexadecimal conversion.
    - [SysImage]: mn_writer.c, the table of images, the layout of the block,
      the command line and the commands given to the shell.

    The JPEG codec demo (src/jpeg_codec/jpeg_demo.c).
    - [JpegHeader]: [ParsingJPEG], the marker scanner, and [Write2File].
    - [JpegCodec]: [jpegCodec], the sessions that decode a file and encode a
      picture in seven modes; the requests to the codec driver, and the
      interface of an engine, a disk and a memory that cooperate ([JpegEngine]).
    - [JpegStream]: [jpegCodecIPW], the file handed over piece by piece.
    - [JpegWindow]: [jpegWindowCodec], a window that moves over a picture.
    - [JpegResize]: [jpeg_resize] and the menu of [main].

    The camera demo (src/videoin_HW): a main program above four modules.
    - [V4l]: V4L.c, the capture device: set-up, the ring of frames, windows,
      controls, zoom.
    - [JpegEnc]: JpegEnc.c, the encoder device; it calls [Exif].
    - [Exif]: exif.c, the header with the date and the thumbnail.
    - [Dsc]: dsc.c, the numbers of the pictures and the index file.
    - [Misc]: the definitions of Misc.h the modules share.
    - [VinDemo]: vin_demo.c, the main program: the devices it opens, the key
      loop, taking a picture, the zoom and brightness menus, the exit handler.
      Its state holds the states of the four modules, and the requests of a
      module are embedded in its own, so that a module's theorems carry over.
    - [VinFds]: a program logic for open descriptors above [VinDemo].
    - [VinLoop]: a program logic for total correctness above [VinDemo].

    The touch-screen library (src/tslib-1.1, src and plugins): a stack of
    modules, each of which reads samples from the one below it.
    - [Tslib]: the samples, the interface of a module ([TsRead], with its
      promise [TsReadOk]), the list of modules of a device in a heap with its
      next pointers (ts_attach.c, ts_close.c), the options of a device
      (ts_option.c) and the parameter parser (ts_parse_vars.c).
    - [TsFilters]: pthres.c, dejitter.c and linear.c, each above any module
      that has the interface.
    - [TsVariance]: variance.c, a filter with a state machine in its flags.
    - [TsInput]: input-raw.c, the raw module for Linux input devices; it is an
      instance of the module interface, so the filters stack on it.
    - [TsH2200]: h2200-linear.c, a calibration in fixed-point arithmetic.
    - [TsRaw]: dmc-raw.c and the raw modules that copy one record of the
      device into one sample.
    - [TouchKit]: touchkit.c, a serial protocol of ten-byte packets.
    - [TsGalax]: galax-raw.c, input-raw.c for the models of one maker.
    - [TsPalm]: cy8mrln-palmpre.c, frames of a matrix of sensors: references,
      sleep and wake-up of the controller, touches.
    - [TsConfig]: ts_config.c, ts_load_module.c, ts_open.c, ts_read.c and
      ts_read_raw.c: the configuration file, loading modules, a read of the
      whole stack.

    The test programs of the library (src/tslib-1.1/tests).
    - [FbUtils]: fbutils.c, pixels, lines, rectangles and characters in the
      memory of the frame buffer.
    - [TsTest]: ts_test.c, the buttons and the cross of the main loop.
    - [TsCalib]: testutils.c and ts_calibrate.c, the samples of a calibration
      point and the cross that moves over the screen.
    - [Calibrate]: ts_calibrate.c, the equations of the calibration over any
      arithmetic and the file that linear.c reads.
    - [FbOpen]: fbutils.c again, the frame buffer and its console opened and
      closed, with the machine ([Consoles]) that both programs run on.
    - [TsCalibMain], [TsTestMain]: main of ts_calibrate.c and of ts_test.c, each
      the composition of the files above ([within] of [Device] runs a part on its
      share of the variables and requests).

    Device demos.
    - [Spi]: src/spi/spi.c, the serial flash routines and their test.
    - [SpiFlash]: the same with a serial flash behind the driver.
    - [HidGadget]: src/hid_gadget_test/main.c, command lines to HID reports.
    - [Motion]: src/msensor/motion.c, the motion detection service.
    - [SerialLoop]: src/serial_loop/serial_loop.c, the loop-back test.
    - [Blt]: src/blt/blt_demo.c, sprites that move and are clipped at the panel.
    - [Rtc]: src/rtc/rtc.c, the alarm tests and their menu.
    - [OssAudio]: src/audio_oss2alsa, recording to a file and playing it.
    - [IjgScale], [IjgPixels], [IjgDemo]: src/libjpeg_HW, the scale that fits a
      panel, the conversion of pixels, and the whole of the demo.
    - [Osd]: src/osd/osd_demo.c, two pictures and an overlay above them.
    - [Sysfs]: files of attributes, for [Gpio] (src/gpio/gpio.c) and [Bma220]
      (src/msensor/bma220.c, the attributes and the log of the motion sensor).
    - [Demos]: the requests of the small demos of one device: [Lcm] (src/lcm, a
      menu of controls of the panel), [Backlight], [Watchdog], [Keypad],
      [DevMem] (src/devMem), [TsDemo] (src/touchscreen) and [Lvd].
    - [Spidev]: src/spidev/spidev_test.c, settings of an SPI device and one
      transfer.
    - [Webcam]: src/webcam_demo, the queue of capture buffers, the preview and
      the main program with its exit handler.

    Shared by all of them.
    - [Prelude] (this file): machine integers, outcomes, arrays, tactics.
    - [LibC]: the functions of the C library the programs call (strings,
      strtok, strsep, strtol, strtoul, printf of numbers) with their laws.
    - [Bytes]: little-endian fields and copies into a block of bytes.
    - [Floats]: single and double precision, and an interface of arithmetic with
      single precision and the rational numbers as its instances.
    - [Scan]: numbers of sscanf, with the round trip from sprintf.
    - [Device]: a state monad for code that makes requests to a driver, which
      is a class ([Driver]) with an answer for every request and a trace.
    - [Runs]: total correctness of programs in that monad, a rule per construct.

    ** How the code is modelled

    A function of the source is a Rocq function of the same name.  A fault that
    C does not define (an access outside an array, a NULL pointer, a division
    by zero, a value that was never set) or that ends the program (an assertion) is a value, [Crash]; a function that is proved to return [Ok] has
    no such fault.  Integers are of type Z and are cut to their width where the
    code stores them ([u8], [u16], [u32], [s32]; signed overflow wraps).  An
    array is a list with bounds-checked access, a pointer into one is an index.
    Static and global variables are the fields of a record that the operations
    take and return.  Drivers, the file system, memory allocation and the
    contents of uninitialised memory are arguments: the theorems hold for all
    of them, or name what they need of them as a hypothesis that is shown to be
    satisfiable by a witness.  Messages printed to the terminal are left out.

    ** Fuel

    Loops whose end is not structural carry fuel and return [Crash OutOfFuel]
    without it.  The line reader and the parsers above it need two steps per
    unread byte and two more, the strtok and strsep loops one per character,
    since every token consumes a character; the marker scanner consumes a byte
    per step.  In all these the model computes the fuel from
    the size of the input and the theorems prove that it is enough.  The close
    loop of a device needs one step per module, the variance filter two per
    sample that is left (a sample is read once and submitted at most once
    more).  The key loop of [VinDemo] needs one step per turn, and its theorem
    gives the number of turns until the home key is released; the loops of
    [TsInput] one per event, the loop of [TsConfig] one per byte of the file,
    the reading loop of [JpegCodec] one per block of 4096 bytes and one more,
    the loop of [JpegStream] one per piece the engine needs and one more, the loops of [SerialLoop] one per byte of
    the block, the loop of [Webcam] one per frame, the walk of [JpegWindow] one
    per window that is shown, the loop of [TouchKit] one per byte that is
    buffered, those of [TsTest], [TsCalib] and [TsGalax] one per sample or event,
    the menu of [Rtc] one per key, [OssAudio] one per piece of 2048 bytes that
    is recorded, one per fragment that is played and a bound on the polls
    ([patience]), the search of [IjgScale] at most 2^18 + 1.  Where a loop has no end
    (a truncated file, a picture smaller than an MCU, a menu without input) a
    theorem says that it runs out of every fuel.  The poll of the flash in [Spi] has no bound in the code; its fuel
    is the number of polls within which the flash is assumed to be ready.  The
    loops of [Osd] are five turns long.  The menu of [Lcm] takes one turn per line
    and one more, the feeding loop of [Watchdog] three turns.  The main loops of
    [HidGadget], [Blt], [Gpio], [Bma220], [Backlight], [Keypad], [TsDemo], [Lvd]
    and the last one of [Watchdog] have no end and are only unrolled.

    ** What the theorems show

    - NAND writer: the reader and both parsers refine one-pass specifications
      on the bytes of the file, including the exact condition under which a
      line overruns its array; configurations and pairs that are printed are
      parsed back; the images lie in consecutive blocks; the system block is
      read back; the commands of a run are those of its burning, in one order,
      up to the first that fails.
    - JPEG: the scanner terminates and reports what a reference scan finds;
      well-formed files are reported correctly.  Every session ends with a
      cooperating engine, makes its requests in the right order and saves what
      the engine delivered: decoding and encoding in all modes, the file in
      pieces, the window, resizing.
    - Camera: the frames are captured in rotation, the zoom window stays centred
      and in its limits; the EXIF header is understood by an independent reader;
      a picture never overwrites another one.  The program as a whole closes
      every descriptor on every path, its key loop ends at the home key, and
      taking a picture saves the whole picture in a new file.
    - Touch screen: the in-place pressure filter is a list filter, averages
      stay in the range of the samples, calibration is applied to exactly the
      samples read, the variance filter terminates and keeps its protocol, the
      list of modules is freed exactly once.  The reports of an input device
      become samples, a configuration file builds the stack it describes, and a
      read of the usual stack turns reports into calibrated points on the screen.
      The fixed-point filter rounds within its range, packets that arrive in
      pieces over a serial line, after its first use has flushed it, are all
      delivered, a matrix of sensors follows an abstract pad that sleeps, wakes up
      and closes each touch exactly once.
    - Test programs of the library: lines have one point per step, drawing in
      exclusive-or mode twice restores the screen (coordinates are ints, and what
      is drawn ends below 2^30), the test program ends at its button, a
      calibration point is the median of its samples, the constants that are
      computed in single precision are the ones that linear.c applies, and in
      exact arithmetic an affine panel would be calibrated exactly.
      As a whole, the calibration program writes exactly the file of its equations,
      and both programs give the console back; what they leave open is the
      descriptor of the touch screen.
    - Audio and pictures: what is recorded is in the file and what is played is
      the file; a decoded picture is on the screen, row by row, and the search
      for its scale ends.
    - Devices: what is written to a serial flash is read back, a
      keyboard line becomes the right reports, orientation reports alternate, the
      loop-back test gives the right verdict, blits stay inside the panel on a
      board that tells the addresses of its memory, the alarm that is set lies
      ahead, attributes that are set are read back, the log
      of the sensor lists its positions, the overlay shows its status until another
      picture is stored over it, every frame of the webcam is served while the
      program owns its buffer and is found by the engine at the addresses it is
      given, and its clean-up works once.  The letters
      of the panel's menu are its controls, the brightness stays in its limits, the
      watchdog is fed twice and never again, the first keypad is found and
      nothing else left open, the reserved memory is given back, an SPI loop
      shows what was sent.
    - Each file also holds the limits that the proofs brought out: inputs for
      which the code overruns an array, loses data or reports a wrong result.

    ** What is not modelled

    BusyBox, the ALSA utilities and the YAFFS2 image maker are third-party
    programs.  The power manager is C++.  The opening
    of the devices in the main program of the JPEG demo, and its mapping of the
    memories, are not modelled.

    ** Interfaces

    What one part promises to another is a class: [Driver] (a driver answers
    every request), [TsRead] with [TsReadOk] (a module of the touch-screen stack),
    [ReadsAtMost] and [EventQueue] (an input device), [CapFds], [EncFds] and
    [SysFds] (how requests open and close descriptors), [KeyQueue] and
    [EncodesInBuffer] (the keypad and the encoder of the camera), [JpegEngine],
    [StreamEngine] and [UserInput] (the codec, its input wait, the user), [LoopLine]
    (a serial line with both ends connected), [RawReadsAtMost], [WholeReads],
    [SerialLine], [GalaxScreen] and [PalmPad] (the devices of the raw modules), [Board],
    [Pen], [RawPen], [Consoles], [TouchScreen] and [Keys] (the environment of the test programs and of the
    menu of the clock), [SoundCard], [IjgLibrary] and [IjgEncoder] (audio codec,
    decoder and encoder), [Sysfs] and [SensorEvents] (attributes and
    events), [PictureFiles] and [Panel] (the display of [Osd]), [Events], [Typing],
    [PanelBoard], [Dog], [InputDevices], [ReservedMemory] and [Converter] (the
    devices of the small demos), [LoopDevice] (an SPI device), [Arith] (an
    arithmetic), [Camera] (a webcam),
    [SerialFlash] (the commands of a serial flash).  Each has
    an instance that the witnesses use.

    ** This file: shared vocabulary *)
From stdpp Require Export base list numbers option strings sets.
From Stdlib Require Export ZArith Lia.

Declare Scope cmodel_scope.
Delimit Scope cmodel_scope with cm.

(** ** Machine integers

    A w-bit integer is a [Z]; the conversions below are the C conversions to
    the fixed-width types of the target (32-bit ARM: int, unsigned int and long
    have 32 bits, char is unsigned). *)
Definition u8 (z : Z) : Z := (z mod 256)%Z.
Definition u16 (z : Z) : Z := (z mod 65536)%Z.
Definition u32 (z : Z) : Z := (z mod 4294967296)%Z.
Definition s16 (z : Z) : Z := ((z + 32768) mod 65536 - 32768)%Z.
Definition s32 (z : Z) : Z := ((z + 2147483648) mod 4294967296 - 2147483648)%Z.

Definition is_u8 (z : Z) : Prop := (0 <= z < 256)%Z.
Definition is_u16 (z : Z) : Prop := (0 <= z < 65536)%Z.
Definition is_u32 (z : Z) : Prop := (0 <= z < 4294967296)%Z.
Definition is_s32 (z : Z) : Prop := (-2147483648 <= z < 2147483648)%Z.

Create HintDb cint.
Create Rewrite HintDb cint.
Create Rewrite HintDb clist.

Lemma u8_range z : is_u8 (u8 z).
Proof. unfold is_u8, u8. apply Z.mod_pos_bound. lia. Qed.
Lemma u16_range z : is_u16 (u16 z).
Proof. unfold is_u16, u16. apply Z.mod_pos_bound. lia. Qed.
Lemma u32_range z : is_u32 (u32 z).
Proof. unfold is_u32, u32. apply Z.mod_pos_bound. lia. Qed.
Lemma s32_range z : is_s32 (s32 z).
Proof.
  unfold is_s32, s32.
  pose proof (Z.mod_pos_bound (z + 2147483648) 4294967296). lia.
Qed.

Lemma u8_id z : is_u8 z → u8 z = z.
Proof. apply Z.mod_small. Qed.
Lemma u16_id z : is_u16 z → u16 z = z.
Proof. apply Z.mod_small. Qed.
Lemma u32_id z : is_u32 z → u32 z = z.
Proof. apply Z.mod_small. Qed.
Lemma s32_id z : is_s32 z → s32 z = z.
Proof. unfold is_s32, s32. intros. rewrite Z.mod_small; lia. Qed.

Lemma s16_id z : (-32768 <= z < 32768)%Z → s16 z = z.
Proof. intros. unfold s16. rewrite Z.mod_small; lia. Qed.
Lemma u32_u32 z : u32 (u32 z) = u32 z.
Proof. apply u32_id, u32_range. Qed.
Lemma u8_u8 z : u8 (u8 z) = u8 z.
Proof. apply u8_id, u8_range. Qed.
Lemma u32_s32 z : u32 (s32 z) = u32 z.
Proof.
  unfold u32, s32. rewrite Zminus_mod_idemp_l. f_equal. lia.
Qed.

Lemma u32_add_l a b : u32 (u32 a + b) = u32 (a + b).
Proof. apply Zplus_mod_idemp_l. Qed.
Lemma u32_add_r a b : u32 (a + u32 b) = u32 (a + b).
Proof. apply Zplus_mod_idemp_r. Qed.
Lemma u32_mul_l a b : u32 (u32 a * b) = u32 (a * b).
Proof. apply Zmult_mod_idemp_l. Qed.
Lemma u32_mul_r a b : u32 (a * u32 b) = u32 (a * b).
Proof. apply Zmult_mod_idemp_r. Qed.

Lemma lor_u8 a b : is_u8 a → is_u8 b → u8 (Z.lor a b) = Z.lor a b ∧ is_u8 (Z.lor a b).
Proof.
  intros Ha Hb. assert (∀ z, u8 z = Z.land z 255%Z) as Hu
    by (intros z; unfold u8; change 255%Z with (Z.ones 8); by rewrite Z.land_ones).
  assert (u8 (Z.lor a b) = Z.lor a b) as E.
  { rewrite Hu, Z.land_lor_distr_l, <- !Hu, !u8_id by done. done. }
  split; [done|]. rewrite <- E. apply u8_range.
Qed.

#[export] Hint Resolve u8_range u16_range u32_range s32_range : cint.
#[export] Hint Rewrite u32_u32 u8_u8 u32_s32 u32_add_l u32_add_r u32_mul_l u32_mul_r : cint.

(** ** Outcomes of C code

    [Crash] records the memory or arithmetic fault a C execution would commit;
    it is a value, so "this function has no such fault" is a theorem. *)
Inductive crash := OutOfBounds | NullDeref | DivByZero | NoValue | Aborted | Overlap | OutOfFuel.

Inductive result (A : Type) :=
| Ok (a : A)
| Crash (c : crash).
Arguments Ok {A} a.
Arguments Crash {A} c.

#[export] Instance crash_eq_dec : EqDecision crash.
Proof. solve_decision. Defined.
#[export] Instance result_eq_dec {A} `{EqDecision A} : EqDecision (result A).
Proof. solve_decision. Defined.

#[export] Instance result_ret : MRet result := λ A a, Ok a.
#[export] Instance result_bind : MBind result := λ A B f m,
  match m with Ok a => f a | Crash c => Crash c end.

Definition is_ok {A} (r : result A) : Prop := ∃ a, r = Ok a.

Lemma bind_ok {A B} (m : result A) (f : A → result B) b :
  m ≫= f = Ok b ↔ ∃ a, m = Ok a ∧ f a = Ok b.
Proof. destruct m; cbn; naive_solver. Qed.

Lemma bind_of_ok {A B} (a : A) (f : A → result B) : Ok a ≫= f = f a.
Proof. done. Qed.

(** ** Arrays

    A C array is a list; an access outside of it is a [Crash]. *)
Definition rd {A} (l : list A) (i : Z) : result A :=
  if (0 <=? i)%Z then
    match l !! Z.to_nat i with Some v => Ok v | None => Crash OutOfBounds end
  else Crash OutOfBounds.

Definition wr {A} (l : list A) (i : Z) (v : A) : result (list A) :=
  if (0 <=? i)%Z && (i <? Z.of_nat (length l))%Z
  then Ok (<[Z.to_nat i := v]> l) else Crash OutOfBounds.

Lemma rd_Ok {A} (l : list A) i v :
  rd l i = Ok v ↔ (0 <= i)%Z ∧ l !! Z.to_nat i = Some v.
Proof. unfold rd. destruct (Z.leb_spec 0 i); repeat case_match; naive_solver lia. Qed.

Lemma wr_Ok {A} (l : list A) i v :
  (0 <= i < Z.of_nat (length l))%Z → wr l i v = Ok (<[Z.to_nat i := v]> l).
Proof. intros. unfold wr. rewrite (proj2 (Z.leb_le _ _)), (proj2 (Z.ltb_lt _ _)); done || lia. Qed.

Lemma wr_inv {A} (l l' : list A) i v :
  wr l i v = Ok l' → (0 <= i < Z.of_nat (length l))%Z ∧ l' = <[Z.to_nat i := v]> l.
Proof.
  unfold wr. destruct (Z.leb_spec 0 i), (Z.ltb_spec i (Z.of_nat (length l))); naive_solver lia.
Qed.

Lemma wr_crash {A} (l : list A) i v :
  ¬ (0 <= i < Z.of_nat (length l))%Z → wr l i v = Crash OutOfBounds.
Proof.
  unfold wr. destruct (Z.leb_spec 0 i), (Z.ltb_spec i (Z.of_nat (length l))); naive_solver lia.
Qed.

Lemma rd_is_ok {A} (l : list A) i :
  (0 <= i < Z.of_nat (length l))%Z → is_ok (rd l i).
Proof.
  intros. destruct (lookup_lt_is_Some_2 l (Z.to_nat i)) as [v Hv]; [lia|].
  exists v. apply rd_Ok. split; [lia|done].
Qed.

Lemma length_wr {A} (l l' : list A) i v : wr l i v = Ok l' → length l' = length l.
Proof. intros [_ ->]%wr_inv. apply length_insert. Qed.

(** ** Tactics *)

(** Splits the boolean comparisons of [Z] in the goal and the hypotheses. *)
Ltac zcmp :=
  repeat match goal with
  | H : (_ && _) = true |- _ => apply andb_true_iff in H as [? ?]
  | H : (_ || _) = false |- _ => apply orb_false_iff in H as [? ?]
  | H : negb _ = true |- _ => apply negb_true_iff in H
  | H : negb _ = false |- _ => apply negb_false_iff in H
  | H : (_ =? _)%Z = true |- _ => apply Z.eqb_eq in H
  | H : (_ =? _)%Z = false |- _ => apply Z.eqb_neq in H
  | H : (_ <? _)%Z = true |- _ => apply Z.ltb_lt in H
  | H : (_ <? _)%Z = false |- _ => apply Z.ltb_ge in H
  | H : (_ <=? _)%Z = true |- _ => apply Z.leb_le in H
  | H : (_ <=? _)%Z = false |- _ => apply Z.leb_gt in H
  | H : (_ >? _)%Z = _ |- _ => rewrite Z.gtb_ltb in H
  | H : (_ >=? _)%Z = _ |- _ => rewrite Z.geb_leb in H
  end.

(** Case analysis on the condition of an [if] or [match] of the goal. *)
Ltac zcase :=
  match goal with
  | |- context [if ?b then _ else _] => let E := fresh "E" in destruct b eqn:E
  end; zcmp.

(** Inverts a chain of binds that ended in [Ok]. *)
Ltac bind_inv :=
  repeat match goal with
  | H : _ ≫= _ = Ok _ |- _ =>
      let a := fresh "a" in let E := fresh "E" in
      apply bind_ok in H as (a & E & H)
  end.

(** ** Lists *)

Lemma lookup_take_drop {A} (l : list A) i v :
  l !! i = Some v → l = take i l ++ v :: drop (S i) l.
Proof. intros. symmetry. by apply take_drop_middle. Qed.

Lemma lookup_cons2 {A} (x y : A) (l : list A) k : (x :: y :: l) !! S (S k) = l !! k.
Proof. done. Qed.

Lemma drop_lookup_cons {A} (l : list A) i v :
  l !! i = Some v → drop i l = v :: drop (S i) l.
Proof. apply drop_S. Qed.

Lemma insert_drop_lt {A} (l : list A) i j (v : A) :
  i < j → drop j (<[i:=v]> l) = drop j l.
Proof. intros. by apply drop_insert_lt. Qed.

Lemma take_insert_snoc {A} (l : list A) i (v : A) :
  i < length l → take (S i) (<[i:=v]> l) = take i l ++ [v].
Proof.
  intros. rewrite (take_S_r _ _ v) by (by apply list_lookup_insert_eq).
  f_equal. by apply take_insert_ge.
Qed.

#[export] Hint Rewrite @length_insert @length_app @length_take @length_drop
  @length_replicate @length_cons @length_nil : clist.
