(* ===== verification/LibC.v ===== *)
(** * LibC: the C library functions the programs call

    Strings are lists of character codes without their terminating NUL; a
    char array that holds a string is a list with the NUL in it, and [cstr]
    reads the string back.  The conversions are those of the target's C
    library: [long] has 32 bits, out-of-range values saturate and set errno to
    ERANGE. *)
From S2P Require Import Prelude.
From Stdlib Require Import Ascii String.
Local Open Scope Z_scope.

(** ** Characters and strings *)

Fixpoint lit (s : string) : list Z :=
  match s with
  | EmptyString => []
  | String a s' => Z.of_N (N_of_ascii a) :: lit s'
  end.

Fixpoint cstr (buf : list Z) : list Z :=
  match buf with
  | [] => []
  | c :: r => if c =? 0 then [] else c :: cstr r
  end.

Definition str_eqb (a b : list Z) : bool := bool_decide (a = b).
Definition isspace (c : Z) : bool := (c =? 32) || ((9 <=? c) && (c <=? 13)).
Definition isdigit (c : Z) : bool := (48 <=? c) && (c <=? 57).
Definition islower (c : Z) : bool := (97 <=? c) && (c <=? 122).
Definition toupper (c : Z) : Z := if islower c then c - 32 else c.
Definition isupper (c : Z) : bool := (65 <=? c) && (c <=? 90).
Definition tolower (c : Z) : Z := if isupper c then c + 32 else c.
Definition strcaseeq (a b : list Z) : bool :=
  bool_decide (map tolower a = map tolower b).

(** Whether [strstr] finds [sub] in [s]. *)
Fixpoint starts_with (sub s : list Z) : bool :=
  match sub, s with
  | [], _ => true
  | a :: sub, b :: s => (a =? b) && starts_with sub s
  | _ :: _, [] => false
  end.
Fixpoint strstr (s sub : list Z) : bool :=
  starts_with sub s || match s with [] => false | _ :: s => strstr s sub end.

(** ** strtok and strsep *)

Definition is_delim (delim : list Z) (c : Z) : bool := bool_decide (c ∈ delim).

Fixpoint skip_delims (delim s : list Z) : list Z :=
  match s with
  | c :: r => if is_delim delim c then skip_delims delim r else s
  | [] => []
  end.

Fixpoint split_token (delim s : list Z) : list Z * list Z :=
  match s with
  | [] => ([], [])
  | c :: r =>
      if is_delim delim c then ([], r)
      else let '(t, rest) := split_token delim r in (c :: t, rest)
  end.

(** [strtok delim s]: the next token of the saved string [s] and what is left
    of it, or [None] for a NULL result. *)
Definition strtok (delim s : list Z) : option (list Z * list Z) :=
  match skip_delims delim s with
  | [] => None
  | s' => Some (split_token delim s')
  end.

(** [strsep]: a token may be empty; the remainder is NULL after the last one. *)
Fixpoint strsep_split (delim s : list Z) : list Z * option (list Z) :=
  match s with
  | [] => ([], None)
  | c :: r =>
      if is_delim delim c then ([], Some r)
      else let '(t, rest) := strsep_split delim r in (c :: t, rest)
  end.

Definition strsep (delim : list Z) (s : option (list Z))
  : option (list Z) * option (list Z) :=
  match s with
  | None => (None, None)
  | Some s' => let '(t, rest) := strsep_split delim s' in (Some t, rest)
  end.

(** ** Number conversions *)

Definition digit_of (c : Z) : option Z :=
  if isdigit c then Some (c - 48)
  else if islower c then Some (c - 87)
  else if isupper c then Some (c - 55)
  else None.

Definition digit_in (base c : Z) : option Z :=
  match digit_of c with
  | Some d => if d <? base then Some d else None
  | None => None
  end.

Fixpoint digits_val (base acc : Z) (s : list Z) : Z :=
  match s with
  | [] => acc
  | c :: r =>
      match digit_in base c with
      | Some d => digits_val base (acc * base + d) r
      | None => acc
      end
  end.

Fixpoint skip_space (s : list Z) : list Z :=
  match s with
  | c :: r => if isspace c then skip_space r else s
  | [] => []
  end.

Definition take_sign (s : list Z) : bool * list Z :=
  match s with
  | c :: r => if c =? 45 then (true, r) else if c =? 43 then (false, r) else (false, s)
  | [] => (false, [])
  end.

(** Base 0: a 0x prefix (followed by a hex digit) selects 16, a leading 0
    selects 8, anything else 10. *)
Definition detect_base (s : list Z) : Z * list Z :=
  match s with
  | 48 :: x :: d :: r =>
      if ((x =? 120) || (x =? 88)) && bool_decide (is_Some (digit_in 16 d))
      then (16, d :: r) else (8, s)
  | 48 :: _ => (8, s)
  | _ => (10, s)
  end.

Definition signed_magnitude (base : Z) (s : list Z) : bool * Z :=
  let '(neg, s1) := take_sign (skip_space s) in
  if base =? 0 then
    let '(b, s2) := detect_base s1 in (neg, digits_val b 0 s2)
  else (neg, digits_val base 0 s1).

Definition LONG_MAX : Z := 2147483647.
Definition LONG_MIN : Z := -2147483648.
Definition ULONG_MAX : Z := 4294967295.

(** The value and whether errno became ERANGE. *)
Definition strtol (base : Z) (s : list Z) : Z * bool :=
  let '(neg, m) := signed_magnitude base s in
  let v := if neg then - m else m in
  if v >? LONG_MAX then (LONG_MAX, true)
  else if v <? LONG_MIN then (LONG_MIN, true) else (v, false).

Definition strtoul (base : Z) (s : list Z) : Z * bool :=
  let '(neg, m) := signed_magnitude base s in
  if m >? ULONG_MAX then (ULONG_MAX, true)
  else (u32 (if neg then - m else m), false).

Definition atoi (s : list Z) : Z := fst (strtol 10 s).

(** ** Decimal and hexadecimal printing *)

Definition digit_char (d : Z) : Z := if d <? 10 then 48 + d else 87 + d.

(** The digits of a non-negative number, most significant first; [fuel] bounds
    their number (a 32-bit value has at most 10 decimal digits). *)
Fixpoint print_digits (fuel : nat) (base n : Z) (acc : list Z) : list Z :=
  match fuel with
  | O => acc
  | S f =>
      let acc' := digit_char (n mod base) :: acc in
      if n / base =? 0 then acc' else print_digits f base (n / base) acc'
  end.

Definition print_u (base n : Z) : list Z := print_digits 12 base n [].
Definition print_d (n : Z) : list Z :=
  if n <? 0 then 45 :: print_u 10 (- n) else print_u 10 n.
(** [%0wd]: zeros between the sign and the digits, up to the width. *)
Definition print_0d (w : nat) (n : Z) : list Z :=
  if n <? 0 then
    let s := print_u 10 (- n) in 45 :: replicate (w - 1 - List.length s) 48 ++ s
  else let s := print_u 10 n in replicate (w - List.length s) 48 ++ s.

(** ** Facts *)

Lemma cstr_app_nul s r : Forall (λ c, c ≠ 0) s → cstr (s ++ 0 :: r) = s.
Proof.
  induction 1 as [|c s Hc _ IH]; [done|]. cbn.
  destruct (Z.eqb_spec c 0); [done|]. by rewrite IH.
Qed.

Lemma cstr_take_nul (l : list Z) n :
  l !! n = Some 0 → cstr l = cstr (take n l).
Proof.
  revert n. induction l as [|c l IH]; intros [|n] H; cbn in *; try done.
  - by simplify_eq.
  - destruct (c =? 0); [done|]. by rewrite <- IH.
Qed.

Lemma cstr_length (l : list Z) : (List.length (cstr l) <= List.length l)%nat.
Proof. induction l as [|c l IH]; cbn; [lia|]. destruct (c =? 0); cbn; lia. Qed.

Lemma str_eqb_eq a b : str_eqb a b = true ↔ a = b.
Proof. apply bool_decide_eq_true. Qed.

Lemma atoi_range s : is_s32 (atoi s).
Proof.
  unfold atoi, strtol, is_s32, LONG_MAX, LONG_MIN.
  destruct (signed_magnitude 10 s) as [neg m].
  set (v := if neg then - m else m). cbn -[Z.gtb Z.ltb].
  destruct (v >? 2147483647) eqn:E1; cbn; [lia|].
  destruct (v <? -2147483648) eqn:E2; cbn; zcmp; lia.
Qed.

Lemma skip_delims_suffix delim s : ∃ p, s = p ++ skip_delims delim s ∧ Forall (λ c, c ∈ delim) p.
Proof.
  induction s as [|c s [p [Hp HF]]]; cbn; [by exists []|].
  unfold is_delim at 1. destruct (bool_decide_reflect (c ∈ delim)).
  - exists (c :: p). split; [by rewrite Hp at 1|]. by constructor.
  - by exists [].
Qed.

Lemma split_token_spec delim s t r :
  split_token delim s = (t, r) →
  Forall (λ c, c ∉ delim) t ∧ (r = [] ∧ s = t ∨ ∃ d, d ∈ delim ∧ s = t ++ d :: r).
Proof.
  revert t r. induction s as [|c s IH]; intros t r; cbn.
  - intros [= <- <-]. split; [constructor|by left].
  - unfold is_delim at 1. destruct (bool_decide_reflect (c ∈ delim)) as [Hc|Hc].
    + intros [= <- <-]. split; [constructor|]. right. by exists c.
    + destruct (split_token delim s) as [t' r'] eqn:E. intros [= <- <-].
      destruct (IH _ _ eq_refl) as [HF HS]. split; [by constructor|].
      destruct HS as [[-> ->]|(d & Hd & ->)]; [by left|right; by exists d].
Qed.

Lemma skip_delims_length delim s : (List.length (skip_delims delim s) <= List.length s)%nat.
Proof. induction s; cbn; [lia|]. destruct (is_delim delim a); cbn; lia. Qed.

(** Every token shortens the string that is left, so a strtok loop ends. *)
Lemma strtok_shrinks delim s t r :
  strtok delim s = Some (t, r) → (List.length r < List.length s)%nat.
Proof.
  unfold strtok. intros H.
  assert (Hl := skip_delims_length delim s).
  destruct (skip_delims delim s) as [|c s'] eqn:E; [done|].
  assert (split_token delim (c :: s') = (t, r)) as H' by congruence.
  apply split_token_spec in H' as [_ [[-> Hs]|(d & _ & Hs)]];
    [cbn in *; lia|rewrite Hs, List.length_app in Hl; cbn in *; lia].
Qed.

(** A token is never empty and holds no delimiter. *)
Lemma strtok_token delim s t r :
  strtok delim s = Some (t, r) → t ≠ [] ∧ Forall (λ c, c ∉ delim) t.
Proof.
  unfold strtok. intros H.
  assert (∃ c s', skip_delims delim s = c :: s' ∧ c ∉ delim) as (c & s' & E & Hc).
  { clear -H. induction s as [|c s IH]; cbn in *; [done|].
    destruct (is_delim delim c) eqn:E; [by apply IH|].
    exists c, s. split; [done|]. by apply bool_decide_eq_false in E. }
  rewrite E in H. cbn in H. unfold is_delim at 1 in H. rewrite bool_decide_eq_false_2 in H by done.
  destruct (split_token delim s') as [t' r'] eqn:E'. injection H as <- <-.
  split; [done|]. constructor; [done|]. by apply split_token_spec in E' as [? _].
Qed.

(** ** Printing and parsing numbers *)

Lemma digit_char_digit b d : 2 <= b <= 16 → 0 <= d < b → digit_in b (digit_char d) = Some d.
Proof.
  intros. unfold digit_in, digit_char.
  assert (digit_of (if d <? 10 then 48 + d else 87 + d) = Some d) as ->.
  { destruct (Z.ltb_spec d 10); unfold digit_of, isdigit, islower.
    - rewrite (proj2 (Z.leb_le 48 _)), (proj2 (Z.leb_le _ 57)) by lia. cbn. f_equal. lia.
    - rewrite (proj2 (Z.leb_le 48 _)), (proj2 (Z.leb_gt _ 57)) by lia. cbn -[Z.add].
      rewrite (proj2 (Z.leb_le 97 _)), (proj2 (Z.leb_le _ 122)) by lia. cbn. f_equal. lia. }
  by rewrite (proj2 (Z.ltb_lt d b)) by lia.
Qed.

Lemma print_digits_app fuel b : ∀ n acc,
  print_digits fuel b n acc = print_digits fuel b n [] ++ acc.
Proof.
  induction fuel as [|f IH]; intros n acc; [done|]. cbn.
  destruct (n / b =? 0); [done|].
  rewrite IH, (IH _ [_]), <- app_assoc. done.
Qed.

Lemma digits_val_print fuel b : 2 <= b <= 16 → ∀ n acc rest,
  0 <= n < b ^ Z.of_nat fuel →
  digits_val b acc (print_digits fuel b n [] ++ rest) =
  digits_val b (acc * b ^ Z.of_nat (List.length (print_digits fuel b n [])) + n) rest.
Proof.
  intros Hb. induction fuel as [|f IH]; intros n acc rest Hn.
  - cbn in *. f_equal. lia.
  - assert (Hd := Z.mod_pos_bound n b ltac:(lia)).
    assert (Hdm := Z.div_mod n b ltac:(lia)).
    cbn [print_digits]. destruct (Z.eqb_spec (n / b) 0) as [E|E].
    + cbn [app digits_val List.length]. rewrite digit_char_digit by lia. f_equal.
      change (Z.of_nat 1) with 1. rewrite Z.pow_1_r. lia.
    + rewrite print_digits_app, <- app_assoc, IH.
      * cbn [app digits_val]. rewrite digit_char_digit by lia. f_equal.
        rewrite List.length_app. cbn [List.length].
        rewrite Nat2Z.inj_add, Z.pow_add_r by lia. change (Z.of_nat 1) with 1.
        rewrite Z.pow_1_r. nia.
      * rewrite Nat2Z.inj_succ, Z.pow_succ_r in Hn by lia.
        split; [apply Z.div_pos; lia|]. apply Z.div_lt_upper_bound; lia.
Qed.

Lemma print_digits_head fuel b n acc : 2 <= b <= 16 → 0 <= n →
  ∃ d s, print_digits (S fuel) b n acc = digit_char d :: s ∧ 0 <= d < b.
Proof.
  intros Hb. revert n acc. induction fuel as [|f IH]; intros n acc Hn;
    assert (Hd := Z.mod_pos_bound n b ltac:(lia)).
  - cbn. destruct (n / b =? 0); eauto.
  - set (m := S f) in *. cbn [print_digits]. destruct (n / b =? 0); [eauto|].
    apply IH. apply Z.div_pos; lia.
Qed.

(** Every character printed is a digit of the base. *)
Lemma print_digits_digits fuel b : 2 <= b <= 16 → ∀ n acc, 0 <= n →
  Forall (λ c, ∃ d, c = digit_char d ∧ 0 <= d < b) acc →
  Forall (λ c, ∃ d, c = digit_char d ∧ 0 <= d < b) (print_digits fuel b n acc).
Proof.
  intros Hb. induction fuel as [|f IH]; intros n acc Hn Ha; [done|]. cbn.
  assert (Hd := Z.mod_pos_bound n b ltac:(lia)).
  assert (Forall (λ c, ∃ d, c = digit_char d ∧ 0 <= d < b) (digit_char (n mod b) :: acc))
    by (constructor; eauto).
  destruct (n / b =? 0); [done|]. apply IH; [|done]. apply Z.div_pos; lia.
Qed.

Lemma digit_char_range d : 0 <= d < 16 → 48 <= digit_char d <= 57 ∨ 97 <= digit_char d <= 102.
Proof. intros. unfold digit_char. destruct (Z.ltb_spec d 10); lia. Qed.

Lemma print_u_chars b n : 2 <= b <= 16 → 0 <= n →
  Forall (λ c, 48 <= c <= 57 ∨ 97 <= c <= 102) (print_u b n).
Proof.
  intros Hb Hn. eapply Forall_impl; [by apply (print_digits_digits 12 b Hb n [])|].
  intros c (d & -> & Hd). apply digit_char_range. lia.
Qed.

Lemma print_digits_length fuel b : ∀ n acc,
  (List.length (print_digits fuel b n acc) <= fuel + List.length acc)%nat.
Proof.
  induction fuel as [|f IH]; intros n acc; cbn; [lia|].
  destruct (n / b =? 0); cbn; [lia|]. specialize (IH (n / b) (digit_char (n mod b) :: acc)).
  cbn in IH. lia.
Qed.

(** Reading back a printed number. *)
Lemma atoi_print_d n : 0 <= n <= LONG_MAX → atoi (print_d n) = n.
Proof.
  unfold LONG_MAX. intros Hn. unfold atoi, strtol, print_d, LONG_MAX, LONG_MIN.
  destruct (Z.ltb_spec n 0); [lia|].
  assert (signed_magnitude 10 (print_u 10 n) = (false, n)) as ->.
  { unfold signed_magnitude, print_u. change (10 =? 0) with false. cbn match.
    pose proof (digits_val_print 12 10 ltac:(lia) n 0 [] ltac:(cbn; lia)) as Hv.
    rewrite app_nil_r in Hv.
    destruct (print_digits_head 11 10 n [] ltac:(lia) ltac:(lia)) as (d & s & E & Hd).
    rewrite E in Hv |- *. unfold digit_char in Hv |- *.
    destruct (Z.ltb_spec d 10); [|lia]. cbn [skip_space]. unfold isspace.
    destruct (Z.eqb_spec (48 + d) 32); [lia|]. destruct (Z.leb_spec (48 + d) 13); [lia|].
    rewrite andb_false_r. cbn [orb take_sign].
    destruct (Z.eqb_spec (48 + d) 45); [lia|]. destruct (Z.eqb_spec (48 + d) 43); [lia|].
    cbn -[Z.add digits_val]. f_equal. rewrite Hv. done. }
  destruct (n >? 2147483647) eqn:E1; zcmp; [lia|].
  destruct (n <? -2147483648) eqn:E2; zcmp; [lia|done].
Qed.

Lemma print_u_ne b n : 2 <= b <= 16 → 0 <= n → print_u b n ≠ [].
Proof.
  intros Hb Hn. destruct (print_digits_head 11 b n [] Hb Hn) as (d & s & E & _).
  unfold print_u. by rewrite E.
Qed.

Lemma print_u_length b n : (List.length (print_u b n) <= 12)%nat.
Proof. pose proof (print_digits_length 12 b n []). cbn in *. unfold print_u. lia. Qed.

(** strtok on a token followed by a delimiter, or ending the string. *)
Lemma strtok_here delim t d r : t ≠ [] → Forall (λ c, c ∉ delim) t → d ∈ delim →
  strtok delim (t ++ d :: r) = Some (t, r).
Proof.
  intros Hne HF Hd. unfold strtok.
  assert (skip_delims delim (t ++ d :: r) = t ++ d :: r) as ->.
  { destruct HF as [|c t Hc HF]; [done|]. cbn. unfold is_delim.
    by rewrite bool_decide_eq_false_2. }
  destruct (t ++ d :: r) eqn:E; [by destruct t|]. rewrite <- E. f_equal. clear E Hne.
  induction HF as [|c t Hc _ IH]; cbn; unfold is_delim at 1.
  - by rewrite bool_decide_eq_true_2.
  - by rewrite bool_decide_eq_false_2, IH.
Qed.

Lemma strtok_last delim t : t ≠ [] → Forall (λ c, c ∉ delim) t →
  strtok delim t = Some (t, []).
Proof.
  intros Hne HF. unfold strtok.
  assert (skip_delims delim t = t) as ->.
  { destruct HF as [|c t Hc HF]; [done|]. cbn. unfold is_delim.
    by rewrite bool_decide_eq_false_2. }
  destruct t as [|c0 t0] eqn:E; [done|]. rewrite <- E in *. f_equal. clear E Hne.
  induction HF as [|c t Hc _ IH]; cbn; [done|]. unfold is_delim at 1.
  by rewrite bool_decide_eq_false_2, IH.
Qed.

Lemma strtok_skip delim d s : d ∈ delim → strtok delim (d :: s) = strtok delim s.
Proof.
  intros. unfold strtok. cbn. unfold is_delim. by rewrite bool_decide_eq_true_2.
Qed.

(** ** Widths of printed numbers *)

Lemma print_digits_len fuel b : 2 <= b → ∀ k n,
  (k < fuel)%nat → 0 <= n < b ^ Z.of_nat (S k) → (k = 0%nat ∨ b ^ Z.of_nat k <= n) →
  List.length (print_digits fuel b n []) = S k.
Proof.
  intros Hb. induction fuel as [|f IH]; intros k n Hk Hn Hlo; [lia|]. cbn [print_digits].
  destruct k as [|k].
  - rewrite Z.div_small by (rewrite Z.pow_1_r in Hn; lia). done.
  - destruct Hlo as [?|Hlo]; [lia|]. rewrite Nat2Z.inj_succ, Z.pow_succ_r in Hlo by lia.
    rewrite (Nat2Z.inj_succ (S k)), Z.pow_succ_r in Hn by lia.
    assert (0 < b ^ Z.of_nat k) by (apply Z.pow_pos_nonneg; lia).
    assert (b ^ Z.of_nat k <= n / b) by (apply Z.div_le_lower_bound; lia).
    rewrite (proj2 (Z.eqb_neq _ _)) by lia.
    rewrite print_digits_app, List.length_app, (IH k (n / b)); [cbn; lia|lia| |by right].
    split; [lia|]. apply Z.div_lt_upper_bound; lia.
Qed.

Lemma print_d_len k n : (k < 12)%nat →
  0 <= n < 10 ^ Z.of_nat (S k) → (k = 0%nat ∨ 10 ^ Z.of_nat k <= n) →
  List.length (print_d n) = S k.
Proof.
  intros. unfold print_d, print_u. destruct (Z.ltb_spec n 0); [lia|].
  by apply print_digits_len.
Qed.

(** A number of at most [w] digits fills its field exactly. *)
Lemma print_0d_nonneg w n : 0 <= n →
  print_0d w n = replicate (w - List.length (print_d n)) 48 ++ print_d n.
Proof. intros. unfold print_0d, print_d. by destruct (Z.ltb_spec n 0); [lia|]. Qed.

Lemma print_0d_len w n : (0 < w <= 12)%nat → 0 <= n < 10 ^ Z.of_nat w →
  List.length (print_0d w n) = w.
Proof.
  intros Hw Hn. rewrite print_0d_nonneg by lia. rewrite List.length_app, length_replicate.
  assert (List.length (print_d n) <= w)%nat; [|lia].
  assert (∀ k, 0 <= n < 10 ^ Z.of_nat (S k) → (k < 12)%nat → (List.length (print_d n) <= S k)%nat) as H.
  { clear w Hw Hn. induction k as [|k IH]; intros Hn Hk; [rewrite (print_d_len 0); lia|].
    destruct (decide (10 ^ Z.of_nat (S k) <= n)).
    - rewrite (print_d_len (S k)); lia.
    - specialize (IH ltac:(lia) ltac:(lia)). lia. }
  specialize (H (pred w)). replace (S (pred w)) with w in H by lia. apply H; lia.
Qed.

Lemma print_0d_ge w n : 0 <= n → (w <= List.length (print_d n))%nat → print_0d w n = print_d n.
Proof. intros. rewrite print_0d_nonneg by done. by replace (w - List.length (print_d n))%nat with 0%nat by lia. Qed.

(** ** Reading back unsigned numbers *)

(** The first digit of a positive number is not zero. *)
Lemma print_digits_lead fuel b : 2 <= b → ∀ n acc,
  0 < n < b ^ Z.of_nat fuel → ∃ d s, print_digits fuel b n acc = digit_char d :: s ∧ 0 < d < b.
Proof.
  intros Hb. induction fuel as [|f IH]; intros n acc Hn; [cbn in Hn; lia|]. cbn [print_digits].
  pose proof (Z.mod_pos_bound n b ltac:(lia)). pose proof (Z.div_mod n b ltac:(lia)).
  destruct (Z.eqb_spec (n / b) 0) as [E|E].
  - exists (n mod b), acc. split; [done|]. lia.
  - apply IH. rewrite Nat2Z.inj_succ, Z.pow_succ_r in Hn by lia.
    assert (0 <= n / b) by (apply Z.div_pos; lia).
    split; [lia|]. apply Z.div_lt_upper_bound; lia.
Qed.

(** strtoul with base 0 on decimal digits, whatever ends them. *)
Lemma strtoul_print n rest : 0 <= n <= ULONG_MAX →
  match rest with [] => True | c :: _ => digit_in 10 c = None ∧ c ≠ 120 ∧ c ≠ 88 end →
  strtoul 0 (print_u 10 n ++ rest) = (n, false).
Proof.
  unfold ULONG_MAX. intros Hn Hrest. unfold strtoul, ULONG_MAX.
  assert (signed_magnitude 0 (print_u 10 n ++ rest) = (false, n)) as ->.
  { unfold signed_magnitude. change (0 =? 0) with true.
    assert (∀ b acc, digit_in b (nth 0 rest 0) = None ∨ rest = [] → digits_val b acc rest = acc) as Hend.
    { intros b acc [Hd| ->]; [|done]. destruct rest as [|c r]; [done|]. cbn in *. by rewrite Hd. }
    destruct (decide (n = 0)) as [-> |Hn0].
    { change (print_u 10 0) with [48]. cbn [app]. cbn [skip_space isspace take_sign].
      destruct rest as [|c r]; [done|]. destruct Hrest as (Hd & H1 & H2).
      assert (digit_in 8 c = None) as Hd8.
      { unfold digit_in in *. destruct (digit_of c) as [d|]; [|done].
        destruct (Z.ltb_spec d 10); [done|]. destruct (Z.ltb_spec d 8); [lia|done]. }
      cbn -[digits_val]. rewrite (proj2 (Z.eqb_neq c 120)), (proj2 (Z.eqb_neq c 88)) by done.
      cbn [orb andb]. destruct r; cbn; by rewrite Hd8. }
    destruct (print_digits_lead 12 10 ltac:(lia) n []) as (d & s & E & Hd); [cbn; lia|].
    pose proof (digits_val_print 12 10 ltac:(lia) n 0 rest ltac:(cbn; lia)) as Hv.
    unfold print_u. rewrite E in Hv |- *. cbn [app] in *.
    assert (d = 1 ∨ d = 2 ∨ d = 3 ∨ d = 4 ∨ d = 5 ∨ d = 6 ∨ d = 7 ∨ d = 8 ∨ d = 9) as Hcases by lia.
    assert (take_sign (skip_space (digit_char d :: s ++ rest)) = (false, digit_char d :: s ++ rest) ∧
            detect_base (digit_char d :: s ++ rest) = (10, digit_char d :: s ++ rest)) as [-> ->].
    { repeat destruct Hcases as [-> |Hcases]; try done. by rewrite Hcases. }
    f_equal. rewrite Hv. apply Hend.
    destruct rest as [|c r]; [by right|]. left. by destruct Hrest as [? _]. }
  destruct (n >? 4294967295) eqn:E1; zcmp; [lia|].
  rewrite u32_id by (unfold is_u32; lia). done.
Qed.
