(* ===== verification/Bytes.v ===== *)
(** * Bytes: byte buffers and little-endian fields

    Copies into a byte buffer ([blit], the model of memcpy, fread and of the
    byte stores), slices of it ([sub_bytes]) and the little-endian encoding of
    the target's integers, with their laws. *)
From S2P Require Import Prelude.
Local Open Scope Z_scope.

(** [n] bytes of [z], least significant first. *)
Fixpoint le_bytes (n : nat) (z : Z) : list Z :=
  match n with O => [] | S n' => u8 z :: le_bytes n' (z / 256) end.

Fixpoint le_val (l : list Z) : Z :=
  match l with [] => 0 | b :: r => b + 256 * le_val r end.

Lemma length_le_bytes n z : length (le_bytes n z) = n.
Proof. revert z. induction n; intros; cbn; [done|]. by rewrite IHn. Qed.

Lemma le_val_bytes n : ∀ z, le_val (le_bytes n z) = z mod 256 ^ Z.of_nat n.
Proof.
  induction n as [|n IH]; intros z; cbn [le_bytes le_val].
  - change (256 ^ Z.of_nat 0) with 1. by rewrite Z.mod_1_r.
  - rewrite IH, Nat2Z.inj_succ, Z.pow_succ_r, Z.rem_mul_r by lia. done.
Qed.

Lemma le_val_u32 z : is_u32 z → le_val (le_bytes 4 z) = z.
Proof. intros. rewrite le_val_bytes. by apply Z.mod_small. Qed.
Lemma le_val_u16 z : is_u16 z → le_val (le_bytes 2 z) = z.
Proof. intros. rewrite le_val_bytes. by apply Z.mod_small. Qed.

(** ** Copies *)

(** memcpy(buf + off, data, |data|). *)
Definition blit (buf : list Z) (off : Z) (data : list Z) : result (list Z) :=
  if (0 <=? off) && (off + Z.of_nat (length data) <=? Z.of_nat (length buf))
  then Ok (take (Z.to_nat off) buf ++ data ++ drop (Z.to_nat off + length data) buf)
  else Crash OutOfBounds.

Definition sub_bytes (buf : list Z) (off len : Z) : list Z :=
  take (Z.to_nat len) (drop (Z.to_nat off) buf).

Lemma blit_Ok buf off data :
  0 <= off → off + Z.of_nat (length data) <= Z.of_nat (length buf) →
  ∃ buf', blit buf off data = Ok buf' ∧ length buf' = length buf.
Proof.
  intros. unfold blit. rewrite !(proj2 (Z.leb_le _ _)) by lia. cbn. eexists. split; [done|].
  autorewrite with clist. lia.
Qed.

Lemma blit_inv buf off data buf' :
  blit buf off data = Ok buf' →
  0 <= off ∧ off + Z.of_nat (length data) <= Z.of_nat (length buf) ∧
  buf' = take (Z.to_nat off) buf ++ data ++ drop (Z.to_nat off + length data) buf.
Proof. unfold blit. destruct (_ && _) eqn:E; [|done]. zcmp. intros [= <-]. by split_and!. Qed.

Lemma blit_start buf data : (length data <= length buf)%nat → blit buf 0 data = Ok (data ++ drop (length data) buf).
Proof. intros. unfold blit. rewrite !(proj2 (Z.leb_le _ _)) by lia. done. Qed.

Lemma blit_crash buf off data :
  ¬ (0 <= off ∧ off + Z.of_nat (length data) <= Z.of_nat (length buf)) →
  blit buf off data = Crash OutOfBounds.
Proof. unfold blit. destruct (_ && _) eqn:E; [|done]. zcmp. lia. Qed.

Lemma length_blit buf off data buf' : blit buf off data = Ok buf' → length buf' = length buf.
Proof. intros (? & ? & ->)%blit_inv. autorewrite with clist. lia. Qed.

(** What was copied is read back. *)
Lemma sub_blit_same buf off data buf' :
  blit buf off data = Ok buf' → sub_bytes buf' off (Z.of_nat (length data)) = data.
Proof.
  intros (? & ? & ->)%blit_inv. unfold sub_bytes. rewrite Nat2Z.id.
  rewrite drop_app_length' by (rewrite length_take; lia). apply take_app_length.
Qed.

(** The rest of the buffer is untouched. *)
Lemma lookup_blit_ne buf off data buf' i :
  blit buf off data = Ok buf' →
  (Z.of_nat i < off ∨ off + Z.of_nat (length data) <= Z.of_nat i) → buf' !! i = buf !! i.
Proof.
  intros (? & ? & ->)%blit_inv [Hi|Hi].
  - rewrite lookup_app_l by (rewrite length_take; lia). apply lookup_take_lt. lia.
  - rewrite lookup_app_r by (rewrite length_take; lia). rewrite length_take.
    rewrite lookup_app_r by lia. rewrite lookup_drop. f_equal. lia.
Qed.

Lemma sub_blit_other buf off data buf' o l :
  blit buf off data = Ok buf' → 0 <= o →
  (o + l <= off ∨ off + Z.of_nat (length data) <= o) →
  sub_bytes buf' o l = sub_bytes buf o l.
Proof.
  intros Hb Ho Hd. apply list_eq. intros i. unfold sub_bytes.
  destruct (decide (i < Z.to_nat l)%nat).
  - rewrite !lookup_take_lt, !lookup_drop by done. eapply lookup_blit_ne; [done|]. lia.
  - by rewrite !lookup_take_ge by lia.
Qed.

(** A slice of a slice. *)
Lemma sub_bytes_app l1 l2 l3 :
  sub_bytes (l1 ++ l2 ++ l3) (Z.of_nat (length l1)) (Z.of_nat (length l2)) = l2.
Proof. unfold sub_bytes. by rewrite !Nat2Z.id, drop_app_length, take_app_length. Qed.

Lemma sub_bytes_sub buf o l o' l' : 0 <= o → 0 <= o' → 0 <= l' → o' + l' <= l →
  sub_bytes (sub_bytes buf o l) o' l' = sub_bytes buf (o + o') l'.
Proof.
  intros. apply list_eq. intros i. unfold sub_bytes.
  destruct (decide (i < Z.to_nat l')%nat).
  - rewrite !lookup_take_lt, !lookup_drop, lookup_take_lt, lookup_drop by lia. f_equal. lia.
  - by rewrite !(lookup_take_ge _ (Z.to_nat l')) by lia.
Qed.

(** Byte stores as copies, and copies into a prefix of a buffer. *)
Lemma wr_blit buf i v : wr buf i v = blit buf i [v].
Proof.
  unfold wr, blit. cbn [length].
  destruct (Z.leb_spec 0 i), (Z.ltb_spec i (Z.of_nat (length buf))),
    (Z.leb_spec (i + Z.of_nat 1) (Z.of_nat (length buf))); cbn [andb]; try done; try lia.
  f_equal. rewrite insert_take_drop by lia. cbn [app]. by rewrite Nat.add_1_r.
Qed.

Lemma blit_blit buf i d1 d2 :
  (b ← blit buf i d1; blit b (i + Z.of_nat (length d1)) d2) = blit buf i (d1 ++ d2).
Proof.
  destruct (decide (0 <= i ∧ i + Z.of_nat (length d1) <= Z.of_nat (length buf))) as [H1|H1].
  2:{ rewrite !blit_crash; [done| |done]. rewrite length_app. lia. }
  destruct (blit_Ok buf i d1) as (b & E & Hl); [lia..|]. rewrite E. cbn [mbind result_bind].
  destruct (decide (i + Z.of_nat (length (d1 ++ d2)) <= Z.of_nat (length buf))) as [H2|H2].
  2:{ rewrite !blit_crash; [done|lia|]. rewrite length_app in H2. lia. }
  pose proof (blit_inv _ _ _ _ E) as (_ & _ & ->). rewrite length_app in H2.
  unfold blit. rewrite Hl, length_app, !(proj2 (Z.leb_le _ _)) by lia. cbn [andb]. f_equal.
  replace (Z.to_nat (i + Z.of_nat (length d1))) with (Z.to_nat i + length d1)%nat by lia.
  rewrite <- !app_assoc.
  assert (length (take (Z.to_nat i) buf) = Z.to_nat i) as Ht by (rewrite length_take; lia).
  rewrite (take_app_ge (take _ _)) by lia. rewrite Ht.
  replace (Z.to_nat i + length d1 - Z.to_nat i)%nat with (length d1) by lia.
  rewrite take_app_length, <- app_assoc. do 3 f_equal.
  rewrite drop_app_ge by lia. rewrite Ht.
  replace (Z.to_nat i + length d1 + length d2 - Z.to_nat i)%nat with (length d1 + length d2)%nat by lia.
  rewrite <- drop_drop, drop_app_length, drop_drop. f_equal. lia.
Qed.

Lemma blit_app h t off data :
  off + Z.of_nat (length data) <= Z.of_nat (length h) →
  blit (h ++ t) off data = (b ← blit h off data; Ok (b ++ t)).
Proof.
  intros H. destruct (decide (0 <= off)) as [H0|H0]; [|rewrite !blit_crash by lia; done].
  unfold blit. rewrite length_app, !(proj2 (Z.leb_le _ _)) by lia. cbn. f_equal.
  rewrite take_app_le, drop_app_le by lia. by rewrite <- !app_assoc.
Qed.

Lemma sub_bytes_app_l h t off n :
  0 <= off → 0 <= n → off + n <= Z.of_nat (length h) → sub_bytes (h ++ t) off n = sub_bytes h off n.
Proof.
  intros. unfold sub_bytes. rewrite drop_app_le, take_app_le; [done|rewrite length_drop; lia|lia].
Qed.

(** ** Bytes combined with shifts *)

Lemma lor_shiftl a b k : 0 <= k → 0 <= b < 2 ^ k → Z.lor (Z.shiftl a k) b = a * 2 ^ k + b.
Proof.
  intros Hk Hb. rewrite <- Z.shiftl_mul_pow2 by done. symmetry. apply Z.add_nocarry_lor.
  apply Z.bits_inj'. intros n Hn. rewrite Z.land_spec, Z.bits_0.
  destruct (Z.ltb_spec n k).
  - by rewrite Z.shiftl_spec_low.
  - rewrite <- (Z.mod_small b (2 ^ k)) by done.
    by rewrite Z.mod_pow2_bits_high, andb_false_r by lia.
Qed.

Lemma lor_bytes4 a b c d :
  0 <= a < 256 → 0 <= b < 256 → 0 <= c < 256 → 0 <= d < 256 →
  Z.lor (Z.lor (Z.lor (Z.shiftl a 24) (Z.shiftl b 16)) (Z.shiftl c 8)) d =
  ((a * 256 + b) * 256 + c) * 256 + d.
Proof.
  intros. rewrite !(Z.shiftl_mul_pow2 _ _) by lia.
  replace (a * 2 ^ 24) with (Z.shiftl (Z.shiftl (Z.shiftl a 8) 8) 8)
    by (rewrite !Z.shiftl_mul_pow2 by lia; lia).
  replace (b * 2 ^ 16) with (Z.shiftl (Z.shiftl b 8) 8) by (rewrite !Z.shiftl_mul_pow2 by lia; lia).
  replace (c * 2 ^ 8) with (Z.shiftl c 8) by (rewrite !Z.shiftl_mul_pow2 by lia; lia).
  rewrite <- !Z.shiftl_lor, !lor_shiftl by (change (2 ^ 8) with 256; lia). done.
Qed.

Lemma length_sub_bytes buf off n : 0 <= n → Z.of_nat (length (sub_bytes buf off n)) <= n.
Proof. intros. unfold sub_bytes. rewrite length_take. lia. Qed.
