(* ===== verification/Floats.v ===== *)
(** * Floats: the floating-point numbers of C

    binary32 and binary64 in the Standard Library's specification of IEEE 754,
    their conversions, and an interface of arithmetic with two instances: single
    precision, which is what the code computes with, and the rational numbers,
    in which what it means to compute can be stated exactly. *)
From Stdlib Require Import SpecFloat QArith Qabs.
From S2P Require Import Prelude.
Local Open Scope cmodel_scope.
Local Open Scope Z_scope.

(** ** binary32 and binary64 *)

Definition f32_of_Z (z : Z) : spec_float := binary_normalize 24 128 z 0 false.
Definition to_f64 (f : spec_float) : spec_float :=
  match f with S754_finite s m e => binary_normalize 53 1024 (if s then Zneg m else Zpos m) e s | f => f end.
Definition to_f32 (f : spec_float) : spec_float :=
  match f with S754_finite s m e => binary_normalize 24 128 (if s then Zneg m else Zpos m) e s | f => f end.

(** The conversion to an int, which has no value for an infinity, for what is
    not a number, and outside the range. *)
Definition f32_to_int (f : spec_float) : result Z :=
  match f with
  | S754_zero _ => Ok 0
  | S754_finite s m e =>
      let a := if 0 <=? e then Zpos m * 2 ^ e else Z.shiftr (Zpos m) (- e) in
      let v := if s then - a else a in
      if (-2147483648 <=? v) && (v <? 2147483648) then Ok v else Crash NoValue
  | _ => Crash NoValue
  end.


(** ** Arithmetic *)

(** The operations of a calculation, the test for a magnitude below 0.1 and the
    conversion to int. *)
Class Arith (F : Type) := {
  f_of : Z → F;
  f_add : F → F → F;
  f_sub : F → F → F;
  f_mul : F → F → F;
  f_div : F → F → F;
  f_below_tenth : F → bool;
  f_to_int : F → result Z
}.

(** Single precision; the comparison is made in double precision. *)
Definition double_tenth : spec_float := S754_finite false 7205759403792794 (-56).
#[export] Instance f32_arith : Arith spec_float := {|
  f_of := f32_of_Z;
  f_add := SFadd 24 128;
  f_sub := SFsub 24 128;
  f_mul := SFmul 24 128;
  f_div := SFdiv 24 128;
  f_below_tenth a := SFltb (SFabs (to_f64 a)) double_tenth;
  f_to_int := f32_to_int
|}.

(** The rational numbers. *)
Definition q_to_int (q : Q) : result Z :=
  let v := Z.quot (Qnum q) (Zpos (Qden q)) in
  if (-2147483648 <=? v) && (v <? 2147483648) then Ok v else Crash NoValue.
#[export] Instance q_arith : Arith Q := {|
  f_of := inject_Z;
  f_add := Qplus;
  f_sub := Qminus;
  f_mul := Qmult;
  f_div := Qdiv;
  f_below_tenth a := negb (Qle_bool (1 # 10) (Qabs a));
  f_to_int := q_to_int
|}.

(** An integer is its own int. *)
Lemma q_to_int_whole q k : (q == inject_Z k)%Q → is_s32 k → q_to_int q = Ok k.
Proof.
  unfold Qeq, inject_Z, is_s32. cbn [Qnum Qden]. intros E Hk. unfold q_to_int.
  assert (Z.quot (Qnum q) (Zpos (Qden q)) = k) as -> by (rewrite Z.mul_1_r in E; rewrite E; apply Z.quot_mul; lia).
  rewrite (proj2 (Z.leb_le _ _)), (proj2 (Z.ltb_lt _ _)) by lia. done.
Qed.

(** An integer other than 0 is not below a tenth. *)
Lemma q_whole_not_small q k : (q == inject_Z k)%Q → k ≠ 0 → f_below_tenth q = false.
Proof.
  intros E Hk. cbn. apply negb_false_iff. apply Qle_bool_iff. rewrite E. unfold Qle, Qabs, inject_Z. cbn [Qnum Qden]. lia.
Qed.
