(* ===== verification/Scan.v ===== *)
(** * Scan: numbers of sscanf

    [%d] of sscanf and fscanf, which several programs read numbers with, and the
    round trip with the numbers of sprintf. *)
From S2P Require Import Prelude LibC.
Local Open Scope cmodel_scope.
Local Open Scope Z_scope.

(** The number and what follows it. *)
Fixpoint skip_digits (s : list Z) : list Z :=
  match s with c :: s' => if isdigit c then skip_digits s' else s | [] => [] end.
Definition scan_int (s : list Z) : option (Z * list Z) :=
  let s1 := (take_sign (skip_space s)).2 in
  match s1 with
  | c :: _ => if isdigit c then Some ((strtol 10 s).1, skip_digits s1) else None
  | [] => None
  end.

(** Several of them; the variables that are not reached keep their values. *)
Fixpoint scan_ints (vars : list Z) (s : list Z) : list Z :=
  match vars with
  | [] => []
  | v :: vs => match scan_int s with Some (n, s) => n :: scan_ints vs s | None => v :: vs end
  end.

(** Numbers with a space between them. *)
Fixpoint spaced (ns : list Z) : list Z :=
  match ns with
  | [] => []
  | [n] => print_d n
  | n :: ns => print_d n ++ 32 :: spaced ns
  end.

(** ** Reading printed numbers *)

Definition ends_number (rest : list Z) : Prop := match rest with [] => True | c :: _ => isdigit c = false end.

Lemma digit_in_10 c : isdigit c = false → digit_in 10 c = None.
Proof.
  intros H. unfold digit_in, digit_of. rewrite H. unfold islower, isupper.
  destruct ((97 <=? c) && (c <=? 122)) eqn:E1; zcmp; [by rewrite (proj2 (Z.ltb_ge _ _)) by lia|].
  destruct ((65 <=? c) && (c <=? 90)) eqn:E2; zcmp; [by rewrite (proj2 (Z.ltb_ge _ _)) by lia|done].
Qed.

Lemma print_u_digits n : 0 <= n → Forall (λ c, isdigit c = true) (print_u 10 n).
Proof.
  intros Hn. unfold print_u. eapply Forall_impl; [by apply (print_digits_digits 12 10 ltac:(lia) n [] Hn)|].
  intros c (d & -> & Hd). unfold digit_char, isdigit. rewrite (proj2 (Z.ltb_lt d 10)) by lia. apply andb_true_iff. split; apply Z.leb_le; lia.
Qed.

Lemma print_u_shape n : 0 <= n → ∃ c l, print_u 10 n = c :: l ∧ isdigit c = true.
Proof.
  intros Hn. pose proof (print_u_digits n Hn) as Hd. pose proof (print_u_ne 10 n ltac:(lia) Hn) as Hne.
  destruct (print_u 10 n) as [|c l]; [done|]. apply Forall_cons in Hd as [Hc _]. by exists c, l.
Qed.

Lemma digit_not_special c : isdigit c = true → isspace c = false ∧ (c =? 45) = false ∧ (c =? 43) = false.
Proof. unfold isdigit, isspace. intros H. zcmp. split_and!; [|lia..]. zcmp. lia. Qed.

Lemma skip_digits_app l rest : Forall (λ c, isdigit c = true) l → ends_number rest → skip_digits (l ++ rest) = rest.
Proof.
  intros Hl Hr. induction Hl as [|c l Hc _ IH]; cbn [app skip_digits].
  - destruct rest as [|c r]; [done|]. cbn. cbn in Hr. by rewrite Hr.
  - by rewrite Hc.
Qed.

Lemma digits_val_end acc rest : ends_number rest → digits_val 10 acc rest = acc.
Proof. destruct rest as [|c r]; [done|]. cbn. intros Hr. by rewrite digit_in_10. Qed.

(** The digits of a number, whatever follows them. *)
Lemma digits_val_print_u n rest : 0 <= n < 10 ^ 12 → ends_number rest → digits_val 10 0 (print_u 10 n ++ rest) = n.
Proof.
  intros Hn Hr. unfold print_u. rewrite (digits_val_print 12 10 ltac:(lia) n 0 rest ltac:(lia)). rewrite digits_val_end by done. lia.
Qed.

Lemma scan_int_print n rest : is_s32 n → ends_number rest → scan_int (print_d n ++ rest) = Some (n, rest).
Proof.
  unfold is_s32. intros Hn Hr. unfold print_d. destruct (Z.ltb_spec n 0) as [Hneg|Hpos].
  - destruct (print_u_shape (- n)) as (c & l & E & Hc); [lia|]. pose proof (print_u_digits (- n) ltac:(lia)) as Hd. rewrite E in Hd. apply Forall_cons in Hd as [_ Hl].
    pose proof (digits_val_print_u (- n) rest ltac:(lia) Hr) as Hv. rewrite E in Hv.
    unfold scan_int. assert (skip_space ((45 :: print_u 10 (- n)) ++ rest) = 45 :: print_u 10 (- n) ++ rest) as Hsp by done.
    rewrite Hsp, E. cbn [app take_sign Z.eqb Pos.eqb snd]. rewrite Hc.
    assert (skip_digits (c :: l ++ rest) = rest) as -> by (apply (skip_digits_app (c :: l)); [by constructor|done]).
    do 2 f_equal. unfold strtol, signed_magnitude. cbn [app skip_space isspace Z.eqb Pos.eqb Z.leb Z.compare Pos.compare Pos.compare_cont andb orb take_sign].
    cbn [app] in Hv. rewrite Hv. unfold LONG_MAX, LONG_MIN.
    destruct (Z.gtb_spec (- - n) 2147483647); [lia|]. destruct (Z.ltb_spec (- - n) (-2147483648)); [lia|]. cbn. lia.
  - destruct (print_u_shape n) as (c & l & E & Hc); [lia|]. pose proof (print_u_digits n ltac:(lia)) as Hd. rewrite E in Hd. apply Forall_cons in Hd as [_ Hl].
    pose proof (digits_val_print_u n rest ltac:(lia) Hr) as Hv. rewrite E in Hv |- *. destruct (digit_not_special c Hc) as (Hs & H45 & H43).
    assert (take_sign (skip_space ((c :: l) ++ rest)) = (false, c :: l ++ rest)) as Ht by (cbn [app skip_space]; rewrite Hs; cbn [take_sign]; by rewrite H45, H43).
    unfold scan_int. rewrite Ht. cbn [snd]. rewrite Hc.
    assert (skip_digits (c :: l ++ rest) = rest) as -> by (apply (skip_digits_app (c :: l)); [by constructor|done]).
    do 2 f_equal. unfold strtol, signed_magnitude. rewrite Ht. change (10 =? 0) with false. cbn iota. cbn [app] in Hv. rewrite Hv. unfold LONG_MAX, LONG_MIN.
    destruct (Z.gtb_spec n 2147483647); [lia|]. destruct (Z.ltb_spec n (-2147483648)); [lia|]. done.
Qed.

Lemma scan_int_space s : scan_int (32 :: s) = scan_int s.
Proof. done. Qed.

(** Numbers that are printed with spaces between them are read back. *)
Lemma scan_ints_spaced ns : ∀ vars, Forall is_s32 ns → length vars = length ns → scan_ints vars (spaced ns) = ns.
Proof.
  assert (∀ ns vars pre, Forall is_s32 ns → length vars = length ns → (∀ s, scan_int (pre ++ s) = scan_int s) → scan_ints vars (pre ++ spaced ns) = ns) as Hgen.
  { clear ns. induction ns as [|n ns IH]; intros [|v vars] pre Hns Hl Hpre; try done. apply Forall_cons in Hns as [Hn Hns].
    cbn [scan_ints]. rewrite Hpre. destruct ns as [|m ns].
    - cbn [spaced]. rewrite <- (app_nil_r (print_d n)), scan_int_print by done. destruct vars; [done|discriminate Hl].
    - change (spaced (n :: m :: ns)) with (print_d n ++ 32 :: spaced (m :: ns)). rewrite scan_int_print by done. f_equal.
      apply (IH vars [32]); [done|by injection Hl|intros s; apply scan_int_space]. }
  intros vars Hn Hl. by apply (Hgen ns vars []).
Qed.
