(* ===== verification/IniReader.v ===== *)
(** * IniReader: the buffered line reader of the NAND writer's INI parsers

    [readLine] of mtdnand/mn_writer/src/ProcessIni.c (and its copy in
    ProcessOptionalIni.c) reads a FILE in chunks of INI_BUF_SIZE bytes into a
    global buffer and copies one line, without its CR and LF, into the caller's
    array.  The model keeps the buffer, its two positions and the unread part
    of the file; the caller's array has its own size, so that a line that does
    not fit is a [Crash OutOfBounds].

    [next_line] is the specification: a function on the bytes that have not
    been returned yet.  [readLine_post] relates the two. *)
From S2P Require Import Prelude LibC.
Local Open Scope Z_scope.

Definition Successful : Z := 0.
Definition Fail : Z := -1.
Definition INI_BUF_SIZE : Z := 512.

(** The globals iniBuf, buffer_current, buffer_end, and what fread has not
    delivered yet of the open file. *)
Record reader := Reader {
  iniBuf : list Z;
  buffer_current : Z;
  buffer_end : Z;
  stream : list Z
}.

Definition advance (r : reader) : reader :=
  Reader (iniBuf r) (buffer_current r + 1) (buffer_end r) (stream r).

(** fread(iniBuf, 1, INI_BUF_SIZE, fd_ini) on a regular file: the next 512
    bytes, fewer only at its end. *)
Definition fread_chunk (r : reader) : list Z := take (Z.to_nat INI_BUF_SIZE) (stream r).

Definition refill (r : reader) : reader :=
  let chunk := fread_chunk r in
  Reader (chunk ++ drop (length chunk) (iniBuf r)) 0 (Z.of_nat (length chunk))
         (drop (Z.to_nat INI_BUF_SIZE) (stream r)).

(** The two nested loops of readLine; one unit of fuel per character examined
    and per fread. *)
Fixpoint readLine_loop (fuel : nat) (r : reader) (Cmd : list Z) (i_cmd : Z)
  : result (Z * list Z * reader) :=
  match fuel with
  | O => Crash OutOfFuel
  | S f =>
      if buffer_current r <? buffer_end r then
        c ← rd (iniBuf r) (buffer_current r);
        if c =? 0x0D then readLine_loop f (advance r) Cmd i_cmd
        else if c =? 0x0A then
          Cmd' ← wr Cmd i_cmd 0; Ok (Successful, Cmd', advance r)
        else
          Cmd' ← wr Cmd i_cmd c; readLine_loop f (advance r) Cmd' (i_cmd + 1)
      else if (buffer_end r <? INI_BUF_SIZE) && (buffer_end r >? 0) then
        Cmd' ← wr Cmd i_cmd 0;
        Ok (if i_cmd >? 0 then Successful else Fail, Cmd', r)
      else if Z.of_nat (length (fread_chunk r)) =? 0 then
        Cmd' ← wr Cmd i_cmd 0; Ok (Fail, Cmd', r)
      else readLine_loop f (refill r) Cmd i_cmd
  end.

(** The bytes of the file that no call has consumed. *)
Definition pending (r : reader) : list Z :=
  drop (Z.to_nat (buffer_current r)) (take (Z.to_nat (buffer_end r)) (iniBuf r))
  ++ stream r.

Definition line_fuel (r : reader) : nat := 2 * length (pending r) + 2.

Definition readLine (r : reader) (Cmd : list Z) : result (Z * list Z * reader) :=
  readLine_loop (line_fuel r) r Cmd 0.

(** fopen: the buffer positions are 0 (ProcessINI is the first reader of the
    process; ProcessOptionalINI resets its own copy). *)
Definition open_reader (file : list Z) : reader :=
  Reader (replicate (Z.to_nat INI_BUF_SIZE) 0) 0 0 file.

(** ** Specification *)

(** [next_line tail acc p]: skips CRs, stops after the first LF; at the end of
    the file the characters collected so far are a line only when [tail]. *)
Fixpoint next_line (tail : bool) (acc p : list Z) : bool * list Z * list Z :=
  match p with
  | [] => (tail && negb (bool_decide (acc = [])), acc, [])
  | c :: r =>
      if c =? 0x0D then next_line tail acc r
      else if c =? 0x0A then (true, acc, r)
      else next_line tail (acc ++ [c]) r
  end.

(** Whether a last line without LF is returned: it is, unless the number of
    bytes of the file is a multiple of the buffer size. *)
Definition keeps_tail (r : reader) : bool :=
  if (length (stream r) =? 0)%nat
  then (buffer_end r <? INI_BUF_SIZE) && (buffer_end r >? 0)
  else negb (Z.of_nat (length (stream r)) mod INI_BUF_SIZE =? 0).

Definition reader_wf (r : reader) : Prop :=
  length (iniBuf r) = Z.to_nat INI_BUF_SIZE ∧
  0 <= buffer_current r <= buffer_end r ∧ buffer_end r <= INI_BUF_SIZE ∧
  (0 < buffer_end r < INI_BUF_SIZE → stream r = []).

(** ** Lemmas *)

Lemma open_reader_wf file : reader_wf (open_reader file).
Proof. repeat split; cbn -[Z.to_nat] in *; rewrite ?length_replicate; unfold INI_BUF_SIZE; done || lia. Qed.

Lemma pending_open file : pending (open_reader file) = file.
Proof. done. Qed.

Lemma keeps_tail_open file :
  keeps_tail (open_reader file) = negb (Z.of_nat (length file) mod INI_BUF_SIZE =? 0).
Proof. by destruct file. Qed.

Lemma advance_wf r :
  reader_wf r → buffer_current r < buffer_end r → reader_wf (advance r).
Proof. intros (?&?&?&?) ?. repeat split; cbn; auto; lia. Qed.

Lemma keeps_tail_advance r : keeps_tail (advance r) = keeps_tail r.
Proof. done. Qed.

Lemma pending_cons r :
  reader_wf r → buffer_current r < buffer_end r →
  ∃ c, rd (iniBuf r) (buffer_current r) = Ok c ∧ pending r = c :: pending (advance r).
Proof.
  intros (Hl & Hc & He & _) Hlt.
  destruct (rd_is_ok (iniBuf r) (buffer_current r)) as [c Hc']; [lia|].
  exists c. split; [done|]. apply rd_Ok in Hc' as [_ Hl'].
  unfold pending, advance; cbn. rewrite Z2Nat.inj_add by lia.
  rewrite (drop_lookup_cons _ (Z.to_nat (buffer_current r)) c).
  - cbn. do 3 f_equal; lia.
  - rewrite lookup_take_lt; [done|lia].
Qed.

Lemma pending_exhausted r :
  buffer_end r <= buffer_current r → pending r = stream r.
Proof.
  intros. unfold pending. rewrite drop_ge; [done|]. rewrite length_take. lia.
Qed.

Lemma fread_chunk_length r :
  length (fread_chunk r) = Nat.min (Z.to_nat INI_BUF_SIZE) (length (stream r)).
Proof. apply length_take. Qed.

Lemma refill_pending r :
  pending (refill r) = stream r.
Proof.
  unfold pending, refill; cbn -[fread_chunk Z.to_nat].
  rewrite Nat2Z.id, take_app_length. cbn. apply take_drop.
Qed.

Lemma refill_wf r :
  reader_wf r → stream r ≠ [] → reader_wf (refill r).
Proof.
  intros (Hl & Hc & He & _) Hs.
  assert (Hn := fread_chunk_length r).
  assert (0 < length (stream r))%nat by (destruct (stream r); cbn; done || lia).
  unfold reader_wf, refill, INI_BUF_SIZE in *.
  cbn -[fread_chunk Z.to_nat] in *. rewrite length_app, length_drop, Hl.
  repeat split; try lia. intros. apply drop_ge. lia.
Qed.

Lemma keeps_tail_refill r :
  stream r ≠ [] → keeps_tail (refill r) = keeps_tail r.
Proof.
  intros Hs. assert (Hn := fread_chunk_length r).
  assert (0 < length (stream r))%nat by (destruct (stream r); cbn; done || lia).
  unfold keeps_tail, refill. cbn -[fread_chunk Z.to_nat Z.of_nat Z.modulo].
  rewrite Hn, length_drop. destruct (Nat.eqb_spec (length (stream r)) 0); [lia|].
  generalize dependent (length (stream r)). unfold INI_BUF_SIZE. intros n _ Hn _.
  destruct (Nat.eqb_spec (n - Z.to_nat 512) 0).
  - destruct (Z.eqb_spec (Z.of_nat n mod 512) 0) as [Em|Em]; cbn -[Z.to_nat Z.of_nat].
    + assert (n = 512%nat) as -> by (pose proof (Z.div_mod (Z.of_nat n) 512); lia). done.
    + assert (n ≠ 512%nat) by (intros ->; done).
      apply andb_true_iff. rewrite Z.gtb_ltb, !Z.ltb_lt. lia.
  - replace (Z.of_nat (n - Z.to_nat 512)) with (Z.of_nat n + (-1) * 512) by lia.
    by rewrite Z.mod_add by lia.
Qed.

Lemma readLine_end r :
  reader_wf r → pending r = [] → buffer_current r = buffer_end r ∧ stream r = [].
Proof.
  intros (Hl & Hc & He & Hs) Hp. unfold pending in Hp.
  apply app_eq_nil in Hp as [Hp ->]. split; [|done].
  apply (f_equal length) in Hp. rewrite length_drop, length_take in Hp. cbn in Hp. lia.
Qed.


Lemma cstr_app_0 l r : cstr (l ++ 0 :: r) = cstr l.
Proof. induction l as [|c l IH]; cbn; [done|]. by rewrite IH. Qed.

(** Storing a character after the collected ones. *)
Lemma collect_step (Cmd acc : list Z) (c : Z) :
  take (length acc) Cmd = acc → (length acc < length Cmd)%nat →
  take (length (acc ++ [c])) (<[length acc:=c]> Cmd) = acc ++ [c].
Proof.
  intros Ht Hl. rewrite length_app. cbn. rewrite Nat.add_1_r.
  rewrite take_insert_snoc by done. by rewrite Ht.
Qed.

Lemma collect_end (Cmd acc : list Z) :
  take (length acc) Cmd = acc → (length acc < length Cmd)%nat →
  cstr (<[length acc:=0]> Cmd) = cstr acc.
Proof.
  intros Ht Hl. rewrite (cstr_take_nul _ (length acc)) by (by apply list_lookup_insert_eq).
  by rewrite take_insert_ge, Ht.
Qed.

(** What one call promises, for an array that already holds [acc]. *)
Definition line_post (k : bool) (Cmd : list Z) (out : bool * list Z * list Z)
  (res : result (Z * list Z * reader)) : Prop :=
  let '(ok, line, rest) := out in
  ((length line < length Cmd)%nat ∧
   ∃ Cmd' r', res = Ok (if ok then Successful else Fail, Cmd', r') ∧
     reader_wf r' ∧ keeps_tail r' = k ∧ pending r' = rest ∧
     length Cmd' = length Cmd ∧ cstr Cmd' = cstr line) ∨
  ((length Cmd <= length line)%nat ∧ res = Crash OutOfBounds).

(** Writing the terminating NUL ends the call. *)
Lemma line_post_end r' Cmd acc (ok : bool) :
  take (length acc) Cmd = acc → (length acc <= length Cmd)%nat →
  reader_wf r' →
  line_post (keeps_tail r') Cmd (ok, acc, pending r')
    (wr Cmd (Z.of_nat (length acc)) 0 ≫= λ Cmd', Ok (if ok then Successful else Fail, Cmd', r')).
Proof.
  intros Ht Hl Hwf. destruct (decide (length acc < length Cmd)%nat).
  - left. split; [done|]. rewrite wr_Ok by lia. rewrite Nat2Z.id. cbn.
    do 2 eexists. split; [done|]. split_and!; rewrite ?length_insert; try done. by apply collect_end.
  - right. split; [lia|]. rewrite wr_crash; [done|lia].
Qed.

Lemma next_line_grows tail p : ∀ acc ok line rest,
  next_line tail acc p = (ok, line, rest) → (length acc <= length line)%nat.
Proof.
  induction p as [|c p IH]; cbn; intros acc ok line rest H; [by simplify_eq|].
  destruct (c =? 0x0D); [eauto|]. destruct (c =? 0x0A); [by simplify_eq|].
  apply IH in H. rewrite length_app in H. cbn in H. lia.
Qed.

(** The measure of [readLine_loop]. *)
Definition loop_measure (r : reader) : nat :=
  2 * length (pending r) + (if buffer_current r <? buffer_end r then 0 else 1).

Lemma readLine_loop_spec fuel : ∀ r Cmd acc,
  reader_wf r → (loop_measure r < fuel)%nat →
  take (length acc) Cmd = acc → (length acc <= length Cmd)%nat →
  line_post (keeps_tail r) Cmd (next_line (keeps_tail r) acc (pending r))
    (readLine_loop fuel r Cmd (Z.of_nat (length acc))).
Proof.
  induction fuel as [|f IH]; intros r Cmd acc Hwf Hf Ht Hl; [lia|].
  unfold loop_measure in Hf. cbn [readLine_loop].
  destruct (buffer_current r <? buffer_end r) eqn:Eb; zcmp.
  - destruct (pending_cons r Hwf Eb) as (c & -> & Hp). cbn [mbind result_bind].
    rewrite Hp in Hf |- *. cbn [next_line length] in Hf |- *.
    assert (Hwf' := advance_wf r Hwf Eb).
    assert (Hm : (loop_measure (advance r) < f)%nat)
      by (unfold loop_measure; destruct (_ <? _); lia).
    destruct (c =? 0x0D); [by apply (IH (advance r))|].
    destruct (c =? 0x0A); [by apply (line_post_end (advance r) Cmd acc true)|].
    destruct (decide (length acc < length Cmd)%nat).
    + rewrite wr_Ok, Nat2Z.id by lia. cbn [mbind result_bind].
      replace (Z.of_nat (length acc) + 1) with (Z.of_nat (length (acc ++ [c])))
        by (rewrite length_app; cbn; lia).
      specialize (IH (advance r) (<[length acc:=c]> Cmd) (acc ++ [c]) Hwf' Hm).
      unfold line_post in IH |- *. rewrite length_insert in IH.
      apply IH; [by apply collect_step|]. rewrite length_app. cbn. lia.
    + rewrite wr_crash by lia. cbn [mbind result_bind].
      destruct (next_line _ (acc ++ [c]) _) as [[ok line] rest] eqn:En. right.
      apply next_line_grows in En. rewrite length_app in En. cbn in En. split; [lia|done].
  - assert (Hpe := pending_exhausted r ltac:(lia)).
    destruct ((buffer_end r <? INI_BUF_SIZE) && (buffer_end r >? 0)) eqn:Et.
    + assert (stream r = []) as Hs.
      { apply Hwf. apply andb_true_iff in Et as [? ?]. zcmp. lia. }
      pose proof (line_post_end r Cmd acc (negb (bool_decide (acc = []))) Ht Hl Hwf) as HH.
      assert (keeps_tail r = true) as Hk by (unfold keeps_tail; by rewrite Hs).
      rewrite Hpe, Hs, Hk in HH |- *. cbn [next_line andb].
      by replace (Z.of_nat (length acc) >? 0) with (negb (bool_decide (acc = [])))
        by (destruct acc; done).
    + rewrite fread_chunk_length.
      destruct (stream r) as [|b s] eqn:Es.
      * pose proof (line_post_end r Cmd acc false Ht Hl Hwf) as HH.
        assert (keeps_tail r = false) as Hk by (unfold keeps_tail; by rewrite Es).
        rewrite Hpe, Hk in HH |- *. cbn [next_line andb length].
        by rewrite Nat.min_0_r.
      * rewrite Hpe. replace (Z.of_nat _ =? 0) with false
          by (symmetry; apply Z.eqb_neq; unfold INI_BUF_SIZE; cbn [length]; lia).
        assert (stream r ≠ []) as Hne by (by rewrite Es).
        rewrite <- (keeps_tail_refill r Hne), <- Es, <- (refill_pending r).
        apply IH; auto using refill_wf. unfold loop_measure.
        rewrite refill_pending, Es. rewrite Hpe in Hf.
        replace (_ <? _) with true; [lia|].
        symmetry. apply Z.ltb_lt. unfold refill. cbn -[fread_chunk].
        rewrite fread_chunk_length, Es. unfold INI_BUF_SIZE. cbn [length]. lia.
Qed.

(** [represents k p r]: the reader is well formed, [p] is still to be read and
    [k] says whether an unterminated last line counts. *)
Definition represents (k : bool) (p : list Z) (r : reader) : Prop :=
  reader_wf r ∧ keeps_tail r = k ∧ pending r = p.

(** ** The lines of a file *)

(** The lines a sequence of successful calls returns, as C strings. *)
Fixpoint file_lines (fuel : nat) (k : bool) (p : list Z) : list (list Z) :=
  match fuel with
  | O => []
  | S f =>
      match next_line k [] p with
      | (true, l, rest) => cstr l :: file_lines f k rest
      | (false, _, _) => []
      end
  end.

Definition tail_kept (file : list Z) : bool :=
  negb (Z.of_nat (length file) mod INI_BUF_SIZE =? 0).

Definition ini_lines (file : list Z) : list (list Z) :=
  file_lines (S (length file)) (tail_kept file) file.

(** [fits n cur p]: no run of characters between line ends reaches the size [n]
    of the array, [cur] being the length of the current run. *)
Fixpoint fits (n cur : nat) (p : list Z) : bool :=
  (cur <? n)%nat &&
  match p with
  | [] => true
  | c :: r =>
      if c =? 0x0D then fits n cur r
      else if c =? 0x0A then fits n 0 r else fits n (S cur) r
  end.

Lemma fits_next_line n k p : ∀ acc ok l rest,
  next_line k acc p = (ok, l, rest) →
  (fits n (length acc) p = true → (length l < n)%nat ∧ (ok = true → (0 < n)%nat → fits n 0 rest = true)) ∧
  (fits n (length acc) p = false → (n <= length l)%nat ∨ fits n 0 rest = false).
Proof.
  induction p as [|c p IH]; intros acc ok l rest H; cbn [fits next_line] in H |- *.
  - simplify_eq. rewrite andb_true_r. split.
    + intros ?%Nat.ltb_lt. split; [done|]. intros _ ?. by destruct n; [lia|].
    + intros ?%Nat.ltb_ge. by left.
  - destruct (Nat.ltb_spec (length acc) n) as [Hlt|Hge]; cbn [andb].
    + destruct (c =? 0x0D); [by apply IH|]. destruct (c =? 0x0A).
      * simplify_eq. split; [done|by right].
      * apply IH in H. rewrite length_app in H. cbn in H. by rewrite Nat.add_1_r in H.
    + split; [done|]. intros _. left.
      assert (next_line k acc (c :: p) = (ok, l, rest)) as H' by done.
      apply next_line_grows in H'. lia.
Qed.

Lemma next_line_consumes k p : ∀ acc l rest,
  next_line k acc p = (true, l, rest) → (acc = [] → p ≠ []) ∧ (p ≠ [] → (length rest < length p)%nat).
Proof.
  induction p as [|c p IH]; intros acc l rest; cbn.
  - intros [= Hk <- <-]. split; [|done]. intros ->. by rewrite andb_false_r in Hk.
  - intros H. split; [done|]. intros _. destruct (c =? 0x0D).
    + destruct (decide (p = [])) as [->|Hp]; [cbn in H; simplify_eq; cbn; lia|].
      apply IH in H as [_ H]. specialize (H Hp). lia.
    + destruct (c =? 0x0A); [simplify_eq; lia|].
      destruct (decide (p = [])) as [->|Hp]; [cbn in H; simplify_eq; cbn; lia|].
      apply IH in H as [_ H]. specialize (H Hp). lia.
Qed.

(** More fuel than bytes changes nothing. *)
Lemma file_lines_fuel k f : ∀ f' p,
  (length p < f)%nat → (length p < f')%nat → file_lines f k p = file_lines f' k p.
Proof.
  induction f as [|f IH]; intros f' p H H'; [lia|]. destruct f' as [|f']; [lia|]. cbn.
  destruct (next_line k [] p) as [[[] l] rest] eqn:E; [|done].
  apply next_line_consumes in E as [E1 E2]. specialize (E2 (E1 eq_refl)).
  f_equal. apply IH; lia.
Qed.

(** ** One call, as the parsers use it *)

(** [lines_left k p]: the lines that remain in [p]. *)
Definition lines_left (k : bool) (p : list Z) : list (list Z) :=
  file_lines (S (length p)) k p.

(** The three outcomes of [readLine] on a reader that represents [p], for an
    array of [n] cells, in terms of the lines of [p]. *)
Inductive line_outcome (k : bool) (n : nat) (p : list Z) (res : result (Z * list Z * reader)) : Prop :=
| LineRead Cmd r l rest :
    res = Ok (Successful, Cmd, r) → represents k rest r → length Cmd = n →
    cstr Cmd = cstr l → (length l < n)%nat → (length rest < length p)%nat →
    fits n 0 p = fits n 0 rest → lines_left k p = cstr l :: lines_left k rest →
    line_outcome k n p res
| LineEof Cmd r :
    res = Ok (Fail, Cmd, r) → length Cmd = n → fits n 0 p = true → lines_left k p = [] →
    line_outcome k n p res
| LineOverflow :
    res = Crash OutOfBounds → fits n 0 p = false → line_outcome k n p res.

Lemma next_line_eof k p : ∀ acc l rest, next_line k acc p = (false, l, rest) → rest = [].
Proof.
  induction p as [|c p IH]; intros acc l rest; cbn; [by intros [= _ _ <-]|].
  destruct (c =? 0x0D); [apply IH|]. by destruct (c =? 0x0A); [|apply IH].
Qed.

Lemma readLine_post r Cmd :
  reader_wf r →
  line_post (keeps_tail r) Cmd (next_line (keeps_tail r) [] (pending r)) (readLine r Cmd).
Proof.
  intros Hwf. apply (readLine_loop_spec _ r Cmd []); cbn; try done; try lia.
  unfold loop_measure, line_fuel. destruct (_ <? _); lia.
Qed.

Lemma readLine_outcome k p r Cmd :
  represents k p r → (0 < length Cmd)%nat → line_outcome k (length Cmd) p (readLine r Cmd).
Proof.
  intros (Hwf & <- & <-) Hn. pose proof (readLine_post r Cmd Hwf) as H.
  destruct (next_line _ [] _) as [[ok l] rest] eqn:En.
  destruct (fits_next_line (length Cmd) _ _ _ _ _ _ En) as [Hf1 Hf2]. cbn [length] in Hf1, Hf2.
  destruct H as [(Hl & Cmd' & r' & Hr & Hwf' & Hk & Hp & Hlen & Hc)|(Hl & Hr)].
  - destruct ok.
    + destruct (next_line_consumes _ _ _ _ _ En) as [H1 H2]. specialize (H2 (H1 eq_refl)).
      eapply (LineRead _ _ _ _ Cmd' r' l rest); eauto; [by split_and!| |].
      * destruct (fits _ _ (pending r)); [symmetry; by apply Hf1|].
        destruct (Hf2 eq_refl); [lia|done].
      * unfold lines_left.
        transitivity (cstr l :: file_lines (length (pending r)) (keeps_tail r) rest);
          [cbn [file_lines]; by rewrite En|]. f_equal. apply file_lines_fuel; lia.
    + eapply (LineEof _ _ _ _ Cmd' r'); eauto.
      * destruct (fits _ _ (pending r)); [done|]. destruct (Hf2 eq_refl) as [?|Hf]; [lia|].
        apply next_line_eof in En as ->. by destruct (length Cmd); [lia|].
      * unfold lines_left. cbn [file_lines]. by rewrite En.
  - apply LineOverflow; [done|].
    destruct (fits _ _ (pending r)); [|done]. destruct (Hf1 eq_refl). lia.
Qed.

(** C3: The whole specification of [readLine] (the file's theorem): with the unread
    bytes [p], the call returns the next line of [p], or Fail when there is
    none, leaving the rest to be read; a line that does not fit the array
    overruns it. *)
Theorem readLine_refines_next_line k p r Cmd ok l rest :
  represents k p r → next_line k [] p = (ok, l, rest) →
  if (length l <? length Cmd)%nat then
    ∃ Cmd' r', readLine r Cmd = Ok (if ok then Successful else Fail, Cmd', r') ∧
      cstr Cmd' = cstr l ∧ length Cmd' = length Cmd ∧ represents k rest r'
  else readLine r Cmd = Crash OutOfBounds.
Proof.
  intros (Hwf & <- & <-) En.
  pose proof (readLine_post r Cmd Hwf) as H.
  rewrite En in H. destruct H as [(Hl & Cmd' & r' & Hr & Hwf' & Hk & Hp & Hlen & Hc)|(Hl & Hr)].
  - rewrite (proj2 (Nat.ltb_lt _ _)) by lia. exists Cmd', r'. by split_and!.
  - by rewrite (proj2 (Nat.ltb_ge _ _)) by lia.
Qed.

(** ** Lines of a concatenation *)

Lemma next_line_app k k' q p : ∀ acc,
  ∃ l rest, next_line k acc (p ++ [0x0A]) = (true, l, rest) ∧
            next_line k' acc (p ++ 0x0A :: q) = (true, l, rest ++ q) ∧
            (rest = [] ∨ ∃ p', rest = p' ++ [0x0A] ∧ (length p' < length p)%nat).
Proof.
  induction p as [|c p IH]; intros acc; cbn.
  - exists acc, []. auto.
  - assert (Hs : ∀ acc', ∃ l rest, next_line k acc' (p ++ [0x0A]) = (true, l, rest) ∧
      next_line k' acc' (p ++ 0x0A :: q) = (true, l, rest ++ q) ∧
      (rest = [] ∨ ∃ p', rest = p' ++ [0x0A] ∧ (length p' < S (length p))%nat)).
    { intros acc'. destruct (IH acc') as (l & rest & ? & ? & [?|(p' & ? & ?)]);
        exists l, rest; split_and!; auto. right. exists p'. split; [done|lia]. }
    destruct (c =? 0x0D); [apply Hs|]. destruct (c =? 0x0A); [|apply Hs].
    exists acc, (p ++ [0x0A]). split_and!; [done| |right; exists p; split; [done|lia]].
    by rewrite <- app_assoc.
Qed.

Lemma lines_left_app k k' n : ∀ p q, (length p <= n)%nat →
  lines_left k (p ++ 0x0A :: q) = lines_left k' (p ++ [0x0A]) ++ lines_left k q.
Proof.
  induction n as [|n IH]; intros p q Hp.
  - destruct p; [|cbn in Hp; lia]. by destruct k'.
  - destruct (next_line_app k' k q p []) as (l & rest & E1 & E2 & Hr).
    destruct (next_line_consumes _ _ _ _ _ E1) as [_ H1].
    destruct (next_line_consumes _ _ _ _ _ E2) as [_ H2].
    specialize (H1 ltac:(by destruct p)). specialize (H2 ltac:(by destruct p)).
    assert (lines_left k (p ++ 0x0A :: q) = cstr l :: lines_left k (rest ++ q)) as ->.
    { transitivity (cstr l :: file_lines (length (p ++ 0x0A :: q)) k (rest ++ q));
        [unfold lines_left; cbn [file_lines]; by rewrite E2|].
      f_equal. apply file_lines_fuel; lia. }
    assert (lines_left k' (p ++ [0x0A]) = cstr l :: lines_left k' rest) as ->.
    { transitivity (cstr l :: file_lines (length (p ++ [0x0A])) k' rest);
        [unfold lines_left; cbn [file_lines]; by rewrite E1|].
      f_equal. apply file_lines_fuel; lia. }
    cbn [app]. f_equal. destruct Hr as [->|(p' & -> & Hp')]; [by destruct k'|].
    rewrite <- app_assoc. apply IH. lia.
Qed.

(** Text without line ends. *)
Definition plain (s : list Z) : Prop := Forall (λ c, c ≠ 0x0D ∧ c ≠ 0x0A ∧ c ≠ 0) s.

Lemma plain_check s :
  forallb (λ c, negb (c =? 0x0D) && negb (c =? 0x0A) && negb (c =? 0)) s = true → plain s.
Proof.
  induction s as [|c s IH]; cbn; [constructor|]. intros H. zcmp. constructor; [by split_and!|]. by apply IH.
Qed.

Lemma next_line_plain k s : ∀ acc q,
  plain s → next_line k acc (s ++ q) = next_line k (acc ++ s) q.
Proof.
  induction s as [|c s IH]; intros acc q H; cbn; [by rewrite app_nil_r|].
  inversion_clear H as [|? ? (H1 & H2 & _) H']. apply Z.eqb_neq in H1, H2.
  rewrite H1, H2, IH by done. by rewrite <- app_assoc.
Qed.

Lemma cstr_plain s : plain s → cstr s = s.
Proof.
  induction 1 as [|c s (_ & _ & Hc) _ IH]; cbn; [done|].
  apply Z.eqb_neq in Hc. by rewrite Hc, IH.
Qed.

Lemma lines_left_plain_lf k s q : plain s →
  lines_left k (s ++ 0x0A :: q) = s :: lines_left k q.
Proof.
  intros H. rewrite (lines_left_app k k (length s)) by done. change (s :: ?x) with ([s] ++ x).
  f_equal. unfold lines_left. rewrite length_app, Nat.add_1_r. cbn [file_lines].
  rewrite next_line_plain by done. cbn. rewrite cstr_plain by done.
  destruct (length s), k; reflexivity.
Qed.

Lemma lines_left_plain_end k s : plain s → s ≠ [] →
  lines_left k s = if k then [s] else [].
Proof.
  intros H Hs. unfold lines_left. cbn [file_lines].
  assert (next_line k [] s = next_line k s []) as ->.
  { rewrite <- (app_nil_r s) at 1. by apply (next_line_plain k s [] []). }
  cbn [next_line].
  rewrite bool_decide_eq_false_2 by done. cbn [negb]. rewrite andb_true_r.
  destruct k; [|done]. rewrite cstr_plain by done. by destruct s.
Qed.

Lemma fits_plain n s : ∀ cur q, plain s → (cur + length s < n)%nat →
  fits n cur (s ++ q) = fits n (cur + length s) q.
Proof.
  induction s as [|c s IH]; intros cur q H Hn; [cbn; by rewrite Nat.add_0_r|].
  inversion_clear H as [|? ? (H1 & H2 & _) H']. apply Z.eqb_neq in H1, H2.
  cbn [app fits length] in *. rewrite H1, H2, IH by (done || lia).
  rewrite (proj2 (Nat.ltb_lt _ _)) by lia. cbn. f_equal. lia.
Qed.

Lemma fits_plain_lf n s q : plain s → (length s < n)%nat →
  fits n 0 (s ++ 0x0A :: q) = fits n 0 q.
Proof.
  intros H Hn. rewrite fits_plain by (done || lia). cbn [fits].
  by rewrite (proj2 (Nat.ltb_lt _ _)) by lia.
Qed.

(** The way both parsers use the reader: call [readLine] until it fails. *)
Fixpoint read_lines (fuel : nat) (r : reader) (Cmd : list Z) : result (list (list Z)) :=
  match fuel with
  | O => Crash OutOfFuel
  | S f =>
      '(status, Cmd1, r1) ← readLine r Cmd;
      if status <? 0 then Ok []
      else ls ← read_lines f r1 Cmd1; Ok (cstr Cmd1 :: ls)
  end.

Lemma read_lines_spec k fuel : ∀ p r Cmd,
  represents k p r → (0 < length Cmd)%nat → (length p < fuel)%nat → fits (length Cmd) 0 p = true →
  read_lines fuel r Cmd = Ok (lines_left k p).
Proof.
  induction fuel as [|f IH]; intros p r Cmd Hr Hn Hf Hfit; [lia|]. cbn [read_lines].
  destruct (readLine_outcome k p r Cmd Hr Hn)
    as [Cmd' r' l rest -> Hr' Hlen Hc Hll Hlt Hf' -> | Cmd' r' -> Hlen Hf' -> | -> Hf'];
    cbn [mbind result_bind]; [|done|by rewrite Hf' in Hfit].
  change (Successful <? 0) with false. cbn match. rewrite (IH rest r' Cmd') by (rewrite ?Hlen; (done || lia || congruence)).
  cbn [mbind result_bind]. by rewrite Hc.
Qed.

(** Reading a file line by line delivers a last line without a line end exactly
    when the size of the file is not a multiple of 512. *)
Theorem last_line_lost_at_buffer_boundary body last Cmd :
  length Cmd = 256%nat → plain last → last ≠ [] → fits 256 0 (body ++ 0x0A :: last) = true →
  read_lines (S (length (body ++ 0x0A :: last))) (open_reader (body ++ 0x0A :: last)) Cmd =
    Ok (ini_lines (body ++ [0x0A]) ++
        (if Z.of_nat (length (body ++ 0x0A :: last)) mod 512 =? 0 then [] else [last])).
Proof.
  intros HC Hp Hne Hfit.
  rewrite (read_lines_spec (tail_kept (body ++ 0x0A :: last)) _ (body ++ 0x0A :: last));
    [|split_and!; [apply open_reader_wf|apply keeps_tail_open|done]|lia|lia|by rewrite HC].
  f_equal. rewrite (lines_left_app _ (tail_kept (body ++ [0x0A])) (length body)) by done.
  rewrite (lines_left_plain_end _ last) by done. f_equal.
  unfold tail_kept, INI_BUF_SIZE. by destruct (_ mod 512 =? 0).
Qed.

(** ** Witnesses *)

Lemma readLine_refines_next_line_witness :
  ∃ Cmd' r', readLine (open_reader [97; 13; 98; 10; 99]) (replicate 256 0) = Ok (Successful, Cmd', r') ∧
    cstr Cmd' = [97; 98] ∧ length Cmd' = 256%nat ∧ represents true [99] r'.
Proof.
  refine (readLine_refines_next_line true [97; 13; 98; 10; 99] (open_reader [97; 13; 98; 10; 99])
    (replicate 256 0) true [97; 98] [99] _ eq_refl).
  split_and!; [apply open_reader_wf|reflexivity|reflexivity].
Defined.

(** 512 bytes: the last line, 11 characters without a line end, is lost. *)
Lemma last_line_lost_at_buffer_boundary_witness :
  read_lines 513 (open_reader ((replicate 249 97 ++ 10 :: replicate 250 97) ++ 0x0A :: replicate 11 98))
    (replicate 256 0) = Ok [replicate 249 97; replicate 250 97].
Proof.
  refine (eq_trans (last_line_lost_at_buffer_boundary (replicate 249 97 ++ 10 :: replicate 250 97)
    (replicate 11 98) (replicate 256 0) eq_refl _ _ eq_refl) _);
    [apply plain_check; reflexivity|discriminate|vm_compute; reflexivity].
Defined.
