(* ===== verification/ProcessIni.v ===== *)
(** * ProcessIni: the NANDWRITER.ini parser

    [ProcessINI] of mtdnand/mn_writer/src/ProcessIni.c: an outer loop that looks
    for one of five keyword lines, an inner loop per keyword that looks for its
    value, and a [goto NextMark2] from each inner loop back into the outer one.
    The model is a machine whose program counter names the three places of the
    code ([PcOuter], [PcMark], [PcInner]); [ini_spec] is a one-pass automaton
    over the lines of the file, and the main theorem says they agree. *)
From S2P Require Import Prelude LibC IniReader.
Local Open Scope Z_scope.

(** typedef struct INI_Info: three 512-byte char arrays and two numbers. *)
Record INI_INFO_T := {
  NandLoader : list Z;
  Logo : list Z;
  ExecFile : list Z;
  ExecFileNum : Z;
  ExecAddress : Z
}.

Inductive key := KNandLoader | KLogo | KExecFile | KExecNum | KExecAddr.

#[export] Instance key_eq_dec : EqDecision key.
Proof. solve_decision. Defined.

Definition keyword (k : key) : list Z :=
  match k with
  | KNandLoader => lit "[NandLoader File Name]"
  | KLogo => lit "[Logo File Name]"
  | KExecFile => lit "[Execute File Name]"
  | KExecNum => lit "[Execute Image Number]"
  | KExecAddr => lit "[Execute Image Address]"
  end.

(** The if / else if chain of strcmp at NextMark2. *)
Definition match_key (s : list Z) : option key :=
  if str_eqb s (keyword KNandLoader) then Some KNandLoader
  else if str_eqb s (keyword KLogo) then Some KLogo
  else if str_eqb s (keyword KExecFile) then Some KExecFile
  else if str_eqb s (keyword KExecNum) then Some KExecNum
  else if str_eqb s (keyword KExecAddr) then Some KExecAddr
  else None.

(** strcpy into a char array: the string, its NUL, the old cells after it. *)
Definition strcpy (dst s : list Z) : list Z := s ++ 0 :: drop (S (length s)) dst.

(** The innermost else branch of each keyword; [None] is "return Fail". *)
Definition store (k : key) (s : list Z) (ini : INI_INFO_T) : option INI_INFO_T :=
  let '(Build_INI_INFO_T nl lg ef num addr) := ini in
  match k with
  | KNandLoader =>
      if (511 <? length s)%nat then None else Some (Build_INI_INFO_T (strcpy nl s) lg ef num addr)
  | KLogo =>
      if (511 <? length s)%nat then None else Some (Build_INI_INFO_T nl (strcpy lg s) ef num addr)
  | KExecFile =>
      if (511 <? length s)%nat then None else Some (Build_INI_INFO_T nl lg (strcpy ef s) num addr)
  | KExecNum => Some (Build_INI_INFO_T nl lg ef (atoi s) addr)
  | KExecAddr => Some (Build_INI_INFO_T nl lg ef num (u32 (atoi s)))
  end.

(** The assignments before fopen: only the first cell of each array changes. *)
Definition set_defaults (ini : INI_INFO_T) : INI_INFO_T :=
  {| NandLoader := <[0%nat := 0]> (NandLoader ini);
     Logo := <[0%nat := 0]> (Logo ini);
     ExecFile := <[0%nat := 0]> (ExecFile ini);
     ExecFileNum := 0;
     ExecAddress := 0 |}.

Inductive pc := PcOuter | PcMark | PcInner (k : key).

(** The classification of a line in an inner loop: skip it, go back to
    NextMark2, or take it as the value.  Cmd[1] is read only after a slash. *)
Inductive verdict := VSkip | VMark | VValue.

Definition classify (Cmd : list Z) : result verdict :=
  c0 ← rd Cmd 0;
  if c0 =? 0 then Ok VSkip
  else
    c1 ← (if c0 =? 47 then rd Cmd 1 else Ok 0);
    if (c0 =? 47) && (c1 =? 47) then Ok VSkip
    else if c0 =? 91 then Ok VMark else Ok VValue.

(** The loops of ProcessINI.  The result is the returned status and Ini_Writer. *)
Fixpoint ini_loop (fuel : nat) (p : pc) (r : reader) (Cmd : list Z) (ini : INI_INFO_T)
  : result (Z * INI_INFO_T) :=
  match fuel with
  | O => Crash OutOfFuel
  | S f =>
      match p with
      | PcOuter =>
          '(status, Cmd1, r1) ← readLine r Cmd;
          if status <? 0 then Ok (Successful, ini) else ini_loop f PcMark r1 Cmd1 ini
      | PcMark =>
          match match_key (cstr Cmd) with
          | Some k => ini_loop f (PcInner k) r Cmd ini
          | None => ini_loop f PcOuter r Cmd ini
          end
      | PcInner k =>
          '(status, Cmd1, r1) ← readLine r Cmd;
          if status <? 0 then Ok (Successful, ini)
          else
            v ← classify Cmd1;
            match v with
            | VSkip => ini_loop f (PcInner k) r1 Cmd1 ini
            | VMark => ini_loop f PcMark r1 Cmd1 ini
            | VValue =>
                match store k (cstr Cmd1) ini with
                | None => Ok (Fail, ini)
                | Some ini' => ini_loop f PcOuter r1 Cmd1 ini'
                end
            end
      end
  end.

(** [file] is [None] when fopen fails; [Cmd] is the uninitialised local array
    char Cmd[256]. *)
Definition ProcessINI (file : option (list Z)) (ini : INI_INFO_T) (Cmd : list Z)
  : result (Z * INI_INFO_T) :=
  let ini0 := set_defaults ini in
  match file with
  | None => Ok (Fail, ini0)
  | Some bytes => ini_loop (2 * length bytes + 2) PcOuter (open_reader bytes) Cmd ini0
  end.

(** ** Specification *)

Definition classify_line (l : list Z) : verdict :=
  match l with
  | [] => VSkip
  | 47 :: 47 :: _ => VSkip
  | 91 :: _ => VMark
  | _ => VValue
  end.

(** One pass over the lines; [pend] is the keyword whose value is awaited. *)
Fixpoint ini_spec (lines : list (list Z)) (pend : option key) (ini : INI_INFO_T)
  : Z * INI_INFO_T :=
  match lines with
  | [] => (Successful, ini)
  | l :: ls =>
      match pend with
      | None => ini_spec ls (match_key l) ini
      | Some k =>
          match classify_line l with
          | VSkip => ini_spec ls (Some k) ini
          | VMark => ini_spec ls (match_key l) ini
          | VValue =>
              match store k l ini with
              | None => (Fail, ini)
              | Some ini' => ini_spec ls None ini'
              end
          end
      end
  end.

(** ** Lemmas *)

Lemma classify_cstr (Cmd : list Z) :
  (2 <= length Cmd)%nat → (length (cstr Cmd) < length Cmd)%nat →
  classify Cmd = Ok (classify_line (cstr Cmd)).
Proof.
  destruct Cmd as [|c0 [|c1 r]]; cbn [length]; intros; try lia. unfold classify.
  change (rd (c0 :: c1 :: r) 0) with (Ok c0). change (rd (c0 :: c1 :: r) 1) with (Ok c1).
  cbn [mbind result_bind cstr]. destruct (Z.eqb_spec c0 0); [done|].
  destruct (Z.eqb_spec c0 47) as [->|]; cbn.
  - destruct (Z.eqb_spec c1 0) as [->|]; [cbn; done|].
    destruct (Z.eqb_spec c1 47) as [->|]; [cbn; done|]. cbn. by repeat case_match.
  - destruct (Z.eqb_spec c0 91) as [->|]; [cbn; done|]. by repeat case_match.
Qed.

Definition pc_of (pos : option key) : pc :=
  match pos with Some k => PcInner k | None => PcOuter end.

(** What the run from the unread bytes [p] must give. *)
Definition ini_expected (k : bool) (p : list Z) (pos : option key) (ini : INI_INFO_T)
  : result (Z * INI_INFO_T) :=
  if fits 256 0 p then Ok (ini_spec (lines_left k p) pos ini) else Crash OutOfBounds.

(** The configuration after a value that is not too long. *)
Definition stored (k : key) (s : list Z) (ini : INI_INFO_T) : INI_INFO_T :=
  default ini (store k s ini).

Lemma store_short k s ini : (length s < 256)%nat → store k s ini = Some (stored k s ini).
Proof.
  intros. unfold stored.
  destruct ini, k; cbn -[Nat.ltb]; by rewrite ?(proj2 (Nat.ltb_ge 511 (length s))) by lia.
Qed.

(** The step at NextMark2. *)
Lemma mark_step f k rest r Cmd ini :
  (∀ pos, ini_loop f (pc_of pos) r Cmd ini = ini_expected k rest pos ini) →
  ini_loop (S f) PcMark r Cmd ini = ini_expected k rest (match_key (cstr Cmd)) ini.
Proof. intros H. cbn [ini_loop]. rewrite <- H. by destruct (match_key (cstr Cmd)). Qed.

Lemma ini_loop_spec k fuel : ∀ pos p r Cmd ini,
  represents k p r → length Cmd = 256%nat → (2 * length p + 1 < fuel)%nat →
  ini_loop fuel (pc_of pos) r Cmd ini = ini_expected k p pos ini.
Proof.
  induction fuel as [fuel IH] using lt_wf_ind; intros pos p r Cmd ini Hr Hlen Hf.
  destruct fuel as [|[|f]]; [lia..|].
  pose proof (readLine_outcome k p r Cmd Hr ltac:(lia)) as Ho. rewrite Hlen in Ho.
  destruct Ho as [Cmd' r' l rest Hres Hr' Hlen' Hc Hll Hlt Hfit Hlines|Cmd' r' Hres Hlen' Hfit Hlines|Hres Hfit].
  - assert (Hmark : ini_loop (S f) PcMark r' Cmd' ini = ini_expected k rest (match_key (cstr Cmd')) ini).
    { apply mark_step. intros pos'. apply IH; auto; lia. }
    unfold ini_expected in *. rewrite Hfit, Hlines.
    destruct pos as [ky|]; cbn [pc_of]; cbn [ini_loop]; rewrite Hres; cbn [mbind result_bind];
      cbn [ini_spec]; [|by rewrite <- Hc].
    change (Successful <? 0) with false. cbn match.
    rewrite classify_cstr; [|lia|rewrite Hc, Hlen'; pose proof (cstr_length l); lia].
    cbn [mbind result_bind]. rewrite Hc in Hmark |- *.
    destruct (classify_line (cstr l)).
    + apply (IH (S f)) with (pos := Some ky); auto; lia.
    + rewrite <- Hmark; cbn [ini_loop]; by rewrite Hc.
    + rewrite store_short by (pose proof (cstr_length l); lia).
      apply (IH (S f)) with (pos := None); auto; lia.
  - unfold ini_expected. rewrite Hfit, Hlines.
    destruct pos; cbn [pc_of]; cbn [ini_loop]; by rewrite Hres.
  - unfold ini_expected. rewrite Hfit.
    destruct pos; cbn [pc_of]; cbn [ini_loop]; by rewrite Hres.
Qed.

Lemma ProcessINI_run bytes ini Cmd :
  length Cmd = 256%nat →
  ProcessINI (Some bytes) ini Cmd = ini_expected (tail_kept bytes) bytes None (set_defaults ini).
Proof.
  intros HC. unfold ProcessINI, tail_kept. rewrite <- keeps_tail_open.
  apply (ini_loop_spec (keeps_tail (open_reader bytes)) _ None); [|done|lia].
  split_and!; [apply open_reader_wf|done|apply pending_open].
Qed.

(** ** Theorems *)

(** C1: ProcessINI of a file that opens is the automaton [ini_spec] on the lines of
    the file, when no line reaches the 256 cells of the local array Cmd;
    otherwise it writes past that array. *)
Theorem ProcessINI_refines_automaton bytes ini Cmd :
  length Cmd = 256%nat →
  ProcessINI (Some bytes) ini Cmd =
    if fits 256 0 bytes then Ok (ini_spec (ini_lines bytes) None (set_defaults ini))
    else Crash OutOfBounds.
Proof. apply ProcessINI_run. Qed.

(** *** Writing a configuration and reading it back *)

(** The text of a configuration in the format of NANDWRITER.ini. *)
Definition section_text (k : key) (value : list Z) : list Z :=
  keyword k ++ 0x0A :: value ++ [0x0A].

Definition ini_text (nl lg ef : list Z) (num addr : Z) : list Z :=
  section_text KNandLoader nl ++ section_text KLogo lg ++ section_text KExecFile ef ++
  section_text KExecNum (print_d num) ++ section_text KExecAddr (print_d addr) ++ [].

(** A value that the inner loops take as such. *)
Definition is_value (s : list Z) : Prop :=
  plain s ∧ (length s < 256)%nat ∧ classify_line s = VValue.

Lemma keyword_plain k : plain (keyword k).
Proof. apply plain_check. by destruct k. Qed.

Lemma match_keyword k : match_key (keyword k) = Some k.
Proof. by destruct k; vm_compute. Qed.

Lemma section_lines t k v rest : is_value v →
  lines_left t (section_text k v ++ rest) = keyword k :: v :: lines_left t rest.
Proof.
  intros (Hp & _ & _). unfold section_text. cbn [app].
  rewrite <- !app_assoc. cbn [app]. rewrite <- !app_assoc.
  rewrite lines_left_plain_lf by apply keyword_plain.
  cbn [app]. by rewrite lines_left_plain_lf.
Qed.

Lemma section_fits k v rest : is_value v →
  fits 256 0 (section_text k v ++ rest) = fits 256 0 rest.
Proof.
  intros (Hp & Hl & _). unfold section_text.
  rewrite <- app_assoc. cbn [app]. rewrite <- app_assoc.
  rewrite fits_plain_lf; [|apply keyword_plain|destruct k; cbn; lia].
  cbn [app]. by rewrite fits_plain_lf.
Qed.

Lemma ini_spec_section k v ls ini : is_value v →
  ini_spec (keyword k :: v :: ls) None ini = ini_spec ls None (stored k v ini).
Proof.
  intros (_ & Hl & Hc). cbn [ini_spec]. rewrite match_keyword. by rewrite Hc, store_short.
Qed.

Lemma print_d_value n : 0 <= n → is_value (print_d n).
Proof.
  intros Hn. unfold print_d. destruct (Z.ltb_spec n 0); [lia|].
  assert (HF := print_u_chars 10 n ltac:(lia) Hn). split_and!.
  - eapply Forall_impl; [exact HF|]. cbn. lia.
  - pose proof (print_u_length 10 n). lia.
  - assert (Hne := print_u_ne 10 n ltac:(lia) Hn).
    destruct HF as [|c s Hc _]; [done|]. unfold classify_line.
    destruct (decide (c = 47)); [lia|]. destruct (decide (c = 91)); [lia|]. by repeat case_match.
Qed.

Lemma cstr_strcpy dst s : plain s → cstr (strcpy dst s) = s.
Proof. intros. unfold strcpy. rewrite cstr_app_0. by apply cstr_plain. Qed.

(** C6: A configuration written in the INI format is read back unchanged: the three
    file names (shorter than 256 characters, not empty, not starting like a
    comment or a keyword) and the two numbers (which atoi can represent). *)
Theorem ProcessINI_roundtrip nl lg ef num addr ini Cmd :
  length Cmd = 256%nat → is_value nl → is_value lg → is_value ef →
  0 <= num <= LONG_MAX → 0 <= addr <= LONG_MAX →
  ∃ ini', ProcessINI (Some (ini_text nl lg ef num addr)) ini Cmd = Ok (Successful, ini') ∧
    cstr (NandLoader ini') = nl ∧ cstr (Logo ini') = lg ∧ cstr (ExecFile ini') = ef ∧
    ExecFileNum ini' = num ∧ ExecAddress ini' = addr.
Proof.
  intros HC H1 H2 H3 Hnum Haddr.
  assert (H4 := print_d_value num ltac:(lia)). assert (H5 := print_d_value addr ltac:(lia)).
  rewrite ProcessINI_run by done. unfold ini_expected, ini_text.
  rewrite !section_fits, !section_lines by done. change (fits 256 0 []) with true. cbn match.
  rewrite !ini_spec_section by done.
  destruct H1 as (P1 & L1 & _), H2 as (P2 & L2 & _), H3 as (P3 & L3 & _).
  assert (Hs : ∀ v : list Z, (length v < 256)%nat → (511 <? length v)%nat = false).
  { intros. apply Nat.ltb_ge. lia. }
  eexists. split; [by destruct (tail_kept _)|]. destruct (set_defaults ini).
  unfold stored, store. rewrite !Hs by done.
  cbn [default id from_option NandLoader Logo ExecFile ExecFileNum ExecAddress].
  rewrite !cstr_strcpy, !atoi_print_d by done. split_and!; try done.
  apply u32_id. unfold is_u32, LONG_MAX in *. lia.
Qed.

(** ** Witnesses *)

Definition blank_ini : INI_INFO_T := Build_INI_INFO_T (replicate 512 0) (replicate 512 0) (replicate 512 0) 0 0.

Definition sample_ini : list Z :=
  lit "// images" ++ [13; 10] ++ lit "[Logo File Name]" ++ [10; 10] ++ lit "[Execute Image Number]" ++
  [10] ++ lit "2" ++ [10].

Lemma ProcessINI_refines_automaton_witness :
  ProcessINI (Some sample_ini) blank_ini (replicate 256 7) =
    Ok (Successful, Build_INI_INFO_T (replicate 512 0) (replicate 512 0) (replicate 512 0) 2 0).
Proof.
  rewrite (ProcessINI_refines_automaton sample_ini blank_ini (replicate 256 7)); [|reflexivity].
  vm_compute. reflexivity.
Defined.

Lemma ProcessINI_roundtrip_witness :
  ∃ ini', ProcessINI (Some (ini_text (lit "nand.bin") (lit "logo.bin") (lit "conprog") 2 0x8000))
      blank_ini (replicate 256 0) = Ok (Successful, ini') ∧
    cstr (NandLoader ini') = lit "nand.bin" ∧ cstr (Logo ini') = lit "logo.bin" ∧
    cstr (ExecFile ini') = lit "conprog" ∧ ExecFileNum ini' = 2 ∧ ExecAddress ini' = 0x8000.
Proof.
  apply ProcessINI_roundtrip; try reflexivity; try (unfold LONG_MAX; lia);
    (split_and!; [apply plain_check; reflexivity|vm_compute; lia|reflexivity]).
Defined.
