(* ===== verification/OptionalIni.v ===== *)
(** * OptionalIni: the TurboWriter.ini parser

    mtdnand/mn_writer/src/ProcessOptionalIni.c: hexadecimal conversion, the
    address/value pairs of the IBR boot header and the parser that fills them.
    The line reader is the one of [IniReader] (the C file has its own copy of
    it, on its own buffer). *)
From S2P Require Import Prelude LibC IniReader.
Local Open Scope Z_scope.

Definition IBR_BOOT_CODE_OPTIONAL_MARKER : Z := 0xAA55AA55.
Definition IBR_BOOT_CODE_OPTIONAL_MAX_NUMBER : Z := 63.

(** IBR_boot_optional_struct_t, with Pairs as a list of (address, value). *)
Record IBR_BOOT_OPTIONAL_STRUCT_T := OptIni {
  OptionalMarker : Z;
  Counter : Z;
  Pairs : list (Z * Z)
}.

(** ** Hexadecimal conversion *)

Fixpoint power_loop (n : nat) (x num : Z) : Z :=
  match n with O => num | S n' => power_loop n' x (u32 (num * x)) end.

Definition power (x n : Z) : Z := power_loop (Z.to_nat n) x 1.

Definition hex_string : list Z := lit "0123456789ABCDEF".
Definition hex_number : list Z := [0;1;2;3;4;5;6;7;8;9;10;11;12;13;14;15].

(** The inner loop over string[]: the first index that matches. *)
Definition hex_digit (c : Z) : option Z :=
  match list_find (λ d, toupper c = d) hex_string with
  | Some (j, _) => hex_number !! j
  | None => None
  end.

Fixpoint hex_loop (len i : Z) (s : list Z) (str_number : Z) : Z :=
  match s with
  | [] => str_number
  | c :: r =>
      let str_number' :=
        match hex_digit c with
        | Some d => u32 (str_number + u32 (power 16 (len - 1 - i) * d))
        | None => str_number
        end in
      hex_loop len (i + 1) r str_number'
  end.

Definition transfer_hex_string_to_int (s : list Z) : Z :=
  hex_loop (Z.of_nat (length s)) 0 s 0.

(** ** One pair *)

Definition pair_delim : list Z := lit " =" ++ [9].

(** parsePair on the C string in Cmd; the pair written is Pairs[Counter]. *)
Definition parsePair (cfg : IBR_BOOT_OPTIONAL_STRUCT_T) (Cmd : list Z)
  : result IBR_BOOT_OPTIONAL_STRUCT_T :=
  let '(OptIni m n ps) := cfg in
  match strtok pair_delim Cmd with
  | None => Ok cfg
  | Some (t1, rest) =>
      p ← rd ps n;
      ps1 ← wr ps n (transfer_hex_string_to_int t1, snd p);
      match strtok pair_delim rest with
      | None => Ok (OptIni m n ps1)
      | Some (t2, _) =>
          p1 ← rd ps1 n;
          ps2 ← wr ps1 n (fst p1, transfer_hex_string_to_int t2);
          Ok (OptIni m n ps2)
      end
  end.

(** ** The parser *)

Definition is_user_define (s : list Z) : bool :=
  str_eqb s (lit "[USER_DEFINE]") || str_eqb s (lit "[N3290 USER_DEFINE]").

(** static int readLine: the same function on iniBuf2, buffer_current2 and
    buffer_end2. *)
Definition readLine2 (r : reader) (Cmd : list Z) : result (Z * list Z * reader) :=
  readLine r Cmd.

Inductive opt_pc := OptOuter | OptMark | OptInner.
Inductive opt_verdict := OSkip | OMark | OPair.

Definition opt_classify (Cmd : list Z) : result opt_verdict :=
  c0 ← rd Cmd 0;
  if c0 =? 0 then Ok OSkip
  else
    c1 ← (if c0 =? 47 then rd Cmd 1 else Ok 0);
    if (c0 =? 47) && (c1 =? 47) then Ok OSkip
    else if c0 =? 91 then Ok OMark else Ok OPair.

Definition count_up (cfg : IBR_BOOT_OPTIONAL_STRUCT_T) : IBR_BOOT_OPTIONAL_STRUCT_T :=
  OptIni (OptionalMarker cfg) (u32 (Counter cfg + 1)) (Pairs cfg).

Fixpoint opt_loop (fuel : nat) (p : opt_pc) (r : reader) (Cmd : list Z)
  (cfg : IBR_BOOT_OPTIONAL_STRUCT_T) : result (Z * IBR_BOOT_OPTIONAL_STRUCT_T) :=
  match fuel with
  | O => Crash OutOfFuel
  | S f =>
      match p with
      | OptOuter =>
          '(status, Cmd1, r1) ← readLine2 r Cmd;
          if status <? 0 then Ok (Successful, cfg) else opt_loop f OptMark r1 Cmd1 cfg
      | OptMark =>
          if is_user_define (cstr Cmd) then opt_loop f OptInner r Cmd cfg
          else opt_loop f OptOuter r Cmd cfg
      | OptInner =>
          '(status, Cmd1, r1) ← readLine2 r Cmd;
          if status <? 0 then Ok (Successful, cfg)
          else
            v ← opt_classify Cmd1;
            match v with
            | OSkip => opt_loop f OptInner r1 Cmd1 cfg
            | OMark => opt_loop f OptMark r1 Cmd1 cfg
            | OPair =>
                if Counter cfg >=? IBR_BOOT_CODE_OPTIONAL_MAX_NUMBER
                then opt_loop f OptOuter r1 Cmd1 cfg
                else
                  cfg1 ← parsePair cfg (cstr Cmd1);
                  opt_loop f OptInner r1 Cmd1 (count_up cfg1)
            end
      end
  end.

(** memset(Pairs, 0xFF), the marker and a zero counter. *)
Definition opt_defaults : IBR_BOOT_OPTIONAL_STRUCT_T :=
  OptIni IBR_BOOT_CODE_OPTIONAL_MARKER 0
    (replicate (Z.to_nat IBR_BOOT_CODE_OPTIONAL_MAX_NUMBER) (0xFFFFFFFF, 0xFFFFFFFF)).

Definition ProcessOptionalINI (file : option (list Z)) (Cmd : list Z)
  : result (Z * IBR_BOOT_OPTIONAL_STRUCT_T) :=
  match file with
  | None => Ok (Fail, opt_defaults)
  | Some bytes => opt_loop (2 * length bytes + 2) OptOuter (open_reader bytes) Cmd opt_defaults
  end.

(** ** Specification *)

(** The value of a string of hexadecimal digits; any other character counts as
    a zero digit. *)
Definition hex_value (s : list Z) : Z :=
  fold_left (λ v c, 16 * v + default 0 (hex_digit c)) s 0.

(** The pair a line stands for; a missing part keeps its old content. *)
Definition line_pair (old : Z * Z) (l : list Z) : Z * Z :=
  match strtok pair_delim l with
  | None => old
  | Some (t1, rest) =>
      (u32 (hex_value t1),
       match strtok pair_delim rest with
       | None => snd old
       | Some (t2, _) => u32 (hex_value t2)
       end)
  end.

Definition opt_classify_line (l : list Z) : opt_verdict :=
  match l with
  | [] => OSkip
  | 47 :: 47 :: _ => OSkip
  | 91 :: _ => OMark
  | _ => OPair
  end.

(** One pass over the lines: the list of the pairs that are kept. *)
Fixpoint opt_pairs (lines : list (list Z)) (active : bool) (acc : list (Z * Z)) : list (Z * Z) :=
  match lines with
  | [] => acc
  | l :: ls =>
      if active then
        match opt_classify_line l with
        | OSkip => opt_pairs ls true acc
        | OMark => opt_pairs ls (is_user_define l) acc
        | OPair =>
            if (63 <=? length acc)%nat then opt_pairs ls false acc
            else opt_pairs ls true (acc ++ [line_pair (0xFFFFFFFF, 0xFFFFFFFF) l])
        end
      else opt_pairs ls (is_user_define l) acc
  end.

(** The structure that holds a list of pairs. *)
Definition opt_struct (ps : list (Z * Z)) : IBR_BOOT_OPTIONAL_STRUCT_T :=
  OptIni IBR_BOOT_CODE_OPTIONAL_MARKER (Z.of_nat (length ps))
    (ps ++ replicate (63 - length ps) (0xFFFFFFFF, 0xFFFFFFFF)).

(** ** Lemmas *)

Lemma power_loop_pow n x : ∀ num, u32 (power_loop n x num) = u32 (num * x ^ Z.of_nat n).
Proof.
  induction n as [|n IH]; intros num; cbn [power_loop].
  - change (Z.of_nat 0) with 0. by rewrite Z.pow_0_r, Z.mul_1_r.
  - rewrite IH, u32_mul_l. f_equal. rewrite Nat2Z.inj_succ, Z.pow_succ_r by lia. lia.
Qed.

Lemma power_pow x n : 0 <= n → u32 (power x n) = u32 (x ^ n).
Proof. intros. unfold power. rewrite power_loop_pow, Z2Nat.id, Z.mul_1_l by done. done. Qed.

Lemma hex_value_app s c : hex_value (s ++ [c]) = 16 * hex_value s + default 0 (hex_digit c).
Proof. unfold hex_value. by rewrite fold_left_app. Qed.

Lemma hex_fold_shift s : ∀ v,
  fold_left (λ v c, 16 * v + default 0 (hex_digit c)) s v = v * 16 ^ Z.of_nat (length s) + hex_value s.
Proof.
  unfold hex_value. induction s as [|c s IH]; intros v; cbn [fold_left length].
  - change (Z.of_nat 0) with 0. rewrite Z.pow_0_r. lia.
  - rewrite IH, (IH (16 * 0 + _)), Nat2Z.inj_succ, Z.pow_succ_r by lia. lia.
Qed.

Lemma hex_value_cons c s :
  hex_value (c :: s) = default 0 (hex_digit c) * 16 ^ Z.of_nat (length s) + hex_value s.
Proof. unfold hex_value at 1. cbn [fold_left]. rewrite hex_fold_shift. lia. Qed.

Lemma hex_loop_value s : ∀ len i acc,
  len = i + Z.of_nat (length s) → 0 <= acc < 4294967296 →
  hex_loop len i s acc = u32 (acc + hex_value s).
Proof.
  induction s as [|c s IH]; intros len i acc Hlen Hacc; cbn [hex_loop].
  - unfold hex_value. cbn. rewrite Z.add_0_r. by rewrite u32_id.
  - cbn [length] in Hlen. rewrite hex_value_cons.
    assert (Hp : u32 (power 16 (len - 1 - i)) = u32 (16 ^ Z.of_nat (length s))).
    { rewrite power_pow by lia. do 2 f_equal. lia. }
    destruct (hex_digit c) as [d|]; cbn [default].
    + rewrite IH by (lia || apply u32_range). rewrite u32_add_l.
      replace (acc + u32 (power 16 (len - 1 - i) * d) + hex_value s)
        with (u32 (power 16 (len - 1 - i) * d) + (acc + hex_value s)) by lia.
      rewrite <- (u32_mul_l (power _ _)), Hp, u32_mul_l, u32_add_l.
      f_equal. cbn [default from_option id]. ring.
    + rewrite IH by lia. f_equal.
Qed.

Lemma transfer_hex_value s : transfer_hex_string_to_int s = u32 (hex_value s).
Proof. unfold transfer_hex_string_to_int. rewrite hex_loop_value by lia. done. Qed.

Lemma opt_classify_cstr (Cmd : list Z) :
  (2 <= length Cmd)%nat → opt_classify Cmd = Ok (opt_classify_line (cstr Cmd)).
Proof.
  destruct Cmd as [|c0 [|c1 r]]; cbn [length]; intros; try lia. unfold opt_classify.
  change (rd (c0 :: c1 :: r) 0) with (Ok c0). change (rd (c0 :: c1 :: r) 1) with (Ok c1).
  cbn [mbind result_bind cstr]. destruct (Z.eqb_spec c0 0); [done|].
  destruct (Z.eqb_spec c0 47) as [->|]; cbn.
  - destruct (Z.eqb_spec c1 0) as [->|]; [cbn; done|].
    destruct (Z.eqb_spec c1 47) as [->|]; [cbn; done|]. cbn. by repeat case_match.
  - destruct (Z.eqb_spec c0 91) as [->|]; [cbn; done|]. by repeat case_match.
Qed.

(** Pairs[Counter] of the structure of a list with room left. *)
Lemma opt_struct_slot ps : (length ps < 63)%nat →
  Pairs (opt_struct ps) !! length ps = Some (0xFFFFFFFF, 0xFFFFFFFF).
Proof.
  intros. cbn. rewrite lookup_app_r, Nat.sub_diag by lia.
  apply lookup_replicate_2. lia.
Qed.

Lemma opt_struct_store ps q : (length ps < 63)%nat →
  <[length ps := q]> (Pairs (opt_struct ps)) = ps ++ q :: replicate (63 - S (length ps)) (0xFFFFFFFF, 0xFFFFFFFF).
Proof.
  intros. cbn [Pairs opt_struct]. rewrite insert_app_r_alt, Nat.sub_diag by lia.
  by replace (63 - length ps)%nat with (S (63 - S (length ps))) by lia.
Qed.

Lemma opt_struct_snoc ps q : (length ps < 63)%nat →
  opt_struct (ps ++ [q]) =
    count_up (OptIni IBR_BOOT_CODE_OPTIONAL_MARKER (Z.of_nat (length ps)) (<[length ps := q]> (Pairs (opt_struct ps)))).
Proof.
  intros. rewrite opt_struct_store by done. unfold opt_struct, count_up.
  cbn [OptionalMarker Counter Pairs]. rewrite length_app, <- app_assoc. cbn [length app].
  rewrite u32_id by (unfold is_u32; lia). f_equal; [lia|]. by rewrite Nat.add_1_r.
Qed.

(** One pair line appends one pair. *)
Lemma parsePair_spec ps l : (length ps < 63)%nat →
  (cfg ← parsePair (opt_struct ps) l; Ok (count_up cfg)) =
    Ok (opt_struct (ps ++ [line_pair (0xFFFFFFFF, 0xFFFFFFFF) l])).
Proof.
  intros Hl. rewrite opt_struct_snoc by done.
  assert (Hslot := opt_struct_slot ps Hl).
  assert (Hlen : length (Pairs (opt_struct ps)) = 63%nat)
    by (cbn; rewrite length_app, length_replicate; lia).
  unfold parsePair, line_pair.
  change (opt_struct ps) with (OptIni IBR_BOOT_CODE_OPTIONAL_MARKER (Z.of_nat (length ps)) (Pairs (opt_struct ps))) at 1.
  destruct (strtok pair_delim l) as [[t1 rest]|]; cbn [mbind result_bind].
  2:{ by rewrite list_insert_id. }
  assert (rd (Pairs (opt_struct ps)) (Z.of_nat (length ps)) = Ok (0xFFFFFFFF, 0xFFFFFFFF)) as ->
    by (apply rd_Ok; rewrite Nat2Z.id; auto with lia).
  cbn [mbind result_bind snd]. rewrite wr_Ok, Nat2Z.id by lia. cbn [mbind result_bind].
  rewrite !transfer_hex_value.
  destruct (strtok pair_delim rest) as [[t2 ?]|]; cbn [mbind result_bind]; [|done].
  assert (rd (<[length ps := (u32 (hex_value t1), 0xFFFFFFFF)]> (Pairs (opt_struct ps))) (Z.of_nat (length ps))
          = Ok (u32 (hex_value t1), 0xFFFFFFFF)) as ->.
  { apply rd_Ok. rewrite Nat2Z.id. split; [lia|]. apply list_lookup_insert_eq. lia. }
  cbn [mbind result_bind fst]. rewrite wr_Ok, Nat2Z.id by (rewrite length_insert; lia).
  cbn [mbind result_bind]. by rewrite list_insert_insert_eq, transfer_hex_value.
Qed.

Definition opt_pc_of (active : bool) : opt_pc := if active then OptInner else OptOuter.

Definition opt_expected (k : bool) (p : list Z) (active : bool) (ps : list (Z * Z))
  : result (Z * IBR_BOOT_OPTIONAL_STRUCT_T) :=
  if fits 256 0 p then Ok (Successful, opt_struct (opt_pairs (lines_left k p) active ps))
  else Crash OutOfBounds.

Lemma opt_loop_spec k fuel : ∀ active p r Cmd ps,
  represents k p r → length Cmd = 256%nat → (length ps <= 63)%nat → (2 * length p + 1 < fuel)%nat →
  opt_loop fuel (opt_pc_of active) r Cmd (opt_struct ps) = opt_expected k p active ps.
Proof.
  induction fuel as [fuel IH] using lt_wf_ind; intros active p r Cmd ps Hr Hlen Hps Hf.
  destruct fuel as [|[|f]]; [lia..|].
  pose proof (readLine_outcome k p r Cmd Hr ltac:(lia)) as Ho. rewrite Hlen in Ho.
  destruct Ho as [Cmd' r' l rest Hres Hr' Hlen' Hc Hll Hlt Hfit Hlines|Cmd' r' Hres Hlen' Hfit Hlines|Hres Hfit].
  - assert (Hmark : opt_loop (S f) OptMark r' Cmd' (opt_struct ps) =
        opt_expected k rest (is_user_define (cstr l)) ps).
    { cbn [opt_loop]. rewrite Hc, <- (IH f) with (r := r') (Cmd := Cmd') by (done || lia).
      by destruct (is_user_define (cstr l)). }
    assert (Hgo : ∀ a qs, (length qs <= 63)%nat →
        opt_loop (S f) (opt_pc_of a) r' Cmd' (opt_struct qs) = opt_expected k rest a qs).
    { intros. apply IH; done || lia. }
    unfold opt_expected in *. rewrite Hfit, Hlines.
    remember (S f) as f1. destruct active; cbn [opt_pc_of opt_loop opt_pairs];
      unfold readLine2; rewrite Hres; cbn [mbind result_bind]; change (Successful <? 0) with false; cbn match;
      [|exact Hmark].
    rewrite opt_classify_cstr by lia. rewrite Hc. cbn [mbind result_bind].
    destruct (opt_classify_line (cstr l)); [by apply (Hgo true)|done|].
    change (Counter (opt_struct ps)) with (Z.of_nat (length ps)).
    unfold IBR_BOOT_CODE_OPTIONAL_MAX_NUMBER.
    destruct (Nat.leb_spec 63 (length ps)) as [H63|H63].
    + rewrite (proj2 (Z.geb_le _ _)) by lia. by apply (Hgo false).
    + destruct (Z.of_nat (length ps) >=? 63) eqn:E; zcmp; [lia|].
      pose proof (parsePair_spec ps (cstr l) H63) as HP. apply bind_ok in HP as (cfg & -> & HP).
      cbn [mbind result_bind].
      replace (count_up cfg) with (opt_struct (ps ++ [line_pair (0xFFFFFFFF, 0xFFFFFFFF) (cstr l)]))
        by congruence.
      apply (Hgo true). rewrite length_app. cbn. lia.
  - unfold opt_expected. rewrite Hfit, Hlines.
    destruct active; cbn [opt_pc_of opt_loop]; unfold readLine2; by rewrite Hres.
  - unfold opt_expected. rewrite Hfit.
    destruct active; cbn [opt_pc_of opt_loop]; unfold readLine2; by rewrite Hres.
Qed.

Lemma ProcessOptionalINI_run bytes Cmd :
  length Cmd = 256%nat →
  ProcessOptionalINI (Some bytes) Cmd = opt_expected (tail_kept bytes) bytes false [].
Proof.
  intros HC. unfold ProcessOptionalINI, tail_kept. rewrite <- keeps_tail_open.
  change opt_defaults with (opt_struct []).
  apply (opt_loop_spec (keeps_tail (open_reader bytes)) _ false); [|done|cbn; lia|lia].
  split_and!; [apply open_reader_wf|done|apply pending_open].
Qed.

(** ** Theorems *)

(** transfer_hex_string_to_int is the value of the hexadecimal string modulo
    2^32, whatever its length; characters that are no digits count as 0. *)
Theorem transfer_hex_is_value s :
  transfer_hex_string_to_int s = u32 (hex_value s).
Proof. apply transfer_hex_value. Qed.

(** C4: The parser keeps, in order, the pairs of the USER_DEFINE sections, at most
    63 of them, and leaves the other slots 0xFFFFFFFF; it writes outside its
    line array exactly when a line has 256 characters or more. *)
Theorem ProcessOptionalINI_refines_automaton bytes Cmd :
  length Cmd = 256%nat →
  ProcessOptionalINI (Some bytes) Cmd =
    if fits 256 0 bytes
    then Ok (Successful, opt_struct (opt_pairs (ini_lines bytes) false []))
    else Crash OutOfBounds.
Proof. apply ProcessOptionalINI_run. Qed.

(** *** Writing pairs and reading them back *)

Definition pair_text (q : Z * Z) : list Z :=
  print_u 16 (fst q) ++ lit " = " ++ print_u 16 (snd q) ++ [0x0A].

Definition opt_text (ps : list (Z * Z)) : list Z :=
  lit "[USER_DEFINE]" ++ 0x0A :: concat (map pair_text ps).

Lemma opt_pairs_bound lines : ∀ active acc,
  (length acc <= 63)%nat → (length (opt_pairs lines active acc) <= 63)%nat.
Proof.
  induction lines as [|l ls IH]; intros active acc H; cbn [opt_pairs]; [done|].
  destruct active; [|by apply IH]. destruct (opt_classify_line l); try by apply IH.
  destruct (Nat.leb_spec 63 (length acc)); apply IH; [done|]. rewrite length_app. cbn. lia.
Qed.

Lemma hex_digit_char d : 0 <= d < 16 → hex_digit (digit_char d) = Some d.
Proof.
  intros. assert (d ∈ seqZ 0 16) as Hin by (apply elem_of_seqZ; lia).
  revert d H Hin. assert (Forall (λ d, hex_digit (digit_char d) = Some d) (seqZ 0 16)) as HF
    by (repeat constructor).
  rewrite Forall_forall in HF. auto.
Qed.

Lemma hex_fold_digits s : Forall (λ c, ∃ d, c = digit_char d ∧ 0 <= d < 16) s → ∀ acc,
  fold_left (λ v c, 16 * v + default 0 (hex_digit c)) s acc = digits_val 16 acc s.
Proof.
  induction 1 as [|c s (d & -> & Hd) _ IH]; intros acc; [done|]. cbn [fold_left digits_val].
  rewrite digit_char_digit, hex_digit_char, IH by lia. f_equal. cbn. lia.
Qed.

Lemma hex_value_print n : 0 <= n < 4294967296 → hex_value (print_u 16 n) = n.
Proof.
  intros Hn. unfold hex_value.
  rewrite hex_fold_digits by (apply print_digits_digits; done || lia).
  pose proof (digits_val_print 12 16 ltac:(lia) n 0 [] ltac:(cbn; lia)) as Hv.
  rewrite app_nil_r in Hv. exact Hv.
Qed.

Lemma print_u_no_delim n : 0 <= n → Forall (λ c, c ∉ pair_delim) (print_u 16 n).
Proof.
  intros. eapply Forall_impl; [apply print_u_chars; lia|]. cbn. intros c Hc.
  unfold pair_delim. cbn. rewrite !not_elem_of_cons. split_and!; try lia. apply not_elem_of_nil.
Qed.

Definition pair_line (q : Z * Z) : list Z := print_u 16 (fst q) ++ lit " = " ++ print_u 16 (snd q).

Lemma line_pair_text old q : is_u32 (fst q) → is_u32 (snd q) → line_pair old (pair_line q) = q.
Proof.
  intros H1 H2. assert (H1' := H1). assert (H2' := H2). unfold is_u32 in H1', H2'.
  unfold line_pair, pair_line. change (lit " = ") with [32; 61; 32]. cbn [app].
  rewrite (strtok_here pair_delim (print_u 16 (fst q)) 32).
  - rewrite strtok_skip by (cbn; set_solver). rewrite strtok_skip by (cbn; set_solver).
    rewrite strtok_last by (apply print_u_ne || apply print_u_no_delim; lia).
    rewrite !hex_value_print, !u32_id by done. by destruct q.
  - apply print_u_ne; lia.
  - apply print_u_no_delim. lia.
  - cbn; set_solver.
Qed.

Lemma pair_line_plain q : is_u32 (fst q) → is_u32 (snd q) →
  plain (pair_line q) ∧ (length (pair_line q) < 256)%nat ∧ opt_classify_line (pair_line q) = OPair.
Proof.
  intros H1 H2. unfold is_u32 in *. unfold pair_line. split_and!.
  - apply Forall_app. split; [eapply Forall_impl; [apply print_u_chars; lia|cbn; lia]|].
    apply Forall_app. split; [by apply plain_check|].
    eapply Forall_impl; [apply print_u_chars; lia|cbn; lia].
  - rewrite !length_app. change (length (lit " = ")) with 3%nat. pose proof (print_u_length 16 (fst q)).
    pose proof (print_u_length 16 (snd q)). lia.
  - assert (HF := print_u_chars 16 (fst q) ltac:(lia) ltac:(lia)).
    assert (Hne := print_u_ne 16 (fst q) ltac:(lia) ltac:(lia)).
    destruct HF as [|c s Hc _]; [done|]. cbn. unfold opt_classify_line.
    destruct (decide (c = 47)); [lia|]. destruct (decide (c = 91)); [lia|]. by repeat case_match.
Qed.

Lemma opt_text_lines k ps : Forall (λ q, is_u32 (fst q) ∧ is_u32 (snd q)) ps →
  lines_left k (concat (map pair_text ps)) = map pair_line ps ∧
  fits 256 0 (concat (map pair_text ps)) = true.
Proof.
  induction 1 as [|q ps [H1 H2] _ [IH1 IH2]]; [by destruct k|]. cbn [map concat].
  destruct (pair_line_plain q H1 H2) as (Hp & Hl & _).
  replace (pair_text q ++ concat (map pair_text ps))
    with (pair_line q ++ 0x0A :: concat (map pair_text ps))
    by (unfold pair_text, pair_line; by rewrite <- !app_assoc).
  by rewrite lines_left_plain_lf, fits_plain_lf, IH1.
Qed.

Lemma opt_pairs_text ps : Forall (λ q, is_u32 (fst q) ∧ is_u32 (snd q)) ps → ∀ acc,
  (length acc + length ps <= 63)%nat → opt_pairs (map pair_line ps) true acc = acc ++ ps.
Proof.
  induction 1 as [|q ps [H1 H2] _ IH]; intros acc Hl; cbn [map opt_pairs]; [by rewrite app_nil_r|].
  cbn [length] in Hl. destruct (pair_line_plain q H1 H2) as (_ & _ & ->).
  destruct (Nat.leb_spec 63 (length acc)); [lia|].
  rewrite line_pair_text, IH by (done || rewrite length_app; cbn; lia).
  by rewrite <- app_assoc.
Qed.

(** Up to 63 pairs of 32-bit numbers written as hexadecimal text are read back
    unchanged, in their order. *)
Theorem ProcessOptionalINI_roundtrip ps Cmd :
  length Cmd = 256%nat → (length ps <= 63)%nat →
  Forall (λ q, is_u32 (fst q) ∧ is_u32 (snd q)) ps →
  ProcessOptionalINI (Some (opt_text ps)) Cmd = Ok (Successful, opt_struct ps).
Proof.
  intros HC Hl HF. rewrite ProcessOptionalINI_run by done. unfold opt_expected, opt_text.
  assert (plain (lit "[USER_DEFINE]")) as Hp by (by apply plain_check).
  destruct (opt_text_lines (tail_kept (lit "[USER_DEFINE]" ++ 0x0A :: concat (map pair_text ps))) ps HF)
    as [HL Hfit].
  rewrite fits_plain_lf, Hfit by (done || cbn; lia). rewrite lines_left_plain_lf, HL by done.
  cbn [opt_pairs]. change (is_user_define (lit "[USER_DEFINE]")) with true.
  by rewrite opt_pairs_text.
Qed.

(** ** Witnesses *)

Lemma ProcessOptionalINI_refines_automaton_witness :
  ProcessOptionalINI (Some (lit "[USER_DEFINE]" ++ 10 :: lit "b0000000 = 12ab" ++ [10])) (replicate 256 0) =
    Ok (Successful, opt_struct [(0xb0000000, 0x12ab)]).
Proof.
  rewrite ProcessOptionalINI_refines_automaton; [|reflexivity]. vm_compute. reflexivity.
Defined.

Lemma ProcessOptionalINI_roundtrip_witness :
  ProcessOptionalINI (Some (opt_text [(0xb0003000, 0x12345678); (1, 0xFFFFFFFF)])) (replicate 256 0) =
    Ok (Successful, opt_struct [(0xb0003000, 0x12345678); (1, 0xFFFFFFFF)]).
Proof.
  apply ProcessOptionalINI_roundtrip; [reflexivity|cbn; lia|].
  repeat constructor; unfold is_u32; cbn; lia.
Defined.
