(* ===== verification/SysImage.v ===== *)
(** * SysImage: the NAND system image maker

    mtdnand/mn_writer/src/mn_writer.c: the command line, the table of firmware
    images, the system-area block and the flash commands.  Files are a function
    from a path to contents ([stat] and [fopen] fail where it gives [None]);
    the shell commands given to system() are structured values, and whether
    system() could run a command is a parameter. *)
From S2P Require Import Prelude LibC Bytes IniReader ProcessIni OptionalIni.
Local Open Scope Z_scope.

Definition uIBRAreaSize : Z := 4.
Definition MAX_FWInfo : nat := 16.
Definition ImageFlag_Exec : Z := 1.
Definition ImageFlag_System : Z := 3.
Definition ImageFlag_Logo : Z := 4.

(** typedef struct fw_update_info_t. *)
Record FW_UPDATE_INFO_T := FWI {
  imageNo : Z;
  imageFlag : Z;
  startBlock : Z;
  endBlock : Z;
  executeAddr : Z;
  fileLen : Z;
  imageName : list Z
}.

(** An entry after memset(&FWInfo, 0xFF, sizeof(FWInfo)). *)
Definition fw_blank : FW_UPDATE_INFO_T :=
  FWI 0xFFFF 0xFFFF 0xFFFF 0xFFFF 0xFFFFFFFF 0xFFFFFFFF (replicate 32 0xFF).

Section Files.
Context (fs : list Z → option (list Z)).

Definition file_size (name : list Z) : option Z := Z.of_nat ∘ length <$> fs name.

(** write_fw_info; [filename] is the 512-byte array that holds the name. *)
Definition write_fw_info (bs : Z) (FWInfo : list FW_UPDATE_INFO_T) (FileInfoIdx : Z)
  (filename : list Z) (flag addr : Z) : result (Z * list FW_UPDATE_INFO_T) :=
  match file_size (cstr filename) with
  | None => Ok (-1, FWInfo)
  | Some st_size =>
      '(sb, eb) ← (if flag =? ImageFlag_System then Ok (0, 3)
        else
          prev ← rd FWInfo (FileInfoIdx - 1);
          let sb := u16 (endBlock prev + 1) in
          if bs =? 0 then Crash DivByZero
          else Ok (sb, u16 (sb + u32 st_size / bs)));
      FWInfo' ← wr FWInfo FileInfoIdx
        (FWI (u16 FileInfoIdx) flag sb eb (u32 addr) (u32 st_size) (take 31 filename ++ [0]));
      Ok (Successful, FWInfo')
  end.

(** ++gFileInfoIdx followed by write_fw_info, whose return value is ignored. *)
Definition add_image (bs : Z) (st : Z * list FW_UPDATE_INFO_T) (im : list Z * Z * Z)
  : result (Z * list FW_UPDATE_INFO_T) :=
  let '(idx, FWInfo) := st in
  let '(name, flag, addr) := im in
  '(_, FWInfo') ← write_fw_info bs FWInfo (idx + 1) name flag addr;
  Ok (idx + 1, FWInfo').

Fixpoint add_images (bs : Z) (st : Z * list FW_UPDATE_INFO_T) (ims : list (list Z * Z * Z))
  : result (Z * list FW_UPDATE_INFO_T) :=
  match ims with
  | [] => Ok st
  | im :: r => st' ← add_image bs st im; add_images bs st' r
  end.


(** ** The system-area block *)

Definition optional_ini_size (cfg : IBR_BOOT_OPTIONAL_STRUCT_T) : Z :=
  if Counter cfg =? 0 then 0
  else
    let n := s32 (8 * (Counter cfg + 1)) in
    if Counter cfg mod 2 =? 0 then n + 8 else n.

(** The bytes of the optional structure and of a table entry in memory. *)
Definition optional_bytes (cfg : IBR_BOOT_OPTIONAL_STRUCT_T) : list Z :=
  le_bytes 4 (OptionalMarker cfg) ++ le_bytes 4 (Counter cfg) ++
  concat (map (λ q, le_bytes 4 (fst q) ++ le_bytes 4 (snd q)) (Pairs cfg)).

Definition fw_bytes (e : FW_UPDATE_INFO_T) : list Z :=
  le_bytes 2 (imageNo e) ++ le_bytes 2 (imageFlag e) ++
  le_bytes 2 (startBlock e) ++ le_bytes 2 (endBlock e) ++
  le_bytes 4 (executeAddr e) ++ le_bytes 4 (fileLen e) ++ imageName e.

(** IBR_BOOT_STRUCT_T: marker, execution address, image size, reserved word. *)
Definition nand_mark (exe_addr size : Z) : list Z :=
  le_bytes 4 0x57425AA5 ++ le_bytes 4 exe_addr ++ le_bytes 4 size ++ le_bytes 4 0.

(** The three copies after "Copy NandLoader". *)
Definition copy_nandloader (buf : list Z) (exe_addr : Z) (cfg : IBR_BOOT_OPTIONAL_STRUCT_T)
  (loader : list Z) : result (list Z) :=
  let opt := optional_ini_size cfg in
  buf1 ← blit buf 0 (nand_mark exe_addr (u32 (Z.of_nat (length loader))));
  buf2 ← blit buf1 16 (take (Z.to_nat opt) (optional_bytes cfg));
  blit buf2 (16 + opt) loader.

(** The system information, two pages before the end of the block. *)
Definition write_system_info (buf : list Z) (bs ps count : Z) (FWInfo : list FW_UPDATE_INFO_T)
  : result (list Z) :=
  let p := u32 (bs - 2 * ps) in
  buf1 ← blit buf p (le_bytes 4 0x574255AA ++ le_bytes 4 count ++ le_bytes 4 0 ++ le_bytes 4 0x57425963);
  blit buf1 (p + 16) (concat (map fw_bytes FWInfo)).

(** ** Flash commands *)

Inductive mtd := Mtd0 | Mtd1.
Inductive nand_cmd :=
| FlashErase (dev : mtd)
| NandWrite (dev : mtd) (off : Z) (file : list Z)
| NandDump (dev : mtd) (off len : Z).

(** The Execute-area loop; [szCmd] is the command buffer, which the default case
    of the switch leaves as it is. *)
Fixpoint burn_exec (bs ps : Z) (ini : INI_INFO_T) (FWInfo : list FW_UPDATE_INFO_T)
  (i : Z) (n : nat) (szCmd : nand_cmd) : result (list nand_cmd) :=
  match n with
  | O => Ok []
  | S n' =>
      e ← rd FWInfo i;
      let off := u32 ((startBlock e - uIBRAreaSize) * bs) in
      let c :=
        if imageFlag e =? ImageFlag_Logo then NandWrite Mtd1 off (cstr (Logo ini))
        else if imageFlag e =? ImageFlag_Exec then NandWrite Mtd1 off (cstr (ExecFile ini))
        else szCmd in
      let d := NandDump Mtd1 (u32 ((startBlock e - uIBRAreaSize) * bs)) ps in
      rest ← burn_exec bs ps ini FWInfo (i + 1) n' d;
      Ok (c :: d :: rest)
  end.

(** The commands burn_images issues, in order. *)
Definition burn_images (bs ps : Z) (out : list Z) (ini : INI_INFO_T)
  (FWInfo : list FW_UPDATE_INFO_T) (gFileInfoIdx : Z) : result (list nand_cmd) :=
  let sysarea := concat (map (λ i, [NandWrite Mtd0 (u32 (i * bs)) out; NandDump Mtd0 (u32 (i * bs)) ps])
                             (seqZ 0 uIBRAreaSize)) in
  exec ← burn_exec bs ps ini FWInfo 0 (Z.to_nat gFileInfoIdx) (FlashErase Mtd1);
  Ok (FlashErase Mtd0 :: sysarea ++ FlashErase Mtd1 :: exec).


(** ** The command line *)





(** ** main *)





End Files.

(** ** The image table *)

(** Blocks an image of [size] bytes is given; the first block of the i-th image
    after the loader, whose own area is blocks 0 to 3. *)
Definition blocks (bs size : Z) : Z := size / bs + 1.
Definition first_block (bs : Z) (sizes : list Z) : Z :=
  uIBRAreaSize + foldr (λ s n, blocks bs s + n) 0 sizes.

Definition fw_entry (i start : Z) (im : list Z * Z * Z) (bs size : Z) : FW_UPDATE_INFO_T :=
  FWI i (snd (fst im)) start (start + size / bs) (u32 (snd im)) size (take 31 (fst (fst im)) ++ [0]).

Lemma first_block_snoc bs sizes s :
  first_block bs (sizes ++ [s]) = first_block bs sizes + blocks bs s.
Proof.
  unfold first_block. rewrite foldr_app. cbn.
  assert (∀ a, foldr (λ s n, blocks bs s + n) a sizes = foldr (λ s n, blocks bs s + n) 0 sizes + a) as H.
  { clear. intros a. induction sizes as [|x r IH]; cbn; [lia|]. rewrite IH. lia. }
  rewrite H. lia.
Qed.

Lemma blocks_pos bs s : 0 < bs → 0 <= s → 0 < blocks bs s.
Proof. intros. unfold blocks. pose proof (Z.div_pos s bs). lia. Qed.

Lemma first_block_mono bs l1 l2 :
  0 < bs → Forall (λ s, 0 <= s) l2 → first_block bs l1 <= first_block bs (l1 ++ l2).
Proof.
  intros Hb HF. revert l1. induction HF as [|s l2 Hs _ IH]; intros l1; [by rewrite app_nil_r|].
  change (s :: l2) with ([s] ++ l2). rewrite app_assoc. etransitivity; [|apply IH].
  rewrite first_block_snoc. pose proof (blocks_pos bs s Hb Hs). lia.
Qed.

Section Table.
Context (fs : list Z → option (list Z)) (bs : Z) (Hbs : 0 < bs).

(** The images that follow the loader, with their sizes. *)
Definition sized (im : list Z * Z * Z) (size : Z) : Prop :=
  file_size fs (cstr (fst (fst im))) = Some size ∧ is_u32 size ∧ snd (fst im) ≠ ImageFlag_System.

(** The table after the loader and the images [ims] have been entered. *)
Definition table_holds (tbl : list FW_UPDATE_INFO_T) (ims : list (list Z * Z * Z)) (sizes : list Z) : Prop :=
  length tbl = MAX_FWInfo ∧
  (∃ e0, tbl !! 0%nat = Some e0 ∧ startBlock e0 = 0 ∧ endBlock e0 = 3) ∧
  ∀ i im s, ims !! i = Some im → sizes !! i = Some s →
    tbl !! S i = Some (fw_entry (Z.of_nat (S i)) (first_block bs (take i sizes)) im bs s).

Lemma table_last tbl ims sizes :
  table_holds tbl ims sizes → length ims = length sizes → (length ims < MAX_FWInfo)%nat →
  ∃ e, tbl !! length ims = Some e ∧ endBlock e + 1 = first_block bs sizes.
Proof.
  intros (Hl & (e0 & He0 & _ & Hend) & Hi) Hlen Hm.
  destruct (decide (ims = [])) as [->|Hne].
  - exists e0. split; [done|]. destruct sizes; [|done]. by rewrite Hend.
  - destruct (exists_last Hne) as (ims' & im & ->). rewrite length_app, Nat.add_1_r in *. cbn in Hlen.
    destruct (exists_last (l := sizes)) as (sizes' & s & ->); [by destruct sizes|].
    rewrite length_app, Nat.add_1_r in Hlen. injection Hlen as Hlen.
    eexists. split; [apply (Hi (length ims') im s)|].
    + by rewrite lookup_app_r, Nat.sub_diag.
    + by rewrite Hlen, lookup_app_r, Nat.sub_diag.
    + rewrite Hlen, take_app_length, first_block_snoc. cbn. unfold blocks. lia.
Qed.

(** Entering one more image. *)
Lemma add_image_table tbl ims sizes im s :
  table_holds tbl ims sizes → length ims = length sizes → (length ims < 15)%nat →
  sized im s → first_block bs (sizes ++ [s]) <= 65536 → 0 <= first_block bs sizes →
  ∃ tbl', add_image fs bs (Z.of_nat (length ims), tbl) im = Ok (Z.of_nat (S (length ims)), tbl') ∧
    table_holds tbl' (ims ++ [im]) (sizes ++ [s]).
Proof.
  intros Ht Hlen H15 (Hs & Hu & Hf) Hbound Hnn.
  destruct (table_last tbl ims sizes Ht Hlen ltac:(unfold MAX_FWInfo; lia)) as (e & He & Hend).
  rewrite first_block_snoc in Hbound. pose proof (Z.div_pos s bs ltac:(apply Hu) Hbs) as Hq.
  unfold blocks in Hbound. destruct im as [[name flag] addr]. cbn [fst snd] in Hs, Hf.
  unfold add_image, write_fw_info. rewrite Hs. apply Z.eqb_neq in Hf. rewrite Hf.
  assert (rd tbl (Z.of_nat (length ims) + 1 - 1) = Ok e) as ->.
  { apply rd_Ok. split; [lia|]. by replace (Z.to_nat _) with (length ims) by lia. }
  cbn [mbind result_bind]. rewrite (proj2 (Z.eqb_neq bs 0)) by lia. cbn [mbind result_bind].
  destruct Ht as (Hl & H0 & Hi). unfold MAX_FWInfo in Hl.
  rewrite wr_Ok by lia. cbn [mbind result_bind].
  replace (Z.of_nat (length ims) + 1) with (Z.of_nat (S (length ims))) by lia. rewrite Nat2Z.id.
  eexists. split; [done|]. rewrite Hend, (u32_id s), (u16_id (Z.of_nat _)) by (done || unfold is_u16; lia).
  rewrite (u16_id (first_block bs sizes)) by (unfold is_u16; lia).
  rewrite (u16_id (_ + _)) by (unfold is_u16; lia).
  unfold table_holds. rewrite length_insert. split_and!; [done| |].
  - destruct H0 as (e0 & He0 & ?). exists e0. by rewrite list_lookup_insert_ne.
  - intros i im' s' H1 H2. destruct (decide (i = length ims)) as [->|Hne].
    + rewrite lookup_app_r, Nat.sub_diag in H1 by done.
      rewrite Hlen, lookup_app_r, Nat.sub_diag in H2 by done. cbn in H1, H2. simplify_eq.
      rewrite list_lookup_insert_eq by lia. rewrite Hlen, take_app_length. done.
    + assert (i < length ims)%nat.
      { apply lookup_lt_Some in H1. rewrite length_app in H1. cbn in H1. lia. }
      rewrite lookup_app_l in H1 by lia. rewrite lookup_app_l in H2 by lia. rewrite list_lookup_insert_ne by lia.
      rewrite take_app_le by lia. by apply Hi.
Qed.

Lemma add_images_table ims : ∀ tbl done_ims done_sizes sizes,
  Forall2 sized ims sizes → table_holds tbl done_ims done_sizes →
  length done_ims = length done_sizes → (length done_ims + length ims < MAX_FWInfo)%nat →
  Forall (λ s, 0 <= s) done_sizes →
  first_block bs (done_sizes ++ sizes) <= 65536 →
  ∃ tbl', add_images fs bs (Z.of_nat (length done_ims), tbl) ims =
      Ok (Z.of_nat (length done_ims + length ims), tbl') ∧
    table_holds tbl' (done_ims ++ ims) (done_sizes ++ sizes).
Proof.
  induction ims as [|im ims IH]; intros tbl di ds sizes HF Ht Hlen Hm Hnn Hb.
  - apply Forall2_nil_inv_l in HF as ->. exists tbl. rewrite !app_nil_r, Nat.add_0_r. done.
  - apply Forall2_cons_inv_l in HF as (s & sizes' & Hs & HF & ->). unfold MAX_FWInfo in Hm. cbn [length] in Hm.
    assert (Forall (λ s, 0 <= s) sizes') as Hnn'.
    { clear -HF. induction HF as [|? ? ? ? (_ & Hu & _)]; constructor; [apply Hu|done]. }
    change (s :: sizes') with ([s] ++ sizes') in Hb |- *. rewrite app_assoc in Hb |- *.
    destruct (add_image_table tbl di ds im s Ht Hlen ltac:(lia) Hs) as (tbl' & Ha & Ht').
    + etransitivity; [|exact Hb]. by apply first_block_mono.
    + etransitivity; [|apply (first_block_mono bs [] ds Hbs Hnn)]. unfold first_block, uIBRAreaSize. cbn. lia.
    + cbn [add_images]. rewrite Ha. cbn [mbind result_bind].
      destruct (IH tbl' (di ++ [im]) (ds ++ [s]) sizes') as (tbl'' & Hr & Ht''); auto.
      * rewrite !length_app. cbn. lia.
      * rewrite length_app. unfold MAX_FWInfo. cbn. lia.
      * apply Forall_app. split; [done|]. constructor; [apply Hs|constructor].
      * exists tbl''. rewrite length_app, Nat.add_1_r in Hr. rewrite Hr. cbn [length].
        rewrite <- app_assoc in Ht''. split; [do 3 f_equal; lia|done].
Qed.

End Table.

(** Entering the loader into the blank table. *)
Lemma add_loader fs bs name addr size :
  file_size fs (cstr name) = Some size →
  ∃ tbl, add_image fs bs (-1, replicate MAX_FWInfo fw_blank) (name, ImageFlag_System, addr) = Ok (0, tbl) ∧
    table_holds bs tbl [] [].
Proof.
  intros Hs. unfold add_image, write_fw_info. rewrite Hs. cbn. eexists. split; [done|].
  unfold table_holds. split_and!; [done| |done]. eexists. by split_and!.
Qed.

Lemma sizes_nonneg fs ims sizes : Forall2 (sized fs) ims sizes → Forall is_u32 sizes.
Proof. induction 1 as [|? ? ? ? (_ & Hu & _)]; by constructor. Qed.

(** ** Theorems *)

(** C2: The table of firmware images: with the loader first, at most 16 images, all
    files present and no more than 65536 blocks in total, every image gets the
    block range right after the previous one, the loader blocks 0 to 3; the
    range is large enough for the file, so ranges are disjoint and none is cut. *)
Theorem image_table_layout fs bs loader addr lsize ims sizes :
  0 < bs → file_size fs (cstr loader) = Some lsize →
  Forall2 (sized fs) ims sizes → (length ims < MAX_FWInfo)%nat → first_block bs sizes <= 65536 →
  ∃ tbl, add_images fs bs (-1, replicate MAX_FWInfo fw_blank)
           ((loader, ImageFlag_System, addr) :: ims) = Ok (Z.of_nat (length ims), tbl) ∧
    (∃ e, tbl !! 0%nat = Some e ∧ startBlock e = 0 ∧ endBlock e = 3) ∧
    ∀ i s, sizes !! i = Some s → ∃ prev e,
      tbl !! i = Some prev ∧ tbl !! S i = Some e ∧
      startBlock e = endBlock prev + 1 ∧ endBlock e < 65536 ∧
      fileLen e = s ∧ s < (endBlock e - startBlock e + 1) * bs.
Proof.
  intros Hbs Hl HF Hm Hb.
  destruct (add_loader fs bs loader addr lsize Hl) as (tbl0 & Ha & Ht0).
  destruct (add_images_table fs bs Hbs ims tbl0 [] [] sizes HF Ht0 eq_refl Hm (Forall_nil_2 _) Hb)
    as (tbl & Hr & Ht).
  exists tbl. cbn [add_images]. rewrite Ha. cbn [mbind result_bind]. split; [exact Hr|].
  assert (Hlen := Forall2_length _ _ _ HF). destruct Ht as (Hlt & H0 & Hi). split; [done|].
  intros i s Hs. assert (i < length sizes)%nat as Hi' by (by eapply lookup_lt_Some).
  destruct (lookup_lt_is_Some_2 ims i ltac:(lia)) as [im Him].
  assert (table_holds bs tbl (take i ims) (take i sizes)) as Hpre.
  { split_and!; [done|done|]. intros j im' s' H1 H2.
    apply lookup_take_Some in H1 as [H1 ?]. apply lookup_take_Some in H2 as [H2 ?].
    rewrite take_take. replace (Nat.min j i) with j by lia. by apply Hi. }
  destruct (table_last bs tbl (take i ims) (take i sizes) Hpre) as (prev & Hprev & Hend).
  { rewrite !length_take. lia. } { rewrite length_take. unfold MAX_FWInfo in *. lia. }
  rewrite length_take, Nat.min_l in Hprev by lia.
  exists prev, (fw_entry (Z.of_nat (S i)) (first_block bs (take i sizes)) im bs s).
  split_and!; [done|by apply Hi|cbn; lia| |done|].
  - pose proof (first_block_mono bs (take i sizes ++ [s]) (drop (S i) sizes) Hbs) as Hmono.
    rewrite <- app_assoc in Hmono. cbn [app] in Hmono. rewrite take_drop_middle in Hmono by done.
    rewrite first_block_snoc in Hmono. unfold blocks in Hmono. cbn.
    assert (Forall (λ s, 0 <= s) (drop (S i) sizes)) as Hnn.
    { apply Forall_drop. eapply Forall_impl; [exact (sizes_nonneg _ _ _ HF)|]. by intros ? [? _]. }
    specialize (Hmono Hnn). lia.
  - cbn. pose proof (Z.mod_pos_bound s bs Hbs). pose proof (Z.div_mod s bs ltac:(lia)). lia.
Qed.

Lemma add_images_full fs bs ims : ∀ idx tbl,
  0 < bs → 0 <= idx → length tbl = MAX_FWInfo →
  Forall (λ im, ∃ s, file_size fs (cstr (fst (fst im))) = Some s) ims →
  15 < idx + Z.of_nat (length ims) → idx <= 15 →
  add_images fs bs (idx, tbl) ims = Crash OutOfBounds.
Proof.
  induction ims as [|im ims IH]; intros idx tbl Hbs Hi Hl HF Hn Hle; cbn [length] in Hn; [lia|].
  inversion_clear HF as [|? ? (s & Hs) HF']. cbn [add_images].
  destruct im as [[name flag] addr]. unfold add_image, write_fw_info. cbn [fst] in Hs. rewrite Hs.
  set (pr := if flag =? ImageFlag_System then _ else _).
  assert (∃ sb eb, pr = Ok (sb, eb)) as (sb & eb & ->).
  { unfold pr. destruct (flag =? ImageFlag_System); [eauto|].
    unfold MAX_FWInfo in Hl.
    destruct (rd_is_ok tbl (idx + 1 - 1)) as [e ->]; [lia|]. cbn [mbind result_bind].
    rewrite (proj2 (Z.eqb_neq bs 0)) by lia. eauto. }
  cbn [mbind result_bind]. unfold MAX_FWInfo in Hl. destruct (decide (idx = 15)) as [->|Hne].
  - rewrite wr_crash; [done|lia].
  - rewrite wr_Ok by lia. cbn [mbind result_bind]. apply IH; try done; try lia.
    by rewrite length_insert.
Qed.

(** More than 16 images overrun the table: nothing limits "Execute Image
    Number". *)
Theorem too_many_images_overflow fs bs ims :
  0 < bs → Forall (λ im, ∃ s, file_size fs (cstr (fst (fst im))) = Some s) ims →
  (16 < length ims)%nat →
  (∀ im, head ims = Some im → snd (fst im) = ImageFlag_System) →
  add_images fs bs (-1, replicate MAX_FWInfo fw_blank) ims = Crash OutOfBounds.
Proof.
  intros Hbs HF Hlen Hhd. destruct ims as [|[[name flag] addr] ims]; [cbn in Hlen; lia|].
  specialize (Hhd _ eq_refl). cbn in Hhd. subst flag.
  inversion_clear HF as [|? ? (s & Hs) HF'].
  destruct (add_loader fs bs name addr s Hs) as (tbl & Ha & (Hl & _)).
  cbn [add_images]. rewrite Ha. cbn [mbind result_bind]. cbn [length] in Hlen.
  apply add_images_full; auto; lia.
Qed.

(** *** The system block read back *)

Definition fw_of_bytes (l : list Z) : FW_UPDATE_INFO_T :=
  FWI (le_val (sub_bytes l 0 2)) (le_val (sub_bytes l 2 2)) (le_val (sub_bytes l 4 2))
      (le_val (sub_bytes l 6 2)) (le_val (sub_bytes l 8 4)) (le_val (sub_bytes l 12 4))
      (sub_bytes l 16 32).

Definition fw_wf (e : FW_UPDATE_INFO_T) : Prop :=
  is_u16 (imageNo e) ∧ is_u16 (imageFlag e) ∧ is_u16 (startBlock e) ∧ is_u16 (endBlock e) ∧
  is_u32 (executeAddr e) ∧ is_u32 (fileLen e) ∧ length (imageName e) = 32%nat.

Lemma length_fw_bytes e : length (imageName e) = 32%nat → length (fw_bytes e) = 48%nat.
Proof. intros H. unfold fw_bytes. rewrite !length_app, H, !length_le_bytes. done. Qed.

Lemma fw_of_bytes_bytes e : fw_wf e → fw_of_bytes (fw_bytes e) = e.
Proof.
  destruct e as [a b c d x y n]. unfold fw_wf. cbn [imageNo imageFlag startBlock endBlock executeAddr fileLen imageName].
  intros (Ha & Hb & Hc & Hd & Hx & Hy & Hn).
  rewrite <- (le_val_u16 a Ha) at 2. rewrite <- (le_val_u16 b Hb) at 2.
  rewrite <- (le_val_u16 c Hc) at 2. rewrite <- (le_val_u16 d Hd) at 2.
  rewrite <- (le_val_u32 x Hx) at 2. rewrite <- (le_val_u32 y Hy) at 2.
  unfold fw_of_bytes. f_equal. unfold fw_bytes, sub_bytes. cbn.
  apply take_ge. rewrite Hn. vm_compute. lia.
Qed.

Lemma concat_slice (l : list (list Z)) n : Forall (λ x, length x = n) l → ∀ i x,
  l !! i = Some x → sub_bytes (concat l) (Z.of_nat (i * n)) (Z.of_nat n) = x.
Proof.
  induction 1 as [|y l Hy _ IH]; intros [|i] x Hx; cbn in Hx; try done; cbn [concat].
  - simplify_eq. unfold sub_bytes. cbn. rewrite Nat2Z.id. by apply take_app_length'.
  - unfold sub_bytes in *. rewrite Nat2Z.id in *. rewrite <- (IH i x Hx).
    rewrite !Nat2Z.id. f_equal. cbn [Nat.mul]. rewrite <- drop_drop.
    rewrite (drop_app_length' y) by done. done.
Qed.

(** C5: What write_system_info put into the block is found there: the two markers,
    the number of images, and every entry of the table. *)
Theorem system_info_roundtrip buf bs ps count tbl block :
  0 <= 2 * ps <= bs → bs < 4294967296 → Forall fw_wf tbl → is_u32 count →
  write_system_info buf bs ps count tbl = Ok block →
  le_val (sub_bytes block (bs - 2 * ps) 4) = 0x574255AA ∧
  le_val (sub_bytes block (bs - 2 * ps + 4) 4) = count ∧
  le_val (sub_bytes block (bs - 2 * ps + 12) 4) = 0x57425963 ∧
  ∀ i e, tbl !! i = Some e →
    fw_of_bytes (sub_bytes block (bs - 2 * ps + 16 + 48 * Z.of_nat i) 48) = e.
Proof.
  intros Hps Hbs HF Hc Hw. unfold write_system_info in Hw.
  rewrite u32_id in Hw by (unfold is_u32; lia). apply bind_ok in Hw as (buf1 & H1 & H2).
  set (p := bs - 2 * ps) in *. assert (0 <= p) by (unfold p; lia).
  set (hdr := le_bytes 4 0x574255AA ++ le_bytes 4 count ++ le_bytes 4 0 ++ le_bytes 4 0x57425963) in *.
  assert (Hh : sub_bytes block p 16 = hdr).
  { rewrite (sub_blit_other _ _ _ _ p 16 H2) by lia. apply (sub_blit_same _ _ _ _ H1). }
  assert (Hf : ∀ o, 0 <= o → o + 4 <= 16 → sub_bytes block (p + o) 4 = sub_bytes hdr o 4).
  { intros. rewrite <- Hh. symmetry. apply sub_bytes_sub; lia. }
  split_and!.
  - rewrite <- (Z.add_0_r p), Hf by lia. done.
  - rewrite Hf by lia. transitivity (le_val (le_bytes 4 count)); [done|by apply le_val_u32].
  - rewrite Hf by lia. done.
  - intros i e Hi.
    assert (Hlen : Forall (λ x, length x = 48%nat) (map fw_bytes tbl)).
    { apply Forall_map. eapply Forall_impl; [exact HF|]. intros x Hx. apply length_fw_bytes, Hx. }
    assert (Hs := concat_slice _ _ Hlen i (fw_bytes e)).
    rewrite list_lookup_fmap, Hi in Hs. specialize (Hs eq_refl).
    assert (Hcl : length (concat (map fw_bytes tbl)) = (length tbl * 48)%nat).
    { clear -Hlen. induction tbl as [|x r IH]; cbn [map concat length]; [done|].
      inversion_clear Hlen as [|? ? Hx Hr]. rewrite length_app, Hx, IH by done. lia. }
    assert (i < length tbl)%nat by (by eapply lookup_lt_Some).
    assert (Hall := sub_blit_same _ _ _ _ H2).
    replace (p + 16 + 48 * Z.of_nat i) with (p + 16 + Z.of_nat (i * 48)) by lia.
    rewrite <- (sub_bytes_sub block (p + 16) (Z.of_nat (length (concat (map fw_bytes tbl))))) by lia.
    rewrite Hall. change 48 with (Z.of_nat 48). rewrite Hs.
    apply fw_of_bytes_bytes. rewrite Forall_forall in HF. apply HF. by eapply list_elem_of_lookup_2.
Qed.

(** *** The loader in the block *)

Lemma optional_size_bound ps : (length ps <= 63)%nat →
  0 <= optional_ini_size (opt_struct ps) <= 512 ∧ optional_ini_size (opt_struct ps) mod 16 = 0.
Proof.
  intros H. unfold optional_ini_size. cbn [Counter opt_struct].
  destruct (Z.eqb_spec (Z.of_nat (length ps)) 0) as [E|E]; [split; [lia|done]|].
  rewrite s32_id by (unfold is_s32; lia).
  pose proof (Z.div_mod (Z.of_nat (length ps)) 2 ltac:(lia)) as Hdm.
  pose proof (Z.mod_pos_bound (Z.of_nat (length ps)) 2 ltac:(lia)).
  destruct (Z.eqb_spec (Z.of_nat (length ps) mod 2) 0).
  - split; [lia|]. replace (8 * (Z.of_nat (length ps) + 1) + 8) with ((Z.of_nat (length ps) / 2 + 1) * 16) by lia.
    apply Z.mod_mul. lia.
  - split; [lia|]. replace (8 * (Z.of_nat (length ps) + 1)) with ((Z.of_nat (length ps) / 2 + 1) * 16) by lia.
    apply Z.mod_mul. lia.
Qed.

Lemma length_optional_bytes ps : (length ps <= 63)%nat → length (optional_bytes (opt_struct ps)) = 512%nat.
Proof.
  intros H. unfold optional_bytes. rewrite !length_app, !length_le_bytes.
  assert (∀ l : list (Z * Z), length (concat (map (λ q, le_bytes 4 (fst q) ++ le_bytes 4 (snd q)) l)) = (8 * length l)%nat) as Hc.
  { induction l; cbn [map concat length]; [done|]. rewrite !length_app, !length_le_bytes, IHl. lia. }
  rewrite Hc. cbn [Pairs opt_struct]. rewrite length_app, length_replicate. lia.
Qed.

(** The loader's boot header: with the parsed optional pairs, the copy succeeds
    exactly when header, pairs and loader fit the block; then the block starts
    with the boot marker, address and size, the pairs follow, and the loader
    starts at the next 16-byte boundary. *)
Theorem nandloader_block_layout buf exe_addr ps loader :
  (length ps <= 63)%nat → 528 <= Z.of_nat (length buf) →
  let opt := optional_ini_size (opt_struct ps) in
  if 16 + opt + Z.of_nat (length loader) <=? Z.of_nat (length buf) then
    ∃ block, copy_nandloader buf exe_addr (opt_struct ps) loader = Ok block ∧
      length block = length buf ∧
      sub_bytes block 0 16 = nand_mark exe_addr (u32 (Z.of_nat (length loader))) ∧
      sub_bytes block 16 opt = take (Z.to_nat opt) (optional_bytes (opt_struct ps)) ∧
      sub_bytes block (16 + opt) (Z.of_nat (length loader)) = loader ∧ (16 + opt) mod 16 = 0
  else copy_nandloader buf exe_addr (opt_struct ps) loader = Crash OutOfBounds.
Proof.
  intros Hps Hbuf opt. destruct (optional_size_bound ps Hps) as [Hb Hm]. fold opt in Hb, Hm.
  unfold copy_nandloader. fold opt.
  set (mark := nand_mark _ _). assert (length mark = 16%nat) as Hmark by done.
  assert (length (take (Z.to_nat opt) (optional_bytes (opt_struct ps))) = Z.to_nat opt) as Hopt
    by (rewrite length_take, length_optional_bytes by done; lia).
  destruct (blit_Ok buf 0 mark) as (b1 & E1 & L1); [lia|rewrite Hmark; lia|].
  destruct (blit_Ok b1 16 (take (Z.to_nat opt) (optional_bytes (opt_struct ps)))) as (b2 & E2 & L2);
    [lia|rewrite Hopt; lia|].
  rewrite E1. cbn [mbind result_bind]. rewrite E2. cbn [mbind result_bind].
  destruct (Z.leb_spec (16 + opt + Z.of_nat (length loader)) (Z.of_nat (length buf))).
  - destruct (blit_Ok b2 (16 + opt) loader) as (b3 & E3 & L3); [lia|lia|].
    exists b3. split_and!; [done|lia| | |by apply (sub_blit_same _ _ _ _ E3)|].
    + rewrite (sub_blit_other _ _ _ _ _ _ E3), (sub_blit_other _ _ _ _ _ _ E2) by lia.
      apply (sub_blit_same _ _ _ _ E1).
    + rewrite (sub_blit_other _ _ _ _ _ _ E3) by lia.
      pose proof (sub_blit_same _ _ _ _ E2) as Hs. rewrite Hopt, Z2Nat.id in Hs by lia. exact Hs.
    + replace (16 + opt) with (opt + 1 * 16) by lia. rewrite Z.mod_add by lia. exact Hm.
  - apply blit_crash. lia.
Qed.

(** *** Flash commands *)

Lemma length_burn_exec bs ps ini tbl n : ∀ i c cmds,
  burn_exec bs ps ini tbl i n c = Ok cmds → length cmds = (2 * n)%nat.
Proof.
  induction n as [|n IH]; intros i c cmds H; cbn [burn_exec] in H; [by simplify_eq|].
  apply bind_ok in H as (? & _ & H). apply bind_ok in H as (r & Hr & H). simplify_eq.
  cbn [length]. rewrite (IH _ _ _ Hr). lia.
Qed.

(** The j-th image gives the commands 2j and 2j+1. *)
Lemma burn_exec_nth bs ps ini tbl n : ∀ i c0 cmds,
  burn_exec bs ps ini tbl i n c0 = Ok cmds → 0 <= i →
  ∀ j e, (j < n)%nat → tbl !! (Z.to_nat i + j)%nat = Some e →
    cmds !! (2 * j)%nat = Some (
      let off := u32 ((startBlock e - uIBRAreaSize) * bs) in
      if imageFlag e =? ImageFlag_Logo then NandWrite Mtd1 off (cstr (Logo ini))
      else if imageFlag e =? ImageFlag_Exec then NandWrite Mtd1 off (cstr (ExecFile ini))
      else match j with
           | O => c0
           | S j' => default c0 (cmds !! (2 * j' + 1)%nat)
           end).
Proof.
  induction n as [|n IH]; intros i c0 cmds H Hi j e Hj He; [lia|]. cbn [burn_exec] in H.
  apply bind_ok in H as (e0 & He0 & H). apply rd_Ok in He0 as [_ He0].
  apply bind_ok in H as (rest & Hr & H). assert (Hlen := length_burn_exec _ _ _ _ _ _ _ _ Hr).
  injection H as <-. destruct j as [|j].
  - rewrite Nat.add_0_r in He. simplify_eq. done.
  - replace (2 * S j)%nat with (S (S (2 * j))) by lia. rewrite lookup_cons2.
    rewrite (IH (i + 1) _ rest Hr ltac:(lia) j e); [|lia|by replace (Z.to_nat (i + 1) + j)%nat with (Z.to_nat i + S j)%nat by lia].
    destruct j as [|j]; [done|].
    replace (2 * S j + 1)%nat with (S (S (2 * j + 1))) by lia. rewrite lookup_cons2.
    destruct (lookup_lt_is_Some_2 rest (2 * j + 1)) as [c ->]; [lia|done].
Qed.

(** Every logo or executable image is written to the execute partition at its
    own block, four blocks (the system area) below its number in the table. *)
Theorem burn_writes_image_at_its_block bs ps out ini tbl n cmds i e :
  burn_images bs ps out ini tbl n = Ok cmds →
  (i < Z.to_nat n)%nat → tbl !! i = Some e →
  imageFlag e = ImageFlag_Logo ∨ imageFlag e = ImageFlag_Exec →
  uIBRAreaSize <= startBlock e → 0 <= bs → (startBlock e - uIBRAreaSize) * bs < 4294967296 →
  NandWrite Mtd1 ((startBlock e - 4) * bs)
    (cstr (if imageFlag e =? ImageFlag_Logo then Logo ini else ExecFile ini)) ∈ cmds.
Proof.
  intros H Hi He Hf H4 Hbs Hb. unfold burn_images in H. apply bind_ok in H as (ex & Hex & [= <-]).
  pose proof (burn_exec_nth _ _ _ _ _ _ _ _ Hex ltac:(lia) i e Hi He) as Hn. cbn zeta in Hn.
  rewrite u32_id in Hn by (unfold is_u32, uIBRAreaSize in *; nia).
  apply list_elem_of_lookup_2 in Hn. unfold uIBRAreaSize in *.
  assert (∀ c, c ∈ ex → c ∈ FlashErase Mtd0 :: concat (map (λ i, [NandWrite Mtd0 (u32 (i * bs)) out; NandDump Mtd0 (u32 (i * bs)) ps])
                             (seqZ 0 4)) ++ FlashErase Mtd1 :: ex) as Hin.
  { intros c Hc. apply list_elem_of_further, elem_of_app. right. by apply list_elem_of_further. }
  apply Hin. destruct Hf as [Hf|Hf]; rewrite Hf in Hn |- *; exact Hn.
Qed.

(** *** What a run burns *)








(** ** Witnesses *)

(** Three files: a loader, a logo and an executable. *)
Definition sample_fs (name : list Z) : option (list Z) :=
  if str_eqb name (lit "nand") then Some (replicate 100 1)
  else if str_eqb name (lit "logo") then Some (replicate 3000 2)
  else if str_eqb name (lit "prog") then Some (replicate 5000 3)
  else if str_eqb name (lit "w.ini") then
    Some (ini_text (lit "nand") (lit "logo") (lit "prog") 2 0x8000)
  else if str_eqb name (lit "t.ini") then Some (opt_text [(16, 32)])
  else None.

Definition name_buf (s : list Z) : list Z := s ++ replicate (512 - length s) 0.

Definition sample_images : list (list Z * Z * Z) :=
  [(name_buf (lit "logo"), ImageFlag_Logo, 0x500000); (name_buf (lit "prog"), ImageFlag_Exec, 0x8000)].

Lemma sample_images_sized : Forall2 (sized sample_fs) sample_images [3000; 5000].
Proof.
  repeat constructor; try (vm_compute; reflexivity); try (vm_compute; discriminate);
    unfold is_u32; lia.
Qed.

Lemma image_table_layout_witness :
  ∃ tbl, add_images sample_fs 2048 (-1, replicate MAX_FWInfo fw_blank)
           ((name_buf (lit "nand"), ImageFlag_System, 0x900000) :: sample_images) = Ok (2, tbl) ∧
    (∃ e, tbl !! 0%nat = Some e ∧ startBlock e = 0 ∧ endBlock e = 3) ∧
    ∀ i s, [3000; 5000] !! i = Some s → ∃ prev e,
      tbl !! i = Some prev ∧ tbl !! S i = Some e ∧
      startBlock e = endBlock prev + 1 ∧ endBlock e < 65536 ∧
      fileLen e = s ∧ s < (endBlock e - startBlock e + 1) * 2048.
Proof.
  apply (image_table_layout sample_fs 2048 (name_buf (lit "nand")) 0x900000 100 sample_images [3000; 5000]);
    [lia|vm_compute; reflexivity|apply sample_images_sized|vm_compute; lia|vm_compute; discriminate].
Defined.

Lemma too_many_images_overflow_witness :
  add_images sample_fs 2048 (-1, replicate MAX_FWInfo fw_blank)
    ((name_buf (lit "nand"), ImageFlag_System, 0x900000) ::
     replicate 16 (name_buf (lit "prog"), ImageFlag_Exec, 0x8000)) = Crash OutOfBounds.
Proof.
  apply too_many_images_overflow; [lia| |vm_compute; lia|by intros im [= <-]].
  constructor; [exists 100; vm_compute; reflexivity|].
  apply Forall_replicate. exists 5000. vm_compute. reflexivity.
Defined.

Definition sample_table : list FW_UPDATE_INFO_T :=
  [FWI 0 3 0 3 0x900000 100 (replicate 32 65); FWI 1 4 4 5 0x500000 3000 (replicate 32 66)].

Lemma system_info_roundtrip_witness :
  ∃ block, write_system_info (replicate 8192 0xFF) 8192 512 2 sample_table = Ok block ∧
    le_val (sub_bytes block 7168 4) = 0x574255AA ∧ le_val (sub_bytes block 7172 4) = 2 ∧
    le_val (sub_bytes block 7180 4) = 0x57425963 ∧
    ∀ i e, sample_table !! i = Some e →
      fw_of_bytes (sub_bytes block (7184 + 48 * Z.of_nat i) 48) = e.
Proof.
  destruct (write_system_info (replicate 8192 0xFF) 8192 512 2 sample_table) as [block|c] eqn:E;
    [|vm_compute in E; discriminate E].
  exists block. split; [reflexivity|].
  apply (system_info_roundtrip (replicate 8192 0xFF) 8192 512 2 sample_table block); try lia.
  - repeat constructor; cbn; unfold is_u16, is_u32; lia.
  - unfold is_u32. lia.
  - exact E.
Defined.

Lemma nandloader_block_layout_witness :
  ∃ block, copy_nandloader (replicate 2048 0xFF) 0x900000 (opt_struct [(16, 32)]) [1; 2; 3] = Ok block ∧
    length block = length (replicate 2048 0xFF) ∧
    sub_bytes block 0 16 = nand_mark 0x900000 3 ∧
    sub_bytes block 16 16 = take 16 (optional_bytes (opt_struct [(16, 32)])) ∧
    sub_bytes block 32 3 = [1; 2; 3] ∧ (16 + 16) mod 16 = 0.
Proof.
  exact (nandloader_block_layout (replicate 2048 0xFF) 0x900000 [(16, 32)] [1; 2; 3]
    ltac:(vm_compute; lia) ltac:(vm_compute; discriminate)).
Defined.

Lemma burn_writes_image_at_its_block_witness :
  NandWrite Mtd1 0 (lit "logo") ∈
    match burn_images 8192 512 (lit "out") (stored KLogo (lit "logo") blank_ini) sample_table 2 with
    | Ok cmds => cmds | Crash _ => [] end.
Proof.
  destruct (burn_images 8192 512 (lit "out") (stored KLogo (lit "logo") blank_ini) sample_table 2)
    as [cmds|c] eqn:E; [|vm_compute in E; discriminate E].
  apply (burn_writes_image_at_its_block 8192 512 (lit "out") (stored KLogo (lit "logo") blank_ini)
    sample_table 2 cmds 1 (FWI 1 4 4 5 0x500000 3000 (replicate 32 66)) E);
    [vm_compute; lia|reflexivity|left; reflexivity|vm_compute; discriminate|lia|vm_compute; reflexivity].
Defined.


