(* ===== verification/JpegHeader.v ===== *)
(** * JpegHeader: the marker scanner of the JPEG codec demo

    Models [ParsingJPEG] of src/jpeg_codec/jpeg_demo.c, which walks the markers
    of a JPEG file held in memory, records where every application and comment
    segment lies in the global arrays [appOffset]/[appSize] (10 entries each)
    and reports the size in the baseline frame header.  The scanner is compared
    with [scan], a reference that consumes the bytes as a list and keeps the
    segments in an unbounded list.  [Write2File] of the same file is modelled
    against a file descriptor given by its [write] results. *)
From S2P Require Import Prelude.

Open Scope Z_scope.

Definition MAX_APP : nat := 10.

(** ** The scanner *)

(** The globals [appOffset], [appSize], [appNUm] and the two out parameters. *)
Record jpeg_out := JpegOut {
  appOffset : list Z;
  appSize : list Z;
  appNUm : Z;
  Width : Z;
  Height : Z;
}.

#[export] Instance jpeg_out_eq_dec : EqDecision jpeg_out.
Proof. solve_decision. Defined.

Inductive marker := SOI | SOF_other | DQT | SOF0 | SOS | DHT | APP_COM | Other.

#[export] Instance marker_eq_dec : EqDecision marker.
Proof. solve_decision. Defined.

Definition marker_of (b : Z) : marker :=
  if b =? 0xD8 then SOI
  else if existsb (Z.eqb b) [0xC1; 0xC2; 0xC3; 0xC5; 0xC6; 0xC7; 0xC8; 0xC9;
                             0xCA; 0xCB; 0xCD; 0xCE; 0xCF] then SOF_other
  else if b =? 0xDB then DQT
  else if b =? 0xC0 then SOF0
  else if b =? 0xDA then SOS
  else if b =? 0xC4 then DHT
  else if ((0xE0 <=? b) && (b <=? 0xEF)) || (b =? 0xFE) then APP_COM
  else Other.

(** What one iteration of the loop does: go on at an index, or return. *)
Inductive step := Next (o : jpeg_out) (index : Z) | Return (o : jpeg_out) (ret : Z).

(** [HByte = Buffer[index++]; LByte = Buffer[index++];] and their 16-bit value. *)
Definition read_be16 (buf : list Z) (index : Z) : result Z :=
  h ← rd buf index; l ← rd buf (index + 1); Ok (h * 256 + l).

(** [if(index > Length) return -1; break;] *)
Definition check_index (o : jpeg_out) (index len : Z) : step :=
  if len <? index then Return o (-1) else Next o index.

Definition record_app (o : jpeg_out) (offset size : Z) : result jpeg_out :=
  offs ← wr (appOffset o) (appNUm o) (u32 offset);
  sizes ← wr (appSize o) (appNUm o) (u32 size);
  Ok (JpegOut offs sizes (u32 (appNUm o + 1)) (Width o) (Height o)).

(** The [switch] of the loop; [index] is past the marker's second byte. *)
Definition parse_marker (buf : list Z) (len : Z) (o : jpeg_out) (index : Z)
    (m : marker) : result step :=
  match m with
  | SOI | Other => Ok (Next o index)
  | SOF_other => Ok (Return o (-1))
  | DQT =>
      if len <? index + 2 then Ok (Return o (-1)) else
      n ← read_be16 buf index;
      let MLength := u16 (n - 2) in
      if negb (MLength =? 65) then
        if negb (MLength mod 65 =? 0) then Ok (Return o (-1))
        else Ok (check_index o (index + 2 + MLength) len)
      else Ok (check_index o (index + 2 + 64) len)
  | SOF0 =>
      if len <? index + 7 then Ok (Return o (-1)) else
      _ ← read_be16 buf index;
      h ← read_be16 buf (index + 3);
      w ← read_be16 buf (index + 5);
      Ok (Return (JpegOut (appOffset o) (appSize o) (appNUm o) w h) 0)
  | SOS | DHT =>
      if len <? index + 2 then Ok (Return o (-1)) else
      MLength ← read_be16 buf index;
      Ok (check_index o (index + 2 + (MLength - 2)) len)
  | APP_COM =>
      if len <? index + 2 then Ok (Return o (-1)) else
      MLength ← read_be16 buf index;
      o' ← record_app o (index + 2 - 4) (MLength + 2);
      Ok (check_index o' (index + 2 + (MLength - 2)) len)
  end.

Definition parse_step (buf : list Z) (len : Z) (o : jpeg_out) (index : Z) : result step :=
  HByte ← rd buf index;
  if HByte =? 0xFF then
    LByte ← rd buf (index + 1);
    parse_marker buf len o (index + 2) (marker_of LByte)
  else Ok (Next o (index + 1)).

Fixpoint parse_loop (fuel : nat) (buf : list Z) (len : Z) (o : jpeg_out) (index : Z)
    : result (jpeg_out * Z) :=
  if index <? len then
    match fuel with
    | O => Crash OutOfFuel
    | S fuel =>
        s ← parse_step buf len o index;
        match s with
        | Next o' index' => parse_loop fuel buf len o' index'
        | Return o' ret => Ok (o', ret)
        end
    end
  else Ok (o, -1).

(** Every iteration moves [index] forward, so [Length] iterations are enough. *)
Definition ParsingJPEG (o : jpeg_out) (buf : list Z) (len : Z) : result (jpeg_out * Z) :=
  parse_loop (Z.to_nat len) buf len
    (JpegOut (appOffset o) (appSize o) 0 (Width o) (Height o)) 0.

(** ** Reference: the bytes as a list, the segments unbounded *)

Definition be16 (h l : Z) : Z := h * 256 + l.

(** The segments found (offset, size) and the frame size (width, height) when
    a baseline header was reached. *)
Definition scan_result : Type := list (Z * Z) * option (Z * Z).

(** What starts at the front of the bytes: the end of the scan, or an item of
    [n] bytes that contributes segments to the table. *)
Inductive item := Stop (r : scan_result) | Item (segs : list (Z * Z)) (n : Z).

(** An item of [n] bytes after the marker, when that many are left. *)
Definition sized (segs : list (Z * Z)) (n : Z) (r : list Z) : item :=
  if n <=? Z.of_nat (length r) then Item segs (2 + n) else Stop (segs, None).

Definition item_at (pos : Z) (l : list Z) : item :=
  match l with
  | [] => Stop ([], None)
  | h :: t =>
      if h =? 0xFF then
        match t with
        | [] => Stop ([], None)
        | m :: r =>
            match marker_of m, r with
            | (SOI | Other), _ => Item [] 2
            | DQT, a :: b :: _ =>
                if be16 a b =? 67 then sized [] 66 r
                else if (2 <=? be16 a b) && ((be16 a b - 2) mod 65 =? 0)
                then sized [] (be16 a b) r
                else Stop ([], None)
            | (SOS | DHT), a :: b :: _ => sized [] (be16 a b) r
            | APP_COM, a :: b :: _ => sized [(pos, be16 a b + 2)] (be16 a b) r
            | SOF0, _ :: _ :: _ :: h1 :: h0 :: w1 :: w0 :: _ =>
                Stop ([], Some (be16 w1 w0, be16 h1 h0))
            | _, _ => Stop ([], None)
            end
        end
      else Item [] 1
  end.

Fixpoint scan (fuel : nat) (pos : Z) (l : list Z) : scan_result :=
  match item_at pos l, fuel with
  | Stop r, _ => r
  | Item segs n, S fuel =>
      let r := scan fuel (pos + n) (drop (Z.to_nat n) l) in (segs ++ r.1, r.2)
  | Item segs n, O => ([], None)
  end.

(** What the globals and the return value are for a scan's result. *)
Fixpoint record_all (o : jpeg_out) (segs : list (Z * Z)) : result jpeg_out :=
  match segs with
  | [] => Ok o
  | (offset, size) :: segs =>
      o' ← record_app o offset size; record_all o' segs
  end.

Definition set_size (o : jpeg_out) (out : option (Z * Z)) : jpeg_out * Z :=
  match out with
  | Some (w, h) => (JpegOut (appOffset o) (appSize o) (appNUm o) w h, 0)
  | None => (o, -1)
  end.

Definition replay (o : jpeg_out) (r : scan_result) : result (jpeg_out * Z) :=
  o' ← record_all o r.1; Ok (set_size o' r.2).

(** ** The scanner follows the reference *)

(** The bytes the scanner has yet to look at. *)
Definition from (buf : list Z) (len index : Z) : list Z :=
  take (Z.to_nat (len - index)) (drop (Z.to_nat index) buf).

Lemma length_from buf len index :
  len <= Z.of_nat (length buf) → 0 <= index <= len →
  Z.of_nat (length (from buf len index)) = len - index.
Proof. intros. unfold from. rewrite length_take, length_drop. lia. Qed.

Lemma drop_from buf len index k :
  0 <= index → 0 <= k → drop (Z.to_nat k) (from buf len index) = from buf len (index + k).
Proof.
  intros. unfold from. rewrite skipn_firstn_comm, drop_drop.
  f_equal; [lia|]. f_equal. lia.
Qed.

Lemma rd_from buf len index k v :
  0 <= index → 0 <= k → from buf len index !! Z.to_nat k = Some v →
  rd buf (index + k) = Ok v.
Proof.
  unfold from. intros ?? [Hl _]%lookup_take_Some. rewrite lookup_drop in Hl.
  apply rd_Ok. split; [lia|]. rewrite <- Hl. f_equal. lia.
Qed.

Lemma bytes_from (buf : list Z) len index :
  Forall is_u8 buf → Forall is_u8 (from buf len index).
Proof. intros. unfold from. by apply Forall_take, Forall_drop. Qed.

Lemma item_at_progress pos l segs n :
  Forall is_u8 l → item_at pos l = Item segs n → 0 < n <= Z.of_nat (length l).
Proof.
  intros Hb. unfold item_at, sized. destruct l as [|h t]; [done|].
  destruct (h =? 255); [|intros [= <- <-]; cbn [length]; lia].
  destruct t as [|m r]; [done|].
  assert (∀ a b r', r = a :: b :: r' → 0 <= be16 a b) as Hp.
  { intros a b r' ->. inversion_clear Hb as [|?? _ Hb1]. inversion_clear Hb1 as [|?? _ Hb2].
    inversion_clear Hb2 as [|?? Ha Hb3]. inversion_clear Hb3 as [|?? Hb _].
    unfold be16, is_u8 in *. lia. }
  destruct (marker_of m), r as [|a [|b r']]; try specialize (Hp a b r' eq_refl);
    repeat case_match; intros; simplify_eq; zcmp; cbn [length] in *; lia.
Qed.

Lemma record_all_app o segs segs' :
  record_all o (segs ++ segs') = (o' ← record_all o segs; record_all o' segs').
Proof.
  revert o. induction segs as [|[off sz] segs IH]; intros o; cbn [app record_all]; [done|].
  by destruct (record_app o off sz); cbn.
Qed.

Section scanner.
Context (buf : list Z) (len : Z).
Hypothesis buf_bytes : Forall is_u8 buf.
(** One byte past [Length] is readable: a file that ends in 0xFF makes the
    scanner read the byte after it. *)
Hypothesis len_buf : 0 <= len < Z.of_nat (length buf).

Lemma check_index_sized o segs index m n :
  0 <= index → index + 2 <= len → m = index + 2 + n → 0 <= n →
  check_index o m len =
    match sized segs n (from buf len (index + 2)) with
    | Item _ k => Next o (index + k)
    | Stop _ => Return o (-1)
    end.
Proof.
  intros ?? -> ?. unfold check_index, sized. rewrite length_from by lia.
  destruct (Z.ltb_spec len (index + 2 + n)), (Z.leb_spec n (len - (index + 2)));
    try lia; f_equal; lia.
Qed.

Lemma read_be16_from index i k a b :
  i = index + k → 0 <= index → 0 <= k →
  from buf len index !! Z.to_nat k = Some a →
  from buf len index !! Z.to_nat (k + 1) = Some b →
  read_be16 buf i = Ok (be16 a b).
Proof.
  intros -> ?? Ha Hb. unfold read_be16. rewrite (rd_from buf len index k a) by (done || lia).
  rewrite <- Z.add_assoc, (rd_from buf len index (k + 1) b) by (done || lia). done.
Qed.

(** The outcome of an iteration, in terms of the item at the front. *)
Definition after (fuel : nat) (o : jpeg_out) (index : Z) (it : item) :=
  match it with
  | Stop r => replay o r
  | Item segs n => o' ← record_all o segs; parse_loop fuel buf len o' (index + n)
  end.

(** How the loop goes on after [parse_marker]. *)
Definition resume (fuel : nat) (s : step) :=
  match s with
  | Next o' index' => parse_loop fuel buf len o' index'
  | Return o' ret => Ok (o', ret)
  end.

Lemma resume_sized fuel o segs index m n :
  0 <= index → index + 2 <= len → m = index + 2 + n → 0 <= n →
  (o' ← record_all o segs; resume fuel (check_index o' m len)) =
  after fuel o index (sized segs n (from buf len (index + 2))).
Proof.
  intros. unfold sized, after, replay. rewrite length_from by lia. unfold check_index.
  destruct (Z.ltb_spec len m), (Z.leb_spec n (len - (index + 2))); try lia; cbn;
    destruct (record_all o segs); cbn; try done; f_equal; lia.
Qed.

Lemma parse_marker_past o m fuel :
  (s ← parse_marker buf len o (len + 1) m; resume fuel s) = Ok (o, -1).
Proof.
  assert (parse_marker buf len o (len + 1) m = Ok (Next o (len + 1)) ∨
          parse_marker buf len o (len + 1) m = Ok (Return o (-1))) as [-> | ->]; [| |done].
  - unfold parse_marker.
    rewrite (proj2 (Z.ltb_lt len (len + 1 + 2))), (proj2 (Z.ltb_lt len (len + 1 + 7))) by lia.
    destruct m; auto.
  - destruct fuel; cbn; destruct (Z.ltb_spec (len + 1) len); done || lia.
Qed.

Lemma sized_field fuel o index (g : Z → result step) r k e :
  0 <= index → index + 2 <= len → from buf len (index + 2) = r →
  (∀ a b r', r = a :: b :: r' →
     0 <= be16 a b < 65536 → (s ← g (be16 a b); resume fuel s) = after fuel o index (k a b)) →
  e = match r with a :: b :: _ => k a b | _ => Stop ([], None) end →
  (s ← (if len <? index + 2 + 2 then Ok (Return o (-1)) else
          n ← read_be16 buf (index + 2); g n); resume fuel s) = after fuel o index e.
Proof.
  intros Hi Hlen Hr Hk ->.
  pose proof (length_from buf len (index + 2) ltac:(lia) ltac:(lia)) as Hl.
  pose proof (bytes_from buf len (index + 2) buf_bytes) as Hb.
  pose proof (read_be16_from (index + 2) (index + 2) 0) as Hrd. rewrite Hr in Hl, Hb, Hrd.
  destruct r as [|a [|b r']]; cbn [length] in Hl.
  1,2: rewrite (proj2 (Z.ltb_lt _ _)) by lia; done.
  rewrite (proj2 (Z.ltb_ge _ _)) by lia. rewrite (Hrd a b) by (done || lia).
  apply (Hk a b r'); [done|]. inversion_clear Hb as [|?? Ha Hb']. inversion_clear Hb' as [|?? Hb _].
  unfold is_u8, be16 in *. lia.
Qed.

Lemma parse_marker_item fuel o index m r :
  0 <= index → index + 2 <= len → from buf len index = 0xFF :: m :: r →
  (s ← parse_marker buf len o (index + 2) (marker_of m); resume fuel s) =
  after fuel o index (item_at index (0xFF :: m :: r)).
Proof.
  intros Hi Hlen H.
  assert (Hr := drop_from buf len index 2 ltac:(lia) ltac:(lia)).
  rewrite H in Hr. change (drop (Z.to_nat 2) (255 :: m :: r)) with r in Hr. symmetry in Hr.
  assert (Hsz := fun segs n mm => resume_sized fuel o segs index mm n Hi Hlen). rewrite Hr in Hsz.
  unfold item_at. change (255 =? 255) with true. cbv iota.
  destruct (marker_of m); try done; unfold parse_marker.
  - eapply (sized_field _ _ _ _ r); [done..| |done]. intros a b _ _ Hn. cbv beta zeta.
    destruct (Z.eqb_spec (be16 a b) 67) as [-> |Hne].
    { apply (Hsz []); lia. }
    destruct (Z.leb_spec 2 (be16 a b)).
    + rewrite u16_id by (unfold is_u16; lia).
      rewrite (proj2 (Z.eqb_neq (be16 a b - 2) 65)) by lia. cbn [negb andb].
      destruct (Z.eqb_spec ((be16 a b - 2) mod 65) 0); cbn [negb]; [|done].
      apply (Hsz []); lia.
    + assert (be16 a b = 0 ∨ be16 a b = 1) as [-> | ->] by lia; done.
  - pose proof (length_from buf len (index + 2) ltac:(lia) ltac:(lia)) as Hl.
    pose proof (fun k a b => read_be16_from (index + 2) (index + 2 + k) k a b eq_refl ltac:(lia)) as Hrd.
    rewrite Hr in Hl, Hrd.
    destruct (Z.ltb_spec len (index + 2 + 7)).
    { destruct r as [|? [|? [|? [|? [|? [|? [|? ?]]]]]]]; try done. cbn [length] in Hl. lia. }
    destruct r as [|a [|b [|c [|h1 [|h0 [|w1 [|w0 r]]]]]]]; try (cbn [length] in Hl; lia).
    rewrite <- (Z.add_0_r (index + 2)), (Hrd 0 a b) by (done || lia).
    rewrite Z.add_0_r, (Hrd 3 h1 h0), (Hrd 5 w1 w0) by (done || lia). done.
  - eapply (sized_field _ _ _ _ r); [done..| |done]. intros a b _ _ Hn. apply (Hsz []); lia.
  - eapply (sized_field _ _ _ _ r); [done..| |done]. intros a b _ _ Hn. apply (Hsz []); lia.
  - eapply (sized_field _ _ _ _ r); [done..| |done]. intros a b _ _ Hn. cbv beta.
    rewrite <- (Hsz [(index, be16 a b + 2)] (be16 a b) (index + 2 + 2 + (be16 a b - 2))) by lia.
    cbn [record_all]. replace (index + 2 + 2 - 4) with index by lia.
    by destruct (record_app o index (be16 a b + 2)).
Qed.

Lemma parse_loop_item fuel o index :
  0 <= index < len →
  parse_loop (S fuel) buf len o index =
  after fuel o index (item_at index (from buf len index)).
Proof.
  intros Hi. cbn [parse_loop]. rewrite (proj2 (Z.ltb_lt _ _)) by lia.
  unfold parse_step.
  assert (Hl := length_from buf len index ltac:(lia) ltac:(lia)).
  assert (Hrd := rd_from buf len index). assert (Hm := parse_marker_item fuel o index).
  destruct (from buf len index) as [|h t]; [cbn [length] in Hl; lia|].
  rewrite <- (Z.add_0_r index) at 1. rewrite (Hrd 0 h) by (done || lia).
  destruct (Z.eqb_spec h 255) as [-> |Hne].
  - cbn [mbind result_bind]. rewrite Z.eqb_refl. destruct t as [|m r]; cbn [length] in Hl.
    + destruct (rd_is_ok buf (index + 1) ltac:(lia)) as [m ->].
      replace (index + 2) with (len + 1) by lia. apply parse_marker_past.
    + rewrite (Hrd 1 m) by (done || lia). apply Hm; [lia..|done].
  - cbn [mbind result_bind item_at]. rewrite (proj2 (Z.eqb_neq _ _) Hne). done.
Qed.

Lemma parse_loop_scan fuel o index :
  0 <= index <= len → len - index <= Z.of_nat fuel →
  parse_loop fuel buf len o index = replay o (scan fuel index (from buf len index)).
Proof.
  revert o index. induction fuel as [|fuel IH]; intros o index Hi Hf.
  { assert (index = len) as -> by lia. unfold from. rewrite Z.sub_diag. cbn [parse_loop].
    rewrite Z.ltb_irrefl. done. }
  destruct (decide (index = len)) as [-> |Hne].
  { unfold from. rewrite Z.sub_diag. cbn [parse_loop]. rewrite Z.ltb_irrefl. done. }
  rewrite parse_loop_item by lia. cbn [scan].
  destruct (item_at index (from buf len index)) as [r|segs n] eqn:E; [done|].
  apply item_at_progress in E; [|by apply bytes_from].
  rewrite length_from in E by lia. rewrite drop_from by lia.
  unfold replay. cbn [after fst snd]. rewrite record_all_app.
  destruct (record_all o segs) as [o'|]; [|done]. cbn [mbind result_bind].
  rewrite IH by lia. done.
Qed.
End scanner.

(** *** The table of segments *)

Lemma record_all_ok o segs :
  length (appOffset o) = MAX_APP → length (appSize o) = MAX_APP →
  0 <= appNUm o → appNUm o + Z.of_nat (length segs) <= 10 →
  ∃ o', record_all o segs = Ok o' ∧
    appNUm o' = appNUm o + Z.of_nat (length segs) ∧
    take (Z.to_nat (appNUm o')) (appOffset o') =
      take (Z.to_nat (appNUm o)) (appOffset o) ++ map (λ s, u32 s.1) segs ∧
    take (Z.to_nat (appNUm o')) (appSize o') =
      take (Z.to_nat (appNUm o)) (appSize o) ++ map (λ s, u32 s.2) segs ∧
    Width o' = Width o ∧ Height o' = Height o.
Proof.
  revert o. induction segs as [|[off sz] segs IH]; intros o Ho Hs Hn Hl.
  { exists o. cbn [length map]. rewrite !app_nil_r, Z.add_0_r. done. }
  cbn [length] in Hl. cbn [record_all]. unfold record_app, MAX_APP in *.
  rewrite !wr_Ok by lia. cbn [mbind result_bind].
  rewrite (u32_id (appNUm o + 1)) by (unfold is_u32; lia).
  destruct (IH (JpegOut (<[Z.to_nat (appNUm o):=u32 off]> (appOffset o))
                        (<[Z.to_nat (appNUm o):=u32 sz]> (appSize o))
                        (appNUm o + 1) (Width o) (Height o)))
    as (o' & -> & Hn' & Hoff & Hsz & HW & HH); cbn; autorewrite with clist; try lia.
  exists o'. split; [done|]. cbn in Hn'. split; [lia|].
  rewrite Hoff, Hsz. cbn. replace (Z.to_nat (appNUm o + 1)) with (S (Z.to_nat (appNUm o))) by lia.
  rewrite !take_insert_snoc by lia. rewrite <- !app_assoc. done.
Qed.

Lemma record_all_overflow o segs :
  length (appOffset o) = MAX_APP → length (appSize o) = MAX_APP →
  0 <= appNUm o <= 10 → 10 < appNUm o + Z.of_nat (length segs) →
  record_all o segs = Crash OutOfBounds.
Proof.
  revert o. induction segs as [|[off sz] segs IH]; intros o Ho Hs Hn Hl.
  { cbn [length] in Hl. lia. }
  cbn [length] in Hl. cbn [record_all]. unfold record_app, MAX_APP in *.
  destruct (decide (appNUm o = 10)) as [He|Hne].
  { rewrite (wr_crash (appOffset o)) by lia. done. }
  rewrite !wr_Ok by lia. cbn [mbind result_bind].
  rewrite (u32_id (appNUm o + 1)) by (unfold is_u32; lia).
  apply IH; cbn; autorewrite with clist; lia.
Qed.

(** *** Facts about the reference *)

Lemma scan_stop fuel pos l r : item_at pos l = Stop r → scan fuel pos l = r.
Proof. intros E. destruct fuel; cbn [scan]; by rewrite E. Qed.

Lemma scan_item fuel pos l segs n :
  item_at pos l = Item segs n →
  scan (S fuel) pos l =
    (segs ++ (scan fuel (pos + n) (drop (Z.to_nat n) l)).1,
     (scan fuel (pos + n) (drop (Z.to_nat n) l)).2).
Proof. intros E. cbn [scan]. by rewrite E. Qed.

Lemma scan_fuel f1 f2 pos l :
  Forall is_u8 l → (length l <= f1)%nat → (length l <= f2)%nat → scan f1 pos l = scan f2 pos l.
Proof.
  revert f2 pos l. induction f1 as [|f1 IH]; intros f2 pos l Hb H1 H2.
  { destruct l; [|cbn in H1; lia]. by rewrite !(scan_stop _ _ _ ([], None)). }
  destruct (item_at pos l) as [r|segs n] eqn:E; [by rewrite !(scan_stop _ _ _ r)|].
  pose proof (item_at_progress _ _ _ _ Hb E).
  destruct f2 as [|f2]; [lia|]. rewrite !(scan_item _ _ _ _ _ E), (IH f2); try done.
  - by apply Forall_drop.
  - rewrite length_drop. lia.
  - rewrite length_drop. lia.
Qed.

Definition item_segs (it : item) : list (Z * Z) :=
  match it with Stop r => r.1 | Item segs _ => segs end.

Lemma item_at_segs pos l :
  Forall is_u8 l → l ≠ [] →
  Forall (λ s, s.1 = pos ∧ 2 <= s.2 <= 65537 ∧
            match item_at pos l with
            | Item _ n => s.2 = n
            | Stop r => r.2 = None
            end) (item_segs (item_at pos l)).
Proof.
  intros Hb Hl. destruct l as [|h t]; [done|]. unfold item_at, sized, item_segs.
  destruct (h =? 255); [|constructor]. destruct t as [|m r]; [constructor|].
  assert (∀ a b r', r = a :: b :: r' → 0 <= be16 a b < 65536) as Hp.
  { intros a b r' ->. inversion_clear Hb as [|?? _ Hb1]. inversion_clear Hb1 as [|?? _ Hb2].
    inversion_clear Hb2 as [|?? Ha Hb3]. inversion_clear Hb3 as [|?? Hb _].
    unfold be16, is_u8 in *. lia. }
  destruct (marker_of m), r as [|a [|b r']]; try specialize (Hp a b r' eq_refl);
    repeat case_match; simplify_eq; repeat constructor; cbn [fst snd]; lia || done.
Qed.

(** Positions and sizes of the segments: all fit 32 bits, and when a frame
    header is found they all lie inside the file. *)
Lemma scan_bounds fuel pos l :
  Forall is_u8 l →
  Forall (λ s, pos <= s.1 < pos + Z.of_nat (length l) ∧ 2 <= s.2 <= 65537 ∧
               ((scan fuel pos l).2 ≠ None → s.1 + s.2 <= pos + Z.of_nat (length l)))
         (scan fuel pos l).1.
Proof.
  intros Hb. destruct l as [|h t] eqn:El.
  { rewrite (scan_stop _ _ _ ([], None)) by done. constructor. }
  rewrite <- El in *. assert (l ≠ []) as Hl by (by subst). clear El h t.
  revert pos l Hb Hl. induction fuel as [|fuel IH]; intros pos l Hb Hl;
    pose proof (item_at_segs pos l Hb Hl) as Hs;
    (destruct (item_at pos l) as [r|segs n] eqn:E;
     [rewrite (scan_stop _ _ _ r E); eapply Forall_impl; [exact Hs|];
      intros s (? & ? & ?); destruct l; [done|]; cbn [length]; split_and!; [lia..|done]|]).
  - cbn [scan]. rewrite E. constructor.
  - rewrite (scan_item _ _ _ _ _ E). cbn [fst snd]. pose proof (item_at_progress _ _ _ _ Hb E) as Hn.
    apply Forall_app. split.
    + eapply Forall_impl; [exact Hs|]. intros s (? & ? & ?). split_and!; lia.
    + destruct (drop (Z.to_nat n) l) as [|h t] eqn:Ed.
      { rewrite (scan_stop _ _ _ ([], None)) by done. constructor. }
      rewrite <- Ed. assert (length (drop (Z.to_nat n) l) = length l - Z.to_nat n)%nat as Hd
        by apply length_drop.
      eapply Forall_impl; [apply IH; [by apply Forall_drop|by rewrite Ed]|].
      intros s (? & ? & Hin). split_and!; [lia..|]. intros Hne%Hin. lia.
Qed.

Lemma ParsingJPEG_scan o buf len :
  Forall is_u8 buf → 0 <= len < Z.of_nat (length buf) →
  ParsingJPEG o buf len =
    replay (JpegOut (appOffset o) (appSize o) 0 (Width o) (Height o))
           (scan (Z.to_nat len) 0 (take (Z.to_nat len) buf)).
Proof.
  intros Hb Hlen. unfold ParsingJPEG. rewrite parse_loop_scan by (done || lia).
  unfold from. by rewrite Z.sub_0_r.
Qed.

(** The values the caller sees after a scan with few enough segments. *)
Definition reports (o o' : jpeg_out) (r : scan_result) : Prop :=
  let n := length r.1 in
  appNUm o' = Z.of_nat n ∧
  zip (take n (appOffset o')) (take n (appSize o')) = r.1 ∧
  (Width o', Height o') = default (Width o, Height o) r.2.

Lemma map_u32_id (l : list (Z * Z)) (f : Z * Z → Z) :
  Forall (λ s, is_u32 (f s)) l → map (λ s, u32 (f s)) l = map f l.
Proof. induction 1 as [|s l Hs _ IH]; [done|]. cbn [map]. by rewrite u32_id, IH. Qed.

Lemma replay_reports o r :
  length (appOffset o) = MAX_APP → length (appSize o) = MAX_APP →
  appNUm o = 0 → Forall (λ s, is_u32 s.1 ∧ is_u32 s.2) r.1 → (length r.1 <= MAX_APP)%nat →
  ∃ o', replay o r = Ok (o', if r.2 then 0 else -1) ∧ reports o o' r.
Proof.
  intros Ho Hs Hn Hu Hl. unfold MAX_APP in Hl.
  destruct (record_all_ok o r.1) as (o' & Hr & Hn' & Hoff & Hsz & HW & HH); [done..|lia|lia|].
  rewrite Hn in *. change (Z.to_nat 0) with 0%nat in *. cbn [take app] in Hoff, Hsz.
  replace (Z.to_nat (appNUm o')) with (length r.1) in * by lia.
  rewrite map_u32_id in Hoff by (eapply Forall_impl; [exact Hu|naive_solver]).
  rewrite map_u32_id in Hsz by (eapply Forall_impl; [exact Hu|naive_solver]).
  assert (zip (map fst r.1) (map snd r.1) = r.1) as Hz.
  { clear. induction r.1 as [|[a b] l IH]; cbn; [done|]. by f_equal. }
  exists (set_size o' r.2).1. unfold replay. rewrite Hr.
  destruct r as [segs [[w h]|]]; cbn in *; (split; [done|]); unfold reports; cbn;
    rewrite Hoff, Hsz; (split_and!; [lia|exact Hz|congruence]).
Qed.

(** ** [Write2File]

    The file system is given by the results of the successive calls of
    [write]; [out] is what the file holds. *)
Fixpoint write_loop (results : list Z) (buf : list Z) (len totalcnt : Z) (out : list Z)
    : result (list Z * Z) :=
  if totalcnt <? u32 len then
    match results with
    | [] => Crash OutOfFuel
    | res :: results =>
        let out' := out ++ take (Z.to_nat res) (drop (Z.to_nat totalcnt) buf) in
        let wlen := u32 res in
        if wlen <? 0 then Ok (out', -1)
        else write_loop results buf len (u32 (totalcnt + wlen)) out'
    end
  else Ok (out, 0).

Definition Write2File (fd : Z) (results : list Z) (buf : list Z) (len : Z)
    : result (list Z * Z) :=
  if fd <? 0 then Ok ([], -1) else write_loop results buf len 0 [].

(** Results of [write] that make progress and add up to what is asked. *)
Fixpoint full_writes (todo : Z) (results : list Z) : Prop :=
  match results with
  | [] => todo = 0
  | r :: results => 0 < r <= todo ∧ full_writes (todo - r) results
  end.

Lemma write_loop_full results buf len totalcnt :
  0 <= totalcnt → is_s32 len → len = Z.of_nat (length buf) →
  full_writes (len - totalcnt) results →
  write_loop results buf len totalcnt (take (Z.to_nat totalcnt) buf) = Ok (buf, 0).
Proof.
  intros H0 Hs Hl. unfold is_s32 in Hs. revert totalcnt H0.
  induction results as [|r results IH]; intros t H0 Hf; cbn [full_writes] in Hf; cbn [write_loop];
    rewrite (u32_id len) by (unfold is_u32; lia).
  - rewrite (proj2 (Z.ltb_ge _ _)) by lia. rewrite take_ge by lia. done.
  - destruct Hf as [Hr Hf]. rewrite (proj2 (Z.ltb_lt _ _)) by lia.
    rewrite (u32_id r) by (unfold is_u32; lia). rewrite (proj2 (Z.ltb_ge r 0)) by lia.
    rewrite u32_id by (unfold is_u32; lia).
    rewrite take_take_drop. replace (Z.to_nat t + Z.to_nat r)%nat with (Z.to_nat (t + r)) by lia.
    apply IH; [lia|]. by replace (len - (t + r)) with (len - t - r) by lia.
Qed.

(** ** Well-formed files *)

(** A segment with a length field: its marker byte and its payload. *)
Record segment := Segment { seg_marker : Z; seg_payload : list Z }.

Definition seg_len (s : segment) : Z := Z.of_nat (length (seg_payload s)) + 2.
Definition seg_bytes (s : segment) : list Z :=
  [0xFF; seg_marker s; seg_len s / 256; seg_len s mod 256] ++ seg_payload s.

(** The segments the scanner steps over: application data and comments, Huffman
    tables, and quantisation tables of 65 bytes each.  A file with one table in
    its segment must not end that table in 0xFF: the scanner would then misread
    the next marker. *)
Definition seg_wf (s : segment) : bool :=
  (seg_len s <? 65536) &&
  match marker_of (seg_marker s) with
  | APP_COM | DHT => true
  | DQT => (Z.of_nat (length (seg_payload s)) mod 65 =? 0) &&
           negb ((Z.of_nat (length (seg_payload s)) =? 65) &&
                 (default 0 (last (seg_payload s)) =? 0xFF))
  | _ => false
  end.

Definition segs_bytes (segs : list segment) : list Z := concat (map seg_bytes segs).

(** The frame header: precision, height, width, then the component bytes. *)
Definition sof0_bytes (len prec w h : Z) : list Z :=
  [0xFF; 0xC0; len / 256; len mod 256; prec; h / 256; h mod 256; w / 256; w mod 256].

(** The table of application and comment segments of a file, from [pos]. *)
Fixpoint app_table (pos : Z) (segs : list segment) : list (Z * Z) :=
  match segs with
  | [] => []
  | s :: segs =>
      (if decide (marker_of (seg_marker s) = APP_COM) then [(pos, seg_len s + 2)] else []) ++
      app_table (pos + seg_len s + 2) segs
  end.

Definition seg_u8 (s : segment) : Prop := is_u8 (seg_marker s) ∧ Forall is_u8 (seg_payload s).

Lemma be16_split n : be16 (n / 256) (n mod 256) = n.
Proof. unfold be16. pose proof (Z.div_mod n 256). lia. Qed.

Lemma seg_bytes_u8 s : seg_u8 s → seg_len s < 65536 → Forall is_u8 (seg_bytes s).
Proof.
  intros [Hm Hp] Hl. unfold seg_bytes. assert (0 <= seg_len s) by (unfold seg_len; lia).
  assert (0 <= seg_len s / 256 < 256) by (split; [apply Z.div_pos|apply Z.div_lt_upper_bound]; lia).
  pose proof (Z.mod_pos_bound (seg_len s) 256).
  repeat (constructor; [unfold is_u8 in *; lia|]). done.
Qed.

Lemma segs_bytes_u8 segs : Forall seg_u8 segs → Forall (λ s, seg_wf s = true) segs → 
  Forall is_u8 (segs_bytes segs).
Proof.
  induction 1 as [|s segs Hs _ IH]; intros Hw; [constructor|]. inversion_clear Hw as [|?? Hw1 Hw2].
  apply Forall_app. split; [|by apply IH]. unfold seg_wf in Hw1. zcmp. by apply seg_bytes_u8.
Qed.

Lemma length_seg_bytes s : Z.of_nat (length (seg_bytes s)) = seg_len s + 2.
Proof. unfold seg_bytes, seg_len. rewrite length_app. cbn [length]. lia. Qed.

(** Scanning with as much fuel as there are bytes. *)
Definition scan_all (pos : Z) (l : list Z) : scan_result := scan (length l) pos l.

Definition prepend (segs : list (Z * Z)) (r : scan_result) : scan_result := (segs ++ r.1, r.2).

Lemma scan_all_item pos l segs n l' :
  Forall is_u8 l → item_at pos l = Item segs n → drop (Z.to_nat n) l = l' →
  scan_all pos l = prepend segs (scan_all (pos + n) l').
Proof.
  intros Hb E <-. pose proof (item_at_progress _ _ _ _ Hb E).
  unfold scan_all. destruct (length l) as [|k] eqn:El; [lia|].
  rewrite (scan_item _ _ _ _ _ E). 
  rewrite (scan_fuel k (length (drop (Z.to_nat n) l))); [done|by apply Forall_drop|..];
    rewrite length_drop; lia.
Qed.

(** *** The front of a file

    What is found in the first bytes of a file is found in the file too: the
    segments are the first ones of the file's, and a frame header that is
    reached is the file's. *)
Lemma item_at_front pos n l :
  match item_at pos (take n l) with
  | Item segs k => item_at pos l = Item segs k
  | Stop (segs, Some size) => item_at pos l = Stop (segs, Some size)
  | Stop (segs, None) => segs = [] ∨ item_segs (item_at pos l) = segs
  end.
Proof.
  destruct n as [|n]; [by left|]. destruct l as [|h t]; [by left|]. cbn [take]. unfold item_at.
  destruct (h =? 255); [|done].
  destruct n as [|n]; [by left|]. destruct t as [|m r]; [by left|]. cbn [take].
  assert (∀ segs k, match sized segs k (take n r) with
    | Item segs' k' => sized segs k r = Item segs' k'
    | Stop (segs', Some size) => sized segs k r = Stop (segs', Some size)
    | Stop (segs', None) => segs' = [] ∨ item_segs (sized segs k r) = segs' end) as Hs.
  { intros. unfold sized. rewrite length_take.
    destruct (Z.leb_spec k (Z.of_nat (n `min` length r))), (Z.leb_spec k (Z.of_nat (length r)));
      try done; try lia; by right. }
  destruct n as [|[|n]]; [destruct (marker_of m); try done; by left| |].
  { destruct r as [|a r]; [|]; cbn [take]; destruct (marker_of m); try done; by left. }
  destruct r as [|a [|b r]]; [destruct (marker_of m); try done; by left..|]. cbn [take] in *.
  destruct (marker_of m); try done; try apply Hs; try by left.
  - destruct (be16 a b =? 67); [apply Hs|]. destruct (_ && _); [apply Hs|]. by left.
  - do 5 (destruct n as [|n]; [by left|]; destruct r as [|? r]; [by left|]; cbn [take]). done.
Qed.

Lemma scan_front n l : ∀ pos, Forall is_u8 l →
  let r := scan_all pos (take n l) in
  (length r.1 <= length (scan_all pos l).1)%nat ∧ (r.2 ≠ None → scan_all pos l = r).
Proof.
  remember (length l) as k eqn:Hk. revert n l Hk.
  induction (lt_wf k) as [k _ IH]. intros n l -> pos Hb r.
  pose proof (item_at_front pos n l) as Hf. subst r.
  destruct (item_at pos (take n l)) as [[segs [size|]]|segs j] eqn:E.
  - unfold scan_all. rewrite !(scan_stop _ _ _ _ E), !(scan_stop _ _ _ _ Hf). done.
  - unfold scan_all. rewrite !(scan_stop _ _ _ _ E). split; [|done]. cbn [fst].
    destruct Hf as [->|<-]; [cbn; lia|].
    destruct (item_at pos l) as [r|segs' j] eqn:El; [by rewrite (scan_stop _ _ _ _ El)|].
    pose proof (item_at_progress _ _ _ _ Hb El).
    destruct (length l) as [|k]; [lia|]. rewrite (scan_item _ _ _ _ _ El). cbn [fst item_segs].
    rewrite length_app. lia.
  - pose proof (item_at_progress _ _ _ _ Hb Hf).
    rewrite (scan_all_item _ _ _ _ _ (Forall_take _ _ _ Hb) E eq_refl), (scan_all_item _ _ _ _ _ Hb Hf eq_refl).
    rewrite skipn_firstn_comm. unfold prepend. cbn [fst snd]. rewrite !length_app.
    edestruct (IH (length (drop (Z.to_nat j) l))) as [H1 H2]; [rewrite length_drop; lia|done|by apply Forall_drop|].
    split; [by apply Nat.add_le_mono_l|]. intros Hne. by rewrite (H2 Hne).
Qed.

Lemma scan_all_seg pos s rest :
  seg_u8 s → seg_wf s = true → Forall is_u8 rest →
  scan_all pos (seg_bytes s ++ rest) =
    prepend (if decide (marker_of (seg_marker s) = APP_COM) then [(pos, seg_len s + 2)] else [])
            (scan_all (pos + seg_len s + 2) rest).
Proof.
  intros Hs Hw Hr. pose proof Hw as Hw'. unfold seg_wf in Hw'. apply andb_true_iff in Hw' as [Hl Hk].
  apply Z.ltb_lt in Hl. pose proof (length_seg_bytes s) as Hlen.
  assert (Forall is_u8 (seg_bytes s ++ rest)) as Hb by (apply Forall_app; auto using seg_bytes_u8).
  assert (∀ pre, item_at pos (seg_bytes s ++ rest) = Item pre (2 + seg_len s) →
    scan_all pos (seg_bytes s ++ rest) = prepend pre (scan_all (pos + seg_len s + 2) rest)) as Hitem.
  { intros pre E. rewrite (scan_all_item _ _ _ _ rest Hb E); [do 2 f_equal; lia|].
    rewrite drop_app_ge by lia. replace (Z.to_nat (2 + seg_len s) - length (seg_bytes s))%nat with 0%nat by lia.
    done. }
  assert (∀ pre, sized pre (seg_len s) (seg_len s / 256 :: seg_len s mod 256 :: seg_payload s ++ rest)
                 = Item pre (2 + seg_len s)) as Hsz.
  { intros pre. unfold sized. cbn [length]. rewrite length_app.
    rewrite (proj2 (Z.leb_le _ _)); [done|]. unfold seg_len. lia. }
  assert (item_at pos (seg_bytes s ++ rest) =
    match marker_of (seg_marker s) with
    | DQT => if seg_len s =? 67 then Item [] 68 else Item [] (2 + seg_len s)
    | APP_COM => Item [(pos, seg_len s + 2)] (2 + seg_len s)
    | _ => Item [] (2 + seg_len s)
    end) as Eitem.
  { unfold item_at, seg_bytes. cbn [app]. change (255 =? 255) with true. cbv iota.
    rewrite be16_split, !Hsz. destruct (marker_of (seg_marker s)) eqn:Em; try done.
    apply andb_true_iff in Hk as [Hk _].
    destruct (Z.eqb_spec (seg_len s) 67) as [E67|].
    - unfold sized. cbn [length]. rewrite length_app, (proj2 (Z.leb_le _ _)); [done|].
      unfold seg_len in E67. lia.
    - replace (seg_len s - 2) with (Z.of_nat (length (seg_payload s))) by (unfold seg_len; lia).
      rewrite Hk, (proj2 (Z.leb_le _ _)); [done|]. unfold seg_len. lia. }
  destruct (marker_of (seg_marker s)) eqn:Em; try done; try (rewrite decide_False by done).
  - destruct (Z.eqb_spec (seg_len s) 67) as [E67|]; [|by apply Hitem].
    (* the last byte of a single table is scanned on its own *)
    assert (length (seg_payload s) = 65)%nat as H65 by (unfold seg_len in E67; lia).
    destruct (last (seg_payload s)) as [x|] eqn:Ex; [|by apply last_None in Ex; rewrite Ex in H65].
    pose proof Ex as [q Eq]%last_Some. apply andb_true_iff in Hk as [_ Hk].
    assert (x <> 255) as Hx.
    { intros ->. by rewrite H65 in Hk. }
    rewrite (scan_all_item _ _ _ _ (x :: rest) Hb Eitem).
    2:{ unfold seg_bytes. rewrite Eq, <- !app_assoc. cbn [app]. change (Z.to_nat 68) with 68%nat.
        cbn [drop]. rewrite drop_app_ge; rewrite Eq, length_app in H65; cbn [length] in H65; [|lia].
        by replace (64 - length q)%nat with 0%nat by lia. }
    assert (Forall is_u8 (x :: rest)) as Hxr.
    { constructor; [|done]. destruct Hs as [_ Hs]. rewrite Eq in Hs. apply Forall_app in Hs as [_ Hs].
      by inversion Hs. }
    rewrite (scan_all_item _ (x :: rest) [] 1 rest Hxr); [|cbn [item_at]; by rewrite (proj2 (Z.eqb_neq _ _))|done].
    rewrite E67. replace (pos + 67 + 2) with (pos + 68 + 1) by lia. done.
  - by apply Hitem.
  - rewrite decide_True by done. by apply Hitem.
Qed.

Lemma prepend_app a b r : prepend a (prepend b r) = prepend (a ++ b) r.
Proof. unfold prepend. cbn. by rewrite app_assoc. Qed.

Lemma scan_all_segs pos segs rest :
  Forall seg_u8 segs → Forall (λ s, seg_wf s = true) segs → Forall is_u8 rest →
  scan_all pos (segs_bytes segs ++ rest) =
    prepend (app_table pos segs) (scan_all (pos + Z.of_nat (length (segs_bytes segs))) rest).
Proof.
  intros Hu Hw Hr. revert pos. induction segs as [|s segs IH]; intros pos.
  { change (scan_all pos rest = prepend [] (scan_all (pos + 0) rest)). rewrite Z.add_0_r.
    by destruct (scan_all pos rest). }
  inversion_clear Hu as [|?? Hu1 Hu2]. inversion_clear Hw as [|?? Hw1 Hw2].
  change (segs_bytes (s :: segs)) with (seg_bytes s ++ segs_bytes segs).
  rewrite <- app_assoc, scan_all_seg; [|done..|].
  2:{ apply Forall_app. auto using segs_bytes_u8. }
  rewrite IH, prepend_app by done. cbn [app_table]. f_equal. f_equal.
  rewrite length_app. pose proof (length_seg_bytes s). lia.
Qed.

(** A whole file up to its frame header, with anything after it. *)
Definition jpeg_file (segs : list segment) (prec w h : Z) (rest : list Z) : list Z :=
  [0xFF; 0xD8] ++ segs_bytes segs ++ sof0_bytes 17 prec w h ++ rest.

Lemma split_u8 n : is_u16 n → is_u8 (n / 256) ∧ is_u8 (n mod 256).
Proof.
  unfold is_u16, is_u8. intros. pose proof (Z.mod_pos_bound n 256).
  split; [split; [apply Z.div_pos|apply Z.div_lt_upper_bound]|]; lia.
Qed.

Lemma scan_jpeg_file segs prec w h rest :
  Forall seg_u8 segs → Forall (λ s, seg_wf s = true) segs → Forall is_u8 rest →
  is_u8 prec → is_u16 w → is_u16 h →
  scan_all 0 (jpeg_file segs prec w h rest) = (app_table 2 segs, Some (w, h)).
Proof.
  intros Hu Hw Hr Hp [Hw1 Hw0]%split_u8 [Hh1 Hh0]%split_u8. unfold jpeg_file.
  assert (Forall is_u8 (sof0_bytes 17 prec w h ++ rest)) as Hs.
  { repeat (constructor; [done || by unfold is_u8|]). done. }
  rewrite (scan_all_item _ _ [] 2 (segs_bytes segs ++ sof0_bytes 17 prec w h ++ rest)); [|..|done|done].
  2:{ apply Forall_app. split; [repeat constructor; by unfold is_u8|].
      apply Forall_app. auto using segs_bytes_u8. }
  rewrite scan_all_segs by done.
  rewrite prepend_app. cbn [app].
  unfold scan_all at 1. rewrite (scan_stop _ _ _ ([], Some (w, h))).
  - unfold prepend. cbn. by rewrite app_nil_r.
  - cbn [item_at sof0_bytes app]. change (255 =? 255) with true. cbv iota.
    change (marker_of 192) with SOF0. cbv iota. by rewrite !be16_split.
Qed.

Lemma scan_no_marker fuel pos l : 0xFF ∉ l → scan fuel pos l = ([], None).
Proof.
  revert pos l. induction fuel as [|fuel IH]; intros pos l Hl; destruct l as [|h t]; [done| |done|];
    apply not_elem_of_cons in Hl as [Hh Ht]; cbn [scan item_at];
    rewrite (proj2 (Z.eqb_neq h 255)) by done; [done|].
  change (drop (Z.to_nat 1) (h :: t)) with t. by rewrite IH.
Qed.

(** ** Claims *)

Lemma record_all_lengths segs : ∀ o o', record_all o segs = Ok o' →
  length (appOffset o') = length (appOffset o) ∧ length (appSize o') = length (appSize o).
Proof.
  induction segs as [|[off sz] segs IH]; intros o o'; cbn [record_all]; [by intros [= ->]|].
  intros (o1 & H1 & [-> ->]%IH)%bind_ok. unfold record_app in H1.
  apply bind_ok in H1 as (offs & Hoffs & (sizes & Hsizes & [= <-])%bind_ok). cbn.
  by apply length_wr in Hoffs, Hsizes.
Qed.

(** With at most ten segments the scanner reports what the reference found. *)
Lemma ParsingJPEG_reports o buf len :
  Forall is_u8 buf → 0 <= len < Z.of_nat (length buf) → is_s32 len →
  length (appOffset o) = MAX_APP → length (appSize o) = MAX_APP →
  let r := scan_all 0 (take (Z.to_nat len) buf) in
  (length r.1 <= MAX_APP)%nat →
  ∃ o', ParsingJPEG o buf len = Ok (o', if r.2 then 0 else -1) ∧ reports o o' r ∧
    length (appOffset o') = MAX_APP ∧ length (appSize o') = MAX_APP.
Proof.
  intros Hb Hlen Hs Ho Hz r Hr. rewrite ParsingJPEG_scan by done.
  assert (length (take (Z.to_nat len) buf) = Z.to_nat len) as Hl by (rewrite length_take; lia).
  assert (scan (Z.to_nat len) 0 (take (Z.to_nat len) buf) = r) as ->
    by (unfold r, scan_all; by rewrite Hl).
  assert (Hbd := scan_bounds (length (take (Z.to_nat len) buf)) 0 _ (Forall_take _ (Z.to_nat len) _ Hb)).
  change (scan (length (take (Z.to_nat len) buf)) 0 (take (Z.to_nat len) buf)) with r in Hbd.
  rewrite Hl in Hbd. unfold is_s32 in Hs.
  edestruct (replay_reports (JpegOut (appOffset o) (appSize o) 0 (Width o) (Height o)) r)
    as (o' & Er & Hrep); [done..| |done|].
  { eapply Forall_impl; [exact Hbd|]. unfold is_u32. intros s (? & ? & _). lia. }
  exists o'. split; [done|]. split; [done|]. unfold replay in Er.
  apply bind_ok in Er as (o1 & [H1 H2]%record_all_lengths & [= E]). cbn in H1, H2.
  split; [rewrite <- Ho, <- H1|rewrite <- Hz, <- H2]; destruct r.2 as [[??]|]; by injection E as <-.
Qed.

(** C11: The scanner terminates and refines the reference on every input: with at
    most ten application and comment segments it returns what the reference
    found (0 and the frame size, or -1 with width and height untouched), the
    table holds exactly the reference's segments, and after a success every
    recorded segment lies inside the file; an eleventh segment is written past
    the ten-entry arrays.  The byte after the file must be readable. *)
Theorem ParsingJPEG_refines_scan o buf len :
  Forall is_u8 buf → 0 <= len < Z.of_nat (length buf) → is_s32 len →
  length (appOffset o) = MAX_APP → length (appSize o) = MAX_APP →
  let r := scan_all 0 (take (Z.to_nat len) buf) in
  if (length r.1 <=? MAX_APP)%nat then
    ∃ o', ParsingJPEG o buf len = Ok (o', if r.2 then 0 else -1) ∧
          reports o o' r ∧
          (r.2 ≠ None → Forall (λ s, 0 <= s.1 ∧ s.1 + s.2 <= len) r.1)
  else ParsingJPEG o buf len = Crash OutOfBounds.
Proof.
  intros Hb Hlen Hs Ho Hz r.
  assert (length (take (Z.to_nat len) buf) = Z.to_nat len) as Hl by (rewrite length_take; lia).
  destruct (Nat.leb_spec (length r.1) MAX_APP).
  - destruct (ParsingJPEG_reports o buf len) as (o' & E & Hrep & _); [done..|].
    exists o'. split; [done|]. split; [done|]. intros Hne.
    assert (Hbd := scan_bounds (length (take (Z.to_nat len) buf)) 0 _ (Forall_take _ (Z.to_nat len) _ Hb)).
    change (scan (length (take (Z.to_nat len) buf)) 0 (take (Z.to_nat len) buf)) with r in Hbd.
    rewrite Hl in Hbd. eapply Forall_impl; [exact Hbd|]. intros s (? & ? & Hin). specialize (Hin Hne). lia.
  - rewrite ParsingJPEG_scan by done.
    assert (scan (Z.to_nat len) 0 (take (Z.to_nat len) buf) = r) as ->
      by (unfold r, scan_all; by rewrite Hl).
    unfold replay, MAX_APP in *. clearbody r. rewrite record_all_overflow; cbn; done || lia.
Qed.

(** On a well-formed file (start of image, application, comment, Huffman and
    quantisation segments, baseline frame header, anything after it) the
    scanner returns 0 with the size stored in the frame header, and the table
    lists exactly the application and comment segments with their offsets and
    their sizes including the marker. *)
Theorem ParsingJPEG_well_formed o segs prec w h rest :
  Forall seg_u8 segs → Forall (λ s, seg_wf s = true) segs →
  Forall is_u8 rest → is_u8 prec → is_u16 w → is_u16 h →
  length (appOffset o) = MAX_APP → length (appSize o) = MAX_APP →
  let file := jpeg_file segs prec w h rest in
  is_s32 (Z.of_nat (length file)) → (length (app_table 2 segs) <= MAX_APP)%nat →
  ∀ x, is_u8 x →
  ∃ o', ParsingJPEG o (file ++ [x]) (Z.of_nat (length file)) = Ok (o', 0) ∧
        Width o' = w ∧ Height o' = h ∧ reports o o' (app_table 2 segs, Some (w, h)).
Proof.
  intros Hu Hw Hr Hp Hw16 Hh16 Ho Hz file Hs Hn x Hx.
  assert (scan_all 0 file = (app_table 2 segs, Some (w, h))) as Hscan by (by apply scan_jpeg_file).
  assert (Forall is_u8 file) as Hf.
  { apply split_u8 in Hw16 as [??], Hh16 as [??]. unfold file, jpeg_file.
    apply Forall_app. split; [repeat constructor; by unfold is_u8|].
    apply Forall_app. split; [by apply segs_bytes_u8|].
    repeat (constructor; [done || by unfold is_u8|]). done. }
  clearbody file. rewrite ParsingJPEG_scan.
  2:{ apply Forall_app. split; [done|]. by constructor. }
  2:{ rewrite length_app. cbn [length]. lia. }
  rewrite Nat2Z.id, take_app_le, take_ge by lia.
  change (scan (length file) 0 file) with (scan_all 0 file).
  assert (Hbd := scan_bounds (length file) 0 file Hf).
  change (scan (length file) 0 file) with (scan_all 0 file) in Hbd. rewrite Hscan in *.
  edestruct (replay_reports (JpegOut (appOffset o) (appSize o) 0 (Width o) (Height o))
    (app_table 2 segs, Some (w, h))) as (o' & -> & Hrep); [done..| |done|].
  { eapply Forall_impl; [exact Hbd|]. unfold is_u32, is_s32 in *. intros s (? & ? & _). lia. }
  exists o'. split; [done|]. pose proof Hrep as (_ & _ & [= <- <-]). done.
Qed.

(** A quantisation segment with a single table is left one byte too early
    (64 of its 65 payload bytes are skipped): when the last byte of that table
    is 0xFF the marker that follows is not seen, and a file whose frame header
    comes next, with no further 0xFF byte after it, is refused with -1 although
    it is well formed. *)
Theorem single_table_hides_next_marker o q prec w h rest :
  length q = 64%nat → Forall is_u8 q → is_u8 prec → is_u16 w → is_u16 h →
  Forall is_u8 rest → 0xFF ∉ rest → prec ≠ 0xFF →
  0xFF ∉ [h / 256; h mod 256; w / 256; w mod 256] →
  let file := jpeg_file [Segment 0xDB (q ++ [0xFF])] prec w h rest in
  ∀ x, is_u8 x →
  ParsingJPEG o (file ++ [x]) (Z.of_nat (length file)) =
    Ok (JpegOut (appOffset o) (appSize o) 0 (Width o) (Height o), -1).
Proof.
  intros Hq Hqb Hp Hw Hh Hr Hrest Hprec Hwh file x Hx.
  pose proof (split_u8 _ Hw) as [??]. pose proof (split_u8 _ Hh) as [??].
  set (tail := sof0_bytes 17 prec w h ++ rest).
  assert (Forall is_u8 tail) as Ht by (repeat (constructor; [done || by unfold is_u8|]); done).
  assert (file = [255; 216; 255; 219; 0; 67] ++ q ++ 255 :: tail) as Ef.
  { unfold file, jpeg_file, segs_bytes, seg_bytes, seg_len. cbn [map concat seg_marker seg_payload].
    rewrite !length_app, Hq, app_nil_r, <- !app_assoc. done. }
  assert (Forall is_u8 file) as Hf.
  { rewrite Ef. repeat (constructor; [by unfold is_u8|]). apply Forall_app. split; [done|].
    constructor; [by unfold is_u8|done]. }
  rewrite ParsingJPEG_scan.
  2:{ apply Forall_app. split; [done|]. by constructor. }
  2:{ rewrite length_app. cbn [length]. lia. }
  rewrite Nat2Z.id, take_app_le, take_ge by lia.
  change (scan (length file) 0 file) with (scan_all 0 file).
  assert (scan_all 0 file = ([], None)) as ->; [|done].
  rewrite (scan_all_item _ _ [] 2 ([255; 219; 0; 67] ++ q ++ 255 :: tail)); [|done|by rewrite Ef..].
  assert (Forall is_u8 ([255; 219; 0; 67] ++ q ++ 255 :: tail)) as Hf2.
  { rewrite Ef in Hf. by do 2 apply Forall_cons_1 in Hf as [_ Hf]. }
  rewrite (scan_all_item _ _ [] 68 (255 :: tail)); [|done|..].
  2:{ cbn [app item_at]. change (255 =? 255) with true. change (marker_of 219) with DQT. cbv iota.
      change (be16 0 67 =? 67) with true. cbv iota. unfold sized. cbn [length].
      rewrite length_app, (proj2 (Z.leb_le _ _)); [done|]. lia. }
  2:{ change (Z.to_nat 68) with (4 + 64)%nat. cbn [app drop Nat.add]. by rewrite <- Hq, drop_app_length. }
  rewrite (scan_all_item _ (255 :: tail) [] 2 (drop 1 tail)); [|by constructor; [unfold is_u8|]|done..].
  unfold scan_all. rewrite scan_no_marker; [done|]. unfold tail. cbn [sof0_bytes app drop].
  change (17 / 256) with 0. change (17 mod 256) with 17. set_solver.
Qed.

(** With a descriptor whose writes make progress and add up to the whole
    buffer, in however many pieces, the file holds exactly the buffer and the
    return value is 0.  A failing write is never reported, because its result
    is stored in an unsigned variable before the test for a negative value: a
    first write that fails gives 0 with an empty file, and one that fails after
    [k] bytes moves back by one, so that the file gets byte [k-1] twice and the
    result is still 0. *)
Theorem Write2File_outcomes fd buf :
  0 <= fd → is_s32 (Z.of_nat (length buf)) →
  let len := Z.of_nat (length buf) in
  (∀ results, full_writes len results → Write2File fd results buf len = Ok (buf, 0)) ∧
  (0 < len → Write2File fd [-1] buf len = Ok ([], 0)) ∧
  (∀ k, 0 < k < len →
     Write2File fd [k; -1; len - k + 1] buf len =
       Ok (take (Z.to_nat k) buf ++ drop (Z.to_nat (k - 1)) buf, 0)).
Proof.
  intros Hfd Hs len. unfold Write2File. rewrite (proj2 (Z.ltb_ge fd 0)) by lia. unfold is_s32 in Hs.
  assert (u32 len = len) as Hlen by (apply u32_id; unfold is_u32; lia).
  split_and!.
  - intros results Hf. apply (write_loop_full results buf len 0); [lia|done|done|].
    by rewrite Z.sub_0_r.
  - intros Hpos. cbn [write_loop]. rewrite Hlen, (proj2 (Z.ltb_lt 0 len)) by lia.
    change (u32 (-1)) with 4294967295. change (u32 (0 + 4294967295)) with 4294967295.
    rewrite (proj2 (Z.ltb_ge 4294967295 len)) by lia. done.
  - intros k Hk. cbn [write_loop]. rewrite Hlen, (proj2 (Z.ltb_lt 0 len)) by lia.
    rewrite (u32_id k), (proj2 (Z.ltb_ge k 0)) by (unfold is_u32; lia).
    rewrite Z.add_0_l, (u32_id k), (proj2 (Z.ltb_lt k len)) by (unfold is_u32; lia).
    change (u32 (-1)) with 4294967295. change (4294967295 <? 0) with false.
    replace (u32 (k + 4294967295)) with (k - 1).
    2:{ unfold u32. replace (k + 4294967295) with (k - 1 + 1 * 4294967296) by lia.
        rewrite Z.mod_add, Z.mod_small; lia. }
    rewrite (proj2 (Z.ltb_lt (k - 1) len)) by lia.
    rewrite (u32_id (len - k + 1)), (proj2 (Z.ltb_ge (len - k + 1) 0)) by (unfold is_u32; lia).
    rewrite u32_id, (proj2 (Z.ltb_ge (k - 1 + (len - k + 1)) len)) by (unfold is_u32; lia).
    change (Z.to_nat (-1)) with 0%nat. change (Z.to_nat 0) with 0%nat. cbn [drop take app].
    rewrite !app_nil_r, drop_0, (take_ge (drop (Z.to_nat (k - 1)) buf)); [done|]. rewrite length_drop. lia.
Qed.

(** ** Witnesses *)

Definition empty_out : jpeg_out := JpegOut (replicate 10 0) (replicate 10 0) 7 (-5) (-6).

(** An APP0 segment, two quantisation tables, a comment; 320 by 240. *)
Definition sample_segs : list segment :=
  [Segment 0xE0 [74; 70; 73; 70; 0]; Segment 0xDB (replicate 130 16); Segment 0xFE [104; 105];
   Segment 0xDB (replicate 65 1)].
Definition sample_file : list Z := jpeg_file sample_segs 8 320 240 [3; 1; 34; 0].

Lemma all_u8 (l : list Z) : forallb (λ z, (0 <=? z) && (z <? 256)) l = true → Forall is_u8 l.
Proof.
  intros H. apply Forall_forall. intros z Hz. rewrite forallb_forall in H.
  apply list_elem_of_In in Hz. apply H in Hz. unfold is_u8. zcmp. lia.
Qed.

Lemma ParsingJPEG_refines_scan_witness :
  scan_all 0 sample_file = ([(2, 9); (145, 6)], Some (320, 240)) ∧
  ∃ o', ParsingJPEG empty_out (sample_file ++ [0]) (Z.of_nat (length sample_file)) = Ok (o', 0) ∧
        appNUm o' = 2 ∧ Width o' = 320 ∧ Height o' = 240.
Proof.
  split; [vm_compute; reflexivity|].
  destruct (ParsingJPEG_refines_scan empty_out (sample_file ++ [0]) (Z.of_nat (length sample_file)))
    as (o' & Ho & (Hn & _ & Hwh) & _).
  - apply all_u8. vm_compute. reflexivity.
  - vm_compute. split; [discriminate|reflexivity].
  - vm_compute. split; [discriminate|reflexivity].
  - reflexivity.
  - reflexivity.
  - exists o'. vm_compute in Hwh. injection Hwh as HW HH. vm_compute in Hn.
    split; [|by split_and!]. rewrite Ho. vm_compute. reflexivity.
Defined.

Lemma ParsingJPEG_well_formed_witness :
  ∃ o', ParsingJPEG empty_out (sample_file ++ [0xFF]) (Z.of_nat (length sample_file)) = Ok (o', 0) ∧
        Width o' = 320 ∧ Height o' = 240.
Proof.
  destruct (ParsingJPEG_well_formed empty_out sample_segs 8 320 240 [3; 1; 34; 0])
    with (x := 0xFF) as (o' & Ho & HW & HH & _).
  - repeat constructor; try (unfold is_u8; cbn; lia); apply all_u8; vm_compute; reflexivity.
  - repeat constructor.
  - apply all_u8. reflexivity.
  - unfold is_u8. lia.
  - unfold is_u16. lia.
  - unfold is_u16. lia.
  - reflexivity.
  - reflexivity.
  - vm_compute. split; [discriminate|reflexivity].
  - vm_compute. lia.
  - unfold is_u8. lia.
  - exists o'. auto.
Defined.

Lemma single_table_hides_next_marker_witness :
  let file := jpeg_file [Segment 0xDB (replicate 64 1 ++ [0xFF])] 8 320 240 [] in
  ParsingJPEG empty_out (file ++ [0]) (Z.of_nat (length file)) =
    Ok (JpegOut (replicate 10 0) (replicate 10 0) 0 (-5) (-6), -1).
Proof.
  apply (single_table_hides_next_marker empty_out (replicate 64 1) 8 320 240 []);
    first [reflexivity | unfold is_u16, is_u8; lia | apply all_u8; reflexivity
          | vm_compute; set_solver].
Defined.

Lemma Write2File_outcomes_witness :
  Write2File 3 [2; 3] [10; 20; 30; 40; 50] 5 = Ok ([10; 20; 30; 40; 50], 0) ∧
  Write2File 3 [-1] [10; 20; 30; 40; 50] 5 = Ok ([], 0) ∧
  Write2File 3 [2; -1; 4] [10; 20; 30; 40; 50] 5 = Ok ([10; 20; 20; 30; 40; 50], 0).
Proof.
  destruct (Write2File_outcomes 3 [10; 20; 30; 40; 50]) as (H1 & H2 & H3);
    [lia|vm_compute; split; [discriminate|reflexivity]|].
  split_and!; [apply (H1 [2; 3]); cbn; lia|apply H2; reflexivity|apply (H3 2); cbn; lia].
Defined.
