(* ===== verification/Exif.v ===== *)
(** * Exif: the EXIF header written into captured pictures

    Models src/videoin_HW/exif.c: the byte-order helpers [Put16u], [Get16u],
    [Put32u], [Get32s], [Get32u] and [create_simple_EXIF], which writes a
    132-byte header with the date and the place of a thumbnail.  The header is
    checked against an independent reader that follows the directory structure
    of the format ([ifd_lookup], [ifd_next]). *)
From S2P Require Import Prelude LibC Bytes.
Local Open Scope Z_scope.

(** ** Byte order helpers

    [mo] is the global [MotorolaOrder]; a pointer is a buffer and an offset. *)
Definition Put16u (mo : bool) (buf : list Z) (i v : Z) : result (list Z) :=
  if mo then
    b ← wr buf i (u8 (Z.shiftr v 8)); wr b (i + 1) (u8 v)
  else
    b ← wr buf i (u8 v); wr b (i + 1) (u8 (Z.shiftr v 8)).

Definition Get16u (mo : bool) (buf : list Z) (i : Z) : result Z :=
  b0 ← rd buf i; b1 ← rd buf (i + 1);
  Ok (if mo then Z.lor (Z.shiftl b0 8) b1 else Z.lor (Z.shiftl b1 8) b0).

Definition Get32s (mo : bool) (buf : list Z) (i : Z) : result Z :=
  b0 ← rd buf i; b1 ← rd buf (i + 1); b2 ← rd buf (i + 2); b3 ← rd buf (i + 3);
  Ok (s32 (if mo
           then Z.lor (Z.lor (Z.lor (Z.shiftl b0 24) (Z.shiftl b1 16)) (Z.shiftl b2 8)) b3
           else Z.lor (Z.lor (Z.lor (Z.shiftl b3 24) (Z.shiftl b2 16)) (Z.shiftl b1 8)) b0)).

Definition Put32u (mo : bool) (buf : list Z) (i v : Z) : result (list Z) :=
  if mo then
    b ← wr buf i (u8 (Z.shiftr v 24)); b ← wr b (i + 1) (u8 (Z.shiftr v 16));
    b ← wr b (i + 2) (u8 (Z.shiftr v 8)); wr b (i + 3) (u8 v)
  else
    b ← wr buf i (u8 v); b ← wr b (i + 1) (u8 (Z.shiftr v 8));
    b ← wr b (i + 2) (u8 (Z.shiftr v 16)); wr b (i + 3) (u8 (Z.shiftr v 24)).

Definition Get32u (mo : bool) (buf : list Z) (i : Z) : result Z :=
  v ← Get32s mo buf i; Ok (Z.land (u32 v) 0xffffffff).

(** ** The header *)

Definition FMT_STRING : Z := 0x0002.
Definition FMT_ULONG : Z := 0x0004.
Definition TAG_DATETIME : Z := 0x0132.
Definition TAG_THUMBNAIL_OFFSET : Z := 0x0201.
Definition TAG_THUMBNAIL_LENGTH : Z := 0x0202.
Definition TAG_EXIF_OFFSET : Z := 0x8769.
Definition TAG_DATETIME_ORIGINAL : Z := 0x9003.

(** struct tm *)
Record tm := Tm {
  tm_year : Z; tm_mon : Z; tm_mday : Z; tm_hour : Z; tm_min : Z; tm_sec : Z
}.

(** The text the [sprintf] of [create_simple_EXIF] produces. *)
Definition time_text (t : tm) : list Z :=
  print_d (1900 + tm_year t) ++ [58] ++ print_0d 2 (tm_mon t + 1) ++ [58] ++
  print_0d 2 (tm_mday t) ++ [32] ++ print_0d 2 (tm_hour t) ++ [58] ++
  print_0d 2 (tm_min t) ++ [58] ++ print_0d 2 (tm_sec t) ++ [10].

(** [sprintf(timeString, ...)] into an array of [size] bytes. *)
Definition sprintf_time (size : nat) (t : tm) : result (list Z) :=
  blit (replicate size 0) 0 (time_text t ++ [0]).

(** One 12-byte directory entry. *)
Definition put_entry (buf : list Z) (DirIndex tag fmt comps value : Z) : result (list Z) :=
  b ← Put16u false buf DirIndex tag;
  b ← Put16u false b (DirIndex + 2) fmt;
  b ← Put32u false b (DirIndex + 4) comps;
  Put32u false b (DirIndex + 8) value.

(** The header of [create_simple_EXIF] once [timeString] is filled; the index
    variables have their values written out as the code computes them. *)
Definition exif_body (timeString buf : list Z) (thumbnail_offset thumbnail_size : Z)
    : result (list Z) :=
  b ← blit buf 0 [69; 120; 105; 102; 0; 0; 73; 73];
  b ← Put16u false b 8 0x2a;
  let DataWriteIndex := 14 in
  b ← Put32u false b 10 (DataWriteIndex - 6);
  (* first directory: date and link to the EXIF directory *)
  let DirIndex := DataWriteIndex in
  let NumEntries := 2 in
  let DataWriteIndex := DataWriteIndex + (2 + NumEntries * 12 + 4) in
  b ← Put16u false b DirIndex NumEntries;
  let DirIndex := DirIndex + 2 in
  b ← put_entry b DirIndex TAG_DATETIME FMT_STRING 20 (DataWriteIndex - 6);
  let DirIndex := DirIndex + 12 in
  let DateIndex := DataWriteIndex in
  b ← blit b DataWriteIndex (take 19 timeString);
  b ← wr b (DataWriteIndex + 19) 0;
  let DataWriteIndex := DataWriteIndex + 20 in
  b ← put_entry b DirIndex TAG_EXIF_OFFSET FMT_ULONG 1 (DataWriteIndex - 6);
  let DirIndex := DirIndex + 12 in
  let DirContinuation := DirIndex in
  (* EXIF directory: original date *)
  let DirIndex := DataWriteIndex in
  let NumEntries := 1 in
  let DataWriteIndex := DataWriteIndex + (2 + NumEntries * 12 + 4) in
  b ← Put16u false b DirIndex NumEntries;
  let DirIndex := DirIndex + 2 in
  b ← put_entry b DirIndex TAG_DATETIME_ORIGINAL FMT_STRING 20 (DataWriteIndex - 6);
  let DirIndex := DirIndex + 12 in
  b ← blit b DataWriteIndex (sub_bytes b DateIndex 20);
  let DataWriteIndex := DataWriteIndex + 20 in
  b ← Put32u false b DirIndex 0;
  (* second directory: the thumbnail *)
  b ← Put32u false b DirContinuation (DataWriteIndex - 6);
  let DirIndex := DataWriteIndex in
  let NumEntries := 2 in
  b ← Put16u false b DirIndex NumEntries;
  let DirIndex := DirIndex + 2 in
  b ← put_entry b DirIndex TAG_THUMBNAIL_OFFSET FMT_ULONG 1 thumbnail_offset;
  let DirIndex := DirIndex + 12 in
  b ← put_entry b DirIndex TAG_THUMBNAIL_LENGTH FMT_ULONG 1 thumbnail_size;
  let DirIndex := DirIndex + 12 in
  Put32u false b DirIndex 0.

Definition create_simple_EXIF (t : tm) (buf : list Z) (thumbnail_offset thumbnail_size : Z)
    : result (list Z) :=
  timeString ← sprintf_time 20 t;
  exif_body timeString buf thumbnail_offset thumbnail_size.

(** ** A reader of the format

    Offsets are relative to the byte order mark, 6 bytes into the buffer. *)
Definition ifd_pos (link : Z) : Z := link + 6.

Definition first_ifd (buf : list Z) : result Z :=
  v ← Get32u false buf 10; Ok (ifd_pos v).

(** The position of the entry with tag [tag] among [n] entries at [pos]. *)
Fixpoint find_entry (n : nat) (buf : list Z) (pos tag : Z) : result (option Z) :=
  match n with
  | O => Ok None
  | S n =>
      t ← Get16u false buf pos;
      if t =? tag then Ok (Some pos) else find_entry n buf (pos + 12) tag
  end.

(** Format, number of components and value field of a tag of a directory. *)
Definition ifd_lookup (buf : list Z) (ifd tag : Z) : result (option (Z * Z * Z)) :=
  n ← Get16u false buf ifd;
  e ← find_entry (Z.to_nat n) buf (ifd + 2) tag;
  match e with
  | None => Ok None
  | Some pos =>
      fmt ← Get16u false buf (pos + 2); comps ← Get32u false buf (pos + 4);
      value ← Get32u false buf (pos + 8);
      Ok (Some (fmt, comps, value))
  end.

Definition ifd_next (buf : list Z) (ifd : Z) : result Z :=
  n ← Get16u false buf ifd; Get32u false buf (ifd + 2 + 12 * n).

(** ** The helpers as little- and big-endian fields *)

Lemma shiftr_div v k : 0 <= k → Z.shiftr v k = v / 2 ^ k.
Proof. apply Z.shiftr_div_pow2. Qed.

Definition mode_bytes (mo : bool) (l : list Z) : list Z := if mo then rev l else l.

Lemma wr2 buf i a b : (b1 ← wr buf i a; wr b1 (i + 1) b) = blit buf i [a; b].
Proof.
  change [a; b] with ([a] ++ [b]). rewrite <- blit_blit, wr_blit.
  destruct (blit buf i [a]); [|done]. apply wr_blit.
Qed.

Lemma wr4 buf i a b c d :
  (b1 ← wr buf i a; b2 ← wr b1 (i + 1) b; b3 ← wr b2 (i + 2) c; wr b3 (i + 3) d) =
  blit buf i [a; b; c; d].
Proof.
  change [a; b; c; d] with ([a; b] ++ [c; d]). rewrite <- blit_blit, <- wr2.
  destruct (wr buf i a) as [b1|]; [|done]. cbn [mbind result_bind].
  destruct (wr b1 (i + 1) b) as [b2|]; [|done]. cbn [mbind result_bind].
  rewrite <- wr2. cbn [length]. change (Z.of_nat 2) with 2. by rewrite <- Z.add_assoc.
Qed.

Lemma Put16u_blit mo buf i v : Put16u mo buf i v = blit buf i (mode_bytes mo (le_bytes 2 v)).
Proof.
  unfold Put16u. rewrite shiftr_div by lia. change (2 ^ 8) with 256.
  destruct mo; rewrite wr2; done.
Qed.

Lemma Put32u_blit mo buf i v : Put32u mo buf i v = blit buf i (mode_bytes mo (le_bytes 4 v)).
Proof.
  unfold Put32u. rewrite !shiftr_div by lia.
  replace (v / 2 ^ 24) with (v / 256 / 256 / 256) by (rewrite !Z.div_div by lia; done).
  replace (v / 2 ^ 16) with (v / 256 / 256) by (rewrite !Z.div_div by lia; done).
  change (2 ^ 8) with 256. destruct mo; rewrite wr4; done.
Qed.

(** Reading four bytes gives their little- or big-endian value. *)
Lemma Get32u_bytes mo buf i b0 b1 b2 b3 :
  is_u8 b0 → is_u8 b1 → is_u8 b2 → is_u8 b3 →
  rd buf i = Ok b0 → rd buf (i + 1) = Ok b1 → rd buf (i + 2) = Ok b2 → rd buf (i + 3) = Ok b3 →
  Get32u mo buf i = Ok (le_val (mode_bytes mo [b0; b1; b2; b3])).
Proof.
  unfold is_u8. intros ???? E0 E1 E2 E3. unfold Get32u, Get32s. rewrite E0, E1, E2, E3.
  cbn [mbind result_bind]. f_equal. rewrite u32_s32. rewrite (Z.land_ones _ 32) by lia.
  change (u32 ?x mod 2 ^ 32) with (u32 (u32 x)). rewrite u32_u32.
  destruct mo; rewrite !lor_bytes4 by lia; rewrite u32_id by (unfold is_u32; lia);
    cbn [mode_bytes rev app le_val]; lia.
Qed.

Lemma Get16u_bytes mo buf i b0 b1 :
  is_u8 b0 → is_u8 b1 → rd buf i = Ok b0 → rd buf (i + 1) = Ok b1 →
  Get16u mo buf i = Ok (le_val (mode_bytes mo [b0; b1])).
Proof.
  unfold is_u8. intros ?? E0 E1. unfold Get16u. rewrite E0, E1. cbn [mbind result_bind]. f_equal.
  destruct mo; rewrite lor_shiftl by lia; cbn [mode_bytes rev app le_val]; lia.
Qed.

Lemma rev_u8 mo l : Forall is_u8 l → Forall is_u8 (mode_bytes mo l).
Proof. destruct mo; cbn; [|done]. intros. by apply Forall_rev. Qed.

Lemma mode_bytes_twice mo l : mode_bytes mo (mode_bytes mo l) = l.
Proof. destruct mo; [apply rev_involutive|done]. Qed.

Lemma le_bytes_u8 n z : Forall is_u8 (le_bytes n z).
Proof. revert z. induction n; intros z; cbn; constructor; auto using u8_range. Qed.

(** A slice is read byte by byte. *)
Lemma rd_sub buf off l k v :
  0 <= off → sub_bytes buf off (Z.of_nat (length l)) = l → l !! k = Some v →
  rd buf (off + Z.of_nat k) = Ok v.
Proof.
  intros H0 Hs Hk. rewrite <- Hs in Hk. unfold sub_bytes in Hk.
  apply lookup_take_Some in Hk as [Hk _]. rewrite lookup_drop in Hk.
  apply rd_Ok. split; [lia|]. by replace (Z.to_nat (off + Z.of_nat k)) with (Z.to_nat off + k)%nat by lia.
Qed.

Lemma Get32u_sub mo buf i v :
  0 <= i → sub_bytes buf i 4 = mode_bytes mo (le_bytes 4 v) → Get32u mo buf i = Ok (u32 v).
Proof.
  intros Hi Hs. pose proof (rev_u8 mo _ (le_bytes_u8 4 v)) as Hu.
  assert (Hv := f_equal (λ l, le_val (mode_bytes mo l)) Hs). cbn beta in Hv.
  rewrite mode_bytes_twice, le_val_bytes in Hv.
  assert (length (mode_bytes mo (le_bytes 4 v)) = 4%nat) as Hl by (destruct mo; done).
  destruct (mode_bytes mo (le_bytes 4 v)) as [|b0 [|b1 [|b2 [|b3 [|??]]]]]; try done.
  pose proof (rd_sub buf i [b0; b1; b2; b3]) as Hr.
  rewrite !Forall_cons in Hu. destruct Hu as (?&?&?&?&_).
  erewrite (Get32u_bytes mo buf i b0 b1 b2 b3); try done.
  - by rewrite <- Hs, Hv.
  - rewrite <- (Z.add_0_r i). by apply (Hr 0%nat).
  - by apply (Hr 1%nat).
  - by apply (Hr 2%nat).
  - by apply (Hr 3%nat).
Qed.

Lemma Get16u_sub mo buf i v :
  0 <= i → sub_bytes buf i 2 = mode_bytes mo (le_bytes 2 v) → Get16u mo buf i = Ok (u16 v).
Proof.
  intros Hi Hs. pose proof (rev_u8 mo _ (le_bytes_u8 2 v)) as Hu.
  assert (Hv := f_equal (λ l, le_val (mode_bytes mo l)) Hs). cbn beta in Hv.
  rewrite mode_bytes_twice, le_val_bytes in Hv.
  assert (length (mode_bytes mo (le_bytes 2 v)) = 2%nat) as Hl by (destruct mo; done).
  destruct (mode_bytes mo (le_bytes 2 v)) as [|b0 [|b1 [|??]]]; try done.
  pose proof (rd_sub buf i [b0; b1]) as Hr.
  rewrite !Forall_cons in Hu. destruct Hu as (?&?&_).
  erewrite (Get16u_bytes mo buf i b0 b1); try done.
  - by rewrite <- Hs, Hv.
  - rewrite <- (Z.add_0_r i). by apply (Hr 0%nat).
  - by apply (Hr 1%nat).
Qed.

(** ** The layout of the header *)

Definition entry_bytes (tag fmt comps value : Z) : list Z :=
  le_bytes 2 tag ++ le_bytes 2 fmt ++ le_bytes 4 comps ++ le_bytes 4 value.

(** The 132 bytes of the header for a date of 19 characters. *)
Definition exif_image (date : list Z) (thumbnail_offset thumbnail_size : Z) : list Z :=
  [69; 120; 105; 102; 0; 0; 73; 73] ++ le_bytes 2 0x2a ++ le_bytes 4 8 ++
  (* 14 *) le_bytes 2 2 ++
  entry_bytes TAG_DATETIME FMT_STRING 20 38 ++
  entry_bytes TAG_EXIF_OFFSET FMT_ULONG 1 58 ++ le_bytes 4 96 ++
  (* 44 *) date ++ [0] ++
  (* 64 *) le_bytes 2 1 ++ entry_bytes TAG_DATETIME_ORIGINAL FMT_STRING 20 76 ++ le_bytes 4 0 ++
  (* 82 *) date ++ [0] ++
  (* 102 *) le_bytes 2 2 ++
  entry_bytes TAG_THUMBNAIL_OFFSET FMT_ULONG 1 thumbnail_offset ++
  entry_bytes TAG_THUMBNAIL_LENGTH FMT_ULONG 1 thumbnail_size ++ le_bytes 4 0.

Lemma put_entry_blit buf i tag fmt comps value :
  put_entry buf i tag fmt comps value = blit buf i (entry_bytes tag fmt comps value).
Proof.
  unfold put_entry, entry_bytes. rewrite !app_assoc, <- !blit_blit. rewrite Put16u_blit.
  cbn [mode_bytes]. destruct (blit buf i (le_bytes 2 tag)) as [b1|]; [|done]. cbn [mbind result_bind].
  rewrite Put16u_blit. cbn [mode_bytes]. change (Z.of_nat (length (le_bytes 2 tag))) with 2.
  destruct (blit b1 (i + 2) (le_bytes 2 fmt)) as [b2|]; [|done]. cbn [mbind result_bind].
  rewrite Put32u_blit. change (Z.of_nat (length (le_bytes 2 tag ++ le_bytes 2 fmt))) with 4.
  cbn [mode_bytes]. destruct (blit b2 (i + 4) (le_bytes 4 comps)) as [b3|]; [|done].
  cbn [mbind result_bind]. rewrite Put32u_blit. done.
Qed.

(** One copy of a chain, inside a prefix of the buffer. *)
Ltac local_step :=
  match goal with
  | |- context [blit (?h ++ ?t) ?o ?d] =>
      rewrite (blit_app h t o d) by (try match goal with
                 |- context [sub_bytes ?b ?o ?n] =>
                      pose proof (length_sub_bytes b o n ltac:(lia)) end;
             cbn [length mode_bytes]; autorewrite with clist; cbn; lia);
      let b := fresh "b" in let E := fresh "E" in
      destruct (blit h o d) as [b|] eqn:E; cbn [mbind result_bind]; [|reflexivity];
      apply length_blit in E; cbn [length] in E
  end.

Lemma exif_body_local timeString h t off size :
  length h = 132%nat → (19 <= length timeString)%nat →
  exif_body timeString (h ++ t) off size =
    (b ← exif_body timeString h off size; Ok (b ++ t)).
Proof.
  intros Hh Hts. unfold exif_body.
  assert (length (take 19 timeString) = 19%nat) as Ht by (rewrite length_take; lia).
  generalize dependent (take 19 timeString). intros date Ht.
  repeat (rewrite ?put_entry_blit, ?Put16u_blit, ?Put32u_blit, ?wr_blit; local_step;
          try (rewrite sub_bytes_app_l by lia)).
  done.
Qed.

(** Evaluates the first copy of a chain on an explicit buffer. *)
Ltac image_step :=
  rewrite ?put_entry_blit, ?Put16u_blit, ?Put32u_blit, ?wr_blit;
  match goal with
  | |- (blit ?h ?o ?d ≫= ?f) = _ =>
      let r := eval cbv -[u8 Z.div] in (blit h o d) in
      change (blit h o d) with r; cbn [mbind result_bind]
  end.

(** The header does not depend on what the buffer held. *)
Lemma exif_body_image timeString h off size :
  length h = 132%nat → (19 <= length timeString)%nat →
  exif_body timeString h off size = Ok (exif_image (take 19 timeString) off size).
Proof.
  intros Hh Hts. unfold exif_body, exif_image.
  assert (length (take 19 timeString) = 19%nat) as Ht by (rewrite length_take; lia).
  generalize dependent (take 19 timeString). intros date Ht. clear timeString Hts.
  do 19 (destruct date as [|? date]; [discriminate|]). destruct date; [|discriminate].
  do 132 (destruct h as [|? h]; [discriminate|]). destruct h; [|discriminate].
  repeat image_step. rewrite Put32u_blit. cbv -[u8 Z.div]. reflexivity.
Qed.

Lemma exif_body_ok timeString buf off size :
  (132 <= length buf)%nat → (19 <= length timeString)%nat →
  exif_body timeString buf off size =
    Ok (exif_image (take 19 timeString) off size ++ drop 132 buf).
Proof.
  intros Hb Ht. rewrite <- (take_drop 132 buf) at 1.
  rewrite exif_body_local, exif_body_image; [done|rewrite ?length_take; lia..].
Qed.

(** ** Reading the header back *)

(** Writes a date of 19 characters out. *)
Ltac explicit_date d H :=
  do 19 (destruct d as [|? d]; [discriminate H|]); destruct d; [|discriminate H]; clear H.

Lemma read_links date tl off size :
  length date = 19%nat → let b := exif_image date off size ++ tl in
    first_ifd b = Ok 14 ∧ ifd_next b 14 = Ok 96 ∧ ifd_next b 64 = Ok 0 ∧ ifd_next b 102 = Ok 0.
Proof. intros Hd b. unfold b. clear b. explicit_date date Hd. split_and!; vm_compute; reflexivity. Qed.

Lemma read_dates date tl off size :
  length date = 19%nat → let b := exif_image date off size ++ tl in
    ifd_lookup b 14 TAG_DATETIME = Ok (Some (FMT_STRING, 20, 38)) ∧
    ifd_lookup b 14 TAG_EXIF_OFFSET = Ok (Some (FMT_ULONG, 1, 58)) ∧
    ifd_lookup b 64 TAG_DATETIME_ORIGINAL = Ok (Some (FMT_STRING, 20, 76)) ∧
    sub_bytes b 44 20 = date ++ [0] ∧ sub_bytes b 82 20 = date ++ [0].
Proof. intros Hd b. unfold b. clear b. explicit_date date Hd. split_and!; vm_compute; reflexivity. Qed.

Lemma read_thumbnail date tl off size :
  length date = 19%nat → let b := exif_image date off size ++ tl in
    ifd_lookup b 102 TAG_THUMBNAIL_OFFSET = Ok (Some (FMT_ULONG, 1, u32 off)) ∧
    ifd_lookup b 102 TAG_THUMBNAIL_LENGTH = Ok (Some (FMT_ULONG, 1, u32 size)).
Proof.
    intros Hd b.
    assert (Get32u false b 112 = Ok (u32 off)) as Ho.
    { apply Get32u_sub; [lia|]. unfold b. explicit_date date Hd. cbv -[u8 Z.div]. reflexivity. }
    assert (Get32u false b 124 = Ok (u32 size)) as Hs.
    { apply Get32u_sub; [lia|]. unfold b. explicit_date date Hd. cbv -[u8 Z.div]. reflexivity. }
    assert (Get16u false b 102 = Ok 2 ∧
      find_entry 2 b 104 TAG_THUMBNAIL_OFFSET = Ok (Some 104) ∧
      find_entry 2 b 104 TAG_THUMBNAIL_LENGTH = Ok (Some 116) ∧
      Get16u false b 106 = Ok 4 ∧ Get32u false b 108 = Ok 1 ∧
      Get16u false b 118 = Ok 4 ∧ Get32u false b 120 = Ok 1) as (Hn & Hf1 & Hf2 & H1 & H2 & H3 & H4)
      by (clear Ho Hs; unfold b; clear b; explicit_date date Hd; split_and!; vm_compute; reflexivity).
    unfold ifd_lookup. rewrite Hn. cbn [mbind result_bind]. change (Z.to_nat 2) with 2%nat.
    change (102 + 2) with 104. rewrite Hf1, Hf2. cbn [mbind result_bind].
    change (104 + 2) with 106. change (104 + 4) with 108. change (104 + 8) with 112.
    change (116 + 2) with 118. change (116 + 4) with 120. change (116 + 8) with 124.
    rewrite H1, H2, H3, H4. cbn [mbind result_bind]. rewrite Ho, Hs. done.
Qed.

(** ** Dates *)

(** A broken-down local time with a year of four digits. *)
Definition tm_wf (t : tm) : Prop :=
  1000 <= 1900 + tm_year t <= 9999 ∧ 0 <= tm_mon t <= 11 ∧ 1 <= tm_mday t <= 31 ∧
  0 <= tm_hour t <= 23 ∧ 0 <= tm_min t <= 59 ∧ 0 <= tm_sec t <= 60.

Lemma time_text_length t : tm_wf t → length (time_text t) = 20%nat.
Proof.
  intros (Hy & Hm & Hd & Hh & Hmi & Hs). unfold time_text. rewrite !length_app.
  change (length (print_d (1900 + tm_year t))) with (List.length (print_d (1900 + tm_year t))).
  rewrite (print_d_len 3); [|lia| |right]; [|cbn; lia..].
  rewrite !print_0d_len; [done|..]; first [lia | cbn; lia].
Qed.

(** ** Claims *)

(** C15: The 132-byte header is correct for any buffer that is large enough,
    whatever it held: the bytes after it are untouched, and a reader of the
    format that follows the directories finds the date twice (in the first and
    in the EXIF directory, NUL-terminated after 19 characters), the thumbnail's
    offset and size in the linked second directory, and the end of both
    chains. *)
Theorem exif_header_read_back timeString buf off size :
  (132 <= length buf)%nat → (19 <= length timeString)%nat →
  ∃ b, exif_body timeString buf off size = Ok b ∧
    length b = length buf ∧ drop 132 b = drop 132 buf ∧
    first_ifd b = Ok 14 ∧
    ifd_lookup b 14 TAG_DATETIME = Ok (Some (FMT_STRING, 20, 38)) ∧
    sub_bytes b (ifd_pos 38) 20 = take 19 timeString ++ [0] ∧
    ifd_lookup b 14 TAG_EXIF_OFFSET = Ok (Some (FMT_ULONG, 1, 58)) ∧
    ifd_lookup b (ifd_pos 58) TAG_DATETIME_ORIGINAL = Ok (Some (FMT_STRING, 20, 76)) ∧
    sub_bytes b (ifd_pos 76) 20 = take 19 timeString ++ [0] ∧
    ifd_next b (ifd_pos 58) = Ok 0 ∧
    ifd_next b 14 = Ok 96 ∧
    ifd_lookup b (ifd_pos 96) TAG_THUMBNAIL_OFFSET = Ok (Some (FMT_ULONG, 1, u32 off)) ∧
    ifd_lookup b (ifd_pos 96) TAG_THUMBNAIL_LENGTH = Ok (Some (FMT_ULONG, 1, u32 size)) ∧
    ifd_next b (ifd_pos 96) = Ok 0.
Proof.
  intros Hb Ht. assert (length (take 19 timeString) = 19%nat) as Hd by (rewrite length_take; lia).
  assert (length (exif_image (take 19 timeString) off size) = 132%nat) as Hi.
  { unfold exif_image, entry_bytes. rewrite !length_app, Hd, !length_le_bytes. done. }
  exists (exif_image (take 19 timeString) off size ++ drop 132 buf).
  split; [by apply exif_body_ok|].
  split; [rewrite length_app, length_drop; lia|]. split; [by rewrite <- Hi, drop_app_length|].
  destruct (read_links (take 19 timeString) (drop 132 buf) off size Hd) as (L1 & L2 & L3 & L4).
  destruct (read_dates (take 19 timeString) (drop 132 buf) off size Hd) as (D1 & D2 & D3 & D4 & D5).
  destruct (read_thumbnail (take 19 timeString) (drop 132 buf) off size Hd) as (T1 & T2).
  split_and!; done.
Qed.

(** Every value written with [Put16u] or [Put32u] is read back by the matching
    [Get] function in both byte orders, and no other byte of the buffer
    changes. *)
Theorem put_get_roundtrip mo buf i v :
  0 <= i →
  (i + 2 <= Z.of_nat (length buf) → is_u16 v →
   ∃ b, Put16u mo buf i v = Ok b ∧ Get16u mo b i = Ok v ∧ length b = length buf ∧
        ∀ k, ¬ (i <= Z.of_nat k < i + 2) → b !! k = buf !! k) ∧
  (i + 4 <= Z.of_nat (length buf) → is_u32 v →
   ∃ b, Put32u mo buf i v = Ok b ∧ Get32u mo b i = Ok v ∧ length b = length buf ∧
        ∀ k, ¬ (i <= Z.of_nat k < i + 4) → b !! k = buf !! k).
Proof.
  intros Hi. split; intros Hl Hv.
  - rewrite Put16u_blit. set (d := mode_bytes mo (le_bytes 2 v)).
    assert (length d = 2%nat) as Hd by (by destruct mo).
    destruct (blit_Ok buf i d) as (b & E & Hb); [lia..|]. exists b. split_and!; [done| |done|].
    + rewrite (Get16u_sub _ _ _ v); [by rewrite u16_id|done|].
      apply sub_blit_same in E. by rewrite Hd in E.
    + intros k Hk. eapply lookup_blit_ne; [done|]. lia.
  - rewrite Put32u_blit. set (d := mode_bytes mo (le_bytes 4 v)).
    assert (length d = 4%nat) as Hd by (by destruct mo).
    destruct (blit_Ok buf i d) as (b & E & Hb); [lia..|]. exists b. split_and!; [done| |done|].
    + rewrite (Get32u_sub _ _ _ v); [by rewrite u32_id|done|].
      apply sub_blit_same in E. by rewrite Hd in E.
    + intros k Hk. eapply lookup_blit_ne; [done|]. lia.
Qed.

(** [timeString] has 20 bytes, but the text of any date with a year of four
    digits has 20 characters and a NUL: every call writes one byte past the
    array. *)
Theorem create_simple_EXIF_overruns_timeString t buf off size :
  tm_wf t → create_simple_EXIF t buf off size = Crash OutOfBounds.
Proof.
  intros Ht. unfold create_simple_EXIF, sprintf_time. rewrite blit_crash; [done|].
  rewrite length_app, length_replicate, time_text_length by done. cbn. lia.
Qed.

(** ** Witnesses *)

Definition sample_tm : tm := Tm 112 4 7 9 30 5.

Lemma exif_header_read_back_witness :
  take 19 (time_text sample_tm) =
    [50; 48; 49; 50; 58; 48; 53; 58; 48; 55; 32; 48; 57; 58; 51; 48; 58; 48; 53] ∧
  ∃ b, exif_body (time_text sample_tm) (replicate 140 7) 600 4000 = Ok b ∧
       ifd_lookup b 102 TAG_THUMBNAIL_LENGTH = Ok (Some (FMT_ULONG, 1, 4000)).
Proof.
  split; [vm_compute; reflexivity|].
  destruct (exif_header_read_back (time_text sample_tm) (replicate 140 7) 600 4000) as (b & Hb & H).
  - rewrite length_replicate. lia.
  - vm_compute. lia.
  - exists b. split; [exact Hb|]. apply H.
Defined.

Lemma put_get_roundtrip_witness :
  ∃ b, Put32u true [1; 2; 3; 4; 5; 6] 1 0x89abcdef = Ok b ∧ Get32u true b 1 = Ok 0x89abcdef.
Proof.
  destruct (put_get_roundtrip true [1; 2; 3; 4; 5; 6] 1 0x89abcdef) as [_ H]; [lia|].
  destruct H as (b & H1 & H2 & _); [cbn; lia|unfold is_u32; lia|]. exists b. auto.
Defined.

Lemma create_simple_EXIF_overruns_timeString_witness :
  create_simple_EXIF sample_tm (replicate 200 0) 600 4000 = Crash OutOfBounds.
Proof.
  apply create_simple_EXIF_overruns_timeString. unfold tm_wf, sample_tm. cbn. lia.
Defined.
