(* ===== verification/Dsc.v ===== *)
(** * Dsc: numbering of the pictures of the camera demo

    Models src/videoin_HW/dsc.c: the index file [.dsc.idx] that remembers the
    day and the number of the last picture, the choice of a file name that is
    not in use, and the path buffer the module keeps between calls.  The file
    system is a map from paths to contents; whether memory is available and
    which paths can be opened is given by a [host]. *)
From stdpp Require Import gmap.
From S2P Require Import Prelude LibC Bytes.
Local Open Scope Z_scope.

(** ** State *)

Inductive ERRCODE :=
| ERR_DSC_SUCCESS | ERR_DSC_OPEN_INDEX_FILE | ERR_DSC_MALLOC | ERR_DSC_OPEN_CAP_FILE.

#[export] Instance ERRCODE_eq_dec : EqDecision ERRCODE.
Proof. solve_decision. Defined.

Record S_DSC_IDX_ELEM := IdxElem { u32Mon : Z; u32MDay : Z; u32SeqNo : Z }.

#[export] Instance idx_eq_dec : EqDecision S_DSC_IDX_ELEM.
Proof. solve_decision. Defined.

(** The module's static variables (a NULL [s_pchFilePath] is [None], else the
    array it points to) and the file system. *)
Record dsc := Dsc {
  s_pchFilePath : option (list Z);
  s_u32FilePathLen : Z;
  s_sCurIdxElem : S_DSC_IDX_ELEM;
  files : gmap (list Z) (list Z);
}.

Record host := Host {
  malloc_ok : Z → bool;
  open_ok : list Z → bool;
  write_ok : list Z → bool;
}.

(** struct tm: months count from 0. *)
Record tm := Tm { tm_mon : Z; tm_mday : Z }.

Definition set_path (st : dsc) (p : option (list Z)) (len : Z) : dsc :=
  Dsc p len (s_sCurIdxElem st) (files st).
Definition set_elem (st : dsc) (e : S_DSC_IDX_ELEM) : dsc :=
  Dsc (s_pchFilePath st) (s_u32FilePathLen st) e (files st).
Definition set_file (st : dsc) (p c : list Z) : dsc :=
  Dsc (s_pchFilePath st) (s_u32FilePathLen st) (s_sCurIdxElem st) (<[p := c]> (files st)).

(** ** The index element as the bytes of its struct *)

Definition elem_bytes (e : S_DSC_IDX_ELEM) : list Z :=
  le_bytes 4 (u32Mon e) ++ le_bytes 4 (u32MDay e) ++ le_bytes 4 (u32SeqNo e).

Definition elem_of_bytes (l : list Z) : S_DSC_IDX_ELEM :=
  IdxElem (le_val (sub_bytes l 0 4)) (le_val (sub_bytes l 4 4)) (le_val (sub_bytes l 8 4)).

(** ** Operations *)

Section operations.
Context (h : host).

(** The buffer is reallocated when it is missing or too short. *)
Definition alloc_path (st : dsc) (i32PathLen : Z) : dsc * bool :=
  if bool_decide (s_pchFilePath st = None) || (s_u32FilePathLen st <? i32PathLen) then
    if malloc_ok h i32PathLen
    then (set_path st (Some (replicate (Z.to_nat i32PathLen) 0)) i32PathLen, true)
    else (set_path st None (s_u32FilePathLen st), false)
  else (st, true).

(** [sprintf(s_pchFilePath, ...)] *)
Definition sprintf_path (st : dsc) (text : list Z) : result dsc :=
  match s_pchFilePath st with
  | None => Crash NullDeref
  | Some arr =>
      arr' ← blit arr 0 (text ++ [0]); Ok (set_path st (Some arr') (s_u32FilePathLen st))
  end.

Definition DSC_INDEX_FILE : list Z := lit ".dsc.idx".
Definition index_path (folder : list Z) : list Z := folder ++ lit "/" ++ DSC_INDEX_FILE.
Definition index_path_len (folder : list Z) : Z :=
  Z.of_nat (length folder) + Z.of_nat (length DSC_INDEX_FILE) + 10.

Definition GetDSCIndexElem (st : dsc) (folder : list Z) : result (dsc * ERRCODE) :=
  let '(st, ok) := alloc_path st (index_path_len folder) in
  if negb ok then Ok (st, ERR_DSC_MALLOC) else
  st ← sprintf_path st (index_path folder);
  match files st !! index_path folder with
  | Some content =>
      if open_ok h (index_path folder) then
        let data := take 12 content in
        let st := set_elem st (elem_of_bytes (data ++ drop (length data) (elem_bytes (s_sCurIdxElem st)))) in
        Ok (st, if bool_decide (length data = 12%nat) then ERR_DSC_SUCCESS
                else ERR_DSC_OPEN_INDEX_FILE)
      else Ok (st, ERR_DSC_OPEN_INDEX_FILE)
  | None => Ok (st, ERR_DSC_OPEN_INDEX_FILE)
  end.

Definition UpdateDSCIndexFile (st : dsc) (folder : list Z) : result (dsc * ERRCODE) :=
  let '(st, ok) := alloc_path st (index_path_len folder) in
  if negb ok then Ok (st, ERR_DSC_MALLOC) else
  st ← sprintf_path st (index_path folder);
  if open_ok h (index_path folder) then
    if write_ok h (index_path folder)
    then Ok (set_file st (index_path folder) (elem_bytes (s_sCurIdxElem st)), ERR_DSC_SUCCESS)
    else Ok (set_file st (index_path folder) [], ERR_DSC_OPEN_INDEX_FILE)
  else Ok (st, ERR_DSC_OPEN_INDEX_FILE).

(** "%s/KRV%02d%02d%03d.jpg"; the number is printed as a signed int. *)
Definition cap_path (folder : list Z) (t : tm) (seq : Z) : list Z :=
  folder ++ lit "/KRV" ++ print_0d 2 (tm_mon t + 1) ++ print_0d 2 (tm_mday t) ++
  print_0d 3 (s32 seq) ++ lit ".jpg".

(** The loop that looks for a name that is not in use; at most 1001 turns,
    since a number that wraps starts again at 0 and the loop ends at 999. *)
Fixpoint find_name (fuel : nat) (st : dsc) (folder : list Z) (t : tm) (seq : Z)
    : result (dsc * option Z) :=
  match files st !! cap_path folder t seq with
  | None => Ok (st, Some seq)
  | Some _ =>
      match fuel with
      | O => Crash OutOfFuel
      | S fuel =>
          let seq := u32 (seq + 1) in
          if 999 <? seq then Ok (st, None)
          else st ← sprintf_path st (cap_path folder t seq); find_name fuel st folder t seq
      end
  end.

Definition today (t : tm) (seq : Z) : S_DSC_IDX_ELEM :=
  IdxElem (u32 (tm_mon t + 1)) (u32 (tm_mday t)) seq.

(** The number the search starts with. *)
Definition start_number (e : S_DSC_IDX_ELEM) (t : tm) : Z :=
  if negb (u32Mon e =? u32 (tm_mon t + 1)) || negb (u32MDay e =? u32 (tm_mday t))
  then 0 else u32 (u32SeqNo e + 1).

(** The new file is given by its path, which stands for the descriptor. *)
Definition DSC_NewCapFile (st : dsc) (folder : list Z) (t : tm)
    : result (dsc * ERRCODE * option (list Z)) :=
  '(st, err) ← GetDSCIndexElem st folder;
  if decide (err = ERR_DSC_SUCCESS ∨ err = ERR_DSC_OPEN_INDEX_FILE) then
    let st := if decide (err = ERR_DSC_OPEN_INDEX_FILE) then set_elem st (today t 0) else st in
    let seq := start_number (s_sCurIdxElem st) t in
    let '(st, ok) := alloc_path st (Z.of_nat (length folder) + 8 + 3 + 10) in
    if negb ok then Ok (st, ERR_DSC_MALLOC, None) else
    st ← sprintf_path st (cap_path folder t seq);
    '(st, found) ← find_name 1001 st folder t seq;
    match found with
    | None => Ok (st, ERR_DSC_OPEN_CAP_FILE, None)
    | Some seq =>
        let p := cap_path folder t seq in
        if open_ok h p
        then Ok (set_elem (set_file st p []) (today t seq), ERR_DSC_SUCCESS, Some p)
        else Ok (st, ERR_DSC_OPEN_CAP_FILE, None)
    end
  else Ok (st, err, None).

(** Closing the picture writes the index file and frees the path buffer. *)
Definition DSC_CloseCapFile (st : dsc) (folder : list Z) : result dsc :=
  '(st, _) ← UpdateDSCIndexFile st folder;
  Ok (set_path st None (s_u32FilePathLen st)).
End operations.

(** ** The path buffer *)

(** The length kept beside the buffer is the length of the buffer. *)
Definition path_wf (st : dsc) : Prop :=
  match s_pchFilePath st with
  | None => True
  | Some arr => Z.of_nat (length arr) = s_u32FilePathLen st
  end.

(** Everything but the path buffer is unchanged. *)
Definition same_store (st st' : dsc) : Prop :=
  files st' = files st ∧ s_sCurIdxElem st' = s_sCurIdxElem st.

Definition path_size (st : dsc) : Z :=
  match s_pchFilePath st with None => 0 | Some arr => Z.of_nat (length arr) end.

Lemma alloc_path_spec h st n : path_wf st → 0 < n →
  ∃ st' ok, alloc_path h st n = (st', ok) ∧ path_wf st' ∧ same_store st st' ∧
            (ok = true → n <= path_size st').
Proof.
  intros Hw Hn. unfold alloc_path.
  destruct (s_pchFilePath st) as [arr|] eqn:E; cbn.
  - destruct (Z.ltb_spec (s_u32FilePathLen st) n).
    + destruct (malloc_ok h n); eexists _, _; (split; [done|]);
        unfold path_wf, same_store, path_size; cbn; rewrite ?length_replicate; split_and!; done || lia.
    + eexists _, _. split; [done|].
      unfold path_wf, same_store, path_size in *. rewrite E in *. split_and!; done || lia.
  - destruct (malloc_ok h n); eexists _, _; (split; [done|]);
      unfold path_wf, same_store, path_size; cbn; rewrite ?length_replicate; split_and!; done || lia.
Qed.

Lemma sprintf_path_spec st text :
  path_wf st → Z.of_nat (length text) + 1 <= path_size st →
  ∃ st', sprintf_path st text = Ok st' ∧ path_wf st' ∧ same_store st st' ∧
         path_size st' = path_size st.
Proof.
  unfold path_wf, path_size, sprintf_path, same_store. destruct (s_pchFilePath st) as [arr|]; [|lia].
  intros Hw Hl. destruct (blit_Ok arr 0 (text ++ [0])) as (b & E & Hb).
  { lia. } { rewrite length_app. cbn [length]. lia. }
  rewrite E. cbn. eexists. split; [done|]. cbn. rewrite Hb. done.
Qed.

Lemma sprintf_path_crash st text :
  s_pchFilePath st ≠ None → path_size st < Z.of_nat (length text) + 1 →
  sprintf_path st text = Crash OutOfBounds.
Proof.
  unfold path_size, sprintf_path. destruct (s_pchFilePath st) as [arr|]; [|done]. intros _ Hl.
  rewrite blit_crash; [done|]. rewrite length_app. cbn [length]. lia.
Qed.

Lemma length_index_path folder : Z.of_nat (length (index_path folder)) = Z.of_nat (length folder) + 9.
Proof. unfold index_path. rewrite !length_app. cbn. lia. Qed.

(** ** Names *)

(** A day as [localtime] gives it. *)
Definition tm_wf (t : tm) : Prop := 0 <= tm_mon t <= 11 ∧ 1 <= tm_mday t <= 31.

(** The number of a name is its last field, so its width decides the length. *)
Lemma length_cap_path folder t seq : tm_wf t →
  Z.of_nat (length (cap_path folder t seq)) =
    Z.of_nat (length folder) + 12 + Z.of_nat (length (print_0d 3 (s32 seq))).
Proof.
  intros [Hm Hd]. unfold cap_path. rewrite !length_app.
  rewrite !(print_0d_len 2); [|lia|cbn; lia|lia|cbn; lia]. cbn [lit length]. lia.
Qed.

Lemma length_number seq : 0 <= seq < 100000000 →
  (length (print_0d 3 (s32 seq)) <= 8)%nat.
Proof.
  intros Hs. rewrite s32_id by (unfold is_s32; lia).
  destruct (decide (seq < 1000)); [rewrite print_0d_len; [lia|lia|cbn; lia]|].
  assert (∃ k, (3 <= k < 8)%nat ∧ 10 ^ Z.of_nat k <= seq < 10 ^ Z.of_nat (S k)) as (k & Hk & Hlo & Hhi).
  { destruct (decide (seq < 10000)); [exists 3%nat; cbn; lia|].
    destruct (decide (seq < 100000)); [exists 4%nat; cbn; lia|].
    destruct (decide (seq < 1000000)); [exists 5%nat; cbn; lia|].
    destruct (decide (seq < 10000000)); [exists 6%nat; cbn; lia|]. exists 7%nat. cbn. lia. }
  assert (List.length (print_d seq) = S k) as Hl by (apply print_d_len; [lia|lia|by right]).
  rewrite print_0d_ge by lia. lia.
Qed.

(** The array [DSC_NewCapFile] allocates is long enough for numbers of up to
    eight digits. *)
Lemma cap_path_fits folder t seq st : tm_wf t → 0 <= seq < 100000000 →
  Z.of_nat (length folder) + 21 <= path_size st →
  Z.of_nat (length (cap_path folder t seq)) + 1 <= path_size st.
Proof. intros Ht Hs Hp. rewrite length_cap_path by done. pose proof (length_number seq Hs). lia. Qed.

(** ** The search for a free name *)

(** The numbers the search tries, in order. *)
Definition candidates (seq : Z) : list Z :=
  let next := u32 (seq + 1) in seq :: seqZ next (1000 - next).

(** The first of them whose file does not exist. *)
Definition first_free (fs : gmap (list Z) (list Z)) (folder : list Z) (t : tm) (l : list Z)
    : option Z :=
  List.find (λ s, bool_decide (fs !! cap_path folder t s = None)) l.

Lemma find_name_spec fuel st folder t seq :
  path_wf st → tm_wf t → Z.of_nat (length folder) + 21 <= path_size st → is_u32 seq →
  1000 - u32 (seq + 1) < Z.of_nat fuel → (0 < fuel)%nat →
  ∃ st', find_name fuel st folder t seq =
           Ok (st', first_free (files st) folder t (candidates seq)) ∧
         path_wf st' ∧ same_store st st' ∧ path_size st' = path_size st.
Proof.
  revert st seq. induction fuel as [|fuel IH]; intros st seq Hw Ht Hp Hs Hf Hpos; [lia|].
  unfold candidates, first_free. cbn [find_name List.find].
  destruct (files st !! cap_path folder t seq) as [c|] eqn:E.
  2:{ rewrite bool_decide_true by done. exists st. done. }
  rewrite bool_decide_false by done. pose proof (u32_range (seq + 1)) as Hr.
  set (s' := u32 (seq + 1)) in *. unfold is_u32 in Hr. destruct (Z.ltb_spec 999 s').
  - rewrite seqZ_nil by lia. exists st. done.
  - destruct (sprintf_path_spec st (cap_path folder t s')) as (st1 & -> & Hw1 & [Hf1 He1] & Hp1);
      [done|apply cap_path_fits; [done|lia|done]|]. cbn [mbind result_bind].
    assert (u32 (s' + 1) = s' + 1) as Hs1 by (apply u32_id; unfold is_u32; lia).
    destruct (IH st1 s') as (st2 & -> & Hw2 & [Hf2 He2] & Hp2); [done|done|lia|unfold is_u32; lia|lia|lia|].
    exists st2. split_and!; [|done|split; congruence|lia].
    rewrite (seqZ_cons s') by lia. unfold first_free, candidates. rewrite Hs1, Hf1.
    by replace (Z.pred (1000 - s')) with (1000 - (s' + 1)) by lia.
Qed.

Lemma first_free_sound fs folder t l n :
  first_free fs folder t l = Some n → fs !! cap_path folder t n = None ∧ n ∈ l.
Proof.
  intros [Hin Hn]%List.find_some. split; [by apply bool_decide_eq_true in Hn|by apply list_elem_of_In].
Qed.

(** ** The index file *)

(** What the index file says: the day and number it holds, or today with
    number 0 when there is no usable index file. *)
Definition last_index (h : host) (fs : gmap (list Z) (list Z)) (folder : list Z) (t : tm)
    : S_DSC_IDX_ELEM :=
  match fs !! index_path folder with
  | Some c =>
      if open_ok h (index_path folder) && (12 <=? Z.of_nat (length c))
      then elem_of_bytes (take 12 c) else today t 0
  | None => today t 0
  end.

Lemma elem_bytes_roundtrip e :
  is_u32 (u32Mon e) → is_u32 (u32MDay e) → is_u32 (u32SeqNo e) →
  elem_of_bytes (elem_bytes e) = e.
Proof.
  intros H1 H2 H3. destruct e as [a b c]. unfold elem_of_bytes. cbn in *.
  f_equal; cbn - [le_bytes le_val Z.mul Z.add]; 
    first [exact (le_val_u32 a H1) | exact (le_val_u32 b H2) | exact (le_val_u32 c H3)].
Qed.

(** The index after [GetDSCIndexElem] and the fallback of its caller. *)
Definition index_after (st : dsc) (err : ERRCODE) (t : tm) : S_DSC_IDX_ELEM :=
  if decide (err = ERR_DSC_OPEN_INDEX_FILE) then today t 0 else s_sCurIdxElem st.

Lemma GetDSCIndexElem_spec h st folder t : path_wf st →
  ∃ st' err, GetDSCIndexElem h st folder = Ok (st', err) ∧ path_wf st' ∧ files st' = files st ∧
    match err with
    | ERR_DSC_MALLOC => ∃ n, malloc_ok h n = false
    | ERR_DSC_OPEN_CAP_FILE => False
    | _ => index_after st' err t = last_index h (files st) folder t
    end.
Proof.
  intros Hw. unfold GetDSCIndexElem.
  assert (index_path_len folder = Z.of_nat (length folder) + 18) as Hlen
    by (unfold index_path_len; cbn; lia).
  destruct (alloc_path_spec h st (index_path_len folder)) as (st1 & ok & E & Hw1 & [Hf1 He1] & Hok);
    [done|lia|]. rewrite E. destruct ok; cbn [negb].
  2:{ exists st1, ERR_DSC_MALLOC. split_and!; [done..|]. exists (index_path_len folder).
      unfold alloc_path in E. repeat case_match; simplify_eq; done. }
  specialize (Hok eq_refl).
  destruct (sprintf_path_spec st1 (index_path folder)) as (st2 & -> & Hw2 & [Hf2 He2] & Hp2);
    [done|rewrite length_index_path; lia|]. cbn [mbind result_bind].
  assert (files st2 = files st) as -> by congruence.
  unfold last_index, index_after. destruct (files st !! index_path folder) as [c|] eqn:Ec.
  2:{ exists st2, ERR_DSC_OPEN_INDEX_FILE. split_and!; [done..|congruence|done]. }
  destruct (open_ok h (index_path folder)); cbn [andb].
  2:{ exists st2, ERR_DSC_OPEN_INDEX_FILE. split_and!; [done..|congruence|done]. }
  eexists _, _. split; [done|]. split; [done|]. split; [cbn; congruence|].
  assert (length (take 12 c) = min 12 (length c)) as Hl by apply length_take.
  destruct (Z.leb_spec 12 (Z.of_nat (length c))).
  - rewrite bool_decide_true by lia. cbn [s_sCurIdxElem set_elem]. rewrite decide_False by done.
    rewrite drop_ge, app_nil_r; [done|]. rewrite Hl. unfold elem_bytes.
    rewrite !length_app, !length_le_bytes. lia.
  - rewrite bool_decide_false by lia. done.
Qed.

(** A fresh module allocates arrays of exactly the size it asks for. *)
Lemma GetDSCIndexElem_fresh h st folder st' err :
  s_pchFilePath st = None → (∀ n, malloc_ok h n = true) →
  GetDSCIndexElem h st folder = Ok (st', err) →
  s_u32FilePathLen st' = Z.of_nat (length folder) + 18 ∧ s_pchFilePath st' ≠ None.
Proof.
  intros Hn Hm. unfold GetDSCIndexElem, alloc_path. rewrite Hn, bool_decide_true, Hm by done.
  cbn [orb negb]. unfold sprintf_path. cbn [s_pchFilePath set_path].
  destruct (blit _ _ _) as [arr|]; [|done]. cbn [mbind result_bind files set_path].
  assert (index_path_len folder = Z.of_nat (length folder) + 18) by (unfold index_path_len; cbn; lia).
  repeat case_match; intros [= <- _]; done.
Qed.

Lemma alloc_path_longer h st n :
  s_u32FilePathLen st < n → malloc_ok h n = true →
  alloc_path h st n = (set_path st (Some (replicate (Z.to_nat n) 0)) n, true).
Proof.
  intros Hl Hm. unfold alloc_path. rewrite (proj2 (Z.ltb_lt _ _)), orb_true_r, Hm by done. done.
Qed.

Lemma length_number_long seq : 100000000 <= seq < 2147483648 →
  (9 <= length (print_0d 3 (s32 seq)))%nat.
Proof.
  intros Hs. rewrite s32_id by (unfold is_s32; lia).
  assert (∃ k, (8 <= k < 12)%nat ∧ 10 ^ Z.of_nat k <= seq < 10 ^ Z.of_nat (S k)) as (k & Hk & Hlo & Hhi).
  { destruct (decide (seq < 1000000000)); [exists 8%nat; cbn; lia|]. exists 9%nat. cbn. lia. }
  assert (List.length (print_d seq) = S k) as Hl by (apply print_d_len; [lia|lia|by right]).
  rewrite print_0d_ge by lia. lia.
Qed.

Lemma start_number_u32 e t : is_u32 (start_number e t).
Proof. unfold start_number. destruct (_ || _); [by unfold is_u32|apply u32_range]. Qed.

Lemma UpdateDSCIndexFile_ok h st folder :
  path_wf st → (∀ n, malloc_ok h n = true) → open_ok h (index_path folder) = true →
  write_ok h (index_path folder) = true →
  ∃ st', UpdateDSCIndexFile h st folder = Ok (st', ERR_DSC_SUCCESS) ∧
    files st' = <[index_path folder := elem_bytes (s_sCurIdxElem st)]> (files st).
Proof.
  intros Hw Hm Ho Hwr. unfold UpdateDSCIndexFile.
  assert (index_path_len folder = Z.of_nat (length folder) + 18) as Hlen
    by (unfold index_path_len; cbn; lia).
  destruct (alloc_path_spec h st (index_path_len folder)) as (st1 & ok & E & Hw1 & [Hf1 He1] & Hok);
    [done|lia|].
  assert (ok = true) as -> by (unfold alloc_path in E; rewrite Hm in E; case_match; congruence).
  specialize (Hok eq_refl). rewrite E. cbn [negb].
  destruct (sprintf_path_spec st1 (index_path folder)) as (st2 & -> & Hw2 & [Hf2 He2] & Hp2);
    [done|rewrite length_index_path; lia|]. cbn [mbind result_bind]. rewrite Ho, Hwr.
  eexists. split; [done|]. cbn. congruence.
Qed.

(** What [DSC_NewCapFile] did, by its return value, when the search starts with
    number [start]. *)
Definition new_file_outcome (h : host) (st : dsc) (folder : list Z) (t : tm) (start : Z)
    (st' : dsc) (err : ERRCODE) (fd : option (list Z)) : Prop :=
  match err with
  | ERR_DSC_SUCCESS => ∃ n,
      first_free (files st) folder t (candidates start) = Some n ∧
      files st !! cap_path folder t n = None ∧
      fd = Some (cap_path folder t n) ∧
      files st' = <[cap_path folder t n := []]> (files st) ∧
      s_sCurIdxElem st' = today t n
  | ERR_DSC_OPEN_CAP_FILE =>
      files st' = files st ∧ fd = None ∧
      match first_free (files st) folder t (candidates start) with
      | Some n => open_ok h (cap_path folder t n) = false
      | None => True
      end
  | ERR_DSC_MALLOC => files st' = files st ∧ fd = None ∧ ∃ n, malloc_ok h n = false
  | ERR_DSC_OPEN_INDEX_FILE => False
  end.

Lemma DSC_NewCapFile_run h st folder t :
  path_wf st → tm_wf t →
  let start := start_number (last_index h (files st) folder t) t in
  start < 100000000 →
  ∃ st' err fd, DSC_NewCapFile h st folder t = Ok (st', err, fd) ∧ path_wf st' ∧
    new_file_outcome h st folder t start st' err fd.
Proof.
  intros Hw Ht start Hstart. unfold DSC_NewCapFile, new_file_outcome.
  destruct (GetDSCIndexElem_spec h st folder t Hw) as (st1 & err & -> & Hw1 & Hf1 & Herr).
  cbn [mbind result_bind]. destruct (decide (err = ERR_DSC_SUCCESS ∨ err = ERR_DSC_OPEN_INDEX_FILE)) as [He|He].
  2:{ exists st1, err, None. split_and!; [done..|].
      destruct err; try done; naive_solver. }
  set (st2 := if decide _ then _ else _).
  assert (s_sCurIdxElem st2 = last_index h (files st) folder t ∧ files st2 = files st ∧ path_wf st2)
    as (Hi2 & Hf2 & Hw2).
  { unfold st2, index_after in *. destruct He as [-> | ->]; done. }
  clearbody st2. rewrite Hi2. fold start.
  destruct (alloc_path_spec h st2 (Z.of_nat (length folder) + 8 + 3 + 10))
    as (st3 & ok & E & Hw3 & [Hf3 He3] & Hok); [done|lia|]. rewrite E. destruct ok; cbn [negb].
  2:{ exists st3, ERR_DSC_MALLOC, None. split_and!; [done..|congruence|done|].
      exists (Z.of_nat (length folder) + 8 + 3 + 10).
      unfold alloc_path in E. repeat case_match; simplify_eq; done. }
  specialize (Hok eq_refl). assert (is_u32 start) as Hu by apply start_number_u32. unfold is_u32 in Hu.
  destruct (sprintf_path_spec st3 (cap_path folder t start)) as (st4 & -> & Hw4 & [Hf4 He4] & Hp4);
    [done|apply cap_path_fits; [done|lia|lia]|]. cbn [mbind result_bind].
  destruct (find_name_spec 1001 st4 folder t start) as (st5 & -> & Hw5 & [Hf5 He5] & Hp5);
    [done|done|lia|done| |lia|].
  { pose proof (u32_range (start + 1)). unfold is_u32 in *. lia. }
  cbn [mbind result_bind]. rewrite Hf4, Hf3, Hf2.
  destruct (first_free (files st) folder t (candidates start)) as [n|] eqn:En.
  - destruct (open_ok h (cap_path folder t n)) eqn:Eo.
    + eexists _, ERR_DSC_SUCCESS, _. split; [done|]. split; [done|]. exists n.
      split_and!; [done|by apply first_free_sound in En as [? _]|done|cbn; congruence|done].
    + exists st5, ERR_DSC_OPEN_CAP_FILE, None. split_and!; done || congruence.
  - exists st5, ERR_DSC_OPEN_CAP_FILE, None. split_and!; done || congruence.
Qed.

Lemma candidates_gt n m : is_u32 n → n + 1 < 1000 ∨ n + 2 < 4294967296 → 
  m ∈ candidates (n + 1) → n < m.
Proof.
  unfold candidates. intros Hn Hlt [-> |Hm]%elem_of_cons; [lia|].
  apply elem_of_seqZ in Hm. unfold is_u32 in Hn. rewrite u32_id in Hm by (unfold is_u32; lia). lia.
Qed.

(** ** Claims *)

(** C16: Taking a new picture never touches an existing file: with a well-formed
    path buffer, a day from [localtime] and a starting number of at most eight
    digits, [DSC_NewCapFile] always returns.  On success it has created an empty
    file whose name was not in use, for the first free number after the one
    the index file holds for today (0 on a new day), and remembers that number;
    on an error no file has changed, and the error says which resource failed
    or that all numbers up to 999 are in use.  When the picture is closed, with
    a writable index file, the next picture of the same day gets a larger
    number. *)
Theorem DSC_pictures_are_numbered h st folder t :
  path_wf st → tm_wf t →
  let start := start_number (last_index h (files st) folder t) t in
  start < 1000000 →
  ∃ st' err fd, DSC_NewCapFile h st folder t = Ok (st', err, fd) ∧ path_wf st' ∧
    new_file_outcome h st folder t start st' err fd ∧
    (err = ERR_DSC_SUCCESS → (∀ n, malloc_ok h n = true) →
     open_ok h (index_path folder) = true → write_ok h (index_path folder) = true →
     ∃ st2 st3 err3 fd3,
       DSC_CloseCapFile h st' folder = Ok st2 ∧
       DSC_NewCapFile h st2 folder t = Ok (st3, err3, fd3) ∧
       (err3 = ERR_DSC_SUCCESS → fd3 ≠ fd ∧
          u32SeqNo (s_sCurIdxElem st') < u32SeqNo (s_sCurIdxElem st3))).
Proof.
  intros Hw Ht start Hstart.
  destruct (DSC_NewCapFile_run h st folder t Hw Ht ltac:(lia)) as (st1 & err & fd & E1 & Hw1 & H1).
  exists st1, err, fd. do 3 (split; [done|]). intros -> Hm Ho Hwr.
  destruct H1 as (n & Hn & Hfree & -> & Hf1 & He1). fold start in Hn.
  assert (0 <= n < 1000001) as Hnb.
  { apply first_free_sound in Hn as [_ Hn]. pose proof (start_number_u32 (last_index h (files st) folder t) t) as Hs.
    fold start in Hs. unfold is_u32 in Hs. unfold candidates in Hn. rewrite u32_id in Hn by (unfold is_u32; lia).
    apply elem_of_cons in Hn as [-> |Hn]; [lia|]. apply elem_of_seqZ in Hn. lia. }
  destruct (UpdateDSCIndexFile_ok h st1 folder Hw1 Hm Ho Hwr) as (st2 & E2 & Hf2).
  unfold DSC_CloseCapFile. rewrite E2. cbn [mbind result_bind].
  set (st2' := set_path st2 None (s_u32FilePathLen st2)).
  assert (is_u32 (tm_mon t + 1) ∧ is_u32 (tm_mday t)) as [Hu1 Hu2].
  { destruct Ht. unfold is_u32. lia. }
  assert (start_number (last_index h (files st2') folder t) t = n + 1) as Hstart2.
  { unfold last_index. cbn [st2' set_path files]. rewrite Hf2, lookup_insert_eq, Ho, He1.
    change (length (elem_bytes (today t n))) with 12%nat. cbn [Z.of_nat andb].
    change (12 <=? 12) with true. cbv iota. rewrite take_ge by (cbn; lia).
    rewrite elem_bytes_roundtrip by (cbn; first [apply u32_range | unfold is_u32; lia]).
    unfold start_number, today. cbn. rewrite !Z.eqb_refl. cbn. apply u32_id. unfold is_u32. lia. }
  destruct (DSC_NewCapFile_run h st2' folder t) as (st3 & err3 & fd3 & E3 & Hw3 & H3); [done|done|lia|].
  exists st2', st3, err3, fd3. split_and!; [done..|]. intros ->.
  destruct H3 as (m & Hm3 & Hfree3 & -> & _ & He3). rewrite Hstart2 in Hm3.
  apply first_free_sound in Hm3 as [_ Hm3].
  assert (n < m) by (apply candidates_gt; [unfold is_u32; lia|lia|done]).
  rewrite He1, He3. cbn. split; [|done]. intros [= E]. 
  cbn [st2' set_path files] in Hfree3. rewrite Hf2, Hf1, E in Hfree3.
  destruct (decide (index_path folder = cap_path folder t n)) as [Eq|Hne].
  - rewrite Eq, lookup_insert_eq in Hfree3. done.
  - rewrite lookup_insert_ne, lookup_insert_eq in Hfree3 by done. done.
Qed.

(** The limit of 999 pictures a day is only tested after a name was found in
    use.  When the index file says that picture 999 of today was the last one,
    the next picture is number 1000, which does not fit the three digits of the
    8.3 name.  The number in the index file is not checked either: from
    99999999 on the name is longer than the array allocated for it. *)
Theorem DSC_number_limits h folder t fs c :
  tm_wf t → (∀ n, malloc_ok h n = true) → (∀ p, open_ok h p = true) →
  fs !! index_path folder = Some c → 
  let st := Dsc None 0 (IdxElem 0 0 0) fs in
  (c = elem_bytes (today t 999) → fs !! cap_path folder t 1000 = None →
   ∃ st', DSC_NewCapFile h st folder t = Ok (st', ERR_DSC_SUCCESS, Some (cap_path folder t 1000)) ∧
          length (cap_path folder t 1000) = (length folder + 16)%nat) ∧
  (∀ n, c = elem_bytes (today t n) → 99999999 <= n < 2147483647 →
   DSC_NewCapFile h st folder t = Crash OutOfBounds).
Proof.
  intros Ht Hm Ho Hc st.
  assert (∀ n, is_u32 n → n + 1 < 4294967296 → c = elem_bytes (today t n) →
    start_number (last_index h fs folder t) t = n + 1) as Hlast.
  { intros n Hn Hn1 ->. unfold last_index. rewrite Hc, Ho.
    change (length (elem_bytes (today t n))) with 12%nat. cbn [Z.of_nat andb].
    change (12 <=? 12) with true. cbv iota. rewrite take_ge by (cbn; lia).
    rewrite elem_bytes_roundtrip by (cbn; first [apply u32_range | done]).
    unfold start_number, today. cbn. rewrite !Z.eqb_refl. cbn. apply u32_id.
    unfold is_u32 in *. lia. }
  split.
  - intros Hc1 Hfree. specialize (Hlast 999 ltac:(unfold is_u32; lia) ltac:(lia) Hc1).
    destruct (DSC_NewCapFile_run h st folder t) as (st' & err & fd & E & _ & H); [done|done| |].
    { cbn. rewrite Hlast. lia. }
    cbn [st files] in H. rewrite Hlast in H.
    assert (first_free fs folder t (candidates (999 + 1)) = Some 1000) as Hff.
    { unfold first_free, candidates. cbn [List.find]. change (999 + 1) with 1000.
      rewrite bool_decide_true by done. done. }
    unfold new_file_outcome in H. cbn [files st] in H. rewrite Hff in H. destruct err; cbn in H.
    + destruct H as (n & [= <-] & _ & -> & _). exists st'. split; [done|].
      apply Nat2Z.inj. rewrite length_cap_path by done. change (length (print_0d 3 (s32 1000))) with 4%nat. lia.
    + done.
    + destruct H as (_ & _ & n & Hn). by rewrite Hm in Hn.
    + destruct H as (_ & _ & Hn). by rewrite Ho in Hn.
  - intros n Hc1 Hn. specialize (Hlast n ltac:(unfold is_u32; lia) ltac:(lia) Hc1).
    unfold DSC_NewCapFile. 
    destruct (GetDSCIndexElem_spec h st folder t) as (st1 & err & E & Hw1 & Hf1 & Herr); [done|].
    rewrite E. cbn [mbind result_bind].
    destruct (GetDSCIndexElem_fresh h st folder st1 err eq_refl Hm E) as [Hp1 Hn1].
    destruct (decide (err = ERR_DSC_SUCCESS ∨ err = ERR_DSC_OPEN_INDEX_FILE)) as [He|He].
    2:{ destruct err; [by destruct He; left|by destruct He; right| |done].
        destruct Herr as [k Hk]. by rewrite Hm in Hk. }
    set (st2 := if decide _ then _ else _).
    assert (s_sCurIdxElem st2 = last_index h fs folder t ∧
            s_u32FilePathLen st2 = Z.of_nat (length folder) + 18) as (Hi2 & Hl2).
    { unfold st2, index_after in *. destruct He as [-> | ->]; done. }
    clearbody st2. rewrite Hi2, Hlast, alloc_path_longer by (done || lia). cbn [negb].
    rewrite sprintf_path_crash; [done|done|]. cbn. rewrite length_replicate, length_cap_path by done.
    pose proof (length_number_long (n + 1) ltac:(lia)). lia.
Qed.

(** ** Witnesses *)

Definition sample_host : host := Host (λ _, true) (λ _, true) (λ _, true).
Definition sample_day : tm := Tm 4 7.
Definition sample_folder : list Z := lit "/mnt/DCIM".
(** Picture 000 of the day exists, and there is no index file. *)
Definition sample_dsc : dsc :=
  Dsc None 0 (IdxElem 0 0 0) {[ cap_path sample_folder sample_day 1 := [1; 2; 3] ]}.

Lemma DSC_pictures_are_numbered_witness :
  ∃ st', DSC_NewCapFile sample_host sample_dsc sample_folder sample_day =
           Ok (st', ERR_DSC_SUCCESS, Some (lit "/mnt/DCIM/KRV0507002.jpg")) ∧ path_wf st'.
Proof.
  destruct (DSC_pictures_are_numbered sample_host sample_dsc sample_folder sample_day)
    as (st' & err & fd & E & Hw & _).
  - done.
  - unfold tm_wf. cbn. lia.
  - vm_compute. reflexivity.
  - assert (match DSC_NewCapFile sample_host sample_dsc sample_folder sample_day with
            | Ok (_, e, f) => Some (e, f) | Crash _ => None end =
            Some (ERR_DSC_SUCCESS, Some (lit "/mnt/DCIM/KRV0507002.jpg"))) as Hv
      by (vm_compute; reflexivity).
    rewrite E in Hv. injection Hv as -> ->. exists st'. split; [exact E|exact Hw].
Defined.

Lemma DSC_number_limits_witness :
  let fs n := {[ index_path sample_folder := elem_bytes (today sample_day n) ]} in
  (∃ st', DSC_NewCapFile sample_host (Dsc None 0 (IdxElem 0 0 0) (fs 999)) sample_folder sample_day =
     Ok (st', ERR_DSC_SUCCESS, Some (lit "/mnt/DCIM/KRV05071000.jpg"))) ∧
  DSC_NewCapFile sample_host (Dsc None 0 (IdxElem 0 0 0) (fs 123456789)) sample_folder sample_day =
    Crash OutOfBounds.
Proof.
  assert (tm_wf sample_day) as Hday by (unfold tm_wf; cbn; lia).
  split.
  - destruct (DSC_number_limits sample_host sample_folder sample_day
      {[ index_path sample_folder := elem_bytes (today sample_day 999) ]}
      (elem_bytes (today sample_day 999))) as [H _]; [done|done|done|by apply lookup_singleton_eq|].
    destruct H as (st' & H & _); [done|vm_compute; reflexivity|]. exists st'. exact H.
  - destruct (DSC_number_limits sample_host sample_folder sample_day
      {[ index_path sample_folder := elem_bytes (today sample_day 123456789) ]}
      (elem_bytes (today sample_day 123456789))) as [_ H]; [done|done|done|by apply lookup_singleton_eq|].
    apply (H 123456789); [done|lia].
Defined.
