(* ===== verification/Device.v ===== *)
(** * Device: programs that talk to a device driver

    A program keeps static variables of type [S] and makes requests of type
    [R] to a driver; [reply r] is what the driver returns for request [r].
    The driver is a class: a state [D] with an answer for every request, and
    the requests are logged in order.  The code is written in the state monad
    [prog], in which a memory fault is a [Crash]. *)
From S2P Require Import Prelude.

Class Driver (R : Type) (reply : R → Type) (D : Type) := respond : D → ∀ r : R, D * reply r.

(** The static variables, the driver and the requests made so far. *)
Record world (S R D : Type) := World { vars : S; driver : D; trace : list R }.
Arguments World {S R D}.
Arguments vars {S R D}.
Arguments driver {S R D}.
Arguments trace {S R D}.

Definition prog (S R D A : Type) : Type := world S R D → result (A * world S R D).

#[export] Instance prog_ret {S R D} : MRet (prog S R D) := λ A a w, Ok (a, w).
#[export] Instance prog_bind {S R D} : MBind (prog S R D) := λ A B f m w,
  match m w with Ok (a, w') => f a w' | Crash c => Crash c end.

Section operations.
Context {S R D : Type} {reply : R → Type} `{Driver R reply D}.
Implicit Types w : world S R D.

Definition fault {A} (c : crash) : prog S R D A := λ _, Crash c.
Definition lift {A} (r : result A) : prog S R D A := λ w,
  match r with Ok a => Ok (a, w) | Crash c => Crash c end.
Definition get : prog S R D S := λ w, Ok (vars w, w).
Definition with_vars w (s : S) : world S R D := World s (driver w) (trace w).
Definition modify (f : S → S) : prog S R D unit := λ w, Ok (tt, with_vars w (f (vars w))).

(** The answer to a request and the world after it. *)
Definition answer w (r : R) : reply r := (respond (driver w) r).2.
Definition after w (r : R) : world S R D :=
  World (vars w) (respond (driver w) r).1 (trace w ++ [r]).
Definition request {A} (r : R) (k : reply r → prog S R D A) : prog S R D A := λ w,
  k (answer w r) (after w r).

(** ** Running a program *)

Lemma request_run {A} r (k : reply r → prog S R D A) w : request r k w = k (answer w r) (after w r).
Proof. done. Qed.
Lemma bind_run {A B} (m : prog S R D A) (k : A → prog S R D B) w :
  (m ≫= k) w = match m w with Ok (a, w') => k a w' | Crash c => Crash c end.
Proof. done. Qed.
Lemma get_run {B} (k : S → prog S R D B) w : (get ≫= k) w = k (vars w) w.
Proof. done. Qed.
Lemma modify_run {B} f (k : unit → prog S R D B) w :
  (modify f ≫= k) w = k tt (with_vars w (f (vars w))).
Proof. done. Qed.
Lemma mret_run {A} (a : A) w : (mret a : prog S R D A) w = Ok (a, w).
Proof. done. Qed.
Lemma lift_run {A B} (r : result A) (k : A → prog S R D B) w :
  (lift r ≫= k) w = match r with Ok a => k a w | Crash c => Crash c end.
Proof. unfold mbind, prog_bind, lift. by destruct r. Qed.

Lemma vars_after w r : vars (after w r) = vars w.
Proof. done. Qed.
Lemma trace_after w r : trace (after w r) = trace w ++ [r].
Proof. done. Qed.
Lemma vars_with w s : vars (with_vars w s) = s.
Proof. done. Qed.
Lemma trace_with w s : trace (with_vars w s) = trace w.
Proof. done. Qed.
End operations.

(** ** Programs that may call exit(status) *)

Definition may_exit (A : Type) : Type := (A + Z)%type.

Section exits.
Context {S R D : Type}.
Notation P := (prog S R D).

Definition go {A} (a : A) : P (may_exit A) := mret (inl a).
Definition exits {A} (status : Z) : P (may_exit A) := mret (inr status).
Definition then_ {A B} (m : P (may_exit A)) (k : A → P (may_exit B)) : P (may_exit B) :=
  m ≫= λ r, match r with inl a => k a | inr status => exits status end.
End exits.

(** ** Programs of a part

    The variables of the part are a part of the whole's, its requests are
    embedded in those of the whole. *)
Section within.
Context {S S' R R' D : Type} (get_part : S → S') (put_part : S' → S → S) (inj : R' → R).

Definition within {A} (m : prog S' R' D A) : prog S R D A := λ w,
  match m (World (get_part (vars w)) (driver w) []) with
  | Ok (a, w') => Ok (a, World (put_part (vars w') (vars w)) (driver w') (trace w ++ (inj <$> trace w')))
  | Crash c => Crash c
  end.
End within.

Notation "x ⇐ r ; k" := (request r (λ x, k)) (at level 20, r at level 100, k at level 200) : cmodel_scope.

Create Rewrite HintDb device.
#[export] Hint Rewrite @request_run @get_run @modify_run @lift_run @mret_run : device.
#[export] Hint Rewrite @vars_after @trace_after @vars_with @trace_with : device.
