(* ===== verification/Runs.v ===== *)
(** * Runs: a program logic for programs above a driver

    [runs m w Q]: from the world [w] the program [m] ends without a fault, and
    its value and the world after it satisfy [Q].  There is a rule for every
    construct of the monad of [Device]; [Forall] over the trace is the usual way
    to say something of the requests that are made on the way. *)
From S2P Require Import Prelude Device.
Local Open Scope cmodel_scope.

Create HintDb runs.

Section rules.
Context {S R D : Type} {reply : R → Type} `{Driver R reply D}.
Notation P := (prog S R D).
Implicit Types w : world S R D.

Definition runs {A} (m : P A) w (Q : A → world S R D → Prop) : Prop := ∃ a w', m w = Ok (a, w') ∧ Q a w'.

Lemma runs_ret {A} (a : A) w Q : Q a w → runs (mret a) w Q.
Proof. by exists a, w. Qed.

Lemma runs_bind {A B} (m : P A) (k : A → P B) w (Q : B → world S R D → Prop) :
  runs m w (λ a w', runs (k a) w' Q) → runs (m ≫= k) w Q.
Proof. intros (a & w1 & E & b & w2 & E2 & HQ). exists b, w2. by rewrite bind_run, E. Qed.

Lemma runs_request {A} r (k : reply r → P A) w Q : runs (k (answer w r)) (after w r) Q → runs (request r k) w Q.
Proof. done. Qed.

Lemma runs_get {A} (k : S → P A) w Q : runs (k (vars w)) w Q → runs (get ≫= k) w Q.
Proof. done. Qed.

Lemma runs_modify f w (Q : unit → world S R D → Prop) : Q tt (with_vars w (f (vars w))) → runs (modify f) w Q.
Proof. intros. by eexists _, _. Qed.

Lemma runs_lift {A} (r : result A) a w Q : r = Ok a → Q a w → runs (lift r) w Q.
Proof. intros -> ?. by exists a, w. Qed.

Lemma runs_mono {A} (m : P A) w (Q Q' : A → world S R D → Prop) :
  runs m w Q → (∀ a w', Q a w' → Q' a w') → runs m w Q'.
Proof. intros (a & w' & E & HQ) Hm. exists a, w'. auto. Qed.

Lemma runs_go {A} (a : A) w (Q : may_exit A → world S R D → Prop) : Q (inl a) w → runs (go a) w Q.
Proof. apply runs_ret. Qed.

(** The first program does not exit. *)
Lemma runs_then {A B} (m : P (may_exit A)) (k : A → P (may_exit B)) w (Q : may_exit B → world S R D → Prop) :
  runs m w (λ r w', ∃ a, r = inl a ∧ runs (k a) w' Q) → runs (then_ m k) w Q.
Proof. intros Hm. apply runs_bind. eapply runs_mono; [exact Hm|]. by intros r w' (a & -> & Hk). Qed.
End rules.

Lemma runs_within {S S' R R' D A} (get_part : S → S') (put_part : S' → S → S) (inj : R' → R) (m : prog S' R' D A) (w : world S R D)
    (Q : A → world S R D → Prop) :
  runs m (World (get_part (vars w)) (driver w) []) (λ a w', Q a (World (put_part (vars w') (vars w)) (driver w') (trace w ++ (inj <$> trace w')))) →
  runs (within get_part put_part inj m) w Q.
Proof. intros (a & w' & E & HQ). eexists _, _. split; [unfold within; by rewrite E|exact HQ]. Qed.

(** ** What a program leaves as it is

    [preserves J m]: whatever [m] requests, [J] of the driver stays true; proved
    from the text of the program, together with [runs] it says more of its end. *)
Section preserves.
Context {S R D : Type} {reply : R → Type} `{Driver R reply D} (J : D → Prop).
Notation P := (prog S R D).

Definition preserves {A} (m : P A) : Prop := ∀ w a w', m w = Ok (a, w') → J (driver w) → J (driver w').

Lemma preserves_ret {A} (a : A) : preserves (mret a).
Proof. by intros w b w' [= <- <-]. Qed.
Lemma preserves_fault {A} c : preserves (fault c : P A).
Proof. by intros w b w' [=]. Qed.
Lemma preserves_get : preserves get.
Proof. by intros w b w' [= <- <-]. Qed.
Lemma preserves_modify f : preserves (modify f).
Proof. by intros w b w' [= <- <-]. Qed.
Lemma preserves_lift {A} (r : result A) : preserves (lift r).
Proof. destruct r; by intros w b w' [= <- <-]. Qed.
Lemma preserves_bind {A B} (m : P A) (k : A → P B) : preserves m → (∀ a, preserves (k a)) → preserves (m ≫= k).
Proof.
  intros Hm Hk w b w' E HJ. rewrite bind_run in E. destruct (m w) as [[a w1]|] eqn:E1; [|done]. eapply Hk; [exact E|]. by eapply Hm.
Qed.
Lemma preserves_request {A} r (k : reply r → P A) : (∀ d, J d → J (respond d r).1) → (∀ a, preserves (k a)) → preserves (request r k).
Proof. intros Hr Hk w b w' E HJ. eapply (Hk (answer w r)); [exact E|]. by apply Hr. Qed.

Lemma runs_preserves {A} (m : P A) w Q : preserves m → J (driver w) → runs m w Q → runs m w (λ a w', J (driver w') ∧ Q a w').
Proof. intros Hk HJ (a & w' & E & HQ). exists a, w'. split; [done|]. split; [by eapply Hk|done]. Qed.
End preserves.

(** The constructs one after the other; [tac] is for the requests. *)
Ltac keep tac :=
  repeat first
    [ simple apply preserves_ret | simple apply preserves_fault | simple apply preserves_get | simple apply preserves_modify | simple apply preserves_lift
    | simple apply preserves_request; [tac|intros ?] | simple apply preserves_bind; [|intros ?] | progress case_match | assumption ].
