(* ===== verification/Misc.v ===== *)
(** * Misc: definitions shared by the modules of the camera demo

    Models src/videoin_HW/Misc.h: the picture resolutions and the number of
    attempts at opening a device. *)
From S2P Require Import Prelude.

Inductive E_IMAGE_RESOL := eIMAGE_QVGA | eIMAGE_WQVGA | eIMAGE_VGA | eIMAGE_SVGA | eIMAGE_HD720.

#[export] Instance resol_eq_dec : EqDecision E_IMAGE_RESOL.
Proof. solve_decision. Defined.

Definition RETRY_NUM : nat := 4.

(** Codes of the keys *)
Definition HOME_KEY : Z := 19.
Definition CAMERA : Z := 13.
Definition VOL_PLUS_KEY : Z := 175.
Definition VOL_MINUS_KEY : Z := 174.
Definition UP_KEY : Z := 14.
Definition DOWN_KEY : Z := 15.
Definition LEFT_KEY : Z := 1.
Definition RIGHT_KEY : Z := 2.
