(* ===== verification/V4l.v ===== *)
(** * V4l: the video capture module of the camera demo

    Models src/videoin_HW/V4L.c: opening and configuring the capture device,
    the ring of frame buffers, the preview and encode windows, the sensor
    controls and digital zoom.  The kernel driver is not part of the sources:
    it is a [Driver], a state with an answer for every request, and every
    request the module makes is appended to a log, so that the theorems can
    speak about which requests are made in which order.

    The module's code is written in a state monad over its static variables,
    the driver's state and the log; a memory fault is a [Crash]. *)
From S2P Require Import Prelude LibC Misc.
Local Open Scope cmodel_scope.
Local Open Scope Z_scope.

(** ** Data of the driver interface *)

Definition u64 (z : Z) : Z := z mod 18446744073709551616.

Inductive errno_t := EAGAIN | EINTR | EINVAL | EOTHER.

#[export] Instance errno_eq_dec : EqDecision errno_t.
Proof. solve_decision. Defined.

(** struct video_window *)
Record video_window := VideoWindow {
  win_width : Z; win_height : Z; win_x : Z; win_y : Z; win_chromakey : Z; win_flags : Z
}.

(** struct video_mbuf: size of the mapping, number of frames, their offsets *)
Record video_mbuf := VideoMbuf { mb_size : Z; mb_frames : Z; mb_offsets : list Z }.

(** struct video_mmap *)
Record video_mmap := VideoMmap { mm_frame : Z; mm_height : Z; mm_width : Z; mm_format : Z }.

(** struct v4l2_queryctrl *)
Record v4l2_queryctrl := QueryCtrl {
  q_id : Z; q_name : list Z; q_minimum : Z; q_maximum : Z; q_step : Z; q_flags : Z
}.

(** struct v4l2_rect and the parts of struct v4l2_cropcap that are used *)
Record v4l2_rect := Rect { r_left : Z; r_top : Z; r_width : Z; r_height : Z }.
Record v4l2_cropcap := CropCap { defrect : v4l2_rect; numerator : Z; denominator : Z }.

Record S_PIPE_INFO := PipeInfo {
  i32PipeBufNo : Z; i32PipeBufSize : Z; i32CurrPipePhyAddr : Z
}.

(** timestamp (seconds, microseconds) and physical address of a v4l2_buffer *)
Record v4l2_buffer := V4l2Buffer { tv_sec : Z; tv_usec : Z; userptr : Z }.

(** The system calls of the module, with what they pass in; the last three are
    on the file of [dumpV4LBuffer]. *)
Inductive req :=
| ROpen
| RClose (fd : Z)
| MMAP (shared : bool) (size : Z)
| MUNMAP (size : Z)
| VIDIOCGCAP
| VIDIOCGPICT
| VIDIOCSPICT (palette depth : Z)
| VIDIOCGMBUF
| VIDIOCSWIN (w : video_window)
| VIDIOCCAPTURE (val : Z)
| VIDIOCMCAPTURE (m : video_mmap)
| VIDIOCSYNC (frame : Z)
| VIDIOCGCAPTIME (index : Z)
| VIDIOCSPREVIEW (val : Z)
| VIDIOC_QUERYCTRL (id : Z)
| VIDIOC_S_CTRL (id value : Z)
| VIDIOC_G_CTRL (id value : Z)
| VIDIOC_CROPCAP
| VIDIOC_G_CROP
| VIDIOC_S_CROP (c : v4l2_rect)
| VIDIOC_QUERY_SENSOR_ID
| VIDIOC_G_PACKET_INFO
| VIDIOC_G_PLANAR_INFO
| VIDIOC_S_MAP_BUF (val : Z)
| FOpenDump
| FWriteDump (size : Z)
| FClose (file : Z).

(** What each of them fills in. *)
Definition reply_data (r : req) : Type :=
  match r with
  | VIDIOCGCAP => Z
  | VIDIOCGMBUF => video_mbuf
  | VIDIOCGCAPTIME _ => v4l2_buffer
  | VIDIOC_QUERYCTRL _ => v4l2_queryctrl
  | VIDIOC_G_CTRL _ _ => Z
  | VIDIOC_CROPCAP => v4l2_cropcap
  | VIDIOC_G_CROP => v4l2_rect
  | VIDIOC_QUERY_SENSOR_ID => Z
  | VIDIOC_G_PACKET_INFO | VIDIOC_G_PLANAR_INFO => S_PIPE_INFO
  | _ => unit
  end.

(** Return value, errno and output of a call. *)
Record reply (r : req) := Reply { ret : Z; errno : errno_t; out : reply_data r }.
Arguments Reply {r} & ret errno out.
Arguments ret {r} _.
Arguments errno {r} _.
Arguments out {r} _.

(** The driver: a state that answers requests. *)
Class Driver (D : Type) := ioctl : D → ∀ r : req, D * reply r.

(** ** State of the module *)

Record S_V4L_VID_DATA := VidData {
  i32VidFD : Z;
  i32FrameFmt : Z;
  i32UseMMap : Z;
  i32FrameSize : Z;
  sVidWin : video_window;
  pu8VidBuf : Z;
  sVidMBufs : video_mbuf;
  sVidMMap : video_mmap;
  i32VidFrame : Z;
}.

Definition set_fd (v : S_V4L_VID_DATA) (x : Z) : S_V4L_VID_DATA :=
  VidData x (i32FrameFmt v) (i32UseMMap v) (i32FrameSize v) (sVidWin v) (pu8VidBuf v)
    (sVidMBufs v) (sVidMMap v) (i32VidFrame v).
Definition set_fmt (v : S_V4L_VID_DATA) (x : Z) : S_V4L_VID_DATA :=
  VidData (i32VidFD v) x (i32UseMMap v) (i32FrameSize v) (sVidWin v) (pu8VidBuf v)
    (sVidMBufs v) (sVidMMap v) (i32VidFrame v).
Definition set_use (v : S_V4L_VID_DATA) (x : Z) : S_V4L_VID_DATA :=
  VidData (i32VidFD v) (i32FrameFmt v) x (i32FrameSize v) (sVidWin v) (pu8VidBuf v)
    (sVidMBufs v) (sVidMMap v) (i32VidFrame v).
Definition set_size (v : S_V4L_VID_DATA) (x : Z) : S_V4L_VID_DATA :=
  VidData (i32VidFD v) (i32FrameFmt v) (i32UseMMap v) x (sVidWin v) (pu8VidBuf v)
    (sVidMBufs v) (sVidMMap v) (i32VidFrame v).
Definition set_win (v : S_V4L_VID_DATA) (x : video_window) : S_V4L_VID_DATA :=
  VidData (i32VidFD v) (i32FrameFmt v) (i32UseMMap v) (i32FrameSize v) x (pu8VidBuf v)
    (sVidMBufs v) (sVidMMap v) (i32VidFrame v).
Definition set_buf (v : S_V4L_VID_DATA) (x : Z) : S_V4L_VID_DATA :=
  VidData (i32VidFD v) (i32FrameFmt v) (i32UseMMap v) (i32FrameSize v) (sVidWin v) x
    (sVidMBufs v) (sVidMMap v) (i32VidFrame v).
Definition set_mbufs (v : S_V4L_VID_DATA) (x : video_mbuf) : S_V4L_VID_DATA :=
  VidData (i32VidFD v) (i32FrameFmt v) (i32UseMMap v) (i32FrameSize v) (sVidWin v) (pu8VidBuf v)
    x (sVidMMap v) (i32VidFrame v).
Definition set_mmap (v : S_V4L_VID_DATA) (x : video_mmap) : S_V4L_VID_DATA :=
  VidData (i32VidFD v) (i32FrameFmt v) (i32UseMMap v) (i32FrameSize v) (sVidWin v) (pu8VidBuf v)
    (sVidMBufs v) x (i32VidFrame v).
Definition set_frame (v : S_V4L_VID_DATA) (x : Z) : S_V4L_VID_DATA :=
  VidData (i32VidFD v) (i32FrameFmt v) (i32UseMMap v) (i32FrameSize v) (sVidWin v) (pu8VidBuf v)
    (sVidMBufs v) (sVidMMap v) x.

(** The static variables, the driver and the requests made so far. *)
Record state (D : Type) := State {
  vid : S_V4L_VID_DATA;
  s_u64PrevTS : Z;
  ctrl_id : Z;
  PrivateUserCtrl : list v4l2_queryctrl;
  dev : D;
  log : list req;
}.
Arguments State {D}.
Arguments vid {D}.
Arguments s_u64PrevTS {D}.
Arguments ctrl_id {D}.
Arguments PrivateUserCtrl {D}.
Arguments dev {D}.
Arguments log {D}.

(** ** The monad *)

Definition M (D A : Type) : Type := state D → result (A * state D).

#[export] Instance M_ret {D} : MRet (M D) := λ A a st, Ok (a, st).
#[export] Instance M_bind {D} : MBind (M D) := λ A B f m st,
  match m st with Ok (a, st') => f a st' | Crash c => Crash c end.

Definition crash_with {D A} (c : crash) : M D A := λ _, Crash c.
Definition lift {D A} (r : result A) : M D A := λ st,
  match r with Ok a => Ok (a, st) | Crash c => Crash c end.
Definition gets {D A} (f : state D → A) : M D A := λ st, Ok (f st, st).
Definition modify_vid {D} (f : S_V4L_VID_DATA → S_V4L_VID_DATA) : M D unit := λ st,
  Ok (tt, State (f (vid st)) (s_u64PrevTS st) (ctrl_id st) (PrivateUserCtrl st) (dev st) (log st)).
Definition set_prev_ts {D} (ts : Z) : M D unit := λ st,
  Ok (tt, State (vid st) ts (ctrl_id st) (PrivateUserCtrl st) (dev st) (log st)).
Definition set_ctrls {D} (l : list v4l2_queryctrl) (n : Z) : M D unit := λ st,
  Ok (tt, State (vid st) (s_u64PrevTS st) n l (dev st) (log st)).

(** A request: the driver answers and the log grows. *)
Definition call {D} `{Driver D} (r : req) : M D (reply r) := λ st,
  let '(d, rp) := ioctl (dev st) r in
  Ok (rp, State (vid st) (s_u64PrevTS st) (ctrl_id st) (PrivateUserCtrl st) d (log st ++ [r])).

Definition request {D} `{Driver D} {A} (r : req) (k : reply r → M D A) : M D A := call r ≫= k.
Notation "rp ⇐ r ; k" := (request r (λ rp, k)) (at level 20, r at level 100, k at level 200) : cmodel_scope.

Definition get_vid {D} : M D S_V4L_VID_DATA := gets vid.

(** ** Return codes *)

Definition ERRCODE := Z.
Definition V4L_ERR : Z := 0x80400000.
Definition v4l_err (k : Z) : ERRCODE := s32 (Z.lor V4L_ERR k).
Definition ERR_V4L_SUCCESS : ERRCODE := 0.
Definition ERR_V4L_OPEN_DEV : ERRCODE := v4l_err 0x1.
Definition ERR_V4L_VID_GET_CAP : ERRCODE := v4l_err 0x2.
Definition ERR_V4L_VID_GRAB_DEV : ERRCODE := v4l_err 0x3.
Definition ERR_V4L_VID_SET_PICT : ERRCODE := v4l_err 0x4.
Definition ERR_V4L_VID_SET_WIN : ERRCODE := v4l_err 0x5.
Definition ERR_AVDEV_VID_CAPTURE : ERRCODE := v4l_err 0x6.
Definition ERR_V4L_MMAP : ERRCODE := v4l_err 0x7.
Definition ERR_V4L_VID_MCAPTURE : ERRCODE := v4l_err 0x8.
Definition ERR_V4L_VID_SYNC : ERRCODE := v4l_err 0x9.
Definition ERR_V4L_VID_CAPTURE : ERRCODE := v4l_err 0xA.
Definition ERR_V4L_VID_QUERY_UID : ERRCODE := v4l_err 0xB.

Definition VIDEO_START : Z := 0.
Definition VIDEO_STOP : Z := 1.

(** Constants of <linux/videodev.h> and <linux/videodev2.h>. *)
Definition VID_TYPE_CAPTURE : Z := 1.
Definition VIDEO_PALETTE_YUV422 : Z := 7.
Definition VIDEO_PALETTE_YUV420P : Z := 15.
Definition V4L2_CTRL_FLAG_DISABLED : Z := 1.

(** ** Opening the device *)

Definition init_size (r : E_IMAGE_RESOL) : Z * Z :=
  match r with
  | eIMAGE_VGA => (640, 480)
  | eIMAGE_WQVGA => (480, 272)
  | _ => (320, 240)
  end.

(** [a % b] on int. *)
Definition int_rem (a b : Z) : result Z := if b =? 0 then Crash DivByZero else Ok (Z.rem a b).

(** [s_sVidData.i32FrameSize = sVidMMap.width * sVidMMap.height * 2] *)
Definition frame_size_of (m : video_mmap) : Z := s32 (mm_width m * mm_height m * 2).

Section operations.
Context {D : Type} `{Driver D}.

(** Capture through read(), when the driver offers no buffers to map. *)
Definition init_read (w h : Z) : M D ERRCODE :=
  let win := VideoWindow w h 0 0 (u32 (-1)) 0 in
  _ ← modify_vid (λ v, set_win v win);
  rp ⇐ (VIDIOCSWIN win);
  if ret rp <? 0 then mret ERR_V4L_VID_SET_WIN else
  _ ← modify_vid (λ v, set_fmt v VIDEO_PALETTE_YUV420P);
  rp ⇐ (VIDIOCCAPTURE 1);
  if ret rp <? 0 then mret ERR_AVDEV_VID_CAPTURE else
  _ ← modify_vid (λ v, set_use v 0);
  mret ERR_V4L_SUCCESS.

(** mmap of the buffers, shared or, failing that, private; -1 is MAP_FAILED. *)
Definition map_buffers (size : Z) : M D bool :=
  rp ⇐ (MMAP true size);
  _ ← modify_vid (λ v, set_buf v (ret rp));
  if ret rp =? -1 then
    rp ⇐ (MMAP false size);
    _ ← modify_vid (λ v, set_buf v (ret rp));
    mret (negb (ret rp =? -1))
  else mret true.

Definition init_mmap (w h : Z) (mb : video_mbuf) : M D ERRCODE :=
  ok ← map_buffers (mb_size mb);
  if negb ok then mret ERR_V4L_MMAP else
  _ ← modify_vid (λ v, set_frame v 0);
  f ← lift (int_rem 0 (mb_frames mb));
  let m := VideoMmap f h w VIDEO_PALETTE_YUV420P in
  _ ← modify_vid (λ v, set_mmap v m);
  rp ⇐ (VIDIOCMCAPTURE m);
  if ret rp <? 0 then mret ERR_V4L_VID_MCAPTURE else
  _ ← modify_vid (λ v, set_use (set_fmt v (mm_format m)) 1);
  mret ERR_V4L_SUCCESS.

(** Everything between the open and the labels at the end. *)
Definition init_body (fd : Z) (resol : E_IMAGE_RESOL) : M D ERRCODE :=
  rp ⇐ VIDIOCGCAP;
  if ret rp <? 0 then mret ERR_V4L_VID_GET_CAP else
  if Z.land (out rp) VID_TYPE_CAPTURE =? 0 then mret ERR_V4L_VID_GRAB_DEV else
  let '(w, h) := init_size resol in
  _ ⇐ VIDIOCGPICT;
  rp ⇐ (VIDIOCSPICT VIDEO_PALETTE_YUV422 16);
  if ret rp <? 0 then mret ERR_V4L_VID_SET_PICT else
  rp ⇐ VIDIOCGMBUF;
  err ← (if ret rp <? 0 then init_read w h
         else _ ← modify_vid (λ v, set_mbufs v (out rp)); init_mmap w h (out rp));
  if negb (err =? ERR_V4L_SUCCESS) then mret err else
  _ ← modify_vid (λ v, set_fd (set_size v (frame_size_of (sVidMMap v))) fd);
  mret ERR_V4L_SUCCESS.

Definition InitV4LDevice (resol : E_IMAGE_RESOL) : M D ERRCODE :=
  rp ⇐ ROpen;
  if ret rp <? 0 then mret ERR_V4L_OPEN_DEV else
  err ← init_body (ret rp) resol;
  if err =? ERR_V4L_SUCCESS then mret err else
  _ ⇐ (RClose (ret rp));
  mret err.

Definition FinializeV4LDevice : M D unit :=
  v ← get_vid;
  _ ← (if negb (i32UseMMap v =? 0) then _ ⇐ (MUNMAP (mb_size (sVidMBufs v))); mret tt
       else mret tt);
  _ ⇐ (RClose (i32VidFD v));
  modify_vid (λ v, set_fd v (-1)).

(** ** Frames *)

(** The loop that waits for the current frame: a call that fails with EAGAIN or
    EINTR is repeated, and the 100th such failure gives up ([false]). *)
Fixpoint sync_wait (tries : nat) (frame : Z) : M D bool :=
  match tries with
  | O => mret false
  | S tries =>
      rp ⇐ (VIDIOCSYNC frame);
      if (ret rp <? 0) && bool_decide (errno rp = EAGAIN ∨ errno rp = EINTR)
      then sync_wait tries frame else mret true
  end.

(** Returns the code, the picture's address, its time stamp and its physical
    address. *)
Definition ReadV4LPicture : M D (ERRCODE * option (Z * Z * Z)) :=
  v ← get_vid;
  ok ← sync_wait 100 (i32VidFrame v);
  if negb ok then mret (ERR_V4L_VID_SYNC, None) else
  rp ⇐ (VIDIOCGCAPTIME (i32VidFrame v));
  let ts := u64 (u64 (tv_sec (out rp)) * 1000000 + u64 (tv_usec (out rp))) in
  _ ← set_prev_ts ts;
  off ← lift (rd (mb_offsets (sVidMBufs v)) (i32VidFrame v));
  mret (ERR_V4L_SUCCESS, Some (u32 (pu8VidBuf v + off), ts, u32 (userptr (out rp)))).

Definition TriggerV4LNextFrame : M D ERRCODE :=
  v ← get_vid;
  ok ← sync_wait 100 (i32VidFrame v);
  if negb ok then mret ERR_V4L_VID_SYNC else
  let m := VideoMmap (i32VidFrame v) (mm_height (sVidMMap v)) (mm_width (sVidMMap v))
             (mm_format (sVidMMap v)) in
  _ ← modify_vid (λ v, set_mmap v m);
  rp ⇐ (VIDIOCMCAPTURE m);
  if ret rp <? 0 then mret ERR_V4L_VID_MCAPTURE else
  f ← lift (int_rem (i32VidFrame v + 1) (mb_frames (sVidMBufs v)));
  _ ← modify_vid (λ v, set_frame v f);
  mret ERR_V4L_SUCCESS.

Definition StartV4LCapture : M D ERRCODE :=
  rp ⇐ (VIDIOCCAPTURE VIDEO_START);
  if ret rp <? 0 then mret ERR_V4L_VID_CAPTURE else
  _ ← modify_vid (λ v, set_frame v 0);
  mret ERR_V4L_SUCCESS.

Definition StopV4LCapture : M D ERRCODE :=
  rp ⇐ (VIDIOCCAPTURE VIDEO_STOP);
  if ret rp <? 0 then mret ERR_V4L_VID_CAPTURE else mret ERR_V4L_SUCCESS.

Definition StartPreview : M D ERRCODE :=
  rp ⇐ (VIDIOCSPREVIEW 1);
  if ret rp <? 0 then mret ERR_V4L_VID_CAPTURE else mret ERR_V4L_SUCCESS.

Definition StopPreview : M D ERRCODE :=
  rp ⇐ (VIDIOCSPREVIEW 0);
  if ret rp <? 0 then mret ERR_V4L_VID_CAPTURE else mret ERR_V4L_SUCCESS.

(** ** Windows *)

Definition SetV4LViewWindow (lcmwidth lcmheight prewidth preheight : Z) : M D ERRCODE :=
  let win := VideoWindow (u32 prewidth) (u32 preheight)
    (u32 (Z.quot (lcmwidth - prewidth) 2)) (u32 (Z.quot (lcmheight - preheight) 2)) (u32 (-1)) 0 in
  _ ← modify_vid (λ v, set_win v win);
  rp ⇐ (VIDIOCSWIN win);
  if ret rp <? 0 then
    v ← get_vid;
    _ ← (if 0 <=? i32VidFD v then _ ⇐ (RClose (i32VidFD v)); mret tt else mret tt);
    mret ERR_V4L_VID_SET_WIN
  else mret ERR_V4L_SUCCESS.

Definition SetV4LEncode (frame width height palette : Z) : M D ERRCODE :=
  let m := VideoMmap (u32 frame) height width (u32 palette) in
  _ ← modify_vid (λ v, set_size (set_mmap v m) (frame_size_of m));
  rp ⇐ (VIDIOCMCAPTURE m);
  if ret rp <? 0 then mret ERR_V4L_VID_MCAPTURE else mret ERR_V4L_SUCCESS.

(** Returns the code and, when they were stored, the new width and height. *)
Definition ChangeEncodeV4LResoultion : M D (ERRCODE * option (Z * Z)) :=
  let val := 0 in
  rp ⇐ (VIDIOCCAPTURE val);
  if ret rp <? 0 then mret (ERR_AVDEV_VID_CAPTURE, None) else
  let '(w, h) := (320, 240) in
  v ← get_vid;
  let m := VideoMmap (mm_frame (sVidMMap v)) h w (mm_format (sVidMMap v)) in
  _ ← modify_vid (λ v, set_size (set_mmap v m) (frame_size_of m));
  rp ⇐ (VIDIOCMCAPTURE m);
  if ret rp <? 0 then mret (ERR_V4L_VID_MCAPTURE, None) else
  _ ← modify_vid (λ v, set_frame v 0);
  rp ⇐ (VIDIOCCAPTURE val);
  mret (if ret rp <? 0 then ERR_AVDEV_VID_CAPTURE else ERR_V4L_SUCCESS, Some (w, h)).

(** [garbage] is what the uninitialised local holds when the call fails. *)
Definition menuEncodeV4LResoultion (garbage : Z) : M D E_IMAGE_RESOL :=
  res ← ChangeEncodeV4LResoultion;
  let w := match res.2 with Some (w, _) => w | None => garbage end in
  mret (if w =? 320 then eIMAGE_QVGA
        else if w =? 480 then eIMAGE_WQVGA
        else if w =? 800 then eIMAGE_SVGA
        else if w =? 1280 then eIMAGE_HD720
        else eIMAGE_VGA).

(** The menu's choice is fixed in the code: [item] is 'e'. *)
Definition menuChangeParameter (garbage : Z) : M D E_IMAGE_RESOL := menuEncodeV4LResoultion garbage.

(** ** Sensor controls *)

Definition MAX_USER_CTRL : Z := 16.

(** The standard controls: [n] identifiers from [id]; only errors matter. *)
Fixpoint query_standard (n : nat) (id : Z) (err : ERRCODE) : M D ERRCODE :=
  match n with
  | O => mret err
  | S n =>
      rp ⇐ VIDIOC_QUERYCTRL id;
      query_standard n (u32 (id + 1))
        (if (ret rp =? 0) || bool_decide (errno rp = EINVAL) then err else ERR_V4L_VID_QUERY_UID)
  end.

(** The loop over the private controls has no bound of its own. *)
Fixpoint query_private (fuel : nat) (id : Z) (err : ERRCODE) : M D ERRCODE :=
  match fuel with
  | O => crash_with OutOfFuel
  | S fuel =>
      rp ⇐ VIDIOC_QUERYCTRL id;
      if ret rp =? 0 then
        if negb (Z.land (q_flags (out rp)) V4L2_CTRL_FLAG_DISABLED =? 0)
        then query_private fuel (u32 (id + 1)) err else
        n ← gets ctrl_id;
        if MAX_USER_CTRL <? n then mret ERR_V4L_VID_QUERY_UID else
        tbl ← gets PrivateUserCtrl;
        tbl ← lift (wr (A:=v4l2_queryctrl) tbl n (out rp));
        _ ← set_ctrls tbl (u32 (n + 1));
        query_private fuel (u32 (id + 1)) err
      else if bool_decide (errno rp = EINVAL) then mret err
      else query_private fuel (u32 (id + 1)) ERR_V4L_VID_QUERY_UID
  end.

(** [n_std] is V4L2_CID_LASTP1 - V4L2_CID_BASE of the kernel headers. *)
Definition QueryV4LUserControl (fuel n_std : nat) (V4L2_CID_BASE V4L2_CID_PRIVATE_BASE : Z)
    : M D ERRCODE :=
  err ← query_standard n_std V4L2_CID_BASE ERR_V4L_SUCCESS;
  query_private fuel V4L2_CID_PRIVATE_BASE err.

(** The first control with the name, or NULL. *)
Definition ctrl_by_name (tbl : list v4l2_queryctrl) (name : list Z) : option v4l2_queryctrl :=
  List.find (λ q, str_eqb (cstr (q_name q)) name) tbl.

Definition REG_SDE_CTRL : Z := 0x6A.
Definition REG_BRIGHT : Z := 0x9B.

(** [ptr->id] *)
Definition ctrl_field (q : option v4l2_queryctrl) : M D Z :=
  match q with Some q => mret (q_id q) | None => crash_with NullDeref end.

(** Selects register [reg] of the sensor, reads it, and writes [f] of it back. *)
Definition update_register (set_addr write read : option v4l2_queryctrl) (reg : Z) (f : Z → Z)
    : M D bool :=
  id ← ctrl_field set_addr;
  rp ⇐ VIDIOC_S_CTRL id reg;
  if negb (ret rp =? 0) then mret false else
  id ← ctrl_field read;
  rp ⇐ VIDIOC_G_CTRL id reg;
  if negb (ret rp =? 0) then mret false else
  id ← ctrl_field write;
  rp' ⇐ VIDIOC_S_CTRL id (f (out rp));
  mret (ret rp' =? 0).

Definition ChangeV4LUserControl_Brigness (ctrl : Z) : M D ERRCODE :=
  tbl ← gets PrivateUserCtrl;
  let set_addr := ctrl_by_name tbl (lit "i2c_set_addr") in
  let write := ctrl_by_name tbl (lit "i2c_write") in
  let read := ctrl_by_name tbl (lit "i2c_read") in
  ok ← update_register set_addr write read REG_SDE_CTRL (λ v, Z.lor v 0x04);
  if negb ok then mret (-1) else
  ok ← update_register set_addr write read REG_BRIGHT
         (λ v, if 0 <=? ctrl then s32 (v + 1) else s32 (v - 1));
  mret (if (ok : bool) then ERR_V4L_SUCCESS else -1).

(** ** Zoom *)

Definition QueryV4LZoomInfo : M D (ERRCODE * option (v4l2_cropcap * v4l2_rect)) :=
  cap ⇐ VIDIOC_CROPCAP;
  if negb (ret cap =? 0) then mret (-1, None) else
  crop ⇐ VIDIOC_G_CROP;
  if negb (ret crop =? 0) then mret (-1, None) else
  mret (ERR_V4L_SUCCESS, Some (out cap, out crop)).

Definition QueryV4LSensorID : M D (ERRCODE * option Z) :=
  rp ⇐ VIDIOC_QUERY_SENSOR_ID;
  mret (if negb (ret rp =? 0) then (-1, None) else (ERR_V4L_SUCCESS, Some (out rp))).

Definition QueryV4LPacketInformation : M D (ERRCODE * option S_PIPE_INFO) :=
  rp ⇐ VIDIOC_G_PACKET_INFO;
  mret (if negb (ret rp =? 0) then (-1, None) else (ERR_V4L_SUCCESS, Some (out rp))).

Definition QueryV4LPlanarInformation : M D (ERRCODE * option S_PIPE_INFO) :=
  rp ⇐ VIDIOC_G_PLANAR_INFO;
  mret (if negb (ret rp =? 0) then (-1, None) else (ERR_V4L_SUCCESS, Some (out rp))).

(** [garbage] is what the uninitialised struct holds when the query fails; the
    result of mmap is not tested. *)
Definition dumpV4LBuffer (garbage : S_PIPE_INFO) : M D Z :=
  info ← QueryV4LPacketInformation;
  let size := i32PipeBufSize (default garbage (info : ERRCODE * option S_PIPE_INFO).2) in
  rp ⇐ (VIDIOC_S_MAP_BUF 3);
  if ret rp <? 0 then mret (-1) else
  _ ⇐ (MMAP true size);
  file ⇐ FOpenDump;
  if ret file =? -1 then mret (-1) else
  n ⇐ (FWriteDump (320 * 240 * 2));
  if ret n =? -1 then mret (-1) else
  _ ⇐ (FClose (ret file));
  _ ⇐ (MUNMAP size);
  mret 0.
End operations.

(** The comparisons mix int and unsigned int, so they are made modulo 2^32; the
    window's fields are int. *)
Definition zoom_in_allowed (cap : v4l2_cropcap) (c : v4l2_rect) : bool :=
  (u32 (Z.quot (r_width (defrect cap)) 8) <=? u32 (r_width c - denominator cap)) &&
  (u32 (Z.quot (r_height (defrect cap)) 8) <=? u32 (r_height c - numerator cap)).

Definition zoom_in (cap : v4l2_cropcap) (c : v4l2_rect) : v4l2_rect :=
  Rect (s32 (r_left c + denominator cap / 2)) (s32 (r_top c + numerator cap / 2))
       (s32 (r_width c - denominator cap)) (s32 (r_height c - numerator cap)).

Definition zoom_out_allowed (cap : v4l2_cropcap) (c : v4l2_rect) : bool :=
  (u32 (r_width c + denominator cap) <=? u32 (r_width (defrect cap))) &&
  (u32 (r_height c + numerator cap) <=? u32 (r_height (defrect cap))).

Definition zoom_out (cap : v4l2_cropcap) (c : v4l2_rect) : v4l2_rect :=
  Rect (s32 (r_left c - denominator cap / 2)) (s32 (r_top c - numerator cap / 2))
       (s32 (r_width c + denominator cap)) (s32 (r_height c + numerator cap)).

(** The window [Zooming] asks for, if it asks for one. *)
Definition zoom_target (cap : v4l2_cropcap) (c : v4l2_rect) (ctrl : Z) : option v4l2_rect :=
  if ctrl =? 1 then if zoom_in_allowed cap c then Some (zoom_in cap c) else None
  else if zoom_out_allowed cap c then Some (zoom_out cap c) else None.

(** Returns the code and the crop window the caller's struct holds. *)
Definition Zooming {D} `{Driver D} (ctrl : Z) : M D (ERRCODE * option v4l2_rect) :=
  QueryV4LZoomInfo ≫= λ info : ERRCODE * option (v4l2_cropcap * v4l2_rect),
  match info.2 with
  | None => mret (-1, None)
  | Some (cap, c) =>
      match zoom_target cap c ctrl with
      | None => mret (ERR_V4L_SUCCESS, Some c)
      | Some c' =>
          rp ⇐ VIDIOC_S_CROP c';
          mret (if negb (ret rp =? 0) then -1 else ERR_V4L_SUCCESS, Some c')
      end
  end.

(** ** Running the code *)

Section runs.
Context {D : Type} `{Driver D}.
Implicit Types st : state D.

(** The answer to a request, and the state after it. *)
Definition answer st (r : req) : reply r := (ioctl (dev st) r).2.
Definition after st (r : req) : state D :=
  State (vid st) (s_u64PrevTS st) (ctrl_id st) (PrivateUserCtrl st) (ioctl (dev st) r).1 (log st ++ [r]).

Lemma v4l_request_run {A} r (k : reply r → M D A) st : request r k st = k (answer st r) (after st r).
Proof. unfold request, mbind, M_bind, call, answer, after. by destruct (ioctl (dev st) r). Qed.

Lemma v4l_bind_run {A B} (m : M D A) (k : A → M D B) st :
  (m ≫= k) st = match m st with Ok (a, st') => k a st' | Crash c => Crash c end.
Proof. done. Qed.

(** The state with other static data. *)
Definition with_vid st (v : S_V4L_VID_DATA) : state D :=
  State v (s_u64PrevTS st) (ctrl_id st) (PrivateUserCtrl st) (dev st) (log st).

Lemma v4l_modify_run {B} f (k : unit → M D B) st :
  (modify_vid f ≫= k) st = k tt (with_vid st (f (vid st))).
Proof. done. Qed.
Lemma v4l_gets_run {A B} (f : state D → A) (k : A → M D B) st : (gets f ≫= k) st = k (f st) st.
Proof. done. Qed.
Lemma v4l_mret_run {A} (a : A) st : (mret a : M D A) st = Ok (a, st).
Proof. done. Qed.
Lemma v4l_lift_run {A B} (r : result A) (k : A → M D B) st :
  (lift r ≫= k) st = match r with Ok a => k a st | Crash c => Crash c end.
Proof. unfold mbind, M_bind, lift. by destruct r. Qed.

(** ** Waiting for a frame *)

Lemma sync_wait_run tries frame st :
  ∃ ok st' k, sync_wait tries frame st = Ok (ok, st') ∧ (k <= tries)%nat ∧
    log st' = log st ++ replicate k (VIDIOCSYNC frame) ∧ vid st' = vid st ∧
    s_u64PrevTS st' = s_u64PrevTS st ∧ (ok = false → k = tries) ∧ (ok = true → (0 < k)%nat).
Proof.
  revert st. induction tries as [|n IH]; intros st; cbn [sync_wait].
  - exists false, st, 0%nat. rewrite app_nil_r. done.
  - rewrite v4l_request_run.
    destruct ((ret (answer st (VIDIOCSYNC frame)) <? 0) && _).
    + destruct (IH (after st (VIDIOCSYNC frame))) as (ok & st' & k & -> & Hk & Hl & Hv & Ht & Hf & Hs).
      exists ok, st', (S k). split_and!; [done|lia| |done|done|naive_solver lia|lia].
      rewrite Hl. cbn [log after]. by rewrite <- app_assoc.
    + exists true, (after st (VIDIOCSYNC frame)), 1%nat. split_and!; done || lia.
Qed.

(** The ring of frames: the current frame is one of those the driver has. *)
Definition ring_ok (v : S_V4L_VID_DATA) : Prop :=
  0 <= i32VidFrame v < mb_frames (sVidMBufs v).

Definition current_mmap (v : S_V4L_VID_DATA) : video_mmap :=
  VideoMmap (i32VidFrame v) (mm_height (sVidMMap v)) (mm_width (sVidMMap v)) (mm_format (sVidMMap v)).

Lemma Trigger_run st : ring_ok (vid st) →
  ∃ e st' k, TriggerV4LNextFrame st = Ok (e, st') ∧ (k <= 100)%nat ∧
  let f := i32VidFrame (vid st) in
  let syncs := replicate k (VIDIOCSYNC f) in
  (e = ERR_V4L_VID_SYNC ∧ k = 100%nat ∧ log st' = log st ++ syncs ∧ vid st' = vid st) ∨
  (e = ERR_V4L_VID_MCAPTURE ∧ log st' = log st ++ syncs ++ [VIDIOCMCAPTURE (current_mmap (vid st))] ∧
   vid st' = set_mmap (vid st) (current_mmap (vid st))) ∨
  (e = ERR_V4L_SUCCESS ∧ log st' = log st ++ syncs ++ [VIDIOCMCAPTURE (current_mmap (vid st))] ∧
   vid st' = set_frame (set_mmap (vid st) (current_mmap (vid st)))
               ((f + 1) mod mb_frames (sVidMBufs (vid st)))).
Proof.
  intros Hr. unfold TriggerV4LNextFrame, get_vid. rewrite v4l_gets_run, v4l_bind_run.
  destruct (sync_wait_run 100 (i32VidFrame (vid st)) st) as (ok & st1 & k & -> & Hk & Hl & Hv & _ & Hf & _).
  destruct ok; cbn [negb].
  2:{ exists ERR_V4L_VID_SYNC, st1, k. split_and!; [done|done|]. left. rewrite Hf in * by done. done. }
  rewrite v4l_modify_run, v4l_request_run. fold (current_mmap (vid st)). destruct (_ <? 0).
  - eexists _, _, k. split; [done|]. split; [done|]. right. left. cbn. rewrite Hl, Hv, <- app_assoc. done.
  - rewrite v4l_lift_run. unfold int_rem, ring_ok in *. rewrite (proj2 (Z.eqb_neq _ _)) by lia.
    rewrite v4l_modify_run. eexists _, _, k. split; [done|]. split; [done|]. right. right. cbn.
    rewrite Hl, Hv, <- app_assoc, Z.rem_mod_nonneg by lia. done.
Qed.

(** The frames a log asks the driver to capture, in order. *)
Definition captured (l : list req) : list Z :=
  omap (λ r, match r with VIDIOCMCAPTURE m => Some (mm_frame m) | _ => None end) l.

Lemma captured_syncs k f : captured (replicate k (VIDIOCSYNC f)) = [].
Proof. unfold captured. induction k; [done|]. done. Qed.

Lemma captured_app l l' : captured (l ++ l') = captured l ++ captured l'.
Proof. apply omap_app. Qed.

(** The main loop's calls, one after the other. *)
Fixpoint trigger_frames (n : nat) : M D (list ERRCODE) :=
  match n with
  | O => mret []
  | S n => e ← TriggerV4LNextFrame; es ← trigger_frames n; mret (e :: es)
  end.

Lemma trigger_frames_run n st : ring_ok (vid st) →
  ∃ es st', trigger_frames n st = Ok (es, st') ∧ ring_ok (vid st') ∧
    (length (log st') <= length (log st) + n * 101)%nat ∧
    mb_frames (sVidMBufs (vid st')) = mb_frames (sVidMBufs (vid st)) ∧
    (Forall (λ e, e = ERR_V4L_SUCCESS) es →
     let f := i32VidFrame (vid st) in let frames := mb_frames (sVidMBufs (vid st)) in
     captured (log st') = captured (log st) ++ map (λ i, (f + i) mod frames) (seqZ 0 (Z.of_nat n)) ∧
     i32VidFrame (vid st') = (f + Z.of_nat n) mod frames).
Proof.
  revert st. induction n as [|n IH]; intros st Hr; cbn [trigger_frames].
  { exists [], st. split_and!; [done|done|lia|done|]. intros _. cbn. rewrite app_nil_r, Z.add_0_r.
    unfold ring_ok in Hr. by rewrite Z.mod_small. }
  destruct (Trigger_run st Hr) as (e & st1 & k & E & Hk & Hcase).
  set (f := i32VidFrame (vid st)) in *. set (frames := mb_frames (sVidMBufs (vid st))) in *.
  assert (0 < frames) as Hpos by (unfold ring_ok in Hr; lia).
  assert (ring_ok (vid st1) ∧ (length (log st1) <= length (log st) + 101)%nat ∧
          mb_frames (sVidMBufs (vid st1)) = frames ∧
          (e = ERR_V4L_SUCCESS → captured (log st1) = captured (log st) ++ [f] ∧
                                 i32VidFrame (vid st1) = (f + 1) mod frames)) as (Hr1 & Hlen1 & Hfr1 & Hs1).
  { destruct Hcase as [(-> & -> & Hl & Hv)|[(-> & Hl & Hv)|(-> & Hl & Hv)]]; rewrite Hl, Hv;
      rewrite ?length_app, ?length_replicate; cbn [length]; (split_and!; [|lia|done|]).
    - done. - done. - exact Hr. - done.
    - unfold ring_ok. cbn. apply Z.mod_pos_bound. lia.
    - intros _. rewrite !captured_app, captured_syncs. done. }
  rewrite v4l_bind_run, E, v4l_bind_run. destruct (IH st1 Hr1) as (es & st2 & -> & Hr2 & Hlen2 & Hfr2 & Hs2).
  exists (e :: es), st2. split_and!; [done|done|lia|congruence|].
  intros [He Hes]%Forall_cons_1. destruct (Hs1 He) as [Hc1 Hf1]. destruct (Hs2 Hes) as [Hc2 Hf2].
  rewrite Hc2, Hf2, Hc1, Hf1, Hfr1. rewrite <- app_assoc. 
  rewrite Zplus_mod_idemp_l. split; [|f_equal; lia].
  f_equal. cbn [app]. rewrite (seqZ_cons 0 (Z.of_nat (S n))) by lia. cbn [map].
  rewrite Z.add_0_r. f_equal; [unfold ring_ok in Hr; by rewrite Z.mod_small|].
  replace (Z.pred (Z.of_nat (S n))) with (Z.of_nat n) by lia.
  rewrite <- (fmap_add_seqZ 1 0). change (Z.add 1 <$> ?l) with (map (Z.add 1) l). rewrite map_map.
  apply map_ext. intros i. rewrite Zplus_mod_idemp_l. f_equal. lia.
Qed.

(** ** Reading a picture *)

Lemma ReadV4LPicture_run st :
  ring_ok (vid st) → mb_frames (sVidMBufs (vid st)) <= Z.of_nat (length (mb_offsets (sVidMBufs (vid st)))) →
  ∃ res st' k, ReadV4LPicture st = Ok (res, st') ∧ (k <= 100)%nat ∧ vid st' = vid st ∧
  let f := i32VidFrame (vid st) in
  let syncs := replicate k (VIDIOCSYNC f) in
  (res = (ERR_V4L_VID_SYNC, None) ∧ k = 100%nat ∧ log st' = log st ++ syncs ∧
   s_u64PrevTS st' = s_u64PrevTS st) ∨
  (∃ off ts phys, res = (ERR_V4L_SUCCESS, Some (u32 (pu8VidBuf (vid st) + off), ts, phys)) ∧
   mb_offsets (sVidMBufs (vid st)) !! Z.to_nat f = Some off ∧
   log st' = log st ++ syncs ++ [VIDIOCGCAPTIME f] ∧ s_u64PrevTS st' = ts).
Proof.
  intros Hr Hoff. unfold ReadV4LPicture, get_vid. rewrite v4l_gets_run, v4l_bind_run.
  destruct (sync_wait_run 100 (i32VidFrame (vid st)) st) as (ok & st1 & k & -> & Hk & Hl & Hv & Ht & Hf & _).
  destruct ok; cbn [negb].
  2:{ exists (ERR_V4L_VID_SYNC, None), st1, k. split_and!; [done..|]. left. rewrite Hf in * by done. done. }
  rewrite v4l_request_run. unfold ring_ok in Hr.
  destruct (rd_is_ok (mb_offsets (sVidMBufs (vid st))) (i32VidFrame (vid st))) as [off Ho]; [lia|].
  rewrite v4l_bind_run. cbn. rewrite v4l_lift_run, Ho. eexists _, _, k. split; [done|]. split; [done|].
  split; [done|]. right. eexists off, _, _. split; [done|]. apply rd_Ok in Ho as [_ Ho].
  split_and!; [done| |done]. cbn. rewrite Hl, <- app_assoc. done.
Qed.

(** ** Opening the device *)

(** Requests that neither open nor close the device. *)
Definition quiet (l : list req) : Prop :=
  Forall (λ r, match r with ROpen | RClose _ => False | _ => True end) l.

(** [st'] comes after the quiet requests [l], with the same descriptor. *)
Definition quietly st st' : Prop :=
  i32VidFD (vid st') = i32VidFD (vid st) ∧ ∃ l, quiet l ∧ log st' = log st ++ l.

Lemma quietly_refl st v : i32VidFD v = i32VidFD (vid st) → quietly st (with_vid st v).
Proof. intros. split; [done|]. exists []. split; [constructor|]. by rewrite app_nil_r. Qed.

Lemma quietly_id st : quietly st st.
Proof. split; [done|]. exists []. split; [constructor|]. by rewrite app_nil_r. Qed.

Lemma quietly_trans st1 st2 st3 : quietly st1 st2 → quietly st2 st3 → quietly st1 st3.
Proof.
  intros [H1 (l1 & Hq1 & E1)] [H2 (l2 & Hq2 & E2)]. split; [congruence|].
  exists (l1 ++ l2). split; [by apply Forall_app|]. by rewrite E2, E1, app_assoc.
Qed.

Lemma quietly_after st r :
  match r with ROpen | RClose _ => False | _ => True end → quietly st (after st r).
Proof. intros. split; [done|]. exists [r]. split; [|done]. by repeat constructor. Qed.

Ltac quiet :=
  repeat first
    [ assumption
    | match goal with
      | |- quietly ?s ?s => apply quietly_id
      | |- quietly _ (after _ _) => eapply quietly_trans; [|apply quietly_after; exact I]
      | |- quietly _ (with_vid _ _) => eapply quietly_trans; [|apply quietly_refl; reflexivity]
      end ].

Lemma init_read_run w h st :
  ∃ e st', init_read w h st = Ok (e, st') ∧ quietly st st' ∧
    (e = ERR_V4L_SUCCESS → i32UseMMap (vid st') = 0 ∧ sVidMMap (vid st') = sVidMMap (vid st)).
Proof.
  unfold init_read. rewrite v4l_modify_run, v4l_request_run. destruct (_ <? 0).
  { eexists _, _. split; [done|]. split; [quiet|done]. }
  rewrite v4l_modify_run, v4l_request_run.
  destruct (_ <? 0); [|rewrite v4l_modify_run]; eexists _, _; (split; [done|]); (split; [quiet|done]).
Qed.

Lemma map_buffers_run size st :
  ∃ ok st', map_buffers size st = Ok (ok, st') ∧ quietly st st' ∧
    sVidMBufs (vid st') = sVidMBufs (vid st).
Proof.
  unfold map_buffers. rewrite v4l_request_run, v4l_modify_run. destruct (_ =? _).
  - rewrite v4l_request_run, v4l_modify_run. eexists _, _. split; [done|]. split; [quiet|done].
  - eexists _, _. split; [done|]. split; [quiet|done].
Qed.

Lemma init_mmap_run w h mb st : 0 < mb_frames mb →
  ∃ e st', init_mmap w h mb st = Ok (e, st') ∧ quietly st st' ∧
    sVidMBufs (vid st') = sVidMBufs (vid st) ∧
    (e = ERR_V4L_SUCCESS → i32UseMMap (vid st') = 1 ∧ i32VidFrame (vid st') = 0 ∧
       sVidMMap (vid st') = VideoMmap 0 h w VIDEO_PALETTE_YUV420P).
Proof.
  intros Hf. unfold init_mmap. rewrite v4l_bind_run.
  destruct (map_buffers_run (mb_size mb) st) as (ok & st1 & -> & Hq & Hm). destruct ok; cbn [negb].
  2:{ eexists _, _. split; [done|]. split; [done|]. split; [done|]. done. }
  rewrite v4l_modify_run, v4l_lift_run. unfold int_rem. rewrite (proj2 (Z.eqb_neq _ _)) by lia.
  rewrite Z.rem_0_l by lia. rewrite v4l_modify_run, v4l_request_run.
  destruct (_ <? 0); [|rewrite v4l_modify_run]; eexists _, _; (split; [done|]); (split; [eapply quietly_trans; [exact Hq|]; quiet|]); done.
Qed.

(** Documented behaviour of VIDIOCGMBUF: a successful query reports at least
    one frame. *)
Definition reports_frames : Prop :=
  ∀ d, 0 <= ret (ioctl d VIDIOCGMBUF).2 → 0 < mb_frames (out (ioctl d VIDIOCGMBUF).2).

Lemma init_body_run fd resol st : reports_frames →
  ∃ e st', init_body fd resol st = Ok (e, st') ∧
    (∃ l, quiet l ∧ log st' = log st ++ l) ∧
    (e ≠ ERR_V4L_SUCCESS → i32VidFD (vid st') = i32VidFD (vid st)) ∧
    (e = ERR_V4L_SUCCESS → i32VidFD (vid st') = fd ∧
       (i32UseMMap (vid st') = 1 → i32VidFrame (vid st') = 0 ∧ ring_ok (vid st') ∧
          i32FrameSize (vid st') = (init_size resol).1 * (init_size resol).2 * 2) ∧
       (i32UseMMap (vid st') = 0 → i32FrameSize (vid st') = frame_size_of (sVidMMap (vid st)))).
Proof.
  intros Hrf. unfold init_body.
  assert (∀ e st', quietly st st' → e ≠ ERR_V4L_SUCCESS →
    ∃ e0 st0, Ok (e, st') = Ok (e0, st0) ∧ (∃ l, quiet l ∧ log st0 = log st ++ l) ∧
      (e0 ≠ ERR_V4L_SUCCESS → i32VidFD (vid st0) = i32VidFD (vid st)) ∧
      (e0 = ERR_V4L_SUCCESS → i32VidFD (vid st0) = fd ∧
       (i32UseMMap (vid st0) = 1 → i32VidFrame (vid st0) = 0 ∧ ring_ok (vid st0) ∧
          i32FrameSize (vid st0) = (init_size resol).1 * (init_size resol).2 * 2) ∧
       (i32UseMMap (vid st0) = 0 → i32FrameSize (vid st0) = frame_size_of (sVidMMap (vid st))))) as Hfail.
  { intros e st' [Hfd Hl] He. eexists _, _. split; [done|]. split; [done|]. split; [done|]. done. }
  rewrite v4l_request_run. destruct (_ <? 0); [apply Hfail; [quiet|done]|].
  destruct (Z.land _ _ =? 0); [apply Hfail; [quiet|done]|].
  destruct (init_size resol) as [w h] eqn:Esz. rewrite v4l_request_run, v4l_request_run.
  destruct (_ <? 0); [apply Hfail; [quiet|done]|]. rewrite v4l_request_run.
  set (st1 := after _ VIDIOCGMBUF). assert (quietly st st1) as Hq1 by (unfold st1; quiet).
  set (st0 := after _ (VIDIOCSPICT _ _)) in *.
  destruct (Z.ltb_spec (ret (answer st0 VIDIOCGMBUF)) 0) as [Hlt|Hge].
  - rewrite v4l_bind_run. destruct (init_read_run w h st1) as (e & st2 & -> & Hq2 & Hs2).
    assert (quietly st st2) as Hq by (by eapply quietly_trans).
    destruct (Z.eqb_spec e ERR_V4L_SUCCESS) as [-> |Hne]; cbn [negb]; [|by apply Hfail].
    rewrite v4l_modify_run. eexists _, _. split; [done|]. destruct Hq as [_ Hq]. split; [done|].
    destruct (Hs2 eq_refl) as [Hu Hm]. cbn. split; [done|]. intros _. split_and!; [done| |].
    + by rewrite Hu.
    + intros _. by rewrite Hm.
  - rewrite v4l_bind_run, v4l_modify_run. set (mb := out (answer st0 VIDIOCGMBUF)).
    set (st1' := with_vid st1 _). assert (quietly st st1') as Hq1' by (unfold st1'; quiet).
    destruct (init_mmap_run w h mb st1') as (e & st2 & -> & Hq2 & Hmb & Hs2); [by apply Hrf|].
    assert (quietly st st2) as Hq by (by eapply quietly_trans).
    destruct (Z.eqb_spec e ERR_V4L_SUCCESS) as [-> |Hne]; cbn [negb]; [|by apply Hfail].
    rewrite v4l_modify_run. eexists _, _. split; [done|]. destruct Hq as [_ Hq]. split; [done|].
    destruct (Hs2 eq_refl) as (Hu & Hfr & Hm). cbn. split; [done|]. intros _. split_and!; [done| |].
    + intros _. split_and!; [done| |].
      * unfold ring_ok. cbn. rewrite Hfr, Hmb. cbn. split; [lia|by apply Hrf].
      * rewrite Hm. unfold frame_size_of. cbn. destruct resol; injection Esz as <- <-; done.
    + by rewrite Hu.
Qed.
End runs.

(** ** Zoom *)

(** A crop window centred in the driver's default window, no larger than it,
    with sizes of a real sensor and even zoom steps. *)
Definition zoom_caps_ok (cap : v4l2_cropcap) : Prop :=
  let d := defrect cap in
  0 <= r_left d < 1000000 ∧ 0 <= r_top d < 1000000 ∧
  0 < r_width d < 1000000 ∧ 0 < r_height d < 1000000 ∧
  0 < denominator cap < 1000000 ∧ 0 < numerator cap < 1000000 ∧
  denominator cap mod 2 = 0 ∧ numerator cap mod 2 = 0.

Definition centred (cap : v4l2_cropcap) (c : v4l2_rect) : Prop :=
  let d := defrect cap in
  2 * r_left c + r_width c = 2 * r_left d + r_width d ∧
  2 * r_top c + r_height c = 2 * r_top d + r_height d.

Definition inside (c d : v4l2_rect) : Prop :=
  r_left d <= r_left c ∧ r_left c + r_width c <= r_left d + r_width d ∧
  r_top d <= r_top c ∧ r_top c + r_height c <= r_top d + r_height d ∧
  0 <= r_width c ∧ 0 <= r_height c.

Lemma half_even x : x mod 2 = 0 → 2 * (x / 2) = x.
Proof. intros H. pose proof (Z.div_mod x 2). lia. Qed.

Lemma quot8 x : 0 <= x → Z.quot x 8 = x / 8 ∧ 0 <= x / 8 <= x.
Proof.
  intros. rewrite Z.quot_div_nonneg by lia. split; [done|]. split; [by apply Z.div_pos|].
  apply Z.div_le_upper_bound; lia.
Qed.

Lemma u32_small x : 0 <= x < 4294967296 → u32 x = x.
Proof. apply u32_id. Qed.
Lemma s32_small x : -2147483648 <= x < 2147483648 → s32 x = x.
Proof. apply s32_id. Qed.

Lemma zoom_in_iff cap c :
  zoom_caps_ok cap → inside c (defrect cap) →
  denominator cap <= r_width c → numerator cap <= r_height c →
  zoom_in_allowed cap c = true ↔
    r_width (defrect cap) / 8 <= r_width c - denominator cap ∧
    r_height (defrect cap) / 8 <= r_height c - numerator cap.
Proof.
  intros (?&?&?&?&?&?&_) (?&?&?&?&?&?) Hw Hh. unfold zoom_in_allowed.
  destruct (quot8 (r_width (defrect cap))) as [-> ?]; [lia|].
  destruct (quot8 (r_height (defrect cap))) as [-> ?]; [lia|].
  rewrite !u32_small by lia. rewrite andb_true_iff, !Z.leb_le. done.
Qed.

Lemma zoom_out_iff cap c :
  zoom_caps_ok cap → inside c (defrect cap) →
  zoom_out_allowed cap c = true ↔
    r_width c + denominator cap <= r_width (defrect cap) ∧
    r_height c + numerator cap <= r_height (defrect cap).
Proof.
  intros (?&?&?&?&?&?&_) (?&?&?&?&?&?). unfold zoom_out_allowed.
  rewrite !u32_small by lia. rewrite andb_true_iff, !Z.leb_le. done.
Qed.

(** The new windows without the wrap-around. *)
Lemma zoom_in_eq cap c : zoom_caps_ok cap → inside c (defrect cap) →
  zoom_in cap c = Rect (r_left c + denominator cap / 2) (r_top c + numerator cap / 2)
                       (r_width c - denominator cap) (r_height c - numerator cap).
Proof.
  intros (?&?&?&?&?&?&Hd%half_even&Hn%half_even) (?&?&?&?&?&?). unfold zoom_in.
  rewrite !s32_small by lia. done.
Qed.

Lemma zoom_out_eq cap c : zoom_caps_ok cap → inside c (defrect cap) →
  zoom_out cap c = Rect (r_left c - denominator cap / 2) (r_top c - numerator cap / 2)
                        (r_width c + denominator cap) (r_height c + numerator cap).
Proof.
  intros (?&?&?&?&?&?&Hd%half_even&Hn%half_even) (?&?&?&?&?&?). unfold zoom_out.
  rewrite !s32_small by lia. done.
Qed.

(** ** The table of private controls *)

Section controls.
Context {D : Type} `{Driver D}.
Implicit Types st : state D.

(** Documented behaviour of VIDIOC_QUERYCTRL: the private controls have
    consecutive identifiers from [base]; an identifier that is no control is
    answered with EINVAL. *)
Definition answers_controls (base : Z) (tbl : list v4l2_queryctrl) : Prop :=
  (∀ (d : D) i q, tbl !! i = Some q →
     ret (ioctl d (VIDIOC_QUERYCTRL (base + Z.of_nat i))).2 = 0 ∧
     out (ioctl d (VIDIOC_QUERYCTRL (base + Z.of_nat i))).2 = q) ∧
  (∀ d : D, ret (ioctl d (VIDIOC_QUERYCTRL (base + Z.of_nat (length tbl)))).2 ≠ 0) ∧
  (∀ (d : D) id, ret (ioctl d (VIDIOC_QUERYCTRL id)).2 = 0 ∨
                 errno (ioctl d (VIDIOC_QUERYCTRL id)).2 = EINVAL).

Definition enabled (q : v4l2_queryctrl) : Prop := Z.land (q_flags q) V4L2_CTRL_FLAG_DISABLED = 0.
#[global] Instance enabled_dec q : Decision (enabled q).
Proof. unfold enabled. apply _. Defined.

Lemma query_standard_run n id st base tbl : answers_controls base tbl →
  ∃ st', query_standard n id ERR_V4L_SUCCESS st = Ok (ERR_V4L_SUCCESS, st') ∧
    ctrl_id st' = ctrl_id st ∧ PrivateUserCtrl st' = PrivateUserCtrl st.
Proof.
  intros (_ & _ & Ha). revert id st. induction n as [|n IH]; intros id st; cbn [query_standard].
  { exists st. done. }
  rewrite v4l_request_run. fold (answer st (VIDIOC_QUERYCTRL id)).
  assert ((ret (answer st (VIDIOC_QUERYCTRL id)) =? 0) ||
          bool_decide (errno (answer st (VIDIOC_QUERYCTRL id)) = EINVAL) = true) as ->.
  { unfold answer. destruct (Ha (dev st) id) as [-> | ->]; [done|]. by rewrite orb_true_r. }
  destruct (IH (u32 (id + 1)) (after st (VIDIOC_QUERYCTRL id))) as (st' & -> & H1 & H2).
  by exists st'.
Qed.

Lemma query_private_run base tbl : answers_controls base tbl →
  0 <= base → base + Z.of_nat (length tbl) < 4294967296 →
  ∀ fuel i st, (i <= length tbl)%nat → (length tbl < fuel + i)%nat →
  length (PrivateUserCtrl st) = 16%nat → 0 <= ctrl_id st <= 16 →
  let new := filter enabled (drop i tbl) in
  if ctrl_id st + Z.of_nat (length new) <=? 16 then
    ∃ st', query_private fuel (base + Z.of_nat i) ERR_V4L_SUCCESS st = Ok (ERR_V4L_SUCCESS, st') ∧
      ctrl_id st' = ctrl_id st + Z.of_nat (length new) ∧
      take (Z.to_nat (ctrl_id st')) (PrivateUserCtrl st') =
        take (Z.to_nat (ctrl_id st)) (PrivateUserCtrl st) ++ new
  else query_private fuel (base + Z.of_nat i) ERR_V4L_SUCCESS st = Crash OutOfBounds.
Proof.
  intros (Hq & Hend & Ha) Hb0 Hb1. induction fuel as [|fuel IH]; intros i st Hi Hf Hl Hc new; [lia|].
  cbn [query_private]. rewrite v4l_request_run. unfold answer.
  destruct (decide (i = length tbl)) as [-> |Hne].
  { unfold new. rewrite drop_all, (proj2 (Z.eqb_neq _ _)) by apply Hend. cbn [length filter].
    rewrite (proj2 (Z.leb_le _ _)) by (cbn; lia).
    destruct (Ha (dev st) (base + Z.of_nat (length tbl))) as [Hr|He]; [by apply Hend in Hr|].
    rewrite bool_decide_true by done. eexists. split; [done|]. cbn. rewrite app_nil_r.
    split; [lia|done]. }
  destruct (lookup_lt_is_Some_2 tbl i ltac:(lia)) as [q Ei]. destruct (Hq (dev st) i q Ei) as [-> ->].
  change (0 =? 0) with true. cbv iota.
  assert (u32 (base + Z.of_nat i + 1) = base + Z.of_nat (S i)) as -> by (rewrite u32_small; lia).
  subst new. rewrite (drop_S _ _ _ Ei), filter_cons.
  destruct (decide (enabled q)) as [He|He]; unfold enabled in He.
  2:{ rewrite (proj2 (Z.eqb_neq _ _)) by done. cbn [negb].
      apply (IH (S i) (after st (VIDIOC_QUERYCTRL (base + Z.of_nat i)))); [lia|lia|done|done]. }
  rewrite (proj2 (Z.eqb_eq _ _)) by done. cbn [negb]. rewrite v4l_gets_run. unfold MAX_USER_CTRL.
  cbn [ctrl_id after]. rewrite (proj2 (Z.ltb_ge _ _)) by lia. rewrite v4l_gets_run, v4l_lift_run.
  change (PrivateUserCtrl (after ?s ?r)) with (PrivateUserCtrl s).
  destruct (decide (ctrl_id st = 16)) as [H16|H16].
  { rewrite wr_crash; [|lia]. cbn [length].
    rewrite (proj2 (Z.leb_gt _ _)) by lia. done. }
  rewrite wr_Ok by lia. rewrite u32_small by lia. rewrite v4l_bind_run. cbn [set_ctrls].
  set (st1 := State _ _ _ _ _ _).
  specialize (IH (S i) st1 ltac:(lia) ltac:(lia)). cbn zeta in IH. cbn [ctrl_id PrivateUserCtrl st1] in IH.
  specialize (IH ltac:(by rewrite length_insert) ltac:(lia)). cbn [length].
  replace (ctrl_id st + Z.of_nat (S (length (filter enabled (drop (S i) tbl)))))
    with (ctrl_id st + 1 + Z.of_nat (length (filter enabled (drop (S i) tbl)))) by lia.
  destruct (_ <=? 16); [|exact IH]. destruct IH as (st' & -> & Hc' & Ht). exists st'.
  split_and!; [done|done|]. rewrite Ht. replace (Z.to_nat (ctrl_id st + 1)) with (S (Z.to_nat (ctrl_id st))) by lia.
  rewrite take_insert_snoc by lia. by rewrite <- app_assoc.
Qed.
End controls.

(** ** Register updates of the sensor *)

Section registers.
Context {D : Type} `{Driver D}.
Implicit Types st : state D.

(** The state after a list of requests. *)
Definition after_all st (l : list req) : state D := foldl after st l.

Lemma log_after_all st l : log (after_all st l) = log st ++ l.
Proof.
  revert st. induction l as [|r l IH]; intros st; cbn; [by rewrite app_nil_r|].
  unfold after_all in IH. rewrite IH. cbn. by rewrite <- app_assoc.
Qed.

Lemma update_register_run a w r reg f st regs :
  (∀ (d : D) id v, ret (ioctl d (VIDIOC_S_CTRL id v)).2 = 0) →
  (∀ (d : D) id reg, ret (ioctl d (VIDIOC_G_CTRL id reg)).2 = 0 ∧
                     out (ioctl d (VIDIOC_G_CTRL id reg)).2 = regs reg) →
  update_register a w r reg f st =
    match a, r, w with
    | Some a, Some r, Some w =>
        Ok (true, after_all st [VIDIOC_S_CTRL (q_id a) reg; VIDIOC_G_CTRL (q_id r) reg;
                                VIDIOC_S_CTRL (q_id w) (f (regs reg))])
    | _, _, _ => Crash NullDeref
    end.
Proof.
  intros Hs Hg. unfold update_register. rewrite v4l_bind_run. destruct a as [a|]; [|done]. cbn [ctrl_field].
  rewrite v4l_mret_run, v4l_request_run. unfold answer at 1. rewrite Hs. cbn [negb Z.eqb]. rewrite v4l_bind_run.
  destruct r as [r|]; [|done]. cbn [ctrl_field]. rewrite v4l_mret_run, v4l_request_run.
  unfold answer. destruct (Hg (dev (after st (VIDIOC_S_CTRL (q_id a) reg))) (q_id r) reg) as [Hr Ho].
  rewrite Hr, Ho. cbn [negb Z.eqb]. rewrite v4l_bind_run. destruct w as [w|]; [|done]. cbn [ctrl_field].
  rewrite v4l_mret_run, v4l_request_run. unfold answer. rewrite Hs. done.
Qed.
End registers.

(** ** Claims *)

Section claims.
Context {D : Type} `{Driver D}.
Implicit Types st : state D.

(** Opening the device, for every driver whose VIDIOCGMBUF reports frames:
    [InitV4LDevice] always returns; when it fails after the open, the
    descriptor it opened is closed as the last request, and the module still
    has its old descriptor; when it succeeds it keeps the descriptor open,
    and with mapped buffers the ring starts at frame 0 and the frame size is
    that of the resolution.  With read() instead of mapped buffers the frame
    size is computed from the stale capture request. *)
Theorem InitV4LDevice_resources resol st :
  reports_frames (D:=D) →
  ∃ err st', InitV4LDevice resol st = Ok (err, st') ∧
    let fd := ret (answer st ROpen) in
    (fd < 0 → err = ERR_V4L_OPEN_DEV ∧ log st' = log st ++ [ROpen] ∧ vid st' = vid st) ∧
    (0 <= fd → err ≠ ERR_V4L_SUCCESS →
       i32VidFD (vid st') = i32VidFD (vid st) ∧
       ∃ l, quiet l ∧ log st' = log st ++ [ROpen] ++ l ++ [RClose fd]) ∧
    (0 <= fd → err = ERR_V4L_SUCCESS →
       i32VidFD (vid st') = fd ∧ (∃ l, quiet l ∧ log st' = log st ++ [ROpen] ++ l) ∧
       (i32UseMMap (vid st') = 1 → i32VidFrame (vid st') = 0 ∧ ring_ok (vid st') ∧
          i32FrameSize (vid st') = (init_size resol).1 * (init_size resol).2 * 2) ∧
       (i32UseMMap (vid st') = 0 → i32FrameSize (vid st') = frame_size_of (sVidMMap (vid st)))).
Proof.
  intros Hrf. unfold InitV4LDevice. rewrite v4l_request_run.
  destruct (Z.ltb_spec (ret (answer st ROpen)) 0) as [Hlt|Hge].
  { eexists _, _. split; [done|]. split; [done|]. split; intros; lia. }
  set (fd := ret (answer st ROpen)) in *. rewrite v4l_bind_run.
  destruct (init_body_run fd resol (after st ROpen) Hrf) as (e & st1 & -> & (l & Hq & Hl) & Hfail & Hok).
  destruct (Z.eqb_spec e ERR_V4L_SUCCESS) as [-> |Hne].
  - eexists _, _. split; [done|]. split; [lia|]. split; [done|]. intros _ _.
    destruct (Hok eq_refl) as (Hfd & Hm & Hr). split_and!; [done| |done|done].
    exists l. split; [done|]. rewrite Hl. cbn. by rewrite <- app_assoc.
  - rewrite v4l_request_run. eexists _, _. split; [done|]. split; [lia|]. split; [|done]. intros _ _.
    split; [by apply Hfail|]. exists l. split; [done|]. cbn. rewrite Hl. cbn.
    by rewrite <- !app_assoc.
Qed.

(** C17: The ring of frame buffers: from a valid state, any number of calls of
    [TriggerV4LNextFrame] leaves the current frame among those of the driver
    and never makes more than 101 requests per call; when all calls succeed
    the driver was asked to capture the frames in rotation. *)
Theorem frames_captured_in_rotation n st :
  ring_ok (vid st) →
  ∃ es st', trigger_frames n st = Ok (es, st') ∧ ring_ok (vid st') ∧
    (length (log st') <= length (log st) + n * 101)%nat ∧
    (Forall (λ e, e = ERR_V4L_SUCCESS) es →
     captured (log st') = captured (log st) ++
       map (λ i, (i32VidFrame (vid st) + i) mod mb_frames (sVidMBufs (vid st))) (seqZ 0 (Z.of_nat n))).
Proof.
  intros Hr. destruct (trigger_frames_run n st Hr) as (es & st' & E & Hr' & Hl & _ & Hs).
  exists es, st'. split_and!; [done..|]. intros Hes. by apply Hs in Hes as [? _].
Qed.

(** [ReadV4LPicture] returns within 100 attempts: either the error after the
    hundredth busy answer, with nothing changed, or the address of the current
    frame inside the mapping and the time stamp of the driver, which is also
    remembered.  The offset table is never read outside its bounds. *)
Theorem ReadV4LPicture_reads_current_frame st :
  ring_ok (vid st) →
  mb_frames (sVidMBufs (vid st)) <= Z.of_nat (length (mb_offsets (sVidMBufs (vid st)))) →
  ∃ res st' k, ReadV4LPicture st = Ok (res, st') ∧ (k <= 100)%nat ∧ vid st' = vid st ∧
  let f := i32VidFrame (vid st) in
  let syncs := replicate k (VIDIOCSYNC f) in
  (res = (ERR_V4L_VID_SYNC, None) ∧ k = 100%nat ∧ log st' = log st ++ syncs ∧
   s_u64PrevTS st' = s_u64PrevTS st) ∨
  (∃ off ts phys, res = (ERR_V4L_SUCCESS, Some (u32 (pu8VidBuf (vid st) + off), ts, phys)) ∧
   mb_offsets (sVidMBufs (vid st)) !! Z.to_nat f = Some off ∧
   log st' = log st ++ syncs ++ [VIDIOCGCAPTIME f] ∧ s_u64PrevTS st' = ts).
Proof. apply ReadV4LPicture_run. Qed.

(** [QueryV4LUserControl] collects the enabled private controls of the sensor
    in order, after those of earlier calls, as long as the table of 16 entries
    has room; otherwise it writes entry 16, because the guard compares with
    [>] instead of [>=]. *)
Theorem QueryV4LUserControl_table base tbl fuel n_std std_base st :
  answers_controls (D:=D) base tbl → 0 <= base → base + Z.of_nat (length tbl) < 4294967296 →
  (length tbl < fuel)%nat → length (PrivateUserCtrl st) = Z.to_nat MAX_USER_CTRL →
  0 <= ctrl_id st <= MAX_USER_CTRL →
  let new := filter enabled tbl in
  if ctrl_id st + Z.of_nat (length new) <=? MAX_USER_CTRL then
    ∃ st', QueryV4LUserControl fuel n_std std_base base st = Ok (ERR_V4L_SUCCESS, st') ∧
      ctrl_id st' = ctrl_id st + Z.of_nat (length new) ∧
      take (Z.to_nat (ctrl_id st')) (PrivateUserCtrl st') =
        take (Z.to_nat (ctrl_id st)) (PrivateUserCtrl st) ++ new
  else QueryV4LUserControl fuel n_std std_base base st = Crash OutOfBounds.
Proof.
  intros Ha Hb0 Hb1 Hf Hl Hc new. unfold QueryV4LUserControl. rewrite v4l_bind_run.
  destruct (query_standard_run n_std std_base st base tbl Ha) as (st1 & -> & Hc1 & Ht1).
  pose proof (query_private_run base tbl Ha Hb0 Hb1 fuel 0%nat st1 ltac:(lia) ltac:(lia)) as Hrun.
  rewrite Hc1, Ht1, Z.add_0_r in Hrun. exact (Hrun Hl Hc).
Qed.

(** Changing the encode resolution: whatever the driver answers, the request
    documented in the code as stopping the capture passes 0, which is the value
    of VIDEO_START, so [VIDIOCCAPTURE VIDEO_STOP] is never requested; on
    success the capture request is repeated with the new size and the ring
    starts again at frame 0. *)
Theorem ChangeEncode_never_stops_capture st :
  ∃ res st' l, ChangeEncodeV4LResoultion st = Ok (res, st') ∧ log st' = log st ++ l ∧
    VIDIOCCAPTURE VIDEO_STOP ∉ l ∧
    (res.1 = ERR_V4L_SUCCESS → res.2 = Some (320, 240) ∧ i32VidFrame (vid st') = 0 ∧
       i32FrameSize (vid st') = 153600 ∧
       ∃ m, mm_width m = 320 ∧ mm_height m = 240 ∧
         l = [VIDIOCCAPTURE VIDEO_START; VIDIOCMCAPTURE m; VIDIOCCAPTURE VIDEO_START]).
Proof.
  unfold ChangeEncodeV4LResoultion, get_vid. rewrite v4l_request_run. destruct (_ <? 0).
  { eexists _, _, [_]. split; [done|]. split; [done|]. split; [set_solver|done]. }
  rewrite v4l_gets_run, v4l_modify_run, v4l_request_run. destruct (_ <? 0).
  { eexists _, _, [_; _]. split; [done|]. split; [cbn; by rewrite <- app_assoc|]. split; [set_solver|done]. }
  rewrite v4l_modify_run, v4l_request_run. eexists _, _, [_; _; _]. split; [done|].
  split; [cbn; by rewrite <- !app_assoc|]. split; [set_solver|]. intros _. cbn.
  split_and!; [done..|]. eexists. split_and!; [| |reflexivity]; done.
Qed.

(** Adjusting the brightness: without one of the three controls of the sensor
    the code dereferences NULL; with them, and a driver that accepts the
    requests, it sets bit 2 of register 0x6A and then adds or subtracts one in
    register 0x9B, and nothing else. *)
Theorem Brightness_register_updates st ctrl regs :
  (∀ (d : D) id v, ret (ioctl d (VIDIOC_S_CTRL id v)).2 = 0) →
  (∀ (d : D) id reg, ret (ioctl d (VIDIOC_G_CTRL id reg)).2 = 0 ∧
                     out (ioctl d (VIDIOC_G_CTRL id reg)).2 = regs reg) →
  let find n := ctrl_by_name (PrivateUserCtrl st) (lit n) in
  match find "i2c_set_addr"%string, find "i2c_write"%string, find "i2c_read"%string with
  | Some a, Some w, Some r =>
      ∃ st', ChangeV4LUserControl_Brigness ctrl st = Ok (ERR_V4L_SUCCESS, st') ∧
        log st' = log st ++
          [VIDIOC_S_CTRL (q_id a) REG_SDE_CTRL; VIDIOC_G_CTRL (q_id r) REG_SDE_CTRL;
           VIDIOC_S_CTRL (q_id w) (Z.lor (regs REG_SDE_CTRL) 0x04);
           VIDIOC_S_CTRL (q_id a) REG_BRIGHT; VIDIOC_G_CTRL (q_id r) REG_BRIGHT;
           VIDIOC_S_CTRL (q_id w) (if 0 <=? ctrl then s32 (regs REG_BRIGHT + 1)
                                   else s32 (regs REG_BRIGHT - 1))]
  | _, _, _ => ChangeV4LUserControl_Brigness ctrl st = Crash NullDeref
  end.
Proof.
  intros Hs Hg find. unfold ChangeV4LUserControl_Brigness. rewrite v4l_gets_run.
  fold (find "i2c_set_addr"%string) (find "i2c_write"%string) (find "i2c_read"%string).
  rewrite v4l_bind_run. destruct (find "i2c_set_addr"%string) as [a|]; [|done].
  rewrite (update_register_run (Some a) (find "i2c_write"%string) (find "i2c_read"%string) _ _ st regs Hs Hg).
  cbn [option_map]. destruct (find "i2c_read"%string) as [r|], (find "i2c_write"%string) as [w|]; try done.
  cbn [negb]. rewrite v4l_bind_run.
  rewrite (update_register_run (Some a) (Some w) (Some r) _ _ _ regs Hs Hg).
  eexists. split; [done|]. cbn. by rewrite <- !app_assoc.
Qed.

(** When the view window is refused, [SetV4LViewWindow] closes the device but
    keeps the descriptor: [FinializeV4LDevice] then closes it a second time. *)
Theorem SetV4LViewWindow_failure_closes_twice lw lh pw ph st :
  0 <= i32VidFD (vid st) → (∀ (d : D) w, ret (ioctl d (VIDIOCSWIN w)).2 < 0) →
  ∃ win st' st'', SetV4LViewWindow lw lh pw ph st = Ok (ERR_V4L_VID_SET_WIN, st') ∧
    i32VidFD (vid st') = i32VidFD (vid st) ∧
    FinializeV4LDevice st' = Ok (tt, st'') ∧
    log st'' = log st ++ [VIDIOCSWIN win; RClose (i32VidFD (vid st))] ++
      (if i32UseMMap (vid st) =? 0 then [] else [MUNMAP (mb_size (sVidMBufs (vid st)))]) ++
      [RClose (i32VidFD (vid st))].
Proof.
  intros Hfd Hw. unfold SetV4LViewWindow, get_vid. rewrite v4l_modify_run, v4l_request_run. unfold answer.
  rewrite (proj2 (Z.ltb_lt _ _)) by apply Hw. rewrite v4l_gets_run, v4l_bind_run. cbn [vid after with_vid set_win i32VidFD].
  rewrite (proj2 (Z.leb_le _ _)) by done. rewrite v4l_request_run.
  destruct (i32UseMMap (vid st) =? 0) eqn:Eu; eexists _, _, _; (split; [done|]); (split; [done|]);
    unfold FinializeV4LDevice, get_vid; rewrite v4l_gets_run, v4l_bind_run;
    change (i32UseMMap (vid (after (after (with_vid st _) _) _))) with (i32UseMMap (vid st));
    rewrite Eu; cbn [negb]; rewrite ?v4l_mret_run, ?v4l_request_run, ?v4l_mret_run, ?v4l_request_run;
    (split; [reflexivity|]); cbn; by rewrite <- !app_assoc.
Qed.
End claims.

Section zoom_claims.
Context {D : Type} `{Driver D}.
Implicit Types st : state D.

(** The driver's answers to the two queries of the zoom. *)
Definition answers_crop (cap : v4l2_cropcap) (c : v4l2_rect) : Prop :=
  (∀ d : D, ret (ioctl d VIDIOC_CROPCAP).2 = 0 ∧ out (ioctl d VIDIOC_CROPCAP).2 = cap) ∧
  (∀ d : D, ret (ioctl d VIDIOC_G_CROP).2 = 0 ∧ out (ioctl d VIDIOC_G_CROP).2 = c).

Lemma Zooming_run st cap c ctrl : answers_crop cap c →
  ∃ e st', Zooming ctrl st = Ok ((e, Some (default c (zoom_target cap c ctrl))), st') ∧
    log st' = log st ++ [VIDIOC_CROPCAP; VIDIOC_G_CROP] ++
      match zoom_target cap c ctrl with Some c' => [VIDIOC_S_CROP c'] | None => [] end.
Proof.
  intros [Hcap Hc]. unfold Zooming, QueryV4LZoomInfo. rewrite v4l_bind_run, v4l_request_run. unfold answer.
  destruct (Hcap (dev st)) as [-> ->]. cbn [negb Z.eqb]. rewrite v4l_request_run. unfold answer.
  destruct (Hc (dev (after st VIDIOC_CROPCAP))) as [-> ->]. cbn [negb Z.eqb]. rewrite v4l_mret_run. cbn [snd].
  destruct (zoom_target cap c ctrl) as [c'|]; [rewrite v4l_request_run|]; eexists _, _; (split; [done|]);
    cbn; by rewrite <- !app_assoc.
Qed.

(** Zooming keeps the crop window centred and inside the sensor's default
    window: a step changes the window by the driver's steps and requests it,
    unless zooming in would leave less than an eighth of the default window
    or zooming out would exceed it, in which case nothing is requested; a
    step out after a step in restores the window. *)
Theorem Zooming_keeps_window_centred st cap c ctrl :
  answers_crop cap c → zoom_caps_ok cap → centred cap c → inside c (defrect cap) →
  denominator cap <= r_width c → numerator cap <= r_height c →
  ∃ e c' st', Zooming ctrl st = Ok ((e, Some c'), st') ∧
    centred cap c' ∧ inside c' (defrect cap) ∧
    ((c' = c ∧ log st' = log st ++ [VIDIOC_CROPCAP; VIDIOC_G_CROP] ∧
      (if ctrl =? 1
       then r_width c - denominator cap < r_width (defrect cap) / 8 ∨
            r_height c - numerator cap < r_height (defrect cap) / 8
       else r_width (defrect cap) < r_width c + denominator cap ∨
            r_height (defrect cap) < r_height c + numerator cap)) ∨
     (log st' = log st ++ [VIDIOC_CROPCAP; VIDIOC_G_CROP; VIDIOC_S_CROP c'] ∧
      (if ctrl =? 1
       then r_width c' = r_width c - denominator cap ∧ r_height c' = r_height c - numerator cap ∧
            zoom_target cap c' 0 = Some c
       else r_width c' = r_width c + denominator cap ∧ r_height c' = r_height c + numerator cap))).
Proof.
  intros Ha Hcap Hcen Hin Hw Hh.
  destruct (Zooming_run st cap c ctrl Ha) as (e & st' & E & Hl).
  exists e, (default c (zoom_target cap c ctrl)), st'. split; [done|].
  pose proof Hcap as (?&?&?&?&?&?&Hd%half_even&Hn%half_even). pose proof Hcen as [Hc1 Hc2].
  pose proof Hin as (?&?&?&?&?&?). unfold zoom_target in *. destruct (ctrl =? 1).
  - pose proof (zoom_in_iff cap c Hcap Hin Hw Hh) as Hiff.
    destruct (zoom_in_allowed cap c) eqn:Eall; cbn [default from_option id] in *.
    + destruct Hiff as [Hiff _]. specialize (Hiff eq_refl). rewrite zoom_in_eq in * by done.
      set (c' := Rect _ _ _ _) in *.
      assert (0 <= r_width (defrect cap) / 8 ∧ 0 <= r_height (defrect cap) / 8) as [??]
        by (split; apply Z.div_pos; lia).
      assert (centred cap c') as Hcen' by (unfold centred, c'; cbn; lia).
      assert (inside c' (defrect cap)) as Hin' by (unfold inside, c'; cbn; lia).
      split; [done|]. split; [done|]. right. split; [done|]. split; [done|]. split; [done|].
      change (0 =? 1) with false. cbv iota.
      rewrite (proj2 (zoom_out_iff cap c' Hcap Hin')) by (unfold c'; cbn; lia).
      rewrite zoom_out_eq by done. unfold c'. cbn. destruct c; cbn in *. do 2 f_equal; lia.
    + split; [done|]. split; [done|]. left. split; [done|]. split; [done|].
      destruct (decide (r_width c - denominator cap < r_width (defrect cap) / 8)); [by left|]. right.
      apply Z.nle_gt. intros Hle. apply diff_false_true. apply Hiff. lia.
  - pose proof (zoom_out_iff cap c Hcap Hin) as Hiff.
    destruct (zoom_out_allowed cap c) eqn:Eall; cbn [default from_option id] in *.
    + destruct Hiff as [Hiff _]. specialize (Hiff eq_refl). rewrite zoom_out_eq in * by done.
      split; [unfold centred; cbn; lia|]. split; [unfold inside; cbn; lia|].
      right. split; [done|]. cbn. lia.
    + split; [done|]. split; [done|]. left. split; [done|]. split; [done|].
      destruct (decide (r_width (defrect cap) < r_width c + denominator cap)); [by left|]. right.
      apply Z.nle_gt. intros Hle. apply diff_false_true. apply Hiff. lia.
Qed.

(** The limits are compared as unsigned numbers: when the window is smaller
    than a zoom step in both directions, the difference wraps, the check
    passes, and zooming in requests a window of negative size. *)
Theorem zoom_in_below_step_wraps st cap c :
  answers_crop cap c → zoom_caps_ok cap →
  0 <= r_width c < denominator cap → 0 <= r_height c < numerator cap →
  ∃ e c' st', Zooming 1 st = Ok ((e, Some c'), st') ∧ VIDIOC_S_CROP c' ∈ log st' ∧
    r_width c' < 0 ∧ r_height c' < 0.
Proof.
  intros Ha (?&?&?&?&?&?&_) Hw Hh. destruct (Zooming_run st cap c 1 Ha) as (e & st' & E & Hl).
  assert (zoom_target cap c 1 = Some (zoom_in cap c)) as Ht.
  { unfold zoom_target, zoom_in_allowed. change (1 =? 1) with true. cbv iota.
    destruct (quot8 (r_width (defrect cap))) as [-> ?]; [lia|].
    destruct (quot8 (r_height (defrect cap))) as [-> ?]; [lia|].
    assert (∀ x, -1000000 < x < 0 → u32 x = x + 4294967296) as Hneg.
    { intros x Hx. unfold u32. symmetry. apply Z.mod_unique with (-1); lia. }
    rewrite (Hneg (r_width c - denominator cap)), (Hneg (r_height c - numerator cap)), !u32_small by lia. rewrite !(proj2 (Z.leb_le _ _)) by lia. done. }
  rewrite Ht in *. exists e, (zoom_in cap c), st'. cbn in E. split; [done|].
  split; [rewrite Hl; set_solver|]. unfold zoom_in. cbn. rewrite !s32_small by lia. lia.
Qed.
End zoom_claims.

(** ** Witnesses *)

(** A camera that accepts everything, with three frames, one control and a
    640x480 sensor whose current window is 320x240 (or 8x6). *)
Definition fake_table : list v4l2_queryctrl :=
  [QueryCtrl 100 (lit "i2c_set_addr") 0 255 1 0; QueryCtrl 101 (lit "i2c_write") 0 255 1 0;
   QueryCtrl 102 (lit "unused") 0 255 1 1; QueryCtrl 103 (lit "i2c_read") 0 255 1 0].
Definition fake_cap : v4l2_cropcap := CropCap (Rect 0 0 640 480) 12 16.
Definition fake_crop (zoomed : bool) : v4l2_rect :=
  if zoomed then Rect 316 237 8 6 else Rect 160 120 320 240.

(** [small] selects the small window, [refuse] makes VIDIOCSWIN fail. *)
Definition camera_ioctl (small refuse : bool) (d : unit) (r : req) : unit * reply r :=
  (d, match r return reply r with
      | ROpen => Reply 3 EOTHER tt
      | MMAP _ _ => Reply 4096 EOTHER tt
      | VIDIOCGCAP => Reply 0 EOTHER 1
      | VIDIOCGMBUF => Reply 0 EOTHER (VideoMbuf 1843200 3 [0; 614400; 1228800])
      | VIDIOCGCAPTIME _ => Reply 0 EOTHER (V4l2Buffer 12 500 0x700000)
      | VIDIOC_QUERYCTRL id =>
          match fake_table !! Z.to_nat (id - 0x8000000) with
          | Some q => if 0x8000000 <=? id then Reply 0 EOTHER q else Reply (-1) EINVAL q
          | None => Reply (-1) EINVAL (QueryCtrl 0 [] 0 0 0 0)
          end
      | VIDIOC_G_CTRL _ v => Reply 0 EOTHER (v + 1)
      | VIDIOC_CROPCAP => Reply 0 EOTHER fake_cap
      | VIDIOC_G_CROP => Reply 0 EOTHER (fake_crop small)
      | VIDIOC_QUERY_SENSOR_ID => Reply 0 EOTHER 7725
      | VIDIOC_G_PACKET_INFO => Reply 0 EOTHER (PipeInfo 0 0 0)
      | VIDIOC_G_PLANAR_INFO => Reply 0 EOTHER (PipeInfo 0 0 0)
      | VIDIOCSWIN _ => Reply (if refuse then -1 else 0) EOTHER tt
      | RClose _ => Reply 0 EOTHER tt
      | MUNMAP _ => Reply 0 EOTHER tt
      | VIDIOCGPICT => Reply 0 EOTHER tt
      | VIDIOCSPICT _ _ => Reply 0 EOTHER tt
      | VIDIOCCAPTURE _ => Reply 0 EOTHER tt
      | VIDIOCMCAPTURE _ => Reply 0 EOTHER tt
      | VIDIOCSYNC _ => Reply 0 EOTHER tt
      | VIDIOCSPREVIEW _ => Reply 0 EOTHER tt
      | VIDIOC_S_CTRL _ _ => Reply 0 EOTHER tt
      | VIDIOC_S_CROP _ => Reply 0 EOTHER tt
      | VIDIOC_S_MAP_BUF _ => Reply 0 EOTHER tt
      | FOpenDump => Reply 5 EOTHER tt
      | FWriteDump n => Reply n EOTHER tt
      | FClose _ => Reply 0 EOTHER tt
      end).

Definition cam : Driver unit := camera_ioctl false false.

Definition cam_vid : S_V4L_VID_DATA :=
  VidData 3 15 1 153600 (VideoWindow 0 0 0 0 0 0) 4096
    (VideoMbuf 1843200 3 [0; 614400; 1228800]) (VideoMmap 0 240 320 15) 2.
Definition cam_state : state unit :=
  State cam_vid 0 0 (replicate 16 (QueryCtrl 0 [] 0 0 0 0)) tt [].

Lemma cam_ring : ring_ok cam_vid.
Proof. unfold ring_ok. cbn. lia. Qed.

Lemma cam_controls b1 b2 : @answers_controls unit (camera_ioctl b1 b2) 0x8000000 fake_table.
Proof.
  split_and!.
  - intros d i q Hi. unfold ioctl, camera_ioctl. cbn [snd].
    replace (Z.to_nat (0x8000000 + Z.of_nat i - 0x8000000)) with i by lia. rewrite Hi.
    rewrite (proj2 (Z.leb_le _ _)) by lia. done.
  - intros d. vm_compute. discriminate.
  - intros d id. unfold ioctl, camera_ioctl. cbn [snd].
    destruct (fake_table !! Z.to_nat (id - 0x8000000)); [|by right].
    destruct (0x8000000 <=? id); [by left|by right].
Qed.

Lemma InitV4LDevice_resources_witness :
  ∃ st', @InitV4LDevice unit cam eIMAGE_VGA cam_state = Ok (ERR_V4L_SUCCESS, st') ∧
         i32VidFD (vid st') = 3 ∧ i32FrameSize (vid st') = 614400.
Proof.
  destruct (@InitV4LDevice_resources unit cam eIMAGE_VGA cam_state) as (err & st' & E & _ & _ & Hok).
  { intros d _. cbn. lia. }
  assert (match @InitV4LDevice unit cam eIMAGE_VGA cam_state with
          | Ok (e, s) => (e, i32UseMMap (vid s)) = (0, 1) | Crash _ => False end) as Hv
    by (vm_compute; reflexivity).
  rewrite E in Hv. injection Hv as -> Hu. exists st'. split; [exact E|].
  destruct Hok as (Hfd & _ & Hm & _); [vm_compute; discriminate|reflexivity|].
  split; [exact Hfd|]. apply Hm. exact Hu.
Defined.

Lemma frames_captured_in_rotation_witness :
  ∃ es st', @trigger_frames unit cam 4 cam_state = Ok (es, st') ∧ captured (log st') = [2; 0; 1; 2].
Proof.
  destruct (@frames_captured_in_rotation unit cam 4 cam_state) as (es & st' & E & _ & _ & H).
  { apply cam_ring. }
  exists es, st'. split; [exact E|]. rewrite H; [reflexivity|].
  assert (match @trigger_frames unit cam 4 cam_state with
          | Ok (l, _) => l = [0; 0; 0; 0] | Crash _ => False end) as Hv by (vm_compute; reflexivity).
  rewrite E in Hv. subst es. repeat constructor.
Defined.

Lemma ReadV4LPicture_reads_current_frame_witness :
  ∃ res st', @ReadV4LPicture unit cam cam_state = Ok (res, st') ∧
    res = (ERR_V4L_SUCCESS, Some (1232896, 12000500, 0x700000)).
Proof.
  destruct (@ReadV4LPicture_reads_current_frame unit cam cam_state)
    as (res & st' & k & E & _); [apply cam_ring|cbn; lia|].
  exists res, st'. split; [exact E|].
  assert (match @ReadV4LPicture unit cam cam_state with
          | Ok (r, _) => r = (ERR_V4L_SUCCESS, Some (1232896, 12000500, 0x700000))
          | Crash _ => False end) as Hv by (vm_compute; reflexivity).
  by rewrite E in Hv.
Defined.

Lemma QueryV4LUserControl_table_witness :
  (∃ st', @QueryV4LUserControl unit cam 5 3 0x980900 0x8000000 cam_state = Ok (ERR_V4L_SUCCESS, st') ∧
          ctrl_id st' = 3) ∧
  @QueryV4LUserControl unit cam 5 3 0x980900 0x8000000
    (State cam_vid 0 14 (replicate 16 (QueryCtrl 0 [] 0 0 0 0)) tt []) = Crash OutOfBounds.
Proof.
  split.
  - destruct (@QueryV4LUserControl_table unit cam 0x8000000 fake_table 5 3 0x980900 cam_state)
      as (st' & E & Hc & _); [apply cam_controls|lia|cbn; lia|cbn; lia|reflexivity|vm_compute; split; discriminate|].
    exists st'. split; [exact E|exact Hc].
  - exact (@QueryV4LUserControl_table unit cam 0x8000000 fake_table 5 3 0x980900
      (State cam_vid 0 14 (replicate 16 (QueryCtrl 0 [] 0 0 0 0)) tt [])
      (cam_controls false false) ltac:(lia) ltac:(cbn; lia) ltac:(cbn; lia) eq_refl
      ltac:(vm_compute; split; discriminate)).
Defined.

Lemma Brightness_register_updates_witness :
  ∃ st', @ChangeV4LUserControl_Brigness unit cam 1
           (State cam_vid 0 4 fake_table tt []) = Ok (ERR_V4L_SUCCESS, st') ∧
    log st' = [VIDIOC_S_CTRL 100 0x6A; VIDIOC_G_CTRL 103 0x6A; VIDIOC_S_CTRL 101 0x6F;
               VIDIOC_S_CTRL 100 0x9B; VIDIOC_G_CTRL 103 0x9B; VIDIOC_S_CTRL 101 0x9D].
Proof.
  exact (@Brightness_register_updates unit cam (State cam_vid 0 4 fake_table tt []) 1 (λ v, v + 1)
    (λ _ _ _, eq_refl) (λ _ _ _, conj eq_refl eq_refl)).
Defined.

Lemma SetV4LViewWindow_failure_closes_twice_witness :
  ∃ win st' st'', @SetV4LViewWindow unit (camera_ioctl false true) 480 272 320 240 cam_state =
      Ok (ERR_V4L_VID_SET_WIN, st') ∧
    @FinializeV4LDevice unit (camera_ioctl false true) st' = Ok (tt, st'') ∧
    log st'' = [VIDIOCSWIN win; RClose 3; MUNMAP 1843200; RClose 3].
Proof.
  destruct (@SetV4LViewWindow_failure_closes_twice unit (camera_ioctl false true) 480 272 320 240 cam_state)
    as (win & st' & st'' & H1 & _ & H2 & H3); [cbn; lia|intros; cbn; lia|].
  exists win, st', st''. split_and!; [exact H1|exact H2|exact H3].
Defined.

Lemma cam_crop b1 b2 : @answers_crop unit (camera_ioctl b1 b2) fake_cap (fake_crop b1).
Proof. split; intros d; split; reflexivity. Qed.

Lemma Zooming_keeps_window_centred_witness :
  ∃ e st', @Zooming unit cam 1 cam_state = Ok ((e, Some (Rect 168 126 304 228)), st').
Proof.
  destruct (@Zooming_keeps_window_centred unit cam cam_state fake_cap (fake_crop false) 1)
    as (e & c' & st' & E & _).
  - apply cam_crop.
  - unfold zoom_caps_ok. cbn. repeat split; lia.
  - unfold centred. cbn. lia.
  - unfold inside. cbn. lia.
  - cbn. lia.
  - cbn. lia.
  - assert (match @Zooming unit cam 1 cam_state with
            | Ok ((_, c), _) => c = Some (Rect 168 126 304 228) | Crash _ => False end) as Hv
      by (vm_compute; reflexivity).
    rewrite E in Hv. injection Hv as ->. exists e, st'. exact E.
Defined.

Lemma zoom_in_below_step_wraps_witness :
  ∃ e c' st', @Zooming unit (camera_ioctl true false) 1 cam_state = Ok ((e, Some c'), st') ∧
              r_width c' < 0.
Proof.
  destruct (@zoom_in_below_step_wraps unit (camera_ioctl true false) cam_state fake_cap (fake_crop true))
    as (e & c' & st' & E & _ & Hw & _).
  - apply cam_crop.
  - unfold zoom_caps_ok. cbn. repeat split; lia.
  - cbn. lia.
  - cbn. lia.
  - exists e, c', st'. split; [exact E|exact Hw].
Defined.
