(* ===== verification/JpegEnc.v ===== *)
(** * JpegEnc: the JPEG encoder module of the camera demo

    Models src/videoin_HW/JpegEnc.c: opening the encoder with its retries over
    the device nodes, encoding a picture from planar or packed video memory,
    and releasing the device.  The encoder's driver and the memory allocator
    are a [Driver]; the mapped stream buffer is a list of bytes. *)
From S2P Require Import Prelude LibC Bytes Device Misc Exif.
Local Open Scope cmodel_scope.
Local Open Scope Z_scope.

(** ** Requests *)

Inductive jreq :=
| JOpen (minor : Z)
| JClose (fd : Z)
| JMmap (fd size : Z)
| JMunmap (size : Z)
| JMalloc
| JFree
| JPEG_GET_JPEG_BUFFER (fd : Z)
| JPEG_SET_ENC_USER_YADDRESS (addr : Z)
| JPEG_SET_ENC_USER_UADDRESS (addr : Z)
| JPEG_SET_ENC_USER_VADDRESS (addr : Z)
| JPEG_SET_ENCOCDE_RESERVED (size : Z)
| JPEG_SET_ENC_STRIDE (stride : Z)
| JPEG_S_PARAM (src_planar : bool) (encode_width encode_height scaled_width scaled_height scale : Z)
| JPEG_SET_ENC_THUMBNAIL (qqvga : Z)
| JPEG_TRIGGER
| JRead
| JPEG_GET_ENC_THUMBNAIL_SIZE
| JPEG_GET_ENC_THUMBNAIL_OFFSET.

(** What the encoder produced: the length of the picture and the stream buffer. *)
Definition jreply (r : jreq) : Type :=
  match r with
  | JPEG_GET_JPEG_BUFFER _ => Z * Z
  | JMmap _ _ => option (list Z)
  | JRead => Z * (Z * list Z)
  | JMalloc => bool
  | _ => Z
  end.

(** ** State *)

Inductive E_JPEG_ENC_THB_SUPP := eJPEG_ENC_THB_NONE | eJPEG_ENC_THB_QQVGA | eJPEG_ENC_THB_QVGA.

#[export] Instance thb_eq_dec : EqDecision E_JPEG_ENC_THB_SUPP.
Proof. solve_decision. Defined.

(** The fields of jpeg_param_t the module changes. *)
Record jpeg_param_t := JpegParam {
  encode_width : Z; encode_height : Z; scaled_width : Z; scaled_height : Z; scale : Z;
  src_planar : bool
}.

(** The static variables; [None] is MAP_FAILED for the buffer. *)
Record jpeg_vars := JpegVars {
  s_pu8JpegEncBuf : option (list Z);
  s_i32JpegFd : Z;
  s_u32JpegBufSize : Z;
  s_sJpegParam : jpeg_param_t;
  s_pJpegInfo : bool;
}.

Definition set_fd (v : jpeg_vars) (x : Z) : jpeg_vars :=
  JpegVars (s_pu8JpegEncBuf v) x (s_u32JpegBufSize v) (s_sJpegParam v) (s_pJpegInfo v).
Definition set_buf (v : jpeg_vars) (x : option (list Z)) : jpeg_vars :=
  JpegVars x (s_i32JpegFd v) (s_u32JpegBufSize v) (s_sJpegParam v) (s_pJpegInfo v).
Definition set_bufsize (v : jpeg_vars) (x : Z) : jpeg_vars :=
  JpegVars (s_pu8JpegEncBuf v) (s_i32JpegFd v) x (s_sJpegParam v) (s_pJpegInfo v).
Definition set_param (v : jpeg_vars) (x : jpeg_param_t) : jpeg_vars :=
  JpegVars (s_pu8JpegEncBuf v) (s_i32JpegFd v) (s_u32JpegBufSize v) x (s_pJpegInfo v).
Definition set_info (v : jpeg_vars) (x : bool) : jpeg_vars :=
  JpegVars (s_pu8JpegEncBuf v) (s_i32JpegFd v) (s_u32JpegBufSize v) (s_sJpegParam v) x.

Section operations.
Context {D : Type} `{Driver jreq jreply D}.
Notation P := (prog jpeg_vars jreq D).

(** The loop over /dev/video1, /dev/video2, ...: [minor] is the digit of the
    node's name. *)
Fixpoint open_loop (n : nat) (minor : Z) : P unit :=
  match n with
  | O => mret tt
  | S n =>
      fd ⇐ JOpen minor;
      _ ← modify (λ v, set_fd v fd);
      if fd <? 0 then open_loop n (minor + 1) else
      rp ⇐ JPEG_GET_JPEG_BUFFER fd;
      if rp.1 <? 0 then
        _ ⇐ JClose fd;
        open_loop n (minor + 1)
      else modify (λ v, set_bufsize v rp.2)
  end.

Definition init_dims (r : E_IMAGE_RESOL) : Z * Z :=
  match r with
  | eIMAGE_VGA => (640, 480)
  | eIMAGE_WQVGA => (480, 272)
  | _ => (320, 240)
  end.

Definition InitJpegDevice (resol : E_IMAGE_RESOL) : P Z :=
  _ ← open_loop RETRY_NUM 1;
  v ← get;
  if s_i32JpegFd v <? 0 then mret (s_i32JpegFd v) else
  ok ⇐ JMalloc;
  _ ← modify (λ v, set_info v ok);
  if negb ok then _ ⇐ JClose (s_i32JpegFd v); mret (-1) else
  buf ⇐ JMmap (s_i32JpegFd v) (s_u32JpegBufSize v);
  _ ← modify (λ v, set_buf v buf);
  match buf with
  | None => _ ⇐ JClose (s_i32JpegFd v); mret (-1)
  | Some _ =>
      let '(w, h) := init_dims resol in
      _ ← modify (λ v, set_param v (JpegParam w h 0 0 0 false));
      mret (s_i32JpegFd v)
  end.

Definition FinializeJpegDevice : P Z :=
  v ← get;
  _ ← (if s_pJpegInfo v then _ ⇐ JFree; modify (λ v, set_info v false) else mret tt);
  _ ← (match s_pu8JpegEncBuf v with
       | Some _ => _ ⇐ JMunmap (s_u32JpegBufSize v); modify (λ v, set_buf v None)
       | None => mret tt
       end);
  _ ← (if 0 <? s_i32JpegFd v then _ ⇐ JClose (s_i32JpegFd v); modify (λ v, set_fd v (-1))
       else mret tt);
  mret 0.

(** ** Encoding *)

Definition enc_dims (r : E_IMAGE_RESOL) : Z * Z :=
  match r with
  | eIMAGE_WQVGA => (480, 272)
  | eIMAGE_VGA => (640, 480)
  | eIMAGE_SVGA => (800, 600)
  | eIMAGE_HD720 => (1280, 720)
  | eIMAGE_QVGA => (320, 240)
  end.

Definition EncReservedSize : Z := 0x84.

(** Room for the EXIF header, 6 bytes into the stream buffer. *)
Definition reserve_exif (thb : E_JPEG_ENC_THB_SUPP) : P unit :=
  if decide (thb = eJPEG_ENC_THB_NONE) then mret tt else
  v ← get;
  match s_pu8JpegEncBuf v with
  | None => fault NullDeref
  | Some buf =>
      buf' ← lift (blit buf 6 (replicate (Z.to_nat EncReservedSize) 0xFF));
      _ ← modify (λ v, set_buf v (Some buf'));
      _ ⇐ JPEG_SET_ENCOCDE_RESERVED EncReservedSize;
      mret tt
  end.

Definition set_param_request (p : jpeg_param_t) : jreq :=
  JPEG_S_PARAM (src_planar p) (encode_width p) (encode_height p) (scaled_width p) (scaled_height p) (scale p).

(** From JPEG_S_PARAM to the end: set the parameters, start the encoder, wait
    for the picture and fill in the EXIF header.  Returns 0 and the length, or
    -1.  The encoder writes the stream buffer while it runs; the answer to the
    read gives what the buffer, if it is mapped, then holds.  Behind the read
    [s_pJpegInfo] is dereferenced on both paths, for the state and for the size. *)
Definition encode_picture (thb : E_JPEG_ENC_THB_SUPP) (t : tm) : P (Z * option Z) :=
  v ← get;
  rp ⇐ set_param_request (s_sJpegParam v);
  if (rp : Z) <? 0 then mret (-1, None) else
  _ ← (match thb with
       | eJPEG_ENC_THB_NONE => mret tt
       | eJPEG_ENC_THB_QQVGA => _ ⇐ JPEG_SET_ENC_THUMBNAIL 1; mret tt
       | eJPEG_ENC_THB_QVGA => _ ⇐ JPEG_SET_ENC_THUMBNAIL 0; mret tt
       end);
  rp ⇐ JPEG_TRIGGER;
  if rp <? 0 then mret (-1, None) else
  rp ⇐ JRead;
  _ ← modify (λ v, set_buf v (if s_pu8JpegEncBuf v is Some _ then Some rp.2.2 else None));
  if negb (s_pJpegInfo v) then fault NullDeref else
  if rp.1 <? 0 then mret (-1, None) else
  _ ← (if decide (thb = eJPEG_ENC_THB_NONE) then mret tt else
       size ⇐ JPEG_GET_ENC_THUMBNAIL_SIZE;
       offset ⇐ JPEG_GET_ENC_THUMBNAIL_OFFSET;
       exif ← lift (create_simple_EXIF t (drop 6 rp.2.2) offset size);
       modify (λ v, set_buf v (Some (take 6 rp.2.2 ++ exif))));
  mret (0, Some (rp.2.1)).

(** The addresses of the chrominance planes (YUV 4:2:2). *)
Definition plane_addresses (y : Z) (w h crop_w crop_h : Z) : Z * Z :=
  let u := if w <? u32 crop_w then u32 (y + w * h) else u32 (y + crop_w * crop_h) in
  let v := if w <? u32 crop_w then u32 (u + u32 (w * h) / 2)
           else u32 (u + Z.quot (s32 (crop_w * crop_h)) 2) in
  (u, v).

Definition JpegEncFromVIN (resol : E_IMAGE_RESOL) (u32PlanarYBufPhyAddr : Z)
    (thb : E_JPEG_ENC_THB_SUPP) (crop_w crop_h : Z) (t : tm) : P (Z * option Z) :=
  let '(w, h) := enc_dims resol in
  let '(u, v) := plane_addresses u32PlanarYBufPhyAddr w h crop_w crop_h in
  rp ⇐ JPEG_SET_ENC_USER_YADDRESS u32PlanarYBufPhyAddr;
  if (rp : Z) <? 0 then mret (-1, None) else
  rp ⇐ JPEG_SET_ENC_USER_UADDRESS u;
  if (rp : Z) <? 0 then mret (-1, None) else
  rp ⇐ JPEG_SET_ENC_USER_VADDRESS v;
  if (rp : Z) <? 0 then mret (-1, None) else
  _ ← reserve_exif thb;
  _ ← (if (u32 crop_w <? w) || (u32 crop_h <? h) then
         _ ← modify (λ s, set_param s (JpegParam (u32 crop_w) (u32 crop_h) w h 1 true));
         _ ⇐ JPEG_SET_ENC_STRIDE (if w <? u32 crop_w then 1 else 0);
         mret tt
       else
         _ ← modify (λ s, set_param s (JpegParam w h (scaled_width (s_sJpegParam s))
                                         (scaled_height (s_sJpegParam s)) 0 true));
         _ ⇐ JPEG_SET_ENC_STRIDE w;
         mret tt);
  encode_picture thb t.

Definition JpegEncFromVIN_Packet (resol : E_IMAGE_RESOL) (u32PacketBufPhyAddr : Z)
    (thb : E_JPEG_ENC_THB_SUPP) (t : tm) : P (Z * option Z) :=
  let '(w, h) := enc_dims resol in
  rp ⇐ JPEG_SET_ENC_USER_YADDRESS u32PacketBufPhyAddr;
  if (rp : Z) <? 0 then mret (-1, None) else
  _ ⇐ JPEG_SET_ENC_STRIDE w;
  _ ← reserve_exif thb;
  _ ← modify (λ s, set_param s (JpegParam w h (scaled_width (s_sJpegParam s))
                                  (scaled_height (s_sJpegParam s)) 0 false));
  encode_picture thb t.
End operations.

(** ** Claims *)

Section claims.
Context {D : Type} `{Driver jreq jreply D}.
Implicit Types w : world jpeg_vars jreq D.

(** The module after [InitJpegDevice]: the stream buffer is mapped and there is
    room for the state of the encoder. *)
Definition enc_ok (v : jpeg_vars) : Prop := is_Some (s_pu8JpegEncBuf v) ∧ s_pJpegInfo v = true.

(** Without that room an encoding that was started ends in a fault. *)
Lemma encode_picture_needs_info t w :
  s_pJpegInfo (vars w) = false → (∀ (d : D) p, 0 <= ((respond d (set_param_request p)).2 : Z)) → (∀ d : D, 0 <= (respond d JPEG_TRIGGER).2) →
  encode_picture eJPEG_ENC_THB_NONE t w = Crash NullDeref.
Proof.
  intros Hi Hp Ht. unfold encode_picture. rewrite get_run, request_run.
  unfold answer at 1. rewrite (proj2 (Z.ltb_ge _ 0)) by apply Hp. rewrite bind_run.
  rewrite mret_run, request_run. unfold answer at 1. rewrite (proj2 (Z.ltb_ge _ 0)) by apply Ht.
  by rewrite request_run, modify_run, Hi.
Qed.

(** A driver that accepts the requests of an encoding. *)
Record accepts : Prop := Accepts {
  accepts_y : ∀ (d : D) a, 0 <= (respond d (JPEG_SET_ENC_USER_YADDRESS a)).2;
  accepts_u : ∀ (d : D) a, 0 <= (respond d (JPEG_SET_ENC_USER_UADDRESS a)).2;
  accepts_v : ∀ (d : D) a, 0 <= (respond d (JPEG_SET_ENC_USER_VADDRESS a)).2;
  accepts_param : ∀ (d : D) p, 0 <= ((respond d (set_param_request p)).2 : Z);
  accepts_trigger : ∀ d : D, 0 <= (respond d JPEG_TRIGGER).2;
  accepts_read : ∀ d : D, 0 <= (respond d JRead).2.1;
}.

Lemma encode_picture_plain t w : accepts → s_pJpegInfo (vars w) = true →
  ∃ w' len, encode_picture eJPEG_ENC_THB_NONE t w = Ok ((0, Some len), w') ∧
    trace w' = trace w ++ [set_param_request (s_sJpegParam (vars w)); JPEG_TRIGGER; JRead].
Proof.
  intros [_ _ _ Hp Ht Hr] Hi. unfold encode_picture. rewrite get_run, request_run.
  unfold answer at 1. rewrite (proj2 (Z.ltb_ge _ 0)) by apply Hp. rewrite bind_run.
  rewrite mret_run, request_run. unfold answer at 1. rewrite (proj2 (Z.ltb_ge _ 0)) by apply Ht.
  rewrite request_run, modify_run, Hi. cbn [negb]. unfold answer at 2. rewrite (proj2 (Z.ltb_ge _ 0)) by apply Hr.
  eexists _, _. split; [reflexivity|]. cbn. by rewrite <- !app_assoc.
Qed.

Lemma create_simple_EXIF_crash t buf off size : Exif.tm_wf t →
  create_simple_EXIF t buf off size = Crash OutOfBounds.
Proof.
  intros. unfold create_simple_EXIF, sprintf_time. rewrite blit_crash; [done|].
  rewrite length_app, length_replicate, time_text_length by done. cbn. lia.
Qed.

Lemma encode_picture_exif thb t w : accepts → s_pJpegInfo (vars w) = true → thb ≠ eJPEG_ENC_THB_NONE → Exif.tm_wf t →
  encode_picture thb t w = Crash OutOfBounds.
Proof.
  intros [_ _ _ Hp Ht Hr] Hi Hthb Htm. unfold encode_picture. rewrite get_run, request_run.
  unfold answer at 1. rewrite (proj2 (Z.ltb_ge _ 0)) by apply Hp. rewrite bind_run.
  destruct thb; [done|rewrite request_run, mret_run..]; rewrite request_run; unfold answer at 1;
    rewrite (proj2 (Z.ltb_ge _ 0)) by apply Ht; rewrite request_run, modify_run, Hi; cbn [negb]; unfold answer at 2;
    rewrite (proj2 (Z.ltb_ge _ 0)) by apply Hr;
    rewrite bind_run, decide_False, !request_run, lift_run, create_simple_EXIF_crash by done; done.
Qed.

(** The planes of a picture of [area] pixels follow each other. *)
Lemma plane_addresses_eq y pw ph cw ch :
  0 <= y → 0 < cw < 65536 → 0 < ch < 65536 → 0 < pw < 65536 → 0 < ph < 65536 →
  let area := if pw <? cw then pw * ph else cw * ch in
  area < 2147483648 → y + area + area / 2 < 4294967296 →
  plane_addresses y pw ph cw ch = (y + area, y + area + area / 2).
Proof.
  intros Hy Hcw Hch Hw Hh area Ha Hs. unfold plane_addresses. rewrite (u32_id cw) by (unfold is_u32; lia).
  assert (0 <= area / 2) by (apply Z.div_pos; [unfold area; destruct (pw <? cw); nia|lia]).
  assert (0 <= area) by (unfold area; destruct (pw <? cw); nia). unfold area in *.
  destruct (pw <? cw); f_equal.
  - apply u32_id. unfold is_u32. lia.
  - rewrite (u32_id (pw * ph)), (u32_id (y + pw * ph)) by (unfold is_u32; lia). apply u32_id. unfold is_u32. lia.
  - apply u32_id. unfold is_u32. lia.
  - rewrite (s32_id (cw * ch)) by (unfold is_s32; lia). rewrite Z.quot_div_nonneg by lia.
    rewrite (u32_id (y + cw * ch)) by (unfold is_u32; lia). apply u32_id. unfold is_u32. lia.
Qed.

(** Encoding a planar picture with a driver that accepts the requests, after the
    module was set up: without
    a thumbnail the encoder gets the addresses of the three planes, which lie
    one after the other in the video memory (all of the encode size, or all of
    the crop window when that is not wider), the stride and the parameters,
    and is started and read, in this order, and the call returns 0.  When
    the crop window is smaller than the picture the stride passed is the value
    of a comparison, 0 or 1, instead of the width of the window.  With a
    thumbnail every call overruns the buffer of the date. *)
Theorem JpegEncFromVIN_requests resol y thb cw ch t w :
  accepts → s_pJpegInfo (vars w) = true → 0 <= y → 0 < cw < 65536 → 0 < ch < 65536 →
  let '(pw, ph) := enc_dims resol in
  let area := if pw <? cw then pw * ph else cw * ch in
  area < 2147483648 → y + area + area / 2 < 4294967296 →
  (thb = eJPEG_ENC_THB_NONE →
   ∃ w' len sw sh, JpegEncFromVIN resol y thb cw ch t w = Ok ((0, Some len), w') ∧
     trace w' = trace w ++
       [JPEG_SET_ENC_USER_YADDRESS y; JPEG_SET_ENC_USER_UADDRESS (y + area);
        JPEG_SET_ENC_USER_VADDRESS (y + area + area / 2);
        JPEG_SET_ENC_STRIDE (if (cw <? pw) || (ch <? ph) then (if pw <? cw then 1 else 0) else pw);
        (if (cw <? pw) || (ch <? ph) then JPEG_S_PARAM true cw ch pw ph 1
         else JPEG_S_PARAM true pw ph sw sh 0);
        JPEG_TRIGGER; JRead]) ∧
  (thb ≠ eJPEG_ENC_THB_NONE → Exif.tm_wf t →
   (∃ buf, s_pu8JpegEncBuf (vars w) = Some buf ∧ (138 <= length buf)%nat) →
   JpegEncFromVIN resol y thb cw ch t w = Crash OutOfBounds).
Proof.
  intros Hacc Hi Hy Hcw Hch. pose proof Hacc as [Hay Hau Hav _ _ _].
  destruct (enc_dims resol) as [pw ph] eqn:Edims.
  assert (0 < pw < 65536 ∧ 0 < ph < 65536) as [Hpw Hph] by (destruct resol; injection Edims as <- <-; lia).
  intros area Ha Hs. unfold JpegEncFromVIN. rewrite Edims, plane_addresses_eq by done.
  fold area.
  rewrite (u32_id cw), (u32_id ch) by (unfold is_u32; lia).
  split.
  - intros ->. rewrite request_run. unfold answer. rewrite (proj2 (Z.ltb_ge _ 0)) by apply Hay.
    rewrite request_run. unfold answer. rewrite (proj2 (Z.ltb_ge _ 0)) by apply Hau.
    rewrite request_run. unfold answer. rewrite (proj2 (Z.ltb_ge _ 0)) by apply Hav.
    rewrite bind_run. unfold reserve_exif. rewrite decide_True, mret_run, bind_run by done.
    destruct ((cw <? pw) || (ch <? ph)); rewrite modify_run, request_run, mret_run.
    + match goal with |- context [encode_picture _ _ ?w1] =>
        destruct (encode_picture_plain t w1 Hacc Hi) as (w' & len & -> & Ht) end.
      exists w', len, 0, 0. split; [done|]. rewrite Ht. cbn. by rewrite <- !app_assoc.
    + match goal with |- context [encode_picture _ _ ?w1] =>
        destruct (encode_picture_plain t w1 Hacc Hi) as (w' & len & -> & Ht) end.
      eexists w', len, _, _. split; [done|]. rewrite Ht. cbn. by rewrite <- !app_assoc.
  - intros Hthb Htm (buf & Hbuf & Hlen).
    rewrite request_run. unfold answer. rewrite (proj2 (Z.ltb_ge _ 0)) by apply Hay.
    rewrite request_run. unfold answer. rewrite (proj2 (Z.ltb_ge _ 0)) by apply Hau.
    rewrite request_run. unfold answer. rewrite (proj2 (Z.ltb_ge _ 0)) by apply Hav.
    rewrite bind_run. unfold reserve_exif. rewrite decide_False, get_run by done.
    cbn [vars after]. rewrite Hbuf, lift_run.
    destruct (blit_Ok buf 6 (replicate (Z.to_nat EncReservedSize) 255)) as (b & -> & _);
      [lia|rewrite length_replicate; change (Z.to_nat EncReservedSize) with 132%nat; lia|].
    rewrite modify_run, request_run, mret_run, bind_run.
    destruct ((cw <? pw) || (ch <? ph)); rewrite modify_run, request_run, mret_run; by apply encode_picture_exif.
Qed.

(** When every node can be opened but none of them is the encoder, the loop has
    closed the last descriptor and leaves it in place: the module goes on and
    maps memory through a closed descriptor. *)
Theorem InitJpegDevice_uses_closed_descriptor resol w fd :
  0 <= fd → (∀ (d : D) n, (respond d (JOpen n)).2 = fd) →
  (∀ (d : D) f, (respond d (JPEG_GET_JPEG_BUFFER f)).2.1 < 0) →
  (∀ d : D, (respond d JMalloc).2 = true) →
  ∃ res w' size rest, InitJpegDevice resol w = Ok (res, w') ∧
    trace w' = trace w ++
      concat (map (λ n, [JOpen n; JPEG_GET_JPEG_BUFFER fd; JClose fd]) [1; 2; 3; 4]) ++
      [JMalloc; JMmap fd size] ++ rest.
Proof.
  intros Hfd Ho Hg Hm. unfold InitJpegDevice. rewrite bind_run.
  assert (∀ n minor w, ∃ w', open_loop n minor w = Ok (tt, w') ∧
    trace w' = trace w ++ concat (map (λ k, [JOpen k; JPEG_GET_JPEG_BUFFER fd; JClose fd])
                                      (seqZ minor (Z.of_nat n))) ∧
    (s_i32JpegFd (vars w) = fd ∨ n ≠ 0%nat → s_i32JpegFd (vars w') = fd)) as Hloop.
  { clear w. induction n as [|n IH]; intros minor w.
    - exists w. cbn. rewrite app_nil_r. naive_solver.
    - cbn [open_loop]. rewrite request_run, modify_run. unfold answer. rewrite Ho.
      rewrite (proj2 (Z.ltb_ge fd 0)) by done. rewrite request_run. unfold answer.
      rewrite (proj2 (Z.ltb_lt _ 0)) by apply Hg. rewrite request_run.
      match goal with |- context [open_loop n _ ?w1] =>
        destruct (IH (minor + 1) w1) as (w' & -> & Ht & Hf); set (w2 := w1) in * end.
      exists w'. split; [done|]. split.
      + rewrite Ht, (seqZ_cons minor) by lia. replace (Z.pred (Z.of_nat (S n))) with (Z.of_nat n) by lia.
        change (Z.succ minor) with (minor + 1). cbn. by rewrite <- !app_assoc.
      + intros _. apply Hf. by left. }
  destruct (Hloop RETRY_NUM 1 w) as (w1 & -> & Ht1 & Hf1). rewrite get_run, Hf1 by (by right).
  rewrite (proj2 (Z.ltb_ge fd 0)) by done. rewrite request_run. unfold answer. rewrite Hm.
  rewrite modify_run. cbn [negb]. rewrite request_run, modify_run.
  destruct (answer _ (JMmap fd _)) as [buf|].
  - destruct (init_dims resol) as [pw ph]. rewrite modify_run. eexists _, _, _, []. split; [reflexivity|].
    cbn. rewrite Ht1. cbn. by rewrite <- !app_assoc.
  - rewrite request_run. eexists _, _, _, [_]. split; [reflexivity|].
    cbn. rewrite Ht1. cbn. by rewrite <- !app_assoc.
Qed.
End claims.

(** ** Witnesses *)

(** An encoder that accepts everything; with [refuse] its nodes are not the
    encoder. *)
Definition fake_encoder (refuse : bool) : Driver jreq jreply unit := λ d r,
  (d, match r return jreply r with
      | JOpen _ => 5
      | JPEG_GET_JPEG_BUFFER _ => (if refuse then -1 else 0, 4096)
      | JMmap _ _ => Some (replicate 200 0)
      | JRead => (16, (1234, replicate 200 7))
      | JMalloc => true
      | JClose _ => 0 | JMunmap _ => 0 | JFree => 0
      | JPEG_SET_ENC_USER_YADDRESS _ => 0 | JPEG_SET_ENC_USER_UADDRESS _ => 0
      | JPEG_SET_ENC_USER_VADDRESS _ => 0 | JPEG_SET_ENCOCDE_RESERVED _ => 0
      | JPEG_SET_ENC_STRIDE _ => 0 | JPEG_S_PARAM _ _ _ _ _ _ => 0
      | JPEG_SET_ENC_THUMBNAIL _ => 0 | JPEG_TRIGGER => 0
      | JPEG_GET_ENC_THUMBNAIL_SIZE => 400 | JPEG_GET_ENC_THUMBNAIL_OFFSET => 200
      end).

Definition enc_world : world jpeg_vars jreq unit :=
  World (JpegVars (Some (replicate 200 0)) 5 4096 (JpegParam 640 480 0 0 0 false) true) tt [].

Lemma fake_accepts b : @accepts unit (fake_encoder b).
Proof. by split. Qed.

Lemma JpegEncFromVIN_requests_witness :
  ∃ w' len, @JpegEncFromVIN unit (fake_encoder false) eIMAGE_VGA 0x800000 eJPEG_ENC_THB_NONE 320 240
              sample_tm enc_world = Ok ((0, Some len), w') ∧
    trace w' = [JPEG_SET_ENC_USER_YADDRESS 0x800000; JPEG_SET_ENC_USER_UADDRESS 0x812c00;
                JPEG_SET_ENC_USER_VADDRESS 0x81c200; JPEG_SET_ENC_STRIDE 0;
                JPEG_S_PARAM true 320 240 640 480 1; JPEG_TRIGGER; JRead].
Proof.
  destruct (@JpegEncFromVIN_requests unit (fake_encoder false) eIMAGE_VGA 0x800000
    eJPEG_ENC_THB_NONE 320 240 sample_tm enc_world) as [H _];
    [apply fake_accepts|reflexivity|lia|lia|lia|vm_compute; reflexivity|vm_compute; reflexivity|].
  destruct (H eq_refl) as (w' & len & sw & sh & E & Ht). exists w', len. split; [exact E|exact Ht].
Defined.

Lemma InitJpegDevice_uses_closed_descriptor_witness :
  ∃ res w' size rest, @InitJpegDevice unit (fake_encoder true) eIMAGE_VGA enc_world = Ok (res, w') ∧
    trace w' = [JOpen 1; JPEG_GET_JPEG_BUFFER 5; JClose 5; JOpen 2; JPEG_GET_JPEG_BUFFER 5; JClose 5;
                JOpen 3; JPEG_GET_JPEG_BUFFER 5; JClose 5; JOpen 4; JPEG_GET_JPEG_BUFFER 5; JClose 5;
                JMalloc; JMmap 5 size] ++ rest.
Proof.
  destruct (@InitJpegDevice_uses_closed_descriptor unit (fake_encoder true) eIMAGE_VGA enc_world 5)
    as (res & w' & size & rest & E & Ht); [lia|reflexivity|intros; cbn; lia|reflexivity|].
  exists res, w', size, rest. split; [exact E|exact Ht].
Defined.
