(* ===== verification/Tslib.v ===== *)
(** * Tslib: the core of the touch-screen library

    Models src/tslib-1.1/src: the samples and the interface every filter module
    offers to the one above it ([TsRead], the [read] operation, with [TsReadOk],
    what a module promises about it), the list of modules of a device and how
    modules are attached to it, closing a device, its options, and the parser
    of a module's parameters. *)
From stdpp Require Import gmap.
From S2P Require Import Prelude LibC.
Local Open Scope Z_scope.

(** ** Samples and the read operation *)

(** struct ts_sample; [tv] stands for the time stamp *)
Record ts_sample := Sample { x : Z; y : Z; pressure : Z; tv : Z }.

#[export] Instance ts_sample_eq_dec : EqDecision ts_sample.
Proof. solve_decision. Defined.

(** [read(info, samp, nr)]: [samp] points to an array; the module fills it and
    returns the number of samples or a negative error. *)
Class TsRead (M : Type) :=
  ts_module_read : M → list ts_sample → Z → result (M * list ts_sample * Z).

(** What a module promises to the one above: it writes at most the first [nr]
    entries and does not report more than it was asked for. *)
Definition read_fits (buf buf' : list ts_sample) (nr ret : Z) : Prop :=
  length buf' = length buf ∧ ret <= nr ∧ drop (Z.to_nat nr) buf' = drop (Z.to_nat nr) buf.

Class TsReadOk (M : Type) `{TsRead M} :=
  ts_read_ok : ∀ m buf nr m' buf' ret, 0 <= nr <= Z.of_nat (length buf) →
    ts_module_read m buf nr = Ok (m', buf', ret) → read_fits buf buf' nr ret.

(** A module that replays a list of samples, as a raw driver would. *)
Record replay := Replay { pending : list ts_sample }.

#[export] Instance replay_read : TsRead replay := λ m buf nr,
  let n := Nat.min (Z.to_nat nr) (length (pending m)) in
  Ok (Replay (drop n (pending m)), take n (pending m) ++ drop n buf, Z.of_nat n).

#[export] Instance replay_read_ok : TsReadOk replay.
Proof.
  intros m buf nr m' buf' ret Hn [= <- <- <-]. set (n := Nat.min _ _).
  assert (n <= Z.to_nat nr)%nat by lia. assert (n <= length (pending m))%nat by lia.
  split_and!.
  - rewrite length_app, length_take, length_drop. lia.
  - lia.
  - rewrite drop_app_ge by (rewrite length_take; lia). rewrite length_take, drop_drop. f_equal. lia.
Qed.

(** ** Devices and their modules

    Modules live in a heap: a pointer is a number and [next_of] gives the
    [next] field of each module.  [None] is NULL. *)
Definition ptr := option nat.

Record tsdev := TsDev {
  fd : Z; list_ : ptr; list_raw : ptr; res_x : Z; res_y : Z; rotation : Z
}.

Record heap := Heap { next_of : gmap nat ptr; freed : list nat }.

Definition set_next (h : heap) (i : nat) (p : ptr) : heap := Heap (<[i := p]> (next_of h)) (freed h).
Definition set_list (ts : tsdev) (p : ptr) : tsdev :=
  TsDev (fd ts) p (list_raw ts) (res_x ts) (res_y ts) (rotation ts).
Definition set_list_raw (ts : tsdev) (p : ptr) : tsdev :=
  TsDev (fd ts) (list_ ts) p (res_x ts) (res_y ts) (rotation ts).

(** [p->next]: a NULL or freed module is a fault. *)
Definition load_next (h : heap) (p : ptr) : result ptr :=
  match p with
  | None => Crash NullDeref
  | Some i =>
      if bool_decide (i ∈ freed h) then Crash OutOfBounds
      else match next_of h !! i with Some q => Ok q | None => Crash OutOfBounds end
  end.

Definition ts_attach (ts : tsdev) (h : heap) (info : nat) : tsdev * heap :=
  (set_list ts (Some info), set_next h info (list_ ts)).

(** The loop of [__ts_attach_raw]: it returns the final value of [prev], which
    is always that of [next]. *)
Fixpoint raw_loop (fuel : nat) (h : heap) (next prev_list : ptr) : result ptr :=
  if bool_decide (next = None) || bool_decide (next = prev_list) then Ok next else
  match fuel with
  | O => Crash OutOfFuel
  | S fuel => next' ← load_next h next; raw_loop fuel h next' prev_list
  end.

Definition ts_attach_raw (fuel : nat) (ts : tsdev) (h : heap) (info : nat) : result (tsdev * heap) :=
  let prev_list := list_raw ts in
  let h := set_next h info prev_list in
  let ts := set_list_raw ts (Some info) in
  if bool_decide (list_ ts = None) || bool_decide (list_ ts = prev_list)
  then Ok (set_list ts (Some info), h) else
  prev ← raw_loop fuel h (list_ ts) prev_list;
  match prev with
  | None => Crash NullDeref
  | Some i => Ok (ts, set_next h i (Some info))
  end.

(** Frees every module from [info] on. *)
Fixpoint close_loop (fuel : nat) (h : heap) (info : ptr) : result heap :=
  match info with
  | None => Ok h
  | Some i =>
      match fuel with
      | O => Crash OutOfFuel
      | S fuel =>
          next ← load_next h info;
          close_loop fuel (Heap (next_of h) (i :: freed h)) next
      end
  end.

(** [close_result] is what close() returns for the descriptor. *)
Definition ts_close (fuel : nat) (ts : tsdev) (h : heap) (close_result : Z) : result (heap * Z) :=
  h ← close_loop fuel h (list_ ts); Ok (h, close_result).

(** enum ts_param with its arguments *)
Inductive ts_param := TS_SCREEN_RES (w h : Z) | TS_SCREEN_ROT (r : Z).

Definition ts_option (ts : tsdev) (param : ts_param) : tsdev * Z :=
  match param with
  | TS_SCREEN_RES w h => (TsDev (fd ts) (list_ ts) (list_raw ts) (u32 w) (u32 h) (rotation ts), 0)
  | TS_SCREEN_ROT r => (TsDev (fd ts) (list_ ts) (list_raw ts) (res_x ts) (res_y ts) r, 0)
  end.

(** ** Module parameters *)

Definition BUF_SIZE : nat := 1024.

(** struct tslib_vars: a name and the function that takes the text after the
    equals sign, NULL when there is none. *)
Definition tslib_var (M : Type) : Type := list Z * (M → option (list Z) → result (M * Z)).

(** [strchr(p, '=')] and the split at it. *)
Fixpoint split_eq (p : list Z) : list Z * option (list Z) :=
  match p with
  | [] => ([], None)
  | c :: r =>
      if c =? 61 then ([], Some r)
      else let '(name, eq) := split_eq r in (c :: name, eq)
  end.

Definition find_var {M} (vars : list (tslib_var M)) (name : list Z)
    : option (M → option (list Z) → result (M * Z)) :=
  snd <$> List.find (λ v, strcaseeq v.1 name) vars.

Fixpoint parse_loop {M} (fuel : nat) (vars : list (tslib_var M)) (s : option (list Z)) (mod_ : M)
    (ret : Z) : result (M * Z) :=
  match strsep [32; 9] s with
  | (None, _) => Ok (mod_, ret)
  | (Some p, rest) =>
      if negb (ret =? 0) then Ok (mod_, ret) else
      match fuel with
      | O => Crash OutOfFuel
      | S fuel =>
          let '(name, eq) := split_eq p in
          match find_var vars name with
          | None => parse_loop fuel vars rest mod_ ret
          | Some fn => r ← fn mod_ eq; parse_loop fuel vars rest r.1 r.2
          end
      end
  end.

(** [str] is the parameter string, [None] for NULL; each token takes at least
    its separator, so the length of the text bounds the loop. *)
Definition tslib_parse_vars {M} (mod_ : M) (vars : list (tslib_var M)) (str : option (list Z))
    : result (M * Z) :=
  match str with
  | None => Ok (mod_, 0)
  | Some s =>
      let s_holder := take (BUF_SIZE - 1) s in
      parse_loop (S (length s_holder)) vars (Some s_holder) mod_ 0
  end.

(** [strtoul(str, NULL, 0)] with the test for overflow; [stale] says whether
    errno was ERANGE before the call, which strtoul does not clear. *)
Definition strtoul_checked (stale : bool) (str : option (list Z)) : result (option Z) :=
  match str with
  | None => Crash NullDeref
  | Some s =>
      let '(v, erange) := strtoul 0 s in
      Ok (if (v =? ULONG_MAX) && (erange || stale) then None else Some v)
  end.

(** *** Tokens of a parameter string *)

(** A token of the parameter string. *)
Definition is_token (t : list Z) : Prop := Forall (λ c, c ≠ 32 ∧ c ≠ 9) t.

(** The tokens separated by single spaces. *)
Fixpoint join (ts : list (list Z)) : list Z :=
  match ts with
  | [] => []
  | [t] => t
  | t :: ts => t ++ 32 :: join ts
  end.

(** The setters named by the tokens, one after another, up to the first error. *)
Fixpoint apply_tokens {M} (vars : list (tslib_var M)) (ts : list (list Z)) (mod_ : M) : result (M * Z) :=
  match ts with
  | [] => Ok (mod_, 0)
  | t :: ts =>
      match find_var vars (split_eq t).1 with
      | None => apply_tokens vars ts mod_
      | Some fn => r ← fn mod_ (split_eq t).2; if r.2 =? 0 then apply_tokens vars ts r.1 else Ok r
      end
  end.

Lemma strsep_split_token t : is_token t → strsep_split [32; 9] t = (t, None).
Proof.
  induction 1 as [|c t [H1 H2] _ IH]; [done|]. cbn [strsep_split].
  unfold is_delim. rewrite bool_decide_false by set_solver. by rewrite IH.
Qed.

Lemma strsep_split_space t r : is_token t → strsep_split [32; 9] (t ++ 32 :: r) = (t, Some r).
Proof.
  induction 1 as [|c t [H1 H2] _ IH]; [done|]. cbn [app strsep_split].
  unfold is_delim. rewrite bool_decide_false by set_solver. by rewrite IH.
Qed.

Lemma parse_loop_error {M} fuel (vars : list (tslib_var M)) s mod_ ret : ret ≠ 0 →
  parse_loop fuel vars s mod_ ret = Ok (mod_, ret).
Proof.
  intros Hr. apply Z.eqb_neq in Hr.
  destruct fuel; cbn [parse_loop]; destruct (strsep _ s) as [[p|] rest]; rewrite ?Hr; done.
Qed.

Lemma parse_loop_done {M} fuel (vars : list (tslib_var M)) mod_ ret :
  parse_loop fuel vars None mod_ ret = Ok (mod_, ret).
Proof. by destruct fuel. Qed.

Lemma parse_loop_tokens {M} fuel (vars : list (tslib_var M)) ts mod_ :
  ts ≠ [] → Forall is_token ts → (length (join ts) < fuel)%nat →
  parse_loop fuel vars (Some (join ts)) mod_ 0 = apply_tokens vars ts mod_.
Proof.
  revert fuel mod_. induction ts as [|t ts IH]; intros fuel mod_ Hne Htok Hf; [done|].
  apply Forall_cons in Htok as [Ht Htok]. destruct fuel as [|fuel]; [lia|].
  cbn [parse_loop apply_tokens].
  set (rest := match ts with [] => None | _ => Some (join ts) end).
  assert (strsep [32; 9] (Some (join (t :: ts))) = (Some t, rest)) as ->.
  { unfold strsep, rest. destruct ts as [|t' ts].
    - cbn [join]. by rewrite strsep_split_token.
    - change (join (t :: t' :: ts)) with (t ++ 32 :: join (t' :: ts)). by rewrite strsep_split_space. }
  assert (∀ m, parse_loop fuel vars rest m 0 = apply_tokens vars ts m) as Hrest.
  { intros m. unfold rest. destruct ts as [|t' ts]; [apply parse_loop_done|]. apply IH; [done|done|].
    change (join (t :: t' :: ts)) with (t ++ 32 :: join (t' :: ts)) in Hf.
    rewrite length_app in Hf. cbn [length] in Hf. lia. }
  change (negb (0 =? 0)) with false. cbn match. destruct (split_eq t) as [name eq]. cbn [fst snd].
  destruct (find_var vars name) as [fn|]; [|apply Hrest].
  destruct (fn mod_ eq) as [[m r]|]; [|done]. cbn [mbind result_bind fst snd].
  destruct (Z.eqb_spec r 0) as [-> |Hr]; [apply Hrest|]. by apply parse_loop_error.
Qed.

(** Within the size of its buffer, the parser applies the setters of the tokens. *)
Lemma parse_vars_run {M} (mod_ : M) vars ts :
  ts ≠ [] → Forall is_token ts → (length (join ts) < BUF_SIZE)%nat →
  tslib_parse_vars mod_ vars (Some (join ts)) = apply_tokens vars ts mod_.
Proof.
  intros Hne Htok Hl. unfold tslib_parse_vars.
  rewrite take_ge by (unfold BUF_SIZE in *; lia). apply parse_loop_tokens; [done|done|lia].
Qed.

(** A setting: a name, the equals sign and a decimal number. *)
Definition setting (name : string) (v : Z) : list Z := lit name ++ 61 :: print_u 10 v.

Lemma split_eq_app name r : 61 ∉ name → split_eq (name ++ 61 :: r) = (name, Some r).
Proof.
  induction name as [|c name IH]; intros Hc; [done|]. cbn [app split_eq].
  rewrite not_elem_of_cons in Hc. destruct Hc as [Hc Hn].
  rewrite (proj2 (Z.eqb_neq c 61)) by done. by rewrite (IH Hn).
Qed.

Lemma split_eq_none name : 61 ∉ name → split_eq name = (name, None).
Proof.
  induction name as [|c name IH]; intros Hc; [done|]. cbn [app split_eq].
  rewrite not_elem_of_cons in Hc. destruct Hc as [Hc Hn].
  rewrite (proj2 (Z.eqb_neq c 61)) by done. by rewrite (IH Hn).
Qed.

Lemma setting_token name v : is_token (lit name) → 0 <= v → is_token (setting name v).
Proof.
  intros Hn Hv. apply Forall_app. split; [done|]. constructor; [lia|].
  eapply Forall_impl; [apply (print_u_chars 10 v); lia|]. cbn. lia.
Qed.

Lemma strtoul_checked_print stale v : 0 <= v <= ULONG_MAX →
  strtoul_checked stale (Some (print_u 10 v)) = Ok (if (v =? ULONG_MAX) && stale then None else Some v).
Proof.
  intros Hv. unfold strtoul_checked. rewrite <- (app_nil_r (print_u 10 v)), strtoul_print by done. done.
Qed.

Lemma setting_length name v : (length (setting name v) <= length (lit name) + 13)%nat.
Proof. unfold setting. rewrite length_app. cbn [length]. pose proof (print_u_length 10 v). lia. Qed.

(** ** Lists of modules *)

(** Following [next] from [p] visits the modules [l], in order, and ends at
    the pointer [e]. *)
Fixpoint path (h : heap) (p : ptr) (l : list nat) (e : ptr) : Prop :=
  match l with
  | [] => p = e
  | i :: l => p = Some i ∧ ∃ q, next_of h !! i = Some q ∧ path h q l e
  end.

(** A NULL-terminated list. *)
Definition chain (h : heap) (p : ptr) (l : list nat) : Prop := path h p l None.

Lemma load_next_ok h i q : i ∉ freed h → next_of h !! i = Some q → load_next h (Some i) = Ok q.
Proof. intros Hf Hn. unfold load_next. by rewrite bool_decide_false, Hn. Qed.

Lemma path_frame h h' p l e :
  (∀ i, i ∈ l → next_of h' !! i = next_of h !! i) → path h p l e → path h' p l e.
Proof.
  revert p. induction l as [|i l IH]; intros p Hf; cbn; [done|].
  intros (-> & q & Hq & Hc). split; [done|]. exists q. rewrite Hf by set_solver.
  split; [done|]. apply IH; [|done]. intros. apply Hf. set_solver.
Qed.

Lemma path_app h p l l' e : path h p (l ++ l') e ↔ ∃ q, path h p l q ∧ path h q l' e.
Proof.
  revert p. induction l as [|i l IH]; intros p; cbn; [naive_solver|].
  setoid_rewrite IH. naive_solver.
Qed.

(** The loop of [__ts_attach_raw] stops at the old raw module, if it is in the
    list, and otherwise at the end. *)
Lemma raw_loop_stop fuel h p l prev_list :
  path h p l prev_list → (∀ i, i ∈ l → i ∉ freed h ∧ prev_list ≠ Some i) → (length l <= fuel)%nat →
  raw_loop fuel h p prev_list = Ok prev_list.
Proof.
  revert p l. induction fuel as [|fuel IH]; intros p l Hc Hf Hl; destruct l as [|i l];
    cbn in Hc, Hl; try lia.
  - subst p. cbn [raw_loop]. by rewrite (bool_decide_true (prev_list = prev_list)), orb_true_r.
  - subst p. cbn [raw_loop]. by rewrite (bool_decide_true (prev_list = prev_list)), orb_true_r.
  - destruct Hc as (-> & q & Hq & Hc). cbn [raw_loop].
    destruct (Hf i ltac:(set_solver)) as [Hfi Hne].
    rewrite !bool_decide_false by congruence. cbn [orb].
    rewrite (load_next_ok h i q) by done. cbn [mbind result_bind].
    eapply (IH q l); [done|set_solver|lia].
Qed.

(** Closing frees the modules of a list in order. *)
Lemma close_loop_path fuel h p l e :
  path h p l e → NoDup l → (∀ i, i ∈ l → i ∉ freed h) →
  close_loop (length l + fuel) h p = close_loop fuel (Heap (next_of h) (rev l ++ freed h)) e.
Proof.
  revert h p. induction l as [|i l IH]; intros h p Hc Hnd Hf; cbn in Hc.
  { subst p. destruct h. reflexivity. }
  destruct Hc as (-> & q & Hq & Hc). apply NoDup_cons in Hnd as [Hi Hnd].
  cbn [length Nat.add close_loop].
  rewrite (load_next_ok h i q) by (done || set_solver). cbn [mbind result_bind].
  rewrite IH; [|eapply path_frame; [|exact Hc]; done|done|set_solver].
  cbn [next_of freed rev]. by rewrite <- app_assoc.
Qed.

Lemma close_loop_chain fuel h p l :
  chain h p l → NoDup l → (∀ i, i ∈ l → i ∉ freed h) → (length l <= fuel)%nat →
  close_loop fuel h p = Ok (Heap (next_of h) (rev l ++ freed h)).
Proof.
  intros Hc Hnd Hf Hl. replace fuel with (length l + (fuel - length l))%nat by lia.
  rewrite (close_loop_path _ _ _ _ _ Hc Hnd Hf). by destruct (fuel - length l)%nat.
Qed.

(** After attaching a second raw module the list runs through the old raw
    module and the new one back to the old one. *)
Lemma attach_raw_cycle ts h l a info fuel :
  l ≠ [] → list_raw ts = Some a → chain h (list_ ts) (l ++ [a]) → NoDup (info :: l ++ [a]) →
  (∀ i, i ∈ info :: l ++ [a] → i ∉ freed h) → (length l <= fuel)%nat →
  ∃ ts' h', ts_attach_raw fuel ts h info = Ok (ts', h') ∧ freed h' = freed h ∧
    path h' (list_ ts') (l ++ [a; info]) (Some a).
Proof.
  intros Hl Hraw Hc Hnd Hf Hfuel. apply NoDup_cons in Hnd as [Hinfo Hnd].
  apply path_app in Hc as (q & Hc & (-> & e & Ha & _)).
  pose proof Hnd as (_ & Hla & _)%NoDup_app.
  unfold ts_attach_raw. cbn [list_ set_list_raw]. rewrite Hraw.
  assert (list_ ts ≠ None ∧ list_ ts ≠ Some a) as [Hn1 Hn2].
  { destruct l as [|i l]; [done|]. destruct Hc as (-> & _). split; [done|]. set_solver. }
  rewrite !bool_decide_false by done. cbn [orb].
  assert (path (set_next h info (Some a)) (list_ ts) l (Some a)) as Hc1.
  { eapply path_frame; [|done]. intros j Hj. apply lookup_insert_ne. set_solver. }
  rewrite (raw_loop_stop _ _ _ _ _ Hc1) by (done || set_solver).
  cbn [mbind result_bind]. eexists _, _. split; [done|]. split; [done|].
  assert (a ≠ info) by set_solver. cbn [list_ set_list_raw].
  apply path_app. exists (Some a). split.
  - eapply path_frame; [|exact Hc1]. intros j Hj. apply lookup_insert_ne. set_solver.
  - split; [done|]. eexists. split; [apply lookup_insert_eq|]. split; [done|]. eexists. split; [|done].
    cbn. rewrite lookup_insert_ne, lookup_insert_eq by done. by rewrite ?Hraw.
Qed.

(** ** Claims *)

(** Attaching a module puts it in front of the modules of the device, and
    closing a device whose modules form a list frees every one of them exactly
    once, in order, without touching freed memory, within as many steps as
    there are modules. *)
Theorem attach_and_close ts h l info fuel r :
  chain h (list_ ts) l → NoDup (info :: l) → (∀ i, i ∈ info :: l → i ∉ freed h) →
  (S (length l) <= fuel)%nat →
  let '(ts', h') := ts_attach ts h info in
  chain h' (list_ ts') (info :: l) ∧
  ∃ h'', ts_close fuel ts' h' r = Ok (h'', r) ∧ freed h'' = rev (info :: l) ++ freed h.
Proof.
  intros Hc Hnd Hf Hfuel. cbn [ts_attach]. pose proof Hnd as [Hi _]%NoDup_cons.
  assert (chain (set_next h info (list_ ts)) (Some info) (info :: l)) as Hc'.
  { split; [done|]. exists (list_ ts). split; [by apply lookup_insert_eq|].
    eapply path_frame; [|done]. intros j Hj. apply lookup_insert_ne. set_solver. }
  split; [done|]. unfold ts_close. cbn [list_ set_list].
  rewrite (close_loop_chain fuel _ _ _ Hc'); [|done|done|done]. eexists. split; [done|]. done.
Qed.

(** Attaching a second raw module below normal modules: the loop that looks for
    the last normal module advances [prev] together with [next], so it ends at
    the old raw module and links it to the new one, which already points back
    to it.  The list of the device becomes cyclic and closing the device uses
    freed memory.  Without an earlier raw module the loop ends at NULL and
    dereferences it. *)
Theorem attach_raw_breaks_the_list ts h l a info fuel fuel' r :
  (l ≠ [] → list_raw ts = Some a → chain h (list_ ts) (l ++ [a]) → NoDup (info :: l ++ [a]) →
   (∀ i, i ∈ info :: l ++ [a] → i ∉ freed h) → (length l <= fuel)%nat → (length l + 3 <= fuel')%nat →
   ∃ ts' h', ts_attach_raw fuel ts h info = Ok (ts', h') ∧
     next_of h' !! a = Some (Some info) ∧ next_of h' !! info = Some (Some a) ∧
     ts_close fuel' ts' h' r = Crash OutOfBounds) ∧
  (l ≠ [] → list_raw ts = None → chain h (list_ ts) l → NoDup (info :: l) →
   (∀ i, i ∈ l → i ∉ freed h) → (length l <= fuel)%nat →
   ts_attach_raw fuel ts h info = Crash NullDeref).
Proof.
  split; intros Hl Hraw Hc Hnd Hf Hfuel.
  - intros Hfuel'. destruct (attach_raw_cycle ts h l a info fuel) as (ts' & h' & E & Hfr & Hp); try done.
    exists ts', h'. split; [done|].
    pose proof Hp as (q & _ & -> & n1 & Hna & -> & n2 & Hni & ->)%path_app.
    split; [done|]. split; [done|]. unfold ts_close.
    replace fuel' with (length (l ++ [a; info]) + S (fuel' - length l - 3))%nat
      by (rewrite length_app; cbn; lia).
    apply NoDup_cons in Hnd as [Hinfo (Hnl & Hla & _)%NoDup_app].
    rewrite (close_loop_path _ _ _ _ _ Hp).
    + cbn [close_loop]. unfold load_next. rewrite bool_decide_true; [done|]. cbn [freed].
      apply elem_of_app. left. apply list_elem_of_In, in_rev. rewrite rev_involutive.
      apply list_elem_of_In. set_solver.
    + apply NoDup_app. split; [done|]. split; [set_solver|].
      apply NoDup_cons. split; [set_solver|]. apply NoDup_singleton.
    + rewrite Hfr. set_solver.
  - apply NoDup_cons in Hnd as [Hinfo Hnd].
    unfold ts_attach_raw. cbn [list_ set_list_raw]. rewrite Hraw.
    assert (list_ ts ≠ None) as Hn1.
    { destruct l as [|i l]; [done|]. by destruct Hc as (-> & _). }
    rewrite !bool_decide_false by done. cbn [orb].
    assert (path (set_next h info None) (list_ ts) l None) as Hc1.
    { eapply path_frame; [|done]. intros j Hj. apply lookup_insert_ne. set_solver. }
    rewrite (raw_loop_stop _ _ _ _ _ Hc1) by (done || set_solver). done.
Qed.

(** The parameter parser on any list of tokens that fits its buffer: it returns
    (the fuel, one more than the length of the text, is enough) and has the
    effect of calling the setters the tokens name, in order, up to the first
    error; tokens with an unknown name are skipped. *)
Theorem parse_vars_applies_tokens {M} (mod_ : M) vars ts :
  ts ≠ [] → Forall is_token ts → (length (join ts) < BUF_SIZE)%nat →
  tslib_parse_vars mod_ vars (Some (join ts)) = apply_tokens vars ts mod_.
Proof. apply parse_vars_run. Qed.

(** ** Witnesses *)

(** Module 1 is a raw module, module 2 a filter above it. *)
Definition two_modules : tsdev * heap :=
  (TsDev 3 (Some 2%nat) (Some 1%nat) 320 240 0,
   Heap (<[2%nat := Some 1%nat]> {[ 1%nat := None ]}) []).

Lemma attach_and_close_witness :
  let '(ts', h') := ts_attach two_modules.1 two_modules.2 7 in
  ∃ h'', ts_close 9 ts' h' 0 = Ok (h'', 0) ∧ freed h'' = [1; 2; 7]%nat.
Proof.
  destruct (attach_and_close two_modules.1 two_modules.2 [2; 1]%nat 7 9 0) as (_ & h'' & H & Hf).
  - split; [reflexivity|]. exists (Some 1%nat). split; [reflexivity|]. split; [reflexivity|].
    exists None. split; reflexivity.
  - apply (bool_decide_unpack _). vm_compute. exact I.
  - cbn. intros. apply not_elem_of_nil.
  - cbn. lia.
  - exists h''. split; [exact H|exact Hf].
Defined.

Lemma attach_raw_breaks_the_list_witness :
  ∃ ts' h', ts_attach_raw 5 two_modules.1 two_modules.2 7 = Ok (ts', h') ∧
    next_of h' !! 1%nat = Some (Some 7%nat) ∧ next_of h' !! 7%nat = Some (Some 1%nat) ∧
    ts_close 9 ts' h' 0 = Crash OutOfBounds.
Proof.
  destruct (attach_raw_breaks_the_list two_modules.1 two_modules.2 [2]%nat 1 7 5 9 0) as [H _].
  apply H.
  - discriminate.
  - reflexivity.
  - split; [reflexivity|]. exists (Some 1%nat). split; [reflexivity|]. split; [reflexivity|].
    exists None. split; reflexivity.
  - apply (bool_decide_unpack _). vm_compute. exact I.
  - cbn. intros. apply not_elem_of_nil.
  - cbn. lia.
  - cbn. lia.
Defined.

(** A module of one number; the setter reads the text after the equals sign. *)
Definition one_var : list (tslib_var Z) :=
  [(lit "delta", λ _ str, v ← strtoul_checked false str; Ok (default 0 v, 0))].

Lemma parse_vars_applies_tokens_witness :
  tslib_parse_vars 0 one_var (Some (lit "unknown DELTA=0x2a delta=7")) =
    apply_tokens one_var [lit "unknown"; lit "DELTA=0x2a"; lit "delta=7"] 0 ∧
  tslib_parse_vars 0 one_var (Some (lit "unknown DELTA=0x2a delta=7")) = Ok (7, 0).
Proof.
  split; [|vm_compute; reflexivity].
  apply (parse_vars_applies_tokens 0 one_var [lit "unknown"; lit "DELTA=0x2a"; lit "delta=7"]).
  - discriminate.
  - apply (bool_decide_unpack _). vm_compute. exact I.
  - vm_compute. lia.
Defined.
