(* ===== verification/FbUtils.v ===== *)
(** * FbUtils: drawing in the frame buffer

    Models src/tslib-1.1/tests/fbutils.c, the drawing functions of the test
    programs of the touch-screen library: single pixels, lines, rectangles,
    crosses and text in a frame buffer of any pixel size, with the exclusive-or
    mode in which drawing the same thing again removes it. *)
From S2P Require Import Prelude LibC Bytes.
Local Open Scope cmodel_scope.
Local Open Scope Z_scope.

(** ** Data *)

(** What the functions use of [fix], [var] and the globals next to them; the
    memory of the frame buffer is a list of bytes. *)
Record screen := Screen {
  xres : Z; yres : Z; xres_virtual : Z; yres_virtual : Z; line_length : Z; bytes_per_pixel : Z;
  red_offset : Z; red_length : Z; green_offset : Z; green_length : Z; blue_offset : Z; blue_length : Z }.

Definition XORMODE : Z := 0x80000000.
Definition xor_flag (colidx : Z) : bool := Z.testbit colidx 31.
Definition color_index (colidx : Z) : Z := Z.land colidx (Z.ones 31).

(** The colour of an entry of the palette. *)
Definition setcolor (s : screen) (colormap : list Z) (colidx value : Z) : result (list Z) :=
  let part len off c := Z.shiftl (Z.shiftr c (8 - len)) off in
  if (bytes_per_pixel s =? 2) || (bytes_per_pixel s =? 3) || (bytes_per_pixel s =? 4)
  then
    if (8 <? red_length s) || (8 <? green_length s) || (8 <? blue_length s) then Crash NoValue else
    wr colormap colidx (u32 (Z.lor (Z.lor
      (part (red_length s) (red_offset s) (Z.land (Z.shiftr value 16) 0xFF))
      (part (green_length s) (green_offset s) (Z.land (Z.shiftr value 8) 0xFF)))
      (part (blue_length s) (blue_offset s) (Z.land value 0xFF))))
  else wr colormap colidx colidx.

Definition font_height : Z := 8.
Definition font_width : Z := 8.

(** ** Drawing *)

Section draw.
Context (s : screen) (colormap font : list Z).

Definition line_addr (y : Z) : result Z :=
  if (0 <=? y) && (y <? yres_virtual s) then Ok (y * line_length s) else Crash OutOfBounds.

(** [*p ^= c] and [*p = c] for a word of [n] bytes. *)
Definition put_word (n : nat) (m : list Z) (loc : Z) (xormode : bool) (c : Z) : result (list Z) :=
  let old := sub_bytes m loc (Z.of_nat n) in
  blit m loc (le_bytes n (if xormode then Z.lxor (le_val old) c else c)).

Definition setpixel (m : list Z) (loc : Z) (xormode : bool) (color : Z) : result (list Z) :=
  if bytes_per_pixel s =? 2 then put_word 2 m loc xormode color
  else if bytes_per_pixel s =? 3 then
    m ← put_word 1 m loc xormode (Z.land (Z.shiftr color 16) 0xFF);
    m ← put_word 1 m (loc + 1) xormode (Z.land (Z.shiftr color 8) 0xFF);
    put_word 1 m (loc + 2) xormode (Z.land color 0xFF)
  else if bytes_per_pixel s =? 4 then put_word 4 m loc xormode color
  else put_word 1 m loc xormode color.

Definition pixel (x y colidx : Z) (m : list Z) : result (list Z) :=
  if (x <? 0) || (xres_virtual s <=? x) || (y <? 0) || (yres_virtual s <=? y) then Ok m else
  a ← line_addr y;
  c ← rd colormap (color_index colidx);
  setpixel m (a + x * bytes_per_pixel s) (xor_flag colidx) c.

(** The loops of [line]: one pixel for every row, or for every column; the other
    coordinate is a fixed-point number.  The counters are ints: no int is above
    a bound of INT_MAX, and with it the loop has no end. *)
Fixpoint row_loop (fuel : nat) (x1 y1 y2 dx colidx : Z) (m : list Z) : result (list Z) :=
  if y1 <=? y2 then
    match fuel with
    | O => Crash OutOfFuel
    | S fuel => m ← pixel (Z.shiftr x1 16) y1 colidx m; row_loop fuel (s32 (x1 + dx)) (s32 (y1 + 1)) y2 dx colidx m
    end
  else Ok m.
Fixpoint column_loop (fuel : nat) (x1 y1 x2 dy colidx : Z) (m : list Z) : result (list Z) :=
  if x1 <=? x2 then
    match fuel with
    | O => Crash OutOfFuel
    | S fuel => m ← pixel x1 (Z.shiftr y1 16) colidx m; column_loop fuel (s32 (x1 + 1)) (s32 (y1 + dy)) x2 dy colidx m
    end
  else Ok m.

Definition fixed (z : Z) : Z := s32 (Z.shiftl z 16).

(** The fuel is the number of points; it is enough where the loop ends at all. *)
Definition line (x1 y1 x2 y2 colidx : Z) (m : list Z) : result (list Z) :=
  let '(dx, dy) := (s32 (x2 - x1), s32 (y2 - y1)) in
  if Z.abs dx <? Z.abs dy then
    let '(x1, y1, x2, y2, dx, dy) :=
      if y2 <? y1 then (x2, y2, x1, y1, s32 (- dx), s32 (- dy)) else (x1, y1, x2, y2, dx, dy) in
    row_loop (Z.to_nat (y2 - y1 + 1)) (fixed x1) y1 y2 (Z.quot (fixed dx) dy) colidx m
  else
    let '(x1, y1, x2, y2, dx, dy) :=
      if x2 <? x1 then (x2, y2, x1, y1, s32 (- dx), s32 (- dy)) else (x1, y1, x2, y2, dx, dy) in
    column_loop (Z.to_nat (x2 - x1 + 1)) x1 (fixed y1) x2 (if dx =? 0 then 0 else Z.quot (fixed dy) dx) colidx m.

Definition rect (x1 y1 x2 y2 colidx : Z) (m : list Z) : result (list Z) :=
  m ← line x1 y1 x2 y1 colidx m;
  m ← line x2 y1 x2 y2 colidx m;
  m ← line x2 y2 x1 y2 colidx m;
  line x1 y2 x1 y1 colidx m.

(** One coordinate of [fillrect]; [res] is unsigned. *)
Definition clamp (z res : Z) : Z :=
  let z := if z <? 0 then 0 else z in if res <=? z then s32 (res - 1) else z.

Fixpoint fill_row (n : nat) (loc : Z) (xormode : bool) (color : Z) (m : list Z) : result (list Z) :=
  match n with
  | O => Ok m
  | S n => m ← setpixel m loc xormode color; fill_row n (loc + bytes_per_pixel s) xormode color m
  end.
Fixpoint fill_rows (n : nat) (x1 y1 x2 : Z) (xormode : bool) (color : Z) (m : list Z) : result (list Z) :=
  match n with
  | O => Ok m
  | S n =>
      a ← line_addr y1;
      m ← fill_row (Z.to_nat (x2 - x1 + 1)) (a + x1 * bytes_per_pixel s) xormode color m;
      fill_rows n x1 (y1 + 1) x2 xormode color m
  end.

Definition fillrect (x1 y1 x2 y2 colidx : Z) (m : list Z) : result (list Z) :=
  let '(x1, x2) := if x2 <? x1 then (x2, x1) else (x1, x2) in
  let '(y1, y2) := if y2 <? y1 then (y2, y1) else (y1, y2) in
  let '(x1, x2, y1, y2) := (clamp x1 (xres s), clamp x2 (xres s), clamp y1 (yres s), clamp y2 (yres s)) in
  if (x2 <? x1) || (y2 <? y1) then Ok m else
  c ← rd colormap (color_index colidx);
  fill_rows (Z.to_nat (y2 - y1 + 1)) x1 y1 x2 (xor_flag colidx) c m.

(** *** Crosses and text *)

Definition put_cross (x y colidx : Z) (m : list Z) : result (list Z) :=
  let c1 := u32 (colidx + 1) in
  m ← line (x - 10) y (x - 2) y colidx m;
  m ← line (x + 2) y (x + 10) y colidx m;
  m ← line x (y - 10) x (y - 2) colidx m;
  m ← line x (y + 2) x (y + 10) colidx m;
  m ← line (x - 6) (y - 9) (x - 9) (y - 9) c1 m;
  m ← line (x - 9) (y - 8) (x - 9) (y - 6) c1 m;
  m ← line (x - 9) (y + 6) (x - 9) (y + 9) c1 m;
  m ← line (x - 8) (y + 9) (x - 6) (y + 9) c1 m;
  m ← line (x + 6) (y + 9) (x + 9) (y + 9) c1 m;
  m ← line (x + 9) (y + 8) (x + 9) (y + 6) c1 m;
  m ← line (x + 9) (y - 6) (x + 9) (y - 9) c1 m;
  line (x + 8) (y - 9) (x + 6) (y - 9) c1 m.

Fixpoint char_row (n : nat) (x y bits colidx : Z) (m : list Z) : result (list Z) :=
  match n with
  | O => Ok m
  | S n =>
      m ← (if Z.land bits 0x80 =? 0 then Ok m else pixel x y colidx m);
      char_row n (s32 (x + 1)) y (s32 (Z.shiftl bits 1)) colidx m
  end.
Fixpoint char_rows (n : nat) (i x y c colidx : Z) (m : list Z) : result (list Z) :=
  match n with
  | O => Ok m
  | S n =>
      bits ← rd font (font_height * c + i);
      m ← char_row (Z.to_nat font_width) x (s32 (y + i)) bits colidx m;
      char_rows n (i + 1) x y c colidx m
  end.
Definition put_char (x y c colidx : Z) (m : list Z) : result (list Z) :=
  char_rows (Z.to_nat font_height) 0 x y c (s32 colidx) m.

Fixpoint put_string (x y : Z) (str : list Z) (colidx : Z) (m : list Z) : result (list Z) :=
  match str with
  | [] => Ok m
  | c :: str => m ← put_char x y c colidx m; put_string (s32 (x + font_width)) y str colidx m
  end.

Definition put_string_center (x y : Z) (str : list Z) (colidx : Z) (m : list Z) : result (list Z) :=
  put_string (s32 (u32 (x - Z.of_nat (length str) / 2 * font_width))) (s32 (y - font_height / 2)) str colidx m.
End draw.

(** ** Drawings as sequences of dots *)

(** A dot is a position and the colour that is put there. *)
Record dot := Dot { dot_x : Z; dot_y : Z; dot_color : Z }.

Section dots.
Context (s : screen).

Definition location (d : dot) : Z := dot_y d * line_length s + dot_x d * bytes_per_pixel s.
Definition put (xormode : bool) (m : list Z) (d : dot) : result (list Z) := setpixel s m (location d) xormode (dot_color d).
Fixpoint put_all (xormode : bool) (ds : list dot) (m : list Z) : result (list Z) :=
  match ds with
  | [] => Ok m
  | d :: ds => m ← put xormode m d; put_all xormode ds m
  end.

Definition on_screen (d : dot) : Prop := 0 <= dot_x d < xres_virtual s ∧ 0 <= dot_y d < yres_virtual s.

(** A function that draws dots on the screen, the same ones whatever is there. *)
Definition plots (xormode : bool) (f : list Z → result (list Z)) : Prop :=
  ∃ ds, Forall on_screen ds ∧ ∀ m, f m = put_all xormode ds m.

Lemma put_all_app xormode ds1 ds2 m :
  put_all xormode (ds1 ++ ds2) m = m ← put_all xormode ds1 m; put_all xormode ds2 m.
Proof.
  revert m. induction ds1 as [|d ds1 IH]; intros m; cbn [app put_all]; [done|].
  destruct (put xormode m d); cbn; [apply IH|done].
Qed.

Lemma plots_ret xormode : plots xormode (λ m, Ok m).
Proof. by exists []. Qed.

Lemma plots_bind xormode f g : plots xormode f → plots xormode g → plots xormode (λ m, m ← f m; g m).
Proof.
  intros (ds1 & H1 & E1) (ds2 & H2 & E2). exists (ds1 ++ ds2). split; [by apply Forall_app|]. intros m.
  rewrite put_all_app, E1. destruct (put_all xormode ds1 m); cbn; [by rewrite E2|done].
Qed.

Lemma plots_dot xormode d : on_screen d → plots xormode (λ m, put xormode m d).
Proof. intros Hd. exists [d]. split; [by apply Forall_singleton|]. intros m. cbn. by destruct (put xormode m d). Qed.

Lemma plots_if xormode (b : bool) f g : plots xormode f → plots xormode g → plots xormode (λ m, if b then f m else g m).
Proof. by destruct b. Qed.
End dots.

Create HintDb plots.
#[export] Hint Resolve plots_ret plots_bind plots_if : plots.

Section functions.
Context (s : screen) (colormap font : list Z).

(** A colour of the palette, with or without the exclusive-or mode. *)
Definition has_color (colidx : Z) : Prop := color_index colidx < Z.of_nat (length colormap).

Lemma color_found colidx : has_color colidx → ∃ c, rd colormap (color_index colidx) = Ok c.
Proof.
  intros Hc. apply rd_is_ok. split; [|done]. unfold color_index. apply Z.land_nonneg. right. done.
Qed.

Lemma plots_pixel x y colidx : has_color colidx → plots s (xor_flag colidx) (pixel s colormap x y colidx).
Proof.
  intros Hc. destruct (color_found colidx Hc) as [c Ec]. unfold pixel. destruct (_ || _) eqn:E; [apply plots_ret|].
  zcmp. destruct (plots_dot s (xor_flag colidx) (Dot x y c)) as (ds & Hds & Es); [split; cbn; lia|].
  exists ds. split; [done|]. intros m. rewrite <- Es. unfold line_addr.
  rewrite (proj2 (Z.leb_le 0 y)), (proj2 (Z.ltb_lt y _)) by lia. cbn [andb mbind result_bind]. by rewrite Ec.
Qed.

(** An int that is not the largest one: a loop up to it ends. *)
Definition has_next (z : Z) : Prop := -2147483648 <= z < 2147483647.

Lemma plots_row_loop n dx y2 colidx : has_color colidx → has_next y2 → ∀ x1 y1, -2147483648 <= y1 → y2 + 1 - y1 <= Z.of_nat n →
  plots s (xor_flag colidx) (row_loop s colormap n x1 y1 y2 dx colidx).
Proof.
  intros Hc [_ Hy2]. induction n as [|n IH]; intros x1 y1 Hy1 Hn; cbn [row_loop]; destruct (Z.leb_spec y1 y2); try apply plots_ret; [lia|].
  apply plots_bind; [by apply plots_pixel|]. rewrite (s32_id (y1 + 1)) by (unfold is_s32; lia). apply IH; lia.
Qed.

Lemma plots_column_loop n dy x2 colidx : has_color colidx → has_next x2 → ∀ x1 y1, -2147483648 <= x1 → x2 + 1 - x1 <= Z.of_nat n →
  plots s (xor_flag colidx) (column_loop s colormap n x1 y1 x2 dy colidx).
Proof.
  intros Hc [_ Hx2]. induction n as [|n IH]; intros x1 y1 Hx1 Hn; cbn [column_loop]; destruct (Z.leb_spec x1 x2); try apply plots_ret; [lia|].
  apply plots_bind; [by apply plots_pixel|]. rewrite (s32_id (x1 + 1)) by (unfold is_s32; lia). apply IH; lia.
Qed.

(** A line to the largest int has no end, with any fuel. *)
Lemma row_loop_never_ends dx colidx fuel : ∀ x1 y1 m, is_s32 y1 → ∃ c, row_loop s colormap fuel x1 y1 2147483647 dx colidx m = Crash c.
Proof.
  induction fuel as [|fuel IH]; intros x1 y1 m Hy; cbn [row_loop]; rewrite (proj2 (Z.leb_le _ _)) by (unfold is_s32 in Hy; lia); [by eexists|].
  destruct (pixel _ _ _ _ _ _) as [m'|]; [|by eexists]. cbn [mbind result_bind]. apply IH, s32_range.
Qed.

Lemma plots_line x1 y1 x2 y2 colidx : has_color colidx → has_next x1 → has_next y1 → has_next x2 → has_next y2 →
  plots s (xor_flag colidx) (line s colormap x1 y1 x2 y2 colidx).
Proof.
  intros Hc Hx1 Hy1 Hx2 Hy2. unfold line. unfold has_next in *. destruct (_ <? _); [destruct (y2 <? y1)|destruct (x2 <? x1)];
    first [apply plots_row_loop|apply plots_column_loop]; unfold has_next; done || lia.
Qed.

Lemma plots_rect x1 y1 x2 y2 colidx : has_color colidx → has_next x1 → has_next y1 → has_next x2 → has_next y2 →
  plots s (xor_flag colidx) (rect s colormap x1 y1 x2 y2 colidx).
Proof. intros Hc ????. unfold rect. repeat apply plots_bind; by apply plots_line. Qed.

(** Far enough from the ends of the ints for every drawing. *)
Definition in_reach (z : Z) : Prop := -1073741824 <= z < 1073741824.

Lemma reach_next z : in_reach z → has_next z.
Proof. unfold in_reach, has_next. lia. Qed.

Lemma plots_put_cross x y colidx : has_color colidx → has_color (u32 (colidx + 1)) → in_reach x → in_reach y →
  xor_flag (u32 (colidx + 1)) = xor_flag colidx → plots s (xor_flag colidx) (put_cross s colormap x y colidx).
Proof.
  intros Hc Hc1 Hx Hy Ex. unfold put_cross, in_reach in *.
  repeat apply plots_bind; first [apply plots_line|rewrite <- Ex; apply plots_line]; unfold has_next; done || lia.
Qed.

Lemma plots_char_row n y colidx : has_color colidx → ∀ x bits, plots s (xor_flag colidx) (char_row s colormap n x y bits colidx).
Proof.
  intros Hc. induction n; intros; cbn [char_row]; [apply plots_ret|]. apply plots_bind; [|done].
  apply plots_if; [apply plots_ret|by apply plots_pixel].
Qed.

(** The flag and the index only depend on the 32 bits of the number. *)
Lemma xor_flag_u32 z : xor_flag (u32 z) = xor_flag z.
Proof. unfold xor_flag, u32. change 4294967296 with (2 ^ 32). apply Z.mod_pow2_bits_low. lia. Qed.
Lemma color_index_u32 z : color_index (u32 z) = color_index z.
Proof.
  unfold color_index, u32. rewrite !Z.land_ones by lia. change 4294967296 with (2 ^ 31 * 2).
  rewrite Z.rem_mul_r, Z.mul_comm, Z_mod_plus_full by lia. by rewrite Zmod_mod.
Qed.
Lemma xor_flag_s32 z : xor_flag (s32 z) = xor_flag z.
Proof. by rewrite <- xor_flag_u32, u32_s32, xor_flag_u32. Qed.
Lemma color_index_s32 z : color_index (s32 z) = color_index z.
Proof. by rewrite <- color_index_u32, u32_s32, color_index_u32. Qed.

(** The font has a picture of eight bytes for every character. *)
Definition font_ok : Prop := 2048 <= Z.of_nat (length font).

Lemma plots_char_rows n x y c colidx : has_color colidx → font_ok → 0 <= c < 256 → ∀ i, 0 <= i → i + Z.of_nat n <= 8 →
  plots s (xor_flag colidx) (char_rows s colormap font n i x y c colidx).
Proof.
  intros Hc Hf Hc8. unfold font_ok in Hf. induction n as [|n IH]; intros i Hi Hn; cbn [char_rows]; [apply plots_ret|].
  destruct (rd_is_ok font (font_height * c + i)) as [bits Eb]; [unfold font_height; lia|].
  destruct (plots_bind s (xor_flag colidx) (char_row s colormap (Z.to_nat font_width) x (s32 (y + i)) bits colidx)
              (char_rows s colormap font n (i + 1) x y c colidx)) as (ds & Hds & E);
    [by apply plots_char_row|apply IH; lia|].
  exists ds. split; [done|]. intros m. rewrite <- E. by rewrite Eb.
Qed.

Lemma plots_put_char x y c colidx : has_color colidx → font_ok → 0 <= c < 256 →
  plots s (xor_flag colidx) (put_char s colormap font x y c colidx).
Proof.
  intros Hc Hf Hc8. unfold put_char. rewrite <- xor_flag_s32. apply plots_char_rows; try done.
  unfold has_color. by rewrite color_index_s32.
Qed.

Lemma plots_put_string y str colidx : has_color colidx → font_ok → Forall is_u8 str → ∀ x,
  plots s (xor_flag colidx) (put_string s colormap font x y str colidx).
Proof.
  intros Hc Hf. induction 1 as [|c str Hc8 _ IH]; intros x; cbn [put_string]; [apply plots_ret|].
  apply plots_bind; [by apply plots_put_char|apply IH].
Qed.

(** *** Filled rectangles *)

(** The dots of a rectangle, row by row. *)
Definition row_dots (x1 : Z) (n : nat) (y color : Z) : list dot := (λ x, Dot x y color) <$> seqZ x1 (Z.of_nat n).
Definition area_dots (x1 y1 : Z) (n k : nat) (color : Z) : list dot := y ← seqZ y1 (Z.of_nat k); row_dots x1 n y color.

Lemma fill_row_dots n xormode color y : ∀ x1 m,
  fill_row s n (y * line_length s + x1 * bytes_per_pixel s) xormode color m = put_all s xormode (row_dots x1 n y color) m.
Proof.
  unfold row_dots. induction n as [|n IH]; intros x1 m; [done|]. cbn [fill_row]. rewrite seqZ_cons by lia.
  cbn [fmap list_fmap put_all]. unfold put at 1, location at 1. cbn [dot_x dot_y dot_color].
  replace (Z.pred (Z.of_nat (S n))) with (Z.of_nat n) by lia. destruct (setpixel _ _ _ _ _) as [m'|]; [|done]. cbn [mbind result_bind].
  rewrite <- Z.add_1_r, <- IH. f_equal. lia.
Qed.

Lemma fill_rows_dots k x1 x2 xormode color : x1 <= x2 + 1 → ∀ y1 m, 0 <= y1 → y1 + Z.of_nat k <= yres_virtual s →
  fill_rows s k x1 y1 x2 xormode color m = put_all s xormode (area_dots x1 y1 (Z.to_nat (x2 - x1 + 1)) k color) m.
Proof.
  intros Hx. unfold area_dots. induction k as [|k IH]; intros y1 m Hy Hk; [done|]. cbn [fill_rows]. rewrite seqZ_cons by lia.
  unfold line_addr. rewrite (proj2 (Z.leb_le 0 y1)), (proj2 (Z.ltb_lt y1 _)) by lia. cbn [andb mbind list_bind result_bind].
  rewrite put_all_app, fill_row_dots. destruct (put_all _ _ _ m); [|done]. cbn [mbind result_bind].
  replace (Z.pred (Z.of_nat (S k))) with (Z.of_nat k) by lia. rewrite <- Z.add_1_r. apply IH; lia.
Qed.
End functions.

(** ** The exclusive-or mode *)

Definition xor_bytes (m k : list Z) : list Z := zip_with Z.lxor m k.

Lemma xor_zeros l n : length l = n → xor_bytes l (replicate n 0) = l.
Proof. intros <-. unfold xor_bytes. induction l as [|a l IH]; [done|]. cbn. by rewrite Z.lxor_0_r, IH. Qed.

Lemma xor_xor m : ∀ k1 k2, length k1 = length m → length k2 = length m → xor_bytes (xor_bytes m k1) k2 = xor_bytes m (xor_bytes k1 k2).
Proof.
  unfold xor_bytes. induction m as [|a m IH]; intros [|b1 k1] [|b2 k2] H1 H2; try done. cbn in *. rewrite IH by lia. f_equal.
  apply Z.lxor_assoc.
Qed.

Lemma xor_comm k1 : ∀ k2, xor_bytes k1 k2 = xor_bytes k2 k1.
Proof.
  unfold xor_bytes. induction k1 as [|a k1 IH]; intros [|b k2]; [done..|]. cbn. by rewrite IH, Z.lxor_comm.
Qed.

Lemma xor_self m : ∀ k, length k = length m → xor_bytes (xor_bytes m k) k = m.
Proof.
  unfold xor_bytes. induction m as [|a m IH]; intros [|b k] Hk; try done. cbn in *. rewrite IH by lia. f_equal.
  by rewrite Z.lxor_assoc, Z.lxor_nilpotent, Z.lxor_0_r.
Qed.

Lemma xor_u8 a b : is_u8 a → is_u8 b → is_u8 (Z.lxor a b).
Proof.
  intros Ha Hb. unfold is_u8 in *. split; [apply Z.lxor_nonneg; lia|].
  rewrite <- (Z.mod_small a 256), <- (Z.mod_small b 256) by lia. change 256 with (2 ^ 8).
  apply Z.lt_nge. intros Hge. assert (Z.shiftr (Z.lxor (a mod 2 ^ 8) (b mod 2 ^ 8)) 8 = 0) as E.
  { apply Z.bits_inj'. intros n Hn. rewrite Z.shiftr_spec, Z.lxor_spec, !Z.mod_pow2_bits_high, Z.bits_0 by lia. done. }
  rewrite Z.shiftr_div_pow2 in E by lia. apply Z.div_small_iff in E as [|]; lia.
Qed.

Lemma xor_bytes_u8 m : ∀ k, Forall is_u8 m → Forall is_u8 k → Forall is_u8 (xor_bytes m k).
Proof.
  unfold xor_bytes. induction m as [|a m IH]; intros [|b k] Hm Hk; cbn; try constructor;
    apply Forall_cons in Hm as [? ?], Hk as [? ?]; [by apply xor_u8|by apply IH].
Qed.

Lemma length_xor_bytes m k : length k = length m → length (xor_bytes m k) = length m.
Proof. intros. unfold xor_bytes. rewrite length_zip_with. lia. Qed.

(** An exclusive-or of words is one of their bytes. *)
Lemma xor_word n : ∀ old c, length old = n → Forall is_u8 old →
  le_bytes n (Z.lxor (le_val old) c) = xor_bytes old (le_bytes n c).
Proof.
  unfold xor_bytes. induction n as [|n IH]; intros [|b old] c Hl Ho; try done.
  apply Forall_cons in Ho as [Hb Ho]. cbn [le_bytes le_val zip_with]. unfold u8 at 1 2. change 256 with (2 ^ 8). unfold is_u8 in Hb.
  assert ((b + 2 ^ 8 * le_val old) mod 2 ^ 8 = b) as Em.
  { rewrite (Z.mul_comm _ (le_val old)), Z_mod_plus_full. apply Z.mod_small. lia. }
  assert ((b + 2 ^ 8 * le_val old) / 2 ^ 8 = le_val old) as Ed.
  { rewrite (Z.mul_comm _ (le_val old)), Z_div_plus_full by lia. rewrite Z.div_small by lia. done. }
  f_equal.
  - rewrite <- Em at 2. rewrite <- !Z.land_ones by lia. apply Z.bits_inj'. intros i Hi. rewrite !Z.land_spec, !Z.lxor_spec, !Z.land_spec.
    destruct (Z.testbit (Z.ones 8) i); rewrite ?andb_true_r, ?andb_false_r; done.
  - rewrite <- IH by (cbn in Hl; lia || done). f_equal. rewrite <- Ed at 2. rewrite <- !Z.shiftr_div_pow2 by lia.
    by rewrite Z.shiftr_lxor.
Qed.

Section xor.
Context (L : nat).

Definition mem_ok (m : list Z) : Prop := length m = L ∧ Forall is_u8 m.

(** A function that only turns bits over. *)
Definition is_xor (f : list Z → result (list Z)) : Prop :=
  ∃ k, mem_ok k ∧ ∀ m, mem_ok m → f m = Ok (xor_bytes m k).

Lemma is_xor_ret : is_xor (λ m, Ok m).
Proof.
  exists (replicate L 0). split; [split; [apply length_replicate|by apply Forall_replicate]|].
  intros m [Hm _]. by rewrite xor_zeros.
Qed.

Lemma mem_ok_xor m k : mem_ok m → mem_ok k → mem_ok (xor_bytes m k).
Proof. intros [H1 H2] [H3 H4]. split; [rewrite length_xor_bytes; lia|by apply xor_bytes_u8]. Qed.

Lemma is_xor_bind f g : is_xor f → is_xor g → is_xor (λ m, m ← f m; g m).
Proof.
  intros (k1 & H1 & E1) (k2 & H2 & E2). exists (xor_bytes k1 k2). split; [by apply mem_ok_xor|]. intros m Hm.
  rewrite E1 by done. cbn [mbind result_bind]. rewrite E2 by (by apply mem_ok_xor).
  destruct Hm, H1, H2. by rewrite xor_xor by lia.
Qed.

Lemma is_xor_word n loc c : 0 <= loc → loc + Z.of_nat n <= Z.of_nat L → is_xor (λ m, put_word n m loc true c).
Proof.
  intros H0 Hl. set (r := (L - Z.to_nat loc - n)%nat).
  exists (replicate (Z.to_nat loc) 0 ++ le_bytes n c ++ replicate r 0). split.
  { split; [autorewrite with clist; rewrite length_le_bytes; lia|]. rewrite !Forall_app.
    split_and!; [by apply Forall_replicate| |by apply Forall_replicate]. clear. revert c.
    induction n; intros c; cbn; constructor; [apply u8_range|done]. }
  intros m [Hm Hu]. unfold put_word. set (old := sub_bytes m loc (Z.of_nat n)).
  assert (length old = n) as Ho by (unfold old, sub_bytes; rewrite Nat2Z.id, length_take, length_drop; lia).
  assert (m = take (Z.to_nat loc) m ++ old ++ drop (Z.to_nat loc + n) m) as Em.
  { unfold old, sub_bytes. rewrite Nat2Z.id, <- drop_drop, take_drop, take_drop. done. }
  rewrite xor_word by (done || (unfold old, sub_bytes; by apply Forall_take, Forall_drop)).
  assert (length (xor_bytes old (le_bytes n c)) = n) as Hx by (rewrite length_xor_bytes; rewrite ?length_le_bytes; lia).
  unfold blit. rewrite !(proj2 (Z.leb_le _ _)) by lia. cbn [andb]. rewrite Hx. f_equal.
  rewrite Em at 3. unfold xor_bytes. rewrite zip_with_app by (rewrite length_replicate, length_take; lia).
  rewrite zip_with_app by (rewrite length_le_bytes; lia). fold (xor_bytes old (le_bytes n c)).
  f_equal; [symmetry; apply xor_zeros; rewrite length_take; lia|]. f_equal. symmetry. apply xor_zeros. rewrite length_drop. lia.
Qed.
End xor.

(** ** The drawing functions as one type *)

Inductive drawing :=
| DPixel (x y : Z)
| DLine (x1 y1 x2 y2 : Z)
| DRect (x1 y1 x2 y2 : Z)
| DFill (x1 y1 x2 y2 : Z)
| DCross (x y : Z)
| DText (x y : Z) (str : list Z)
| DTextCenter (x y : Z) (str : list Z).

Definition draw (s : screen) (colormap font : list Z) (colidx : Z) (d : drawing) : list Z → result (list Z) :=
  match d with
  | DPixel x y => pixel s colormap x y colidx
  | DLine x1 y1 x2 y2 => line s colormap x1 y1 x2 y2 colidx
  | DRect x1 y1 x2 y2 => rect s colormap x1 y1 x2 y2 colidx
  | DFill x1 y1 x2 y2 => fillrect s colormap x1 y1 x2 y2 colidx
  | DCross x y => put_cross s colormap x y colidx
  | DText x y str => put_string s colormap font x y str colidx
  | DTextCenter x y str => put_string_center s colormap font x y str colidx
  end.

Fixpoint draw_all (s : screen) (colormap font : list Z) (colidx : Z) (ds : list drawing) (m : list Z) : result (list Z) :=
  match ds with
  | [] => Ok m
  | d :: ds => m ← draw s colormap font colidx d m; draw_all s colormap font colidx ds m
  end.

(** The screen fits into the memory of the frame buffer. *)
Record screen_ok (s : screen) (L : nat) : Prop := {
  bpp_range : 1 <= bytes_per_pixel s <= 4;
  visible_x : 0 < xres s <= xres_virtual s;
  visible_y : 0 < yres s <= yres_virtual s;
  res_int : xres_virtual s < 536870912 ∧ yres_virtual s < 536870912;
  line_fits : xres_virtual s * bytes_per_pixel s <= line_length s;
  lines_fit : yres_virtual s * line_length s <= Z.of_nat L }.

(** A colour that has a successor in the palette, for the crosses. *)
Definition color_ok (colormap : list Z) (colidx : Z) : Prop :=
  length colormap = 256%nat ∧ is_u32 colidx ∧ color_index colidx < 255.

(** The characters have pictures, and the lines are in reach. *)
Definition drawing_ok (d : drawing) : Prop :=
  match d with
  | DText _ _ str | DTextCenter _ _ str => Forall is_u8 str
  | DLine x1 y1 x2 y2 | DRect x1 y1 x2 y2 => in_reach x1 ∧ in_reach y1 ∧ in_reach x2 ∧ in_reach y2
  | DCross x y => in_reach x ∧ in_reach y
  | DPixel _ _ | DFill _ _ _ _ => True
  end.

Lemma clamp_spec z res : 0 < res < 2147483648 → clamp z res = Z.max 0 (Z.min z (res - 1)).
Proof.
  intros Hr. unfold clamp. rewrite s32_id by (unfold is_s32; lia).
  destruct (Z.ltb_spec z 0); [destruct (Z.leb_spec res 0)|destruct (Z.leb_spec res z)]; lia.
Qed.

Lemma next_color colidx : is_u32 colidx → color_index colidx < 255 →
  color_index (u32 (colidx + 1)) = color_index colidx + 1 ∧ xor_flag (u32 (colidx + 1)) = xor_flag colidx.
Proof.
  intros Hc Hi. rewrite color_index_u32, xor_flag_u32. unfold color_index, xor_flag, is_u32 in *. rewrite !Z.land_ones in * by lia.
  change (2 ^ 31) with 2147483648 in *. pose proof (Z.div_mod colidx 2147483648). pose proof (Z.mod_pos_bound colidx 2147483648).
  assert ((colidx + 1) mod 2147483648 = colidx mod 2147483648 + 1 ∧ (colidx + 1) / 2147483648 = colidx / 2147483648) as [E1 E2].
  { split; symmetry; [apply (Z.mod_unique_pos _ _ (colidx / 2147483648))|apply (Z.div_unique_pos _ _ _ (colidx mod 2147483648 + 1))]; lia. }
  split; [done|]. rewrite !Z.testbit_eqb by lia. change (2 ^ 31) with 2147483648. by rewrite E2.
Qed.

Section drawings.
Context (s : screen) (colormap font : list Z) (L : nat) (Hs : screen_ok s L) (Hfont : font_ok font).

(** A filled rectangle is the dots between its corners, which are first moved
    to the nearest dots of the screen. *)
Lemma fillrect_dots x1 y1 x2 y2 colidx c m :
  let cx z := Z.max 0 (Z.min z (xres s - 1)) in let cy z := Z.max 0 (Z.min z (yres s - 1)) in
  rd colormap (color_index colidx) = Ok c →
  fillrect s colormap x1 y1 x2 y2 colidx m = put_all s (xor_flag colidx)
    (area_dots (cx (Z.min x1 x2)) (cy (Z.min y1 y2)) (Z.to_nat (cx (Z.max x1 x2) - cx (Z.min x1 x2) + 1))
               (Z.to_nat (cy (Z.max y1 y2) - cy (Z.min y1 y2) + 1)) c) m.
Proof.
  destruct Hs. cbv zeta. intros Ec. unfold fillrect.
  assert ((if x2 <? x1 then (x2, x1) else (x1, x2)) = (Z.min x1 x2, Z.max x1 x2)) as -> by (destruct (Z.ltb_spec x2 x1); f_equal; lia).
  assert ((if y2 <? y1 then (y2, y1) else (y1, y2)) = (Z.min y1 y2, Z.max y1 y2)) as -> by (destruct (Z.ltb_spec y2 y1); f_equal; lia).
  rewrite !clamp_spec by lia. rewrite !(proj2 (Z.ltb_ge _ _)) by lia. cbn [orb]. rewrite Ec. cbn [mbind result_bind].
  apply fill_rows_dots; lia.
Qed.

Lemma area_on_screen x1 y1 n k c : 0 <= x1 → x1 + Z.of_nat n <= xres_virtual s → 0 <= y1 → y1 + Z.of_nat k <= yres_virtual s →
  Forall (on_screen s) (area_dots x1 y1 n k c).
Proof.
  intros Hx1 Hx Hy1 Hy. apply Forall_forall. unfold area_dots, row_dots. intros d (y & Hd & Hyin)%list_elem_of_bind.
  apply elem_of_seqZ in Hyin. apply list_elem_of_fmap in Hd as (x & -> & Hxin). apply elem_of_seqZ in Hxin. split; cbn; lia.
Qed.

Lemma plots_draw colidx d : color_ok colormap colidx → drawing_ok d → plots s (xor_flag colidx) (draw s colormap font colidx d).
Proof.
  intros (Hl & Hu & Hi) Ht. assert (has_color colormap colidx) as Hc by (unfold has_color; lia).
  destruct (next_color colidx Hu Hi) as [E1 E2].
  destruct d; cbn [draw].
  - by apply plots_pixel.
  - destruct Ht as (? & ? & ? & ?). unfold in_reach in *. apply plots_line; unfold has_next; done || lia.
  - destruct Ht as (? & ? & ? & ?). unfold in_reach in *. apply plots_rect; unfold has_next; done || lia.
  - destruct (color_found colormap colidx Hc) as [c Ec]. eexists. split; [|intros m; apply fillrect_dots, Ec].
    destruct Hs. apply area_on_screen; lia.
  - destruct Ht. apply plots_put_cross; [done|unfold has_color; lia|done..].
  - by apply plots_put_string.
  - by apply plots_put_string.
Qed.

Lemma plots_draw_all colidx ds : color_ok colormap colidx → Forall drawing_ok ds →
  plots s (xor_flag colidx) (draw_all s colormap font colidx ds).
Proof.
  intros Hc. induction 1 as [|d ds Hd _ IH]; cbn [draw_all]; [apply plots_ret|]. apply plots_bind; [by apply plots_draw|done].
Qed.

(** The bytes of a dot are in the memory. *)
Lemma location_fits d : on_screen s d → 0 <= location s d ∧ location s d + bytes_per_pixel s <= Z.of_nat L.
Proof.
  intros [Hx Hy]. destruct Hs. unfold location. assert (0 <= line_length s) by nia.
  assert (0 <= dot_y d * line_length s ∧ (dot_y d + 1) * line_length s <= yres_virtual s * line_length s) as [] by nia.
  assert (0 <= dot_x d * bytes_per_pixel s ∧ (dot_x d + 1) * bytes_per_pixel s <= xres_virtual s * bytes_per_pixel s) as [] by nia.
  lia.
Qed.

Lemma put_word_keeps n m loc xormode c : 0 <= loc → loc + Z.of_nat n <= Z.of_nat L → length m = L →
  ∃ m', put_word n m loc xormode c = Ok m' ∧ length m' = L ∧
    ∀ i, Z.of_nat i < loc ∨ loc + Z.of_nat n <= Z.of_nat i → m' !! i = m !! i.
Proof.
  intros H0 Hl Hm. unfold put_word. set (data := le_bytes n _). assert (length data = n) as Hd by apply length_le_bytes.
  destruct (blit_Ok m loc data) as (m' & E & Hl'); [lia..|]. exists m'. split_and!; [done|lia|].
  intros i Hi. eapply lookup_blit_ne; [done|]. by rewrite Hd.
Qed.

(** A dot changes its own bytes only. *)
Lemma put_keeps xormode d m : on_screen s d → length m = L →
  ∃ m', put s xormode m d = Ok m' ∧ length m' = L ∧
    ∀ i, Z.of_nat i < location s d ∨ location s d + bytes_per_pixel s <= Z.of_nat i → m' !! i = m !! i.
Proof.
  intros [H0 Hl]%location_fits Hm. destruct Hs. unfold put, setpixel. set (loc := location s d) in *.
  destruct (Z.eqb_spec (bytes_per_pixel s) 2) as [E2|]; [rewrite E2 in *; apply (put_word_keeps 2); lia|].
  destruct (Z.eqb_spec (bytes_per_pixel s) 3) as [E3|].
  { destruct (put_word_keeps 1 m loc xormode (Z.land (Z.shiftr (dot_color d) 16) 0xFF)) as (m1 & -> & L1 & K1); [lia..|].
    cbn [mbind result_bind].
    destruct (put_word_keeps 1 m1 (loc + 1) xormode (Z.land (Z.shiftr (dot_color d) 8) 0xFF)) as (m2 & -> & L2 & K2); [lia..|].
    cbn [mbind result_bind].
    destruct (put_word_keeps 1 m2 (loc + 2) xormode (Z.land (dot_color d) 0xFF)) as (m3 & -> & L3 & K3); [lia..|].
    exists m3. split_and!; [done..|]. intros i Hi. rewrite K3, K2, K1 by lia. done. }
  destruct (Z.eqb_spec (bytes_per_pixel s) 4) as [E4|]; [rewrite E4 in *; apply (put_word_keeps 4); lia|].
  destruct (put_word_keeps 1 m loc xormode (dot_color d)) as (m1 & E1 & L1 & K1); [lia..|].
  exists m1. split_and!; [done..|]. intros i Hi. apply K1. lia.
Qed.

(** Whatever is drawn, the memory stays one of bytes. *)
Lemma put_word_u8 n m loc xormode c m' : Forall is_u8 m → put_word n m loc xormode c = Ok m' → Forall is_u8 m'.
Proof.
  intros Hm (_ & _ & ->)%blit_inv. rewrite !Forall_app. split_and!; [by apply Forall_take| |by apply Forall_drop].
  generalize (if xormode then Z.lxor (le_val (sub_bytes m loc (Z.of_nat n))) c else c). clear.
  induction n; intros c; cbn; constructor; [apply u8_range|done].
Qed.

Lemma put_u8 xormode d m m' : Forall is_u8 m → put s xormode m d = Ok m' → Forall is_u8 m'.
Proof.
  intros Hm. unfold put, setpixel. repeat case_match; try by apply put_word_u8. intros E. bind_inv.
  eapply put_word_u8; [|exact E]. eapply put_word_u8; [|exact E1]. by eapply put_word_u8; [|exact E0].
Qed.

Lemma plots_mem_ok xormode f m : plots s xormode f → mem_ok L m → ∃ m', f m = Ok m' ∧ mem_ok L m'.
Proof.
  intros (ds & Hds & E) Hm. setoid_rewrite E. clear E. revert m Hm. induction Hds as [|d ds Hd _ IH]; intros m Hm; [by exists m|].
  destruct Hm as [Hl Hu]. destruct (put_keeps xormode d m Hd Hl) as (m1 & E1 & L1 & _). cbn [put_all]. rewrite E1.
  apply IH. split; [done|by eapply put_u8].
Qed.

Lemma is_xor_put d : on_screen s d → is_xor L (λ m, put s true m d).
Proof.
  intros [H0 Hl]%location_fits. destruct Hs. unfold put, setpixel. set (loc := location s d) in *.
  destruct (Z.eqb_spec (bytes_per_pixel s) 2); [apply is_xor_word; lia|].
  destruct (Z.eqb_spec (bytes_per_pixel s) 3).
  { apply is_xor_bind; [apply is_xor_word; lia|]. apply is_xor_bind; apply is_xor_word; lia. }
  destruct (Z.eqb_spec (bytes_per_pixel s) 4); apply is_xor_word; lia.
Qed.

Lemma is_xor_put_all ds : Forall (on_screen s) ds → is_xor L (put_all s true ds).
Proof. induction 1; cbn [put_all]; [apply is_xor_ret|]. apply is_xor_bind; [by apply is_xor_put|done]. Qed.

Lemma is_xor_plots f : plots s true f → is_xor L f.
Proof. intros (ds & Hds & E). destruct (is_xor_put_all ds Hds) as (k & Hk & Ek). exists k. split; [done|]. intros m Hm. rewrite E. auto. Qed.

(** The order of drawings does not matter in the exclusive-or mode. *)
Lemma draw_all_perm colidx ds ds' m : color_ok colormap colidx → xor_flag colidx = true → Forall drawing_ok ds → ds ≡ₚ ds' →
  mem_ok L m → draw_all s colormap font colidx ds m = draw_all s colormap font colidx ds' m.
Proof.
  intros Hc Hx Ht Hp. revert Ht m. induction Hp as [|d ds ds' _ IH|d1 d2 ds|ds1 ds2 ds3 Hp1 IH1 _ IH2]; intros Ht m Hm; [done| | |].
  - apply Forall_cons in Ht as [Hd Ht]. cbn [draw_all]. pose proof (plots_draw colidx d Hc Hd) as Hpl. rewrite Hx in Hpl.
    destruct (is_xor_plots _ Hpl) as (k & Hk & E). rewrite E by done. apply IH; [done|by apply mem_ok_xor].
  - apply Forall_cons in Ht as [Hd2 Ht]. apply Forall_cons in Ht as [Hd1 Ht]. cbn [draw_all].
    pose proof (plots_draw colidx d1 Hc Hd1) as P1. pose proof (plots_draw colidx d2 Hc Hd2) as P2. rewrite Hx in P1, P2.
    destruct (is_xor_plots _ P1) as (k1 & K1 & E1), (is_xor_plots _ P2) as (k2 & K2 & E2).
    rewrite E1, E2 by done. cbn [mbind result_bind]. rewrite E1, E2 by (by apply mem_ok_xor). cbn [mbind result_bind]. f_equal.
    destruct Hm, K1, K2. rewrite !xor_xor by lia. f_equal. apply xor_comm.
  - rewrite IH1 by done. apply IH2; [by rewrite <- Hp1|done].
Qed.
End drawings.

(** C26: Drawing the same pixels, lines, rectangles, crosses and texts again in the
    exclusive-or mode, in any order, restores the frame buffer: the picture under
    a moving cross comes back.  The corners of lines and rectangles and the
    middles of crosses are between -2^30 and 2^30, on the screen or not; with an
    end at INT_MAX the loop of a line has no end. *)
Theorem xor_drawing_restores s colormap font L colidx ds ds' m :
  screen_ok s L → font_ok font → color_ok colormap colidx → xor_flag colidx = true → Forall drawing_ok ds → ds ≡ₚ ds' → mem_ok L m →
  ∃ m', draw_all s colormap font colidx ds m = Ok m' ∧ draw_all s colormap font colidx ds' m' = Ok m.
Proof.
  intros Hs Hf Hc Hx Ht Hp Hm. pose proof (plots_draw_all s colormap font L Hs Hf colidx ds Hc Ht) as Hpl. rewrite Hx in Hpl.
  destruct (is_xor_plots s L Hs _ Hpl) as (k & Hk & E). exists (xor_bytes m k). split; [by apply E|].
  rewrite <- (draw_all_perm s colormap font L Hs Hf colidx ds ds') by (done || by apply mem_ok_xor).
  rewrite E by (by apply mem_ok_xor). destruct Hm, Hk. by rewrite xor_self by lia.
Qed.

(** Whatever is drawn, with coordinates in reach, on the screen or not, every function
    stays in the memory of the frame buffer and changes no byte but those of the
    dots of the screen: not the rest of a line, not what lies behind the last
    one. *)
Theorem drawing_stays_on_screen s colormap font L colidx ds m :
  screen_ok s L → font_ok font → color_ok colormap colidx → Forall drawing_ok ds → length m = L →
  ∃ m', draw_all s colormap font colidx ds m = Ok m' ∧ length m' = L ∧
    ∀ i, (∀ d, on_screen s d → Z.of_nat i < location s d ∨ location s d + bytes_per_pixel s <= Z.of_nat i) → m' !! i = m !! i.
Proof.
  intros Hs Hf Hc Ht Hm. destruct (plots_draw_all s colormap font L Hs Hf colidx ds Hc Ht) as (dots & Hd & E).
  rewrite E. clear E Ht. revert m Hm. induction Hd as [|d dots Hd _ IH]; intros m Hm; cbn [put_all]; [by exists m|].
  destruct (put_keeps s L Hs (xor_flag colidx) d m Hd Hm) as (m1 & E & Hl & Hk). rewrite E. cbn [mbind result_bind].
  destruct (IH m1 Hl) as (m' & E' & Hl' & Hk'). exists m'. split_and!; [done..|]. intros i Hi. rewrite Hk' by done. apply Hk, Hi, Hd.
Qed.

(** ** Lines are straight *)

Section lines.
Context (s : screen) (colormap : list Z).

Fixpoint pixels (colidx : Z) (pts : list (Z * Z)) (m : list Z) : result (list Z) :=
  match pts with
  | [] => Ok m
  | (x, y) :: pts => m ← pixel s colormap x y colidx m; pixels colidx pts m
  end.

(** The fixed-point coordinate after [i] of [n] steps from [a] on over a distance
    of [d]. *)
Definition step_of (d n : Z) : Z := if n =? 0 then 0 else Z.quot (fixed d) n.
Definition coord_at (a d n i : Z) : Z := Z.shiftr (fixed a + i * step_of d n) 16.

Definition small (z : Z) : Prop := -16384 <= z < 16384.

Lemma fixed_small z : -32768 < z < 32768 → fixed z = z * 65536.
Proof. intros Hz. unfold fixed. rewrite Z.shiftl_mul_pow2 by lia. apply s32_id. unfold is_s32. lia. Qed.

Lemma step_bound d n i : -32768 < d < 32768 → Z.abs d <= n → 0 <= i <= n →
  Z.min 0 (d * 65536) <= i * step_of d n <= Z.max 0 (d * 65536) ∧
  Z.abs (i * (d * 65536) - n * (i * step_of d n)) <= i * n.
Proof.
  intros Hd Hn Hi. unfold step_of. rewrite fixed_small by done. destruct (Z.eqb_spec n 0) as [->|Hn0]; [lia|].
  pose proof (Z.quot_rem' (d * 65536) n) as Eq. set (q := Z.quot (d * 65536) n) in *. set (r := Z.rem (d * 65536) n) in *.
  assert (i * (d * 65536) - n * (i * q) = i * r) as Er by (rewrite Eq; ring). rewrite Er, Z.abs_mul.
  destruct (Z.le_ge_cases 0 d).
  - assert (0 <= r < n) by (apply Z.rem_bound_pos; lia). assert (0 <= q) by (apply Z.quot_pos; lia). nia.
  - assert (- n < r <= 0) by (apply Z.rem_bound_pos_neg; lia). assert (q <= 0); [|nia].
    unfold q. rewrite <- (Z.opp_involutive (d * 65536)), Z.quot_opp_l by lia.
    assert (0 <= Z.quot (- (d * 65536)) n) by (apply Z.quot_pos; lia). lia.
Qed.

(** Every step is near the line. *)
Lemma coord_near a d n i : small a → -32768 < d < 32768 → Z.abs d <= n → 0 <= i <= n →
  Z.abs (i * d - (coord_at a d n i - a) * n) * 65536 <= (65536 + i) * n ∧ (d = 0 → coord_at a d n i = a).
Proof.
  intros Ha Hd Hn Hi. destruct (step_bound d n i Hd Hn Hi) as [_ Hb]. unfold coord_at, small in *. rewrite fixed_small by lia.
  set (t := i * step_of d n) in *. rewrite Z.shiftr_div_pow2 by lia. change (2 ^ 16) with 65536.
  rewrite Z.add_comm, Z_div_plus_full by lia. pose proof (Z.div_mod t 65536). pose proof (Z.mod_pos_bound t 65536).
  set (q := t / 65536) in *. set (f := t mod 65536) in *. split; [|intros ->].
  - replace (q + a - a) with q by lia. assert (0 <= n * f <= n * 65536) by nia. nia.
  - unfold q, t. unfold step_of. change (fixed 0) with 0. by destruct (Z.eqb_spec n 0); [|rewrite Z.quot_0_l by done]; rewrite Z.mul_0_r.
Qed.

Lemma fixed_step a d n i : small a → -32768 < d < 32768 → small (a + d) → Z.abs d <= n → 0 <= i <= n →
  is_s32 (fixed a + i * step_of d n).
Proof.
  intros Ha Hd Had Hn Hi. destruct (step_bound d n i Hd Hn Hi) as [Hb _]. unfold small, is_s32 in *. rewrite fixed_small by lia.
  lia.
Qed.

(** The dots of the two loops. *)
Lemma column_loop_points k colidx x1 a d n : small x1 → small (x1 + n) → small a → -32768 < d < 32768 → small (a + d) → Z.abs d <= n →
  ∀ i m, 0 <= i → i + Z.of_nat k = n + 1 →
  column_loop s colormap k (x1 + i) (fixed a + i * step_of d n) (x1 + n) (step_of d n) colidx m =
    pixels colidx ((λ j, (x1 + j, coord_at a d n j)) <$> seqZ i (Z.of_nat k)) m.
Proof.
  intros Hlo Hhi Ha Hd Had Hn. induction k as [|k IH]; intros i m Hi Hk; cbn [column_loop].
  { by rewrite (proj2 (Z.leb_gt _ _)) by lia. }
  rewrite (proj2 (Z.leb_le _ _)) by lia. rewrite seqZ_cons by lia.
  cbn [fmap list_fmap pixels]. change (Z.shiftr (fixed a + i * step_of d n) 16) with (coord_at a d n i).
  destruct (pixel _ _ _ _ _ _) as [m1|]; [|done]. cbn [mbind result_bind].
  replace (Z.pred (Z.of_nat (S k))) with (Z.of_nat k) by lia. rewrite <- Z.add_1_r.
  unfold small in Hlo, Hhi. rewrite (s32_id (x1 + i + 1)) by (unfold is_s32; lia).
  destruct k as [|k]; [cbn [column_loop]; by rewrite (proj2 (Z.leb_gt _ _)) by lia|]. rewrite <- IH by lia. f_equal; [lia|].
  replace (fixed a + i * step_of d n + step_of d n) with (fixed a + (i + 1) * step_of d n) by lia.
  apply s32_id, fixed_step; done || lia.
Qed.

Lemma row_loop_points k colidx y1 a d n : small y1 → small (y1 + n) → small a → -32768 < d < 32768 → small (a + d) → Z.abs d <= n →
  ∀ i m, 0 <= i → i + Z.of_nat k = n + 1 →
  row_loop s colormap k (fixed a + i * step_of d n) (y1 + i) (y1 + n) (step_of d n) colidx m =
    pixels colidx ((λ j, (coord_at a d n j, y1 + j)) <$> seqZ i (Z.of_nat k)) m.
Proof.
  intros Hlo Hhi Ha Hd Had Hn. induction k as [|k IH]; intros i m Hi Hk; cbn [row_loop].
  { by rewrite (proj2 (Z.leb_gt _ _)) by lia. }
  rewrite (proj2 (Z.leb_le _ _)) by lia. rewrite seqZ_cons by lia.
  cbn [fmap list_fmap pixels]. change (Z.shiftr (fixed a + i * step_of d n) 16) with (coord_at a d n i).
  destruct (pixel _ _ _ _ _ _) as [m1|]; [|done]. cbn [mbind result_bind].
  replace (Z.pred (Z.of_nat (S k))) with (Z.of_nat k) by lia. rewrite <- Z.add_1_r.
  unfold small in Hlo, Hhi. rewrite (s32_id (y1 + i + 1)) by (unfold is_s32; lia).
  destruct k as [|k]; [cbn [row_loop]; by rewrite (proj2 (Z.leb_gt _ _)) by lia|]. rewrite <- IH by lia. f_equal; [|lia].
  replace (fixed a + i * step_of d n + step_of d n) with (fixed a + (i + 1) * step_of d n) by lia.
  apply s32_id, fixed_step; done || lia.
Qed.

(** A line does not depend on the order of its ends. *)
Lemma line_swap x1 y1 x2 y2 colidx m : small x1 → small y1 → small x2 → small y2 →
  line s colormap x1 y1 x2 y2 colidx m = line s colormap x2 y2 x1 y1 colidx m.
Proof.
  unfold small. intros Hx1 Hy1 Hx2 Hy2. unfold line. rewrite !(s32_id (_ - _)) by (unfold is_s32; lia).
  replace (Z.abs (x1 - x2)) with (Z.abs (x2 - x1)) by lia. replace (Z.abs (y1 - y2)) with (Z.abs (y2 - y1)) by lia.
  rewrite !(s32_id (- _)) by (unfold is_s32; lia).
  replace (- (x2 - x1)) with (x1 - x2) by lia. replace (- (y2 - y1)) with (y1 - y2) by lia.
  replace (- (x1 - x2)) with (x2 - x1) by lia. replace (- (y1 - y2)) with (y2 - y1) by lia.
  destruct (Z.ltb_spec (Z.abs (x2 - x1)) (Z.abs (y2 - y1))).
  - destruct (Z.ltb_spec y2 y1), (Z.ltb_spec y1 y2); try lia; done.
  - destruct (Z.ltb_spec x2 x1), (Z.ltb_spec x1 x2); try lia; try done.
    assert (x2 = x1) as -> by lia. assert (y2 = y1) as -> by lia. done.
Qed.

(** How far a point is from the line through two points, times their distance
    along the longer axis. *)
Definition off_line (x1 y1 x2 y2 : Z) (p : Z * Z) : Z := (p.1 - x1) * (y2 - y1) - (p.2 - y1) * (x2 - x1).

Definition straight (x1 y1 x2 y2 : Z) (pts : list (Z * Z)) : Prop :=
  let n := Z.max (Z.abs (x2 - x1)) (Z.abs (y2 - y1)) in
  Z.of_nat (length pts) = n + 1 ∧
  (∀ k p q, pts !! k = Some p → pts !! S k = Some q → if Z.abs (x2 - x1) <? Z.abs (y2 - y1) then q.2 = p.2 + 1 else q.1 = p.1 + 1) ∧
  Forall (λ p, Z.abs (off_line x1 y1 x2 y2 p) * 65536 <= (65536 + n) * n) pts ∧
  (x1 = x2 ∨ y1 = y2 → Forall (λ p, off_line x1 y1 x2 y2 p = 0) pts).

Lemma straight_swap x1 y1 x2 y2 pts : straight x2 y2 x1 y1 pts → straight x1 y1 x2 y2 pts.
Proof.
  unfold straight. replace (Z.abs (x1 - x2)) with (Z.abs (x2 - x1)) by lia. replace (Z.abs (y1 - y2)) with (Z.abs (y2 - y1)) by lia.
  assert (∀ p, off_line x1 y1 x2 y2 p = - off_line x2 y2 x1 y1 p) as E by (intros p; unfold off_line; ring).
  intros (H1 & H2 & H3 & H4). split_and!; [done..| |].
  - eapply Forall_impl; [exact H3|]. intros p. by rewrite E, Z.abs_opp.
  - intros H0. eapply Forall_impl; [apply H4; naive_solver|]. intros p. rewrite E. lia.
Qed.

(** The points of the two loops are straight. *)
Lemma column_points_straight x1 y1 x2 y2 : small x1 → small y1 → small x2 → small y2 → x1 <= x2 → Z.abs (y2 - y1) <= x2 - x1 →
  straight x1 y1 x2 y2 ((λ j, (x1 + j, coord_at y1 (y2 - y1) (x2 - x1) j)) <$> seqZ 0 (x2 - x1 + 1)).
Proof.
  unfold straight, small. intros Hx1 Hy1 Hx2 Hy2 Hx Hn.
  replace (Z.max (Z.abs (x2 - x1)) (Z.abs (y2 - y1))) with (x2 - x1) by lia. rewrite (proj2 (Z.ltb_ge _ _)) by lia. split_and!.
  - rewrite length_fmap, length_seqZ. lia.
  - intros k p q Hp Hq. rewrite list_lookup_fmap in Hp, Hq. apply fmap_Some in Hp as (j & Hj & ->), Hq as (j' & Hj' & ->).
    apply lookup_seqZ in Hj, Hj'. cbn. lia.
  - apply Forall_fmap, Forall_seqZ. intros j Hj. unfold off_line, compose. cbn [fst snd].
    destruct (coord_near y1 (y2 - y1) (x2 - x1) j) as [Hc _]; [done|lia..|]. replace (x1 + j - x1) with j by lia. nia.
  - intros H0. apply Forall_fmap, Forall_seqZ. intros j Hj. unfold off_line, compose. cbn [fst snd].
    destruct H0 as [->| ->]; [assert (j = 0) as -> by lia; nia|].
    destruct (coord_near y2 (y2 - y2) (x2 - x1) j) as [_ Hc]; [done|lia..|]. rewrite Hc by lia. lia.
Qed.

Lemma row_points_straight x1 y1 x2 y2 : small x1 → small y1 → small x2 → small y2 → y1 <= y2 → Z.abs (x2 - x1) < y2 - y1 →
  straight x1 y1 x2 y2 ((λ j, (coord_at x1 (x2 - x1) (y2 - y1) j, y1 + j)) <$> seqZ 0 (y2 - y1 + 1)).
Proof.
  unfold straight, small. intros Hx1 Hy1 Hx2 Hy2 Hy Hn.
  replace (Z.max (Z.abs (x2 - x1)) (Z.abs (y2 - y1))) with (y2 - y1) by lia. rewrite (proj2 (Z.ltb_lt _ _)) by lia. split_and!.
  - rewrite length_fmap, length_seqZ. lia.
  - intros k p q Hp Hq. rewrite list_lookup_fmap in Hp, Hq. apply fmap_Some in Hp as (j & Hj & ->), Hq as (j' & Hj' & ->).
    apply lookup_seqZ in Hj, Hj'. cbn. lia.
  - apply Forall_fmap, Forall_seqZ. intros j Hj. unfold off_line, compose. cbn [fst snd].
    destruct (coord_near x1 (x2 - x1) (y2 - y1) j) as [Hc _]; [done|lia..|]. replace (y1 + j - y1) with j by lia. nia.
  - intros H0. apply Forall_fmap, Forall_seqZ. intros j Hj. unfold off_line, compose. cbn [fst snd].
    destruct H0 as [->| ->]; [|lia].
    destruct (coord_near x2 (x2 - x2) (y2 - y1) j) as [_ Hc]; [done|lia..|]. rewrite Hc by lia. lia.
Qed.

(** The ends in the order in which the code draws them. *)
Lemma ordered_line x1 y1 x2 y2 colidx : small x1 → small y1 → small x2 → small y2 →
  (if Z.abs (x2 - x1) <? Z.abs (y2 - y1) then y1 <= y2 else x1 <= x2) →
  ∃ pts, straight x1 y1 x2 y2 pts ∧ ∀ m, line s colormap x1 y1 x2 y2 colidx m = pixels colidx pts m.
Proof.
  intros Hx1 Hy1 Hx2 Hy2 Ho. pose proof (conj (conj Hx1 Hy1) (conj Hx2 Hy2)) as Hall. unfold small in Hall. unfold line.
  rewrite !s32_id by (unfold is_s32; lia). destruct (Z.ltb_spec (Z.abs (x2 - x1)) (Z.abs (y2 - y1))) as [Hlt|Hge].
  - eexists. split; [apply row_points_straight; done || lia|]. intros m. rewrite (proj2 (Z.ltb_ge _ _)) by done.
    pose proof (row_loop_points (Z.to_nat (y2 - y1 + 1)) colidx y1 x1 (x2 - x1) (y2 - y1)) as E.
    replace (y1 + (y2 - y1)) with y2 in E by lia.
    specialize (E Hy1 Hy2 Hx1 ltac:(lia)). replace (x1 + (x2 - x1)) with x2 in E by lia.
    specialize (E Hx2 ltac:(lia) 0 m ltac:(lia) ltac:(lia)). rewrite Z2Nat.id in E by lia.
    rewrite <- E, Z.mul_0_l, !Z.add_0_r. f_equal. unfold step_of. by rewrite (proj2 (Z.eqb_neq (y2 - y1) 0)) by lia.
  - eexists. split; [apply column_points_straight; done || lia|]. intros m. rewrite (proj2 (Z.ltb_ge _ _)) by done.
    pose proof (column_loop_points (Z.to_nat (x2 - x1 + 1)) colidx x1 y1 (y2 - y1) (x2 - x1)) as E.
    replace (x1 + (x2 - x1)) with x2 in E by lia.
    specialize (E Hx1 Hx2 Hy1 ltac:(lia)). replace (y1 + (y2 - y1)) with y2 in E by lia.
    specialize (E Hy2 ltac:(lia) 0 m ltac:(lia) ltac:(lia)). rewrite Z2Nat.id in E by lia.
    rewrite <- E, Z.mul_0_l, !Z.add_0_r. done.
Qed.
End lines.

(** A line draws one point for each step along its longer axis; every point
    is less than two pixels off the line between its ends, and horizontal and
    vertical lines are exact. *)
Theorem line_is_straight s colormap x1 y1 x2 y2 colidx :
  small x1 → small y1 → small x2 → small y2 →
  ∃ pts, straight x1 y1 x2 y2 pts ∧ ∀ m, line s colormap x1 y1 x2 y2 colidx m = pixels s colormap colidx pts m.
Proof.
  intros Hx1 Hy1 Hx2 Hy2.
  set (o := if Z.abs (x2 - x1) <? Z.abs (y2 - y1) then y1 <= y2 else x1 <= x2).
  assert (o ∨ ¬ o) as [Ho|Ho] by (unfold o; destruct (_ <? _); lia); [by apply ordered_line|]. unfold o in Ho.
  destruct (ordered_line s colormap x2 y2 x1 y1 colidx) as (pts & Hpts & E); [done..| |].
  - replace (Z.abs (x1 - x2)) with (Z.abs (x2 - x1)) by lia. replace (Z.abs (y1 - y2)) with (Z.abs (y2 - y1)) by lia.
    destruct (_ <? _); lia.
  - exists pts. split; [by apply straight_swap|]. intros m. by rewrite line_swap.
Qed.

(** ** A small screen *)

(** Sixteen by eight visible pixels of two bytes, in lines of forty bytes. *)
Definition demo_screen : screen := Screen 16 8 16 8 40 2 11 5 5 6 0 5.
Definition demo_colors : list Z := 0 :: 0xFFFF :: 0xF800 :: replicate 253 0.
Definition demo_font : list Z := replicate 2048 0x18.
Definition demo_memory : list Z := replicate 320 0x11.

Lemma demo_screen_ok : screen_ok demo_screen 320.
Proof. split; cbn; lia. Qed.

Definition demo_drawings : list drawing :=
  [DCross 3 4; DLine 0 0 15 7; DFill (-5) 2 4 100; DText 2 0 (lit "A"); DRect 1 1 30 6].

Lemma xor_drawing_restores_witness :
  ∃ m', draw_all demo_screen demo_colors demo_font (2 + XORMODE) demo_drawings demo_memory = Ok m' ∧
        draw_all demo_screen demo_colors demo_font (2 + XORMODE) (reverse demo_drawings) m' = Ok demo_memory.
Proof.
  apply (xor_drawing_restores demo_screen demo_colors demo_font 320).
  - apply demo_screen_ok.
  - done.
  - split_and!; [done| |]; vm_compute; [by split|done].
  - done.
  - repeat constructor; done.
  - by rewrite reverse_Permutation.
  - split; [done|]. by apply Forall_replicate.
Defined.

Lemma drawing_stays_on_screen_witness :
  ∃ m', draw_all demo_screen demo_colors demo_font 1 demo_drawings demo_memory = Ok m' ∧ length m' = 320%nat ∧
    ∀ i, (∀ d, on_screen demo_screen d → Z.of_nat i < location demo_screen d ∨ location demo_screen d + 2 <= Z.of_nat i) →
      m' !! i = demo_memory !! i.
Proof.
  apply (drawing_stays_on_screen demo_screen demo_colors demo_font 320 1 demo_drawings demo_memory).
  - apply demo_screen_ok.
  - done.
  - split_and!; [done| |]; vm_compute; [by split|done].
  - repeat constructor; done.
  - done.
Defined.

Lemma line_is_straight_witness :
  ∃ pts, straight 0 0 3 1 pts ∧ ∀ m, line demo_screen demo_colors 0 0 3 1 1 m = pixels demo_screen demo_colors 1 pts m.
Proof. apply (line_is_straight demo_screen demo_colors 0 0 3 1 1); unfold small; lia. Defined.

(** The step of a rising line is rounded down, so its last point is missed. *)
Example line_misses_its_end m :
  line demo_screen demo_colors 0 0 3 1 1 m = pixels demo_screen demo_colors 1 [(0, 0); (1, 0); (2, 0); (3, 0)] m.
Proof. reflexivity. Qed.

(** A rectangle that is not on the screen is drawn at its edge. *)
Lemma fillrect_off_screen s colormap L x1 x2 y1 y2 colidx c m :
  screen_ok s L → rd colormap (color_index colidx) = Ok c → xres s <= x1 <= x2 → 0 <= y1 <= y2 → y2 < yres s →
  fillrect s colormap x1 y1 x2 y2 colidx m =
    put_all s (xor_flag colidx) (area_dots (xres s - 1) y1 1 (Z.to_nat (y2 - y1 + 1)) c) m.
Proof.
  intros Hs Ec Hx Hy Hy2. rewrite (fillrect_dots s colormap L Hs _ _ _ _ _ c) by done. destruct Hs.
  f_equal. f_equal; lia.
Qed.
