(* ===== verification/TsTest.v ===== *)
(** * TsTest: the test programs of the touch-screen library

    Models src/tslib-1.1/tests/ts_test.c (buttons, the moving cross, drawing with
    the pen), testutils.c (the median of the samples of a touch) and the parts
    of ts_calibrate.c that show the crosses and collect the samples. *)
From Stdlib Require Import Sorted.
From stdpp Require Import sorting.
From S2P Require Import Prelude LibC Bytes Device Runs Tslib FbUtils.
Local Open Scope cmodel_scope.
Local Open Scope Z_scope.

(** ** Requests *)

Inductive treq := ReadSample | ReadRaw | Select | Usleep.

(** A read of one sample: the result and the sample, which counts when the
    result is 1 (or, for the raw read, not negative). *)
Definition treply (r : treq) : Type :=
  match r with ReadSample | ReadRaw => Z * ts_sample | Select => Z | Usleep => unit end.

(** ** ts_test.c *)

Record ts_button := Button { bx : Z; by_ : Z; bw : Z; bh : Z; text : list Z; flags : Z }.
Definition BUTTON_ACTIVE : Z := 1.
Definition button_palette : list Z := [1; 4; 2; 1; 5; 0].
Definition palette : list Z := [0x000000; 0xffe080; 0xffffff; 0xe0c0a0; 0x304050; 0x80b8c0].

Definition is_active (b : ts_button) : bool := negb (Z.land (flags b) BUTTON_ACTIVE =? 0).
Definition set_flags (b : ts_button) (f : Z) : ts_button := Button (bx b) (by_ b) (bw b) (bh b) (text b) f.

Definition inside (b : ts_button) (samp : ts_sample) : bool :=
  (bx b <=? x samp) && (by_ b <=? y samp) && (x samp <? bx b + bw b) && (y samp <? by_ b + bh b).

Record test_state := TestState { mem : list Z; cross_x : Z; cross_y : Z; mode : Z; quit_pressed : bool; buttons : list ts_button }.

Definition set_mem (m : list Z) (t : test_state) := TestState m (cross_x t) (cross_y t) (mode t) (quit_pressed t) (buttons t).
Definition set_cross (px py : Z) (t : test_state) := TestState (mem t) px py (mode t) (quit_pressed t) (buttons t).
Definition set_mode (z : Z) (t : test_state) := TestState (mem t) (cross_x t) (cross_y t) z (quit_pressed t) (buttons t).
Definition set_quit (t : test_state) := TestState (mem t) (cross_x t) (cross_y t) (mode t) true (buttons t).
Definition set_buttons (l : list ts_button) (t : test_state) := TestState (mem t) (cross_x t) (cross_y t) (mode t) (quit_pressed t) l.

Section programs.
Context (s : screen) (colormap font : list Z).

Definition button_draw (b : ts_button) (m : list Z) : result (list Z) :=
  let k := if is_active b then 3 else 0 in
  c0 ← rd button_palette k; c1 ← rd button_palette (k + 1); c2 ← rd button_palette (k + 2);
  m ← rect s colormap (bx b) (by_ b) (bx b + bw b - 1) (by_ b + bh b - 1) c0 m;
  m ← fillrect s colormap (bx b + 1) (by_ b + 1) (bx b + bw b - 2) (by_ b + bh b - 2) c1 m;
  put_string_center s colormap font (bx b + Z.quot (bw b) 2) (by_ b + Z.quot (bh b) 2) (text b) c2 m.

(** The button, the memory and whether the button was released. *)
Definition button_handle (b : ts_button) (samp : ts_sample) (m : list Z) : result (ts_button * list Z * bool) :=
  let on := set_flags b (Z.lor (flags b) BUTTON_ACTIVE) in
  let off := set_flags b (Z.land (flags b) (Z.lnot BUTTON_ACTIVE)) in
  if 0 <? pressure samp then
    if inside b samp then
      if negb (is_active b) then m ← button_draw on m; Ok (on, m, false) else Ok (b, m, false)
    else if is_active b then m ← button_draw off m; Ok (off, m, false) else Ok (b, m, false)
  else if is_active b then m ← button_draw off m; Ok (off, m, true)
  else Ok (b, m, false).

Fixpoint draw_buttons (bs : list ts_button) (m : list Z) : result (list Z) :=
  match bs with
  | [] => Ok m
  | b :: bs => m ← button_draw b m; draw_buttons bs m
  end.

Definition refresh_screen (bs : list ts_button) (m : list Z) : result (list Z) :=
  m ← fillrect s colormap 0 0 (s32 (xres s - 1)) (s32 (yres s - 1)) 0 m;
  m ← put_string_center s colormap font (xres s / 2) (yres s / 4) (lit "TSLIB test program") 1 m;
  m ← put_string_center s colormap font (xres s / 2) (yres s / 4 + 20) (lit "Touch screen to move crosshair") 2 m;
  draw_buttons bs m.

Definition first_buttons : list ts_button :=
  let w := xres s / 4 in
  [Button 0 10 w 20 (lit "Drag") 0; Button (u32 (3 * xres s) / 8) 10 w 20 (lit "Draw") 0;
   Button (u32 (3 * xres s) / 4) 10 w 20 (lit "Quit") 0].

Section driver.
Context {D : Type} `{Driver treq treply D}.
Notation P := (prog test_state treq D).

Definition drawing_ (f : list Z → result (list Z)) : P unit :=
  t ← get; m ← lift (f (mem t)); modify (set_mem m).

(** What the release of button [i] does. *)
Definition clicked (i : nat) : P unit :=
  match i with
  | 0%nat => _ ← modify (set_mode 0); t ← get; drawing_ (refresh_screen (buttons t))
  | 1%nat => _ ← modify (set_mode 1); t ← get; drawing_ (refresh_screen (buttons t))
  | _ => modify set_quit
  end.

(** One round of the loop over the buttons, and the rounds from [i] on, of which
    [n] are left. *)
Definition handle_one (i : nat) (samp : ts_sample) : P unit :=
  t ← get;
  b ← lift (rd (buttons t) (Z.of_nat i));
  r ← lift (button_handle b samp (mem t));
  bs ← lift (wr (buttons t) (Z.of_nat i) r.1.1);
  _ ← modify (λ t, set_buttons bs (set_mem r.1.2 t));
  if (r.2 : bool) then clicked i else mret tt.

Fixpoint handle_buttons (n i : nat) (samp : ts_sample) : P unit :=
  match n with
  | O => mret tt
  | S n => _ ← handle_one i samp; handle_buttons n (S i) samp
  end.

(** The cross is shown while the program waits for a sample. *)
Definition toggle_cross : P unit :=
  t ← get;
  if Z.land (mode t) 15 =? 1 then mret tt
  else drawing_ (put_cross s colormap (cross_x t) (cross_y t) (Z.lor 2 XORMODE)).

Definition follow_pen (samp : ts_sample) : P unit :=
  t ← get;
  if 0 <? pressure samp then
    _ ← (if mode t =? 0x80000001 then drawing_ (line s colormap (cross_x t) (cross_y t) (x samp) (y samp) 2) else mret tt);
    modify (λ t, set_mode (Z.lor (mode t) 0x80000000) (set_cross (x samp) (y samp) t))
  else modify (λ t, set_mode (Z.land (mode t) (u32 (Z.lnot 0x80000000))) t).

(** A turn of the main loop: [None] goes on, [Some] is the exit code. *)
Definition turn : P (option Z) :=
  _ ← toggle_cross;
  r ⇐ ReadSample;
  _ ← toggle_cross;
  if r.1 <? 0 then mret (Some 1) else
  if negb (r.1 =? 1) then mret None else
  _ ← handle_buttons 3 0 r.2;
  _ ← follow_pen r.2;
  t ← get;
  mret (if quit_pressed t then Some 0 else None).

Fixpoint main_loop (fuel : nat) : P Z :=
  match fuel with
  | O => fault OutOfFuel
  | S fuel => r ← turn; match r with Some z => mret z | None => main_loop fuel end
  end.

(** From the point on at which the devices are open and the colours are set. *)
Definition first_state (t : test_state) : test_state :=
  TestState (mem t) (s32 (xres s / 2)) (s32 (yres s / 2)) 0 false first_buttons.

Definition main (fuel : nat) : P Z :=
  _ ← modify first_state;
  t ← get;
  _ ← drawing_ (refresh_screen (buttons t));
  main_loop fuel.
End driver.
End programs.

(** ** What a sample does, the pictures aside *)

Definition pressed (samp : ts_sample) : bool := 0 <? pressure samp.

Definition handled (b : ts_button) (samp : ts_sample) : ts_button :=
  if pressed samp && inside b samp then (if is_active b then b else set_flags b (Z.lor (flags b) BUTTON_ACTIVE))
  else if is_active b then set_flags b (Z.land (flags b) (Z.lnot BUTTON_ACTIVE)) else b.
Definition released (b : ts_button) (samp : ts_sample) : bool := is_active b && negb (pressed samp).

Definition click_state (i : nat) (t : test_state) : test_state :=
  match i with 0%nat => set_mode 0 t | 1%nat => set_mode 1 t | _ => set_quit t end.

Definition button_state (samp : ts_sample) (t : test_state) (i : nat) : test_state :=
  match buttons t !! i with
  | Some b =>
      let t := set_buttons (<[i := handled b samp]> (buttons t)) t in
      if released b samp then click_state i t else t
  | None => t
  end.

Definition pen_state (samp : ts_sample) (t : test_state) : test_state :=
  if pressed samp then set_mode (Z.lor (mode t) 0x80000000) (set_cross (x samp) (y samp) t)
  else set_mode (Z.land (mode t) (u32 (Z.lnot 0x80000000))) t.

Definition step_state (t : test_state) (samp : ts_sample) : test_state :=
  pen_state samp (foldl (button_state samp) t (seq 0 3)).

Lemma is_active_odd b : is_active b = Z.odd (flags b).
Proof.
  unfold is_active, BUTTON_ACTIVE. change 1 with (Z.ones 1). rewrite Z.land_ones by lia. change (2 ^ 1) with 2.
  rewrite Zmod_odd. by destruct (Z.odd (flags b)).
Qed.

Lemma handled_active b samp : is_active (handled b samp) = pressed samp && inside b samp.
Proof.
  unfold handled. destruct (pressed samp && inside b samp), (is_active b) eqn:E; try done;
    rewrite is_active_odd; cbn [flags set_flags]; rewrite <- Z.bit0_odd; unfold BUTTON_ACTIVE.
  - by rewrite Z.lor_spec, orb_true_r.
  - by rewrite Z.land_spec, andb_false_r.
Qed.

Lemma handled_place b samp : ∃ f, handled b samp = set_flags b f.
Proof. unfold handled. repeat case_match; eauto; exists (flags b); by destruct b. Qed.

Lemma handled_same b samp : is_active (handled b samp) = is_active b → handled b samp = b.
Proof.
  rewrite handled_active. unfold handled. destruct (pressed samp && inside b samp), (is_active b); done.
Qed.

(** No button reacts to the sample. *)
Definition unaffected (samp : ts_sample) (bs : list ts_button) : Prop := Forall (λ b, handled b samp = b) bs.

Lemma unaffected_fold samp l t : unaffected samp (buttons t) → foldl (button_state samp) t l = t.
Proof.
  intros Hu. induction l as [|i l IH]; cbn [foldl]; [done|].
  assert (button_state samp t i = t) as ->; [|by apply IH]. unfold button_state. destruct (buttons t !! i) as [b|] eqn:Eb; [|done].
  pose proof (Forall_lookup_1 _ _ _ _ Hu Eb) as Eh. cbv beta in Eh. rewrite Eh, list_insert_id by done.
  assert (released b samp = false) as ->; [|by destruct t]. unfold released. destruct (is_active b) eqn:Ea; [|done]. cbn [andb].
  rewrite <- Eh, handled_active in Ea. apply andb_true_iff in Ea as [-> _]. done.
Qed.

Lemma lit_u8 str : Forall is_u8 (lit str).
Proof.
  induction str as [|c str IH]; cbn [lit]; constructor; [|done].
  pose proof (Ascii.N_ascii_bounded c). unfold is_u8. lia.
Qed.

Section pictures.
Context (s : screen) (colormap font : list Z) (L : nat).
Context (Hs : screen_ok s L) (Hfont : font_ok font) (Hmap : length colormap = 256%nat).

(** The characters of a button have pictures, and its frame is in reach. *)
Definition button_ok (b : ts_button) : Prop :=
  Forall is_u8 (text b) ∧ in_reach (bx b) ∧ in_reach (by_ b) ∧ in_reach (bx b + bw b - 1) ∧ in_reach (by_ b + bh b - 1).
Definition buttons_ok (bs : list ts_button) : Prop := Forall button_ok bs.
Definition cross_ok (t : test_state) : Prop := in_reach (cross_x t) ∧ in_reach (cross_y t).
Definition state_ok (t : test_state) : Prop :=
  mem_ok L (mem t) ∧ length (buttons t) = 3%nat ∧ buttons_ok (buttons t) ∧ cross_ok t.

(** A sample in reach. *)
Definition sample_ok (samp : ts_sample) : Prop := in_reach (x samp) ∧ in_reach (y samp).

Lemma plain_color c : 0 <= c < 255 → has_color colormap c ∧ xor_flag c = false ∧ color_ok colormap c.
Proof.
  intros Hc. unfold has_color, color_ok, color_index, xor_flag, is_u32. rewrite Z.land_ones, Z.mod_small by lia.
  rewrite Z.testbit_false, Z.div_small by lia. split_and!; done || lia.
Qed.

Lemma palette_color k c : rd button_palette k = Ok c → 0 <= c < 255.
Proof.
  intros [Hk Hc]%rd_Ok. apply list_elem_of_lookup_2 in Hc. unfold button_palette in Hc.
  rewrite !elem_of_cons, elem_of_nil in Hc. repeat destruct Hc as [->|Hc]; lia || done.
Qed.

Lemma plots_fillrect x1 y1 x2 y2 c : 0 <= c < 255 → plots s false (fillrect s colormap x1 y1 x2 y2 c).
Proof. intros Hc. destruct (plain_color c Hc) as (_ & <- & ?). by apply (plots_draw s colormap font L Hs Hfont c (DFill x1 y1 x2 y2)). Qed.

Lemma plots_text px py str c : 0 <= c < 255 → Forall is_u8 str → plots s false (put_string_center s colormap font px py str c).
Proof. intros Hc Ht. destruct (plain_color c Hc) as (_ & <- & ?). by apply (plots_draw s colormap font L Hs Hfont c (DTextCenter px py str)). Qed.

Lemma plots_button b : button_ok b → plots s false (button_draw s colormap font b).
Proof.
  intros (Ht & H1x & H1y & H2x & H2y). unfold button_draw. set (k := if is_active b then 3 else 0). assert (k = 0 ∨ k = 3) as Hk by (unfold k; destruct (is_active b); lia).
  assert (∀ i, 0 <= i <= 2 → ∃ c, rd button_palette (k + i) = Ok c ∧ 0 <= c < 255) as Hp.
  { intros i Hi. destruct (rd_is_ok button_palette (k + i)) as [c Hc]; [cbn; lia|]. exists c. split; [done|by eapply palette_color]. }
  destruct (Hp 0) as (c0 & E0 & H0), (Hp 1) as (c1 & E1 & H1), (Hp 2) as (c2 & E2 & H2); try lia. rewrite Z.add_0_r in E0.
  rewrite E0, E1, E2. cbn [mbind result_bind]. apply plots_bind; [|apply plots_bind].
  - destruct (plain_color c0 H0) as (? & <- & _). by apply plots_rect; auto using reach_next.
  - by apply plots_fillrect.
  - by apply plots_text.
Qed.

Lemma plots_buttons bs : buttons_ok bs → plots s false (draw_buttons s colormap font bs).
Proof. induction 1; cbn [draw_buttons]; [apply plots_ret|]. apply plots_bind; [by apply plots_button|done]. Qed.

Lemma plots_refresh bs : buttons_ok bs → plots s false (refresh_screen s colormap font bs).
Proof.
  intros Hb. unfold refresh_screen. apply plots_bind; [by apply plots_fillrect|].
  apply plots_bind; [by apply plots_text, lit_u8|]. apply plots_bind; [by apply plots_text, lit_u8|]. by apply plots_buttons.
Qed.

(** A button handles a sample. *)
Lemma button_handle_spec b samp m : mem_ok L m → button_ok b →
  ∃ m', button_handle s colormap font b samp m = Ok (handled b samp, m', released b samp) ∧ mem_ok L m' ∧ (handled b samp = b → m' = m).
Proof.
  intros Hm Ht. unfold button_handle, handled, released, pressed.
  assert (∀ f, (∃ m', button_draw s colormap font (set_flags b f) m = Ok m' ∧ mem_ok L m')) as Hdraw.
  { intros f. eapply (plots_mem_ok s L Hs); [|done]. by apply plots_button. }
  destruct (0 <? pressure samp) eqn:Ep; [destruct (inside b samp) eqn:Ei|]; cbn [andb]; destruct (is_active b) eqn:Ea; cbn [negb andb].
  all: try (by exists m).
  all: match goal with |- context [button_draw _ _ _ (set_flags _ ?f)] => destruct (Hdraw f) as (m' & -> & Hm'); exists m'; split_and!; [done|done|] end.
  all: intros E; exfalso; apply (f_equal is_active) in E; rewrite Ea in E; rewrite is_active_odd in E; cbn [flags set_flags] in E;
    rewrite <- Z.bit0_odd in E; unfold BUTTON_ACTIVE in E; rewrite ?Z.lor_spec, ?Z.land_spec in E;
    by rewrite ?orb_true_r, ?andb_false_r in E.
Qed.

Lemma button_state_mem samp m t i : button_state samp (set_mem m t) i = set_mem m (button_state samp t i).
Proof. unfold button_state. cbn [buttons set_mem]. destruct (buttons t !! i); [|done]. by destruct (released _ _), i as [|[|]]. Qed.

Lemma fold_buttons_mem samp m l : ∀ t, foldl (button_state samp) (set_mem m t) l = set_mem m (foldl (button_state samp) t l).
Proof. induction l as [|j l IH]; intros t; cbn [foldl]; [done|]. rewrite button_state_mem. apply IH. Qed.

Lemma buttons_click i t : buttons (click_state i t) = buttons t. Proof. by destruct i as [|[|]]. Qed.
Lemma mem_click i t : mem (click_state i t) = mem t. Proof. by destruct i as [|[|]]. Qed.

Lemma buttons_state samp t i b : buttons t !! i = Some b → buttons (button_state samp t i) = <[i := handled b samp]> (buttons t).
Proof. intros E. unfold button_state. rewrite E. by destruct (released b samp); rewrite ?buttons_click. Qed.

Lemma cross_click i t : cross_ok t → cross_ok (click_state i t). Proof. by destruct i as [|[|]]. Qed.

Lemma button_state_ok samp t i : state_ok t → state_ok (button_state samp t i).
Proof.
  intros (Hm & Hl & Ht & Hc). unfold state_ok. destruct (buttons t !! i) as [b|] eqn:E; [|unfold button_state; by rewrite E].
  rewrite (buttons_state _ _ _ b) by done. rewrite length_insert. split; [|split; [done|split]].
  - unfold button_state. rewrite E. by destruct (released b samp); rewrite ?mem_click.
  - apply Forall_insert; [done|]. destruct (handled_place b samp) as [f ->]. exact (Forall_lookup_1 _ _ _ _ Ht E).
  - unfold button_state. rewrite E. destruct (released b samp); [by apply cross_click|done].
Qed.

Lemma set_mem_ok m t : mem_ok L m → state_ok t → state_ok (set_mem m t).
Proof. by intros Hm (_ & ? & ? & ?). Qed.

Lemma set_mem_id t : set_mem (mem t) t = t.
Proof. by destruct t. Qed.

Section driver.
Context {D : Type} `{Driver treq treply D}.
Implicit Types w : world test_state treq D.

Lemma runs_drawing f w (Q : unit → world test_state treq D → Prop) : plots s false f → mem_ok L (mem (vars w)) →
  (∀ m', mem_ok L m' → Q tt (with_vars w (set_mem m' (vars w)))) → runs (drawing_ f) w Q.
Proof.
  intros Hf Hm HQ. destruct (plots_mem_ok s L Hs _ f _ Hf Hm) as (m' & E & Hm'). unfold drawing_.
  apply runs_get, runs_bind. eapply runs_lift; [done|]. by apply runs_modify, HQ.
Qed.

Lemma clicked_runs i w (Q : unit → world test_state treq D → Prop) : state_ok (vars w) →
  (∀ m', mem_ok L m' → Q tt (with_vars w (set_mem m' (click_state i (vars w))))) → runs (clicked s colormap font i) w Q.
Proof.
  intros (Hm & Hl & Ht & Hcr) HQ. destruct i as [|[|i]]; cbn [clicked].
  - apply runs_bind, runs_modify, runs_get, runs_drawing; [by apply plots_refresh|done|]. intros m' Hm'. by apply HQ.
  - apply runs_bind, runs_modify, runs_get, runs_drawing; [by apply plots_refresh|done|]. intros m' Hm'. by apply HQ.
  - apply runs_modify. specialize (HQ (mem (vars w)) Hm). by destruct (vars w).
Qed.

Lemma handle_one_runs i b samp w (Q : unit → world test_state treq D → Prop) : state_ok (vars w) → buttons (vars w) !! i = Some b →
  (∀ m', mem_ok L m' → (handled b samp = b → m' = mem (vars w)) → Q tt (with_vars w (set_mem m' (button_state samp (vars w) i)))) →
  runs (handle_one s colormap font i samp) w Q.
Proof.
  intros Hok Eb HQ. pose proof Hok as (Hm & Hl & Ht & Hcr). pose proof (lookup_lt_Some _ _ _ Eb) as Hi. unfold handle_one.
  apply runs_get, runs_bind. eapply runs_lift; [apply rd_Ok; rewrite Nat2Z.id; split; [lia|done]|].
  destruct (button_handle_spec b samp (mem (vars w)) Hm) as (m1 & E & Hm1 & Hsame); [exact (Forall_lookup_1 _ _ _ _ Ht Eb)|].
  apply runs_bind. eapply runs_lift; [done|]. cbn [fst snd]. apply runs_bind. eapply runs_lift; [apply wr_Ok; lia|].
  rewrite Nat2Z.id. apply runs_bind, runs_modify.
  assert (button_state samp (vars w) i = (if released b samp then click_state i else id) (set_buttons (<[i:=handled b samp]> (buttons (vars w))) (vars w))) as Es.
  { unfold button_state. rewrite Eb. by destruct (released b samp). }
  assert (state_ok (set_buttons (<[i:=handled b samp]> (buttons (vars w))) (set_mem m1 (vars w)))) as Hok1.
  { pose proof (button_state_ok samp _ i Hok) as (_ & Hl2 & Ht2 & _). rewrite (buttons_state _ _ _ b) in Hl2, Ht2 by done. by split_and!. }
  rewrite Es in HQ. destruct (released b samp) eqn:Er.
  - apply clicked_runs; [done|]. intros m' Hm'.
    assert (handled b samp ≠ b) as Hne.
    { intros E0. unfold released in Er. apply andb_true_iff in Er as [Ea Ep]. apply negb_true_iff in Ep.
      rewrite <- E0, handled_active, Ep in Ea. done. }
    specialize (HQ m' Hm' ltac:(done)). by destruct i as [|[|i]].
  - apply runs_ret. exact (HQ m1 Hm1 Hsame).
Qed.

Lemma handle_buttons_runs n i samp w (Q : unit → world test_state treq D → Prop) : state_ok (vars w) → (i + n <= 3)%nat →
  (∀ m', mem_ok L m' → (unaffected samp (buttons (vars w)) → m' = mem (vars w)) →
     Q tt (with_vars w (set_mem m' (foldl (button_state samp) (vars w) (seq i n))))) →
  runs (handle_buttons s colormap font n i samp) w Q.
Proof.
  revert i w. induction n as [|n IH]; intros i w Hok Hi HQ; cbn [handle_buttons].
  { apply runs_ret. specialize (HQ (mem (vars w)) (proj1 Hok) ltac:(done)). cbn in HQ. rewrite set_mem_id in HQ.
    by destruct w. }
  pose proof Hok as (Hm & Hl & Ht & Hcr). destruct (lookup_lt_is_Some_2 (buttons (vars w)) i) as [b Eb]; [lia|].
  apply runs_bind, (handle_one_runs i b); [done..|]. intros m1 Hm1 Hs1. set (t1 := button_state samp (vars w) i) in *.
  assert (state_ok t1) as Hok1 by (by apply button_state_ok).
  apply IH; [by apply set_mem_ok|lia|]. intros m' Hm' Hs'. cbn [with_vars vars] in *.
  pose proof (fold_buttons_mem samp m1 (seq (S i) n) t1) as Ef.
  rewrite Ef. cbn [seq foldl] in HQ. apply (HQ m' Hm'). intros Hu.
  assert (handled b samp = b) as Eh by exact (Forall_lookup_1 _ _ _ _ Hu Eb). rewrite Hs'; [by apply Hs1|].
  cbn [buttons set_mem]. unfold t1. rewrite (buttons_state _ _ _ b), Eh by done. by rewrite list_insert_id.
Qed.

(** Showing the cross and hiding it again restores the picture. *)
Lemma cross_twice px py m : in_reach px → in_reach py → mem_ok L m → ∃ m1, mem_ok L m1 ∧
  put_cross s colormap px py (Z.lor 2 XORMODE) m = Ok m1 ∧ put_cross s colormap px py (Z.lor 2 XORMODE) m1 = Ok m.
Proof.
  intros Hpx Hpy Hm. assert (color_ok colormap (Z.lor 2 XORMODE)) as Hc by (split_and!; [done|by vm_compute|by vm_compute]).
  pose proof (plots_draw s colormap font L Hs Hfont _ (DCross px py) Hc (conj Hpx Hpy)) as Hp. cbn [draw] in Hp.
  change (xor_flag (Z.lor 2 XORMODE)) with true in Hp. destruct (is_xor_plots s L Hs _ Hp) as (k & Hk & E).
  exists (xor_bytes m k). split_and!; [by apply mem_ok_xor|by apply E|]. rewrite E by (by apply mem_ok_xor).
  f_equal. destruct Hm, Hk. apply xor_self. lia.
Qed.

Lemma cross_around_read {A} w (k : Z * ts_sample → prog test_state treq D A) (Q : A → world test_state treq D → Prop) : state_ok (vars w) →
  (∀ w', vars w' = vars w → driver w' = driver (after w ReadSample) → runs (k (answer w ReadSample)) w' Q) →
  runs (_ ← toggle_cross s colormap; r ⇐ ReadSample; _ ← toggle_cross s colormap; k r) w Q.
Proof.
  intros Hok HQ. unfold toggle_cross. apply runs_bind, runs_get.
  destruct (Z.land (mode (vars w)) 15 =? 1) eqn:Em.
  { apply runs_ret, runs_request, runs_bind, runs_get. cbn [after vars]. rewrite Em. by apply runs_ret, HQ. }
  destruct (cross_twice (cross_x (vars w)) (cross_y (vars w)) (mem (vars w))) as (m1 & Hm1 & E1 & E2); [apply Hok..|].
  unfold drawing_. apply runs_get, runs_bind. eapply runs_lift; [exact E1|]. apply runs_modify, runs_request, runs_bind, runs_get.
  cbn [after with_vars vars set_mem mode cross_x cross_y]. rewrite Em. apply runs_get, runs_bind. eapply runs_lift; [exact E2|].
  apply runs_modify, HQ; [|done]. cbn. by destruct (vars w).
Qed.

Lemma follow_pen_runs samp w (Q : unit → world test_state treq D → Prop) : state_ok (vars w) → sample_ok samp →
  (∀ m', mem_ok L m' → (mode (vars w) ≠ 0x80000001 → m' = mem (vars w)) → Q tt (with_vars w (set_mem m' (pen_state samp (vars w))))) →
  runs (follow_pen s colormap samp) w Q.
Proof.
  intros (Hm & Hl & Ht & Hcx & Hcy) [Hsx Hsy] HQ. unfold follow_pen, pen_state, pressed in *. apply runs_get.
  destruct (0 <? pressure samp).
  2: { apply runs_modify. specialize (HQ _ Hm ltac:(done)). by destruct (vars w). }
  apply runs_bind. destruct (Z.eqb_spec (mode (vars w)) 0x80000001) as [Em|Em].
  - apply runs_drawing; [|done|].
    { destruct (plain_color 2) as (? & <- & _); [lia|]. by apply plots_line; auto using reach_next. }
    intros m' Hm'. apply runs_modify. exact (HQ m' Hm' ltac:(done)).
  - apply runs_ret, runs_modify. specialize (HQ _ Hm ltac:(done)). by destruct (vars w).
Qed.

Lemma foldl_state_ok samp l : ∀ t, state_ok t → state_ok (foldl (button_state samp) t l).
Proof. induction l as [|i l IH]; intros t Ht; cbn [foldl]; [done|]. by apply IH, button_state_ok. Qed.

Lemma pen_state_mem samp m t : pen_state samp (set_mem m t) = set_mem m (pen_state samp t).
Proof. unfold pen_state. by destruct (pressed samp). Qed.

(** A turn with a sample does what the reference says; without a reaction of a
    button and without a stroke the picture stays. *)
Lemma test_turn_runs w samp (Q : option Z → world test_state treq D → Prop) : state_ok (vars w) → sample_ok samp → answer w ReadSample = (1, samp) →
  (∀ m' w', mem_ok L m' → vars w' = set_mem m' (step_state (vars w) samp) → driver w' = driver (after w ReadSample) →
     (unaffected samp (buttons (vars w)) → mode (vars w) ≠ 0x80000001 → m' = mem (vars w)) →
     Q (if quit_pressed (step_state (vars w) samp) then Some 0 else None) w') →
  runs (turn s colormap font) w Q.
Proof.
  intros Hok Hsamp Ea HQ. unfold turn. apply cross_around_read; [done|]. intros w1 Ev Ed. rewrite Ea. cbn [fst snd].
  change (1 <? 0) with false. change (negb (1 =? 1)) with false. cbn iota. rewrite <- Ev in Hok, HQ.
  apply runs_bind, handle_buttons_runs; [done|lia|]. intros m1 Hm1 Hs1.
  pose proof (foldl_state_ok samp (seq 0 3) _ Hok) as Hok1. set (t1 := foldl (button_state samp) (vars w1) (seq 0 3)) in *.
  apply runs_bind, follow_pen_runs; [by apply set_mem_ok|done|]. intros m2 Hm2 Hs2. apply runs_get, runs_ret.
  cbn [with_vars vars] in *. rewrite pen_state_mem.
  change (quit_pressed _) with (quit_pressed (step_state (vars w1) samp)). apply (HQ m2); [done|done|done|].
  intros Hu Hmode. rewrite <- Hs1 by done. apply Hs2.
  unfold t1. by rewrite unaffected_fold.
Qed.
End driver.
End pictures.

(** ** Runs of the program *)

(** A touch screen that delivers one sample at a time. *)
Class Pen (D : Type) `{Driver treq treply D} := {
  samples : D → list ts_sample;
  pen_read (d : D) a r : samples d = a :: r →
    (respond d ReadSample).2 = (1, a) ∧ samples (respond d ReadSample).1 = r
}.

(** After how many samples a button is clicked: the pen was on it and is
    lifted. *)
Fixpoint clicks (b : ts_button) (on : bool) (ss : list ts_sample) : option nat :=
  match ss with
  | [] => None
  | a :: ss => if on && negb (pressed a) then Some 1%nat else S <$> clicks b (pressed a && inside b a) ss
  end.

Definition quit_button (s : screen) : ts_button := Button (u32 (3 * xres s) / 4) 10 (xres s / 4) 20 (lit "Quit") 0.

Lemma inside_place b b' f samp : b' = set_flags b f → inside b' samp = inside b samp.
Proof. by intros ->. Qed.

Lemma quit_click i t : quit_pressed (click_state i t) = (2 <=? i)%nat || quit_pressed t.
Proof. by destruct i as [|[|i]]. Qed.

(** The quit button over one sample. *)
Lemma step_quit t samp b0 b1 b2 : buttons t = [b0; b1; b2] →
  quit_pressed (step_state t samp) = released b2 samp || quit_pressed t ∧
  buttons (step_state t samp) = [handled b0 samp; handled b1 samp; handled b2 samp].
Proof.
  intros Eb. unfold step_state. cbn [seq foldl]. set (t1 := button_state samp t 0). set (t2 := button_state samp t1 1). set (t3 := button_state samp t2 2).
  assert (buttons t1 = [handled b0 samp; b1; b2]) as E1 by (unfold t1; by rewrite (buttons_state _ _ _ b0), Eb; [|rewrite Eb]).
  assert (buttons t2 = [handled b0 samp; handled b1 samp; b2]) as E2 by (unfold t2; by rewrite (buttons_state _ _ _ b1), E1; [|rewrite E1]).
  assert (buttons t3 = [handled b0 samp; handled b1 samp; handled b2 samp]) as E3 by (unfold t3; by rewrite (buttons_state _ _ _ b2), E2; [|rewrite E2]).
  assert (∀ u, buttons (pen_state samp u) = buttons u ∧ quit_pressed (pen_state samp u) = quit_pressed u) as Hpen
    by (intros u; unfold pen_state; by destruct (pressed samp)).
  rewrite (proj1 (Hpen t3)), (proj2 (Hpen t3)). split; [|done].
  assert (∀ u i b, buttons u !! i = Some b → quit_pressed (button_state samp u i) = (2 <=? i)%nat && released b samp || quit_pressed u) as Hq.
  { intros u i b E. unfold button_state. rewrite E. destruct (released b samp); [rewrite quit_click, andb_true_r|rewrite andb_false_r]; done. }
  unfold t3. rewrite (Hq _ _ b2) by (by rewrite E2). unfold t2. rewrite (Hq _ _ b1) by (by rewrite E1).
  unfold t1. rewrite (Hq _ _ b0) by (by rewrite Eb). done.
Qed.

Section runs.
Context (s : screen) (colormap font : list Z) (L : nat).
Context (Hs : screen_ok s L) (Hfont : font_ok font) (Hmap : length colormap = 256%nat).
Context {D : Type} `{Pen D}.
Implicit Types w : world test_state treq D.

Lemma step_state_ok t samp m : state_ok L t → sample_ok samp → mem_ok L m → state_ok L (set_mem m (step_state t samp)).
Proof.
  intros Ht Hsamp Hm. apply set_mem_ok; [done|]. pose proof (foldl_state_ok L samp (seq 0 3) t Ht) as (H1 & H2 & H3 & H4).
  unfold step_state, pen_state. destruct (pressed samp); [exact (conj H1 (conj H2 (conj H3 Hsamp)))|exact (conj H1 (conj H2 (conj H3 H4)))].
Qed.

Lemma main_loop_clicks k : ∀ w b0 b1 b2, state_ok L (vars w) → buttons (vars w) = [b0; b1; b2] → quit_pressed (vars w) = false →
  Forall sample_ok (samples (driver w)) → clicks b2 (is_active b2) (samples (driver w)) = Some k →
  runs (main_loop s colormap font k) w (λ z w', z = 0 ∧ samples (driver w') = drop k (samples (driver w)) ∧ state_ok L (vars w')).
Proof.
  induction k as [|k IH]; intros w b0 b1 b2 Hok Eb Eq Hin Hc.
  { destruct (samples (driver w)) as [|a ss]; [done|]. cbn [clicks] in Hc. destruct (_ && _); [done|]. by destruct (clicks _ _ ss). }
  destruct (samples (driver w)) as [|a ss] eqn:Es; [done|]. destruct (pen_read (driver w) a ss Es) as [Ha Hr].
  apply Forall_cons in Hin as [Hina Hin]. cbn [main_loop drop]. apply runs_bind. apply (test_turn_runs s colormap font L Hs Hfont Hmap w a); [done..|].
  intros m' w' Hm' Ev Ed _. destruct (step_quit (vars w) a b0 b1 b2 Eb) as [Hq Hbs]. rewrite Hq, Eq, orb_false_r.
  assert (samples (driver w') = ss) as Es' by (rewrite Ed; exact Hr).
  assert (state_ok L (vars w')) as Hok' by (rewrite Ev; by apply step_state_ok).
  cbn [clicks] in Hc. unfold released. destruct (is_active b2 && negb (pressed a)) eqn:Er.
  - injection Hc as <-. apply runs_ret. by rewrite Es'.
  - destruct (clicks b2 (pressed a && inside b2 a) ss) as [k'|] eqn:Ek; [|done]. injection Hc as ->.
    destruct (handled_place b2 a) as [f Ef].
    rewrite <- Es'. apply (IH w' (handled b0 a) (handled b1 a) (handled b2 a)); [done| | |by rewrite Es'|].
    + rewrite Ev. exact Hbs.
    + rewrite Ev. cbn [set_mem quit_pressed]. rewrite Hq, Eq. unfold released. by rewrite Er.
    + rewrite Es', handled_active. assert (∀ on, clicks (handled b2 a) on ss = clicks b2 on ss) as ->; [|done].
      rewrite Ef. clear. induction ss as [|c ss IH]; intros on; cbn [clicks]; [done|]. by rewrite IH.
Qed.

(** The pen is in Drag mode, and no sample is on a button. *)
Definition off_buttons (samp : ts_sample) (bs : list ts_button) : Prop := pressed samp = true → Forall (λ b, inside b samp = false) bs.

Fixpoint turns (n : nat) : prog test_state treq D unit :=
  match n with O => mret tt | S n => _ ← turn s colormap font; turns n end.

Lemma off_unaffected samp bs : off_buttons samp bs → Forall (λ b, is_active b = false) bs → unaffected samp bs.
Proof.
  unfold off_buttons, unaffected. intros Ho Ha. apply Forall_forall. intros b Hb. apply handled_same. rewrite handled_active.
  pose proof (proj1 (Forall_forall _ _) Ha b Hb) as Eb. cbn in Eb. rewrite Eb.
  destruct (pressed samp); [|done]. pose proof (proj1 (Forall_forall _ _) (Ho eq_refl) b Hb) as Ei. cbn in Ei. by rewrite Ei.
Qed.

Lemma turns_off_buttons n : ∀ w, state_ok L (vars w) → Forall (λ b, is_active b = false) (buttons (vars w)) →
  mode (vars w) = 0 ∨ mode (vars w) = 0x80000000 → (n <= length (samples (driver w)))%nat →
  Forall sample_ok (take n (samples (driver w))) → Forall (λ a, off_buttons a (buttons (vars w))) (take n (samples (driver w))) →
  runs (turns n) w (λ _ w', mem (vars w') = mem (vars w) ∧ samples (driver w') = drop n (samples (driver w))).
Proof.
  induction n as [|n IH]; intros w Hok Ha Hm Hn Hin Ho; cbn [turns]; [by apply runs_ret|].
  destruct (samples (driver w)) as [|a ss] eqn:Es; [cbn in Hn; lia|]. destruct (pen_read (driver w) a ss Es) as [Hans Hr].
  cbn [take drop] in *. apply Forall_cons in Ho as [Hoa Ho], Hin as [Hina Hin]. pose proof (off_unaffected a _ Hoa Ha) as Hu.
  apply runs_bind. apply (test_turn_runs s colormap font L Hs Hfont Hmap w a); [done..|]. intros m' w' Hm' Ev Ed Hkeep.
  assert (mode (vars w) ≠ 0x80000001) as Hmode by lia. rewrite (Hkeep Hu Hmode) in Ev.
  assert (samples (driver w') = ss) as Es' by (rewrite Ed; exact Hr).
  assert (step_state (vars w) a = pen_state a (vars w)) as Est by (unfold step_state; by rewrite unaffected_fold).
  assert (buttons (vars w') = buttons (vars w) ∧ (mode (vars w') = 0 ∨ mode (vars w') = 0x80000000)) as [Eb Em].
  { rewrite Ev, Est. unfold pen_state. destruct (pressed a); cbn; split; try done; destruct Hm as [-> | ->]; by vm_compute; auto. }
  eapply runs_mono; [apply IH|].
  - rewrite Ev. apply step_state_ok; [done|done|]. apply Hok.
  - by rewrite Eb.
  - done.
  - rewrite Es'. cbn in Hn. lia.
  - by rewrite Es'.
  - by rewrite Es', Eb.
  - cbv beta. rewrite Es', Ev. done.
Qed.
End runs.


Lemma first_buttons_ok s L : screen_ok s L → buttons_ok (first_buttons s).
Proof.
  intros [? Hx _ Hb _ _]. unfold buttons_ok, first_buttons, button_ok, in_reach. cbn [text bx by_ bw bh].
  rewrite (u32_id (3 * xres s)) by (unfold is_u32; lia).
  pose proof (Z.div_pos (xres s) 4). pose proof (Z.div_lt_upper_bound (xres s) 4 536870912).
  pose proof (Z.div_pos (3 * xres s) 8). pose proof (Z.div_lt_upper_bound (3 * xres s) 8 536870912).
  pose proof (Z.div_pos (3 * xres s) 4). pose proof (Z.div_lt_upper_bound (3 * xres s) 4 536870912).
  repeat (apply Forall_cons; split; [split; [apply lit_u8|cbn [bx by_ bw bh]; lia]|]). done.
Qed.

Lemma first_state_ok s L t : screen_ok s L → mem_ok L (mem t) → state_ok L (first_state s t).
Proof.
  intros Hs Hm. split; [done|]. split; [done|]. split; [by eapply first_buttons_ok|]. destruct Hs.
  unfold cross_ok, first_state, in_reach. cbn [cross_x cross_y].
  pose proof (Z.div_pos (xres s) 2). pose proof (Z.div_lt_upper_bound (xres s) 2 536870912).
  pose proof (Z.div_pos (yres s) 2). pose proof (Z.div_lt_upper_bound (yres s) 2 536870912).
  rewrite !s32_id by (unfold is_s32; lia). lia.
Qed.

(** The test program ends with the sample that lifts the pen from the Quit
    button, and serves every sample before it without a fault, on a screen of
    any pixel format and of a size below 2^29; the samples are in reach. *)
Theorem main_ends_at_quit s colormap font L {D} `{Pen D} (w : world test_state treq D) k :
  screen_ok s L → font_ok font → length colormap = 256%nat → mem_ok L (mem (vars w)) →
  Forall sample_ok (samples (driver w)) → clicks (quit_button s) false (samples (driver w)) = Some k →
  ∃ w', main s colormap font k w = Ok (0, w') ∧ samples (driver w') = drop k (samples (driver w)) ∧ mem_ok L (mem (vars w')).
Proof.
  intros Hs Hf Hc Hm Hin Hk. pose proof (first_state_ok s L (vars w) Hs Hm) as Hok.
  assert (runs (main s colormap font k) w (λ z w', z = 0 ∧ samples (driver w') = drop k (samples (driver w)) ∧ state_ok L (vars w')))
    as (z & w' & E & -> & Hd & Hok').
  { unfold main. apply runs_bind, runs_modify, runs_get, runs_bind.
    apply (runs_drawing s L Hs); [apply (plots_refresh s colormap font L); done || apply Hok|done|]. intros m' Hm'.
    match goal with |- runs _ ?w1 _ => apply (main_loop_clicks s colormap font L Hs Hf Hc k w1 _ _ _ (set_mem_ok L _ _ Hm' Hok) eq_refl eq_refl Hin Hk) end. }
  exists w'. split_and!; [done..|]. apply Hok'.
Qed.

(** While the pen draws nothing and touches no button, in Drag mode, the
    moving cross leaves no trace: the picture after any number of samples is the
    one before. *)
Theorem cross_leaves_no_trace s colormap font L {D} `{Pen D} (w : world test_state treq D) n :
  screen_ok s L → font_ok font → length colormap = 256%nat → state_ok L (vars w) →
  Forall (λ b, is_active b = false) (buttons (vars w)) → mode (vars w) = 0 →
  (n <= length (samples (driver w)))%nat → Forall sample_ok (take n (samples (driver w))) →
  Forall (λ a, off_buttons a (buttons (vars w))) (take n (samples (driver w))) →
  ∃ w', turns s colormap font n w = Ok (tt, w') ∧ mem (vars w') = mem (vars w) ∧ samples (driver w') = drop n (samples (driver w)).
Proof.
  intros Hs Hf Hc Hok Ha Hm Hn Hin Ho.
  destruct (turns_off_buttons s colormap font L Hs Hf Hc n w Hok Ha (or_introl Hm) Hn Hin Ho) as ([] & w' & E & HQ). by exists w'.
Qed.

(** The click that ends the program: the pen is on the button with one sample
    and lifted with the next. *)
Lemma clicks_last b ss k : clicks b false ss = Some k →
  ∃ a c, ss !! (k - 2)%nat = Some a ∧ ss !! (k - 1)%nat = Some c ∧ pressed a = true ∧ inside b a = true ∧ pressed c = false.
Proof.
  assert (∀ on, clicks b on ss = Some k → (on = true ∧ k = 1%nat ∧ ∃ c, ss !! 0%nat = Some c ∧ pressed c = false) ∨
    (2 <= k)%nat ∧ ∃ a c, ss !! (k - 2)%nat = Some a ∧ ss !! (k - 1)%nat = Some c ∧ pressed a = true ∧ inside b a = true ∧ pressed c = false) as Hgen.
  { revert k. induction ss as [|a ss IH]; intros k on Hc; [done|]. cbn [clicks] in Hc.
    destruct (on && negb (pressed a)) eqn:E.
    - injection Hc as <-. apply andb_true_iff in E as [-> E]. apply negb_true_iff in E. left. split_and!; [done..|]. by exists a.
    - destruct (clicks b (pressed a && inside b a) ss) as [k'|] eqn:Ek; [|done]. injection Hc as <-. right.
      destruct (IH k' _ Ek) as [(Eon & -> & c & Ec & Hp)|(Hk & a' & c & Ea & Ec & Hr)].
      + apply andb_true_iff in Eon as [E1 E2]. split; [lia|]. by exists a, c.
      + split; [lia|]. exists a', c. replace (S k' - 2)%nat with (S (k' - 2)) by lia. replace (S k' - 1)%nat with (S (k' - 1)) by lia. done. }
  intros Hc. destruct (Hgen false Hc) as [(? & _)|(_ & ?)]; done.
Qed.

(** ** A pen with given samples *)

Record queue := Queue { queued : list ts_sample }.

#[export] Instance queue_driver : Driver treq treply queue := λ d r,
  match r return queue * treply r with
  | ReadSample | ReadRaw =>
      match queued d with
      | a :: q => (Queue q, (1, a))
      | [] => (d, (-1, Sample 0 0 0 0))
      end
  | Select => (d, Z.of_nat (length (queued d)))
  | Usleep => (d, tt)
  end.

#[export] Program Instance queue_pen : Pen queue := {| samples := queued |}.
Next Obligation. intros [q] a r E. cbn in *. by rewrite E. Qed.

Definition quit_click_samples : list ts_sample :=
  [Sample 3 3 9 0; Sample 4 5 9 1; Sample 4 5 0 2; Sample 13 12 9 3; Sample 14 12 8 4; Sample 14 12 0 5; Sample 1 1 1 6].
Definition demo_world (l : list ts_sample) : world test_state treq queue :=
  World (TestState demo_memory 3 4 0 false (first_buttons demo_screen)) (Queue l) [].

Lemma demo_memory_ok : mem_ok 320 demo_memory.
Proof. split; [done|]. by apply Forall_replicate. Qed.

Lemma main_ends_at_quit_witness :
  ∃ w', main demo_screen demo_colors demo_font 6 (demo_world quit_click_samples) = Ok (0, w') ∧
    queued (driver w') = [Sample 1 1 1 6] ∧ mem_ok 320 (mem (vars w')).
Proof.
  destruct (main_ends_at_quit demo_screen demo_colors demo_font 320 (demo_world quit_click_samples) 6) as (w' & E & Hd & Hm).
  - apply demo_screen_ok.
  - done.
  - done.
  - apply demo_memory_ok.
  - repeat constructor; vm_compute; discriminate.
  - reflexivity.
  - exists w'. refine (conj E (conj _ Hm)). etransitivity; [exact Hd|reflexivity].
Defined.

Lemma cross_leaves_no_trace_witness :
  ∃ w', turns demo_screen demo_colors demo_font 3 (demo_world quit_click_samples) = Ok (tt, w') ∧ mem (vars w') = demo_memory.
Proof.
  destruct (cross_leaves_no_trace demo_screen demo_colors demo_font 320 (demo_world quit_click_samples) 3) as (w' & E & Hm & _).
  - apply demo_screen_ok.
  - done.
  - done.
  - split; [apply demo_memory_ok|]. split; [done|]. split; [eapply first_buttons_ok, demo_screen_ok|].
    split; vm_compute; by split.
  - by repeat constructor.
  - done.
  - cbn; lia.
  - repeat constructor; vm_compute; discriminate.
  - repeat (apply Forall_cons; split; [intros _; by repeat constructor|]). done.
  - exists w'. exact (conj E Hm).
Defined.
