(* ===== verification/TsCalib.v ===== *)
(** * TsCalib: collecting the samples for a calibration

    Models src/tslib-1.1/tests/testutils.c, the median of the samples of a touch,
    and what ts_calibrate.c does around it: the crosses that lead the user to
    the next point and the emptying of the device's queue. *)
From Stdlib Require Import Sorted Permutation.
From S2P Require Import Prelude LibC Bytes Device Runs Tslib FbUtils TsTest.
Local Open Scope cmodel_scope.
Local Open Scope Z_scope.

Definition MAX_SAMPLES : Z := 128.

(** [qsort] with a comparison function; the order of equal elements, which the C
    library leaves open, does not matter to the values that are used. *)
Fixpoint insert_by (cmp : ts_sample → ts_sample → Z) (a : ts_sample) (l : list ts_sample) : list ts_sample :=
  match l with
  | [] => [a]
  | b :: l => if cmp a b <=? 0 then a :: b :: l else b :: insert_by cmp a l
  end.
Definition qsort (cmp : ts_sample → ts_sample → Z) (l : list ts_sample) : list ts_sample := foldr (insert_by cmp) [] l.

Definition sort_by_x (a b : ts_sample) : Z := s32 (x a - x b).
Definition sort_by_y (a b : ts_sample) : Z := s32 (y a - y b).

(** Sorts the first [index] samples and takes the middle one, or the mean of the
    two in the middle. *)
Definition middle_value (cmp : ts_sample → ts_sample → Z) (key : ts_sample → Z) (samp : list ts_sample) (index : Z) : result (list ts_sample * Z) :=
  let samp := qsort cmp (take (Z.to_nat index) samp) ++ drop (Z.to_nat index) samp in
  let middle := Z.quot index 2 in
  b ← rd samp middle;
  if negb (Z.land index 1 =? 0) then Ok (samp, key b) else
  a ← rd samp (middle - 1);
  Ok (samp, Z.quot (s32 (key a + key b)) 2).

Section program.
Context {V D : Type} `{Driver treq treply D}.
Notation P := (prog V treq D).

(** A raw read into entry [i]: [None] when it fails. *)
Definition read_raw (samp : list ts_sample) (i : Z) : P (option (list ts_sample)) :=
  r ⇐ ReadRaw;
  if r.1 <? 0 then mret None else
  if r.1 =? 0 then mret (Some samp) else
  samp ← lift (wr samp i r.2); mret (Some samp).

(** The two loops of [getxy]; [None]: the program ends after an error. *)
Fixpoint wait_touch (fuel : nat) (samp : list ts_sample) : P (option (list ts_sample)) :=
  match fuel with
  | O => fault OutOfFuel
  | S fuel =>
      r ← read_raw samp 0;
      match r with
      | None => mret None
      | Some samp => a ← lift (rd samp 0); if pressure a =? 0 then wait_touch fuel samp else mret (Some samp)
      end
  end.

Fixpoint collect (fuel : nat) (index : Z) (samp : list ts_sample) : P (option (list ts_sample * Z)) :=
  match fuel with
  | O => fault OutOfFuel
  | S fuel =>
      let index := if index <? MAX_SAMPLES - 1 then index + 1 else index in
      r ← read_raw samp index;
      match r with
      | None => mret None
      | Some samp => a ← lift (rd samp index); if 0 <? pressure a then collect fuel index samp else mret (Some (samp, index))
      end
  end.

(** [samp] is the array with what it holds before it is filled. *)
Definition getxy (fuel : nat) (samp : list ts_sample) : P (option (Z * Z)) :=
  r ← wait_touch fuel samp;
  match r with
  | None => mret None
  | Some samp =>
      r ← collect fuel 0 samp;
      match r with
      | None => mret None
      | Some (samp, index) =>
          rx ← lift (middle_value sort_by_x x samp index);
          ry ← lift (middle_value sort_by_y y rx.1 index);
          mret (Some (rx.2, ry.2))
      end
  end.
End program.

(** ** ts_calibrate.c *)

Definition NR_STEPS : nat := 10.

(** The frame buffer, the static variables of [get_sample] and the arrays of the
    calibration. *)
Record calib := Calib { c_mem : list Z; last_x : Z; last_y : Z; cal_x : list Z; cal_y : list Z; xfb : list Z; yfb : list Z }.
Definition set_c_mem (m : list Z) (c : calib) := Calib m (last_x c) (last_y c) (cal_x c) (cal_y c) (xfb c) (yfb c).
Definition set_last (px py : Z) (c : calib) := Calib (c_mem c) px py (cal_x c) (cal_y c) (xfb c) (yfb c).

Section calibrate.
Context (s : screen) (colormap : list Z) {D : Type} `{Driver treq treply D}.
Notation P := (prog calib treq D).

Definition cross (px py : Z) : P unit :=
  c ← get; m ← lift (put_cross s colormap px py (Z.lor 2 XORMODE) (c_mem c)); modify (set_c_mem m).

(** The cross moves from the last point to the next one. *)
Fixpoint animate (n : nat) (lx ly dx dy : Z) : P unit :=
  match n with
  | O => mret tt
  | S n =>
      _ ← cross (Z.shiftr lx 16) (Z.shiftr ly 16);
      _ ⇐ Usleep;
      _ ← cross (Z.shiftr lx 16) (Z.shiftr ly 16);
      animate n (s32 (lx + dx)) (s32 (ly + dy)) dx dy
  end.

(** [None]: the program ends. *)
Definition get_sample (fuel : nat) (samp : list ts_sample) (index px py : Z) : P (option unit) :=
  c ← get;
  _ ← (if negb (last_x c =? -1) then
         animate NR_STEPS (fixed (last_x c)) (fixed (last_y c))
           (Z.quot (fixed (px - last_x c)) 10) (Z.quot (fixed (py - last_y c)) 10)
       else mret tt);
  _ ← cross px py;
  r ← getxy fuel samp;
  match r with
  | None => mret None
  | Some (vx, vy) =>
      c ← get;
      cx ← lift (wr (cal_x c) index vx); cy ← lift (wr (cal_y c) index vy);
      _ ← modify (λ c, Calib (c_mem c) (last_x c) (last_y c) cx cy (xfb c) (yfb c));
      _ ← cross px py;
      c ← get;
      fx ← lift (wr (xfb c) index px); fy ← lift (wr (yfb c) index py);
      _ ← modify (λ c, set_last px py (Calib (c_mem c) (last_x c) (last_y c) (cal_x c) (cal_y c) fx fy));
      mret (Some tt)
  end.

(** Samples are read until none is waiting. *)
Fixpoint clearbuf (fuel : nat) : P (option unit) :=
  match fuel with
  | O => fault OutOfFuel
  | S fuel =>
      nfds ⇐ Select;
      if (nfds : Z) =? 0 then mret (Some tt) else
      r ⇐ ReadRaw;
      if r.1 <? 0 then mret None else clearbuf fuel
  end.

(** The five points of [main]. *)
Definition points : list (Z * Z) :=
  let '(w, h) := (s32 (xres s - 50), s32 (yres s - 50)) in
  [(50, 50); (w, 50); (w, h); (50, h); (s32 (xres s / 2), s32 (yres s / 2))].

Fixpoint take_samples (fuel : nat) (samp : list ts_sample) (index : Z) (pts : list (Z * Z)) : P (option unit) :=
  match pts with
  | [] => mret (Some tt)
  | (px, py) :: pts =>
      r ← clearbuf fuel;
      match r with
      | None => mret None
      | Some _ =>
          r ← get_sample fuel samp index px py;
          match r with None => mret None | Some _ => take_samples fuel samp (index + 1) pts end
      end
  end.
End calibrate.

(** ** The median *)

Definition small_coord (z : Z) : Prop := -1073741824 <= z < 1073741824.
Definition small_samples (l : list ts_sample) : Prop := Forall (λ a, small_coord (x a) ∧ small_coord (y a)) l.

(** The middle of the sorted values, or the mean of the two in the middle. *)
Definition median_of (l : list Z) (v : Z) : Prop :=
  ∃ sorted, sorted ≡ₚ l ∧ Sorted Z.le sorted ∧
    let m := (length l / 2)%nat in
    if Nat.odd (length l) then sorted !! m = Some v
    else ∃ a b, sorted !! (m - 1)%nat = Some a ∧ sorted !! m = Some b ∧ v = Z.quot (a + b) 2.

Lemma odd_of_nat n : Z.odd (Z.of_nat n) = Nat.odd n.
Proof.
  induction n as [|n IH]; [done|]. rewrite Nat2Z.inj_succ, Z.odd_succ, Nat.odd_succ, <- Z.negb_odd, <- Nat.negb_odd. by rewrite IH.
Qed.

Section sorting.
Context (cmp : ts_sample → ts_sample → Z) (key : ts_sample → Z).
Definition compares (l : list ts_sample) : Prop := ∀ a b, a ∈ l → b ∈ l → cmp a b <= 0 ↔ key a <= key b.

Lemma insert_by_perm a l : insert_by cmp a l ≡ₚ a :: l.
Proof.
  induction l as [|b l IH]; cbn [insert_by]; [done|]. destruct (_ <=? _); [done|]. rewrite IH. apply perm_swap.
Qed.

Lemma qsort_perm l : qsort cmp l ≡ₚ l.
Proof. induction l as [|a l IH]; [done|]. cbn [qsort foldr]. fold (qsort cmp l). by rewrite insert_by_perm, IH. Qed.

Lemma insert_by_sorted a l : compares (a :: l) → Sorted Z.le (key <$> l) → Sorted Z.le (key <$> insert_by cmp a l).
Proof.
  induction l as [|b l IH]; intros Hc Hs; cbn [insert_by]; [by repeat constructor|].
  destruct (Z.leb_spec (cmp a b) 0) as [Hle|Hlt].
  - cbn. constructor; [done|]. constructor. apply Hc; [set_solver..|lia].
  - cbn in Hs |- *. apply Sorted_inv in Hs as [Hs Hh].
    assert (key b <= key a) as Hba.
    { destruct (Z.le_ge_cases (key a) (key b)) as [Hk|]; [|done]. apply (Hc a b) in Hk; [lia|set_solver..]. }
    constructor; [apply IH; [intros c d ? ?; apply Hc; set_solver|done]|].
    destruct l as [|c l]; cbn [insert_by]; [by repeat constructor|]. destruct (_ <=? _); cbn; constructor; [done|]. by inversion Hh.
Qed.

Lemma qsort_sorted l : compares l → Sorted Z.le (key <$> qsort cmp l).
Proof.
  induction l as [|a l IH]; intros Hc; [constructor|]. cbn [qsort foldr]. fold (qsort cmp l). apply insert_by_sorted.
  - intros b c Hb Hcc. rewrite qsort_perm in Hb, Hcc. by apply Hc.
  - apply IH. intros b c ? ?. apply Hc; set_solver.
Qed.

(** The value is the median of the first [n] samples, which keep their place as
    a group. *)
Lemma middle_value_median samp n : (0 < n <= length samp)%nat → compares (take n samp) →
  Forall (λ a, small_coord (key a)) (take n samp) →
  ∃ samp' v, middle_value cmp key samp (Z.of_nat n) = Ok (samp', v) ∧ take n samp' ≡ₚ take n samp ∧ length samp' = length samp ∧
    median_of (key <$> take n samp) v.
Proof.
  intros Hn Hc Hsm. unfold middle_value. rewrite Nat2Z.id. set (q := qsort cmp (take n samp)).
  assert (q ≡ₚ take n samp) as Hq by apply qsort_perm. assert (length q = n) as Hlq by (rewrite Hq, length_take; lia).
  set (samp' := q ++ drop n samp). assert (take n samp' = q) as Ht by (unfold samp'; by rewrite <- Hlq, take_app_length).
  assert (length samp' = length samp) as Hl by (unfold samp'; rewrite length_app, length_drop; lia).
  rewrite Z.quot_div_nonneg by lia. change 2 with (Z.of_nat 2). rewrite <- Nat2Z.inj_div. set (m := (n / 2)%nat).
  assert (m < n)%nat as Hm by (apply Nat.div_lt; lia).
  assert (∀ i, (i < n)%nat → ∃ a, rd samp' (Z.of_nat i) = Ok a ∧ (key <$> q) !! i = Some (key a) ∧ small_coord (key a)) as Hrd.
  { intros i Hi. destruct (lookup_lt_is_Some_2 q i) as [a Ea]; [lia|]. exists a. split_and!.
    - apply rd_Ok. rewrite Nat2Z.id. split; [lia|]. unfold samp'. by rewrite lookup_app_l by lia.
    - by rewrite list_lookup_fmap, Ea.
    - apply list_elem_of_lookup_2 in Ea. rewrite Hq in Ea. by apply (proj1 (Forall_forall _ _) Hsm). }
  destruct (Hrd m Hm) as (b & -> & Eb & Hsb). cbn [mbind result_bind].
  assert (length (key <$> take n samp) = n) as Hlen by (rewrite length_fmap, length_take; lia).
  assert (Z.land (Z.of_nat n) 1 = Z.b2z (Nat.odd n)) as Eodd.
  { change 1 with (Z.ones 1). rewrite Z.land_ones by lia. change (2 ^ 1) with 2. rewrite Zmod_odd, odd_of_nat. by destruct (Nat.odd n). }
  rewrite Eodd. destruct (Nat.odd n) eqn:Eo; cbn [Z.b2z negb Z.eqb].
  - exists samp', (key b). split_and!; [done|by rewrite Ht|done|]. exists (key <$> q). split_and!; [by rewrite Hq|by apply qsort_sorted|].
    by rewrite Hlen, Eo.
  - assert (1 <= m)%nat as Hm1.
    { unfold m. destruct n as [|[|n]]; [lia|done|]. apply (Nat.div_le_lower_bound _ 2 1); lia. }
    destruct (Hrd (m - 1)%nat) as (a & Ea & Ea' & Hsa); [lia|]. replace (Z.of_nat m - 1) with (Z.of_nat (m - 1)) by lia.
    rewrite Ea. cbn [mbind result_bind]. exists samp', (Z.quot (key a + key b) 2).
    unfold small_coord in *. rewrite s32_id by (unfold is_s32; lia). split_and!; [done|by rewrite Ht|done|].
    exists (key <$> q). split_and!; [by rewrite Hq|by apply qsort_sorted|]. rewrite Hlen, Eo. by exists (key a), (key b).
Qed.
End sorting.

(** ** A touch *)

(** A touch screen that delivers one raw sample at a time. *)
Class RawPen (D : Type) `{Driver treq treply D} := {
  raw : D → list ts_sample;
  raw_read (d : D) a r : raw d = a :: r → (respond d ReadRaw).2 = (1, a) ∧ raw (respond d ReadRaw).1 = r;
  raw_kept (d : D) : raw (respond d Usleep).1 = raw d
}.

Section touch.
Context {V D : Type} `{RawPen D}.
Implicit Types w : world V treq D.

Definition reads (a : ts_sample) (w w' : world V treq D) : Prop := vars w' = vars w ∧ raw (driver w) = a :: raw (driver w').

Lemma read_raw_runs samp i w a r (Q : option (list ts_sample) → world V treq D → Prop) :
  raw (driver w) = a :: r → 0 <= i < Z.of_nat (length samp) →
  (∀ w', vars w' = vars w → raw (driver w') = r → Q (Some (<[Z.to_nat i := a]> samp)) w') → runs (read_raw samp i) w Q.
Proof.
  intros Er Hi HQ. destruct (raw_read (driver w) a r Er) as [Ha Hr]. unfold read_raw. apply runs_request. unfold answer. rewrite Ha. cbn [fst snd].
  change (1 <? 0) with false. change (1 =? 0) with false. cbn iota. apply runs_bind. eapply runs_lift; [by apply wr_Ok|].
  by apply runs_ret, HQ.
Qed.

Lemma wait_touch_runs idle : ∀ fuel samp w a r (Q : option (list ts_sample) → world V treq D → Prop),
  raw (driver w) = idle ++ a :: r → Forall (λ b, pressure b = 0) idle → 0 < pressure a → (0 < length samp)%nat → (length idle < fuel)%nat →
  (∀ samp' w', vars w' = vars w → raw (driver w') = r → length samp' = length samp → samp' !! 0%nat = Some a → Q (Some samp') w') →
  runs (wait_touch fuel samp) w Q.
Proof.
  induction idle as [|b idle IH]; intros [|fuel] samp w a r Q Er Hid Ha Hl Hf HQ; cbn [length] in Hf; try lia; cbn [wait_touch app] in *.
  - apply runs_bind. eapply read_raw_runs; [done|lia|]. intros w' Ev Er'. change (Z.to_nat 0) with 0%nat.
    apply runs_bind. eapply runs_lift; [apply rd_Ok; split; [done|]; by apply list_lookup_insert_eq|].
    rewrite (proj2 (Z.eqb_neq _ _)) by lia. apply runs_ret, HQ; [done|done|apply length_insert|by apply list_lookup_insert_eq].
  - apply Forall_cons in Hid as [Hb Hid]. apply runs_bind. eapply read_raw_runs; [done|lia|]. intros w' Ev Er'. change (Z.to_nat 0) with 0%nat.
    apply runs_bind. eapply runs_lift; [apply rd_Ok; split; [done|]; by apply list_lookup_insert_eq|]. rewrite Hb. change (0 =? 0) with true. cbn iota.
    eapply IH; [done|done|done|rewrite length_insert; lia|lia|]. intros samp' w2 Ev2 Er2 Hl2 Hs2.
    apply HQ; [by rewrite Ev2|done|by rewrite Hl2, length_insert|done].
Qed.

(** The samples that are used: the first 127 of the touch. *)
Definition used (touch : list ts_sample) : list ts_sample := take 127 touch.

Lemma collect_runs more : ∀ fuel seen samp w lift r (Q : option (list ts_sample * Z) → world V treq D → Prop),
  raw (driver w) = more ++ lift :: r → Forall (λ b, 0 < pressure b) more → pressure lift <= 0 →
  length samp = 128%nat → (0 < length seen)%nat → take (Nat.min (length seen) 127) samp = used seen → (length more < fuel)%nat →
  (∀ samp' w', vars w' = vars w → raw (driver w') = r → length samp' = 128%nat →
     take (Nat.min (length (seen ++ more)) 127) samp' = used (seen ++ more) →
     Q (Some (samp', Z.of_nat (Nat.min (length (seen ++ more)) 127))) w') →
  runs (collect fuel (Z.of_nat (Nat.min (length seen - 1) 127)) samp) w Q.
Proof.
  induction more as [|b more IH]; intros [|fuel] seen samp w lift r Q Er Hm Hlift Hl Hs Ht Hf HQ; cbn [length] in Hf; try lia; cbn [collect app] in *;
    (assert ((if Z.of_nat (Nat.min (length seen - 1) 127) <? MAX_SAMPLES - 1
              then Z.of_nat (Nat.min (length seen - 1) 127) + 1 else Z.of_nat (Nat.min (length seen - 1) 127)) = Z.of_nat (Nat.min (length seen) 127)) as ->
       by (unfold MAX_SAMPLES; destruct (Z.ltb_spec (Z.of_nat (Nat.min (length seen - 1) 127)) (128 - 1)); lia));
    apply runs_bind; (eapply read_raw_runs; [done|lia|]); intros w' Ev Er'; rewrite Nat2Z.id;
    apply runs_bind; (eapply runs_lift; [apply rd_Ok; rewrite Nat2Z.id; split; [lia|]; apply list_lookup_insert_eq; lia|]).
  - rewrite (proj2 (Z.ltb_ge _ _)) by lia. rewrite app_nil_r in HQ. apply runs_ret, HQ; [done|done|by rewrite length_insert|].
    by rewrite take_insert_ge by lia.
  - apply Forall_cons in Hm as [Hb Hm]. rewrite (proj2 (Z.ltb_lt _ _)) by lia.
    replace (Nat.min (length seen) 127) with (Nat.min (length (seen ++ [b]) - 1) 127) by (rewrite length_app; cbn; lia).
    rewrite cons_middle, app_assoc in HQ.
    eapply IH; [done|done|done|by rewrite length_insert|rewrite length_app; lia| |lia|].
    + rewrite !length_app. cbn [length]. rewrite Nat.add_sub. unfold used in *. destruct (decide (length seen < 127)%nat) as [Hlt|Hge].
      * rewrite !Nat.min_l in * by lia. rewrite Nat.add_1_r, take_insert_snoc by lia. rewrite Ht, !take_ge by (rewrite ?length_app; cbn; lia). done.
      * rewrite !Nat.min_r in * by lia. rewrite take_insert_ge, Ht by lia. by rewrite take_app_le by lia.
    + intros samp' w2 Ev2 Er2 Hl2 Ht2. apply HQ; [by rewrite Ev2|done..].
Qed.

Lemma compares_small cmp key l : (∀ a b, cmp a b = s32 (key a - key b)) → Forall (λ a, small_coord (key a)) l → compares cmp key l.
Proof.
  intros Hcmp Hl a b Ha Hb. pose proof (proj1 (Forall_forall _ _) Hl a Ha) as H1. pose proof (proj1 (Forall_forall _ _) Hl b Hb) as H2.
  unfold small_coord in *. cbv beta in *. rewrite Hcmp, s32_id by (unfold is_s32; lia). lia.
Qed.

(** A touch gives the medians of its first 127 samples. *)
Lemma getxy_runs fuel samp w idle touch lift r (Q : option (Z * Z) → world V treq D → Prop) :
  raw (driver w) = idle ++ touch ++ lift :: r → Forall (λ b, pressure b = 0) idle → touch ≠ [] → Forall (λ b, 0 < pressure b) touch →
  pressure lift <= 0 → small_samples touch → length samp = 128%nat → (length idle + length touch < fuel)%nat →
  (∀ vx vy w', vars w' = vars w → raw (driver w') = r → median_of (x <$> used touch) vx → median_of (y <$> used touch) vy → Q (Some (vx, vy)) w') →
  runs (getxy fuel samp) w Q.
Proof.
  intros Er Hid Hne Ht Hlift Hsm Hl Hf HQ. destruct touch as [|a touch]; [done|]. unfold getxy.
  pose proof Ht as [Ha Ht']%Forall_cons. cbn [length] in Hf.
  apply runs_bind. eapply wait_touch_runs; [exact Er|done|done|lia|lia|]. intros samp1 w1 Ev1 Er1 Hl1 H01.
  apply runs_bind. change 0 with (Z.of_nat (Nat.min (length [a] - 1) 127)).
  eapply collect_runs; [exact Er1|done|done|lia|cbn; lia| |lia|].
  { cbn [length]. change (Nat.min 1 127) with 1%nat. change (used [a]) with [a]. destruct samp1 as [|c samp1]; [done|]. by injection H01 as ->. }
  intros samp2 w2 Ev2 Er2 Hl2 H2. cbn [app] in *. set (n := Nat.min (length (a :: touch)) 127) in *.
  assert (Forall (λ b, small_coord (x b) ∧ small_coord (y b)) (take n samp2)) as Hs2.
  { rewrite H2. by apply Forall_take. }
  assert (0 < n <= length samp2)%nat as Hn by (unfold n; cbn [length]; lia).
  destruct (middle_value_median sort_by_x x samp2 n Hn) as (samp3 & vx & E3 & Hp3 & Hl3 & Hmx).
  { apply compares_small; [done|]. eapply Forall_impl; [exact Hs2|]. naive_solver. }
  { eapply Forall_impl; [exact Hs2|]. naive_solver. }
  apply runs_bind. eapply runs_lift; [exact E3|]. cbn [fst snd].
  assert (Forall (λ b, small_coord (x b) ∧ small_coord (y b)) (take n samp3)) as Hs3 by (by rewrite Hp3).
  destruct (middle_value_median sort_by_y y samp3 n) as (samp4 & vy & E4 & _ & _ & Hmy); [lia| | |].
  { apply compares_small; [done|]. eapply Forall_impl; [exact Hs3|]. naive_solver. }
  { eapply Forall_impl; [exact Hs3|]. naive_solver. }
  apply runs_bind. eapply runs_lift; [exact E4|]. cbn [snd]. apply runs_ret, HQ; [by rewrite Ev2|done|by rewrite <- H2|].
  destruct Hmy as (srt & Hp & Hrest). exists srt. rewrite <- H2. split; [by rewrite Hp, Hp3|].
  by assert (length (y <$> take n samp2) = length (y <$> take n samp3)) as -> by (by rewrite Hp3).
Qed.
End touch.

(** ** A point of the calibration *)

Section point.
Context (s : screen) (colormap font : list Z) (L : nat).
Context (Hs : screen_ok s L) (Hfont : font_ok font) (Hmap : length colormap = 256%nat).
Context {D : Type} `{RawPen D}.
Implicit Types w : world calib treq D.

Lemma cross_runs px py w (Q : unit → world calib treq D → Prop) : in_reach px → in_reach py → mem_ok L (c_mem (vars w)) →
  (∀ m1, mem_ok L m1 → put_cross s colormap px py (Z.lor 2 XORMODE) m1 = Ok (c_mem (vars w)) →
     Q tt (with_vars w (set_c_mem m1 (vars w)))) → runs (cross s colormap px py) w Q.
Proof.
  intros Hpx Hpy Hm HQ. destruct (cross_twice s colormap font L Hs Hfont Hmap px py (c_mem (vars w)) Hpx Hpy Hm) as (m1 & Hm1 & E1 & E2).
  unfold cross. apply runs_get, runs_bind. eapply runs_lift; [exact E1|]. by apply runs_modify, HQ.
Qed.

(** Showing the cross a second time. *)
Lemma uncross_runs px py m w (Q : unit → world calib treq D → Prop) :
  put_cross s colormap px py (Z.lor 2 XORMODE) (c_mem (vars w)) = Ok m →
  Q tt (with_vars w (set_c_mem m (vars w))) → runs (cross s colormap px py) w Q.
Proof. intros E HQ. unfold cross. apply runs_get, runs_bind. eapply runs_lift; [exact E|]. by apply runs_modify. Qed.

Lemma set_c_mem_id c : set_c_mem (c_mem c) c = c. Proof. by destruct c. Qed.

(** The places on the way are parts of 16 bits, in reach of the drawing. *)
Lemma fixed_in_reach z : is_s32 z → in_reach (Z.shiftr z 16).
Proof.
  unfold is_s32, in_reach. intros Hz. rewrite Z.shiftr_div_pow2 by done. change (2 ^ 16) with 65536.
  pose proof (Z.div_le_lower_bound z 65536 (-32768)). pose proof (Z.div_lt_upper_bound z 65536 32768). lia.
Qed.

(** The way of the cross leaves the picture as it was. *)
Lemma animate_runs n dx dy : ∀ lx ly w (Q : unit → world calib treq D → Prop), is_s32 lx → is_s32 ly → mem_ok L (c_mem (vars w)) →
  (∀ w', vars w' = vars w → raw (driver w') = raw (driver w) → Q tt w') → runs (animate s colormap n lx ly dx dy) w Q.
Proof.
  induction n as [|n IH]; intros lx ly w Q Hlx Hly Hm HQ; cbn [animate]; [by apply runs_ret, HQ|].
  apply runs_bind, cross_runs; [by apply fixed_in_reach..|done|]. intros m1 Hm1 E1. apply runs_request, runs_bind.
  apply (uncross_runs _ _ (c_mem (vars w))); [exact E1|]. apply IH; [apply s32_range..|done|]. cbn [with_vars after vars driver].
  intros w' Ev Er. apply HQ; [rewrite Ev; by destruct (vars w)|]. rewrite Er. apply raw_kept.
Qed.

(** A point of the calibration: the program waits for a touch, records the
    medians of the coordinates of its first 127 samples for the place where the
    cross is shown, and leaves the picture as it was. *)
Theorem get_sample_records_median fuel samp index px py w idle touch lift r :
  in_reach px → in_reach py → mem_ok L (c_mem (vars w)) → length samp = 128%nat → 0 <= index < 5 →
  length (cal_x (vars w)) = 5%nat → length (cal_y (vars w)) = 5%nat → length (xfb (vars w)) = 5%nat → length (yfb (vars w)) = 5%nat →
  raw (driver w) = idle ++ touch ++ lift :: r → Forall (λ b, pressure b = 0) idle → touch ≠ [] → Forall (λ b, 0 < pressure b) touch →
  pressure lift <= 0 → small_samples touch → (length idle + length touch < fuel)%nat →
  ∃ vx vy w', get_sample s colormap fuel samp index px py w = Ok (Some tt, w') ∧
    median_of (x <$> take 127 touch) vx ∧ median_of (y <$> take 127 touch) vy ∧ raw (driver w') = r ∧
    vars w' = Calib (c_mem (vars w)) px py
                (<[Z.to_nat index := vx]> (cal_x (vars w))) (<[Z.to_nat index := vy]> (cal_y (vars w)))
                (<[Z.to_nat index := px]> (xfb (vars w))) (<[Z.to_nat index := py]> (yfb (vars w))).
Proof.
  intros Hpx Hpy Hm Hl Hi L1 L2 L3 L4 Er Hid Hne Ht Hlift Hsm Hf.
  assert (runs (get_sample s colormap fuel samp index px py) w (λ z w', ∃ vx vy, z = Some tt ∧
    median_of (x <$> take 127 touch) vx ∧ median_of (y <$> take 127 touch) vy ∧ raw (driver w') = r ∧
    vars w' = Calib (c_mem (vars w)) px py
                (<[Z.to_nat index := vx]> (cal_x (vars w))) (<[Z.to_nat index := vy]> (cal_y (vars w)))
                (<[Z.to_nat index := px]> (xfb (vars w))) (<[Z.to_nat index := py]> (yfb (vars w)))))
    as (z & w' & E & vx & vy & -> & HQ); [|by exists vx, vy, w'].
  unfold get_sample. apply runs_get, runs_bind.
  apply (runs_mono _ _ (λ _ w', vars w' = vars w ∧ raw (driver w') = raw (driver w))).
  { destruct (negb _); [apply animate_runs; [apply s32_range..|done|]; by intros|by apply runs_ret]. }
  intros _ w1 [Ev1 Er1]. rewrite <- Ev1 in *. rewrite <- Er1 in Er. clear w Ev1 Er1.
  apply runs_bind, cross_runs; [done..|]. intros m1 Hm1 E1.
  apply runs_bind. eapply getxy_runs; [exact Er|done..|]. intros vx vy w2 Ev2 Er2 Hx Hy.
  apply runs_get. rewrite Ev2. cbn [with_vars vars set_c_mem cal_x cal_y].
  apply runs_bind. eapply runs_lift; [apply wr_Ok; lia|]. apply runs_bind. eapply runs_lift; [apply wr_Ok; lia|].
  apply runs_bind, runs_modify, runs_bind. apply (uncross_runs _ _ (c_mem (vars w1))).
  { cbn [with_vars vars c_mem]. rewrite Ev2. exact E1. }
  apply runs_get. cbn [with_vars vars set_c_mem xfb yfb]. rewrite Ev2. cbn [with_vars vars set_c_mem xfb yfb].
  apply runs_bind. eapply runs_lift; [apply wr_Ok; lia|]. apply runs_bind. eapply runs_lift; [apply wr_Ok; lia|].
  apply runs_bind, runs_modify, runs_ret. exists vx, vy. by split_and!.
Qed.
End point.

#[export] Instance queue_raw : RawPen queue.
Proof. refine {| raw := queued |}; [|done]. intros [q] a r E. cbn in *. by rewrite E. Defined.

Definition touch_queue : list ts_sample :=
  [Sample 0 0 0 0; Sample 700 300 5 1; Sample 9999 310 5 2; Sample 690 305 5 3; Sample 695 305 0 4].
Definition calib_world : world calib treq queue :=
  World (Calib demo_memory (-1) 0 [0; 0; 0; 0; 0] [0; 0; 0; 0; 0] [0; 0; 0; 0; 0] [0; 0; 0; 0; 0]) (Queue touch_queue) [].

Lemma get_sample_records_median_witness :
  ∃ vx vy w', get_sample demo_screen demo_colors 9 (replicate 128 (Sample 0 0 0 0)) 1 8 4 calib_world = Ok (Some tt, w') ∧
    median_of [700; 9999; 690] vx ∧ median_of [300; 310; 305] vy ∧ c_mem (vars w') = demo_memory.
Proof.
  destruct (@get_sample_records_median demo_screen demo_colors demo_font 320 demo_screen_ok ltac:(done) eq_refl queue queue_driver queue_raw 9
              (replicate 128 (Sample 0 0 0 0)) 1 8 4 calib_world [Sample 0 0 0 0]
              [Sample 700 300 5 1; Sample 9999 310 5 2; Sample 690 305 5 3] (Sample 695 305 0 4) [])
    as (vx & vy & w' & E & Hx & Hy & _ & Hv).
  - by unfold in_reach.
  - by unfold in_reach.
  - apply demo_memory_ok.
  - done.
  - done.
  - done.
  - done.
  - done.
  - done.
  - reflexivity.
  - by repeat constructor.
  - done.
  - by repeat constructor.
  - done.
  - by repeat constructor.
  - cbn; lia.
  - exists vx, vy, w'. split_and!; [done|done|done|]. by rewrite Hv.
Defined.

(** The outlier does not matter. *)
Example median_ignores_outlier : median_of [700; 9999; 690] 700.
Proof.
  exists [690; 700; 9999]. split_and!; [|by repeat constructor|done].
  etransitivity; [apply perm_swap|]. apply perm_skip, perm_swap.
Qed.
