(* ===== verification/TsFilters.v ===== *)
(** * TsFilters: the filter modules of the touch-screen library

    Models src/tslib-1.1/plugins: [pthres] (pressure threshold), [dejitter]
    (weighted average of the last samples) and [linear] (calibration).  A
    filter sits above another module, given only by the interface [TsRead] with
    its promise [TsReadOk]; each filter is itself an instance of both, so that
    the results hold for every stack of modules. *)
From S2P Require Import Prelude LibC Tslib.
Local Open Scope Z_scope.

(** [memmove(a + dst, a + src, n * sizeof *a)] *)
Definition memmove {A} (l : list A) (dst src n : Z) : result (list A) :=
  if (0 <=? dst) && (0 <=? src) && (0 <=? n) &&
     (dst + n <=? Z.of_nat (length l)) && (src + n <=? Z.of_nat (length l))
  then Ok (take (Z.to_nat dst) l ++ take (Z.to_nat n) (drop (Z.to_nat src) l) ++
           drop (Z.to_nat (dst + n)) l)
  else Crash OutOfBounds.

(** ** pthres *)

(** The limits, and the static variables of [pthres_read]. *)
Record pthres_vars := PthresVars { pmin : Z; pmax : Z; press : Z; xsave : Z; ysave : Z }.

Definition set_press (p : pthres_vars) (b xs ys : Z) : pthres_vars :=
  PthresVars (pmin p) (pmax p) b xs ys.

(** The loop over the samples: [n] turns are left, [s] is the index of the
    current sample and [nr] the number of samples kept.  A dropped sample is
    removed with [memmove] and [s] stays where it is. *)
Fixpoint pthres_loop (n : nat) (p : pthres_vars) (samp : list ts_sample) (s nr ret : Z)
    : result (pthres_vars * list ts_sample * Z) :=
  match n with
  | O => Ok (p, samp, nr)
  | S n =>
      smp ← rd samp s;
      let drop_it :=
        let left := ret - nr - 1 in
        if 0 <? left then
          samp' ← memmove samp s (s + 1) left; pthres_loop n p samp' s nr ret
        else Ok (p, samp, nr) in
      if pressure smp <? pmin p then
        if negb (press p =? 0) then
          samp' ← wr samp s (Sample (xsave p) (ysave p) 0 (tv smp));
          pthres_loop n (set_press p 0 (xsave p) (ysave p)) samp' (s + 1) (nr + 1) ret
        else drop_it
      else if pmax p <? pressure smp then drop_it
      else pthres_loop n (set_press p 1 (x smp) (y smp)) samp (s + 1) (nr + 1) ret
  end.

(** A pthres module above a module of type [M]. *)
Record pthres (M : Type) := Pthres { pt_vars : pthres_vars; pt_next : M }.
Arguments Pthres {M}.
Arguments pt_vars {M}.
Arguments pt_next {M}.

#[export] Instance pthres_read {M} `{TsRead M} : TsRead (pthres M) := λ m samp nr,
  r ← ts_module_read (pt_next m) samp nr;
  let '(next, samp, ret) := r in
  if 0 <=? ret then
    r ← pthres_loop (Z.to_nat ret) (pt_vars m) samp 0 0 ret;
    let '(p, samp, nr) := r in Ok (Pthres p next, samp, nr)
  else Ok (Pthres (pt_vars m) next, samp, ret).

Lemma pthres_read_eq {M} `{TsRead M} (m : pthres M) samp nr :
  ts_module_read m samp nr =
    (r ← ts_module_read (pt_next m) samp nr;
     let '(next, samp, ret) := r in
     if 0 <=? ret then
       r ← pthres_loop (Z.to_nat ret) (pt_vars m) samp 0 0 ret;
       let '(p, samp, nr) := r in Ok (Pthres p next, samp, nr)
     else Ok (Pthres (pt_vars m) next, samp, ret)).
Proof. done. Qed.

(** What the filter does to a list of samples: too light a touch ends a press,
    at the position of the press, or is dropped when there is none; too strong
    a touch is dropped. *)
Fixpoint pthres_spec (p : pthres_vars) (l : list ts_sample) : pthres_vars * list ts_sample :=
  match l with
  | [] => (p, [])
  | smp :: l =>
      if pressure smp <? pmin p then
        if press p =? 0 then pthres_spec p l
        else let '(p', out) := pthres_spec (set_press p 0 (xsave p) (ysave p)) l in
             (p', Sample (xsave p) (ysave p) 0 (tv smp) :: out)
      else if pmax p <? pressure smp then pthres_spec p l
      else let '(p', out) := pthres_spec (set_press p 1 (x smp) (y smp)) l in (p', smp :: out)
  end.

Lemma pthres_spec_length p l : (length (pthres_spec p l).2 <= length l)%nat.
Proof.
  revert p. induction l as [|smp l IH]; intros p; cbn [pthres_spec]; [done|].
  repeat case_match; cbn [snd length];
    repeat match goal with
    | H : pthres_spec ?q l = (_, ?o) |- _ => specialize (IH q); rewrite H in IH
    | |- context [pthres_spec ?q l] => specialize (IH q) end; cbn in *; lia.
Qed.

(** Removing the sample at the front of the rest duplicates the last entry. *)
Lemma memmove_drop {A} (acc rem junk tl : list A) r :
  rem ++ junk ≠ [] →
  ∃ z, memmove (acc ++ (r :: rem) ++ junk ++ tl) (Z.of_nat (length acc))
         (Z.of_nat (length acc) + 1) (Z.of_nat (length rem + length junk)) =
       Ok (acc ++ rem ++ (junk ++ [z]) ++ tl).
Proof.
  intros Hne. destruct (exists_last Hne) as (front & z & Hz). exists z. unfold memmove.
  rewrite !length_app. cbn [length].
  rewrite !(proj2 (Z.leb_le _ _)) by lia. cbn [andb]. f_equal.
  rewrite Nat2Z.id, take_app_length.
  replace (Z.to_nat (Z.of_nat (length acc) + 1)) with (length acc + 1)%nat by lia.
  replace (Z.to_nat (Z.of_nat (length acc) + Z.of_nat (length rem + length junk)))
    with (length acc + length (rem ++ junk))%nat by (rewrite length_app; lia).
  replace (Z.to_nat (Z.of_nat (length rem + length junk))) with (length (rem ++ junk))
    by (rewrite length_app; lia).
  assert (length (rem ++ junk) = S (length front)) as Hl by (rewrite Hz, length_app; cbn; lia).
  rewrite (drop_app_ge acc) by lia.
  replace (length acc + 1 - length acc)%nat with 1%nat by lia. cbn [app drop]. rewrite drop_0.
  rewrite (drop_app_ge acc) by lia.
  replace (length acc + length (rem ++ junk) - length acc)%nat with (length (rem ++ junk)) by lia.
  assert (take (length (rem ++ junk)) (rem ++ junk ++ tl) = rem ++ junk) as ->
    by (rewrite app_assoc; apply take_app_length).
  assert (drop (length (rem ++ junk)) (r :: rem ++ junk ++ tl) = z :: tl) as ->.
  { rewrite Hl. cbn [drop]. rewrite app_assoc, Hz, <- app_assoc. apply drop_app_length. }
  by rewrite <- !app_assoc.
Qed.

Lemma pthres_loop_spec p acc rem junk tl ret :
  ret = Z.of_nat (length acc + length rem + length junk) →
  ∃ junk', pthres_loop (length rem) p (acc ++ rem ++ junk ++ tl) (Z.of_nat (length acc))
             (Z.of_nat (length acc)) ret =
    Ok ((pthres_spec p rem).1, acc ++ (pthres_spec p rem).2 ++ junk' ++ tl,
        Z.of_nat (length acc + length (pthres_spec p rem).2)) ∧
    length junk' = (length rem + length junk - length (pthres_spec p rem).2)%nat.
Proof.
  revert p acc junk ret. induction rem as [|r rem IH]; intros p acc junk ret Hret; cbn [length pthres_loop] in *.
  { exists junk. cbn. rewrite Nat.add_0_r. split; [done|lia]. }
  assert (rd (acc ++ (r :: rem) ++ junk ++ tl) (Z.of_nat (length acc)) = Ok r) as ->.
  { apply rd_Ok. split; [lia|]. rewrite Nat2Z.id, lookup_app_r, Nat.sub_diag by lia. done. }
  cbn [mbind result_bind pthres_spec].
  assert (∀ r' p', (Z.of_nat (length acc) + 1) = Z.of_nat (length (acc ++ [r'])) →
    ∃ junk', pthres_loop (length rem) p' (acc ++ r' :: rem ++ junk ++ tl) (Z.of_nat (length acc) + 1)
               (Z.of_nat (length acc) + 1) ret =
      Ok ((pthres_spec p' rem).1, acc ++ r' :: (pthres_spec p' rem).2 ++ junk' ++ tl,
          Z.of_nat (length acc + S (length (pthres_spec p' rem).2))) ∧
      length junk' = (length rem + length junk - length (pthres_spec p' rem).2)%nat) as Hkeep.
  { intros r' p' E. destruct (IH p' (acc ++ [r']) junk ret) as (junk' & Hrun & Hl).
    { rewrite length_app. cbn [length]. lia. }
    rewrite <- E in Hrun. rewrite <- !app_assoc in Hrun. cbn [app] in Hrun.
    exists junk'. split; [|done]. rewrite Hrun, length_app. cbn [length].
    by rewrite <- Nat.add_assoc. }
  set (drop_it := if 0 <? ret - Z.of_nat (length acc) - 1 then _ else _).
  assert (∃ junk', drop_it = Ok ((pthres_spec p rem).1, acc ++ (pthres_spec p rem).2 ++ junk' ++ tl,
            Z.of_nat (length acc + length (pthres_spec p rem).2)) ∧
          length junk' = (S (length rem) + length junk - length (pthres_spec p rem).2)%nat) as Hdrop.
  { unfold drop_it. destruct (Z.ltb_spec 0 (ret - Z.of_nat (length acc) - 1)) as [Hleft|Hleft].
    - assert (rem ++ junk ≠ []) as Hne
        by (intros E%(f_equal length); rewrite length_app in E; cbn in E; lia).
      destruct (memmove_drop acc rem junk tl r Hne) as (z & Hm).
      replace (ret - Z.of_nat (length acc) - 1) with (Z.of_nat (length rem + length junk)) by lia.
      rewrite Hm. cbn [mbind result_bind].
      destruct (IH p acc (junk ++ [z]) ret) as (junk' & Hrun & Hl).
      { rewrite length_app. cbn [length]. lia. }
      exists junk'. split; [exact Hrun|]. rewrite Hl, length_app. cbn [length].
      pose proof (pthres_spec_length p rem). lia.
    - assert (rem = [] ∧ junk = []) as [-> ->] by (split; apply nil_length_inv; lia).
      exists [r]. cbn. rewrite Nat.add_0_r. done. }
  clearbody drop_it.
  assert (∀ r', Z.of_nat (length acc) + 1 = Z.of_nat (length (acc ++ [r']))) as Hlen
    by (intros; rewrite length_app; cbn; lia).
  destruct (pressure r <? pmin p); [destruct (press p =? 0); cbn [negb]|destruct (pmax p <? pressure r)].
  - destruct Hdrop as (junk' & -> & Hl). exists junk'. done.
  - rewrite wr_Ok by (rewrite !length_app; cbn; lia). cbn [mbind result_bind].
    rewrite Nat2Z.id, insert_app_r_alt, Nat.sub_diag by lia. cbn [app insert list_insert].
    set (r' := Sample _ _ _ _). destruct (Hkeep r' (set_press p 0 (xsave p) (ysave p)) (Hlen _)) as (junk' & -> & Hl).
    destruct (pthres_spec (set_press p 0 (xsave p) (ysave p)) rem) as [p' o]. exists junk'. cbn in *. split; [done|lia].
  - destruct Hdrop as (junk' & -> & Hl). exists junk'. done.
  - destruct (Hkeep r (set_press p 1 (x r) (y r)) (Hlen _)) as (junk' & Hrun & Hl). cbn [app]. rewrite Hrun.
    destruct (pthres_spec (set_press p 1 (x r) (y r)) rem) as [p' o]. exists junk'. cbn in *. split; [done|lia].
Qed.

Lemma pthres_read_run {M} `{TsReadOk M} (m : pthres M) samp nr next samp1 ret :
  0 <= nr <= Z.of_nat (length samp) →
  ts_module_read (pt_next m) samp nr = Ok (next, samp1, ret) → 0 <= ret →
  let out := pthres_spec (pt_vars m) (take (Z.to_nat ret) samp1) in
  ∃ junk, ts_module_read m samp nr =
      Ok (Pthres out.1 next, out.2 ++ junk ++ drop (Z.to_nat ret) samp1, Z.of_nat (length out.2)) ∧
    length (out.2 ++ junk) = Z.to_nat ret.
Proof.
  intros Hnr Hread Hret out. destruct (ts_read_ok _ _ _ _ _ _ Hnr Hread) as (Hl & Hle & _).
  assert (length (take (Z.to_nat ret) samp1) = Z.to_nat ret) as Hlt by (rewrite length_take; lia).
  rewrite pthres_read_eq, Hread. cbn [mbind result_bind].
  rewrite (proj2 (Z.leb_le 0 ret)) by done.
  destruct (pthres_loop_spec (pt_vars m) [] (take (Z.to_nat ret) samp1) [] (drop (Z.to_nat ret) samp1) ret)
    as (junk & Hrun & Hj); [cbn [length]; lia|].
  cbn [app length Nat.add] in Hrun. rewrite take_drop, Hlt in Hrun. change (Z.of_nat 0) with 0 in Hrun.
  rewrite Hrun. cbn [mbind result_bind]. exists junk. split; [done|].
  rewrite length_app. pose proof (pthres_spec_length (pt_vars m) (take (Z.to_nat ret) samp1)).
  unfold out. cbn [length] in Hj. lia.
Qed.

(** The filter keeps the promise of the interface. *)
#[export] Instance pthres_read_ok {M} `{TsReadOk M} : TsReadOk (pthres M).
Proof.
  intros m samp nr m' samp' ret' Hnr Hrun.
  destruct (ts_module_read (pt_next m) samp nr) as [[[next samp1] ret]|] eqn:Hread;
    [|by rewrite pthres_read_eq, Hread in Hrun].
  pose proof (ts_read_ok _ _ _ _ _ _ Hnr Hread) as (Hl & Hle & Htl).
  destruct (Z.le_gt_cases 0 ret) as [Hpos|Hneg].
  - destruct (pthres_read_run m samp nr next samp1 ret Hnr Hread Hpos) as (junk & Hr & Hj).
    rewrite Hr in Hrun. injection Hrun as <- <- <-. rewrite length_app in Hj. split_and!.
    + rewrite !length_app, length_drop. lia.
    + lia.
    + rewrite app_assoc, drop_app_ge by (rewrite length_app; lia).
      rewrite length_app, drop_drop, <- Htl. f_equal. lia.
  - rewrite pthres_read_eq, Hread in Hrun. cbn [mbind result_bind] in Hrun.
    rewrite (proj2 (Z.leb_gt 0 ret)) in Hrun by done. injection Hrun as <- <- <-. done.
Qed.

(** *** Parameters of pthres *)

Definition threshold_vars (stale : bool) (data : Z) (p : pthres_vars) (str : option (list Z))
    : result (pthres_vars * Z) :=
  v ← strtoul_checked stale str;
  Ok match v with
     | None => (p, -1)
     | Some v =>
         if data =? 0 then (PthresVars v (pmax p) (press p) (xsave p) (ysave p), 0)
         else if data =? 1 then (PthresVars (pmin p) v (press p) (xsave p) (ysave p), 0)
         else (p, -1)
     end.

Definition pthres_table (stale : bool) : list (tslib_var pthres_vars) :=
  [(lit "pmin", threshold_vars stale 0); (lit "pmax", threshold_vars stale 1)].

(** INT_MAX *)
Definition INT_MAX : Z := 2147483647.

(** [mem] says whether malloc succeeds; [st] holds the static variables, which
    the initialisation does not touch.  Returns [None] for NULL. *)
Definition pthres_mod_init (mem stale : bool) (st : pthres_vars) (params : option (list Z))
    : result (option pthres_vars) :=
  if negb mem then Ok None else
  r ← tslib_parse_vars (PthresVars 1 INT_MAX (press st) (xsave st) (ysave st)) (pthres_table stale) params;
  Ok (if negb (r.2 =? 0) then None else Some r.1).

(** ** dejitter *)

Definition NR_SAMPHISTLEN : Z := 4.

Record ts_hist := Hist { hx : Z; hy : Z; hp : Z }.

Record dejitter_vars := DejitterVars { delta : Z; dnr : Z; head : Z; hist : list ts_hist }.

Definition weight : list (list Z) := [[5; 3; 0; 0; 3]; [8; 5; 3; 0; 4]; [6; 4; 3; 3; 4]].

Definition sqr (a : Z) : Z := s32 (a * a).

(** The loop of [average]: [n] turns are left. *)
Fixpoint average_loop (n : nat) (i sn : Z) (w : list Z) (h : list ts_hist) (ax ay ap : Z)
    : result (Z * Z * Z) :=
  match n with
  | O => Ok (ax, ay, ap)
  | S n =>
      e ← rd h sn; wi ← rd w i;
      average_loop n (i + 1) (Z.land (sn - 1) (NR_SAMPHISTLEN - 1)) w h
        (s32 (ax + s32 (hx e * wi))) (s32 (ay + s32 (hy e * wi))) (u32 (ap + u32 (hp e * wi)))
  end.

(** [average], the time stamp being set by the caller. *)
Definition average (d : dejitter_vars) (t : Z) : result ts_sample :=
  w ← rd weight (dnr d - 2);
  r ← average_loop (Z.to_nat (dnr d)) 0 (head d) w (hist d) 0 0 0;
  let '(ax, ay, ap) := r in
  sh ← rd w NR_SAMPHISTLEN;
  Ok (Sample (Z.shiftr ax sh) (Z.shiftr ay sh) (Z.shiftr ap sh) t).

(** One sample: the new state and the sample passed on. *)
Definition dejitter_step (d : dejitter_vars) (s : ts_sample) : result (dejitter_vars * ts_sample) :=
  if pressure s =? 0 then Ok (DejitterVars (delta d) 0 (head d) (hist d), s) else
  nr ← (if negb (dnr d =? 0) then
          e ← rd (hist d) (Z.land (head d - 1) (NR_SAMPHISTLEN - 1));
          Ok (if delta d <? s32 (sqr (s32 (x s - hx e)) + sqr (s32 (y s - hy e))) then 0 else dnr d)
        else Ok 0);
  h ← wr (hist d) (head d) (Hist (x s) (y s) (pressure s));
  let nr := if nr <? NR_SAMPHISTLEN then nr + 1 else nr in
  let d' := DejitterVars (delta d) nr (head d) h in
  o ← (if nr =? 1 then Ok s else average d' (tv s));
  Ok (DejitterVars (delta d) nr (Z.land (head d + 1) (NR_SAMPHISTLEN - 1)) h, o).

(** [s] and [samp + count] are always the same sample. *)
Fixpoint dejitter_loop (n : nat) (d : dejitter_vars) (samp : list ts_sample) (count : Z)
    : result (dejitter_vars * list ts_sample * Z) :=
  match n with
  | O => Ok (d, samp, count)
  | S n =>
      s ← rd samp count;
      r ← dejitter_step d s;
      samp' ← wr samp count r.2;
      dejitter_loop n r.1 samp' (count + 1)
  end.

Record dejitter (M : Type) := Dejitter { dj_vars : dejitter_vars; dj_next : M }.
Arguments Dejitter {M}.
Arguments dj_vars {M}.
Arguments dj_next {M}.

#[export] Instance dejitter_read {M} `{TsRead M} : TsRead (dejitter M) := λ m samp nr,
  r ← ts_module_read (dj_next m) samp nr;
  let '(next, samp, ret) := r in
  r ← dejitter_loop (Z.to_nat ret) (dj_vars m) samp 0;
  let '(d, samp, count) := r in Ok (Dejitter d next, samp, count).

Lemma dejitter_read_eq {M} `{TsRead M} (m : dejitter M) samp nr :
  ts_module_read m samp nr =
    (r ← ts_module_read (dj_next m) samp nr;
     let '(next, samp, ret) := r in
     r ← dejitter_loop (Z.to_nat ret) (dj_vars m) samp 0;
     let '(d, samp, count) := r in Ok (Dejitter d next, samp, count)).
Proof. done. Qed.

Definition dejitter_limit (stale : bool) (data : Z) (d : dejitter_vars) (str : option (list Z))
    : result (dejitter_vars * Z) :=
  v ← strtoul_checked stale str;
  Ok match v with
     | None => (d, -1)
     | Some v => if data =? 1 then (DejitterVars (s32 v) (dnr d) (head d) (hist d), 0) else (d, -1)
     end.

Definition dejitter_mod_init (mem stale : bool) (params : option (list Z)) : result (option dejitter_vars) :=
  if negb mem then Ok None else
  r ← tslib_parse_vars (DejitterVars 100 0 0 (replicate 4 (Hist 0 0 0)))
        [(lit "delta", dejitter_limit stale 1)] params;
  Ok (if negb (r.2 =? 0) then None
      else Some (DejitterVars (sqr (delta r.1)) (dnr r.1) (head r.1) (hist r.1))).

(** ** linear *)

Record linear_vars := LinearVars {
  swap_xy : Z; p_offset : Z; p_mult : Z; p_div : Z; cal : list Z; cal_res_x : Z; cal_res_y : Z
}.

(** Division of int (towards zero) and of unsigned int. *)
Definition int_div (a b : Z) : result Z := if b =? 0 then Crash DivByZero else Ok (Z.quot a b).
Definition uint_div (a b : Z) : result Z := if b =? 0 then Crash DivByZero else Ok (u32 a / u32 b).

(** [samp->x * res / cal_res] in unsigned arithmetic, stored in an int. *)
Definition rescale (v res cal_res : Z) : result Z :=
  if negb (res =? 0) && negb (cal_res =? 0) then q ← uint_div (v * res) cal_res; Ok (s32 q) else Ok v.

Definition linear_sample (lin : linear_vars) (res_x res_y : Z) (s : ts_sample) : result ts_sample :=
  a0 ← rd (cal lin) 0; a1 ← rd (cal lin) 1; a2 ← rd (cal lin) 2; a3 ← rd (cal lin) 3;
  a4 ← rd (cal lin) 4; a5 ← rd (cal lin) 5; a6 ← rd (cal lin) 6;
  nx ← int_div (s32 (a2 + a0 * x s + a1 * y s)) a6;
  ny ← int_div (s32 (a5 + a3 * x s + a4 * y s)) a6;
  nx ← rescale nx res_x (cal_res_x lin);
  ny ← rescale ny res_y (cal_res_y lin);
  np ← uint_div ((pressure s + p_offset lin) * p_mult lin) (p_div lin);
  Ok (if negb (swap_xy lin =? 0) then Sample ny nx np (tv s) else Sample nx ny np (tv s)).

Fixpoint linear_loop (n : nat) (lin : linear_vars) (res_x res_y : Z) (samp : list ts_sample) (i : Z)
    : result (list ts_sample) :=
  match n with
  | O => Ok samp
  | S n =>
      s ← rd samp i;
      s' ← linear_sample lin res_x res_y s;
      samp' ← wr samp i s';
      linear_loop n lin res_x res_y samp' (i + 1)
  end.

(** A linear module of a device with the given screen size. *)
Record linear (M : Type) := Linear { ln_vars : linear_vars; ln_res_x : Z; ln_res_y : Z; ln_next : M }.
Arguments Linear {M}.
Arguments ln_vars {M}.
Arguments ln_res_x {M}.
Arguments ln_res_y {M}.
Arguments ln_next {M}.

#[export] Instance linear_read {M} `{TsRead M} : TsRead (linear M) := λ m samp nr,
  r ← ts_module_read (ln_next m) samp nr;
  let '(next, samp, ret) := r in
  samp ← linear_loop (Z.to_nat ret) (ln_vars m) (ln_res_x m) (ln_res_y m) samp 0;
  Ok (Linear (ln_vars m) (ln_res_x m) (ln_res_y m) next, samp, ret).

Lemma linear_read_eq {M} `{TsRead M} (m : linear M) samp nr :
  ts_module_read m samp nr =
    (r ← ts_module_read (ln_next m) samp nr;
     let '(next, samp, ret) := r in
     samp ← linear_loop (Z.to_nat ret) (ln_vars m) (ln_res_x m) (ln_res_y m) samp 0;
     Ok (Linear (ln_vars m) (ln_res_x m) (ln_res_y m) next, samp, ret)).
Proof. done. Qed.

Definition set_lin (l : linear_vars) (sw po pm pd : Z) : linear_vars :=
  LinearVars sw po pm pd (cal l) (cal_res_x l) (cal_res_y l).

Definition linear_xyswap (l : linear_vars) (_ : option (list Z)) : result (linear_vars * Z) :=
  Ok (set_lin l 1 (p_offset l) (p_mult l) (p_div l), 0).
Definition linear_p_offset (stale : bool) (l : linear_vars) (str : option (list Z)) : result (linear_vars * Z) :=
  v ← strtoul_checked stale str;
  Ok match v with None => (l, -1) | Some v => (set_lin l (swap_xy l) (s32 v) (p_mult l) (p_div l), 0) end.
Definition linear_p_mult (stale : bool) (l : linear_vars) (str : option (list Z)) : result (linear_vars * Z) :=
  v ← strtoul_checked stale str;
  Ok match v with None => (l, -1) | Some v => (set_lin l (swap_xy l) (p_offset l) (s32 v) (p_div l), 0) end.
Definition linear_p_div (stale : bool) (l : linear_vars) (str : option (list Z)) : result (linear_vars * Z) :=
  v ← strtoul_checked stale str;
  Ok match v with None => (l, -1) | Some v => (set_lin l (swap_xy l) (p_offset l) (p_mult l) (s32 v), 0) end.

(** [calfile] is [None] when the file does not exist, [Some None] when it exists
    but cannot be opened, and otherwise the numbers in it, as many as there are; [garbage] is what the allocated memory holds for the two
    screen sizes, which are only set from the file. *)
Definition linear_mod_init (mem stale : bool) (calfile : option (option (list Z))) (garbage : Z * Z)
    (params : option (list Z)) : result (option linear_vars) :=
  if negb mem then Ok None else
  let def := [1; 0; 0; 0; 1; 0; 1] in
  nums ← (match calfile with
          | None => Ok []
          | Some None => Crash NullDeref
          | Some (Some nums) => Ok nums
          end);
  let a := take 7 nums ++ drop (length (take 7 nums)) def in
  let rest := drop 7 nums in
  let lin := LinearVars 0 0 1 1 a (default garbage.1 (u32 <$> rest !! 0%nat))
               (default garbage.2 (u32 <$> rest !! 1%nat)) in
  r ← tslib_parse_vars lin
        [(lit "xyswap", linear_xyswap); (lit "pressure_offset", linear_p_offset stale);
         (lit "pressure_mul", linear_p_mult stale); (lit "pressure_div", linear_p_div stale)] params;
  Ok (if negb (r.2 =? 0) then None else Some r.1).

(** ** dejitter averages stay in range *)

(** Coordinates small enough for the weighted sums of int. *)
Definition coord_bound : Z := 67108864.

Definition within (lo hi v : Z) : Prop := lo <= v <= hi.

Definition sum (l : list Z) : Z := foldr Z.add 0 l.

Lemma land3 a : Z.land a (NR_SAMPHISTLEN - 1) = a mod 4.
Proof. change (NR_SAMPHISTLEN - 1) with (Z.ones 2). by rewrite Z.land_ones by lia. Qed.

Section average.
Context (lo hi : Z).
Hypothesis Hrange : - coord_bound <= lo ∧ lo <= hi ∧ hi <= coord_bound.

(** The history entry [k] places before [sn] is in range. *)
Definition recent (h : list ts_hist) (sn k : Z) : Prop :=
  ∃ e, h !! Z.to_nat ((sn - k) mod 4) = Some e ∧ within lo hi (hx e) ∧ within lo hi (hy e).

Lemma average_loop_bounds ws pre post h sn ax ay ap :
  0 <= sn < 4 → Forall (λ w, 0 <= w <= 8) (pre ++ ws) → sum (pre ++ ws) <= 16 →
  (∀ k, 0 <= k < Z.of_nat (length ws) → recent h sn k) →
  lo * sum pre <= ax <= hi * sum pre → lo * sum pre <= ay <= hi * sum pre →
  ∃ ax' ay' ap', average_loop (length ws) (Z.of_nat (length pre)) sn (pre ++ ws ++ post) h ax ay ap =
      Ok (ax', ay', ap') ∧
    lo * sum (pre ++ ws) <= ax' <= hi * sum (pre ++ ws) ∧
    lo * sum (pre ++ ws) <= ay' <= hi * sum (pre ++ ws).
Proof.
  revert pre sn ax ay ap. induction ws as [|w ws IH]; intros pre sn ax ay ap Hsn Hw Hs Hrec Hax Hay.
  { exists ax, ay, ap. rewrite app_nil_r. done. }
  assert (∀ l : list Z, Forall (λ w, 0 <= w <= 8) l → 0 <= sum l) as Hnn.
  { unfold sum. induction 1; cbn [foldr]; lia. }
  assert (∀ l l', sum (l ++ l') = sum l + sum l') as Hsapp.
  { unfold sum. induction l as [|a l IHl]; intros l'; cbn [foldr app]; [done|]. rewrite IHl. lia. }
  pose proof Hw as [Hwp Hwr]%Forall_app. apply Forall_cons in Hwr as [Hw1 Hwr].
  pose proof (Hnn _ Hwp). pose proof (Hnn _ Hwr).
  rewrite Hsapp in Hs. cbn [sum foldr] in Hs. fold (sum ws) in Hs.
  destruct (Hrec 0) as (e & He & Hx & Hy); [cbn [length]; lia|]. rewrite Z.sub_0_r, Z.mod_small in He by lia.
  cbn [length average_loop].
  rewrite (proj2 (rd_Ok h sn e)) by (split; [lia|done]). cbn [mbind result_bind].
  assert (rd (pre ++ (w :: ws) ++ post) (Z.of_nat (length pre)) = Ok w) as ->.
  { apply rd_Ok. split; [lia|]. rewrite Nat2Z.id, lookup_app_r, Nat.sub_diag by lia. done. }
  cbn [mbind result_bind]. rewrite land3. unfold within, coord_bound in *.
  assert (∀ v a, lo <= v <= hi → lo * sum pre <= a <= hi * sum pre →
    s32 (a + s32 (v * w)) = a + v * w ∧ lo * (sum pre + w) <= a + v * w <= hi * (sum pre + w)) as Hstep.
  { intros v a Hv Ha. split; [|nia].
    assert (-67108864 * 8 <= v * w <= 67108864 * 8) by nia.
    assert (-67108864 * 16 <= a <= 67108864 * 16) by nia.
    rewrite (s32_id (v * w)), s32_id; unfold is_s32; lia. }
  destruct (Hstep (hx e) ax Hx Hax) as [-> Hax']. destruct (Hstep (hy e) ay Hy Hay) as [-> Hay'].
  destruct (IH (pre ++ [w]) ((sn - 1) mod 4) (ax + hx e * w) (ay + hy e * w) (u32 (ap + u32 (hp e * w))))
    as (ax' & ay' & ap' & Hrun & Hbx & Hby).
  - apply Z.mod_pos_bound. lia.
  - by rewrite <- app_assoc.
  - rewrite <- app_assoc, Hsapp. cbn [app sum foldr]. fold (sum ws). lia.
  - intros k Hk. destruct (Hrec (k + 1)) as (e' & He' & Hb'); [cbn [length]; lia|]. exists e'. split; [|done].
    rewrite <- He'. do 2 f_equal. rewrite Zminus_mod_idemp_l. f_equal. lia.
  - rewrite Hsapp. cbn. by rewrite Z.add_0_r.
  - rewrite Hsapp. cbn. by rewrite Z.add_0_r.
  - exists ax', ay', ap'. rewrite <- !app_assoc in *. cbn [app] in *. split; [|done].
    rewrite <- Hrun. rewrite length_app. cbn [length]. f_equal. lia.
Qed.

(** The state of the filter: a ring of four entries whose last [dnr] ones are
    in range. *)
Definition dejitter_ok (d : dejitter_vars) : Prop :=
  length (hist d) = 4%nat ∧ 0 <= head d < 4 ∧ 0 <= dnr d <= 4 ∧
  ∀ k, 0 <= k < dnr d → recent (hist d) (head d - 1) k.

Definition sample_in (s : ts_sample) : Prop := within lo hi (x s) ∧ within lo hi (y s).

Lemma average_bounds d t : length (hist d) = 4%nat → 0 <= head d < 4 → 2 <= dnr d <= 4 →
  (∀ k, 0 <= k < dnr d → recent (hist d) (head d) k) →
  ∃ s, average d t = Ok s ∧ sample_in s ∧ tv s = t.
Proof.
  intros Hl Hh Hn Hrec. unfold average.
  assert (∃ ws post sh, rd weight (dnr d - 2) = Ok (ws ++ post) ∧ length ws = Z.to_nat (dnr d) ∧
    rd (ws ++ post) NR_SAMPHISTLEN = Ok sh ∧ Forall (λ w, 0 <= w <= 8) ws ∧ sum ws = 2 ^ sh ∧
    0 <= sh ∧ sum ws <= 16) as (ws & post & sh & -> & Hlen & Hsh & Hw & Hsum & Hsh0 & Hs16).
  { assert (dnr d = 2 ∨ dnr d = 3 ∨ dnr d = 4) as [-> |[-> | ->]] by lia.
    - exists [5; 3], [0; 0; 3], 3. repeat (split; [try done; repeat constructor; lia|]). done.
    - exists [8; 5; 3], [0; 4], 4. repeat (split; [try done; repeat constructor; lia|]). done.
    - exists [6; 4; 3; 3], [4], 4. repeat (split; [try done; repeat constructor; lia|]). done. }
  cbn [mbind result_bind].
  destruct (average_loop_bounds ws [] post (hist d) (head d) 0 0 0) as (ax & ay & ap & Hrun & Hx & Hy);
    [done|done|done|intros; apply Hrec; lia|cbn; lia|cbn; lia|].
  cbn [app length] in *. change (Z.of_nat 0) with 0 in Hrun. rewrite <- Hlen, Hrun.
  cbn [mbind result_bind]. rewrite Hsh. cbn [mbind result_bind].
  eexists. split; [done|]. split; [|done]. unfold sample_in, within. cbn [x y].
  assert (0 < 2 ^ sh) by (apply Z.pow_pos_nonneg; lia).
  rewrite !Z.shiftr_div_pow2 by done. rewrite <- Hsum in *.
  repeat split; first [apply Z.div_le_lower_bound; lia | apply Z.div_le_upper_bound; lia].
Qed.

Lemma recent_insert h hd e nr : length h = 4%nat → 0 <= hd < 4 → 0 <= nr <= 3 →
  (∀ k, 0 <= k < nr → recent h (hd - 1) k) → within lo hi (hx e) → within lo hi (hy e) →
  ∀ k, 0 <= k <= nr → recent (<[Z.to_nat hd := e]> h) hd k.
Proof.
  intros Hl Hh Hn Hrec Hx Hy k Hk. destruct (decide (k = 0)) as [-> |Hk0].
  - exists e. rewrite Z.sub_0_r, Z.mod_small by lia. split; [|done]. apply list_lookup_insert_eq. lia.
  - destruct (Hrec (k - 1)) as (e' & He' & Hb'); [lia|]. exists e'. split; [|done].
    replace (hd - 1 - (k - 1)) with (hd - k) in He' by lia.
    rewrite list_lookup_insert_ne; [done|]. intros E.
    assert (0 <= (hd - k) mod 4 < 4) by (apply Z.mod_pos_bound; lia).
    assert (hd = (hd - k) mod 4) as E' by lia.
    destruct (Z.lt_ge_cases (hd - k) 0).
    + rewrite <- (Z.mod_add (hd - k) 1 4), Z.mod_small in E' by lia. lia.
    + rewrite Z.mod_small in E' by lia. lia.
Qed.

Lemma dejitter_step_ok d s : dejitter_ok d → sample_in s →
  ∃ d' o, dejitter_step d s = Ok (d', o) ∧ dejitter_ok d' ∧ sample_in o ∧ tv o = tv s ∧
    (pressure s = 0 → o = s ∧ dnr d' = 0).
Proof.
  intros (Hl & Hh & Hn & Hrec) Hs. unfold dejitter_step.
  destruct (Z.eqb_spec (pressure s) 0) as [Hp|Hp].
  { eexists _, s. split; [done|]. split; [|done]. unfold dejitter_ok. cbn. split_and!; [done|lia..|].
    intros. lia. }
  set (nrm := if negb (dnr d =? 0) then _ else _).
  assert (∃ nr0, nrm = Ok nr0 ∧ (nr0 = 0 ∨ nr0 = dnr d)) as (nr0 & -> & Hnr0).
  { unfold nrm. destruct (negb (dnr d =? 0)); [|by exists 0; auto]. rewrite land3.
    destruct (rd_is_ok (hist d) ((head d - 1) mod 4)) as [e ->].
    { pose proof (Z.mod_pos_bound (head d - 1) 4). lia. }
    cbn [mbind result_bind]. eexists. split; [done|]. destruct (_ <? _); auto. }
  cbn [mbind result_bind]. rewrite wr_Ok by lia. cbn [mbind result_bind].
  set (e := Hist _ _ _). set (nr1 := if nr0 <? NR_SAMPHISTLEN then nr0 + 1 else nr0).
  assert (nr1 = if nr0 =? 4 then 4 else nr0 + 1) as Hnr1.
  { unfold nr1, NR_SAMPHISTLEN. destruct (Z.ltb_spec nr0 4), (Z.eqb_spec nr0 4); lia. }
  assert (∀ k, 0 <= k < nr1 → recent (<[Z.to_nat (head d) := e]> (hist d)) (head d) k) as Hrec'.
  { intros k Hk. apply (recent_insert (hist d) (head d) e (nr1 - 1)); try done.
    - destruct (Z.eqb_spec nr0 4); lia.
    - intros j Hj. apply Hrec. destruct (Z.eqb_spec nr0 4); lia.
    - apply Hs.
    - apply Hs.
    - lia. }
  assert (1 <= nr1 <= 4) as Hb1 by (destruct (Z.eqb_spec nr0 4); lia). clearbody nr1.
  assert (∃ o, (if nr1 =? 1 then Ok s
            else average (DejitterVars (delta d) nr1 (head d) (<[Z.to_nat (head d):=e]> (hist d))) (tv s)) = Ok o ∧
          sample_in o ∧ tv o = tv s) as (o & -> & Ho & Ht).
  { destruct (Z.eqb_spec nr1 1); [by exists s|].
    apply average_bounds; cbn; [by rewrite length_insert|done|lia|done]. }
  cbn [mbind result_bind]. eexists _, o. split; [done|]. split; [|split_and!; done].
  unfold dejitter_ok. cbn [hist head dnr]. rewrite length_insert, land3.
  pose proof (Z.mod_pos_bound (head d + 1) 4 ltac:(lia)).
  split_and!; [done|lia..|]. intros k Hk. destruct (Hrec' k Hk) as (e' & He' & Hb').
  exists e'. split; [|done]. rewrite <- He'. do 2 f_equal.
  rewrite <- Z.sub_add_distr, Zminus_mod_idemp_l. f_equal. lia.
Qed.

Lemma dejitter_loop_ok n d samp count :
  dejitter_ok d → 0 <= count → count + Z.of_nat n <= Z.of_nat (length samp) →
  (∀ k s, count <= Z.of_nat k < count + Z.of_nat n → samp !! k = Some s → sample_in s) →
  ∃ d' samp', dejitter_loop n d samp count = Ok (d', samp', count + Z.of_nat n) ∧ dejitter_ok d' ∧
    length samp' = length samp ∧
    (∀ k, ¬ (count <= Z.of_nat k < count + Z.of_nat n) → samp' !! k = samp !! k) ∧
    (∀ k s', count <= Z.of_nat k < count + Z.of_nat n → samp' !! k = Some s' →
       sample_in s' ∧ ∃ s, samp !! k = Some s ∧ tv s' = tv s ∧ (pressure s = 0 → s' = s)).
Proof.
  revert d samp count. induction n as [|n IH]; intros d samp count Hd Hc Hl Hin; cbn [dejitter_loop].
  { exists d, samp. rewrite Z.add_0_r. split_and!; [done..|]. intros. lia. }
  destruct (rd_is_ok samp count) as [s Hs]; [lia|]. rewrite Hs. cbn [mbind result_bind].
  apply rd_Ok in Hs as [_ Hs].
  destruct (dejitter_step_ok d s Hd) as (d1 & o & -> & Hd1 & Ho & Ht & Hp).
  { apply (Hin (Z.to_nat count)); [lia|done]. }
  cbn [mbind result_bind fst snd]. rewrite wr_Ok by lia. cbn [mbind result_bind].
  destruct (IH d1 (<[Z.to_nat count:=o]> samp) (count + 1)) as (d2 & samp2 & -> & Hd2 & Hl2 & Hout & Hok).
  - done.
  - lia.
  - rewrite length_insert. lia.
  - intros k s' Hk. rewrite list_lookup_insert_ne by lia. apply Hin. lia.
  - exists d2, samp2. rewrite length_insert in Hl2. split_and!; [|done|done| |].
    + do 2 f_equal. lia.
    + intros k Hk. rewrite Hout by lia. apply list_lookup_insert_ne. lia.
    + intros k s' Hk Hs'. destruct (decide (k = Z.to_nat count)) as [-> |Hne].
      * rewrite Hout, list_lookup_insert_eq in Hs' by lia. injection Hs' as <-. split; [done|].
        exists s. split_and!; [done..|]. intros. by apply Hp.
      * destruct (Hok k s') as (Hi & s0 & Hs0 & Hr); [lia|done|]. split; [done|]. exists s0.
        rewrite list_lookup_insert_ne in Hs0 by lia. done.
Qed.
End average.

(** ** linear *)

Lemma linear_loop_ok n lin rx ry samp i f :
  0 <= i → i + Z.of_nat n <= Z.of_nat (length samp) →
  (∀ k s, i <= Z.of_nat k < i + Z.of_nat n → samp !! k = Some s → linear_sample lin rx ry s = Ok (f s)) →
  ∃ samp', linear_loop n lin rx ry samp i = Ok samp' ∧ length samp' = length samp ∧
    ∀ k, samp' !! k = if bool_decide (i <= Z.of_nat k < i + Z.of_nat n) then f <$> samp !! k else samp !! k.
Proof.
  revert samp i. induction n as [|n IH]; intros samp i Hi Hl Hf; cbn [linear_loop].
  { exists samp. split_and!; [done..|]. intros k. rewrite bool_decide_false by lia. done. }
  destruct (rd_is_ok samp i) as [s Hs]; [lia|]. rewrite Hs. cbn [mbind result_bind].
  apply rd_Ok in Hs as [_ Hs]. rewrite (Hf (Z.to_nat i) s) by (done || lia). cbn [mbind result_bind].
  rewrite wr_Ok by lia. cbn [mbind result_bind].
  destruct (IH (<[Z.to_nat i:=f s]> samp) (i + 1)) as (samp' & -> & Hl' & Hk').
  - lia.
  - rewrite length_insert. lia.
  - intros k s' Hk. rewrite list_lookup_insert_ne by lia. apply Hf. lia.
  - exists samp'. rewrite length_insert in Hl'. split_and!; [done..|]. intros k. rewrite Hk'.
    destruct (decide (k = Z.to_nat i)) as [-> |Hne].
    + rewrite bool_decide_false, bool_decide_true, list_lookup_insert_eq, Hs by lia. done.
    + rewrite list_lookup_insert_ne by done. repeat case_bool_decide; done || lia.
Qed.

(** A calibration of seven numbers with a non-zero divisor. *)
Definition calibrated (lin : linear_vars) (a : list Z) : Prop :=
  cal lin = a ∧ length a = 7%nat ∧ nth 6 a 0 ≠ 0 ∧ is_s32 (p_div lin) ∧ p_div lin ≠ 0.

(** The affine map of the calibration, as integers. *)
Definition affine (a : list Z) (s : ts_sample) : Z * Z :=
  (Z.quot (s32 (nth 2 a 0 + nth 0 a 0 * x s + nth 1 a 0 * y s)) (nth 6 a 0),
   Z.quot (s32 (nth 5 a 0 + nth 3 a 0 * x s + nth 4 a 0 * y s)) (nth 6 a 0)).

Definition rescaled (v res cal_res : Z) : Z :=
  if (res =? 0) || (cal_res =? 0) then v else s32 (u32 (v * res) / u32 cal_res).

Definition calibrate (lin : linear_vars) (a : list Z) (rx ry : Z) (s : ts_sample) : ts_sample :=
  let nx := rescaled (affine a s).1 rx (cal_res_x lin) in
  let ny := rescaled (affine a s).2 ry (cal_res_y lin) in
  let np := u32 ((pressure s + p_offset lin) * p_mult lin) / u32 (p_div lin) in
  if swap_xy lin =? 0 then Sample nx ny np (tv s) else Sample ny nx np (tv s).

Lemma rescale_eq v res cal_res : rescale v res cal_res = Ok (rescaled v res cal_res).
Proof.
  unfold rescale, rescaled, uint_div. destruct (res =? 0), (cal_res =? 0) eqn:E; cbn; try done.
Qed.

(** A small negative product taken as unsigned and divided is large and positive. *)
Lemma u32_quot_pos v res : 4 <= res < 65536 → -32768 <= v < 0 → 0 < s32 ((v * res + 4294967296) / res).
Proof.
  intros Hr Hv. rewrite Z.add_comm, Z.div_add by lia.
  assert (65536 <= 4294967296 / res) by (apply Z.div_le_lower_bound; lia).
  assert (4294967296 / res <= 1073741824) by (apply Z.div_le_upper_bound; lia).
  rewrite s32_id; unfold is_s32; lia.
Qed.

Lemma int_div_Ok a b : b ≠ 0 → int_div a b = Ok (Z.quot a b).
Proof. intros Hb. unfold int_div. by rewrite (proj2 (Z.eqb_neq _ _) Hb). Qed.

Lemma uint_div_Ok a b : b ≠ 0 → uint_div a b = Ok (u32 a / u32 b).
Proof. intros Hb. unfold uint_div. by rewrite (proj2 (Z.eqb_neq _ _) Hb). Qed.

Lemma linear_sample_eq lin a rx ry s : calibrated lin a →
  linear_sample lin rx ry s = Ok (calibrate lin a rx ry s).
Proof.
  intros (Ha & Hl & H6 & Hd & Hd0). unfold linear_sample, calibrate, affine. rewrite Ha.
  destruct a as [|a0 [|a1 [|a2 [|a3 [|a4 [|a5 [|a6 [|a7 a]]]]]]]]; try done.
  set (l := [a0; a1; a2; a3; a4; a5; a6]).
  change (rd l 0) with (Ok a0); change (rd l 1) with (Ok a1); change (rd l 2) with (Ok a2);
  change (rd l 3) with (Ok a3); change (rd l 4) with (Ok a4); change (rd l 5) with (Ok a5);
  change (rd l 6) with (Ok a6). cbn [mbind result_bind nth l] in *.
  rewrite !int_div_Ok by done. cbn [mbind result_bind]. rewrite !rescale_eq. cbn [mbind result_bind].
  rewrite uint_div_Ok by done. cbn [mbind result_bind fst snd].
  by destruct (swap_xy lin =? 0).
Qed.

(** ** The loops as functions on lists *)

(** The filter sample by sample. *)
Fixpoint dejitter_spec (d : dejitter_vars) (l : list ts_sample) : result (dejitter_vars * list ts_sample) :=
  match l with
  | [] => Ok (d, [])
  | s :: l => '(d, o) ← dejitter_step d s; '(d, os) ← dejitter_spec d l; Ok (d, o :: os)
  end.

Lemma dejitter_spec_length l : ∀ d d' out, dejitter_spec d l = Ok (d', out) → length out = length l.
Proof.
  induction l as [|s l IH]; intros d d' out; cbn [dejitter_spec]; [by intros [= _ <-]|].
  destruct (dejitter_step d s) as [[d1 o]|]; [|done]. cbn [mbind result_bind].
  destruct (dejitter_spec d1 l) as [[d2 os]|] eqn:El; [|done]. intros [= _ <-]. cbn [length]. by erewrite IH.
Qed.

Lemma dejitter_loop_spec l : ∀ d acc tl d' out, dejitter_spec d l = Ok (d', out) →
  dejitter_loop (length l) d (acc ++ l ++ tl) (Z.of_nat (length acc)) =
    Ok (d', acc ++ out ++ tl, Z.of_nat (length acc + length l)).
Proof.
  induction l as [|s l IH]; intros d acc tl d' out; cbn [dejitter_spec length dejitter_loop].
  { intros [= <- <-]. by rewrite Nat.add_0_r. }
  destruct (dejitter_step d s) as [[d1 o]|] eqn:Es; [|done]. cbn [mbind result_bind].
  destruct (dejitter_spec d1 l) as [[d2 os]|] eqn:El; [|done]. intros [= <- <-].
  assert (rd (acc ++ (s :: l) ++ tl) (Z.of_nat (length acc)) = Ok s) as ->.
  { apply rd_Ok. split; [lia|]. by rewrite Nat2Z.id, lookup_app_r, Nat.sub_diag by lia. }
  cbn [mbind result_bind]. rewrite Es. cbn [mbind result_bind fst snd].
  rewrite wr_Ok by (rewrite !length_app; cbn; lia). cbn [mbind result_bind].
  rewrite Nat2Z.id, insert_app_r_alt, Nat.sub_diag by lia. cbn [app insert list_insert].
  specialize (IH d1 (acc ++ [o]) tl d2 os El). rewrite length_app in IH. cbn [length] in IH.
  replace (Z.of_nat (length acc) + 1) with (Z.of_nat (length acc + 1)) by lia.
  rewrite <- !app_assoc in IH. cbn [app] in IH. rewrite IH. by rewrite <- Nat.add_assoc.
Qed.

Lemma dejitter_spec_ok lo hi l : - coord_bound <= lo ∧ lo <= hi ∧ hi <= coord_bound → ∀ d,
  dejitter_ok lo hi d → Forall (sample_in lo hi) l →
  ∃ d' out, dejitter_spec d l = Ok (d', out) ∧ dejitter_ok lo hi d' ∧ Forall (sample_in lo hi) out ∧ tv <$> out = tv <$> l.
Proof.
  intros Hr. induction l as [|s l IH]; intros d Hd Hl; cbn [dejitter_spec]; [by eexists _, _|].
  apply Forall_cons in Hl as [Hs Hl].
  destruct (dejitter_step_ok lo hi Hr d s Hd Hs) as (d1 & o & -> & Hd1 & Ho & Ht & _). cbn [mbind result_bind].
  destruct (IH d1 Hd1 Hl) as (d2 & os & -> & Hd2 & Hos & Hts). cbn [mbind result_bind].
  exists d2, (o :: os). split; [done|]. split; [done|]. split; [by constructor|]. cbn. by rewrite Ht, Hts.
Qed.

Lemma linear_loop_spec lin rx ry f l : (∀ s, linear_sample lin rx ry s = Ok (f s)) → ∀ acc tl,
  linear_loop (length l) lin rx ry (acc ++ l ++ tl) (Z.of_nat (length acc)) = Ok (acc ++ (f <$> l) ++ tl).
Proof.
  intros Hf. induction l as [|s l IH]; intros acc tl; cbn [length linear_loop]; [done|].
  assert (rd (acc ++ (s :: l) ++ tl) (Z.of_nat (length acc)) = Ok s) as ->.
  { apply rd_Ok. split; [lia|]. by rewrite Nat2Z.id, lookup_app_r, Nat.sub_diag by lia. }
  cbn [mbind result_bind]. rewrite Hf. cbn [mbind result_bind].
  rewrite wr_Ok by (rewrite !length_app; cbn; lia). cbn [mbind result_bind].
  rewrite Nat2Z.id, insert_app_r_alt, Nat.sub_diag by lia. cbn [app insert list_insert].
  specialize (IH (acc ++ [f s]) tl). rewrite length_app in IH. cbn [length] in IH.
  replace (Z.of_nat (length acc) + 1) with (Z.of_nat (length acc + 1)) by lia.
  rewrite <- !app_assoc in IH. exact IH.
Qed.

(** ** Every filter keeps the promise of the interface *)

Lemma dejitter_loop_fits n d samp count d' samp' count' : 0 <= count →
  dejitter_loop n d samp count = Ok (d', samp', count') →
  count' = count + Z.of_nat n ∧ length samp' = length samp ∧
  drop (Z.to_nat count + n) samp' = drop (Z.to_nat count + n) samp.
Proof.
  revert d samp count. induction n as [|n IH]; intros d samp count Hc Hrun; cbn [dejitter_loop] in Hrun.
  { injection Hrun as <- <- <-. split; [lia|done]. }
  bind_inv. apply IH in Hrun as (-> & Hl & Hd); [|lia].
  match goal with E : wr _ _ _ = Ok _ |- _ => apply wr_inv in E as [? ->] end.
  rewrite length_insert in Hl. split; [lia|]. split; [done|].
  replace (Z.to_nat (count + 1) + n)%nat with (Z.to_nat count + S n)%nat in Hd by lia.
  rewrite Hd. apply insert_drop_lt. lia.
Qed.

Lemma linear_loop_fits n lin rx ry samp i samp' : 0 <= i →
  linear_loop n lin rx ry samp i = Ok samp' →
  length samp' = length samp ∧ drop (Z.to_nat i + n) samp' = drop (Z.to_nat i + n) samp.
Proof.
  revert samp i. induction n as [|n IH]; intros samp i Hi Hrun; cbn [linear_loop] in Hrun.
  { injection Hrun as <-. done. }
  bind_inv. apply IH in Hrun as (Hl & Hd); [|lia].
  match goal with E : wr _ _ _ = Ok _ |- _ => apply wr_inv in E as [? ->] end.
  rewrite length_insert in Hl. split; [done|].
  replace (Z.to_nat (i + 1) + n)%nat with (Z.to_nat i + S n)%nat in Hd by lia.
  rewrite Hd. apply insert_drop_lt. lia.
Qed.

Lemma drop_eq_le {A} (l l' : list A) n m : (n <= m)%nat → drop n l = drop n l' → drop m l = drop m l'.
Proof.
  intros Hm Hd. replace m with (n + (m - n))%nat by lia. by rewrite <- !drop_drop, Hd.
Qed.

#[export] Instance dejitter_read_ok {M} `{TsReadOk M} : TsReadOk (dejitter M).
Proof.
  intros m samp nr m' samp' ret' Hnr Hrun. rewrite dejitter_read_eq in Hrun.
  destruct (ts_module_read (dj_next m) samp nr) as [[[next samp1] ret]|] eqn:Hread; [|done].
  destruct (ts_read_ok _ _ _ _ _ _ Hnr Hread) as (Hl & Hle & Htl). cbn [mbind result_bind] in Hrun.
  destruct (dejitter_loop _ _ _ _) as [[[d samp2] count]|] eqn:Hloop; [|done]. injection Hrun as <- <- <-.
  apply dejitter_loop_fits in Hloop as (-> & Hl2 & Hd); [|done]. split; [congruence|]. split; [lia|].
  rewrite <- Htl. eapply drop_eq_le, Hd. lia.
Qed.

#[export] Instance linear_read_ok {M} `{TsReadOk M} : TsReadOk (linear M).
Proof.
  intros m samp nr m' samp' ret' Hnr Hrun. rewrite linear_read_eq in Hrun.
  destruct (ts_module_read (ln_next m) samp nr) as [[[next samp1] ret]|] eqn:Hread; [|done].
  destruct (ts_read_ok _ _ _ _ _ _ Hnr Hread) as (Hl & Hle & Htl). cbn [mbind result_bind] in Hrun.
  destruct (linear_loop _ _ _ _ _ _) as [samp2|] eqn:Hloop; [|done]. injection Hrun as <- <- <-.
  apply linear_loop_fits in Hloop as (Hl2 & Hd); [|done]. split; [congruence|]. split; [lia|].
  rewrite <- Htl. eapply drop_eq_le, Hd. lia.
Qed.

(** One limit of the pressure filter given as a number. *)
Lemma apply_pmin stale a ts p : 0 <= a <= ULONG_MAX →
  apply_tokens (pthres_table stale) (setting "pmin" a :: ts) p =
    if (a =? ULONG_MAX) && stale then Ok (p, -1)
    else apply_tokens (pthres_table stale) ts (PthresVars a (pmax p) (press p) (xsave p) (ysave p)).
Proof.
  intros Ha. cbn [apply_tokens]. unfold setting. rewrite split_eq_app by (apply (bool_decide_unpack _); vm_compute; exact I).
  cbn [fst snd]. change (find_var (pthres_table stale) (lit "pmin")) with (Some (threshold_vars stale 0)).
  cbn match. unfold threshold_vars. rewrite strtoul_checked_print by done.
  by destruct (_ && _).
Qed.

Lemma apply_pmax stale b ts p : 0 <= b <= ULONG_MAX →
  apply_tokens (pthres_table stale) (setting "pmax" b :: ts) p =
    if (b =? ULONG_MAX) && stale then Ok (p, -1)
    else apply_tokens (pthres_table stale) ts (PthresVars (pmin p) b (press p) (xsave p) (ysave p)).
Proof.
  intros Ha. cbn [apply_tokens]. unfold setting. rewrite split_eq_app by (apply (bool_decide_unpack _); vm_compute; exact I).
  cbn [fst snd]. change (find_var (pthres_table stale) (lit "pmax")) with (Some (threshold_vars stale 1)).
  cbn match. unfold threshold_vars. rewrite strtoul_checked_print by done.
  by destruct (_ && _).
Qed.

(** Parsing "pmin=a" and one more token. *)
Lemma pthres_parse stale a t p : 0 <= a → is_token t → (length t <= 20)%nat →
  tslib_parse_vars p (pthres_table stale) (Some (join [setting "pmin" a; t])) =
    apply_tokens (pthres_table stale) [setting "pmin" a; t] p.
Proof.
  intros Ha Ht Hl. apply parse_vars_run; [done| |].
  - rewrite !Forall_cons. split_and!; [|done|done]. apply setting_token; [|done].
    apply (bool_decide_unpack _); vm_compute; exact I.
  - cbn [join]. rewrite length_app. cbn [length]. pose proof (setting_length "pmin" a) as H.
    change (length (lit "pmin")) with 4%nat in H. unfold BUF_SIZE. lia.
Qed.

(** ** Claims *)

(** C18: The pressure filter above any module that keeps the promise of the
    interface: what it returns is the number of samples that pass the filter,
    they stand in order at the front of the caller's array, and nothing beyond
    what the module below wrote changes.  The removal in place with memmove is
    a plain list filter. *)
Theorem pthres_is_a_filter {M} `{TsReadOk M} (m : pthres M) samp nr next samp1 ret :
  0 <= nr <= Z.of_nat (length samp) →
  ts_module_read (pt_next m) samp nr = Ok (next, samp1, ret) → 0 <= ret →
  let out := pthres_spec (pt_vars m) (take (Z.to_nat ret) samp1) in
  ∃ samp', ts_module_read m samp nr = Ok (Pthres out.1 next, samp', Z.of_nat (length out.2)) ∧
    take (length out.2) samp' = out.2 ∧ drop (Z.to_nat ret) samp' = drop (Z.to_nat ret) samp1 ∧
    length samp' = length samp.
Proof.
  intros Hnr Hread Hret out. destruct (ts_read_ok _ _ _ _ _ _ Hnr Hread) as (Hl & Hle & _).
  destruct (pthres_read_run m samp nr next samp1 ret Hnr Hread Hret) as (junk & Hrun & Hj).
  fold out in Hrun, Hj. eexists. split; [exact Hrun|]. split_and!.
  - apply take_app_length.
  - rewrite app_assoc, drop_app_ge by lia. by rewrite Hj, Nat.sub_diag, drop_0.
  - rewrite app_assoc, length_app, Hj, length_drop. lia.
Qed.

(** The de-jitter filter above any module that keeps the promise of the
    interface: with a valid history and coordinates of a range that fits the
    weighted sums, it passes on as many samples as it got, each with its time
    stamp and with coordinates in the same range, pen-up samples unchanged; the
    history stays valid and no array is accessed out of bounds. *)
Theorem dejitter_keeps_range {M} `{TsReadOk M} (m : dejitter M) samp nr next samp1 ret lo hi :
  - coord_bound <= lo ∧ lo <= hi ∧ hi <= coord_bound →
  0 <= nr <= Z.of_nat (length samp) → dejitter_ok lo hi (dj_vars m) →
  ts_module_read (dj_next m) samp nr = Ok (next, samp1, ret) → 0 <= ret →
  Forall (sample_in lo hi) (take (Z.to_nat ret) samp1) →
  ∃ d samp', ts_module_read m samp nr = Ok (Dejitter d next, samp', ret) ∧ dejitter_ok lo hi d ∧
    length samp' = length samp ∧
    ∀ k s', Z.of_nat k < ret → samp' !! k = Some s' → sample_in lo hi s' ∧
      ∃ s, samp1 !! k = Some s ∧ tv s' = tv s ∧ (pressure s = 0 → s' = s).
Proof.
  intros Hrg Hnr Hok Hread Hret Hin. destruct (ts_read_ok _ _ _ _ _ _ Hnr Hread) as (Hl & Hle & _).
  destruct (dejitter_loop_ok lo hi Hrg (Z.to_nat ret) (dj_vars m) samp1 0) as (d & samp' & Hrun & Hd & Hl' & _ & Hk).
  - done.
  - lia.
  - lia.
  - intros k s Hk Hs. rewrite Forall_lookup in Hin. apply (Hin k). rewrite lookup_take_lt; [done|lia].
  - exists d, samp'. rewrite dejitter_read_eq, Hread. cbn [mbind result_bind]. rewrite Hrun. cbn [mbind result_bind].
    replace (0 + Z.of_nat (Z.to_nat ret)) with ret by lia. split_and!; [done|done|lia|].
    intros k s' Hlt Hs'. apply Hk; [lia|done].
Qed.

(** The calibration filter applies the affine map of the calibration to every
    sample the module below returned, and to no other; with the default
    constants and no recorded screen size this is the identity.  A negative
    coordinate is rescaled as an unsigned number: with equal screen sizes,
    where the rescaling should do nothing, it becomes large and positive. *)
Theorem linear_applies_calibration {M} `{TsReadOk M} (m : linear M) samp nr next samp1 ret a :
  0 <= nr <= Z.of_nat (length samp) → calibrated (ln_vars m) a →
  ts_module_read (ln_next m) samp nr = Ok (next, samp1, ret) → 0 <= ret →
  (∃ samp', ts_module_read m samp nr = Ok (Linear (ln_vars m) (ln_res_x m) (ln_res_y m) next, samp', ret) ∧
     ∀ k, samp' !! k = if bool_decide (Z.of_nat k < ret)
                       then calibrate (ln_vars m) a (ln_res_x m) (ln_res_y m) <$> samp1 !! k
                       else samp1 !! k) ∧
  (∀ s, is_s32 (x s) → is_s32 (y s) → is_u32 (pressure s) →
     calibrate (LinearVars 0 0 1 1 [1; 0; 0; 0; 1; 0; 1] 0 0) [1; 0; 0; 0; 1; 0; 1] 320 240 s = s) ∧
  (∀ v res, 4 <= res < 65536 → -32768 <= v < 0 → ∃ r, rescale v res res = Ok r ∧ 0 < r).
Proof.
  intros Hnr Hcal Hread Hret. destruct (ts_read_ok _ _ _ _ _ _ Hnr Hread) as (Hl & Hle & _).
  split_and!.
  - destruct (linear_loop_ok (Z.to_nat ret) (ln_vars m) (ln_res_x m) (ln_res_y m) samp1 0
      (calibrate (ln_vars m) a (ln_res_x m) (ln_res_y m))) as (samp' & Hrun & _ & Hk).
    + lia.
    + lia.
    + intros k s _ _. by apply linear_sample_eq.
    + exists samp'. rewrite linear_read_eq, Hread. cbn [mbind result_bind].
      rewrite Hrun. split; [done|]. intros k. rewrite Hk. repeat case_bool_decide; done || lia.
  - intros s Hx Hy Hp. unfold calibrate, affine, rescaled. cbn -[Z.mul Z.add Z.quot s32 u32 Z.div].
    rewrite !Z.quot_1_r. change (u32 1) with 1. rewrite Z.div_1_r.
    replace (0 + 1 * x s + 0 * y s) with (x s) by lia. replace (0 + 0 * x s + 1 * y s) with (y s) by lia.
    replace ((pressure s + 0) * 1) with (pressure s) by lia.
    rewrite !s32_id, u32_id by done. by destruct s.
  - intros v res Hr Hv. rewrite rescale_eq. eexists. split; [done|]. unfold rescaled. rewrite (proj2 (Z.eqb_neq res 0)) by lia. cbn [orb].
    rewrite (u32_id res) by (unfold is_u32; lia).
    assert (u32 (v * res) = v * res + 4294967296) as ->.
    { unfold u32. symmetry. apply Z.mod_unique with (-1); nia. }
    apply u32_quot_pos; lia.
Qed.

(** The pressure filter reads its limits from its parameters: the values
    printed in decimal are recovered, and the static variables keep their
    values.  A limit without a value passes NULL to strtoul, and a limit equal
    to ULONG_MAX makes the initialisation fail when errno was ERANGE before
    it. *)
Theorem pthres_params_roundtrip st a b : 0 <= a <= ULONG_MAX → 0 <= b <= ULONG_MAX →
  pthres_mod_init true false st (Some (join [setting "pmin" a; setting "pmax" b])) =
    Ok (Some (PthresVars a b (press st) (xsave st) (ysave st))) ∧
  pthres_mod_init true false st (Some (join [setting "pmin" a; lit "pmax"])) = Crash NullDeref ∧
  pthres_mod_init true true st (Some (join [setting "pmin" a; setting "pmax" ULONG_MAX])) = Ok None ∧
  pthres_mod_init true false st None = Ok (Some (PthresVars 1 INT_MAX (press st) (xsave st) (ysave st))).
Proof.
  intros Ha Hb.
  assert (is_token (lit "pmax")) as Htok by (apply (bool_decide_unpack _); vm_compute; exact I).
  assert (∀ v, 0 <= v → is_token (setting "pmax" v) ∧ (length (setting "pmax" v) <= 20)%nat) as Hset.
  { intros v Hv. split; [by apply setting_token|]. pose proof (setting_length "pmax" v) as Hl.
    change (length (lit "pmax")) with 4%nat in Hl. lia. }
  assert (0 <= ULONG_MAX <= ULONG_MAX) as Hm by (unfold ULONG_MAX; lia).
  split_and!; [| | |done]; unfold pthres_mod_init; cbn [negb]; rewrite pthres_parse, apply_pmin;
    try (done || lia || (apply Hset; lia) || (cbn; lia)).
  - rewrite andb_false_r, apply_pmax, andb_false_r by done. done.
  - rewrite andb_false_r. done.
  - destruct ((a =? ULONG_MAX) && true); [done|]. by rewrite apply_pmax.
Qed.

(** ** Witnesses *)

(** A touch, a light touch that ends it, noise and a strong touch. *)
Definition touches : list ts_sample :=
  [Sample 10 20 50 1; Sample 11 21 0 2; Sample 12 22 0 3; Sample 13 23 300 4; Sample 14 24 60 5].

Definition blank (n : nat) : list ts_sample := replicate n (Sample 0 0 0 0).

Lemma pthres_is_a_filter_witness :
  ∃ samp', ts_module_read (Pthres (PthresVars 1 200 0 0 0) (Replay touches)) (blank 5) 5 =
      Ok (Pthres (PthresVars 1 200 1 14 24) (Replay []), samp', 3) ∧
    take 3 samp' = [Sample 10 20 50 1; Sample 10 20 0 2; Sample 14 24 60 5].
Proof.
  destruct (pthres_is_a_filter (Pthres (PthresVars 1 200 0 0 0) (Replay touches)) (blank 5) 5
    (Replay []) touches 5) as (samp' & Hrun & Ht & _).
  - cbn. lia.
  - vm_compute. reflexivity.
  - lia.
  - exists samp'. split; [exact Hrun|exact Ht].
Defined.

Definition fresh_dejitter : dejitter_vars := DejitterVars 10000 0 0 (replicate 4 (Hist 0 0 0)).

Lemma dejitter_keeps_range_witness :
  ∃ d samp', ts_module_read (Dejitter fresh_dejitter (Replay touches)) (blank 5) 5 =
      Ok (Dejitter d (Replay []), samp', 5) ∧
    ∀ k s', Z.of_nat k < 5 → samp' !! k = Some s' → sample_in 0 100 s'.
Proof.
  destruct (dejitter_keeps_range (Dejitter fresh_dejitter (Replay touches)) (blank 5) 5 (Replay [])
    touches 5 0 100) as (d & samp' & Hrun & _ & _ & Hk).
  - unfold coord_bound. lia.
  - cbn. lia.
  - unfold dejitter_ok. cbn. split_and!; [reflexivity|lia|lia|lia|lia|]. intros. lia.
  - vm_compute. reflexivity.
  - lia.
  - cbn. unfold sample_in, within. repeat constructor; cbn; lia.
  - exists d, samp'. split; [exact Hrun|]. intros k s' Hlt Hs. exact (proj1 (Hk k s' Hlt Hs)).
Defined.

Definition half_scale : linear_vars := LinearVars 1 0 1 1 [1; 0; 4; 0; 2; 0; 2] 320 240.

Lemma linear_applies_calibration_witness :
  ∃ samp', ts_module_read (Linear half_scale 640 240 (Replay touches)) (blank 5) 5 =
      Ok (Linear half_scale 640 240 (Replay []), samp', 5) ∧
    samp' !! 0%nat = Some (Sample 20 14 50 1).
Proof.
  destruct (linear_applies_calibration (Linear half_scale 640 240 (Replay touches)) (blank 5) 5
    (Replay []) touches 5 [1; 0; 4; 0; 2; 0; 2]) as [(samp' & Hrun & Hk) _].
  - cbn. lia.
  - unfold calibrated, is_s32. cbn. split_and!; [reflexivity|reflexivity|lia|lia|lia|lia].
  - vm_compute. reflexivity.
  - lia.
  - exists samp'. split; [exact Hrun|]. rewrite Hk. vm_compute. reflexivity.
Defined.

(** A stack of modules: calibration above de-jittering above
    the pressure threshold above the driver. *)
Example stack_reads :
  ∃ m samp', ts_module_read
      (Linear half_scale 640 240 (Dejitter fresh_dejitter (Pthres (PthresVars 1 200 0 0 0) (Replay touches))))
      (blank 5) 5 = Ok (m, samp', 3) ∧
    take 3 samp' = [Sample 20 14 50 1; Sample 20 14 0 2; Sample 24 18 60 5].
Proof. eexists _, _. split; [vm_compute; reflexivity|]. vm_compute. reflexivity. Qed.

Lemma pthres_params_roundtrip_witness :
  pthres_mod_init true false (PthresVars 0 0 0 0 0) (Some (lit "pmin=5 pmax=200")) =
    Ok (Some (PthresVars 5 200 0 0 0)).
Proof.
  destruct (pthres_params_roundtrip (PthresVars 0 0 0 0 0) 5 200) as [H _].
  - unfold ULONG_MAX. lia.
  - unfold ULONG_MAX. lia.
  - exact H.
Defined.
