(* ===== verification/Calibrate.v ===== *)
(** * Calibrate: the equations of the touch-screen calibration

    Models perform_calibration and the end of main of
    src/tslib-1.1/tests/ts_calibrate.c, over any arithmetic.  The code computes in
    single precision: what it computes is what linear.c reads from the file and
    applies.  What the equations mean is proved in rational numbers, and how far
    single precision is from that is shown by examples. *)
From Stdlib Require Import SpecFloat QArith Qfield.
From S2P Require Import Prelude LibC Floats Scan Tslib TsFilters.
Local Open Scope cmodel_scope.
Local Open Scope Z_scope.

(** ** The equations *)

(** The measured positions and those on the screen. *)
Record calibration := Calibration { raw_x : list Z; raw_y : list Z; screen_x : list Z; screen_y : list Z }.

Section arithmetic.
Context {F : Type} `{Arith F}.
Local Infix "⊕" := f_add (at level 50, left associativity).
Local Infix "⊖" := f_sub (at level 50, left associativity).
Local Infix "⊗" := f_mul (at level 40, left associativity).
Local Infix "⊘" := f_div (at level 40, left associativity).

(** The sums; products are those of int. *)
Definition count (l : list Z) : F := foldl (λ s _, s ⊕ f_of 1) (f_of 0) l.
Definition total (l : list Z) : F := foldl (λ s v, s ⊕ f_of v) (f_of 0) l.
Definition dot (l l' : list Z) : F := foldl (λ s p, s ⊕ f_of (s32 (p.1 * p.2))) (f_of 0) (zip l l').

Definition scaling : F := f_of 65536.

(** The elements of the inverse matrix. *)
Record inverse := Inverse { m_a : F; m_b : F; m_c : F; m_e : F; m_f : F; m_i : F }.

Definition determinant (n x y x2 y2 xy : F) : F :=
  n ⊗ (x2 ⊗ y2 ⊖ xy ⊗ xy) ⊕ x ⊗ (xy ⊗ y ⊖ x ⊗ y2) ⊕ y ⊗ (x ⊗ xy ⊖ y ⊗ x2).

Definition invert (n x y x2 y2 xy det : F) : inverse :=
  Inverse ((x2 ⊗ y2 ⊖ xy ⊗ xy) ⊘ det) ((xy ⊗ y ⊖ x ⊗ y2) ⊘ det) ((x ⊗ xy ⊖ y ⊗ x2) ⊘ det)
    ((n ⊗ y2 ⊖ y ⊗ y) ⊘ det) ((x ⊗ y ⊖ n ⊗ xy) ⊘ det) ((n ⊗ x2 ⊖ x ⊗ x) ⊘ det).

(** The three constants of one coordinate. *)
Definition constants (m : inverse) (z zx zy : F) : result (list Z) :=
  c0 ← f_to_int ((m_a m ⊗ z ⊕ m_b m ⊗ zx ⊕ m_c m ⊗ zy) ⊗ scaling);
  c1 ← f_to_int ((m_b m ⊗ z ⊕ m_e m ⊗ zx ⊕ m_f m ⊗ zy) ⊗ scaling);
  c2 ← f_to_int ((m_c m ⊗ z ⊕ m_f m ⊗ zx ⊕ m_i m ⊗ zy) ⊗ scaling);
  Ok [c0; c1; c2].

(** The seven constants, or nothing when the determinant is too small. *)
Definition perform_calibration (cal : calibration) : result (option (list Z)) :=
  let '(xs, ys) := (raw_x cal, raw_y cal) in
  let '(n, x, y) := (count xs, total xs, total ys) in
  let '(x2, y2, xy) := (dot xs xs, dot ys ys, dot xs ys) in
  let det := determinant n x y x2 y2 xy in
  if f_below_tenth det then Ok None else
  let m := invert n x y x2 y2 xy det in
  cx ← constants m (total (screen_x cal)) (dot (screen_x cal) xs) (dot (screen_x cal) ys);
  cy ← constants m (total (screen_y cal)) (dot (screen_y cal) xs) (dot (screen_y cal) ys);
  a6 ← f_to_int scaling;
  Ok (Some (cx ++ cy ++ [a6])).
End arithmetic.

(** The text that main writes to the calibration file, in an array of 256. *)
Definition cal_numbers (a : list Z) (xres yres : Z) : list Z :=
  [a !!! 1%nat; a !!! 2%nat; a !!! 0%nat; a !!! 4%nat; a !!! 5%nat; a !!! 3%nat; a !!! 6%nat; xres; yres].
Definition cal_buffer (a : list Z) (xres yres : Z) : list Z := spaced (cal_numbers a xres yres).

(** ** The sums in rational numbers *)

Definition zsum (l : list Z) : Z := foldr Z.add 0 l.
Definition zdot (l l' : list Z) : Z := zsum (zip_with Z.mul l l').

Lemma count_q l : (count (F:=Q) l == inject_Z (Z.of_nat (length l)))%Q.
Proof.
  unfold count. assert (∀ l acc, (foldl (λ (s : Q) _, f_add s (f_of 1)) acc l == acc + inject_Z (Z.of_nat (length (A:=Z) l)))%Q) as Hf.
  { clear l. induction l as [|v l IH]; intros acc; cbn [foldl length]; [cbn; ring|]. rewrite IH. rewrite Nat2Z.inj_succ, <- Z.add_1_l, inject_Z_plus. cbn [f_add f_of q_arith]. ring. }
  rewrite Hf. cbn [f_of q_arith]. ring.
Qed.

Lemma total_q l : (total (F:=Q) l == inject_Z (zsum l))%Q.
Proof.
  unfold total. assert (∀ l acc, (foldl (λ (s : Q) v, f_add s (f_of v)) acc l == acc + inject_Z (zsum l))%Q) as Hf.
  { clear l. induction l as [|v l IH]; intros acc; cbn [foldl zsum foldr]; [cbn; ring|]. rewrite IH. fold (zsum l). rewrite inject_Z_plus. cbn [f_add f_of q_arith]. ring. }
  rewrite Hf. cbn [f_of q_arith]. ring.
Qed.

(** Coordinates whose products are ints. *)
Definition short (v : Z) : Prop := -32768 <= v < 32768.

Lemma dot_q l l' : Forall short l → Forall short l' → (dot (F:=Q) l l' == inject_Z (zdot l l'))%Q.
Proof.
  intros Hl Hl'. unfold dot.
  assert (∀ acc, (foldl (λ (s : Q) p, f_add s (f_of (s32 (p.1 * p.2)))) acc (zip l l') == acc + inject_Z (zdot l l'))%Q) as Hf.
  { revert l' Hl'. induction Hl as [|v l Hv Hl IH]; intros l' Hl' acc; [cbn; ring|]. destruct Hl' as [|v' l' Hv' Hl']; [cbn; ring|].
    cbn [zip zip_with foldl fst snd]. rewrite IH by done. unfold zdot, zsum. cbn [zip_with foldr]. fold (zsum (zip_with Z.mul l l')).
    rewrite s32_id by (unfold is_s32, short in *; nia). rewrite inject_Z_plus. cbn [f_add f_of q_arith]. fold (zdot l l'). ring. }
  rewrite Hf. cbn [f_of q_arith]. ring.
Qed.

(** ** The equations are solved *)

Section solution.
Local Open Scope Q_scope.

Context (n x y x2 y2 xy z zx zy k0 k1 k2 : Q).
Let det := determinant n x y x2 y2 xy.
Let m := invert n x y x2 y2 xy det.
Context (Hdet : ¬ det == 0) (Hz : 65536 * z == k0 * n + k1 * x + k2 * y) (Hzx : 65536 * zx == k0 * x + k1 * x2 + k2 * xy)
  (Hzy : 65536 * zy == k0 * y + k1 * xy + k2 * y2).

Lemma solved : (m_a m * z + m_b m * zx + m_c m * zy) * 65536 == k0 ∧
  (m_b m * z + m_e m * zx + m_f m * zy) * 65536 == k1 ∧ (m_c m * z + m_f m * zx + m_i m * zy) * 65536 == k2.
Proof.
  assert (∀ a b c, (a * z + b * zx + c * zy) * 65536 == a * (65536 * z) + b * (65536 * zx) + c * (65536 * zy)) as Hr by (intros; ring).
  rewrite !Hr, Hz, Hzx, Hzy. unfold m, invert. cbn [m_a m_b m_c m_e m_f m_i f_mul f_sub f_div q_arith].
  unfold det, determinant in *. cbn [f_mul f_sub f_add q_arith] in *. split; [|split]; field; exact Hdet.
Qed.
End solution.

(** ** Points *)

(** The positions on the screen follow the measured ones, in 65536ths. *)
Definition follows (k0 k1 k2 : Z) (xs ys fs : list Z) : Prop :=
  length ys = length xs ∧ length fs = length xs ∧
  Forall (λ p, 65536 * p.2 = k0 + k1 * p.1.1 + k2 * p.1.2) (zip (zip xs ys) fs).

Lemma follows_sum k0 k1 k2 xs ys fs : follows k0 k1 k2 xs ys fs →
  65536 * zsum fs = k0 * Z.of_nat (length xs) + k1 * zsum xs + k2 * zsum ys.
Proof.
  revert ys fs. induction xs as [|xv xs IH]; intros [|yv ys] [|fv fs] (Hy & Hf & H); try done; [cbn; lia|].
  cbn [zip zip_with] in H. apply Forall_cons in H as [E H]. cbn [fst snd] in E.
  assert (65536 * zsum fs = k0 * Z.of_nat (length xs) + k1 * zsum xs + k2 * zsum ys) as IH' by (apply IH; split; [by injection Hy|split; [by injection Hf|done]]).
  unfold zsum in *. cbn [foldr length]. lia.
Qed.

Lemma follows_dot k0 k1 k2 ws : ∀ xs ys fs, follows k0 k1 k2 xs ys fs → length ws = length xs →
  65536 * zdot fs ws = k0 * zsum ws + k1 * zdot xs ws + k2 * zdot ys ws.
Proof.
  induction ws as [|v ws IH]; intros [|xv xs] [|yv ys] [|fv fs] (Hy & Hf & H) Hw; try done; [cbn; lia|].
  cbn [zip zip_with] in H. apply Forall_cons in H as [E H]. cbn [fst snd] in E.
  assert (65536 * zdot fs ws = k0 * zsum ws + k1 * zdot xs ws + k2 * zdot ys ws) as IH'
    by (apply IH; [split; [by injection Hy|split; [by injection Hf|done]]|by injection Hw]).
  unfold zdot, zsum in *. cbn [zip_with foldr]. nia.
Qed.

Lemma zdot_comm l l' : zdot l l' = zdot l' l.
Proof.
  unfold zdot, zsum. revert l'. induction l as [|v l IH]; intros [|v' l']; [done..|]. cbn [zip_with foldr]. rewrite IH. lia.
Qed.

(** The determinant in integers; the points do not lie on one line. *)
Definition zdet (xs ys : list Z) : Z :=
  let '(n, x, y, x2, y2, xy) := (Z.of_nat (length xs), zsum xs, zsum ys, zdot xs xs, zdot ys ys, zdot xs ys) in
  n * (x2 * y2 - xy * xy) + x * (xy * y - x * y2) + y * (x * xy - y * x2).
Definition spread (xs ys : list Z) : Prop := zdet xs ys ≠ 0.

Definition area (p q r : Z * Z) : Z := (q.1 - p.1) * (r.2 - p.2) - (r.1 - p.1) * (q.2 - p.2).

(** It is the sum of the squares of the areas of all triangles. *)
Definition square (z : Z) : Z := z * z.

Lemma zdet_squares a b c d e :
  zdet (fst <$> [a; b; c; d; e]) (snd <$> [a; b; c; d; e]) =
  square (area a b c) + square (area a b d) + square (area a b e) + square (area a c d) + square (area a c e) + square (area a d e) +
  square (area b c d) + square (area b c e) + square (area b d e) + square (area c d e).
Proof.
  destruct a as [ax ay], b as [bx by_], c as [cx cy], d as [dx dy], e as [ex ey]. unfold zdet, zdot, zsum, area, square.
  cbn [fmap list_fmap fst snd length Z.of_nat Pos.of_succ_nat Pos.succ zip_with foldr]. ring.
Qed.

(** Five points of which three make a triangle are not on one line. *)
Lemma triangle_spreads a b c d e : area a b c ≠ 0 → spread (fst <$> [a; b; c; d; e]) (snd <$> [a; b; c; d; e]).
Proof.
  unfold spread. rewrite zdet_squares. generalize (area a b c). intros t Ht E.
  assert (∀ z, 0 <= square z) as Hsq by (intros z; apply Z.square_nonneg).
  assert (0 < square t) by (unfold square; nia).
  pose proof (Hsq (area a b d)). pose proof (Hsq (area a b e)). pose proof (Hsq (area a c d)). pose proof (Hsq (area a c e)). pose proof (Hsq (area a d e)).
  pose proof (Hsq (area b c d)). pose proof (Hsq (area b c e)). pose proof (Hsq (area b d e)). pose proof (Hsq (area c d e)). lia.
Qed.

(** ** The constants *)

Section exact.
Context (xs ys : list Z) (Hlen : length ys = length xs) (Hx : Forall short xs) (Hy : Forall short ys) (Hspread : spread xs ys).

Definition q_det : Q := determinant (count xs) (total xs) (total ys) (dot xs xs) (dot ys ys) (dot xs ys).

Lemma q_det_whole : (q_det == inject_Z (zdet xs ys))%Q.
Proof.
  unfold q_det, determinant. cbn [f_add f_sub f_mul q_arith]. rewrite count_q, !total_q, !dot_q by done.
  unfold zdet. unfold Z.sub. repeat rewrite ?inject_Z_plus, ?inject_Z_mult, ?inject_Z_opp. ring.
Qed.

Lemma constants_exact k0 k1 k2 fs : follows k0 k1 k2 xs ys fs → Forall short fs → Forall is_s32 [k0; k1; k2] →
  constants (invert (count xs) (total xs) (total ys) (dot xs xs) (dot ys ys) (dot xs ys) q_det) (total (F:=Q) fs) (dot fs xs) (dot fs ys) = Ok [k0; k1; k2].
Proof.
  intros Hf Hs Hk. apply Forall_cons in Hk as [Hk0 Hk]. apply Forall_cons in Hk as [Hk1 Hk]. apply Forall_cons in Hk as [Hk2 _].
  assert (¬ q_det == 0)%Q as Hdet by (rewrite q_det_whole; unfold Qeq, inject_Z; cbn [Qnum Qden]; unfold spread in Hspread; lia).
  destruct (solved (count xs) (total xs) (total ys) (dot xs xs) (dot ys ys) (dot xs ys) (total fs) (dot fs xs) (dot fs ys)
    (inject_Z k0) (inject_Z k1) (inject_Z k2) Hdet) as (S0 & S1 & S2).
  - rewrite count_q, !total_q. change 65536%Q with (inject_Z 65536). rewrite <- !inject_Z_mult, <- !inject_Z_plus. apply inject_Z_injective. by apply follows_sum.
  - rewrite !total_q, !dot_q by done. change 65536%Q with (inject_Z 65536). rewrite <- !inject_Z_mult, <- !inject_Z_plus. apply inject_Z_injective.
    rewrite (zdot_comm xs ys). by apply follows_dot.
  - rewrite !total_q, !dot_q by done. change 65536%Q with (inject_Z 65536). rewrite <- !inject_Z_mult, <- !inject_Z_plus. apply inject_Z_injective.
    by apply follows_dot.
  - unfold constants.
    refine (eq_trans (f_equal (mbind _) (q_to_int_whole _ k0 S0 Hk0)) _). cbn [mbind result_bind].
    refine (eq_trans (f_equal (mbind _) (q_to_int_whole _ k1 S1 Hk1)) _). cbn [mbind result_bind].
    refine (eq_trans (f_equal (mbind _) (q_to_int_whole _ k2 S2 Hk2)) _). done.
Qed.
End exact.

(** ** From the samples to the pen *)

Lemma perform_exact cal k0 k1 k2 k3 k4 k5 :
  length (raw_y cal) = length (raw_x cal) → Forall short (raw_x cal) → Forall short (raw_y cal) → Forall short (screen_x cal) → Forall short (screen_y cal) →
  spread (raw_x cal) (raw_y cal) → follows k0 k1 k2 (raw_x cal) (raw_y cal) (screen_x cal) → follows k3 k4 k5 (raw_x cal) (raw_y cal) (screen_y cal) →
  Forall is_s32 [k0; k1; k2; k3; k4; k5] →
  perform_calibration (F:=Q) cal = Ok (Some [k0; k1; k2; k3; k4; k5; 65536]).
Proof.
  intros Hl Hx Hy Hsx Hsy Hsp Hfx Hfy Hk. unfold perform_calibration.
  fold (q_det (raw_x cal) (raw_y cal)). rewrite (q_whole_not_small _ (zdet (raw_x cal) (raw_y cal))); [|by apply q_det_whole|exact Hsp].
  rewrite (constants_exact (raw_x cal) (raw_y cal) Hl Hx Hy Hsp k0 k1 k2 (screen_x cal)) by (done || exact (Forall_take is_s32 3 _ Hk)). cbn [mbind result_bind].
  rewrite (constants_exact (raw_x cal) (raw_y cal) Hl Hx Hy Hsp k3 k4 k5 (screen_y cal)) by (done || exact (Forall_drop is_s32 3 _ Hk)). done.
Qed.

(** Without parameters linear.c takes the numbers of the file. *)
Lemma linear_reads a xres yres stale garbage vars :
  length a = 7%nat → Forall is_s32 a → is_s32 xres → is_s32 yres → length vars = 9%nat →
  linear_mod_init true stale (Some (Some (scan_ints vars (cal_buffer a xres yres)))) garbage None =
    Ok (Some (LinearVars 0 0 1 1 (take 7 (cal_numbers a xres yres)) (u32 xres) (u32 yres))).
Proof.
  intros Hl Ha Hx Hy Hv. unfold cal_buffer. rewrite scan_ints_spaced; [|unfold cal_numbers|by rewrite Hv].
  - done.
  - destruct a as [|a0 [|a1 [|a2 [|a3 [|a4 [|a5 [|a6 [|a7 a]]]]]]]]; try done.
    do 7 (apply Forall_cons in Ha as [? Ha]). cbn [lookup_total list_lookup_total].
    repeat (apply Forall_cons_2; [assumption|]). apply Forall_nil_2.
Qed.

Lemma linear_maps k0 k1 k2 k3 k4 k5 rx ry s sx sy :
  65536 * sx = k0 + k1 * x s + k2 * y s → 65536 * sy = k3 + k4 * x s + k5 * y s → is_s32 (65536 * sx) → is_s32 (65536 * sy) → is_u32 (pressure s) →
  linear_sample (LinearVars 0 0 1 1 [k1; k2; k0; k4; k5; k3; 65536] rx ry) 0 0 s = Ok (Sample sx sy (pressure s) (tv s)).
Proof.
  intros Ex Ey Hx Hy Hp. unfold linear_sample. cbn [cal rd]. unfold int_div, rescale, uint_div. cbn [swap_xy p_offset p_mult p_div cal].
  change (rd [k1; k2; k0; k4; k5; k3; 65536] 0) with (Ok k1). change (rd [k1; k2; k0; k4; k5; k3; 65536] 1) with (Ok k2).
  change (rd [k1; k2; k0; k4; k5; k3; 65536] 2) with (Ok k0). change (rd [k1; k2; k0; k4; k5; k3; 65536] 3) with (Ok k4).
  change (rd [k1; k2; k0; k4; k5; k3; 65536] 4) with (Ok k5). change (rd [k1; k2; k0; k4; k5; k3; 65536] 5) with (Ok k3).
  change (rd [k1; k2; k0; k4; k5; k3; 65536] 6) with (Ok 65536). cbn [mbind result_bind Z.eqb negb andb].
  rewrite <- Ex, <- Ey, !s32_id by done. rewrite !(Z.mul_comm 65536), !Z.quot_mul by lia.
  rewrite Z.add_0_r, Z.mul_1_r, u32_id by done. change (u32 1) with 1. by rewrite Z.div_1_r.
Qed.

(** In exact arithmetic, not in that of the code: a panel whose positions are an
    affine image of the positions on the screen is calibrated exactly.  Computed in rational numbers from five points
    that are not on one line, the constants are those of the image; the text that
    ts_calibrate writes is read back by linear.c, and the filter then maps every
    raw sample, not only the five, to its position on the screen. *)
Theorem calibration_is_exact cal k0 k1 k2 k3 k4 k5 xres yres stale garbage vars :
  length (raw_y cal) = length (raw_x cal) → Forall short (raw_x cal) → Forall short (raw_y cal) → Forall short (screen_x cal) → Forall short (screen_y cal) →
  spread (raw_x cal) (raw_y cal) → follows k0 k1 k2 (raw_x cal) (raw_y cal) (screen_x cal) → follows k3 k4 k5 (raw_x cal) (raw_y cal) (screen_y cal) →
  Forall is_s32 [k0; k1; k2; k3; k4; k5] → is_s32 xres → is_s32 yres → length vars = 9%nat →
  ∃ a lin, perform_calibration (F:=Q) cal = Ok (Some a) ∧
    linear_mod_init true stale (Some (Some (scan_ints vars (cal_buffer a xres yres)))) garbage None = Ok (Some lin) ∧
    ∀ s sx sy, 65536 * sx = k0 + k1 * x s + k2 * y s → 65536 * sy = k3 + k4 * x s + k5 * y s →
      is_s32 (65536 * sx) → is_s32 (65536 * sy) → is_u32 (pressure s) →
      linear_sample lin 0 0 s = Ok (Sample sx sy (pressure s) (tv s)).
Proof.
  intros Hl Hx Hy Hsx Hsy Hsp Hfx Hfy Hk Hxr Hyr Hv. exists [k0; k1; k2; k3; k4; k5; 65536]. eexists.
  split; [by apply perform_exact|]. split; [apply linear_reads; [done| |done|done|done]|].
  - apply (Forall_app_2 _ [k0; k1; k2; k3; k4; k5] [65536]); [done|]. apply Forall_cons_2; [by unfold is_s32|apply Forall_nil_2].
  - intros s sx sy. cbn [cal_numbers take]. apply linear_maps.
Qed.

(** ** In single precision *)

Lemma f32_to_int_range f v : f32_to_int f = Ok v → is_s32 v.
Proof.
  unfold f32_to_int, is_s32. destruct f as [? | ? | |b m e]; try done; [intros [= <-]; lia|]. cbv zeta. set (v' := if b then _ else _).
  destruct (Z.leb_spec (-2147483648) v'), (Z.ltb_spec v' 2147483648); try done. intros [= <-]. lia.
Qed.

Lemma constants_range m z zx zy l : constants (F:=spec_float) m z zx zy = Ok l → length l = 3%nat ∧ Forall is_s32 l.
Proof.
  unfold constants. intros H. bind_inv. injection H as <-. split; [done|]. apply f32_to_int_range in E, E0, E1.
  repeat (apply Forall_cons_2; [done|]). apply Forall_nil_2.
Qed.

(** Six constants and the scaling. *)
Lemma perform_shape cal a : perform_calibration (F:=spec_float) cal = Ok (Some a) → ∃ k, a = k ++ [65536] ∧ length k = 6%nat ∧ Forall is_s32 k.
Proof.
  unfold perform_calibration. cbv zeta. intros H. destruct (f_below_tenth _); [done|]. bind_inv. injection H as <-.
  apply constants_range in E as [Lx Hx], E0 as [Ly Hy]. rewrite app_assoc. eexists. split; [by injection E1 as <-|].
  split; [by rewrite length_app, Lx, Ly|]. by apply Forall_app.
Qed.

Lemma perform_range cal a : perform_calibration (F:=spec_float) cal = Ok (Some a) → length a = 7%nat ∧ Forall is_s32 a.
Proof.
  intros (k & -> & Hl & Hk)%perform_shape. split; [by rewrite length_app, Hl|]. apply Forall_app. split; [done|]. by apply Forall_singleton.
Qed.

(** The text fits its array, whatever the constants are. *)
Theorem cal_buffer_fits a xres yres :
  length a = 7%nat → Forall is_s32 a → is_s32 xres → is_s32 yres → (length (cal_buffer a xres yres) < 256)%nat.
Proof.
  intros Hl Ha Hx Hy. assert (∀ n, is_s32 n → (length (print_d n) <= 13)%nat) as Hd.
  { intros n Hn. unfold print_d. destruct (n <? 0); cbn [length]; [pose proof (print_u_length 10 (- n))|pose proof (print_u_length 10 n)]; lia. }
  assert (∀ ns, Forall is_s32 ns → (length (spaced ns) <= 14 * length ns)%nat) as Hs.
  { induction 1 as [|n ns Hn _ IH]; [done|]. specialize (Hd n Hn). destruct ns as [|m ns]; [cbn; lia|].
    change (spaced (n :: m :: ns)) with (print_d n ++ 32 :: spaced (m :: ns)). rewrite length_app. cbn [length] in *. lia. }
  unfold cal_buffer. eapply Nat.le_lt_trans; [apply Hs|cbn; lia].
  destruct a as [|a0 [|a1 [|a2 [|a3 [|a4 [|a5 [|a6 [|a7 a]]]]]]]]; try done.
  do 7 (apply Forall_cons in Ha as [? Ha]). unfold cal_numbers. cbn [lookup_total list_lookup_total].
  repeat (apply Forall_cons_2; [assumption|]). apply Forall_nil_2.
Qed.

(** A coordinate of a sample, as the three constants of its equation give it: a
    number of 32 bits, cut off towards zero. *)
Definition applied (k : list Z) (s : ts_sample) : Z := Z.quot (s32 (k !!! 0%nat + k !!! 1%nat * x s + k !!! 2%nat * y s)) 65536.

(** C28: Whatever constants the program computes, in single precision, for five
    points: the text that it writes fits the array, linear.c reads from it the
    same constants, each into the place where it is used, and the filter, on a
    device whose screen size was not set, takes each sample to the two images that
    the equations of the calibration give it, and keeps its pressure and its
    time. *)
Theorem calibration_is_applied measured a xres yres stale garbage vars :
  perform_calibration (F:=spec_float) measured = Ok (Some a) → is_s32 xres → is_s32 yres → length vars = 9%nat →
  Nat.lt (length (cal_buffer a xres yres)) 256 ∧
  ∃ lin, linear_mod_init true stale (Some (Some (scan_ints vars (cal_buffer a xres yres)))) garbage None = Ok (Some lin) ∧
    ∀ s, is_u32 (pressure s) → linear_sample lin 0 0 s = Ok (Sample (applied (take 3 a) s) (applied (drop 3 a) s) (pressure s) (tv s)).
Proof.
  intros Hp Hx Hy Hv. pose proof (perform_range _ _ Hp) as [Hl Ha]. split; [by apply cal_buffer_fits|].
  eexists. split; [by apply linear_reads|]. apply perform_shape in Hp as (k & -> & Lk & Hk). intros s Hs.
  destruct k as [|k0 [|k1 [|k2 [|k3 [|k4 [|k5 [|k6 k]]]]]]]; try done. change (take 7 _) with [k1; k2; k0; k4; k5; k3; 65536].
  unfold linear_sample. cbn [cal]. change (rd ?l 6) with (Ok 65536).
  cbn [rd Z.leb Z.compare andb Z.to_nat Pos.to_nat Pos.iter_op Nat.add mbind result_bind]. unfold int_div, rescale, uint_div. cbn [swap_xy p_offset p_mult p_div mbind result_bind Z.eqb Pos.eqb negb andb].
  rewrite Z.add_0_r, Z.mul_1_r, u32_id by done. change (u32 1) with 1. cbn [Z.eqb Pos.eqb]. by rewrite Z.div_1_r.
Qed.

(** ** Limits *)

(** In single precision the determinant of points on one line need not be
    small, so that they are taken for a calibration. *)
Definition one_line : calibration :=
  Calibration [1001; 2003; 3005; 1502; 2504] [1003; 2007; 3011; 1505; 2509] [50; 270; 270; 50; 160] [50; 50; 190; 190; 120].

Lemma one_line_is_accepted :
  zdet (raw_x one_line) (raw_y one_line) = 0 ∧ perform_calibration (F:=Q) one_line = Ok None ∧
  perform_calibration (F:=spec_float) one_line = Ok (Some [14163430; -6144; -5120; 9268522; -4096; -3584; 65536]).
Proof. split; [reflexivity|]. split; vm_compute; reflexivity. Qed.

(** A panel with 16 units to a pixel, shifted by four pixels in one direction. *)
Definition demo_panel : calibration :=
  Calibration [800; 4320; 4320; 800; 2560] [864; 864; 3104; 3104; 1984] [50; 270; 270; 50; 160] [50; 50; 190; 190; 120].

(** Rounding errors and the conversion to int, which cuts off the fraction, can
    move a position by a pixel. *)
Lemma single_precision_loses_a_pixel :
  perform_calibration (F:=spec_float) demo_panel = Ok (Some [0; 4095; 0; -262140; 0; 4095; 65536]) ∧
  linear_sample (LinearVars 0 0 1 1 [4095; 0; 0; 0; 4095; -262140; 65536] 320 240) 0 0 (Sample 1600 864 200 5) = Ok (Sample 99 49 200 5).
Proof. split; vm_compute; reflexivity. Qed.

(** ** Witnesses *)

Lemma cal_buffer_fits_witness : Nat.lt (length (cal_buffer [0; 4096; 0; -262144; 0; 4096; 65536] 320 240)) 256.
Proof.
  apply cal_buffer_fits; [reflexivity| |unfold is_s32; lia|unfold is_s32; lia].
  repeat (apply Forall_cons_2; [unfold is_s32; lia|]). apply Forall_nil_2.
Defined.

Lemma calibration_is_applied_witness :
  perform_calibration (F:=spec_float) demo_panel = Ok (Some [0; 4095; 0; -262140; 0; 4095; 65536]) ∧
  ∃ lin, linear_mod_init true false (Some (Some (scan_ints (replicate 9 0) (lit "4095 0 0 0 4095 -262140 65536 320 240")))) (0, 0) None = Ok (Some lin) ∧
    linear_sample lin 0 0 (Sample 1600 864 200 5) = Ok (Sample 99 49 200 5).
Proof.
  assert (perform_calibration (F:=spec_float) demo_panel = Ok (Some [0; 4095; 0; -262140; 0; 4095; 65536])) as E by (vm_compute; reflexivity).
  split; [exact E|].
  destruct (calibration_is_applied demo_panel _ 320 240 false (0, 0) (replicate 9 0) E) as (_ & lin & Hlin & Hmap);
    [unfold is_s32; lia|unfold is_s32; lia|reflexivity|].
  exists lin. split; [exact Hlin|]. apply (Hmap (Sample 1600 864 200 5)). cbn; unfold is_u32; lia.
Defined.

Lemma calibration_is_exact_witness :
  perform_calibration (F:=spec_float) demo_panel = Ok (Some [0; 4095; 0; -262140; 0; 4095; 65536]) ∧
  ∃ a lin, perform_calibration (F:=Q) demo_panel = Ok (Some a) ∧
    linear_mod_init true false (Some (Some (scan_ints (replicate 9 0) (cal_buffer a 320 240)))) (0, 0) None = Ok (Some lin) ∧
    linear_sample lin 0 0 (Sample 1600 864 200 5) = Ok (Sample 100 50 200 5).
Proof.
  split; [vm_compute; reflexivity|].
  destruct (calibration_is_exact demo_panel 0 4096 0 (-262144) 0 4096 320 240 false (0, 0) (replicate 9 0)) as (a & lin & Ha & Hlin & Hmap).
  1: reflexivity.
  1-4: repeat (apply Forall_cons_2; [unfold short; lia|]); apply Forall_nil_2.
  1: discriminate.
  1-2: split; [reflexivity|split; [reflexivity|]]; repeat (apply Forall_cons_2; [reflexivity|]); apply Forall_nil_2.
  1: repeat (apply Forall_cons_2; [unfold is_s32; lia|]); apply Forall_nil_2.
  1-2: unfold is_s32; lia.
  1: reflexivity.
  exists a, lin. split; [exact Ha|]. split; [exact Hlin|]. apply (Hmap (Sample 1600 864 200 5) 100 50); try reflexivity; cbn; unfold is_s32, is_u32; lia.
Defined.
