(* ===== verification/FbOpen.v ===== *)
(** * FbOpen: the frame buffer and its console

    Models [open_framebuffer] and [close_framebuffer] of
    src/tslib-1.1/tests/fbutils.c: a free console is activated and switched to
    graphics, the frame buffer is mapped, and afterwards the console that was
    active before is back in text. *)
From stdpp Require Import gmap.
From S2P Require Import Prelude LibC Bytes Device Runs Tslib FbUtils TsTest.
Local Open Scope cmodel_scope.
Local Open Scope Z_scope.

(** ** State *)

(** The static variables; [None] is MAP_FAILED or NULL for [fbuffer], NULL for
    [line_addr] and a device name that was not set. *)
Record fb_vars := FbVars {
  con_fd : Z; fb_fd : Z; last_vt : Z; smem_len : Z; scr : screen; fbuffer : option (list Z); lines_known : bool;
  colormap : list Z; fbdevice : list Z; consoledevice : list Z }.
Definition no_screen : screen := Screen 0 0 0 0 0 0 0 0 0 0 0 0.
Definition fb_init : fb_vars := FbVars 0 0 (-1) 0 no_screen None false (replicate 256 0) [] [].
Definition set_names fbd con s := FbVars (con_fd s) (fb_fd s) (last_vt s) (smem_len s) (scr s) (fbuffer s) (lines_known s) (colormap s) fbd con.
Definition set_con_fd v s := FbVars v (fb_fd s) (last_vt s) (smem_len s) (scr s) (fbuffer s) (lines_known s) (colormap s) (fbdevice s) (consoledevice s).
Definition set_fb_fd v s := FbVars (con_fd s) v (last_vt s) (smem_len s) (scr s) (fbuffer s) (lines_known s) (colormap s) (fbdevice s) (consoledevice s).
Definition set_last_vt v s := FbVars (con_fd s) (fb_fd s) v (smem_len s) (scr s) (fbuffer s) (lines_known s) (colormap s) (fbdevice s) (consoledevice s).
Definition set_smem_len v s := FbVars (con_fd s) (fb_fd s) (last_vt s) v (scr s) (fbuffer s) (lines_known s) (colormap s) (fbdevice s) (consoledevice s).
Definition set_scr v s := FbVars (con_fd s) (fb_fd s) (last_vt s) (smem_len s) v (fbuffer s) (lines_known s) (colormap s) (fbdevice s) (consoledevice s).
Definition set_fbuffer v s := FbVars (con_fd s) (fb_fd s) (last_vt s) (smem_len s) (scr s) v (lines_known s) (colormap s) (fbdevice s) (consoledevice s).
Definition set_lines v s := FbVars (con_fd s) (fb_fd s) (last_vt s) (smem_len s) (scr s) (fbuffer s) v (colormap s) (fbdevice s) (consoledevice s).
Definition set_colormap v s := FbVars (con_fd s) (fb_fd s) (last_vt s) (smem_len s) (scr s) (fbuffer s) (lines_known s) v (fbdevice s) (consoledevice s).

(** FBIOGET_VSCREENINFO: the fields of fb_var_screeninfo that are used. *)
Record var_info := VarInfo {
  v_xres : Z; v_yres : Z; v_xres_virtual : Z; v_yres_virtual : Z; v_bits_per_pixel : Z;
  v_red_offset : Z; v_red_length : Z; v_green_offset : Z; v_green_length : Z; v_blue_offset : Z; v_blue_length : Z }.

(** ** Requests: those of a test program, the touches of [TsTest] among them *)

Inductive freq :=
| Getenv (name : string) | OpenPath (path : list Z) | OpenNew (path : list Z) | CloseFd (fd : Z) | WriteFd (fd : Z) (text : list Z)
| VT_OPENQRY (fd : Z) | VT_GETSTATE (fd : Z) | VT_ACTIVATE (fd nr : Z) | VT_WAITACTIVE (fd nr : Z) | KDSETMODE (fd : Z) (graphics : bool)
| FBIOGET_FSCREENINFO (fd : Z) | FBIOGET_VSCREENINFO (fd : Z) | MmapFb (fd len : Z) | MunmapFb (len : Z) | MallocLines (n : Z) | FreeLines
| TsOpen (device : list Z) | TsConfigure | Touch (r : treq).

(** VT_OPENQRY and VT_GETSTATE answer with a number of a console, the fixed
    information is the length of the memory and of a line, and ts_open gives the
    descriptor of the device it opened, which only ts_close would close. *)
Definition freply (r : freq) : Type :=
  match r with
  | Getenv _ => option (list Z)
  | OpenPath _ | OpenNew _ => Z
  | VT_OPENQRY _ | VT_GETSTATE _ => option Z
  | VT_ACTIVATE _ _ | VT_WAITACTIVE _ _ | KDSETMODE _ _ => bool
  | FBIOGET_FSCREENINFO _ => option (Z * Z)
  | FBIOGET_VSCREENINFO _ => option var_info
  | MmapFb _ _ | MallocLines _ => bool
  | TsOpen _ => option Z
  | TsConfigure => Z
  | Touch r => treply r
  | _ => unit
  end.

Definition defaultfbdevice : list Z := lit "/dev/fb0".
Definition defaultconsoledevice : list Z := lit "/dev/tty".

(** [sprintf(vtname, "%s%d", consoledevice, nr)] into an array of 128. *)
Definition vtname (consoledevice : list Z) (nr : Z) : result (list Z) :=
  let t := consoledevice ++ print_d nr in if Nat.ltb (length t) 128 then Ok t else Crash OutOfBounds.

Definition has_console (s : fb_vars) : bool := negb (str_eqb (consoledevice s) (lit "none")).

Section program.
Context {D : Type} `{Driver freq freply D}.
Notation P := (prog fb_vars freq D).

(** The result of the console's part: whether [open_framebuffer] goes on. *)
Definition open_console : P bool :=
  s ← get;
  if negb (has_console s) then mret true else
  name ← lift (vtname (consoledevice s) 1);
  fd ⇐ OpenPath name;
  if (fd : Z) <? 0 then mret false else
  nr ⇐ VT_OPENQRY fd;
  match nr with
  | None => mret false
  | Some nr =>
      _ ⇐ CloseFd fd;
      name ← lift (vtname (consoledevice s) nr);
      con ⇐ OpenPath name;
      _ ← modify (set_con_fd con);
      if (con : Z) <? 0 then mret false else
      state ⇐ VT_GETSTATE con;
      _ ← modify (match state with Some v_active => set_last_vt v_active | None => λ s, s end);
      ok ⇐ VT_ACTIVATE con nr;
      if negb ok then _ ⇐ CloseFd con; mret false else
      ok ⇐ VT_WAITACTIVE con nr;
      if negb ok then _ ⇐ CloseFd con; mret false else
      ok ⇐ KDSETMODE con true;
      if negb ok then _ ⇐ CloseFd con; mret false else
      mret true
  end.

Definition screen_of (v : var_info) (line_length : Z) : screen :=
  Screen (v_xres v) (v_yres v) (v_xres_virtual v) (v_yres_virtual v) line_length (u32 (v_bits_per_pixel v + 7) / 8)
    (v_red_offset v) (v_red_length v) (v_green_offset v) (v_green_length v) (v_blue_offset v) (v_blue_length v).

Definition open_fb : P Z :=
  s ← get;
  fd ⇐ OpenPath (fbdevice s);
  _ ← modify (set_fb_fd fd);
  if (fd : Z) =? -1 then mret (-1) else
  fix_ ⇐ FBIOGET_FSCREENINFO fd;
  match fix_ with
  | None => _ ⇐ CloseFd fd; mret (-1)
  | Some info =>
      _ ← modify (set_smem_len info.1);
      var ⇐ FBIOGET_VSCREENINFO fd;
      match var with
      | None => _ ⇐ CloseFd fd; mret (-1)
      | Some var =>
          _ ← modify (set_scr (screen_of var info.2));
          mapped ⇐ MmapFb fd info.1;
          if negb mapped then _ ← modify (set_fbuffer None); _ ⇐ CloseFd fd; mret (-1) else
          _ ← modify (set_fbuffer (Some (replicate (Z.to_nat info.1) 0)));
          ok ⇐ MallocLines (u32 (4 * v_yres_virtual var));
          if negb ok && (0 <? v_yres_virtual var) then fault NullDeref else
          _ ← modify (set_lines true);
          mret 0
      end
  end.

Definition open_framebuffer : P Z :=
  fbd ⇐ Getenv "TSLIB_FBDEVICE";
  con ⇐ Getenv "TSLIB_CONSOLEDEVICE";
  _ ← modify (set_names (default defaultfbdevice fbd) (default defaultconsoledevice con));
  ok ← open_console;
  if (ok : bool) then open_fb else mret (-1).

Definition close_framebuffer : P unit :=
  s ← get;
  _ ⇐ MunmapFb (smem_len s);
  _ ← modify (set_fbuffer None);
  _ ⇐ CloseFd (fb_fd s);
  _ ← (if has_console s then
         _ ⇐ KDSETMODE (con_fd s) false;
         _ ← (if 0 <=? last_vt s then _ ⇐ VT_ACTIVATE (con_fd s) (last_vt s); mret tt else mret tt);
         _ ⇐ CloseFd (con_fd s); mret tt
       else mret tt);
  _ ⇐ FreeLines;
  modify (set_lines false).

(** ** What both test programs begin with *)

(** The device, as both test programs open it. *)
Definition open_device {S} : prog S freq D (may_exit unit) :=
  tsdevice ⇐ Getenv "TSLIB_TSDEVICE";
  ts ← (match tsdevice with
        | Some d => ts ⇐ TsOpen d; mret (ts : option Z)
        | None =>
            ts ⇐ TsOpen (lit "/dev/input/event0");
            match (ts : option Z) with
            | Some fd => mret (Some fd)
            | None => ts ⇐ TsOpen (lit "/dev/touchscreen/ucb1x00"); mret (ts : option Z)
            end
        end);
  if bool_decide (ts = None) then exits 1 else
  r ⇐ TsConfigure;
  if negb ((r : Z) =? 0) then exits 1 else go tt.

(** An error leaves the program, after closing what was opened. *)
Definition open_screen : P (may_exit unit) :=
  r ← open_framebuffer;
  if negb (r =? 0) then _ ← close_framebuffer; exits 1 else go tt.

(** The loop over the palette. *)
Fixpoint set_colors (i : Z) (values : list Z) : prog fb_vars freq D unit :=
  match values with
  | [] => mret tt
  | v :: values =>
      s ← get;
      cm ← lift (setcolor (scr s) (colormap s) i v);
      _ ← modify (set_colormap cm);
      set_colors (i + 1) values
  end.
End program.

(** ** Consoles *)

(** What a machine shows: which console is active, which are in graphics, on
    which path a descriptor is open, what the files that were written hold, and
    the raw samples of the touch screen that are to come. *)
Record view := View { active : Z; graphics : gset (list Z); files : gmap Z (list Z); contents : gmap (list Z) (list Z); pending : list ts_sample }.
Definition set_active a v := View a (graphics v) (files v) (contents v) (pending v).
Definition set_graphics g v := View (active v) g (files v) (contents v) (pending v).
Definition set_files f v := View (active v) (graphics v) f (contents v) (pending v).
Definition set_contents c v := View (active v) (graphics v) (files v) c (pending v).
Definition set_pending p v := View (active v) (graphics v) (files v) (contents v) p.

Definition view_step (v : view) (r : freq) : freply r → view :=
  match r with
  | OpenPath p => λ fd, if fd <? 0 then v else set_files (<[fd := p]> (files v)) v
  | OpenNew p => λ fd, if fd <? 0 then v else set_contents (<[p := []]> (contents v)) (set_files (<[fd := p]> (files v)) v)
  | WriteFd fd text => λ _, match files v !! fd with
      | Some p => set_contents (<[p := default [] (contents v !! p) ++ text]> (contents v)) v
      | None => v
      end
  | TsOpen p => λ ts, match ts : option Z with Some fd => set_files (<[fd := p]> (files v)) v | None => v end
  | CloseFd fd => λ _, set_files (delete fd (files v)) v
  | VT_ACTIVATE _ nr => λ ok, if ok : bool then set_active nr v else v
  | KDSETMODE fd b => λ ok, match files v !! fd with
      | Some p => if ok : bool then set_graphics (if b : bool then {[p]} ∪ graphics v else graphics v ∖ {[p]}) v else v
      | None => v
      end
  | Touch ReadRaw | Touch ReadSample => λ r, if r.1 =? 1 then set_pending (tail (pending v)) v else v
  | _ => λ _, v
  end.

(** A machine with a free console and a frame buffer, an environment, and one
    file that does not exist. *)
Class Consoles (D : Type) `{Driver freq freply D} (free_vt : Z) (info : Z * Z) (var : var_info) (env : string → option (list Z)) (absent : list Z) := {
  see : D → view;
  see_after (d : D) r : see (respond d r).1 = view_step (see d) r (respond d r).2;
  env_is (d : D) n : (respond d (Getenv n)).2 = env n;
  absent_is (d : D) : (respond d (OpenPath absent)).2 = -1;
  path_opens (d : D) p : p ≠ absent → 0 <= (respond d (OpenPath p)).2 ∧ files (see d) !! (respond d (OpenPath p)).2 = None;
  new_opens (d : D) p : 0 <= (respond d (OpenNew p)).2 ∧ files (see d) !! (respond d (OpenNew p)).2 = None;
  vt_free (d : D) fd : (respond d (VT_OPENQRY fd)).2 = Some free_vt;
  vt_state (d : D) fd : (respond d (VT_GETSTATE fd)).2 = Some (active (see d));
  vt_activates (d : D) fd nr : (respond d (VT_ACTIVATE fd nr)).2 = true;
  vt_waits (d : D) fd nr : (respond d (VT_WAITACTIVE fd nr)).2 = true;
  kd_sets (d : D) fd b : (respond d (KDSETMODE fd b)).2 = true;
  fb_fix (d : D) fd : (respond d (FBIOGET_FSCREENINFO fd)).2 = Some info;
  fb_var (d : D) fd : (respond d (FBIOGET_VSCREENINFO fd)).2 = Some var;
  fb_mmaps (d : D) fd n : (respond d (MmapFb fd n)).2 = true;
  lines_alloc (d : D) n : (respond d (MallocLines n)).2 = true
}.

Section consoles.
Context (free_vt : Z) (info : Z * Z) (var : var_info) (env : string → option (list Z)) (absent : list Z).
Context {D : Type} `{Consoles D free_vt info var env absent}.
Implicit Types w : world fb_vars freq D.
Notation seen w := (see (driver w)).

(** The two devices, as the environment names them. *)
Definition fb_name : list Z := default defaultfbdevice (env "TSLIB_FBDEVICE").
Definition con_name : list Z := default defaultconsoledevice (env "TSLIB_CONSOLEDEVICE").
Definition graphic : bool := negb (str_eqb con_name (lit "none")).
Definition vt_path (nr : Z) : list Z := con_name ++ print_d nr.

(** The names fit and are not the one of the missing file. *)
Definition names_ok : Prop := fb_name ≠ absent ∧ ∀ nr, nr = 1 ∨ nr = free_vt → (length (vt_path nr) < 128)%nat ∧ vt_path nr ≠ absent.

(** What is seen while the frame buffer is open. *)
Definition opened_view (c f : Z) (v : view) : view :=
  if graphic then set_active free_vt (set_graphics ({[vt_path free_vt]} ∪ graphics v) (set_files (<[f := fb_name]> (<[c := vt_path free_vt]> (files v))) v))
  else set_files (<[f := fb_name]> (files v)) v.
Definition closed_view (v : view) : view :=
  if graphic then set_graphics (({[vt_path free_vt]} ∪ graphics v) ∖ {[vt_path free_vt]}) v else v.

Lemma seen_after w r : seen (after w r) = view_step (seen w) r (answer w r).
Proof. apply see_after. Qed.

Lemma vtname_ok nr : names_ok → nr = 1 ∨ nr = free_vt → vtname con_name nr = Ok (vt_path nr).
Proof. intros [_ Hn] Hnr. unfold vtname. destruct (Hn nr Hnr) as [Hl _]. by rewrite (proj2 (Nat.ltb_lt _ _)) by exact Hl. Qed.

(** Opening a path that exists. *)
Lemma open_path_runs {A} p (k : Z → prog fb_vars freq D A) w Q : p ≠ absent →
  (∀ fd w', 0 <= fd → files (seen w) !! fd = None → vars w' = vars w → seen w' = set_files (<[fd := p]> (files (seen w))) (seen w) →
    runs (k fd) w' Q) → runs (request (OpenPath p) k) w Q.
Proof.
  intros Hp HQ. apply runs_request. destruct (path_opens (driver w) p Hp) as [Hpos Hnew]. apply HQ; [done|done|done|].
  rewrite seen_after. cbn [view_step]. unfold answer. by rewrite (proj2 (Z.ltb_ge _ _)) by exact Hpos.
Qed.

Lemma open_console_runs w (Q : bool → world fb_vars freq D → Prop) : names_ok → consoledevice (vars w) = con_name →
  (∀ c w', (if graphic then 0 <= c ∧ files (seen w) !! c = None ∧ vars w' = set_last_vt (active (seen w)) (set_con_fd c (vars w)) ∧
              seen w' = set_active free_vt (set_graphics ({[vt_path free_vt]} ∪ graphics (seen w)) (set_files (<[c := vt_path free_vt]> (files (seen w))) (seen w)))
            else vars w' = vars w ∧ seen w' = seen w) → Q true w') →
  runs open_console w Q.
Proof.
  intros Hn Hc HQ. unfold open_console. apply runs_get. unfold has_console. rewrite Hc. fold graphic. destruct graphic eqn:Eg; cbn [negb].
  2:{ apply runs_ret, (HQ 0). done. }
  apply runs_bind. eapply runs_lift; [apply vtname_ok; [done|by left]|]. apply open_path_runs; [by apply Hn; left|].
  intros fd w1 Hfd Hnew Ev1 Es1. rewrite (proj2 (Z.ltb_ge _ _)) by exact Hfd. apply runs_request. unfold answer. rewrite vt_free.
  apply runs_request, runs_bind. eapply runs_lift; [apply vtname_ok; [done|by right]|]. apply open_path_runs; [by apply Hn; right|].
  intros c w2 Hcpos Hcnew Ev2 Es2. apply runs_bind, runs_modify. rewrite (proj2 (Z.ltb_ge _ _)) by exact Hcpos.
  assert (seen (after (after w1 (VT_OPENQRY fd)) (CloseFd fd)) = seen w) as Eback.
  { rewrite !seen_after. cbn [view_step]. rewrite Es1. cbn [set_files files]. rewrite delete_insert_id by done. by destruct (seen w). }
  rewrite Eback in Hcnew, Es2. apply runs_request. unfold answer. cbn [driver with_vars]. rewrite vt_state.
  apply runs_bind, runs_modify, runs_request. unfold answer. rewrite vt_activates. cbn [negb]. apply runs_request. unfold answer. rewrite vt_waits. cbn [negb].
  apply runs_request. unfold answer. rewrite kd_sets. cbn [negb]. apply runs_ret, (HQ c). split; [done|]. split; [done|]. split.
  - cbn [with_vars after vars]. rewrite Ev2. cbn [after vars]. rewrite Ev1. by rewrite Es2.
  - rewrite seen_after. unfold answer. rewrite kd_sets. rewrite seen_after. unfold answer. rewrite vt_waits. rewrite seen_after. unfold answer. rewrite vt_activates.
    cbn [view_step with_vars driver]. rewrite seen_after. cbn [view_step]. cbn [with_vars driver]. rewrite Es2. cbn [set_files set_active files].
    by rewrite lookup_insert_eq.
Qed.

(** The variables of the frame buffer once it is open. *)
Definition fb_ready (f : Z) (s : fb_vars) : fb_vars :=
  set_lines true (set_fbuffer (Some (replicate (Z.to_nat info.1) 0)) (set_scr (screen_of var info.2) (set_smem_len info.1 (set_fb_fd f s)))).

Lemma open_fb_runs w (Q : Z → world fb_vars freq D → Prop) : names_ok → fbdevice (vars w) = fb_name →
  (∀ f w', 0 <= f → files (seen w) !! f = None → vars w' = fb_ready f (vars w) →
     seen w' = set_files (<[f := fb_name]> (files (seen w))) (seen w) → Q 0 w') → runs open_fb w Q.
Proof.
  intros Hn Hf HQ. unfold open_fb. apply runs_get. rewrite Hf. apply open_path_runs; [apply Hn|]. intros f w1 Hpos Hnew Ev1 Es1.
  apply runs_bind, runs_modify. rewrite (proj2 (Z.eqb_neq _ _)) by lia. apply runs_request. unfold answer. rewrite fb_fix.
  apply runs_bind, runs_modify, runs_request. unfold answer. rewrite fb_var.
  apply runs_bind, runs_modify, runs_request. unfold answer. rewrite fb_mmaps. cbn [negb]. apply runs_bind, runs_modify, runs_request.
  unfold answer. rewrite lines_alloc. cbn [negb andb]. apply runs_bind, runs_modify, runs_ret, (HQ f); [done|done| |].
  - cbn [with_vars after vars]. rewrite Ev1. done.
  - cbn [with_vars driver]. rewrite seen_after. cbn [view_step with_vars driver]. rewrite seen_after. cbn [view_step with_vars driver].
    rewrite seen_after. cbn [view_step with_vars driver]. rewrite seen_after. cbn [view_step with_vars driver]. exact Es1.
Qed.

(** After [open_framebuffer]: the descriptors are new ones. *)
Definition fb_opened w (w' : world fb_vars freq D) : Prop :=
  ∃ c f, let s := set_names fb_name con_name (vars w) in
    files (seen w) !! f = None ∧ (graphic = true → files (seen w) !! c = None ∧ c ≠ f) ∧ seen w' = opened_view c f (seen w) ∧
    vars w' = fb_ready f (if graphic then set_last_vt (active (seen w)) (set_con_fd c s) else s).

Lemma open_framebuffer_runs w : names_ok → runs open_framebuffer w (λ r w', r = 0 ∧ fb_opened w w').
Proof.
  intros Hn. unfold open_framebuffer. do 2 apply runs_request. unfold answer. rewrite !env_is. apply runs_bind, runs_modify, runs_bind.
  fold fb_name con_name. set (w1 := with_vars _ _).
  assert (seen w1 = seen w) as Es by (cbn [w1 with_vars driver]; rewrite seen_after; cbn [view_step]; by rewrite seen_after).
  apply open_console_runs; [done|done|]. rewrite Es. intros c w2 Hc.
  apply open_fb_runs; [done|destruct graphic; [by destruct Hc as (_ & _ & -> & _)|by destruct Hc as [-> _]]|].
  intros f w3 Hf Hnew Ev3 Es3. split; [done|]. exists c, f. unfold fb_opened, opened_view. destruct graphic.
  - destruct Hc as (Hc & Hcnew & Ev2 & Es2). rewrite Es2 in Es3, Hnew. cbn [set_active set_graphics set_files files] in Es3, Hnew.
    apply lookup_insert_None in Hnew as [Hnew Hne]. split; [done|]. split; [done|]. split; [done|]. by rewrite Ev3, Ev2.
  - destruct Hc as [Ev2 Es2]. rewrite Es2 in Es3, Hnew. split; [done|]. split; [done|]. split; [done|]. by rewrite Ev3, Ev2.
Qed.

(** Closing from what opening has made of a view. *)
Lemma close_framebuffer_runs v c f w : fb_fd (vars w) = f → consoledevice (vars w) = con_name →
  files v !! f = None → (graphic = true → files v !! c = None ∧ c ≠ f ∧ con_fd (vars w) = c ∧ last_vt (vars w) = active v ∧ 0 <= active v) →
  seen w = opened_view c f v →
  runs close_framebuffer w (λ _ w', seen w' = closed_view v ∧ vars w' = set_lines false (set_fbuffer None (vars w))).
Proof.
  intros Hf Hc Hnew Hcon Es. unfold close_framebuffer. apply runs_get, runs_request, runs_bind, runs_modify. rewrite Hf.
  apply runs_request, runs_bind. set (w1 := after _ (CloseFd f)).
  assert (seen w1 = view_step (seen w) (CloseFd f) tt) as Es1.
  { unfold w1. rewrite seen_after. cbn [view_step with_vars driver]. by rewrite seen_after. }
  rewrite Es in Es1. unfold opened_view, closed_view in *. unfold has_console. rewrite Hc. fold graphic. destruct graphic.
  - destruct Hcon as (Hcnew & Hne & Hcf & Hl & Hact); [done|]. rewrite Hcf, Hl. cbn [view_step set_active set_graphics set_files active graphics files contents pending] in Es1.
    rewrite delete_insert_id in Es1 by (by rewrite lookup_insert_ne by done).
    apply runs_request, runs_bind. rewrite (proj2 (Z.leb_le _ _)) by exact Hact. apply runs_request, runs_ret, runs_request, runs_ret, runs_request, runs_modify.
    split; [|done]. cbn [with_vars driver]. rewrite seen_after. cbn [view_step]. rewrite seen_after. cbn [view_step]. rewrite seen_after.
    unfold answer. rewrite vt_activates. cbn [view_step]. rewrite seen_after. unfold answer. rewrite kd_sets. cbn [view_step]. rewrite Es1.
    cbn [set_active set_graphics set_files active graphics files contents pending]. rewrite lookup_insert_eq.
    cbn [set_active set_graphics set_files active graphics files contents pending]. by rewrite delete_insert_id.
  - apply runs_ret, runs_request, runs_modify. split; [|done]. cbn [with_vars driver]. rewrite seen_after. cbn [view_step]. rewrite Es1.
    cbn [view_step set_files active graphics files contents pending]. rewrite delete_insert_id by done. by destruct v.
Qed.
End consoles.

Lemma added_removed (p : list Z) (g : gset (list Z)) : p ∉ g → ({[p]} ∪ g) ∖ {[p]} = g.
Proof.
  intros Hp. apply set_eq. intros q. rewrite elem_of_difference, elem_of_union, elem_of_singleton. split; [tauto|].
  intros Hq. split; [by right|]. by intros ->.
Qed.

(** What the program does between opening and closing: it draws, reads the touch
    screen and writes files. *)
Definition works_between (s s' : fb_vars) (v v' : view) : Prop :=
  (∃ m cm, s' = set_colormap cm (set_fbuffer m s)) ∧ ∃ c p, v' = set_contents c (set_pending p v).

(** With a free console, or none, opening succeeds with the picture cleared, and
    whatever is drawn, read and written in between, closing gives the console
    back: the one that was active is active, the one that was taken is in text,
    no descriptor is left, and the files are what they were. *)
Theorem console_is_given_back {D} (free_vt : Z) info var env absent `{Consoles D free_vt info var env absent} (w : world fb_vars freq D) :
  names_ok free_vt env absent → vt_path env free_vt ∉ graphics (see (driver w)) → 0 <= active (see (driver w)) →
  runs open_framebuffer w (λ r w1, r = 0 ∧ fbuffer (vars w1) = Some (replicate (Z.to_nat info.1) 0) ∧ scr (vars w1) = screen_of var info.2 ∧
    colormap (vars w1) = colormap (vars w) ∧ pending (see (driver w1)) = pending (see (driver w)) ∧ contents (see (driver w1)) = contents (see (driver w)) ∧ (∀ fd, is_Some (files (see (driver w)) !! fd) → is_Some (files (see (driver w1)) !! fd)) ∧
    (graphic env = true → active (see (driver w1)) = free_vt ∧ vt_path env free_vt ∈ graphics (see (driver w1))) ∧
    ∀ w2 : world fb_vars freq D, works_between (vars w1) (vars w2) (see (driver w1)) (see (driver w2)) →
      runs close_framebuffer w2 (λ _ w3, see (driver w3) = set_contents (contents (see (driver w2))) (set_pending (pending (see (driver w2))) (see (driver w))))).
Proof.
  intros Hn Hg Ha. eapply runs_mono; [by eapply open_framebuffer_runs|]. intros r w1 (-> & c & f & Hf & Hc & Es & Ev).
  split_and!; [done|by rewrite Ev..|rewrite Ev; by destruct (graphic env)|rewrite Es; unfold opened_view; by destruct (graphic env)|rewrite Es; unfold opened_view; by destruct (graphic env)| | |].
  { intros fd Hfd. rewrite Es. unfold opened_view. destruct (graphic env); cbn; rewrite ?lookup_insert_is_Some'; auto. }
  { intros E. rewrite Es. unfold opened_view. rewrite E. cbn. set_solver. }
  intros w2 [(m & cm & Ev2) (ct & p & Es2)].
  eapply runs_mono; [eapply (close_framebuffer_runs free_vt info var env absent (set_contents ct (set_pending p (see (driver w)))) c f)|].
  - rewrite Ev2, Ev. by destruct (graphic env).
  - rewrite Ev2, Ev. by destruct (graphic env).
  - done.
  - intros E. destruct (Hc E) as [Hcn Hne]. rewrite Ev2, Ev, E. by split_and!.
  - rewrite Es2, Es. unfold opened_view. by destruct (graphic env).
  - intros [] w3 [-> _]. rewrite Es2. unfold closed_view. destruct (graphic env); [|done]. destruct (see (driver w)) as [act g fs cts ps]. cbn [graphics] in *. unfold set_graphics, set_contents, set_pending. cbn [active graphics files contents pending].
    f_equal. by apply added_removed.
Qed.

(** ** A touch screen *)

(** A touch screen that delivers a sample per read and has none waiting between
    the points, with its library. *)
Class TouchScreen (D : Type) {free_vt info var env absent} `{Consoles D free_vt info var env absent} := {
  raw_sample (d : D) a r : pending (see d) = a :: r → (respond d (Touch ReadRaw)).2 = (1, a);
  ready_sample (d : D) a r : pending (see d) = a :: r → (respond d (Touch ReadSample)).2 = (1, a);
  queue_quiet (d : D) : (respond d (Touch Select)).2 = 0;
  ts_opens (d : D) p : ∃ fd, (respond d (TsOpen p)).2 = Some fd ∧ 0 <= fd ∧ files (see d) !! fd = None;
  ts_configures (d : D) : (respond d TsConfigure).2 = 0
}.

(** The touch screen is a part of the machine. *)
#[export] Instance touch_driver {D} `{Driver freq freply D} : Driver treq treply D := λ d r, respond d (Touch r).

Lemma set_pending_pending p q v : set_pending p (set_pending q v) = set_pending p v. Proof. done. Qed.
Lemma set_pending_same v : set_pending (pending v) v = v. Proof. by destruct v. Qed.

Section quiet.
Context (free_vt : Z) (info : Z * Z) (var : var_info) (env : string → option (list Z)) (absent : list Z).
Context {D : Type} `{Consoles D free_vt info var env absent}.

(** Only samples have been taken. *)
Definition only_touched (v : view) (d : D) : Prop := ∃ p, see d = set_pending p v.

Lemma touch_keeps v (d : D) (r : treq) : only_touched v d → only_touched v (respond d r).1.
Proof.
  intros [p E]. exists (pending (see (respond d (Touch r)).1)).
  assert (see (respond d (Touch r)).1 = view_step (see d) (Touch r) (respond d (Touch r)).2) as Es by eapply see_after.
  change (see (respond d (Touch r)).1 = set_pending (pending (see (respond d (Touch r)).1)) v). rewrite Es, E.
  destruct r; cbn [view_step]; try done; by case_match.
Qed.
End quiet.

(** What programs that only read the touch screen leave alone. *)
Ltac keep_touch := keep ltac:(intros ?; apply touch_keeps).

Lemma setcolor_ok s cm i v : 0 <= i < Z.of_nat (length cm) → red_length s <= 8 → green_length s <= 8 → blue_length s <= 8 →
  ∃ cm', setcolor s cm i v = Ok cm' ∧ length cm' = length cm.
Proof.
  intros Hi Hr Hg Hb. unfold setcolor. rewrite !(proj2 (Z.ltb_ge _ _)) by lia. cbn [orb]. destruct (_ || _);
    (eexists; split; [by apply wr_Ok|apply length_insert]).
Qed.

Section start.
Context {D : Type} {free_vt info var env absent} `{Hscreen : TouchScreen D free_vt info var env absent}.
Notation seen w := (see (driver w)).

Lemma set_colors_runs (lay : screen) vs : red_length lay <= 8 ∧ green_length lay <= 8 ∧ blue_length lay <= 8 → ∀ i (w : world fb_vars freq D) (Q : unit → world fb_vars freq D → Prop), 0 <= i → i + Z.of_nat (length vs) <= 256 →
  scr (vars w) = lay → length (colormap (vars w)) = 256%nat →
  (∀ cm, length cm = 256%nat → Q tt (with_vars w (set_colormap cm (vars w)))) → runs (set_colors i vs) w Q.
Proof.
  intros Hcol. induction vs as [|v vs IH]; intros i w Q Hi Hn Hsc Hcm HQ; cbn [set_colors length] in *.
  - apply runs_ret. specialize (HQ _ Hcm). destruct w as [va dr tr]. unfold with_vars in HQ. cbn in HQ. by destruct va.
  - apply runs_get, runs_bind. rewrite Hsc. destruct (setcolor_ok lay (colormap (vars w)) i v) as (cm & E & Hl); [lia|apply Hcol..|].
    eapply runs_lift; [exact E|]. apply runs_bind, runs_modify, IH; [lia|lia|done|cbn; lia|]. intros cm2 Hl2.
    specialize (HQ cm2 Hl2). by destruct w as [va dr tr].
Qed.

(** The device is opened, and the descriptor is new. *)
Definition ts_device : list Z := default (lit "/dev/input/event0") (env "TSLIB_TSDEVICE").
Definition ts_opened (t : Z) (v : view) : view := set_files (<[t := ts_device]> (files v)) v.

Lemma touch_device_opens {S} (w : world S freq D) (Q : may_exit unit → world S freq D → Prop) :
  (∀ t w', 0 <= t → files (seen w) !! t = None → vars w' = vars w → seen w' = ts_opened t (seen w) → Q (inl tt) w') → runs open_device w Q.
Proof.
  intros HQ. unfold open_device. apply runs_request, runs_bind. set (w1 := after w (Getenv "TSLIB_TSDEVICE")).
  assert (seen w1 = seen w) as E1 by (change (see (respond (driver w) (Getenv "TSLIB_TSDEVICE")).1 = seen w); by rewrite see_after).
  assert (answer w (Getenv "TSLIB_TSDEVICE") = env "TSLIB_TSDEVICE") as -> by (unfold answer; by rewrite env_is).
  destruct (ts_opens (driver w1) ts_device) as (t & Et & Ht & Hnew). rewrite E1 in Hnew. set (w2 := after w1 (TsOpen ts_device)).
  assert (seen w2 = ts_opened t (seen w)) as E2 by (change (see (respond (driver w1) (TsOpen ts_device)).1 = ts_opened t (seen w)); by rewrite see_after, Et, E1).
  apply (runs_mono _ _ (λ ts w', ts = Some t ∧ w' = w2)).
  { unfold w2, ts_device in *. destruct (env "TSLIB_TSDEVICE") as [d|]; cbn [default from_option id] in *; apply runs_request; unfold answer; rewrite Et; by apply runs_ret. }
  intros ts w' [-> ->]. apply runs_request. unfold answer. rewrite ts_configures. cbn [negb Z.eqb].
  apply runs_go, (HQ t); [done..|]. change (see (respond (driver w2) TsConfigure).1 = ts_opened t (seen w)). by rewrite see_after.
Qed.
End start.
Arguments ts_device env : clear implicits.
Arguments ts_opened env t v : clear implicits.

(** ** Limits *)

(** The callers close the frame buffer after a failed opening.  When the console
    cannot be opened this closes descriptor 0, which is the standard input. *)
Lemma failed_opening_closes_input {D} `{Driver freq freply D} (w : world fb_vars freq D) :
  vars w = fb_init → (∀ (d : D) n, (respond d (Getenv n)).2 = None) → (∀ (d : D) p, (respond d (OpenPath p)).2 = -1) →
  runs open_framebuffer w (λ r w1, r = -1 ∧ runs close_framebuffer w1 (λ _ w2, ∃ l, trace w2 = trace w1 ++ MunmapFb 0 :: CloseFd 0 :: l)).
Proof.
  intros Hv He Ho. unfold open_framebuffer. do 2 apply runs_request. unfold answer. rewrite !He. apply runs_bind, runs_modify, runs_bind.
  unfold open_console. apply runs_get. cbn [with_vars after vars]. rewrite Hv. change (has_console _) with true. cbn [negb]. apply runs_bind. eapply runs_lift; [reflexivity|].
  apply runs_request. unfold answer. rewrite Ho. apply runs_ret, runs_ret. split; [done|].
  unfold close_framebuffer. apply runs_get, runs_request, runs_bind, runs_modify, runs_request, runs_bind. cbn [after with_vars vars].
  change (has_console _) with true. cbn iota. apply runs_request, runs_bind. cbn. apply runs_ret, runs_request, runs_ret, runs_request, runs_modify.
  eexists. cbn [with_vars after trace]. cbn. rewrite <- !app_assoc. cbn. reflexivity.
Qed.

(** A long name of the console overruns the array. *)
Lemma long_console_overruns nr name : (128 <= length name)%nat → vtname name nr = Crash OutOfBounds.
Proof. intros Hl. unfold vtname. rewrite (proj2 (Nat.ltb_ge _ _)); [done|]. rewrite length_app. lia. Qed.

(** ** Witnesses *)

(** A machine whose new descriptor is above all open ones. *)
Definition demo_fresh (v : view) : Z := 3 + foldr Z.max 0 (map_to_list (files v)).*1.
Lemma demo_fresh_new v : 0 <= demo_fresh v ∧ files v !! demo_fresh v = None.
Proof.
  assert (∀ l : list Z, 0 <= foldr Z.max 0 l ∧ Forall (λ z, z <= foldr Z.max 0 l) l) as Hmax.
  { induction l as [|z l [IH1 IH2]]; cbn [foldr]; [done|]. split; [lia|]. constructor; [lia|]. eapply Forall_impl; [exact IH2|]. cbn. lia. }
  destruct (Hmax (map_to_list (files v)).*1) as [H0 Hall]. unfold demo_fresh. split; [lia|].
  destruct (files v !! _) as [p|] eqn:E; [|done]. apply elem_of_map_to_list in E.
  apply (list_elem_of_fmap_2 fst) in E || apply (elem_of_list_fmap_1 fst) in E. rewrite Forall_forall in Hall. apply Hall in E. cbn [fst] in E. lia.
Qed.

Record demo_console := DemoConsole { shown_view : view }.
Definition demo_var : var_info := VarInfo 320 240 320 240 16 11 5 5 6 0 5.
Definition demo_absent : list Z := lit "/etc/pointercal".

#[export] Instance demo_console_driver : Driver freq freply demo_console := λ d r,
  let answer : freply r :=
    match r return freply r with
    | Getenv _ => None
    | OpenPath p => if decide (p = demo_absent) then -1 else demo_fresh (shown_view d)
    | OpenNew _ => demo_fresh (shown_view d)
    | TsOpen _ => Some (demo_fresh (shown_view d))
    | VT_OPENQRY _ => Some 5 | VT_GETSTATE _ => Some (active (shown_view d))
    | VT_ACTIVATE _ _ | VT_WAITACTIVE _ _ | KDSETMODE _ _ => true
    | FBIOGET_FSCREENINFO _ => Some (153600, 640) | FBIOGET_VSCREENINFO _ => Some demo_var
    | MmapFb _ _ | MallocLines _ => true
    | TsConfigure => 0
    | Touch ReadSample | Touch ReadRaw => match pending (shown_view d) with a :: _ => (1, a) | [] => (-1, Sample 0 0 0 0) end
    | Touch Select => 0
    | _ => tt
    end in
  (DemoConsole (view_step (shown_view d) r answer), answer).

#[export] Instance demo_console_ok : Consoles demo_console 5 (153600, 640) demo_var (λ _, None) demo_absent.
Proof.
  refine {| see := shown_view |}; try done.
  - intros d p Hp. unfold respond, demo_console_driver. cbn [snd]. rewrite decide_False by done. apply demo_fresh_new.
  - intros d p. apply demo_fresh_new.
Defined.

Definition text_console : world fb_vars freq demo_console := World fb_init (DemoConsole (View 1 ∅ ∅ ∅ [])) [].

Lemma console_is_given_back_witness :
  runs open_framebuffer text_console (λ r w1, r = 0 ∧ fbuffer (vars w1) = Some (replicate (Z.to_nat 153600) 0) ∧ active (see (driver w1)) = 5 ∧
    runs close_framebuffer w1 (λ _ w3, see (driver w3) = View 1 ∅ ∅ ∅ [])).
Proof.
  eapply runs_mono; [apply (console_is_given_back 5 (153600, 640) demo_var (λ _, None) demo_absent text_console)|].
  - split; [discriminate|]. intros nr [-> | ->]; (split; [by apply Nat.ltb_lt|discriminate]).
  - set_solver.
  - cbn. lia.
  - intros r w1 (-> & Hm & _ & _ & Hp & Hc & _ & Hg & Hclose). destruct (Hg eq_refl) as [Ha _]. split_and!; [reflexivity|exact Hm|exact Ha|].
    eapply runs_mono; [apply Hclose|].
    + split; [exists (fbuffer (vars w1)), (colormap (vars w1)); by destruct (vars w1)|].
      exists (contents (see (driver w1))), (pending (see (driver w1))). by destruct (see (driver w1)).
    + intros [] w3 ->. by rewrite Hc, Hp.
Defined.

#[export] Instance demo_console_screen : TouchScreen demo_console.
Proof.
  split; try done; try (intros [v] a r E; unfold respond, demo_console_driver; cbn in E |- *; by rewrite E).
  intros d p. exists (demo_fresh (shown_view d)). split; [done|]. apply demo_fresh_new.
Defined.
