(* ===== verification/TsCalibMain.v ===== *)
(** * TsCalibMain: the calibration program as a whole

    Models main of src/tslib-1.1/tests/ts_calibrate.c: the composition of
    [FbOpen], [FbUtils], [TsCalib] and [Calibrate].  ts_open and ts_config are
    those of [TsConfig]; here they are requests, and the descriptor that ts_open
    leaves in the device is among the open ones. *)
From Stdlib Require Import Sorted.
From stdpp Require Import gmap sorting.
From S2P Require Import Prelude LibC Bytes Device Runs Floats Scan Tslib FbUtils TsTest TsCalib Calibrate FbOpen.
Local Open Scope cmodel_scope.
Local Open Scope Z_scope.

(** The variables: those of fbutils.c and those of ts_calibrate.c; the picture
    is only kept in the former, and given to [TsCalib] while it runs. *)
Record whole := Whole { fb : fb_vars; cl : calib }.
Definition set_fb (f : fb_vars) (s : whole) : whole := Whole f (cl s).
Definition get_calib (s : whole) : calib := set_c_mem (default [] (fbuffer (fb s))) (cl s).
Definition set_calib (c : calib) (s : whole) : whole := Whole (set_fbuffer (Some (c_mem c)) (fb s)) (set_c_mem (c_mem (cl s)) c).

Definition palette : list Z := [0x000000; 0xffe080; 0xffffff; 0xe0c0a0].

Section program.
Context (TS_POINTERCAL font : list Z) {F : Type} `{Arith F} {D : Type} `{Driver freq freply D}.
Notation P := (prog whole freq D).

Definition on_fb {A} (m : prog fb_vars freq D A) : P A := within fb set_fb (λ r, r) m.
Definition on_touch {A} (m : prog calib treq D A) : P A := within get_calib set_calib Touch m.

(** The signal handler. *)
Definition sig : P (may_exit Z) := _ ← on_fb close_framebuffer; exits 1.

(** A text in the middle of a line; the frame buffer has to be mapped. *)
Definition show_text (dy : Z) (text : list Z) (colidx : Z) : prog fb_vars freq D unit :=
  s ← get;
  match fbuffer s with
  | None => fault NullDeref
  | Some m =>
      m ← lift (put_string_center (scr s) (colormap s) font (xres (scr s) / 2) (yres (scr s) / 4 + dy) text colidx m);
      modify (set_fbuffer (Some m))
  end.

(** The points: before each the device's queue is emptied.  An error in
    [clearbuf] leaves the screen open. *)
Fixpoint sample_loop (fuel : nat) (samp : list ts_sample) (index : Z) (pts : list (Z * Z)) : P (may_exit unit) :=
  match pts with
  | [] => go tt
  | (px, py) :: pts =>
      r ← on_touch (clearbuf fuel);
      match r with
      | None => exits 1
      | Some _ =>
          s ← get;
          r ← on_touch (get_sample (scr (fb s)) (colormap (fb s)) fuel samp index px py);
          match r with
          | None => _ ← on_fb close_framebuffer; exits 1
          | Some _ => sample_loop fuel samp (index + 1) pts
          end
      end
  end.

(** The constants into the file. *)
Definition save (a : list Z) : P unit :=
  s ← get;
  calfile ⇐ Getenv "TSLIB_CALIBFILE";
  cal_fd ⇐ OpenNew (default TS_POINTERCAL calfile);
  let text := cal_buffer a (xres (scr (fb s))) (yres (scr (fb s))) in
  if negb (Nat.ltb (length text) 256) then fault OutOfBounds else
  _ ⇐ WriteFd cal_fd text;
  _ ⇐ CloseFd cal_fd;
  mret tt.

Definition calibration_of (c : calib) : calibration := Calibration (cal_x c) (cal_y c) (xfb c) (yfb c).

(** [samp] is what the array of samples holds at first. *)
Definition main (fuel : nat) (samp : list ts_sample) : P (may_exit Z) :=
  calfile ⇐ Getenv "TSLIB_CALIBFILE";
  cal_fd ⇐ OpenPath (default TS_POINTERCAL calfile);
  _ ⇐ CloseFd cal_fd;
  if negb ((cal_fd : Z) =? -1) then go 0 else
  then_ open_device (λ _,
  then_ (on_fb open_screen) (λ _,
  _ ← on_fb (_ ← set_colors 0 palette; _ ← show_text 0 (lit "TSLIB calibration utility") 1; show_text 20 (lit "Touch crosshair to calibrate") 2);
  s ← get;
  then_ (sample_loop fuel samp 0 (points (scr (fb s)))) (λ _,
  s ← get;
  a ← lift (perform_calibration (F:=F) (calibration_of (cl s)));
  match a with
  | Some a => _ ← save a; _ ← on_fb close_framebuffer; go 0
  | None => _ ← on_fb close_framebuffer; go (-1)
  end))).
End program.

(** ** Touches that leave the rest of the machine alone *)

Section quiet.
Context (free_vt : Z) (info : Z * Z) (var : var_info) (env : string → option (list Z)) (absent : list Z).
Context {D : Type} `{Consoles D free_vt info var env absent}.
Notation only_touched := (only_touched free_vt info var env absent (D:=D)).

Section parts.
Context {V : Type} (v : view).
Lemma read_raw_keeps samp i : preserves (only_touched v) (read_raw samp i : prog V treq D _).
Proof. unfold read_raw. keep_touch. Qed.
Lemma wait_touch_keeps fuel : ∀ samp, preserves (only_touched v) (wait_touch fuel samp : prog V treq D _).
Proof. induction fuel as [|fuel IH]; intros samp; cbn [wait_touch]; keep_touch; first [apply read_raw_keeps|apply IH]. Qed.
Lemma collect_keeps fuel : ∀ i samp, preserves (only_touched v) (collect fuel i samp : prog V treq D _).
Proof. induction fuel as [|fuel IH]; intros i samp; cbn [collect]; cbv zeta; keep_touch; first [apply read_raw_keeps|apply IH]. Qed.
Lemma getxy_keeps fuel samp : preserves (only_touched v) (getxy fuel samp : prog V treq D _).
Proof. unfold getxy. keep_touch; first [apply wait_touch_keeps|apply collect_keeps]. Qed.
End parts.

Section points.
Context (v : view) (s : screen) (cm : list Z).
Lemma cross_keeps px py : preserves (only_touched v) (cross s cm px py : prog calib treq D _).
Proof. unfold cross. keep_touch. Qed.
Lemma animate_keeps n dx dy : ∀ lx ly, preserves (only_touched v) (animate s cm n lx ly dx dy : prog calib treq D _).
Proof. induction n as [|n IH]; intros lx ly; cbn [animate]; keep_touch; first [apply cross_keeps|apply IH]. Qed.
Lemma get_sample_keeps fuel samp i px py : preserves (only_touched v) (get_sample s cm fuel samp i px py : prog calib treq D _).
Proof. unfold get_sample. keep_touch; first [apply animate_keeps|apply cross_keeps|apply wait_touch_keeps|apply collect_keeps|apply getxy_keeps]. Qed.
End points.
End quiet.

(** ** The five points *)

(** What the user does at a point: nothing, then a touch, then the pen is up. *)
Record press := Press { idle : list ts_sample; touch : list ts_sample; lifted : ts_sample }.
Definition press_samples (p : press) : list ts_sample := idle p ++ touch p ++ [lifted p].
Record press_ok (fuel : nat) (p : press) : Prop := {
  idle_up : Forall (λ a, pressure a = 0) (idle p);
  touch_some : touch p ≠ [];
  touch_down : Forall (λ a, 0 < pressure a) (touch p);
  lifted_up : pressure (lifted p) <= 0;
  touch_small : small_samples (touch p);
  press_short : (length (idle p) + length (touch p) < fuel)%nat }.
Definition median_x (p : press) (v : Z) : Prop := median_of (x <$> take 127 (touch p)) v.
Definition median_y (p : press) (v : Z) : Prop := median_of (y <$> take 127 (touch p)) v.

(** A new last element. *)
Lemma take_insert_next {A} (l : list A) i v r : (i < length l)%nat → take (S i) (<[i := v]> l) ++ r = take i l ++ v :: r.
Proof. intros Hi. rewrite take_insert_snoc by done. by rewrite <- app_assoc. Qed.

Section points_run.
Context {D : Type} {free_vt info var env absent} `{Hscreen : TouchScreen D free_vt info var env absent}.
Context (s : screen) (font : list Z) (L : nat) (Hs : screen_ok s L) (Hfont : font_ok font).
Implicit Types w : world whole freq D.
Notation seen w := (see (driver w)).

#[local] Instance pending_raw : RawPen D.
Proof.
  refine {| raw := λ d, pending (see d) |}.
  - intros d a r E. pose proof (raw_sample d a r E) as Ha. split; [exact Ha|].
    change (pending (see (respond d (Touch ReadRaw)).1) = r). rewrite see_after, Ha. cbn. by rewrite E.
  - intros d. change (pending (see (respond d (Touch Usleep)).1) = pending (see d)). by rewrite see_after.
Defined.

(** The frame buffer is open. *)
Definition drawable (f : fb_vars) : Prop := scr f = s ∧ length (colormap f) = 256%nat ∧ ∃ m, fbuffer f = Some m ∧ mem_ok L m.

Lemma clearbuf_runs fuel w (Q : option unit → world whole freq D → Prop) : drawable (fb (vars w)) →
  (∀ w', vars w' = vars w → seen w' = seen w → Q (Some tt) w') → runs (on_touch (clearbuf (S fuel))) w Q.
Proof.
  intros (_ & _ & m & Hm & _) HQ. unfold on_touch. apply runs_within. cbn [clearbuf]. apply runs_request. unfold answer. cbn [driver].
  change (respond (driver w) Select) with (respond (driver w) (Touch Select)). rewrite queue_quiet. cbn [Z.eqb]. apply runs_ret, HQ; cbn [vars driver after].
  - unfold get_calib. rewrite Hm. destruct (vars w) as [f c]. cbn in *. unfold set_calib. cbn. destruct f, c. cbn in *. by subst.
  - change (see (respond (driver w) (Touch Select)).1 = seen w). by rewrite see_after.
Qed.

(** The arrays of a calibration. *)
Definition arrays (c : calib) : Prop := length (cal_x c) = 5%nat ∧ length (cal_y c) = 5%nat ∧ length (xfb c) = 5%nat ∧ length (yfb c) = 5%nat.

Lemma get_sample_run fuel samp i px py p ps w (Q : option unit → world whole freq D → Prop) :
  in_reach px → in_reach py → drawable (fb (vars w)) → length samp = 128%nat → (i < 5)%nat → arrays (cl (vars w)) → press_ok fuel p → pending (seen w) = press_samples p ++ ps →
  (∀ vx vy w', median_x p vx → median_y p vy → fb (vars w') = fb (vars w) → seen w' = set_pending ps (seen w) →
     cal_x (cl (vars w')) = <[i := vx]> (cal_x (cl (vars w))) → cal_y (cl (vars w')) = <[i := vy]> (cal_y (cl (vars w))) →
     xfb (cl (vars w')) = <[i := px]> (xfb (cl (vars w))) → yfb (cl (vars w')) = <[i := py]> (yfb (cl (vars w))) → Q (Some tt) w') →
  runs (on_touch (get_sample s (colormap (fb (vars w))) fuel samp (Z.of_nat i) px py)) w Q.
Proof.
  intros Hpx Hpy (Hscr & Hcm & m & Hm & Hmok) Hsamp Hi (L1 & L2 & L3 & L4) [Hid Hne Hdown Hup Hsmall Hshort] Hp HQ. unfold on_touch. apply runs_within.
  set (w0 := World (get_calib (vars w)) (driver w) []).
  assert (c_mem (vars w0) = m) as Hc0 by (cbn; by rewrite Hm).
  destruct (get_sample_records_median s (colormap (fb (vars w))) font L Hs Hfont Hcm fuel samp (Z.of_nat i) px py w0 (idle p) (touch p) (lifted p) ps)
    as (vx & vy & w1 & E & Hx & Hy & Hraw & Ev); try done; [by rewrite Hc0|lia| |].
  { change (pending (seen w) = idle p ++ touch p ++ lifted p :: ps). rewrite Hp. unfold press_samples. by rewrite <- !app_assoc. }
  destruct (get_sample_keeps free_vt info var env absent (seen w) s (colormap (fb (vars w))) fuel samp (Z.of_nat i) px py w0 (Some tt) w1 E) as [q Eq].
  { exists (pending (seen w)). by rewrite set_pending_same. }
  exists (Some tt), w1. split; [exact E|]. apply (HQ vx vy); [done|done| |..]; cbn [vars driver].
  - rewrite Ev. unfold set_calib. cbn [fb c_mem]. rewrite Hc0. destruct (fb (vars w)); cbn in *; by subst.
  - change (pending (see (driver w1)) = ps) in Hraw. rewrite Eq in Hraw |- *. cbn in Hraw. by subst.
  - rewrite Ev, Nat2Z.id. done.
  - rewrite Ev, Nat2Z.id. done.
  - rewrite Ev, Nat2Z.id. done.
  - rewrite Ev, Nat2Z.id. done.
Qed.

(** The points are in reach of the drawing. *)
Definition points_ok (pts : list (Z * Z)) : Prop := Forall (λ p, in_reach p.1 ∧ in_reach p.2) pts.

Lemma points_in_reach : points_ok (points s).
Proof.
  pose proof (visible_x s L Hs). pose proof (visible_y s L Hs). pose proof (res_int s L Hs).
  pose proof (Z.div_pos (xres s) 2). pose proof (Z.div_lt_upper_bound (xres s) 2 536870912).
  pose proof (Z.div_pos (yres s) 2). pose proof (Z.div_lt_upper_bound (yres s) 2 536870912).
  unfold points_ok, points, in_reach. rewrite !s32_id by (unfold is_s32; lia).
  repeat (apply Forall_cons_2; [cbn [fst snd]; lia|]). apply Forall_nil_2.
Qed.

Lemma sample_loop_runs fuel samp pts : points_ok pts → length samp = 128%nat → ∀ ps i w, drawable (fb (vars w)) → arrays (cl (vars w)) →
  length ps = length pts → (i + length pts = 5)%nat → Forall (press_ok (S fuel)) ps → pending (seen w) = mjoin (press_samples <$> ps) →
  runs (sample_loop (S fuel) samp (Z.of_nat i) pts) w (λ r w', r = inl tt ∧ fb (vars w') = fb (vars w) ∧ seen w' = set_pending [] (seen w) ∧
    ∃ mx my, Forall2 median_x ps mx ∧ Forall2 median_y ps my ∧
      cal_x (cl (vars w')) = take i (cal_x (cl (vars w))) ++ mx ∧ cal_y (cl (vars w')) = take i (cal_y (cl (vars w))) ++ my ∧
      xfb (cl (vars w')) = take i (xfb (cl (vars w))) ++ pts.*1 ∧ yfb (cl (vars w')) = take i (yfb (cl (vars w))) ++ pts.*2).
Proof.
  intros Hreach Hsamp. induction Hreach as [|[px py] pts [Hpx Hpy] _ IH]; intros [|p ps] i w Hd Ha Hl Hi Hps Hp; try done; cbn [length] in Hi, Hl; cbn [sample_loop].
  - apply runs_go. split; [done|]. split; [done|]. split; [cbn in Hp; by rewrite <- Hp, set_pending_same|]. exists [], [].
    destruct Ha as (L1 & L2 & L3 & L4). split_and!; [constructor|constructor|by rewrite take_ge, app_nil_r by lia..].
  - apply Forall_cons in Hps as [Hpok Hps]. apply runs_bind, clearbuf_runs; [done|]. intros w1 Ev1 Es1. apply runs_get, runs_bind. rewrite Ev1.
    destruct Hd as (Hscr & Hd). rewrite Hscr, <- Ev1.
    eapply (get_sample_run (S fuel) samp i px py p (mjoin (press_samples <$> ps))); [exact Hpx|exact Hpy|by rewrite Ev1|done|lia|by rewrite Ev1|done|by rewrite Es1, Hp|].
    intros vx vy w2 Hx Hy Ef2 Es2 X2 Y2 FX2 FY2. rewrite Ev1 in *. rewrite Es1 in Es2. destruct Ha as (L1 & L2 & L3 & L4).
    replace (Z.of_nat i + 1) with (Z.of_nat (S i)) by lia. eapply runs_mono; [apply (IH ps (S i))|].
    + by rewrite Ef2.
    + unfold arrays. rewrite X2, Y2, FX2, FY2, !length_insert. done.
    + by injection Hl.
    + lia.
    + done.
    + by rewrite Es2.
    + intros r w3 (-> & Ef3 & Es3 & mx & my & Hmx & Hmy & X3 & Y3 & FX3 & FY3). split; [done|]. split; [by rewrite Ef3|].
      split; [by rewrite Es3, Es2|]. exists (vx :: mx), (vy :: my). rewrite X3, Y3, FX3, FY3, X2, Y2, FX2, FY2. cbn [fmap list_fmap fst snd].
      split_and!; [by constructor|by constructor|apply take_insert_next; lia..].
Qed.

End points_run.

(** ** The program *)

Section whole_run.
Context {D : Type} {free_vt info var env absent} `{Hscreen : TouchScreen D free_vt info var env absent}.
Context (font : list Z) (L : nat).
Implicit Types w : world whole freq D.
Notation seen w := (see (driver w)).
Notation s := (screen_of var info.2).
Context (Hs : screen_ok s L) (HL : L = Z.to_nat info.1) (Hfont : font_ok font).

Lemma show_text_runs dy t colidx (w : world fb_vars freq D) (Q : unit → world fb_vars freq D → Prop) : drawable s L (vars w) → colidx = 1 ∨ colidx = 2 →
  (∀ m, mem_ok L m → Q tt (with_vars w (set_fbuffer (Some m) (vars w)))) → runs (show_text font dy (lit t) colidx) w Q.
Proof.
  intros (Hsc & Hcm & m & Hm & Hok) Hc HQ. unfold show_text. apply runs_get. rewrite Hm, Hsc. apply runs_bind.
  pose proof (plots_draw s (colormap (vars w)) font L Hs Hfont colidx (DTextCenter (xres s / 2) (yres s / 4 + dy) (lit t))) as Hp.
  destruct (plots_mem_ok s L Hs _ _ m (Hp ltac:(destruct Hc as [-> | ->]; split_and!; [done|by vm_compute|by vm_compute|done|by vm_compute|by vm_compute]) (lit_u8 t)) Hok) as (m' & E & Hok').
  eapply runs_lift; [exact E|]. by apply runs_modify, HQ.
Qed.


Context (TS_POINTERCAL : list Z) (Habsent : default TS_POINTERCAL (env "TSLIB_CALIBFILE") = absent).

Lemma save_runs a w (Q : unit → world whole freq D → Prop) : scr (fb (vars w)) = s → Nat.lt (length (cal_buffer a (xres s) (yres s))) 256 →
  (∀ w', vars w' = vars w → seen w' = set_contents (<[absent := cal_buffer a (xres s) (yres s)]> (contents (seen w))) (seen w) → Q tt w') →
  runs (save TS_POINTERCAL a) w Q.
Proof.
  intros Hsc Hl HQ. unfold save. apply runs_get. do 2 apply runs_request. rewrite Hsc, (proj2 (Nat.ltb_lt _ _)) by exact Hl. cbn [negb].
  set (w1 := after w (Getenv "TSLIB_CALIBFILE")). assert (seen w1 = seen w) as E1 by (cbn [w1 after driver]; by rewrite see_after).
  assert (default TS_POINTERCAL (answer w (Getenv "TSLIB_CALIBFILE")) = absent) as -> by (unfold answer; by rewrite env_is).
  set (fd := answer w1 (OpenNew absent)). destruct (new_opens (driver w1) absent) as [Hpos Hnew]. change (respond (driver w1) (OpenNew absent)).2 with fd in Hpos, Hnew.
  rewrite E1 in Hnew. do 2 apply runs_request. apply runs_ret, HQ; [done|]. set (text := cal_buffer a (xres s) (yres s)).
  cbn [after driver]. rewrite see_after. cbn [view_step]. rewrite see_after. cbn [view_step]. rewrite see_after. cbn [view_step].
  change (respond (driver w1) (OpenNew absent)).2 with fd. rewrite (proj2 (Z.ltb_ge _ _)) by exact Hpos. rewrite E1.
  unfold set_contents, set_files. cbn [active graphics files contents pending]. rewrite lookup_insert_eq. cbn [active graphics files contents pending].
  rewrite lookup_insert_eq. cbn [default from_option id app]. rewrite insert_insert_eq, delete_insert_id by done. done.
Qed.
End whole_run.

(** ** What is computed *)

Lemma median_of_unique l v v' : median_of l v → median_of l v' → v = v'.
Proof.
  intros (q & Hp & Hq & Hv) (q' & Hp' & Hq' & Hv'). assert (q = q') as <- by (eapply (Sorted_unique Z.le); [done|done|by rewrite Hp, Hp']).
  cbv zeta in *. destruct (Nat.odd (length l)); [congruence|]. destruct Hv as (a & b & E1 & E2 & ->), Hv' as (a' & b' & E1' & E2' & ->). congruence.
Qed.

Lemma medians_unique {A} (P : A → Z → Prop) ps vs vs' : (∀ p v v', P p v → P p v' → v = v') → Forall2 P ps vs → Forall2 P ps vs' → vs = vs'.
Proof.
  intros Hu H. revert vs'. induction H as [|p v ps vs Hv H IH]; intros vs' H'; inversion H'; subst; [done|]. f_equal; [by eapply Hu|by apply IH].
Qed.

(** ** Claims *)

Section claims.
Context {D : Type} {free_vt info var env absent} `{Hscreen : TouchScreen D free_vt info var env absent}.
Context (font : list Z) (L : nat) (TS_POINTERCAL : list Z).
Implicit Types w : world whole freq D.
Notation seen w := (see (driver w)).
Notation s := (screen_of var info.2).

(** The machine, the screen and the user. *)
Record calib_setting (w : world whole freq D) (ps : list press) (fuel : nat) : Prop := {
  set_screen : screen_ok s L ∧ L = Z.to_nat info.1 ∧ v_red_length var <= 8 ∧ v_green_length var <= 8 ∧ v_blue_length var <= 8;
  set_font : font_ok font;
  set_names_ : names_ok free_vt env absent ∧ default TS_POINTERCAL (env "TSLIB_CALIBFILE") = absent;
  set_view : vt_path env free_vt ∉ graphics (seen w) ∧ 0 <= active (seen w) ∧ files (seen w) !! (-1) = None;
  set_vars : length (colormap (fb (vars w))) = 256%nat ∧ arrays (cl (vars w));
  set_presses : length ps = 5%nat ∧ Forall (press_ok (S fuel)) ps ∧ pending (seen w) = mjoin (press_samples <$> ps) }.

(** What the machine shows in the end: the file, when the points can be
    calibrated, and everything else as it was. *)
Definition calibrated (o : option (list Z)) (v : view) : view :=
  match o with
  | Some a => set_contents (<[absent := cal_buffer a (v_xres var) (v_yres var)]> (contents v)) (set_pending [] v)
  | None => set_pending [] v
  end.

(** C29: The calibration program as a whole: with five touches to come, it puts
    the medians of their samples into the single-precision equations of the five
    points of the screen.  If they have a solution the program ends with success
    and the calibration file holds exactly the text of the constants; if not, it
    ends with -1 and no file.  In both cases the console that was active is active
    again, the one that was taken is in text, and the samples of the touches, and
    no others, have been taken.  One descriptor is left open, that of the touch
    screen, which the program never closes. *)
Theorem calibration_is_saved ps fuel samp w mx my o :
  calib_setting w ps fuel → length samp = 128%nat → Forall2 median_x ps mx → Forall2 median_y ps my →
  perform_calibration (F:=SpecFloat.spec_float) (Calibration mx my (points s).*1 (points s).*2) = Ok o →
  runs (main TS_POINTERCAL font (F:=SpecFloat.spec_float) (S fuel) samp) w (λ r w',
    r = inl (match o with Some _ => 0 | None => -1 end) ∧
    ∃ t, files (seen w) !! t = None ∧ seen w' = calibrated o (ts_opened env t (seen w))).
Proof.
  intros [(Hs & HL & Hcol) Hfont (Hn & Habs) (Hg & Ha & Hm1) (Hcm & Harr) (Hl5 & Hps & Hpend)] Hsamp Hmx Hmy Ho.
  unfold main. do 2 apply runs_request. assert (default TS_POINTERCAL (answer w (Getenv "TSLIB_CALIBFILE")) = absent) as -> by (unfold answer; by rewrite env_is).
  assert (answer (after w (Getenv "TSLIB_CALIBFILE")) (OpenPath absent) = -1) as -> by apply absent_is.
  apply runs_request. cbn [Z.eqb Pos.eqb negb].
  set (w1 := after _ (CloseFd (-1))).
  assert (seen w1 = seen w) as E1.
  { cbn [w1 after driver]. rewrite see_after. cbn [view_step]. rewrite see_after, absent_is. cbn [view_step]. change (-1 <? 0) with true. cbn iota. rewrite see_after.
    cbn [view_step]. unfold set_files. rewrite delete_id by done. by destruct (see (driver w)). }
  apply runs_then, touch_device_opens. intros t w2 _ Hnew Ev2 Es2. exists tt. split; [done|]. rewrite E1 in Es2, Hnew. change (vars w1) with (vars w) in Ev2.
  apply runs_then. unfold on_fb at 1. apply runs_within. unfold open_screen. apply runs_bind.
  eapply runs_mono; [apply (console_is_given_back free_vt info var env absent (World (fb (vars w2)) (driver w2) [])); [done|cbn; by rewrite Es2|cbn; by rewrite Es2]|].
  intros r w3 (-> & Hfb & Hsc & Hcm3 & Hp3 & Hc3 & _ & _ & Hclose). cbn [negb Z.eqb]. apply runs_go. eexists. split; [done|].
  unfold on_fb at 1. apply runs_bind, runs_within. cbn [vars driver fb set_fb].
  apply runs_bind. eapply (set_colors_runs s); [exact Hcol|lia|cbn; lia|by cbn|by cbn; rewrite Hcm3; cbn; rewrite Ev2|]. intros cm Hcml.
  apply runs_bind. eapply (show_text_runs font L Hs Hfont); [|by left|].
  { split; [done|]. split; [done|]. eexists. split; [exact Hfb|]. rewrite HL. split; [apply length_replicate|by apply Forall_replicate]. }
  intros m1 Hok1. eapply (show_text_runs font L Hs Hfont); [|by right|].
  { split; [done|]. split; [done|]. by eexists. }
  intros m2 Hok2. apply runs_get. cbn [vars driver fb set_fb with_vars set_fbuffer set_colormap scr]. rewrite Hsc.
  apply runs_then. set (w5 := World _ _ _).
  assert (fb (vars w5) = set_colormap cm (set_fbuffer (Some m2) (vars w3))) as Ef5 by done.
  assert (seen w5 = seen w3) as Es5 by done. assert (cl (vars w5) = cl (vars w)) as Ec5 by (cbn; by rewrite Ev2).
  eapply runs_mono; [apply (sample_loop_runs s font L Hs Hfont fuel samp (points s) (points_in_reach s L Hs) Hsamp ps 0 w5)|].
  { rewrite Ef5. split; [done|]. split; [done|]. by exists m2. }
  { by rewrite Ec5. }
  { done. }
  { done. }
  { done. }
  { rewrite Es5, Hp3. cbn [driver]. by rewrite Es2. }
  intros r w6 (-> & Ef6 & Es6 & mx' & my' & Hmx' & Hmy' & X6 & Y6 & FX6 & FY6). exists tt. split; [done|]. cbn [take app firstn] in *.
  assert (mx' = mx) as -> by (eapply medians_unique; [|exact Hmx'|exact Hmx]; intros; by eapply median_of_unique).
  assert (my' = my) as -> by (eapply medians_unique; [|exact Hmy'|exact Hmy]; intros; by eapply median_of_unique).
  apply runs_get, runs_bind. eapply runs_lift; [unfold calibration_of; rewrite X6, Y6, FX6, FY6; exact Ho|].
  assert (∀ w7, fb (vars w7) = fb (vars w6) → (∃ c p, seen w7 = set_contents c (set_pending p (seen w3))) →
    runs (on_fb close_framebuffer) w7 (λ _ w8, seen w8 = set_contents (contents (seen w7)) (set_pending (pending (seen w7)) (ts_opened env t (seen w))))) as Hend.
  { intros w7 Ef7 Es7. unfold on_fb. apply runs_within. eapply runs_mono; [apply Hclose|].
    - split; [|exact Es7]. exists (Some m2), cm. cbn [vars]. by rewrite Ef7, Ef6, Ef5.
    - intros [] w8 E8. cbn [driver]. rewrite E8. cbn [driver]. by rewrite Es2. }
  rewrite Es5 in Es6. destruct o as [a|]; cbn [calibrated].
  - apply runs_bind, (save_runs TS_POINTERCAL Habs); [by rewrite Ef6, Ef5| |].
    { apply perform_range in Ho as [Hla Hra]. apply cal_buffer_fits; [done|done| |]; destruct Hs; unfold is_s32; lia. }
    intros w7 Ev7 Es7. apply runs_bind. eapply runs_mono; [apply Hend|].
    + by rewrite Ev7.
    + rewrite Es7, Es6. by eexists _, _.
    + intros [] w8 E8. apply runs_go. split; [done|]. exists t. split; [done|]. rewrite E8, Es7, Es6. cbn [contents pending set_contents set_pending]. rewrite Hc3. cbn [driver]. by rewrite Es2.
  - apply runs_bind. eapply runs_mono; [apply Hend; [done|]|].
    + rewrite Es6. exists (contents (seen w3)), []. by destruct (seen w3).
    + intros [] w8 E8. apply runs_go. split; [done|]. exists t. split; [done|]. rewrite E8, Es6. cbn [contents pending set_contents set_pending]. rewrite Hc3. cbn [driver]. rewrite Es2. by destruct (seen w).
Qed.
End claims.

(** An old calibration is kept: nothing but the file is looked at. *)
Theorem old_calibration_is_kept {D} `{Driver freq freply D} {F} `{Arith F} (TS_POINTERCAL font : list Z) fuel samp (w : world whole freq D) path fd :
  default TS_POINTERCAL (answer w (Getenv "TSLIB_CALIBFILE")) = path → answer (after w (Getenv "TSLIB_CALIBFILE")) (OpenPath path) = fd → fd ≠ -1 →
  runs (main TS_POINTERCAL font (F:=F) fuel samp) w (λ r w', r = inl 0 ∧ vars w' = vars w ∧
    trace w' = trace w ++ [Getenv "TSLIB_CALIBFILE"; OpenPath path; CloseFd fd]).
Proof.
  intros Hp Hfd Hne. unfold main. do 2 apply runs_request. rewrite Hp, Hfd. apply runs_request. rewrite (proj2 (Z.eqb_neq _ _)) by done.
  apply runs_go. split; [done|]. split; [done|]. rewrite !trace_after. by rewrite <- !app_assoc.
Qed.

(** ** Limits *)

(** A file that cannot be created is written to all the same, and the program
    goes on as after a success. *)
Lemma unsaved_calibration_is_success {D} `{Driver freq freply D} (TS_POINTERCAL : list Z) a (w : world whole freq D) :
  (∀ (d : D) p, (respond d (OpenNew p)).2 = -1) →
  Nat.lt (length (cal_buffer a (xres (scr (fb (vars w)))) (yres (scr (fb (vars w)))))) 256 →
  runs (save TS_POINTERCAL a) w (λ _ w', In (WriteFd (-1) (cal_buffer a (xres (scr (fb (vars w)))) (yres (scr (fb (vars w)))))) (trace w')).
Proof.
  intros Hn Hl. unfold save. apply runs_get. do 2 apply runs_request. set (fd := answer _ (OpenNew _)). assert (fd = -1) as -> by apply Hn.
  rewrite (proj2 (Nat.ltb_lt _ _)) by exact Hl. cbn [negb]. do 2 apply runs_request. apply runs_ret. rewrite !trace_after, !in_app_iff. cbn [In]. tauto.
Qed.

(** ** Witnesses *)

Definition demo_press (a b : Z) : press := Press [Sample 0 0 0 0] [Sample a b 5 1] (Sample a b 0 2).
Definition demo_presses : list press := [demo_press 800 864; demo_press 4320 864; demo_press 4320 3104; demo_press 800 3104; demo_press 2560 1984].
Definition demo_start : world whole freq demo_console :=
  World (Whole fb_init (Calib [] (-1) 0 (replicate 5 0) (replicate 5 0) (replicate 5 0) (replicate 5 0)))
    (DemoConsole (View 1 ∅ ∅ ∅ (mjoin (press_samples <$> demo_presses)))) [].

Lemma single_median v : median_of [v] v.
Proof. exists [v]. split; [done|]. split; [by repeat constructor|reflexivity]. Qed.

Lemma calibration_is_saved_witness :
  runs (main demo_absent (replicate 2048 0x18) (F:=SpecFloat.spec_float) 3 (replicate 128 (Sample 0 0 0 0))) demo_start (λ r w', r = inl 0 ∧
    contents (see (driver w')) !! demo_absent = Some (lit "4095 0 0 0 4095 -262140 65536 320 240") ∧ active (see (driver w')) = 1 ∧
    ∃ t, files (see (driver w')) = {[t := lit "/dev/input/event0"]}).
Proof.
  eapply runs_mono; [apply (calibration_is_saved (replicate 2048 0x18) (Z.to_nat 153600) demo_absent demo_presses 2 (replicate 128 (Sample 0 0 0 0)) demo_start
    [800; 4320; 4320; 800; 2560] [864; 864; 3104; 3104; 1984] (Some [0; 4095; 0; -262140; 0; 4095; 65536]))|].
  - constructor.
    + split; [|split; [reflexivity|cbn; lia]]. constructor; cbn -[Z.to_nat u32 Z.div]; change (u32 (16 + 7) / 8) with 2; lia.
    + unfold font_ok. rewrite length_replicate. lia.
    + split; [|reflexivity]. split; [discriminate|]. intros nr [-> | ->]; (split; [by apply Nat.ltb_lt|discriminate]).
    + split; [set_solver|]. split; [cbn; lia|reflexivity].
    + split; [reflexivity|]. by repeat split.
    + split; [reflexivity|]. split; [|reflexivity]. repeat (apply Forall_cons_2; [constructor; cbn; try lia; try done; repeat constructor; unfold small_coord; cbn; lia|]). apply Forall_nil_2.
  - reflexivity.
  - unfold demo_presses. repeat (apply Forall2_cons_2; [apply single_median|]). apply Forall2_nil_2.
  - unfold demo_presses. repeat (apply Forall2_cons_2; [apply single_median|]). apply Forall2_nil_2.
  - vm_compute. reflexivity.
  - intros r w' (-> & t & _ & E). split; [reflexivity|]. rewrite E. split; [|split; [reflexivity|by exists t]]. cbn [calibrated contents set_contents]. rewrite lookup_insert_eq. reflexivity.
Defined.
