(* ===== verification/TsTestMain.v ===== *)
(** * TsTestMain: the test program as a whole

    Models the beginning and the end of main of src/tslib-1.1/tests/ts_test.c
    around [TsTest]: the devices are opened as in [TsCalibMain], and closed. *)
From stdpp Require Import gmap.
From S2P Require Import Prelude LibC Bytes Device Runs Tslib FbUtils TsTest FbOpen.
Local Open Scope cmodel_scope.
Local Open Scope Z_scope.

(** The variables of fbutils.c and of ts_test.c; the picture is kept in the
    former, and given to [TsTest] while it runs. *)
Record tested := Tested { fb : fb_vars; tst : test_state }.
Definition set_fb (f : fb_vars) (s : tested) : tested := Tested f (tst s).
Definition get_test (s : tested) : test_state := set_mem (default [] (fbuffer (fb s))) (tst s).
Definition set_test (t : test_state) (s : tested) : tested := Tested (set_fbuffer (Some (mem t)) (fb s)) (set_mem (mem (tst s)) t).

Section program.
Context (font : list Z) {D : Type} `{Driver freq freply D}.
Notation P := (prog tested freq D).

Definition on_fb {A} (m : prog fb_vars freq D A) : P A := within fb set_fb (λ r, r) m.
Definition on_test {A} (m : prog test_state treq D A) : P A := within get_test set_test Touch m.

(** The signal handler. *)
Definition sig : P (may_exit Z) := _ ← on_fb close_framebuffer; exits 1.

(** The main loop is left with 1 after an error and with 0 by the button. *)
Definition main (fuel : nat) : P (may_exit Z) :=
  then_ open_device (λ _,
  then_ (on_fb open_screen) (λ _,
  _ ← on_fb (set_colors 0 palette);
  s ← get;
  r ← on_test (TsTest.main (scr (fb s)) (colormap (fb s)) font fuel);
  _ ← on_fb close_framebuffer;
  if negb (r =? 0) then exits 1 else go 0)).
End program.

(** ** Samples are all that is taken *)

Section quiet.
Context (free_vt : Z) (info : Z * Z) (var : var_info) (env : string → option (list Z)) (absent : list Z).
Context {D : Type} `{Consoles D free_vt info var env absent}.
Context (v : view) (s : screen) (cm font : list Z).
Notation quiet := (preserves (only_touched free_vt info var env absent (D:=D) v)).

Lemma drawing_keeps f : quiet (drawing_ f : prog test_state treq D _).
Proof. unfold drawing_. keep_touch. Qed.
Lemma toggle_cross_keeps : quiet (toggle_cross s cm : prog test_state treq D _).
Proof. unfold toggle_cross. keep_touch; apply drawing_keeps. Qed.
Lemma clicked_keeps i : quiet (clicked s cm font i : prog test_state treq D _).
Proof. unfold clicked. keep_touch; apply drawing_keeps. Qed.
Lemma handle_one_keeps i a : quiet (handle_one s cm font i a : prog test_state treq D _).
Proof. unfold handle_one. keep_touch; apply clicked_keeps. Qed.
Lemma handle_buttons_keeps n a : ∀ i, quiet (handle_buttons s cm font n i a : prog test_state treq D _).
Proof. induction n as [|n IH]; intros i; cbn [handle_buttons]; keep_touch; first [apply handle_one_keeps|apply IH]. Qed.
Lemma follow_pen_keeps a : quiet (follow_pen s cm a : prog test_state treq D _).
Proof. unfold follow_pen. keep_touch; apply drawing_keeps. Qed.
Lemma turn_keeps : quiet (turn s cm font : prog test_state treq D _).
Proof. unfold turn. keep_touch; first [apply toggle_cross_keeps|apply handle_buttons_keeps|apply follow_pen_keeps]. Qed.
Lemma main_loop_keeps fuel : quiet (main_loop s cm font fuel : prog test_state treq D _).
Proof. induction fuel as [|fuel IH]; cbn [main_loop]; keep_touch; first [apply turn_keeps|apply IH]. Qed.
Lemma test_main_keeps fuel : quiet (TsTest.main s cm font fuel : prog test_state treq D _).
Proof. unfold TsTest.main. keep_touch; first [apply drawing_keeps|apply main_loop_keeps]. Qed.
End quiet.

(** ** Claims *)

Section claims.
Context {D : Type} {free_vt info var env absent} `{Hscreen : TouchScreen D free_vt info var env absent}.
Implicit Types w : world tested freq D.
Notation seen w := (see (driver w)).
Notation s := (screen_of var info.2).

#[local] Instance pending_pen : Pen D.
Proof.
  refine {| samples := λ d, pending (see d) |}. intros d a r E. pose proof (ready_sample d a r E) as Ha. split; [exact Ha|].
  change (pending (see (respond d (Touch ReadSample)).1) = r). rewrite see_after, Ha. cbn. by rewrite E.
Defined.

(** The whole program: on any screen that fits its memory it serves every sample
    up to the one that lifts the pen from the Quit button, ends there with
    success, and gives the console back; the machine is as before, but for the
    samples and for the descriptor of the touch screen, which is never closed. *)
Theorem test_gives_console_back font L k w :
  screen_ok s L → L = Z.to_nat info.1 → v_red_length var <= 8 ∧ v_green_length var <= 8 ∧ v_blue_length var <= 8 → font_ok font →
  names_ok free_vt env absent → vt_path env free_vt ∉ graphics (seen w) → 0 <= active (seen w) → length (colormap (fb (vars w))) = 256%nat →
  Forall sample_ok (pending (seen w)) → clicks (quit_button s) false (pending (seen w)) = Some k →
  runs (main font k) w (λ r w', r = inl 0 ∧
    ∃ t, files (seen w) !! t = None ∧ seen w' = set_pending (drop k (pending (seen w))) (ts_opened env t (seen w))).
Proof.
  intros Hs HL Hcol Hfont Hn Hg Ha Hcm Hin Hk. unfold main. apply runs_then, touch_device_opens. intros t w1 _ Hnew Ev1 Es1. exists tt. split; [done|].
  apply runs_then. unfold on_fb at 1. apply runs_within. unfold open_screen. apply runs_bind.
  eapply runs_mono; [apply (console_is_given_back free_vt info var env absent (World (fb (vars w1)) (driver w1) [])); [done|cbn; by rewrite Es1|cbn; by rewrite Es1]|].
  intros r w2 (-> & Hfb & Hsc & Hcm2 & Hp2 & Hc2 & _ & _ & Hclose). cbn [negb Z.eqb]. apply runs_go. eexists. split; [done|].
  unfold on_fb at 1. apply runs_bind, runs_within. cbn [vars driver fb set_fb].
  eapply (set_colors_runs s); [exact Hcol|lia|cbn; lia|by cbn|by cbn; rewrite Hcm2; cbn; rewrite Ev1|]. intros cm Hcml.
  apply runs_get. cbn [vars driver fb set_fb with_vars set_colormap scr colormap]. rewrite Hsc.
  apply runs_bind. unfold on_test. apply runs_within. cbn [vars driver]. set (w3 := World (get_test _) _ []).
  assert (seen w3 = seen w2) as Es3 by done.
  destruct (main_ends_at_quit s cm font L w3 k Hs Hfont Hcml) as (w4 & E & Hd & Hm4).
  { cbn. rewrite Hfb. cbn. rewrite HL. split; [apply length_replicate|by apply Forall_replicate]. }
  { change (samples (driver w3)) with (pending (seen w2)). rewrite Hp2. cbn [driver]. by rewrite Es1. }
  { change (samples (driver w3)) with (pending (seen w2)). rewrite Hp2. cbn [driver]. by rewrite Es1. }
  destruct (test_main_keeps free_vt info var env absent (seen w2) s cm font k w3 0 w4 E) as [q Eq].
  { exists (pending (seen w2)). by rewrite set_pending_same. }
  exists 0, w4. split; [exact E|]. apply runs_bind. unfold on_fb. apply runs_within. cbn [vars driver fb set_test].
  eapply runs_mono; [apply Hclose|].
  - split; [by eexists _, _|]. exists (contents (seen w2)), q. cbn [driver]. rewrite Eq. by destruct (seen w2).
  - intros [] w5 E5. apply runs_go. split; [done|]. exists t. split; [done|]. cbn [driver]. rewrite E5. cbn [driver]. rewrite Eq. cbn [pending contents set_pending].
    change (pending (see (driver w4)) = drop k (pending (seen w2))) in Hd. rewrite Eq in Hd. cbn [pending set_pending] in Hd. subst q.
    rewrite Hp2, Hc2. cbn [driver]. rewrite Es1. by destruct (seen w).
Qed.
End claims.

(** ** Witnesses *)

Definition quit_samples : list ts_sample := [Sample 100 100 5 1; Sample 100 100 0 2; Sample 250 15 5 3; Sample 250 15 0 4; Sample 1 1 1 5].
Definition demo_begin : world tested freq demo_console :=
  World (Tested fb_init (TestState [] 0 0 0 false [])) (DemoConsole (View 1 ∅ ∅ ∅ quit_samples)) [].

Lemma test_gives_console_back_witness :
  runs (main (replicate 2048 0x18) 4) demo_begin (λ r w', r = inl 0 ∧
    ∃ t, see (driver w') = View 1 ∅ {[t := lit "/dev/input/event0"]} ∅ [Sample 1 1 1 5]).
Proof.
  eapply runs_mono; [apply (test_gives_console_back (replicate 2048 0x18) (Z.to_nat 153600) 4 demo_begin)|].
  - constructor; cbn -[Z.to_nat u32 Z.div]; change (u32 (16 + 7) / 8) with 2; lia.
  - reflexivity.
  - cbn; lia.
  - unfold font_ok. rewrite length_replicate. lia.
  - split; [discriminate|]. intros nr [-> | ->]; (split; [by apply Nat.ltb_lt|discriminate]).
  - set_solver.
  - cbn; lia.
  - reflexivity.
  - repeat constructor; vm_compute; discriminate.
  - reflexivity.
  - intros r w' (-> & t & _ & E). split; [reflexivity|]. exists t. exact E.
Defined.
