(* ===== verification/TsH2200.v ===== *)
(** * TsH2200: the calibration filter for the iPAQ h22xx

    Models src/tslib-1.1/plugins/linear-h2200.c, a fixed polynomial of the
    coordinates in 12.20 fixed-point arithmetic, as a filter above any module. *)
From S2P Require Import Prelude LibC Tslib.
Local Open Scope cmodel_scope.
Local Open Scope Z_scope.

(** Products in 64 bits, of which the upper ones are kept in a long. *)
Definition M20 (a b : Z) : Z := s32 (Z.shiftr (a * b) 20).
Definition M32 (a b : Z) : Z := s32 (Z.shiftr (a * b) 32).

Definition new_x (x y : Z) : Z :=
  s32 (14708834 + M20 1009971 x + M20 (-18416) y + M20 (M32 129310 x) y + M20 (M32 76687 x) x + M20 (M32 5340 y) y).
Definition new_y (x y : Z) : Z :=
  s32 (-10920238 + M20 129836 x + M20 951939 y + M20 (M32 (-947740) x) y + M20 (M32 22599 x) x + M20 (M32 735087 y) y).

Definition fixed20 (z : Z) : Z := s32 (Z.shiftl z 20).

Definition h2200_sample (a : ts_sample) : ts_sample :=
  let '(px, py) := (fixed20 (x a), fixed20 (y a)) in
  Sample (Z.shiftr (new_x px py) 20) (Z.shiftr (new_y px py) 20) (pressure a) (tv a).

Fixpoint h2200_loop (n : nat) (samp : list ts_sample) (i : Z) : result (list ts_sample) :=
  match n with
  | O => Ok samp
  | S n => a ← rd samp i; samp ← wr samp i (h2200_sample a); h2200_loop n samp (i + 1)
  end.

Record linear_h2200 (M : Type) := LinearH2200 { h_next : M }.
Arguments LinearH2200 {M}.
Arguments h_next {M}.

#[export] Instance linear_h2200_read {M} `{TsRead M} : TsRead (linear_h2200 M) := λ m samp nr,
  r ← ts_module_read (h_next m) samp nr;
  let '(next, samp, ret) := r in
  samp ← (if 0 <=? ret then h2200_loop (Z.to_nat ret) samp 0 else Ok samp);
  Ok (LinearH2200 next, samp, ret).

(** ** The loop converts the samples that were read *)

Lemma h2200_loop_map n : ∀ samp (i : nat), (i + n <= length samp)%nat →
  h2200_loop n samp (Z.of_nat i) = Ok (take i samp ++ (h2200_sample <$> take n (drop i samp)) ++ drop (i + n) samp).
Proof.
  induction n as [|n IH]; intros samp i Hi; cbn [h2200_loop].
  { rewrite take_0, Nat.add_0_r. cbn [fmap list_fmap app]. by rewrite take_drop. }
  destruct (lookup_lt_is_Some_2 samp i) as [a Ea]; [lia|].
  rewrite (proj2 (rd_Ok samp (Z.of_nat i) a)) by (rewrite Nat2Z.id; split; [lia|done]). cbn [mbind result_bind].
  rewrite wr_Ok by lia. rewrite Nat2Z.id. cbn [mbind result_bind].
  replace (Z.of_nat i + 1) with (Z.of_nat (S i)) by lia. rewrite IH by (rewrite length_insert; lia). f_equal.
  rewrite take_insert_snoc, <- app_assoc by lia. cbn [app]. rewrite (drop_S _ _ _ Ea). cbn [take fmap list_fmap app].
  rewrite !insert_drop_lt by lia. by replace (i + S n)%nat with (S i + n)%nat by lia.
Qed.

#[export] Instance linear_h2200_ok {M} `{TsReadOk M} : TsReadOk (linear_h2200 M).
Proof.
  intros m samp nr m' samp' ret Hnr. unfold ts_module_read, linear_h2200_read.
  destruct (ts_module_read (h_next m) samp nr) as [[[next samp1] ret1]|] eqn:E; [|done]. cbn [mbind result_bind].
  destruct (ts_read_ok _ _ _ _ _ _ Hnr E) as (Hl & Hr & Hd). destruct (Z.leb_spec 0 ret1) as [Hpos|Hpos].
  - change 0 with (Z.of_nat 0). rewrite h2200_loop_map by lia. intros [= _ <- <-]. rewrite ?take_0, ?drop_0. cbn [app]. split_and!; [|done|].
    + rewrite length_app, length_fmap, length_take, length_drop. lia.
    + rewrite drop_app_ge by (rewrite length_fmap, length_take; lia). rewrite length_fmap, length_take, drop_drop, <- Hd. f_equal. lia.
  - cbn [mbind result_bind]. by intros [= _ <- <-].
Qed.

(** ** Accuracy *)

(** The polynomials, in units of 2^-32 of a pixel. *)
Definition poly_x (x y : Z) : Z := 14708834 * 4096 + 1009971 * 4096 * x - 18416 * 4096 * y + 129310 * x * y + 76687 * x * x + 5340 * y * y.
Definition poly_y (x y : Z) : Z := -10920238 * 4096 + 129836 * 4096 * x + 951939 * 4096 * y - 947740 * x * y + 22599 * x * x + 735087 * y * y.

Definition adc (z : Z) : Prop := 0 <= z < 1024.

Lemma M20_fixed a z : adc z → is_s32 (a * z) → M20 a (fixed20 z) = a * z.
Proof.
  unfold adc, M20, fixed20. intros Hz Ha. rewrite Z.shiftl_mul_pow2, (s32_id (z * 2 ^ 20)) by (unfold is_s32; lia).
  rewrite Z.shiftr_div_pow2 by lia. rewrite Z.mul_assoc, Z_div_mult by lia. by apply s32_id.
Qed.

Lemma M32_fixed a z : adc z → -1048576 <= a < 1048576 → M32 a (fixed20 z) = a * z / 4096.
Proof.
  unfold adc, M32, fixed20. intros Hz Ha. rewrite Z.shiftl_mul_pow2, (s32_id (z * 2 ^ 20)) by (unfold is_s32; lia).
  rewrite Z.shiftr_div_pow2 by lia. change (2 ^ 32) with (4096 * 2 ^ 20). rewrite Z.mul_assoc, Z.div_mul_cancel_r by lia.
  apply s32_id. unfold is_s32. assert (-1073741824 <= a * z <= 1073741824) by nia.
  pose proof (Z.div_mod (a * z) 4096). pose proof (Z.mod_pos_bound (a * z) 4096). lia.
Qed.

(** A product of three: exact up to the rounding of the first one. *)
Lemma M20_M32 a z1 z2 : adc z1 → adc z2 → -1048576 <= a < 1048576 →
  ∃ e, 0 <= e < 4096 ∧ 4096 * M20 (M32 a (fixed20 z1)) (fixed20 z2) = a * z1 * z2 - e * z2 ∧
    0 <= e * z2 <= 1024 * 4096 ∧ Z.min 0 (256 * a) - 1024 <= M20 (M32 a (fixed20 z1)) (fixed20 z2) <= Z.max 0 (256 * a).
Proof.
  intros H1 H2 Ha. rewrite M32_fixed by done. unfold adc in *. exists ((a * z1) mod 4096).
  pose proof (Z.div_mod (a * z1) 4096). pose proof (Z.mod_pos_bound (a * z1) 4096). set (q := a * z1 / 4096) in *. set (e := (a * z1) mod 4096) in *.
  assert (Z.min 0 a - 4 <= 4 * q <= Z.max 0 a) by nia.
  rewrite M20_fixed; [|done|unfold is_s32; nia]. split_and!; nia.
Qed.

(** The fixed-point results are the polynomials, rounded down by at most
    three thousandths of a pixel. *)
Lemma new_x_near px py : adc px → adc py →
  poly_x px py - 3 * 1024 * 4096 <= 4096 * new_x (fixed20 px) (fixed20 py) <= poly_x px py.
Proof.
  intros Hx Hy. unfold new_x, poly_x. rewrite !(M20_fixed _ _ Hx), !(M20_fixed _ _ Hy) by (unfold is_s32, adc in *; lia).
  destruct (M20_M32 129310 px py) as (e1 & R1 & E1 & D1 & B1); [done|done|lia|].
  destruct (M20_M32 76687 px px) as (e2 & R2 & E2 & D2 & B2); [done|done|lia|].
  destruct (M20_M32 5340 py py) as (e3 & R3 & E3 & D3 & B3); [done|done|lia|].
  set (t1 := M20 (M32 129310 _) _) in *. set (t2 := M20 (M32 76687 _) _) in *. set (t3 := M20 (M32 5340 _) _) in *.
  unfold adc in *. rewrite s32_id by (unfold is_s32; lia). lia.
Qed.

Lemma new_y_near px py : adc px → adc py →
  poly_y px py - 3 * 1024 * 4096 <= 4096 * new_y (fixed20 px) (fixed20 py) <= poly_y px py.
Proof.
  intros Hx Hy. unfold new_y, poly_y. rewrite !(M20_fixed _ _ Hx), !(M20_fixed _ _ Hy) by (unfold is_s32, adc in *; lia).
  destruct (M20_M32 (-947740) px py) as (e1 & R1 & E1 & D1 & B1); [done|done|lia|].
  destruct (M20_M32 22599 px px) as (e2 & R2 & E2 & D2 & B2); [done|done|lia|].
  destruct (M20_M32 735087 py py) as (e3 & R3 & E3 & D3 & B3); [done|done|lia|].
  set (t1 := M20 (M32 (-947740) _) _) in *. set (t2 := M20 (M32 22599 _) _) in *. set (t3 := M20 (M32 735087 _) _) in *.
  unfold adc in *. rewrite s32_id by (unfold is_s32; lia). lia.
Qed.

(** [p] is the whole pixel of the polynomial's value, or at most the one below. *)
Definition pixel_of (poly p : Z) : Prop := poly - (3 * 1024 * 4096 + 2 ^ 32) < p * 2 ^ 32 <= poly.

Lemma pixel_of_shift v poly : poly - 3 * 1024 * 4096 <= 4096 * v <= poly → pixel_of poly (Z.shiftr v 20).
Proof. unfold pixel_of. rewrite Z.shiftr_div_pow2 by lia. pose proof (Z.div_mod v (2 ^ 20)). pose proof (Z.mod_pos_bound v (2 ^ 20)). lia. Qed.

(** What a calibrated sample is for a raw one. *)
Record calibrated (raw out : ts_sample) : Prop := Calibrated {
  cal_x : pixel_of (poly_x (x raw) (y raw)) (x out);
  cal_y : pixel_of (poly_y (x raw) (y raw)) (y out);
  cal_pressure : pressure out = pressure raw;
  cal_tv : tv out = tv raw }.

Definition from_adc (a : ts_sample) : Prop := adc (x a) ∧ adc (y a).

(** above any module, the fixed filter of the iPAQ turns the samples that
    were read -- coordinates of the ten-bit converter -- into whole pixels of
    the quadratic calibration polynomial, at most three thousandths of a pixel
    before rounding down from its exact value; pressure and time, the rest of
    the array and a negative result are as the module below left them. *)
Theorem h2200_calibrates {M} `{TsReadOk M} (m : linear_h2200 M) samp nr next got ret :
  0 <= nr <= Z.of_nat (length samp) → ts_module_read (h_next m) samp nr = Ok (next, got, ret) → Forall from_adc (take (Z.to_nat ret) got) →
  ∃ out, ts_module_read m samp nr = Ok (LinearH2200 next, out, ret) ∧ length out = length got ∧
    Forall2 calibrated (take (Z.to_nat ret) got) (take (Z.to_nat ret) out) ∧
    drop (Z.to_nat ret) out = drop (Z.to_nat ret) got.
Proof.
  intros Hnr E Hadc. destruct (ts_read_ok _ _ _ _ _ _ Hnr E) as (Hl & Hr & Hd).
  unfold ts_module_read at 1, linear_h2200_read. rewrite E. cbn [mbind result_bind]. destruct (Z.leb_spec 0 ret) as [Hpos|Hpos].
  - change 0 with (Z.of_nat 0). rewrite h2200_loop_map by lia. cbn [mbind result_bind]. rewrite take_0, drop_0. cbn [app Nat.add].
    assert (Hn : length (h2200_sample <$> take (Z.to_nat ret) got) = Z.to_nat ret) by (rewrite length_fmap, length_take; lia).
    eexists. split; [done|]. split_and!.
    + rewrite length_app, Hn, length_drop. lia.
    + rewrite take_app_le by lia. rewrite (take_ge (h2200_sample <$> _)) by lia. apply Forall2_fmap_r, Forall_Forall2_diag.
      eapply Forall_impl; [exact Hadc|]. intros a [Hx Hy]. split; [apply pixel_of_shift, new_x_near|apply pixel_of_shift, new_y_near| |]; done.
    + rewrite drop_app_ge by lia. by rewrite Hn, Nat.sub_diag.
  - exists got. cbn [mbind result_bind]. replace (Z.to_nat ret) with 0%nat by lia. rewrite !take_0. split_and!; [done|done|constructor|done].
Qed.

(** Two points of the touch panel, above a module that replays them. *)
Definition two_points : list ts_sample := [Sample 512 512 100 0; Sample 100 900 100 10].

Lemma h2200_calibrates_witness : ∃ out,
  ts_module_read (LinearH2200 (Replay two_points)) (replicate 4 (Sample 0 0 0 0)) 2 = Ok (LinearH2200 (Replay []), out, 2) ∧
  length out = 4%nat ∧ Forall2 calibrated two_points (take 2 out) ∧ (x <$> take 2 out) = [511; 98].
Proof.
  pose (samp := replicate 4 (Sample 0 0 0 0)).
  destruct (h2200_calibrates (LinearH2200 (Replay two_points)) samp 2 (Replay []) (two_points ++ drop 2 samp) 2)
    as (out & E & Hl & Hc & _); [vm_compute; split; discriminate|reflexivity| |].
  - apply Forall_cons; split; [vm_compute; repeat split; discriminate || reflexivity|].
    apply Forall_cons; split; [vm_compute; repeat split; discriminate || reflexivity|constructor].
  - exists out. split; [exact E|]. split; [exact Hl|]. split; [exact Hc|].
    vm_compute in E. injection E as <-. reflexivity.
Defined.

(** The converter's coordinates must be below 2048: the conversion to fixed
    point of a larger one does not fit the long of a 32-bit machine. *)
Lemma fixed_point_wraps : fixed20 2047 = 2047 * 2 ^ 20 ∧ fixed20 2048 = - (2 ^ 31).
Proof. by vm_compute. Qed.
