(* ===== verification/TsVariance.v ===== *)
(** * TsVariance: the variance filter of the touch-screen library

    Models src/tslib-1.1/plugins/variance.c: a filter that reads the module
    below one sample at a time and holds back a sample that is far from the
    one before it until the next one shows whether it was noise.  The flags are
    kept as the bits of an unsigned int.  The module below is given by the
    interface [TsRead]. *)
From S2P Require Import Prelude LibC Tslib TsFilters.
Local Open Scope Z_scope.

Definition VAR_PENDOWN : Z := 1.
Definition VAR_LASTVALID : Z := 2.
Definition VAR_NOISEVALID : Z := 4.
Definition VAR_SUBMITNOISE : Z := 8.

Record variance_vars := VarianceVars {
  vdelta : Z; last : ts_sample; noise : ts_sample; flags : Z
}.

Definition set_flags (v : variance_vars) (f : Z) : variance_vars := VarianceVars (vdelta v) (last v) (noise v) f.
Definition set_last (v : variance_vars) (s : ts_sample) : variance_vars := VarianceVars (vdelta v) s (noise v) (flags v).
Definition set_noise (v : variance_vars) (s : ts_sample) : variance_vars := VarianceVars (vdelta v) (last v) s (flags v).

(** [flags & bit] as a condition; [flags &= ~bits] on an unsigned int. *)
Definition flag (v : variance_vars) (b : Z) : bool := negb (Z.land (flags v) b =? 0).
Definition clear (v : variance_vars) (bits : Z) : variance_vars := set_flags v (Z.land (flags v) (u32 (Z.lnot bits))).
Definition raise_ (v : variance_vars) (bits : Z) : variance_vars := set_flags v (Z.lor (flags v) bits).

(** [dist] *)
Definition distance (a b : ts_sample) : Z := s32 (sqr (s32 (x a - x b)) + sqr (s32 (y a - y b))).

(** The body of the loop after [cur] is known: the new state and the sample
    stored in [samp], if there is one. *)
Definition variance_body (v : variance_vars) (cur : ts_sample) : variance_vars * option ts_sample :=
  let accept v := (set_last v cur, Some (last v)) in
  if pressure cur =? 0 then
    let v := if flag v VAR_PENDOWN then set_noise (raise_ v VAR_SUBMITNOISE) cur else v in
    accept (clear v (Z.lor (Z.lor VAR_PENDOWN VAR_NOISEVALID) VAR_LASTVALID))
  else
    let v := raise_ v VAR_PENDOWN in
    if negb (flag v VAR_LASTVALID) then (raise_ (set_last v cur) VAR_LASTVALID, None) else
    if flag v VAR_PENDOWN then
      if vdelta v <? distance cur (last v) then
        if flag v VAR_NOISEVALID then
          let out := noise v in
          let v := raise_ (clear (set_last v out) VAR_NOISEVALID) VAR_SUBMITNOISE in
          (set_noise v cur, Some out)
        else (set_noise (raise_ v VAR_NOISEVALID) cur, None)
      else accept (clear v VAR_NOISEVALID)
    else accept v.

(** A variance module above a module of type [M]. *)
Record variance (M : Type) := Variance { vr_vars : variance_vars; vr_next : M }.
Arguments Variance {M}.
Arguments vr_vars {M}.
Arguments vr_next {M}.

(** [&cur] with room for one sample: its content before the read is not used. *)
Definition read_one {M} `{TsRead M} (next : M) : result (M * option ts_sample) :=
  r ← ts_module_read next [Sample 0 0 0 0] 1;
  let '(next, buf, ret) := r in
  if ret <? 1 then Ok (next, None) else cur ← rd buf 0; Ok (next, Some cur).

Fixpoint variance_loop {M} `{TsRead M} (fuel : nat) (v : variance_vars) (next : M)
    (samp : list ts_sample) (count nr : Z) : result (variance M * list ts_sample * Z) :=
  if count <? nr then
    match fuel with
    | O => Crash OutOfFuel
    | S fuel =>
        let turn v next cur :=
          let '(v, out) := variance_body v cur in
          match out with
          | None => variance_loop fuel v next samp count nr
          | Some s => samp ← wr samp count s; variance_loop fuel v next samp (count + 1) nr
          end in
        if flag v VAR_SUBMITNOISE then turn (clear v VAR_SUBMITNOISE) next (noise v)
        else
          r ← read_one next;
          match r with
          | (next, None) => Ok (Variance v next, samp, count)
          | (next, Some cur) => turn v next cur
          end
    end
  else Ok (Variance v next, samp, count).

Definition variance_read {M} `{TsRead M} (fuel : nat) (m : variance M) (samp : list ts_sample) (nr : Z)
    : result (variance M * list ts_sample * Z) :=
  variance_loop fuel (vr_vars m) (vr_next m) samp 0 nr.

Definition variance_limit (stale : bool) (data : Z) (v : variance_vars) (str : option (list Z))
    : result (variance_vars * Z) :=
  n ← strtoul_checked stale str;
  Ok match n with
     | None => (v, -1)
     | Some n => if data =? 1 then (VarianceVars (s32 n) (last v) (noise v) (flags v), 0) else (v, -1)
     end.

(** [garbage] is what the allocated memory holds for [last] and [noise]. *)
Definition variance_mod_init (mem stale : bool) (garbage : ts_sample * ts_sample) (params : option (list Z))
    : result (option variance_vars) :=
  if negb mem then Ok None else
  r ← tslib_parse_vars (VarianceVars 30 garbage.1 garbage.2 0) [(lit "delta", variance_limit stale 1)] params;
  Ok (if negb (r.2 =? 0) then None
      else Some (VarianceVars (sqr (vdelta r.1)) (last r.1) (noise r.1) (flags r.1))).

(** ** The invariant *)

(** The flags are four bits; a sample waiting to be submitted is not suspected
    any more, and if it is the end of a press the pen is up. *)
Definition variance_ok (v : variance_vars) : Prop :=
  0 <= flags v < 16 ∧
  (flag v VAR_SUBMITNOISE = true → flag v VAR_NOISEVALID = false ∧
     (pressure (noise v) = 0 → flag v VAR_PENDOWN = false)).

(** Replaces the four bits of the flags by each of their values. *)
Ltac flag_cases f :=
  let H := fresh in
  assert (f = 0 ∨ f = 1 ∨ f = 2 ∨ f = 3 ∨ f = 4 ∨ f = 5 ∨ f = 6 ∨ f = 7 ∨ f = 8 ∨ f = 9 ∨ f = 10 ∨
          f = 11 ∨ f = 12 ∨ f = 13 ∨ f = 14 ∨ f = 15) as H by lia;
  repeat (destruct H as [-> |H]); [..|subst f].

(** Closes a goal about flags with a known value. *)
Ltac flag_done :=
  try match goal with
  | H : flag _ _ = _ |- _ => exfalso; vm_compute in H; discriminate H
  | H : negb (flag _ _) = _ |- _ => exfalso; vm_compute in H; discriminate H
  end;
  lazymatch goal with
  | |- _ ∧ _ => split; flag_done
  | |- _ <= _ => vm_compute; discriminate
  | |- _ < _ => vm_compute; reflexivity
  | |- _ → _ => let E := fresh in intros E; first [vm_compute in E; discriminate E | flag_done]
  | _ => first [vm_compute; reflexivity | contradiction]
  end.

Lemma body_read_ok v cur : 0 <= flags v < 16 → flag v VAR_SUBMITNOISE = false →
  variance_ok (variance_body v cur).1.
Proof.
  destruct v as [d l n f]. cbn [flags]. intros Hf Hs. unfold variance_body, variance_ok.
  destruct (Z.eqb_spec (pressure cur) 0) as [Hp|Hp]; flag_cases f; try discriminate Hs;
    repeat case_match; cbn [fst noise set_last set_noise raise_ clear set_flags]; flag_done.
Qed.

Lemma body_submit_ok v : variance_ok v → flag v VAR_SUBMITNOISE = true →
  let v' := (variance_body (clear v VAR_SUBMITNOISE) (noise v)).1 in
  variance_ok v' ∧ flag v' VAR_SUBMITNOISE = false.
Proof.
  destruct v as [d l n f]. intros [Hf Hs] Ht. specialize (Hs Ht). cbn [flags noise] in *.
  unfold variance_body, variance_ok.
  destruct (Z.eqb_spec (pressure n) 0) as [Hp|Hp]; flag_cases f; try discriminate Ht; destruct Hs as [Hs Hs'];
    try discriminate Hs; try discriminate (Hs' Hp);
    repeat case_match; cbn [fst noise set_last set_noise raise_ clear set_flags]; flag_done.
Qed.

(** What the flags say is valid satisfies [P]. *)
Definition sound (P : ts_sample → Prop) (v : variance_vars) : Prop :=
  (flag v VAR_LASTVALID = true → P (last v)) ∧
  (flag v VAR_NOISEVALID = true ∨ flag v VAR_SUBMITNOISE = true → P (noise v)).

(** The flags of a state, as the tests of the code see them. *)
Lemma sound_known P v : sound P v →
  (flag v VAR_LASTVALID = true ∧ P (last v) ∨ flag v VAR_LASTVALID = false) ∧
  (P (noise v) ∨ flag v VAR_NOISEVALID = false ∧ flag v VAR_SUBMITNOISE = false).
Proof. intros [Hl Hn]. destruct (flag v VAR_LASTVALID), (flag v VAR_NOISEVALID), (flag v VAR_SUBMITNOISE); naive_solver. Qed.

Lemma sound_clear_submit P v : sound P v → 0 <= flags v < 16 → sound P (clear v VAR_SUBMITNOISE).
Proof.
  intros [Hl Hn] Hf. destruct v as [d l n f]. unfold sound. cbn [flags last noise clear set_flags] in *.
  flag_cases f; (split; intros Hx; [apply Hl|apply Hn]);
    first [by vm_compute | exfalso; vm_compute in Hx; discriminate Hx
          | destruct Hx as [Hx|Hx]; vm_compute in Hx; first [discriminate Hx | by left]].
Qed.

(** After a turn the last sample satisfies [P] and the state is sound; what is
    passed on satisfies [P], unless it is the content of [last] that the flags
    do not call valid. *)
Lemma body_from (P : ts_sample → Prop) v cur :
  sound P v → 0 <= flags v < 16 → flag v VAR_SUBMITNOISE = false → P cur →
  let r := variance_body v cur in
  P (last r.1) ∧ sound P r.1 ∧ ∀ s, r.2 = Some s → P s ∨ s = last v ∧ flag v VAR_LASTVALID = false.
Proof.
  intros Hv Hf Hsub Hc. destruct (sound_known P v Hv) as [Hl Hn]. destruct v as [d l n f]. cbn [flags last noise] in *.
  unfold variance_body, sound. flag_cases f; try discriminate Hsub;
    (destruct Hl as [[Hl Hl']|Hl]; try discriminate Hl); (destruct Hn as [Hn|[Hn Hn']]; try discriminate Hn);
    repeat (case_match; cbn -[flag]); split_and!; try done; try (intros ? [= <-]; by auto);
    first [ by intros Hx; destruct Hx as [Hx|Hx]; vm_compute in Hx
          | match goal with H : _ = true |- _ => by vm_compute in H end
          | match goal with H : _ = false |- _ => by vm_compute in H end ].
Qed.

(** ** Reading terminates *)

Section read.
Context {M} `{TsReadOk M} (I : M → Prop) (left : M → nat) (P : ts_sample → Prop).

(** In a state of [I] the module below does not fault, delivers a sample of [P],
    which uses up some of what is left, and stays in [I]. *)
Definition finite_source : Prop := ∀ m : M, I m → ∃ m' buf ret,
  ts_module_read m [Sample 0 0 0 0] 1 = Ok (m', buf, ret) ∧ I m' ∧
  (1 <= ret → (left m' < left m)%nat ∧ ∀ s, buf !! 0%nat = Some s → P s).

Context (Hsrc : finite_source).

Lemma read_one_ok m : I m → ∃ m' o, read_one m = Ok (m', o) ∧ I m' ∧
  ∀ s, o = Some s → (left m' < left m)%nat ∧ P s.
Proof.
  intros Hm. destruct (Hsrc m Hm) as (m' & buf & ret & Hrun & Hm' & Hok). unfold read_one. rewrite Hrun. cbn [mbind result_bind].
  destruct (Z.ltb_spec ret 1) as [Hlt|Hge]; [by exists m', None|].
  pose proof (ts_read_ok m [Sample 0 0 0 0] 1 m' buf ret ltac:(cbn; lia) Hrun) as (Hl & _).
  destruct buf as [|s buf]; [done|]. exists m', (Some s). split; [done|]. split; [done|].
  intros s' [= <-]. destruct (Hok Hge) as [Hlt Hp]. split; [done|]. by apply Hp.
Qed.

(** Turns still possible: two per sample left, one for a sample to submit. *)
Definition turns_left (v : variance_vars) (next : M) : nat :=
  2 * left next + (if flag v VAR_SUBMITNOISE then 1 else 0).

Lemma turns_left_le v next : (turns_left v next <= 2 * left next + 1)%nat.
Proof. unfold turns_left. destruct (flag _ _); lia. Qed.

Definition state_ok (v : variance_vars) : Prop := variance_ok v ∧ sound P v.

(** What a run from [count] on in the state [v] leaves: a valid state and between
    [count] and [nr] samples in the array, which is otherwise unchanged.  They
    are samples of [P], but for the first, which may be what [last] holds in [v]
    although the flags do not call it valid. *)
Definition loop_post (v : variance_vars) (samp : list ts_sample) (count nr : Z)
    (r : variance M * list ts_sample * Z) : Prop :=
  let '(m', samp', count') := r in
  state_ok (vr_vars m') ∧ I (vr_next m') ∧ (P (last (vr_vars m')) ∨ last (vr_vars m') = last v ∧ count' = count) ∧
  count <= count' <= nr ∧ length samp' = length samp ∧
  (∀ k, ¬ (count <= Z.of_nat k < count') → samp' !! k = samp !! k) ∧
  (∀ k s, count <= Z.of_nat k < count' → samp' !! k = Some s →
     P s ∨ Z.of_nat k = count ∧ s = last v ∧ flag v VAR_LASTVALID = false).

Lemma loop_post_stop v next samp count nr : state_ok v → I next →
  count <= nr → loop_post v samp count nr (Variance v next, samp, count).
Proof. intros. unfold loop_post. split_and!; try done; try lia. by right. Qed.

(** A turn that stores nothing, and one that stores [s]; after it the last
    sample satisfies [P]. *)
Lemma loop_post_skip v v' samp count nr r : P (last v') → loop_post v' samp count nr r → loop_post v samp count nr r.
Proof.
  destruct r as [[m' samp'] count']. intros Hl (Hv & Hm & Hl' & Hc' & Hlen & Hout & Hin). unfold loop_post.
  split_and!; try done; try lia.
  - left. by destruct Hl' as [?|[-> _]].
  - intros k s Hk Hs. left. destruct (Hin k s Hk Hs) as [?|(_ & -> & _)]; done.
Qed.

Lemma loop_post_store v v' samp count nr s r : 0 <= count < nr → P s ∨ s = last v ∧ flag v VAR_LASTVALID = false → P (last v') →
  nr <= Z.of_nat (length samp) →
  loop_post v' (<[Z.to_nat count := s]> samp) (count + 1) nr r → loop_post v samp count nr r.
Proof.
  destruct r as [[m' samp'] count']. intros Hc Hs Hl Hnr (Hv & Hm & Hl' & Hc' & Hlen & Hout & Hin).
  rewrite length_insert in Hlen. unfold loop_post. split_and!; try done; try lia.
  - left. by destruct Hl' as [?|[-> _]].
  - intros k Hk. rewrite Hout by lia. apply list_lookup_insert_ne. lia.
  - intros k s' Hk Hs'. destruct (decide (k = Z.to_nat count)) as [-> |Hne].
    + rewrite Hout, list_lookup_insert_eq in Hs' by lia. injection Hs' as <-. destruct Hs; [by left|right]. split; [lia|done].
    + left. destruct (Hin k s' ltac:(lia) Hs') as [?|(_ & -> & _)]; done.
Qed.

(** One turn with the sample [cur], before a loop that is as expected. *)
Lemma turn_ok v0 next cur samp count nr (k : variance_vars → list ts_sample → Z → result (variance M * list ts_sample * Z)) :
  sound P v0 → 0 <= flags v0 < 16 → flag v0 VAR_SUBMITNOISE = false → P cur → I next →
  variance_ok (variance_body v0 cur).1 → 0 <= count < nr → nr <= Z.of_nat (length samp) →
  (∀ samp count, let v := (variance_body v0 cur).1 in state_ok v → 0 <= count <= nr → nr <= Z.of_nat (length samp) →
     ∃ r, k v samp count = Ok r ∧ loop_post v samp count nr r) →
  ∃ r, (let '(v, out) := variance_body v0 cur in
        match out with None => k v samp count | Some s => samp ← wr samp count s; k v samp (count + 1) end) = Ok r ∧
    loop_post v0 samp count nr r.
Proof.
  intros Hs Hf Hsub Hcur Hm Hok Hc Hnr Hk. destruct (body_from P v0 cur Hs Hf Hsub Hcur) as (Hl1 & Hs1 & Ho).
  destruct (variance_body v0 cur) as [v1 [s|]]; cbn [fst snd] in *.
  - rewrite wr_Ok by lia. cbn [mbind result_bind].
    destruct (Hk (<[Z.to_nat count:=s]> samp) (count + 1)) as (r & Hrun & Hpost); [done|lia|rewrite length_insert; lia|].
    exists r. split; [done|]. by apply (loop_post_store v0 v1 _ _ _ s); [lia|apply Ho| |lia|].
  - destruct (Hk samp count) as (r & Hrun & Hpost); [done|lia|done|]. exists r. split; [done|]. by eapply loop_post_skip.
Qed.

Lemma variance_loop_ok fuel v next samp count nr :
  state_ok v → I next → (turns_left v next < fuel)%nat →
  0 <= count <= nr → nr <= Z.of_nat (length samp) →
  ∃ r, variance_loop fuel v next samp count nr = Ok r ∧ loop_post v samp count nr r.
Proof.
  revert v next samp count. induction fuel as [|fuel IH]; intros v next samp count [Hv Hsd] Hm Hf Hc Hnr; [lia|].
  cbn [variance_loop]. destruct (Z.ltb_spec count nr) as [Hlt|Hge].
  2: { eexists. split; [done|]. apply loop_post_stop; done || lia. }
  destruct (flag v VAR_SUBMITNOISE) eqn:Hs.
  - destruct (body_submit_ok v Hv Hs) as [Hok Hclr].
    assert (flag (clear v VAR_SUBMITNOISE) VAR_SUBMITNOISE = false ∧ 0 <= flags (clear v VAR_SUBMITNOISE) < 16 ∧
      flag (clear v VAR_SUBMITNOISE) VAR_LASTVALID = flag v VAR_LASTVALID) as (C1 & C2 & C3).
    { clear -Hv. destruct v as [d l n f], Hv as [Hf _]. cbn [flags] in Hf. flag_cases f; vm_compute; intuition discriminate. }
    destruct (turn_ok (clear v VAR_SUBMITNOISE) next (noise v) samp count nr
      (λ v samp count, variance_loop fuel v next samp count nr)) as (r & Hr & Hpost); try done; try lia.
    { by apply sound_clear_submit; [|apply Hv]. }
    { apply Hsd. by right. }
    { intros samp0 count0 v1 Hv1 Hc0 Hnr0. apply IH; try done. unfold turns_left in *. rewrite Hs in Hf. fold v1 in Hclr. rewrite Hclr. lia. }
    exists r. split; [exact Hr|]. unfold loop_post in *. by rewrite C3 in Hpost.
  - destruct (read_one_ok next Hm) as (next' & [cur|] & -> & Hm' & Hr); cbn [mbind result_bind].
    + destruct (Hr cur eq_refl) as [Hleft Hp].
      apply (turn_ok v next' cur samp count nr (λ v samp count, variance_loop fuel v next' samp count nr)); try done; try lia.
      { apply Hv. }
      { apply body_read_ok; [apply Hv|done]. }
      intros samp0 count0 v1 Hv1 Hc0 Hnr0. apply IH; try done.
      pose proof (turns_left_le v1 next'). unfold turns_left in Hf at 1. lia.
    + eexists. split; [done|]. apply loop_post_stop; done || lia.
Qed.
End read.

(** ** Claims *)

(** C19: The variance filter above a module that keeps the promise of the interface
    and delivers finitely many samples of [P]: a read ends within two turns per
    sample left and two more, returns at most the number of samples asked for
    and writes no others.  Of the state only what its flags call valid is known
    to satisfy [P], nothing of a new module.  Then every sample that is passed on
    satisfies [P], with one exception: the first may be what [last] holds although
    it is not valid; after that, and after every read that passed on a sample,
    [last] satisfies [P], too. *)
Theorem variance_read_total {M} `{TsReadOk M} (I : M → Prop) (left : M → nat) (P : ts_sample → Prop)
    (m : variance M) samp nr fuel :
  finite_source I left P → I (vr_next m) → variance_ok (vr_vars m) → sound P (vr_vars m) →
  0 <= nr <= Z.of_nat (length samp) → (2 * left (vr_next m) + 2 <= fuel)%nat →
  ∃ m' samp' ret, variance_read fuel m samp nr = Ok (m', samp', ret) ∧ 0 <= ret <= nr ∧
    I (vr_next m') ∧ variance_ok (vr_vars m') ∧ sound P (vr_vars m') ∧
    (P (last (vr_vars m')) ∨ last (vr_vars m') = last (vr_vars m) ∧ ret = 0) ∧
    length samp' = length samp ∧ drop (Z.to_nat ret) samp' = drop (Z.to_nat ret) samp ∧
    Forall P (drop 1 (take (Z.to_nat ret) samp')) ∧
    ∀ s, 0 < ret → samp' !! 0%nat = Some s → P s ∨ s = last (vr_vars m) ∧ flag (vr_vars m) VAR_LASTVALID = false.
Proof.
  intros Hsrc Hm Hv Hsd Hnr Hf. unfold variance_read.
  destruct (variance_loop_ok I left P Hsrc fuel (vr_vars m) (vr_next m) samp 0 nr)
    as ([[m' samp'] ret] & Hrun & [Hok Hsd'] & Hm' & Hl & Hret & Hlen & Hout & Hin); [done..| |lia|lia|].
  { pose proof (turns_left_le left (vr_vars m) (vr_next m)). lia. }
  exists m', samp', ret. split; [done|]. split_and!; try done; try lia.
  - apply list_eq. intros k. rewrite !lookup_drop. apply Hout. lia.
  - apply Forall_lookup. intros k s Hk. rewrite lookup_drop in Hk. apply lookup_take_Some in Hk as [Hk Hlt].
    destruct (Hin (1 + k)%nat s ltac:(lia) Hk) as [?|[? _]]; [done|lia].
  - intros s Hr Hs. destruct (Hin 0%nat s ltac:(lia) Hs) as [?|(_ & ? & ?)]; auto.
Qed.

(** The protocol on noise, for a state with a valid last sample and nothing
    pending.  A sample near the last one passes the last one on.  A far sample
    is held back; if the next one is near the last one again the far one is
    dropped, and if it is far too the held sample is passed on and the new one
    submitted.  When the pen goes up after a press both the last sample and the
    pen-up are passed on without another read.  On a state that has no valid
    last sample, as a new module, a pen-up passes on whatever the
    uninitialised [last] holds. *)
Theorem variance_noise_protocol v c c' :
  flags v = Z.lor VAR_PENDOWN VAR_LASTVALID → pressure c ≠ 0 → pressure c' ≠ 0 →
  (distance c (last v) <= vdelta v → variance_body v c = (set_last v c, Some (last v))) ∧
  (vdelta v < distance c (last v) → ∃ v1, variance_body v c = (v1, None) ∧ last v1 = last v ∧
     (distance c' (last v) <= vdelta v →
        ∃ v2, variance_body v1 c' = (v2, Some (last v)) ∧ last v2 = c' ∧ flags v2 = flags v) ∧
     (vdelta v < distance c' (last v) →
        ∃ v2, variance_body v1 c' = (v2, Some c) ∧ last v2 = c ∧ noise v2 = c' ∧
          flag v2 VAR_SUBMITNOISE = true)) ∧
  (∀ up, pressure up = 0 → ∃ v1 v2, variance_body v up = (v1, Some (last v)) ∧
     flag v1 VAR_SUBMITNOISE = true ∧ noise v1 = up ∧
     variance_body (clear v1 VAR_SUBMITNOISE) (noise v1) = (v2, Some up) ∧ flags v2 = 0) ∧
  (∀ up garbage, pressure up = 0 →
     (variance_body (VarianceVars (vdelta v) garbage garbage 0) up).2 = Some garbage).
Proof.
  destruct v as [d l n f]. cbn [flags last vdelta]. intros -> Hc Hc'. apply Z.eqb_neq in Hc, Hc'.
  split_and!.
  - intros Hd. unfold variance_body. rewrite Hc. apply Z.ltb_ge in Hd. cbn -[distance]. by rewrite Hd.
  - intros Hd. unfold variance_body at 1. rewrite Hc. apply Z.ltb_lt in Hd. cbn -[distance variance_body].
    rewrite Hd. eexists. split; [done|]. split; [done|]. unfold variance_body. rewrite Hc'.
    split; intros Hd'; [apply Z.ltb_ge in Hd'|apply Z.ltb_lt in Hd']; cbn -[distance]; rewrite Hd';
      eexists; split; done.
  - intros up Hup. apply Z.eqb_eq in Hup. unfold variance_body. rewrite Hup.
    eexists _, _. split; [reflexivity|]. split; [done|]. split; [done|].
    match goal with |- context [pressure (noise ?w)] => change (noise w) with up end. rewrite Hup. done.
  - intros up garbage Hup. apply Z.eqb_eq in Hup. unfold variance_body. by rewrite Hup.
Qed.

(** ** Witnesses *)

(** A press with one outlier, then pen up. *)
Definition jumpy : list ts_sample :=
  [Sample 10 10 50 1; Sample 11 10 50 2; Sample 900 900 50 3; Sample 12 11 50 4; Sample 12 11 0 5].

Lemma replay_finite (P : ts_sample → Prop) :
  finite_source (λ m : replay, Forall P (pending m)) (λ m : replay, length (pending m)) P.
Proof.
  intros [l] Hl. cbn [pending] in Hl. eexists _, _, _. split; [reflexivity|]. cbn [pending]. split; [by apply Forall_drop|].
  intros Hr. destruct Hl as [|s l Hs Hl]; [cbn in Hr; lia|].
  change (Z.to_nat 1 `min` length (s :: l))%nat with 1%nat. split; [change (length l < S (length l))%nat; lia|]. by intros ? [= <-].
Qed.

(** Samples on the screen; what a new module holds is not one. *)
Definition on_screen (s : ts_sample) : Prop := 10 <= x s <= 900 ∧ 10 <= y s <= 900.

Definition new_variance : variance replay :=
  Variance (VarianceVars 900 (Sample (-1) 4711 0 0) (Sample (-1) 4711 0 0) 0) (Replay jumpy).

Lemma variance_read_total_witness :
  ¬ on_screen (last (vr_vars new_variance)) ∧
  ∃ m' samp' ret, variance_read 12 new_variance (blank 8) 8 = Ok (m', samp', ret) ∧ ret = 4 ∧
    take 4 samp' = [Sample 10 10 50 1; Sample 11 10 50 2; Sample 12 11 50 4; Sample 12 11 0 5] ∧
    on_screen (last (vr_vars m')).
Proof.
  split; [unfold on_screen; cbn; lia|].
  destruct (variance_read_total (λ m : replay, Forall on_screen (pending m)) (λ m : replay, length (pending m)) on_screen
    new_variance (blank 8) 8 12) as (m' & samp' & ret & Hrun & _ & _ & _ & _ & Hl & _).
  - apply replay_finite.
  - repeat constructor; vm_compute; discriminate.
  - unfold variance_ok. cbn. split; [lia|discriminate].
  - split; [discriminate|intros [Hx|Hx]; discriminate Hx].
  - cbn. lia.
  - cbn. lia.
  - exists m', samp', ret. split; [exact Hrun|].
    assert (match variance_read 12 new_variance (blank 8) 8 with
            | Ok (_, s, r) => r = 4 ∧ take 4 s =
                [Sample 10 10 50 1; Sample 11 10 50 2; Sample 12 11 50 4; Sample 12 11 0 5]
            | _ => False end) as Hv by (vm_compute; split; reflexivity).
    rewrite Hrun in Hv. destruct Hv as [-> Hs]. split; [reflexivity|]. split; [exact Hs|].
    destruct Hl as [Hl|[_ Hl]]; [exact Hl|discriminate Hl].
Defined.

Lemma variance_noise_protocol_witness :
  variance_body (VarianceVars 900 (Sample 10 10 50 1) (Sample 0 0 0 0) 3) (Sample 11 10 50 2) =
    (VarianceVars 900 (Sample 11 10 50 2) (Sample 0 0 0 0) 3, Some (Sample 10 10 50 1)).
Proof.
  destruct (variance_noise_protocol (VarianceVars 900 (Sample 10 10 50 1) (Sample 0 0 0 0) 3)
    (Sample 11 10 50 2) (Sample 12 11 50 4)) as [H _].
  - reflexivity.
  - cbn. lia.
  - cbn. lia.
  - apply H. vm_compute. discriminate.
Defined.
