(* ===== verification/Spi.v ===== *)
(** * Spi: the serial flash routines of the SPI demo

    Models src/spi/spi.c: the routines that talk to a serial flash through the
    SPI driver (status poll, read, page program, erase, identification) and the
    test that uses them.  The driver with the flash behind it is a [Driver]
    whose requests are the two ioctls; the buffers are lists of bytes, and a
    16-bit access to one is little-endian.  The poll of the busy bit, an
    unbounded loop, carries fuel. *)
From S2P Require Import Prelude Bytes Device.
Local Open Scope cmodel_scope.
Local Open Scope Z_scope.

(** struct spi_parameter *)
Record spi_parameter := SpiParameter {
  active_level : Z; lsb : Z; tx_neg : Z; rx_neg : Z; divider : Z; sleep : Z
}.

Inductive spireq :=
| SPI_IOC_SELECTSLAVE (arg : Z)
| SPI_IOC_TRANSIT (write_data bit_len : Z)
| SpiOpen
| SPI_IOC_SETPARAMETER (para : spi_parameter)
| SPI_IOC_GETPARAMETER
| SpiClose.

(** A transit returns the new value of [read_data]. *)
Definition spireply (r : spireq) : Type :=
  match r with
  | SPI_IOC_TRANSIT _ _ | SpiOpen => Z
  | SPI_IOC_GETPARAMETER => spi_parameter
  | _ => unit
  end.

(** struct spi_data, the type of [gdata] *)
Record spi_data := SpiData { write_data : Z; read_data : Z; bit_len : Z }.

Definition Successful : Z := 0.
Definition FLASH_BUFFER_SIZE : Z := 2048.

Definition Swap16 (val : Z) : Z := u16 (Z.lor (Z.shiftl val 8) (Z.shiftr val 8)).

Section operations.
Context {D : Type} `{Driver spireq spireply D}.
Notation P := (prog spi_data spireq D).

Definition SpiSelectCS0 : P unit := _ ⇐ SPI_IOC_SELECTSLAVE 0; mret tt.
Definition SpiDeselectCS0 : P unit := _ ⇐ SPI_IOC_SELECTSLAVE 1; mret tt.
Definition SpiSetData (x : Z) : P unit := modify (λ g, SpiData (u32 x) (read_data g) (bit_len g)).
Definition SpiSetBitLen (x : Z) : P unit := modify (λ g, SpiData (write_data g) (read_data g) x).
Definition SpiDoTransit : P unit :=
  g ← get;
  r ⇐ SPI_IOC_TRANSIT (write_data g) (bit_len g);
  modify (λ g, SpiData (write_data g) r (bit_len g)).
Definition SpiGetData : P Z := g ← get; mret (read_data g).

(** The three steps the code repeats for every word. *)
Definition send (data bits : Z) : P unit :=
  _ ← SpiSetData data; _ ← SpiSetBitLen bits; SpiDoTransit.

Fixpoint busy_loop (fuel : nat) : P unit :=
  match fuel with
  | O => fault OutOfFuel
  | S fuel =>
      _ ← send 255 8;
      d ← SpiGetData;
      if negb (Z.land (Z.land d 255) 1 =? 1) then mret tt else busy_loop fuel
  end.

(** [polls] bounds the polls of the busy bit. *)
Context (polls : nat).

Definition spiCheckBusy : P Z :=
  _ ← SpiSelectCS0; _ ← send 5 8; _ ← busy_loop polls; _ ← SpiDeselectCS0; mret Successful.

(** The loop over the data: [n] bytes are left and [i] is the next index. *)
Fixpoint read_loop (n : nat) (i : Z) (buf : list Z) : P (list Z) :=
  match n with
  | O => mret buf
  | S n =>
      _ ← send 255 8;
      d ← SpiGetData;
      buf ← lift (wr buf i (Z.land d 255));
      read_loop n (i + 1) buf
  end.

Definition spiRead (addr len : Z) (buf : list Z) : P (Z * list Z) :=
  _ ← spiCheckBusy; _ ← SpiSelectCS0;
  _ ← send 3 8; _ ← send addr 24;
  buf ← read_loop (Z.to_nat len) 0 buf;
  _ ← SpiDeselectCS0; mret (Successful, buf).

Definition spiReadFast (addr len : Z) (buf : list Z) : P (Z * list Z) :=
  _ ← spiCheckBusy; _ ← SpiSelectCS0;
  _ ← send 11 8; _ ← send addr 24; _ ← send 255 8;
  buf ← read_loop (Z.to_nat len) 0 buf;
  _ ← SpiDeselectCS0; mret (Successful, buf).

Definition spiWriteEnable : P Z := _ ← SpiSelectCS0; _ ← send 6 8; _ ← SpiDeselectCS0; mret Successful.
Definition spiWriteDisable : P Z := _ ← SpiSelectCS0; _ ← send 4 8; _ ← SpiDeselectCS0; mret Successful.

(** A 16-bit load: [j] counts shorts. *)
Definition load16 (buf : list Z) (j : Z) : result Z :=
  lo ← rd buf (2 * j); hi ← rd buf (2 * j + 1); Ok (Z.lor lo (Z.shiftl hi 8)).

(** [while (page-- > 0)]; [buf] has advanced to short [j]. *)
Fixpoint page_loop (page : nat) (buf : list Z) (j : Z) : P Z :=
  match page with
  | O => mret j
  | S page => v ← lift (load16 buf j); _ ← send (Swap16 v) 16; page_loop page buf (j + 1)
  end.

(** The loop over the pages: [n] are left, [i] is the number of the next one. *)
Fixpoint write_loop (n : nat) (i addr len : Z) (buf : list Z) (j : Z) : P unit :=
  match n with
  | O => mret tt
  | S n =>
      let '(page, len) := if 256 <=? len then (128, len - 256) else (len / 2, len) in
      _ ← spiWriteEnable; _ ← SpiSelectCS0;
      _ ← send 2 8; _ ← send (addr + i * 256) 24;
      j ← page_loop (Z.to_nat page) buf j;
      _ ← SpiDeselectCS0; _ ← spiCheckBusy;
      write_loop n (i + 1) addr len buf j
  end.

Definition spiWrite (addr len : Z) (buf : list Z) : P Z :=
  _ ← spiCheckBusy;
  let count := len / 256 + (if negb (len mod 256 =? 0) then 1 else 0) in
  _ ← write_loop (Z.to_nat count) 0 addr len buf 0;
  mret Successful.

Fixpoint erase_loop (n : nat) (i addr : Z) : P unit :=
  match n with
  | O => mret tt
  | S n =>
      _ ← spiWriteEnable; _ ← SpiSelectCS0;
      _ ← send 216 8; _ ← send (addr + i * 256) 24;
      _ ← SpiDeselectCS0; _ ← spiCheckBusy;
      erase_loop n (i + 1) addr
  end.

Definition spiEraseSector (addr secCount : Z) : P Z :=
  _ ← spiCheckBusy; _ ← erase_loop (Z.to_nat secCount) 0 addr; mret Successful.

Definition spiEraseAll : P Z :=
  _ ← spiWriteEnable; _ ← SpiSelectCS0; _ ← send 199 8; _ ← SpiDeselectCS0;
  _ ← spiCheckBusy; mret Successful.

Definition spiReadID : P Z :=
  _ ← SpiSelectCS0; _ ← send 144 8; _ ← send 0 24; _ ← send 65535 16;
  d ← SpiGetData;
  _ ← SpiDeselectCS0; mret (u16 (Z.land d 65535)).

Definition spiStatusRead : P Z :=
  _ ← SpiSelectCS0; _ ← send 5 8; _ ← send 255 8;
  d ← SpiGetData;
  _ ← SpiDeselectCS0; mret (u8 (Z.land d 255)).

Definition spiStatusWrite (data : Z) : P Z :=
  _ ← spiWriteEnable; _ ← SpiSelectCS0; _ ← send 1 8; _ ← send data 8;
  _ ← SpiDeselectCS0; _ ← spiCheckBusy; mret Successful.

(** The bytes 0, 1, 2, ... of the test. *)
Definition test_pattern : list Z := map (λ i, u8 (Z.of_nat i)) (seq 0 (Z.to_nat FLASH_BUFFER_SIZE)).

(** The index of the first difference, if there is one. *)
Fixpoint compare_loop (i : Z) (a b : list Z) : option Z :=
  match a, b with
  | x :: a, y :: b => if negb (x =? y) then Some i else compare_loop (i + 1) a b
  | _, _ => None
  end.

(** The result is what the test prints: the identification, the status and the
    first wrong index. *)
Definition spiFlashTest : P (Z * Z * option Z) :=
  id ← spiReadID;
  status ← spiStatusRead;
  let i := FLASH_BUFFER_SIZE / 256 + (if negb (FLASH_BUFFER_SIZE mod 256 =? 0) then 1 else 0) in
  _ ← spiEraseSector 0 i;
  _ ← spiWrite 0 FLASH_BUFFER_SIZE test_pattern;
  r ← spiRead 0 FLASH_BUFFER_SIZE (replicate (Z.to_nat FLASH_BUFFER_SIZE) 0);
  mret (id, status, compare_loop 0 r.2 test_pattern).

(** The settings of the line: the clock divided by 30, chip select active low,
    data driven at the falling edge, the most significant bit first. *)
Definition demo_parameter : spi_parameter := SpiParameter 0 0 1 0 30 0.

(** The result of the program and, when it gets that far, of the test. *)
Definition main : P (Z * option (Z * Z * option Z)) :=
  spi_fd ⇐ SpiOpen;
  if (spi_fd : Z) <? 0 then mret (-1, None) else
  _ ⇐ SPI_IOC_SETPARAMETER demo_parameter;
  _ ⇐ SPI_IOC_GETPARAMETER;
  r ← spiFlashTest;
  _ ⇐ SpiClose;
  mret (0, Some r).
End operations.

(** ** What a routine sends

    A pattern describes the requests of a run: single requests, and a number of
    polls of the busy bit that depends on the flash. *)
Inductive item := Req (r : spireq) | Polls.

Fixpoint matches (polls : nat) (p : list item) (t : list spireq) : Prop :=
  match p with
  | [] => t = []
  | Req r :: p => ∃ t', t = r :: t' ∧ matches polls p t'
  | Polls :: p => ∃ k t', (1 <= k <= polls)%nat ∧
      t = replicate k (SPI_IOC_TRANSIT 255 8) ++ t' ∧ matches polls p t'
  end.

Lemma matches_app polls p q t u : matches polls p t → matches polls q u → matches polls (p ++ q) (t ++ u).
Proof.
  revert t. induction p as [|[r|] p IH]; intros t; cbn [matches app].
  - by intros ->.
  - intros (t' & -> & Hp) Hq. exists (t' ++ u). split; [done|]. by apply IH.
  - intros (k & t' & Hk & -> & Hp) Hq. exists k, (t' ++ u). rewrite <- app_assoc. auto.
Qed.

(** A chip-select frame with the given words, each with its width, and the
    poll of the status register. *)
Definition word (w : Z * Z) : item := Req (SPI_IOC_TRANSIT w.1 w.2).
Definition command (ws : list (Z * Z)) : list item :=
  Req (SPI_IOC_SELECTSLAVE 0) :: map word ws ++ [Req (SPI_IOC_SELECTSLAVE 1)].
Definition status_poll : list item :=
  [Req (SPI_IOC_SELECTSLAVE 0); Req (SPI_IOC_TRANSIT 5 8); Polls; Req (SPI_IOC_SELECTSLAVE 1)].

Section traces.
Context {D : Type} `{Driver spireq spireply D} (polls : nat).
Notation P := (prog spi_data spireq D).

(** Among any [n] polls in a row the flash is once not busy. *)
Fixpoint ready_in (n : nat) (d : D) : Prop :=
  match n with
  | O => False
  | S n =>
      let '(d', v) := respond d (SPI_IOC_TRANSIT 255 8) in
      Z.land (Z.land v 255) 1 ≠ 1 ∨ ready_in n d'
  end.

(** The program returns [a] and its requests match the pattern. *)
Definition shows {A} (m : P A) (a : A) (p : list item) : Prop := ∀ w,
  ∃ w' t, m w = Ok (a, w') ∧ trace w' = trace w ++ t ∧ matches polls p t.

Lemma shows_bind {A B} (m : P A) (k : A → P B) a b p q :
  shows m a p → shows (k a) b q → shows (m ≫= k) b (p ++ q).
Proof.
  intros Hm Hk w. destruct (Hm w) as (w1 & t1 & E1 & T1 & M1).
  destruct (Hk w1) as (w2 & t2 & E2 & T2 & M2). exists w2, (t1 ++ t2).
  rewrite bind_run, E1. split; [done|]. rewrite T2, T1, app_assoc. split; [done|]. by apply matches_app.
Qed.

Lemma shows_mret {A} (a : A) : shows (mret a) a [].
Proof. intros w. exists w, []. rewrite app_nil_r. done. Qed.

Lemma shows_lift {A} (r : result A) a : r = Ok a → shows (lift r) a [].
Proof. intros -> w. exists w, []. rewrite app_nil_r. done. Qed.

Lemma send_run data bits w : ∃ w', send data bits w = Ok (tt, w') ∧
  trace w' = trace w ++ [SPI_IOC_TRANSIT (u32 data) bits] ∧
  driver w' = (respond (driver w) (SPI_IOC_TRANSIT (u32 data) bits)).1 ∧
  read_data (vars w') = (respond (driver w) (SPI_IOC_TRANSIT (u32 data) bits)).2.
Proof. eexists. split; [reflexivity|]. done. Qed.

Lemma shows_send data bits : shows (send data bits) tt [word (u32 data, bits)].
Proof.
  intros w. destruct (send_run data bits w) as (w' & E & T & _). eexists w', [_]. split; [done|].
  split; [done|]. by eexists.
Qed.

Lemma shows_select : shows SpiSelectCS0 tt [Req (SPI_IOC_SELECTSLAVE 0)].
Proof. intros w. eexists _, [_]. split; [reflexivity|]. split; [done|]. by eexists. Qed.

Lemma shows_deselect : shows SpiDeselectCS0 tt [Req (SPI_IOC_SELECTSLAVE 1)].
Proof. intros w. eexists _, [_]. split; [reflexivity|]. split; [done|]. by eexists. Qed.

Lemma get_data_run {B} (k : Z → P B) w : (SpiGetData ≫= k) w = k (read_data (vars w)) w.
Proof. done. Qed.

Lemma busy_loop_ends n w : ready_in n (driver w) →
  ∃ w' k, busy_loop n w = Ok (tt, w') ∧ (1 <= k <= n)%nat ∧
    trace w' = trace w ++ replicate k (SPI_IOC_TRANSIT 255 8).
Proof.
  revert w. induction n as [|n IH]; intros w; [done|]. cbn [ready_in busy_loop].
  destruct (send_run 255 8 w) as (w1 & E & T & Hd & Hr). change (u32 255) with 255 in *.
  rewrite bind_run, E, get_data_run, Hr. destruct (respond _ _) as [d' v]. cbn [fst snd] in *.
  destruct (Z.eqb_spec (Z.land (Z.land v 255) 1) 1) as [Hb|Hb]; cbn [negb]; intros Hready.
  - destruct Hready as [Hready|Hready]; [done|]. subst d'.
    destruct (IH w1 Hready) as (w' & k & E' & Hk & T'). exists w', (S k).
    split; [done|]. split; [lia|]. rewrite T', T, <- app_assoc. done.
  - exists w1, 1%nat. split; [done|]. split; [lia|]. done.
Qed.

(** Whenever the chip was selected and given the status command, it is once not
    busy within [polls] polls. *)
Definition polled_ready : Prop :=
  ∀ d : D, ready_in polls (respond (respond d (SPI_IOC_SELECTSLAVE 0)).1 (SPI_IOC_TRANSIT 5 8)).1.

Lemma shows_check_busy : polled_ready → shows (spiCheckBusy polls) Successful status_poll.
Proof.
  intros Hready w. unfold spiCheckBusy. rewrite bind_run. unfold SpiSelectCS0. rewrite request_run, mret_run.
  set (w1 := after w _). destruct (send_run 5 8 w1) as (w2 & E2 & T2 & D2 & _). change (u32 5) with 5 in *. rewrite bind_run, E2.
  destruct (busy_loop_ends polls w2) as (w3 & k & E3 & Hk & T3); [rewrite D2; apply Hready|].
  rewrite bind_run, E3. eexists _, _. split; [reflexivity|]. cbn [after trace]. rewrite T3, T2. cbn [w1 after trace].
  rewrite <- !app_assoc. split; [done|]. cbn [app].
  eexists. split; [reflexivity|]. eexists. split; [reflexivity|]. exists k, [SPI_IOC_SELECTSLAVE 1]. split; [done|].
  split; [reflexivity|]. by eexists.
Qed.
End traces.

Create HintDb spi.
#[export] Hint Resolve shows_send shows_select shows_deselect shows_mret shows_lift : spi.

Lemma shows_eq {D} `{Driver spireq spireply D} polls {A} (m : prog spi_data spireq D A) a p q :
  shows polls m a p → p = q → shows polls m a q.
Proof. by intros ? <-. Qed.

(** Proves [shows] of a sequence of steps, up to the pattern. *)
Ltac show_steps :=
  repeat first [eapply shows_bind; [solve [eauto with spi]|] | solve [eauto with spi]].
Ltac shows_by := eapply shows_eq; [show_steps|].

(** ** Pages *)

(** Bytes as 16-bit words sent with the most significant byte first; an odd
    byte at the end is left out. *)
Fixpoint words (b : list Z) : list (Z * Z) :=
  match b with
  | h :: l :: b => (h * 256 + l, 16) :: words b
  | _ => []
  end.

(** The requests for [n] pages from page number [i] on. *)
Fixpoint pages (n : nat) (addr i : Z) (b : list Z) : list item :=
  match n with
  | O => []
  | S n =>
      command [(6, 8)] ++
      command ((2, 8) :: (u32 (addr + i * 256), 24) :: words (take 256 b)) ++
      status_poll ++ pages n addr (i + 1) (drop 256 b)
  end.

(** The data bytes on the bus: those of the 16-bit transfers. *)
Definition payload (p : list item) : list Z :=
  flat_map (λ it, match it with
    | Req (SPI_IOC_TRANSIT v 16) => [v / 256; v mod 256]
    | _ => []
    end) p.

Definition even (n : nat) : nat := 2 * (n / 2).

Lemma Swap16_load lo hi : is_u8 lo → is_u8 hi → u32 (Swap16 (Z.lor lo (Z.shiftl hi 8))) = lo * 256 + hi.
Proof.
  unfold is_u8. intros Hl Hh. unfold Swap16. rewrite (Z.lor_comm lo), (lor_shiftl hi lo) by (change (2 ^ 8) with 256; lia).
  change (2 ^ 8) with 256. rewrite Z.shiftr_div_pow2 by lia. change (2 ^ 8) with 256.
  assert ((hi * 256 + lo) / 256 = hi) as -> by (symmetry; apply Z.div_unique with lo; lia).
  rewrite lor_shiftl by (change (2 ^ 8) with 256; lia). change (2 ^ 8) with 256.
  assert (u16 ((hi * 256 + lo) * 256 + hi) = lo * 256 + hi) as ->.
  { unfold u16. symmetry. apply Z.mod_unique with hi; lia. }
  apply u32_id. unfold is_u32. lia.
Qed.

Lemma load16_at pre lo hi suf j : Z.of_nat (length pre) = 2 * j →
  load16 (pre ++ lo :: hi :: suf) j = Ok (Z.lor lo (Z.shiftl hi 8)).
Proof.
  intros Hj. unfold load16.
  assert (rd (pre ++ lo :: hi :: suf) (2 * j) = Ok lo) as ->.
  { apply rd_Ok. split; [lia|]. rewrite lookup_app_r by lia.
    replace (Z.to_nat (2 * j) - length pre)%nat with 0%nat by lia. done. }
  assert (rd (pre ++ lo :: hi :: suf) (2 * j + 1) = Ok hi) as ->; [|done].
  apply rd_Ok. split; [lia|]. rewrite lookup_app_r by lia.
  replace (Z.to_nat (2 * j + 1) - length pre)%nat with 1%nat by lia. done.
Qed.

Lemma payload_app p q : payload (p ++ q) = payload p ++ payload q.
Proof. apply flat_map_app. Qed.

Lemma even_SS n : even (S (S n)) = S (S (even n)).
Proof.
  unfold even. replace (S (S n) / 2)%nat with (S (n / 2)); [lia|].
  replace (S (S n)) with (n + 1 * 2)%nat by lia. rewrite Nat.div_add; lia.
Qed.

Lemma payload_words b : Forall is_u8 b → payload (map word (words b)) = take (even (length b)) b.
Proof.
  revert b. fix IH 1. intros [|h [|l b]] Hb; [done|done|].
  apply Forall_cons in Hb as [Hh Hb]. apply Forall_cons in Hb as [Hl Hb]. unfold is_u8 in Hh, Hl.
  cbn [words map]. change (payload (word (h * 256 + l, 16) :: map word (words b)))
    with ((h * 256 + l) / 256 :: (h * 256 + l) mod 256 :: payload (map word (words b))).
  rewrite (IH b Hb). cbn [length]. rewrite even_SS. cbn [take]. f_equal.
  - symmetry. apply Z.div_unique with l; lia.
  - f_equal. symmetry. apply Z.mod_unique with h; lia.
Qed.

Lemma words_even b : words (take (even (length b)) b) = words b.
Proof.
  revert b. fix IH 1. intros [|h [|l b]]; [done|done|].
  cbn [length]. rewrite even_SS. cbn [take words]. f_equal. apply IH.
Qed.

Section routines.
Context {D : Type} `{Driver spireq spireply D} (polls : nat) (Hready : polled_ready (D:=D) polls).
Notation shows := (shows (D:=D) polls).

Lemma shows_write_enable : shows spiWriteEnable Successful (command [(6, 8)]).
Proof. unfold spiWriteEnable. shows_by. done. Qed.

Lemma shows_page_loop n pre suf j :
  Z.of_nat (length pre) = 2 * j → (2 * n <= length suf)%nat → Forall is_u8 suf →
  shows (page_loop n (pre ++ suf) j) (j + Z.of_nat n) (map word (words (take (2 * n) suf))).
Proof.
  revert pre suf j. induction n as [|n IH]; intros pre suf j Hp Hl Hb; cbn [page_loop].
  { cbn. rewrite Z.add_0_r. apply shows_mret. }
  destruct suf as [|lo [|hi suf]]; cbn in Hl; try lia.
  apply Forall_cons in Hb as [Hlo Hb]. apply Forall_cons in Hb as [Hhi Hb].
  eapply shows_eq.
  { eapply shows_bind; [apply shows_lift, load16_at; done|].
    eapply shows_bind; [apply shows_send|].
    replace (j + Z.of_nat (S n)) with (j + 1 + Z.of_nat n) by lia.
    change (pre ++ lo :: hi :: suf) with (pre ++ [lo; hi] ++ suf). rewrite app_assoc.
    apply (IH (pre ++ [lo; hi])); [|cbn in *; lia|done]. rewrite length_app. cbn. lia. }
  rewrite Swap16_load by done. replace (2 * S n)%nat with (S (S (2 * n))) by lia. done.
Qed.

(** What is left of the buffer after [i] pages. *)
Lemma shows_write_loop n i addr len pre suf :
  0 <= len → Z.of_nat n = (len + 255) / 256 → Z.of_nat (length pre) = 256 * i → 0 <= i →
  len <= Z.of_nat (length suf) → Forall is_u8 suf →
  shows (write_loop polls n i addr len (pre ++ suf) (128 * i)) tt (pages n addr i (take (Z.to_nat len) suf)).
Proof.
  revert i len pre suf. induction n as [|n IH]; intros i len pre suf Hl Hn Hp Hi Hlen Hb; cbn [write_loop pages].
  { apply shows_mret. }
  set (pl := if 256 <=? len then _ else _).
  assert (∃ page len', pl = (page, len') ∧ (2 * Z.to_nat page <= length suf)%nat ∧
    words (take (2 * Z.to_nat page) suf) = words (take 256 (take (Z.to_nat len) suf)) ∧
    shows (write_loop polls n (i + 1) addr len' (pre ++ suf) (128 * i + Z.of_nat (Z.to_nat page))) tt
      (pages n addr (i + 1) (drop 256 (take (Z.to_nat len) suf)))) as (page & len' & -> & Hpg & Hw & Hrest).
  { unfold pl. destruct (Z.leb_spec 256 len) as [Hbig|Hsmall].
    - exists 128, (len - 256). split; [done|]. split; [lia|].
      change (2 * Z.to_nat 128)%nat with 256%nat. rewrite take_take, Nat.min_l by lia. split; [done|].
      rewrite <- (take_drop 256 suf) at 1. rewrite app_assoc.
      replace (128 * i + Z.of_nat (Z.to_nat 128)) with (128 * (i + 1)) by lia.
      replace (drop 256 (take (Z.to_nat len) suf)) with (take (Z.to_nat (len - 256)) (drop 256 suf)).
      2: { rewrite take_drop_commute. do 2 f_equal. lia. }
      apply IH; [lia| | |lia| |by apply Forall_drop].
      + replace (len - 256 + 255) with (len + 255 + (-1) * 256) by lia. rewrite Z.div_add by lia. lia.
      + rewrite length_app, length_take. lia.
      + rewrite length_drop. lia.
    - exists (len / 2), len. split; [done|].
      assert (2 * (len / 2) <= len) by (pose proof (Z.div_mod len 2); pose proof (Z.mod_pos_bound len 2); lia).
      split; [lia|]. split.
      + rewrite (take_ge (take _ _)) by (rewrite length_take; lia).
        rewrite <- (words_even (take (Z.to_nat len) suf)), length_take, Nat.min_l by lia.
        unfold even. rewrite take_take. do 2 f_equal.
        assert (0 <= len / 2) by (apply Z.div_pos; lia).
        assert (Z.of_nat (Z.to_nat len / 2) = len / 2) by (rewrite Nat2Z.inj_div, Z2Nat.id; lia). lia.
      + assert (n = 0%nat) as ->; [|apply shows_mret].
        assert ((len + 255) / 256 < 2) by (apply Z.div_lt_upper_bound; lia). lia. }
  eapply shows_eq.
  { eapply shows_bind; [apply shows_write_enable|]. eapply shows_bind; [apply shows_select|].
    eapply shows_bind; [apply shows_send|]. eapply shows_bind; [apply shows_send|].
    eapply shows_bind; [apply shows_page_loop; [lia|exact Hpg|done]|].
    eapply shows_bind; [apply shows_deselect|]. eapply shows_bind; [by apply shows_check_busy|]. exact Hrest. }
  rewrite Hw. unfold command. cbn [app map]. by rewrite <- !app_assoc.
Qed.

(** The answers to [n] transfers of a byte. *)
Fixpoint replies (n : nat) (d : D) : list Z :=
  match n with
  | O => []
  | S n => let '(d', v) := respond d (SPI_IOC_TRANSIT 255 8) in v :: replies n d'
  end.

Lemma read_loop_run n i buf w : 0 <= i → i + Z.of_nat n <= Z.of_nat (length buf) →
  ∃ w', read_loop n i buf w = Ok (take (Z.to_nat i) buf ++ map (λ v, Z.land v 255) (replies n (driver w)) ++
            drop (Z.to_nat i + n) buf, w') ∧
    trace w' = trace w ++ replicate n (SPI_IOC_TRANSIT 255 8).
Proof.
  revert i buf w. induction n as [|n IH]; intros i buf w Hi Hl; cbn [read_loop replies].
  { exists w. cbn. rewrite Nat.add_0_r, take_drop, app_nil_r. done. }
  destruct (send_run 255 8 w) as (w1 & E & T & Hd & Hr). change (u32 255) with 255 in *.
  rewrite bind_run, E, get_data_run, Hr. destruct (respond _ _) as [d' v]. cbn [fst snd] in *.
  rewrite bind_run. unfold lift. rewrite wr_Ok by lia. cbn match.
  destruct (IH (i + 1) (<[Z.to_nat i := Z.land v 255]> buf) w1) as (w' & E' & T').
  { lia. } { rewrite length_insert. lia. }
  exists w'. rewrite E', Hd. split.
  - replace (Z.to_nat (i + 1)) with (S (Z.to_nat i)) by lia. rewrite take_insert_snoc by lia.
    rewrite insert_drop_lt by lia. cbn [map]. rewrite <- app_assoc. cbn [app].
    by rewrite Nat.add_succ_comm.
  - rewrite T', T, <- app_assoc. done.
Qed.

(** The last steps of a read, from the world [w1] in which the flash has the
    command and the address. *)
Lemma read_data_run len buf (w1 : world spi_data spireq D) : 0 <= len <= Z.of_nat (length buf) →
  ∃ w', (buf ← read_loop (Z.to_nat len) 0 buf; _ ← SpiDeselectCS0; mret (Successful, buf)) w1 =
      Ok ((Successful, map (λ v, Z.land v 255) (replies (Z.to_nat len) (driver w1)) ++ drop (Z.to_nat len) buf), w') ∧
    trace w' = trace w1 ++ replicate (Z.to_nat len) (SPI_IOC_TRANSIT 255 8) ++ [SPI_IOC_SELECTSLAVE 1].
Proof.
  intros Hl. destruct (read_loop_run (Z.to_nat len) 0 buf w1) as (w2 & E & T); [lia|lia|].
  eexists. rewrite bind_run, E. split; [reflexivity|]. cbn [trace after]. rewrite T. by rewrite <- app_assoc.
Qed.

(** Running the steps before the data and then the rest. *)
Lemma shows_then {A B} (m : prog spi_data spireq D A) (k : A → prog spi_data spireq D B) a p w :
  shows m a p → ∃ w1 t1, m w = Ok (a, w1) ∧ (m ≫= k) w = k a w1 ∧ trace w1 = trace w ++ t1 ∧ matches polls p t1.
Proof.
  intros Hm. destruct (Hm w) as (w1 & t1 & E & T & M). exists w1, t1. rewrite bind_run, E. done.
Qed.

Lemma payload_pages n addr i b : Z.of_nat n = (Z.of_nat (length b) + 255) / 256 → Forall is_u8 b →
  payload (pages n addr i b) = take (even (length b)) b.
Proof.
  revert i b. induction n as [|n IH]; intros i b Hn Hb; cbn [pages].
  { assert (length b = 0%nat) as Hz.
    { destruct (decide (length b = 0%nat)); [done|].
      assert (1 <= (Z.of_nat (length b) + 255) / 256) by (apply Z.div_le_lower_bound; lia). lia. }
    apply nil_length_inv in Hz as ->. done. }
  rewrite !payload_app. change (payload (command [(6, 8)])) with (@nil Z).
  change (payload status_poll) with (@nil Z). unfold command. cbn [map app].
  set (ws := words (take 256 b)).
  change (payload (Req (SPI_IOC_SELECTSLAVE 0) :: word (2, 8) :: word (u32 (addr + i * 256), 24) ::
    map word ws ++ [Req (SPI_IOC_SELECTSLAVE 1)])) with (payload (map word ws ++ [Req (SPI_IOC_SELECTSLAVE 1)])).
  rewrite payload_app. change (payload [Req (SPI_IOC_SELECTSLAVE 1)]) with (@nil Z). rewrite app_nil_r.
  unfold ws. rewrite payload_words by (by apply Forall_take). rewrite length_take.
  destruct (Nat.le_gt_cases 256 (length b)) as [Hbig|Hsmall].
  - rewrite Nat.min_l by done. change (even 256) with 256%nat. rewrite take_take, Nat.min_l by done.
    rewrite IH; [|rewrite length_drop, Nat2Z.inj_sub by done|by apply Forall_drop].
    + rewrite length_drop. cbn [app].
      assert (even (length b) = 256 + even (length b - 256))%nat as ->.
      { unfold even. replace (length b) with (length b - 256 + 128 * 2)%nat at 1 by lia.
        rewrite Nat.div_add by lia. lia. }
      by rewrite (take_take_drop b).
    + replace (Z.of_nat (length b) - Z.of_nat 256 + 255) with (Z.of_nat (length b) + 255 + (-1) * 256) by lia.
      rewrite Z.div_add by lia. lia.
  - rewrite Nat.min_r by lia. assert (n = 0%nat) as ->.
    { assert ((Z.of_nat (length b) + 255) / 256 < 2) by (apply Z.div_lt_upper_bound; lia). lia. }
    cbn [pages payload flat_map]. rewrite !app_nil_r, take_take. f_equal.
    unfold even. pose proof (Nat.div_mod_eq (length b) 2). lia.
Qed.
End routines.
#[export] Hint Resolve shows_check_busy shows_write_enable : spi.

(** ** Claims *)

(** Programming the flash, for any driver whose busy bit clears within the
    polls allowed: the routine returns, and what it sends is a status poll and
    then for every 256 bytes a write enable, one program command with the
    address of the page and its bytes in memory order (the swap of the 16-bit
    words undoes the little-endian loads), and a status poll.  The data bytes
    sent are the first bytes of the buffer, an even number of them: of an odd
    length the last byte is never written. *)
Theorem spiWrite_programs_pages {D} `{Driver spireq spireply D} polls addr len buf :
  polled_ready (D:=D) polls → 0 <= len < 2147483648 → len <= Z.of_nat (length buf) → Forall is_u8 buf →
  let data := take (Z.to_nat len) buf in
  let n := Z.to_nat ((len + 255) / 256) in
  shows polls (spiWrite polls addr len buf : prog spi_data spireq D Z) Successful
    (status_poll ++ pages n addr 0 data) ∧
  payload (pages n addr 0 data) = take (Z.to_nat (len - len mod 2)) buf.
Proof.
  intros Hr Hlen Hl Hb data n. assert (0 <= (len + 255) / 256) by (apply Z.div_pos; lia).
  assert (length data = Z.to_nat len) as Hd by (unfold data; rewrite length_take; lia).
  split.
  - unfold spiWrite. eapply shows_eq.
    { eapply shows_bind; [by apply shows_check_busy|].
      eapply shows_bind; [|apply shows_mret].
      assert (len / 256 + (if negb (len mod 256 =? 0) then 1 else 0) = (len + 255) / 256) as ->.
      { pose proof (Z.div_mod len 256). pose proof (Z.mod_pos_bound len 256).
        destruct (Z.eqb_spec (len mod 256) 0); cbn [negb].
        - apply Z.div_unique with 255; lia.
        - apply Z.div_unique with (len mod 256 - 1); lia. }
      apply (shows_write_loop polls Hr n 0 addr len [] buf); [lia|unfold n; lia|done|done|done|done]. }
    rewrite app_nil_r. done.
  - rewrite payload_pages; [|unfold n; rewrite Hd, !Z2Nat.id; lia|by apply Forall_take].
    rewrite Hd. unfold data. rewrite take_take. f_equal. unfold even.
    pose proof (Z.mod_pos_bound len 2). pose proof (Z.div_mod len 2).
    assert (Z.of_nat (Z.to_nat len / 2) = len / 2) by (rewrite Nat2Z.inj_div, Z2Nat.id; lia). lia.
Qed.

(** Reading the flash, for any driver whose busy bit clears within the polls
    allowed: after the status poll, the command and the address are sent the
    routine transfers [len] bytes and stores the low byte of each answer, in
    order, at the front of the buffer and nothing else.  The fast read sends
    one more byte before the data. *)
Theorem spiRead_stores_answers {D} `{Driver spireq spireply D} polls addr len buf (w : world spi_data spireq D) :
  polled_ready (D:=D) polls → 0 <= len <= Z.of_nat (length buf) →
  let stored (w1 : world spi_data spireq D) := map (λ v, Z.land v 255) (replies (Z.to_nat len) (driver w1)) ++ drop (Z.to_nat len) buf in
  let data := replicate (Z.to_nat len) (SPI_IOC_TRANSIT 255 8) ++ [SPI_IOC_SELECTSLAVE 1] in
  (∃ w1 t w', spiRead polls addr len buf w = Ok ((Successful, stored w1), w') ∧
     trace w1 = trace w ++ t ∧ trace w' = trace w1 ++ data ∧
     matches polls (status_poll ++ Req (SPI_IOC_SELECTSLAVE 0) :: map word [(3, 8); (u32 addr, 24)]) t) ∧
  (∃ w1 t w', spiReadFast polls addr len buf w = Ok ((Successful, stored w1), w') ∧
     trace w1 = trace w ++ t ∧ trace w' = trace w1 ++ data ∧
     matches polls (status_poll ++ Req (SPI_IOC_SELECTSLAVE 0) :: map word [(11, 8); (u32 addr, 24); (255, 8)]) t).
Proof.
  intros Hr Hl stored data. split.
  - assert (shows polls (_ ← spiCheckBusy polls; _ ← SpiSelectCS0; _ ← send 3 8; send addr 24 : prog spi_data spireq D unit)
      tt (status_poll ++ Req (SPI_IOC_SELECTSLAVE 0) :: map word [(3, 8); (u32 addr, 24)])) as Hs
      by (shows_by; done).
    destruct (shows_then polls _ (λ _, buf ← read_loop (Z.to_nat len) 0 buf; _ ← SpiDeselectCS0; mret (Successful, buf))
      _ _ w Hs) as (w1 & t & _ & E & T & M).
    destruct (read_data_run len buf w1 Hl) as (w' & E' & T'). exists w1, t, w'.
    split; [|done]. unfold stored. rewrite <- E'. cbn beta in E. rewrite <- E. unfold spiRead, mbind, prog_bind.
    by destruct (spiCheckBusy polls w) as [[? ?]|].
  - assert (shows polls (_ ← spiCheckBusy polls; _ ← SpiSelectCS0; _ ← send 11 8; _ ← send addr 24; send 255 8 : prog spi_data spireq D unit)
      tt (status_poll ++ Req (SPI_IOC_SELECTSLAVE 0) :: map word [(11, 8); (u32 addr, 24); (255, 8)])) as Hs
      by (shows_by; done).
    destruct (shows_then polls _ (λ _, buf ← read_loop (Z.to_nat len) 0 buf; _ ← SpiDeselectCS0; mret (Successful, buf))
      _ _ w Hs) as (w1 & t & _ & E & T & M).
    destruct (read_data_run len buf w1 Hl) as (w' & E' & T'). exists w1, t, w'.
    split; [|done]. unfold stored. rewrite <- E'. cbn beta in E. rewrite <- E. unfold spiReadFast, mbind, prog_bind.
    by destruct (spiCheckBusy polls w) as [[? ?]|].
Qed.

(** ** Witnesses *)

(** A flash that is busy at every second poll and answers with a counter. *)
#[local] Instance blinking : Driver spireq spireply Z := λ d r,
  match r with
  | SPI_IOC_TRANSIT _ _ => (d + 1, d)
  | SPI_IOC_SELECTSLAVE _ | SPI_IOC_SETPARAMETER _ | SpiClose => (d, tt)
  | SpiOpen => (d, 3)
  | SPI_IOC_GETPARAMETER => (d, demo_parameter)
  end.

Lemma blinking_ready d : ready_in (D:=Z) 2 d.
Proof.
  unfold ready_in. cbn [respond blinking]. rewrite <- !Z.land_assoc. change (Z.land 255 1) with (Z.ones 1).
  rewrite !Z.land_ones by lia. change (2 ^ 1) with 2. destruct (Z.eq_dec (d mod 2) 1) as [E|E]; [right|by left].
  left. rewrite Z.add_mod, E by lia. discriminate.
Qed.

Definition five_bytes : list Z := [1; 2; 3; 4; 5].

Lemma spiWrite_programs_pages_witness :
  shows 2 (spiWrite 2 512 5 five_bytes : prog spi_data spireq Z Z) Successful
    (status_poll ++ command [(6, 8)] ++ command [(2, 8); (512, 24); (258, 16); (772, 16)] ++ status_poll) ∧
  payload (pages 1 512 0 five_bytes) = [1; 2; 3; 4].
Proof.
  apply (spiWrite_programs_pages (D:=Z) 2 512 5 five_bytes).
  - intros d. apply blinking_ready.
  - lia.
  - cbn. lia.
  - apply (bool_decide_unpack _). vm_compute. exact I.
Defined.

Lemma spiRead_stores_answers_witness :
  ∃ w', spiRead 2 0 3 [9; 9; 9; 9] (World (SpiData 0 0 0) 0 []) = Ok ((Successful, [5; 6; 7; 9]), w').
Proof.
  destruct (spiRead_stores_answers (D:=Z) 2 0 3 [9; 9; 9; 9] (World (SpiData 0 0 0) 0 []))
    as [(w1 & t & w' & E & _) _].
  - intros d. apply blinking_ready.
  - cbn. lia.
  - exists w'. rewrite E.
    assert (match spiRead (D:=Z) 2 0 3 [9; 9; 9; 9] (World (SpiData 0 0 0) 0 []) with
            | Ok ((_, b), _) => b = [5; 6; 7; 9] | _ => False end) as Hv by (vm_compute; reflexivity).
    rewrite E in Hv. rewrite Hv. reflexivity.
Defined.
