(* ===== verification/SpiFlash.v ===== *)
(** * SpiFlash: the SPI demo with a flash behind the driver

    [Spi] says what src/spi/spi.c sends.  This file adds what a serial flash
    does with it, as an interface [SerialFlash] that states the documented
    commands of such a chip, and shows what the routines of spi.c achieve: what
    was programmed is read back, and the test of the demo passes. *)
From S2P Require Import Prelude Bytes Device Spi.
Local Open Scope cmodel_scope.
Local Open Scope Z_scope.

(** ** A serial flash *)

(** The bytes of a transfer, the most significant first. *)
Definition bus_bytes (w bits : Z) : list Z :=
  if bits =? 8 then [w mod 256]
  else if bits =? 16 then [w / 256 mod 256; w mod 256]
  else [w / 65536 mod 256; w / 256 mod 256; w mod 256].

Definition cells : Type := Z → Z.
Definition store (c : cells) (a v : Z) : cells := λ x, if x =? a then v else c x.

(** Programming clears bits; the address runs inside its page of 256 bytes. *)
Fixpoint program (c : cells) (page off : Z) (data : list Z) : cells :=
  match data with
  | [] => c
  | b :: data =>
      let a := page + off mod 256 in
      program (store c a (Z.land (c a) b)) page (off + 1) data
  end.

(** Erasing sets the 64 kilobytes around an address. *)
Definition erase (c : cells) (a : Z) : cells := λ x, if x / 65536 =? a / 65536 then 255 else c x.

Definition address (a2 a1 a0 : Z) : Z := a2 * 65536 + a1 * 256 + a0.

(** What a command does to the memory when the chip is deselected. *)
Definition effect (frame : list Z) (latch : bool) (c : cells) : cells :=
  if latch then
    match frame with
    | 2 :: a2 :: a1 :: a0 :: data =>
        let a := address a2 a1 a0 in program c (a - a mod 256) (a mod 256) data
    | 216 :: a2 :: a1 :: a0 :: _ => erase c (address a2 a1 a0)
    | _ => c
    end
  else c.

(** The commands that start no operation. *)
Definition plain_command (frame : list Z) : bool :=
  match frame with c :: _ => bool_decide (c ∈ [3; 4; 5; 6; 11; 144]) | [] => true end.

(** [cell] is the memory, [frame] the bytes since the chip was selected, [latch]
    the write enable latch and [busy] whether an operation is going on. *)
Class SerialFlash (D : Type) `{Driver spireq spireply D} := {
  cell : D → cells;
  frame : D → list Z;
  latch : D → bool;
  busy : D → bool;
  select_frame (d : D) : frame (respond d (SPI_IOC_SELECTSLAVE 0)).1 = [];
  select_state (d : D) : latch (respond d (SPI_IOC_SELECTSLAVE 0)).1 = latch d;
  transit_frame (d : D) w b : frame (respond d (SPI_IOC_TRANSIT w b)).1 = frame d ++ bus_bytes w b;
  transit_state (d : D) w b : latch (respond d (SPI_IOC_TRANSIT w b)).1 = latch d;
  cells_kept (d : D) r x : r ≠ SPI_IOC_SELECTSLAVE 1 → cell (respond d r).1 x = cell d x;
  stays_idle (d : D) r : r ≠ SPI_IOC_SELECTSLAVE 1 → busy d = false → busy (respond d r).1 = false;
  (* the status register *)
  status_bit (d : D) w rest : frame d = 5 :: rest →
    Z.land (Z.land (respond d (SPI_IOC_TRANSIT w 8)).2 255) 1 = if busy d then 1 else 0;
  (* reading *)
  read_answer (d : D) w a2 a1 a0 rest : busy d = false → frame d = 3 :: a2 :: a1 :: a0 :: rest →
    Z.land (respond d (SPI_IOC_TRANSIT w 8)).2 255 = cell d (address a2 a1 a0 + Z.of_nat (length rest));
  (* the end of a command *)
  command_cells (d : D) x : busy d = false →
    cell (respond d (SPI_IOC_SELECTSLAVE 1)).1 x = effect (frame d) (latch d) (cell d) x;
  plain_cells (d : D) x : plain_command (frame d) = true → cell (respond d (SPI_IOC_SELECTSLAVE 1)).1 x = cell d x;
  plain_idle (d : D) : plain_command (frame d) = true → busy d = false → busy (respond d (SPI_IOC_SELECTSLAVE 1)).1 = false;
  enables (d : D) rest : busy d = false → frame d = 6 :: rest → latch (respond d (SPI_IOC_SELECTSLAVE 1)).1 = true
}.

(** ** Programming as a function on the memory *)

(** [data] written from [addr] on, without wrapping. *)
Definition written (c : cells) (addr : Z) (data : list Z) : cells := λ x,
  if addr <=? x then match data !! Z.to_nat (x - addr) with Some b => Z.land (c x) b | None => c x end else c x.

Lemma written_nil c addr x : written c addr [] x = c x.
Proof. unfold written. by destruct (addr <=? x). Qed.

Lemma written_ext c c' addr data x : (∀ y, c y = c' y) → written c addr data x = written c' addr data x.
Proof. intros E. unfold written. by destruct (addr <=? x); [destruct (data !! Z.to_nat (x - addr))|]; rewrite E. Qed.

Lemma written_cons c addr b data x :
  written (store c addr (Z.land (c addr) b)) (addr + 1) data x = written c addr (b :: data) x.
Proof.
  unfold written, store. destruct (Z.leb_spec addr x), (Z.leb_spec (addr + 1) x); try lia.
  - replace (Z.to_nat (x - addr)) with (S (Z.to_nat (x - (addr + 1)))) by lia. cbn.
    by rewrite (proj2 (Z.eqb_neq x addr)) by lia.
  - assert (x = addr) as -> by lia. by rewrite Z.eqb_refl, Z.sub_diag.
  - by rewrite (proj2 (Z.eqb_neq x addr)) by lia.
Qed.

Lemma written_app c addr d1 d2 x :
  written (written c addr d1) (addr + Z.of_nat (length d1)) d2 x = written c addr (d1 ++ d2) x.
Proof.
  unfold written. destruct (Z.leb_spec addr x), (Z.leb_spec (addr + Z.of_nat (length d1)) x); try lia; try done.
  - rewrite (lookup_ge_None_2 d1) by lia. rewrite lookup_app_r by lia.
    by replace (Z.to_nat (x - addr) - length d1)%nat with (Z.to_nat (x - (addr + Z.of_nat (length d1)))) by lia.
  - by rewrite lookup_app_l by lia.
Qed.

Lemma program_written data : ∀ c page off x, 0 <= off → off + Z.of_nat (length data) <= 256 →
  program c page off data x = written c (page + off) data x.
Proof.
  induction data as [|b data IH]; intros c page off x Ho Hl; cbn [program].
  - by rewrite written_nil.
  - cbn [length] in Hl. rewrite IH by lia. rewrite Z.mod_small by lia. rewrite Z.add_assoc. apply written_cons.
Qed.

Lemma written_outside c addr data x : x < addr ∨ addr + Z.of_nat (length data) <= x → written c addr data x = c x.
Proof.
  intros Hx. unfold written. destruct (Z.leb_spec addr x); [|done]. by rewrite lookup_ge_None_2 by lia.
Qed.

Lemma written_erased c addr data x b : addr <= x → data !! Z.to_nat (x - addr) = Some b → c x = 255 → is_u8 b →
  written c addr data x = b.
Proof.
  intros Hx Hb Hc H8. unfold written. rewrite (proj2 (Z.leb_le _ _)), Hb, Hc by done.
  rewrite Z.land_comm. change 255 with (Z.ones 8). rewrite Z.land_ones by lia. apply Z.mod_small, H8.
Qed.

Lemma program_ext data : ∀ c c' page off x, (∀ y, c y = c' y) → program c page off data x = program c' page off data x.
Proof.
  induction data as [|b data IH]; intros c c' page off x E; cbn [program]; [done|].
  apply IH. intros y. unfold store. by rewrite !E.
Qed.

Lemma program_app d1 : ∀ c page off d2 x,
  program c page off (d1 ++ d2) x = program (program c page off d1) page (off + Z.of_nat (length d1)) d2 x.
Proof.
  induction d1 as [|b d1 IH]; intros c page off d2 x; cbn [app program length]; [by rewrite Z.add_0_r|].
  rewrite IH. by replace (off + 1 + Z.of_nat (length d1)) with (off + Z.of_nat (S (length d1))) by lia.
Qed.

Lemma program_period data : ∀ c page off x, program c page (off + 256) data x = program c page off data x.
Proof.
  induction data as [|b data IH]; intros c page off x; cbn [program]; [done|].
  replace (off + 256 + 1) with (off + 1 + 256) by lia. rewrite IH.
  replace ((off + 256) mod 256) with (off mod 256); [done|]. by rewrite <- (Z.mod_add off 1 256) by lia.
Qed.

Lemma effect_ext f l c c' x : (∀ y, c y = c' y) → effect f l c x = effect f l c' x.
Proof.
  intros E. unfold effect, erase. repeat case_match; try done; by apply program_ext.
Qed.

Lemma address_bytes a : 0 <= a < 16777216 →
  ∃ a2 a1 a0, bus_bytes (u32 a) 24 = [a2; a1; a0] ∧ address a2 a1 a0 = a.
Proof.
  intros Ha. rewrite u32_id by (unfold is_u32; lia). eexists _, _, _. split; [reflexivity|]. unfold address.
  rewrite (Z.mod_small (a / 65536)) by (split; [apply Z.div_pos; lia|apply Z.div_lt_upper_bound; lia]).
  pose proof (Z.div_mod a 256). pose proof (Z.div_mod (a / 256) 256).
  change 65536 with (256 * 256). rewrite <- Z.div_div by lia. lia.
Qed.

(** ** The routines on a flash *)

Section flash.
Context {D : Type} `{Hflash : SerialFlash D}.
Implicit Types w : world spi_data spireq D.
Notation P := (prog spi_data spireq D).

(** The state of the chip after a program, as far as a command has not ended. *)
Record within w w' (bytes : list Z) : Prop := Within {
  in_frame : frame (driver w') = frame (driver w) ++ bytes;
  in_cells : ∀ x, cell (driver w') x = cell (driver w) x;
  in_latch : latch (driver w') = latch (driver w);
  in_idle : busy (driver w) = false → busy (driver w') = false
}.

Lemma within_trans w1 w2 w3 b1 b2 : within w1 w2 b1 → within w2 w3 b2 → within w1 w3 (b1 ++ b2).
Proof.
  intros A B. constructor.
  - by rewrite (in_frame _ _ _ B), (in_frame _ _ _ A), app_assoc.
  - intros x. by rewrite (in_cells _ _ _ B), (in_cells _ _ _ A).
  - by rewrite (in_latch _ _ _ B), (in_latch _ _ _ A).
  - intros Hb. by apply (in_idle _ _ _ B), (in_idle _ _ _ A).
Qed.

Lemma send_within data bits w : ∃ w', send data bits w = Ok (tt, w') ∧ within w w' (bus_bytes (u32 data) bits) ∧
  read_data (vars w') = (respond (driver w) (SPI_IOC_TRANSIT (u32 data) bits)).2.
Proof.
  destruct (send_run data bits w) as (w' & E & _ & Hd & Hr). exists w'. split; [done|]. split; [|done].
  constructor; rewrite Hd; [apply transit_frame|intros; by apply cells_kept|apply transit_state|intros; by apply stays_idle].
Qed.

(** The chip is selected: an empty frame. *)
Lemma select_run {B} (k : unit → P B) w : ∃ w1, (SpiSelectCS0 ≫= k) w = k tt w1 ∧ frame (driver w1) = [] ∧
  (∀ x, cell (driver w1) x = cell (driver w) x) ∧ latch (driver w1) = latch (driver w) ∧
  (busy (driver w) = false → busy (driver w1) = false).
Proof.
  exists (after w (SPI_IOC_SELECTSLAVE 0)). split; [done|]. cbn [after driver].
  split; [apply select_frame|]. split; [intros; by apply cells_kept|]. split; [apply select_state|].
  intros. by apply stays_idle.
Qed.

(** A command of single words: the chip has received them. *)
Lemma word_run {B} data bits (k : unit → P B) w bytes : bus_bytes (u32 data) bits = bytes →
  ∃ w1, (send data bits ≫= k) w = k tt w1 ∧ within w w1 bytes.
Proof.
  intros <-. destruct (send_within data bits w) as (w1 & E & W & _). exists w1. by rewrite bind_run, E.
Qed.

(** *** Waiting *)

Lemma busy_loop_idle polls : ∀ w rest, frame (driver w) = 5 :: rest → ready_in polls (driver w) →
  ∃ w' more, busy_loop polls w = Ok (tt, w') ∧ within w w' more ∧ busy (driver w') = false.
Proof.
  induction polls as [|n IH]; intros w rest Hf Hready; [done|]. cbn [ready_in busy_loop] in *.
  destruct (send_run 255 8 w) as (w1 & E & _ & Hd & Hr). change (u32 255) with 255 in *.
  destruct (send_within 255 8 w) as (w1' & E' & W & _). rewrite E in E'. injection E' as <-.
  rewrite bind_run, E, get_data_run, Hr. rewrite (status_bit _ _ _ Hf).
  destruct (respond (driver w) (SPI_IOC_TRANSIT 255 8)) as [d' v] eqn:Er. cbn [fst snd] in *.
  destruct (busy (driver w)) eqn:Hb; cbn [Z.eqb Pos.eqb negb].
  - destruct Hready as [Hready|Hready].
    { exfalso. apply Hready. pose proof (status_bit _ 255 _ Hf) as S. rewrite Er, Hb in S. exact S. }
    subst d'. destruct (IH w1 (rest ++ bus_bytes 255 8)) as (w' & more & -> & W' & Hi); [|done|].
    { rewrite (in_frame _ _ _ W), Hf. done. }
    eexists w', _. split; [done|]. split; [by eapply within_trans|done].
  - exists w1, (bus_bytes 255 8). split; [done|]. split; [done|]. apply (in_idle _ _ _ W Hb).
Qed.

Context (polls : nat) (Hready : polled_ready (D:=D) polls).

Lemma check_busy_run {B} (k : Z → P B) w : ∃ w1, (spiCheckBusy polls ≫= k) w = k Successful w1 ∧
  (∀ x, cell (driver w1) x = cell (driver w) x) ∧ busy (driver w1) = false.
Proof.
  unfold spiCheckBusy. rewrite bind_run. unfold SpiSelectCS0. rewrite bind_run, request_run, mret_run.
  set (w1 := after w _). assert (frame (driver w1) = []) as F1 by apply select_frame.
  assert (∀ x, cell (driver w1) x = cell (driver w) x) as C1 by (intros; by apply cells_kept).
  destruct (send_run 5 8 w1) as (w2 & E2 & _ & D2 & _). destruct (send_within 5 8 w1) as (w2' & E2' & W2 & _).
  rewrite E2 in E2'. injection E2' as <-. change (u32 5) with 5 in *. rewrite bind_run, E2.
  destruct (busy_loop_idle polls w2 []) as (w3 & more & E3 & W3 & H3); [by rewrite (in_frame _ _ _ W2), F1|rewrite D2; apply Hready|].
  rewrite bind_run, E3. assert (plain_command (frame (driver w3)) = true) as Hp.
  { rewrite (in_frame _ _ _ W3), (in_frame _ _ _ W2), F1. done. }
  exists (after w3 (SPI_IOC_SELECTSLAVE 1)). split; [done|]. cbn [after driver]. split; [|by apply plain_idle].
  intros x. by rewrite plain_cells, (in_cells _ _ _ W3), (in_cells _ _ _ W2), C1.
Qed.

Lemma write_enable_run {B} (k : Z → P B) w : busy (driver w) = false →
  ∃ w1, (spiWriteEnable ≫= k) w = k Successful w1 ∧ (∀ x, cell (driver w1) x = cell (driver w) x) ∧
    latch (driver w1) = true ∧ busy (driver w1) = false.
Proof.
  intros Hb. unfold spiWriteEnable. rewrite bind_run.
  destruct (select_run (λ _, _ ← send 6 8; _ ← SpiDeselectCS0; mret Successful) w) as (w1 & -> & F1 & C1 & _ & I1).
  destruct (word_run 6 8 (λ _, _ ← SpiDeselectCS0; mret Successful) w1 [6] eq_refl) as (w2 & -> & W2).
  assert (frame (driver w2) = [6]) as F2 by (by rewrite (in_frame _ _ _ W2), F1).
  assert (busy (driver w2) = false) as B2 by (apply (in_idle _ _ _ W2), I1, Hb).
  exists (after w2 (SPI_IOC_SELECTSLAVE 1)). split; [done|]. cbn [after driver].
  split; [intros x; by rewrite plain_cells, (in_cells _ _ _ W2), C1 by (by rewrite F2)|].
  split; [by apply (enables _ [])|]. apply plain_idle; [by rewrite F2|done].
Qed.

(** *** Programming *)

Lemma page_loop_within n : ∀ pre suf j w, Z.of_nat (length pre) = 2 * j → (2 * n <= length suf)%nat → Forall is_u8 suf →
  ∃ w', page_loop n (pre ++ suf) j w = Ok (j + Z.of_nat n, w') ∧ within w w' (take (2 * n) suf).
Proof.
  induction n as [|n IH]; intros pre suf j w Hp Hl Hb; cbn [page_loop].
  - exists w. rewrite Z.add_0_r. split; [done|]. constructor; try done. by rewrite app_nil_r.
  - destruct suf as [|lo [|hi suf]]; cbn in Hl; try lia.
    apply Forall_cons in Hb as [Hlo Hb]. apply Forall_cons in Hb as [Hhi Hb].
    rewrite (load16_at pre) by done. rewrite lift_run.
    assert (bus_bytes (u32 (Swap16 (Z.lor lo (Z.shiftl hi 8)))) 16 = [lo; hi]) as Hw.
    { rewrite Swap16_load by done. unfold is_u8 in *. unfold bus_bytes. cbn [Z.eqb Pos.eqb].
      rewrite Z.div_add_l, (Z.div_small hi), Z.add_0_r, (Z.mod_small lo), Z.add_comm, Z.mod_add, Z.mod_small by lia. done. }
    destruct (word_run _ 16 (λ _, page_loop n (pre ++ lo :: hi :: suf) (j + 1)) w _ Hw) as (w1 & -> & W1).
    change (pre ++ lo :: hi :: suf) with (pre ++ [lo; hi] ++ suf). rewrite app_assoc.
    destruct (IH (pre ++ [lo; hi]) suf (j + 1) w1) as (w' & -> & W'); [rewrite length_app; cbn; lia|lia|done|].
    exists w'. split; [do 2 f_equal; lia|]. replace (2 * S n)%nat with (S (S (2 * n))) by lia.
    exact (within_trans _ _ _ _ _ W1 W').
Qed.

(** A write enable, a command with an address, and its end. *)
Definition command_run {B} (op a : Z) (body : P B) : P B :=
  _ ← spiWriteEnable; _ ← SpiSelectCS0; _ ← send op 8; _ ← send a 24;
  b ← body; _ ← SpiDeselectCS0; _ ← spiCheckBusy polls; mret b.

Lemma operation_run {B} op a (body : P B) b bytes w : busy (driver w) = false → 0 <= a < 16777216 → 0 <= op < 256 →
  (∀ w1, ∃ w2, body w1 = Ok (b, w2) ∧ within w1 w2 bytes) →
  ∃ w', command_run op a body w = Ok (b, w') ∧ busy (driver w') = false ∧
    ∀ x, cell (driver w') x = effect (op :: bus_bytes (u32 a) 24 ++ bytes) true (cell (driver w)) x.
Proof.
  intros Hb Ha Hop Hbody. unfold command_run.
  destruct (write_enable_run (λ _, _ ← SpiSelectCS0; _ ← send op 8; _ ← send a 24;
    b ← body; _ ← SpiDeselectCS0; _ ← spiCheckBusy polls; mret b) w Hb) as (w1 & -> & C1 & L1 & B1).
  destruct (select_run (λ _, _ ← send op 8; _ ← send a 24;
    b ← body; _ ← SpiDeselectCS0; _ ← spiCheckBusy polls; mret b) w1) as (w2 & -> & F2 & C2 & L2 & B2).
  assert (bus_bytes (u32 op) 8 = [op]) as Hw by (rewrite u32_id by (unfold is_u32; lia); cbn; by rewrite Z.mod_small).
  destruct (word_run op 8 (λ _, _ ← send a 24; b ← body; _ ← SpiDeselectCS0; _ ← spiCheckBusy polls; mret b) w2 _ Hw)
    as (w3 & -> & W3).
  destruct (word_run a 24 (λ _, b ← body; _ ← SpiDeselectCS0; _ ← spiCheckBusy polls; mret b) w3 _ eq_refl)
    as (w4 & -> & W4).
  destruct (Hbody w4) as (w5 & E5 & W5). rewrite bind_run, E5. set (w6 := after w5 (SPI_IOC_SELECTSLAVE 1)).
  destruct (check_busy_run (λ _, mret b) w6) as (w7 & E7 & C7 & B7).
  exists w7. change ((_ ← SpiDeselectCS0; _ ← spiCheckBusy polls; mret b) w5) with ((_ ← spiCheckBusy polls; mret b) w6).
  rewrite E7. split; [done|]. split; [done|]. intros x. rewrite C7. unfold w6. cbn [after driver].
  pose proof (within_trans _ _ _ _ _ W3 (within_trans _ _ _ _ _ W4 W5)) as W.
  rewrite command_cells by (apply (in_idle _ _ _ W), B2, B1).
  rewrite (in_frame _ _ _ W), F2, (in_latch _ _ _ W), L2, L1. apply effect_ext.
  intros y. by rewrite (in_cells _ _ _ W), C2, C1.
Qed.

Lemma program_run page a pre suf j w : busy (driver w) = false → 0 <= a < 16777216 →
  Z.of_nat (length pre) = 2 * j → (2 * page <= length suf)%nat → Forall is_u8 suf →
  ∃ w', command_run 2 a (page_loop page (pre ++ suf) j) w = Ok (j + Z.of_nat page, w') ∧ busy (driver w') = false ∧
    ∀ x, cell (driver w') x = program (cell (driver w)) (a - a mod 256) (a mod 256) (take (2 * page) suf) x.
Proof.
  intros Hb Ha Hp Hl H8.
  destruct (operation_run 2 a (page_loop page (pre ++ suf) j) (j + Z.of_nat page) (take (2 * page) suf) w) as (w' & E & B' & C');
    [done|done|lia|intros; by apply page_loop_within|].
  exists w'. split; [done|]. split; [done|]. intros x. rewrite C'.
  destruct (address_bytes a Ha) as (a2 & a1 & a0 & -> & Eq). cbn. by rewrite Eq.
Qed.

Lemma erase_run a w : busy (driver w) = false → 0 <= a < 16777216 →
  ∃ w', command_run 216 a (mret tt) w = Ok (tt, w') ∧ busy (driver w') = false ∧
    ∀ x, cell (driver w') x = erase (cell (driver w)) a x.
Proof.
  intros Hb Ha. destruct (operation_run 216 a (mret tt) tt [] w) as (w' & E & B' & C'); [done|done|lia| |].
  { intros w1. exists w1. split; [done|]. constructor; try done. by rewrite app_nil_r. }
  exists w'. split; [done|]. split; [done|]. intros x. rewrite C'.
  destruct (address_bytes a Ha) as (a2 & a1 & a0 & -> & Eq). cbn. by rewrite Eq.
Qed.

(** The loops are made of these operations. *)
Ltac same_steps :=
  unfold mbind, prog_bind, mret, prog_ret;
  repeat match goal with |- match ?m with _ => _ end = _ => destruct m as [[? ?]|]; try reflexivity end.

Lemma write_loop_step n i addr len buf j w :
  write_loop polls (S n) i addr len buf j w =
  (let '(page, len) := if 256 <=? len then (128, len - 256) else (len / 2, len) in
   j ← command_run 2 (addr + i * 256) (page_loop (Z.to_nat page) buf j);
   write_loop polls n (i + 1) addr len buf j) w.
Proof. cbn [write_loop]. destruct (if 256 <=? len then _ else _) as [page len']. unfold command_run. same_steps. Qed.

Lemma erase_loop_step n i addr w :
  erase_loop polls (S n) i addr w = (_ ← command_run 216 (addr + i * 256) (mret tt); erase_loop polls n (i + 1) addr) w.
Proof. cbn [erase_loop]. unfold command_run. same_steps. Qed.

(** A page that starts at a multiple of 256. *)
Lemma page_run page a pre suf j w : busy (driver w) = false → 0 <= a < 16777216 → a mod 256 = 0 → (page <= 128)%nat →
  Z.of_nat (length pre) = 2 * j → (2 * page <= length suf)%nat → Forall is_u8 suf →
  ∃ w', command_run 2 a (page_loop page (pre ++ suf) j) w = Ok (j + Z.of_nat page, w') ∧ busy (driver w') = false ∧
    ∀ x, cell (driver w') x = written (cell (driver w)) a (take (2 * page) suf) x.
Proof.
  intros Hb Ha Hm Hpage Hp Hl H8. destruct (program_run page a pre suf j w Hb Ha Hp Hl H8) as (w' & E & B' & C').
  exists w'. split; [done|]. split; [done|]. intros x. rewrite C', Hm, Z.sub_0_r, program_written, Z.add_0_r; [done|lia|].
  rewrite length_take. lia.
Qed.

Lemma write_loop_run n : ∀ i addr len pre suf w,
  0 <= len → Z.of_nat n = (len + 255) / 256 → Z.of_nat (length pre) = 256 * i → 0 <= i →
  len <= Z.of_nat (length suf) → Forall is_u8 suf → busy (driver w) = false →
  addr mod 256 = 0 → 0 <= addr → addr + i * 256 + len <= 16777216 →
  ∃ w', write_loop polls n i addr len (pre ++ suf) (128 * i) w = Ok (tt, w') ∧ busy (driver w') = false ∧
    ∀ x, cell (driver w') x = written (cell (driver w)) (addr + i * 256) (take (Z.to_nat (2 * (len / 2))) suf) x.
Proof.
  induction n as [|n IH]; intros i addr len pre suf w Hlen Hn Hp Hi Hl H8 Hb Hm Ha Hmax.
  { exists w. split; [done|]. split; [done|]. intros x. assert (len = 0) as ->.
    { assert (len < 1); [|lia]. destruct (Z.lt_ge_cases len 1); [done|].
      assert (1 <= (len + 255) / 256) by (apply Z.div_le_lower_bound; lia). lia. }
    cbn. by rewrite written_nil. }
  assert (0 < len) as Hpos.
  { destruct (Z.lt_ge_cases 0 len); [done|]. assert (len = 0) as -> by lia. discriminate. }
  assert ((addr + i * 256) mod 256 = 0) as Hm' by (by rewrite Z.mod_add).
  pose proof (Z.div_mod len 2). pose proof (Z.mod_pos_bound len 2).
  rewrite write_loop_step. destruct (Z.leb_spec 256 len) as [Hbig|Hsmall].
  - destruct (page_run (Z.to_nat 128) (addr + i * 256) pre suf (128 * i) w) as (w1 & E1 & B1 & C1); [done|lia|done|lia|lia|lia|done|].
    rewrite bind_run, E1. replace (128 * i + Z.of_nat (Z.to_nat 128)) with (128 * (i + 1)) by lia.
    change (2 * Z.to_nat 128)%nat with 256%nat in C1. replace (pre ++ suf) with ((pre ++ take 256 suf) ++ drop 256 suf) by (by rewrite <- app_assoc, take_drop).
    destruct (IH (i + 1) addr (len - 256) (pre ++ take 256 suf) (drop 256 suf) w1) as (w' & E & B & C); try done; try lia.
    + replace (len - 256 + 255) with (len + 255 + (-1) * 256) by lia. rewrite Z.div_add by lia. lia.
    + rewrite length_app, length_take. lia.
    + rewrite length_drop. lia.
    + by apply Forall_drop.
    + exists w'. split; [done|]. split; [done|]. intros x. rewrite C, (written_ext _ _ _ _ _ C1).
      replace (addr + (i + 1) * 256) with (addr + i * 256 + Z.of_nat (length (take 256 suf))) by (rewrite length_take; lia).
      rewrite written_app. f_equal. replace (len - 256) with (len + (-128) * 2) by lia. rewrite Z.div_add by lia.
      replace (Z.to_nat (2 * (len / 2))) with (256 + Z.to_nat (2 * (len / 2 + -128)))%nat by lia.
      by rewrite take_take_drop.
  - destruct (page_run (Z.to_nat (len / 2)) (addr + i * 256) pre suf (128 * i) w) as (w1 & E1 & B1 & C1); [done|lia|done|lia|lia|lia|done|].
    rewrite bind_run, E1. assert (n = 0%nat) as ->.
    { assert ((len + 255) / 256 < 2) by (apply Z.div_lt_upper_bound; lia). lia. }
    exists w1. split; [done|]. split; [done|]. intros x. rewrite C1. do 2 f_equal. lia.
Qed.

Lemma page_count len : 0 <= len →
  len / 256 + (if negb (len mod 256 =? 0) then 1 else 0) = (len + 255) / 256.
Proof.
  intros Hlen. pose proof (Z.div_mod len 256). pose proof (Z.mod_pos_bound len 256).
  destruct (Z.eqb_spec (len mod 256) 0); cbn [negb].
  - apply Z.div_unique with 255; lia.
  - apply Z.div_unique with (len mod 256 - 1); lia.
Qed.

Lemma spiWrite_run addr len buf w : 0 <= len <= Z.of_nat (length buf) → Forall is_u8 buf →
  addr mod 256 = 0 → 0 <= addr → addr + len <= 16777216 →
  ∃ w', spiWrite polls addr len buf w = Ok (Successful, w') ∧
    ∀ x, cell (driver w') x = written (cell (driver w)) addr (take (Z.to_nat (2 * (len / 2))) buf) x.
Proof.
  intros Hl H8 Hm Ha Hmax. unfold spiWrite. rewrite page_count by lia.
  destruct (check_busy_run (λ _, _ ← write_loop polls (Z.to_nat ((len + 255) / 256)) 0 addr len buf 0; mret Successful) w)
    as (w1 & -> & C1 & B1).
  assert (0 <= (len + 255) / 256) by (apply Z.div_pos; lia).
  destruct (write_loop_run (Z.to_nat ((len + 255) / 256)) 0 addr len [] buf w1) as (w' & E & _ & C); try done; try lia.
  change (128 * 0) with 0 in E. change ([] ++ buf) with buf in E. rewrite bind_run, E. exists w'. split; [done|].
  intros x. rewrite C, Z.add_0_r. by apply written_ext.
Qed.

(** *** Erasing *)

(** The memory after [n] erase commands, 256 bytes apart. *)
Definition erased (n : nat) (i addr : Z) (c : cells) : cells := λ x,
  if existsb (λ j, x / 65536 =? (addr + j * 256) / 65536) (seqZ i (Z.of_nat n)) then 255 else c x.

Lemma erase_loop_run n : ∀ i addr w, busy (driver w) = false → 0 <= i → 0 <= addr → addr + (i + Z.of_nat n) * 256 <= 16777216 →
  ∃ w', erase_loop polls n i addr w = Ok (tt, w') ∧ ∀ x, cell (driver w') x = erased n i addr (cell (driver w)) x.
Proof.
  induction n as [|n IH]; intros i addr w Hb Hi Ha Hmax; [by exists w|].
  rewrite erase_loop_step. destruct (erase_run (addr + i * 256) w) as (w1 & E1 & B1 & C1); [done|lia|].
  rewrite bind_run, E1. destruct (IH (i + 1) addr w1) as (w' & E & C); [done|lia|lia|lia|].
  exists w'. split; [done|]. intros x. rewrite C. unfold erased. rewrite (seqZ_cons i) by lia. cbn [existsb].
  replace (Z.pred (Z.of_nat (S n))) with (Z.of_nat n) by lia. replace (Z.succ i) with (i + 1) by lia. rewrite C1.
  unfold erase. destruct (x / 65536 =? (addr + i * 256) / 65536), (existsb _ _); done.
Qed.

Lemma spiEraseSector_run addr n w : 0 <= addr → 0 <= n → addr + n * 256 <= 16777216 →
  ∃ w', spiEraseSector polls addr n w = Ok (Successful, w') ∧
    ∀ x, cell (driver w') x = erased (Z.to_nat n) 0 addr (cell (driver w)) x.
Proof.
  intros Ha Hn Hmax. unfold spiEraseSector.
  destruct (check_busy_run (λ _, _ ← erase_loop polls (Z.to_nat n) 0 addr; mret Successful) w) as (w1 & -> & C1 & B1).
  destruct (erase_loop_run (Z.to_nat n) 0 addr w1) as (w' & E & C); [done|lia|lia|lia|].
  rewrite bind_run, E. exists w'. split; [done|]. intros x. rewrite C. unfold erased. by rewrite C1.
Qed.

(** *** Reading *)

Lemma read_loop_cells n : ∀ i buf w a2 a1 a0 rest, busy (driver w) = false → frame (driver w) = 3 :: a2 :: a1 :: a0 :: rest →
  0 <= i → i + Z.of_nat n <= Z.of_nat (length buf) →
  ∃ w' more, read_loop n i buf w = Ok (take (Z.to_nat i) buf ++
      map (cell (driver w)) (seqZ (address a2 a1 a0 + Z.of_nat (length rest)) (Z.of_nat n)) ++ drop (Z.to_nat i + n) buf, w') ∧
    within w w' more.
Proof.
  induction n as [|n IH]; intros i buf w a2 a1 a0 rest Hb Hf Hi Hl; cbn [read_loop].
  { exists w, []. rewrite seqZ_nil by lia. cbn [map app]. rewrite Nat.add_0_r, take_drop. split; [done|].
    constructor; try done. by rewrite app_nil_r. }
  destruct (send_within 255 8 w) as (w1 & E & W & Hr). change (u32 255) with 255 in *.
  rewrite bind_run, E, get_data_run, Hr, (read_answer _ _ _ _ _ _ Hb Hf), bind_run. unfold lift. rewrite wr_Ok by lia.
  destruct (IH (i + 1) (<[Z.to_nat i := cell (driver w) (address a2 a1 a0 + Z.of_nat (length rest))]> buf) w1 a2 a1 a0 (rest ++ [255]))
    as (w' & more & E' & W'); [by apply (in_idle _ _ _ W)|by rewrite (in_frame _ _ _ W), Hf|lia|rewrite length_insert; lia|].
  rewrite E'. eexists w', _. split; [|by eapply within_trans]. do 2 f_equal.
  replace (Z.to_nat (i + 1)) with (S (Z.to_nat i)) by lia. rewrite take_insert_snoc, insert_drop_lt by lia.
  rewrite (seqZ_cons _ (Z.of_nat (S n))) by lia. cbn [map]. rewrite <- app_assoc. cbn [app].
  rewrite (map_ext _ _ (in_cells _ _ _ W)), length_app. do 3 f_equal; [|f_equal; lia].
  f_equal. f_equal; cbn [length]; lia.
Qed.

Lemma spiRead_run addr len buf w : 0 <= addr → 0 <= len <= Z.of_nat (length buf) → addr < 16777216 →
  ∃ w', spiRead polls addr len buf w =
      Ok ((Successful, map (cell (driver w)) (seqZ addr len) ++ drop (Z.to_nat len) buf), w') ∧
    ∀ x, cell (driver w') x = cell (driver w) x.
Proof.
  intros Ha Hl Hmax. unfold spiRead.
  set (k3 := λ _ : unit, buf ← read_loop (Z.to_nat len) 0 buf; _ ← SpiDeselectCS0; mret (Successful, buf)).
  destruct (check_busy_run (λ _, _ ← SpiSelectCS0; _ ← send 3 8; _ ← send addr 24; k3 tt) w) as (w1 & E1 & C1 & B1).
  destruct (select_run (λ _, _ ← send 3 8; _ ← send addr 24; k3 tt) w1) as (w2 & E2 & F2 & C2 & _ & B2).
  destruct (word_run 3 8 (λ _, _ ← send addr 24; k3 tt) w2 [3] eq_refl) as (w3 & E3 & W3).
  destruct (address_bytes addr) as (a2 & a1 & a0 & Eb & Ea); [lia|].
  destruct (word_run addr 24 k3 w3 _ Eb) as (w4 & E4 & W4). pose proof (within_trans _ _ _ _ _ W3 W4) as W.
  destruct (read_loop_cells (Z.to_nat len) 0 buf w4 a2 a1 a0 []) as (w5 & more & E5 & W5).
  { by apply (in_idle _ _ _ W), B2. } { by rewrite (in_frame _ _ _ W), F2. } { lia. } { lia. }
  pose proof (within_trans _ _ _ _ _ W W5) as W'.
  exists (after w5 (SPI_IOC_SELECTSLAVE 1)). split.
  - etransitivity; [exact E1|]. rewrite E2, E3. etransitivity; [exact E4|]. unfold k3. rewrite bind_run, E5.
    cbn [Z.to_nat take app length Nat.add]. rewrite Ea, Z.add_0_r, Z2Nat.id by lia.
    rewrite (map_ext (cell (driver w4)) (cell (driver w))); [done|]. intros x. by rewrite (in_cells _ _ _ W), C2, C1.
  - intros x. cbn [after driver]. rewrite plain_cells, (in_cells _ _ _ W'), C2, C1; [done|].
    by rewrite (in_frame _ _ _ W'), F2.
Qed.
End flash.

(** ** Claims *)

Section claims.
Context {D : Type} `{Hflash : SerialFlash D}.
Implicit Types w : world spi_data spireq D.

Lemma even_length len : len mod 2 = 0 → 2 * (len / 2) = len.
Proof. intros Hm. pose proof (Z.div_mod len 2). lia. Qed.

Lemma written_read c addr data n : Z.of_nat (length data) = n → Forall is_u8 data →
  (∀ x, addr <= x < addr + n → c x = 255) → map (written c addr data) (seqZ addr n) = data.
Proof.
  intros Hn H8 He. apply list_eq. intros i. rewrite list_lookup_fmap.
  destruct (decide (i < length data)%nat) as [Hi|Hi].
  - rewrite lookup_seqZ_lt by lia. cbn. destruct (lookup_lt_is_Some_2 data i Hi) as [b Hb]. rewrite Hb. f_equal.
    apply written_erased; [lia|by replace (Z.to_nat (addr + Z.of_nat i - addr)) with i by lia|apply He; lia|].
    exact (Forall_lookup_1 _ _ _ _ H8 Hb).
  - rewrite lookup_seqZ_ge, lookup_ge_None_2 by lia. done.
Qed.

(** C30: What is written to a serial flash is read back: with any flash that keeps
    the documented commands, an erased range that starts at a page and an even
    number of bytes, [spiWrite] ends, [spiRead] delivers the bytes, and the
    rest of the flash keeps its contents. *)
Theorem flash_keeps_what_is_written polls addr len buf dst w :
  polled_ready (D:=D) polls → 0 <= len <= Z.of_nat (length buf) → len <= Z.of_nat (length dst) → Forall is_u8 buf →
  0 <= addr → addr mod 256 = 0 → len mod 2 = 0 → addr + len < 16777216 →
  (∀ x, addr <= x < addr + len → cell (driver w) x = 255) →
  ∃ w1 w2, spiWrite polls addr len buf w = Ok (Successful, w1) ∧
    spiRead polls addr len dst w1 = Ok ((Successful, take (Z.to_nat len) buf ++ drop (Z.to_nat len) dst), w2) ∧
    ∀ x, x < addr ∨ addr + len <= x → cell (driver w2) x = cell (driver w) x.
Proof.
  intros Hr Hl Hd H8 Ha Hm He Hmax Her.
  destruct (spiWrite_run polls Hr addr len buf w) as (w1 & E1 & C1); [done|done|done|done|lia|].
  rewrite even_length in C1 by done. set (data := take (Z.to_nat len) buf) in *.
  assert (Z.of_nat (length data) = len) as Hlen by (unfold data; rewrite length_take; lia).
  destruct (spiRead_run polls Hr addr len dst w1) as (w2 & E2 & C2); [done|lia|lia|].
  exists w1, w2. split; [done|]. split.
  - rewrite E2, (map_ext _ _ C1), written_read; [done|done|by apply Forall_take|done].
  - intros x Hx. rewrite C2, C1. apply written_outside. lia.
Qed.

(** The address must be that of a page: from any other one the bytes that do not
    fit into the page are written to its beginning instead of to the next page. *)
Lemma unaligned_write_wraps polls page o d1 d2 w :
  polled_ready (D:=D) polls → page mod 256 = 0 → 0 <= page → page + 256 < 16777216 → 0 < o < 256 →
  Z.of_nat (length d1) = 256 - o → Z.of_nat (length d2) = o → Forall is_u8 (d1 ++ d2) →
  ∃ w', spiWrite polls (page + o) 256 (d1 ++ d2) w = Ok (Successful, w') ∧
    ∀ x, cell (driver w') x = written (written (cell (driver w)) (page + o) d1) page d2 x.
Proof.
  intros Hr Hm Hp Hmax Ho H1 H2 H8. unfold spiWrite. change (256 / 256 + _) with 1. change (Z.to_nat 1) with 1%nat.
  destruct (check_busy_run polls Hr (λ _, _ ← write_loop polls 1 0 (page + o) 256 (d1 ++ d2) 0; mret Successful) w)
    as (w1 & -> & C1 & B1).
  rewrite bind_run, write_loop_step. cbn [Z.leb Z.compare Pos.compare Pos.compare_cont].
  rewrite Z.mul_0_l, Z.add_0_r.
  destruct (program_run polls Hr (Z.to_nat 128) (page + o) [] (d1 ++ d2) 0 w1) as (w2 & E & _ & C);
    [done|lia|done|rewrite length_app; lia|done|].
  rewrite bind_run. change ([] ++ d1 ++ d2) with (d1 ++ d2) in E. rewrite E. cbn [write_loop]. rewrite !mret_run.
  exists w2. split; [done|]. intros x. rewrite C, take_ge by (rewrite length_app; lia).
  assert ((page + o) mod 256 = o) as -> by (rewrite <- Zplus_mod_idemp_l, Hm, Z.add_0_l; apply Z.mod_small; lia).
  replace (page + o - o) with page by lia. rewrite program_app. replace (o + Z.of_nat (length d1)) with (0 + 256) by lia.
  rewrite program_period, program_written, Z.add_0_r by lia. apply written_ext. intros y.
  rewrite program_written by lia. by apply written_ext.
Qed.

(** Asking for the identification and the status changes nothing. *)
Lemma spiReadID_run w : ∃ id w', spiReadID w = Ok (id, w') ∧ ∀ x, cell (driver w') x = cell (driver w) x.
Proof.
  unfold spiReadID.
  destruct (select_run (λ _, _ ← send 144 8; _ ← send 0 24; _ ← send 65535 16; d ← SpiGetData;
    _ ← SpiDeselectCS0; mret (u16 (Z.land d 65535))) w) as (w1 & -> & F1 & C1 & _).
  destruct (word_run 144 8 (λ _, _ ← send 0 24; _ ← send 65535 16; d ← SpiGetData;
    _ ← SpiDeselectCS0; mret (u16 (Z.land d 65535))) w1 [144] eq_refl) as (w2 & -> & W2).
  destruct (word_run 0 24 (λ _, _ ← send 65535 16; d ← SpiGetData;
    _ ← SpiDeselectCS0; mret (u16 (Z.land d 65535))) w2 _ eq_refl) as (w3 & -> & W3).
  destruct (word_run 65535 16 (λ _, d ← SpiGetData;
    _ ← SpiDeselectCS0; mret (u16 (Z.land d 65535))) w3 _ eq_refl) as (w4 & -> & W4).
  pose proof (within_trans _ _ _ _ _ W2 (within_trans _ _ _ _ _ W3 W4)) as W.
  rewrite get_data_run. eexists _, _. split; [reflexivity|]. intros x. cbn [after driver].
  rewrite plain_cells, (in_cells _ _ _ W), C1; [done|]. by rewrite (in_frame _ _ _ W), F1.
Qed.

Lemma spiStatusRead_run w : ∃ st w', spiStatusRead w = Ok (st, w') ∧ ∀ x, cell (driver w') x = cell (driver w) x.
Proof.
  unfold spiStatusRead.
  destruct (select_run (λ _, _ ← send 5 8; _ ← send 255 8; d ← SpiGetData;
    _ ← SpiDeselectCS0; mret (u8 (Z.land d 255))) w) as (w1 & -> & F1 & C1 & _).
  destruct (word_run 5 8 (λ _, _ ← send 255 8; d ← SpiGetData;
    _ ← SpiDeselectCS0; mret (u8 (Z.land d 255))) w1 [5] eq_refl) as (w2 & -> & W2).
  destruct (word_run 255 8 (λ _, d ← SpiGetData;
    _ ← SpiDeselectCS0; mret (u8 (Z.land d 255))) w2 _ eq_refl) as (w3 & -> & W3).
  pose proof (within_trans _ _ _ _ _ W2 W3) as W.
  rewrite get_data_run. eexists _, _. split; [reflexivity|]. intros x. cbn [after driver].
  rewrite plain_cells, (in_cells _ _ _ W), C1; [done|]. by rewrite (in_frame _ _ _ W), F1.
Qed.

Lemma compare_same l : ∀ i, compare_loop i l l = None.
Proof. induction l as [|x l IH]; intros i; cbn [compare_loop]; [done|]. rewrite Z.eqb_refl. apply IH. Qed.

Lemma length_test_pattern : Z.of_nat (length test_pattern) = FLASH_BUFFER_SIZE.
Proof. unfold test_pattern. rewrite length_map, length_seq, Z2Nat.id; done. Qed.

Lemma test_pattern_lookup x : 0 <= x < FLASH_BUFFER_SIZE → test_pattern !! Z.to_nat x = Some (x mod 256).
Proof.
  intros Hx. unfold test_pattern. rewrite list_lookup_fmap, lookup_seq_lt by lia. cbn.
  unfold u8. by rewrite Z2Nat.id by lia.
Qed.

Lemma test_pattern_u8 : Forall is_u8 test_pattern.
Proof. unfold test_pattern. apply Forall_map, Forall_true. intros. apply u8_range. Qed.

Lemma erased_sector c x : erased 8 0 0 c x = if x / 65536 =? 0 then 255 else c x.
Proof.
  unfold erased. change (seqZ 0 (Z.of_nat 8)) with [0; 1; 2; 3; 4; 5; 6; 7]. cbn [existsb].
  repeat match goal with |- context [(0 + ?j * 256) / 65536] => change ((0 + j * 256) / 65536) with 0 end.
  by destruct (x / 65536 =? 0).
Qed.

(** Writing the pattern and reading it back, from an erased range. *)
Lemma flash_write_read polls w : polled_ready (D:=D) polls → (∀ x, 0 <= x < FLASH_BUFFER_SIZE → cell (driver w) x = 255) →
  ∃ w1 w2, spiWrite polls 0 FLASH_BUFFER_SIZE test_pattern w = Ok (Successful, w1) ∧
    spiRead polls 0 FLASH_BUFFER_SIZE (replicate (Z.to_nat FLASH_BUFFER_SIZE) 0) w1 = Ok ((Successful, test_pattern), w2) ∧
    ∀ x, cell (driver w2) x = written (cell (driver w)) 0 test_pattern x.
Proof.
  intros Hr Her. pose proof length_test_pattern as Hlen.
  assert (0 <= FLASH_BUFFER_SIZE) by done.
  destruct (spiWrite_run polls Hr 0 FLASH_BUFFER_SIZE test_pattern w) as (w1 & E1 & C1);
    [lia|apply test_pattern_u8|done|done|done|].
  rewrite even_length, take_ge in C1 by (done || lia).
  destruct (spiRead_run polls Hr 0 FLASH_BUFFER_SIZE (replicate (Z.to_nat FLASH_BUFFER_SIZE) 0) w1) as (w2 & E2 & C2);
    [done|rewrite length_replicate; lia|done|].
  exists w1, w2. split; [done|]. split; [|intros x; by rewrite C2, C1].
  rewrite E2, (map_ext _ _ C1), written_read; [|done|apply test_pattern_u8|done].
  by rewrite drop_ge, app_nil_r by (rewrite length_replicate; lia).
Qed.

(** The demo succeeds on every serial flash that keeps the documented commands:
    [main] ends, the comparison finds no difference, and afterwards the flash
    holds the pattern in its first 2048 bytes.  The price is the rest of the
    first 64 kilobytes, which are erased (eight times); nothing else changes. *)
Theorem flash_test_passes polls w :
  polled_ready (D:=D) polls → 0 <= (respond (driver w) SpiOpen).2 →
  ∃ id status w', main polls w = Ok ((0, Some (id, status, None)), w') ∧
    ∀ x, 0 <= x → cell (driver w') x =
      if x <? FLASH_BUFFER_SIZE then x mod 256 else if x <? 65536 then 255 else cell (driver w) x.
Proof.
  intros Hr Ho. unfold main. rewrite request_run. unfold answer. rewrite (proj2 (Z.ltb_ge _ _)) by done.
  rewrite request_run, request_run. set (w0 := after _ SPI_IOC_GETPARAMETER).
  assert (∀ x, cell (driver w0) x = cell (driver w) x) as C0.
  { intros x. unfold w0. cbn [after driver]. by rewrite !cells_kept. }
  unfold spiFlashTest. destruct (spiReadID_run w0) as (id & w1 & E1 & C1).
  destruct (spiStatusRead_run w1) as (st & w2 & E2 & C2). exists id, st.
  rewrite bind_run, bind_run, E1, bind_run, E2.
  change (FLASH_BUFFER_SIZE / 256 + _) with 8.
  destruct (spiEraseSector_run polls Hr 0 8 w2) as (w3 & E3 & C3); [lia..|]. rewrite bind_run, E3.
  destruct (flash_write_read polls w3 Hr) as (w4 & w5 & E4 & E5 & C5).
  { intros x Hx. unfold FLASH_BUFFER_SIZE in Hx. rewrite C3. change (Z.to_nat 8) with 8%nat. rewrite erased_sector, Z.div_small by lia. done. }
  rewrite bind_run, E4, bind_run, E5. cbn [snd]. rewrite mret_run, compare_same, request_run, mret_run.
  eexists. split; [done|]. intros x Hx. cbn [after driver]. rewrite cells_kept, C5 by done.
  unfold written. rewrite Z.sub_0_r, (proj2 (Z.leb_le _ _)) by done. rewrite C3. change (Z.to_nat 8) with 8%nat. rewrite erased_sector.
  destruct (Z.ltb_spec x FLASH_BUFFER_SIZE) as [Hx'|Hx'].
  - rewrite test_pattern_lookup by done. unfold FLASH_BUFFER_SIZE in Hx'. rewrite Z.div_small by lia. cbn [Z.eqb].
    rewrite Z.land_comm. change 255 with (Z.ones 8). rewrite Z.land_ones by lia. by rewrite Z.mod_mod.
  - rewrite lookup_ge_None_2 by (pose proof length_test_pattern; lia).
    destruct (Z.ltb_spec x 65536); [by rewrite Z.div_small by lia|].
    rewrite (proj2 (Z.eqb_neq _ _)); [by rewrite C2, C1, C0|].
    assert (1 <= x / 65536) by (apply Z.div_le_lower_bound; lia). lia.
Qed.
End claims.

(** ** Witnesses *)

(** A flash with erased memory that is busy for one poll after an operation. *)
Record sample_flash := SampleFlash { s_cell : cells; s_frame : list Z; s_latch : bool; s_busy : bool }.

Definition sample_answer (d : sample_flash) (bits : Z) : Z :=
  match s_frame d with
  | 5 :: _ => if s_busy d then 1 else 0
  | 3 :: a2 :: a1 :: a0 :: rest => Z.land (s_cell d (address a2 a1 a0 + Z.of_nat (length rest))) 255
  | _ => 0
  end.

Definition sample_end (d : sample_flash) : sample_flash :=
  if s_busy d then SampleFlash (s_cell d) [] (s_latch d) true
  else SampleFlash (effect (s_frame d) (s_latch d) (s_cell d)) []
         (match s_frame d with 6 :: _ => true | _ => false end) (negb (plain_command (s_frame d))).

#[local] Instance sample_flash_driver : Driver spireq spireply sample_flash := λ d r,
  match r return sample_flash * spireply r with
  | SPI_IOC_SELECTSLAVE a =>
      (if a =? 0 then SampleFlash (s_cell d) [] (s_latch d) (s_busy d) else if a =? 1 then sample_end d else d, tt)
  | SPI_IOC_TRANSIT w b =>
      (SampleFlash (s_cell d) (s_frame d ++ bus_bytes w b) (s_latch d)
         (match s_frame d with 5 :: _ => false | _ => s_busy d end), sample_answer d b)
  | SpiOpen => (d, 3)
  | SPI_IOC_GETPARAMETER => (d, demo_parameter)
  | _ => (d, tt)
  end.

Definition mask (c : cells) : cells := λ x, Z.land (c x) 255.
Lemma program_mask data : ∀ c page off x, program (mask c) page off data x = mask (program c page off data) x.
Proof.
  induction data as [|b data IH]; intros c page off x; cbn [program]; [done|].
  rewrite <- IH. apply program_ext. intros y. unfold store, mask. destruct (_ =? _); [|done].
  rewrite <- !Z.land_assoc. f_equal. apply Z.land_comm.
Qed.
Lemma effect_mask f l c x : effect f l (mask c) x = mask (effect f l c) x.
Proof.
  assert (∀ a, erase (mask c) a x = mask (erase c a) x) as He by (intros a; unfold erase, mask; by destruct (_ =? _)).
  unfold effect. repeat case_match; try done; by apply program_mask.
Qed.

Lemma sample_serial_flash : SerialFlash sample_flash.
Proof.
  refine (Build_SerialFlash _ _ (λ d, mask (s_cell d)) s_frame s_latch s_busy _ _ _ _ _ _ _ _ _ _ _ _).
  - done.
  - done.
  - done.
  - done.
  - intros d r x Hr. destruct r as [a| | | | |]; try done. cbn. destruct (Z.eqb_spec a 0); [done|].
    by destruct (Z.eqb_spec a 1); [subst|].
  - intros d r Hr Hb. destruct r as [a| | | | |]; try done; cbn.
    + destruct (Z.eqb_spec a 0); [done|]. by destruct (Z.eqb_spec a 1); [subst|].
    + by repeat case_match.
  - intros d w rest E. cbn. unfold sample_answer. rewrite E. by destruct (s_busy d).
  - intros d w a2 a1 a0 rest Hb E. cbn. unfold sample_answer. rewrite E. unfold mask. rewrite <- Z.land_assoc. done.
  - intros d x Hb. cbn. unfold sample_end. rewrite Hb. cbn. symmetry. apply effect_mask.
  - intros d x Hp. cbn. unfold sample_end. destruct (s_busy d); [done|]. cbn. unfold mask. f_equal. unfold effect.
    destruct (s_latch d); [|done]. unfold plain_command in Hp. destruct (s_frame d) as [|c l]; [done|].
    apply bool_decide_eq_true in Hp. rewrite !elem_of_cons in Hp.
    by destruct Hp as [->|[->|[->|[->|[->|[->|Hp]]]]]]; [..|set_solver].
  - intros d Hp Hb. cbn. unfold sample_end. rewrite Hb. cbn. by rewrite Hp.
  - intros d rest Hb E. cbn. unfold sample_end. rewrite Hb, E. done.
Defined.

Lemma sample_polled : polled_ready (D:=sample_flash) 2.
Proof. intros d. cbn. destruct (s_busy d); cbn; [right; left|left]; done. Qed.

Definition blank_flash : world spi_data spireq sample_flash :=
  World (SpiData 0 0 0) (SampleFlash (λ _, 255) [] false false) [].

Lemma flash_keeps_what_is_written_witness :
  ∃ w1 w2, spiWrite 2 512 4 [1; 2; 3; 4; 5] blank_flash = Ok (Successful, w1) ∧
    spiRead 2 512 4 [9; 9; 9; 9; 9] w1 = Ok ((Successful, [1; 2; 3; 4; 9]), w2).
Proof.
  destruct (@flash_keeps_what_is_written _ _ sample_serial_flash 2 512 4 [1; 2; 3; 4; 5] [9; 9; 9; 9; 9] blank_flash)
    as (w1 & w2 & E1 & E2 & _); [exact sample_polled|done|done|by apply (bool_decide_unpack _); vm_compute|done..|].
  exists w1, w2. split; [exact E1|exact E2].
Defined.

Lemma flash_test_passes_witness :
  ∃ id status w', main 2 blank_flash = Ok ((0, Some (id, status, None)), w') ∧ mask (s_cell (driver w')) 300 = 44.
Proof.
  destruct (@flash_test_passes _ _ sample_serial_flash 2 blank_flash) as (id & status & w' & E & C);
    [exact sample_polled|done|].
  exists id, status, w'. split; [exact E|]. exact (C 300 ltac:(done)).
Defined.
