(* ===== verification/HidGadget.v ===== *)
(** * HidGadget: the USB HID gadget test program

    Models src/hid_gadget_test/main.c: the command lines that are turned into
    keyboard, mouse and joystick reports and the loop that sends them.  A line
    is a string of bytes and is split with strtok; a report is an array of
    eight bytes.  Standard input and the gadget's device are a [Driver]. *)
From S2P Require Import Prelude LibC Device.
Local Open Scope cmodel_scope.
Local Open Scope Z_scope.

(** ** Tables: struct options without the closing NULL entry *)

Definition options : Type := list (list Z * Z).

Definition kmod : options :=
  [(lit "--left-ctrl", 1); (lit "--right-ctrl", 16); (lit "--left-shift", 2); (lit "--right-shift", 32);
   (lit "--left-alt", 4); (lit "--right-alt", 64); (lit "--left-meta", 8); (lit "--right-meta", 128)].

Definition kval : options :=
  [(lit "--return", 40); (lit "--esc", 41); (lit "--bckspc", 42); (lit "--tab", 43); (lit "--spacebar", 44);
   (lit "--caps-lock", 57); (lit "--f1", 58); (lit "--f2", 59); (lit "--f3", 60); (lit "--f4", 61);
   (lit "--f5", 62); (lit "--f6", 63); (lit "--f7", 64); (lit "--f8", 65); (lit "--f9", 66); (lit "--f10", 67);
   (lit "--f11", 68); (lit "--f12", 69); (lit "--insert", 73); (lit "--home", 74); (lit "--pageup", 75);
   (lit "--del", 76); (lit "--end", 77); (lit "--pagedown", 78); (lit "--right", 79); (lit "--left", 80);
   (lit "--down", 81); (lit "--kp-enter", 88); (lit "--up", 82); (lit "--num-lock", 83)].

Definition mmod : options := [(lit "--b1", 1); (lit "--b2", 2); (lit "--b3", 4)].

Definition jmod : options :=
  [(lit "--b1", 16); (lit "--b2", 32); (lit "--b3", 64); (lit "--b4", 128); (lit "--hat1", 0);
   (lit "--hat2", 1); (lit "--hat3", 2); (lit "--hat4", 3); (lit "--hatneutral", 4)].

(** The loop over a table: the value of the first entry with the name. *)
Definition find_opt (t : options) (tok : list Z) : option Z :=
  snd <$> List.find (λ e, str_eqb tok e.1) t.

(** ** Reports *)

(** The report, the number of keys or movements so far, and [*hold]. *)
Record filling := Filling { report : list Z; count : Z; hold : Z }.

(** What a turn of the loop over the tokens does. *)
Inductive turn := Quit | Next (f : filling).

Definition is_quit (tok : list Z) : bool := str_eqb tok (lit "--quit").
Definition is_hold (tok : list Z) : bool := str_eqb tok (lit "--hold").
Definition set_hold (f : filling) : filling := Filling (report f) (count f) 1.

(** [report[0] = report[0] | val] *)
Definition or_first (f : filling) (val : Z) : result filling :=
  r0 ← rd (report f) 0; r ← wr (report f) 0 (u8 (Z.lor r0 val)); Ok (Filling r (count f) (hold f)).

(** [report[2 + key++] = val] *)
Definition put_key (f : filling) (val : Z) : result filling :=
  r ← wr (report f) (2 + count f) (u8 val); Ok (Filling r (count f + 1) (hold f)).

Definition tok0 (tok : list Z) : Z := nth 0 tok 0.
Definition tok1 (tok : list Z) : Z := nth 1 tok 0.

Definition keyboard_token (f : filling) (tok : list Z) : result turn :=
  if is_quit tok then Ok Quit else
  if is_hold tok then Ok (Next (set_hold f)) else
  match (if count f <? 6 then find_opt kval tok else None) with
  | Some v => f ← put_key f v; Ok (Next f)
  | None =>
      if (count f <? 6) && islower (tok0 tok) then f ← put_key f (tok0 tok - (97 - 4)); Ok (Next f) else
      match find_opt kmod tok with
      | Some v => f ← or_first f v; Ok (Next f)
      | None => Ok (Next f)
      end
  end.

(** A number into [report[base + mvt++]]; when strtol reports an error the
    entry [report[base + mvt--]] is set to 0. *)
Definition put_number (base : Z) (f : filling) (tok : list Z) : result filling :=
  let '(v, erange) := strtol 0 tok in
  r ← wr (report f) (base + count f) (u8 v);
  let mvt := count f + 1 in
  if erange then r ← wr r (base + mvt) 0; Ok (Filling r (mvt - 1) (hold f))
  else Ok (Filling r mvt (hold f)).

Definition is_dashed (tok : list Z) : bool := (tok0 tok =? 45) && (tok1 tok =? 45).

Definition mouse_token (f : filling) (tok : list Z) : result turn :=
  if is_quit tok then Ok Quit else
  if is_hold tok then Ok (Next (set_hold f)) else
  match find_opt mmod tok with
  | Some v => f ← or_first f v; Ok (Next f)
  | None =>
      if negb (is_dashed tok) && (count f <? 2) then f ← put_number 1 f tok; Ok (Next f)
      else Ok (Next f)
  end.

(** [report[3] = (report[3] & 0xF0) | val] *)
Definition put_hat (f : filling) (val : Z) : result filling :=
  r3 ← rd (report f) 3; r ← wr (report f) 3 (u8 (Z.lor (Z.land r3 240) val)); Ok (Filling r (count f) (hold f)).

Definition joystick_token (f : filling) (tok : list Z) : result turn :=
  if is_quit tok then Ok Quit else
  match find_opt jmod tok with
  | Some v => f ← put_hat f v; Ok (Next f)
  | None =>
      if negb (is_dashed tok) && (count f <? 3) then f ← put_number 0 f tok; Ok (Next f)
      else Ok (Next f)
  end.

(** The loop over the tokens of the line; the number of bytes is returned, -1
    after --quit. *)
Fixpoint token_loop (fuel : nat) (step : filling → list Z → result turn) (len : Z) (line : list Z)
    (f : filling) : result (Z * filling) :=
  match strtok [32] line with
  | None => Ok (len, f)
  | Some (tok, rest) =>
      match fuel with
      | O => Crash OutOfFuel
      | S fuel =>
          t ← step f tok;
          match t with
          | Quit => Ok (-1, f)
          | Next f => token_loop fuel step len rest f
          end
      end
  end.

Definition keyboard_fill_report (rep line : list Z) (hold : Z) : result (Z * filling) :=
  token_loop (S (length line)) keyboard_token 8 line (Filling rep 0 hold).

Definition mouse_fill_report (rep line : list Z) (hold : Z) : result (Z * filling) :=
  token_loop (S (length line)) mouse_token 3 line (Filling rep 0 hold).

Definition joystick_fill_report (rep line : list Z) (_ : Z) : result (Z * filling) :=
  rep ← wr rep 3 4; token_loop (S (length line)) joystick_token 4 line (Filling rep 0 1).

(** ** The program *)

Inductive hreq :=
| HOpen
| HSelect
| HReadDevice
| HReadStdin
| HWrite (bytes : list Z)
| HClose.

(** [select] returns its result, whether errno is EINTR, and which of the
    device and standard input are readable; a read returns the bytes, [None]
    for an error. *)
Definition hreply (r : hreq) : Type :=
  match r with
  | HSelect => Z * bool * bool * bool
  | HReadDevice | HReadStdin => option (list Z)
  | _ => Z
  end.

(** The first letter of the second argument. *)
Inductive device := Keyboard | Mouse | Joystick.

Definition fill_report (k : device) (rep line : list Z) (hold : Z) : result (Z * filling) :=
  match k with
  | Keyboard => keyboard_fill_report rep line hold
  | Mouse => mouse_fill_report rep line hold
  | Joystick => joystick_fill_report rep line hold
  end.

Definition device_of (c : Z) : option device :=
  if c =? 107 then Some Keyboard else if c =? 109 then Some Mouse else if c =? 106 then Some Joystick else None.

Section main.
Context {D : Type} `{Driver hreq hreply D}.
Notation P := (prog unit hreq D).

Definition zeros : list Z := replicate 8 0.

(** A line from standard input: [Some v] when the program leaves the loop with
    [v], where 0 stands for the break. *)
Definition handle_line (k : device) : P (option Z) :=
  data ⇐ HReadStdin;
  match data with
  | None => fault OutOfBounds
  | Some [] => mret (Some 0)
  | Some data =>
      r ← lift (fill_report k zeros (cstr (take (length data - 1) data)) 0);
      let '(to_send, f) := r in
      if to_send =? -1 then mret (Some 0) else
      n ⇐ HWrite (take (Z.to_nat to_send) (report f));
      if negb (n =? to_send) then mret (Some 5) else
      if hold f =? 0 then
        n ⇐ HWrite (take (Z.to_nat to_send) zeros);
        if negb (n =? to_send) then mret (Some 6) else mret None
      else mret None
  end.

Fixpoint main_loop (fuel : nat) (k : device) : P Z :=
  match fuel with
  | O => fault OutOfFuel
  | S fuel =>
      s ⇐ HSelect;
      let '(retval, eintr, dev_ready, stdin_ready) := s in
      if (retval =? -1) && eintr then main_loop fuel k else
      if retval <? 0 then mret 4 else
      _ ← (if (dev_ready : bool) then _ ⇐ HReadDevice; mret tt else mret tt);
      r ← (if (stdin_ready : bool) then handle_line k else mret None);
      match r with
      | Some v => if v =? 0 then _ ⇐ HClose; mret 0 else mret v
      | None => main_loop fuel k
      end
  end.

(** [args] are the arguments after the program's name. *)
Definition main (fuel : nat) (args : list (list Z)) : P Z :=
  match args with
  | _ :: a2 :: _ =>
      match device_of (nth 0 a2 0) with
      | None => mret 2
      | Some k =>
          fd ⇐ HOpen;
          if fd =? -1 then mret 3 else main_loop fuel k
      end
  | _ => mret 1
  end.
End main.

(** ** What a keyboard line means *)

(** The tokens of a line. *)
Fixpoint tokens (fuel : nat) (line : list Z) : list (list Z) :=
  match fuel with
  | O => []
  | S fuel => match strtok [32] line with None => [] | Some (tok, rest) => tok :: tokens fuel rest end
  end.

Definition key_of (tok : list Z) : option Z :=
  match find_opt kval tok with
  | Some v => Some v
  | None => if islower (tok0 tok) then Some (tok0 tok - 93) else None
  end.

Definition modifiers (toks : list (list Z)) : Z := foldr Z.lor 0 (omap (find_opt kmod) toks).

(** Six key codes after the modifiers and a zero, padded with zeros. *)
Definition keyboard_report (toks : list (list Z)) : list Z :=
  let keys := take 6 (omap key_of toks) in modifiers toks :: 0 :: keys ++ replicate (6 - length keys) 0.

(** The loop with the tokens as a list. *)
Fixpoint run_tokens (step : filling → list Z → result turn) (len : Z) (toks : list (list Z)) (f : filling)
    : result (Z * filling) :=
  match toks with
  | [] => Ok (len, f)
  | tok :: toks =>
      t ← step f tok;
      match t with Quit => Ok (-1, f) | Next f => run_tokens step len toks f end
  end.

Lemma token_loop_tokens fuel step len line f : (length line < fuel)%nat →
  token_loop fuel step len line f = run_tokens step len (tokens fuel line) f.
Proof.
  revert line f. induction fuel as [|fuel IH]; intros line f Hf; [lia|].
  cbn [token_loop tokens]. destruct (strtok [32] line) as [[tok rest]|] eqn:E; [|done].
  cbn [run_tokens]. apply strtok_shrinks in E. destruct (step f tok) as [[|f']|]; [done| |done].
  cbn [mbind result_bind]. apply IH. lia.
Qed.

(** The tables: no modifier, and neither --hold nor --quit, is a key; the
    values are bytes. *)
Lemma find_opt_In t tok v : find_opt t tok = Some v → (tok, v) ∈ t.
Proof.
  unfold find_opt. intros E. apply fmap_Some in E as ([n w] & E & ->).
  apply List.find_some in E as [Hin Heq]. cbn in *. apply str_eqb_eq in Heq as ->. by apply list_elem_of_In.
Qed.

Lemma kmod_not_key tok v : find_opt kmod tok = Some v → key_of tok = None ∧ 0 <= v < 256 ∧ is_hold tok = false ∧ is_quit tok = false.
Proof.
  intros Hin%find_opt_In. revert tok v Hin.
  assert (Forall (λ e, key_of e.1 = None ∧ (0 <=? e.2) && (e.2 <? 256) = true ∧ is_hold e.1 = false ∧ is_quit e.1 = false) kmod) as HF.
  { apply (bool_decide_unpack _). vm_compute. exact I. }
  intros tok v Hin. rewrite Forall_forall in HF. destruct (HF _ Hin) as (? & Hr & ?). cbn in *. zcmp. auto with lia.
Qed.

Lemma key_of_range tok v : key_of tok = Some v → 0 <= v < 256.
Proof.
  unfold key_of. destruct (find_opt kval tok) eqn:E.
  - intros [= <-]. apply find_opt_In in E.
    assert (Forall (λ e, (0 <=? e.2) && (e.2 <? 256) = true) kval) as HF.
    { apply (bool_decide_unpack _). vm_compute. exact I. }
    rewrite Forall_forall in HF. specialize (HF _ E). cbn in HF. zcmp. lia.
  - destruct (islower (tok0 tok)) eqn:El; [|done]. intros [= <-]. unfold islower in El. zcmp. lia.
Qed.

(** The state after a prefix of the line: modifiers, key codes and hold. *)
Definition kb_state (m : Z) (keys : list Z) (h : Z) : filling :=
  Filling (m :: 0 :: keys ++ replicate (6 - length keys) 0) (Z.of_nat (length keys)) h.

Lemma put_key_state m keys h v : (length keys < 6)%nat → is_u8 v →
  put_key (kb_state m keys h) v = Ok (kb_state m (keys ++ [v]) h).
Proof.
  intros Hk Hv. unfold put_key, kb_state. cbn [report count hold].
  rewrite wr_Ok by (cbn [length]; rewrite length_app, length_replicate; lia). cbn [mbind result_bind].
  rewrite length_app, u8_id by done. cbn [length].
  replace (Z.to_nat (2 + Z.of_nat (length keys))) with (S (S (length keys))) by lia.
  change (<[S (S (length keys)) := v]> (m :: 0 :: ?l)) with (m :: 0 :: <[length keys := v]> l).
  rewrite insert_app_r_alt, Nat.sub_diag by lia.
  replace (6 - length keys)%nat with (S (6 - (length keys + 1))) by lia.
  cbn [replicate insert list_insert]. rewrite <- app_assoc. do 2 f_equal. lia.
Qed.

Lemma or_first_state m keys h v : is_u8 m → is_u8 v →
  or_first (kb_state m keys h) v = Ok (kb_state (Z.lor m v) keys h).
Proof.
  intros Hm Hv. unfold or_first, kb_state. cbn [report count hold].
  change (rd (m :: ?l) 0) with (Ok m). cbn [mbind result_bind].
  rewrite wr_Ok by (cbn [length]; lia). cbn [mbind result_bind Z.to_nat insert list_insert].
  by rewrite (proj1 (lor_u8 m v Hm Hv)).
Qed.

Lemma hold_is_plain tok : is_hold tok = true → key_of tok = None ∧ find_opt kmod tok = None.
Proof. intros ->%str_eqb_eq. done. Qed.

Definition new_hold (toks : list (list Z)) (h : Z) : Z := if existsb is_hold toks then 1 else h.

Lemma keyboard_token_state m keys h tok : is_u8 m → (length keys <= 6)%nat → is_quit tok = false →
  keyboard_token (kb_state m keys h) tok =
    Ok (Next (kb_state (Z.lor m (default 0 (find_opt kmod tok)))
                (take 6 (keys ++ option_list (key_of tok))) (if is_hold tok then 1 else h))).
Proof.
  intros Hm Hk Hq. unfold keyboard_token. rewrite Hq.
  assert (take 6 keys = keys) as Htk by (apply take_ge; lia).
  destruct (is_hold tok) eqn:Hh.
  { destruct (hold_is_plain tok Hh) as [-> ->]. cbn [default option_list from_option].
    rewrite Z.lor_0_r, app_nil_r, Htk. done. }
  cbn [count kb_state]. fold (kb_state m keys h).
  destruct (find_opt kmod tok) as [v|] eqn:Hmod.
  - destruct (kmod_not_key tok v Hmod) as (Hkey & Hv & _). rewrite Hkey. cbn [default option_list].
    rewrite app_nil_r, Htk. unfold key_of in Hkey. destruct (find_opt kval tok); [done|].
    destruct (islower (tok0 tok)); [done|]. rewrite andb_false_r.
    replace (if Z.of_nat (length keys) <? 6 then None else None) with (@None Z) by (by destruct (_ <? _)).
    rewrite or_first_state by done. done.
  - cbn [default]. rewrite Z.lor_0_r.
    destruct (Z.ltb_spec (Z.of_nat (length keys)) 6) as [Hlt|Hge].
    + destruct (key_of tok) as [v|] eqn:Hkey; cbn [option_list].
      * pose proof (key_of_range _ _ Hkey). rewrite (take_ge (keys ++ [v])) by (rewrite length_app; cbn; lia).
        unfold key_of in Hkey. destruct (find_opt kval tok) as [v'|].
        -- injection Hkey as ->. rewrite put_key_state by (lia || done). done.
        -- destruct (islower (tok0 tok)); [|done]. injection Hkey as <-. cbn [andb].
           change (97 - 4) with 93. rewrite put_key_state by (lia || done). done.
      * rewrite app_nil_r, Htk. unfold key_of in Hkey. destruct (find_opt kval tok); [done|].
        by destruct (islower (tok0 tok)).
    + cbn [andb]. rewrite take_app_le by lia. by rewrite Htk.
Qed.

Lemma run_keyboard toks m keys h : is_u8 m → (length keys <= 6)%nat → existsb is_quit toks = false →
  run_tokens keyboard_token 8 toks (kb_state m keys h) =
    Ok (8, kb_state (Z.lor m (modifiers toks)) (take 6 (keys ++ omap key_of toks)) (new_hold toks h)).
Proof.
  revert m keys h. induction toks as [|tok toks IH]; intros m keys h Hm Hk Hq; cbn [run_tokens].
  { cbn. rewrite Z.lor_0_r, app_nil_r, (take_ge keys) by lia. done. }
  cbn [existsb] in Hq. apply orb_false_iff in Hq as [Hq1 Hq2].
  rewrite keyboard_token_state by done. cbn [mbind result_bind].
  rewrite IH; [|destruct (find_opt kmod tok) eqn:E; cbn; rewrite ?Z.lor_0_r; [|done]|rewrite length_take; lia|done].
  - do 3 f_equal.
    + unfold modifiers. cbn [omap list_omap]. destruct (find_opt kmod tok) as [v|]; cbn [default foldr];
        rewrite ?Z.lor_0_r; [|done]. by rewrite Z.lor_assoc.
    + assert (omap key_of (tok :: toks) = option_list (key_of tok) ++ omap key_of toks) as ->
        by (cbn; by destruct (key_of tok)).
      rewrite app_assoc. generalize (keys ++ option_list (key_of tok)). intros l.
      destruct (Nat.le_gt_cases (length l) 6).
      * by rewrite (take_ge l) by lia.
      * rewrite (take_app_le l) by lia. rewrite take_app_le by (rewrite length_take; lia).
        by rewrite take_take.
    + unfold new_hold. cbn [existsb]. by destruct (is_hold tok), (existsb is_hold toks).
  - apply lor_u8; [done|]. by apply (kmod_not_key tok).
Qed.

Lemma run_keyboard_quit toks m keys h : is_u8 m → (length keys <= 6)%nat → existsb is_quit toks = true →
  ∃ f, run_tokens keyboard_token 8 toks (kb_state m keys h) = Ok (-1, f).
Proof.
  revert m keys h. induction toks as [|tok toks IH]; intros m keys h Hm Hk Hq; [done|]. cbn [run_tokens].
  cbn [existsb] in Hq. destruct (is_quit tok) eqn:E.
  { unfold keyboard_token. rewrite E. eexists. reflexivity. }
  rewrite keyboard_token_state by done. cbn [mbind result_bind]. apply IH; [|rewrite length_take; lia|done].
  destruct (find_opt kmod tok) eqn:Em; cbn; rewrite ?Z.lor_0_r; [|done].
  apply lor_u8; [done|]. by apply (kmod_not_key tok).
Qed.

Lemma keyboard_fill_run line h :
  let toks := tokens (S (length line)) line in
  if existsb is_quit toks then ∃ f, keyboard_fill_report zeros line h = Ok (-1, f)
  else ∃ n, keyboard_fill_report zeros line h = Ok (8, Filling (keyboard_report toks) n (new_hold toks h)).
Proof.
  intros toks. unfold keyboard_fill_report. rewrite token_loop_tokens by lia. fold toks.
  change (Filling zeros 0 h) with (kb_state 0 [] h).
  destruct (existsb is_quit toks) eqn:Hq; [apply run_keyboard_quit; [done|cbn; lia|done]|].
  rewrite run_keyboard by (done || cbn; lia). eexists. done.
Qed.

Lemma length_keyboard_report toks : length (keyboard_report toks) = 8%nat.
Proof. unfold keyboard_report. cbn [length]. rewrite length_app, length_replicate, length_take. lia. Qed.

(** Names with two dashes are not numbers. *)
Lemma undashed_tok t tok : forallb (λ e, is_dashed e.1) t = true → is_dashed tok = false → find_opt t tok = None.
Proof.
  intros Ht Hd. destruct (find_opt t tok) as [v|] eqn:E; [|done]. apply find_opt_In in E.
  rewrite forallb_forall in Ht. apply list_elem_of_In in E. specialize (Ht _ E). cbn in Ht. congruence.
Qed.

Lemma undashed_word tok : is_dashed tok = false → is_quit tok = false ∧ is_hold tok = false.
Proof.
  intros Hd. split; apply not_true_is_false; intros ->%str_eqb_eq; done.
Qed.

(** ** Claims *)

(** C31: A keyboard line, from standard input to the device, when every write is
    complete: unless it has --quit, the report that is sent holds the union of
    the modifiers and the first six key codes in order, and it is followed by
    an empty report that releases the keys unless the line has --hold; the
    report array is never overrun.  With --quit, or at the end of the input,
    nothing is sent and the program leaves its loop.  When the read fails the
    terminating zero is stored in front of the buffer. *)
Theorem keyboard_line_sends_report {D} `{Driver hreq hreply D} (w : world unit hreq D) :
  (∀ d b, (respond d (HWrite b)).2 = Z.of_nat (length b)) →
  match answer w HReadStdin with
  | None => handle_line Keyboard w = Crash OutOfBounds
  | Some data =>
      let line := cstr (take (length data - 1) data) in
      let toks := tokens (S (length line)) line in
      ∃ w', handle_line Keyboard w =
              Ok (if bool_decide (data = []) || existsb is_quit toks then Some 0 else None, w') ∧
        trace w' = trace w ++ HReadStdin ::
          if bool_decide (data = []) || existsb is_quit toks then []
          else HWrite (keyboard_report toks) :: if existsb is_hold toks then [] else [HWrite zeros]
  end.
Proof.
  intros Hw. unfold handle_line. rewrite request_run. destruct (answer w HReadStdin) as [data|]; [|done].
  set (line := cstr (take (length data - 1) data)). set (toks := tokens (S (length line)) line). cbv zeta.
  destruct (decide (data = [])) as [E|Hne].
  { rewrite (bool_decide_true _ E), E. by eexists. }
  rewrite bool_decide_false by done. cbn [orb].
  pose proof (keyboard_fill_run line 0) as Hfill. cbv zeta in Hfill. fold toks in Hfill. clearbody toks line.
  destruct data as [|c data]; [done|]. rewrite lift_run. cbn [fill_report].
  destruct (existsb is_quit toks).
  { destruct Hfill as [f ->]. by eexists. }
  destruct Hfill as [n ->]. change (8 =? -1) with false. cbn [report hold]. rewrite request_run.
  unfold answer at 1. rewrite Hw, length_take, length_keyboard_report. 
  change (negb (Z.of_nat (Z.to_nat 8 `min` 8) =? 8)) with false. cbn match.
  rewrite (take_ge (keyboard_report toks)) by (rewrite length_keyboard_report; lia). unfold new_hold.
  destruct (existsb is_hold toks); [change (1 =? 0) with false|change (0 =? 0) with true]; cbn match.
  { eexists. split; [reflexivity|]. cbn [trace after]. by rewrite <- app_assoc. }
  rewrite request_run. unfold answer at 1. rewrite Hw. eexists. split; [reflexivity|].
  cbn [trace after]. by rewrite <- !app_assoc.
Qed.

(** Numbers out of range: the value strtol returns is kept in the report and
    the entry after it is cleared instead, so that a mouse moves by -1, and the
    third axis of a joystick clears its buttons and moves its hat to the first
    position.  A joystick button moves the hat to the first position too,
    although no --hat option was given. *)
Theorem rejected_number_stays tok b0 b1 b2 b3 rest h n :
  strtol 0 tok = (LONG_MAX, true) → is_dashed tok = false →
  mouse_token (Filling (b0 :: b1 :: b2 :: b3 :: rest) 0 h) tok =
    Ok (Next (Filling (b0 :: 255 :: 0 :: b3 :: rest) 0 h)) ∧
  joystick_token (Filling (b0 :: b1 :: b2 :: b3 :: rest) 2 h) tok =
    Ok (Next (Filling (b0 :: b1 :: 255 :: 0 :: rest) 2 h)) ∧
  joystick_token (Filling (b0 :: b1 :: b2 :: 4 :: rest) n h) (lit "--b1") =
    Ok (Next (Filling (b0 :: b1 :: b2 :: 16 :: rest) n h)).
Proof.
  intros Hs Hd. destruct (undashed_word tok Hd) as [Hq Hh]. unfold mouse_token, joystick_token.
  rewrite Hq, Hh, !(undashed_tok _ tok) by done. rewrite Hd. cbn [negb andb count].
  change (0 <? 2) with true. change (2 <? 3) with true. cbn match. unfold put_number. rewrite Hs.
  cbn [report count hold]. split_and!.
  - rewrite wr_Ok by (rewrite ?length_insert; cbn; lia). cbn [mbind result_bind]. rewrite wr_Ok by (rewrite ?length_insert; cbn; lia). done.
  - rewrite wr_Ok by (rewrite ?length_insert; cbn; lia). cbn [mbind result_bind]. rewrite wr_Ok by (rewrite ?length_insert; cbn; lia). done.
  - change (is_quit (lit "--b1")) with false. change (find_opt jmod (lit "--b1")) with (Some 16).
    cbn match. unfold put_hat. cbn [report count hold].
    change (rd (b0 :: b1 :: b2 :: 4 :: rest) 3) with (Ok 4). cbn [mbind result_bind].
    rewrite wr_Ok by (rewrite ?length_insert; cbn; lia). done.
Qed.

(** ** Witnesses *)

(** Standard input has one line; writes are complete. *)
#[local] Instance one_line : Driver hreq hreply (list Z) := λ d r,
  match r with
  | HReadStdin => ([], Some d)
  | HReadDevice => (d, Some [])
  | HWrite b => (d, Z.of_nat (length b))
  | HSelect => (d, (1, false, false, true))
  | _ => (d, 0)
  end.

Lemma keyboard_line_sends_report_witness :
  ∃ w', handle_line Keyboard (World tt (lit "--left-shift a --f1 z!") []) = Ok (None, w') ∧
    trace w' = [HReadStdin; HWrite [2; 0; 4; 58; 29; 0; 0; 0]; HWrite [0; 0; 0; 0; 0; 0; 0; 0]].
Proof.
  exact (keyboard_line_sends_report (World tt (lit "--left-shift a --f1 z!") []) (λ _ _, eq_refl)).
Defined.

Lemma rejected_number_stays_witness :
  mouse_token (Filling [0; 0; 0; 0; 0; 0; 0; 0] 0 0) (lit "99999999999") =
    Ok (Next (Filling [0; 255; 0; 0; 0; 0; 0; 0] 0 0)).
Proof.
  apply (rejected_number_stays (lit "99999999999") 0 0 0 0 [0; 0; 0; 0] 0 0).
  - vm_compute. reflexivity.
  - reflexivity.
Defined.
