(* ===== verification/Motion.v ===== *)
(** * Motion: the motion detection service of the motion-sensor demo

    Models src/msensor/motion.c: the table of registered callbacks, the
    detectors on the history of samples and the turn of the service's thread
    for one input event.  A callback is a number, and a turn returns the calls
    it makes.  The thresholds are products with 0.8 and 1.8 in the source;
    their values are whole numbers, so the comparisons of the code are
    comparisons of integers. *)
From S2P Require Import Prelude.
Local Open Scope Z_scope.

Inductive MOTION_ACTION :=
| MOTION_ACTION_NULL | MOTION_ACTION_SLOW_UP | MOTION_ACTION_SLOW_DOWN | MOTION_ACTION_COLLISION
| MOTION_ACTION_GZ0 | MOTION_ACTION_GZ180 | MOTION_ACTION_TOTAL.

#[export] Instance action_eq_dec : EqDecision MOTION_ACTION.
Proof. solve_decision. Defined.

Record MOTION_ACC := Acc { ax : Z; ay : Z; az : Z; atime : Z }.

Record MOTION_CALLBACK := Callback { action : MOTION_ACTION; pfnCallBack : option nat }.

#[export] Instance callback_eq_dec : EqDecision MOTION_CALLBACK.
Proof. solve_decision. Defined.

Definition MAX_CALLBACK_NUM : Z := 5.
Definition MOTION_HISTORY_DEPTH : Z := 5.
Definition GRAVITY_2G : Z := 19613100.
Definition MOTION_SLOW_THRESHOLD : Z := 7845240.
Definition MOTION_COLLISION_THRESHOLD : Z := 17651790.
Definition MOTION_GZ0_THRESHOLD : Z := 27458340.
Definition MOTION_GZ180_THRESHOLD : Z := 11767860.

(** The static variables and [time_pre] of the thread. *)
Record motion := Motion {
  g_acc : MOTION_ACC; g_action : MOTION_ACTION; g_action_pre : MOTION_ACTION;
  callback : list MOTION_CALLBACK; g_acc_history : list MOTION_ACC; time_pre : Z
}.

Definition set_acc (m : motion) (a : MOTION_ACC) : motion :=
  Motion a (g_action m) (g_action_pre m) (callback m) (g_acc_history m) (time_pre m).
Definition set_action (m : motion) (a : MOTION_ACTION) : motion :=
  Motion (g_acc m) a (g_action_pre m) (callback m) (g_acc_history m) (time_pre m).
Definition set_action_pre (m : motion) (a : MOTION_ACTION) : motion :=
  Motion (g_acc m) (g_action m) a (callback m) (g_acc_history m) (time_pre m).
Definition set_callbacks (m : motion) (c : list MOTION_CALLBACK) : motion :=
  Motion (g_acc m) (g_action m) (g_action_pre m) c (g_acc_history m) (time_pre m).
Definition set_history (m : motion) (h : list MOTION_ACC) : motion :=
  Motion (g_acc m) (g_action m) (g_action_pre m) (callback m) h (time_pre m).
Definition set_time_pre (m : motion) (t : Z) : motion :=
  Motion (g_acc m) (g_action m) (g_action_pre m) (callback m) (g_acc_history m) t.

(** ** The table of callbacks *)

(** The index of the first entry without an action, from [i] on. *)
Fixpoint free_index (i : Z) (c : list MOTION_CALLBACK) : Z :=
  match c with
  | [] => -1
  | e :: c => if bool_decide (action e = MOTION_ACTION_NULL) then i else free_index (i + 1) c
  end.

Definition motion_register_action (m : motion) (a : MOTION_ACTION) (f : option nat) : result (motion * Z) :=
  let index := free_index 0 (callback m) in
  if index =? -1 then Ok (m, -1) else
  c ← wr (callback m) index (Callback a f); Ok (set_callbacks m c, index).

Definition motion_unregister_action (m : motion) (index : Z) : result (motion * Z) :=
  if MAX_CALLBACK_NUM <=? index then Ok (m, -1) else
  c ← wr (callback m) index (Callback MOTION_ACTION_NULL None); Ok (set_callbacks m c, 1).

(** ** The detectors *)

Definition newest (m : motion) : result MOTION_ACC := rd (g_acc_history m) (MOTION_HISTORY_DEPTH - 1).
Definition previous (m : motion) : result MOTION_ACC := rd (g_acc_history m) (MOTION_HISTORY_DEPTH - 2).

Definition motion_slow_detect (m : motion) : result MOTION_ACTION :=
  p ← previous m;
  if atime p =? 0 then Ok MOTION_ACTION_NULL else
  n ← newest m;
  Ok (if ax p <? ax n then
        if MOTION_SLOW_THRESHOLD <? s32 (ax n - ax p) then MOTION_ACTION_SLOW_UP else MOTION_ACTION_NULL
      else
        if MOTION_SLOW_THRESHOLD <? s32 (ax p - ax n) then MOTION_ACTION_SLOW_DOWN else MOTION_ACTION_NULL).

(** The larger value less the smaller one, and [abs] of an int. *)
Definition difference (n p : Z) : Z := if p <? n then s32 (n - p) else s32 (p - n).
Definition cabs (v : Z) : Z := s32 (Z.abs v).

Definition motion_collision_detect (m : motion) : result MOTION_ACTION :=
  p ← previous m;
  if atime p =? 0 then Ok MOTION_ACTION_NULL else
  n ← newest m;
  Ok (if MOTION_COLLISION_THRESHOLD <? cabs (difference (ax n) (ax p)) then MOTION_ACTION_COLLISION
      else if MOTION_COLLISION_THRESHOLD <? cabs (difference (ay n) (ay p)) then MOTION_ACTION_COLLISION
      else if MOTION_COLLISION_THRESHOLD <? cabs (difference (az n) (az p)) then MOTION_ACTION_COLLISION
      else MOTION_ACTION_NULL).

(** One of the two tests: the action is recorded and returned if it changed. *)
Definition angle_test (m : motion) (a : MOTION_ACTION) : motion * option MOTION_ACTION :=
  let m := set_action m a in
  if bool_decide (g_action m = g_action_pre m) then (m, None) else (set_action_pre m a, Some a).

Definition motion_angle_detect (m : motion) : result (motion * MOTION_ACTION) :=
  n ← newest m;
  if atime n =? 0 then Ok (m, MOTION_ACTION_NULL) else
  let '(m, r) := if MOTION_GZ0_THRESHOLD <? az n then angle_test m MOTION_ACTION_GZ0 else (m, None) in
  match r with
  | Some a => Ok (m, a)
  | None =>
      let '(m, r) := if az n <? MOTION_GZ180_THRESHOLD then angle_test m MOTION_ACTION_GZ180 else (m, None) in
      Ok (m, default MOTION_ACTION_NULL r)
  end.

(** ** The thread *)

(** struct input_event, with the types and codes the thread looks at. *)
Inductive input_event := EV_ABS_X (v : Z) | EV_ABS_Y (v : Z) | EV_ABS_Z (v : Z) | EV_OTHER | EV_SYN (sec usec : Z).

(** A call: the callback and its argument. *)
Definition call : Type := nat * MOTION_ACTION.

(** The loop over the table. *)
Definition call_back (c : list MOTION_CALLBACK) (a : MOTION_ACTION) : list call :=
  omap (λ e, if bool_decide (action e = a) then (λ f, (f, a)) <$> pfnCallBack e else None) c.

(** [if (a != MOTION_ACTION_NULL) for ... ] *)
Definition notify (m : motion) (detected called : MOTION_ACTION) : list call :=
  if bool_decide (detected = MOTION_ACTION_NULL) then [] else call_back (callback m) called.

(** One turn of the loop. *)
Definition motion_event (m : motion) (ev : input_event) : result (motion * list call) :=
  let a := g_acc m in
  match ev with
  | EV_ABS_X v => Ok (set_acc m (Acc (s32 (v + GRAVITY_2G)) (ay a) (az a) (atime a)), [])
  | EV_ABS_Y v => Ok (set_acc m (Acc (ax a) (s32 (v + GRAVITY_2G)) (az a) (atime a)), [])
  | EV_ABS_Z v => Ok (set_acc m (Acc (ax a) (ay a) (s32 (v + GRAVITY_2G)) (atime a)), [])
  | EV_OTHER => Ok (m, [])
  | EV_SYN sec usec =>
      let time_cur := u32 (sec * 1000 + Z.quot usec 1000) in
      let m := set_acc m (Acc (ax a) (ay a) (az a) (u32 (time_cur - time_pre m))) in
      let m := set_time_pre m time_cur in
      let m := set_history m (drop 1 (g_acc_history m) ++ [g_acc m]) in
      slow ← motion_slow_detect m;
      let m := set_action m slow in
      let calls1 := notify m slow (g_action m) in
      coll ← motion_collision_detect m;
      let m := set_action m coll in
      let calls2 := notify m coll (g_action m) in
      r ← motion_angle_detect m;
      let '(m, angle) := r in
      Ok (m, calls1 ++ calls2 ++ notify m angle (g_action m))
  end.

(** The state before the first event. *)
Definition motion_init : motion :=
  Motion (Acc 0 0 0 0) MOTION_ACTION_NULL MOTION_ACTION_NULL
    (replicate 5 (Callback MOTION_ACTION_NULL None)) (replicate 5 (Acc 0 0 0 0)) 0.

(** A sequence of events. *)
Fixpoint motion_events (m : motion) (evs : list input_event) : result (motion * list call) :=
  match evs with
  | [] => Ok (m, [])
  | ev :: evs =>
      r ← motion_event m ev;
      r' ← motion_events r.1 evs;
      Ok (r'.1, r.2 ++ r'.2)
  end.

(** ** The detectors without machine arithmetic *)

Definition slow_of (p n : MOTION_ACC) : MOTION_ACTION :=
  if MOTION_SLOW_THRESHOLD <? Z.abs (ax n - ax p) then
    if 0 <? ax n - ax p then MOTION_ACTION_SLOW_UP else MOTION_ACTION_SLOW_DOWN
  else MOTION_ACTION_NULL.

Definition collision_of (p n : MOTION_ACC) : MOTION_ACTION :=
  if MOTION_COLLISION_THRESHOLD <? Z.max (Z.abs (ax n - ax p)) (Z.max (Z.abs (ay n - ay p)) (Z.abs (az n - az p)))
  then MOTION_ACTION_COLLISION else MOTION_ACTION_NULL.

Definition angle_of (pre : MOTION_ACTION) (n : MOTION_ACC) : MOTION_ACTION :=
  let a := if MOTION_GZ0_THRESHOLD <? az n then MOTION_ACTION_GZ0
           else if az n <? MOTION_GZ180_THRESHOLD then MOTION_ACTION_GZ180 else MOTION_ACTION_NULL in
  if bool_decide (a = pre) then MOTION_ACTION_NULL else a.

(** Accelerations whose differences fit an int. *)
Definition in_range (a : MOTION_ACC) : Prop :=
  0 <= ax a <= 1073741824 ∧ 0 <= ay a <= 1073741824 ∧ 0 <= az a <= 1073741824.

Lemma difference_abs n p : 0 <= n <= 1073741824 → 0 <= p <= 1073741824 → cabs (difference n p) = Z.abs (n - p).
Proof.
  intros Hn Hp. unfold cabs, difference.
  destruct (Z.ltb_spec p n);
    [rewrite (s32_id (n - p)) by (unfold is_s32; lia)|rewrite (s32_id (p - n)) by (unfold is_s32; lia)];
    rewrite s32_id by (unfold is_s32; lia); lia.
Qed.

(** The history after the newest sample was added. *)
Definition recorded (h : list MOTION_ACC) (n : MOTION_ACC) : list MOTION_ACC := drop 1 h ++ [n].

Lemma recorded_newest m n : length (g_acc_history m) = 5%nat → newest (set_history m (recorded (g_acc_history m) n)) = Ok n.
Proof.
  intros Hl. unfold newest, recorded. cbn [g_acc_history set_history]. apply rd_Ok. split; [done|].
  rewrite lookup_app_r by (rewrite length_drop, Hl; done). by rewrite length_drop, Hl.
Qed.

Lemma recorded_previous m n p : length (g_acc_history m) = 5%nat → g_acc_history m !! 4%nat = Some p →
  previous (set_history m (recorded (g_acc_history m) n)) = Ok p.
Proof.
  intros Hl Hp. unfold previous, recorded. cbn [g_acc_history set_history]. apply rd_Ok. split; [done|].
  change (Z.to_nat (MOTION_HISTORY_DEPTH - 2)) with 3%nat.
  rewrite lookup_app_l by (rewrite length_drop, Hl; lia). by rewrite lookup_drop.
Qed.

Lemma slow_detect_spec m p n : previous m = Ok p → newest m = Ok n → in_range p → in_range n →
  motion_slow_detect m = Ok (if atime p =? 0 then MOTION_ACTION_NULL else slow_of p n).
Proof.
  intros Hp Hn Rp Rn. unfold motion_slow_detect, slow_of, in_range in *. rewrite Hp, Hn. cbn [mbind result_bind].
  destruct (atime p =? 0); [done|]. cbn [mbind result_bind]. f_equal. unfold MOTION_SLOW_THRESHOLD.
  destruct (Z.ltb_spec (ax p) (ax n)); rewrite s32_id by (unfold is_s32; lia);
    repeat zcase; try done; exfalso; lia.
Qed.

Lemma collision_detect_spec m p n : previous m = Ok p → newest m = Ok n → in_range p → in_range n →
  motion_collision_detect m = Ok (if atime p =? 0 then MOTION_ACTION_NULL else collision_of p n).
Proof.
  intros Hp Hn Rp Rn. unfold motion_collision_detect, collision_of, in_range in *. rewrite Hp, Hn. cbn [mbind result_bind].
  destruct (atime p =? 0); [done|]. cbn [mbind result_bind]. f_equal.
  rewrite !difference_abs by lia. repeat zcase; try done; exfalso; lia.
Qed.

Lemma angle_detect_spec m n : newest m = Ok n → atime n ≠ 0 →
  ∃ m', motion_angle_detect m = Ok (m', angle_of (g_action_pre m) n) ∧
    callback m' = callback m ∧ g_acc_history m' = g_acc_history m ∧
    g_action_pre m' = (if bool_decide (angle_of (g_action_pre m) n = MOTION_ACTION_NULL)
                       then g_action_pre m else angle_of (g_action_pre m) n) ∧
    (angle_of (g_action_pre m) n ≠ MOTION_ACTION_NULL → g_action m' = angle_of (g_action_pre m) n).
Proof.
  intros Hn Ht. unfold motion_angle_detect. rewrite Hn. cbn [mbind result_bind].
  rewrite (proj2 (Z.eqb_neq _ _) Ht). unfold angle_of, angle_test. cbn [g_action g_action_pre set_action].
  unfold MOTION_GZ0_THRESHOLD, MOTION_GZ180_THRESHOLD.
  destruct (Z.ltb_spec 27458340 (az n)); [rewrite (proj2 (Z.ltb_ge (az n) 11767860)) by lia|
    destruct (Z.ltb_spec (az n) 11767860)].
  - destruct (bool_decide_reflect (MOTION_ACTION_GZ0 = g_action_pre m));
      eexists; (split; [reflexivity|]); cbn; split_and!; done.
  - destruct (bool_decide_reflect (MOTION_ACTION_GZ180 = g_action_pre m));
      eexists; (split; [reflexivity|]); cbn; split_and!; done.
  - assert (∀ b : bool, (if b then MOTION_ACTION_NULL else MOTION_ACTION_NULL) = MOTION_ACTION_NULL) as Hb by (by intros []).
    rewrite !Hb. eexists. split; [reflexivity|]. cbn. split_and!; done.
Qed.

(** ** Orientation *)

(** The reports of an orientation among the calls. *)
Definition orientations (l : list call) : list MOTION_ACTION :=
  omap (λ c, match c.2 with MOTION_ACTION_GZ0 | MOTION_ACTION_GZ180 => Some c.2 | _ => None end) l.

(** No two neighbours are equal, and the first is not [pre]. *)
Fixpoint alternates (pre : MOTION_ACTION) (l : list MOTION_ACTION) : Prop :=
  match l with
  | [] => True
  | a :: l => a ≠ pre ∧ alternates a l
  end.

(** The table after the registrations of the demo, all with one function. *)
Definition demo_table (f : nat) : list MOTION_CALLBACK :=
  map (λ a, Callback a (Some f))
    [MOTION_ACTION_SLOW_UP; MOTION_ACTION_SLOW_DOWN; MOTION_ACTION_COLLISION; MOTION_ACTION_GZ0; MOTION_ACTION_GZ180].

Definition service_ok (f : nat) (m : motion) : Prop :=
  length (g_acc_history m) = 5%nat ∧ callback m = demo_table f.

Lemma read_history m : length (g_acc_history m) = 5%nat → ∃ p n, previous m = Ok p ∧ newest m = Ok n.
Proof.
  intros Hl. unfold previous, newest.
  destruct (rd_is_ok (g_acc_history m) (MOTION_HISTORY_DEPTH - 2)) as [p ->]; [rewrite Hl; done|].
  destruct (rd_is_ok (g_acc_history m) (MOTION_HISTORY_DEPTH - 1)) as [n ->]; [rewrite Hl; done|]. eauto.
Qed.

(** The first two detectors report no orientation. *)
Lemma plain_detectors f m p n : callback m = demo_table f → previous m = Ok p → newest m = Ok n →
  (∃ a, motion_slow_detect m = Ok a ∧ ∀ m', callback m' = demo_table f → orientations (notify m' a a) = []) ∧
  (∃ a, motion_collision_detect m = Ok a ∧ ∀ m', callback m' = demo_table f → orientations (notify m' a a) = []).
Proof.
  intros Hc Hp Hn. unfold motion_slow_detect, motion_collision_detect. rewrite Hp, Hn. cbn [mbind result_bind].
  split; destruct (atime p =? 0); cbn [mbind result_bind]; eexists; (split; [reflexivity|]); intros m' Hm';
    unfold notify; rewrite Hm'; repeat case_match; done.
Qed.

Lemma angle_detect_run m n : newest m = Ok n →
  ∃ m' a, motion_angle_detect m = Ok (m', a) ∧ callback m' = callback m ∧ g_acc_history m' = g_acc_history m ∧
    (a = MOTION_ACTION_NULL ∧ g_action_pre m' = g_action_pre m ∨
     a ≠ g_action_pre m ∧ g_action_pre m' = a ∧ g_action m' = a ∧ (a = MOTION_ACTION_GZ0 ∨ a = MOTION_ACTION_GZ180)).
Proof.
  intros Hn. destruct (Z.eq_dec (atime n) 0) as [Ht|Ht].
  { exists m, MOTION_ACTION_NULL. unfold motion_angle_detect. rewrite Hn. cbn [mbind result_bind].
    rewrite (proj2 (Z.eqb_eq _ _) Ht). auto 10. }
  destruct (angle_detect_spec m n Hn Ht) as (m' & E & Hc & Hh & Hp & Ha). exists m', (angle_of (g_action_pre m) n).
  split; [done|]. split; [done|]. split; [done|].
  destruct (decide (angle_of (g_action_pre m) n = MOTION_ACTION_NULL)) as [E0|E0].
  { left. rewrite bool_decide_true in Hp by done. auto. }
  right. rewrite bool_decide_false in Hp by done. specialize (Ha E0). split; [|split; [done|split; [done|]]].
  - clear -E0. unfold angle_of in *. case_bool_decide; [done|]. done.
  - clear -E0. unfold angle_of in *. repeat case_match; auto; done.
Qed.

Lemma motion_event_ok f m ev : service_ok f m →
  ∃ m' calls, motion_event m ev = Ok (m', calls) ∧ service_ok f m' ∧
    (orientations calls = [] ∧ g_action_pre m' = g_action_pre m ∨
     ∃ a, orientations calls = [a] ∧ a ≠ g_action_pre m ∧ g_action_pre m' = a).
Proof.
  intros [Hl Hc]. destruct ev as [v|v|v| |sec usec];
    try (by eexists _, []; split; [reflexivity|]; split; [split; done|left]).
  cbn [motion_event]. set (m1 := set_history _ _).
  assert (length (g_acc_history m1) = 5%nat) as Hl1
    by (unfold m1; cbn; rewrite length_app, length_drop, Hl; done).
  assert (callback m1 = demo_table f) as Hc1 by done.
  assert (g_action_pre m1 = g_action_pre m) as Hp1 by done. clearbody m1.
  destruct (read_history m1 Hl1) as (p & n & Hp & Hn).
  destruct (plain_detectors f m1 p n Hc1 Hp Hn) as [(slow & Es & Hs) _]. rewrite Es. cbn [mbind result_bind].
  set (m2 := set_action m1 slow).
  destruct (plain_detectors f m2 p n Hc1 Hp Hn) as [_ (coll & Ec & Hco)]. rewrite Ec. cbn [mbind result_bind].
  set (m3 := set_action m2 coll).
  destruct (angle_detect_run m3 n Hn) as (m4 & a & Ea & Hc4 & Hh4 & Hcase). rewrite Ea. cbn [mbind result_bind].
  assert (callback m4 = demo_table f) as Hc4' by (by rewrite Hc4).
  eexists _, _. split; [reflexivity|]. split; [split; [rewrite Hh4|]; done|].
  unfold orientations. rewrite !omap_app. fold orientations.
  change (g_action m2) with slow. change (g_action m3) with coll.
  assert (orientations (notify m2 slow slow) = []) as H1 by (by apply Hs).
  assert (orientations (notify m3 coll coll) = []) as H2 by (by apply Hco).
  unfold orientations in H1, H2. rewrite H1, H2. cbn [app].
  destruct Hcase as [[-> Hpre]|(Hne & Hpre & Hact & Hor)].
  - left. split; [done|]. by rewrite Hpre.
  - right. exists a. rewrite Hact. split; [|split; [by rewrite <- Hp1|done]].
    unfold notify. rewrite Hc4'. destruct Hor as [-> | ->]; done.
Qed.

(** ** Claims *)

(** C32: The demo's registrations take the five entries in order, and along any
    sequence of input events the service never faults and reports an
    orientation only when it changes: the reports of face up and face down
    alternate. *)
Theorem orientation_reports_alternate f evs :
  ∃ m, (r1 ← motion_register_action motion_init MOTION_ACTION_SLOW_UP (Some f);
        r2 ← motion_register_action r1.1 MOTION_ACTION_SLOW_DOWN (Some f);
        r3 ← motion_register_action r2.1 MOTION_ACTION_COLLISION (Some f);
        r4 ← motion_register_action r3.1 MOTION_ACTION_GZ0 (Some f);
        r5 ← motion_register_action r4.1 MOTION_ACTION_GZ180 (Some f);
        Ok (r5.1, [r1.2; r2.2; r3.2; r4.2; r5.2])) = Ok (m, [0; 1; 2; 3; 4]) ∧
    ∃ m' calls, motion_events m evs = Ok (m', calls) ∧ alternates MOTION_ACTION_NULL (orientations calls).
Proof.
  exists (set_callbacks motion_init (demo_table f)). split; [reflexivity|].
  set (m := set_callbacks _ _). assert (service_ok f m) as Hok by (split; done).
  change MOTION_ACTION_NULL with (g_action_pre m). clearbody m. revert m Hok.
  induction evs as [|ev evs IH]; intros m Hok; [by eexists _, []|]. cbn [motion_events].
  destruct (motion_event_ok f m ev Hok) as (m1 & calls & E & Hok1 & Hcase). rewrite E. cbn [mbind result_bind fst snd].
  destruct (IH m1 Hok1) as (m' & calls' & E' & Halt). rewrite E'. cbn [mbind result_bind fst snd].
  eexists _, _. split; [done|]. unfold orientations in *. rewrite omap_app.
  destruct Hcase as [[-> Hp]|(a & -> & Hne & Hp)]; rewrite Hp in Halt; done.
Qed.

(** The detectors on two samples in range: the turn of the thread for a
    completed sample calls the functions registered for a slow motion (the
    change of x above its threshold, with its sign), then for a collision (any
    axis above its threshold), then for a change of orientation; differences
    do not overflow. *)
Theorem sample_detects_actions m sec usec p :
  let a := g_acc m in
  let t := u32 (sec * 1000 + Z.quot usec 1000) in
  let n := Acc (ax a) (ay a) (az a) (u32 (t - time_pre m)) in
  length (g_acc_history m) = 5%nat → g_acc_history m !! 4%nat = Some p →
  in_range p → in_range n → atime p ≠ 0 → atime n ≠ 0 →
  ∃ m', motion_event m (EV_SYN sec usec) =
      Ok (m', flat_map (λ act, notify m act act) [slow_of p n; collision_of p n; angle_of (g_action_pre m) n]) ∧
    g_acc_history m' = recorded (g_acc_history m) n.
Proof.
  intros a t n Hl Hp Rp Rn Tp Tn. cbn [motion_event]. fold a t. fold n.
  set (m0 := set_time_pre _ t). change (g_acc (set_time_pre _ t)) with n.
  fold (recorded (g_acc_history m0) n). set (m1 := set_history m0 _).
  assert (previous m1 = Ok p) as Hp1 by (by apply recorded_previous).
  assert (newest m1 = Ok n) as Hn1 by (by apply recorded_newest).
  apply Z.eqb_neq in Tp.
  rewrite (slow_detect_spec m1 p n), Tp by done. cbn [mbind result_bind].
  set (m2 := set_action m1 (slow_of p n)).
  rewrite (collision_detect_spec m2 p n), Tp by done. cbn [mbind result_bind].
  set (m3 := set_action m2 (collision_of p n)).
  destruct (angle_detect_spec m3 n Hn1 Tn) as (m4 & E & Hc & Hh & _ & Hact). rewrite E. cbn [mbind result_bind].
  exists m4. split; [|by rewrite Hh]. do 2 f_equal. cbn [flat_map]. rewrite app_nil_r.
  change (g_action m2) with (slow_of p n). change (g_action m3) with (collision_of p n).
  change (g_action_pre m3) with (g_action_pre m) in *. unfold notify at 3 6.
  destruct (bool_decide_reflect (angle_of (g_action_pre m) n = MOTION_ACTION_NULL)) as [Ea|Ea]; [done|].
  rewrite Hc, (Hact Ea). done.
Qed.

(** ** Witnesses *)

Definition resting : motion :=
  Motion (Acc 19613100 19613100 29419650 50) MOTION_ACTION_NULL MOTION_ACTION_NULL (demo_table 7)
    (replicate 5 (Acc 39226200 19613100 9806550 50)) 1000.

Lemma sample_detects_actions_witness :
  ∃ m', motion_event resting (EV_SYN 1 50000) =
    Ok (m', [(7%nat, MOTION_ACTION_SLOW_DOWN); (7%nat, MOTION_ACTION_COLLISION); (7%nat, MOTION_ACTION_GZ0)]).
Proof.
  destruct (sample_detects_actions resting 1 50000 (Acc 39226200 19613100 9806550 50)) as (m' & E & _).
  - reflexivity.
  - reflexivity.
  - unfold in_range. cbn. lia.
  - unfold in_range. cbn. lia.
  - discriminate.
  - vm_compute. discriminate.
  - exists m'. rewrite E. vm_compute. reflexivity.
Defined.
