(* ===== verification/VinDemo.v ===== *)
(** * VinDemo: the main program of the camera demo

    Models src/videoin_HW/vin_demo.c: the command line, opening the keypad, the
    frame buffer, the capture device and the encoder, the loop that serves the
    keys, taking a picture and closing everything.  It is the composition of
    the modules [V4l], [JpegEnc] and [Dsc]: the program's state holds the state
    of each of them beside its own variables, an operation of a module is run
    on its part, and all requests, of the modules and of the program itself,
    are collected in one list of events in the order in which they are made. *)
From stdpp Require Import gmap.
From S2P Require Import Prelude LibC Misc Dsc V4l JpegEnc Exif Device.
Local Open Scope cmodel_scope.
Local Open Scope Z_scope.

(** ** Requests of the program itself *)

(** What the struct input_event of [GetKey] holds after the read. *)
Record input_event := InputEvent { ev_type : Z; ev_value : Z; ev_code : Z }.

Inductive oreq :=
| KpdOpen (minor : Z)
| KpdName (fd : Z)
| KpdRead (fd : Z)
| FbOpen
| FBIOGET_VSCREENINFO (fd : Z)
| FbMmap (fd size : Z)
| FbMunmap (size : Z)
| IOCTL_LCD_DISABLE_INT (fd : Z)
| IOCTL_LCD_ENABLE_INT (fd : Z)
| VIDEO_FORMAT_CHANGE (fd : Z) (rgb565 : bool)
| FbFill (word count : Z)
| OClose (fd : Z)
| OMalloc (size : Z)
| OFree
| OMkdir (path : list Z)
| OStatfs (path : list Z)
| OLocaltime
| OWrite (path bytes : list Z)
| OSync
| OUsleep (us : Z).

(** mkdir: the result and whether errno is EEXIST; statfs: the available blocks
    and their size; localtime: as the two modules that call it read it. *)
Definition oreply (r : oreq) : Type :=
  match r with
  | KpdOpen _ | FbOpen => Z
  | KpdName _ => option (list Z)
  | KpdRead _ => input_event
  | FBIOGET_VSCREENINFO _ => option (Z * Z)
  | FbMmap _ _ => option Z
  | OMalloc _ => bool
  | OMkdir _ => Z * bool
  | OStatfs _ => option (Z * Z)
  | OLocaltime => Exif.tm * Dsc.tm
  | OWrite _ _ => Z
  | _ => unit
  end.

(** The program's variables; [None] is NULL or MAP_FAILED. *)
Record vin_vars := VinVars {
  s_i32FBWidth : Z; s_i32FBHeight : Z;
  i32FBFd : Z; i32KpdFd : Z; pu8FBBufAddr : option Z; u32FBBufSize : Z;
  pchSaveFolder : option (list Z);
  s_sVideoCrop : v4l2_rect;
}.

Definition set_screen (v : vin_vars) (w h : Z) : vin_vars :=
  VinVars w h (i32FBFd v) (i32KpdFd v) (pu8FBBufAddr v) (u32FBBufSize v) (pchSaveFolder v) (s_sVideoCrop v).
Definition set_fb (v : vin_vars) (fd : Z) (buf : option Z) (size : Z) : vin_vars :=
  VinVars (s_i32FBWidth v) (s_i32FBHeight v) fd (i32KpdFd v) buf size (pchSaveFolder v) (s_sVideoCrop v).
Definition set_kpd (v : vin_vars) (fd : Z) : vin_vars :=
  VinVars (s_i32FBWidth v) (s_i32FBHeight v) (i32FBFd v) fd (pu8FBBufAddr v) (u32FBBufSize v) (pchSaveFolder v) (s_sVideoCrop v).
Definition set_folder (v : vin_vars) (f : option (list Z)) : vin_vars :=
  VinVars (s_i32FBWidth v) (s_i32FBHeight v) (i32FBFd v) (i32KpdFd v) (pu8FBBufAddr v) (u32FBBufSize v) f (s_sVideoCrop v).
Definition set_crop (v : vin_vars) (c : v4l2_rect) : vin_vars :=
  VinVars (s_i32FBWidth v) (s_i32FBHeight v) (i32FBFd v) (i32KpdFd v) (pu8FBBufAddr v) (u32FBBufSize v) (pchSaveFolder v) c.

(** ** The composed state *)

Inductive event := EvV4l (r : req) | EvJpeg (r : jreq) | EvOwn (r : oreq).

(** [V], [J] and [Y] are the states of the capture driver, of the encoder and of
    the rest of the system. *)
Record camera (V J Y : Type) := Camera {
  own : vin_vars; os : Y;
  cap : V4l.state V; enc : world jpeg_vars jreq J; store : Dsc.dsc;
  events : list event;
}.
Arguments Camera {V J Y}.
Arguments own {V J Y}.
Arguments os {V J Y}.
Arguments cap {V J Y}.
Arguments enc {V J Y}.
Arguments store {V J Y}.
Arguments events {V J Y}.

Definition cam_prog (V J Y A : Type) : Type := camera V J Y → result (A * camera V J Y).

#[export] Instance cam_ret {V J Y} : MRet (cam_prog V J Y) := λ A a c, Ok (a, c).
#[export] Instance cam_bind {V J Y} : MBind (cam_prog V J Y) := λ A B f m c,
  match m c with Ok (a, c') => f a c' | Crash k => Crash k end.

(** ** Running a module on its part of the state *)

Section compose.
Context {V J Y : Type} `{V4l.Driver V} `{Device.Driver jreq jreply J} `{Device.Driver oreq oreply Y}.
Notation C := (cam_prog V J Y).

Definition on_cap {A} (m : V4l.M V A) : C A := λ c,
  match m (cap c) with
  | Ok (a, s) => Ok (a, Camera (own c) (os c) s (enc c) (store c)
                          (events c ++ map EvV4l (drop (length (log (cap c))) (log s))))
  | Crash k => Crash k
  end.

Definition on_enc {A} (m : prog jpeg_vars jreq J A) : C A := λ c,
  match m (enc c) with
  | Ok (a, w) => Ok (a, Camera (own c) (os c) (cap c) w (store c)
                          (events c ++ map EvJpeg (drop (length (trace (enc c))) (trace w))))
  | Crash k => Crash k
  end.

Definition on_store {A} (f : Dsc.dsc → result (Dsc.dsc * A)) : C A := λ c,
  match f (store c) with
  | Ok (s, a) => Ok (a, Camera (own c) (os c) (cap c) (enc c) s (events c))
  | Crash k => Crash k
  end.

(** A request of the program itself. *)
Definition ask {A} (r : oreq) (k : oreply r → C A) : C A := λ c,
  let '(o, a) := respond (os c) r in
  k a (Camera (own c) o (cap c) (enc c) (store c) (events c ++ [EvOwn r])).

Definition get_own : C vin_vars := λ c, Ok (own c, c).
Definition update (f : vin_vars → vin_vars) : C unit := λ c,
  Ok (tt, Camera (f (own c)) (os c) (cap c) (enc c) (store c) (events c)).
Definition give {A} (r : result A) : C A := λ c,
  match r with Ok a => Ok (a, c) | Crash k => Crash k end.
End compose.

Notation "x ⟵ r ; k" := (ask r (λ x, k)) (at level 20, r at level 100, k at level 200) : cmodel_scope.

(** ** Devices *)

Section program.
Context {V J Y : Type} `{V4l.Driver V} `{Device.Driver jreq jreply J} `{Device.Driver oreq oreply Y}.
Notation C := (cam_prog V J Y).

(** [minor] is the digit of /dev/input/event0. *)
Fixpoint keypad_loop (n : nat) (minor : Z) : C Z :=
  match n with
  | O => mret (-1)
  | S n =>
      fd ⟵ KpdOpen minor;
      if fd <? 0 then mret (-1) else
      name ⟵ KpdName fd;
      if match name with Some name => strstr (cstr name) (lit "Keypad") | None => false end
      then mret fd
      else _ ⟵ OClose fd; keypad_loop n (minor + 1)
  end.

Definition InitKpdDevice : C Z := keypad_loop RETRY_NUM 0.

(** The code of a key that was released. *)
Definition key_of (e : input_event) : option Z :=
  if ev_type e =? 0 then None else if negb (ev_value e =? 0) then None else Some (ev_code e).

Definition GetKey : C (option Z) :=
  v ← get_own;
  e ⟵ KpdRead (i32KpdFd v);
  mret (key_of e).

Definition InitFBDevice : C Z :=
  _ ← update (λ v, set_fb v (i32FBFd v) None 0);
  fd ⟵ FbOpen;
  if fd <? 0 then mret (-1) else
  info ⟵ FBIOGET_VSCREENINFO fd;
  match info with
  | None => _ ⟵ OClose fd; mret (-1)
  | Some (xres, yres) =>
      _ ← update (λ v, set_screen v (s32 xres) (s32 yres));
      let size := s32 (xres * yres * 2) in
      buf ⟵ FbMmap fd (u32 size);
      match buf with
      | None => _ ⟵ OClose fd; mret (-1)
      | Some addr =>
          _ ← update (λ v, set_fb v (i32FBFd v) None (u32 size));
          _ ⟵ IOCTL_LCD_DISABLE_INT fd;
          _ ⟵ VIDEO_FORMAT_CHANGE fd false;
          _ ⟵ IOCTL_LCD_ENABLE_INT fd;
          _ ← update (λ v, set_fb v (i32FBFd v) (Some addr) (u32FBBufSize v));
          mret fd
      end
  end.

(** The count of the words that [wmemset] writes. *)
Definition fill_count (v : vin_vars) : Z := Z.quot (s32 (s_i32FBWidth v * s_i32FBHeight v * 2)) 4.

(** The call of [wmemset]: the words are written through the address of the
    mapping, and a count below 0 is converted to one beyond every mapping. *)
Definition fill_screen (word : Z) : C unit :=
  v ← get_own;
  match pu8FBBufAddr v with
  | None => give (Crash NullDeref)
  | Some _ =>
      if (0 <=? fill_count v) && (4 * fill_count v <=? u32FBBufSize v) then _ ⟵ FbFill word (fill_count v); mret tt
      else give (Crash OutOfBounds)
  end.

Definition ClearFB : C unit :=
  v ← get_own;
  _ ⟵ IOCTL_LCD_DISABLE_INT (i32FBFd v);
  _ ← fill_screen 0x80008000;
  _ ⟵ IOCTL_LCD_ENABLE_INT (i32FBFd v);
  mret tt.

(** ** Taking a picture *)

(** The calls that write to the disk are given what the host allows. *)
Context (h : Dsc.host).

(** [write] of the picture appends the bytes that were written. *)
Definition write_picture (path data : list Z) : C unit :=
  n ⟵ OWrite path data;
  on_store (λ s, Ok (Dsc.set_file s path (default [] (files s !! path) ++ take (Z.to_nat n) data), tt)).

(** What follows a successful encoding: [avail] bytes are free on the disk and
    the picture has [len] bytes; it is read from the stream buffer of the
    encoder module. *)
Definition save_picture (folder : list Z) (avail len : Z) : C unit :=
  _ ← on_cap TriggerV4LNextFrame;
  _ ← on_cap StopV4LCapture;
  if avail <=? len then mret tt else
  t ⟵ OLocaltime;
  r ← on_store (λ s, '(s, err, p) ← DSC_NewCapFile h s folder t.2; Ok (s, (err, p)));
  match r with
  | (ERR_DSC_SUCCESS, Some path) =>
      buf ← on_enc (v ← get; mret (s_pu8JpegEncBuf v));
      match buf with
      | None => give (Crash NullDeref)
      | Some buf =>
          if len <=? Z.of_nat (length buf) then
            _ ← write_picture path (take (Z.to_nat len) buf);
            _ ← on_store (λ s, s ← DSC_CloseCapFile h s folder; Ok (s, tt));
            _ ⟵ OSync; mret tt
          else give (Crash OutOfBounds)
      end
  | _ => mret tt
  end.

(** After the label [exit_capture_image]. *)
Definition restart_capture : C unit :=
  v ← get_own;
  _ ⟵ OUsleep 1000000;
  _ ⟵ IOCTL_LCD_ENABLE_INT (i32FBFd v);
  _ ← on_cap StartV4LCapture;
  mret tt.

Definition u64 (z : Z) : Z := z mod 18446744073709551616.

(** [garbage] is what the uninitialised address holds if no picture was read. *)
Definition CaptureImage (garbage : Z) (resol : E_IMAGE_RESOL) : C unit :=
  v ← get_own;
  match pchSaveFolder v with
  | None => mret tt
  | Some folder =>
      _ ← on_cap StopPreview;
      _ ← ClearFB;
      _ ⟵ OUsleep 250000;
      fs ⟵ OStatfs folder;
      match fs with
      | None => mret tt
      | Some (bavail, bsize) =>
          _ ⟵ IOCTL_LCD_ENABLE_INT (i32FBFd v);
          _ ← on_cap StartPreview;
          pic ← on_cap ReadV4LPicture;
          let addr := match (pic : V4l.ERRCODE * option (Z * Z * Z)).2 with
                      | Some (_, _, phy) => phy | None => garbage end in
          zoom ← on_cap QueryV4LZoomInfo;
          _ ← (match (zoom : V4l.ERRCODE * option (v4l2_cropcap * v4l2_rect)).2 with
               | None => mret tt
               | Some (_, crop) =>
                   _ ← update (λ v, set_crop v crop);
                   t ⟵ OLocaltime;
                   r ← on_enc (JpegEncFromVIN resol addr eJPEG_ENC_THB_NONE (r_width crop) (r_height crop) t.1);
                   match (r : Z * option Z).2 with
                   | None => mret tt
                   | Some len => save_picture folder (u64 (u64 bavail * u64 bsize)) len
                   end
               end);
          restart_capture
      end
  end.

Definition CaptureImage_Packet (resol : E_IMAGE_RESOL) : C unit :=
  v ← get_own;
  match pchSaveFolder v with
  | None => mret tt
  | Some folder =>
      fs ⟵ OStatfs folder;
      match fs with
      | None => mret tt
      | Some (bavail, bsize) =>
          _ ⟵ IOCTL_LCD_ENABLE_INT (i32FBFd v);
          _ ← on_cap StartPreview;
          info ← on_cap QueryV4LPacketInformation;
          _ ← (match (info : V4l.ERRCODE * option S_PIPE_INFO).2 with
               | None => mret tt
               | Some info =>
                   t ⟵ OLocaltime;
                   r ← on_enc (JpegEncFromVIN_Packet resol (u32 (i32CurrPipePhyAddr info)) eJPEG_ENC_THB_NONE t.1);
                   match (r : Z * option Z).2 with
                   | None => mret tt
                   | Some len => save_picture folder (u64 (u64 bavail * u64 bsize)) len
                   end
               end);
          restart_capture
      end
  end.

(** ** The program *)

(** The options as getopt delivers them; the other letters have no case. *)
Inductive opt := OptS (arg : list Z) | OptE (arg : list Z) | OptP (arg : list Z) | OptH | OptOther.

(** The comparisons of the cases 's' and 'e': an unknown name changes nothing. *)
Definition resol_of (arg : list Z) (r : E_IMAGE_RESOL) : E_IMAGE_RESOL :=
  if strcaseeq arg (lit "qvga") then eIMAGE_QVGA
  else if strcaseeq arg (lit "vga") then eIMAGE_VGA
  else if strcaseeq arg (lit "wqvga") then eIMAGE_WQVGA
  else if strcaseeq arg (lit "svga") then eIMAGE_SVGA
  else if strcaseeq arg (lit "hd720") then eIMAGE_HD720
  else r.

(** [inl] is an early return. *)
Fixpoint parse_options (opts : list opt) (preview encode : E_IMAGE_RESOL)
    : C (Z + E_IMAGE_RESOL * E_IMAGE_RESOL) :=
  match opts with
  | [] => mret (inr (preview, encode))
  | OptS arg :: opts => parse_options opts (resol_of arg preview) encode
  | OptE arg :: opts => parse_options opts preview (resol_of arg encode)
  | OptP arg :: opts =>
      ok ⟵ OMalloc (Z.of_nat (length arg) + 10);
      if negb ok then mret (inl (-1)) else
      _ ← update (λ v, set_folder v (Some (arg ++ lit "/")));
      parse_options opts preview encode
  | OptH :: _ => mret (inl 0)
  | OptOther :: opts => parse_options opts preview encode
  end.

Definition resol_dims (r : E_IMAGE_RESOL) : Z * Z :=
  match r with
  | eIMAGE_WQVGA => (480, 272)
  | eIMAGE_VGA => (640, 480)
  | eIMAGE_QVGA => (320, 240)
  | eIMAGE_SVGA => (800, 600)
  | eIMAGE_HD720 => (1280, 720)
  end.

Definition DEFAULT_SAVE_FOLDER : list Z := lit "/mnt/nand1-2/dsc".

(** What uninitialised locals hold: the address of a picture, the width after a
    failed change of the resolution and the packet information. *)
Record locals := Locals { l_addr : Z; l_width : Z; l_pipe : S_PIPE_INFO }.
Context (l : locals).

(** The action of a key; the encode resolution is changed by the menu. *)
Definition serve_key (key : Z) (encode : E_IMAGE_RESOL) : C E_IMAGE_RESOL :=
  if key =? CAMERA then _ ← CaptureImage (l_addr l) encode; mret encode
  else if key =? VOL_PLUS_KEY then _ ← on_cap (ChangeV4LUserControl_Brigness 1); mret encode
  else if key =? VOL_MINUS_KEY then _ ← on_cap (ChangeV4LUserControl_Brigness (-1)); mret encode
  else if key =? UP_KEY then _ ← on_cap (dumpV4LBuffer (l_pipe l)); mret encode
  else if key =? DOWN_KEY then
    r ← on_cap (Zooming (-1));
    _ ← (match (r : V4l.ERRCODE * option v4l2_rect).2 with
         | Some c => update (λ v, set_crop v c) | None => mret tt end);
    mret encode
  else if key =? LEFT_KEY then on_cap (menuChangeParameter (l_width l))
  else if key =? RIGHT_KEY then _ ← CaptureImage_Packet eIMAGE_QVGA; mret encode
  else mret encode.

(** One turn of the loop: [None] is the break at the home key. *)
Definition main_turn (encode : E_IMAGE_RESOL) : C (option E_IMAGE_RESOL) :=
  pic ← on_cap ReadV4LPicture;
  _ ← (if (pic : V4l.ERRCODE * option (Z * Z * Z)).1 =? ERR_V4L_SUCCESS
       then _ ← on_cap TriggerV4LNextFrame; mret tt else mret tt);
  key ← GetKey;
  match key with
  | None => mret (Some encode)
  | Some key => if key =? HOME_KEY then mret None else r ← serve_key key encode; mret (Some r)
  end.

Fixpoint main_loop (fuel : nat) (encode : E_IMAGE_RESOL) : C unit :=
  match fuel with
  | O => give (Crash OutOfFuel)
  | S fuel =>
      r ← main_turn encode;
      match r with None => mret tt | Some encode => main_loop fuel encode end
  end.

(** The end of the program: [exit_prog]. *)
Definition exit_prog (ret : Z) : C Z :=
  v ← get_own;
  _ ← (match pchSaveFolder v with Some _ => _ ⟵ OFree; mret tt | None => mret tt end);
  mret ret.

(** After the loop. *)
Definition shut_down : C Z :=
  _ ← on_enc FinializeJpegDevice;
  _ ← on_cap FinializeV4LDevice;
  v ← get_own;
  _ ⟵ FbMunmap (u32FBBufSize v);
  _ ⟵ VIDEO_FORMAT_CHANGE (i32FBFd v) true;
  _ ⟵ OClose (i32FBFd v);
  _ ⟵ OClose (i32KpdFd v);
  exit_prog 0.

(** The handler of SIGINT and SIGTERM; the program exits after it. *)
Definition myExitHandler : C Z :=
  v ← get_own;
  _ ⟵ IOCTL_LCD_DISABLE_INT (i32FBFd v);
  _ ← on_cap StopV4LCapture;
  _ ← fill_screen 0;
  _ ← on_enc FinializeJpegDevice;
  _ ← on_cap FinializeV4LDevice;
  _ ⟵ VIDEO_FORMAT_CHANGE (i32FBFd v) true;
  _ ⟵ FbMunmap (u32FBBufSize v);
  _ ⟵ IOCTL_LCD_ENABLE_INT (i32FBFd v);
  _ ⟵ OClose (i32FBFd v);
  _ ⟵ OClose (i32KpdFd v);
  exit_prog (-9).

(** The configuration of the module and the loop; [n_std] and the two bases are
    those of [QueryV4LUserControl]. *)
Definition run_camera (fuel n_std : nat) (base private palette : Z) (preview encode : E_IMAGE_RESOL) : C Z :=
  v ← get_own;
  _ ⟵ IOCTL_LCD_ENABLE_INT (i32FBFd v);
  let '(ew, eh) := resol_dims encode in
  let '(pw, ph) := resol_dims preview in
  _ ← on_cap (SetV4LEncode 0 ew eh palette);
  _ ← on_cap (SetV4LViewWindow (s_i32FBWidth v) (s_i32FBHeight v) pw ph);
  _ ← on_cap StartV4LCapture;
  _ ⟵ IOCTL_LCD_ENABLE_INT (i32FBFd v);
  _ ← on_cap (QueryV4LUserControl fuel n_std base private);
  _ ← on_cap QueryV4LSensorID;
  _ ← on_cap StartPreview;
  _ ← main_loop fuel encode;
  shut_down.

(** The devices are opened one after the other; a failure closes those before. *)
Definition open_devices (encode : E_IMAGE_RESOL) : C (option Z) :=
  kpd ← InitKpdDevice;
  _ ← update (λ v, set_kpd v kpd);
  if kpd <? 0 then mret (Some (-1)) else
  fb ← InitFBDevice;
  _ ← update (λ v, set_fb v fb (pu8FBBufAddr v) (u32FBBufSize v));
  if fb <? 0 then _ ⟵ OClose kpd; mret (Some (-1)) else
  err ← on_cap (InitV4LDevice encode);
  v ← get_own;
  if negb ((err : V4l.ERRCODE) =? ERR_V4L_SUCCESS) then
    _ ⟵ IOCTL_LCD_DISABLE_INT fb;
    _ ⟵ VIDEO_FORMAT_CHANGE fb true;
    _ ⟵ IOCTL_LCD_ENABLE_INT fb;
    _ ⟵ FbMunmap (u32FBBufSize v);
    _ ⟵ OClose fb;
    _ ⟵ OClose kpd;
    mret (Some (-1))
  else
  r ← on_enc (InitJpegDevice encode);
  if (r : Z) <? 0 then
    _ ← on_cap FinializeV4LDevice;
    _ ⟵ FbMunmap (u32FBBufSize v);
    _ ⟵ OClose fb;
    _ ⟵ OClose kpd;
    mret (Some (-1))
  else mret None.

Definition main (fuel n_std : nat) (base private palette : Z) (opts : list opt) : C Z :=
  r ← parse_options opts eIMAGE_QVGA eIMAGE_VGA;
  match r with
  | inl v => mret v
  | inr (preview, encode) =>
      v ← get_own;
      ok ← (match pchSaveFolder v with
            | Some _ => mret true
            | None =>
                ok ⟵ OMalloc (Z.of_nat (length DEFAULT_SAVE_FOLDER) + 10);
                _ ← (if (ok : bool) then update (λ v, set_folder v (Some (DEFAULT_SAVE_FOLDER ++ lit "/"))) else mret tt);
                mret ok
            end);
      if negb (ok : bool) then mret (-1) else
      v ← get_own;
      m ⟵ OMkdir (default [] (pchSaveFolder v));
      if negb (m.1 =? 0) && negb m.2 then mret (-1) else
      r ← open_devices encode;
      match r with
      | Some v => exit_prog v
      | None => run_camera fuel n_std base private palette preview encode
      end
  end.
End program.

(** ** A sample system *)

(** Drivers that work, each with the set of its open descriptors, and a keypad
    with a queue of events; they show that the theorems' hypotheses can hold. *)
Definition open_fresh (fds : gset Z) (fd : Z) : gset Z * Z :=
  if bool_decide (fd ∈ fds) then (fds, -1) else ({[fd]} ∪ fds, fd).

#[export] Instance sample_capture : V4l.Driver (gset Z) := λ fds r,
  match r return gset Z * reply r with
  | ROpen => ((open_fresh fds 7).1, @Reply ROpen (open_fresh fds 7).2 EOTHER tt)
  | RClose fd => (fds ∖ {[fd]}, @Reply (RClose fd) 0 EOTHER tt)
  | r => (fds, (V4l.camera_ioctl false false tt r).2)
  end.

#[export] Instance sample_encoder : Device.Driver jreq jreply (gset Z) := λ fds r,
  match r return gset Z * jreply r with
  | JOpen minor => if minor =? 1 then (fds, -1) else open_fresh fds 6
  | JClose fd => (fds ∖ {[fd]}, 0)
  | JRead => (fds, (0, (100, replicate 200 7)))
  | r => (fds, (JpegEnc.fake_encoder false tt r).2)
  end.

Record sample_sys := SampleSys { sample_fds : gset Z; sample_queue : list input_event }.

#[export] Instance sample_rest : Device.Driver oreq oreply sample_sys := λ d r,
  match r return sample_sys * oreply r with
  | KpdOpen _ => let '(fds, fd) := open_fresh (sample_fds d) 8 in (SampleSys fds (sample_queue d), fd)
  | FbOpen => let '(fds, fd) := open_fresh (sample_fds d) 9 in (SampleSys fds (sample_queue d), fd)
  | OClose fd => (SampleSys (sample_fds d ∖ {[fd]}) (sample_queue d), tt)
  | KpdRead _ =>
      match sample_queue d with
      | [] => (d, InputEvent 0 0 0)
      | e :: q => (SampleSys (sample_fds d) q, e)
      end
  | KpdName _ => (d, Some (lit "N32905 Keypad"))
  | FBIOGET_VSCREENINFO _ => (d, Some (320, 240))
  | FbMmap _ _ => (d, Some 4096)
  | OMalloc _ => (d, true)
  | OMkdir _ => (d, (0, false))
  | OStatfs _ => (d, Some (1000, 1024))
  | OLocaltime => (d, (Exif.sample_tm, Dsc.sample_day))
  | OWrite _ b => (d, Z.of_nat (length b))
  | FbMunmap _ | IOCTL_LCD_DISABLE_INT _ | IOCTL_LCD_ENABLE_INT _ | VIDEO_FORMAT_CHANGE _ _
  | FbFill _ _ | OFree | OSync | OUsleep _ => (d, tt)
  end.

Definition sample_vars (folder : option (list Z)) : vin_vars :=
  VinVars 320 240 (-1) (-1) None 0 folder (Rect 0 0 0 0).

Definition key_up (code : Z) : input_event := InputEvent 1 0 code.

(** The state before the program starts. *)
Definition sample_start (keys : list input_event) : camera (gset Z) (gset Z) sample_sys :=
  Camera (sample_vars None) (SampleSys ∅ keys)
    (V4l.State (V4l.VidData (-1) 0 0 0 (VideoWindow 0 0 0 0 0 0) 0 (VideoMbuf 0 0 []) (VideoMmap 0 0 0 0) 0)
       0 0 (replicate 16 (QueryCtrl 0 [] 0 0 0 0)) ∅ [])
    (World (JpegVars None (-1) 0 (JpegParam 0 0 0 0 0 false) false) ∅ [])
    Dsc.sample_dsc [].

Definition sample_locals : locals := Locals 0 0 (PipeInfo 0 0 0).
