(* ===== verification/VinFds.v ===== *)
(** * VinFds: the descriptors of the camera demo

    Every run of the main program of [VinDemo] that returns has closed the
    descriptors it opened, whatever the drivers answer.  The kernel's side is an
    interface: [CapFds], [EncFds] and [SysFds] say which descriptors are open in
    a state of a driver and how open() and close() change them.  The operations
    of the modules are shown to keep the set of open descriptors by a small
    program logic ([keeps]), whose rules are in the hint database [fds]. *)
From stdpp Require Import gmap.
From S2P Require Import Prelude LibC Misc Dsc V4l JpegEnc Exif Device VinDemo.
Local Open Scope cmodel_scope.
Local Open Scope Z_scope.

(** ** The interface of the kernel *)

(** open() fails, or returns a new descriptor above that of standard input. *)
Definition opens (fds fds' : gset Z) (fd : Z) : Prop :=
  fd < 0 ∧ fds' = fds ∨ 0 < fd ∧ fd ∉ fds ∧ fds' = {[fd]} ∪ fds.

Class CapFds (V : Type) `{V4l.Driver V} := {
  cap_fds : V → gset Z;
  cap_open : ∀ d : V, opens (cap_fds d) (cap_fds (ioctl d ROpen).1) (ret (ioctl d ROpen).2);
  cap_close : ∀ (d : V) fd, cap_fds (ioctl d (RClose fd)).1 = cap_fds d ∖ {[fd]};
  cap_other : ∀ (d : V) r, r ≠ ROpen → (∀ fd, r ≠ RClose fd) → cap_fds (ioctl d r).1 = cap_fds d;
}.

Class EncFds (J : Type) `{Device.Driver jreq jreply J} := {
  enc_fds : J → gset Z;
  enc_open : ∀ (d : J) n, opens (enc_fds d) (enc_fds (respond d (JOpen n)).1) (respond d (JOpen n)).2;
  enc_close : ∀ (d : J) fd, enc_fds (respond d (JClose fd)).1 = enc_fds d ∖ {[fd]};
  enc_other : ∀ (d : J) r, (∀ n, r ≠ JOpen n) → (∀ fd, r ≠ JClose fd) → enc_fds (respond d r).1 = enc_fds d;
}.

Class SysFds (Y : Type) `{Device.Driver oreq oreply Y} := {
  sys_fds : Y → gset Z;
  sys_open_kpd : ∀ (d : Y) n, opens (sys_fds d) (sys_fds (respond d (KpdOpen n)).1) (respond d (KpdOpen n)).2;
  sys_open_fb : ∀ d : Y, opens (sys_fds d) (sys_fds (respond d FbOpen).1) (respond d FbOpen).2;
  sys_close : ∀ (d : Y) fd, sys_fds (respond d (OClose fd)).1 = sys_fds d ∖ {[fd]};
  sys_other : ∀ (d : Y) r, (∀ n, r ≠ KpdOpen n) → r ≠ FbOpen → (∀ fd, r ≠ OClose fd) →
    sys_fds (respond d r).1 = sys_fds d;
}.

Create HintDb fds.

(** ** The capture module *)

Section cap.
Context {V : Type} `{CapFds V}.

(** The descriptors and the one the module holds are the same. *)
Definition cap_frame (st st' : V4l.state V) : Prop :=
  cap_fds (dev st') = cap_fds (dev st) ∧ i32VidFD (vid st') = i32VidFD (vid st).

Definition keeps {A} (m : V4l.M V A) : Prop := ∀ st a st', m st = Ok (a, st') → cap_frame st st'.

Lemma keeps_ret {A} (a : A) : keeps (mret a).
Proof. by intros st b st' [= _ <-]. Qed.

Lemma keeps_bind {A B} (m : V4l.M V A) (k : A → V4l.M V B) :
  keeps m → (∀ a, keeps (k a)) → keeps (m ≫= k).
Proof.
  intros Hm Hk st b st'. rewrite v4l_bind_run. destruct (m st) as [[a st1]|] eqn:E; [|done].
  intros E'. destruct (Hm _ _ _ E) as [F1 F2], (Hk _ _ _ _ E') as [F3 F4]. split; congruence.
Qed.

Lemma keeps_request {A} r (k : reply r → V4l.M V A) :
  r ≠ ROpen → (∀ fd, r ≠ RClose fd) → (∀ rp, keeps (k rp)) → keeps (V4l.request r k).
Proof.
  intros H1 H2 Hk st b st'. rewrite v4l_request_run. intros E. destruct (Hk _ _ _ _ E) as [F1 F2].
  unfold V4l.after in F1. cbn [dev] in F1. rewrite cap_other in F1 by done. done.
Qed.

Lemma keeps_gets {A} (f : V4l.state V → A) : keeps (gets f).
Proof. by intros st b st' [= _ <-]. Qed.

Lemma keeps_lift {A} (r : result A) : keeps (V4l.lift r).
Proof. intros st b st'. unfold V4l.lift. destruct r; [|done]. by intros [= _ <-]. Qed.

Lemma keeps_crash {A} c : keeps (crash_with c : V4l.M V A).
Proof. done. Qed.

Lemma keeps_modify f : (∀ v, i32VidFD (f v) = i32VidFD v) → keeps (modify_vid f).
Proof. intros Hf st b st' [= _ <-]. split; [done|]. cbn. by rewrite Hf. Qed.

Lemma keeps_prev_ts ts : keeps (set_prev_ts ts).
Proof. by intros st b st' [= _ <-]. Qed.

Lemma keeps_ctrls l n : keeps (set_ctrls l n).
Proof. by intros st b st' [= _ <-]. Qed.
End cap.

#[export] Hint Resolve keeps_ret keeps_gets keeps_lift keeps_crash keeps_prev_ts keeps_ctrls : fds.

(** Applies the rules along the structure of the code. *)
Ltac keep :=
  repeat first
    [ solve [eauto with fds]
    | apply keeps_request; [discriminate|intros; discriminate|intros]
    | apply keeps_bind; intros
    | apply keeps_modify; done
    | match goal with
      | |- keeps (if ?b then _ else _) => destruct b
      | |- keeps (match ?x with _ => _ end) => destruct x
      end ].

Section cap_operations.
Context {V : Type} `{CapFds V}.
Notation keeps := (keeps (V:=V)).

Lemma keeps_sync n f : keeps (sync_wait n f).
Proof. induction n; cbn [sync_wait]; keep. Qed.
Hint Resolve keeps_sync : fds.

Lemma keeps_ReadV4LPicture : keeps ReadV4LPicture.
Proof. unfold ReadV4LPicture, get_vid. keep. Qed.
Lemma keeps_TriggerV4LNextFrame : keeps TriggerV4LNextFrame.
Proof. unfold TriggerV4LNextFrame, get_vid. keep. Qed.
Lemma keeps_StartV4LCapture : keeps StartV4LCapture.
Proof. unfold StartV4LCapture. keep. Qed.
Lemma keeps_StopV4LCapture : keeps StopV4LCapture.
Proof. unfold StopV4LCapture. keep. Qed.
Lemma keeps_StartPreview : keeps StartPreview.
Proof. unfold StartPreview. keep. Qed.
Lemma keeps_StopPreview : keeps StopPreview.
Proof. unfold StopPreview. keep. Qed.
Lemma keeps_SetV4LEncode a b c d : keeps (SetV4LEncode a b c d).
Proof. unfold SetV4LEncode. keep. Qed.
Lemma keeps_menuChangeParameter g : keeps (menuChangeParameter g).
Proof. unfold menuChangeParameter, menuEncodeV4LResoultion, ChangeEncodeV4LResoultion, get_vid. keep. Qed.
Lemma keeps_query_standard n id err : keeps (query_standard n id err).
Proof. revert id err. induction n; intros; cbn [query_standard]; keep. Qed.
Lemma keeps_query_private fuel id err : keeps (query_private fuel id err).
Proof. revert id err. induction fuel; intros; cbn [query_private]; keep. Qed.
Hint Resolve keeps_query_standard keeps_query_private : fds.
Lemma keeps_QueryV4LUserControl fuel n b p : keeps (QueryV4LUserControl fuel n b p).
Proof. unfold QueryV4LUserControl. keep. Qed.
Lemma keeps_Brigness c : keeps (ChangeV4LUserControl_Brigness c).
Proof. unfold ChangeV4LUserControl_Brigness, update_register, ctrl_field. keep. Qed.
Lemma keeps_QueryV4LZoomInfo : keeps QueryV4LZoomInfo.
Proof. unfold QueryV4LZoomInfo. keep. Qed.
Lemma keeps_QueryV4LSensorID : keeps QueryV4LSensorID.
Proof. unfold QueryV4LSensorID. keep. Qed.
Lemma keeps_QueryV4LPacketInformation : keeps QueryV4LPacketInformation.
Proof. unfold QueryV4LPacketInformation. keep. Qed.
Hint Resolve keeps_QueryV4LZoomInfo keeps_QueryV4LPacketInformation : fds.
Lemma keeps_dumpV4LBuffer g : keeps (dumpV4LBuffer g).
Proof. unfold dumpV4LBuffer. keep. Qed.
Lemma keeps_Zooming c : keeps (Zooming c).
Proof. unfold Zooming. keep. Qed.

(** The module holds descriptor [fd]; besides it, [S] are open. *)
Definition cap_holds (S : gset Z) (fd : Z) (st : V4l.state V) : Prop :=
  i32VidFD (vid st) = fd ∧ cap_fds (dev st) ∖ {[fd]} = S.

Lemma cap_holds_frame S fd st st' : cap_frame st st' → cap_holds S fd st → cap_holds S fd st'.
Proof. intros [F1 F2] [H1 H2]. split; congruence. Qed.

Lemma SetV4LViewWindow_holds S fd a b c d st e st' : cap_holds S fd st →
  SetV4LViewWindow a b c d st = Ok (e, st') → cap_holds S fd st'.
Proof.
  intros [H1 H2]. unfold SetV4LViewWindow. rewrite v4l_modify_run, v4l_request_run. destruct (_ <? 0).
  - unfold get_vid. rewrite v4l_gets_run, v4l_bind_run. cbn [vid V4l.after with_vid set_win i32VidFD].
    assert (∀ st0, i32VidFD (vid st0) = fd → cap_fds (dev st0) ∖ {[fd]} = S →
      cap_holds S fd (V4l.after st0 (RClose fd))) as Hclose.
    { intros st0 E1 E2. split; [done|]. unfold V4l.after. cbn [dev]. rewrite cap_close, <- E2. set_solver. }
    destruct (0 <=? i32VidFD (vid st)).
    + rewrite v4l_request_run. intros [= _ <-]. rewrite H1. apply Hclose; [done|].
      unfold V4l.after. cbn [dev with_vid]. by rewrite cap_other.
    + intros [= _ <-]. split; [done|]. cbn. by rewrite cap_other.
  - intros [= _ <-]. split; [done|]. cbn. by rewrite cap_other.
Qed.

(** The set-up opens and closes nothing, and its end stores the descriptor. *)
Definition stores (fd : Z) (m : V4l.M V V4l.ERRCODE) : Prop := ∀ st err st', m st = Ok (err, st') →
  cap_fds (dev st') = cap_fds (dev st) ∧ (err = ERR_V4L_SUCCESS → i32VidFD (vid st') = fd).

Lemma stores_fail fd err : err ≠ ERR_V4L_SUCCESS → stores fd (mret err).
Proof. by intros Herr st e st' [= <- <-]. Qed.

Lemma stores_bind {A} fd (m : V4l.M V A) k : keeps m → (∀ a, stores fd (k a)) → stores fd (m ≫= k).
Proof.
  intros Hm Hk st b st'. rewrite v4l_bind_run. destruct (m st) as [[a st1]|] eqn:E; [|done].
  intros E'. destruct (Hm _ _ _ E) as [F1 _], (Hk _ _ _ _ E') as [F2 F3]. split; [congruence|done].
Qed.

Lemma stores_request fd r k : r ≠ ROpen → (∀ fd, r ≠ RClose fd) → (∀ rp, stores fd (k rp)) →
  stores fd (V4l.request (D:=V) r k).
Proof.
  intros H1 H2 Hk. unfold V4l.request. apply stores_bind; [|done]. intros st a st'.
  unfold call. destruct (ioctl (dev st) r) as [d rp] eqn:E. intros [= _ <-]. split; [|done].
  cbn. rewrite <- (cap_other (dev st) r) by done. by rewrite E.
Qed.

Lemma init_body_stores fd resol : stores fd (init_body fd resol).
Proof.
  assert (∀ w h, keeps (init_read w h)) by (intros; unfold init_read; keep).
  assert (∀ w h mb, keeps (init_mmap w h mb)) by (intros; unfold init_mmap, map_buffers; keep).
  unfold init_body.
  repeat match goal with
  | |- stores _ (V4l.request _ _) => apply stores_request; [discriminate|intros; discriminate|intros]
  | |- stores _ (mret _) => by apply stores_fail
  | |- stores _ (if ?b then _ else _) => destruct b eqn:?
  | |- stores _ (let '(_, _) := ?p in _) => destruct p
  | |- stores _ ((if _ then _ else _) ≫= _) => apply stores_bind; [keep|intros]
  end.
  - apply stores_fail. by apply Z.eqb_neq, negb_true_iff.
  - by intros st e st' [= <- <-].
Qed.

Lemma InitV4LDevice_fds resol st err st' : InitV4LDevice resol st = Ok (err, st') →
  if err =? ERR_V4L_SUCCESS then ∃ fd, cap_holds (cap_fds (dev st)) fd st'
  else cap_fds (dev st') = cap_fds (dev st).
Proof.
  unfold InitV4LDevice. rewrite v4l_request_run. pose proof (cap_open (dev st)) as Ho.
  unfold V4l.answer. set (fd := ret _) in *. destruct (fd <? 0) eqn:Efd.
  - intros [= <- <-]. cbn. apply Z.ltb_lt in Efd. destruct Ho as [[_ Ho]|]; [done|lia].
  - apply Z.ltb_ge in Efd. destruct Ho as [[]|(_ & Hnew & Ho)]; [lia|]. rewrite v4l_bind_run.
    destruct (init_body _ _ _) as [[e st1]|] eqn:Eb; [|done].
    destruct (init_body_stores _ _ _ _ _ Eb) as [F1 F2]. cbn [V4l.after dev] in F1.
    destruct (e =? ERR_V4L_SUCCESS) eqn:Ee.
    + intros [= <- <-]. rewrite Ee. exists fd. split; [by apply F2, Z.eqb_eq|]. rewrite F1, Ho. set_solver.
    + rewrite v4l_request_run. intros [= <- <-]. rewrite Ee. cbn [V4l.after dev].
      rewrite cap_close, F1, Ho. set_solver.
Qed.

Lemma FinializeV4LDevice_fds S fd st a st' : cap_holds S fd st →
  FinializeV4LDevice st = Ok (a, st') → cap_fds (dev st') = S.
Proof.
  intros [H1 H2]. unfold FinializeV4LDevice, get_vid. rewrite v4l_gets_run, v4l_bind_run.
  destruct (negb _); [rewrite v4l_request_run|]; rewrite v4l_mret_run, v4l_request_run;
    intros [= _ <-]; cbn [V4l.after dev]; rewrite cap_close, ?cap_other, H1 by done; done.
Qed.
End cap_operations.

#[export] Hint Resolve keeps_ReadV4LPicture keeps_TriggerV4LNextFrame keeps_StartV4LCapture
  keeps_StopV4LCapture keeps_StartPreview keeps_StopPreview keeps_SetV4LEncode
  keeps_menuChangeParameter keeps_QueryV4LUserControl keeps_Brigness keeps_QueryV4LZoomInfo
  keeps_QueryV4LSensorID keeps_QueryV4LPacketInformation keeps_dumpV4LBuffer keeps_Zooming : fds.

(** ** The encoder *)

Section enc.
Context {J : Type} `{EncFds J}.
Notation P := (prog jpeg_vars jreq J).
Implicit Types w : world jpeg_vars jreq J.

Definition enc_keeps {A} (m : P A) : Prop := ∀ w a w', m w = Ok (a, w') →
  enc_fds (driver w') = enc_fds (driver w) ∧ s_i32JpegFd (vars w') = s_i32JpegFd (vars w).

Lemma enc_keeps_ret {A} (a : A) : enc_keeps (mret a).
Proof. by intros w b w' [= _ <-]. Qed.

Lemma enc_keeps_bind {A B} (m : P A) (k : A → P B) :
  enc_keeps m → (∀ a, enc_keeps (k a)) → enc_keeps (m ≫= k).
Proof.
  intros Hm Hk w b w'. rewrite bind_run. destruct (m w) as [[a w1]|] eqn:E; [|done].
  intros E'. destruct (Hm _ _ _ E) as [F1 F2], (Hk _ _ _ _ E') as [F3 F4]. split; congruence.
Qed.

Lemma enc_keeps_request {A} r (k : jreply r → P A) :
  (∀ n, r ≠ JOpen n) → (∀ fd, r ≠ JClose fd) → (∀ rp, enc_keeps (k rp)) → enc_keeps (request r k).
Proof.
  intros H1 H2 Hk w b w'. rewrite request_run. intros E. destruct (Hk _ _ _ _ E) as [F1 F2].
  cbn [driver after] in F1. rewrite enc_other in F1 by done. done.
Qed.

Lemma enc_keeps_get : enc_keeps get.
Proof. by intros w b w' [= _ <-]. Qed.

Lemma enc_keeps_lift {A} (r : result A) : enc_keeps (lift r).
Proof. intros w b w'. unfold lift. destruct r; [|done]. by intros [= _ <-]. Qed.

Lemma enc_keeps_fault {A} c : enc_keeps (fault c : P A).
Proof. done. Qed.

Lemma enc_keeps_modify f : (∀ v, s_i32JpegFd (f v) = s_i32JpegFd v) → enc_keeps (modify f).
Proof. intros Hf w b w' [= _ <-]. split; [done|]. cbn. by rewrite Hf. Qed.
End enc.

#[export] Hint Resolve enc_keeps_ret enc_keeps_get enc_keeps_lift enc_keeps_fault : fds.

Ltac enc_keep :=
  repeat first
    [ solve [eauto with fds]
    | apply enc_keeps_request; [intros; discriminate|intros; discriminate|intros]
    | apply enc_keeps_bind; intros
    | apply enc_keeps_modify; done
    | match goal with
      | |- enc_keeps (if ?b then _ else _) => destruct b
      | |- enc_keeps (match ?x with _ => _ end) => destruct x
      end ].

Section enc_operations.
Context {J : Type} `{EncFds J}.
Implicit Types w : world jpeg_vars jreq J.

Lemma enc_keeps_reserve thb : enc_keeps (reserve_exif thb).
Proof. unfold reserve_exif. enc_keep. Qed.
Lemma enc_keeps_encode thb t : enc_keeps (encode_picture thb t).
Proof. unfold encode_picture, set_param_request. enc_keep. Qed.
Hint Resolve enc_keeps_reserve enc_keeps_encode : fds.
Lemma enc_keeps_JpegEncFromVIN r a thb cw ch t : enc_keeps (JpegEncFromVIN r a thb cw ch t).
Proof. unfold JpegEncFromVIN. enc_keep. Qed.
Lemma enc_keeps_JpegEncFromVIN_Packet r a thb t : enc_keeps (JpegEncFromVIN_Packet r a thb t).
Proof. unfold JpegEncFromVIN_Packet. enc_keep. Qed.

(** The module's variable holds descriptor [fd]; besides it, [S] are open. *)
Definition enc_holds (S : gset Z) (fd : Z) w : Prop :=
  s_i32JpegFd (vars w) = fd ∧ 0 < fd ∧ enc_fds (driver w) ∖ {[fd]} = S.

Lemma enc_holds_keeps {A} (m : prog jpeg_vars jreq J A) S fd w a w' :
  enc_keeps m → m w = Ok (a, w') → enc_holds S fd w → enc_holds S fd w'.
Proof. intros Hm E (H1 & H2 & H3). destruct (Hm _ _ _ E). repeat split; congruence. Qed.

(** After the loop the variable is that of the last open(): it failed, or
    the descriptor is the only new one (or closed again). *)
Definition after_open (S : gset Z) w : Prop :=
  s_i32JpegFd (vars w) < 0 ∧ enc_fds (driver w) = S ∨ enc_holds S (s_i32JpegFd (vars w)) w.

Lemma open_loop_fds n minor w a w' : open_loop n minor w = Ok (a, w') →
  n ≠ 0%nat ∨ s_i32JpegFd (vars w) < 0 ∨ 0 < s_i32JpegFd (vars w) ∧ s_i32JpegFd (vars w) ∉ enc_fds (driver w) →
  after_open (enc_fds (driver w)) w'.
Proof.
  revert minor w. induction n as [|n IH]; intros minor w; cbn [open_loop].
  - intros [= _ <-] [?|[?|[]]]; [done|by left|]. right. repeat split; [done|set_solver].
  - rewrite request_run, modify_run. intros E _. revert E. pose proof (enc_open (driver w) minor) as Ho.
    unfold answer. set (fd := (respond _ _).2) in *. destruct (fd <? 0) eqn:Efd.
    + apply Z.ltb_lt in Efd. intros E. destruct Ho as [[_ Ho]|[]]; [|lia].
      rewrite <- Ho. apply (IH _ _ E). right. by left.
    + apply Z.ltb_ge in Efd. destruct Ho as [[]|(Hpos & Hnew & Ho)]; [lia|]. rewrite request_run.
      match goal with |- (if ?b then _ else _) _ = _ → _ => destruct b end.
      * rewrite request_run. intros E. apply IH in E.
        -- cbn [driver after with_vars] in E. rewrite enc_close, enc_other, Ho in E by done.
           by replace (({[fd]} ∪ enc_fds (driver w)) ∖ {[fd]}) with (enc_fds (driver w)) in E by set_solver.
        -- right; right. cbn [driver after with_vars vars JpegEnc.set_fd s_i32JpegFd].
           rewrite enc_close. split; [done|set_solver].
      * intros [= _ <-]. right. repeat split; [done|]. cbn [driver after with_vars vars JpegEnc.set_fd
          JpegEnc.set_bufsize s_i32JpegFd]. rewrite enc_other, Ho by done. set_solver.
Qed.

Lemma InitJpegDevice_fds resol w r w' : InitJpegDevice resol w = Ok (r, w') →
  if r <? 0 then enc_fds (driver w') = enc_fds (driver w)
  else ∃ fd, enc_holds (enc_fds (driver w)) fd w'.
Proof.
  unfold InitJpegDevice. rewrite bind_run. destruct (open_loop _ _ _) as [[[] w1]|] eqn:El; [|done].
  apply open_loop_fds in El; [|by left]. rewrite get_run.
  destruct El as [[Hneg E]|(_ & Hpos & E)].
  { rewrite (proj2 (Z.ltb_lt _ 0)) by done. intros [= <- <-]. by rewrite (proj2 (Z.ltb_lt _ 0)). }
  rewrite (proj2 (Z.ltb_ge _ 0)) by lia. rewrite request_run, modify_run.
  destruct (negb _).
  { rewrite request_run. intros [= <- <-]. cbn [Z.ltb Z.compare driver after with_vars].
    rewrite enc_close, enc_other by done. exact E. }
  rewrite request_run, modify_run. destruct (answer _ (JMmap _ _)) as [buf|].
  - destruct (init_dims resol) as [x y]. rewrite modify_run. intros [= <- <-].
    rewrite (proj2 (Z.ltb_ge _ 0)) by lia. exists (s_i32JpegFd (vars w1)). repeat split; [done|].
    cbn [driver after with_vars]. by rewrite !enc_other.
  - rewrite request_run. intros [= <- <-]. cbn [Z.ltb Z.compare driver after with_vars].
    rewrite enc_close, !enc_other by done. exact E.
Qed.

Lemma FinializeJpegDevice_fds S fd w a w' : enc_holds S fd w →
  FinializeJpegDevice w = Ok (a, w') → enc_fds (driver w') = S.
Proof.
  intros Hh. unfold FinializeJpegDevice. rewrite get_run.
  assert (∀ m1 m2 : prog jpeg_vars jreq J unit, enc_keeps m1 → enc_keeps m2 →
    (_ ← m1; _ ← m2; _ ← (if 0 <? s_i32JpegFd (vars w) then _ ⇐ JClose (s_i32JpegFd (vars w));
       modify (λ v, set_fd v (-1)) else mret tt); mret 0) w = Ok (a, w') → enc_fds (driver w') = S) as Hgen.
  { intros m1 m2 K1 K2. rewrite bind_run. destruct (m1 w) as [[[] w1]|] eqn:E1; [|done].
    rewrite bind_run. destruct (m2 w1) as [[[] w2]|] eqn:E2; [|done].
    destruct Hh as (<- & Hpos & HS). destruct (K1 _ _ _ E1) as [F1 _], (K2 _ _ _ E2) as [F2 _].
    rewrite (proj2 (Z.ltb_lt 0 _)) by done. rewrite bind_run, request_run. intros [= _ <-].
    cbn [driver after with_vars]. rewrite enc_close, F2, F1. done. }
  apply Hgen; enc_keep.
Qed.
End enc_operations.

#[export] Hint Resolve enc_keeps_JpegEncFromVIN enc_keeps_JpegEncFromVIN_Packet : fds.

(** ** The program *)

Section camera_fds.
Context {V J Y : Type} `{CapFds V} `{EncFds J} `{SysFds Y}.
Notation C := (cam_prog V J Y).
Implicit Types c : camera V J Y.

(** The open descriptors and the variables that hold some of them. *)
Definition fds_state c : Z * gset Z * (Z * gset Z) * (Z * Z * gset Z) :=
  (i32VidFD (vid (cap c)), cap_fds (dev (cap c)), (s_i32JpegFd (vars (enc c)), enc_fds (driver (enc c))),
   (i32FBFd (own c), i32KpdFd (own c), sys_fds (os c))).

Definition cam_keeps {A} (m : C A) : Prop := ∀ c a c', m c = Ok (a, c') → fds_state c' = fds_state c.

Lemma Ok_pair {A B} (a a' : A) (b b' : B) : Ok (a, b) = Ok (a', b') → a = a' ∧ b = b'.
Proof. by intros [= -> ->]. Qed.

Lemma cam_mret_run {A} (a b : A) c c' : (mret a : C A) c = Ok (b, c') → a = b ∧ c = c'.
Proof. apply Ok_pair. Qed.

Lemma cam_bind_run {A B} (m : C A) (k : A → C B) c :
  (m ≫= k) c = match m c with Ok (a, c') => k a c' | Crash x => Crash x end.
Proof. done. Qed.

Lemma cam_keeps_ret {A} (a : A) : cam_keeps (mret a).
Proof. by intros c b c' [= _ <-]. Qed.

Lemma cam_keeps_bind {A B} (m : C A) (k : A → C B) :
  cam_keeps m → (∀ a, cam_keeps (k a)) → cam_keeps (m ≫= k).
Proof.
  intros Hm Hk c b c'. rewrite cam_bind_run. destruct (m c) as [[a c1]|] eqn:E; [|done].
  intros E'. rewrite <- (Hm _ _ _ E). exact (Hk _ _ _ _ E').
Qed.

Lemma cam_keeps_on_cap {A} (m : V4l.M V A) : keeps m → cam_keeps (on_cap m).
Proof.
  intros Hm c b c'. unfold on_cap. destruct (m (cap c)) as [[a s]|] eqn:E; [|done].
  intros [= _ <-]. destruct (Hm _ _ _ E) as [F1 F2]. unfold fds_state. cbn. by rewrite F1, F2.
Qed.

Lemma cam_keeps_on_enc {A} (m : prog jpeg_vars jreq J A) : enc_keeps m → cam_keeps (on_enc m).
Proof.
  intros Hm c b c'. unfold on_enc. destruct (m (enc c)) as [[a s]|] eqn:E; [|done].
  intros [= _ <-]. destruct (Hm _ _ _ E) as [F1 F2]. unfold fds_state. cbn. by rewrite F1, F2.
Qed.

Lemma cam_keeps_on_store {A} (f : Dsc.dsc → result (Dsc.dsc * A)) : cam_keeps (on_store f).
Proof. intros c b c'. unfold on_store. destruct (f (store c)) as [[s a]|]; [|done]. by intros [= _ <-]. Qed.

(** The answer to a request of the program, and the state after it. *)
Definition told c (r : oreq) : oreply r := (respond (os c) r).2.
Definition asked c (r : oreq) : camera V J Y :=
  Camera (own c) (respond (os c) r).1 (cap c) (enc c) (store c) (events c ++ [EvOwn r]).

Lemma ask_run {A} r (k : oreply r → C A) c : ask r k c = k (told c r) (asked c r).
Proof. unfold ask, told, asked. by destruct (respond (os c) r). Qed.

Lemma sys_asked c r : (∀ n, r ≠ KpdOpen n) → r ≠ FbOpen → (∀ fd, r ≠ OClose fd) →
  sys_fds (os (asked c r)) = sys_fds (os c).
Proof. apply sys_other. Qed.

Lemma sys_asked_close c fd : sys_fds (os (asked c (OClose fd))) = sys_fds (os c) ∖ {[fd]}.
Proof. apply sys_close. Qed.

Lemma cam_keeps_ask {A} r (k : oreply r → C A) :
  (∀ n, r ≠ KpdOpen n) → r ≠ FbOpen → (∀ fd, r ≠ OClose fd) → (∀ a, cam_keeps (k a)) → cam_keeps (ask r k).
Proof.
  intros N1 N2 N3 Hk c b c'. rewrite ask_run. intros E. rewrite (Hk _ _ _ _ E).
  unfold fds_state. rewrite sys_asked by done. done.
Qed.

Lemma cam_keeps_get_own : cam_keeps get_own.
Proof. by intros c b c' [= _ <-]. Qed.

Lemma cam_keeps_update f : (∀ v, i32FBFd (f v) = i32FBFd v ∧ i32KpdFd (f v) = i32KpdFd v) → cam_keeps (update f).
Proof. intros Hf c b c' [= _ <-]. unfold fds_state. cbn. by destruct (Hf (own c)) as [-> ->]. Qed.

Lemma cam_keeps_give {A} (r : result A) : cam_keeps (give r).
Proof. intros c b c'. unfold give. destruct r; [|done]. by intros [= _ <-]. Qed.
End camera_fds.

#[export] Hint Resolve cam_keeps_ret cam_keeps_on_cap cam_keeps_on_enc cam_keeps_on_store
  cam_keeps_get_own cam_keeps_give : fds.

Ltac cam_keep :=
  repeat first
    [ solve [eauto with fds]
    | apply cam_keeps_ask; [intros; discriminate|discriminate|intros; discriminate|intros]
    | apply cam_keeps_on_enc; enc_keep; fail
    | apply cam_keeps_bind; intros
    | apply cam_keeps_update; done
    | match goal with
      | |- cam_keeps (if ?b then _ else _) => destruct b
      | |- cam_keeps (match ?x with _ => _ end) => destruct x
      end ].

Section program_fds.
Context {V J Y : Type} `{CapFds V} `{EncFds J} `{SysFds Y}.
Context (h : Dsc.host) (l : locals).
Implicit Types c : camera V J Y.
Notation cam_keeps := (cam_keeps (V:=V) (J:=J) (Y:=Y)).

Lemma cam_keeps_ClearFB : cam_keeps ClearFB.
Proof. unfold ClearFB. cam_keep. Qed.
Lemma cam_keeps_GetKey : cam_keeps GetKey.
Proof. unfold GetKey. cam_keep. Qed.
Lemma cam_keeps_save_picture f a n : cam_keeps (save_picture h f a n).
Proof. unfold save_picture, write_picture. cam_keep. Qed.
Lemma cam_keeps_restart_capture : cam_keeps restart_capture.
Proof. unfold restart_capture. cam_keep. Qed.
Hint Resolve cam_keeps_ClearFB cam_keeps_GetKey cam_keeps_save_picture cam_keeps_restart_capture : fds.
Lemma cam_keeps_CaptureImage g r : cam_keeps (CaptureImage h g r).
Proof. unfold CaptureImage. cam_keep. Qed.
Lemma cam_keeps_CaptureImage_Packet r : cam_keeps (CaptureImage_Packet h r).
Proof. unfold CaptureImage_Packet. cam_keep. Qed.
Hint Resolve cam_keeps_CaptureImage cam_keeps_CaptureImage_Packet : fds.
Lemma cam_keeps_main_turn r : cam_keeps (main_turn h l r).
Proof. unfold main_turn, serve_key. cam_keep. Qed.
Hint Resolve cam_keeps_main_turn : fds.
Lemma cam_keeps_main_loop fuel r : cam_keeps (main_loop h l fuel r).
Proof. revert r. induction fuel; intros; cbn [main_loop]; cam_keep. Qed.
Lemma cam_keeps_parse_options opts p e : cam_keeps (parse_options opts p e).
Proof. revert p e. induction opts as [|[] opts IH]; intros; cbn [parse_options]; cam_keep. Qed.
Lemma cam_keeps_exit_prog r : cam_keeps (exit_prog r).
Proof. unfold exit_prog. cam_keep. Qed.
Hint Resolve cam_keeps_main_loop cam_keeps_parse_options cam_keeps_exit_prog : fds.

(** The descriptors before the devices are opened and after they are closed,
    and while the program runs: each part holds one descriptor more, the
    program itself two. *)
Definition closed (Sv Se Ss : gset Z) c : Prop :=
  cap_fds (dev (cap c)) = Sv ∧ enc_fds (driver (enc c)) = Se ∧ sys_fds (os c) = Ss.
Definition running (Sv Se Ss : gset Z) c : Prop :=
  (∃ fd, cap_holds Sv fd (cap c)) ∧ (∃ fd, enc_holds Se fd (enc c)) ∧
  sys_fds (os c) ∖ {[i32FBFd (own c)]} ∖ {[i32KpdFd (own c)]} = Ss.

Lemma closed_keeps {A} (m : cam_prog V J Y A) Sv Se Ss c a c' :
  cam_keeps m → closed Sv Se Ss c → m c = Ok (a, c') → closed Sv Se Ss c'.
Proof. intros Hm Hc E. specialize (Hm _ _ _ E). unfold fds_state, closed in *. naive_solver congruence. Qed.

Lemma running_keeps {A} (m : cam_prog V J Y A) Sv Se Ss c a c' :
  cam_keeps m → running Sv Se Ss c → m c = Ok (a, c') → running Sv Se Ss c'.
Proof.
  intros Hm ([fd [A1 A2]] & [fd' (B1 & B2 & B3)] & D1) E. specialize (Hm _ _ _ E).
  unfold fds_state in Hm. injection Hm as E1 E2 E3 E4 E5 E6 E7. unfold running, cap_holds, enc_holds.
  rewrite E1, E2, E3, E4, E5, E6, E7. split; [by exists fd|]. split; [by exists fd'|done].
Qed.

(** What the two functions that open a device of the program itself change. *)
Definition opened (fd : Z) c c' : Prop :=
  cap c' = cap c ∧ enc c' = enc c ∧ i32KpdFd (own c') = i32KpdFd (own c) ∧
  opens (sys_fds (os c)) (sys_fds (os c')) fd.

Lemma opens_close (S S1 S2 : gset Z) fd fd' : 0 <= fd →
  opens S S1 fd → opens (S1 ∖ {[fd]}) S2 fd' → opens S S2 fd'.
Proof.
  intros Hfd [[]|(_ & Hn & ->)]; [lia|].
  replace (({[fd]} ∪ S) ∖ {[fd]}) with S by set_solver. done.
Qed.

Lemma keypad_loop_fds n minor c fd c' : keypad_loop n minor c = Ok (fd, c') → opened fd c c'.
Proof.
  revert minor c. induction n as [|n IH]; intros minor c; cbn [keypad_loop].
  { intros [= <- <-]. repeat split. left. split; [lia|done]. }
  rewrite ask_run. pose proof (sys_open_kpd (os c) minor) as Ho.
  change (respond _ _).2 with (told c (KpdOpen minor)) in Ho. set (f := told _ _) in *.
  change (respond _ _).1 with (os (asked c (KpdOpen minor))) in Ho. set (c1 := asked c (KpdOpen minor)) in *.
  destruct (f <? 0) eqn:Ef.
  { intros [= <- <-]. repeat split. apply Z.ltb_lt in Ef. left. split; [lia|].
    destruct Ho as [[]|[]]; [done|lia]. }
  rewrite ask_run. match goal with |- (if ?b then _ else _) _ = _ → _ => destruct b end.
  { intros E. apply cam_mret_run in E as [<- <-]. split_and!; [done..|]. by rewrite sys_asked. }
  rewrite ask_run. intros E. apply IH in E as (E1 & E2 & E3 & E4). split_and!; [done..|].
  rewrite sys_asked_close, sys_asked in E4 by done. apply Z.ltb_ge in Ef. by eapply opens_close.
Qed.

Lemma InitFBDevice_fds c fd c' : InitFBDevice c = Ok (fd, c') → opened fd c c'.
Proof.
  unfold InitFBDevice. rewrite cam_bind_run. cbn [update]. rewrite ask_run. cbn [os].
  match goal with |- context [asked ?x FbOpen] => set (c0 := x) end.
  pose proof (sys_open_fb (os c0)) as Ho. change (respond _ FbOpen).2 with (told c0 FbOpen) in Ho.
  change (respond _ FbOpen).1 with (os (asked c0 FbOpen)) in Ho. set (c1 := asked c0 FbOpen) in *.
  set (f := told c0 FbOpen) in *. destruct (f <? 0) eqn:Ef.
  { intros [= <- <-]. repeat split. apply Z.ltb_lt in Ef. left. split; [lia|].
    destruct Ho as [[]|[]]; [done|lia]. }
  apply Z.ltb_ge in Ef.
  assert (∀ S1, S1 = sys_fds (os c1) → opens (sys_fds (os c)) (S1 ∖ {[f]}) (-1)) as Hfail.
  { intros S1 ->. eapply opens_close; [exact Ef|exact Ho|]. left. split; [lia|done]. }
  rewrite ask_run. destruct (told c1 (FBIOGET_VSCREENINFO f)) as [[xres yres]|].
  - rewrite cam_bind_run. cbn [update]. rewrite ask_run. destruct (told _ (FbMmap f _)).
    + rewrite cam_bind_run. cbn [update]. rewrite !ask_run, cam_bind_run. cbn [update]. intros E.
      apply cam_mret_run in E as [<- <-]. split_and!; [done..|]. cbn [os].
      repeat (rewrite sys_asked by done; cbn [os]). exact Ho.
    + rewrite ask_run. intros E. apply cam_mret_run in E as [<- <-]. split_and!; [done..|]. rewrite sys_asked_close.
      apply Hfail. repeat (rewrite sys_asked by done; cbn [os]). done.
  - rewrite ask_run. intros E. apply cam_mret_run in E as [<- <-]. split_and!; [done..|]. rewrite sys_asked_close.
    apply Hfail. by rewrite sys_asked.
Qed.

Lemma on_cap_inv {A} (m : V4l.M V A) c a c' : on_cap m c = Ok (a, c') →
  m (cap c) = Ok (a, cap c') ∧ own c' = own c ∧ os c' = os c ∧ enc c' = enc c.
Proof. unfold on_cap. destruct (m (cap c)) as [[b s]|] eqn:E; [|done]. by intros [= <- <-]. Qed.

Lemma on_enc_inv {A} (m : prog jpeg_vars jreq J A) c a c' : on_enc m c = Ok (a, c') →
  m (enc c) = Ok (a, enc c') ∧ own c' = own c ∧ os c' = os c ∧ cap c' = cap c.
Proof. unfold on_enc. destruct (m (enc c)) as [[b s]|] eqn:E; [|done]. by intros [= <- <-]. Qed.

(** Closing the frame buffer and the keypad. *)
Lemma close_both (S1 S2 S3 : gset Z) kpd fb : 0 <= kpd → 0 <= fb →
  opens S1 S2 kpd → opens S2 S3 fb → S3 ∖ {[fb]} ∖ {[kpd]} = S1.
Proof.
  intros ?? [[]|(_ & N1 & ->)]; [lia|]. intros [[]|(_ & N2 & ->)]; [lia|].
  replace (({[fb]} ∪ ({[kpd]} ∪ S1)) ∖ {[fb]}) with ({[kpd]} ∪ S1) by set_solver. set_solver.
Qed.

Ltac syssimp := repeat (rewrite ?sys_asked_close, ?sys_asked by done; cbn [os own]).

Lemma open_devices_fds Sv Se Ss e c r c' : closed Sv Se Ss c → open_devices e c = Ok (r, c') →
  match r with Some _ => closed Sv Se Ss c' | None => running Sv Se Ss c' end.
Proof.
  intros (Hv & He & Hs). unfold open_devices. rewrite cam_bind_run.
  destruct (InitKpdDevice c) as [[kpd c1]|] eqn:Ek; [|done].
  apply keypad_loop_fds in Ek as (K1 & K2 & _ & K4). rewrite Hs in K4. rewrite cam_bind_run. cbn [update].
  match goal with |- context [Camera ?a ?b ?x ?y ?z ?t] => set (c2 := Camera a b x y z t) end.
  destruct (kpd <? 0) eqn:Ekpd.
  { intros E. apply cam_mret_run in E as [<- <-]. apply Z.ltb_lt in Ekpd. unfold closed, c2. cbn.
    rewrite K1, K2. destruct K4 as [[_ K4]|[]]; [done|lia]. }
  apply Z.ltb_ge in Ekpd. rewrite cam_bind_run. destruct (InitFBDevice c2) as [[fb c3]|] eqn:Ef; [|done].
  apply InitFBDevice_fds in Ef as (F1 & F2 & F3 & F4). rewrite cam_bind_run. cbn [update].
  match goal with |- context [Camera ?a ?b ?x ?y ?z ?t] => set (c4 := Camera a b x y z t) end.
  assert (cap c4 = cap c ∧ enc c4 = enc c) as [G1 G2] by (cbn; rewrite F1, F2, <- K1, <- K2; done).
  destruct (fb <? 0) eqn:Efb.
  { rewrite ask_run. intros E. apply cam_mret_run in E as [<- <-]. apply Z.ltb_lt in Efb. unfold closed.
    syssimp. unfold asked. cbn [cap enc]. rewrite G1, G2. split_and!; [done..|]. cbn [c2 os] in F4.
    change (os c4) with (os c3). destruct F4 as [[_ ->]|[]]; [|lia]. destruct K4 as [[]|(_ & K4 & ->)]; [lia|set_solver]. }
  apply Z.ltb_ge in Efb. pose proof (close_both _ _ _ _ _ Ekpd Efb K4 F4) as Hboth.
  rewrite cam_bind_run. destruct (on_cap (InitV4LDevice e) c4) as [[err c5]|] eqn:Ei; [|done].
  apply on_cap_inv in Ei as (Ei & O1 & O2 & O3). apply InitV4LDevice_fds in Ei. rewrite G1, Hv in Ei.
  rewrite G2 in O3. rewrite cam_bind_run. cbn [get_own].
  destruct (err =? ERR_V4L_SUCCESS); cbn [negb].
  2: { rewrite !ask_run. intros E. apply cam_mret_run in E as [<- <-]. unfold closed. syssimp.
       unfold asked. cbn [cap enc]. rewrite O2, O3. done. }
  rewrite cam_bind_run. destruct (on_enc (InitJpegDevice e) c5) as [[rj c6]|] eqn:Ej; [|done].
  apply on_enc_inv in Ej as (Ej & P1 & P2 & P3). apply InitJpegDevice_fds in Ej. rewrite O3, He in Ej.
  destruct Ei as [fd Ei]. rewrite <- P3 in Ei. destruct (rj <? 0).
  - rewrite cam_bind_run. destruct (on_cap FinializeV4LDevice c6) as [[u c7]|] eqn:Efin; [|done].
    apply on_cap_inv in Efin as (Efin & Q1 & Q2 & Q3). eapply FinializeV4LDevice_fds in Efin; [|exact Ei].
    rewrite !ask_run. intros E. apply cam_mret_run in E as [<- <-]. unfold closed. syssimp.
    unfold asked. cbn [cap enc]. rewrite Q2, Q3, P2, O2. done.
  - intros E. apply cam_mret_run in E as [<- <-]. split; [by exists fd|]. split; [done|].
    rewrite P1, P2, O1, O2. cbn [c4 own i32FBFd i32KpdFd VinDemo.set_fb os]. rewrite F3. exact Hboth.
Qed.

Lemma shut_down_fds Sv Se Ss c r c' : running Sv Se Ss c → shut_down c = Ok (r, c') → closed Sv Se Ss c'.
Proof.
  intros ([fd Hv] & [fd' He] & Hs). unfold shut_down. rewrite cam_bind_run.
  destruct (on_enc FinializeJpegDevice c) as [[u c1]|] eqn:Ej; [|done].
  apply on_enc_inv in Ej as (Ej & P1 & P2 & P3). eapply FinializeJpegDevice_fds in Ej; [|exact He].
  rewrite cam_bind_run. destruct (on_cap FinializeV4LDevice c1) as [[u' c2]|] eqn:Ei; [|done].
  apply on_cap_inv in Ei as (Ei & O1 & O2 & O3). rewrite P3 in Ei. eapply FinializeV4LDevice_fds in Ei; [|exact Hv].
  rewrite cam_bind_run. cbn [get_own]. rewrite !ask_run. apply closed_keeps; [apply cam_keeps_exit_prog|].
  unfold closed. syssimp. unfold asked. cbn [cap enc]. rewrite O1, O2, O3, P1, P2. done.
Qed.

(** A signal while the program runs closes everything, too. *)
Lemma myExitHandler_fds Sv Se Ss c r c' : running Sv Se Ss c → myExitHandler c = Ok (r, c') → closed Sv Se Ss c'.
Proof.
  intros Hr. unfold myExitHandler. rewrite cam_bind_run. cbn [get_own].
  match goal with |- ?m c = _ → _ => assert (∃ k : cam_prog V J Y unit, cam_keeps k ∧ m c = (_ ← k;
    _ ← on_enc FinializeJpegDevice; _ ← on_cap FinializeV4LDevice;
    _ ⟵ VIDEO_FORMAT_CHANGE (i32FBFd (own c)) true; _ ⟵ FbMunmap (u32FBBufSize (own c));
    _ ⟵ IOCTL_LCD_ENABLE_INT (i32FBFd (own c)); _ ⟵ OClose (i32FBFd (own c));
    _ ⟵ OClose (i32KpdFd (own c)); exit_prog (-9)) c) as (k & Hk & ->) end.
  { eexists (_ ⟵ IOCTL_LCD_DISABLE_INT (i32FBFd (own c)); _ ← on_cap StopV4LCapture;
      fill_screen 0). split; [cam_keep|].
    rewrite cam_bind_run, !ask_run, !cam_bind_run. by destruct (on_cap StopV4LCapture _) as [[? ?]|]. }
  rewrite cam_bind_run. destruct (k c) as [[[] c0]|] eqn:E0; [|done].
  pose proof (Hk _ _ _ E0) as Hfd. unfold fds_state in Hfd. injection Hfd as _ _ _ _ F1 F2 _.
  rewrite <- F1, <- F2. eapply running_keeps in E0; [|exact Hk|exact Hr].
  destruct E0 as ([fd Hv] & [fd' He] & Hs). rewrite cam_bind_run.
  destruct (on_enc FinializeJpegDevice c0) as [[u c1]|] eqn:Ej; [|done].
  apply on_enc_inv in Ej as (Ej & P1 & P2 & P3). eapply FinializeJpegDevice_fds in Ej; [|exact He].
  rewrite cam_bind_run. destruct (on_cap FinializeV4LDevice c1) as [[u' c2]|] eqn:Ei; [|done].
  apply on_cap_inv in Ei as (Ei & O1 & O2 & O3). rewrite P3 in Ei. eapply FinializeV4LDevice_fds in Ei; [|exact Hv].
  rewrite !ask_run. apply closed_keeps; [apply cam_keeps_exit_prog|].
  unfold closed. syssimp. unfold asked. cbn [cap enc]. rewrite O2, O3, P2. done.
Qed.

Lemma SetV4LViewWindow_running Sv Se Ss a b x y c e c' : running Sv Se Ss c →
  on_cap (SetV4LViewWindow a b x y) c = Ok (e, c') → running Sv Se Ss c'.
Proof.
  intros ([fd Hv] & He & Hs) E. apply on_cap_inv in E as (E & E1 & E2 & E3).
  unfold running. rewrite E1, E2, E3. split_and!; [|done..]. exists fd. by eapply SetV4LViewWindow_holds.
Qed.

Lemma run_camera_fds Sv Se Ss fuel n b p pal pr en c r c' : running Sv Se Ss c →
  run_camera h l fuel n b p pal pr en c = Ok (r, c') → closed Sv Se Ss c'.
Proof.
  intros Hr. unfold run_camera. rewrite cam_bind_run. cbn [get_own]. rewrite ask_run.
  destruct (resol_dims en) as [ew eh], (resol_dims pr) as [pw ph].
  assert (running Sv Se Ss (asked c (IOCTL_LCD_ENABLE_INT (i32FBFd (own c))))) as Hr1.
  { revert Hr. unfold running. by rewrite sys_asked. }
  rewrite cam_bind_run. destruct (on_cap (SetV4LEncode _ _ _ _) _) as [[e1 c1]|] eqn:E1; [|done].
  eapply running_keeps in E1; [|cam_keep|exact Hr1]. rewrite cam_bind_run.
  destruct (on_cap (SetV4LViewWindow _ _ _ _) _) as [[e2 c2]|] eqn:E2; [|done].
  eapply SetV4LViewWindow_running in E2; [|exact E1].
  match goal with |- ?m c2 = _ → _ => assert (∃ k : cam_prog V J Y unit, cam_keeps k ∧
    m c2 = (_ ← k; shut_down) c2) as (k & Hk & ->) end.
  { eexists (_ ← on_cap StartV4LCapture; _ ⟵ IOCTL_LCD_ENABLE_INT (i32FBFd (own c));
      _ ← on_cap (QueryV4LUserControl fuel n b p); _ ← on_cap QueryV4LSensorID;
      _ ← on_cap StartPreview; main_loop h l fuel en). split; [cam_keep|].
    rewrite !cam_bind_run. destruct (on_cap StartV4LCapture c2) as [[? ?]|]; [|done].
    rewrite !ask_run, !cam_bind_run. destruct (on_cap (QueryV4LUserControl _ _ _ _) _) as [[? ?]|]; [|done].
    rewrite !cam_bind_run. destruct (on_cap QueryV4LSensorID _) as [[? ?]|]; [|done].
    rewrite !cam_bind_run. by destruct (on_cap StartPreview _) as [[? ?]|]. }
  rewrite cam_bind_run. destruct (k c2) as [[[] c3]|] eqn:E3; [|done].
  apply shut_down_fds. by eapply running_keeps.
Qed.

(** C8: Whatever the command line, the keys, the pictures and the answers of the
    drivers are: when the program returns, the descriptors that are open for the
    capture device, for the encoder and for the keypad and the frame buffer are
    those that were open at its start.  This covers every early return: a keypad,
    a frame buffer, a capture device or an encoder that cannot be opened or
    configured, and the window that the driver refuses.  (The file of the dump
    is not among the three.) *)
Theorem main_closes_descriptors fuel n_std base private palette opts c r c' :
  main h l fuel n_std base private palette opts c = Ok (r, c') →
  cap_fds (dev (cap c')) = cap_fds (dev (cap c)) ∧
  enc_fds (driver (enc c')) = enc_fds (driver (enc c)) ∧
  sys_fds (os c') = sys_fds (os c).
Proof.
  intros E. change (closed (cap_fds (dev (cap c))) (enc_fds (driver (enc c))) (sys_fds (os c)) c').
  assert (closed (cap_fds (dev (cap c))) (enc_fds (driver (enc c))) (sys_fds (os c)) c) as Hc by done.
  revert E. unfold main. rewrite cam_bind_run.
  destruct (parse_options _ _ _ c) as [[[v|[pr en]] c1]|] eqn:E1; [| |done];
    (eapply closed_keeps in E1; [|apply cam_keeps_parse_options|exact Hc]).
  { intros E. by apply cam_mret_run in E as [_ <-]. }
  rewrite cam_bind_run. cbn [get_own]. rewrite cam_bind_run.
  match goal with |- match ?m c1 with _ => _ end = _ → _ =>
    destruct (m c1) as [[ok c2]|] eqn:E2; [|done] end.
  eapply closed_keeps in E2; [|cam_keep|exact E1]. destruct (negb ok).
  { intros E. by apply cam_mret_run in E as [_ <-]. }
  rewrite cam_bind_run. cbn [get_own]. rewrite ask_run.
  assert (closed (cap_fds (dev (cap c))) (enc_fds (driver (enc c))) (sys_fds (os c))
    (asked c2 (OMkdir (default [] (pchSaveFolder (own c2)))))) as Hc3.
  { revert E2. unfold closed. by rewrite sys_asked. }
  match goal with |- (if ?b then _ else _) _ = _ → _ => destruct b end.
  { intros E. by apply cam_mret_run in E as [_ <-]. }
  rewrite cam_bind_run. destruct (open_devices _ _) as [[[v|] c4]|] eqn:E4; [| |done];
    (eapply open_devices_fds in E4; [|exact Hc3]).
  - by apply closed_keeps; [apply cam_keeps_exit_prog|].
  - by apply run_camera_fds.
Qed.
End program_fds.

(** ** The sample system obeys the interface *)

Lemma open_fresh_opens S fd : 0 < fd → opens S (open_fresh S fd).1 (open_fresh S fd).2.
Proof. intros. unfold open_fresh, opens. case_bool_decide; cbn; [left; split; [lia|done]|by right]. Qed.

#[export] Instance sample_cap_fds : CapFds (gset Z).
Proof.
  refine (Build_CapFds _ _ id _ _ _).
  - intros d. pose proof (open_fresh_opens d 7 ltac:(lia)) as Hf. unfold ioctl, sample_capture.
    by destruct (open_fresh d 7).
  - done.
  - intros d [] ??; try done. by destruct (H0 fd).
Defined.

#[export] Instance sample_enc_fds : EncFds (gset Z).
Proof.
  refine (Build_EncFds _ _ id _ _ _).
  - intros d n. unfold respond, sample_encoder. destruct (n =? 1); [left; split; [cbn; lia|done]|].
    by apply (open_fresh_opens d 6).
  - done.
  - intros d [] ??; try done; [by destruct (H minor)|by destruct (H0 fd)].
Defined.

#[export] Instance sample_sys_fds : SysFds sample_sys.
Proof.
  refine (Build_SysFds _ _ sample_fds _ _ _ _).
  - intros d n. pose proof (open_fresh_opens (sample_fds d) 8 ltac:(lia)) as Hf.
    unfold respond, sample_rest. by destruct (open_fresh _ 8).
  - intros d. pose proof (open_fresh_opens (sample_fds d) 9 ltac:(lia)) as Hf.
    unfold respond, sample_rest. by destruct (open_fresh _ 9).
  - done.
  - intros d [] ???; try done; [by destruct (H minor)| |by destruct (H1 fd)].
    unfold respond, sample_rest. by destruct (sample_queue d).
Defined.

(** A session with a picture and a zoom returns 0 and leaves nothing open. *)
Lemma main_closes_descriptors_witness :
  ∃ c', main Dsc.sample_host sample_locals 20 3 0x980900 0x8000000 15 []
          (sample_start (map key_up [CAMERA; DOWN_KEY; HOME_KEY])) = Ok (0, c') ∧
    cap_fds (dev (cap c')) = ∅ ∧ enc_fds (driver (enc c')) = ∅ ∧ sys_fds (os c') = ∅.
Proof.
  set (m := main _ _ _ _ _ _ _ _ _).
  assert (match m with Ok (r, _) => r = 0 | Crash _ => False end) as Hm by (vm_compute; reflexivity).
  destruct m as [[r c']|k] eqn:E; [|destruct Hm]. subst r. exists c'. split; [reflexivity|].
  exact (main_closes_descriptors _ _ _ _ _ _ _ _ _ _ _ E).
Defined.
