(* ===== verification/VinLoop.v ===== *)
(** * VinLoop: the key loop of the camera demo ends

    Total correctness of the loop of [VinDemo]: when the devices are set up, the
    loop serves the keys that are waiting, without a memory fault, until the
    home key is released, and then ends; the pictures taken on the way are new
    files and no other file but the index file changes.  The drivers' answers
    are otherwise arbitrary.  What the loop needs of the keypad, the clock and
    the encoder is the interface [KeyQueue] and [EncodesInBuffer]; the rules of
    the total-correctness logic are in the hint database [loop]. *)
From stdpp Require Import gmap.
From S2P Require Import Prelude LibC Bytes Misc Dsc V4l JpegEnc Exif Device VinDemo.
Local Open Scope cmodel_scope.
Local Open Scope Z_scope.

(** ** Interfaces *)

(** The keypad delivers the waiting events in order; the clock gives a date. *)
Class KeyQueue (Y : Type) `{Device.Driver oreq oreply Y} := {
  pending : Y → list input_event;
  pending_read : ∀ (d : Y) fd e q, pending d = e :: q →
    (respond d (KpdRead fd)).2 = e ∧ pending (respond d (KpdRead fd)).1 = q;
  pending_other : ∀ (d : Y) r, (∀ fd, r ≠ KpdRead fd) → pending (respond d r).1 = pending d;
  clock_date : ∀ d : Y, Dsc.tm_wf (respond d OLocaltime).2.2;
}.

(** A picture is not longer than the stream buffer. *)
Class EncodesInBuffer (J : Type) `{Device.Driver jreq jreply J} :=
  picture_fits : ∀ d : J, 0 <= (respond d JRead).2.1 →
    (respond d JRead).2.2.1 <= Z.of_nat (length (respond d JRead).2.2.2).

Create HintDb loop.

(** ** The capture module *)

Section cap.
Context {V : Type} `{V4l.Driver V}.
Implicit Types st : V4l.state V.

(** The ring of frames, with an offset for each frame. *)
Definition ring_wf (v : S_V4L_VID_DATA) : Prop :=
  ring_ok v ∧ mb_frames (sVidMBufs v) <= Z.of_nat (length (mb_offsets (sVidMBufs v))).

(** The sensor's controls that the brightness needs. *)
Definition has_controls (tbl : list v4l2_queryctrl) : Prop :=
  ctrl_by_name tbl (lit "i2c_set_addr") ≠ None ∧ ctrl_by_name tbl (lit "i2c_write") ≠ None ∧
  ctrl_by_name tbl (lit "i2c_read") ≠ None.

Definition cap_ok st : Prop := ring_wf (vid st) ∧ has_controls (PrivateUserCtrl st).

Definition cap_total {A} (m : V4l.M V A) : Prop :=
  ∀ st, cap_ok st → ∃ a st', m st = Ok (a, st') ∧ cap_ok st'.

Lemma cap_total_ret {A} (a : A) : cap_total (mret a).
Proof. intros st Hst. by exists a, st. Qed.

Lemma cap_total_bind {A B} (m : V4l.M V A) (k : A → V4l.M V B) :
  cap_total m → (∀ a, cap_total (k a)) → cap_total (m ≫= k).
Proof.
  intros Hm Hk st Hst. rewrite v4l_bind_run. destruct (Hm st Hst) as (a & st1 & -> & Hst1). by apply Hk.
Qed.

Lemma cap_total_request {A} r (k : reply r → V4l.M V A) :
  (∀ rp, cap_total (k rp)) → cap_total (V4l.request r k).
Proof. intros Hk st Hst. rewrite v4l_request_run. by apply Hk. Qed.

Lemma cap_total_get_vid {A} (k : S_V4L_VID_DATA → V4l.M V A) :
  (∀ v, cap_total (k v)) → cap_total (get_vid ≫= k).
Proof. intros Hk st Hst. unfold get_vid. rewrite v4l_gets_run. by apply Hk. Qed.

Lemma cap_total_modify f : (∀ v, ring_wf v → ring_wf (f v)) → cap_total (modify_vid f).
Proof. intros Hf st [H1 H2]. eexists _, _. split; [done|]. split; [by apply Hf|done]. Qed.

Lemma ring_wf_first v : ring_wf v → ring_wf (set_frame v 0).
Proof. unfold ring_wf, ring_ok. cbn. lia. Qed.

Lemma sync_wait_total n frame st : ∃ ok st', sync_wait n frame st = Ok (ok, st') ∧
  vid st' = vid st ∧ PrivateUserCtrl st' = PrivateUserCtrl st.
Proof.
  revert st. induction n as [|n IH]; intros st; cbn [sync_wait]; [by eexists _, _|].
  rewrite v4l_request_run. destruct (_ && _); [apply (IH (V4l.after st _))|by eexists _, _].
Qed.

Lemma cap_total_ReadV4LPicture : cap_total ReadV4LPicture.
Proof.
  intros st [Hr Hc]. unfold ReadV4LPicture, get_vid. rewrite v4l_gets_run, v4l_bind_run.
  destruct (sync_wait_total 100 (i32VidFrame (vid st)) st) as (ok & st1 & -> & Hv & Hp).
  assert (cap_ok st1) as Hst1 by (unfold cap_ok; by rewrite Hv, Hp).
  destruct ok; cbn [negb]; [|by eexists _, _]. rewrite v4l_request_run, v4l_bind_run. cbn [set_prev_ts].
  destruct Hr as [Hr Ho]. unfold ring_ok in Hr.
  destruct (rd_is_ok (mb_offsets (sVidMBufs (vid st))) (i32VidFrame (vid st))) as [off Eo]; [lia|].
  rewrite v4l_lift_run, Eo. by eexists _, _.
Qed.

Lemma cap_total_TriggerV4LNextFrame : cap_total TriggerV4LNextFrame.
Proof.
  intros st [Hr Hc]. unfold TriggerV4LNextFrame, get_vid. rewrite v4l_gets_run, v4l_bind_run.
  destruct (sync_wait_total 100 (i32VidFrame (vid st)) st) as (ok & st1 & -> & Hv & Hp).
  assert (cap_ok st1) as Hst1 by (unfold cap_ok; by rewrite Hv, Hp).
  destruct ok; cbn [negb]; [|by eexists _, _]. rewrite v4l_modify_run, v4l_request_run.
  destruct (_ <? 0); [by eexists _, _|]. destruct Hr as [Hr Ho]. unfold ring_ok in Hr.
  rewrite v4l_lift_run. unfold int_rem. rewrite (proj2 (Z.eqb_neq _ _)) by lia.
  eexists _, _. split; [done|]. split; [|cbn; by rewrite Hp]. unfold ring_wf, ring_ok. cbn. rewrite Hv.
  rewrite Z.rem_mod_nonneg by lia. split; [apply Z.mod_pos_bound; lia|done].
Qed.
End cap.

#[export] Hint Resolve cap_total_ret cap_total_ReadV4LPicture cap_total_TriggerV4LNextFrame : loop.

(** Applies the rules along the structure of the code. *)
Ltac cap_go :=
  repeat first
    [ solve [eauto with loop]
    | apply cap_total_request; intros
    | apply cap_total_get_vid; intros
    | apply cap_total_bind; intros
    | apply cap_total_modify; solve [done | apply ring_wf_first]
    | match goal with
      | |- cap_total (if ?b then _ else _) => destruct b
      | |- cap_total (match ?x with _ => _ end) => destruct x
      end ].

Section cap_operations.
Context {V : Type} `{V4l.Driver V}.
Notation cap_total := (cap_total (V:=V)).

Lemma cap_total_StartV4LCapture : cap_total StartV4LCapture.
Proof. unfold StartV4LCapture. cap_go. Qed.
Lemma cap_total_StopV4LCapture : cap_total StopV4LCapture.
Proof. unfold StopV4LCapture. cap_go. Qed.
Lemma cap_total_StartPreview : cap_total StartPreview.
Proof. unfold StartPreview. cap_go. Qed.
Lemma cap_total_StopPreview : cap_total StopPreview.
Proof. unfold StopPreview. cap_go. Qed.
Lemma cap_total_menuChangeParameter g : cap_total (menuChangeParameter g).
Proof. unfold menuChangeParameter, menuEncodeV4LResoultion, ChangeEncodeV4LResoultion. cap_go. Qed.
Lemma cap_total_QueryV4LZoomInfo : cap_total QueryV4LZoomInfo.
Proof. unfold QueryV4LZoomInfo. cap_go. Qed.
Lemma cap_total_QueryV4LPacketInformation : cap_total QueryV4LPacketInformation.
Proof. unfold QueryV4LPacketInformation. cap_go. Qed.
Hint Resolve cap_total_QueryV4LZoomInfo cap_total_QueryV4LPacketInformation : loop.
Lemma cap_total_dumpV4LBuffer g : cap_total (dumpV4LBuffer g).
Proof. unfold dumpV4LBuffer. cap_go. Qed.
Lemma cap_total_Zooming c : cap_total (Zooming c).
Proof. unfold Zooming. cap_go. Qed.
Lemma cap_total_Brigness c : cap_total (ChangeV4LUserControl_Brigness c).
Proof.
  intros st Hst. pose proof Hst as [_ (C1 & C2 & C3)].
  unfold ChangeV4LUserControl_Brigness. rewrite v4l_gets_run. revert st Hst C1 C2 C3. 
  intros st Hst. generalize (PrivateUserCtrl st). intros tbl C1 C2 C3. revert st Hst.
  destruct (ctrl_by_name tbl _) as [a|]; [|done]. destruct (ctrl_by_name tbl _) as [w|]; [|done].
  destruct (ctrl_by_name tbl _) as [r|]; [|done].
  match goal with |- ∀ st, _ → ∃ a st', ?m st = _ ∧ _ => change (cap_total m) end.
  unfold update_register, ctrl_field. cap_go.
Qed.
End cap_operations.

#[export] Hint Resolve cap_total_StartV4LCapture cap_total_StopV4LCapture cap_total_StartPreview
  cap_total_StopPreview cap_total_menuChangeParameter cap_total_QueryV4LZoomInfo
  cap_total_QueryV4LPacketInformation cap_total_dumpV4LBuffer cap_total_Zooming cap_total_Brigness : loop.

(** ** The encoder *)

Section enc.
Context {J : Type} `{EncodesInBuffer J}.
Notation P := (prog jpeg_vars jreq J).

(** An encoding by a module that was set up returns, and the picture it reports
    is in the stream buffer. *)
Definition delivers (m : P (Z * option Z)) : Prop := ∀ w, enc_ok (vars w) → ∃ r w', m w = Ok (r, w') ∧ enc_ok (vars w') ∧
  ∀ len, r.2 = Some len → ∃ buf, s_pu8JpegEncBuf (vars w') = Some buf ∧ len <= Z.of_nat (length buf).

Lemma delivers_fail r : delivers (mret (r, None)).
Proof. intros w Hw. by eexists _, w. Qed.

Lemma delivers_request r (k : jreply r → P (Z * option Z)) :
  (∀ rp, delivers (k rp)) → delivers (request r k).
Proof. intros Hk w Hw. rewrite request_run. by apply Hk. Qed.

Lemma delivers_set_param p (k : unit → P (Z * option Z)) :
  delivers (k tt) → delivers (modify (λ s, JpegEnc.set_param s (p s)) ≫= k).
Proof. intros Hk w Hw. rewrite modify_run. by apply Hk. Qed.

Lemma encode_picture_delivers t : delivers (encode_picture eJPEG_ENC_THB_NONE t).
Proof.
  intros w Hw. pose proof Hw as [[buf Hb] Hi]. unfold encode_picture. rewrite get_run, request_run.
  match goal with |- context [(if ?b then _ else _) _] => destruct b; [by apply delivers_fail|] end.
  rewrite bind_run, mret_run, request_run.
  match goal with |- context [(if ?b then _ else _) _] => destruct b; [by apply delivers_fail|] end.
  rewrite request_run, modify_run, Hi, !vars_after, Hb. cbn [negb].
  assert (∀ (w2 : world jpeg_vars jreq J) b, enc_ok (vars (with_vars w2 (set_buf (vars w) (Some b))))) as Hok by (by split).
  destruct (_ <? 0) eqn:E; [by apply delivers_fail|].
  apply Z.ltb_ge in E. eexists _, _. split; [reflexivity|]. split; [apply Hok|]. intros len [= <-]. eexists. split; [done|].
  by apply picture_fits.
Qed.

Lemma JpegEncFromVIN_delivers r a cw ch t : delivers (JpegEncFromVIN r a eJPEG_ENC_THB_NONE cw ch t).
Proof.
  unfold JpegEncFromVIN. destruct (enc_dims r) as [w h], (plane_addresses a w h cw ch) as [u v].
  do 3 (apply delivers_request; intros; match goal with |- delivers (if ?b then _ else _) =>
    destruct b; [apply delivers_fail|] end).
  intros st Hst. destruct ((u32 cw <? w) || (u32 ch <? h)); by apply encode_picture_delivers.
Qed.

Lemma JpegEncFromVIN_Packet_delivers r a t : delivers (JpegEncFromVIN_Packet r a eJPEG_ENC_THB_NONE t).
Proof.
  unfold JpegEncFromVIN_Packet. destruct (enc_dims r) as [w h]. apply delivers_request. intros rp.
  match goal with |- delivers (if ?b then _ else _) => destruct b; [apply delivers_fail|] end.
  apply delivers_request. intros _ st Hst. by apply encode_picture_delivers.
Qed.
End enc.

(** ** The disk *)

(** After [k] more pictures the number in the index file still fits the name. *)
Definition index_small (k : nat) (fs : gmap (list Z) (list Z)) (folder : list Z) : Prop :=
  match fs !! index_path folder with
  | Some c => 0 <= le_val (sub_bytes (take 12 c) 8 4) < 99999999 - Z.of_nat k
  | None => True
  end.

Definition disk_ok (folder : list Z) (k : nat) (s : dsc) : Prop :=
  path_wf s ∧ (Z.of_nat k < 99990000) ∧ index_small k (files s) folder.

(** Every file but the index file is as before; there may be new files. *)
Definition kept (folder : list Z) (s s' : dsc) : Prop := ∀ p d,
  p ≠ index_path folder → files s !! p = Some d → files s' !! p = Some d.

#[export] Instance kept_preorder folder : PreOrder (kept folder).
Proof. split; [by intros s p d|]. intros a b c H1 H2 p d Hp Hd. by apply H2, H1. Qed.

Lemma cap_path_not_index folder t n : cap_path folder t n ≠ index_path folder.
Proof.
  intros E. apply (f_equal last) in E. unfold cap_path, index_path in E.
  rewrite !app_assoc in E. change (lit ".jpg") with ([46; 106; 112] ++ [103]) in E.
  change DSC_INDEX_FILE with ([46; 100; 115; 99; 46; 105; 100] ++ [120]) in E.
  rewrite !app_assoc, !last_snoc in E. done.
Qed.

Lemma start_number_small h fs folder (t : Dsc.tm) k : Dsc.tm_wf t → Z.of_nat k < 99990000 → index_small k fs folder →
  0 <= start_number (last_index h fs folder t) t < 100000000 - Z.of_nat k.
Proof.
  intros Ht Hk. unfold index_small, last_index, start_number.
  assert (∀ seq, 0 <= seq < 99999999 - Z.of_nat k → 0 <= u32 (seq + 1) < 100000000 - Z.of_nat k) as Hu.
  { intros seq Hs. rewrite u32_id by (unfold is_u32; lia). lia. }
  destruct (fs !! _) as [c|]; intros Hi; repeat case_match; try lia;
    apply Hu; cbn [u32SeqNo elem_of_bytes today]; lia.
Qed.

Lemma disk_ok_mono folder k s : disk_ok folder (S k) s → disk_ok folder k s.
Proof.
  unfold disk_ok, index_small. intros (H1 & H2 & H3). split_and!; [done|lia|]. case_match; [lia|done].
Qed.

Lemma UpdateDSCIndexFile_total h st folder : path_wf st →
  ∃ st' e, UpdateDSCIndexFile h st folder = Ok (st', e) ∧
    (files st' = files st ∨ files st' = <[index_path folder := elem_bytes (s_sCurIdxElem st)]> (files st) ∨
     files st' = <[index_path folder := []]> (files st)).
Proof.
  intros Hw. unfold UpdateDSCIndexFile.
  assert (index_path_len folder = Z.of_nat (length folder) + 18) as Hlen
    by (unfold index_path_len; cbn; lia).
  destruct (alloc_path_spec h st (index_path_len folder)) as (st1 & ok & E & Hw1 & [Hf1 He1] & Hok);
    [done|lia|]. rewrite E. destruct ok; cbn [negb]; [|eexists _, _; split; [done|]; by left].
  specialize (Hok eq_refl).
  destruct (sprintf_path_spec st1 (index_path folder)) as (st2 & -> & Hw2 & [Hf2 He2] & Hp2);
    [done|rewrite length_index_path; lia|]. cbn [mbind result_bind].
  destruct (open_ok h (index_path folder)), (write_ok h (index_path folder)); eexists _, _; (split; [done|]); cbn; rewrite Hf2, Hf1, ?He2, ?He1; tauto.
Qed.

(** The picture's file is new, holds a prefix of the stream and the index file
    is the only other one that may change. *)
Lemma new_picture_disk h folder (t : Dsc.tm) k s s1 err p data :
  disk_ok folder (S k) s → Dsc.tm_wf t →
  DSC_NewCapFile h s folder t = Ok (s1, err, p) →
  match err, p with
  | ERR_DSC_SUCCESS, Some path =>
      files s !! path = None ∧ files s1 !! path = Some [] ∧ path ≠ index_path folder ∧
      ∃ s2, DSC_CloseCapFile h (set_file s1 path data) folder = Ok s2 ∧ disk_ok folder k s2 ∧
        kept folder s s2 ∧ files s2 !! path = Some data
  | _, _ => disk_ok folder k s1 ∧ files s1 = files s
  end.
Proof.
  intros (Hw & Hk & Hi) Ht E. pose proof (start_number_small h (files s) folder t (S k) Ht Hk Hi) as Hs.
  destruct (DSC_NewCapFile_run h s folder t Hw Ht) as (s1' & err' & p' & E' & Hw1 & Hout); [lia|].
  rewrite E in E'. injection E' as <- <- <-. set (start := start_number _ _) in *.
  assert (files s1 = files s → disk_ok folder k s1) as Hsame.
  { intros F. apply disk_ok_mono. split_and!; [done|done|]. by rewrite F. }
  destruct err; cbn [new_file_outcome] in Hout.
  - destruct Hout as (n & Hn & Hnone & -> & Hf & Hcur). pose proof (cap_path_not_index folder t n) as Hne.
    split; [done|]. split; [by rewrite Hf, lookup_insert_eq|]. split; [done|].
    apply first_free_sound in Hn as [_ Hn].
    assert (0 <= n < 100000000 - Z.of_nat (S k)) as Hnb.
    { unfold candidates in Hn. rewrite u32_id in Hn by (unfold is_u32; lia).
      apply elem_of_cons in Hn as [-> |Hn]; [lia|]. apply elem_of_seqZ in Hn. lia. }
    unfold DSC_CloseCapFile.
    destruct (UpdateDSCIndexFile_total h (set_file s1 (cap_path folder t n) data) folder Hw1)
      as (s2 & e & -> & F2). cbn [mbind result_bind]. eexists. split; [done|].
    set (fs' := <[cap_path folder t n := data]> (files s)).
    assert (files s2 = fs' ∨ files s2 = <[index_path folder := elem_bytes (today t n)]> fs' ∨
            files s2 = <[index_path folder := []]> fs') as F.
    { cbn in F2. rewrite Hf, insert_insert_eq, Hcur in F2. exact F2. }
    assert (∀ q, q ≠ index_path folder → files s2 !! q = fs' !! q) as Fq.
    { intros q Hq. destruct F as [-> |[-> | ->]]; [done|by rewrite lookup_insert_ne..]. }
    split_and!.
    + split_and!; [done|lia|]. unfold index_small. cbn. destruct F as [-> |[-> | ->]].
      * unfold fs'. rewrite lookup_insert_ne by done. unfold index_small in Hi. case_match; [lia|done].
      * rewrite lookup_insert_eq. change (sub_bytes _ 8 4) with (le_bytes 4 n).
        rewrite le_val_u32 by (unfold is_u32; lia). lia.
      * rewrite lookup_insert_eq. change (le_val _) with 0. lia.
    + intros q d Hq Hd. cbn. rewrite Fq by done. unfold fs'. rewrite lookup_insert_ne; [done|]. congruence.
    + cbn. rewrite Fq by done. unfold fs'. by rewrite lookup_insert_eq.
  - done.
  - destruct Hout as (F & -> & _). split; [by apply Hsame|done].
  - destruct Hout as (F & -> & _). split; [by apply Hsame|done].
Qed.

(** ** The program *)

Section loop.
Context {V J Y : Type} `{V4l.Driver V} `{EncodesInBuffer J} `{KeyQueue Y}.
Context (h : Dsc.host) (l : locals) (folder : list Z).
Notation C := (cam_prog V J Y).
Implicit Types c : camera V J Y.

(** The frame buffer is mapped, and the mapping holds the screen. *)
Definition fb_ok (v : vin_vars) : Prop :=
  is_Some (pu8FBBufAddr v) ∧ 0 <= fill_count v ∧ 4 * fill_count v <= u32FBBufSize v.

Definition screen_ok c : Prop := cap_ok (cap c) ∧ fb_ok (own c).

(** The devices are set up; room for [k] more pictures. *)
Definition cam_ok (k : nat) c : Prop :=
  screen_ok c ∧ disk_ok folder k (store c) ∧ pchSaveFolder (own c) = Some folder ∧ enc_ok (vars (enc c)).

(** Nothing but the capture module, the frame buffer and the crop window changes. *)
Definition aside c c' : Prop :=
  pchSaveFolder (own c') = pchSaveFolder (own c) ∧ pending (os c') = pending (os c) ∧
  store c' = store c ∧ enc c' = enc c.

Definition plain {A} (m : C A) : Prop :=
  ∀ c, screen_ok c → ∃ a c', m c = Ok (a, c') ∧ screen_ok c' ∧ aside c c'.

Lemma cam_ok_aside k c c' : cam_ok k c → aside c c' → screen_ok c' → cam_ok k c'.
Proof. intros (_ & Hd & Hf & He) (A1 & _ & A3 & A4) Hc. unfold cam_ok. by rewrite A1, A3, A4. Qed.

Lemma cam_ok_mono k c : cam_ok (S k) c → cam_ok k c.
Proof. intros (Hc & Hd & Hr). split; [done|]. split; [by apply disk_ok_mono|done]. Qed.

Lemma aside_trans c1 c2 c3 : aside c1 c2 → aside c2 c3 → aside c1 c3.
Proof. unfold aside. intuition congruence. Qed.

Lemma plain_ret {A} (a : A) : plain (mret a).
Proof. intros c Hc. by exists a, c. Qed.

Lemma plain_bind {A B} (m : C A) (k : A → C B) : plain m → (∀ a, plain (k a)) → plain (m ≫= k).
Proof.
  intros Hm Hk c Hc. unfold mbind, cam_bind. destruct (Hm c Hc) as (a & c1 & -> & Hc1 & S1).
  destruct (Hk a c1 Hc1) as (b & c2 & -> & Hc2 & S2). exists b, c2. eauto using aside_trans.
Qed.

Lemma plain_on_cap {A} (m : V4l.M V A) : cap_total m → plain (on_cap m).
Proof.
  intros Hm c [Hc Hf]. unfold on_cap. destruct (Hm _ Hc) as (a & s & -> & Hs). by eexists _, _.
Qed.

Lemma plain_ask {A} r (k : oreply r → C A) : (∀ fd, r ≠ KpdRead fd) → (∀ a, plain (k a)) → plain (ask r k).
Proof.
  intros Hr Hk c Hc. unfold ask. pose proof (pending_other (os c) r Hr) as Hp.
  destruct (respond (os c) r) as [o a]. cbn [fst] in Hp.
  match goal with |- context [k a ?x] => destruct (Hk a x Hc) as (b & c2 & -> & Hc2 & S2) end.
  exists b, c2. split_and!; [done..|]. unfold aside in *. cbn in S2. by rewrite Hp in S2.
Qed.

Lemma plain_get_own {A} (k : vin_vars → C A) : (∀ v, plain (k v)) → plain (get_own ≫= k).
Proof. intros Hk c Hc. apply (Hk (own c) c Hc). Qed.

Lemma plain_update f : (∀ v, pchSaveFolder (f v) = pchSaveFolder v) → (∀ v, fb_ok v → fb_ok (f v)) → plain (update f).
Proof.
  intros Hf Hb c [Hc Hv]. eexists _, _. split; [done|]. split; [split; [done|by apply Hb]|].
  split_and!; [apply Hf|done..].
Qed.

Lemma plain_fill_screen word : plain (fill_screen word).
Proof.
  intros c Hc. pose proof Hc as [_ ([addr Ha] & Hlo & Hhi)]. unfold fill_screen.
  match goal with |- context [(get_own ≫= ?f) c] => change ((get_own ≫= f) c) with (f (own c) c) end.
  cbv beta. rewrite Ha, (proj2 (Z.leb_le _ _)), (proj2 (Z.leb_le _ _)) by done. cbn [andb].
  by apply plain_ask; [|intros; apply plain_ret|].
Qed.
End loop.

#[export] Hint Resolve plain_ret plain_on_cap plain_fill_screen : loop.

Ltac plain_go :=
  repeat first
    [ solve [eauto with loop]
    | apply plain_ask; [intros; discriminate|intros]
    | apply plain_get_own; intros
    | apply plain_bind; intros
    | apply plain_update; [done|intros ? Hfb; exact Hfb]
    | match goal with
      | |- plain (if ?b then _ else _) => destruct b
      | |- plain (match ?x with _ => _ end) => destruct x
      end ].

Section pictures.
Context {V J Y : Type} `{V4l.Driver V} `{EncodesInBuffer J} `{KeyQueue Y}.
Context (h : Dsc.host) (l : locals) (folder : list Z).
Notation C := (cam_prog V J Y).
Notation plain := (plain (V:=V) (J:=J) (Y:=Y)).
Notation cam_ok := (cam_ok (V:=V) (J:=J) (Y:=Y) folder).
Implicit Types c : camera V J Y.

(** At most one file is new, with a prefix of the encoder's stream; of the
    others only the index file may have changed. *)
Definition taken c c' : Prop :=
  files (store c') = files (store c) ∨
  ∃ path buf n, path ≠ index_path folder ∧ files (store c) !! path = None ∧
    s_pu8JpegEncBuf (vars (enc c')) = Some buf ∧ files (store c') !! path = Some (take n buf) ∧
    kept folder (store c) (store c').


(** Code that takes at most one picture. *)
Definition shot (m : C unit) : Prop := ∀ k c, cam_ok (S k) c →
  ∃ c', m c = Ok (tt, c') ∧ cam_ok k c' ∧ pending (os c') = pending (os c) ∧ taken c c'.

Lemma shot_plain m : plain m → shot m.
Proof.
  intros Hm k c Hc. destruct (Hm c (proj1 Hc)) as ([] & c' & E & Hc' & S1).
  exists c'. split; [done|]. split; [by eapply cam_ok_aside, Hc'; [apply cam_ok_mono|]|].
  destruct S1 as (_ & S2 & S3 & _). split; [done|left; by rewrite S3].
Qed.

Lemma shot_after {A} (m : C A) k : plain m → (∀ a, shot (k a)) → shot (m ≫= k).
Proof.
  intros Hm Hk n c Hc. unfold mbind, cam_bind.
  destruct (Hm c (proj1 Hc)) as (a & c1 & -> & Hc1 & S1).
  destruct (Hk a n c1) as (c2 & -> & Hc2 & P2 & T2); [by eapply cam_ok_aside|].
  destruct S1 as (_ & S2 & S3 & _). exists c2. split; [done|]. split; [done|]. split; [congruence|]. unfold taken in *. by rewrite S3 in T2.
Qed.

Lemma shot_then m (k : unit → C unit) : shot m → plain (k tt) → shot (m ≫= k).
Proof.
  intros Hm Hk n c Hc. unfold mbind, cam_bind. destruct (Hm n c Hc) as (c1 & -> & Hc1 & P1 & T1).
  destruct (Hk c1 (proj1 Hc1)) as ([] & c2 & -> & Hc2 & S1).
  exists c2. split; [done|]. split; [by eapply cam_ok_aside|]. destruct S1 as (_ & S2 & S3 & S4). split; [congruence|].
  unfold taken in *. by rewrite S3, S4.
Qed.

Lemma shot_ask r (k : oreply r → C unit) : (∀ fd, r ≠ KpdRead fd) → (∀ a, shot (k a)) → shot (ask r k).
Proof.
  intros Hr Hk n c Hc. unfold ask. pose proof (pending_other (os c) r Hr) as Hp.
  destruct (respond (os c) r) as [o a]. cbn [fst] in Hp.
  match goal with |- context [k a ?x] => destruct (Hk a n x Hc) as (c2 & -> & Hc2 & P2 & T2) end.
  exists c2. split; [done|]. split; [done|]. split; [|done]. rewrite P2. exact Hp.
Qed.

(** The encoding and what follows it: the stream buffer holds the picture. *)
Definition holds (len : Z) c : Prop :=
  ∃ buf, s_pu8JpegEncBuf (vars (enc c)) = Some buf ∧ len <= Z.of_nat (length buf).

Lemma shot_encode m (k : Z → C unit) : delivers m →
  (∀ len n c, holds len c → cam_ok (S n) c →
     ∃ c', k len c = Ok (tt, c') ∧ cam_ok n c' ∧ pending (os c') = pending (os c) ∧ taken c c') →
  shot (r ← on_enc m; match (r : Z * option Z).2 with None => mret tt | Some len => k len end).
Proof.
  intros Hm Hk n c Hc. unfold mbind, cam_bind, on_enc.
  pose proof Hc as (Hc1 & Hd & Hf & He).
  destruct (Hm (enc c) He) as ([e [len|]] & w & -> & He' & Hlen); cbn [snd].
  - destruct (Hlen len eq_refl) as (buf & Hb & Hl).
    match goal with |- context [k len ?x] => destruct (Hk len n x) as (c' & -> & H') end;
      [by exists buf|by split_and!|]. by exists c'.
  - eexists. split; [done|].
    split; [by split_and!; [|apply disk_ok_mono| |]|]. split; [done|by left].
Qed.

Lemma save_picture_shot avail len n c : holds len c → cam_ok (S n) c →
  ∃ c', save_picture h folder avail len c = Ok (tt, c') ∧ cam_ok n c' ∧
    pending (os c') = pending (os c) ∧ taken c c'.
Proof.
  intros (buf & Hb & Hl) (Hc & Hd & Hf & He). unfold save_picture, mbind, cam_bind.
  destruct (plain_on_cap TriggerV4LNextFrame ltac:(eauto with loop) c Hc) as (e1 & c1 & -> & Hc1 & S1).
  destruct (plain_on_cap StopV4LCapture ltac:(eauto with loop) c1 Hc1) as (e2 & c2 & -> & Hc2 & S2).
  destruct (aside_trans _ _ _ S1 S2) as (A1 & A2 & A3 & A4). clear S1 S2 Hc1 c1 e1 e2.
  destruct (avail <=? len).
  { exists c2. split; [done|]. split; [|split; [done|by left; rewrite A3]].
    split_and!; [done|rewrite A3; by apply disk_ok_mono|congruence|by rewrite A4]. }
  unfold ask at 1. pose proof (pending_other (os c2) OLocaltime ltac:(done)) as Hp.
  pose proof (clock_date (os c2)) as Ht. destruct (respond (os c2) OLocaltime) as [o [t1 t]].
  cbn [fst snd] in *. unfold on_store at 1. cbn [store]. rewrite A3.
  destruct (DSC_NewCapFile_run h (store c) folder t) as (s1 & err & p & E & _); [apply Hd|done| |].
  { pose proof (start_number_small h (files (store c)) folder t (S n) Ht ltac:(apply Hd) ltac:(apply Hd)). lia. }
  pose proof (new_picture_disk h folder t n (store c) s1 err p) as Hnew. rewrite E. cbn [mbind result_bind].
  assert (disk_ok folder n s1 ∧ files s1 = files (store c) → ∃ c', Ok (tt,
    Camera (own c2) o (cap c2) (enc c2) s1 (events c2 ++ [EvOwn OLocaltime])) = Ok (tt, c') ∧
    cam_ok n c' ∧ pending (os c') = pending (os c) ∧ taken c c') as Hnone.
  { intros [D1 D2]. eexists. split; [done|]. split; [split_and!; [done|done|cbn; congruence|cbn; by rewrite A4]|].
    split; [cbn; congruence|by left]. }
  destruct err; [destruct p as [path|]; [|by apply Hnone, (Hnew [])]|by apply Hnone, (Hnew [])..].
  clear Hnone. cbn [fst snd]. unfold on_enc. cbn [enc own os cap store events].
  cbv [prog_bind get mret prog_ret]. rewrite A4, Hb. rewrite (proj2 (Z.leb_le _ _)) by done.
  unfold write_picture, ask at 1. cbn [enc own os cap store events].
  pose proof (pending_other o (OWrite path (take (Z.to_nat len) buf)) ltac:(done)) as Hp2.
  destruct (respond o (OWrite _ _)) as [o2 w]. cbn [fst] in Hp2. unfold on_store.
  cbn [enc own os cap store events].
  destruct (Hnew (default [] (files s1 !! path) ++ take (Z.to_nat w) (take (Z.to_nat len) buf)))
    as (F1 & F2 & F3 & s2 & -> & D2 & K2 & L2); [done..|]. cbn [mbind result_bind].
  rewrite F2 in L2. cbn [default app] in L2. rewrite take_take in L2.
  unfold ask. cbn [enc own os cap store events].
  pose proof (pending_other o2 OSync ltac:(done)) as Hp3. destruct (respond o2 OSync) as [o3 x]. cbn [fst] in Hp3.
  eexists. split; [done|]. split; [split_and!; [done|done|cbn; congruence|done]|]. split; [cbn; congruence|].
  right. eexists path, buf, _. split_and!; [exact F3|exact F1|cbn; congruence|exact L2|exact K2].
Qed.

Lemma plain_ClearFB : plain ClearFB.
Proof. unfold ClearFB. plain_go. Qed.
Lemma plain_restart_capture : plain restart_capture.
Proof. unfold restart_capture. plain_go. Qed.
Hint Resolve plain_ClearFB plain_restart_capture shot_plain : loop.

Ltac shot_go :=
  repeat first
    [ solve [eauto with loop]
    | apply shot_ask; [intros; discriminate|intros]
    | apply shot_then; [|solve [plain_go]]
    | apply shot_encode; [solve [auto using JpegEncFromVIN_delivers, JpegEncFromVIN_Packet_delivers]|]
    | apply shot_after; [solve [plain_go]|intros]
    | match goal with
      | |- shot (if ?b then _ else _) => destruct b
      | |- shot (match ?x with _ => _ end) => destruct x
      end ].

(** The variables are read at the start, while the folder is set. *)
Lemma shot_get_own (k : vin_vars → C unit) :
  (∀ v, pchSaveFolder v = Some folder → shot (k v)) → shot (get_own ≫= k).
Proof. intros Hk n c Hc. apply (Hk (own c)); [apply Hc|done]. Qed.

Lemma shot_CaptureImage garbage resol : shot (CaptureImage h garbage resol).
Proof.
  unfold CaptureImage. apply shot_get_own. intros v ->. shot_go. intros. by apply save_picture_shot.
Qed.

Lemma shot_CaptureImage_Packet resol : shot (CaptureImage_Packet h resol).
Proof.
  unfold CaptureImage_Packet. apply shot_get_own. intros v ->. shot_go. intros. by apply save_picture_shot.
Qed.
Hint Resolve shot_CaptureImage shot_CaptureImage_Packet : loop.

(** ** The loop *)






End pictures.

Section liveness.
Context {V J Y : Type} `{V4l.Driver V} `{EncodesInBuffer J} `{KeyQueue Y}.
Context (h : Dsc.host) (l : locals) (folder : list Z).
Implicit Types c : camera V J Y.


(** Taking a picture, whatever the drivers answer: the function returns, and
    either no file has changed, or one new file, under a name that was not in
    use, holds a prefix of the encoder's stream, and no other file but the index
    file has changed.  The events of the keypad are not touched, and the
    program can go on. *)
Theorem CaptureImage_only_adds_a_file garbage resol k c : cam_ok folder (S k) c →
  ∃ c', CaptureImage h garbage resol c = Ok (tt, c') ∧ cam_ok folder k c' ∧
    pending (os c') = pending (os c) ∧ taken folder c c'.
Proof. intros. by apply shot_CaptureImage. Qed.
End liveness.

(** ** A picture that is saved *)

(** Drivers that do what they are asked: the encoder produces [len] bytes of
    [buf], the clock stands at [t], there is space on the disk and the write is
    complete. *)
Record cooperative (V J Y : Type) `{V4l.Driver V} `{Device.Driver jreq jreply J} `{Device.Driver oreq oreply Y}
    (len : Z) (buf : list Z) (t : Dsc.tm) : Prop := Cooperative {
  coop_cropcap : ∀ d : V, ret (ioctl d VIDIOC_CROPCAP).2 = 0;
  coop_crop : ∀ d : V, ret (ioctl d VIDIOC_G_CROP).2 = 0;
  coop_start : ∀ d : V, ret (ioctl d (VIDIOCCAPTURE VIDEO_START)).2 = 0;
  coop_enc : accepts (D:=J);
  coop_read : ∀ d : J, (respond d JRead).2 = (0, (len, buf));
  coop_clock : ∀ d : Y, (respond d OLocaltime).2.2 = t;
  coop_space : ∀ (d : Y) p, ∃ bavail bsize, (respond d (OStatfs p)).2 = Some (bavail, bsize) ∧
    len < VinDemo.u64 (VinDemo.u64 bavail * VinDemo.u64 bsize);
  coop_write : ∀ (d : Y) p data, (respond d (OWrite p data)).2 = Z.of_nat (length data);
}.

Section saved.
Context {V J Y : Type} `{V4l.Driver V} `{EncodesInBuffer J} `{KeyQueue Y}.
Context (h : Dsc.host) (folder : list Z) (len : Z) (buf : list Z) (t : Dsc.tm).
Context (Hcoop : cooperative V J Y len buf t).
Context (Hmalloc : ∀ n, malloc_ok h n = true) (Hopen : ∀ p, open_ok h p = true).
Implicit Types c : camera V J Y.

(** An encoding by a cooperative driver. *)
Definition encodes (m : prog jpeg_vars jreq J (Z * option Z)) : Prop := ∀ w, enc_ok (vars w) →
  ∃ w', m w = Ok ((0, Some len), w') ∧ s_pu8JpegEncBuf (vars w') = Some buf ∧ s_pJpegInfo (vars w') = true.

Lemma encodes_JpegEncFromVIN r a cw ch tm : encodes (JpegEncFromVIN r a eJPEG_ENC_THB_NONE cw ch tm).
Proof.
  destruct Hcoop as [_ _ _ [Hy Hu Hv Hp Ht _] Hr _ _ _]. intros w Hw.
  assert (encodes (encode_picture eJPEG_ENC_THB_NONE tm)) as Henc.
  { clear w Hw. intros w [[b Hb] Hi]. unfold encode_picture. rewrite get_run, request_run. unfold answer at 1.
    rewrite (proj2 (Z.ltb_ge _ 0)) by apply Hp. rewrite bind_run, mret_run, request_run. unfold answer at 1.
    rewrite (proj2 (Z.ltb_ge _ 0)) by apply Ht. rewrite request_run, modify_run, !vars_after, Hb, Hi. unfold answer. rewrite Hr.
    cbn [fst snd negb Z.ltb Z.compare]. rewrite bind_run, decide_True, mret_run by done. by eexists. }
  unfold JpegEncFromVIN. destruct (enc_dims r) as [x y], (plane_addresses a x y cw ch) as [u v].
  rewrite request_run. unfold answer. rewrite (proj2 (Z.ltb_ge _ 0)) by apply Hy.
  rewrite request_run. unfold answer. rewrite (proj2 (Z.ltb_ge _ 0)) by apply Hu.
  rewrite request_run. unfold answer. rewrite (proj2 (Z.ltb_ge _ 0)) by apply Hv.
  rewrite bind_run. unfold reserve_exif. rewrite decide_True, mret_run, bind_run by done.
  destruct ((u32 cw <? x) || (u32 ch <? y)); rewrite modify_run, request_run, mret_run; by apply Henc.
Qed.

(** The disk when [n] is the next free number of the day. *)
Definition next_free (n : Z) c : Prop :=
  first_free (files (store c)) folder t
    (candidates (start_number (last_index h (files (store c)) folder t) t)) = Some n.

Definition saved (n : Z) c c' : Prop :=
  files (store c) !! cap_path folder t n = None ∧
  files (store c') !! cap_path folder t n = Some (take (Z.to_nat len) buf) ∧
  kept folder (store c) (store c').

(** [E] is the last event. *)
Definition saves (E : option event → Prop) (m : cam_prog V J Y unit) : Prop := ∀ n k c,
  cam_ok folder (S k) c → next_free n c →
  ∃ c', m c = Ok (tt, c') ∧ cam_ok folder k c' ∧ saved n c c' ∧ E (last (events c')).

Lemma saves_after {A} E (m : cam_prog V J Y A) k : plain m → (∀ a, saves E (k a)) → saves E (m ≫= k).
Proof.
  intros Hm Hk n j c Hc Hn. unfold mbind, cam_bind.
  destruct (Hm c (proj1 Hc)) as (a & c1 & -> & Hc1 & S1).
  assert (cam_ok folder (S j) c1) as Hok by (by eapply cam_ok_aside). destruct S1 as (S1 & S2 & S3 & S4).
  destruct (Hk a n j c1) as (c2 & -> & Hc2 & T2); [done| |].
  { unfold next_free. by rewrite S3. }
  exists c2. unfold saved in *. by rewrite S3 in T2.
Qed.

Lemma saves_ask E r (k : oreply r → cam_prog V J Y unit) : (∀ fd, r ≠ KpdRead fd) →
  (∀ a, (∃ d, a = (respond d r).2) → saves E (k a)) → saves E (ask r k).
Proof.
  intros Hr Hk n j c Hc Hn. unfold ask. destruct (respond (os c) r) as [o a] eqn:Er.
  assert (saves E (k a)) as Ha by (apply Hk; exists (os c); by rewrite Er).
  match goal with |- ∃ _, k a ?x = _ ∧ _ => exact (Ha n j x Hc Hn) end.
Qed.

Lemma saves_zoom E k : (∀ cap crop, saves E (k (ERR_V4L_SUCCESS, Some (cap, crop)))) →
  saves E (on_cap QueryV4LZoomInfo ≫= k).
Proof.
  intros Hk n j c Hc Hn. unfold mbind, cam_bind, on_cap, QueryV4LZoomInfo.
  rewrite v4l_request_run. unfold V4l.answer. rewrite (coop_cropcap _ _ _ _ _ _ Hcoop).
  cbn [negb Z.eqb]. rewrite v4l_request_run. unfold V4l.answer. rewrite (coop_crop _ _ _ _ _ _ Hcoop).
  cbn [negb Z.eqb]. rewrite v4l_mret_run.
  match goal with |- ∃ _, k (_, Some (?p, ?q)) ?x = _ ∧ _ => exact (Hk p q n j x Hc Hn) end.
Qed.

(** The rest of taking a picture, after the encoding. *)
Lemma save_picture_saves avail n k c : len < avail → len <= Z.of_nat (length buf) →
  s_pu8JpegEncBuf (vars (enc c)) = Some buf → cam_ok folder (S k) c → next_free n c →
  ∃ c', save_picture h folder avail len c = Ok (tt, c') ∧ cam_ok folder k c' ∧ saved n c c'.
Proof.
  intros Havail Hlen Hb (Hc & Hd & Hf & He) Hn. unfold save_picture, mbind, cam_bind.
  destruct (plain_on_cap TriggerV4LNextFrame ltac:(eauto with loop) c Hc) as (e1 & c1 & -> & Hc1 & S1).
  destruct (plain_on_cap StopV4LCapture ltac:(eauto with loop) c1 Hc1) as (e2 & c2 & -> & Hc2 & S2).
  destruct (aside_trans _ _ _ S1 S2) as (A1 & A2 & A3 & A4). clear S1 S2 Hc1 c1 e1 e2.
  rewrite (proj2 (Z.leb_gt _ _)) by done. unfold ask at 1.
  pose proof (clock_date (os c2)) as Ht. pose proof (coop_clock _ _ _ _ _ _ Hcoop (os c2)) as Hclock.
  destruct (respond (os c2) OLocaltime) as [o [t1 t2]]. cbn [fst snd] in *. subst t2.
  unfold on_store at 1. cbn [store]. rewrite A3.
  pose proof (start_number_small h (files (store c)) folder t (S k) Ht ltac:(apply Hd) ltac:(apply Hd)) as Hs.
  destruct (DSC_NewCapFile_run h (store c) folder t) as (s1 & err & p & E & _ & Hout); [apply Hd|done|lia|].
  pose proof (new_picture_disk h folder t k (store c) s1 err p) as Hnew. rewrite E. cbn [mbind result_bind].
  unfold new_file_outcome in Hout. unfold next_free in Hn. destruct err.
  2: done. 2: { destruct Hout as (_ & _ & x & Hx). by rewrite Hmalloc in Hx. }
  2: { destruct Hout as (_ & _ & Hx). rewrite Hn, Hopen in Hx. done. }
  destruct Hout as (n' & Hn' & _ & -> & _). rewrite Hn in Hn'. injection Hn' as <-.
  cbn [fst snd]. unfold on_enc. cbn [enc own os cap store events].
  cbv [prog_bind get mret prog_ret]. rewrite A4, Hb. rewrite (proj2 (Z.leb_le _ _)) by done.
  unfold write_picture, ask at 1. cbn [enc own os cap store events].
  pose proof (coop_write _ _ _ _ _ _ Hcoop o (cap_path folder t n) (take (Z.to_nat len) buf)) as Hw.
  destruct (respond o (OWrite _ _)) as [o2 w]. cbn [snd] in Hw. subst w. unfold on_store.
  cbn [enc own os cap store events]. rewrite Nat2Z.id, firstn_all.
  destruct (Hnew (default [] (files s1 !! cap_path folder t n) ++ take (Z.to_nat len) buf))
    as (F1 & F2 & F3 & s2 & -> & D2 & K2 & L2); [done..|]. cbn [mbind result_bind].
  rewrite F2 in L2. cbn [default app] in L2. unfold ask. cbn [enc own os cap store events].
  destruct (respond o2 OSync) as [o3 x].
  eexists. split; [done|]. split; [split_and!; [done|done|cbn; congruence|done]|]. by split_and!.
Qed.

Lemma saves_encode m (k : Z → cam_prog V J Y unit) : encodes m →
  (∀ n j c, s_pu8JpegEncBuf (vars (enc c)) = Some buf → cam_ok folder (S j) c → next_free n c →
     ∃ c', k len c = Ok (tt, c') ∧ cam_ok folder j c' ∧ saved n c c') →
  saves (λ _, True) (r ← on_enc m; match (r : Z * option Z).2 with None => mret tt | Some len => k len end).
Proof.
  intros Hm Hk n j c Hc Hn. unfold mbind, cam_bind, on_enc. destruct Hc as (Hc & Hd & Hf & He).
  destruct (Hm (enc c) He) as (w & -> & Hw & Hi). cbn [snd].
  match goal with |- ∃ _, k len ?x = _ ∧ _ => destruct (Hk n j x Hw) as (c' & -> & H') end; [|done|].
  { split_and!; [done..|]. split; [|done]. cbn [enc]. rewrite Hw. by eexists. }
  exists c'. tauto.
Qed.

Lemma restart_capture_last c : screen_ok c → ∃ c', restart_capture c = Ok (tt, c') ∧
  screen_ok c' ∧ aside c c' ∧ last (events c') = Some (EvV4l (VIDIOCCAPTURE VIDEO_START)).
Proof.
  intros Hc. destruct (plain_restart_capture c Hc) as ([] & c' & E & Hc' & S1).
  exists c'. split_and!; [done..|]. revert E. unfold restart_capture.
  match goal with |- (get_own ≫= ?f) c = _ → _ => change ((get_own ≫= f) c) with (f (own c) c) end.
  cbv beta. unfold ask. destruct (respond _ _) as [o x]. destruct (respond _ _) as [o' x'].
  unfold mbind at 1, cam_bind at 1. unfold on_cap, StartV4LCapture. rewrite v4l_request_run.
  unfold V4l.answer. rewrite (coop_start _ _ _ _ _ _ Hcoop). cbn [Z.ltb Z.compare].
  rewrite v4l_modify_run, v4l_mret_run. intros [= <-]. cbn [events cap log V4l.with_vid V4l.after].
  rewrite drop_app_length. cbn [map]. by rewrite last_snoc.
Qed.

Lemma saves_restart m : saves (λ _, True) m →
  saves (.= Some (EvV4l (VIDIOCCAPTURE VIDEO_START))) (m ≫= λ _, restart_capture).
Proof.
  intros Hm n j c Hc Hn. unfold mbind, cam_bind.
  destruct (Hm n j c Hc Hn) as (c1 & -> & Hc1 & T1 & _).
  destruct (restart_capture_last c1 (proj1 Hc1)) as (c2 & -> & Hc2 & S1 & L).
  exists c2. split; [done|]. split; [by eapply cam_ok_aside|].
  split; [|done]. destruct S1 as (_ & _ & S3 & _). unfold saved. by rewrite S3.
Qed.

Lemma saves_get_own E (k : vin_vars → cam_prog V J Y unit) :
  (∀ v, pchSaveFolder v = Some folder → saves E (k v)) → saves E (get_own ≫= k).
Proof. intros Hk n j c Hc. apply (Hk (own c)); [apply Hc|done]. Qed.

Lemma saves_CaptureImage garbage resol : len <= Z.of_nat (length buf) →
  saves (.= Some (EvV4l (VIDIOCCAPTURE VIDEO_START))) (CaptureImage h garbage resol).
Proof.
  intros Hlen. unfold CaptureImage. apply saves_get_own. intros v ->.
  apply saves_after; [plain_go|intros _]. apply saves_after; [apply plain_ClearFB|intros _].
  apply saves_ask; [done|intros _ _]. apply saves_ask; [done|]. intros fs [d ->].
  destruct (coop_space _ _ _ _ _ _ Hcoop d folder) as (bavail & bsize & -> & Hspace).
  apply saves_ask; [done|intros _ _]. apply saves_after; [plain_go|intros _].
  apply saves_after; [plain_go|intros pic]. apply saves_zoom. intros cap crop. apply saves_restart. cbn [snd].
  apply saves_after; [plain_go|intros _]. apply saves_ask; [done|intros tm _].
  apply saves_encode; [apply encodes_JpegEncFromVIN|]. intros. by apply save_picture_saves.
Qed.

(** C10: A picture is saved.  When the capture driver, the encoder and the disk
    do what they are asked, there is a free number [n] for the day and the
    picture fits the stream buffer and the disk, [CaptureImage] writes the
    whole picture, exactly the [len] bytes the encoder reported, to the new
    file of that number, keeps every other file but the index file, and leaves
    the camera capturing again: the last request starts the capture. *)
Theorem CaptureImage_saves_picture garbage resol n k c :
  0 <= len <= Z.of_nat (length buf) → cam_ok folder (S k) c → next_free n c →
  ∃ c', CaptureImage h garbage resol c = Ok (tt, c') ∧ cam_ok folder k c' ∧
    files (store c) !! cap_path folder t n = None ∧
    files (store c') !! cap_path folder t n = Some (take (Z.to_nat len) buf) ∧
    kept folder (store c) (store c') ∧
    last (events c') = Some (EvV4l (VIDIOCCAPTURE VIDEO_START)).
Proof.
  intros Hlen Hc Hn. destruct (saves_CaptureImage garbage resol (proj2 Hlen) n k c Hc Hn)
    as (c' & E & Hc' & (F1 & F2 & F3) & L). by exists c'.
Qed.
End saved.

(** ** Witnesses *)

#[export] Instance sample_keys : KeyQueue sample_sys.
Proof.
  refine (Build_KeyQueue _ _ sample_queue _ _ _).
  - intros d fd e q Hq. unfold respond, sample_rest. by rewrite Hq.
  - intros d [] Hr; try done; [|by destruct (Hr fd)|]; unfold respond, sample_rest; by destruct (open_fresh _ _).
  - intros d. split; cbn; lia.
Defined.

#[export] Instance sample_fits : EncodesInBuffer (gset Z).
Proof. intros d _. cbn. lia. Defined.

(** The state in the loop, with a folder [/mnt/DCIM]. *)
Definition sample_running (keys : list input_event) : camera (gset Z) (gset Z) sample_sys :=
  Camera (VinVars 320 240 9 8 (Some 4096) 153600 (Some Dsc.sample_folder) (Rect 0 0 0 0)) (SampleSys {[8; 9]} keys)
    (V4l.State V4l.cam_vid 0 4 V4l.fake_table ∅ [])
    (World (JpegVars (Some (replicate 200 0)) 6 4096 (JpegParam 640 480 0 0 0 false) true) ∅ [])
    (Dsc.Dsc None 0 (Dsc.IdxElem 0 0 0) ∅) [].

Lemma sample_cam_ok k keys : (k < 1000)%nat →
  cam_ok Dsc.sample_folder k (sample_running keys).
Proof.
  intros Hk. assert (disk_ok Dsc.sample_folder k (store (sample_running keys))) as Hd.
  { unfold disk_ok, index_small. cbn [store sample_running files]. rewrite lookup_empty.
    split; [done|]. split; [lia|done]. }
  split; [|split; [exact Hd|split; [done|split; [by eexists|done]]]].
  split; [|split; [by eexists|split; vm_compute; discriminate]].
  split; [split; [exact V4l.cam_ring|cbn; lia]|]. split_and!; vm_compute; discriminate.
Qed.


Lemma CaptureImage_only_adds_a_file_witness :
  ∃ c', CaptureImage Dsc.sample_host 0 eIMAGE_QVGA (sample_running [key_up HOME_KEY]) = Ok (tt, c') ∧
    taken Dsc.sample_folder (sample_running [key_up HOME_KEY]) c'.
Proof.
  destruct (CaptureImage_only_adds_a_file Dsc.sample_host Dsc.sample_folder 0 eIMAGE_QVGA 0
    (sample_running [key_up HOME_KEY])) as (c' & E & _ & _ & T); [apply sample_cam_ok; lia|].
  exists c'. split; [exact E|exact T].
Defined.

Lemma sample_cooperative :
  cooperative (gset Z) (gset Z) sample_sys 100 (replicate 200 7) Dsc.sample_day.
Proof.
  split; try done.
  intros d p. exists 1000, 1024. split; [reflexivity|]. vm_compute. reflexivity.
Qed.

(** The first picture of 8 May has number 1. *)
Lemma CaptureImage_saves_picture_witness :
  ∃ c', CaptureImage Dsc.sample_host 0 eIMAGE_QVGA (sample_running []) = Ok (tt, c') ∧
    files (store c') !! (lit "/mnt/DCIM/KRV0507001.jpg") = Some (replicate 100 7) ∧
    last (events c') = Some (EvV4l (VIDIOCCAPTURE VIDEO_START)).
Proof.
  destruct (CaptureImage_saves_picture Dsc.sample_host Dsc.sample_folder 100 (replicate 200 7) Dsc.sample_day
    sample_cooperative (λ _, eq_refl) (λ _, eq_refl) 0 eIMAGE_QVGA 1 0 (sample_running []))
    as (c' & E & _ & _ & F & _ & L).
  - cbn. lia.
  - apply sample_cam_ok. lia.
  - vm_compute. reflexivity.
  - exists c'. split; [exact E|]. split; [exact F|exact L].
Defined.
