(* ===== verification/TsRaw.v ===== *)
(** * TsRaw: raw modules for other touch screens

    Models the raw modules of src/tslib-1.1/plugins that read a device's own
    format: the drivers that deliver records (h3600, corgi, collie, arctic2,
    ucb1x00, mk712, tatung), and the DMC
    controller (dmc-raw.c).  The first ones are instances of the interface of
    [Tslib], so that the filters stack on them. *)
From S2P Require Import Prelude LibC Bytes Device Tslib.
Local Open Scope cmodel_scope.
Local Open Scope Z_scope.

(** ** Requests *)

Inductive rawreq :=
| RawRead (len : Z)
| Now
| RawWrite (l : list Z)
| TtySetup (flush : bool)
| RawSleep.

(** The settings of the line are made at once (TCSANOW) or with [flush], which
    discards the input that has arrived (TCSAFLUSH).
    read: the bytes, [None] for -1; write: its result; the time as one number
    of microseconds. *)
Definition rawreply (r : rawreq) : Type :=
  match r with RawRead _ => option (list Z) | TtySetup _ | RawSleep => unit | _ => Z end.

Definition s64 (z : Z) : Z := (z + 9223372036854775808) mod 18446744073709551616 - 9223372036854775808.
Definition micros (sec usec : Z) : Z := sec * 1000000 + usec.

(** Little-endian fields of a record. *)
Definition f8 (l : list Z) (o : Z) : Z := le_val (sub_bytes l o 1).
Definition f16 (l : list Z) (o : Z) : Z := le_val (sub_bytes l o 2).
Definition f32 (l : list Z) (o : Z) : Z := le_val (sub_bytes l o 4).
Definition f64 (l : list Z) (o : Z) : Z := le_val (sub_bytes l o 8).

(** ** Drivers that deliver records *)

(** The size of a record, and its sample; [now] is the time of day, for the
    modules that use it. *)
Record layout := Layout { rec_size : Z; uses_now : bool; sample_of : list Z → Z → ts_sample }.

Definition h3600_ts_event : layout := Layout 8 true (λ l now, Sample (f16 l 2) (f16 l 4) (f16 l 0) now).

(** [millisecs] split into seconds and microseconds. *)
Definition stamp (ms : Z) : Z := micros (Z.quot ms 1000) (Z.rem ms 1000 * 1000).

Definition corgi_ts_event : layout :=
  Layout 8 false (λ l _, Sample (s16 (f16 l 2)) (s16 (f16 l 4)) (u32 (s16 (f16 l 0))) (stamp (s16 (f16 l 6)))).
Definition collie_ts_event : layout :=
  Layout 24 false (λ l _, Sample (s32 (f32 l 4)) (s32 (f32 l 0)) (f32 l 8) (stamp (s64 (f64 l 16)))).
Definition arctic2_ts_event : layout :=
  Layout 20 true (λ l now, Sample (s16 (f32 l 4)) (s16 (f32 l 8)) (u32 (s16 (f16 l 0))) now).
Definition ucb1x00_ts_event : layout :=
  Layout 16 false (λ l _, Sample (f16 l 2) (f16 l 4) (f16 l 0) (micros (s32 (f32 l 8)) (s32 (f32 l 12)))).
Definition mk712_ts_event : layout :=
  Layout 16 true (λ l now, Sample (s16 (f32 l 4)) (s16 (f32 l 8)) (if f32 l 0 =? 0 then 1 else 0) now).

Section records.
Context {D : Type} `{Driver rawreq rawreply D}.
Notation P := (prog unit rawreq D).

(** The loop over the [n] records that are left; [k] is the next one. *)
Fixpoint record_loop (lay : layout) (n : nat) (k : Z) (l : list Z) (samp : list ts_sample) : P (list ts_sample) :=
  match n with
  | O => mret samp
  | S n =>
      let rec := sub_bytes l (k * rec_size lay) (rec_size lay) in
      samp ← (if uses_now lay
              then now ⇐ Now; lift (wr samp k (sample_of lay rec now))
              else lift (wr samp k (sample_of lay rec 0)));
      record_loop lay n (k + 1) l samp
  end.

Definition record_read (lay : layout) (samp : list ts_sample) (nr : Z) : P (list ts_sample * Z) :=
  r ⇐ RawRead (rec_size lay * nr);
  match r with
  | Some ((_ :: _) as l) =>
      let n := Z.of_nat (length l) / rec_size lay in
      samp ← record_loop lay (Z.to_nat n) 0 l samp;
      mret (samp, n)
  | _ => mret (samp, -1)
  end.

Definition h3600_read := record_read h3600_ts_event.
Definition corgi_read := record_read corgi_ts_event.
Definition collie_read := record_read collie_ts_event.
Definition arctic2_read := record_read arctic2_ts_event.
Definition ucb1x00_read := record_read ucb1x00_ts_event.
Definition mk712_read := record_read mk712_ts_event.

(** *** tatung *)

(** The loop: [inl] is the early return at a byte of 240. *)
Fixpoint tatung_loop (n : nat) (k : Z) (l : list Z) (samp : list ts_sample) : P (list ts_sample + list ts_sample) :=
  match n with
  | O => mret (inr samp)
  | S n =>
      let rec := sub_bytes l (k * 4) 4 in
      let '(x1, x2, y1, y2) := (f8 rec 0, f8 rec 1, f8 rec 2, f8 rec 3) in
      if (x1 =? 240) || (x2 =? 240) || (y1 =? 240) || (y2 =? 240) then mret (inl samp) else
      now ⇐ Now;
      samp ← lift (wr samp k (Sample (x1 * 31 + x2 - 64) (y1 * 31 + y2 - 192) 1 now));
      tatung_loop n (k + 1) l samp
  end.

Definition tatung_read (samp : list ts_sample) (nr : Z) : P (list ts_sample * Z) :=
  r ⇐ RawRead (4 * nr);
  match r with
  | Some ((_ :: _) as l) =>
      let n := Z.of_nat (length l) / 4 in
      o ← tatung_loop (Z.to_nat n) 0 l samp;
      match o with
      | inl samp => mret (samp, n)
      | inr samp =>
          (* the entry behind the last one *)
          s ← lift (rd samp n);
          samp ← lift (wr samp n (Sample (x s) (y s) 0 (tv s)));
          mret (samp, n)
      end
  | _ => mret (samp, -1)
  end.
End records.

(** ** DMC *)

Record tslib_dmc := Dmc { current_x : Z; current_y : Z }.

Definition EINVAL : Z := 22.

Section dmc.
Context {D : Type} `{Driver rawreq rawreply D}.
Notation P := (prog tslib_dmc rawreq D).

Definition dmc_init_device : P Z :=
  _ ⇐ TtySetup false;
  r ⇐ RawWrite [0x55];
  if negb ((r : Z) =? 1) then mret EINVAL else
  _ ⇐ RawSleep;
  r ⇐ RawWrite [0x05; 0x40];
  if negb ((r : Z) =? 2) then mret EINVAL else
  r ⇐ RawRead 1;
  match r with
  | Some [_] =>
      r ⇐ RawWrite [0x31];
      if negb ((r : Z) =? 1) then mret EINVAL else mret 0
  | _ => mret EINVAL
  end.

(** The loop: [n] rounds are left, [i] counts them and [s] the samples. *)
Fixpoint dmc_loop (n : nat) (i s : Z) (samp : list ts_sample) : P (list ts_sample * Z) :=
  match n with
  | O => mret (samp, i)
  | S n =>
      r ⇐ RawRead 1;
      match r with
      | Some [b] =>
          if b =? 0x10 then
            d ← get;
            now ⇐ Now;
            samp ← lift (wr samp s (Sample (current_x d) (current_y d) 0 now));
            dmc_loop n (i + 1) (s + 1) samp
          else if b =? 0x11 then
            r ⇐ RawRead 4;
            match r with
            | Some [b0; b1; b2; b3] =>
                let '(px, py) := (Z.shiftl b0 8 + b1, Z.shiftl b2 8 + b3) in
                _ ← modify (λ _, Dmc px py);
                now ⇐ Now;
                samp ← lift (wr samp s (Sample px py 100 now));
                dmc_loop n (i + 1) (s + 1) samp
            | _ => mret (samp, i - 1)
            end
          else dmc_loop n (i + 1) s samp
      | _ => mret (samp, i - 1)
      end
  end.

Definition dmc_read (samp : list ts_sample) (nr : Z) : P (list ts_sample * Z) := dmc_loop (Z.to_nat nr) 0 0 samp.

Definition dmc_mod_init (malloc_ok : bool) : P (option tslib_dmc) :=
  r ← dmc_init_device;
  mret (if negb (r =? 0) then None else if malloc_ok then Some (Dmc 0 0) else None).
End dmc.

(** ** The interface *)

(** read() delivers at most the bytes it was asked for. *)
Class RawReadsAtMost (D : Type) `{Driver rawreq rawreply D} :=
  raw_reads_at_most : ∀ (d : D) len l, 0 <= len → (respond d (RawRead len)).2 = Some l → Z.of_nat (length l) <= len.

Definition record_layouts : list layout :=
  [h3600_ts_event; corgi_ts_event; collie_ts_event; arctic2_ts_event; ucb1x00_ts_event; mk712_ts_event].

Lemma record_size lay : lay ∈ record_layouts → 0 < rec_size lay.
Proof. unfold record_layouts. rewrite !elem_of_cons. intros [->|[->|[->|[->|[->|[->|Hl]]]]]]; [done..|set_solver]. Qed.

(** The samples of the first [n] records of [l], stored at the times [nows]. *)
Definition samples_of (lay : layout) (l : list Z) (nows : list Z) : list ts_sample :=
  imap (λ k now, sample_of lay (sub_bytes l (Z.of_nat k * rec_size lay) (rec_size lay)) (if uses_now lay then now else 0)) nows.

Section fits.
Context {D : Type} `{RawReadsAtMost D}.

Lemma record_loop_run lay l n : ∀ (k : nat) samp (w : world unit rawreq D), (k + n <= length samp)%nat →
  ∃ nows w', record_loop lay n (Z.of_nat k) l samp w = Ok (
      take k samp ++ imap (λ j now, sample_of lay (sub_bytes l (Z.of_nat (k + j) * rec_size lay) (rec_size lay))
                             (if uses_now lay then now else 0)) nows ++ drop (k + n) samp, w') ∧ length nows = n.
Proof.
  induction n as [|n IH]; intros k samp w Hl; cbn [record_loop].
  { exists [], w. split; [|done]. rewrite imap_nil, Nat.add_0_r. cbn [app]. by rewrite take_drop. }
  assert (∀ now w1, ∃ nows w',
    (samp ← lift (wr samp (Z.of_nat k) (sample_of lay (sub_bytes l (Z.of_nat k * rec_size lay) (rec_size lay))
       (if uses_now lay then now else 0))); record_loop lay n (Z.of_nat k + 1) l samp) w1 = Ok (
      take k samp ++ imap (λ j now, sample_of lay (sub_bytes l (Z.of_nat (k + j) * rec_size lay) (rec_size lay))
                             (if uses_now lay then now else 0)) (now :: nows) ++ drop (k + S n) samp, w') ∧ length nows = n) as Hnext.
  { intros now w1. rewrite lift_run, wr_Ok by lia. rewrite Nat2Z.id.
    set (s := sample_of _ _ _). replace (Z.of_nat k + 1) with (Z.of_nat (S k)) by lia.
    destruct (IH (S k) (<[k := s]> samp) w1) as (nows & w' & E & Hn); [rewrite length_insert; lia|].
    exists nows, w'. split; [|done]. rewrite E. do 2 f_equal. rewrite take_insert_snoc by lia. rewrite insert_drop_lt by lia.
    rewrite imap_cons, <- !app_assoc. cbn [app]. f_equal. rewrite Nat.add_0_r. f_equal.
    replace (k + S n)%nat with (S k + n)%nat by lia. f_equal. apply imap_ext. intros j ? _. cbn.
    by replace (k + S j)%nat with (S (k + j)) by lia. }
  destruct (uses_now lay) eqn:Eu.
  - rewrite bind_run, request_run. set (w1 := after _ _). set (now := answer _ _).
    destruct (Hnext now w1) as (nows & w' & E & Hn). exists (now :: nows), w'. split; [|cbn; lia]. etransitivity; [|exact E].
    rewrite lift_run. unfold lift. by destruct (wr _ _ _).
  - destruct (Hnext 0 w) as (nows & w' & E & Hn). exists (0 :: nows), w'. split; [|cbn; lia]. exact E.
Qed.
(** A module for a device that delivers records stores one sample for every
    whole record that was read, in order, at the front of the array, and reports
    their number; an error or the end of the data is -1, and nothing is stored. *)
Theorem records_become_samples lay samp nr (w : world unit rawreq D) :
  lay ∈ record_layouts → 0 <= nr <= Z.of_nat (length samp) →
  match answer w (RawRead (rec_size lay * nr)) with
  | Some ((_ :: _) as l) =>
      let n := (length l / Z.to_nat (rec_size lay))%nat in
      ∃ nows w', record_read lay samp nr w = Ok (samples_of lay l nows ++ drop n samp, Z.of_nat n, w') ∧
        length nows = n ∧ Z.of_nat n <= nr
  | _ => ∃ w', record_read lay samp nr w = Ok (samp, -1, w')
  end.
Proof.
  intros Hlay Hnr. pose proof (record_size lay Hlay) as Hs. unfold record_read. rewrite request_run.
  destruct (answer w _) as [[|b l]|] eqn:Ea; [by eexists| |by eexists].
  unfold answer in Ea. apply raw_reads_at_most in Ea; [|nia]. set (l' := b :: l) in *. cbv zeta.
  set (n := (length l' / Z.to_nat (rec_size lay))%nat).
  assert (Z.of_nat (length l') / rec_size lay = Z.of_nat n) as ->.
  { unfold n. rewrite Nat2Z.inj_div, Z2Nat.id by lia. done. }
  assert (Z.of_nat n <= nr) as Hn.
  { unfold n. rewrite Nat2Z.inj_div, Z2Nat.id by lia. apply Z.div_le_upper_bound; lia. }
  rewrite Nat2Z.id. destruct (record_loop_run lay l' n 0 samp (after w (RawRead (rec_size lay * nr)))) as (nows & w' & E & Hl); [lia|].
  exists nows, w'. change (Z.of_nat 0) with 0 in E. rewrite bind_run, E. split; [|done].
  rewrite mret_run, take_0, Nat.add_0_l. done.
Qed.
End fits.

(** The modules of this family as modules of the stack. *)
Record record_module (D : Type) := RecordModule { rm_world : world unit rawreq D; rm_layout : layout }.
Arguments RecordModule {D}.
Arguments rm_world {D}.
Arguments rm_layout {D}.

#[export] Instance record_module_read {D} `{Driver rawreq rawreply D} : TsRead (record_module D) := λ m samp nr,
  match record_read (rm_layout m) samp nr (rm_world m) with
  | Ok (samp', ret, w) => Ok (RecordModule w (rm_layout m), samp', ret)
  | Crash c => Crash c
  end.

(** The tatung module does not keep the interface: it also writes the entry
    behind the samples, and after a full read that entry is not in the array. *)
Lemma tatung_writes_behind_array {D} `{Driver rawreq rawreply D} (w : world unit rawreq D) b0 b1 b2 b3 :
  answer w (RawRead 4) = Some [b0; b1; b2; b3] → ∀ s,
  tatung_read [s] 1 w = Crash OutOfBounds ∨ ∃ w', tatung_read [s] 1 w = Ok ([s], 1, w').
Proof.
  intros Ea s. unfold tatung_read. change (4 * 1) with 4. rewrite request_run, Ea. change (Z.of_nat (length [b0; b1; b2; b3]) / 4) with 1.
  rewrite bind_run. change (Z.to_nat 1) with 1%nat. cbn [tatung_loop].
  destruct (_ || _ || _ || _); [by right; eexists|left]. rewrite request_run. done.
Qed.


#[export] Instance record_module_read_ok {D} `{RawReadsAtMost D} : TsReadOk (record_module D).
Proof.
  intros [w lay] buf nr m' buf' ret Hnr. unfold ts_module_read, record_module_read, record_read. cbn [rm_layout rm_world].
  rewrite request_run. destruct (answer w _) as [[|b l]|] eqn:Ea; cbv zeta; [intros [= <- <- <-]; split_and!; done || lia| |intros [= <- <- <-]; split_and!; done || lia].
  set (l' := b :: l) in *. clearbody l'. rewrite bind_run.
  assert (Z.of_nat (length l') / rec_size lay <= nr) as Hn.
  { destruct (decide (0 < rec_size lay)) as [Hs|Hs].
    - unfold answer in Ea. apply raw_reads_at_most in Ea; [|nia]. apply Z.div_le_upper_bound; lia.
    - destruct (decide (rec_size lay = 0)) as [->|]; [rewrite Zdiv_0_r; lia|].
      assert (Z.of_nat (length l') / rec_size lay <= 0); [|lia].
      pose proof (Z.mod_neg_bound (Z.of_nat (length l')) (rec_size lay)). pose proof (Z.div_mod (Z.of_nat (length l')) (rec_size lay)). nia. }
  destruct (record_loop_run lay l' (Z.to_nat (Z.of_nat (length l') / rec_size lay)) 0 buf
              (after w (RawRead (rec_size lay * nr)))) as (nows & w' & E & Hl); [lia|].
  change (Z.of_nat 0) with 0 in E. rewrite E. intros [= <- <- <-]. rewrite ?take_0. cbn [app]. split_and!; [|done|].
  - rewrite length_app, length_imap, length_drop. lia.
  - rewrite drop_app_ge by (rewrite length_imap; lia). rewrite length_imap, drop_drop. f_equal. lia.
Qed.

(** ** The reports of the DMC controller *)

Inductive report := Release | Touch (px py : Z).

Definition report_bytes (r : report) : list Z :=
  match r with Release => [0x10] | Touch px py => [0x11; px / 256; px mod 256; py / 256; py mod 256] end.
Definition report_ok (r : report) : Prop :=
  match r with Release => True | Touch px py => is_u16 px ∧ is_u16 py end.

(** The specification: the controller's position after a report, and the sample
    without its time. *)
Definition report_position (d : tslib_dmc) (r : report) : tslib_dmc :=
  match r with Release => d | Touch px py => Dmc px py end.
Definition coords (s : ts_sample) : Z * Z * Z := (x s, y s, pressure s).

Fixpoint reported (d : tslib_dmc) (rs : list report) : list (Z * Z * Z) :=
  match rs with
  | [] => []
  | Release :: rs => (current_x d, current_y d, 0) :: reported d rs
  | Touch px py :: rs => (px, py, 100) :: reported (Dmc px py) rs
  end.

(** A line holds the bytes that were sent; a read delivers as many of them as it
    was asked for, and less only when there are no more. *)
Class WholeReads (D : Type) `{Driver rawreq rawreply D} := {
  line : D → list Z;
  whole_read (d : D) (len : Z) : 0 <= len →
    (respond d (RawRead len)).2 = Some (take (Z.to_nat len) (line d)) ∧
    line (respond d (RawRead len)).1 = drop (Z.to_nat len) (line d);
  line_kept (d : D) r : match r with RawRead _ => True | _ => line (respond d r).1 = line d end
}.

Section dmc_reports.
Context {D : Type} `{WholeReads D}.
Implicit Types w : world tslib_dmc rawreq D.

Lemma read_answer w len l1 l2 :
  line (driver w) = l1 ++ l2 → len = Z.of_nat (length l1) →
  answer w (RawRead len) = Some l1 ∧ line (driver (after w (RawRead len))) = l2.
Proof.
  intros E ->. pose proof (whole_read (driver w) (Z.of_nat (length l1))) as [Ha Hl]; [lia|].
  unfold answer, after. cbn [driver]. rewrite Ha, Hl, E, Nat2Z.id, take_app_length, drop_app_length. done.
Qed.

Lemma read_empty w : line (driver w) = [] →
  answer w (RawRead 1) = Some [] ∧ line (driver (after w (RawRead 1))) = [].
Proof.
  intros E. pose proof (whole_read (driver w) 1) as [Ha Hl]; [lia|].
  unfold answer, after. cbn [driver]. rewrite Ha, Hl, E. done.
Qed.

Lemma word_bytes px : is_u16 px → Z.shiftl (px / 256) 8 + px mod 256 = px.
Proof. intros. rewrite Z.shiftl_mul_pow2 by lia. change (2 ^ 8) with 256. pose proof (Z.div_mod px 256). lia. Qed.

(** One round of the loop: a whole report is stored as a sample. *)
Lemma dmc_round n i s samp w r rest :
  report_ok r → 0 <= s < Z.of_nat (length samp) → line (driver w) = report_bytes r ++ rest →
  ∃ now w', dmc_loop (S n) i s samp w =
      dmc_loop n (i + 1) (s + 1) (<[Z.to_nat s :=
        match r with Release => Sample (current_x (vars w)) (current_y (vars w)) 0 now
                   | Touch px py => Sample px py 100 now end]> samp) w' ∧
    vars w' = report_position (vars w) r ∧ line (driver w') = rest.
Proof.
  intros Hok Hs El. cbn [dmc_loop]. rewrite request_run. destruct r as [|px py]; cbn [report_bytes app] in El.
  - destruct (read_answer w 1 [0x10] rest El eq_refl) as [-> Hl]. set (w1 := after w _) in *.
    change (0x10 =? 0x10) with true. cbn iota. rewrite get_run.
    pose proof (line_kept (driver w1) Now) as Hk. cbn iota in Hk. rewrite request_run, lift_run, wr_Ok by done.
    eexists _, _. split_and!; [reflexivity|done|]. cbn [after driver]. by rewrite Hk.
  - destruct (read_answer w 1 [0x11] _ El eq_refl) as [-> Hl]. set (w1 := after w _) in *.
    change (0x11 =? 0x10) with false. change (0x11 =? 0x11) with true. cbn iota. rewrite request_run.
    destruct (read_answer w1 4 [px / 256; px mod 256; py / 256; py mod 256] rest Hl eq_refl) as [-> Hl2].
    set (w2 := after w1 _) in *. destruct Hok as [Hx Hy]. rewrite !word_bytes by done. rewrite modify_run.
    set (w3 := with_vars w2 _). pose proof (line_kept (driver w3) Now) as Hk. cbn iota in Hk.
    rewrite request_run, lift_run, wr_Ok by done.
    eexists _, _. split_and!; [reflexivity|done|]. cbn [after driver]. by rewrite Hk.
Qed.

(** The loop from sample [s] on, over the reports [rs] that are still in the
    line. *)
Lemma dmc_loop_reports n : ∀ (s : nat) samp w rs,
  (s + n <= length samp)%nat → Forall report_ok rs → line (driver w) = concat (report_bytes <$> rs) →
  let k := Nat.min n (length rs) in
  ∃ samp' w', dmc_loop n (Z.of_nat s) (Z.of_nat s) samp w =
      Ok (samp', if decide (length rs < n)%nat then Z.of_nat (s + length rs) - 1 else Z.of_nat (s + n), w') ∧
    take s samp' = take s samp ∧ coords <$> take k (drop s samp') = reported (vars w) (take k rs) ∧
    drop (s + k) samp' = drop (s + k) samp ∧ vars w' = foldl report_position (vars w) (take k rs) ∧
    line (driver w') = concat (report_bytes <$> drop k rs).
Proof.
  induction n as [|n IH]; intros s samp w rs Hs Hok El; cbv zeta.
  { rewrite decide_False by lia. rewrite Nat.min_0_l, !take_0. cbn. exists samp, w.
    rewrite Nat.add_0_r. by split_and!. }
  destruct rs as [|r rs]; cbn [fmap list_fmap concat] in El.
  { destruct (read_empty w El) as [Ha Hl]. cbn [dmc_loop]. rewrite request_run, Ha. rewrite decide_True by (cbn; lia).
    exists samp, (after w (RawRead 1)). cbn [length]. rewrite Nat.min_0_r, !Nat.add_0_r. cbn. by split_and!. }
  apply Forall_cons in Hok as [Hr Hok].
  destruct (dmc_round n (Z.of_nat s) (Z.of_nat s) samp w r _ Hr ltac:(lia) El) as (now & w1 & E & Hv & Hl).
  rewrite E, Nat2Z.id. replace (Z.of_nat s + 1) with (Z.of_nat (S s)) by lia. set (v := match r with Release => _ | Touch _ _ => _ end).
  destruct (IH (S s) (<[s := v]> samp) w1 rs) as (samp' & w' & E' & H1 & H2 & H3 & H4 & H5); [rewrite length_insert; lia|done..|].
  cbn [length]. exists samp', w'. rewrite <- Nat.succ_min_distr. rewrite E'. rewrite take_insert_snoc in H1 by lia.
  assert (samp' !! s = Some v) as Hlk.
  { transitivity (take (S s) samp' !! s); [by rewrite lookup_take_lt by lia|]. rewrite H1, lookup_app_r by (rewrite length_take; lia).
    by rewrite length_take, Nat.min_l, Nat.sub_diag by lia. }
  split_and!.
  - do 3 f_equal. repeat case_decide; lia.
  - apply (f_equal (take s)) in H1. rewrite take_take, Nat.min_l in H1 by lia. rewrite H1.
    rewrite take_app_le by (rewrite length_take; lia). rewrite take_take. f_equal. lia.
  - rewrite (drop_S _ _ _ Hlk). cbn [take]. rewrite fmap_cons, H2, Hv. by destruct r.
  - replace (s + S (Nat.min n (length rs)))%nat with (S s + Nat.min n (length rs))%nat by lia.
    rewrite H3. apply insert_drop_lt. lia.
  - cbn [take foldl]. by rewrite <- Hv.
  - done.
Qed.
End dmc_reports.

(** A read of [nr] samples from the DMC controller turns the next reports
    into samples, a release repeating the last position.  When the line runs dry
    before [nr] of them it reports one sample less than it has stored: the last
    one is lost, and of nothing it reports -1. *)
Theorem dmc_read_reports {D} `{WholeReads D} samp nr (w : world tslib_dmc rawreq D) rs :
  0 <= nr <= Z.of_nat (length samp) → Forall report_ok rs → line (driver w) = concat (report_bytes <$> rs) →
  let k := Nat.min (Z.to_nat nr) (length rs) in
  ∃ samp' w', dmc_read samp nr w = Ok (samp', if Z.of_nat (length rs) <? nr then Z.of_nat (length rs) - 1 else nr, w') ∧
    coords <$> take k samp' = reported (vars w) (take k rs) ∧ drop k samp' = drop k samp ∧
    vars w' = foldl report_position (vars w) (take k rs) ∧ line (driver w') = concat (report_bytes <$> drop k rs).
Proof.
  intros Hnr Hok El k. destruct (dmc_loop_reports (Z.to_nat nr) 0 samp w rs) as (samp' & w' & E & _ & H2 & H3 & H4 & H5); [lia|done..|].
  exists samp', w'. split_and!; [|done..]. unfold dmc_read. etransitivity; [exact E|]. do 3 f_equal.
  case_decide; destruct (Z.ltb_spec (Z.of_nat (length rs)) nr); lia.
Qed.

(** ** A line with given contents *)

Record tape := Tape { bytes_left : list Z; clock : Z }.

#[export] Instance tape_driver : Driver rawreq rawreply tape := λ d r,
  match r return tape * rawreply r with
  | RawRead len => (Tape (drop (Z.to_nat len) (bytes_left d)) (clock d), Some (take (Z.to_nat len) (bytes_left d)))
  | Now => (Tape (bytes_left d) (clock d + 1), clock d)
  | RawWrite l => (d, Z.of_nat (length l))
  | TtySetup _ => (d, tt)
  | RawSleep => (d, tt)
  end.

#[export] Instance tape_reads_at_most : RawReadsAtMost tape.
Proof. intros d len l Hl [= <-]. rewrite length_take. lia. Qed.

#[export] Program Instance tape_whole_reads : WholeReads tape := {| line := bytes_left |}.
Next Obligation. done. Qed.
Next Obligation. by destruct r. Qed.

Definition blank : ts_sample := Sample 0 0 0 0.

Definition ucb_record : list Z := le_bytes 2 700 ++ le_bytes 2 512 ++ le_bytes 2 300 ++ [0; 0] ++ le_bytes 4 7 ++ le_bytes 4 500.

Lemma records_become_samples_witness :
  ∃ nows w', ucb1x00_read [blank; blank; blank] 3 (World tt (Tape (ucb_record ++ ucb_record) 0) []) =
    Ok (samples_of ucb1x00_ts_event (ucb_record ++ ucb_record) nows ++ [blank], 2, w') ∧ length nows = 2%nat.
Proof.
  destruct (records_become_samples ucb1x00_ts_event [blank; blank; blank] 3
    (World tt (Tape (ucb_record ++ ucb_record) 0) [])) as (nows & w' & E & Hl & _).
  - unfold record_layouts. rewrite !elem_of_cons. do 4 right. by left.
  - cbn. lia.
  - by exists nows, w'.
Defined.

(** The sample of that record. *)
Example ucb_sample : sample_of ucb1x00_ts_event ucb_record 0 = Sample 512 300 700 7000500.
Proof. reflexivity. Qed.

Lemma dmc_read_reports_witness :
  ∃ samp' w', dmc_read [blank; blank; blank] 3 (World (Dmc 0 0) (Tape (concat (report_bytes <$> [Touch 300 5; Release])) 0) []) =
    Ok (samp', 1, w') ∧ coords <$> take 2 samp' = [(300, 5, 100); (300, 5, 0)].
Proof.
  destruct (dmc_read_reports [blank; blank; blank] 3
    (World (Dmc 0 0) (Tape (concat (report_bytes <$> [Touch 300 5; Release])) 0) []) [Touch 300 5; Release])
    as (samp' & w' & E & H & _).
  - cbn. lia.
  - repeat constructor; cbn; lia.
  - reflexivity.
  - by exists samp', w'.
Defined.

(** A byte that starts no report is counted as a sample, and none is stored. *)
Example dmc_counts_other_bytes :
  ∃ w', dmc_read [blank] 1 (World (Dmc 0 0) (Tape [0] 0) []) = Ok ([blank], 1, w').
Proof. eexists. reflexivity. Qed.
