(* ===== verification/TouchKit.v ===== *)
(** * TouchKit: the serial protocol of the TouchKit controller

    Models src/tslib-1.1/plugins/touchkit-raw.c: the packets of five bytes that
    are cut out of what the serial line delivers. *)
From S2P Require Import Prelude LibC Bytes Device Tslib TsRaw.
Local Open Scope cmodel_scope.
Local Open Scope Z_scope.

Definition PACKET_SIZE : Z := 5.
Definition BUFFER_SIZE : Z := 100.
Definition PACKET_SIGNATURE : Z := 0x81.
Definition IsStart (b : Z) : bool := Z.lor b 1 =? PACKET_SIGNATURE.

(** The static variables of [touchkit_read]. *)
Record touchkit := TouchKit { initDone : Z; buffer : list Z; pos : Z }.

(** [memcpy(buffer, buffer + from, n)]; memcpy does not allow the two regions
    to overlap. *)
Definition move_down (buf : list Z) (from n : Z) : result (list Z) :=
  if negb ((0 <=? from) && (0 <=? n) && (from + n <=? Z.of_nat (length buf))) then Crash OutOfBounds
  else if from <? n then Crash Overlap else blit buf 0 (sub_bytes buf from n).

(** The first [q] in 1..4 at which a start is found, 5 if there is none. *)
Fixpoint find_start (n : nat) (buf : list Z) (p q : Z) : result Z :=
  match n with
  | O => Ok q
  | S n => b ← rd buf (p + q); if IsStart b then Ok q else find_start n buf p (q + 1)
  end.

Definition packet_sample (buf : list Z) (p now : Z) : result ts_sample :=
  d0 ← rd buf p; d1 ← rd buf (p + 1); d2 ← rd buf (p + 2); d3 ← rd buf (p + 3); d4 ← rd buf (p + 4);
  Ok (Sample (Z.lor (Z.shiftl (Z.land d1 0x0F) 7) (Z.land d2 0x7F))
             (Z.lor (Z.shiftl (Z.land d3 0x0F) 7) (Z.land d4 0x7F))
             (if negb (Z.land d0 1 =? 0) then 200 else 0) now).

Section touchkit.
Context {D : Type} `{Driver rawreq rawreply D}.
Notation P := (prog touchkit rawreq D).

Definition set_buffer (b : list Z) (n : Z) : P unit := modify (λ t, TouchKit (initDone t) b n).

(** The loop over the positions; [fuel] is at least the number that is left. *)
Fixpoint packet_loop (fuel : nat) (p : Z) (samp : list ts_sample) : P (list ts_sample * Z) :=
  t ← get;
  if p <? pos t then
    match fuel with
    | O => fault OutOfFuel
    | S fuel =>
        b ← lift (rd (buffer t) p);
        if IsStart b then
          if pos t <? p + PACKET_SIZE then
            if 0 <? p then
              buf ← lift (move_down (buffer t) p (pos t - p));
              _ ← set_buffer buf (pos t - p); mret (samp, 0)
            else mret (samp, 0)
          else
            q ← lift (find_start 4 (buffer t) p 1);
            if q <? PACKET_SIZE then packet_loop fuel (p + (q - 1) + 1) samp else
            now ⇐ Now;
            s ← lift (packet_sample (buffer t) p now);
            samp ← lift (wr samp 0 s);
            buf ← lift (move_down (buffer t) (p + PACKET_SIZE) (pos t - p - PACKET_SIZE));
            _ ← set_buffer buf (pos t - (p + PACKET_SIZE)); mret (samp, 1)
        else packet_loop fuel (p + 1) samp
    end
  else mret (samp, 0).

(** The set-up of the line ([touchkit_init]) discards what has arrived on it
    (TCSAFLUSH).  [read] stores what it gets behind the bytes that are there, also beyond the
    end of the buffer. *)
Definition touchkit_read (samp : list ts_sample) (nr : Z) : P (list ts_sample * Z) :=
  t ← get;
  _ ← (if initDone t =? 0 then _ ⇐ TtySetup true; modify (λ t, TouchKit 1 (buffer t) (pos t)) else mret tt);
  r ⇐ RawRead PACKET_SIZE;
  match r with
  | Some ((_ :: _) as l) =>
      t ← get;
      buf ← lift (blit (buffer t) (pos t) l);
      let n := pos t + Z.of_nat (length l) in
      _ ← set_buffer buf n;
      if n <? PACKET_SIZE then mret (samp, 0) else packet_loop (Z.to_nat n) 0 samp
  | _ => mret (samp, -1)
  end.
End touchkit.


(** Calls of the module until [n] are made, with one place for a sample; the
    samples that were reported, in order. *)
Fixpoint poll {D} `{Driver rawreq rawreply D} (n : nat) : prog touchkit rawreq D (list ts_sample) :=
  match n with
  | O => mret []
  | S n =>
      r ← touchkit_read [blank] 1;
      l ← poll n;
      mret (if r.2 =? 1 then r.1 ++ l else l)
  end.

(** ** The packets of the controller *)

Record packet := Packet { down : bool; px : Z; py : Z }.

Definition packet_bytes (p : packet) : list Z :=
  [if down p then 0x81 else 0x80; Z.shiftr (px p) 7; Z.land (px p) 0x7F; Z.shiftr (py p) 7; Z.land (py p) 0x7F].
Definition packet_ok (p : packet) : Prop := 0 <= px p < 2048 ∧ 0 <= py p < 2048.
Definition packet_coords (p : packet) : Z * Z * Z := (px p, py p, if down p then 200 else 0).

(** A serial line: [sent] are the bytes a reader finds, of which the first
    [arrived] have arrived already.  A read delivers some of them, at least one
    if there are any (it waits for them).  The set-up with TCSAFLUSH discards
    the bytes that have arrived. *)
Class SerialLine (D : Type) `{Driver rawreq rawreply D} := {
  sent : D → list Z;
  arrived : D → nat;
  serial_read (d : D) len : 0 < len → sent d ≠ [] → ∃ l, (respond d (RawRead len)).2 = Some l ∧
    (0 < length l)%nat ∧ Z.of_nat (length l) <= len ∧ sent d = l ++ sent (respond d (RawRead len)).1;
  serial_flush (d : D) : sent (respond d (TtySetup true)).1 = drop (arrived d) (sent d);
  serial_kept (d : D) r : match r with RawRead _ | TtySetup _ => True | _ => sent (respond d r).1 = sent d end
}.

Lemma small_not_start b : 0 <= b < 128 → IsStart b = false.
Proof.
  intros Hb. unfold IsStart, PACKET_SIGNATURE. apply Z.eqb_neq. intros E.
  apply (f_equal (λ z, Z.testbit z 7)) in E. rewrite Z.lor_spec in E. change (Z.testbit 1 7) with false in E.
  change (Z.testbit 129 7) with true in E. rewrite orb_false_r in E.
  rewrite (Z.bits_above_log2 b 7) in E; [done|lia|].
  destruct (decide (b = 0)) as [->|]; [done|]. apply Z.log2_lt_pow2; cbn; lia.
Qed.

Lemma split7 z : 0 <= z < 2048 →
  0 <= Z.shiftr z 7 < 16 ∧ 0 <= Z.land z 0x7F < 128 ∧
  Z.lor (Z.shiftl (Z.land (Z.shiftr z 7) 0x0F) 7) (Z.land (Z.land z 0x7F) 0x7F) = z.
Proof.
  intros Hz. assert (0 <= Z.shiftr z 7 < 16).
  { rewrite Z.shiftr_div_pow2 by lia. split; [apply Z.div_pos; lia|apply Z.div_lt_upper_bound; lia]. }
  change 0x7F with (Z.ones 7). change 0x0F with (Z.ones 4). rewrite <- Z.land_assoc, Z.land_diag.
  rewrite !Z.land_ones by lia. assert (0 <= z mod 2 ^ 7 < 2 ^ 7) by (apply Z.mod_pos_bound; lia).
  split_and!; [lia..|]. rewrite (Z.mod_small (Z.shiftr z 7)) by lia. rewrite lor_shiftl by lia.
  rewrite Z.shiftr_div_pow2 by lia. pose proof (Z.div_mod z (2 ^ 7)). lia.
Qed.

Lemma packet_starts p t : ∃ b, rd (packet_bytes p ++ t) 0 = Ok b ∧ IsStart b = true.
Proof. exists (if down p then 0x81 else 0x80). split; [done|]. by destruct (down p). Qed.

Lemma packet_has_no_start p t : packet_ok p → find_start 4 (packet_bytes p ++ t) 0 1 = Ok 5.
Proof.
  intros [Hx Hy]. destruct (split7 _ Hx) as (? & ? & _), (split7 _ Hy) as (? & ? & _).
  set (buf := packet_bytes p ++ t). cbn [find_start].
  change (rd buf (0 + 1)) with (Ok (Z.shiftr (px p) 7)). cbn [mbind result_bind]. rewrite small_not_start by lia.
  change (rd buf (0 + (1 + 1))) with (Ok (Z.land (px p) 0x7F)). cbn [mbind result_bind]. rewrite small_not_start by lia.
  change (rd buf (0 + (1 + 1 + 1))) with (Ok (Z.shiftr (py p) 7)). cbn [mbind result_bind]. rewrite small_not_start by lia.
  change (rd buf (0 + (1 + 1 + 1 + 1))) with (Ok (Z.land (py p) 0x7F)). cbn [mbind result_bind].
  by rewrite small_not_start by lia.
Qed.

(** Decoding a packet gives what the controller encoded. *)
Lemma packet_sample_bytes p t now : packet_ok p →
  packet_sample (packet_bytes p ++ t) 0 now = Ok (Sample (px p) (py p) (if down p then 200 else 0) now).
Proof.
  intros [Hx Hy]. destruct (split7 _ Hx) as (_ & _ & Ex), (split7 _ Hy) as (_ & _ & Ey).
  change (packet_sample (packet_bytes p ++ t) 0 now) with (Ok (Sample
    (Z.lor (Z.shiftl (Z.land (Z.shiftr (px p) 7) 0x0F) 7) (Z.land (Z.land (px p) 0x7F) 0x7F))
    (Z.lor (Z.shiftl (Z.land (Z.shiftr (py p) 7) 0x0F) 7) (Z.land (Z.land (py p) 0x7F) 0x7F))
    (if negb (Z.land (if down p then 0x81 else 0x80) 1 =? 0) then 200 else 0) now)).
  rewrite Ex, Ey. by destruct (down p).
Qed.

Lemma move_down_rest h rest tail : (length rest <= length h)%nat →
  move_down (h ++ rest ++ tail) (Z.of_nat (length h)) (Z.of_nat (length rest)) =
    Ok (rest ++ drop (length rest) (h ++ rest ++ tail)).
Proof.
  intros Hl. unfold move_down. assert (Z.of_nat (length (h ++ rest ++ tail)) = Z.of_nat (length h) + Z.of_nat (length rest) + Z.of_nat (length tail)) as E
    by (rewrite !length_app; lia).
  rewrite !(proj2 (Z.leb_le _ _)) by lia. cbn [andb negb]. rewrite (proj2 (Z.ltb_ge _ _)) by lia.
  rewrite sub_bytes_app. unfold blit. by rewrite !(proj2 (Z.leb_le _ _)) by lia.
Qed.

Section stream.
Context {D : Type} `{SerialLine D}.
Implicit Types w : world touchkit rawreq D.

(** The bytes the module will get: the first call sets up the line. *)
Definition to_come w : list Z :=
  if initDone (vars w) =? 0 then drop (arrived (driver w)) (sent (driver w)) else sent (driver w).

Lemma to_come_set_up w : initDone (vars w) ≠ 0 → to_come w = sent (driver w).
Proof. intros Hi. unfold to_come. by rewrite (proj2 (Z.eqb_neq _ _)). Qed.

(** Between two calls less than a packet is in the buffer, and the buffer and
    what the line will deliver together hold the packets that are still to come. *)
Definition in_step w (ps : list packet) : Prop :=
  Z.of_nat (length (buffer (vars w))) = BUFFER_SIZE ∧ 0 <= pos (vars w) < PACKET_SIZE ∧
  take (Z.to_nat (pos (vars w))) (buffer (vars w)) ++ to_come w = concat (packet_bytes <$> ps).

(** A complete packet at the front of the buffer is taken out. *)
Lemma packet_front fuel p rest tail samp w :
  packet_ok p → (length rest <= 4)%nat → (0 < length samp)%nat →
  buffer (vars w) = packet_bytes p ++ rest ++ tail → pos (vars w) = 5 + Z.of_nat (length rest) →
  ∃ now buf' w', packet_loop (S fuel) 0 samp w =
      Ok (<[0%nat := Sample (px p) (py p) (if down p then 200 else 0) now]> samp, 1, w') ∧
    vars w' = TouchKit (initDone (vars w)) (rest ++ buf') (Z.of_nat (length rest)) ∧
    length (rest ++ buf') = length (buffer (vars w)) ∧ sent (driver w') = sent (driver w).
Proof.
  intros Hp Hrest Hs Eb Ep. cbn [packet_loop]. rewrite get_run, Ep, Eb. change PACKET_SIZE with 5.
  rewrite (proj2 (Z.ltb_lt _ _)) by lia. rewrite lift_run.
  destruct (packet_starts p (rest ++ tail)) as (b & -> & ->). cbv beta iota. rewrite (proj2 (Z.ltb_ge _ _)) by lia.
  rewrite lift_run, packet_has_no_start by done. change (5 <? 5) with false. cbn iota. rewrite request_run.
  rewrite lift_run, packet_sample_bytes by done. rewrite lift_run, wr_Ok by lia. rewrite lift_run.
  replace (5 + Z.of_nat (length rest) - 0 - 5) with (Z.of_nat (length rest)) by lia.
  change (0 + 5) with (Z.of_nat (length (packet_bytes p))). rewrite move_down_rest by (cbn; lia).
  unfold set_buffer. rewrite modify_run.
  replace (5 + Z.of_nat (length rest) - Z.of_nat (length (packet_bytes p))) with (Z.of_nat (length rest)) by (cbn; lia).
  eexists _, _, _. split_and!; [reflexivity|done| |].
  - rewrite length_app, length_drop, !length_app. lia.
  - exact (serial_kept (driver w) Now).
Qed.

(** A read stores what the line delivers behind the bytes that are there. *)
Lemma touchkit_receive samp nr w : to_come w ≠ [] →
  ∃ l w', touchkit_read samp nr w =
      (buf ← lift (blit (buffer (vars w)) (pos (vars w)) l);
       let n := pos (vars w) + Z.of_nat (length l) in
       _ ← set_buffer buf n; if n <? PACKET_SIZE then mret (samp, 0) else packet_loop (Z.to_nat n) 0 samp) w' ∧
    (0 < length l)%nat ∧ Z.of_nat (length l) <= PACKET_SIZE ∧ to_come w = l ++ sent (driver w') ∧ initDone (vars w') ≠ 0.
Proof.
  intros Hne. unfold touchkit_read. rewrite get_run, bind_run. set (m := if initDone (vars w) =? 0 then _ else _).
  assert (∃ w1, m w = Ok (tt, w1) ∧ buffer (vars w1) = buffer (vars w) ∧ pos (vars w1) = pos (vars w) ∧
            sent (driver w1) = to_come w ∧ initDone (vars w1) ≠ 0) as (w1 & -> & Eb & Ep & Es & Ei).
  { unfold m, to_come. destruct (Z.eqb_spec (initDone (vars w)) 0); [|by exists w]. eexists. split; [reflexivity|].
    split_and!; [done..|exact (serial_flush (driver w))|done]. }
  rewrite request_run. destruct (serial_read (driver w1) PACKET_SIZE) as (l & Ha & Hl & Hle & Hs); [done|by rewrite Es|].
  unfold answer. rewrite Ha. destruct l as [|b l']; [cbn in Hl; lia|]. rewrite get_run. cbn [after vars]. rewrite Ep, Eb.
  eexists (b :: l'), _. split_and!; [reflexivity|done..| |done]. by rewrite <- Es.
Qed.

(** The bytes fit into the buffer. *)
Lemma touchkit_store samp nr w l buf w1 : let n := pos (vars w) + Z.of_nat (length l) in
  blit (buffer (vars w)) (pos (vars w)) l = Ok buf →
  length buf = length (buffer (vars w)) ∧ take (Z.to_nat n) buf = take (Z.to_nat (pos (vars w))) (buffer (vars w)) ++ l ∧
  ∃ w', (buf ← lift (blit (buffer (vars w)) (pos (vars w)) l);
         _ ← set_buffer buf n; if n <? PACKET_SIZE then mret (samp, nr) else packet_loop (Z.to_nat n) 0 samp) w1 =
        (if n <? PACKET_SIZE then mret (samp, nr) else packet_loop (Z.to_nat n) 0 samp) w' ∧
    buffer (vars w') = buf ∧ pos (vars w') = n ∧ sent (driver w') = sent (driver w1) ∧ initDone (vars w') = initDone (vars w1).
Proof.
  intros n E. split; [by eapply length_blit|]. split.
  - apply blit_inv in E as (? & ? & ->). rewrite app_assoc, take_app_le by (rewrite length_app, length_take; lia).
    rewrite take_ge; [done|]. rewrite length_app, length_take. lia.
  - rewrite lift_run, E. unfold set_buffer. rewrite modify_run. by eexists.
Qed.

(** One call: the line gets shorter, and at most one packet is delivered. *)
Lemma touchkit_call nr w p ps s samp : let samp := s :: samp in
  Forall packet_ok (p :: ps) → in_step w (p :: ps) → to_come w ≠ [] →
  ∃ samp' ret w', touchkit_read samp nr w = Ok (samp', ret, w') ∧
    (length (to_come w') < length (to_come w))%nat ∧
    (ret = 0 ∧ samp' = samp ∧ in_step w' (p :: ps) ∨
     ret = 1 ∧ (∃ now, samp' = <[0%nat := Sample (px p) (py p) (if down p then 200 else 0) now]> samp) ∧ in_step w' ps).
Proof.
  intros samp0 [Hp Hps]%Forall_cons (Hb & Hpos & Hst) Hne. unfold PACKET_SIZE, BUFFER_SIZE in *.
  destruct (touchkit_receive samp0 nr w Hne) as (l & w0 & E & Hl & Hl5 & Hs & Hi). unfold PACKET_SIZE in Hl5. rewrite E.
  destruct (blit_Ok (buffer (vars w)) (pos (vars w)) l) as (buf & E0 & _); [lia..|].
  destruct (touchkit_store samp0 0 w l buf w0 E0) as (Hbl & Ht & w1 & E1 & Eb & Ep & Es & Ei). cbv zeta. rewrite E1. rewrite <- Es in Hs. rewrite <- Ei in Hi. unfold PACKET_SIZE.
  set (n := pos (vars w) + Z.of_nat (length l)) in *.
  rewrite Hs, app_assoc, <- Ht in Hst. rewrite Hs, length_app. destruct (Z.ltb_spec n 5) as [Hn|Hn].
  { exists samp0, 0, w1. rewrite (to_come_set_up w1 Hi). split_and!; [done|lia|]. left. split_and!; [done..|].
    unfold in_step, PACKET_SIZE, BUFFER_SIZE. rewrite Eb, Ep, (to_come_set_up w1 Hi). split_and!; [lia..|done]. }
  cbn [fmap list_fmap concat] in Hst.
  assert (∃ rest, take (Z.to_nat n) buf = packet_bytes p ++ rest ∧ rest ++ sent (driver w1) = concat (packet_bytes <$> ps)) as (rest & Hr & Hrs).
  { exists (drop 5 (take (Z.to_nat n) buf)). assert (take 5 (take (Z.to_nat n) buf) = packet_bytes p) as H5.
    { apply (f_equal (take 5)) in Hst. rewrite take_app_le in Hst by (rewrite length_take; lia). done. }
    split; [by rewrite <- H5, take_drop|]. apply (f_equal (drop 5)) in Hst.
    rewrite drop_app_le in Hst by (rewrite length_take; lia). done. }
  assert (length rest = Z.to_nat (n - 5)) as Hlr.
  { apply (f_equal length) in Hr. rewrite length_app, length_take in Hr. cbn [length packet_bytes] in Hr. lia. }
  replace (Z.to_nat n) with (S (Z.to_nat n - 1)) by lia.
  destruct (packet_front (Z.to_nat n - 1) p rest (drop (Z.to_nat n) buf) samp0 w1) as (now & buf' & w2 & E2 & Hv & Hl2 & Hs2).
  { done. } { lia. } { cbn; lia. } { by rewrite Eb, app_assoc, <- Hr, take_drop. } { lia. }
  assert (to_come w2 = sent (driver w1)) as Hc2 by (rewrite to_come_set_up; [exact Hs2|by rewrite Hv]).
  eexists _, 1, w2. split_and!; [exact E2|rewrite Hc2; lia|]. right. split_and!; [done|by eexists|].
  unfold in_step, PACKET_SIZE, BUFFER_SIZE. rewrite Hv, Hc2. cbn [buffer pos]. rewrite Nat2Z.id, take_app_length.
  rewrite Eb in Hl2. split_and!; [lia..|done].
Qed.

Lemma in_step_done w : in_step w [] → to_come w = [].
Proof. intros (_ & _ & E). cbn in E. by apply app_nil in E as [_ ?]. Qed.

Lemma in_step_empty w p ps : in_step w (p :: ps) → to_come w ≠ [].
Proof.
  intros (Hb & Hp & E) Es. rewrite Es, app_nil_r in E. apply (f_equal length) in E.
  rewrite length_take in E. cbn [fmap list_fmap concat] in E. rewrite length_app in E. cbn [length packet_bytes] in E.
  unfold PACKET_SIZE in Hp. lia.
Qed.

Lemma poll_run n w : @poll D _ (S n) w =
  match touchkit_read [blank] 1 w with
  | Ok (r, w1) => match poll n w1 with Ok (l, w2) => Ok (if r.2 =? 1 then r.1 ++ l else l, w2) | Crash c => Crash c end
  | Crash c => Crash c
  end.
Proof. cbn [poll]. rewrite bind_run. destruct (touchkit_read _ _ _) as [[r w1]|]; [|done]. rewrite bind_run. by destruct (poll n w1) as [[]|]. Qed.

(** C24: Polling the TouchKit module, over a line that delivers the packets in
    pieces of any size, yields every sample exactly once and in order, with the
    coordinates and the pen state the controller encoded; after at most one
    call per byte the line is empty.  Of a module that has not set up its line
    this is said of the packets that arrive after the first call has done so:
    what arrived before is discarded. *)
Theorem touchkit_delivers_packets w ps :
  Forall packet_ok ps → in_step w ps →
  ∃ n out w', (n <= length (to_come w))%nat ∧ poll n w = Ok (out, w') ∧
    to_come w' = [] ∧ coords <$> out = packet_coords <$> ps.
Proof.
  remember (length (to_come w)) as k eqn:Ek. revert w ps Ek.
  induction (lt_wf k) as [k _ IH]. intros w [|p ps] -> Hok Hst.
  { exists 0%nat, [], w. split_and!; [lia|done|by apply in_step_done|done]. }
  destruct (touchkit_call 1 w p ps blank [] Hok Hst) as (samp' & ret & w1 & E & Hlt & Hcase); [by eapply in_step_empty|].
  apply Forall_cons in Hok as [Hp Hps].
  assert (∃ qs o, in_step w1 qs ∧ Forall packet_ok qs ∧ coords <$> o ++ [] = packet_coords <$> (if ret =? 1 then [p] else []) ∧
            p :: ps = (if ret =? 1 then [p] else []) ++ qs ∧ o = (if ret =? 1 then samp' else [])) as (qs & o & Hq & Hokq & Ho & Eps & ->).
  { destruct Hcase as [(-> & -> & Hw1)|(-> & (now & ->) & Hw1)].
    - exists (p :: ps), []. split_and!; [done|by constructor|done..].
    - exists ps, (<[0%nat := Sample (px p) (py p) (if down p then 200 else 0) now]> [blank]). by split_and!. }
  destruct (IH _ Hlt w1 qs eq_refl Hokq Hq) as (n & out & w' & Hn & E' & Hd & Hout).
  exists (S n), (if ret =? 1 then samp' ++ out else out), w'. split_and!; [lia| |done|].
  - rewrite poll_run, E, E'. done.
  - rewrite Eps, fmap_app, <- Ho, app_nil_r, <- Hout. by destruct (ret =? 1); rewrite ?fmap_app.
Qed.

(** ** A line without a start of packet *)

Definition noise (l : list Z) : Prop := Forall (λ b, IsStart b = false) l.

Lemma packet_loop_noise fuel : ∀ p samp w, 0 <= p → pos (vars w) <= p + Z.of_nat fuel →
  pos (vars w) <= Z.of_nat (length (buffer (vars w))) → noise (take (Z.to_nat (pos (vars w))) (buffer (vars w))) →
  packet_loop fuel p samp w = Ok (samp, 0, w).
Proof.
  induction fuel as [|fuel IH]; intros p samp w Hp Hf Hl Hn; cbn [packet_loop]; rewrite get_run;
    destruct (Z.ltb_spec p (pos (vars w))) as [Hlt|Hge]; try done; [lia|].
  destruct (rd_is_ok (buffer (vars w)) p) as [b Hb]; [lia|]. rewrite lift_run, Hb.
  assert (IsStart b = false) as ->; [|apply IH; done || lia].
  apply rd_Ok in Hb as [_ Hb]. eapply (Forall_lookup_1 _ _ (Z.to_nat p) b Hn). rewrite lookup_take_lt by lia. done.
Qed.

(** The number of calls is bounded by the room in the buffer. *)
Lemma garbage_overruns k : ∀ w, Z.of_nat k = BUFFER_SIZE + 1 - pos (vars w) → 0 <= pos (vars w) <= BUFFER_SIZE →
  Z.of_nat (length (buffer (vars w))) = BUFFER_SIZE → noise (take (Z.to_nat (pos (vars w))) (buffer (vars w))) →
  noise (to_come w) → BUFFER_SIZE < pos (vars w) + Z.of_nat (length (to_come w)) →
  ∃ n, (n <= k)%nat ∧ poll n w = Crash OutOfBounds.
Proof.
  unfold BUFFER_SIZE. induction (lt_wf k) as [k _ IH]. intros w Hk Hi Hb Ht Hn Hsum.
  destruct (touchkit_receive [blank] 1 w) as (l & w0 & E & Hl & _ & Hs & Hset); [intros Es; rewrite Es in Hsum; cbn in Hsum; lia|].
  rewrite Hs in Hn, Hsum. apply Forall_app in Hn as [Hnl Hn]. rewrite length_app in Hsum.
  destruct (decide (pos (vars w) + Z.of_nat (length l) <= 100)) as [Hfit|Hover].
  2: { exists 1%nat. split; [lia|]. rewrite poll_run, E, lift_run, blit_crash by lia. done. }
  destruct (blit_Ok (buffer (vars w)) (pos (vars w)) l) as (buf & E0 & _); [lia..|].
  destruct (touchkit_store [blank] 0 w l buf w0 E0) as (Hbl & Htk & w1 & E1 & Eb & Ep & Es & Ei).
  assert (to_come w1 = sent (driver w0)) as Hc by (by rewrite to_come_set_up, Es by congruence).
  assert (noise (take (Z.to_nat (pos (vars w1))) (buffer (vars w1)))) as Hn1 by (rewrite Eb, Ep, Htk; by apply Forall_app).
  destruct (IH (Z.to_nat (101 - pos (vars w1))) ltac:(lia) w1) as (n & Hkn & Hcrash); rewrite ?Hc; try done; [lia..|rewrite Eb; lia|lia|].
  exists (S n). split; [lia|]. rewrite poll_run, E. cbv zeta. rewrite E1, <- Ep.
  assert ((if pos (vars w1) <? PACKET_SIZE then mret ([blank], 0) else packet_loop (Z.to_nat (pos (vars w1))) 0 [blank]) w1
            = Ok ([blank], 0, w1)) as ->.
  { destruct (pos (vars w1) <? PACKET_SIZE); [reflexivity|]. apply packet_loop_noise; [lia|lia|rewrite Eb; lia|done]. }
  by rewrite Hcrash.
Qed.

(** C25: Bytes that start no packet, such as a line at another speed delivers (after
    the set-up, if the module has not done it), are kept in the buffer for ever:
    after more than a hundred of them a read goes beyond the end of the buffer. *)
Theorem touchkit_garbage_overruns w :
  Z.of_nat (length (buffer (vars w))) = BUFFER_SIZE → pos (vars w) = 0 →
  noise (to_come w) → BUFFER_SIZE < Z.of_nat (length (to_come w)) →
  ∃ n, (n <= Z.to_nat (BUFFER_SIZE + 1))%nat ∧ poll n w = Crash OutOfBounds.
Proof.
  intros Hb Hp Hn Hl. apply garbage_overruns; rewrite ?Hp; try done; unfold BUFFER_SIZE in *; try lia. constructor.
Qed.
End stream.

(** ** A line that delivers up to [piece + 1] bytes at a time

    The first [early] of the bytes have arrived. *)

Record pieces := Pieces { piece : nat; waiting : list Z; early : nat; time : Z }.

#[export] Instance pieces_driver : Driver rawreq rawreply pieces := λ d r,
  match r return pieces * rawreply r with
  | RawRead len =>
      let n := Nat.min (Z.to_nat len) (S (piece d)) in
      (Pieces (piece d) (drop n (waiting d)) (early d - n) (time d), Some (take n (waiting d)))
  | Now => (Pieces (piece d) (waiting d) (early d) (time d + 1), time d)
  | RawWrite l => (d, Z.of_nat (length l))
  | TtySetup flush => (if flush then Pieces (piece d) (drop (early d) (waiting d)) 0 (time d) else d, tt)
  | RawSleep => (d, tt)
  end.

#[export] Program Instance pieces_line : SerialLine pieces := {| sent := waiting; arrived := early |}.
Next Obligation.
  intros d len Hl Hne. eexists. split; [done|]. cbn [fst respond pieces_driver waiting].
  assert (0 < length (waiting d))%nat by (destruct (waiting d); cbn; [done|lia]).
  rewrite length_take, take_drop. split_and!; done || lia.
Qed.
Next Obligation. done. Qed.
Next Obligation. by destruct r. Qed.

Definition fresh : touchkit := TouchKit 0 (replicate 100 0) 0.
Definition pen : list packet := [Packet true 300 1000; Packet true 2047 0; Packet false 5 129].

(** The last three bytes of a packet have arrived before the first call. *)
Definition pen_line : world touchkit rawreq pieces :=
  World fresh (Pieces 2 ([0x7F; 0x02; 0x11] ++ concat (packet_bytes <$> pen)) 3 0) [].

Lemma touchkit_delivers_packets_witness :
  ∃ n out w', (n <= 15)%nat ∧ poll n pen_line = Ok (out, w') ∧ to_come w' = [] ∧
    coords <$> out = [(300, 1000, 200); (2047, 0, 200); (5, 129, 0)].
Proof.
  destruct (touchkit_delivers_packets pen_line pen) as (n & out & w' & Hn & E & Hw & Hc).
  - unfold pen. repeat constructor; cbn; lia.
  - split_and!; [reflexivity|done|done|reflexivity].
  - by exists n, out, w'.
Defined.

Definition noisy_line : world touchkit rawreq pieces := World fresh (Pieces 4 (replicate 150 0x7F) 49 0) [].

Lemma touchkit_garbage_overruns_witness : ∃ n, (n <= 101)%nat ∧ poll n noisy_line = Crash OutOfBounds.
Proof.
  apply (touchkit_garbage_overruns noisy_line); [reflexivity|reflexivity| |reflexivity].
  change (Forall (λ b, IsStart b = false) (replicate 101 0x7F)). by apply Forall_replicate.
Defined.

(** A start that is found near the front of the buffer is moved by less than
    what is moved. *)
Example shift_overlaps :
  poll 1 (World fresh (Pieces 4 (0x05 :: concat (packet_bytes <$> pen)) 0 0) []) = Crash Overlap.
Proof. reflexivity. Qed.
