(* ===== verification/TsInput.v ===== *)
(** * TsInput: the raw module for Linux input devices

    Models src/tslib-1.1/plugins/input-raw.c: the test of the device, the two
    ways of reading events (with and without synchronisation events), and the
    parameters of the module.  The kernel is a [Driver]; a read() delivers the
    bytes of struct input_event, which the module decodes. *)
From stdpp Require Import vector.
From S2P Require Import Prelude LibC Bytes Device Tslib.
Local Open Scope cmodel_scope.
Local Open Scope Z_scope.

(** ** Events *)

(** struct input_event, 16 bytes: two words of time, type, code, value. *)
Record input_event := Event { ev_time : Z; ev_type : Z; ev_code : Z; ev_value : Z }.

Definition event_size : Z := 16.

Definition event_of (l : list Z) : input_event :=
  Event (le_val (sub_bytes l 0 8)) (le_val (sub_bytes l 8 2)) (le_val (sub_bytes l 10 2))
    (s32 (le_val (sub_bytes l 12 4))).

Definition EV_SYN : Z := 0.
Definition EV_KEY : Z := 1.
Definition EV_ABS : Z := 3.
Definition SYN_REPORT : Z := 0.
Definition ABS_X : Z := 0.
Definition ABS_Y : Z := 1.
Definition ABS_PRESSURE : Z := 0x18.
Definition ABS_MT_POSITION_X : Z := 0x35.
Definition ABS_MT_POSITION_Y : Z := 0x36.
Definition BTN_LEFT : Z := 0x110.
Definition BTN_TOUCH : Z := 0x14a.

(** ** Requests *)

Inductive ireq :=
| EVIOCGVERSION
| EVIOCGBIT (ev : Z)
| EVIOCGRAB (grab : bool)
| IRead (len : Z)
| IFree.

(** What read() did: bytes, or -1 with errno EINTR or another. *)
Inductive read_result := RBytes (l : list Z) | REintr | RError.

(** EVIOCGVERSION and EVIOCGBIT return a value and what they store: the version
    and the words of the bit array. *)
Definition ireply (r : ireq) : Type :=
  match r with
  | EVIOCGVERSION => Z * Z
  | EVIOCGBIT _ => Z * list Z
  | EVIOCGRAB _ => Z
  | IRead _ => read_result
  | IFree => unit
  end.

(** [array[BIT_WORD(nr)] & BIT_MASK(nr)]; the arrays are long enough for every
    [nr] that is tested, so a missing word is a clear one. *)
Definition bit_set (words : list Z) (nr : Z) : bool :=
  Z.testbit (default 0 (words !! Z.to_nat (nr / 32))) (nr mod 32).

(** ** State *)

Record tslib_input := TslibInput {
  current_x : Z; current_y : Z; current_p : Z;
  sane_fd : Z; using_syn : Z; grab_events : Z
}.

Definition set_x (i : tslib_input) (v : Z) : tslib_input :=
  TslibInput v (current_y i) (current_p i) (sane_fd i) (using_syn i) (grab_events i).
Definition set_y (i : tslib_input) (v : Z) : tslib_input :=
  TslibInput (current_x i) v (current_p i) (sane_fd i) (using_syn i) (grab_events i).
Definition set_p (i : tslib_input) (v : Z) : tslib_input :=
  TslibInput (current_x i) (current_y i) v (sane_fd i) (using_syn i) (grab_events i).
Definition set_sane (i : tslib_input) (v : Z) : tslib_input :=
  TslibInput (current_x i) (current_y i) (current_p i) v (using_syn i) (grab_events i).
Definition set_syn (i : tslib_input) (v : Z) : tslib_input :=
  TslibInput (current_x i) (current_y i) (current_p i) (sane_fd i) v (grab_events i).
Definition set_grab (i : tslib_input) (v : Z) : tslib_input :=
  TslibInput (current_x i) (current_y i) (current_p i) (sane_fd i) (using_syn i) v.

Definition GRAB_EVENTS_WANTED : Z := 1.
Definition GRAB_EVENTS_ACTIVE : Z := 2.

(** The axes as an event with synchronisation sets them. *)
Definition set_abs (code value : Z) (i : tslib_input) : tslib_input :=
  if code =? ABS_X then set_x i value
  else if code =? ABS_Y then set_y i value
  else if code =? ABS_MT_POSITION_X then set_x i value
  else if code =? ABS_MT_POSITION_Y then set_y i value
  else if code =? ABS_PRESSURE then set_p i value
  else i.

Definition is_touch (code : Z) : bool := (code =? BTN_TOUCH) || (code =? BTN_LEFT).

(** ** Operations *)

Section operations.
Context {D : Type} `{Driver ireq ireply D}.
Notation P := (prog tslib_input ireq D).

(** [EV_VERSION] is that of the kernel headers. *)
Definition check_fd (EV_VERSION : Z) : P Z :=
  v ⇐ EVIOCGVERSION;
  if v.1 <? 0 then mret (-1) else
  if v.2 <? EV_VERSION then mret (-1) else
  evbit ⇐ EVIOCGBIT 0;
  if (evbit.1 <? 0) || negb (bit_set evbit.2 EV_ABS) || negb (bit_set evbit.2 EV_KEY) then mret (-1) else
  absbit ⇐ EVIOCGBIT EV_ABS;
  if (absbit.1 <? 0) || negb (bit_set absbit.2 ABS_X) || negb (bit_set absbit.2 ABS_Y) then mret (-1) else
  ok ← (if negb (bit_set absbit.2 ABS_PRESSURE) then
          _ ← modify (λ i, set_p i 255);
          keybit ⇐ EVIOCGBIT EV_KEY;
          mret (negb ((keybit.1 <? 0) || negb (bit_set keybit.2 BTN_TOUCH || bit_set keybit.2 BTN_LEFT)))
        else mret true);
  if negb ok then mret (-1) else
  _ ← modify (λ i, if bit_set evbit.2 EV_SYN then set_syn i 1 else i);
  i ← get;
  if grab_events i =? GRAB_EVENTS_WANTED then
    r ⇐ EVIOCGRAB true;
    if negb ((r : Z) =? 0) then mret (-1) else
    _ ← modify (λ i, set_grab i GRAB_EVENTS_ACTIVE);
    mret 0
  else mret 0.

(** The loop for devices that mark the end of a report.  [fuel] bounds the
    number of events read.  [current_p] is an int, the pressure of a sample an
    unsigned int. *)
Fixpoint syn_loop (fuel : nat) (samp : list ts_sample) (nr total : Z) (pen_up : bool)
    : P (list ts_sample * Z) :=
  if total <? nr then
    match fuel with
    | O => fault OutOfFuel
    | S fuel =>
        r ⇐ IRead event_size;
        match r with
        | RBytes l =>
            if Z.of_nat (length l) <? event_size then mret (samp, -1) else
            let ev := event_of l in
            if ev_type ev =? EV_KEY then
              syn_loop fuel samp nr total (if is_touch (ev_code ev) && (ev_value ev =? 0) then true else pen_up)
            else if ev_type ev =? EV_SYN then
              if ev_code ev =? SYN_REPORT then
                i ← get;
                samp ← lift (wr samp total
                  (if pen_up then Sample 0 0 0 (ev_time ev)
                   else Sample (current_x i) (current_y i) (u32 (current_p i)) (ev_time ev)));
                syn_loop fuel samp nr (total + 1) false
              else syn_loop fuel samp nr total pen_up
            else if ev_type ev =? EV_ABS then
              _ ← modify (set_abs (ev_code ev) (ev_value ev));
              syn_loop fuel samp nr total pen_up
            else syn_loop fuel samp nr total pen_up
        | _ => mret (samp, -1)
        end
    end
  else mret (samp, total).

(** The sample of an axis event without synchronisation, [None] when it is
    dropped; [old] is what the array holds. *)
Definition abs_sample (i : tslib_input) (ev : input_event) (old : ts_sample)
    : option (tslib_input * ts_sample) :=
  let t := ev_time ev in
  if ev_code ev =? ABS_X then
    if negb (ev_value ev =? 0)
    then Some (set_x i (ev_value ev), Sample (ev_value ev) (current_y i) (u32 (current_p i)) t) else None
  else if ev_code ev =? ABS_Y then
    if negb (ev_value ev =? 0)
    then Some (set_y i (ev_value ev), Sample (current_x i) (ev_value ev) (u32 (current_p i)) t) else None
  else if ev_code ev =? ABS_PRESSURE then
    Some (set_p i (ev_value ev), Sample (current_x i) (current_y i) (u32 (ev_value ev)) t)
  else Some (i, Sample (x old) (y old) (pressure old) t).

(** The loop for devices that do not: [ev] is the event as far as it was read,
    [p] the position of the next byte and [len] the number of bytes to read. *)
Fixpoint event_loop (fuel : nat) (ev : list Z) (p len : Z) (samp : list ts_sample) (nr total : Z)
    : P (list ts_sample * Z) :=
  if total <? nr then
    match fuel with
    | O => fault OutOfFuel
    | S fuel =>
        r ⇐ IRead len;
        match r with
        | REintr => event_loop fuel ev p len samp nr total
        | RError => mret (samp, total)
        | RBytes l =>
            ev ← lift (blit ev p l);
            if Z.of_nat (length l) <? event_size
            then event_loop fuel ev (p + Z.of_nat (length l)) (len - Z.of_nat (length l)) samp nr total else
            let e := event_of ev in
            if ev_type e =? EV_ABS then
              i ← get;
              old ← lift (rd samp total);
              match abs_sample i e old with
              | None => event_loop fuel ev p len samp nr total
              | Some (i, s) =>
                  _ ← modify (λ _, i);
                  samp ← lift (wr samp total s);
                  event_loop fuel ev 0 len samp nr (total + 1)
              end
            else if (ev_type e =? EV_KEY) && is_touch (ev_code e) && (ev_value e =? 0) then
              samp ← lift (wr samp total (Sample 0 0 0 (ev_time e)));
              event_loop fuel ev 0 len samp nr (total + 1)
            else event_loop fuel ev 0 len samp nr total
        end
    end
  else mret (samp, total).

(** [ev0] is what the uninitialised event holds. *)
Definition ts_input_read (EV_VERSION : Z) (fuel : nat) (ev0 : list Z) (samp : list ts_sample) (nr : Z)
    : P (list ts_sample * Z) :=
  i ← get;
  _ ← (if sane_fd i =? 0 then r ← check_fd EV_VERSION; modify (λ i, set_sane i r) else mret tt);
  i ← get;
  if sane_fd i =? -1 then mret (samp, 0)
  else if negb (using_syn i =? 0) then syn_loop fuel samp nr 0 false
  else event_loop fuel ev0 0 event_size samp nr 0.

Definition ts_input_fini : P Z :=
  i ← get;
  _ ← (if grab_events i =? GRAB_EVENTS_ACTIVE then _ ⇐ EVIOCGRAB false; mret tt else mret tt);
  _ ⇐ IFree;
  mret 0.
End operations.

(** ** Parameters *)

Definition parse_raw_grab (stale : bool) (i : tslib_input) (str : option (list Z)) : result (tslib_input * Z) :=
  v ← strtoul_checked stale str;
  match v with
  | None => Ok (i, -1)
  | Some v => Ok (if negb (v =? 0) then set_grab i GRAB_EVENTS_WANTED else i, 0)
  end.

Definition raw_vars (stale : bool) : list (tslib_var tslib_input) :=
  [(lit "grab_events", parse_raw_grab stale)].

(** [None] is NULL; [malloc_ok] says whether there is memory. *)
Definition input_mod_init (malloc_ok stale : bool) (params : option (list Z)) : result (option tslib_input) :=
  if negb malloc_ok then Ok None else
  r ← tslib_parse_vars (TslibInput 0 0 0 0 0 0) (raw_vars stale) params;
  Ok (if negb (r.2 =? 0) then None else Some r.1).

(** ** What the module promises *)

(** read() delivers at most the bytes it was asked for. *)
Class ReadsAtMost (D : Type) `{Driver ireq ireply D} :=
  reads_at_most : ∀ (d : D) len l, 0 <= len → (respond d (IRead len)).2 = RBytes l → Z.of_nat (length l) <= len.

Section fits.
Context {D : Type} `{ReadsAtMost D}.
Implicit Types w : world tslib_input ireq D.

(** The outcome of a read: no fault, and the array is used as promised. *)
Definition outcome_fits (samp : list ts_sample) (nr : Z)
    (r : result (list ts_sample * Z * world tslib_input ireq D)) : Prop :=
  match r with
  | Ok (samp', ret, _) => read_fits samp samp' nr ret ∧ -1 <= ret
  | Crash c => c = OutOfFuel
  end.

Lemma wr_fits (samp : list ts_sample) nr total s :
  0 <= total < nr → nr <= Z.of_nat (length samp) →
  ∃ samp1, wr samp total s = Ok samp1 ∧ length samp1 = length samp ∧
    drop (Z.to_nat nr) samp1 = drop (Z.to_nat nr) samp.
Proof.
  intros Ht Hn. eexists. split; [apply wr_Ok; lia|]. rewrite length_insert. split; [done|].
  apply insert_drop_lt. lia.
Qed.

Lemma outcome_fits_step samp samp1 nr r : length samp1 = length samp →
  drop (Z.to_nat nr) samp1 = drop (Z.to_nat nr) samp → outcome_fits samp1 nr r → outcome_fits samp nr r.
Proof.
  intros Hl Hd. destruct r as [[[s ret] w]|c]; [|done]. intros [(F1 & F2 & F3) Hr].
  split; [|done]. split_and!; congruence.
Qed.

Lemma outcome_fits_stop samp nr ret w : -1 <= ret <= nr → outcome_fits samp nr (Ok (samp, ret, w)).
Proof. intros. split; [|lia]. split_and!; [done|lia|done]. Qed.

Lemma syn_loop_fits fuel samp nr total pen w :
  0 <= total <= nr → nr <= Z.of_nat (length samp) → outcome_fits samp nr (syn_loop fuel samp nr total pen w).
Proof.
  revert samp total pen w. induction fuel as [|fuel IH]; intros samp total pen w Ht Hn; cbn [syn_loop];
    (destruct (total <? nr) eqn:E; zcmp; [|apply outcome_fits_stop; lia]); [done|].
  rewrite request_run. destruct (answer w (IRead event_size)) as [l| |]; [|apply outcome_fits_stop; lia..].
  destruct (_ <? event_size); [apply outcome_fits_stop; lia|].
  destruct (_ =? EV_KEY); [by apply IH|]. destruct (_ =? EV_SYN).
  - destruct (_ =? SYN_REPORT); [|by apply IH]. rewrite get_run, lift_run.
    match goal with |- context [wr samp total ?s] =>
      destruct (wr_fits samp nr total s) as (samp1 & -> & Hl & Hd); [lia|lia|] end.
    eapply outcome_fits_step; [exact Hl|exact Hd|]. apply IH; lia.
  - destruct (_ =? EV_ABS); [|by apply IH]. rewrite modify_run. by apply IH.
Qed.

Lemma event_loop_fits fuel ev p len samp nr total w :
  0 <= p → 0 <= len → p + len = event_size → Z.of_nat (length ev) = event_size →
  0 <= total <= nr → nr <= Z.of_nat (length samp) →
  outcome_fits samp nr (event_loop fuel ev p len samp nr total w).
Proof.
  revert ev p len samp total w. unfold event_size.
  induction fuel as [|fuel IH]; intros ev p len samp total w Hp Hlen Hpl Hev Ht Hn; cbn [event_loop];
    (destruct (total <? nr) eqn:E; zcmp; [|apply outcome_fits_stop; lia]); [done|].
  rewrite request_run. destruct (answer w (IRead len)) as [l| |] eqn:El; [|by apply IH|apply outcome_fits_stop; lia].
  apply reads_at_most in El; [|done]. rewrite lift_run. destruct (blit_Ok ev p l) as (ev1 & -> & Hev1); [lia|lia|].
  destruct (_ <? event_size) eqn:Es; zcmp; unfold event_size in Es; [apply IH; lia|].
  assert (p = 0 ∧ len = 16) as [-> ->] by lia.
  destruct (_ =? EV_ABS).
  - rewrite get_run, lift_run. destruct (rd_is_ok samp total) as [old ->]; [lia|].
    destruct (abs_sample _ _ old) as [[i s]|]; [|apply IH; lia]. rewrite modify_run, lift_run.
    destruct (wr_fits samp nr total s) as (samp1 & -> & Hl & Hd); [lia|lia|].
    eapply outcome_fits_step; [exact Hl|exact Hd|]. apply IH; lia.
  - destruct (_ && _ && _); [|apply IH; lia]. rewrite lift_run.
    match goal with |- context [wr samp total ?s] =>
      destruct (wr_fits samp nr total s) as (samp1 & -> & Hl & Hd); [lia|lia|] end.
    eapply outcome_fits_step; [exact Hl|exact Hd|]. apply IH; lia.
Qed.

(** The test of the device returns. *)
Lemma check_fd_total V w : ∃ r w', check_fd V w = Ok (r, w').
Proof.
  unfold check_fd. rewrite request_run. destruct (_ <? 0); [by eexists _, _|]. destruct (_ <? V); [by eexists _, _|].
  rewrite request_run. destruct (_ || _ || _); [by eexists _, _|]. rewrite request_run.
  destruct (_ || _ || _); [by eexists _, _|]. rewrite bind_run.
  match goal with |- context [match ?m ?w1 with _ => _ end] => assert (∃ b w2, m w1 = Ok (b, w2)) as (b & w2 & ->) end.
  { destruct (negb _); [rewrite modify_run, request_run|]; by eexists _, _. }
  destruct (negb b); [by eexists _, _|]. rewrite modify_run, get_run. destruct (_ =? GRAB_EVENTS_WANTED); [|by eexists _, _].
  rewrite request_run. destruct (negb _); by eexists _, _.
Qed.

Lemma ts_input_read_outcome V fuel ev0 samp nr w : Z.of_nat (length ev0) = event_size →
  0 <= nr <= Z.of_nat (length samp) → outcome_fits samp nr (ts_input_read V fuel ev0 samp nr w).
Proof.
  intros Hev Hn. unfold ts_input_read. rewrite get_run, bind_run.
  match goal with |- context [match ?m ?w1 with _ => _ end] => assert (∃ w2, m w1 = Ok (tt, w2)) as (w2 & ->) end.
  { destruct (sane_fd _ =? 0); [|by eexists]. rewrite bind_run.
    destruct (check_fd_total V w) as (r & w1 & ->). by eexists. }
  rewrite get_run. destruct (_ =? -1); [apply outcome_fits_stop; lia|].
  destruct (negb _); [apply syn_loop_fits; lia|].
  apply event_loop_fits; unfold event_size in *; first [done|lia].
Qed.
End fits.

(** The module as a source of samples for the filters above it. *)
Record input_module (D : Type) := InputModule {
  in_world : world tslib_input ireq D; in_version : Z; in_fuel : nat; in_garbage : vec Z 16
}.
Arguments InputModule {D}.
Arguments in_world {D}.
Arguments in_version {D}.
Arguments in_fuel {D}.
Arguments in_garbage {D}.

#[export] Instance input_read {D} `{Driver ireq ireply D} : TsRead (input_module D) := λ m samp nr,
  match ts_input_read (in_version m) (in_fuel m) (in_garbage m) samp nr (in_world m) with
  | Ok (samp', ret, w) => Ok (InputModule w (in_version m) (in_fuel m) (in_garbage m), samp', ret)
  | Crash c => Crash c
  end.

#[export] Instance input_read_ok {D} `{ReadsAtMost D} : TsReadOk (input_module D).
Proof.
  intros m buf nr m' buf' ret Hn. unfold ts_module_read, input_read.
  pose proof (ts_input_read_outcome (in_version m) (in_fuel m) (in_garbage m) buf nr (in_world m)) as Hfit.
  rewrite length_vec_to_list in Hfit. specialize (Hfit eq_refl Hn).
  destruct (ts_input_read _ _ _ _ _ _) as [[[s r] w]|]; [|done]. intros [= _ <- <-]. apply Hfit.
Qed.

(** ** Reports *)

(** An event that ends a report, and one that lifts the pen. *)
Definition is_report (ev : input_event) : bool := (ev_type ev =? EV_SYN) && (ev_code ev =? SYN_REPORT).
Definition lifts_pen (ev : input_event) : bool :=
  (ev_type ev =? EV_KEY) && is_touch (ev_code ev) && (ev_value ev =? 0).

(** The current position and pressure after an event. *)
Definition track (i : tslib_input) (ev : input_event) : tslib_input :=
  if ev_type ev =? EV_ABS then set_abs (ev_code ev) (ev_value ev) i else i.

(** A report: the events before the one that ends it, and that one. *)
Definition report : Type := list input_event * input_event.

(** The sample of a report: the position and pressure that were last seen, the
    pressure as an unsigned number, or zeros when the pen was lifted. *)
Definition report_sample (i : tslib_input) (r : report) : ts_sample :=
  let i := foldl track i r.1 in
  if existsb lifts_pen r.1 then Sample 0 0 0 (ev_time r.2)
  else Sample (current_x i) (current_y i) (u32 (current_p i)) (ev_time r.2).

Fixpoint report_samples (i : tslib_input) (rs : list report) : list ts_sample :=
  match rs with
  | [] => []
  | r :: rs => report_sample i r :: report_samples (foldl track i r.1) rs
  end.

Lemma length_report_samples rs : ∀ i, length (report_samples i rs) = length rs.
Proof. induction rs as [|r rs IH]; intros i; cbn; [done|]. by rewrite IH. Qed.

Definition report_events (rs : list report) : list input_event := concat (map (λ r, r.1 ++ [r.2]) rs).

Definition report_wf (r : report) : Prop := Forall (λ e, is_report e = false) r.1 ∧ is_report r.2 = true.

(** A device with events waiting; it delivers them one by one. *)
Class EventQueue (D : Type) `{Driver ireq ireply D} := {
  waiting : D → list (list Z);
  waiting_read : ∀ (d : D) b q, waiting d = b :: q →
    (respond d (IRead event_size)).2 = RBytes b ∧ waiting (respond d (IRead event_size)).1 = q;
  waiting_other : ∀ (d : D) r, (∀ n, r ≠ IRead n) → waiting (respond d r).1 = waiting d;
}.

Section reports.
Context {D : Type} `{EventQueue D}.
Implicit Types w : world tslib_input ireq D.

(** The events [evs] wait, before [rest]. *)
Definition waits (w : world tslib_input ireq D) (evs : list input_event) (rest : list (list Z)) : Prop :=
  ∃ bs, waiting (driver w) = bs ++ rest ∧ map event_of bs = evs ∧ Forall (λ b, length b = 16%nat) bs.

Lemma waits_read w e evs rest : waits w (e :: evs) rest →
  ∃ b, answer w (IRead event_size) = RBytes b ∧ event_of b = e ∧ length b = 16%nat ∧
    waits (after w (IRead event_size)) evs rest.
Proof.
  intros (bs & Hw & Hm & Hb). destruct bs as [|b bs]; [done|]. injection Hm as He Hm.
  apply Forall_cons in Hb as [Hb Hbs]. destruct (waiting_read (driver w) b (bs ++ rest) Hw) as [E1 E2].
  exists b. split_and!; [done..|]. by exists bs.
Qed.

(** One event of the loop. *)
Lemma syn_loop_event fuel samp nr total pen w e evs rest :
  total < nr → waits w (e :: evs) rest → is_report e = false →
  ∃ w', waits w' evs rest ∧ vars w' = track (vars w) e ∧
    syn_loop (S fuel) samp nr total pen w = syn_loop fuel samp nr total (pen || lifts_pen e) w'.
Proof.
  intros Ht Hw He. destruct (waits_read _ _ _ _ Hw) as (b & E & Eb & Hl & Hw1).
  cbn [syn_loop]. rewrite (proj2 (Z.ltb_lt _ _)) by done. rewrite request_run, E, Hl, Eb.
  unfold is_report, lifts_pen, track in *. cbn [Z.of_nat Z.ltb].
  change (Z.of_nat 16 <? event_size) with false. cbv iota.
  destruct (Z.eqb_spec (ev_type e) EV_KEY) as [Hk|Hk].
  { rewrite Hk in *. exists (after w (IRead event_size)). split_and!; [done..|]. f_equal.
    cbn [andb Z.eqb EV_KEY]. change (EV_KEY =? EV_KEY) with true. destruct (is_touch _ && _), pen; done. }
  rewrite orb_false_r. destruct (ev_type e =? EV_SYN) eqn:Es.
  { zcmp. rewrite Es in *. cbn [andb] in He. rewrite He. by exists (after w (IRead event_size)). }
  destruct (ev_type e =? EV_ABS); [|by exists (after w (IRead event_size))].
  rewrite modify_run. eexists. split; [|split; [|reflexivity]]; [exact Hw1|done].
Qed.

Lemma syn_loop_events fuel samp nr total pen w evs1 evs rest :
  total < nr → waits w (evs1 ++ evs) rest → Forall (λ e, is_report e = false) evs1 →
  ∃ w', waits w' evs rest ∧ vars w' = foldl track (vars w) evs1 ∧
    syn_loop (length evs1 + fuel) samp nr total pen w =
      syn_loop fuel samp nr total (pen || existsb lifts_pen evs1) w'.
Proof.
  intros Ht. revert pen w. induction evs1 as [|e evs1 IH]; intros pen w Hw Hall.
  { exists w. cbn. by rewrite orb_false_r. }
  apply Forall_cons in Hall as [He Hall]. cbn [app length Nat.add] in *.
  destruct (syn_loop_event (length evs1 + fuel) samp nr total pen w e (evs1 ++ evs) rest Ht Hw He)
    as (w1 & Hw1 & V1 & ->).
  destruct (IH (pen || lifts_pen e) w1 Hw1 Hall) as (w2 & Hw2 & V2 & ->).
  exists w2. split; [done|]. split; [by rewrite V2, V1|]. cbn [existsb]. by rewrite orb_assoc.
Qed.

Lemma syn_loop_report fuel samp nr total w r evs rest :
  0 <= total < nr → nr <= Z.of_nat (length samp) → waits w (r.1 ++ r.2 :: evs) rest → report_wf r →
  ∃ w', waits w' evs rest ∧ vars w' = foldl track (vars w) r.1 ∧
    syn_loop (length r.1 + S fuel) samp nr total false w =
      syn_loop fuel (<[Z.to_nat total := report_sample (vars w) r]> samp) nr (total + 1) false w'.
Proof.
  intros Ht Hn Hw [Hall Hr]. destruct (syn_loop_events (S fuel) samp nr total false w r.1 (r.2 :: evs) rest)
    as (w1 & Hw1 & V1 & ->); [lia|done|done|].
  destruct (waits_read _ _ _ _ Hw1) as (b & E & Eb & Hl & Hw2). exists (after w1 (IRead event_size)).
  split; [done|]. split; [done|]. cbn [syn_loop]. rewrite (proj2 (Z.ltb_lt _ _)) by lia.
  rewrite request_run, E, Hl, Eb. change (Z.of_nat 16 <? event_size) with false. cbv iota.
  unfold is_report in Hr. apply andb_true_iff in Hr as [Hr1 Hr2]. rewrite Hr1, Hr2.
  zcmp. rewrite Hr1. change (EV_SYN =? EV_KEY) with false. cbv iota.
  rewrite get_run, lift_run, wr_Ok by lia. unfold report_sample. rewrite vars_after, V1. done.
Qed.

Lemma syn_loop_reports rs : ∀ fuel samp nr total w rest,
  0 <= total → nr = total + Z.of_nat (length rs) → nr <= Z.of_nat (length samp) →
  waits w (report_events rs) rest → Forall report_wf rs → (length (report_events rs) <= fuel)%nat →
  ∃ w', syn_loop fuel samp nr total false w =
      Ok ((take (Z.to_nat total) samp ++ report_samples (vars w) rs ++ drop (Z.to_nat nr) samp, nr), w') ∧
    waits w' [] rest ∧ vars w' = foldl track (vars w) (concat (map fst rs)).
Proof.
  induction rs as [|r rs IH]; intros fuel samp nr total w rest Ht Hnr Hn Hw Hwf Hfuel.
  { cbn [length] in Hnr. assert (nr = total) as -> by lia. exists w. cbn [report_samples app].
    rewrite take_drop. split; [|done]. destruct fuel; cbn [syn_loop]; by rewrite Z.ltb_irrefl. }
  apply Forall_cons in Hwf as [Hr Hwf]. unfold report_events in Hw, Hfuel. cbn [map concat] in Hw, Hfuel.
  rewrite <- app_assoc in Hw. rewrite !length_app in Hfuel. cbn [length app] in *.
  replace fuel with (length r.1 + S (fuel - length r.1 - 1))%nat by lia.
  destruct (syn_loop_report (fuel - length r.1 - 1) samp nr total w r (report_events rs) rest)
    as (w1 & Hw1 & V1 & ->); [lia|lia|done|done|].
  destruct (IH (fuel - length r.1 - 1)%nat (<[Z.to_nat total := report_sample (vars w) r]> samp) nr (total + 1)
    w1 rest) as (w2 & -> & Hw2 & V2); [lia|lia|by rewrite length_insert|done|done|unfold report_events; lia|].
  exists w2. split; [|split; [done|by rewrite V2, V1, <- foldl_app]]. rewrite V1. do 3 f_equal.
  replace (Z.to_nat (total + 1)) with (S (Z.to_nat total)) by lia.
  rewrite take_insert_snoc by lia. rewrite <- app_assoc. cbn [report_samples app]. do 3 f_equal.
  apply insert_drop_lt. lia.
Qed.
End reports.

(** ** Claims *)

Lemma ts_input_read_reports {D : Type} `{EventQueue D} V fuel ev0 samp w w1 rs rest :
  sane_fd (vars w) = 0 → check_fd V w = Ok (0, w1) → sane_fd (vars w1) = 0 → using_syn (vars w1) ≠ 0 →
  waits w1 (report_events rs) rest → Forall report_wf rs →
  (length rs <= length samp)%nat → (length (report_events rs) <= fuel)%nat →
  ∃ w', ts_input_read (D:=D) V fuel ev0 samp (Z.of_nat (length rs)) w =
      Ok ((report_samples (vars w1) rs ++ drop (length rs) samp, Z.of_nat (length rs)), w') ∧
    waits w' [] rest ∧ sane_fd (vars w') = 0.
Proof.
  intros Hs Ec Hs1 Hu Hw Hwf Hn Hf. unfold ts_input_read. rewrite get_run, bind_run, Hs.
  change (0 =? 0) with true. cbv iota. rewrite bind_run, Ec. cbn [modify]. rewrite get_run.
  cbn [vars with_vars set_sane sane_fd using_syn]. rewrite (proj2 (Z.eqb_neq _ _) Hu).
  change (0 =? -1) with false. cbv iota. cbn [negb].
  assert (with_vars w1 (set_sane (vars w1) 0) = w1) as E1.
  { unfold with_vars, set_sane. rewrite <- Hs1. destruct w1 as [[] ? ?]. done. }
  rewrite E1. destruct (syn_loop_reports rs fuel samp (Z.of_nat (length rs)) 0 w1 rest)
    as (w' & -> & Hw' & V'); [lia|lia|lia|done|done|done|].
  exists w'. split; [by rewrite Nat2Z.id|]. split; [done|]. rewrite V'.
  clear -Hs1. revert Hs1. generalize (vars w1). induction (concat (map fst rs)) as [|e l IH]; [done|].
  intros i Hi. cbn [foldl]. apply IH. unfold track, set_abs. by repeat case_match.
Qed.

(** The raw module keeps the promise the filters rely on: for every device
    whose read() delivers no more than it was asked for, whatever the answers
    and the events are, a read of [nr] samples commits no memory fault, reports
    at most [nr] samples and leaves the array behind the first [nr] entries and
    its length as they were. *)
Theorem ts_input_read_fits {D : Type} `{ReadsAtMost D} V fuel ev0 samp nr w :
  Z.of_nat (length ev0) = event_size → 0 <= nr <= Z.of_nat (length samp) →
  match ts_input_read (D:=D) V fuel ev0 samp nr w with
  | Ok (samp', ret, _) => read_fits samp samp' nr ret ∧ -1 <= ret
  | Crash c => c = OutOfFuel
  end.
Proof. apply ts_input_read_outcome. Qed.

(** C20: With synchronisation events, a read turns reports into samples: when the
    device passes the test and [rs] reports wait, a read of that many samples
    stores for each report, in order, the position and pressure that were
    set last in it or before (the pressure, an int, converted to unsigned), or
    zeros when the pen was lifted in it, with the
    time of the report's end; it returns their number and leaves the later
    events waiting and the rest of the array alone.  The result of a
    successful test is 0, the value that asks for the test, so the next read
    tests the device again. *)
Theorem reports_become_samples {D : Type} `{EventQueue D} V fuel ev0 samp w w1 rs rest :
  sane_fd (vars w) = 0 → check_fd V w = Ok (0, w1) → sane_fd (vars w1) = 0 → using_syn (vars w1) ≠ 0 →
  waits w1 (report_events rs) rest → Forall report_wf rs →
  (length rs <= length samp)%nat → (length (report_events rs) <= fuel)%nat →
  ∃ w', ts_input_read (D:=D) V fuel ev0 samp (Z.of_nat (length rs)) w =
      Ok ((report_samples (vars w1) rs ++ drop (length rs) samp, Z.of_nat (length rs)), w') ∧
    waits w' [] rest ∧ sane_fd (vars w') = 0.
Proof.
  apply ts_input_read_reports.
Qed.

(** Without synchronisation events, a short read that delivers something is
    never completed.  The length of the next read is reduced by what was read but is not set back,
    so from then on every read is short, in the end one of 0 bytes: with a
    device that delivers at most what is asked for and never fails, the loop
    does not end, whatever the events are. *)
Theorem short_read_never_ends {D : Type} `{ReadsAtMost D} samp nr (w : world tslib_input ireq D) ev0 l :
  (∀ (d : D) len, ∃ l, (respond d (IRead len)).2 = RBytes l) →
  Z.of_nat (length ev0) = event_size → 0 < nr → answer w (IRead event_size) = RBytes l →
  0 < Z.of_nat (length l) < event_size →
  ∀ fuel, event_loop fuel ev0 0 event_size samp nr 0 w = Crash OutOfFuel.
Proof.
  unfold event_size. intros Hok Hev Hnr Hl Hshort.
  assert (∀ fuel ev p len w, Z.of_nat (length ev) = 16 → 0 <= p → 0 <= len < 16 →
    p + len = 16 → event_loop fuel ev p len samp nr 0 w = Crash OutOfFuel) as Hloop.
  { clear w l Hl Hshort. induction fuel as [|fuel IH]; intros ev p len w Hev' Hp Hlen Hsum; cbn [event_loop];
      rewrite (proj2 (Z.ltb_lt _ _)) by done; [done|]. rewrite request_run.
    destruct (Hok (driver w) len) as [l El]. unfold answer. rewrite El.
    pose proof (reads_at_most _ _ _ (proj1 Hlen) El) as Hl. rewrite lift_run.
    destruct (blit_Ok ev p l) as (ev1 & -> & Hev1); [lia|lia|].
    rewrite (proj2 (Z.ltb_lt _ event_size)) by (unfold event_size; lia). apply IH; lia. }
  intros [|fuel]; cbn [event_loop]; rewrite (proj2 (Z.ltb_lt _ _)) by done; [done|].
  rewrite request_run, Hl, lift_run. destruct (blit_Ok ev0 0 l) as (ev1 & -> & Hev1); [lia|lia|].
  rewrite (proj2 (Z.ltb_lt _ event_size)) by apply Hshort. apply Hloop; lia.
Qed.

(** ** Witnesses *)

(** A touch screen with a queue of blocks; a read of less than a block delivers
    the front of it. *)
Definition touch_screen (syn : bool) : Driver ireq ireply (list (list Z)) := λ d r,
  match r return list (list Z) * ireply r with
  | IRead len =>
      match d with
      | b :: q => if len =? event_size then (q, RBytes (take 16 b)) else (q, RBytes (take (Z.to_nat len) b))
      | [] => (d, RBytes [])
      end
  | EVIOCGVERSION => (d, (0, 0x010000))
  | EVIOCGBIT ev => (d, (0, if ev =? 0 then [if syn then 0xb else 0xa] else replicate 24 0xffffffff))
  | EVIOCGRAB _ => (d, 0)
  | IFree => (d, tt)
  end.

Definition event_bytes (e : input_event) : list Z :=
  le_bytes 8 (ev_time e) ++ le_bytes 2 (ev_type e) ++ le_bytes 2 (ev_code e) ++ le_bytes 4 (ev_value e).

#[export] Instance touch_reads_at_most b : @ReadsAtMost _ (touch_screen b).
Proof.
  intros d len l Hlen. unfold respond, touch_screen. destruct d as [|e q]; [intros [= <-]; cbn; lia|].
  destruct (Z.eqb_spec len event_size) as [-> |]; intros [= <-]; rewrite length_take; unfold event_size; lia.
Qed.

#[export] Instance touch_queue b : @EventQueue _ (touch_screen b).
Proof.
  refine (Build_EventQueue _ _ (map (take 16)) _ _).
  - intros d e q Hd. destruct d as [|e' d]; [done|]. injection Hd as <- <-. done.
  - intros d [] Hr; try done. by destruct (Hr len).
Defined.

Definition fresh_input : tslib_input := TslibInput 0 0 0 0 0 0.
Definition no_samples (n : nat) : list ts_sample := replicate n (Sample 0 0 0 0).

(** A touch at (100, 200) that is lifted. *)
Definition touch_events : list input_event :=
  [Event 1 EV_ABS ABS_X 100; Event 1 EV_ABS ABS_Y 200; Event 1 EV_ABS ABS_PRESSURE 50; Event 1 EV_SYN 0 0;
   Event 2 EV_KEY BTN_TOUCH 0; Event 2 EV_SYN 0 0].

Definition touch_world : world tslib_input ireq (list (list Z)) :=
  World fresh_input (map event_bytes touch_events) [].

Lemma ts_input_read_fits_witness :
  ∃ samp' ret w', @ts_input_read _ (touch_screen true) 0x010000 9 (replicate 16 0) (no_samples 3) 2 touch_world =
      Ok (samp', ret, w') ∧ ret <= 2 ∧ drop 2 samp' = no_samples 1.
Proof.
  pose proof (@ts_input_read_fits _ (touch_screen true) _ 0x010000 9 (replicate 16 0) (no_samples 3) 2 touch_world
    eq_refl ltac:(cbn; lia)) as Hfit.
  assert (match @ts_input_read _ (touch_screen true) 0x010000 9 (replicate 16 0) (no_samples 3) 2 touch_world with
          | Ok _ => True | Crash _ => False end) as Hv by (vm_compute; exact I).
  destruct (@ts_input_read _ (touch_screen true) 0x010000 9 (replicate 16 0) (no_samples 3) 2 touch_world)
    as [[[samp' ret] w']|]; [|destruct Hv].
  destruct Hfit as [(_ & F2 & F3) _]. exists samp', ret, w'. split; [reflexivity|]. split; [exact F2|exact F3].
Defined.

Lemma reports_become_samples_witness :
  ∃ w', @ts_input_read _ (touch_screen true) 0x010000 9 (replicate 16 0) (no_samples 3) 2 touch_world =
    Ok ([Sample 100 200 50 1; Sample 0 0 0 2; Sample 0 0 0 0], 2, w') ∧ @waiting _ (touch_screen true) _ (driver w') = [].
Proof.
  destruct (@reports_become_samples _ (touch_screen true) _ 0x010000 9 (replicate 16 0) (no_samples 3) touch_world
    (World (set_syn fresh_input 1) (map event_bytes touch_events) [EVIOCGVERSION; EVIOCGBIT 0; EVIOCGBIT 3])
    [(take 3 touch_events, Event 1 EV_SYN 0 0); ([Event 2 EV_KEY BTN_TOUCH 0], Event 2 EV_SYN 0 0)] [])
    as (w' & E & (bs & Hw & Hm & _) & _).
  - reflexivity.
  - vm_compute. reflexivity.
  - reflexivity.
  - discriminate.
  - exists (map event_bytes touch_events). split_and!; [reflexivity|vm_compute; reflexivity|repeat constructor].
  - repeat constructor.
  - cbn. lia.
  - vm_compute. lia.
  - exists w'. split; [exact E|]. rewrite Hw. destruct bs; [reflexivity|discriminate Hm].
Defined.

Lemma short_read_never_ends_witness :
  @event_loop _ (touch_screen false) 100000 (replicate 16 0) 0 event_size (no_samples 1) 1 0
    (World fresh_input [[1; 2; 3]; [4]] []) = Crash OutOfFuel.
Proof.
  apply (@short_read_never_ends _ (touch_screen false) _ (no_samples 1) 1
    (World fresh_input [[1; 2; 3]; [4]] []) (replicate 16 0) [1; 2; 3]).
  - intros [|b q] len; cbn; [by eexists|]. destruct (len =? event_size); by eexists.
  - reflexivity.
  - lia.
  - reflexivity.
  - cbn. unfold event_size. lia.
Defined.
