(* ===== verification/TsGalax.v ===== *)
(** * TsGalax: the raw module for eGalax touch screens

    Models src/tslib-1.1/plugins/galax-raw.c, a copy of input-raw.c for three
    models of one maker: the test of the device, the reading of events, the
    parameters.  The decoding of events is that of [TsInput]. *)
From S2P Require Import Prelude LibC Bytes Device Runs Tslib TsInput.
Local Open Scope cmodel_scope.
Local Open Scope Z_scope.

(** ** Data *)

Definition VERSION_0112 : Z := 1.
Definition VERSION_210 : Z := 2.
Definition VERSION_0100 : Z := 3.

(** struct input_id. *)
Record input_id := InputId { bustype : Z; vendor : Z; product : Z; version : Z }.

Inductive greq := GVersion | GId | GBit (ev : Z) | GGrab (grab : bool) | GRead | GFree.

(** A failed read() answers with -1 here, another one with the bytes. *)
Definition greply (r : greq) : Type :=
  match r with
  | GVersion => Z * Z
  | GId => option input_id
  | GBit _ => Z * list Z
  | GGrab _ => Z
  | GRead => option (list Z)
  | GFree => unit
  end.

Record tslib_galax := Galax { g_x : Z; g_y : Z; g_p : Z; model_version : Z; g_sane : Z; g_grab : Z }.
Definition set_model v g := Galax (g_x g) (g_y g) (g_p g) v (g_sane g) (g_grab g).
Definition set_pressure v g := Galax (g_x g) (g_y g) v (model_version g) (g_sane g) (g_grab g).
Definition set_gsane v g := Galax (g_x g) (g_y g) (g_p g) (model_version g) v (g_grab g).
Definition set_ggrab v g := Galax (g_x g) (g_y g) (g_p g) (model_version g) (g_sane g) v.

(** The three cases of EV_ABS: the oldest model reports on other axes, an
    unknown one not at all. *)
Definition galax_abs (code value : Z) (g : tslib_galax) : tslib_galax :=
  let at_axis x_code y_code :=
    if code =? x_code then Galax value (g_y g) (g_p g) (model_version g) (g_sane g) (g_grab g)
    else if code =? y_code then Galax (g_x g) value (g_p g) (model_version g) (g_sane g) (g_grab g)
    else if code =? ABS_PRESSURE then set_pressure value g
    else g in
  if model_version g =? VERSION_0112 then at_axis (ABS_X + 2) (ABS_Y + 2)
  else if model_version g =? VERSION_210 then at_axis ABS_X ABS_Y
  else if model_version g =? VERSION_0100 then at_axis ABS_X ABS_Y
  else g.

Definition galax_key (code value : Z) (g : tslib_galax) : tslib_galax :=
  if code =? BTN_TOUCH then
    if value =? 0 then Galax 0 0 0 (model_version g) (g_sane g) (g_grab g) else set_pressure 255 g
  else g.

Definition galax_event (ev : input_event) (g : tslib_galax) : tslib_galax :=
  if ev_type ev =? EV_KEY then galax_key (ev_code ev) (ev_value ev) g
  else if ev_type ev =? EV_ABS then galax_abs (ev_code ev) (ev_value ev) g
  else g.

Definition galax_sample (ev : input_event) (g : tslib_galax) : ts_sample := Sample (g_x g) (g_y g) (u32 (g_p g)) (ev_time ev).

(** ** Operations *)

Section operations.
Context {D : Type} `{Driver greq greply D}.
Notation P := (prog tslib_galax greq D).

(** The model, and whether it is supported. *)
Definition model_of (infos : input_id) : option Z :=
  if version infos =? 0x0112 then Some VERSION_0112
  else if version infos =? 0x210 then Some VERSION_210
  else if version infos =? 0x0100 then Some VERSION_0100
  else None.
Definition is_egalax (infos : input_id) : bool := (bustype infos =? 3) && (vendor infos =? 0x0EEF) && (product infos =? 1).

(** When the identifier cannot be read, only a warning is printed, and the
    version is taken from a structure that was never set. *)
Definition ts_galax_check_fd (EV_VERSION : Z) : P Z :=
  v ⇐ GVersion;
  if v.1 <? 0 then mret (-1) else
  if v.2 <? EV_VERSION then mret (-1) else
  infos ⇐ GId;
  match infos with
  | None => fault NoValue
  | Some infos =>
      if negb (is_egalax infos) then mret (-1) else
      match model_of infos with
      | None => mret (-1)
      | Some m =>
          _ ← modify (set_model m);
          evbit ⇐ GBit 0;
          if (evbit.1 <? 0) || negb (bit_set evbit.2 EV_ABS) || negb (bit_set evbit.2 EV_KEY) then mret (-1) else
          absbit ⇐ GBit EV_ABS;
          if (absbit.1 <? 0) || negb (bit_set absbit.2 ABS_X) || negb (bit_set absbit.2 ABS_Y) then mret (-1) else
          ok ← (if negb (bit_set absbit.2 ABS_PRESSURE) then
                  _ ← modify (set_pressure 255);
                  keybit ⇐ GBit EV_KEY;
                  mret (negb ((keybit.1 <? 0) || negb (bit_set keybit.2 BTN_TOUCH || bit_set keybit.2 BTN_LEFT)))
                else mret true);
          if negb ok then mret (-1) else
          if negb (bit_set evbit.2 EV_SYN) then mret (-1) else
          g ← get;
          if g_grab g =? GRAB_EVENTS_WANTED then
            r ⇐ GGrab true;
            if negb ((r : Z) =? 0) then mret (-1) else
            _ ← modify (set_ggrab GRAB_EVENTS_ACTIVE);
            mret 0
          else mret 0
      end
  end.

(** The loop returns what read() returned when an event is cut short, and the
    number of samples otherwise. *)
Fixpoint galax_loop (fuel : nat) (samp : list ts_sample) (nr total ret : Z) : P (list ts_sample * Z) :=
  if total <? nr then
    match fuel with
    | O => fault OutOfFuel
    | S fuel =>
        l ⇐ GRead;
        match l with
        | None => mret (samp, -1)
        | Some l =>
            if Z.of_nat (length l) <? event_size then mret (samp, Z.of_nat (length l)) else
            let ev := event_of l in
            _ ← modify (galax_event ev);
            if ev_type ev =? EV_SYN then
              g ← get;
              samp ← lift (wr samp total (galax_sample ev g));
              galax_loop fuel samp nr (total + 1) (total + 1)
            else galax_loop fuel samp nr total total
        end
    end
  else mret (samp, ret).

(** [None] is exit(0). *)
Definition ts_galax_read (EV_VERSION : Z) (fuel : nat) (samp : list ts_sample) (nr : Z) : P (option (list ts_sample * Z)) :=
  g ← get;
  _ ← (if g_sane g =? 0 then r ← ts_galax_check_fd EV_VERSION; modify (set_gsane r) else mret tt);
  g ← get;
  if g_sane g =? -1 then mret None else
  r ← galax_loop fuel samp nr 0 nr;
  mret (Some r).

Definition ts_galax_fini : P Z :=
  g ← get;
  _ ← (if g_grab g =? GRAB_EVENTS_ACTIVE then _ ⇐ GGrab false; mret tt else mret tt);
  _ ⇐ GFree;
  mret 0.
End operations.

(** The parameter grab_events. *)
Definition galax_parse_raw_grab (stale : bool) (g : tslib_galax) (str : option (list Z)) : result (tslib_galax * Z) :=
  v ← strtoul_checked stale str;
  match v with
  | None => Ok (g, -1)
  | Some v => Ok (if negb (v =? 0) then set_ggrab GRAB_EVENTS_WANTED g else g, 0)
  end.

Definition galax_raw_vars (stale : bool) : list (tslib_var tslib_galax) := [(lit "grab_events", galax_parse_raw_grab stale)].

(** model_version is not set here; [junk] is what malloc left in it. *)
Definition galax_mod_init (malloc_ok stale : bool) (junk : Z) (params : option (list Z)) : result (option tslib_galax) :=
  if negb malloc_ok then Ok None else
  r ← tslib_parse_vars (Galax 0 0 0 junk 0 0) (galax_raw_vars stale) params;
  Ok (if negb (r.2 =? 0) then None else Some r.1).

(** ** Events become samples *)

Definition is_syn (ev : input_event) : bool := ev_type ev =? EV_SYN.

(** The samples of a list of events, one for each synchronisation. *)
Fixpoint galax_samples (g : tslib_galax) (evs : list input_event) : list ts_sample :=
  match evs with
  | [] => []
  | ev :: evs =>
      let g := galax_event ev g in
      if is_syn ev then galax_sample ev g :: galax_samples g evs else galax_samples g evs
  end.

(** Events with exactly [n] synchronisations, the last of which ends them. *)
Fixpoint frames (n : nat) (evs : list input_event) : Prop :=
  match n, evs with
  | O, [] => True
  | S n', ev :: evs => if is_syn ev then frames n' evs else frames n evs
  | _, _ => False
  end.

(** An eGalax screen with events waiting. *)
Class GalaxScreen (D : Type) `{Driver greq greply D} := {
  queue : D → list (list Z);
  screen_model : Z;
  queue_read (d : D) b q : queue d = b :: q → (respond d GRead).2 = Some b ∧ queue (respond d GRead).1 = q;
  queue_other (d : D) r : r ≠ GRead → queue (respond d r).1 = queue d;
  is_input_device (d : D) : 0 <= (respond d GVersion).2.1;
  kernel_version (d : D) : (respond d GVersion).2.2 = 0x010001;
  is_supported (d : D) : ∃ infos, (respond d GId).2 = Some infos ∧ is_egalax infos = true ∧ model_of infos = Some screen_model;
  has_events (d : D) ev : 0 <= (respond d (GBit ev)).2.1 ∧
    Forall (λ n, bit_set (respond d (GBit ev)).2.2 n = true) [EV_SYN; EV_KEY; EV_ABS; ABS_X; ABS_Y; ABS_PRESSURE];
  can_grab (d : D) : (respond d (GGrab true)).2 = 0
}.

Section reading.
Context {D : Type} `{Hscreen : GalaxScreen D}.
Implicit Types w : world tslib_galax greq D.

(** The events [evs] wait, each with its sixteen bytes. *)
Definition awaits w (evs : list input_event) (rest : list (list Z)) : Prop :=
  ∃ bs, queue (driver w) = bs ++ rest ∧ map event_of bs = evs ∧ Forall (λ b, length b = 16%nat) bs.

Lemma galax_loop_runs nr rest (Q : list ts_sample * Z → world tslib_galax greq D → Prop) : ∀ evs n fuel samp tail ret w,
  frames n evs → awaits w evs rest → (length evs <= fuel)%nat → nr = Z.of_nat (length samp + n) → (n <= length tail)%nat → (n = 0%nat → ret = nr) →
  (∀ w', vars w' = foldl (λ g ev, galax_event ev g) (vars w) evs → awaits w' [] rest →
    Q (samp ++ galax_samples (vars w) evs ++ drop n tail, nr) w') →
  runs (galax_loop fuel (samp ++ tail) nr (Z.of_nat (length samp)) ret) w Q.
Proof.
  induction evs as [|ev evs IH]; intros n fuel samp tail ret w Hfr Hw Hf Hnr Ht Hret HQ.
  { destruct n; [|done]. assert (galax_loop fuel (samp ++ tail) nr (Z.of_nat (length samp)) ret = mret (samp ++ tail, ret)) as ->.
    { destruct fuel; cbn [galax_loop]; rewrite (proj2 (Z.ltb_ge _ _)) by lia; done. }
    apply runs_ret. rewrite Hret by done. by apply HQ. }
  destruct n as [|n]; [done|]. destruct fuel as [|fuel]; [cbn in Hf; lia|]. cbn [length] in Hf. cbn [galax_loop]. rewrite (proj2 (Z.ltb_lt _ _)) by lia.
  destruct Hw as (bs & Hq & Hm & Hb). destruct bs as [|b bs]; [done|]. injection Hm as He Hm. apply Forall_cons in Hb as [Hb Hbs].
  destruct (queue_read (driver w) b (bs ++ rest) Hq) as [E1 E2]. apply runs_request. unfold answer. rewrite E1.
  rewrite (proj2 (Z.ltb_ge _ _)) by (unfold event_size; lia). rewrite He. set (w1 := after w GRead).
  apply runs_bind, runs_modify. set (w2 := with_vars w1 _). change (vars w1) with (vars w) in w2.
  assert (awaits w2 evs rest) as Hw2 by (exists bs; done). cbn [frames galax_samples foldl] in Hfr, HQ. unfold is_syn in Hfr, HQ.
  destruct (ev_type ev =? EV_SYN).
  - apply runs_get. change (vars w2) with (galax_event ev (vars w)). set (s := galax_sample ev _).
    apply runs_bind. destruct tail as [|t tail]; [cbn in Ht; lia|]. cbn [length] in Ht.
    eapply runs_lift; [apply wr_Ok; rewrite length_app; cbn; lia|]. rewrite Nat2Z.id, insert_app_r_alt, Nat.sub_diag by lia. cbn [insert list_insert].
    replace (Z.of_nat (length samp) + 1) with (Z.of_nat (length (samp ++ [s]))) by (rewrite length_app; cbn; lia).
    replace (samp ++ s :: tail) with ((samp ++ [s]) ++ tail) by (by rewrite <- app_assoc).
    apply (IH n); [done|done|lia|rewrite length_app; cbn; lia|lia|intros ->; rewrite length_app; cbn; lia|].
    intros w' V W. rewrite <- app_assoc. cbn [app]. by apply HQ.
  - apply (IH (S n)); [done|done|lia|done|done|done|]. intros w' V W. by apply HQ.
Qed.

(** The module before it has tested the device, and after. *)
Definition tested (g g' : tslib_galax) : Prop :=
  model_version g' = screen_model ∧ g_sane g' = 0 ∧ g_x g' = g_x g ∧ g_y g' = g_y g ∧ g_p g' = g_p g.

Lemma check_fd_runs w evs rest (Q : Z → world tslib_galax greq D → Prop) : awaits w evs rest → g_sane (vars w) = 0 →
  (∀ w', tested (vars w) (vars w') → awaits w' evs rest → Q 0 w') → runs (ts_galax_check_fd 0x010001) w Q.
Proof.
  intros (bs & Hq & Hm & Hb) Hs HQ. assert (∀ r, r ≠ GRead → ∀ w0, queue (driver w0) = bs ++ rest → queue (driver (after w0 r)) = bs ++ rest) as Hkeep
    by (intros r Hr w0 E; cbn [after driver]; by rewrite queue_other).
  unfold ts_galax_check_fd. apply runs_request. unfold answer. rewrite (proj2 (Z.ltb_ge _ _)) by apply is_input_device. rewrite kernel_version. cbn [Z.ltb Z.compare Pos.compare Pos.compare_cont].
  set (w1 := after w GVersion). apply runs_request. unfold answer. destruct (is_supported (driver w1)) as (infos & -> & E1 & E2). rewrite E1, E2. cbn [negb].
  apply runs_bind, runs_modify. set (w2 := with_vars _ _). apply runs_request. unfold answer. destruct (has_events (driver w2) 0) as [B1 B2].
  repeat apply Forall_cons in B2 as [? B2]. rewrite (proj2 (Z.ltb_ge _ _)) by exact B1. repeat match goal with E : bit_set _ _ = true |- _ => rewrite ?E; clear E end.
  cbn [negb orb]. set (w3 := after w2 _). apply runs_request. unfold answer. destruct (has_events (driver w3) EV_ABS) as [C1 C2].
  repeat apply Forall_cons in C2 as [? C2]. rewrite (proj2 (Z.ltb_ge _ _)) by exact C1. repeat match goal with E : bit_set _ _ = true |- _ => rewrite ?E; clear E end.
  cbn [negb orb]. apply runs_bind, runs_ret. cbn [negb]. apply runs_get. set (w4 := after w3 _).
  assert (queue (driver w4) = bs ++ rest) as Hq4 by (do 2 (apply Hkeep; [done|]); apply (Hkeep GId); [done|]; by apply Hkeep).
  assert (tested (vars w) (vars w4)) as Ht by done. destruct (g_grab (vars w4) =? GRAB_EVENTS_WANTED).
  - apply runs_request. unfold answer. rewrite can_grab. cbn [negb Z.eqb]. apply runs_bind, runs_modify, runs_ret, HQ; [done|].
    exists bs. split; [|done]. exact (Hkeep (GGrab true) ltac:(done) w4 Hq4).
  - apply runs_ret, HQ; [done|]. by exists bs.
Qed.

(** The module as a whole. *)
Lemma ts_galax_read_runs fuel samp n w evs rest : g_sane (vars w) = 0 → awaits w evs rest → frames n evs → (length evs <= fuel)%nat → (n <= length samp)%nat →
  ∃ g, tested (vars w) g ∧ runs (ts_galax_read 0x010001 fuel samp (Z.of_nat n)) w (λ r w',
    r = Some (galax_samples g evs ++ drop n samp, Z.of_nat n) ∧ awaits w' [] rest ∧ vars w' = foldl (λ g ev, galax_event ev g) g evs).
Proof.
  intros Hs Hw Hfr Hf Hn.
  assert (runs (ts_galax_check_fd 0x010001) w (λ r w', r = 0 ∧ tested (vars w) (vars w') ∧ awaits w' evs rest)) as (r & w1 & E & -> & Ht & Hw1)
    by (by apply (check_fd_runs w evs rest)).
  exists (set_gsane 0 (vars w1)). split; [destruct Ht as (T1 & T2 & T3 & T4 & T5); by repeat split|]. unfold ts_galax_read. apply runs_get, runs_bind. rewrite Hs. cbn [Z.eqb].
  apply runs_bind. exists 0, w1. split; [exact E|]. apply runs_modify, runs_get. rewrite vars_with. cbn [g_sane set_gsane Z.eqb].
  apply runs_bind. refine (galax_loop_runs (Z.of_nat n) rest _ evs n fuel [] samp (Z.of_nat n) _ Hfr _ Hf _ Hn _ _); [done|done|done|].
  intros w2 V W. apply runs_ret. done.
Qed.
End reading.

(** The events of a screen become samples: for a supported model, a read of
    [n] samples takes the events up to the n-th synchronisation, however many
    there are in between, and stores for each synchronisation the position and
    the pressure that the events before it left, with its time. *)
Theorem galax_frames_become_samples {D} `{GalaxScreen D} fuel samp n (w : world tslib_galax greq D) evs rest :
  g_sane (vars w) = 0 → awaits w evs rest → frames n evs → (length evs <= fuel)%nat → (n <= length samp)%nat →
  ∃ g, tested (vars w) g ∧ runs (ts_galax_read 0x010001 fuel samp (Z.of_nat n)) w (λ r w',
    r = Some (galax_samples g evs ++ drop n samp, Z.of_nat n) ∧ awaits w' [] rest ∧ vars w' = foldl (λ g ev, galax_event ev g) g evs).
Proof. apply ts_galax_read_runs. Qed.

(** ** Limits *)

(** An event that is cut short is reported as so many samples as bytes were
    read: more than there are in the array. *)
Lemma short_event_overcounts {D} `{Driver greq greply D} fuel t (w : world tslib_galax greq D) l :
  answer w GRead = Some l → (1 < length l < 16)%nat →
  ∃ ret, galax_loop (S fuel) [t] 1 0 1 w = Ok ([t], ret, after w GRead) ∧ 1 < ret.
Proof.
  intros E Hl. exists (Z.of_nat (length l)). split; [|lia]. cbn [galax_loop Z.ltb Z.compare]. rewrite request_run, E.
  rewrite (proj2 (Z.ltb_lt _ _)) by (unfold event_size; lia). done.
Qed.

(** A screen whose model is not set, because the test has not been made or has
    failed before, reports no axis. *)
Lemma unknown_model_has_no_axes code value g : model_version g = 0 → galax_abs code value g = g.
Proof. intros E. unfold galax_abs. rewrite E. done. Qed.

(** When the identifier cannot be read, the model is whatever is on the stack. *)
Lemma unreadable_identifier {D} `{Driver greq greply D} (w : world tslib_galax greq D) V :
  0 <= (answer w GVersion).1 → V <= (answer w GVersion).2 → answer (after w GVersion) GId = None → ts_galax_check_fd V w = Crash NoValue.
Proof.
  intros H1 H2 E. unfold ts_galax_check_fd. rewrite request_run. rewrite !(proj2 (Z.ltb_ge _ _)) by done. rewrite request_run, E. done.
Qed.

(** ** Witnesses *)

Definition demo_screen (d : list (list Z)) (r : greq) : list (list Z) * greply r :=
  (match r with GRead => tail d | _ => d end,
   match r return greply r with
   | GVersion => (0, 0x010001)
   | GId => Some (InputId 3 0x0EEF 1 0x0112)
   | GBit _ => (0, [4294967295])
   | GGrab _ => 0
   | GRead => head d
   | GFree => tt
   end).

#[export] Instance demo_galax_driver : Driver greq greply (list (list Z)) := demo_screen.

#[export] Instance demo_galax : GalaxScreen (list (list Z)).
Proof.
  refine {| queue := id; screen_model := VERSION_0112 |}; try done.
  - by intros d b q [= ->].
  - intros d []; done.
  - intros d. by eexists.
  - intros d ev. split; [done|]. repeat (apply Forall_cons; split; [by vm_compute|]). by constructor.
Defined.

(** Pen down at (300, 200), then lifted. *)
Definition galax_events : list input_event :=
  [Event 1 EV_KEY BTN_TOUCH 1; Event 1 EV_ABS 2 300; Event 1 EV_ABS 3 200; Event 1 EV_SYN 0 0; Event 2 EV_KEY BTN_TOUCH 0; Event 2 EV_SYN 0 0].

Lemma galax_frames_become_samples_witness : ∃ r w',
  ts_galax_read 0x010001 6 [Sample 9 9 9 9; Sample 9 9 9 9; Sample 9 9 9 9] 2 (World (Galax 0 0 0 0 0 0) (map event_bytes galax_events) []) = Ok (Some (r, 2), w') ∧
  r = [Sample 300 200 255 1; Sample 0 0 0 2; Sample 9 9 9 9].
Proof.
  destruct (galax_frames_become_samples 6 [Sample 9 9 9 9; Sample 9 9 9 9; Sample 9 9 9 9] 2 (World (Galax 0 0 0 0 0 0) (map event_bytes galax_events) [])
    galax_events []) as (g & (Em & Es & Ex & Ey & Ep) & r & w' & E & -> & _).
  - done.
  - exists (map event_bytes galax_events). split; [by rewrite app_nil_r|]. split; [by vm_compute|]. repeat (apply Forall_cons; split; [done|]). by constructor.
  - done.
  - cbn. lia.
  - cbn. lia.
  - eexists _, w'. split; [exact E|]. destruct g. cbn in Em, Es, Ex, Ey, Ep. subst. reflexivity.
Defined.
