(* ===== verification/TsPalm.v ===== *)
(** * TsPalm: the raw module for the Palm Pre

    Models src/tslib-1.1/plugins/cy8mrln-palmpre.c: frames of a 7 x 11 matrix of
    sensors become samples by comparison with reference values, a search for the
    strongest field and interpolation with its neighbours; invalid frames put
    the controller to sleep.  The controller is a [Driver]; the floating-point
    numbers are those of the Standard Library's specification of IEEE 754. *)
From Stdlib Require Import SpecFloat.
From S2P Require Import Prelude LibC Bytes Floats Device Runs Tslib.
Local Open Scope cmodel_scope.
Local Open Scope Z_scope.

Definition SCREEN_WIDTH : Z := 319.
Definition SCREEN_HEIGHT : Z := 527.
Definition H_FIELDS : Z := 7.
Definition V_FIELDS : Z := 11.
Definition DEFAULT_SCANRATE : Z := 60.
Definition DEFAULT_VERBOSE : Z := 0.
Definition DEFAULT_WOT_THRESHOLD : Z := 22.
Definition DEFAULT_TIMESTAMP_MODE : Z := 1.
Definition DEFAULT_GESTURE_HEIGHT : Z := 1.
Definition DEFAULT_NOISE : Z := 25.
Definition DEFAULT_PRESSURE : Z := 60.
Definition DEFAULT_SENSOR_DELTA_X : Z := SCREEN_WIDTH / H_FIELDS.
Definition DEFAULT_SENSOR_DELTA_Y : Z := SCREEN_HEIGHT / (V_FIELDS - DEFAULT_GESTURE_HEIGHT).
Definition DEFAULT_SENSOR_OFFSET_X : Z := DEFAULT_SENSOR_DELTA_X / 2.
Definition DEFAULT_SENSOR_OFFSET_Y : Z := DEFAULT_SENSOR_DELTA_Y / 2.
Definition MIN_VALUE : Z := 700.
Definition MAX_VALUE : Z := 1500.
Definition ASLEEP_SCANRATE : Z := 5.
Definition DISCARD_FRAMES : Z := 5.

Definition field_nr (x y : Z) : Z := y * H_FIELDS + (H_FIELDS - x) - 1.

(** ** Data *)

Inductive setting := Scanrate | Verbose | Sleepmode | WotScanrate | WotThreshold | TimestampMode.
Inductive preq := PIoctl (s : setting) (v : Z) | PRead | PAlloc | PRelease | PClock.
Definition preply (r : preq) : Type :=
  match r with
  | PIoctl _ _ | PClock => Z
  | PRead => option (list Z)
  | PAlloc => bool
  | PRelease => unit
  end.

(** The settings of the module; [last_valid_samples] is the block with its
    contents, [None] for NULL. *)
Record settings := Settings {
  s_verbose : Z; s_wot_threshold : Z; s_sleepmode : Z; s_wot_scanrate : Z; s_timestamp_mode : Z;
  gesture_height : Z; noise : Z; s_pressure : Z; sensor_offset_x : Z; sensor_offset_y : Z; sensor_delta_x : Z; sensor_delta_y : Z }.
Record palm := Palm {
  references : list Z; scanrate : Z; conf : settings; last_n_valid_samples : Z; last_valid_samples : option (list ts_sample);
  discard_frames : Z; old_scanrate : Z }.

Definition set_references r p := Palm r (scanrate p) (conf p) (last_n_valid_samples p) (last_valid_samples p) (discard_frames p) (old_scanrate p).
Definition set_rate v p := Palm (references p) v (conf p) (last_n_valid_samples p) (last_valid_samples p) (discard_frames p) (old_scanrate p).
Definition set_conf c p := Palm (references p) (scanrate p) c (last_n_valid_samples p) (last_valid_samples p) (discard_frames p) (old_scanrate p).
Definition set_last n l p := Palm (references p) (scanrate p) (conf p) n l (discard_frames p) (old_scanrate p).
Definition set_discard n p := Palm (references p) (scanrate p) (conf p) (last_n_valid_samples p) (last_valid_samples p) n (old_scanrate p).
Definition set_old v p := Palm (references p) (scanrate p) (conf p) (last_n_valid_samples p) (last_valid_samples p) (discard_frames p) v.

Definition set_setting (s : setting) (v : Z) (p : palm) : palm :=
  let c := conf p in
  match s with
  | Scanrate => set_rate v p
  | Verbose => set_conf (Settings v (s_wot_threshold c) (s_sleepmode c) (s_wot_scanrate c) (s_timestamp_mode c) (gesture_height c) (noise c) (s_pressure c) (sensor_offset_x c) (sensor_offset_y c) (sensor_delta_x c) (sensor_delta_y c)) p
  | WotThreshold => set_conf (Settings (s_verbose c) v (s_sleepmode c) (s_wot_scanrate c) (s_timestamp_mode c) (gesture_height c) (noise c) (s_pressure c) (sensor_offset_x c) (sensor_offset_y c) (sensor_delta_x c) (sensor_delta_y c)) p
  | Sleepmode => set_conf (Settings (s_verbose c) (s_wot_threshold c) v (s_wot_scanrate c) (s_timestamp_mode c) (gesture_height c) (noise c) (s_pressure c) (sensor_offset_x c) (sensor_offset_y c) (sensor_delta_x c) (sensor_delta_y c)) p
  | WotScanrate => set_conf (Settings (s_verbose c) (s_wot_threshold c) (s_sleepmode c) v (s_timestamp_mode c) (gesture_height c) (noise c) (s_pressure c) (sensor_offset_x c) (sensor_offset_y c) (sensor_delta_x c) (sensor_delta_y c)) p
  | TimestampMode => set_conf (Settings (s_verbose c) (s_wot_threshold c) (s_sleepmode c) (s_wot_scanrate c) v (gesture_height c) (noise c) (s_pressure c) (sensor_offset_x c) (sensor_offset_y c) (sensor_delta_x c) (sensor_delta_y c)) p
  end.

(** The settings that only the module knows, in the order of their setters. *)
Inductive local_setting := GestureHeight | Noise | Pressure | OffsetX | OffsetY | DeltaX | DeltaY.
Definition set_local (s : local_setting) (v : Z) (p : palm) : palm :=
  let c := conf p in
  let with_ g n pr ox oy dx dy := set_conf (Settings (s_verbose c) (s_wot_threshold c) (s_sleepmode c) (s_wot_scanrate c) (s_timestamp_mode c) g n pr ox oy dx dy) p in
  let '(g, n, pr, ox, oy, dx, dy) := (gesture_height c, noise c, s_pressure c, sensor_offset_x c, sensor_offset_y c, sensor_delta_x c, sensor_delta_y c) in
  match s with
  | GestureHeight => with_ v n pr ox oy dx dy
  | Noise => with_ g v pr ox oy dx dy
  | Pressure => with_ g n v ox oy dx dy
  | OffsetX => with_ g n pr v oy dx dy
  | OffsetY => with_ g n pr ox v dx dy
  | DeltaX => with_ g n pr ox oy v dy
  | DeltaY => with_ g n pr ox oy dx v
  end.

(** ** Interpolation in single precision *)

(** [(float)d / ((float)xy * 1.5)], in double precision and stored in a float;
    then [pos + f * delta] in single precision. *)
Definition fraction (d xy : Z) : spec_float :=
  let one_and_a_half := binary_normalize 53 1024 3 (-1) false in
  to_f32 (SFdiv 53 1024 (to_f64 (f32_of_Z d)) (SFmul 53 1024 (to_f64 (f32_of_Z xy)) one_and_a_half)).
Definition displaced (pos : Z) (f : spec_float) (delta : Z) : result Z :=
  f32_to_int (SFadd 24 128 (f32_of_Z pos) (SFmul 24 128 f (f32_of_Z delta))).

(** ** Frames *)

(** The fields of struct cy8mrln_palmpre_input, 16 bits each behind the first
    two bytes; a read that is too short leaves some of them without a value. *)
Definition frame_fields (l : list Z) : result (list Z) :=
  if Z.of_nat (length l) <? 2 + 2 * (H_FIELDS * V_FIELDS) then Crash NoValue
  else Ok ((λ i, le_val (sub_bytes l (2 + 2 * Z.of_nat i) 2)) <$> seq 0 (Z.to_nat (H_FIELDS * V_FIELDS))).

Definition in_range (v : Z) : bool := negb ((v <? MIN_VALUE) || (MAX_VALUE <? v)).

(** The references and the fields after the call, and whether it returned 1;
    what comes before the first bad field has been changed by then. *)
Fixpoint update_references (refs field : list Z) : list Z * list Z * bool :=
  match refs, field with
  | r :: refs, f :: field =>
      if negb (in_range f) then (r :: refs, f :: field, true)
      else
        let '(refs, field, bad) := update_references refs field in
        if r <? f then (f :: refs, 0 :: field, bad) else (r :: refs, r - f :: field, bad)
  | _, _ => (refs, field, false)
  end.

(** The cells in the order of the search. *)
Definition cells : list (Z * Z) := y ← seqZ 0 V_FIELDS; x ← seqZ 0 H_FIELDS; [(x, y)].

(** The maximum so far: its value and its cell. *)
Definition search_step (field : list Z) (m : Z * (Z * Z)) (c : Z * Z) : Z * (Z * Z) :=
  let v := field !!! Z.to_nat (field_nr c.1 c.2) in if m.1 <? v then (v, c) else m.
Definition strongest (field : list Z) : Z * (Z * Z) := foldl (search_step field) (0, (0, 0)) cells.

Definition interpolate (c : settings) (field : list Z) (x y : Z) : result (Z * Z) :=
  let posx := s32 (s32 (sensor_delta_x c * x) + sensor_offset_x c) in
  let posy := s32 (s32 (sensor_delta_y c * y) + sensor_offset_y c) in
  tmpxy ← rd field (field_nr x y);
  tmpx3 ← (if x =? H_FIELDS - 1 then Ok (s_pressure c - tmpxy) else rd field (field_nr x y - 1));
  tmpx1 ← (if x =? 0 then Ok (s_pressure c - tmpxy) else rd field (field_nr x y + 1));
  tmpy3 ← (if y =? V_FIELDS - 1 then Ok (s_pressure c - tmpxy) else rd field (field_nr x y + H_FIELDS));
  tmpy1 ← (if y =? 0 then Ok (s_pressure c - tmpxy) else rd field (field_nr x y - H_FIELDS));
  px ← displaced posx (fraction (s32 (tmpx3 - tmpx1)) tmpxy) (sensor_delta_x c);
  py ← displaced posy (fraction (s32 (tmpy3 - tmpy1)) tmpxy) (sensor_delta_y c);
  Ok (px, py).

Section program.
Context {D : Type} `{Driver preq preply D}.
Notation P := (prog palm preq D).

(** Constants of the header of the kernel driver, which is not in the
    repository. *)
Context (CY8MRLN_ON_STATE WOT_SCANRATE_512HZ WOT_THRESHOLD_MIN WOT_THRESHOLD_MAX : Z).

(** ** Settings *)

Definition ioctl_setting (s : setting) (v : Z) : P Z :=
  r ⇐ PIoctl s v;
  if (r : Z) <? 0 then mret (-1) else
  _ ← modify (set_setting s v);
  mret 0.

Definition set_scanrate : Z → P Z := ioctl_setting Scanrate.
Definition set_verbose : Z → P Z := ioctl_setting Verbose.
Definition set_sleepmode : Z → P Z := ioctl_setting Sleepmode.
Definition set_wot_scanrate : Z → P Z := ioctl_setting WotScanrate.
Definition set_wot_threshold (v : Z) : P Z :=
  if (v <? WOT_THRESHOLD_MIN) || (WOT_THRESHOLD_MAX <? v) then mret (-1) else ioctl_setting WotThreshold v.
Definition set_timestamp_mode (v : Z) : P Z := ioctl_setting TimestampMode (if v =? 0 then 0 else 1).
Definition set_module (s : local_setting) (v : Z) : P Z := _ ← modify (set_local s v); mret 0.

(** The parameters: with and without the test for overflow. *)
Definition parse_checked (stale : bool) (set : Z → P Z) (str : option (list Z)) : P Z :=
  v ← lift (strtoul_checked stale str);
  match v with None => mret (-1) | Some v => set (s32 v) end.
Definition parse_unchecked (set : Z → P Z) (str : option (list Z)) : P Z :=
  match str with None => fault NullDeref | Some s => set (s32 (strtoul 0 s).1) end.

(** As an entry of the table of parameters, whose functions change the world. *)
Definition entry (name : string) (f : option (list Z) → P Z) : tslib_var (world palm preq D) :=
  (lit name, λ w str, match f str w with Ok (v, w') => Ok (w', v) | Crash c => Crash c end).

Definition palm_vars (stale : bool) : list (tslib_var (world palm preq D)) :=
  [entry "scanrate" (parse_checked stale set_scanrate);
   entry "verbose" (parse_checked stale set_verbose);
   entry "wot_scanrate" (parse_unchecked set_wot_scanrate);
   entry "wot_threshold" (parse_unchecked set_wot_threshold);
   entry "sleepmode" (parse_unchecked set_sleepmode);
   entry "timestamp_mode" (parse_checked stale set_sleepmode);
   entry "gesture_height" (parse_checked stale (set_module GestureHeight));
   entry "noise" (parse_checked stale (set_module Noise));
   entry "pressure" (parse_checked stale (set_module Pressure));
   entry "sensor_offset_x" (parse_checked stale (set_module OffsetX));
   entry "sensor_offset_y" (parse_checked stale (set_module OffsetY));
   entry "sensor_delta_x" (parse_checked stale (set_module DeltaX));
   entry "sensor_delta_y" (parse_checked stale (set_module DeltaY))].

Definition parse_params (stale : bool) (params : option (list Z)) : P Z := λ w,
  match tslib_parse_vars w (palm_vars stale) params with Ok (w', v) => Ok (v, w') | Crash c => Crash c end.

(** ** Reading *)

(** A sample for the strongest field. *)
Definition press (samp : list ts_sample) (field : list Z) (max_value max_x max_y : Z) : P (list ts_sample * Z) :=
  p ← get;
  pos ← lift (interpolate (conf p) field max_x max_y);
  t ⇐ PClock;
  samp ← lift (wr samp 0 (Sample pos.1 pos.2 max_value t));
  p ← get;
  ok ← (match last_valid_samples p with
        | None => a ⇐ PAlloc; mret (a : bool)
        | Some _ => if negb (last_n_valid_samples p =? 1) then a ⇐ PAlloc; mret (a : bool) else mret true
        end);
  if negb ok then fault NullDeref else
  _ ← modify (set_last 1 (Some (take 1 samp)));
  mret (samp, 1).

Definition lift_pen (s : ts_sample) : ts_sample := Sample (x s) (y s) 0 (tv s).

(** The last samples once more, without pressure. *)
Definition release (samp : list ts_sample) : P (list ts_sample * Z) :=
  p ← get;
  match last_valid_samples p with
  | None => mret (samp, 0)
  | Some last =>
      let n := Z.to_nat (last_n_valid_samples p) in
      if Nat.leb n (length samp) then
        _ ← modify (set_last 0 None);
        _ ⇐ PRelease;
        mret ((lift_pen <$> take n last) ++ drop n samp, last_n_valid_samples p)
      else fault OutOfBounds
  end.

(** A frame with a field out of range puts the controller to sleep. *)
Definition bad_frame (samp : list ts_sample) : P (list ts_sample * Z) :=
  p ← get;
  _ ← (if discard_frames p =? 0 then
         _ ← modify (set_old (scanrate p));
         _ ← set_scanrate ASLEEP_SCANRATE;
         modify (set_discard DISCARD_FRAMES)
       else mret tt);
  mret (samp, 0).

(** Any other one wakes it up, is discarded, or is searched for a touch. *)
Definition good_frame (samp : list ts_sample) (field : list Z) : P (list ts_sample * Z) :=
  p ← get;
  _ ← (if discard_frames p =? DISCARD_FRAMES then set_scanrate (old_scanrate p) else mret 0);
  if negb (discard_frames p =? 0) then
    _ ← modify (λ p, set_discard (discard_frames p - 1) p);
    mret (samp, 0)
  else
    let '(max_value, (max_x, max_y)) := strongest field in
    if noise (conf p) <? max_value then press samp field max_value max_x max_y else release samp.

Definition palm_read (samp : list ts_sample) (nr : Z) : P (list ts_sample * Z) :=
  if (nr <? 0) || (Z.of_nat (length samp) <? nr) then fault OutOfBounds else
  let samp := replicate (Z.to_nat nr) (Sample 0 0 0 0) ++ drop (Z.to_nat nr) samp in
  l ⇐ PRead;
  match l with
  | None | Some [] => mret (samp, -1)
  | Some l =>
      field ← lift (frame_fields l);
      p ← get;
      let '(refs, field, bad) := update_references (references p) field in
      _ ← modify (set_references refs);
      if bad : bool then bad_frame samp else good_frame samp field
  end.

Definition palm_fini : P Z :=
  p ← get;
  _ ← (match last_valid_samples p with Some _ => _ ⇐ PRelease; mret tt | None => mret tt end);
  _ ⇐ PRelease;
  mret 0.

(** Reads until something arrives. *)
Fixpoint first_frame (fuel : nat) : P (list Z) :=
  match fuel with
  | O => fault OutOfFuel
  | S fuel =>
      l ⇐ PRead;
      match l with
      | None | Some [] => first_frame fuel
      | Some l => lift (frame_fields l)
      end
  end.

(** The state at the start is what malloc left in the block; the result is the
    module, [false] for NULL. *)
Definition palm_mod_init (fuel : nat) (stale : bool) (params : option (list Z)) : P bool :=
  ok ⇐ PAlloc;
  if negb ok then mret false else
  _ ← modify (set_last 0 None);
  _ ← set_verbose DEFAULT_VERBOSE;
  _ ← set_scanrate DEFAULT_SCANRATE;
  _ ← set_timestamp_mode DEFAULT_TIMESTAMP_MODE;
  _ ← set_sleepmode CY8MRLN_ON_STATE;
  _ ← set_wot_scanrate WOT_SCANRATE_512HZ;
  _ ← set_wot_threshold DEFAULT_WOT_THRESHOLD;
  _ ← set_module GestureHeight DEFAULT_GESTURE_HEIGHT;
  _ ← set_module Noise DEFAULT_NOISE;
  _ ← set_module Pressure DEFAULT_PRESSURE;
  _ ← set_module OffsetX DEFAULT_SENSOR_OFFSET_X;
  _ ← set_module OffsetY DEFAULT_SENSOR_OFFSET_Y;
  _ ← set_module DeltaX DEFAULT_SENSOR_DELTA_X;
  _ ← set_module DeltaY DEFAULT_SENSOR_DELTA_Y;
  _ ← modify (set_discard 0);
  r ← parse_params stale params;
  if negb (r =? 0) then _ ⇐ PRelease; mret false else
  field ← first_frame fuel;
  _ ← modify (set_references field);
  mret true.

(** [n] reads of the application; the samples of each. *)
Fixpoint palm_reads (n : nat) (samp : list ts_sample) (nr : Z) : P (list (list ts_sample)) :=
  match n with
  | O => mret []
  | S n =>
      r ← palm_read samp nr;
      rest ← palm_reads n samp nr;
      mret (take (Z.to_nat r.2) r.1 :: rest)
  end.
End program.

(** ** Specification: a pad that sleeps and reports touches *)

Inductive phase := Awake | Asleep | Waking (n : nat).

(** The references, the phase, the scan rate that the user wants, and the sample
    of the pen while it is down. *)
Record pad := Pad { p_refs : list Z; p_phase : phase; p_rate : Z; p_pen : option ts_sample }.

(** The number of fields before the first one out of range. *)
Fixpoint good_prefix (f : list Z) : nat :=
  match f with v :: f => if in_range v then S (good_prefix f) else O | [] => O end.
Definition valid (f : list Z) : bool := forallb in_range f.

(** A reference is the greatest value its field has had; the references behind
    a field out of range stay. *)
Definition absorb (refs f : list Z) : list Z :=
  let k := good_prefix f in zip_with Z.max (take k refs) (take k f) ++ drop k refs.
Definition differences (refs f : list Z) : list Z := zip_with (λ r v, Z.max r v - v) refs f.

Inductive step (c : settings) : pad → list Z * Z → list ts_sample → pad → Prop :=
| step_falls_asleep refs rate pen f t :
    valid f = false → step c (Pad refs Awake rate pen) (f, t) [] (Pad (absorb refs f) Asleep rate pen)
| step_ignored refs ph rate pen f t :
    valid f = false → ph ≠ Awake → step c (Pad refs ph rate pen) (f, t) [] (Pad (absorb refs f) ph rate pen)
| step_wakes refs rate pen f t :
    valid f = true → step c (Pad refs Asleep rate pen) (f, t) [] (Pad (absorb refs f) (Waking 4) rate pen)
| step_discards refs n rate pen f t :
    valid f = true →
    step c (Pad refs (Waking n) rate pen) (f, t) [] (Pad (absorb refs f) (match n with S (S n) => Waking (S n) | _ => Awake end) rate pen)
| step_press refs rate pen f t v cx cy px py :
    valid f = true → strongest (differences refs f) = (v, (cx, cy)) → noise c < v →
    interpolate c (differences refs f) cx cy = Ok (px, py) →
    step c (Pad refs Awake rate pen) (f, t) [Sample px py v t] (Pad (absorb refs f) Awake rate (Some (Sample px py v t)))
| step_release refs rate last f t :
    valid f = true → (strongest (differences refs f)).1 <= noise c →
    step c (Pad refs Awake rate (Some last)) (f, t) [lift_pen last] (Pad (absorb refs f) Awake rate None)
| step_quiet refs rate f t :
    valid f = true → (strongest (differences refs f)).1 <= noise c →
    step c (Pad refs Awake rate None) (f, t) [] (Pad (absorb refs f) Awake rate None).

(** Steps in a row. *)
Inductive run {St E O : Type} (stp : St → E → O → St → Prop) : St → list E → list O → St → Prop :=
| run_nil s : run stp s [] [] s
| run_cons s s1 s2 e evs out outs : stp s e out s1 → run stp s1 evs outs s2 → run stp s (e :: evs) (out :: outs) s2.

(** Samples that make touches: positions under pressure, and the last of them
    once more without pressure. *)
Inductive touches : option ts_sample → list ts_sample → option ts_sample → Prop :=
| touches_nil pen : touches pen [] pen
| touches_press pen pen' s l : 0 < pressure s → touches (Some s) l pen' → touches pen (s :: l) pen'
| touches_release s pen' l : touches None l pen' → touches (Some s) (lift_pen s :: l) pen'.

(** A pad with frames waiting, each with the time of its arrival; ioctls and
    allocations succeed. *)
Class PalmPad (D : Type) `{Driver preq preply D} := {
  pad_queue : D → list (list Z * Z);
  pad_now : D → Z;
  pad_rate : D → Z;
  pad_read (d : D) l t q : pad_queue d = (l, t) :: q →
    (respond d PRead).2 = Some l ∧ pad_queue (respond d PRead).1 = q ∧ pad_now (respond d PRead).1 = t;
  pad_other (d : D) r : r ≠ PRead → pad_queue (respond d r).1 = pad_queue d ∧ pad_now (respond d r).1 = pad_now d;
  pad_clock (d : D) : (respond d PClock).2 = pad_now d;
  pad_alloc (d : D) : (respond d PAlloc).2 = true;
  pad_ioctl (d : D) s v : (respond d (PIoctl s v)).2 = 0;
  pad_rate_set (d : D) v : pad_rate (respond d (PIoctl Scanrate v)).1 = v;
  pad_rate_kept (d : D) r : (∀ v, r ≠ PIoctl Scanrate v) → pad_rate (respond d r).1 = pad_rate d
}.

(** ** References *)

Lemma absorb_cons r refs v f :
  absorb (r :: refs) (v :: f) = if in_range v then Z.max r v :: absorb refs f else r :: refs.
Proof. unfold absorb. cbn [good_prefix]. by destruct (in_range v). Qed.

Lemma update_references_run refs f :
  length f = length refs →
  ∃ f', update_references refs f = (absorb refs f, f', negb (valid f)) ∧ (valid f = true → f' = differences refs f).
Proof.
  revert f. induction refs as [|r refs IH]; intros [|v f] Hl; try discriminate; [exists []; split; reflexivity|].
  cbn [update_references]. rewrite absorb_cons. unfold valid. cbn [forallb].
  destruct (in_range v) eqn:E; cbn [negb andb]; [|exists (v :: f); split; [reflexivity|discriminate]].
  destruct (IH f) as (f' & -> & Hf'); [injection Hl; auto|]. fold (valid f).
  destruct (Z.ltb_spec r v).
  - exists (0 :: f'). replace (Z.max r v) with v by lia. split; [done|]. intros Hv. rewrite Hf' by done.
    unfold differences. cbn [zip_with]. f_equal. lia.
  - exists (r - v :: f'). replace (Z.max r v) with r by lia. split; [done|]. intros Hv. rewrite Hf' by done.
    unfold differences. cbn [zip_with]. f_equal. lia.
Qed.

Lemma absorb_valid refs f : valid f = true → length f = length refs → absorb refs f = zip_with Z.max refs f.
Proof.
  intros Hv Hl. assert (good_prefix f = length f) as E.
  { clear Hl. revert Hv. induction f as [|v f IH]; [done|]. unfold valid. cbn [forallb good_prefix].
    rewrite andb_true_iff. intros [-> Hv]. cbn. by rewrite IH. }
  unfold absorb. rewrite E, !take_ge, drop_ge by lia. by rewrite app_nil_r.
Qed.

Lemma length_absorb refs f : length f = length refs → length (absorb refs f) = length refs.
Proof. intros Hl. unfold absorb. rewrite length_app, length_zip_with, !length_take, length_drop. lia. Qed.

(** ** Reading refines the specification *)

Lemma frame_fields_Ok l f : frame_fields l = Ok f → l ≠ [] ∧ length f = 77%nat.
Proof.
  unfold frame_fields. case_match eqn:E; [discriminate|]. intros Hf. split; [intros ->; done|].
  assert (f = (λ i, le_val (sub_bytes l (2 + 2 * Z.of_nat i) 2)) <$> seq 0 77) as -> by (injection Hf; intros <-; reflexivity).
  by rewrite length_fmap, length_seq.
Qed.

Section reading.
Context {D : Type} `{Hpad : PalmPad D}.
Implicit Types (w : world palm preq D) (s : pad) (samp : list ts_sample).

(** The settings, the references, the phase with its scan rates, and the pen. *)
Definition in_phase (p : palm) (ph : phase) (rate : Z) : Prop :=
  match ph with
  | Awake => discard_frames p = 0 ∧ scanrate p = rate
  | Asleep => discard_frames p = DISCARD_FRAMES ∧ scanrate p = ASLEEP_SCANRATE ∧ old_scanrate p = rate
  | Waking n => discard_frames p = Z.of_nat n ∧ (1 <= n <= 4)%nat ∧ scanrate p = rate
  end.
Definition holds_pen (p : palm) (pen : option ts_sample) : Prop :=
  match pen with
  | None => last_valid_samples p = None ∧ last_n_valid_samples p = 0
  | Some s => last_valid_samples p = Some [s] ∧ last_n_valid_samples p = 1
  end.
Record tracks (c : settings) (w : world palm preq D) (s : pad) (q : list (list Z * Z)) : Prop := Tracks {
  tr_conf : conf (vars w) = c;
  tr_refs : references (vars w) = p_refs s;
  tr_length : length (p_refs s) = 77%nat;
  tr_phase : in_phase (vars w) (p_phase s) (p_rate s);
  tr_pen : holds_pen (vars w) (p_pen s);
  tr_rate : pad_rate (driver w) = scanrate (vars w);
  tr_queue : pad_queue (driver w) = q }.

Lemma set_scanrate_runs v w (Q : Z → world palm preq D → Prop) :
  (∀ w', vars w' = set_rate v (vars w) → pad_rate (driver w') = v → pad_queue (driver w') = pad_queue (driver w) → Q 0 w') →
  runs (set_scanrate v) w Q.
Proof.
  intros HQ. unfold set_scanrate, ioctl_setting. apply runs_request. unfold answer. rewrite pad_ioctl. cbn [Z.ltb Z.compare].
  apply runs_bind, runs_modify, runs_ret, HQ; [done|apply pad_rate_set|]. by apply pad_other.
Qed.

(** A frame out of range. *)
Lemma bad_frame_runs c w s q samp (Q : list ts_sample * Z → world palm preq D → Prop) : tracks c w s q →
  (∀ w', tracks c w' (Pad (p_refs s) (match p_phase s with Awake => Asleep | ph => ph end) (p_rate s) (p_pen s)) q → Q (samp, 0) w') →
  runs (bad_frame samp) w Q.
Proof.
  destruct s as [refs ph rate pen]. intros [Hc Hr Hl Hph Hpen Hrt Hq] HQ. cbn [p_refs p_phase p_rate p_pen] in *.
  unfold bad_frame. apply runs_get. destruct ph as [| |n]; destruct Hph as [Hd Hrate]; rewrite Hd.
  - change (0 =? 0) with true. apply runs_bind, runs_bind, runs_modify, runs_bind, set_scanrate_runs.
    intros w' V R W. apply runs_modify, runs_ret, HQ. split; cbn [driver with_vars vars]; rewrite ?V, ?W; try done.
  - change (DISCARD_FRAMES =? 0) with false. apply runs_bind, runs_ret, runs_ret, HQ. by split.
  - rewrite (proj2 (Z.eqb_neq _ _)) by lia. apply runs_bind, runs_ret, runs_ret, HQ. by split.
Qed.

(** Requests that neither read a frame nor set the scan rate. *)
Lemma tracks_after c w s q r : r ≠ PRead → (∀ v, r ≠ PIoctl Scanrate v) → tracks c w s q → tracks c (after w r) s q.
Proof.
  intros H1 H2 []. split; try done; cbn [after driver vars].
  - by rewrite pad_rate_kept.
  - by rewrite (proj1 (pad_other _ _ H1)).
Qed.

Lemma tracks_pen c w s q n l pen : holds_pen (set_last n l (vars w)) pen → tracks c w s q →
  tracks c (with_vars w (set_last n l (vars w))) (Pad (p_refs s) (p_phase s) (p_rate s) pen) q.
Proof. intros Hp []. by split. Qed.

Lemma press_runs c w s q samp field v cx cy px py t (Q : list ts_sample * Z → world palm preq D → Prop) :
  tracks c w s q → samp ≠ [] → interpolate c field cx cy = Ok (px, py) → pad_now (driver w) = t →
  (∀ w', tracks c w' (Pad (p_refs s) (p_phase s) (p_rate s) (Some (Sample px py v t))) q → Q (Sample px py v t :: tail samp, 1) w') →
  runs (press samp field v cx cy) w Q.
Proof.
  intros Ht Hs Hi Hn HQ. destruct samp as [|x0 samp]; [done|]. unfold press. apply runs_get, runs_bind.
  rewrite (tr_conf _ _ _ _ Ht). eapply runs_lift; [exact Hi|]. apply runs_request. unfold answer. rewrite pad_clock, Hn.
  apply (tracks_after _ _ _ _ PClock) in Ht; [|done|done]. revert Ht. generalize (after w PClock). clear w Hn. intros w Ht.
  apply runs_bind. eapply runs_lift; [apply wr_Ok; cbn; lia|]. cbn [Z.to_nat insert list_insert fst snd]. apply runs_get, runs_bind.
  assert (∀ m, runs m w (λ a w', a = true ∧ tracks c w' s q) →
    runs m w (λ ok w', runs (if negb ok then fault NullDeref else _ ← modify (set_last 1 (Some (take 1 (Sample px py v t :: samp)))); mret (Sample px py v t :: samp, 1)) w' Q)) as Hrest.
  { intros m Hm. eapply runs_mono; [exact Hm|]. intros ok w' [-> Ht']. cbn [negb]. apply runs_bind, runs_modify, runs_ret, HQ.
    by apply tracks_pen. }
  apply Hrest. assert (runs (a ⇐ PAlloc; mret (a : bool)) w (λ a w', a = true ∧ tracks c w' s q)) as Halloc.
  { apply runs_request, runs_ret. split; [apply pad_alloc|by apply tracks_after]. }
  destruct (last_valid_samples (vars w)); [|exact Halloc]. destruct (negb _); [exact Halloc|]. by apply runs_ret.
Qed.

Lemma release_runs c w s q samp (Q : list ts_sample * Z → world palm preq D → Prop) :
  tracks c w s q → samp ≠ [] →
  (∀ r w', take (Z.to_nat r.2) r.1 = from_option (λ l, [lift_pen l]) [] (p_pen s) →
    tracks c w' (Pad (p_refs s) (p_phase s) (p_rate s) None) q → Q r w') →
  runs (release samp) w Q.
Proof.
  intros Ht Hs HQ. pose proof (tr_pen _ _ _ _ Ht) as Hp. unfold release. apply runs_get.
  destruct s as [refs ph rate pen]. cbn [p_refs p_phase p_rate p_pen] in *. destruct pen as [last|]; destruct Hp as [-> Hn].
  - rewrite Hn. destruct samp as [|x0 samp]; [done|]. change (Nat.leb (Z.to_nat 1) _) with true.
    apply runs_bind, runs_modify, runs_request, runs_ret, HQ; [done|]. apply tracks_after; [done..|]. by apply (tracks_pen _ _ _ _ 0 None None) in Ht.
  - apply runs_ret, HQ; [done|]. by destruct Ht.
Qed.

Lemma awake_frame_runs c w s q samp field v cx cy (Q : list ts_sample * Z → world palm preq D → Prop) :
  tracks c w s q → p_phase s = Awake → strongest field = (v, (cx, cy)) →
  runs (if noise c <? v then press samp field v cx cy else release samp) w Q → runs (good_frame samp field) w Q.
Proof.
  intros Ht Hph Hst HQ. pose proof (tr_phase _ _ _ _ Ht) as Hp. rewrite Hph in Hp. destruct Hp as [Hd _].
  unfold good_frame. apply runs_get. rewrite Hd. change (0 =? DISCARD_FRAMES) with false. apply runs_bind, runs_ret.
  cbn [Z.eqb negb]. by rewrite Hst, (tr_conf _ _ _ _ Ht).
Qed.

(** A frame that is discarded. *)
Lemma dozing_frame_runs c w s q samp field (Q : list ts_sample * Z → world palm preq D → Prop) :
  tracks c w s q → p_phase s ≠ Awake →
  (∀ w', tracks c w' (Pad (p_refs s) (match p_phase s with Waking (S (S n)) => Waking (S n) | Asleep => Waking 4 | _ => Awake end) (p_rate s) (p_pen s)) q →
    Q (samp, 0) w') →
  runs (good_frame samp field) w Q.
Proof.
  destruct s as [refs ph rate pen]. intros [Hc Hr Hl Hph Hpen Hrt Hq] Hna HQ. cbn [p_refs p_phase p_rate p_pen] in *.
  unfold good_frame. apply runs_get. destruct ph as [| |n]; [done| |].
  - destruct Hph as (Hd & Hrate & Hold). rewrite Hd, Hold. change (DISCARD_FRAMES =? DISCARD_FRAMES) with true.
    apply runs_bind, set_scanrate_runs. intros w' V R W. change (negb (DISCARD_FRAMES =? 0)) with true.
    apply runs_bind, runs_modify, runs_ret, HQ. split; cbn [driver with_vars vars]; rewrite ?V, ?W; try done.
    cbn [p_phase p_rate in_phase set_discard set_rate discard_frames scanrate]. rewrite Hd. split_and!; [done|lia|lia|done].
  - destruct Hph as (Hd & Hn & Hrate). rewrite Hd. unfold DISCARD_FRAMES.
    destruct n as [|n]; [lia|]. rewrite !(proj2 (Z.eqb_neq _ _)) by lia. cbn [negb]. apply runs_bind, runs_ret, runs_bind, runs_modify, runs_ret, HQ.
    split; cbn [driver with_vars vars]; try done. unfold in_phase. cbn [p_phase p_rate set_discard discard_frames scanrate].
    rewrite Hd. destruct n as [|n]; cbn; [done|]. split_and!; [lia|lia|lia|done].
Qed.

(** One read. *)
Lemma palm_read_runs c w s s' l f t q out samp nr : 1 <= nr <= Z.of_nat (length samp) → frame_fields l = Ok f →
  step c s (f, t) out s' → tracks c w s ((l, t) :: q) →
  runs (palm_read samp nr) w (λ r w', take (Z.to_nat r.2) r.1 = out ∧ tracks c w' s' q).
Proof.
  intros Hnr Hf Hstep Ht. destruct (frame_fields_Ok l f Hf) as [Hne Hlf]. unfold palm_read.
  rewrite (proj2 (Z.ltb_ge nr 0)), (proj2 (Z.ltb_ge _ nr)) by lia. cbn [orb].
  set (z := replicate _ _ ++ _). assert (z ≠ []) as Hz.
  { unfold z. destruct (Z.to_nat nr) eqn:E; [lia|done]. }
  clearbody z. destruct (pad_read (driver w) l t q (tr_queue _ _ _ _ Ht)) as (E1 & E2 & E3).
  apply runs_request. unfold answer. rewrite E1. destruct l as [|b l]; [done|].
  apply runs_bind. eapply runs_lift; [exact Hf|]. apply runs_get. rewrite vars_after, (tr_refs _ _ _ _ Ht).
  destruct (update_references_run (p_refs s) f) as (f' & -> & Hd); [by rewrite Hlf, (tr_length _ _ _ _ Ht)|].
  apply runs_bind, runs_modify.
  assert (tracks c (with_vars (after w PRead) (set_references (absorb (p_refs s) f) (vars w))) (Pad (absorb (p_refs s) f) (p_phase s) (p_rate s) (p_pen s)) q) as Hw.
  { destruct Ht. split; try done; cbn [p_refs p_phase p_rate p_pen]; [by rewrite length_absorb; [|congruence]|].
    cbn [driver with_vars after]. by rewrite pad_rate_kept. }
  revert Hw. set (w1 := with_vars _ _). assert (pad_now (driver w1) = t) as Hn by exact E3. clearbody w1. intros Hw.
  clear E1 E2 E3 Ht Hf. inversion Hstep; subst; cbn [p_refs p_phase p_rate p_pen] in *; match goal with E : valid f = _ |- _ => rewrite E in *; clear E end; cbn [negb];
    try specialize (Hd eq_refl); subst.
  - by eapply bad_frame_runs; [exact Hw|].
  - eapply bad_frame_runs; [exact Hw|]. intros w' Hw'. split; [done|]. cbn [p_refs p_phase p_rate p_pen] in Hw'. by destruct ph.
  - by eapply dozing_frame_runs; [exact Hw|done|].
  - by eapply dozing_frame_runs; [exact Hw|done|].
  - eapply awake_frame_runs; [exact Hw|done|eassumption|]. rewrite (proj2 (Z.ltb_lt _ _)) by done.
    by eapply press_runs; [exact Hw|done|eassumption|done|].
  - destruct (strongest (differences refs f)) as [v [cx cy]] eqn:Es. eapply awake_frame_runs; [exact Hw|done|exact Es|].
    rewrite (proj2 (Z.ltb_ge _ _)) by done. by eapply release_runs; [exact Hw|done|].
  - destruct (strongest (differences refs f)) as [v [cx cy]] eqn:Es. eapply awake_frame_runs; [exact Hw|done|exact Es|].
    rewrite (proj2 (Z.ltb_ge _ _)) by done. by eapply release_runs; [exact Hw|done|].
Qed.

(** Any number of them. *)
Lemma palm_reads_runs c s evs outs s' : run (step c) s evs outs s' → ∀ w q qs samp nr,
  1 <= nr <= Z.of_nat (length samp) → Forall2 (λ e b, frame_fields b.1 = Ok e.1 ∧ b.2 = e.2) evs qs → tracks c w s (qs ++ q) →
  runs (palm_reads (length evs) samp nr) w (λ r w', r = outs ∧ tracks c w' s' q).
Proof.
  induction 1 as [s|s s1 s2 [f t] evs out outs Hs Hr IH]; intros w q qs samp nr Hnr Hq Ht.
  { apply Forall2_nil_inv_l in Hq as ->. by apply runs_ret. }
  apply Forall2_cons_inv_l in Hq as ([l t'] & qs' & [Hf [= ->]] & Hqs & ->). cbn [length palm_reads].
  apply runs_bind. eapply runs_mono; [eapply palm_read_runs; [exact Hnr|exact Hf|exact Hs|exact Ht]|]. intros r w1 [Ho Ht1].
  apply runs_bind. eapply runs_mono; [apply (IH w1 q qs'); done|]. intros rs w2 [Hos Ht2]. apply runs_ret. by rewrite Ho, Hos.
Qed.
End reading.

(** ** Touches *)

Lemma touches_app pen pen' pen'' l l' : touches pen l pen' → touches pen' l' pen'' → touches pen (l ++ l') pen''.
Proof. induction 1; intros; cbn; [done|apply touches_press; auto|apply touches_release; auto]. Qed.

Lemma strongest_value field : 0 <= (strongest field).1.
Proof.
  unfold strongest. assert (∀ l m, 0 <= m.1 → 0 <= (foldl (search_step field) m l).1) as Hfold; [|by apply Hfold].
  induction l as [|c l IH]; intros m Hm; [done|]. apply IH. unfold search_step. case_match eqn:E; cbn; lia.
Qed.

Lemma step_touches c s e out s' : 0 <= noise c → step c s e out s' → touches (p_pen s) out (p_pen s').
Proof. intros Hn. destruct 1; cbn [p_pen]; try apply touches_nil; [apply touches_press; [cbn; lia|]|apply touches_release]; apply touches_nil. Qed.

Lemma run_touches c s evs outs s' : 0 <= noise c → run (step c) s evs outs s' → touches (p_pen s) (mjoin outs) (p_pen s').
Proof.
  intros Hn. induction 1 as [s|s s1 s2 e evs out outs Hs Hr IH]; [constructor|].
  change (mjoin (out :: outs)) with (out ++ mjoin outs). eapply touches_app; [by eapply step_touches|done].
Qed.

(** ** Setting up *)

Section setup.
Context {D : Type} `{Hpad : PalmPad D}.
Context (CY8MRLN_ON_STATE WOT_SCANRATE_512HZ WOT_THRESHOLD_MIN WOT_THRESHOLD_MAX : Z).
Context (Hthreshold : WOT_THRESHOLD_MIN <= DEFAULT_WOT_THRESHOLD <= WOT_THRESHOLD_MAX).
Implicit Types w : world palm preq D.

Definition default_settings : settings :=
  Settings DEFAULT_VERBOSE DEFAULT_WOT_THRESHOLD CY8MRLN_ON_STATE WOT_SCANRATE_512HZ DEFAULT_TIMESTAMP_MODE DEFAULT_GESTURE_HEIGHT
    DEFAULT_NOISE DEFAULT_PRESSURE DEFAULT_SENSOR_OFFSET_X DEFAULT_SENSOR_OFFSET_Y DEFAULT_SENSOR_DELTA_X DEFAULT_SENSOR_DELTA_Y.

Lemma ioctl_setting_runs st v w (Q : Z → world palm preq D → Prop) :
  (∀ w', vars w' = set_setting st v (vars w) → pad_queue (driver w') = pad_queue (driver w) →
    pad_rate (driver w') = (match st with Scanrate => v | _ => pad_rate (driver w) end) → Q 0 w') →
  runs (ioctl_setting st v) w Q.
Proof.
  intros HQ. unfold ioctl_setting. apply runs_request. unfold answer. rewrite pad_ioctl. cbn [Z.ltb Z.compare].
  apply runs_bind, runs_modify, runs_ret, HQ; [done|by apply pad_other|].
  destruct st; [apply pad_rate_set|by apply pad_rate_kept..].
Qed.

Lemma set_module_runs st v w (Q : Z → world palm preq D → Prop) :
  Q 0 (with_vars w (set_local st v (vars w))) → runs (set_module st v) w Q.
Proof. intros HQ. apply runs_bind, runs_modify. by apply runs_ret. Qed.

Lemma first_frame_runs l f t q fuel w (Q : list Z → world palm preq D → Prop) :
  pad_queue (driver w) = (l, t) :: q → frame_fields l = Ok f →
  (∀ w', vars w' = vars w → pad_queue (driver w') = q → pad_rate (driver w') = pad_rate (driver w) → Q f w') →
  runs (first_frame (S fuel)) w Q.
Proof.
  intros Hq Hf HQ. cbn [first_frame]. destruct (pad_read (driver w) l t q Hq) as (E1 & E2 & E3).
  apply runs_request. unfold answer. rewrite E1. destruct l as [|b l]; [by destruct (frame_fields_Ok [] f Hf)|].
  eapply runs_lift; [exact Hf|]. apply HQ; [done|done|by apply pad_rate_kept].
Qed.

(** Without parameters the module starts awake, with the first frame as its
    references and the default settings. *)
Lemma palm_mod_init_runs l f t q fuel stale w :
  pad_queue (driver w) = (l, t) :: q → frame_fields l = Ok f →
  runs (palm_mod_init CY8MRLN_ON_STATE WOT_SCANRATE_512HZ WOT_THRESHOLD_MIN WOT_THRESHOLD_MAX (S fuel) stale None) w
    (λ r w', r = true ∧ tracks default_settings w' (Pad f Awake DEFAULT_SCANRATE None) q).
Proof.
  intros Hq Hf. unfold palm_mod_init. apply runs_request. unfold answer. rewrite pad_alloc. cbn [negb].
  apply runs_bind, runs_modify. set (w0 := with_vars _ _).
  assert (pad_queue (driver w0) = (l, t) :: q) as Hq0 by (unfold w0; cbn [driver with_vars after]; by rewrite (proj1 (pad_other _ PAlloc ltac:(done)))).
  assert (last_valid_samples (vars w0) = None ∧ last_n_valid_samples (vars w0) = 0) as [Hl Hn] by done. clearbody w0. clear Hq w.
  unfold set_verbose, set_scanrate, set_timestamp_mode, set_sleepmode, set_wot_scanrate.
  apply runs_bind, ioctl_setting_runs. intros w1 V1 Q1 R1.
  apply runs_bind, ioctl_setting_runs. intros w2 V2 Q2 R2.
  apply runs_bind, ioctl_setting_runs. intros w3 V3 Q3 R3.
  apply runs_bind, ioctl_setting_runs. intros w4 V4 Q4 R4.
  apply runs_bind, ioctl_setting_runs. intros w5 V5 Q5 R5.
  unfold set_wot_threshold. rewrite !(proj2 (Z.ltb_ge _ _)) by lia. cbn [orb].
  apply runs_bind, ioctl_setting_runs. intros w6 V6 Q6 R6.
  do 7 apply runs_bind, set_module_runs. apply runs_bind, runs_modify. apply runs_bind, runs_ret. cbn [negb Z.eqb].
  apply runs_bind. eapply first_frame_runs; [cbn [driver with_vars]; by rewrite Q6, Q5, Q4, Q3, Q2, Q1|exact Hf|].
  intros w7 V7 Q7 R7. apply runs_bind, runs_modify, runs_ret. split; [done|]. destruct (frame_fields_Ok l f Hf) as [_ Hlf].
  split; rewrite ?vars_with, ?V7, ?vars_with, ?V6, ?V5, ?V4, ?V3, ?V2, ?V1; try done.
  cbn [driver with_vars] in *. by rewrite R7, R6, R5, R4, R3, R2.
Qed.
End setup.

(** ** Claims *)

(** C27: The module set up and [n] frames read: whatever the frames are, as long as
    every position of a touch has a value, each read follows the specification
    of a pad.  A frame out of range puts the controller to the slow scan rate
    until a frame in range brings the user's rate back, four more frames are
    discarded, the references are the greatest values seen, and the samples of
    all reads make touches: positions under pressure, each touch closed by its
    last position without pressure, exactly once. *)
Theorem palm_serves_touches {D} `{PalmPad D} ON HZ WMIN WMAX fuel stale l0 f0 t0 evs qs outs s' samp nr (w : world palm preq D) :
  WMIN <= DEFAULT_WOT_THRESHOLD <= WMAX → 1 <= nr <= Z.of_nat (length samp) →
  pad_queue (driver w) = (l0, t0) :: qs → frame_fields l0 = Ok f0 →
  Forall2 (λ e b, frame_fields b.1 = Ok e.1 ∧ b.2 = e.2) evs qs →
  run (step (default_settings ON HZ)) (Pad f0 Awake DEFAULT_SCANRATE None) evs outs s' →
  runs (_ ← palm_mod_init ON HZ WMIN WMAX (S fuel) stale None; palm_reads (length evs) samp nr) w
    (λ r w', r = outs ∧ tracks (default_settings ON HZ) w' s' [] ∧ touches None (mjoin outs) (p_pen s')).
Proof.
  intros Hw Hnr Hq Hf Hqs Hrun. apply runs_bind.
  eapply runs_mono; [eapply palm_mod_init_runs; [exact Hw|exact Hq|exact Hf]|]. intros ok w1 [_ Ht].
  eapply runs_mono; [apply (palm_reads_runs _ _ _ _ _ Hrun w1 [] qs); [done|done|by rewrite app_nil_r]|].
  intros r w2 [-> Ht2]. split; [done|]. split; [done|].
  exact (run_touches (default_settings ON HZ) _ _ _ _ (Zle_0_pos 25) Hrun).
Qed.

(** A frame that cannot be followed is one whose touch has a position without a
    value; every other one has a step. *)
Theorem every_frame_has_a_step c s f t :
  match p_phase s with Waking n => n ≠ 0%nat | _ => True end →
  (∃ out s', step c s (f, t) out s') ∨
  (∃ cr, valid f = true ∧ interpolate c (differences (p_refs s) f) (strongest (differences (p_refs s) f)).2.1 (strongest (differences (p_refs s) f)).2.2 = Crash cr).
Proof.
  destruct s as [refs ph rate pen]. cbn [p_phase p_refs]. intros Hph. destruct (valid f) eqn:Hv.
  - destruct ph as [| |n]; [|left; do 2 eexists; by apply step_wakes|left; do 2 eexists; by apply step_discards].
    destruct (strongest (differences refs f)) as [v [cx cy]] eqn:Es. cbn [fst snd]. destruct (Z.ltb_spec (noise c) v).
    + destruct (interpolate c (differences refs f) cx cy) as [[px py]|cr] eqn:Ei; [|right; by exists cr].
      left. do 2 eexists. by eapply step_press.
    + left. destruct pen as [last|]; do 2 eexists; [apply step_release|apply step_quiet]; try done; rewrite Es; done.
  - left. destruct ph; do 2 eexists; [by apply step_falls_asleep|by apply step_ignored|by apply step_ignored].
Qed.

(** The search finds the greatest difference, and where it is. *)
Lemma search_bounds field l m : m.1 <= (foldl (search_step field) m l).1 ∧
  Forall (λ c, field !!! Z.to_nat (field_nr c.1 c.2) <= (foldl (search_step field) m l).1) l.
Proof.
  revert m. induction l as [|c l IH]; intros m; [by split|]. destruct (IH (search_step field m c)) as [H1 H2]. cbn [foldl].
  assert (m.1 <= (search_step field m c).1 ∧ field !!! Z.to_nat (field_nr c.1 c.2) <= (search_step field m c).1) as [H3 H4].
  { unfold search_step. destruct (Z.ltb_spec m.1 (field !!! Z.to_nat (field_nr c.1 c.2))); cbn [fst]; lia. }
  split; [lia|]. constructor; [lia|done].
Qed.

Lemma search_member field l m : foldl (search_step field) m l = m ∨
  ∃ c, c ∈ l ∧ foldl (search_step field) m l = (field !!! Z.to_nat (field_nr c.1 c.2), c).
Proof.
  revert m. induction l as [|c l IH]; intros m; [by left|]. cbn [foldl].
  destruct (IH (search_step field m c)) as [E|(c' & Hc & E)]; rewrite E; [|right; exists c'; split; [by right|done]].
  unfold search_step. case_match; [right; exists c; split; [by left|done]|by left].
Qed.

Lemma search_greatest field l v cx cy : foldl (search_step field) (0, (0, 0)) l = (v, (cx, cy)) →
  (∀ x y, (x, y) ∈ l → field !!! Z.to_nat (field_nr x y) <= v) ∧
  (0 < v → (cx, cy) ∈ l ∧ v = field !!! Z.to_nat (field_nr cx cy)).
Proof.
  intros Es. pose proof (search_bounds field l (0, (0, 0))) as [_ Hb]. rewrite Es in Hb. split.
  - intros x y Hc. rewrite Forall_forall in Hb. exact (Hb (x, y) Hc).
  - intros Hv. destruct (search_member field l (0, (0, 0))) as [E|(c & Hc & E)]; rewrite E in Es; injection Es; [lia|]. by intros -> <-.
Qed.

Theorem strongest_is_greatest field v cx cy : strongest field = (v, (cx, cy)) →
  (∀ x y, (x, y) ∈ cells → field !!! Z.to_nat (field_nr x y) <= v) ∧
  (0 < v → (cx, cy) ∈ cells ∧ v = field !!! Z.to_nat (field_nr cx cy)).
Proof. unfold strongest. apply search_greatest. Qed.

(** ** A pad to try things on *)

Record demo_pad := DemoPad { dp_queue : list (list Z * Z); dp_now : Z; dp_rate : Z }.

Definition demo_respond (d : demo_pad) (r : preq) : demo_pad * preply r :=
  match r return demo_pad * preply r with
  | PIoctl Scanrate v => (DemoPad (dp_queue d) (dp_now d) v, 0)
  | PIoctl _ _ => (d, 0)
  | PRead => match dp_queue d with (l, t) :: q => (DemoPad q t (dp_rate d), Some l) | [] => (d, None) end
  | PAlloc => (d, true)
  | PRelease => (d, tt)
  | PClock => (d, dp_now d)
  end.

#[export] Instance demo_palm_driver : Driver preq preply demo_pad := demo_respond.
#[export] Instance demo_palm_pad : PalmPad demo_pad.
Proof.
  refine {| pad_queue := dp_queue; pad_now := dp_now; pad_rate := dp_rate |}; try done.
  - intros [queue now rate] l t q E. cbn in E. subst. done.
  - intros d [[]| | | |] Hr; done.
  - intros d [] v; done.
  - intros d [[]| | | |] Hr; try done; cbn; [by destruct (Hr v)|]. by destruct (dp_queue d) as [|[]].
Defined.

(** A frame as the controller sends it. *)
Definition frame_bytes (f : list Z) : list Z := [1; 0] ++ (v ← f; [v mod 256; v / 256]) ++ replicate 11 255.
Definition flat : list Z := replicate 77 1000.
Definition touched : list Z := <[40%nat := 850]> (<[39%nat := 960]> flat).
Definition broken : list Z := <[50%nat := 0]> flat.
Definition demo_frames : list (list Z * Z) := [(touched, 11); (flat, 12); (broken, 13); (flat, 14)].
Definition fresh_pad (frames : list (list Z * Z)) : world palm preq demo_pad :=
  World (Palm [] 0 (Settings 0 0 0 0 0 0 0 0 0 0 0 0) 0 None 0 0) (DemoPad (map (λ e, (frame_bytes e.1, e.2)) frames) 0 0) [].
Definition ready_pad (c : settings) (frames : list (list Z * Z)) : world palm preq demo_pad :=
  with_vars (fresh_pad frames) (Palm flat 60 c 0 None 0 0).

(** ** Limits *)

(** The parameter timestamp_mode sets the sleep mode. *)
Lemma timestamp_mode_sets_sleepmode :
  ∃ w', parse_params 0 100 false (Some (lit "timestamp_mode=0")) (fresh_pad []) = Ok (0, w') ∧ trace w' = [PIoctl Sleepmode 0].
Proof. eexists. split; [vm_compute; reflexivity|reflexivity]. Qed.

(** With a noise of -1 an untouched pad has a touch of pressure 0, whose
    position divides by zero. *)
Lemma negative_noise_has_no_position :
  let c := Settings 0 22 0 0 1 1 (-1) 60 22 26 45 52 in
  palm_read [Sample 0 0 0 0] 1 (ready_pad c [(flat, 1)]) = Crash NoValue.
Proof. vm_compute. reflexivity. Qed.

(** A frame out of range moves the references up to the first bad field. *)
Lemma bad_frame_moves_references :
  let bad := <[0%nat := 1200]> broken in
  valid bad = false ∧ (absorb flat bad) !! 0%nat = Some 1200.
Proof. vm_compute. done. Qed.

(** When no sample is asked for, one is stored nevertheless. *)
Lemma zero_samples_are_one :
  ∃ w' s, palm_read [Sample 9 9 9 9] 0 (ready_pad (default_settings 0 0) [(touched, 11)]) = Ok ([s], 1, w') ∧ s ≠ Sample 9 9 9 9.
Proof. do 2 eexists. split; [vm_compute; reflexivity|discriminate]. Qed.

(** A frame that is cut short is searched with fields that were never set. *)
Lemma short_frame_has_no_value {D} `{Driver preq preply D} samp nr (w : world palm preq D) b l :
  0 <= nr <= Z.of_nat (length samp) → answer w PRead = Some (b :: l) → (length l < 155)%nat → palm_read samp nr w = Crash NoValue.
Proof.
  intros Hnr E Hl. unfold palm_read. rewrite (proj2 (Z.ltb_ge nr 0)), (proj2 (Z.ltb_ge _ nr)) by lia. cbn [orb].
  rewrite request_run, E, lift_run. unfold frame_fields. rewrite (proj2 (Z.ltb_lt _ _)); [done|]. cbn [length]. unfold H_FIELDS, V_FIELDS. lia.
Qed.

(** ** Witnesses *)

Lemma step_to c s e out s1 s2 : step c s e out s1 → s1 = s2 → step c s e out s2.
Proof. by intros ? <-. Qed.

Lemma demo_run : run (step (default_settings 1 2)) (Pad flat Awake 60 None) demo_frames
  [[Sample 75 286 150 11]; [Sample 75 286 0 11]; []; []] (Pad flat (Waking 4) 60 None).
Proof.
  apply (run_cons _ _ (Pad flat Awake 60 (Some (Sample 75 286 150 11)))).
  { eapply step_to; [apply (step_press _ _ _ _ _ _ 150 1 5); vm_compute; reflexivity|vm_compute; reflexivity]. }
  apply (run_cons _ _ (Pad flat Awake 60 None)).
  { eapply step_to; [apply (step_release _ flat 60 (Sample 75 286 150 11)); [vm_compute; reflexivity|vm_compute; discriminate]|vm_compute; reflexivity]. }
  apply (run_cons _ _ (Pad flat Asleep 60 None)).
  { eapply step_to; [apply step_falls_asleep; vm_compute; reflexivity|vm_compute; reflexivity]. }
  apply (run_cons _ _ (Pad flat (Waking 4) 60 None)).
  { eapply step_to; [apply step_wakes; vm_compute; reflexivity|vm_compute; reflexivity]. }
  apply run_nil.
Qed.

Lemma palm_serves_touches_witness :
  runs (_ ← palm_mod_init 1 2 0 100 3 false None; palm_reads 4 [Sample 9 9 9 9] 1) (fresh_pad ((flat, 10) :: demo_frames))
    (λ r w', r = [[Sample 75 286 150 11]; [Sample 75 286 0 11]; []; []] ∧ pad_rate (driver w') = 60).
Proof.
  eapply runs_mono; [eapply (palm_serves_touches 1 2 0 100 2 false _ flat _ demo_frames); [vm_compute; split; discriminate|vm_compute; split; discriminate|reflexivity|vm_compute; reflexivity| |exact demo_run]|].
  - repeat constructor; vm_compute; reflexivity.
  - intros r w' (Hr & Ht & _). split; [exact Hr|]. rewrite (tr_rate _ _ _ _ Ht). apply (tr_phase _ _ _ _ Ht).
Defined.
