(* ===== verification/TsConfig.v ===== *)
(** * TsConfig: opening and configuring a touch screen

    Models src/tslib-1.1/src/ts_config.c, ts_load_module.c, ts_open.c, ts_read.c
    and ts_read_raw.c: the lines of the configuration file, finding a module
    among the linked ones or in a shared object, attaching it, and reading
    through the list of modules.  The dynamic linker and the modules are not
    code of these files: an environment says which shared objects exist and
    whether a module's initialisation succeeds for its parameters. *)
From stdpp Require Import gmap.
From S2P Require Import Prelude LibC Device Tslib TsFilters TsInput.
Local Open Scope Z_scope.

(** ** Lines *)

Definition BUF_SIZE : nat := 512.

(** The bytes up to and with the first newline, at most [max] of them. *)
Fixpoint fgets_split (max : nat) (s : list Z) : list Z * list Z :=
  match max, s with
  | O, _ => ([], s)
  | _, [] => ([], [])
  | S max, c :: r => if c =? 10 then ([c], r) else let '(l, rest) := fgets_split max r in (c :: l, rest)
  end.

(** [None] is NULL at the end of the file. *)
Definition fgets (size : nat) (s : list Z) : option (list Z * list Z) :=
  match s with [] => None | _ => Some (fgets_split (size - 1) s) end.

(** The C string of the line, without its newline. *)
Fixpoint until_newline (s : list Z) : list Z :=
  match s with [] => [] | c :: r => if c =? 10 then [] else c :: until_newline r end.
Definition chomp (line : list Z) : list Z := until_newline (cstr line).

(** [buf[BUF_SIZE - 2] != '\0']: only a line that fills the buffer can set this
    byte, and the newline is removed when the string reaches it. *)
Definition too_long (line : list Z) : bool :=
  match line !! (BUF_SIZE - 2)%nat with
  | Some c => negb (c =? 0) && negb ((c =? 10) && bool_decide (0 ∉ line))
  | None => false
  end.

(** Tokens: [(p, tok)] is the rest of the line, [None] for NULL, and the token. *)
Fixpoint discard_null_tokens (s : list Z) : option (list Z) * list Z :=
  match s with
  | [] => (None, [])
  | c :: r =>
      if is_delim [32; 9] c then discard_null_tokens r
      else let '(tok, rest) := strsep_split [32; 9] s in (rest, tok)
  end.

(** [tok = strsep(&p, " \t"); discard_null_tokens(&p, &tok);] *)
Definition next_token (s : list Z) : option (list Z) * list Z :=
  let '(tok, rest) := strsep_split [32; 9] s in
  match tok, rest with
  | [], Some r => discard_null_tokens r
  | _, _ => (rest, tok)
  end.

Inductive line_action :=
| LSkip
| LLoad (raw : bool) (module_name : list Z) (params : option (list Z))
| LUnknown.

Definition parse_line (s : list Z) : line_action :=
  let '(p, tok) := next_token s in
  match p with
  | None => LSkip
  | Some p =>
      if match tok with c :: _ => c =? 35 | [] => false end then LSkip
      else if strcaseeq tok (lit "module") then
        let '(p, name) := next_token p in LLoad false name p
      else if strcaseeq tok (lit "module_raw") then
        let '(p, name) := next_token p in LLoad true name p
      else LUnknown
  end.

(** ** Modules *)

(** Whether the initialisation of a module succeeds for its parameters. *)
Definition mod_init : Type := option (list Z) → bool.

(** [shared_object fn] is [None] when dlopen fails, [Some None] when the object
    has no mod_init. *)
Record environment := Environment {
  tslib_modules : list (list Z * mod_init);
  plugin_directory : list Z;
  shared_object : list Z → option (option mod_init);
}.

(** The device, its modules with the file of their handle ([None] for a linked
    module), the number of the next module and the open handles. *)
Record config_state := ConfigState {
  c_ts : tsdev; c_heap : heap; c_next : nat;
  c_handles : gmap nat (option (list Z)); c_open : list (list Z)
}.

Section operations.
Context (e : environment).

Definition load_module_static (module : list Z) (params : option (list Z)) : bool :=
  match List.find (λ m, str_eqb m.1 module) (tslib_modules e) with
  | Some m => m.2 params
  | None => false
  end.

(** [snprintf] into an array of 1024. *)
Definition shared_name (module : list Z) : list Z :=
  take 1023 (plugin_directory e ++ lit "/" ++ module ++ lit ".so").

(** The handle stays open only when the module was initialised. *)
Definition load_module_shared (module : list Z) (params : option (list Z)) : option (list Z) :=
  let fn := shared_name module in
  match shared_object e fn with
  | Some (Some init) => if init params then Some fn else None
  | _ => None
  end.

(** Attaching always returns 0, so the branch of the code that undoes a failed
    attachment has no counterpart.  [fuel] is that of [__ts_attach_raw]. *)
Definition ts_load_module (fuel : nat) (raw : bool) (st : config_state) (module : list Z)
    (params : option (list Z)) : result (config_state * Z) :=
  let attach (handle : option (list Z)) : result (config_state * Z) :=
    let i := c_next st in
    '(ts, h) ← (if raw then ts_attach_raw fuel (c_ts st) (c_heap st) i
                else Ok (ts_attach (c_ts st) (c_heap st) i));
    Ok (ConfigState ts h (S i) (<[i := handle]> (c_handles st))
          (match handle with Some fn => fn :: c_open st | None => c_open st end), 0) in
  if load_module_static module params then attach None else
  match load_module_shared module params with
  | Some fn => attach (Some fn)
  | None => Ok (st, -1)
  end.

Fixpoint config_loop (n fuel : nat) (text : list Z) (st : config_state) (ret : Z)
    : result (config_state * Z) :=
  match fgets BUF_SIZE text with
  | None => Ok (st, ret)
  | Some (line, text) =>
      match n with
      | O => Crash OutOfFuel
      | S n =>
          if too_long line then Ok (st, ret) else
          match parse_line (chomp line) with
          | LSkip => config_loop n fuel text st ret
          | LUnknown => Ok (st, ret)
          | LLoad raw name params =>
              '(st, ret) ← ts_load_module fuel raw st name params;
              if negb (ret =? 0) then Ok (st, ret) else config_loop n fuel text st ret
          end
      end
  end.

(** [file] is the text of the configuration file, [None] when it cannot be
    opened; every line takes at least one byte. *)
Definition ts_config (fuel : nat) (file : option (list Z)) (st : config_state) : result (config_state * Z) :=
  match file with
  | None => Ok (st, -1)
  | Some text =>
      '(st, ret) ← config_loop (length text) fuel text st 0;
      Ok (st, if bool_decide (list_raw (c_ts st) = None) then -1 else ret)
  end.
End operations.

(** [open_ rdwr] is the result of open() and whether errno is EACCES. *)
Definition ts_open (malloc_ok : bool) (open_ : bool → Z * bool) : option tsdev :=
  if negb malloc_ok then None else
  let '(fd, eacces) := open_ true in
  let fd := if (fd =? -1) && eacces then (open_ false).1 else fd in
  if fd =? -1 then None else Some (TsDev fd None None 0 0 0).

(** [M] is a module with those it reads from; [mods] gives the module of each
    pointer. *)
Definition ts_read_from {M} `{TsRead M} (p : ptr) (mods : gmap nat M) (samp : list ts_sample) (nr : Z)
    : result (gmap nat M * list ts_sample * Z) :=
  match p with
  | None => Crash NullDeref
  | Some i =>
      match mods !! i with
      | None => Crash OutOfBounds
      | Some m => '(m, samp, ret) ← ts_module_read m samp nr; Ok (<[i := m]> mods, samp, ret)
      end
  end.

Definition ts_read_raw {M} `{TsRead M} (ts : tsdev) : gmap nat M → list ts_sample → Z → _ :=
  ts_read_from (list_raw ts).

(** ** Lines of a configuration file *)

(** What a line of a file can be. *)
Inductive item :=
| Comment (text : list Z)
| Blank
| Load (raw : bool) (name : list Z) (params : option (list Z)).

Definition print_item (it : item) : list Z :=
  match it with
  | Comment t => 35 :: t ++ [10]
  | Blank => [10]
  | Load raw name params =>
      lit (if raw then "module_raw" else "module") ++ 32 :: name ++
      (match params with Some p => 32 :: p | None => [] end) ++ [10]
  end.

Definition plain (t : list Z) : Prop := Forall (λ c, c ≠ 0 ∧ c ≠ 10) t.

Definition item_wf (it : item) : Prop :=
  (length (print_item it) < BUF_SIZE)%nat ∧
  match it with
  | Comment t => plain t
  | Blank => True
  | Load _ name params => name ≠ [] ∧ is_token name ∧ plain name ∧
      match params with Some p => plain p | None => True end
  end.

(** The effect of the items one after the other. *)
Fixpoint run_items (e : environment) (fuel : nat) (its : list item) (st : config_state) (ret : Z)
    : result (config_state * Z) :=
  match its with
  | [] => Ok (st, ret)
  | Load raw name params :: its =>
      '(st, ret) ← ts_load_module e fuel raw st name params;
      if negb (ret =? 0) then Ok (st, ret) else run_items e fuel its st ret
  | _ :: its => run_items e fuel its st ret
  end.

Lemma fgets_split_line max t r : plain t → (length t < max)%nat →
  fgets_split max (t ++ 10 :: r) = (t ++ [10], r).
Proof.
  revert max. induction t as [|c t IH]; intros max Ht Hm; (destruct max as [|max]; [cbn in Hm; lia|]); [done|].
  apply Forall_cons in Ht as [[H1 H2] Ht]. cbn [app fgets_split].
  rewrite (proj2 (Z.eqb_neq c 10)) by done. rewrite IH; [done|done|cbn in Hm; lia].
Qed.

Lemma fgets_line t r : plain t → (length t < 511)%nat → fgets BUF_SIZE (t ++ 10 :: r) = Some (t ++ [10], r).
Proof.
  intros Ht Hl. unfold fgets. destruct (t ++ 10 :: r) eqn:E; [by destruct t|]. rewrite <- E.
  rewrite fgets_split_line; [done|done|unfold BUF_SIZE; lia].
Qed.

Lemma chomp_line t : plain t → chomp (t ++ [10]) = t.
Proof.
  unfold chomp. induction 1 as [|c t [H1 H2] _ IH]; [done|]. cbn [app cstr].
  rewrite (proj2 (Z.eqb_neq c 0)) by done. cbn [until_newline].
  rewrite (proj2 (Z.eqb_neq c 10)) by done. by rewrite IH.
Qed.

Lemma line_not_too_long t : plain t → (length t < 511)%nat → too_long (t ++ [10]) = false.
Proof.
  intros Ht Hl. unfold too_long. destruct (decide (length t = 510%nat)) as [E|E].
  - change (BUF_SIZE - 2)%nat with 510%nat. rewrite lookup_app_r, E by lia. cbn [Nat.sub lookup list_lookup].
    rewrite bool_decide_true; [done|]. intros [Hin|Hin%list_elem_of_singleton]%elem_of_app; [|done].
    unfold plain in Ht. rewrite Forall_forall in Ht. by destruct (Ht 0 Hin).
  - rewrite lookup_ge_None_2; [done|]. rewrite length_app. unfold BUF_SIZE. cbn [length]. lia.
Qed.

Lemma plain_cons c t : c ≠ 0 → c ≠ 10 → plain t → plain (c :: t).
Proof. intros. by apply Forall_cons. Qed.

(** The line of an item without its newline. *)
Lemma item_line it : item_wf it → ∃ t, print_item it = t ++ [10] ∧ plain t ∧ (length t < 511)%nat.
Proof.
  intros [Hl Hw]. unfold BUF_SIZE in Hl. destruct it as [t| |raw name params]; cbn [print_item] in *.
  - exists (35 :: t). split; [done|]. split; [by apply plain_cons|]. cbn in *. rewrite length_app in Hl. cbn in Hl. lia.
  - exists []. split; [done|]. split; [constructor|cbn; lia].
  - destruct Hw as (_ & _ & Hn & Hp).
    exists (lit (if raw then "module_raw" else "module") ++ 32 :: name ++
      (match params with Some p => 32 :: p | None => [] end)).
    split; [by rewrite <- !app_assoc; cbn; rewrite <- !app_assoc|].
    assert (plain (match params with Some p => 32 :: p | None => [] end)) as Hp'.
    { destruct params; [by apply plain_cons|constructor]. }
    split.
    + apply Forall_app. split; [destruct raw; repeat constructor; done|].
      apply plain_cons; [done|done|]. by apply Forall_app.
    + rewrite !length_app in Hl. cbn [length] in Hl. rewrite !length_app in Hl. cbn [length] in Hl.
      rewrite !length_app. cbn [length]. rewrite !length_app. lia.
Qed.

Lemma next_token_word w r : w ≠ [] → is_token w → next_token (w ++ 32 :: r) = (Some r, w).
Proof. intros Hw Ht. unfold next_token. rewrite strsep_split_space by done. by destruct w. Qed.

Lemma next_token_last w : is_token w → next_token w = (None, w).
Proof. intros Ht. unfold next_token. rewrite strsep_split_token by done. by destruct w. Qed.

Lemma strsep_split_head c s : is_delim [32; 9] c = false →
  ∃ t rest, strsep_split [32; 9] (c :: s) = (c :: t, rest).
Proof. intros Hc. cbn [strsep_split]. rewrite Hc. destruct (strsep_split _ s) as [t rest]. by exists t, rest. Qed.

(** The lines that [ts_config] understands as they are meant. *)
Lemma parse_print_item it t : item_wf it → print_item it = t ++ [10] →
  parse_line t = match it with Load raw name params => LLoad raw name params | _ => LSkip end.
Proof.
  intros [_ Hw] Et. destruct it as [t'| |raw name params]; cbn [print_item] in Et.
  - change (35 :: t' ++ [10]) with ((35 :: t') ++ [10]) in Et. apply app_inj_tail in Et as [<- _].
    unfold parse_line, next_token. destruct (strsep_split_head 35 t' eq_refl) as (u & rest & ->).
    by destruct rest.
  - change [10] with ([] ++ [10]) in Et. by apply app_inj_tail in Et as [<- _].
  - destruct Hw as (Hne & Htok & _ & _). revert Et. cbn [app]. rewrite app_comm_cons, !app_assoc.
    intros [<- _]%app_inj_tail. rewrite <- !app_assoc. cbn [app]. unfold parse_line.
    assert (next_token (name ++ match params with Some p => 32 :: p | None => [] end) = (params, name)) as Hname.
    { destruct params as [p|]; [by apply next_token_word|]. rewrite app_nil_r. by apply next_token_last. }
    destruct raw; (rewrite next_token_word; [|done|repeat constructor; done]); cbn [lit]; by rewrite Hname.
Qed.

Lemma config_loop_items e fuel its : Forall item_wf its → ∀ n text st ret,
  text = concat (map print_item its) → (length text <= n)%nat →
  config_loop e n fuel text st ret = run_items e fuel its st ret.
Proof.
  induction 1 as [|it its Hit _ IH]; intros n text st ret -> Hn; [by destruct n|].
  destruct (item_line it Hit) as (t & Et & Ht & Hl). cbn [map concat] in Hn |- *. rewrite length_app in Hn.
  assert (0 < length (print_item it))%nat as Hpos by (rewrite Et, length_app; cbn; lia).
  destruct n as [|n]; [lia|]. cbn [config_loop].
  rewrite Et, <- app_assoc. cbn [app]. rewrite fgets_line by done. rewrite line_not_too_long, chomp_line by done. rewrite (parse_print_item it t) by done.
  destruct it as [t'| |raw name params]; cbn [run_items]; [apply IH; [done|lia]..|].
  destruct (ts_load_module e fuel raw st name params) as [[st' ret']|]; cbn [mbind result_bind]; [|done].
  destruct (negb (ret' =? 0)); [done|]. apply IH; [done|lia].
Qed.

(** ** The list of modules *)

(** The modules of [st] are [l], from the top, above the raw module [raw] if
    there is one; the numbers from [c_next] on are new. *)
Definition stack_ok (st : config_state) (l : list nat) : Prop :=
  chain (c_heap st) (list_ (c_ts st)) l ∧ NoDup l ∧ freed (c_heap st) = [] ∧ ∀ i, i ∈ l → (i < c_next st)%nat.

(** A module whose initialisation succeeds, with its handle. *)
Definition loads (e : environment) (name : list Z) (params : option (list Z)) : bool :=
  load_module_static e name params || bool_decide (load_module_shared e name params ≠ None).

Lemma load_top e fuel st l name params : stack_ok st l → loads e name params = true →
  ∃ st', ts_load_module e fuel false st name params = Ok (st', 0) ∧ stack_ok st' (c_next st :: l) ∧
    c_next st' = S (c_next st) ∧ list_raw (c_ts st') = list_raw (c_ts st).
Proof.
  intros (Hc & Hnd & Hf & Hlt) Hl. unfold ts_load_module, loads in *.
  assert (∀ hs ops, stack_ok (ConfigState (set_list (c_ts st) (Some (c_next st)))
    (set_next (c_heap st) (c_next st) (list_ (c_ts st))) (S (c_next st)) hs ops) (c_next st :: l)) as Hok.
  { intros hs ops. assert (c_next st ∉ l) as Hni by (intros Hin%Hlt; lia). split_and!.
    - split; [done|]. exists (list_ (c_ts st)). split; [by apply lookup_insert_eq|].
      eapply path_frame; [|exact Hc]. intros j Hj. apply lookup_insert_ne. set_solver.
    - by apply NoDup_cons.
    - done.
    - intros i [-> |Hi]%elem_of_cons; cbn; [lia|]. apply Hlt in Hi. lia. }
  cbn [mbind result_bind]. destruct (load_module_static e name params); [by eexists|].
  destruct (load_module_shared e name params); [by eexists|]. done.
Qed.

Lemma load_raw_first e fuel st name params : list_ (c_ts st) = None → list_raw (c_ts st) = None →
  freed (c_heap st) = [] → loads e name params = true →
  ∃ st', ts_load_module e fuel true st name params = Ok (st', 0) ∧ stack_ok st' [c_next st] ∧
    c_next st' = S (c_next st) ∧ list_raw (c_ts st') = Some (c_next st).
Proof.
  intros H1 H2 Hf Hl. unfold ts_load_module, loads, ts_attach_raw in *. cbn [list_ set_list_raw]. rewrite H1, H2.
  cbn [orb bool_decide mbind result_bind].
  rewrite bool_decide_true by done. cbn [orb mbind result_bind].
  assert (∀ ts hs ops, list_ ts = Some (c_next st) → stack_ok (ConfigState ts
    (set_next (c_heap st) (c_next st) None) (S (c_next st)) hs ops) [c_next st]) as Hok.
  { intros ts hs ops Hts. split_and!.
    - cbn [c_ts c_heap]. rewrite Hts. split; [done|]. exists None. split; [by apply lookup_insert_eq|done].
    - apply NoDup_singleton.
    - done.
    - intros i ->%list_elem_of_singleton. cbn. lia. }
  destruct (load_module_static e name params).
  { eexists. split; [done|]. split; [by apply Hok|done]. }
  destruct (load_module_shared e name params); [|done]. eexists. split; [done|]. split; [by apply Hok|done].
Qed.

Lemma run_filters e fuel fs st l : stack_ok st l →
  Forall (λ f : list Z * option (list Z), loads e f.1 f.2 = true) fs →
  ∃ st', run_items e fuel (map (λ f, Load false f.1 f.2) fs) st 0 = Ok (st', 0) ∧
    stack_ok st' (rev (seq (c_next st) (length fs)) ++ l) ∧
    list_raw (c_ts st') = list_raw (c_ts st).
Proof.
  intros Hst Hfs. revert st l Hst. induction Hfs as [|f fs Hf Hfs IH]; intros st l Hst; cbn [map run_items].
  { by exists st. }
  destruct (load_top e fuel st l f.1 f.2 Hst Hf) as (st1 & -> & Hst1 & Hn1 & Hr1). cbn [mbind result_bind].
  change (negb (0 =? 0)) with false. cbv iota. destruct (IH st1 _ Hst1) as (st2 & -> & Hst2 & Hr2).
  exists st2. split; [done|]. split; [|congruence]. rewrite Hn1 in Hst2. cbn [length seq rev].
  by rewrite <- app_assoc.
Qed.

(** ** Claims *)

(** C22: Writing a configuration and reading it back: for every list of comments,
    blank lines and module lines whose lines fit the buffer, with any number of
    parameters behind the names, [ts_config] loads exactly the modules of the
    list, in order, raw or not, with their parameters, up to the first that
    fails; without a raw module in the end it fails. *)
Theorem ts_config_roundtrip e fuel its st : Forall item_wf its →
  ts_config e fuel (Some (concat (map print_item its))) st =
    ('(st, ret) ← run_items e fuel its st 0;
     Ok (st, if bool_decide (list_raw (c_ts st) = None) then -1 else ret)).
Proof. intros Hits. unfold ts_config. by rewrite (config_loop_items e fuel its). Qed.

(** C21: The usual configuration, one raw module and then the filters, on a new
    device: if the modules can be initialised the result is 0, the device's list
    is the filters from the last to the first and then the raw module, so that
    each filter reads from the one configured before it, and closing the
    device frees each of them once. *)
Theorem ts_config_builds_stack e fuel raw fs ts r its :
  its = Load true raw.1 raw.2 :: map (λ f : list Z * option (list Z), Load false f.1 f.2) fs →
  Forall item_wf its → Forall (λ f, loads e f.1 f.2 = true) (raw :: fs) →
  list_ ts = None → list_raw ts = None → (S (length fs) <= fuel)%nat →
  ∃ st', ts_config e fuel (Some (concat (map print_item its))) (ConfigState ts (Heap ∅ []) 0 ∅ []) = Ok (st', 0) ∧
    chain (c_heap st') (list_ (c_ts st')) (rev (seq 0 (S (length fs)))) ∧ list_raw (c_ts st') = Some 0%nat ∧
    ∃ h, ts_close fuel (c_ts st') (c_heap st') r = Ok (h, r) ∧ freed h = seq 0 (S (length fs)).
Proof.
  intros Hits Hwf [Hraw Hfs]%Forall_cons H1 H2 Hfuel. unfold ts_config.
  rewrite (config_loop_items e fuel its) by done. rewrite Hits. cbn [run_items].
  destruct (load_raw_first e fuel (ConfigState ts (Heap ∅ []) 0 ∅ []) raw.1 raw.2) as (st1 & -> & Hst1 & Hn1 & Hr1);
    [done..|]. cbn [mbind result_bind c_next] in *. change (negb (0 =? 0)) with false. cbv iota.
  destruct (run_filters e fuel fs st1 _ Hst1 Hfs) as (st2 & -> & (Hc & Hnd & Hf & _) & Hr2).
  cbn [mbind result_bind]. rewrite Hr2, Hr1, bool_decide_false by done. exists st2. rewrite Hn1 in *.
  change (rev (seq 1 (length fs)) ++ [0%nat]) with (rev (seq 0 (S (length fs)))) in *.
  split; [done|]. split; [done|]. split; [congruence|].
  unfold ts_close. rewrite (close_loop_chain fuel _ _ _ Hc); [|done|rewrite Hf; set_solver|].
  - cbn [mbind result_bind]. eexists. split; [done|]. cbn [freed]. by rewrite Hf, rev_involutive, app_nil_r.
  - rewrite length_rev, length_seq. lia.
Qed.


(** A line that is too long, or starts with an unknown word, ends the
    configuration with the result of the lines before it, 0: the rest of the
    file is ignored without an error. *)
Theorem bad_line_is_a_success e fuel its line rest st st' : Forall item_wf its →
  run_items e fuel its st 0 = Ok (st', 0) → list_raw (c_ts st') ≠ None →
  plain line → (length line < 511)%nat → parse_line line = LUnknown →
  ts_config e fuel (Some (concat (map print_item its) ++ line ++ 10 :: rest)) st = Ok (st', 0).
Proof.
  intros Hits Hrun Hraw Hp Hl Hbad. unfold ts_config.
  assert (∀ its, Forall item_wf its → ∀ n text st ret, text = concat (map print_item its) ++ line ++ 10 :: rest →
    (length text <= n)%nat → run_items e fuel its st ret = Ok (st', 0) →
    config_loop e n fuel text st ret = Ok (st', 0)) as Hloop.
  2:{ rewrite (Hloop its) by done. cbn. by rewrite bool_decide_false. }
  clear its Hits Hrun st. induction 1 as [|it its Hit _ IH]; intros n text st ret -> Hn Hrun.
  - cbn [run_items] in Hrun. injection Hrun as -> ->. cbn [map concat app] in *. rewrite length_app in Hn. cbn in Hn.
    destruct n as [|n]; [lia|]. cbn [config_loop].
    rewrite fgets_line by done. by rewrite line_not_too_long, chomp_line, Hbad.
  - destruct (item_line it Hit) as (t & Et & Ht & Htl). cbn [map concat] in Hn |- *. rewrite <- app_assoc in Hn |- *.
    rewrite length_app in Hn.
    assert (0 < length (print_item it))%nat as Hpos by (rewrite Et, length_app; cbn; lia).
    destruct n as [|n]; [lia|]. cbn [config_loop].
    rewrite Et, <- (app_assoc t). cbn [app]. rewrite fgets_line by done. rewrite line_not_too_long, chomp_line by done. rewrite (parse_print_item it t) by done.
    destruct it as [t'| |raw name params]; cbn [run_items] in Hrun; [apply IH; [done|lia|done]..|].
    destruct (ts_load_module e fuel raw st name params) as [[st1 ret']|]; cbn [mbind result_bind] in *; [|done].
    destruct (negb (ret' =? 0)); [done|]. apply IH; [done|lia|done].
Qed.

(** ** Witnesses *)

(** The input module is linked; the filters are shared objects. *)
Definition sample_env : environment :=
  Environment [(lit "input", λ _, true)] (lit "/lib/ts")
    (λ fn, if strstr fn (lit "missing") then None else Some (Some (λ _, true))).

Definition sample_items : list item :=
  [Load true (lit "input") None; Load false (lit "pthres") (Some (lit "pmin=1")); Load false (lit "linear") None].

Definition sample_dev : tsdev := TsDev 3 None None 0 0 0.

Lemma sample_items_wf : Forall item_wf sample_items.
Proof. repeat constructor; try (vm_compute; lia); discriminate. Qed.

Lemma ts_config_roundtrip_witness :
  ∃ st, ts_config sample_env 5 (Some (lit "# touch" ++ [10; 10] ++ lit "module_raw input" ++ [10] ++
      lit "module missing delta=3 x" ++ [10] ++ lit "module linear" ++ [10]))
    (ConfigState sample_dev (Heap ∅ []) 0 ∅ []) = Ok (st, -1) ∧ c_next st = 1%nat.
Proof.
  pose proof (ts_config_roundtrip sample_env 5
    [Comment (lit " touch"); Blank; Load true (lit "input") None; Load false (lit "missing") (Some (lit "delta=3 x"));
     Load false (lit "linear") None] (ConfigState sample_dev (Heap ∅ []) 0 ∅ [])) as E.
  eexists. split; [refine (eq_trans (E _) _); [|vm_compute; reflexivity]|reflexivity].
  repeat constructor; try (vm_compute; lia); discriminate.
Defined.

Lemma ts_config_builds_stack_witness :
  ∃ st h, ts_config sample_env 5 (Some (lit "module_raw input" ++ [10] ++ lit "module pthres pmin=1" ++ [10] ++
      lit "module linear" ++ [10])) (ConfigState sample_dev (Heap ∅ []) 0 ∅ []) = Ok (st, 0) ∧
    list_ (c_ts st) = Some 2%nat ∧ ts_close 5 (c_ts st) (c_heap st) 0 = Ok (h, 0) ∧ freed h = [0; 1; 2]%nat.
Proof.
  destruct (ts_config_builds_stack sample_env 5 (lit "input", None)
    [(lit "pthres", Some (lit "pmin=1")); (lit "linear", None)] sample_dev 0 sample_items)
    as (st & E & (Hl & _) & _ & h & Eh & Hf).
  - reflexivity.
  - exact sample_items_wf.
  - repeat constructor.
  - reflexivity.
  - reflexivity.
  - cbn. lia.
  - exists st, h. split; [exact E|]. split; [exact Hl|]. split; [exact Eh|exact Hf].
Defined.


