(* ===== verification/JpegCodec.v ===== *)
(** * JpegCodec: the sessions with the JPEG engine

    Models the function [jpegCodec] of src/jpeg_codec/jpeg_demo.c: reading a file into the engine's memory while
    its header is scanned, setting the parameters, starting the engine,
    waiting for the result and writing it to a file.  The engine and the
    files are a [Driver]; the memory that program and engine share is a list of
    bytes, which a request that starts the engine carries and the answer of
    the wait replaces. *)
From stdpp Require Import functions.
From S2P Require Import Prelude LibC Bytes Device JpegHeader.
Local Open Scope cmodel_scope.
Local Open Scope Z_scope.

(** ** Parameters *)

(** The fields of jpeg_param_t that the sessions set. *)
Inductive field :=
| decopw_vaddr | decopw_en | decopw_TargetBuffersize | vaddr_dst | paddr_dst | src_bufsize | dst_bufsize
| dec_stride | windec_en | windec_mcux_start | windec_mcux_end | windec_mcuy_start | windec_mcuy_end
| windec_stride | decode_output_format | encode | scale | scaled_width | scaled_height
| decInWait_buffer_size | encode_width | encode_height | encode_source_format | encode_image_format
| buffersize | buffercount.

#[export] Instance field_eq_dec : EqDecision field.
Proof. solve_decision. Defined.

(** A __u32 for each field. *)
Definition jpeg_param_t : Type := field → Z.
Definition no_param : jpeg_param_t := λ _, 0.
Definition assign (l : list (field * Z)) (p : jpeg_param_t) : jpeg_param_t :=
  foldl (λ p a, <[a.1 := u32 a.2]> p) p l.

Definition JPEG_DECODED_IMAGE : Z := 11.
Definition JPEG_MEM_SHORTAGE : Z := 15.
Definition DRVJPEG_DEC_PRIMARY_PACKET_RGB565 : Z := 0x06021.
Definition DRVJPEG_ENC_SRC_PACKET : Z := 1.
Definition DRVJPEG_ENC_PRIMARY_YUV420 : Z := 0xA0.
Definition JPEG_DECIPW_BUFFER_EMPTY : Z := 1.

(** ** Requests *)

Inductive creq :=
| CMalloc (size : Z)
| CFree
| FOpen (name : list Z)
| FClose
| Select
| JPEG_S_PARAM (p : jpeg_param_t)
| JPEG_TRIGGER (mem : list Z)
| CRead
| JPEG_SET_ENCOCDE_RESERVED (size : Z)
| JPEG_SET_ENC_USER_QTABLE (n : Z) (table : list Z)
| JPEG_ACTIVE_ENC_USER_QTABLE
| JPEG_ACTIVE_ENC_DEFAULTQTABLE
| JPEG_SET_ENC_STRIDE (stride : Z)
| JPEG_DECIPW_BUFFER_STATE
| JPEG_STATE
| JPEG_G_DECIPW_BUFFER_SIZE
| EngineWrite (data : list Z)
| JPEG_DECODE_RESUME
| FCreate (name data : list Z)
| CSleep (us : Z)
| ReadWord
| ReadInt
| GetChar.

(** What read() stores in jpeg_info_t, and the engine's memory, the buffer of
    the output wait and the frame buffer as the engine left them. *)
Record jpeg_info := JpegInfo {
  r_len : Z; i_width : Z; i_height : Z; i_state : Z; image_size : Z;
  r_mem : list Z; r_opw : list Z; r_video : list Z
}.

(** A file is given by its text, [None] when it cannot be opened; a new file,
    which is given its data, by its descriptor and the results of the writes.  scanf of a number delivers
    none when what is typed is not one. *)
Definition creply (r : creq) : Type :=
  match r with
  | CMalloc _ => bool
  | FOpen _ => option (list Z)
  | Select => bool
  | CRead => jpeg_info
  | JPEG_G_DECIPW_BUFFER_SIZE => Z * Z
  | FCreate _ _ => Z * list Z
  | ReadWord => list Z
  | ReadInt => option Z
  | CFree | FClose | EngineWrite _ | CSleep _ => unit
  | _ => Z
  end.

(** ** State *)

(** The globals (and the locals width and height, which start with any values,
    in [parsed]): parameters, the engine's memory, the frame buffer, the result
    of the scanner, the choice of the table, the buffer of the output wait, and
    the files written so far. *)
Record codec := Codec {
  jpeg_param : jpeg_param_t;
  pJpegBuffer : list Z;
  pVideoBuffer : list Z;
  parsed : jpeg_out;
  g_qtflag : bool;
  pJpegSWaddr : option (list Z);
  outputs : list (list Z * list Z);
}.

Definition set_param (f : jpeg_param_t → jpeg_param_t) (c : codec) : codec :=
  Codec (f (jpeg_param c)) (pJpegBuffer c) (pVideoBuffer c) (parsed c) (g_qtflag c) (pJpegSWaddr c) (outputs c).
Definition set_mem (m : list Z) (c : codec) : codec :=
  Codec (jpeg_param c) m (pVideoBuffer c) (parsed c) (g_qtflag c) (pJpegSWaddr c) (outputs c).
Definition set_video (m : list Z) (c : codec) : codec :=
  Codec (jpeg_param c) (pJpegBuffer c) m (parsed c) (g_qtflag c) (pJpegSWaddr c) (outputs c).
Definition set_parsed (o : jpeg_out) (c : codec) : codec :=
  Codec (jpeg_param c) (pJpegBuffer c) (pVideoBuffer c) o (g_qtflag c) (pJpegSWaddr c) (outputs c).
Definition set_opw (m : option (list Z)) (c : codec) : codec :=
  Codec (jpeg_param c) (pJpegBuffer c) (pVideoBuffer c) (parsed c) (g_qtflag c) m (outputs c).
Definition add_output (name data : list Z) (c : codec) : codec :=
  Codec (jpeg_param c) (pJpegBuffer c) (pVideoBuffer c) (parsed c) (g_qtflag c) (pJpegSWaddr c)
    (outputs c ++ [(name, data)]).

(** [memcpy] and [memset] out of or into a buffer. *)
Definition load_bytes (buf : list Z) (off len : Z) : result (list Z) :=
  if (0 <=? off) && (0 <=? len) && (off + len <=? Z.of_nat (length buf))
  then Ok (sub_bytes buf off len) else Crash OutOfBounds.
Definition memset (buf : list Z) (c n : Z) : result (list Z) := blit buf 0 (replicate (Z.to_nat n) c).

(** [if(n % 4) n = (n & ~0x3) + 4;] *)
Definition round4 (n : Z) : Z := if negb (n mod 4 =? 0) then Z.land n (-4) + 4 else n.

(** The panel and the address of its memory. *)
Record panel := Panel { xres : Z; yres : Z; fb_paddress : Z; fb_vaddr : Z; opw_vaddr : Z }.

(** The file is read in blocks of 4096 bytes. *)
Definition block : nat := 4096.
Lemma block_val : Z.of_nat block = 4096.
Proof. reflexivity. Qed.
#[global] Opaque block.

Section operations.
Context {D : Type} `{Driver creq creply D}.
Notation P := (prog codec creq D).

(** The loop that reads the file: [text] is what is left of it, [count] the
    bytes read, [done] whether the header needs no scan (any more).  [None] is
    the early return. *)
Fixpoint load (fuel : nat) (limit : Z) (text : list Z) (eof : bool) (count : Z) (done : bool) : P (option Z) :=
  if eof then mret (Some count) else
  match fuel with
  | O => fault OutOfFuel
  | S fuel =>
      ready ⇐ Select;
      c ← get;
      let chunk := if (ready : bool) then take block text else [] in
      mem ← lift (if (ready : bool) then blit (pJpegBuffer c) count chunk else Ok (pJpegBuffer c));
      _ ← modify (set_mem mem);
      let text := if (ready : bool) then drop block text else text in
      let eof := if (ready : bool) then Z.of_nat (length chunk) <? 4096 else eof in
      let count := u32 (count + Z.of_nat (length chunk)) in
      done ← (if (done : bool) then mret true else
                r ← lift (ParsingJPEG (parsed c) mem count);
                _ ← modify (set_parsed r.1);
                mret (r.2 =? 0));
      if limit <? count then mret None else load fuel limit text eof count done
  end.

(** [Write2File]: the file and what it then holds. *)
Definition write_file (name : list Z) (bytes : result (list Z)) : P Z :=
  data ← lift bytes;
  rp ⇐ FCreate name data;
  r ← lift (Write2File rp.1 rp.2 data (Z.of_nat (length data)));
  _ ← modify (if rp.1 <? 0 then id else add_output name r.1);
  mret r.2.

(** Waiting for the engine, which has written its memory; [None] is a failure.
    The result of the malloc of the information is not tested before use. *)
Definition wait (info : bool) : P (option jpeg_info) :=
  i ⇐ CRead;
  _ ← modify (λ c, set_opw (match pJpegSWaddr c with Some _ => Some (r_opw i) | None => None end)
                     (set_video (r_video i) (set_mem (r_mem i) c)));
  if r_len i <? 0 then mret None else
  if info then mret (Some i) else fault NullDeref.

(** Parameters and trigger; [false] is a failure. *)
Definition start : P bool :=
  c ← get;
  r ⇐ JPEG_S_PARAM (jpeg_param c);
  if (r : Z) <? 0 then mret false else
  r ⇐ JPEG_TRIGGER (pJpegBuffer c);
  mret (negb ((r : Z) <? 0)).
End operations.

Inductive mode :=
| TEST_NORMAL_DECODE | TEST_DECODE_DOWNSCALE | TEST_DECODE_OUTPUTWAIT | TEST_DECODE_DOWNSCALE_FB
| TEST_NORMAL_ENCODE | TEST_ENCODE_UPSCALE | TEST_ENCODE_RESERVED.

#[export] Instance mode_eq_dec : EqDecision mode.
Proof. solve_decision. Defined.

Definition is_decode (m : mode) : bool :=
  bool_decide (m = TEST_NORMAL_DECODE ∨ m = TEST_DECODE_DOWNSCALE ∨ m = TEST_DECODE_OUTPUTWAIT ∨
               m = TEST_DECODE_DOWNSCALE_FB).
Definition is_downscale (m : mode) : bool := bool_decide (m = TEST_DECODE_DOWNSCALE ∨ m = TEST_DECODE_DOWNSCALE_FB).

Section jpegCodec.
Context {D : Type} `{Driver creq creply D}.
Notation P := (prog codec creq D).
Context (pn : panel).

(** The parameters of a decoding before the file is read. *)
Definition decode_param (m : mode) (p : jpeg_param_t) : jpeg_param_t :=
  let p := assign [(encode, 0); (src_bufsize, 100*1024); (dst_bufsize, 640*480*2);
                   (decInWait_buffer_size, 0); (decopw_en, 0); (windec_en, 0)] p in
  if is_downscale m then
    assign [(scale, 1); (scaled_width, 320); (scaled_height, 240); (dec_stride, xres pn)] p
  else if bool_decide (m = TEST_DECODE_OUTPUTWAIT) then
    assign [(src_bufsize, 600*1024); (dst_bufsize, 200*1024); (decInWait_buffer_size, 0);
            (decopw_en, 1); (scale, 0)] p
  else assign [(dec_stride, 0); (scale, 0)] p.

(** The offset of the 320x240 picture in the middle of the panel (RGB565). *)
Definition centre_offset : Z :=
  u32 (2 * u32 (u32 (xres pn * (u32 (yres pn - 240) / 2)) + u32 (xres pn - 320) / 2)).

(** After the file was read. *)
Definition decode_param_after (m : mode) (p : jpeg_param_t) : jpeg_param_t :=
  let p := assign [(buffersize, 0); (buffercount, 1);
                   (decode_output_format, DRVJPEG_DEC_PRIMARY_PACKET_RGB565)] p in
  if bool_decide (m = TEST_DECODE_DOWNSCALE_FB) then
    assign [(paddr_dst, fb_paddress pn + centre_offset); (vaddr_dst, fb_vaddr pn + centre_offset)] p
  else p.

(** The buffer of the output wait: the width is made even, and memory for the
    picture is allocated; the result of malloc is not tested. *)
Definition output_wait : P unit :=
  c ← get;
  let w := Width (parsed c) in
  let w := if negb (Z.rem w 2 =? 0) then s32 (Z.land w (-2) + 2) else w in
  _ ← modify (set_param (assign [(dec_stride, w)]));
  let size := s32 (w * Height (parsed c) * 4) in
  ok ⇐ CMalloc (u32 size);
  _ ← modify (set_opw (if (ok : bool) then Some [] else None));
  modify (set_param (assign [(decopw_TargetBuffersize, size); (decopw_vaddr, if (ok : bool) then opw_vaddr pn else 0)])).

Definition decode_name (m : mode) : list Z :=
  if bool_decide (m = TEST_DECODE_OUTPUTWAIT) then lit "./jpegOPW.jpg" else lit "./jpegDec.jpg".

(** Writing the decoded picture; [uVideoSize] is the size of the frame buffer. *)
Definition write_decoded (m : mode) (uVideoSize : Z) (i : jpeg_info) : P Z :=
  c ← get;
  let src := jpeg_param c src_bufsize in
  match m with
  | TEST_DECODE_DOWNSCALE =>
      img ← lift (load_bytes (pJpegBuffer c) src (image_size i));
      v ← lift (blit (pVideoBuffer c) 0 img);
      _ ← modify (set_video v);
      write_file (lit "./DecodeDownscale.dat") (Ok img)
  | TEST_DECODE_DOWNSCALE_FB =>
      write_file (lit "./DecodeDownscaleFB.dat") (load_bytes (pVideoBuffer c) 0 uVideoSize)
  | TEST_DECODE_OUTPUTWAIT =>
      write_file (lit "./DecodeOPW.dat")
        (match pJpegSWaddr c with Some b => load_bytes b 0 (image_size i) | None => Crash NullDeref end)
  | _ => write_file (lit "./NormalDecode.dat") (load_bytes (pJpegBuffer c) src (image_size i))
  end.

(** The label [out]. *)
Definition codec_out (m : mode) : P Z :=
  _ ⇐ CFree;
  _ ← (if bool_decide (m = TEST_DECODE_OUTPUTWAIT) then _ ⇐ CFree; mret tt else mret tt);
  mret 0.

Definition decode_session (fuel : nat) (m : mode) (uVideoSize : Z) (info : bool) : P Z :=
  _ ← modify (set_param (decode_param m));
  c ← get;
  let BufferSize := jpeg_param c src_bufsize + jpeg_param c dst_bufsize in
  if Z.of_nat (length (pJpegBuffer c)) <? BufferSize then codec_out m else
  _ ← (if is_downscale m then
         mem ← lift (memset (pJpegBuffer c) 0x77 BufferSize);
         video ← lift (memset (pVideoBuffer c) 0x77 BufferSize);
         modify (λ c, set_video video (set_mem mem c))
       else mret tt);
  fp ⇐ FOpen (decode_name m);
  match fp with
  | None => mret 0
  | Some text =>
      r ← load fuel (jpeg_param c src_bufsize) text false 0 false;
      match r with
      | None => mret 0
      | Some count =>
          let count := round4 count in
          _ ← modify (set_param (assign [(src_bufsize, count); (dst_bufsize, BufferSize - count)]));
          _ ← (if bool_decide (m = TEST_DECODE_OUTPUTWAIT) then output_wait else mret tt);
          _ ← modify (set_param (decode_param_after m));
          ok ← start;
          if negb ok then codec_out m else
          i ← wait info;
          match i with
          | None => codec_out m
          | Some i =>
              _ ← (if i_state i =? JPEG_DECODED_IMAGE then _ ← write_decoded m uVideoSize i; mret tt else mret tt);
              codec_out m
          end
      end
  end.

(** *** Encoding *)

Definition encode_param (p : jpeg_param_t) : jpeg_param_t :=
  assign [(encode, 1); (src_bufsize, 640*480*2); (dst_bufsize, 100*1024); (encode_width, 640);
          (encode_height, 480); (encode_source_format, DRVJPEG_ENC_SRC_PACKET);
          (encode_image_format, DRVJPEG_ENC_PRIMARY_YUV420); (buffersize, 0); (buffercount, 1)] p.

(** The 1024 bytes of the application: 0, 1, ..., 255, 0, ... *)
Definition reserved_bytes : list Z := map u8 (seqZ 0 1024).

Definition reserve_space : P unit :=
  c ← get;
  mem ← lift (blit (pJpegBuffer c) (jpeg_param c src_bufsize + 6) reserved_bytes);
  _ ← modify (set_mem mem);
  _ ⇐ JPEG_SET_ENCOCDE_RESERVED 1024;
  mret tt.

Definition g_au8QT0 : list Z := replicate 64 1.
Definition g_au8QT1 : list Z := replicate 64 2.

Definition choose_table : P unit :=
  c ← get;
  if g_qtflag c then
    _ ⇐ JPEG_SET_ENC_USER_QTABLE 0 g_au8QT0;
    _ ⇐ JPEG_SET_ENC_USER_QTABLE 1 g_au8QT1;
    _ ⇐ JPEG_ACTIVE_ENC_USER_QTABLE; mret tt
  else _ ⇐ JPEG_ACTIVE_ENC_DEFAULTQTABLE; mret tt.

Definition encoded_name (m : mode) : list Z :=
  match m with
  | TEST_ENCODE_UPSCALE => lit "./EncodeUpscale.jpg"
  | TEST_ENCODE_RESERVED => lit "./NormalEncodeReserved.jpg"
  | _ => lit "./NormalEncode.jpg"
  end.

Definition encode_session (fuel : nat) (m : mode) (info : bool) : P Z :=
  _ ← modify (set_param encode_param);
  _ ← (if bool_decide (m = TEST_ENCODE_RESERVED) then reserve_space else mret tt);
  _ ← modify (set_param (if bool_decide (m = TEST_ENCODE_UPSCALE)
                         then assign [(scaled_width, 800); (scaled_height, 600); (scale, 1)]
                         else assign [(scale, 0)]));
  _ ← choose_table;
  c ← get;
  r ⇐ JPEG_S_PARAM (jpeg_param c);
  if (r : Z) <? 0 then codec_out m else
  let BufferSize := jpeg_param c src_bufsize + jpeg_param c dst_bufsize in
  if Z.of_nat (length (pJpegBuffer c)) <? BufferSize then codec_out m else
  fp ⇐ FOpen (lit "./jpegEnc.dat");
  match fp with
  | None => mret 0
  | Some text =>
      r ← load fuel (jpeg_param c src_bufsize) text false 0 true;
      match r with
      | None => mret 0
      | Some _ =>
          c ← get;
          r ⇐ JPEG_TRIGGER (pJpegBuffer c);
          if (r : Z) <? 0 then codec_out m else
          i ← wait info;
          match i with
          | None => if info then codec_out m else fault NullDeref
          | Some i =>
              c ← get;
              _ ← (if bool_decide (m = TEST_ENCODE_RESERVED)
                   then lift (read_be16 (pJpegBuffer c) (jpeg_param c src_bufsize + 4)) else mret 0);
              _ ← write_file (encoded_name m) (load_bytes (pJpegBuffer c) (jpeg_param c src_bufsize) (image_size i));
              codec_out m
          end
      end
  end.

Definition jpegCodec (fuel : nat) (m : mode) (uVideoSize jpeginfo_size : Z) : P Z :=
  _ ← modify (set_param (λ _, no_param));
  info ⇐ CMalloc jpeginfo_size;
  if is_decode m then decode_session fuel m uVideoSize info else encode_session fuel m info.
End jpegCodec.

Ltac one_of H := repeat (apply elem_of_cons in H as [-> | H]); [..|by apply elem_of_nil in H].

(** ** An engine and a file system that cooperate

    The engine's information depends on what it was told since it was opened;
    it leaves the size of its memory as it is.  Every request is accepted, and
    new files can be written. *)
Definition is_ioctl (r : creq) : bool :=
  match r with
  | CMalloc _ | CFree | FOpen _ | FClose | Select | CRead | FCreate _ _ | CSleep _ | ReadWord | ReadInt | GetChar => false
  | _ => true
  end.

Class JpegEngine (D : Type) `{Driver creq creply D} := {
  told : D → list creq;
  disk : D → list Z → option (list Z);
  engine : list creq → jpeg_info;
  told_after (d : D) r : told (respond d r).1 = told d ++ (if is_ioctl r then [r] else []);
  disk_after (d : D) r : (∀ name data, r ≠ FCreate name data) → disk (respond d r).1 = disk d;
  engine_ready (d : D) : (respond d Select).2 = true;
  accepts_param (d : D) p : 0 <= (respond d (JPEG_S_PARAM p)).2;
  accepts_trigger (d : D) mem : 0 <= (respond d (JPEG_TRIGGER mem)).2;
  engine_delivers (d : D) : (respond d CRead).2 = engine (told d);
  engine_succeeds l : 0 <= r_len (engine l);
  engine_memory l mem : length (r_mem (engine (l ++ [JPEG_TRIGGER mem]))) = length mem;
  opens (d : D) name : (respond d (FOpen name)).2 = disk d name;
  creates (d : D) name data : 0 <= (respond d (FCreate name data)).2.1 ∧
    full_writes (Z.of_nat (length data)) (respond d (FCreate name data)).2.2;
  mallocs (d : D) n : (respond d (CMalloc n)).2 = true
}.

Section sessions.
Context {D : Type} `{Heng : JpegEngine D}.
Implicit Types w : world codec creq D.

(** The driver after requests. *)
Definition drive (d : D) (rs : list creq) : D := foldl (λ d r, (respond d r).1) d rs.

(** The world after requests: the program's state may be another one. *)
Record follows w (rs : list creq) w' : Prop := {
  follows_trace : trace w' = trace w ++ rs;
  follows_driver : driver w' = drive (driver w) rs
}.

Lemma told_drive rs : ∀ d, told (drive d rs) = told d ++ filter (λ r, is_ioctl r = true) rs.
Proof.
  induction rs as [|r rs IH]; intros d; [by rewrite app_nil_r|].
  change (drive d (r :: rs)) with (drive (respond d r).1 rs). rewrite IH, told_after, <- app_assoc.
  f_equal. unfold filter. cbn [list_filter]. by destruct (is_ioctl r).
Qed.

Lemma disk_drive rs : ∀ d, (∀ name data, FCreate name data ∉ rs) → disk (drive d rs) = disk d.
Proof.
  induction rs as [|r rs IH]; intros d Hne; [done|].
  change (drive d (r :: rs)) with (drive (respond d r).1 rs). rewrite IH.
  - apply disk_after. intros name data ->. apply (Hne name data). by left.
  - intros name data Hin. apply (Hne name data). by right.
Qed.

Lemma follows_told w rs w' : follows w rs w' → told (driver w') = told (driver w) ++ filter (λ r, is_ioctl r = true) rs.
Proof. intros [_ ->]. apply told_drive. Qed.
Lemma follows_disk w rs w' : follows w rs w' → (∀ name data, FCreate name data ∉ rs) → disk (driver w') = disk (driver w).
Proof. intros [_ ->]. apply disk_drive. Qed.

Lemma follows_refl w s : follows w [] (with_vars w s).
Proof. split; cbn; by rewrite ?app_nil_r. Qed.

Lemma follows_after w r : follows w [r] (Device.after w r).
Proof. by split. Qed.

Lemma follows_trans w1 w2 w3 rs1 rs2 : follows w1 rs1 w2 → follows w2 rs2 w3 → follows w1 (rs1 ++ rs2) w3.
Proof.
  intros [T1 U1] [T2 U2]. split; [by rewrite T2, T1, app_assoc|]. rewrite U2, U1. unfold drive. by rewrite foldl_app.
Qed.

Lemma follows_vars w rs w' s : follows w rs w' → follows w rs (with_vars w' s).
Proof. intros [T U]. by split. Qed.

Lemma follows_from w rs w' s : follows (with_vars w s) rs w' → follows w rs w'.
Proof. intros [T U]. by split. Qed.

Lemma write_file_run name bytes data w : bytes = Ok data → is_s32 (Z.of_nat (length data)) →
  ∃ w', write_file name bytes w = Ok (0, w') ∧ follows w [FCreate name data] w' ∧
    vars w' = add_output name data (vars w).
Proof.
  intros -> Hs. unfold write_file. rewrite lift_run, request_run.
  destruct (creates (driver w) name data) as [Hfd Hf]. unfold answer.
  unfold Write2File. rewrite (proj2 (Z.ltb_ge _ _)) by done. rewrite lift_run.
  pose proof (write_loop_full (respond (driver w) (FCreate name data)).2.2 data (Z.of_nat (length data)) 0) as E.
  rewrite take_0 in E. rewrite E; [|lia|done|done|by rewrite Z.sub_0_r].
  rewrite modify_run. eexists. split; [done|]. split; [apply follows_vars, follows_after|done].
Qed.

Lemma load_eof fuel limit text count done : load fuel limit text true count done = mret (Some count).
Proof. by destruct fuel. Qed.

(** What the scanner needs of the bytes it is given. *)
Definition scannable (o : jpeg_out) (mem text front : list Z) : Prop :=
  Forall is_u8 text ∧ Forall is_u8 mem ∧ length (appOffset o) = MAX_APP ∧ length (appSize o) = MAX_APP ∧
  (length (scan_all 0 front).1 <= MAX_APP)%nat.

(** One turn of the loop that reads the file. *)
Lemma load_turn fuel limit text count (done : bool) w :
  let c := vars w in
  let mem := pJpegBuffer c in
  let chunk := take block text in
  let front := take (Z.to_nat count) mem ++ chunk in
  let r := scan_all 0 front in
  0 <= count → count + Z.of_nat (length text) <= limit ∧ count + Z.of_nat (length text) < Z.of_nat (length mem) →
  is_s32 limit → (done = false → scannable (parsed c) mem text front) →
  ∃ o (done' : bool), load (S fuel) limit text false count done w =
      load fuel limit (drop block text) (Z.of_nat (length chunk) <? 4096) (count + Z.of_nat (length chunk)) done'
        (with_vars (Device.after w Select) (set_parsed o (set_mem (front ++ drop (length front) mem) c))) ∧
    (if done then done' = true ∧ o = parsed c
     else length (appOffset o) = MAX_APP ∧ length (appSize o) = MAX_APP ∧
          reports (parsed c) o r ∧ (done' = true → r.2 ≠ None)).
Proof.
  pose proof block_val as Hblock. intros c mem chunk front r H0 Hlim Hs Hscan. unfold is_s32 in Hs.
  assert (length chunk <= length text)%nat as Hl by (unfold chunk; rewrite length_take; lia).
  assert (length front = Z.to_nat (count + Z.of_nat (length chunk))) as Hfr
    by (unfold front; rewrite length_app, length_take; lia).
  assert (Z.of_nat (length (front ++ drop (length front) mem)) = Z.of_nat (length mem)) as Hlm
    by (rewrite length_app, length_drop; lia).
  cbn [load]. rewrite request_run. unfold Device.answer. rewrite engine_ready, get_run.
  change (vars (Device.after w Select)) with c. fold mem chunk. rewrite lift_run.
  assert (blit mem count chunk = Ok (front ++ drop (length front) mem)) as ->.
  { unfold blit. rewrite !(proj2 (Z.leb_le _ _)) by lia. cbn [andb]. unfold front at 1. rewrite <- app_assoc, Hfr.
    repeat f_equal. lia. }
  rewrite modify_run. change (vars (with_vars (Device.after w Select) _)) with (set_mem (front ++ drop (length front) mem) c).
  rewrite u32_id by (unfold is_u32; lia). rewrite (proj2 (Z.ltb_ge limit _)) by lia.
  destruct done; [by exists (parsed c), true|]. destruct (Hscan eq_refl) as (Ht & Hm & Ho & Hz & Hr).
  assert (Forall is_u8 (front ++ drop (length front) mem)) as Hu.
  { unfold front. repeat apply Forall_app_2; by repeat first [apply Forall_take|apply Forall_drop]. }
  edestruct (ParsingJPEG_reports (parsed c) (front ++ drop (length front) mem) (count + Z.of_nat (length chunk)))
    as (o & Eo & Hrep & Hlo); [done|lia|unfold is_s32; lia|done..|rewrite <- Hfr, take_app_length; exact Hr|].
  rewrite <- Hfr, take_app_length in Eo, Hrep. exists o, (if r.2 then true else false). fold r in Eo.
  rewrite bind_run, lift_run. cbn [parsed set_mem]. rewrite Hfr in *. rewrite Eo, modify_run, mret_run.
  cbn [fst snd]. split; [by destruct r.2|]. split; [apply Hlo|]. split; [apply Hlo|]. split; [done|].
  by destruct r.2.
Qed.

(** Reading the file: it is placed at the front of the engine's memory, in as
    many turns as it has blocks of 4096 bytes and one more; the scanner has
    found what the reference finds in the whole file. *)
Lemma load_run fuel limit : ∀ text count (done : bool) w,
  let c := vars w in
  let mem := pJpegBuffer c in
  let whole := take (Z.to_nat count) mem ++ text in
  let r := scan_all 0 whole in
  (length text / block < fuel)%nat → 0 <= count → count + Z.of_nat (length text) <= limit ∧ count + Z.of_nat (length text) < Z.of_nat (length mem) →
  is_s32 limit → (done = false → scannable (parsed c) mem text whole) →
  ∃ w' o, load fuel limit text false count done w = Ok (Some (count + Z.of_nat (length text)), w') ∧
    follows w (replicate (S (length text / block)) Select) w' ∧
    vars w' = set_parsed o (set_mem (whole ++ drop (length whole) mem) c) ∧
    (if done then o = parsed c else reports (parsed c) o r).
Proof.
  pose proof block_val as Hblock.
  induction fuel as [|fuel IH]; intros text count done w c mem whole r Hf H0 Hlim Hs Hscan; [lia|].
  assert (take (Z.to_nat count) mem ++ take block text = take (Z.to_nat count + block) whole) as Hfront.
  { unfold whole. rewrite take_app_ge by (rewrite length_take; lia). do 2 f_equal. rewrite length_take. lia. }
  set (r1 := scan_all 0 (take (Z.to_nat count) mem ++ take block text)).
  assert (done = false → (length r1.1 <= length r.1)%nat ∧ (r1.2 ≠ None → r = r1)) as Hfound.
  { intros (Ht & Hm & _)%Hscan. unfold r1. rewrite Hfront. apply scan_front.
    apply Forall_app_2; [by apply Forall_take|done]. }
  edestruct (load_turn fuel limit text count done w) as (o & done' & -> & Hdone); [done|done|done| |].
  { intros Hd. destruct (Hscan Hd) as (? & ? & ? & ? & Hr), (Hfound Hd) as [Hle _].
    repeat (split; [done|]). exact (Nat.le_trans _ _ _ Hle Hr). }
  fold c mem r1 in Hdone |- *. set (w1 := with_vars _ _).
  assert (follows w [Select] w1) as Hw1 by apply follows_vars, follows_after.
  destruct (Z.ltb_spec (Z.of_nat (length (take block text))) 4096) as [Hlast|Hmore]; rewrite length_take in *.
  - rewrite load_eof. assert (take block text = text) as Eall by (apply take_ge; lia).
    exists w1, o. rewrite (Nat.div_small (length text)) by lia.
    split; [rewrite mret_run; do 3 f_equal; lia|]. split; [done|].
    split; [unfold w1; cbn [vars with_vars]; by rewrite Eall|]. unfold r1 in Hdone. rewrite Eall in Hdone.
    destruct done; [by destruct Hdone|]. apply Hdone.
  - replace (length text / block)%nat with (S (length (drop block text) / block)) in *.
    2:{ rewrite length_drop. replace (length text) with ((length text - block) + 1 * block)%nat at 2 by lia.
        rewrite Nat.div_add by lia. lia. }
    replace (Z.of_nat (block `min` length text)) with 4096 by lia.
    set (front := take (Z.to_nat count) mem ++ take block text) in *.
    assert (pJpegBuffer (vars w1) = front ++ drop (length front) mem) as Em by done.
    assert (length front = Z.to_nat (count + 4096)) as Hlf by (unfold front; rewrite length_app, !length_take; lia).
    assert (take (Z.to_nat (count + 4096)) (pJpegBuffer (vars w1)) ++ drop block text = whole) as Ewhole.
    { rewrite Em, <- Hlf, take_app_length. unfold front. by rewrite <- app_assoc, take_drop. }
    assert (length (pJpegBuffer (vars w1)) = length mem) as Elm
      by (rewrite Em, length_app, length_drop; lia).
    specialize (IH (drop block text) (count + 4096) done' w1). cbv zeta in IH. rewrite Ewhole, Elm in IH.
    destruct IH as (w' & o' & E & Hfol & Hv & Hrep); [lia|lia|rewrite length_drop; lia|done| |].
    { intros ->. destruct done; [by destruct Hdone|]. destruct (Hscan eq_refl) as (Ht & Hm & _ & _ & Hr).
      destruct Hdone as (Ho & Hz & _). split_and!; [by apply Forall_drop| |done..].
      rewrite Em, Hfront. apply Forall_app_2; [|by apply Forall_drop].
      apply Forall_take, Forall_app_2; [by apply Forall_take|done]. }
    exists w', o'. split; [rewrite E, length_drop; do 3 f_equal; lia|]. split; [exact (follows_trans _ _ _ _ _ Hw1 Hfol)|].
    split.
    + rewrite Hv, Em. unfold w1. cbn [vars with_vars]. unfold set_parsed, set_mem. cbn. do 2 f_equal.
      rewrite drop_app_ge by (rewrite Hlf; unfold whole; rewrite length_app, length_take; lia). rewrite drop_drop.
      f_equal. rewrite Hlf. unfold whole. rewrite length_app, length_take. lia.
    + destruct done; [destruct Hdone as [-> ->]; by rewrite Hrep|].
      destruct Hdone as (_ & _ & Hr1 & Hd), (Hfound eq_refl) as [_ Hall]. destruct done'.
      * rewrite Hrep, (Hall (Hd eq_refl)). exact Hr1.
      * unfold reports in *. destruct Hrep as (? & ? & Hsize). split; [done|]. split; [done|]. rewrite Hsize.
        change (parsed (vars w1)) with o. fold r. destruct r.2 as [|] eqn:Er2; [done|]. cbn [default].
        destruct r1.2 eqn:E2; [|by destruct Hr1 as (_ & _ & Hr1)].
        rewrite Hall in Er2 by done. congruence.
Qed.

Lemma start_run w :
  ∃ w', start w = Ok (true, w') ∧ vars w' = vars w ∧
    follows w [JPEG_S_PARAM (jpeg_param (vars w)); JPEG_TRIGGER (pJpegBuffer (vars w))] w'.
Proof.
  unfold start. rewrite get_run, request_run. unfold Device.answer at 1.
  rewrite (proj2 (Z.ltb_ge _ _)) by apply accepts_param. rewrite request_run. unfold Device.answer.
  rewrite (proj2 (Z.ltb_ge _ _)) by apply accepts_trigger. eexists. split; [done|]. split; [done|].
  exact (follows_trans _ _ _ [_] [_] (follows_after w _) (follows_after _ _)).
Qed.

Lemma wait_run w :
  let i := engine (told (driver w)) in
  ∃ w', wait true w = Ok (Some i, w') ∧ follows w [CRead] w' ∧
    jpeg_param (vars w') = jpeg_param (vars w) ∧ pJpegBuffer (vars w') = r_mem i ∧
    pVideoBuffer (vars w') = r_video i ∧ parsed (vars w') = parsed (vars w) ∧
    outputs (vars w') = outputs (vars w) ∧
    g_qtflag (vars w') = g_qtflag (vars w) ∧
    pJpegSWaddr (vars w') = match pJpegSWaddr (vars w) with Some _ => Some (r_opw i) | None => None end.
Proof.
  intros i. unfold wait. rewrite request_run. unfold Device.answer. rewrite engine_delivers, modify_run. fold i.
  rewrite (proj2 (Z.ltb_ge _ _)) by apply engine_succeeds. eexists. split; [done|].
  split; [apply follows_vars, follows_after|done].
Qed.

Lemma codec_out_run m w : m ≠ TEST_DECODE_OUTPUTWAIT →
  ∃ w', codec_out m w = Ok (0, w') ∧ follows w [CFree] w' ∧ vars w' = vars w.
Proof.
  intros Hm. unfold codec_out. rewrite request_run, bool_decide_false by done. eexists.
  split; [done|]. split; [apply follows_after|done].
Qed.
End sessions.

Lemma load_bytes_Ok buf off len :
  0 <= off → 0 <= len → off + len <= Z.of_nat (length buf) → load_bytes buf off len = Ok (sub_bytes buf off len).
Proof. intros. unfold load_bytes. by rewrite !(proj2 (Z.leb_le _ _)) by lia. Qed.

Lemma round4_bounds n : 0 <= n → n <= round4 n < n + 4.
Proof.
  intros Hn. unfold round4. destruct (Z.eqb_spec (n mod 4) 0); cbn [negb]; [lia|].
  change (-4) with (Z.lnot (Z.ones 2)). rewrite <- Z.ldiff_land, Z.ldiff_ones_r, Z.shiftl_mul_pow2,
    Z.shiftr_div_pow2 by lia. change (2 ^ 2) with 4. pose proof (Z.div_mod n 4). pose proof (Z.mod_pos_bound n 4). lia.
Qed.

(** ** Decoding a file *)

(** What the memory holds before the file is read. *)
Definition cleared (m : mode) (buf : list Z) : list Z :=
  if is_downscale m then replicate (Z.to_nat 716800) 0x77 ++ drop (Z.to_nat 716800) buf else buf.

(** The parameters for a file of [n] bytes, a multiple of 4. *)
Definition param_for (pn : panel) (m : mode) (n : Z) : jpeg_param_t :=
  decode_param_after pn m (assign [(src_bufsize, n); (dst_bufsize, 716800 - n)] (decode_param pn m no_param)).

(** The file that is written and its bytes. *)
Definition picture_name (m : mode) : list Z :=
  match m with
  | TEST_DECODE_DOWNSCALE => lit "./DecodeDownscale.dat"
  | TEST_DECODE_DOWNSCALE_FB => lit "./DecodeDownscaleFB.dat"
  | _ => lit "./NormalDecode.dat"
  end.
Definition picture (m : mode) (n uVideoSize : Z) (i : jpeg_info) : list Z :=
  if bool_decide (m = TEST_DECODE_DOWNSCALE_FB) then sub_bytes (r_video i) 0 uVideoSize
  else sub_bytes (r_mem i) n (image_size i).

(** The picture lies in the memory it is taken from, and on the screen where
    it is shown. *)
Definition picture_fits (m : mode) (n uVideoSize : Z) (i : jpeg_info) : Prop :=
  match m with
  | TEST_DECODE_DOWNSCALE_FB => uVideoSize <= Z.of_nat (length (r_video i))
  | TEST_DECODE_DOWNSCALE =>
      n + image_size i <= Z.of_nat (length (r_mem i)) ∧ image_size i <= Z.of_nat (length (r_video i))
  | _ => n + image_size i <= Z.of_nat (length (r_mem i))
  end.

Section decoding.
Context {D : Type} `{Heng : JpegEngine D} (pn : panel).
Implicit Types w : world codec creq D.

Lemma write_decoded_run m n uVideoSize i w :
  m ∈ [TEST_NORMAL_DECODE; TEST_DECODE_DOWNSCALE; TEST_DECODE_DOWNSCALE_FB] →
  jpeg_param (vars w) src_bufsize = n → pJpegBuffer (vars w) = r_mem i → pVideoBuffer (vars w) = r_video i →
  0 <= n → 0 <= image_size i → 0 <= uVideoSize → is_s32 (image_size i) → is_s32 uVideoSize → picture_fits m n uVideoSize i →
  ∃ w', write_decoded m uVideoSize i w = Ok (0, w') ∧
    follows w [FCreate (picture_name m) (picture m n uVideoSize i)] w' ∧
    outputs (vars w') = outputs (vars w) ++ [(picture_name m, picture m n uVideoSize i)] ∧
    parsed (vars w') = parsed (vars w).
Proof.
  intros Hm Hsrc Hmem Hvid Hn Hi Hv Hsi Hsv Hfit. unfold is_s32 in *.
  assert (∀ buf off len, 0 <= off → 0 <= len → off + len <= Z.of_nat (length buf) →
    Z.of_nat (length (sub_bytes buf off len)) = len) as Hl.
  { intros. unfold sub_bytes. rewrite length_take, length_drop. lia. }
  unfold write_decoded. rewrite get_run, Hmem, Hvid, Hsrc.
  one_of Hm; cbn [picture_fits] in Hfit.
  - edestruct (write_file_run (lit "./NormalDecode.dat")) as (w' & -> & Hf & Hvars);
      [by apply load_bytes_Ok; lia|unfold is_s32; rewrite Hl; lia|]. exists w'. by rewrite Hvars.
  - destruct Hfit as [Hfit Hscreen]. rewrite load_bytes_Ok, lift_run by lia.
    destruct (blit_Ok (r_video i) 0 (sub_bytes (r_mem i) n (image_size i))) as (v & Ev & _); [lia|rewrite Hl; lia|].
    rewrite lift_run, Ev, modify_run.
    edestruct (write_file_run (lit "./DecodeDownscale.dat")) as (w' & -> & Hf & Hvars); [done|unfold is_s32; rewrite Hl; lia|].
    exists w'. rewrite Hvars. split; [done|]. split; [|by split]. exact (follows_trans _ _ _ [] [_] (follows_refl w _) Hf).
  - edestruct (write_file_run (lit "./DecodeDownscaleFB.dat")) as (w' & -> & Hf & Hvars);
      [by apply load_bytes_Ok; lia|unfold is_s32; rewrite Hl; lia|]. exists w'. by rewrite Hvars.
Qed.

Lemma memset_run buf n : 0 <= n → n <= Z.of_nat (length buf) →
  memset buf 0x77 n = Ok (replicate (Z.to_nat n) 0x77 ++ drop (Z.to_nat n) buf).
Proof.
  intros. unfold memset, blit. rewrite length_replicate, !(proj2 (Z.leb_le _ _)) by lia. cbn [andb].
  by rewrite take_0.
Qed.

Lemma cleared_facts m buf : Forall is_u8 buf → 716800 <= Z.of_nat (length buf) →
  Forall is_u8 (cleared m buf) ∧ length (cleared m buf) = length buf.
Proof.
  intros Hu Hl. unfold cleared. destruct (is_downscale m); [|done]. split.
  - apply Forall_app_2; [by apply Forall_replicate; unfold is_u8|by apply Forall_drop].
  - rewrite length_app, length_replicate, length_drop. lia.
Qed.

(** The session up to the reading of the file. *)
Definition decode_rest (fuel : nat) (m : mode) (uVideoSize : Z) : prog codec creq D Z :=
  fp ⇐ FOpen (decode_name m);
  match fp with
  | None => mret 0
  | Some text =>
      r ← load fuel 102400 text false 0 false;
      match r with
      | None => mret 0
      | Some count =>
          let count := round4 count in
          _ ← modify (set_param (assign [(src_bufsize, count); (dst_bufsize, 716800 - count)]));
          _ ← (if bool_decide (m = TEST_DECODE_OUTPUTWAIT) then output_wait pn else mret tt);
          _ ← modify (set_param (decode_param_after pn m));
          ok ← start;
          if negb ok then codec_out m else
          i ← wait true;
          match i with
          | None => codec_out m
          | Some i =>
              _ ← (if i_state i =? JPEG_DECODED_IMAGE then _ ← write_decoded m uVideoSize i; mret tt else mret tt);
              codec_out m
          end
      end
  end.

Lemma decode_prologue fuel m uVideoSize w :
  m ∈ [TEST_NORMAL_DECODE; TEST_DECODE_DOWNSCALE; TEST_DECODE_DOWNSCALE_FB] →
  jpeg_param (vars w) = no_param → 716800 <= Z.of_nat (length (pJpegBuffer (vars w))) →
  (is_downscale m = true → 716800 <= Z.of_nat (length (pVideoBuffer (vars w)))) →
  ∃ c, decode_session pn fuel m uVideoSize true w = decode_rest fuel m uVideoSize (with_vars w c) ∧
    jpeg_param c = decode_param pn m no_param ∧ pJpegBuffer c = cleared m (pJpegBuffer (vars w)) ∧
    parsed c = parsed (vars w) ∧ outputs c = outputs (vars w).
Proof.
  intros Hm Hp Hmem Hvid. unfold decode_session. rewrite modify_run, get_run.
  set (c1 := vars (with_vars w _)).
  assert (jpeg_param c1 = decode_param pn m no_param) as Hp1 by (subst c1; cbn; by rewrite Hp).
  assert (jpeg_param c1 src_bufsize = 102400 ∧ jpeg_param c1 dst_bufsize = 614400) as [-> ->].
  { rewrite Hp1. one_of Hm; split; reflexivity. }
  change (102400 + 614400) with 716800. rewrite (proj2 (Z.ltb_ge _ _)) by exact Hmem.
  unfold cleared. destruct (is_downscale m).
  - rewrite bind_run, lift_run. change (pJpegBuffer c1) with (pJpegBuffer (vars w)).
    change (pVideoBuffer c1) with (pVideoBuffer (vars w)).
    rewrite memset_run; [|lia|exact Hmem]. rewrite lift_run, memset_run; [|lia|by apply Hvid].
    eexists. split; [reflexivity|]. split; [exact Hp1|]. done.
  - rewrite bind_run, mret_run. exists c1. split; [reflexivity|]. split; [exact Hp1|]. done.
Qed.
Lemma filter_selects n : filter (λ r, is_ioctl r = true) (replicate n Select) = [].
Proof. by induction n. Qed.

Lemma param_for_facts m n : m ∈ [TEST_NORMAL_DECODE; TEST_DECODE_DOWNSCALE; TEST_DECODE_DOWNSCALE_FB] →
  0 <= n <= 716800 →
  let p := param_for pn m n in p encode = 0 ∧ p src_bufsize = n ∧ p dst_bufsize = 716800 - n ∧
    p scale = (if is_downscale m then 1 else 0) ∧ p decode_output_format = DRVJPEG_DEC_PRIMARY_PACKET_RGB565.
Proof.
  intros Hm Hn p. assert (p src_bufsize = u32 n ∧ p dst_bufsize = u32 (716800 - n)) as [-> ->] by (one_of Hm; split; reflexivity).
  rewrite !u32_id by (unfold is_u32; lia). one_of Hm; repeat (split; [reflexivity|]); reflexivity.
Qed.

(** The requests between the reading of the file and the end, when the picture
    that was decoded is saved. *)
Definition saved_as (m : mode) (n uVideoSize : Z) (i : jpeg_info) : list (list Z * list Z) :=
  if i_state i =? JPEG_DECODED_IMAGE then [(picture_name m, picture m n uVideoSize i)] else [].

Lemma save_run m n uVideoSize i w :
  m ∈ [TEST_NORMAL_DECODE; TEST_DECODE_DOWNSCALE; TEST_DECODE_DOWNSCALE_FB] →
  jpeg_param (vars w) src_bufsize = n → pJpegBuffer (vars w) = r_mem i → pVideoBuffer (vars w) = r_video i →
  0 <= n → 0 <= image_size i → 0 <= uVideoSize → is_s32 (image_size i) → is_s32 uVideoSize → picture_fits m n uVideoSize i →
  ∃ w', (_ ← (if i_state i =? JPEG_DECODED_IMAGE then _ ← write_decoded m uVideoSize i; mret tt else mret tt);
         codec_out m) w = Ok (0, w') ∧
    follows w (map (λ f, FCreate f.1 f.2) (saved_as m n uVideoSize i) ++ [CFree]) w' ∧
    outputs (vars w') = outputs (vars w) ++ saved_as m n uVideoSize i ∧ parsed (vars w') = parsed (vars w).
Proof.
  intros Hm ?????????. assert (m ≠ TEST_DECODE_OUTPUTWAIT) as Hopw by (one_of Hm; done).
  unfold saved_as. rewrite bind_run. destruct (_ =? _).
  - destruct (write_decoded_run m n uVideoSize i w) as (w1 & E1 & Hf1 & Ho1 & Hp1); [done..|].
    destruct (codec_out_run m w1 Hopw) as (w2 & E2 & Hf2 & Hv2).
    exists w2. rewrite bind_run, E1, mret_run, E2. split; [done|]. split; [exact (follows_trans _ _ _ _ _ Hf1 Hf2)|].
    by rewrite Hv2.
  - destruct (codec_out_run m w Hopw) as (w2 & E2 & Hf2 & Hv2). exists w2. rewrite mret_run, E2.
    split; [done|]. split; [done|]. by rewrite Hv2, app_nil_r.
Qed.

(** C12: Decoding a file (normal, downscaled, or to the frame buffer) does what it
    promises with an engine and a disk that cooperate: the file, whatever the
    number of blocks it is read in, lies at the front of the engine's memory
    when the engine is started, the length given to the engine is the length of
    the file rounded up to 4, the parameters are those of the mode, the size of
    the picture is what a reference scan of the file finds, and when
    the engine reports success exactly one file is written, which holds the
    picture.  The order of the requests is the one given.  The file is never
    closed. *)
Theorem decoding_saves_picture fuel m uVideoSize sz w text :
  m ∈ [TEST_NORMAL_DECODE; TEST_DECODE_DOWNSCALE; TEST_DECODE_DOWNSCALE_FB] →
  let c := vars w in
  disk (driver w) (lit "./jpegDec.jpg") = Some text →
  scannable (parsed c) (pJpegBuffer c) text text →
  Z.of_nat (length text) <= 102400 → 716800 <= Z.of_nat (length (pJpegBuffer c)) →
  (is_downscale m = true → 716800 <= Z.of_nat (length (pVideoBuffer c))) →
  (length text / block < fuel)%nat → 0 <= uVideoSize → is_s32 uVideoSize →
  let n := round4 (Z.of_nat (length text)) in
  let mem := text ++ drop (length text) (cleared m (pJpegBuffer c)) in
  let start := [JPEG_S_PARAM (param_for pn m n); JPEG_TRIGGER mem] in
  let i := engine (told (driver w) ++ start) in
  0 <= image_size i → is_s32 (image_size i) → picture_fits m n uVideoSize i →
  ∃ w', jpegCodec pn fuel m uVideoSize sz w = Ok (0, w') ∧
    trace w' = trace w ++ [CMalloc sz; FOpen (lit "./jpegDec.jpg")] ++ replicate (S (length text / block)) Select ++
      start ++ [CRead] ++ map (λ f, FCreate f.1 f.2) (saved_as m n uVideoSize i) ++ [CFree] ∧
    outputs (vars w') = outputs c ++ saved_as m n uVideoSize i ∧
    reports (parsed c) (parsed (vars w')) (scan_all 0 text) ∧
    Z.of_nat (length text) <= n < Z.of_nat (length text) + 4 ∧
    (let p := param_for pn m n in p encode = 0 ∧ p src_bufsize = n ∧ p dst_bufsize = 716800 - n ∧
      p scale = (if is_downscale m then 1 else 0) ∧ p decode_output_format = DRVJPEG_DEC_PRIMARY_PACKET_RGB565).
Proof.
  intros Hm c Hfile (Ht & Hmem & Ho & Hz & Hfew) Hlen Hsize Hvid Hfuel Huv Huv' n mem start i Hi Hi' Hfit.
  unfold jpegCodec. rewrite modify_run, request_run. unfold Device.answer. rewrite mallocs.
  set (w0 := Device.after _ _).
  assert (follows w [CMalloc sz] w0) as F0 by apply (follows_from _ _ _ _ (follows_after _ _)).
  destruct (decode_prologue fuel m uVideoSize w0) as (c1 & Epro & Hp1 & Hm1 & Hpa1 & Ho1); [done..|].
  assert (is_decode m = true) as -> by (one_of Hm; done). rewrite Epro.
  unfold decode_rest. assert (decode_name m = lit "./jpegDec.jpg") as -> by (one_of Hm; done).
  rewrite request_run. unfold Device.answer. rewrite opens.
  cbn [driver with_vars]. rewrite (follows_disk _ _ _ F0), Hfile by (intros ?? Hin; by apply list_elem_of_singleton in Hin).
  set (w1 := Device.after _ _).
  assert (follows w [CMalloc sz; FOpen (lit "./jpegDec.jpg")] w1) as F1
    by exact (follows_trans _ _ _ [_] [_] F0 (follows_from _ _ _ _ (follows_after _ _))).
  destruct (cleared_facts m (pJpegBuffer c) Hmem Hsize) as [Hcu Hcl].
  change (pJpegBuffer (vars w0)) with (pJpegBuffer c) in Hm1. change (parsed (vars w0)) with (parsed c) in Hpa1.
  change (outputs (vars w0)) with (outputs c) in Ho1. change (vars w1) with c1 in *.
  destruct (load_run fuel 102400 text 0 false w1) as (w2 & o & E2 & F2 & Hv2 & Hrep);
    change (vars w1) with c1 in *; rewrite ?Hm1, ?Hpa1, ?take_0 in *; [done|lia|lia|done|done|].
  rewrite bind_run, E2. cbn [app] in *. rewrite Z.add_0_l. fold n.
  rewrite modify_run, bool_decide_false by (one_of Hm; done). rewrite bind_run, mret_run, modify_run.
  set (w3 := with_vars _ _).
  assert (jpeg_param (vars w3) = param_for pn m n) as Hp3.
  { unfold w3. cbn [vars with_vars set_param jpeg_param]. rewrite Hv2. cbn. by rewrite Hp1. }
  assert (pJpegBuffer (vars w3) = mem) as Hm3.
  { unfold w3. cbn [vars with_vars set_param pJpegBuffer]. by rewrite Hv2. }
  destruct (start_run w3) as (w4 & E4 & Hv4 & F4). rewrite bind_run, E4. cbn [negb].
  rewrite Hp3, Hm3 in F4. fold start in F4.
  assert (follows w ([CMalloc sz; FOpen (lit "./jpegDec.jpg")] ++ replicate (S (length text / block)) Select ++ start) w4) as F.
  { eapply follows_trans; [exact F1|]. eapply follows_trans; [exact F2|]. exact (follows_from w2 _ _ _ F4). }
  assert (engine (told (driver w4)) = i) as Ei.
  { unfold i. rewrite (follows_told _ _ _ F), !filter_app, filter_selects. done. }
  destruct (wait_run w4) as (w5 & E5 & F5 & Hp5 & Hm5 & Hvid5 & Hpa5 & Ho5 & _). rewrite Ei in *.
  rewrite bind_run, E5.
  assert (0 <= n < 4294967296) as Hn by (unfold n; pose proof (round4_bounds (Z.of_nat (length text))); lia).
  destruct (save_run m n uVideoSize i w5) as (w6 & E6 & F6 & Ho6 & Hpa6); try done; [|lia|].
  { rewrite Hp5, Hv4, Hp3. transitivity (u32 n); [by one_of Hm|by apply u32_id]. }
  assert (parsed (vars w5) = o ∧ outputs (vars w5) = outputs c) as [Hpa Hout].
  { rewrite Hpa5, Ho5, Hv4. unfold w3. cbn. rewrite Hv2. cbn. done. }
  exists w6. split; [exact E6|]. split; [|rewrite Ho6, Hpa6, Hpa, Hout; split; [done|]; split; [exact Hrep|];
    pose proof (round4_bounds (Z.of_nat (length text))) as Hr4; fold n in Hr4;
    split; [lia|apply param_for_facts; [done|lia]]].
  rewrite (follows_trace _ _ _ (follows_trans _ _ _ _ _ F (follows_trans _ _ _ _ _ F5 F6))). by rewrite <- !app_assoc.
Qed.

(** Downscaling on a small panel is a memory fault: the session clears as many
    bytes of the frame buffer as the engine has memory in use (716800),
    although the frame buffer holds xres * yres * 2 bytes only.  So on every
    panel of fewer than 358400 pixels, whatever the driver answers and whether
    or not there is a file, nothing is decoded. *)
Theorem downscale_overruns_small_panel {D'} `{Driver creq creply D'} fuel m uVideoSize sz (w : world codec creq D') :
  is_downscale m = true → 716800 <= Z.of_nat (length (pJpegBuffer (vars w))) →
  Z.of_nat (length (pVideoBuffer (vars w))) < 716800 →
  jpegCodec pn fuel m uVideoSize sz w = Crash OutOfBounds.
Proof.
  intros Hd Hmem Hvid. unfold jpegCodec. rewrite modify_run, request_run.
  assert (m = TEST_DECODE_DOWNSCALE ∨ m = TEST_DECODE_DOWNSCALE_FB) as Hm by (by apply bool_decide_eq_true in Hd).
  assert (is_decode m = true) as -> by (by destruct Hm as [-> | ->]).
  unfold decode_session. rewrite modify_run, get_run. set (c1 := vars (with_vars _ _)).
  assert (jpeg_param c1 src_bufsize = 102400 ∧ jpeg_param c1 dst_bufsize = 614400) as [-> ->]
    by (destruct Hm as [-> | ->]; split; reflexivity).
  change (102400 + 614400) with 716800. change (pJpegBuffer c1) with (pJpegBuffer (vars w)).
  change (pVideoBuffer c1) with (pVideoBuffer (vars w)). rewrite (proj2 (Z.ltb_ge _ _)) by exact Hmem.
  rewrite Hd, bind_run, lift_run, memset_run; [|lia|exact Hmem]. rewrite lift_run. unfold memset.
  rewrite blit_crash; [done|]. rewrite length_replicate. lia.
Qed.
End decoding.

(** ** Encoding a picture *)

(** The bytes the program reserves for itself behind the header of the
    bitstream, which the engine writes at 614400. *)
Definition reserved (m : mode) (buf : list Z) : list Z :=
  if bool_decide (m = TEST_ENCODE_RESERVED)
  then take (Z.to_nat 614406) buf ++ reserved_bytes ++ drop (Z.to_nat 614406 + length reserved_bytes) buf else buf.

Definition scale_param (m : mode) : list (field * Z) :=
  if bool_decide (m = TEST_ENCODE_UPSCALE) then [(scaled_width, 800); (scaled_height, 600); (scale, 1)] else [(scale, 0)].

Definition encode_param_for (m : mode) : jpeg_param_t := assign (scale_param m) (encode_param no_param).

(** What the engine is told before it is started. *)
Definition encode_settings (m : mode) (user : bool) : list creq :=
  (if bool_decide (m = TEST_ENCODE_RESERVED) then [JPEG_SET_ENCOCDE_RESERVED 1024] else []) ++
  (if user then [JPEG_SET_ENC_USER_QTABLE 0 g_au8QT0; JPEG_SET_ENC_USER_QTABLE 1 g_au8QT1; JPEG_ACTIVE_ENC_USER_QTABLE]
   else [JPEG_ACTIVE_ENC_DEFAULTQTABLE]) ++
  [JPEG_S_PARAM (encode_param_for m)].

Section encoding.
Context {D : Type} `{Heng : JpegEngine D} (pn : panel).
Implicit Types w : world codec creq D.

Lemma choose_table_run w :
  ∃ w', choose_table w = Ok (tt, w') ∧ vars w' = vars w ∧
    follows w (if g_qtflag (vars w)
      then [JPEG_SET_ENC_USER_QTABLE 0 g_au8QT0; JPEG_SET_ENC_USER_QTABLE 1 g_au8QT1; JPEG_ACTIVE_ENC_USER_QTABLE]
      else [JPEG_ACTIVE_ENC_DEFAULTQTABLE]) w'.
Proof.
  unfold choose_table. rewrite get_run. destruct (g_qtflag (vars w)); rewrite !request_run.
  - eexists. split; [done|]. split; [done|].
    eapply (follows_trans _ _ _ [_] [_; _]); [apply follows_after|].
    eapply (follows_trans _ _ _ [_] [_]); apply follows_after.
  - eexists. split; [done|]. split; [done|]. apply follows_after.
Qed.

Lemma reserve_run m w : 716800 <= Z.of_nat (length (pJpegBuffer (vars w))) → jpeg_param (vars w) src_bufsize = 614400 →
  ∃ w', (if bool_decide (m = TEST_ENCODE_RESERVED) then reserve_space else mret tt) w = Ok (tt, w') ∧
    vars w' = set_mem (reserved m (pJpegBuffer (vars w))) (vars w) ∧
    follows w (if bool_decide (m = TEST_ENCODE_RESERVED) then [JPEG_SET_ENCOCDE_RESERVED 1024] else []) w'.
Proof.
  intros Hl Hsrc. unfold reserved. destruct (bool_decide _).
  - unfold reserve_space. rewrite get_run, Hsrc. change (614400 + 6) with 614406.
    assert (length reserved_bytes = Z.to_nat 1024) as Hr by (unfold reserved_bytes; by rewrite length_map, length_seqZ).
    unfold blit. rewrite Hr, !(proj2 (Z.leb_le _ _)) by lia. cbn [andb]. rewrite lift_run, modify_run, request_run.
    eexists. split; [done|]. split; [done|]. apply (follows_from _ _ _ _ (follows_after _ _)).
  - exists w. split; [done|]. split; [by destruct (vars w)|]. pose proof (follows_refl w (vars w)) as F. by destruct w.
Qed.

Lemma trigger_run w (P : prog codec creq D Z) Q :
  (r ⇐ JPEG_TRIGGER (pJpegBuffer (vars w)); if (r : Z) <? 0 then P else Q) w =
  Q (Device.after w (JPEG_TRIGGER (pJpegBuffer (vars w)))).
Proof. rewrite request_run. unfold Device.answer. by rewrite (proj2 (Z.ltb_ge _ _)) by apply accepts_trigger. Qed.

(** The engine's result is saved. *)
Lemma save_encoded_run m i w :
  m ≠ TEST_DECODE_OUTPUTWAIT → jpeg_param (vars w) src_bufsize = 614400 → pJpegBuffer (vars w) = r_mem i →
  0 <= image_size i → is_s32 (image_size i) → 614400 + image_size i <= Z.of_nat (length (r_mem i)) →
  614406 <= Z.of_nat (length (r_mem i)) →
  ∃ w', (c ← get;
         _ ← (if bool_decide (m = TEST_ENCODE_RESERVED)
              then lift (read_be16 (pJpegBuffer c) (jpeg_param c src_bufsize + 4)) else mret 0);
         _ ← write_file (encoded_name m) (load_bytes (pJpegBuffer c) (jpeg_param c src_bufsize) (image_size i));
         codec_out m) w = Ok (0, w') ∧
    follows w [FCreate (encoded_name m) (sub_bytes (r_mem i) 614400 (image_size i)); CFree] w' ∧
    outputs (vars w') = outputs (vars w) ++ [(encoded_name m, sub_bytes (r_mem i) 614400 (image_size i))].
Proof.
  intros Hm Hsrc Hmem Hi Hs Hfit Hmarker. rewrite get_run, Hsrc, Hmem, load_bytes_Ok by lia.
  destruct (write_file_run (encoded_name m) (Ok (sub_bytes (r_mem i) 614400 (image_size i))) _ w eq_refl) as (w1 & E1 & F1 & V1).
  { unfold is_s32, sub_bytes in *. rewrite length_take. lia. }
  destruct (codec_out_run m w1 Hm) as (w2 & E2 & F2 & V2).
  assert (∃ v, (if bool_decide (m = TEST_ENCODE_RESERVED) then lift (read_be16 (r_mem i) (614400 + 4)) else mret 0) w
    = Ok (v, w)) as [v Ev].
  { destruct (bool_decide _); [|by eexists]. unfold lift, read_be16.
    destruct (rd_is_ok (r_mem i) (614400 + 4)) as [h ->]; [lia|].
    destruct (rd_is_ok (r_mem i) (614400 + 4 + 1)) as [l ->]; [lia|]. by eexists. }
  exists w2. rewrite bind_run, Ev, bind_run, E1, E2. split; [done|].
  split; [exact (follows_trans _ _ _ [_] [_] F1 F2)|]. by rewrite V2, V1.
Qed.

Lemma length_reserved m buf : 716800 <= Z.of_nat (length buf) → length (reserved m buf) = length buf.
Proof.
  intros. unfold reserved. destruct (bool_decide _); [|done].
  assert (length reserved_bytes = Z.to_nat 1024) as Hr by (unfold reserved_bytes; by rewrite length_map, length_seqZ).
  rewrite !length_app, length_take, length_drop, Hr. lia.
Qed.

(** The session after the settings. *)
Definition encode_rest (fuel : nat) (m : mode) : prog codec creq D Z :=
  fp ⇐ FOpen (lit "./jpegEnc.dat");
  match fp with
  | None => mret 0
  | Some text =>
      r ← load fuel 614400 text false 0 true;
      match r with
      | None => mret 0
      | Some _ =>
          c ← get;
          r ⇐ JPEG_TRIGGER (pJpegBuffer c);
          if (r : Z) <? 0 then codec_out m else
          i ← wait true;
          match i with
          | None => codec_out m
          | Some i =>
              c ← get;
              _ ← (if bool_decide (m = TEST_ENCODE_RESERVED)
                   then lift (read_be16 (pJpegBuffer c) (jpeg_param c src_bufsize + 4)) else mret 0);
              _ ← write_file (encoded_name m) (load_bytes (pJpegBuffer c) (jpeg_param c src_bufsize) (image_size i));
              codec_out m
          end
      end
  end.

Lemma encode_prologue fuel m uVideoSize sz w :
  m ∈ [TEST_NORMAL_ENCODE; TEST_ENCODE_UPSCALE; TEST_ENCODE_RESERVED] →
  716800 <= Z.of_nat (length (pJpegBuffer (vars w))) →
  ∃ w', jpegCodec pn fuel m uVideoSize sz w = encode_rest fuel m w' ∧
    follows w (CMalloc sz :: encode_settings m (g_qtflag (vars w))) w' ∧
    jpeg_param (vars w') = encode_param_for m ∧ pJpegBuffer (vars w') = reserved m (pJpegBuffer (vars w)) ∧
    outputs (vars w') = outputs (vars w).
Proof.
  intros Hm Hsize. unfold jpegCodec. rewrite modify_run, request_run. unfold Device.answer. rewrite mallocs.
  assert (is_decode m = false) as -> by (one_of Hm; done).
  unfold encode_session. rewrite modify_run. set (w0 := with_vars _ _).
  assert (follows w [CMalloc sz] w0) as F0 by apply follows_vars, (follows_from _ _ _ _ (follows_after _ _)).
  destruct (reserve_run m w0) as (w1 & E1 & V1 & F1); [exact Hsize|done|]. rewrite bind_run, E1.
  rewrite modify_run. set (w2 := with_vars _ _).
  destruct (choose_table_run w2) as (w3 & E3 & V3 & F3). rewrite bind_run, E3.
  rewrite get_run, request_run. unfold Device.answer. rewrite (proj2 (Z.ltb_ge _ 0)) by apply accepts_param.
  assert (jpeg_param (vars w3) = encode_param_for m) as Hp.
  { rewrite V3. unfold w2. cbn [vars with_vars set_param jpeg_param]. rewrite V1. one_of Hm; reflexivity. }
  assert (pJpegBuffer (vars w3) = reserved m (pJpegBuffer (vars w)) ∧ outputs (vars w3) = outputs (vars w))
    as (Hb & Hout) by (rewrite V3; unfold w2; cbn; by rewrite V1).
  rewrite Hb, Hp.
  assert (encode_param_for m src_bufsize = 614400 ∧ encode_param_for m dst_bufsize = 102400) as [-> ->]
    by (one_of Hm; split; reflexivity).
  change (614400 + 102400) with 716800. rewrite (proj2 (Z.ltb_ge _ _)) by (by rewrite length_reserved).
  eexists. split; [reflexivity|]. split; [|done].
  eapply (follows_trans _ _ _ [_] _ F0). unfold encode_settings. eapply follows_trans; [exact F1|].
  replace (g_qtflag (vars w2)) with (g_qtflag (vars w)) in F3 by (unfold w2; cbn; by rewrite V1).
  eapply follows_trans; [exact (follows_from w1 _ _ _ F3)|]. apply follows_after.
Qed.

Lemma sub_reserved text buf : Z.of_nat (length text) <= 614400 → 716800 <= Z.of_nat (length buf) →
  sub_bytes (text ++ drop (length text) (reserved TEST_ENCODE_RESERVED buf)) 614406 1024 = reserved_bytes.
Proof.
  intros Ht Hb. assert (length reserved_bytes = Z.to_nat 1024) as Hr
    by (unfold reserved_bytes; by rewrite length_map, length_seqZ).
  unfold sub_bytes, reserved. rewrite bool_decide_true by done. rewrite drop_app_ge, drop_drop by lia.
  replace (length text + (Z.to_nat 614406 - length text))%nat with (Z.to_nat 614406) by lia.
  rewrite drop_app_length' by (rewrite length_take; lia). rewrite <- Hr. apply take_app_length.
Qed.

(** Encoding a picture (normal, up-scaled, or with reserved space) does what
    it promises with an engine and a disk that cooperate: the raw picture lies
    at the front of the engine's memory when the engine is started, the
    parameters are those of the mode, the quantisation tables are the chosen ones,
    the reserved bytes lie 6 bytes behind the place of the bitstream, everything
    is told to the engine before the start, and exactly one file is written,
    which holds the bitstream. *)
Theorem encoding_saves_bitstream fuel m uVideoSize sz w text :
  m ∈ [TEST_NORMAL_ENCODE; TEST_ENCODE_UPSCALE; TEST_ENCODE_RESERVED] →
  let c := vars w in
  disk (driver w) (lit "./jpegEnc.dat") = Some text →
  Z.of_nat (length text) <= 614400 → 716800 <= Z.of_nat (length (pJpegBuffer c)) → (length text / block < fuel)%nat →
  let mem := text ++ drop (length text) (reserved m (pJpegBuffer c)) in
  let settings := encode_settings m (g_qtflag c) in
  let i := engine (told (driver w) ++ settings ++ [JPEG_TRIGGER mem]) in
  0 <= image_size i → is_s32 (image_size i) → 614400 + image_size i <= Z.of_nat (length (pJpegBuffer c)) →
  let file := (encoded_name m, sub_bytes (r_mem i) 614400 (image_size i)) in
  ∃ w', jpegCodec pn fuel m uVideoSize sz w = Ok (0, w') ∧
    trace w' = trace w ++ [CMalloc sz] ++ settings ++ [FOpen (lit "./jpegEnc.dat")] ++
      replicate (S (length text / block)) Select ++ [JPEG_TRIGGER mem; CRead; FCreate file.1 file.2; CFree] ∧
    outputs (vars w') = outputs c ++ [file] ∧
    (m = TEST_ENCODE_RESERVED → sub_bytes mem 614406 1024 = reserved_bytes) ∧
    (let p := encode_param_for m in p encode = 1 ∧ p src_bufsize = 614400 ∧ p dst_bufsize = 102400 ∧
      p encode_width = 640 ∧ p encode_height = 480 ∧
      (p scale, p scaled_width, p scaled_height) = if bool_decide (m = TEST_ENCODE_UPSCALE) then (1, 800, 600) else (0, 0, 0)).
Proof.
  intros Hm c Hfile Hlen Hsize Hfuel mem settings i Hi Hi' Hfit file.
  assert (m ≠ TEST_DECODE_OUTPUTWAIT) as Hopw by (one_of Hm; done).
  destruct (encode_prologue fuel m uVideoSize sz w Hm Hsize) as (w1 & -> & F1 & Hp1 & Hb1 & Ho1).
  fold c settings in F1, Hb1, Ho1. unfold encode_rest. rewrite request_run. unfold Device.answer. rewrite opens.
  assert (disk (driver w1) = disk (driver w)) as ->.
  { apply (follows_disk _ _ _ F1). intros name data. unfold settings, encode_settings.
    destruct (bool_decide _), (g_qtflag c); cbn; rewrite ?elem_of_cons, ?elem_of_nil; naive_solver. }
  rewrite Hfile. set (w2 := Device.after _ _).
  assert (follows w1 [FOpen (lit "./jpegEnc.dat")] w2) as F2 by apply follows_after.
  pose proof (length_reserved m _ Hsize) as Hl.
  destruct (load_run fuel 614400 text 0 true w2) as (w3 & o & E3 & F3 & V3 & _);
    change (vars w2) with (vars w1) in *; rewrite ?Hb1, ?take_0 in *; [done|lia|lia|done|done|].
  rewrite bind_run, E3. cbn [app] in V3. fold mem in V3.
  assert (jpeg_param (vars w3) = encode_param_for m ∧ pJpegBuffer (vars w3) = mem ∧ outputs (vars w3) = outputs c)
    as (Hp3 & Hb3 & Ho3) by (by rewrite V3).
  rewrite get_run, trigger_run, Hb3. set (w4 := Device.after _ _).
  assert (follows w3 [JPEG_TRIGGER mem] w4) as F4 by apply follows_after.
  pose proof (follows_trans _ _ _ _ _ F1 (follows_trans _ _ _ _ _ F2 (follows_trans _ _ _ _ _ F3 F4))) as F.
  assert (engine (told (driver w4)) = i) as Ei.
  { unfold i. rewrite (follows_told _ _ _ F). do 2 f_equal. rewrite !filter_app, filter_selects.
    unfold settings, encode_settings. by destruct (bool_decide _), (g_qtflag c). }
  assert (length (r_mem i) = length (pJpegBuffer c)) as Hli.
  { unfold i. rewrite app_assoc, engine_memory. unfold mem. rewrite length_app, length_drop. lia. }
  destruct (wait_run w4) as (w5 & E5 & F5 & Hp5 & Hm5 & _ & _ & Ho5 & _). rewrite Ei in *. rewrite bind_run, E5.
  destruct (save_encoded_run m i w5 Hopw) as (w6 & E6 & F6 & Ho6); try done; [|lia..|].
  { rewrite Hp5. change (vars w4) with (vars w3). rewrite Hp3. one_of Hm; reflexivity. }
  exists w6. split; [exact E6|].
  split; [|split; [rewrite Ho6, Ho5; change (vars w4) with (vars w3); by rewrite Ho3|]].
  - rewrite (follows_trace _ _ _ (follows_trans _ _ _ _ _ F (follows_trans _ _ _ _ _ F5 F6))).
    rewrite <- !app_assoc. reflexivity.
  - split; [intros ->; by apply sub_reserved|]. one_of Hm; repeat (split; [reflexivity|]); reflexivity.
Qed.
End encoding.

(** ** Witnesses *)

(** An engine that leaves its memory alone and reports a picture of 8 bytes, on
    a disk with one file of each kind. *)
Definition sample_disk (name : list Z) : option (list Z) :=
  if bool_decide (name = lit "./jpegDec.jpg") then Some sample_file
  else if bool_decide (name = lit "./jpegEnc.dat") then Some [1; 2; 3; 4] else None.

Definition sample_engine (l : list creq) : jpeg_info :=
  match last l with
  | Some (JPEG_TRIGGER mem) => JpegInfo 0 320 240 JPEG_DECODED_IMAGE 8 mem [] []
  | _ => JpegInfo 0 0 0 0 0 [] [] []
  end.

#[export] Instance sample_driver : Driver creq creply (list creq) := λ d r,
  (d ++ (if is_ioctl r then [r] else []),
   match r return creply r with
   | CMalloc _ => true
   | FOpen name => sample_disk name
   | Select => true
   | CRead => sample_engine d
   | JPEG_G_DECIPW_BUFFER_SIZE => (0, 4096)
   | FCreate _ data => (3, if data is [] then [] else [Z.of_nat (length data)])
   | ReadWord => []
   | ReadInt => None
   | CFree | FClose | EngineWrite _ | CSleep _ => tt
   | _ => 0
   end).

#[export] Instance sample_jpeg_engine : JpegEngine (list creq).
Proof.
  refine (Build_JpegEngine _ _ (λ d, d) (λ _, sample_disk) sample_engine _ _ _ _ _ _ _ _ _ _ _); try done.
  - intros l. unfold sample_engine. by destruct (last l) as [[]|].
  - intros l mem. unfold sample_engine. by rewrite last_snoc.
  - intros d name [|b data]; cbn; lia.
Defined.

Definition sample_panel : panel := Panel 320 240 0 0 0.
Definition sample_codec (buf video : list Z) : codec := Codec no_param buf video empty_out true None [].

(** A memory of [n] bytes, all zero. *)
Lemma zero_memory (n : Z) : 0 <= n → ∃ buf, Forall is_u8 buf ∧ Z.of_nat (length buf) = n.
Proof.
  intros. exists (replicate (Z.to_nat n) 0). rewrite length_replicate.
  split; [apply Forall_replicate; unfold is_u8; lia|lia].
Qed.

Lemma decoding_saves_picture_witness :
  ∃ buf w', jpegCodec sample_panel 1 TEST_NORMAL_DECODE 0 28 (World (sample_codec buf []) [] []) = Ok (0, w') ∧
    outputs (vars w') = [(lit "./NormalDecode.dat",
      sub_bytes (sample_file ++ drop (length sample_file) buf) (round4 (Z.of_nat (length sample_file))) 8)] ∧
    length (trace w') = 8%nat ∧ Width (parsed (vars w')) = 320 ∧ Height (parsed (vars w')) = 240.
Proof.
  destruct (zero_memory 716800) as (buf & Hu & Hl); [lia|]. exists buf.
  destruct (decoding_saves_picture sample_panel 1 TEST_NORMAL_DECODE 0 28 (World (sample_codec buf []) [] []) sample_file)
    as (w' & E & Ht & Ho & (_ & _ & Hsize) & _).
  - by left.
  - reflexivity.
  - split; [by apply all_u8|]. split; [exact Hu|]. split; [done|]. split; [done|]. vm_compute. lia.
  - vm_compute. discriminate.
  - cbn [vars sample_codec pJpegBuffer]. lia.
  - discriminate.
  - apply Nat.ltb_lt. vm_compute. reflexivity.
  - lia.
  - unfold is_s32. lia.
  - discriminate.
  - unfold is_s32. cbn. lia.
  - change (round4 (Z.of_nat (length sample_file)) + 8 <= Z.of_nat (length (sample_file ++
      drop (length sample_file) buf))).
    rewrite length_app, length_drop.
    assert (round4 (Z.of_nat (length sample_file)) < 1000) by (vm_compute; reflexivity).
    assert (length sample_file < 1000)%nat by (apply Nat.ltb_lt; vm_compute; reflexivity). lia.
  - exists w'. split; [exact E|]. split; [exact Ho|]. split; [rewrite Ht; reflexivity|].
    assert ((scan_all 0 sample_file).2 = Some (320, 240)) as Hs by (vm_compute; reflexivity).
    rewrite Hs in Hsize. by injection Hsize.
Defined.

Lemma downscale_overruns_small_panel_witness :
  ∃ buf video, jpegCodec sample_panel 1 TEST_DECODE_DOWNSCALE 153600 28 (World (sample_codec buf video) [] []) =
    Crash OutOfBounds ∧ Z.of_nat (length video) = 153600.
Proof.
  destruct (zero_memory 716800) as (buf & Hu & Hl); [lia|]. destruct (zero_memory 153600) as (video & _ & Hv); [lia|].
  exists buf, video. split; [|exact Hv].
  apply downscale_overruns_small_panel; [reflexivity|..]; cbn [vars sample_codec pJpegBuffer pVideoBuffer]; lia.
Defined.

Lemma encoding_saves_bitstream_witness :
  ∃ buf w', jpegCodec sample_panel 1 TEST_ENCODE_RESERVED 0 28 (World (sample_codec buf []) [] []) = Ok (0, w') ∧
    map fst (outputs (vars w')) = [lit "./NormalEncodeReserved.jpg"] ∧ length (trace w') = 12%nat.
Proof.
  destruct (zero_memory 716800) as (buf & Hu & Hl); [lia|]. exists buf.
  destruct (encoding_saves_bitstream sample_panel 1 TEST_ENCODE_RESERVED 0 28 (World (sample_codec buf []) [] []) [1; 2; 3; 4])
    as (w' & E & Ht & Ho & _).
  - by right; right; left.
  - reflexivity.
  - cbn. lia.
  - cbn [vars sample_codec pJpegBuffer]. lia.
  - apply Nat.ltb_lt. vm_compute. reflexivity.
  - discriminate.
  - unfold is_s32. vm_compute. split; [discriminate|reflexivity].
  - change (614400 + 8 <= Z.of_nat (length buf)). lia.
  - exists w'. split; [exact E|]. split; [rewrite Ho; reflexivity|]. rewrite Ht. reflexivity.
Defined.
