(* ===== verification/JpegStream.v ===== *)
(** * JpegStream: decoding a file that is handed over in pieces

    Models [jpegCodecIPW] of src/jpeg_codec/jpeg_demo.c, the session with the
    decode input wait function: the engine asks for the bitstream piece by
    piece, and the program reads as many bytes of the file as there is room
    for and writes them to the device. *)
From stdpp Require Import functions.
From S2P Require Import Prelude LibC Bytes Device JpegHeader JpegCodec.
Local Open Scope cmodel_scope.
Local Open Scope Z_scope.

(** The state in which the engine has no more use for data. *)
Definition finished (state : Z) : bool := (state =? JPEG_DECODED_IMAGE) || (state =? JPEG_MEM_SHORTAGE).

Section jpegCodecIPW.
Context {D : Type} `{Driver creq creply D} (pn : panel).
Notation P := (prog codec creq D).

(** Waiting until the buffer of the engine is empty or the decoding is over. *)
Fixpoint poll (fuel : nat) : P Z :=
  match fuel with
  | O => fault OutOfFuel
  | S fuel =>
      buffer_state ⇐ JPEG_DECIPW_BUFFER_STATE;
      state ⇐ JPEG_STATE;
      if negb ((buffer_state : Z) =? JPEG_DECIPW_BUFFER_EMPTY) && negb (finished state) then poll fuel
      else mret (state : Z)
  end.

(** [fread(buffer, 1, jpeg_buffersize, fp)] and [write]: what is left of the
    file.  The result of the malloc of the buffer is not tested. *)
Definition hand_over (buffer : option Z) (size : Z) (text : list Z) : P (list Z) :=
  let chunk := take (Z.to_nat size) text in
  if Z.of_nat (length chunk) =? 0 then mret text else
  match buffer with
  | None => fault NullDeref
  | Some room =>
      if room <? Z.of_nat (length chunk) then fault OutOfBounds else
      _ ⇐ EngineWrite chunk; mret (drop (Z.to_nat size) text)
  end.

(** The loop, whose condition is always true: a state is not equal to two
    different values.  [false] is a failed request. *)
Fixpoint stream (pf fuel : nat) (buffer : option Z) (text : list Z) (bTrigger : bool) : P bool :=
  match fuel with
  | O => fault OutOfFuel
  | S fuel =>
      state ← poll pf;
      if finished state then mret true else
      r ⇐ JPEG_G_DECIPW_BUFFER_SIZE;
      if r.1 <? 0 then mret false else
      ready ⇐ Select;
      text ← (if (ready : bool) then hand_over buffer (u32 r.2) text else mret text);
      if negb bTrigger then
        c ← get;
        r ⇐ JPEG_TRIGGER (pJpegBuffer c);
        if (r : Z) <? 0 then mret false else stream pf fuel buffer text true
      else _ ⇐ JPEG_DECODE_RESUME; stream pf fuel buffer text true
  end.

Definition stream_param (m : mode) (p : jpeg_param_t) : jpeg_param_t :=
  let p := assign [(encode, 0); (src_bufsize, 16*1024); (dst_bufsize, 640*480*2);
                   (decInWait_buffer_size, 16*1024)] p in
  let p := if bool_decide (m = TEST_DECODE_DOWNSCALE)
           then assign [(scale, 1); (scaled_width, 320); (scaled_height, 240); (dec_stride, xres pn)] p
           else assign [(dec_stride, 0); (scale, 0)] p in
  assign [(buffersize, 0); (buffercount, 1); (decode_output_format, DRVJPEG_DEC_PRIMARY_PACKET_RGB565)] p.

(** The label [out]. *)
Definition stream_out : P Z := _ ⇐ FClose; _ ⇐ CFree; _ ⇐ CFree; mret 0.

Definition save_stream (m : mode) (i : jpeg_info) : P Z :=
  c ← get;
  img ← lift (load_bytes (pJpegBuffer c) (jpeg_param c src_bufsize) (image_size i));
  if bool_decide (m = TEST_DECODE_DOWNSCALE) then
    v ← lift (blit (pVideoBuffer c) 0 img);
    _ ← modify (set_video v);
    write_file (lit "./decIPW_DecodeDownscale.dat") (Ok img)
  else write_file (lit "./decIPW_NormalDecode.dat") (Ok img).

Definition jpegCodecIPW (pf fuel : nat) (m : mode) (jpeginfo_size : Z) : P Z :=
  _ ← modify (set_param (λ _, no_param));
  info ⇐ CMalloc jpeginfo_size;
  fp ⇐ FOpen (lit "./jpegIPW.jpg");
  match fp with
  | None => mret 0
  | Some text =>
      buffer ⇐ CMalloc (16*1024);
      _ ← modify (set_param (stream_param m));
      c ← get;
      r ⇐ JPEG_S_PARAM (jpeg_param c);
      if (r : Z) <? 0 then stream_out else
      let BufferSize := jpeg_param c src_bufsize + jpeg_param c dst_bufsize in
      if Z.of_nat (length (pJpegBuffer c)) <? BufferSize then stream_out else
      _ ← (if bool_decide (m = TEST_DECODE_DOWNSCALE) then
             mem ← lift (memset (pJpegBuffer c) 0x77 BufferSize);
             video ← lift (memset (pVideoBuffer c) 0x77 BufferSize);
             modify (λ c, set_video video (set_mem mem c))
           else mret tt);
      ok ← stream pf fuel (if (buffer : bool) then Some (jpeg_param c decInWait_buffer_size) else None) text false;
      if negb ok then stream_out else
      i ← wait info;
      match i with
      | None => stream_out
      | Some i =>
          _ ← (if i_state i =? JPEG_DECODED_IMAGE then _ ← save_stream m i; mret tt else mret tt);
          stream_out
      end
  end.
End jpegCodecIPW.

(** ** An engine that consumes what it is given

    It needs [wants] more bytes; while it needs some its buffer has room for
    the same number of bytes whenever it is asked, and it is finished when it
    needs no more. *)
Class StreamEngine (D : Type) `{JpegEngine D} := {
  wants : D → Z;
  room : Z;
  room_fits : 0 < room <= 16384;
  wants_after (d : D) r : wants (respond d r).1 =
    match r with EngineWrite data => wants d - Z.of_nat (length data) | _ => wants d end;
  buffer_empty (d : D) : (respond d JPEG_DECIPW_BUFFER_STATE).2 = JPEG_DECIPW_BUFFER_EMPTY;
  stream_state (d : D) : finished (respond d JPEG_STATE).2 = (wants d <=? 0);
  stream_room (d : D) : (respond d JPEG_G_DECIPW_BUFFER_SIZE).2 = (0, room)
}.

(** The pieces of a file. *)
Fixpoint chunks (k : nat) (size : Z) (text : list Z) : list (list Z) :=
  match k with
  | O => []
  | S k => take (Z.to_nat size) text :: chunks k size (drop (Z.to_nat size) text)
  end.

(** What is requested for each piece: the engine is started after the first
    one and resumed after the others. *)
Definition turn (mem : list Z) (bTrigger : bool) (chunk : list Z) : list creq :=
  [JPEG_DECIPW_BUFFER_STATE; JPEG_STATE; JPEG_G_DECIPW_BUFFER_SIZE; Select; EngineWrite chunk;
   if bTrigger then JPEG_DECODE_RESUME else JPEG_TRIGGER mem].
Fixpoint turns (mem : list Z) (bTrigger : bool) (l : list (list Z)) : list creq :=
  match l with
  | [] => []
  | chunk :: l => turn mem bTrigger chunk ++ turns mem true l
  end.

Lemma concat_chunks k size : 0 <= size → ∀ text, concat (chunks k size text) = take (k * Z.to_nat size) text.
Proof.
  intros Hs. induction k as [|k IH]; intros text; cbn [chunks concat]; [done|]. rewrite IH.
  by rewrite take_take_drop.
Qed.

Section streams.
Context {D : Type} `{Hst : StreamEngine D} (pn : panel).
Implicit Types w : world codec creq D.

Ltac ask := rewrite request_run; unfold Device.answer; cbn [Device.after driver].

(** The requests of one turn up to the piece. *)
Lemma turn_run pf fuel text (trig : bool) w : 0 < wants (driver w) →
  ∃ w', stream (S pf) (S fuel) (Some 16384) text trig w =
      (text' ← hand_over (Some 16384) room text;
       if negb trig then
         c ← get;
         r ⇐ JPEG_TRIGGER (pJpegBuffer c);
         if (r : Z) <? 0 then mret false else stream (S pf) fuel (Some 16384) text' true
       else _ ⇐ JPEG_DECODE_RESUME; stream (S pf) fuel (Some 16384) text' true) w' ∧
    follows w [JPEG_DECIPW_BUFFER_STATE; JPEG_STATE; JPEG_G_DECIPW_BUFFER_SIZE; Select] w' ∧
    vars w' = vars w ∧ wants (driver w') = wants (driver w).
Proof.
  intros Hn. cbn [stream poll]. rewrite bind_run. ask. rewrite buffer_empty. ask.
  cbn [negb andb Z.eqb JPEG_DECIPW_BUFFER_EMPTY Pos.eqb]. rewrite mret_run, stream_state, wants_after.
  rewrite (proj2 (Z.leb_gt _ _)) by done. ask. rewrite stream_room. cbn [fst snd Z.ltb Z.compare]. ask.
  rewrite engine_ready. rewrite u32_id by (pose proof room_fits; unfold is_u32; lia).
  eexists. split; [reflexivity|]. split; [|split; [done|by cbn [driver Device.after]; rewrite !wants_after]].
  eapply (follows_trans _ _ _ [_] [_; _; _]); [apply follows_after|].
  eapply (follows_trans _ _ _ [_] [_; _]); [apply follows_after|].
  eapply (follows_trans _ _ _ [_] [_]); apply follows_after.
Qed.

(** The way on after a piece. *)
Lemma go_on_run pf fuel text (trig : bool) w :
  ∃ w', (if negb trig then
           c ← get;
           r ⇐ JPEG_TRIGGER (pJpegBuffer c);
           if (r : Z) <? 0 then mret false else stream (S pf) fuel (Some 16384) text true
         else _ ⇐ JPEG_DECODE_RESUME; stream (S pf) fuel (Some 16384) text true) w =
      stream (S pf) fuel (Some 16384) text true w' ∧
    follows w [if trig then JPEG_DECODE_RESUME else JPEG_TRIGGER (pJpegBuffer (vars w))] w' ∧
    vars w' = vars w ∧ wants (driver w') = wants (driver w).
Proof.
  destruct trig; cbn [negb].
  - rewrite request_run. eexists. split; [reflexivity|]. split; [apply follows_after|]. split; [done|].
    cbn [driver Device.after]. by rewrite wants_after.
  - rewrite get_run. ask. rewrite (proj2 (Z.ltb_ge _ _)) by apply accepts_trigger.
    eexists. split; [reflexivity|]. split; [apply follows_after|]. split; [done|].
    cbn [driver Device.after]. by rewrite wants_after.
Qed.

(** The loop hands over as many pieces as the engine needs. *)
Lemma stream_run pf k : ∀ fuel text (trig : bool) w,
  (k < fuel)%nat → wants (driver w) <= Z.of_nat (length text) →
  (Z.of_nat k - 1) * room < wants (driver w) <= Z.of_nat k * room →
  ∃ w', stream (S pf) fuel (Some 16384) text trig w = Ok (true, w') ∧ vars w' = vars w ∧
    follows w (turns (pJpegBuffer (vars w)) trig (chunks k room text) ++ [JPEG_DECIPW_BUFFER_STATE; JPEG_STATE]) w'.
Proof.
  pose proof room_fits as Hroom. induction k as [|k IH]; intros [|fuel] text trig w Hf Ht Hk; try lia.
  - cbn [stream poll]. rewrite bind_run. ask. rewrite buffer_empty. ask.
    cbn [negb andb Z.eqb JPEG_DECIPW_BUFFER_EMPTY Pos.eqb]. rewrite mret_run, stream_state, wants_after.
    rewrite (proj2 (Z.leb_le _ _)) by lia. eexists. split; [reflexivity|]. split; [done|].
    eapply (follows_trans _ _ _ [_] [_]); apply follows_after.
  - destruct (turn_run pf fuel text trig w) as (w1 & -> & F1 & V1 & W1); [nia|].
    assert (Z.of_nat (length (take (Z.to_nat room) text)) = Z.min room (Z.of_nat (length text))) as Hl
      by (rewrite length_take; lia).
    rewrite bind_run. unfold hand_over. rewrite Hl, (proj2 (Z.eqb_neq _ _)), (proj2 (Z.ltb_ge _ _)) by nia.
    rewrite request_run, mret_run. set (w2 := Device.after _ _).
    assert (follows w1 [EngineWrite (take (Z.to_nat room) text)] w2) as F2 by apply follows_after.
    assert (wants (driver w2) = wants (driver w) - Z.min room (Z.of_nat (length text))) as W2.
    { unfold w2. cbn [Device.after driver]. rewrite wants_after. lia. }
    destruct (go_on_run pf fuel (drop (Z.to_nat room) text) trig w2) as (w3 & -> & F3 & V3 & W3).
    change (vars w2) with (vars w1) in F3, V3. rewrite V1 in F3, V3.
    destruct (IH fuel (drop (Z.to_nat room) text) true w3) as (w4 & -> & V4 & F4); [lia|rewrite length_drop; lia|nia|].
    exists w4. split; [done|]. split; [congruence|]. rewrite V3 in F4. cbn [chunks turns].
    rewrite <- app_assoc. eapply follows_trans; [|exact F4].
    exact (follows_trans _ _ _ [_; _; _; _] [_; _] F1 (follows_trans _ _ _ [_] [_] F2 F3)).
Qed.

(** A file that is too short for the engine is never finished. *)
Lemma stream_starves pf fuel : ∀ text (trig : bool) w,
  Z.of_nat (length text) < wants (driver w) →
  stream (S pf) fuel (Some 16384) text trig w = Crash OutOfFuel.
Proof.
  pose proof room_fits as Hroom. induction fuel as [|fuel IH]; intros text trig w Ht; [done|].
  destruct (turn_run pf fuel text trig w) as (w1 & -> & F1 & V1 & W1); [lia|].
  assert (Z.of_nat (length (take (Z.to_nat room) text)) = Z.min room (Z.of_nat (length text))) as Hl
    by (rewrite length_take; lia).
  rewrite bind_run. unfold hand_over. rewrite Hl. destruct (Z.eqb_spec (Z.min room (Z.of_nat (length text))) 0).
  - rewrite mret_run. destruct (go_on_run pf fuel text trig w1) as (w3 & -> & _ & _ & W3). apply IH. lia.
  - rewrite (proj2 (Z.ltb_ge _ _)) by lia. rewrite request_run, mret_run.
    destruct (go_on_run pf fuel (drop (Z.to_nat room) text) trig (Device.after w1 (EngineWrite (take (Z.to_nat room) text))))
      as (w3 & -> & _ & _ & W3). apply IH. rewrite W3, length_drop. cbn [Device.after driver]. rewrite wants_after. lia.
Qed.

(** *** The session *)

Definition session_param : jpeg_param_t := stream_param pn TEST_NORMAL_DECODE no_param.

Definition session_rest (pf fuel : nat) (text : list Z) : prog codec creq D Z :=
  ok ← stream pf fuel (Some 16384) text false;
  if negb ok then stream_out else
  i ← wait true;
  match i with
  | None => stream_out
  | Some i =>
      _ ← (if i_state i =? JPEG_DECODED_IMAGE then _ ← save_stream TEST_NORMAL_DECODE i; mret tt else mret tt);
      stream_out
  end.

Lemma session_prologue pf fuel sz text w :
  disk (driver w) (lit "./jpegIPW.jpg") = Some text → 630784 <= Z.of_nat (length (pJpegBuffer (vars w))) →
  ∃ w', jpegCodecIPW pn pf fuel TEST_NORMAL_DECODE sz w = session_rest pf fuel text w' ∧
    follows w [CMalloc sz; FOpen (lit "./jpegIPW.jpg"); CMalloc 16384; JPEG_S_PARAM session_param] w' ∧
    vars w' = set_param (λ _, session_param) (vars w) ∧ wants (driver w') = wants (driver w).
Proof.
  intros Hfile Hsize. unfold jpegCodecIPW. rewrite modify_run. ask. rewrite mallocs. ask.
  cbn [with_vars driver]. rewrite opens, disk_after, Hfile by discriminate. ask. rewrite mallocs, modify_run, get_run.
  set (w1 := with_vars _ _).
  assert (follows w [CMalloc sz; FOpen (lit "./jpegIPW.jpg"); CMalloc 16384] w1) as F1.
  { apply follows_vars. eapply (follows_trans _ _ _ [_] [_; _]); [exact (follows_from w _ _ (set_param (λ _, no_param) (vars w)) (follows_after _ _))|].
    eapply (follows_trans _ _ _ [_] [_]); apply follows_after. }
  assert (wants (driver w1) = wants (driver w)) as W1 by (unfold w1; cbn [driver with_vars Device.after]; by rewrite !wants_after).
  assert (vars w1 = set_param (λ _, session_param) (vars w)) as V1 by done.
  rewrite request_run. unfold Device.answer. rewrite (proj2 (Z.ltb_ge _ 0)) by apply accepts_param.
  rewrite V1. cbn [jpeg_param set_param pJpegBuffer].
  change (session_param src_bufsize + session_param dst_bufsize) with 630784.
  rewrite (proj2 (Z.ltb_ge _ _)) by done. rewrite bool_decide_false by done. rewrite bind_run, mret_run.
  change (session_param decInWait_buffer_size) with 16384.
  eexists. split; [reflexivity|]. split; [exact (follows_trans _ _ _ [_; _; _] [_] F1 (follows_after _ _))|].
  split; [exact V1|]. cbn [driver Device.after]. by rewrite wants_after, W1.
Qed.

Lemma stream_out_run w : ∃ w', stream_out w = Ok (0, w') ∧ vars w' = vars w ∧ follows w [FClose; CFree; CFree] w'.
Proof.
  unfold stream_out. rewrite !request_run. eexists. split; [reflexivity|]. split; [done|].
  eapply (follows_trans _ _ _ [_] [_; _]); [apply follows_after|].
  eapply (follows_trans _ _ _ [_] [_]); apply follows_after.
Qed.

Definition stream_saved (i : jpeg_info) : list (list Z * list Z) :=
  if i_state i =? JPEG_DECODED_IMAGE
  then [(lit "./decIPW_NormalDecode.dat", sub_bytes (r_mem i) 16384 (image_size i))] else [].

Lemma save_stream_run i w :
  jpeg_param (vars w) src_bufsize = 16384 → pJpegBuffer (vars w) = r_mem i →
  0 <= image_size i → is_s32 (image_size i) → 16384 + image_size i <= Z.of_nat (length (r_mem i)) →
  ∃ w', (_ ← (if i_state i =? JPEG_DECODED_IMAGE then _ ← save_stream TEST_NORMAL_DECODE i; mret tt else mret tt);
         stream_out) w = Ok (0, w') ∧
    follows w (map (λ f, FCreate f.1 f.2) (stream_saved i) ++ [FClose; CFree; CFree]) w' ∧
    outputs (vars w') = outputs (vars w) ++ stream_saved i.
Proof.
  intros Hsrc Hmem Hi Hs Hfit. unfold stream_saved. rewrite bind_run. destruct (_ =? _).
  - unfold save_stream. rewrite bind_run, get_run, Hsrc, Hmem, load_bytes_Ok, lift_run, bool_decide_false by (done || lia).
    edestruct (write_file_run (lit "./decIPW_NormalDecode.dat")) as (w1 & E1 & F1 & V1);
      [reflexivity| |rewrite E1, mret_run].
    { unfold is_s32, sub_bytes in *. rewrite length_take. lia. }
    destruct (stream_out_run w1) as (w2 & E2 & V2 & F2). exists w2. split; [done|].
    split; [exact (follows_trans _ _ _ _ _ F1 F2)|]. by rewrite V2, V1.
  - destruct (stream_out_run w) as (w2 & E2 & V2 & F2). exists w2. rewrite mret_run. split; [done|].
    split; [done|]. by rewrite V2, app_nil_r.
Qed.

(** C13: Decoding with the input wait function ends and does what it promises
    with an engine that consumes what it is given and a file that is long
    enough: the file is handed over from its beginning, without a gap, in
    pieces of the size the engine has room for, as many as the engine needs;
    the engine is started once, after the first piece, and resumed after each
    other one; then the picture is saved, and the file and both buffers are
    released. *)
Theorem stream_feeds_engine fuel k sz w text :
  let c := vars w in
  disk (driver w) (lit "./jpegIPW.jpg") = Some text → 630784 <= Z.of_nat (length (pJpegBuffer c)) →
  0 < wants (driver w) <= Z.of_nat (length text) →
  (Z.of_nat k - 1) * room < wants (driver w) <= Z.of_nat k * room → (k < fuel)%nat →
  let feed := turns (pJpegBuffer c) false (chunks k room text) ++ [JPEG_DECIPW_BUFFER_STATE; JPEG_STATE] in
  let i := engine (told (driver w) ++ [JPEG_S_PARAM session_param] ++ filter (λ r, is_ioctl r = true) feed) in
  0 <= image_size i → is_s32 (image_size i) → 16384 + image_size i <= Z.of_nat (length (r_mem i)) →
  ∃ w', jpegCodecIPW pn 1 fuel TEST_NORMAL_DECODE sz w = Ok (0, w') ∧
    trace w' = trace w ++ [CMalloc sz; FOpen (lit "./jpegIPW.jpg"); CMalloc 16384; JPEG_S_PARAM session_param] ++
      feed ++ [CRead] ++ map (λ f, FCreate f.1 f.2) (stream_saved i) ++ [FClose; CFree; CFree] ∧
    outputs (vars w') = outputs c ++ stream_saved i ∧
    concat (chunks k room text) = take (k * Z.to_nat room) text.
Proof.
  intros c Hfile Hsize Hn Hk Hf feed i Hi Hs Hfit. pose proof room_fits as Hroom.
  destruct (session_prologue 1 fuel sz text w Hfile Hsize) as (w1 & -> & F1 & V1 & W1). unfold session_rest.
  destruct (stream_run 0 k fuel text false w1) as (w2 & E2 & V2 & F2); [done|lia|rewrite W1; lia|].
  rewrite bind_run, E2. cbn [negb]. rewrite V1 in F2. cbn [set_param pJpegBuffer] in F2. fold c feed in F2.
  pose proof (follows_trans _ _ _ _ _ F1 F2) as F.
  assert (engine (told (driver w2)) = i) as Ei.
  { unfold i. rewrite (follows_told _ _ _ F), filter_app. done. }
  destruct (wait_run w2) as (w3 & E3 & F3 & Hp3 & Hm3 & _ & _ & Ho3 & _). rewrite Ei in *. rewrite bind_run, E3.
  destruct (save_stream_run i w3) as (w4 & E4 & F4 & Ho4); [by rewrite Hp3, V2, V1|done..|].
  exists w4. split; [exact E4|]. split; [|split; [rewrite Ho4, Ho3, V2, V1; done|by apply concat_chunks; lia]].
  rewrite (follows_trace _ _ _ (follows_trans _ _ _ _ _ F (follows_trans _ _ _ _ _ F3 F4))).
  by rewrite <- !app_assoc.
Qed.

(** A file that is shorter than what the engine needs is never finished: at
    the end of the file the loop goes on resuming the engine without giving it
    data, because the test of the end of the file is part of a condition that
    is always true. *)
Theorem truncated_stream_never_ends fuel pf sz w text :
  disk (driver w) (lit "./jpegIPW.jpg") = Some text → 630784 <= Z.of_nat (length (pJpegBuffer (vars w))) →
  Z.of_nat (length text) < wants (driver w) → (0 < pf)%nat →
  jpegCodecIPW pn pf fuel TEST_NORMAL_DECODE sz w = Crash OutOfFuel.
Proof.
  intros Hfile Hsize Hshort Hpf. destruct pf as [|pf]; [lia|].
  destruct (session_prologue (S pf) fuel sz text w Hfile Hsize) as (w1 & -> & _ & _ & W1). unfold session_rest.
  rewrite bind_run, stream_starves; [done|]. by rewrite W1.
Qed.
End streams.

(** ** Witnesses *)

(** An engine with room for four bytes; the number is what it still needs. *)
Definition stream_file : list Z := [255; 216; 1; 2; 3; 4; 5; 6; 7; 8; 9].

Definition stream_engine (l : list creq) : jpeg_info :=
  match last l with
  | Some (JPEG_TRIGGER mem) => JpegInfo 0 320 240 JPEG_DECODED_IMAGE 8 mem [] []
  | _ => JpegInfo 0 320 240 JPEG_DECODED_IMAGE 8 (replicate (Z.to_nat 16392) 7) [] []
  end.

#[export] Instance stream_driver : Driver creq creply (list creq * Z) := λ d r,
  ((d.1 ++ (if is_ioctl r then [r] else []), match r with EngineWrite data => d.2 - Z.of_nat (length data) | _ => d.2 end),
   match r return creply r with
   | CMalloc _ => true
   | FOpen name => if bool_decide (name = lit "./jpegIPW.jpg") then Some stream_file else None
   | Select => true
   | CRead => stream_engine d.1
   | JPEG_G_DECIPW_BUFFER_SIZE => (0, 4)
   | JPEG_DECIPW_BUFFER_STATE => JPEG_DECIPW_BUFFER_EMPTY
   | JPEG_STATE => if d.2 <=? 0 then JPEG_DECODED_IMAGE else 9
   | FCreate _ data => (3, if data is [] then [] else [Z.of_nat (length data)])
   | ReadWord => []
   | ReadInt => None
   | CFree | FClose | EngineWrite _ | CSleep _ => tt
   | _ => 0
   end).

#[export] Instance stream_jpeg_engine : JpegEngine (list creq * Z).
Proof.
  refine (Build_JpegEngine _ _ (λ d, d.1) (λ _ name, if bool_decide (name = lit "./jpegIPW.jpg") then Some stream_file else None)
    stream_engine _ _ _ _ _ _ _ _ _ _ _); try done.
  - intros l. unfold stream_engine. by destruct (last l) as [[]|].
  - intros l mem. unfold stream_engine. by rewrite last_snoc.
  - intros d name [|b data]; cbn; lia.
Defined.

#[export] Instance stream_stream_engine : StreamEngine (list creq * Z).
Proof.
  refine (Build_StreamEngine _ _ _ snd 4 _ _ _ _ _); try done.
  - intros d. cbn. by destruct (d.2 <=? 0).
Defined.

Definition no_panel : panel := Panel 0 0 0 0 0.

Definition stream_codec (buf : list Z) : codec := Codec no_param buf [] empty_out false None [].

Lemma stream_feeds_engine_witness :
  ∃ buf w', jpegCodecIPW no_panel 1 3 TEST_NORMAL_DECODE 28 (World (stream_codec buf) ([], 6) []) = Ok (0, w') ∧
    outputs (vars w') = [(lit "./decIPW_NormalDecode.dat", replicate 8 7)] ∧
    omap (λ r, match r with EngineWrite data => Some data | _ => None end) (trace w') = [[255; 216; 1; 2]; [3; 4; 5; 6]].
Proof.
  destruct (zero_memory 630784) as (buf & Hu & Hl); [lia|]. exists buf.
  destruct (stream_feeds_engine no_panel 3 2 28 (World (stream_codec buf) ([], 6) []) stream_file)
    as (w' & E & Ht & Ho & _).
  - reflexivity.
  - cbn [vars stream_codec pJpegBuffer]. lia.
  - vm_compute. split; [reflexivity|discriminate].
  - cbn. lia.
  - lia.
  - discriminate.
  - split; [discriminate|reflexivity].
  - change (16384 + 8 <= Z.of_nat (length (replicate (Z.to_nat 16392) 7))). rewrite length_replicate. lia.
  - exists w'. split; [exact E|]. split; [rewrite Ho; reflexivity|]. rewrite Ht. reflexivity.
Defined.

Lemma truncated_stream_never_ends_witness :
  ∃ buf, jpegCodecIPW no_panel 1 100000 TEST_NORMAL_DECODE 28 (World (stream_codec buf) ([], 12) []) = Crash OutOfFuel.
Proof.
  destruct (zero_memory 630784) as (buf & Hu & Hl); [lia|]. exists buf.
  apply (truncated_stream_never_ends no_panel _ _ _ _ stream_file); [reflexivity| |reflexivity|lia].
  cbn [vars stream_codec pJpegBuffer]. lia.
Defined.
