(* ===== verification/JpegWindow.v ===== *)
(** * JpegWindow: moving a window over a picture

    Models [jpegWindowCodec] of src/jpeg_codec/jpeg_demo.c: a window of the size
    of the panel is moved along the diagonal of a picture, in steps of 16 pixels
    (one MCU), to the end and back; each window is decoded and shown. *)
From stdpp Require Import functions.
From S2P Require Import Prelude LibC Bytes Device JpegHeader JpegCodec.
Local Open Scope cmodel_scope.
Local Open Scope Z_scope.

Section jpegWindowCodec.
Context {D : Type} `{Driver creq creply D} (pn : panel).
Notation P := (prog codec creq D).

(** The size of the picture on the panel. *)
Definition screen_size : Z := u32 (u32 (xres pn * yres pn) * 2).

(** The parameters that are set before each decoding. *)
Definition window_param (p : jpeg_param_t) : jpeg_param_t :=
  assign [(encode, 0); (src_bufsize, 300*1024); (dst_bufsize, screen_size); (decInWait_buffer_size, 0);
          (windec_stride, xres pn); (dec_stride, 0); (scale, 0); (buffersize, 0); (buffercount, 1); (windec_en, 1);
          (decode_output_format, DRVJPEG_DEC_PRIMARY_PACKET_RGB565)] p.

(** Moving the window by [d] in both directions. *)
Definition shift (d : Z) (p : jpeg_param_t) : jpeg_param_t :=
  assign [(windec_mcux_start, p windec_mcux_start + d); (windec_mcux_end, p windec_mcux_end + d);
          (windec_mcuy_start, p windec_mcuy_start + d); (windec_mcuy_end, p windec_mcuy_end + d)] p.

(** [u32WindowX] and [u32WindowY] are of type int; they are converted to unsigned
    for the comparison. *)
Definition beyond (WindowX WindowY : Z) (p : jpeg_param_t) : bool :=
  (u32 WindowX <? p windec_mcux_end) || (u32 WindowY <? p windec_mcuy_end).

(** One decoding; [false] is a failed request. *)
Definition show_window (info : bool) : P bool :=
  _ ← modify (set_param window_param);
  ok ← start;
  if negb ok then mret false else
  i ← wait info;
  match i with
  | None => mret false
  | Some i =>
      c ← get;
      _ ← (if i_state i =? JPEG_DECODED_IMAGE then
             img ← lift (load_bytes (pJpegBuffer c) (jpeg_param c src_bufsize) screen_size);
             v ← lift (blit (pVideoBuffer c) 0 img);
             modify (set_video v)
           else mret tt);
      _ ⇐ CSleep 100000;
      mret true
  end.

Fixpoint walk (fuel : nat) (info : bool) (WindowX WindowY : Z) (direction : bool) : P unit :=
  match fuel with
  | O => fault OutOfFuel
  | S fuel =>
      ok ← show_window info;
      if negb ok then mret tt else
      c ← get;
      let p := jpeg_param c in
      let loop := negb (((p windec_mcux_start =? 0) || (p windec_mcuy_start =? 0)) && direction) in
      let p := shift (if direction then -1 else 1) p in
      let back := beyond WindowX WindowY p in
      _ ← modify (set_param (λ _, if back then shift (-1) p else p));
      if loop then walk fuel info WindowX WindowY (direction || back) else mret tt
  end.

Definition window_out : P Z := _ ⇐ CFree; mret 0.

Definition jpegWindowCodec (lf fuel : nat) (jpeginfo_size : Z) : P Z :=
  _ ← modify (set_param (λ _, no_param));
  info ⇐ CMalloc jpeginfo_size;
  _ ← modify (set_param (assign [(encode, 0); (src_bufsize, 300*1024); (dst_bufsize, screen_size);
                                 (decInWait_buffer_size, 0); (decopw_en, 0)]));
  c ← get;
  let BufferSize := u32 (jpeg_param c src_bufsize + jpeg_param c dst_bufsize) in
  if Z.of_nat (length (pJpegBuffer c)) <? BufferSize then window_out else
  fp ⇐ FOpen (lit "./jpegWIN.jpg");
  match fp with
  | None => mret 0
  | Some text =>
      r ← load lf (jpeg_param c src_bufsize) text false 0 false;
      match r with
      | None => mret 0
      | Some count =>
          let count := round4 count in
          _ ← modify (set_param (assign [(src_bufsize, count); (dst_bufsize, BufferSize - count);
            (windec_mcux_start, 0); (windec_mcux_end, xres pn / 16 - 1);
            (windec_mcuy_start, 0); (windec_mcuy_end, yres pn / 16 - 1)]));
          c ← get;
          _ ← walk fuel info (Z.quot (Width (parsed c)) 16 - 1) (Z.quot (Height (parsed c)) 16 - 1) false;
          window_out
      end
  end.
End jpegWindowCodec.

(** ** The walk with an engine that cooperates *)

(** The window that is asked for. *)
Definition window_of (r : creq) : option (Z * Z * Z * Z) :=
  match r with
  | JPEG_S_PARAM p => Some (p windec_mcux_start, p windec_mcux_end, p windec_mcuy_start, p windec_mcuy_end)
  | _ => None
  end.

(** The panel's window at [s] steps. *)
Definition window_at (pn : panel) (s : Z) : Z * Z * Z * Z :=
  (s, xres pn / 16 - 1 + s, s, yres pn / 16 - 1 + s).

(** The requests of a decoding, in order. *)
Inductive decoding := Set_ | Start | Fetch | Pause.
Definition decoding_of (r : creq) : option decoding :=
  match r with
  | JPEG_S_PARAM _ => Some Set_
  | JPEG_TRIGGER _ => Some Start
  | CRead => Some Fetch
  | CSleep _ => Some Pause
  | _ => None
  end.

(** Forth to [k] and back. *)
Definition offsets (k : nat) : list Z := seqZ 0 (Z.of_nat k + 1) ++ rev (seqZ 0 (Z.of_nat k + 1)).

Section walking.
Context {D : Type} `{Heng : JpegEngine D} (pn : panel).
Implicit Types w : world codec creq D.

(** The memory of the engine holds the bitstream and a picture of the size of
    the panel, and the frame buffer stays as large as the panel. *)
Hypothesis screen_holds : ∀ l, screen_size pn <= Z.of_nat (length (r_video (engine l))).

Definition roomy (c : codec) : Prop := 307200 + screen_size pn <= Z.of_nat (length (pJpegBuffer c)).

Lemma show_window_run w : roomy (vars w) →
  let p := window_param pn (jpeg_param (vars w)) in
  ∃ w', show_window pn true w = Ok (true, w') ∧
    follows w [JPEG_S_PARAM p; JPEG_TRIGGER (pJpegBuffer (vars w)); CRead; CSleep 100000] w' ∧
    jpeg_param (vars w') = p ∧ roomy (vars w') ∧ parsed (vars w') = parsed (vars w).
Proof.
  intros Hroom p. unfold show_window. rewrite modify_run. set (w0 := with_vars _ _).
  destruct (start_run w0) as (w1 & E1 & V1 & F1). rewrite bind_run, E1. cbn [negb].
  apply follows_from in F1. change (jpeg_param (vars w0)) with p in F1.
  change (pJpegBuffer (vars w0)) with (pJpegBuffer (vars w)) in F1.
  destruct (wait_run w1) as (w2 & E2 & F2 & Hp2 & Hm2 & Hv2 & Hpa2 & _ & _). rewrite bind_run, E2.
  assert (told (driver w1) = (told (driver w) ++ [JPEG_S_PARAM p]) ++ [JPEG_TRIGGER (pJpegBuffer (vars w))]) as Ht
    by (rewrite (follows_told _ _ _ F1), <- app_assoc; done).
  set (i := engine (told (driver w1))) in *.
  assert (length (r_mem i) = length (pJpegBuffer (vars w))) as Hl by (unfold i; by rewrite Ht, engine_memory).
  assert (jpeg_param (vars w2) src_bufsize = 307200) as Hsrc by (by rewrite Hp2, V1).
  pose proof (u32_range (u32 (xres pn * yres pn) * 2)) as Hss. fold (screen_size pn) in Hss. unfold is_u32 in Hss.
  unfold roomy in *. rewrite get_run, Hsrc, Hm2, Hv2.
  assert (∀ m : codec, follows w ([JPEG_S_PARAM p; JPEG_TRIGGER (pJpegBuffer (vars w))] ++ [CRead] ++ [CSleep 100000])
    (Device.after (with_vars w2 m) (CSleep 100000))) as F3.
  { intros m. eapply follows_trans; [exact F1|]. eapply follows_trans; [exact F2|].
    apply (follows_from _ _ _ m (follows_after _ _)). }
  destruct (_ =? _).
  - rewrite load_bytes_Ok by lia. rewrite bind_run, lift_run.
    destruct (blit_Ok (r_video i) 0 (sub_bytes (r_mem i) 307200 (screen_size pn))) as (v & Ev & _); [lia| |].
    { pose proof (length_sub_bytes (r_mem i) 307200 (screen_size pn)). specialize (screen_holds (told (driver w1))). fold i in screen_holds. lia. }
    rewrite lift_run, Ev. cbn [modify]. rewrite request_run. eexists. split; [reflexivity|]. split; [apply F3|].
    cbn. by rewrite Hp2, V1, Hm2, Hl, Hpa2, V1.
  - rewrite bind_run, mret_run, request_run. eexists. split; [reflexivity|].
    split; [destruct w2; apply (F3 vars)|]. cbn. by rewrite Hp2, V1, Hm2, Hl, Hpa2, V1.
Qed.

Definition at_offset (s : Z) (p : jpeg_param_t) : Prop :=
  p windec_mcux_start = u32 s ∧ p windec_mcux_end = u32 (xres pn / 16 - 1 + s) ∧
  p windec_mcuy_start = u32 s ∧ p windec_mcuy_end = u32 (yres pn / 16 - 1 + s).

Lemma at_offset_shift s d p : at_offset s p → at_offset (s + d) (shift d p).
Proof.
  intros (H1 & H2 & H3 & H4). unfold at_offset.
  change (u32 (p windec_mcux_start + d) = u32 (s + d) ∧
    u32 (p windec_mcux_end + d) = u32 (xres pn / 16 - 1 + (s + d)) ∧
    u32 (p windec_mcuy_start + d) = u32 (s + d) ∧
    u32 (p windec_mcuy_end + d) = u32 (yres pn / 16 - 1 + (s + d))). rewrite H1, H2, H3, H4.
  rewrite !u32_add_l, !Z.add_assoc. done.
Qed.

Lemma at_offset_window s p : at_offset s p → at_offset s (window_param pn p).
Proof. done. Qed.

(** What a walk does: the windows in order, each set, decoded, fetched and shown. *)
Definition shows w (l : list Z) w' : Prop := ∃ rs, follows w rs w' ∧
  omap window_of rs = map (window_at pn) l ∧ omap decoding_of rs = concat (replicate (length l) [Set_; Start; Fetch; Pause]) ∧
  parsed (vars w') = parsed (vars w).

Lemma shows_cons w1 s w2 l w3 : shows w1 [s] w2 → shows w2 l w3 → shows w1 (s :: l) w3.
Proof.
  intros (rs1 & F1 & W1 & D1 & P1) (rs2 & F2 & W2 & D2 & P2). exists (rs1 ++ rs2).
  split; [by eapply follows_trans|]. rewrite !omap_app, W1, W2, D1, D2. split; [done|]. split; [done|congruence].
Qed.

Context (WX WY : Z).
Notation fits s := (0 <= s ∧ 0 <= xres pn / 16 - 1 ∧ 0 <= yres pn / 16 - 1 ∧
  xres pn / 16 - 1 + s < 4294967295 ∧ yres pn / 16 - 1 + s < 4294967295).
Notation out_of s := ((u32 WX <? u32 (xres pn / 16 - 1 + s)) || (u32 WY <? u32 (yres pn / 16 - 1 + s))).

Lemma walk_step fuel (direction : bool) s w : roomy (vars w) → at_offset s (jpeg_param (vars w)) → fits s →
  let s' := if direction then s - 1 else s + 1 in
  ∃ w', walk pn (S fuel) true WX WY direction w =
      (if (s =? 0) && direction then mret tt else walk pn fuel true WX WY (direction || out_of s')) w' ∧
    shows w [s] w' ∧ roomy (vars w') ∧ at_offset (if out_of s' then s' - 1 else s') (jpeg_param (vars w')).
Proof.
  intros Hroom Hat Hs s'. destruct (show_window_run w Hroom) as (w1 & E1 & F1 & Hp1 & Hr1 & Hpa1).
  pose proof (at_offset_window _ _ Hat) as Hat1. rewrite <- Hp1 in Hat1.
  cbn [walk]. rewrite bind_run, E1. cbn [negb]. rewrite get_run, modify_run.
  assert (at_offset s' (shift (if direction then -1 else 1) (jpeg_param (vars w1)))) as Hat2.
  { unfold s'. destruct direction; [|by apply at_offset_shift]. apply (at_offset_shift s (-1)), Hat1. }
  assert (beyond WX WY (shift (if direction then -1 else 1) (jpeg_param (vars w1))) = out_of s') as ->
    by (destruct Hat2 as (_ & Hx & _ & Hy); unfold beyond; by rewrite Hx, Hy).
  assert (((jpeg_param (vars w1) windec_mcux_start =? 0) || (jpeg_param (vars w1) windec_mcuy_start =? 0)) = (s =? 0)) as ->.
  { destruct Hat1 as (-> & _ & -> & _). rewrite u32_id by (unfold is_u32; lia). by destruct (s =? 0). }
  eexists. split; [by destruct ((s =? 0) && direction)|]. split; [|split; [done|]].
  - exists [JPEG_S_PARAM (window_param pn (jpeg_param (vars w))); JPEG_TRIGGER (pJpegBuffer (vars w)); CRead; CSleep 100000].
    split; [by apply follows_vars|]. split; [|split; [done|done]].
    rewrite <- Hp1. cbn [omap list_omap window_of map]. destruct Hat1 as (-> & -> & -> & ->). unfold window_at.
    rewrite !u32_id by (unfold is_u32; lia). done.
  - cbn [vars with_vars set_param jpeg_param]. destruct (out_of s'); [apply (at_offset_shift s' (-1)), Hat2|exact Hat2].
Qed.

(** The walk to the end and back, when the picture is not tiny. *)
Hypothesis picture_size : 0 <= WX < 4294967296 ∧ 0 <= WY < 4294967296.
Hypothesis panel_size : 0 <= xres pn / 16 - 1 < 2147483647 ∧ 0 <= yres pn / 16 - 1 < 2147483647.
Notation k := (Z.max 0 (Z.min (WX - (xres pn / 16 - 1)) (WY - (yres pn / 16 - 1)))).

Lemma out_of_false s : 0 <= s → s <= WX - (xres pn / 16 - 1) → s <= WY - (yres pn / 16 - 1) → out_of s = false.
Proof.
  intros. rewrite !u32_id by (unfold is_u32; lia). apply orb_false_iff. split; apply Z.ltb_ge; lia.
Qed.
Lemma out_of_true s : 0 <= s < 2147483648 → WX - (xres pn / 16 - 1) < s ∨ WY - (yres pn / 16 - 1) < s → out_of s = true.
Proof.
  intros ? Hs. rewrite !u32_id by (unfold is_u32; lia). apply orb_true_iff. rewrite !Z.ltb_lt. lia.
Qed.

Lemma walk_down s : ∀ fuel w, Z.of_nat s <= k → k < 2147483647 → (s < fuel)%nat → roomy (vars w) →
  at_offset (Z.of_nat s) (jpeg_param (vars w)) →
  ∃ w', walk pn fuel true WX WY true w = Ok (tt, w') ∧ shows w (rev (seqZ 0 (Z.of_nat s + 1))) w'.
Proof.
  induction s as [|s IH]; intros [|fuel] w Hs Hk Hf Hroom Hat; try lia;
    destruct (walk_step fuel true _ w Hroom Hat) as (w1 & -> & S1 & R1 & A1); [lia| |lia|].
  - exists w1. by split.
  - rewrite (proj2 (Z.eqb_neq _ _)) by lia. cbn [andb orb].
    rewrite out_of_false in A1 by lia. replace (Z.of_nat (S s) - 1) with (Z.of_nat s) in A1 by lia.
    destruct (IH fuel w1) as (w2 & -> & S2); [lia|lia|lia|done|done|]. exists w2. split; [done|].
    replace (Z.of_nat (S s) + 1) with (Z.of_nat (S (S s))) by lia. rewrite seqZ_S, rev_app_distr, Z.add_0_l.
    replace (Z.of_nat s + 1) with (Z.of_nat (S s)) in S2 by lia. by apply (shows_cons w (Z.of_nat (S s)) w1).
Qed.

Lemma walk_up j : ∀ s fuel w, s + Z.of_nat j = k → 0 <= s → k < 2147483647 → (j + Z.to_nat k + 1 < fuel)%nat →
  roomy (vars w) → at_offset s (jpeg_param (vars w)) →
  ∃ w', walk pn fuel true WX WY false w = Ok (tt, w') ∧
    shows w (seqZ s (Z.of_nat j + 1) ++ rev (seqZ 0 (k + 1))) w'.
Proof.
  induction j as [|j IH]; intros s [|fuel] w Hj Hs Hk Hf Hroom Hat; try lia;
    (destruct (walk_step fuel false _ w Hroom Hat) as (w1 & -> & S1 & R1 & A1); [lia|]);
    rewrite andb_false_r; rewrite seqZ_cons by lia; cbn [app].
  - rewrite out_of_true in A1 |- * by lia. cbn [orb].
    replace (s + 1 - 1) with (Z.of_nat (Z.to_nat k)) in A1 by lia.
    destruct (walk_down (Z.to_nat k) fuel w1) as (w2 & -> & S2); [lia|lia|lia|done|done|]. exists w2. split; [done|].
    replace (Z.of_nat (Z.to_nat k)) with k in S2 by lia. by apply (shows_cons w s w1).
  - rewrite out_of_false in A1 |- * by lia. cbn [orb].
    destruct (IH (s + 1) fuel w1) as (w2 & -> & S2); [lia|lia|lia|lia|done|done|]. exists w2. split; [done|].
    replace (Z.pred (Z.of_nat (S j) + 1)) with (Z.of_nat j + 1) by lia. by apply (shows_cons w s w1).
Qed.
End walking.

Section sessions.
Context {D : Type} `{Heng : JpegEngine D} (pn : panel).
Implicit Types w : world codec creq D.
Hypothesis screen_holds : ∀ l, screen_size pn <= Z.of_nat (length (r_video (engine l))).
Hypothesis panel_bounds : 16 <= xres pn ∧ 16 <= yres pn ∧ xres pn * yres pn * 2 < 4294000000.

Lemma screen_size_val : screen_size pn = xres pn * yres pn * 2.
Proof. unfold screen_size. rewrite u32_mul_l. apply u32_id. unfold is_u32. nia. Qed.

Lemma panel_steps : 0 <= xres pn / 16 - 1 < 2147483647 ∧ 0 <= yres pn / 16 - 1 < 2147483647.
Proof.
  pose proof (Z.div_le_lower_bound (xres pn) 16 1). pose proof (Z.div_le_lower_bound (yres pn) 16 1).
  pose proof (Z.mul_div_le (xres pn) 16). pose proof (Z.mul_div_le (yres pn) 16). nia.
Qed.

(** Up to the walk. *)
Lemma window_prologue lf fuel sz text pw ph w :
  let c := vars w in
  disk (driver w) (lit "./jpegWIN.jpg") = Some text → scannable (parsed c) (pJpegBuffer c) text text →
  (scan_all 0 text).2 = Some (pw, ph) → Z.of_nat (length text) <= 307200 →
  307200 + screen_size pn <= Z.of_nat (length (pJpegBuffer c)) → (length text / block < lf)%nat →
  ∃ w', jpegWindowCodec pn lf fuel sz w =
      (_ ← walk pn fuel true (Z.quot pw 16 - 1) (Z.quot ph 16 - 1) false; window_out) w' ∧
    follows w ([CMalloc sz; FOpen (lit "./jpegWIN.jpg")] ++ replicate (S (length text / block)) Select) w' ∧
    roomy pn (vars w') ∧ at_offset pn 0 (jpeg_param (vars w')).
Proof.
  intros c Hfile Hscan Hsize Hlen Hmem Hf. pose proof screen_size_val as Hss. pose proof panel_steps as Hpanel.
  unfold jpegWindowCodec. rewrite modify_run, request_run. unfold Device.answer. rewrite mallocs, modify_run, get_run.
  set (w1 := with_vars _ _).
  assert (follows w [CMalloc sz] w1) as F1 by (apply follows_vars; exact (follows_from w _ _ _ (follows_after _ _))).
  assert (jpeg_param (vars w1) src_bufsize = 307200) as -> by reflexivity.
  assert (jpeg_param (vars w1) dst_bufsize = screen_size pn) as ->.
  { transitivity (u32 (screen_size pn)); [reflexivity|]. unfold screen_size. by rewrite u32_u32. }
  rewrite u32_id by (unfold is_u32; nia). change (pJpegBuffer (vars w1)) with (pJpegBuffer c).
  rewrite (proj2 (Z.ltb_ge _ _)) by lia. rewrite request_run. unfold Device.answer.
  rewrite opens, (follows_disk _ _ _ F1), Hfile by (intros ?? Hin; by apply list_elem_of_singleton in Hin).
  set (w2 := Device.after _ _).
  destruct (load_run lf 307200 text 0 false w2) as (w3 & o & E3 & F3 & V3 & Hrep);
    change (vars w2) with (vars w1) in *; change (pJpegBuffer (vars w1)) with (pJpegBuffer c) in *;
    change (parsed (vars w1)) with (parsed c) in *; rewrite ?take_0 in *; [done|lia|nia|done|done|].
  rewrite bind_run, E3, modify_run, get_run. cbn [app] in V3, Hrep. set (w4 := with_vars _ _).
  destruct Hrep as (_ & _ & Hrep). rewrite Hsize in Hrep. cbn [default] in Hrep. injection Hrep as HW HH.
  assert (parsed (vars w4) = o) as -> by (unfold w4; cbn; by rewrite V3). rewrite HW, HH.
  exists w4. split; [reflexivity|]. split; [|split].
  - apply follows_vars. eapply follows_trans; [|exact F3]. eapply (follows_trans _ _ _ [_] [_] F1), follows_after.
  - unfold roomy, w4. cbn. rewrite V3. cbn. rewrite length_app, length_drop. lia.
  - unfold at_offset. rewrite !Z.add_0_r. done.
Qed.

(** C14: The window demo ends, and it shows what it is meant to: the window of the
    size of the panel goes from the top left corner of the picture along the
    diagonal in steps of one MCU until it reaches the right or the lower edge,
    and back to the corner; every window lies inside the picture (when the
    panel does), each is set, decoded, fetched and left on the screen for a
    while, in this order, and nothing else is requested.  With a picture smaller
    than the panel the corner is shown twice. *)
Theorem window_goes_forth_and_back lf fuel sz text pw ph w :
  let c := vars w in
  disk (driver w) (lit "./jpegWIN.jpg") = Some text → scannable (parsed c) (pJpegBuffer c) text text →
  (scan_all 0 text).2 = Some (pw, ph) → Z.of_nat (length text) <= 307200 →
  307200 + screen_size pn <= Z.of_nat (length (pJpegBuffer c)) → (length text / block < lf)%nat →
  16 <= pw < 65536 → 16 <= ph < 65536 →
  let k := Z.max 0 (Z.min (pw / 16 - xres pn / 16) (ph / 16 - yres pn / 16)) in
  (2 * Z.to_nat k + 1 < fuel)%nat →
  ∃ w' rs, jpegWindowCodec pn lf fuel sz w = Ok (0, w') ∧
    trace w' = trace w ++ [CMalloc sz; FOpen (lit "./jpegWIN.jpg")] ++ replicate (S (length text / block)) Select ++
      rs ++ [CFree] ∧
    omap window_of rs = map (window_at pn) (offsets (Z.to_nat k)) ∧
    omap decoding_of rs = concat (replicate (2 * (Z.to_nat k + 1)) [Set_; Start; Fetch; Pause]).
Proof.
  intros c Hfile Hscan Hsize Hlen Hmem Hf Hpw Hph k Hfuel. pose proof panel_steps as Hpanel.
  assert (1 <= pw / 16 < 4096) as Hw by (split; [apply Z.div_le_lower_bound|apply Z.div_lt_upper_bound]; lia).
  assert (1 <= ph / 16 < 4096) as Hh by (split; [apply Z.div_le_lower_bound|apply Z.div_lt_upper_bound]; lia).
  destruct (window_prologue lf fuel sz text pw ph w) as (w1 & -> & F1 & R1 & A1); [done..|].
  rewrite !Z.quot_div_nonneg by lia.
  destruct (walk_up pn screen_holds (pw / 16 - 1) (ph / 16 - 1) ltac:(lia) Hpanel (Z.to_nat k) 0 fuel w1)
    as (w2 & E2 & rs & F2 & W2 & D2 & _); [lia|lia|lia|lia|done|done|].
  exists (Device.after w2 CFree), rs. rewrite bind_run, E2. split; [done|].
  split; [rewrite (follows_trace _ _ _ (follows_trans _ _ _ _ _ (follows_trans _ _ _ _ _ F1 F2) (follows_after _ CFree)));
    by rewrite <- !app_assoc|].
  replace (Z.max 0 (Z.min (pw / 16 - 1 - (xres pn / 16 - 1)) (ph / 16 - 1 - (yres pn / 16 - 1)))) with k in W2, D2 by lia.
  unfold offsets. rewrite Z2Nat.id in * by lia. split; [exact W2|]. rewrite D2. do 2 f_equal.
  rewrite length_app, length_rev, length_seqZ. lia.
Qed.

(** With a picture narrower and lower than one MCU the last MCU has number -1,
    which the comparison takes for the largest unsigned number. *)
Lemma never_beyond p d : beyond (-1) (-1) (shift d p) = false.
Proof.
  unfold beyond. change (shift d p windec_mcux_end) with (u32 (p windec_mcux_end + d)).
  change (shift d p windec_mcuy_end) with (u32 (p windec_mcuy_end + d)).
  change (u32 (-1)) with 4294967295. pose proof (u32_range (p windec_mcux_end + d)).
  pose proof (u32_range (p windec_mcuy_end + d)). unfold is_u32 in *.
  by rewrite !(proj2 (Z.ltb_ge _ _)) by lia.
Qed.

Lemma walk_forever fuel : ∀ w, roomy pn (vars w) → walk pn fuel true (-1) (-1) false w = Crash OutOfFuel.
Proof.
  induction fuel as [|fuel IH]; intros w Hroom; [done|].
  destruct (show_window_run pn screen_holds w Hroom) as (w1 & E1 & _ & _ & R1 & _).
  cbn [walk]. rewrite bind_run, E1. cbn [negb]. rewrite get_run, modify_run, andb_false_r.
  cbn [negb]. rewrite never_beyond. by apply IH.
Qed.

(** With a picture of fewer than 16 pixels in both directions the window demo
    never ends: the window moves away from the picture for ever. *)
Theorem tiny_picture_never_ends lf fuel sz text pw ph w :
  let c := vars w in
  disk (driver w) (lit "./jpegWIN.jpg") = Some text → scannable (parsed c) (pJpegBuffer c) text text →
  (scan_all 0 text).2 = Some (pw, ph) → Z.of_nat (length text) <= 307200 →
  307200 + screen_size pn <= Z.of_nat (length (pJpegBuffer c)) → (length text / block < lf)%nat →
  0 <= pw < 16 → 0 <= ph < 16 →
  jpegWindowCodec pn lf fuel sz w = Crash OutOfFuel.
Proof.
  intros c Hfile Hscan Hsize Hlen Hmem Hf Hpw Hph.
  destruct (window_prologue lf fuel sz text pw ph w) as (w1 & -> & F1 & R1 & A1); [done..|].
  rewrite !Z.quot_small by lia. change (0 - 1) with (-1). by rewrite bind_run, walk_forever.
Qed.
End sessions.

(** ** Witnesses *)

(** A panel of 32 x 16 pixels, and pictures of 320 x 240 and 8 x 8. *)
Definition small_panel : panel := Panel 32 16 0 0 0.
Definition tiny_file : list Z := jpeg_file [] 8 8 8 [].

Definition window_engine (l : list creq) : jpeg_info :=
  match last l with
  | Some (JPEG_TRIGGER mem) => JpegInfo 0 32 16 JPEG_DECODED_IMAGE 1024 mem [] (replicate (Z.to_nat 1024) 0)
  | _ => JpegInfo 0 0 0 0 0 [] [] (replicate (Z.to_nat 1024) 0)
  end.

(** The disk is the first component of the state. *)
#[export] Instance window_driver : Driver creq creply (list Z * list creq) := λ d r,
  ((d.1, d.2 ++ (if is_ioctl r then [r] else [])),
   match r return creply r with
   | CMalloc _ => true
   | FOpen name => if bool_decide (name = lit "./jpegWIN.jpg") then Some d.1 else None
   | Select => true
   | CRead => window_engine d.2
   | JPEG_G_DECIPW_BUFFER_SIZE => (0, 4096)
   | FCreate _ data => (3, if data is [] then [] else [Z.of_nat (length data)])
   | ReadWord => []
   | ReadInt => None
   | CFree | FClose | EngineWrite _ | CSleep _ => tt
   | _ => 0
   end).

#[export] Instance window_jpeg_engine : JpegEngine (list Z * list creq).
Proof.
  refine (Build_JpegEngine _ _ snd (λ d name, if bool_decide (name = lit "./jpegWIN.jpg") then Some d.1 else None)
    window_engine _ _ _ _ _ _ _ _ _ _ _); try done.
  - intros l. unfold window_engine. by destruct (last l) as [[]|].
  - intros l mem. unfold window_engine. by rewrite last_snoc.
  - intros d name [|b data]; cbn; lia.
Defined.

Lemma window_screen l : screen_size small_panel <= Z.of_nat (length (r_video (@engine _ _ window_jpeg_engine l))).
Proof.
  change (engine l) with (window_engine l). unfold window_engine. change (screen_size small_panel) with 1024.
  destruct (last l) as [[]|]; cbn [r_video]; rewrite length_replicate; lia.
Qed.

Definition window_codec (buf : list Z) : codec := Codec no_param buf (replicate (Z.to_nat 1024) 0) empty_out false None [].

Lemma window_goes_forth_and_back_witness :
  ∃ buf w', jpegWindowCodec small_panel 1 40 28 (World (window_codec buf) (sample_file, []) []) = Ok (0, w') ∧
    length (omap window_of (trace w')) = 30%nat ∧ omap window_of (trace w') !! 14%nat = Some (14, 15, 14, 14).
Proof.
  destruct (zero_memory 308224) as (buf & Hu & Hl); [lia|]. exists buf.
  destruct (window_goes_forth_and_back (D := list Z * list creq) small_panel window_screen ltac:(cbn; lia) 1 40 28 sample_file 320 240
    (World (window_codec buf) (sample_file, []) [])) as (w' & rs & E & Ht & Hwin & _).
  - reflexivity.
  - split; [by apply all_u8|]. split; [exact Hu|]. split; [done|]. split; [done|]. vm_compute. lia.
  - vm_compute. reflexivity.
  - vm_compute. discriminate.
  - change (screen_size small_panel) with 1024. cbn [vars window_codec pJpegBuffer]. lia.
  - apply Nat.ltb_lt. vm_compute. reflexivity.
  - lia.
  - lia.
  - apply Nat.ltb_lt. vm_compute. reflexivity.
  - exists w'. split; [exact E|]. rewrite Ht, !omap_app, Hwin. split; vm_compute; reflexivity.
Defined.

Lemma tiny_picture_never_ends_witness :
  ∃ buf, jpegWindowCodec small_panel 1 100000 28 (World (window_codec buf) (tiny_file, []) []) = Crash OutOfFuel.
Proof.
  destruct (zero_memory 308224) as (buf & Hu & Hl); [lia|]. exists buf.
  apply (tiny_picture_never_ends (D := list Z * list creq) small_panel window_screen ltac:(cbn; lia) 1 100000 28 tiny_file 8 8).
  - reflexivity.
  - split; [by apply all_u8|]. split; [exact Hu|]. split; [done|]. split; [done|]. vm_compute. lia.
  - vm_compute. reflexivity.
  - vm_compute. discriminate.
  - change (screen_size small_panel) with 1024. cbn [vars window_codec pJpegBuffer]. lia.
  - apply Nat.ltb_lt. vm_compute. reflexivity.
  - lia.
  - lia.
Defined.
