(* ===== verification/JpegResize.v ===== *)
(** * JpegResize: resizing a file, and the menu

    Models [jpeg_resize] and the menu of [main] in src/jpeg_codec/jpeg_demo.c:
    a file is decoded, at most downscaled, into the engine's memory, and the
    picture is encoded from there, at most up-scaled, into a new file, into which
    the application markers of the old one can be copied. *)
From stdpp Require Import functions.
From S2P Require Import Prelude LibC Bytes Device JpegHeader JpegCodec JpegStream JpegWindow.
Local Open Scope cmodel_scope.
Local Open Scope Z_scope.

Definition DRVJPEG_DEC_PRIMARY_PACKET_YUV422 : Z := 0x0021.
Definition DRVJPEG_ENC_PRIMARY_YUV422 : Z := 0xA8.
Definition filename_size : Z := 50.

(** The locals of [jpeg_resize] that may be read before they are set. *)
Record unset := Unset {
  u_width : Z; u_height : Z; u_format : Z; u_reserved : Z; u_outputfilename : list Z
}.

(** The limits of the new size. *)
Definition max_size (n : Z) : Z := let m := s32 (n * 8) in if 4095 <? m then 4095 else m.
Definition min_size (n : Z) : Z := let m := Z.quot n 6 in if m <? 1 then 1 else m.

(** *** The name of the new file *)

(** [strcpy(outputfilename, inputfilename)]. *)
Definition copy_name (buf name : list Z) : result (list Z) := blit buf 0 (name ++ [0]).

(** The index of the first point in the array. *)
Fixpoint find_point (buf : list Z) (i : nat) : option nat :=
  match buf with
  | [] => None
  | c :: buf => if c =? 46 then Some i else find_point buf (S i)
  end.

(** The string that starts at an index, [None] without an end inside the array. *)
Definition string_at (buf : list Z) (i : nat) : option (list Z) :=
  if bool_decide (0 ∈ drop i buf) then Some (cstr (drop i buf)) else None.

(** <base>_<width>x<height>.<extension>; without a point the index is the size
    of the array, and what is read and written lies behind it. *)
Definition output_name (buf : list Z) (width height : Z) : result (list Z) :=
  match find_point buf 0 with
  | None => Crash OutOfBounds
  | Some i =>
      match string_at buf (S i) with
      | None => Crash OutOfBounds
      | Some extenname =>
          let name := cstr (take i buf) ++ [95] ++ print_d width ++ [120] ++ print_d height ++ [46] ++ extenname in
          if Z.of_nat (length name) <? filename_size then Ok name else Crash OutOfBounds
      end
  end.

(** *** The application markers *)

(** [AppTotalSize] and [AppInfo] from the table of the scanner. *)
Fixpoint collect_markers (mem : list Z) (offsets sizes : list Z) (n : nat) {struct n} : result (list Z) :=
  match n, offsets, sizes with
  | O, _, _ => Ok []
  | S n, o :: offsets, s :: sizes =>
      marker ← load_bytes mem o s;
      rest ← collect_markers mem offsets sizes n;
      Ok (marker ++ rest)
  | S _, _, _ => Crash OutOfBounds
  end.

Definition total_size (sizes : list Z) (n : nat) : Z := foldl (λ a s, s32 (a + s)) 0 (take n sizes).

(** Copying the markers in front of the bitstream that starts at [src]: the new
    memory and the place and the length of what is written to the file. *)
Definition insert_markers (mem AppInfo : list Z) (AppTotalSize src image : Z) : result (list Z * Z * Z) :=
  let src := u32 (src - (AppTotalSize - 2)) in
  mem ← blit mem src AppInfo;
  mem ← blit mem (src - 2) [0xFF; 0xD8];
  Ok (mem, src - 2, image + AppTotalSize - 2).

Section jpeg_resize.
Context {D : Type} `{Driver creq creply D} (pn : panel).
Notation P := (prog codec creq D).

(** [while(1) { scanf("%d", &n); ... }]: what is typed and is no number leaves
    the variable as it was. *)
Fixpoint ask_size (fuel : nat) (low high cur : Z) : P Z :=
  match fuel with
  | O => fault OutOfFuel
  | S fuel =>
      r ⇐ ReadInt;
      let cur := default cur (r : option Z) in
      if (cur <=? high) && (low <=? cur) then mret cur else ask_size fuel low high cur
  end.

Definition decode_resize_param (width height scale_width scale_height : Z) (p : jpeg_param_t) : jpeg_param_t :=
  let p := assign [(scale, 1);
                   (scaled_width, if scale_width <=? width then scale_width else width);
                   (scaled_height, if scale_height <=? height then scale_height else height)] p in
  let p := if negb (p scaled_width mod 2 =? 0) then assign [(scaled_width, p scaled_width + 1)] p else p in
  assign [(dec_stride, 0); (decopw_en, 0); (windec_en, 0); (buffersize, 0); (buffercount, 1);
          (decode_output_format, DRVJPEG_DEC_PRIMARY_PACKET_YUV422)] p.

Definition encode_resize_param (size total width height scale_width scale_height format : Z) : jpeg_param_t :=
  assign [(encode, 1); (src_bufsize, size); (dst_bufsize, total - size); (encode_source_format, DRVJPEG_ENC_SRC_PACKET);
          (encode_width, if scale_width <? width then scale_width else width);
          (encode_height, if scale_height <? height then scale_height else height);
          (scaled_width, scale_width); (scaled_height, scale_height); (scale, 1);
          (encode_image_format, if negb (format =? 0) then DRVJPEG_ENC_PRIMARY_YUV422 else DRVJPEG_ENC_PRIMARY_YUV420);
          (buffersize, 0); (buffercount, 1)] no_param.

Definition resize_out : P Z := _ ⇐ CFree; mret 0.

(** After the decoding: the markers are kept, and the picture is copied to the
    front of the memory.  The result of malloc is not tested.  The copy may
    overlap; it is done from the front. *)
Definition keep_markers (appOption : bool) (reserved : Z) (i : jpeg_info) : P (list Z * Z * Z) :=
  if negb (i_state i =? JPEG_DECODED_IMAGE) then mret ([], 0, reserved) else
  c ← get;
  r ← (if appOption then
         let n := Z.to_nat (appNUm (parsed c)) in
         let AppTotalSize := total_size (appSize (parsed c)) n in
         ok ⇐ CMalloc (u32 AppTotalSize);
         info ← lift (collect_markers (pJpegBuffer c) (appOffset (parsed c)) (appSize (parsed c)) n);
         if negb (ok : bool) && negb (AppTotalSize =? 0) then fault NullDeref
         else mret (info, AppTotalSize, round4 AppTotalSize)
       else mret ([], 0, reserved));
  img ← lift (load_bytes (pJpegBuffer c) (jpeg_param c src_bufsize) (image_size i));
  mem ← lift (blit (pJpegBuffer c) 0 img);
  _ ← modify (set_mem mem);
  mret r.

(** The encoding, from the picture at the front of the memory. *)
Definition encode_resized (buf : list Z) (appOption keep_tables info : bool) (AppInfo : list Z)
    (AppTotalSize reserved format scale_width scale_height : Z) (i : jpeg_info) : P Z :=
  c ← get;
  let size := s32 (if appOption then image_size i + reserved else image_size i) in
  let total := Z.of_nat (length (pJpegBuffer c)) in
  _ ← modify (set_param (λ _, encode_resize_param size total (Width (parsed c)) (Height (parsed c))
                                scale_width scale_height format));
  _ ← (if keep_tables then mret tt else choose_table);
  c ← get;
  r ⇐ JPEG_S_PARAM (jpeg_param c);
  if (r : Z) <? 0 then resize_out else
  _ ⇐ JPEG_SET_ENC_STRIDE (i_width i);
  r ⇐ JPEG_TRIGGER (pJpegBuffer c);
  if (r : Z) <? 0 then resize_out else
  i ← wait info;
  match i with
  | None => if info then resize_out else fault NullDeref
  | Some i =>
      name ← lift (output_name buf scale_width scale_height);
      c ← get;
      let src := jpeg_param c src_bufsize in
      _ ← (if appOption then
             r ← lift (insert_markers (pJpegBuffer c) AppInfo AppTotalSize src (image_size i));
             _ ← modify (set_mem r.1.1);
             write_file name (load_bytes r.1.1 r.1.2 r.2)
           else write_file name (load_bytes (pJpegBuffer c) src (image_size i)));
      resize_out
  end.

Definition jpeg_resize (lf qf : nat) (u : unset) (jpeginfo_size : Z) : P Z :=
  _ ← modify (set_param (λ _, no_param));
  info ⇐ CMalloc jpeginfo_size;
  inputfilename ⇐ ReadWord;
  if filename_size <=? Z.of_nat (length inputfilename) then fault OutOfBounds else
  fp ⇐ FOpen inputfilename;
  match fp with
  | None => mret 0
  | Some text =>
      buf ← lift (copy_name (u_outputfilename u) inputfilename);
      c ← get;
      let jpeg_buffer_size := Z.of_nat (length (pJpegBuffer c)) in
      r ← load lf jpeg_buffer_size text false 0 false;
      match r with
      | None => mret 0
      | Some count =>
          let count := round4 count in
          _ ← modify (set_param (assign [(src_bufsize, count); (dst_bufsize, jpeg_buffer_size - count)]));
          c ← get;
          let width := Width (parsed c) in
          let height := Height (parsed c) in
          scale_width ← ask_size qf (min_size width) (max_size width) (u_width u);
          scale_height ← ask_size qf (min_size height) (max_size height) (u_height u);
          format ⇐ ReadInt;
          appOption ⇐ ReadInt;
          QTOption ⇐ ReadInt;
          let format := default (u_format u) (format : option Z) in
          let appOption := negb (default 0 (appOption : option Z) =? 0) in
          let QTOption := negb (default 0 (QTOption : option Z) =? 0) in
          _ ← modify (set_param (decode_resize_param width height scale_width scale_height));
          ok ← start;
          if negb ok then resize_out else
          i ← wait info;
          match i with
          | None => resize_out
          | Some i =>
              '(AppInfo, AppTotalSize, reserved) ← keep_markers appOption (u_reserved u) i;
              encode_resized buf appOption QTOption info AppInfo AppTotalSize reserved format scale_width scale_height i
          end
      end
  end.

(** ** The menu *)

Inductive choice := Codec_ (m : mode) | IPW (m : mode) | Window | Resize | Tables (user : bool) | Exit | Other.

Definition choice_of (select : Z) : choice :=
  if select =? 0x31 then Codec_ TEST_NORMAL_ENCODE
  else if select =? 0x32 then Codec_ TEST_NORMAL_DECODE
  else if select =? 0x33 then Codec_ TEST_DECODE_DOWNSCALE
  else if select =? 0x34 then Codec_ TEST_ENCODE_UPSCALE
  else if select =? 0x35 then IPW TEST_NORMAL_DECODE
  else if select =? 0x36 then IPW TEST_DECODE_DOWNSCALE
  else if select =? 0x37 then Codec_ TEST_DECODE_OUTPUTWAIT
  else if select =? 0x38 then Window
  else if select =? 0x39 then Codec_ TEST_ENCODE_RESERVED
  else if (select =? 97) || (select =? 65) then Resize
  else if (select =? 98) || (select =? 66) then Tables false
  else if (select =? 99) || (select =? 67) then Tables true
  else if (select =? 100) || (select =? 68) then Codec_ TEST_DECODE_DOWNSCALE_FB
  else if (select =? 0x58) || (select =? 0x78) then Exit
  else Other.

Definition set_qtflag (b : bool) (c : codec) : codec :=
  Codec (jpeg_param c) (pJpegBuffer c) (pVideoBuffer c) (parsed c) b (pJpegSWaddr c) (outputs c).

(** [false] ends the menu; [f] is the fuel of the loops of a session. *)
Definition run_choice (f : nat) (u : unset) (uVideoSize jpeginfo_size : Z) (x : choice) : P bool :=
  match x with
  | Codec_ m => _ ← jpegCodec pn f m uVideoSize jpeginfo_size; mret true
  | IPW m => _ ← jpegCodecIPW pn f f m jpeginfo_size; mret true
  | Window => _ ← jpegWindowCodec pn f f jpeginfo_size; mret true
  | Resize => _ ← jpeg_resize f f u jpeginfo_size; mret true
  | Tables user => _ ← modify (set_qtflag user); mret true
  | Exit => mret false
  | Other => mret true
  end.

(** [getchar] delivers -1 at the end of the input; [select] is unsigned. *)
Fixpoint menu (fuel f : nat) (u : unset) (uVideoSize jpeginfo_size : Z) : P unit :=
  match fuel with
  | O => fault OutOfFuel
  | S fuel =>
      ch ⇐ GetChar;
      let select := u32 (ch : Z) in
      if (select =? 10) || (select =? 13) then menu fuel f u uVideoSize jpeginfo_size else
      go_on ← run_choice f u uVideoSize jpeginfo_size (choice_of select);
      if negb go_on || (select =? 0xFF) then mret tt else menu fuel f u uVideoSize jpeginfo_size
  end.
End jpeg_resize.

(** ** The name of the new file *)

Lemma find_point_base base ext i : 46 ∉ base → find_point (base ++ 46 :: ext) i = Some (i + length base)%nat.
Proof.
  revert i. induction base as [|c base IH]; intros i Hb; cbn [find_point app length]; [by rewrite Nat.add_0_r|].
  apply not_elem_of_cons in Hb as [Hc Hb]. rewrite (proj2 (Z.eqb_neq _ _)) by done. rewrite IH by done. f_equal. lia.
Qed.

Lemma cstr_no_nul s : Forall (λ c, c ≠ 0) s → cstr s = s.
Proof. induction 1 as [|c s Hc _ IH]; cbn; [done|]. rewrite (proj2 (Z.eqb_neq _ _)) by done. by rewrite IH. Qed.

Lemma output_name_of base ext buf width height :
  Forall (λ c, c ≠ 0) (base ++ ext) → 46 ∉ base → Z.of_nat (length buf) = filename_size →
  let name := base ++ [95] ++ print_d width ++ [120] ++ print_d height ++ [46] ++ ext in
  Z.of_nat (length name) < filename_size →
  ∃ arr, copy_name buf (base ++ 46 :: ext) = Ok arr ∧ output_name arr width height = Ok name.
Proof.
  intros [Hb He]%Forall_app Hpt Hbuf name Hname. unfold copy_name.
  assert (length name = length base + 1 + length (print_d width) + 1 + length (print_d height) + 1 + length ext)%nat as Hl
    by (unfold name; repeat (rewrite length_app; cbn [length]); lia).
  destruct (blit_Ok buf 0 ((base ++ 46 :: ext) ++ [0])) as (arr & E & _);
    [lia|rewrite !length_app; cbn [length]; lia|]. exists arr. split; [done|].
  apply blit_inv in E as (_ & _ & ->). change (Z.to_nat 0) with 0%nat. rewrite take_0, !app_nil_l, <- !app_assoc. cbn [app].
  rewrite Nat.add_0_l. set (junk := drop _ _).
  unfold output_name. rewrite find_point_base by done. cbn [Nat.add].
  assert (drop (S (length base)) (base ++ 46 :: ext ++ 0 :: junk) = ext ++ 0 :: junk) as Hd.
  { replace (S (length base)) with (length base + 1)%nat by lia. rewrite <- drop_drop, drop_app_length. done. }
  unfold string_at. rewrite Hd, bool_decide_true by (rewrite elem_of_app; right; left).
  rewrite cstr_app_nul, take_app_length, cstr_no_nul by done. fold name.
  by rewrite (proj2 (Z.ltb_lt _ _)).
Qed.

(** ** The markers *)

Lemma load_bytes_inv buf off len l : load_bytes buf off len = Ok l → l = sub_bytes buf off len ∧ Z.of_nat (length l) = len ∧ 0 <= off.
Proof.
  unfold load_bytes. destruct (_ && _) eqn:E; [|done]. zcmp. intros [= <-]. split; [done|].
  unfold sub_bytes. rewrite length_take, length_drop. lia.
Qed.

(** The markers of a table all lie in the memory. *)
Lemma collect_markers_run mem segs : ∀ offsets sizes n,
  n = length segs → zip (take n offsets) (take n sizes) = segs →
  (n <= length offsets)%nat → (n <= length sizes)%nat →
  Forall (λ s, 0 <= s.1 ∧ 0 <= s.2 ∧ s.1 + s.2 <= Z.of_nat (length mem)) segs →
  collect_markers mem offsets sizes n = Ok (concat (map (λ s, sub_bytes mem s.1 s.2) segs)).
Proof.
  induction segs as [|[o s] segs IH]; intros offsets sizes n -> Hzip Ho Hs Hin; cbn [length]; [done|].
  destruct offsets as [|o' offsets], sizes as [|s' sizes]; cbn [length] in *; try lia.
  cbn [take zip zip_with] in Hzip. injection Hzip as -> -> Hzip. inversion_clear Hin as [|?? [? [? ?]] Hin']. cbn [fst snd] in *.
  cbn [collect_markers map concat fst snd]. rewrite load_bytes_Ok by lia. rewrite bind_of_ok.
  rewrite (IH offsets sizes (length segs)) by (done || lia). done.
Qed.

Lemma total_size_run (segs : list (Z * Z)) : ∀ a offsets sizes n,
  n = length segs → zip (take n offsets) (take n sizes) = segs →
  (n <= length offsets)%nat → (n <= length sizes)%nat → 0 <= a → Forall (λ s, 0 <= s.2) segs →
  a + foldr Z.add 0 (map snd segs) < 2147483648 →
  foldl (λ a s, s32 (a + s)) a (take n sizes) = a + foldr Z.add 0 (map snd segs).
Proof.
  induction segs as [|[o s] segs IH]; intros a offsets sizes n -> Hzip Ho Hs Ha Hin Hb; cbn [length map foldr]; [by rewrite Z.add_0_r|].
  destruct offsets as [|o' offsets], sizes as [|s' sizes]; cbn [length] in *; try lia.
  cbn [take zip zip_with] in Hzip. injection Hzip as -> -> Hzip. inversion_clear Hin as [|?? Hs0 Hin']. cbn [fst snd map foldr] in *.
  assert (0 <= foldr Z.add 0 (map snd segs)) by (clear -Hin'; induction Hin'; cbn; lia).
  cbn [take foldl]. rewrite s32_id by (unfold is_s32; lia). rewrite (IH (a + s) offsets sizes) by (done || lia). lia.
Qed.

Lemma length_markers mem segs :
  Forall (λ s, 0 <= s.1 ∧ 0 <= s.2 ∧ s.1 + s.2 <= Z.of_nat (length mem)) segs →
  Z.of_nat (length (concat (map (λ s, sub_bytes mem s.1 s.2) segs))) = foldr Z.add 0 (map snd segs).
Proof.
  induction 1 as [|[o s] segs (Ho & Hs & Hin) _ IH]; cbn [map concat foldr fst snd length]; [done|].
  cbn [fst snd] in *. rewrite length_app, Nat2Z.inj_add, IH. f_equal.
  unfold sub_bytes. rewrite length_take, length_drop. lia.
Qed.

(** What is written with markers: a start of image, the markers, and the
    bitstream without its own start of image and without its last two bytes. *)
Definition with_markers (AppInfo bits : list Z) : list Z :=
  let complete := [0xFF; 0xD8] ++ AppInfo ++ drop 2 bits in take (length complete - 2) complete.

Lemma insert_markers_run mem AppInfo src image :
  Z.of_nat (length AppInfo) <= src → is_u32 src → 4 <= image → src + image <= Z.of_nat (length mem) →
  is_s32 (Z.of_nat (length mem)) →
  ∃ mem', insert_markers mem AppInfo (Z.of_nat (length AppInfo)) src image =
      Ok (mem', src - Z.of_nat (length AppInfo), image + Z.of_nat (length AppInfo) - 2) ∧
    load_bytes mem' (src - Z.of_nat (length AppInfo)) (image + Z.of_nat (length AppInfo) - 2) =
      Ok (with_markers AppInfo (sub_bytes mem src image)).
Proof.
  intros HA Hsrc Himg Hfit Hs. unfold is_u32, is_s32 in *. unfold insert_markers. set (A := Z.of_nat (length AppInfo)) in *.
  rewrite u32_id by (unfold is_u32; lia). replace (src - (A - 2)) with (src - A + 2) by lia.
  replace (src - A + 2 - 2) with (src - A) by lia.
  destruct (blit_Ok mem (src - A + 2) AppInfo) as (m1 & E1 & Hl1); [lia|lia|]. rewrite E1, bind_of_ok.
  destruct (blit_Ok m1 (src - A) [0xFF; 0xD8]) as (m2 & E2 & Hl2); [lia|cbn [length]; lia|]. rewrite E2, bind_of_ok.
  exists m2. split; [done|]. rewrite load_bytes_Ok by lia. f_equal.
  apply blit_inv in E1 as (_ & _ & ->). apply blit_inv in E2 as (_ & _ & ->). cbn [length].
  unfold sub_bytes at 1. rewrite drop_app_length' by (rewrite length_take; rewrite !length_app, length_take, length_drop; lia).
  rewrite drop_app_ge by (rewrite length_take; lia). rewrite length_take.
  replace (Z.to_nat (src - A) + 2 - Z.to_nat (src - A + 2) `min` length mem)%nat with 0%nat by lia.
  rewrite drop_0. unfold with_markers, sub_bytes. rewrite skipn_firstn_comm, drop_drop.
  replace (Z.to_nat (src - A + 2) + length AppInfo)%nat with (Z.to_nat src + 2)%nat by lia.
  rewrite (app_assoc [255; 216]), (app_assoc [255; 216] AppInfo).
  rewrite !(take_app_ge ([255; 216] ++ AppInfo)) by (rewrite ?length_app, ?length_take, ?length_drop; cbn [length]; lia).
  rewrite take_take. f_equal. f_equal. rewrite !length_app, length_take, length_drop. cbn [length]. lia.
Qed.

(** ** The session with an engine, a disk and a user that cooperate *)

(** The user types a name and numbers. *)
Class UserInput (D : Type) `{JpegEngine D} := {
  word : D → list Z;
  numbers : D → list (option Z);
  word_is (d : D) : (respond d ReadWord).2 = word d;
  word_after (d : D) r : word (respond d r).1 = word d;
  number_is (d : D) : (respond d ReadInt).2 = default None (head (numbers d));
  numbers_after (d : D) r : numbers (respond d r).1 =
    match r with ReadInt => tail (numbers d) | _ => numbers d end
}.

Section resizing.
Context {D : Type} `{Huser : UserInput D}.
Implicit Types w : world codec creq D.

Lemma numbers_drive rs : ∀ d, Forall (λ r, r ≠ ReadInt) rs → numbers (drive d rs) = numbers d.
Proof.
  induction rs as [|r rs IH]; intros d Hne; [done|]. inversion_clear Hne as [|?? Hr Hrs].
  change (drive d (r :: rs)) with (drive (respond d r).1 rs). rewrite IH, numbers_after by done. by destruct r.
Qed.

Lemma read_int_run {A} (k : option Z → prog codec creq D A) x rest w : numbers (driver w) = x :: rest →
  (r ⇐ ReadInt; k r) w = k x (Device.after w ReadInt) ∧ numbers (driver (Device.after w ReadInt)) = rest.
Proof.
  intros Hn. rewrite request_run. unfold Device.answer. rewrite number_is, Hn. split; [done|].
  cbn [Device.after driver]. by rewrite numbers_after, Hn.
Qed.

Lemma ask_size_run qf low high cur v rest w : numbers (driver w) = Some v :: rest → low <= v <= high →
  ask_size (S qf) low high cur w = Ok (v, Device.after w ReadInt) ∧ numbers (driver (Device.after w ReadInt)) = rest.
Proof.
  intros Hn Hv. cbn [ask_size]. rewrite request_run. unfold Device.answer. rewrite number_is, Hn.
  cbn [head from_option id]. cbv zeta. rewrite !(proj2 (Z.leb_le _ _)) by lia. split; [done|].
  cbn [Device.after driver]. by rewrite numbers_after, Hn.
Qed.

(** The session after the questions. *)
Definition after_questions (buf : list Z) (u : unset) (appOption QTOption : bool) (format scale_width scale_height : Z)
    : prog codec creq D Z :=
  ok ← start;
  if negb ok then resize_out else
  i ← wait true;
  match i with
  | None => resize_out
  | Some i =>
      '(AppInfo, AppTotalSize, reserved) ← keep_markers appOption (u_reserved u) i;
      encode_resized buf appOption QTOption true AppInfo AppTotalSize reserved format scale_width scale_height i
  end.

(** The parameters for decoding a file of [n] bytes in a memory of [total]. *)
Definition resize_param (n total pw ph sw sh : Z) : jpeg_param_t :=
  decode_resize_param pw ph sw sh (assign [(src_bufsize, n); (dst_bufsize, total - n)] no_param).

Lemma resize_param_src n total pw ph sw sh : resize_param n total pw ph sw sh src_bufsize = u32 n.
Proof.
  unfold resize_param, decode_resize_param. set (p := assign [(scale, 1); _; _] _). cbv zeta.
  generalize (negb (p scaled_width mod 2 =? 0)). by intros [].
Qed.

Lemma questions_run (buf : list Z) u pw ph sw sh f a q (k : Z → Z → option Z → option Z → option Z → prog codec creq D Z) qf w :
  numbers (driver w) = [Some sw; Some sh; f; a; q] →
  min_size pw <= sw <= max_size pw → min_size ph <= sh <= max_size ph →
  ∃ w', (scale_width ← ask_size (S qf) (min_size pw) (max_size pw) (u_width u);
         scale_height ← ask_size (S qf) (min_size ph) (max_size ph) (u_height u);
         format ⇐ ReadInt; appOption ⇐ ReadInt; QTOption ⇐ ReadInt;
         k scale_width scale_height format appOption QTOption) w = k sw sh f a q w' ∧
    follows w (replicate 5 ReadInt) w' ∧ vars w' = vars w.
Proof.
  intros Hn Hsw Hsh. rewrite bind_run.
  destruct (ask_size_run qf _ _ (u_width u) _ _ _ Hn Hsw) as [-> N1]. rewrite bind_run.
  destruct (ask_size_run qf _ _ (u_height u) _ _ _ N1 Hsh) as [-> N2].
  destruct (read_int_run (λ f, a ⇐ ReadInt; q ⇐ ReadInt; k sw sh f a q) _ _ _ N2) as [-> N3].
  destruct (read_int_run (λ a, q ⇐ ReadInt; k sw sh f a q) _ _ _ N3) as [-> N4].
  destruct (read_int_run (λ q, k sw sh f a q) _ _ _ N4) as [-> N5].
  eexists. split; [reflexivity|]. split; [|done].
  repeat (eapply (follows_trans _ _ _ [_] _); [apply follows_after|]). split; [by rewrite app_nil_r|done].
Qed.

Lemma resize_prologue lf qf u sz name text buf pw ph sw sh f a q w :
  let c := vars w in
  let total := Z.of_nat (length (pJpegBuffer c)) in
  word (driver w) = name → Z.of_nat (length name) < filename_size → disk (driver w) name = Some text →
  numbers (driver w) = [Some sw; Some sh; f; a; q] →
  copy_name (u_outputfilename u) name = Ok buf →
  scannable (parsed c) (pJpegBuffer c) text text → (scan_all 0 text).2 = Some (pw, ph) →
  Z.of_nat (length text) < total → is_s32 total → (length text / block < lf)%nat →
  min_size pw <= sw <= max_size pw → min_size ph <= sh <= max_size ph →
  ∃ w', jpeg_resize lf (S qf) u sz w =
      after_questions buf u (negb (default 0 a =? 0)) (negb (default 0 q =? 0)) (default (u_format u) f) sw sh w' ∧
    follows w ([CMalloc sz; ReadWord; FOpen name] ++ replicate (S (length text / block)) Select ++ replicate 5 ReadInt) w' ∧
    jpeg_param (vars w') = resize_param (round4 (Z.of_nat (length text))) total pw ph sw sh ∧
    pJpegBuffer (vars w') = text ++ drop (length text) (pJpegBuffer c) ∧
    reports (parsed c) (parsed (vars w')) (scan_all 0 text) ∧
    g_qtflag (vars w') = g_qtflag c ∧ outputs (vars w') = outputs c.
Proof.
  intros c total Hword Hname Hfile Hnum Hbuf Hscan Hsize Hlen Hs Hlf Hsw Hsh.
  unfold jpeg_resize. rewrite modify_run, request_run. unfold Device.answer. rewrite mallocs.
  rewrite request_run. set (w1 := Device.after _ _).
  assert (Device.answer w1 ReadWord = name) as ->.
  { unfold Device.answer. rewrite word_is. unfold w1. cbn [Device.after driver with_vars]. by rewrite word_after. }
  rewrite (proj2 (Z.leb_gt _ _)) by done. rewrite request_run. unfold Device.answer.
  set (w2 := Device.after w1 ReadWord).
  assert (follows w [CMalloc sz; ReadWord] w2) as F2.
  { eapply (follows_trans _ _ _ [_] [_]); [|apply follows_after].
    exact (follows_from w _ _ (set_param (λ _, no_param) (vars w)) (follows_after _ _)). }
  rewrite opens, (follows_disk _ _ _ F2), Hfile by (intros ??; rewrite !elem_of_cons, elem_of_nil; naive_solver).
  set (w3 := Device.after w2 _).
  assert (follows w [CMalloc sz; ReadWord; FOpen name] w3) as F3 by exact (follows_trans _ _ _ [_; _] [_] F2 (follows_after _ _)).
  rewrite Hbuf, lift_run, get_run. change (pJpegBuffer (vars w3)) with (pJpegBuffer c). fold total.
  destruct (load_run lf total text 0 false w3) as (w4 & o & E4 & F4 & V4 & Hrep);
    change (pJpegBuffer (vars w3)) with (pJpegBuffer c) in *; change (parsed (vars w3)) with (parsed c) in *;
    rewrite ?take_0 in *; [done|lia|lia|done|done|].
  rewrite bind_run, E4, Z.add_0_l. cbn [app] in V4, Hrep. rewrite modify_run, get_run. set (w5 := with_vars w4 _).
  assert (parsed (vars w5) = o) as Hpa by (unfold w5; cbn; by rewrite V4). rewrite Hpa.
  pose proof Hrep as (_ & _ & HWH). rewrite Hsize in HWH. cbn [default] in HWH. injection HWH as -> ->.
  assert (follows w ([CMalloc sz; ReadWord; FOpen name] ++ replicate (S (length text / block)) Select) w5) as F5.
  { apply follows_vars. by eapply follows_trans. }
  assert (numbers (driver w5) = [Some sw; Some sh; f; a; q]) as N5.
  { rewrite (follows_driver _ _ _ F5), numbers_drive; [done|]. apply Forall_app_2; [by repeat constructor|].
    by apply Forall_replicate. }
  destruct (questions_run buf u pw ph sw sh f a q (λ sw sh f a q,
    _ ← modify (set_param (decode_resize_param pw ph sw sh));
    after_questions buf u (negb (default 0 a =? 0)) (negb (default 0 q =? 0)) (default (u_format u) f) sw sh) qf w5 N5 Hsw Hsh)
    as (w6 & E6 & F6 & V6).
  set (w7 := with_vars w6 (set_param (decode_resize_param pw ph sw sh) (vars w6))).
  exists w7. split; [exact E6|]. split; [apply follows_vars; rewrite app_assoc; by eapply follows_trans|].
  unfold w7. cbn [vars with_vars set_param jpeg_param pJpegBuffer parsed g_qtflag outputs]. rewrite V6, Hpa.
  unfold w5. cbn. rewrite V4. done.
Qed.

(** What the parts of a session leave. *)
Definition markers_in (mem : list Z) (segs : list (Z * Z)) : Prop :=
  Forall (λ s, 0 <= s.1 ∧ 0 <= s.2 ∧ s.1 + s.2 <= Z.of_nat (length mem)) segs ∧
  foldr Z.add 0 (map snd segs) < 2147483648.
Definition markers (appOption : bool) (mem : list Z) (segs : list (Z * Z)) : list Z :=
  if appOption then concat (map (λ s, sub_bytes mem s.1 s.2) segs) else [].

Lemma keep_markers_run (appOption : bool) reserved n i o r w :
  let mem := r_mem i in
  let info := markers appOption mem r.1 in
  i_state i = JPEG_DECODED_IMAGE → pJpegBuffer (vars w) = mem → jpeg_param (vars w) src_bufsize = n →
  0 <= n → 0 <= image_size i → n + image_size i <= Z.of_nat (length mem) →
  reports o (parsed (vars w)) r → markers_in mem r.1 →
  ∃ w', keep_markers appOption reserved i w =
      Ok ((info, Z.of_nat (length info), if appOption then round4 (Z.of_nat (length info)) else reserved), w') ∧
    follows w (if appOption then [CMalloc (Z.of_nat (length info))] else []) w' ∧
    vars w' = set_mem (sub_bytes mem n (image_size i) ++ drop (Z.to_nat (image_size i)) mem) (vars w).
Proof.
  intros mem info Hst Hmem Hsrc Hn Hi Hfit (Hnum & Hzip & _) [Hin Hsum].
  unfold keep_markers. rewrite Hst. cbn [negb Z.eqb JPEG_DECODED_IMAGE Pos.eqb]. rewrite get_run, Hmem, Hsrc.
  assert (∀ w1, vars w1 = vars w → ∃ w', (img ← lift (load_bytes mem n (image_size i));
      mem ← lift (blit mem 0 img); _ ← modify (set_mem mem);
      mret (info, Z.of_nat (length info), if appOption then round4 (Z.of_nat (length info)) else reserved)) w1 =
      Ok ((info, Z.of_nat (length info), if appOption then round4 (Z.of_nat (length info)) else reserved), w') ∧
      follows w1 [] w' ∧ vars w' = set_mem (sub_bytes mem n (image_size i) ++ drop (Z.to_nat (image_size i)) mem) (vars w)) as Hcopy.
  { intros w1 V1. rewrite load_bytes_Ok, lift_run by lia.
    assert (length (sub_bytes mem n (image_size i)) = Z.to_nat (image_size i)) as Hl
      by (unfold sub_bytes; rewrite length_take, length_drop; lia).
    unfold blit. rewrite Hl, !(proj2 (Z.leb_le _ _)) by lia. cbn [andb]. rewrite lift_run, modify_run.
    eexists. split; [reflexivity|]. split; [apply follows_refl|]. cbn. by rewrite V1. }
  destruct appOption; [|rewrite bind_run, mret_run; by apply Hcopy].
  set (k := length r.1) in *.
  assert (k <= length (appOffset (parsed (vars w))) ∧ k <= length (appSize (parsed (vars w))))%nat as [Ho Hs].
  { apply (f_equal length) in Hzip. rewrite length_zip_with, !length_take in Hzip. fold k in Hzip. lia. }
  assert (Z.of_nat (length info) = foldr Z.add 0 (map snd r.1)) as Hlen by (by apply length_markers).
  rewrite Hnum, Nat2Z.id. unfold total_size.
  rewrite (total_size_run r.1 0 (appOffset (parsed (vars w)))) by
    (done || (eapply Forall_impl; [exact Hin|]; cbn; lia)).
  rewrite Z.add_0_l, <- Hlen. rewrite bind_run, request_run. unfold Device.answer. rewrite mallocs.
  rewrite (collect_markers_run mem r.1) by done. rewrite lift_run. cbn [negb andb]. rewrite mret_run.
  change (concat _) with info. rewrite u32_id by (unfold is_u32; lia).
  destruct (Hcopy (Device.after w (CMalloc (Z.of_nat (length info)))) eq_refl) as (w' & -> & F & V).
  exists w'. split; [done|]. split; [exact (follows_trans _ _ _ [_] [] (follows_after _ _) F)|exact V].
Qed.

(** What the engine is told before it encodes. *)
Definition resize_settings (keep_tables user : bool) (stride : Z) (p : jpeg_param_t) : list creq :=
  (if keep_tables then [] else
   if user then [JPEG_SET_ENC_USER_QTABLE 0 g_au8QT0; JPEG_SET_ENC_USER_QTABLE 1 g_au8QT1; JPEG_ACTIVE_ENC_USER_QTABLE]
   else [JPEG_ACTIVE_ENC_DEFAULTQTABLE]) ++ [JPEG_S_PARAM p; JPEG_SET_ENC_STRIDE stride].

Definition resized_data (appOption : bool) (AppInfo bits : list Z) : list Z :=
  if appOption then with_markers AppInfo bits else bits.

Lemma save_resized_run (appOption : bool) AppInfo name size image w :
  let c := vars w in
  let total := Z.of_nat (length (pJpegBuffer c)) in
  jpeg_param c src_bufsize = size → is_s32 total → (appOption = true → Z.of_nat (length AppInfo) <= size ∧ 4 <= image) →
  0 <= size → 0 <= image → size + image <= total →
  let data := resized_data appOption AppInfo (sub_bytes (pJpegBuffer c) size image) in
  ∃ w', (c ← get;
         _ ← (if appOption then
                r ← lift (insert_markers (pJpegBuffer c) AppInfo (Z.of_nat (length AppInfo)) (jpeg_param c src_bufsize) image);
                _ ← modify (set_mem r.1.1);
                write_file name (load_bytes r.1.1 r.1.2 r.2)
              else write_file name (load_bytes (pJpegBuffer c) (jpeg_param c src_bufsize) image));
         resize_out) w = Ok (0, w') ∧ follows w [FCreate name data; CFree] w' ∧ outputs (vars w') = outputs c ++ [(name, data)].
Proof.
  intros c total Hsrc Ht Happ Hsize Himg Hfit data. unfold is_s32 in Ht. rewrite get_run. fold c. rewrite Hsrc.
  assert (∀ w1 bytes, bytes = Ok data → outputs (vars w1) = outputs c → ∃ w', (_ ← write_file name bytes; resize_out) w1 = Ok (0, w') ∧
    follows w1 [FCreate name data; CFree] w' ∧ outputs (vars w') = outputs c ++ [(name, data)]) as Hwrite.
  { intros w1 bytes Hb Ho1. destruct (write_file_run name bytes data w1 Hb) as (w2 & E2 & F2 & V2).
    { unfold is_s32, data, resized_data, with_markers, sub_bytes. destruct appOption;
        rewrite ?length_take, ?length_app, ?length_drop; cbn [length]; [specialize (Happ eq_refl)|];
        rewrite ?length_take, ?length_drop; lia. }
    rewrite bind_run, E2. unfold resize_out. rewrite request_run. eexists. split; [reflexivity|].
    split; [exact (follows_trans _ _ _ [_] [_] F2 (follows_after _ _))|]. cbn. by rewrite V2; cbn; rewrite Ho1. }
  destruct appOption.
  - destruct (Happ eq_refl) as [HA H4].
    destruct (insert_markers_run (pJpegBuffer c) AppInfo size image) as (m & E & Hload);
      [done|unfold is_u32; lia|done|done|done|]. rewrite E, bind_run, lift_run, modify_run. cbn [fst snd].
    rewrite Hload. destruct (Hwrite (with_vars w (set_mem m (vars w))) _ eq_refl eq_refl) as (w' & E' & F' & O').
    rewrite bind_run in E'. exists w'. split; [exact E'|]. split; [by apply (follows_from w _ _ (set_mem m (vars w)))|exact O'].
  - rewrite load_bytes_Ok by lia. by apply Hwrite.
Qed.

Lemma choose_unless_run (keep : bool) w :
  ∃ w', (if keep then mret tt else choose_table) w = Ok (tt, w') ∧ vars w' = vars w ∧
    follows w (if keep then [] else if g_qtflag (vars w)
      then [JPEG_SET_ENC_USER_QTABLE 0 g_au8QT0; JPEG_SET_ENC_USER_QTABLE 1 g_au8QT1; JPEG_ACTIVE_ENC_USER_QTABLE]
      else [JPEG_ACTIVE_ENC_DEFAULTQTABLE]) w'.
Proof.
  destruct keep; [|apply choose_table_run]. exists w. split; [done|]. split; [done|]. split; [by rewrite app_nil_r|done].
Qed.

Lemma encode_resized_run buf (appOption keep : bool) AppInfo reserved format sw sh i name mem total size pw ph user l w :
  let c := vars w in
  let start := resize_settings keep user (i_width i) (encode_resize_param size total pw ph sw sh format) ++ [JPEG_TRIGGER mem] in
  let i2 := engine (l ++ start) in
  pJpegBuffer c = mem → total = Z.of_nat (length mem) → g_qtflag c = user → Width (parsed c) = pw → Height (parsed c) = ph → told (driver w) = l →
  size = (if appOption then image_size i + reserved else image_size i) →
  output_name buf sw sh = Ok name → is_s32 total → 0 <= size → 0 <= image_size i2 → size + image_size i2 <= total →
  (appOption = true → Z.of_nat (length AppInfo) <= size ∧ 4 <= image_size i2) →
  let data := resized_data appOption AppInfo (sub_bytes (r_mem i2) size (image_size i2)) in
  ∃ w', encode_resized buf appOption keep true AppInfo (Z.of_nat (length AppInfo)) reserved format sw sh i w = Ok (0, w') ∧
    follows w (start ++ [CRead; FCreate name data; CFree]) w' ∧ outputs (vars w') = outputs c ++ [(name, data)].
Proof.
  intros c start i2 Hmem Htot Hflag Hpw Hph Hl0 Hsz Hname Ht Hsize Himg Hfit Happ data. unfold is_s32 in Ht.
  unfold encode_resized. rewrite get_run. fold c. rewrite Hmem, Hpw, Hph, <- Hsz, <- Htot. rewrite s32_id by (unfold is_s32; lia).
  set (p := encode_resize_param size total pw ph sw sh format) in *.
  rewrite modify_run. set (w1 := with_vars w _).
  destruct (choose_unless_run keep w1) as (w2 & E2 & V2 & F2). rewrite bind_run, E2, get_run, V2.
  change (g_qtflag (vars w1)) with (g_qtflag c) in F2. rewrite Hflag in F2. change (jpeg_param (vars w1)) with p.
  rewrite request_run. unfold Device.answer at 1. rewrite (proj2 (Z.ltb_ge _ 0)) by apply accepts_param.
  rewrite request_run, request_run. unfold Device.answer at 1. rewrite (proj2 (Z.ltb_ge _ 0)) by apply accepts_trigger.
  change (pJpegBuffer (vars w1)) with (pJpegBuffer c). rewrite Hmem. set (w3 := Device.after _ _).
  assert (follows w start w3) as F3.
  { unfold start, resize_settings. rewrite <- app_assoc. eapply follows_trans; [exact (follows_from w _ _ _ F2)|].
    eapply (follows_trans _ _ _ [_] [_; _]); [apply follows_after|].
    eapply (follows_trans _ _ _ [_] [_]); apply follows_after. }
  assert (told (driver w3) = l ++ start) as Htold.
  { rewrite (follows_told _ _ _ F3), Hl0. f_equal. unfold start, resize_settings. by destruct keep, user. }
  destruct (wait_run w3) as (w4 & E4 & F4 & Hp4 & Hm4 & _ & _ & Ho4 & _). rewrite Htold in *. fold i2 in E4, Hm4.
  rewrite bind_run, E4, Hname, lift_run.
  assert (vars w3 = vars w1) as V3 by exact V2.
  assert (length (r_mem i2) = length mem) as Hl.
  { unfold i2, start. by rewrite app_assoc, engine_memory. }
  assert (u32 size = size) as Hu by (apply u32_id; unfold is_u32; lia).
  destruct (save_resized_run appOption AppInfo name size (image_size i2) w4) as (w5 & E5 & F5 & O5);
    [rewrite Hp4, V3; exact Hu|unfold is_s32; rewrite Hm4, Hl; lia|exact Happ|lia|lia|rewrite Hm4, Hl; lia|].
  rewrite Hm4 in F5, O5. fold data in F5, O5.
  exists w5. split; [exact E5|]. split; [exact (follows_trans _ _ _ _ _ F3 (follows_trans _ _ _ [_] _ F4 F5))|].
  rewrite O5, Ho4, V3. done.
Qed.

Lemma encode_resize_param_facts size total pw ph sw sh format :
  let p := encode_resize_param size total pw ph sw sh format in
  p encode = 1 ∧ p src_bufsize = u32 size ∧ p dst_bufsize = u32 (total - size) ∧
  p encode_width = u32 (Z.min sw pw) ∧ p encode_height = u32 (Z.min sh ph) ∧
  p scaled_width = u32 sw ∧ p scaled_height = u32 sh.
Proof.
  intros p. assert (∀ a b, (if a <? b then a else b) = Z.min a b) as Hmin by (intros a b; destruct (Z.ltb_spec a b); lia).
  rewrite <- !Hmin. repeat (split; [reflexivity|]). reflexivity.
Qed.

(** The markers the scanner found lie in the file. *)
Lemma markers_in_file text mem size :
  Forall is_u8 text → (scan_all 0 text).2 = Some size → (length (scan_all 0 text).1 <= MAX_APP)%nat →
  (length text <= length mem)%nat → markers_in mem (scan_all 0 text).1.
Proof.
  intros Hu Hs Hfew Hl. pose proof (scan_bounds (length text) 0 text Hu) as Hb.
  change (scan (length text) 0 text) with (scan_all 0 text) in Hb.
  split; [eapply Forall_impl; [exact Hb|]; intros s (? & ? & Hin); rewrite Hs in Hin; specialize (Hin ltac:(done)); lia|].
  assert (∀ segs : list (Z * Z), Forall (λ s, s.2 <= 65537) segs → foldr Z.add 0 (map snd segs) <= 65537 * Z.of_nat (length segs)) as Hsum.
  { induction 1 as [|s segs Hs1 _ IH]; cbn [map foldr length]; lia. }
  unfold MAX_APP in Hfew. specialize (Hsum (scan_all 0 text).1). enough (foldr Z.add 0 (map snd (scan_all 0 text).1) <= 655370) by lia.
  etransitivity; [apply Hsum|lia]. eapply Forall_impl; [exact Hb|]. cbn. lia.
Qed.

(** Resizing ends and does what it promises with an engine, a disk and a user
    that cooperate: the file is decoded at the size that was asked for, as far
    as that is a reduction; the picture lies at the front of the engine's
    memory when the encoder is started, with the parameters that enlarge it to the
    size that was asked for; the tables are the chosen ones, or the old ones;
    and one file is written, named <base>_<width>x<height>.<extension>, which
    holds the bitstream, or, when the application markers are to be kept, a
    start of image, all markers of the old file in order and the bitstream
    without its start of image and, a fault, without its last two bytes, the end
    of image. *)
Theorem resizing_saves_scaled_picture lf qf u sz base ext text pw ph sw sh f a q w :
  let c := vars w in
  let total := Z.of_nat (length (pJpegBuffer c)) in
  let name := base ++ 46 :: ext in
  let out := base ++ [95] ++ print_d sw ++ [120] ++ print_d sh ++ [46] ++ ext in
  let appOption := negb (default 0 a =? 0) in
  let n := round4 (Z.of_nat (length text)) in
  let r := scan_all 0 text in
  Forall (λ c, c ≠ 0) (base ++ ext) → 46 ∉ base → Z.of_nat (length out) < filename_size →
  Z.of_nat (length (u_outputfilename u)) = filename_size →
  word (driver w) = name → disk (driver w) name = Some text → numbers (driver w) = [Some sw; Some sh; f; a; q] →
  scannable (parsed c) (pJpegBuffer c) text text → r.2 = Some (pw, ph) →
  Z.of_nat (length text) < total → is_s32 total → (length text / block < lf)%nat →
  min_size pw <= sw <= max_size pw → min_size ph <= sh <= max_size ph →
  let decode := [JPEG_S_PARAM (resize_param n total pw ph sw sh);
                 JPEG_TRIGGER (text ++ drop (length text) (pJpegBuffer c))] in
  let i1 := engine (told (driver w) ++ decode) in
  i_state i1 = JPEG_DECODED_IMAGE → 0 <= image_size i1 → n + image_size i1 <= total →
  let info := markers appOption (r_mem i1) r.1 in
  let size := image_size i1 + (if appOption then round4 (Z.of_nat (length info)) else 0) in
  let picture := sub_bytes (r_mem i1) n (image_size i1) ++ drop (Z.to_nat (image_size i1)) (r_mem i1) in
  let enc := resize_settings (negb (default 0 q =? 0)) (g_qtflag c) (i_width i1)
      (encode_resize_param size total pw ph sw sh (default (u_format u) f)) ++ [JPEG_TRIGGER picture] in
  let i2 := engine ((told (driver w) ++ decode) ++ enc) in
  0 <= image_size i2 → size + image_size i2 <= total → (appOption = true → 4 <= image_size i2) →
  let data := resized_data appOption info (sub_bytes (r_mem i2) size (image_size i2)) in
  ∃ w', jpeg_resize lf (S qf) u sz w = Ok (0, w') ∧
    trace w' = trace w ++ [CMalloc sz; ReadWord; FOpen name] ++ replicate (S (length text / block)) Select ++
      replicate 5 ReadInt ++ decode ++ [CRead] ++ (if appOption then [CMalloc (Z.of_nat (length info))] else []) ++
      enc ++ [CRead; FCreate out data; CFree] ∧
    outputs (vars w') = outputs c ++ [(out, data)] ∧
    (let p := encode_resize_param size total pw ph sw sh (default (u_format u) f) in
     p encode = 1 ∧ p src_bufsize = u32 size ∧ p dst_bufsize = u32 (total - size) ∧
     p encode_width = u32 (Z.min sw pw) ∧ p encode_height = u32 (Z.min sh ph) ∧
     p scaled_width = u32 sw ∧ p scaled_height = u32 sh).
Proof.
  intros c total name out appOption n r Hchars Hbase Hout Hbuf Hword Hfile Hnum Hscan Hsize Hlen Ht Hlf Hsw Hsh
    decode i1 Hst Himg1 Hfit1 info size picture enc i2 Himg2 Hfit2 Happ data.
  destruct (output_name_of base ext (u_outputfilename u) sw sh) as (buf & Hcopy & Hname); [done..|].
  assert (Z.of_nat (length name) < filename_size) as Hlname.
  { clear -Hout. unfold out, name in *. repeat (rewrite length_app in * || cbn [length] in * ). lia. }
  destruct (resize_prologue lf qf u sz name text buf pw ph sw sh f a q w)
    as (w1 & -> & F1 & Hp1 & Hm1 & Hrep & Hq1 & Ho1); [done..|]. fold total n r in F1, Hp1, Hm1, Hrep. fold appOption.
  pose proof Hscan as (Hu & _ & _ & _ & Hfew). unfold after_questions.
  destruct (start_run w1) as (w2 & E2 & V2 & F2). rewrite bind_run, E2. cbn [negb]. rewrite Hp1, Hm1 in F2. fold decode in F2.
  pose proof (follows_trans _ _ _ _ _ F1 F2) as F12.
  assert (told (driver w2) = told (driver w) ++ decode) as Ht2.
  { rewrite (follows_told _ _ _ F12), !filter_app, filter_selects. done. }
  destruct (wait_run w2) as (w3 & E3 & F3 & Hp3 & Hm3 & _ & Hpa3 & Ho3 & Hq3 & _).
  rewrite Ht2 in E3, Hm3. fold i1 in E3, Hm3. rewrite V2 in Hp3, Hpa3, Ho3, Hq3. rewrite bind_run, E3.
  assert (Z.of_nat (length (r_mem i1)) = total) as Hl1.
  { unfold i1, decode. change [JPEG_S_PARAM (resize_param n total pw ph sw sh); JPEG_TRIGGER (text ++ drop (length text) (pJpegBuffer c))]
      with ([JPEG_S_PARAM (resize_param n total pw ph sw sh)] ++ [JPEG_TRIGGER (text ++ drop (length text) (pJpegBuffer c))]).
    rewrite app_assoc, engine_memory, length_app, length_drop. lia. }
  pose proof (round4_bounds (Z.of_nat (length text))) as Hn. fold n in Hn.
  assert (jpeg_param (vars w3) src_bufsize = n) as Hsrc.
  { rewrite Hp3, Hp1. transitivity (u32 n); [|apply u32_id; unfold is_u32, is_s32 in *; lia].
    apply resize_param_src. }
  destruct (keep_markers_run appOption (u_reserved u) n i1 (parsed c) r w3) as (w4 & E4 & F4 & V4);
    [done..|lia|done|lia|by rewrite Hpa3|apply (markers_in_file text _ (pw, ph)); done || lia|].
  fold info picture in E4, F4, V4. rewrite bind_run, E4.
  pose proof (follows_trans _ _ _ _ _ F12 (follows_trans _ _ _ _ _ F3 F4)) as F.
  assert (told (driver w4) = told (driver w) ++ decode) as Ht4.
  { rewrite (follows_told _ _ _ F), !filter_app, filter_selects. by destruct appOption. }
  destruct Hrep as (_ & _ & HWH). fold r in HWH. rewrite Hsize in HWH. cbn [default] in HWH. injection HWH as HW HH.
  assert (round4 (Z.of_nat (length info)) >= Z.of_nat (length info)) as Hround by (pose proof (round4_bounds (Z.of_nat (length info))); lia).
  destruct (encode_resized_run buf appOption (negb (default 0 q =? 0)) info
    (if appOption then round4 (Z.of_nat (length info)) else u_reserved u) (default (u_format u) f) sw sh i1 out picture total size pw ph
    (g_qtflag c) (told (driver w) ++ decode) w4) as (w5 & E5 & F5 & O5).
  - by rewrite V4.
  - unfold picture, sub_bytes. rewrite length_app, length_take, !length_drop. lia.
  - by rewrite V4; cbn; rewrite Hq3.
  - by rewrite V4; cbn; rewrite Hpa3.
  - by rewrite V4; cbn; rewrite Hpa3.
  - exact Ht4.
  - unfold size. destruct appOption; lia.
  - exact Hname.
  - exact Ht.
  - unfold size. destruct appOption; lia.
  - exact Himg2.
  - exact Hfit2.
  - intros Ha. split; [|by apply Happ]. unfold size. rewrite Ha. lia.
  - exists w5. split; [exact E5|]. split; [|split; [rewrite O5, V4; cbn; by rewrite Ho3, Ho1|apply encode_resize_param_facts]].
    fold enc i2 data in F5. rewrite (follows_trace _ _ _ (follows_trans _ _ _ _ _ F F5)). rewrite <- !app_assoc. reflexivity.
Qed.
End resizing.

(** ** The end of the input *)

(** The menu never ends when there is no more input: getchar delivers -1, which is
    converted to 4294967295 and not to the 255 the loop tests for, so it asks
    for ever. *)
Theorem menu_never_ends_without_input {D} `{Driver creq creply D} pn fuel f u uVideoSize sz (w : world codec creq D) :
  (∀ d : D, (respond d GetChar).2 = -1) → menu pn fuel f u uVideoSize sz w = Crash OutOfFuel.
Proof.
  intros Heof. revert w. induction fuel as [|fuel IH]; intros w; cbn [menu]; [done|].
  rewrite request_run. unfold Device.answer. rewrite Heof. change (u32 (-1)) with 4294967295.
  cbn [Z.eqb Pos.eqb orb]. change (choice_of 4294967295) with Other. cbn [run_choice].
  rewrite bind_run, mret_run. apply IH.
Qed.

(** ** Witnesses *)

Definition resize_engine (l : list creq) : jpeg_info :=
  match last l with
  | Some (JPEG_TRIGGER mem) => JpegInfo 0 160 120 JPEG_DECODED_IMAGE 8 mem [] []
  | _ => JpegInfo 0 0 0 0 0 [] [] []
  end.

(** The numbers that will be typed, and the requests. *)
#[export] Instance resize_driver : Driver creq creply (list (option Z) * list creq) := λ d r,
  ((match r with ReadInt => tail d.1 | _ => d.1 end, d.2 ++ (if is_ioctl r then [r] else [])),
   match r return creply r with
   | CMalloc _ => true
   | FOpen name => if bool_decide (name = lit "p.jpg") then Some sample_file else None
   | Select => true
   | CRead => resize_engine d.2
   | JPEG_G_DECIPW_BUFFER_SIZE => (0, 4096)
   | FCreate _ data => (3, if data is [] then [] else [Z.of_nat (length data)])
   | ReadWord => lit "p.jpg"
   | ReadInt => default None (head d.1)
   | GetChar => -1
   | CFree | FClose | EngineWrite _ | CSleep _ => tt
   | _ => 0
   end).

#[export] Instance resize_jpeg_engine : JpegEngine (list (option Z) * list creq).
Proof.
  refine (Build_JpegEngine _ _ snd (λ _ name, if bool_decide (name = lit "p.jpg") then Some sample_file else None)
    resize_engine _ _ _ _ _ _ _ _ _ _ _); try done.
  - intros l. unfold resize_engine. by destruct (last l) as [[]|].
  - intros l mem. unfold resize_engine. by rewrite last_snoc.
  - intros d name [|b data]; cbn; lia.
Defined.

#[export] Instance resize_user : UserInput (list (option Z) * list creq).
Proof. by refine (Build_UserInput _ _ _ (λ _, lit "p.jpg") fst _ _ _ _). Defined.

Definition resize_codec (buf : list Z) : codec := Codec no_param buf [] empty_out true None [].
Definition some_unset : unset := Unset 0 0 0 0 (replicate 50 46).

Lemma resizing_saves_scaled_picture_witness :
  ∃ buf w', jpeg_resize 1 2 some_unset 28
      (World (resize_codec buf) ([Some 160; Some 120; Some 0; Some 1; Some 0], []) []) = Ok (0, w') ∧
    map fst (outputs (vars w')) = [lit "p_160x120.jpg"].
Proof.
  destruct (zero_memory 4096) as (buf & Hu & Hl); [lia|]. exists buf.
  assert (length sample_file < 1000)%nat as Hf by (apply Nat.ltb_lt; vm_compute; reflexivity).
  destruct (resizing_saves_scaled_picture 1 1 some_unset 28 (lit "p") (lit "jpg") sample_file 320 240 160 120
    (Some 0) (Some 1) (Some 0) (World (resize_codec buf) ([Some 160; Some 120; Some 0; Some 1; Some 0], []) []))
    as (w' & E & _ & Ho & _).
  - repeat constructor; discriminate.
  - by apply not_elem_of_cons; split; [|apply not_elem_of_nil].
  - vm_compute. reflexivity.
  - reflexivity.
  - reflexivity.
  - reflexivity.
  - reflexivity.
  - split; [by apply all_u8|]. split; [exact Hu|]. split; [done|]. split; [done|]. vm_compute. lia.
  - vm_compute. reflexivity.
  - cbn [vars resize_codec pJpegBuffer]. lia.
  - cbn [vars resize_codec pJpegBuffer]. rewrite Hl. unfold is_s32. lia.
  - apply Nat.ltb_lt. vm_compute. reflexivity.
  - vm_compute. split; discriminate.
  - vm_compute. split; discriminate.
  - reflexivity.
  - discriminate.
  - change (round4 (Z.of_nat (length sample_file)) + 8 <= Z.of_nat (length buf)). rewrite Hl. vm_compute. discriminate.
  - discriminate.
  - transitivity 2000; [vm_compute; discriminate|]. cbn [vars resize_codec pJpegBuffer]. lia.
  - intros _. discriminate.
  - exists w'. split; [exact E|]. rewrite Ho. vm_compute. reflexivity.
Defined.

Lemma menu_never_ends_without_input_witness :
  menu no_panel 100000 9 some_unset 0 28 (World (resize_codec []) (@nil (option Z), @nil creq) []) = Crash OutOfFuel.
Proof. apply menu_never_ends_without_input. intros d. reflexivity. Defined.
