(* ===== verification/SerialLoop.v ===== *)
(** * SerialLoop: the serial loop-back test

    Models src/serial_loop/serial_loop.c: the settings of the line, sending and
    receiving a block over a line that may take and deliver it in parts, and the
    test of five random blocks.  The line, the terminal settings and the random
    numbers are a [Driver]. *)
From S2P Require Import Prelude LibC Bytes Device.
Local Open Scope cmodel_scope.
Local Open Scope Z_scope.

Definition PATTERN_SIZE : Z := 1024.

(** Flags of the terminal interface of Linux. *)
Definition CSIZE : Z := 0x30.
Definition CS7 : Z := 0x20.
Definition CS8 : Z := 0x30.
Definition CSTOPB : Z := 0x40.
Definition CREAD : Z := 0x80.
Definition PARENB : Z := 0x100.
Definition PARODD : Z := 0x200.
Definition CLOCAL : Z := 0x800.
Definition INPCK : Z := 0x10.
Definition ISTRIP : Z := 0x20.

(** struct termios; the speeds, which cfsetispeed and cfsetospeed encode in
    the control flags, are fields of their own. *)
Record termios := Termios { c_iflag : Z; c_cflag : Z; ispeed : Z; ospeed : Z; vtime : Z; vmin : Z }.

Inductive sreq :=
| SOpen | SFcntl | SIsatty | Tcgetattr | Tcflush | Tcsetattr (t : termios)
| SWrite (data : list Z) | SSelect | SRead (len : Z) | SRand | SSleep.

(** select() returns a number and whether the line is in the set; read()
    the bytes, [None] for -1. *)
Definition sreply (r : sreq) : Type :=
  match r with
  | SSelect => Z * bool
  | SRead _ => option (list Z)
  | SSleep => unit
  | _ => Z
  end.

(** [c_cflag &= ~mask] on a 32-bit word. *)
Definition clear_flags (flags mask : Z) : Z := Z.land flags (Z.lnot mask).

Definition speeds : list Z :=
  [2400; 4800; 9600; 19200; 57600; 115200; 230400; 460800; 921600; 1000000; 1500000; 2000000; 3000000; 4000000].
Definition speed_of (nSpeed : Z) : Z := if bool_decide (nSpeed ∈ speeds) then nSpeed else 9600.

Definition newtio (nSpeed nBits nEvent nStop : Z) : termios :=
  let c := clear_flags (Z.lor 0 (Z.lor CLOCAL CREAD)) CSIZE in
  let c := if nBits =? 7 then Z.lor c CS7 else if nBits =? 8 then Z.lor c CS8 else c in
  let '(c, i) :=
    if nEvent =? 79 then (Z.lor (Z.lor c PARENB) PARODD, Z.lor 0 (Z.lor INPCK ISTRIP))
    else if nEvent =? 69 then (clear_flags (Z.lor c PARENB) PARODD, Z.lor 0 (Z.lor INPCK ISTRIP))
    else if nEvent =? 78 then (clear_flags c PARENB, 0)
    else (c, 0) in
  let c := if nStop =? 1 then clear_flags c CSTOPB else if nStop =? 2 then Z.lor c CSTOPB else c in
  Termios i c (speed_of nSpeed) (speed_of nSpeed) 0 0.

Section program.
Context {D : Type} `{Driver sreq sreply D}.
Notation P := (prog unit sreq D).

Definition open_port : P Z :=
  fd ⇐ SOpen; _ ⇐ SFcntl; _ ⇐ SIsatty; mret (fd : Z).

Definition set_opt (nSpeed nBits nEvent nStop : Z) : P Z :=
  r ⇐ Tcgetattr;
  if negb ((r : Z) =? 0) then mret (-1) else
  _ ⇐ Tcflush;
  r ⇐ Tcsetattr (newtio nSpeed nBits nEvent nStop);
  if negb ((r : Z) =? 0) then mret (-1) else mret 0.

(** The return statement belongs to the [else]: after a failed write the
    function ends without a value, which the caller then uses. *)
Definition write_port (buf : list Z) : P Z :=
  num ⇐ SWrite buf;
  if (num : Z) <? 0 then fault NoValue else mret (num : Z).

Definition read_port (len : Z) : P (Z * list Z) :=
  r ⇐ SSelect;
  if r.1 <? 0 then mret (r.1, []) else
  if (0 <? r.1) && r.2 then
    l ⇐ SRead len;
    match l with
    | None => mret (-1, [])
    | Some l => mret (Z.of_nat (length l), l)
    end
  else mret (0, []).

Fixpoint fill (n : nat) : P (list Z) :=
  match n with
  | O => mret []
  | S n => r ⇐ SRand; l ← fill n; mret (Z.land (r : Z) 0xFF :: l)
  end.

Fixpoint send_loop (fuel : nat) (send_buf : list Z) (offset : Z) : P unit :=
  if offset <? PATTERN_SIZE then
    match fuel with
    | O => fault OutOfFuel
    | S fuel =>
        send_num ← write_port (sub_bytes send_buf offset (PATTERN_SIZE - offset));
        send_loop fuel send_buf (if 0 <? send_num then offset + send_num else offset)
    end
  else mret tt.

Fixpoint recv_loop (fuel : nat) (recv_buf : list Z) (offset : Z) : P (list Z) :=
  if offset <? PATTERN_SIZE then
    match fuel with
    | O => fault OutOfFuel
    | S fuel =>
        r ← read_port (PATTERN_SIZE - offset);
        if r.1 <? 0 then recv_loop fuel recv_buf offset else
        recv_buf ← lift (blit recv_buf offset r.2);
        recv_loop fuel recv_buf (offset + r.1)
    end
  else mret recv_buf.

Fixpoint mismatch (send_buf recv_buf : list Z) : bool :=
  match send_buf, recv_buf with
  | s :: send_buf, r :: recv_buf => negb (s =? r) || mismatch send_buf recv_buf
  | _, _ => false
  end.

(** The rounds that are left; the receive buffer keeps its contents between
    the rounds. *)
Fixpoint rounds (n fuel : nat) (recv_buf : list Z) : P Z :=
  match n with
  | O => mret 0
  | S n =>
      send_buf ← fill (Z.to_nat PATTERN_SIZE);
      _ ← send_loop fuel send_buf 0;
      recv_buf ← recv_loop fuel recv_buf 0;
      if mismatch send_buf recv_buf then mret (-1) else
      _ ⇐ SSleep;
      rounds n fuel recv_buf
  end.

(** [arg] is the argument, when there is exactly one; [recv_buf] the contents
    of the buffer, which are not initialised. *)
Definition main (fuel : nat) (arg : option (list Z)) (recv_buf : list Z) : P Z :=
  fd ← open_port;
  if (fd : Z) <? 0 then mret (-1) else
  match arg with
  | None => mret 0
  | Some a =>
      r ← set_opt (atoi a) 8 78 1;
      if r <? 0 then mret (-1) else rounds 5 fuel recv_buf
  end.
End program.

(** ** A line with both ends connected

    What is written is delivered in order, each byte changed by the line
    (a good line changes nothing); a write takes some of the bytes, and a read
    delivers some of those that have arrived. *)
Class LoopLine (D : Type) `{Driver sreq sreply D} := {
  line : D → list Z;
  rnd : D → nat → Z;
  distort : Z → Z;
  write_takes (d : D) data : data ≠ [] → ∃ n, (0 < n <= length data)%nat ∧
    (respond d (SWrite data)).2 = Z.of_nat n ∧ line (respond d (SWrite data)).1 = line d ++ map distort (take n data);
  select_ready (d : D) : line d ≠ [] → 0 < (respond d SSelect).2.1 ∧ (respond d SSelect).2.2 = true;
  read_delivers (d : D) len : line d ≠ [] → 0 < len → ∃ n, (0 < n <= Z.to_nat len)%nat ∧ (n <= length (line d))%nat ∧
    (respond d (SRead len)).2 = Some (take n (line d)) ∧ line (respond d (SRead len)).1 = drop n (line d);
  line_after (d : D) r : match r with SWrite _ | SRead _ => True | _ => line (respond d r).1 = line d end;
  rnd_after (d : D) r i : rnd (respond d r).1 i = match r with SRand => rnd d (S i) | _ => rnd d i end;
  rand_is (d : D) : (respond d SRand).2 = rnd d 0%nat;
  opens_port (d : D) : 0 <= (respond d SOpen).2;
  attributes_read (d : D) : (respond d Tcgetattr).2 = 0;
  attributes_set (d : D) t : (respond d (Tcsetattr t)).2 = 0
}.

Section testing.
Context {D : Type} `{Hline : LoopLine D}.
Implicit Types w : world unit sreq D.

(** The bytes that will be sent. *)
Definition pattern (d : D) (i : nat) : Z := Z.land (rnd d i) 0xFF.

Lemma fill_run n : ∀ w, ∃ w', fill n w = Ok (map (pattern (driver w)) (seq 0 n), w') ∧
  line (driver w') = line (driver w) ∧ ∀ i, rnd (driver w') i = rnd (driver w) (n + i)%nat.
Proof.
  induction n as [|n IH]; intros w; cbn [fill]; [by exists w|].
  rewrite request_run. unfold answer. rewrite rand_is.
  destruct (IH (after w SRand)) as (w' & E & L & R). rewrite bind_run, E, mret_run.
  cbn [after driver] in *. rewrite (line_after _ SRand) in L.
  exists w'. split; [|split; [done|]].
  - do 2 f_equal. cbn [seq map]. f_equal. rewrite <- seq_shift, map_map. apply map_ext.
    intros i. unfold pattern. by rewrite rnd_after.
  - intros i. by rewrite R, rnd_after.
Qed.

(** Every write makes progress, so the whole block is sent. *)
Lemma send_block_run send_buf : length send_buf = 1024%nat → ∀ fuel (k : nat) w,
  (k <= 1024)%nat → (1024 - k <= fuel)%nat →
  ∃ w', send_loop fuel send_buf (Z.of_nat k) w = Ok (tt, w') ∧
    line (driver w') = line (driver w) ++ map distort (drop k send_buf) ∧ ∀ i, rnd (driver w') i = rnd (driver w) i.
Proof.
  intros Hlen. induction fuel as [|fuel IH]; intros k w Hk Hf; cbn [send_loop]; unfold PATTERN_SIZE in *.
  - rewrite (proj2 (Z.ltb_ge _ _)) by lia. exists w. rewrite drop_ge, app_nil_r by lia. done.
  - destruct (Z.ltb_spec (Z.of_nat k) 1024); [|exists w; rewrite drop_ge, app_nil_r by lia; done].
    unfold sub_bytes. rewrite Nat2Z.id, take_ge by (rewrite length_drop; lia).
    unfold write_port. rewrite bind_run, request_run. unfold answer.
    assert (drop k send_buf ≠ []) as Hne by (intros E; apply (f_equal length) in E; rewrite length_drop in E; cbn in E; lia).
    destruct (write_takes (driver w) _ Hne) as (n & Hn & Er & Hl). rewrite Er. rewrite length_drop in Hn.
    rewrite (proj2 (Z.ltb_ge _ _)), mret_run, (proj2 (Z.ltb_lt _ _)) by lia.
    rewrite <- Nat2Z.inj_add. destruct (IH (k + n)%nat (after w (SWrite (drop k send_buf)))) as (w' & -> & L & R); [lia|lia|].
    exists w'. split; [done|]. cbn [after driver] in L, R. rewrite Hl in L. split; [|intros i; by rewrite R, rnd_after].
    by rewrite L, <- app_assoc, <- map_app, <- drop_drop, take_drop.
Qed.

(** What is on the line fills the rest of the buffer. *)
Lemma recv_run : ∀ fuel (k : nat) recv_buf w, length recv_buf = 1024%nat →
  (k <= 1024)%nat → (1024 - k <= fuel)%nat → length (line (driver w)) = (1024 - k)%nat →
  ∃ w', recv_loop fuel recv_buf (Z.of_nat k) w = Ok (take k recv_buf ++ line (driver w), w') ∧
    line (driver w') = [] ∧ ∀ i, rnd (driver w') i = rnd (driver w) i.
Proof.
  induction fuel as [|fuel IH]; intros k recv_buf w Hlen Hk Hf Hl; cbn [recv_loop]; unfold PATTERN_SIZE in *.
  - rewrite (proj2 (Z.ltb_ge _ _)) by lia. exists w. rewrite take_ge by lia.
    destruct (line (driver w)); [|cbn in Hl; lia]. by rewrite app_nil_r.
  - destruct (Z.ltb_spec (Z.of_nat k) 1024).
    2:{ exists w. rewrite take_ge by lia. destruct (line (driver w)); [|cbn in Hl; lia]. by rewrite app_nil_r. }
    assert (line (driver w) ≠ []) as Hne by (intros E; rewrite E in Hl; cbn in Hl; lia).
    unfold read_port. rewrite bind_run, request_run. unfold answer.
    destruct (select_ready (driver w) Hne) as [Hs1 Hs2]. rewrite Hs2.
    rewrite (proj2 (Z.ltb_ge _ _)), (proj2 (Z.ltb_lt _ _)) by lia. cbn [andb]. rewrite request_run. unfold answer.
    cbn [after driver].
    assert (line (respond (driver w) SSelect).1 = line (driver w)) as Els by apply (line_after _ SSelect).
    rewrite <- Els in Hne. destruct (read_delivers _ (1024 - Z.of_nat k) Hne) as (n & Hn & Hn' & Er & El); [lia|].
    rewrite Els in Hn', Er, El. rewrite Er, mret_run. cbn [fst snd]. rewrite length_take.
    replace (n `min` length (line (driver w)))%nat with n by lia.
    rewrite (proj2 (Z.ltb_ge _ _)) by lia. unfold blit. rewrite length_take, !(proj2 (Z.leb_le _ _)) by lia.
    cbn [andb]. rewrite Nat2Z.id, lift_run, <- Nat2Z.inj_add.
    replace (n `min` length (line (driver w)))%nat with n by lia.
    set (w1 := after _ _). assert (line (driver w1) = drop n (line (driver w))) as L1 by exact El.
    assert (∀ i, rnd (driver w1) i = rnd (driver w) i) as R1 by (intros i; unfold w1; cbn [after driver]; by rewrite !rnd_after).
    edestruct (IH (k + n)%nat) as (w' & -> & L & R); [| | |rewrite L1, length_drop; lia|]; [|lia|lia|].
    { rewrite !length_app, !length_take, length_drop. lia. }
    exists w'. split; [|split; [done|intros i; by rewrite R, R1]]. rewrite L1, app_assoc.
    rewrite take_app_le by (rewrite length_app, !length_take; lia).
    rewrite take_ge by (rewrite length_app, !length_take; lia). by rewrite <- app_assoc, take_drop.
Qed.

Lemma mismatch_distorted l : mismatch l (map distort l) = negb (forallb (λ b, distort b =? b) l).
Proof.
  induction l as [|b l IH]; [done|]. cbn [mismatch map forallb]. rewrite IH, Z.eqb_sym. by destruct (distort b =? b).
Qed.

(** The line delivers every byte as it was sent. *)
Definition good (d : D) (from n : nat) : bool := forallb (λ i, distort (pattern d i) =? pattern d i) (seq from n).

Lemma rounds_run fuel : (1024 <= fuel)%nat → ∀ n recv_buf w, length recv_buf = 1024%nat → line (driver w) = [] →
  ∃ w', rounds n fuel recv_buf w = Ok (if good (driver w) 0 (n * 1024) then 0 else -1, w').
Proof.
  intros Hf. induction n as [|n IH]; intros recv_buf w Hlen Hl; [by exists w|]. cbn [rounds].
  destruct (fill_run (Z.to_nat PATTERN_SIZE) w) as (w1 & E1 & L1 & R1). rewrite bind_run, E1.
  change (Z.to_nat PATTERN_SIZE) with 1024%nat in *.
  set (send_buf := map (pattern (driver w)) (seq 0 1024)).
  assert (length send_buf = 1024%nat) as Hs by (unfold send_buf; by rewrite length_map, length_seq).
  destruct (send_block_run send_buf Hs fuel 0 w1) as (w2 & E2 & L2 & R2); [lia|lia|]. change (Z.of_nat 0) with 0 in E2.
  rewrite bind_run, E2. rewrite L1, Hl, app_nil_l, drop_0 in L2.
  destruct (recv_run fuel 0 recv_buf w2) as (w3 & E3 & L3 & R3); [done|lia|lia|rewrite L2, length_map; lia|].
  change (Z.of_nat 0) with 0 in E3. rewrite bind_run, E3, L2, take_0, app_nil_l, mismatch_distorted.
  assert (good (driver w) 0 (S n * 1024) = forallb (λ b, distort b =? b) send_buf && good (driver w) 1024 (n * 1024)) as ->.
  { unfold good. change (S n * 1024)%nat with (1024 + n * 1024)%nat. rewrite seq_app, forallb_app.
    assert (∀ l, forallb (λ b, distort b =? b) (map (pattern (driver w)) l) =
      forallb (λ i, distort (pattern (driver w) i) =? pattern (driver w) i) l) as Hmap
      by (intros l; induction l as [|i l IHl]; [done|]; cbn [map forallb]; by rewrite IHl).
    unfold send_buf. by rewrite Hmap. }
  destruct (forallb _ send_buf); cbn [negb andb]; [|by exists w3]. rewrite request_run.
  destruct (IH (map distort send_buf) (after w3 SSleep)) as (w4 & ->); [by rewrite length_map| |].
  { cbn [after driver]. by rewrite (line_after _ SSleep). }
  assert (∀ i, pattern (driver (after w3 SSleep)) i = pattern (driver w) (1024 + i)) as Hp.
  { intros i. unfold pattern. cbn [after driver]. by rewrite rnd_after, R3, R2, R1. }
  assert (good (driver (after w3 SSleep)) 0 (n * 1024) = good (driver w) 1024 (n * 1024)) as ->; [|by exists w4].
  unfold good. change (seq 1024 (n * 1024)) with (seq (1024 + 0) (n * 1024)).
  rewrite <- (fmap_add_seq 1024 0). generalize (seq 0 (n * 1024)). intros l.
  induction l as [|i l IHl]; [done|]. cbn [forallb fmap list_fmap]. by rewrite Hp, IHl.
Qed.

(** C33: The verdict of the test is right and it ends: on a line that loses nothing,
    however it cuts what is sent and received into parts, main returns 0 if
    all 5 * 1024 random bytes arrive as they were sent, and -1 otherwise. *)
Theorem loop_test_verdict fuel arg recv_buf w :
  (1024 <= fuel)%nat → length recv_buf = 1024%nat → line (driver w) = [] →
  ∃ w', main fuel (Some arg) recv_buf w = Ok (if good (driver w) 0 (5 * 1024) then 0 else -1, w').
Proof.
  intros Hf Hlen Hl. unfold main, open_port. rewrite bind_run, !request_run. unfold answer at 1.
  rewrite mret_run, (proj2 (Z.ltb_ge _ _)) by apply opens_port. set (w1 := after _ SIsatty).
  assert (line (driver w1) = [] ∧ ∀ i, rnd (driver w1) i = rnd (driver w) i) as [L1 R1].
  { unfold w1. cbn [after driver]. rewrite (line_after _ SIsatty), (line_after _ SFcntl), (line_after _ SOpen). split; [done|]. intros i. by rewrite !rnd_after. }
  unfold set_opt. rewrite bind_run, request_run. unfold answer at 1. rewrite attributes_read. cbn [negb Z.eqb].
  rewrite request_run, request_run. unfold answer at 1. rewrite attributes_set. cbn [negb Z.eqb]. rewrite mret_run.
  cbn [Z.ltb Z.compare]. set (w2 := after _ (Tcsetattr _)).
  assert (line (driver w2) = [] ∧ ∀ i, rnd (driver w2) i = rnd (driver w) i) as [L2 R2].
  { unfold w2. cbn [after driver]. rewrite (line_after _ (Tcsetattr _)), (line_after _ Tcflush), (line_after _ Tcgetattr). split; [done|]. intros i. by rewrite !rnd_after. }
  assert (∀ n, good (driver w2) 0 n = good (driver w) 0 n) as Hgood.
  { intros n. unfold good. generalize (seq 0 n). intros l. induction l as [|i l IHl]; [done|].
    cbn [forallb]. unfold pattern in *. by rewrite R2, IHl. }
  destruct (rounds_run fuel Hf 5 recv_buf w2 Hlen L2) as (w' & ->). exists w'. by rewrite Hgood.
Qed.
End testing.

(** A failed write is not noticed: its result, which the caller adds to the
    offset, is no value at all. *)
Lemma failed_write_has_no_value {D} `{Driver sreq sreply D} buf (w : world unit sreq D) :
  (respond (driver w) (SWrite buf)).2 < 0 → write_port buf w = Crash NoValue.
Proof. intros Hw. unfold write_port. rewrite request_run. unfold answer. by rewrite (proj2 (Z.ltb_lt _ _)). Qed.

(** ** Witnesses *)

(** A line that takes and delivers at most 100 bytes at a time; [stuck] is a
    bit that is always set; the second component counts the random numbers. *)
Definition line_driver (stuck : Z) : Driver sreq sreply (list Z * nat) := λ d r,
  (match r with
   | SWrite data => (d.1 ++ map (Z.lor stuck) (take 100 data), d.2)
   | SRead len => (drop (Nat.min 100 (Z.to_nat len)) d.1, d.2)
   | SRand => (d.1, S d.2)
   | _ => d
   end,
   match r return sreply r with
   | SWrite data => Z.of_nat (length (take 100 data))
   | SSelect => (1, true)
   | SRead len => Some (take (Nat.min (Nat.min 100 (Z.to_nat len)) (length d.1)) d.1)
   | SRand => Z.of_nat d.2 * 7
   | SSleep => tt
   | _ => 0
   end).

Lemma loop_line stuck : @LoopLine (list Z * nat) (line_driver stuck).
Proof.
  refine (Build_LoopLine _ (line_driver stuck) fst (λ d i, Z.of_nat (d.2 + i) * 7) (Z.lor stuck) _ _ _ _ _ _ _ _ _).
  - intros d data Hne. exists (Nat.min 100 (length data)). split; [|split; [cbn; by rewrite length_take|]].
    + destruct data; [done|]. cbn [length]. lia.
    + cbn [respond line_driver fst]. do 2 f_equal. destruct (decide (100 <= length data)%nat).
      * by rewrite Nat.min_l.
      * by rewrite Nat.min_r, !take_ge by lia.
  - intros d Hne. by split.
  - intros d len Hne Hlen. exists (Nat.min (Nat.min 100 (Z.to_nat len)) (length d.1)).
    assert (0 < length d.1)%nat by (destruct d.1; [done|cbn; lia]). split; [lia|]. split; [lia|]. split; [done|].
    cbn [respond line_driver fst]. destruct (decide (Nat.min 100 (Z.to_nat len) <= length d.1)%nat).
    + by rewrite (Nat.min_l _ (length d.1)).
    + by rewrite (Nat.min_r _ (length d.1)), !drop_ge by lia.
  - intros d []; done.
  - intros [l k] [] i; try done. cbn. lia.
  - intros [l k]. cbn. lia.
  - done.
  - done.
  - done.
Defined.

Lemma loop_test_verdict_witness :
  (∃ w', @main _ (line_driver 0) (Z.to_nat 1024) (Some (lit "115200")) (replicate (Z.to_nat 1024) 0) (World tt ([], 3%nat) []) =
    Ok (0, w')) ∧
  (∃ w', @main _ (line_driver 1) (Z.to_nat 1024) (Some (lit "115200")) (replicate (Z.to_nat 1024) 0) (World tt ([], 3%nat) []) =
    Ok (-1, w')).
Proof.
  split.
  - destruct (@loop_test_verdict _ _ (loop_line 0) (Z.to_nat 1024) (lit "115200") (replicate (Z.to_nat 1024) 0) (World tt ([], 3%nat) []))
      as (w' & E); [lia|by rewrite length_replicate|done|].
    exists w'. match type of E with _ = Ok (if ?b then _ else _, _) =>
      assert (b = true) as Hg by (vm_compute; reflexivity); rewrite Hg in E end. exact E.
  - destruct (@loop_test_verdict _ _ (loop_line 1) (Z.to_nat 1024) (lit "115200") (replicate (Z.to_nat 1024) 0) (World tt ([], 3%nat) []))
      as (w' & E); [lia|by rewrite length_replicate|done|].
    exists w'. match type of E with _ = Ok (if ?b then _ else _, _) =>
      assert (b = false) as Hg by (vm_compute; reflexivity); rewrite Hg in E end. exact E.
Defined.
