(* ===== verification/Blt.v ===== *)
(** * Blt: the blitter demo

    Models src/blt/blt_demo.c: the clipping of an object against the panel, the
    commands to the blitter for one frame, the set-up and the main loop that
    moves a background and an animated sprite. *)
From S2P Require Import Prelude Device Runs.
Local Open Scope cmodel_scope.
Local Open Scope Z_scope.

(** ** Data (DrvBLT.h and the globals) *)

Record src_image := SrcImage { u32SrcImageAddr : Z; src_stride : Z; src_xoffset : Z; src_yoffset : Z; src_width : Z; src_height : Z }.
Record dest_fb := DestFb { u32FrameBufAddr : Z; dest_stride : Z; dest_width : Z; dest_height : Z }.
Record blit_op := BlitOp { src : src_image; dest : dest_fb }.

(** The colour that is filled in, and where. *)
Record fill_op := FillOp { u8Blue : Z; fill_addr : Z; rowBytes : Z; xmax : Z; ymax : Z }.

Record obj := Obj { u32PatternBase : Z; i32X : Z; i32Y : Z; u32Width : Z; u32Height : Z; u32Stride : Z }.

Definition BGMAP_SIZE : Z := 480 * 272 * 2.
Definition SPMAP_SIZE : Z := 736 * 160 * 2.

(** The devices and memories that are opened; the memory behind a descriptor has
    a physical address. *)
Inductive dev := Blitter | DestMem | BGMem | SPMem | Lcm.
#[export] Instance dev_eq_dec : EqDecision dev.
Proof. solve_decision. Defined.
Definition upd (f : dev → Z) (d : dev) (z : Z) : dev → Z := λ d', if decide (d' = d) then z else f d'.

(** The panel, and the size of the destination buffer. *)
Record panel := Panel { lcm_width : Z; lcm_height : Z; lcm_buffer_size : Z; dest_map_size : Z }.

Record blt := Blt {
  s_saObj : list obj; s_sblitop : blit_op; s_sfillop : fill_op; u16Index : Z;
  fds : dev → Z; phys : dev → Z; lcm : panel }.

Definition set_objs (o : list obj) (b : blt) := Blt o (s_sblitop b) (s_sfillop b) (u16Index b) (fds b) (phys b) (lcm b).
Definition set_op (o : blit_op) (b : blt) := Blt (s_saObj b) o (s_sfillop b) (u16Index b) (fds b) (phys b) (lcm b).
Definition set_fill (f : fill_op) (b : blt) := Blt (s_saObj b) (s_sblitop b) f (u16Index b) (fds b) (phys b) (lcm b).
Definition set_index (i : Z) (b : blt) := Blt (s_saObj b) (s_sblitop b) (s_sfillop b) i (fds b) (phys b) (lcm b).
Definition set_fd (d : dev) (fd : Z) (b : blt) :=
  Blt (s_saObj b) (s_sblitop b) (s_sfillop b) (u16Index b) (upd (fds b) d fd) (phys b) (lcm b).
Definition set_phys (d : dev) (a : Z) (b : blt) :=
  Blt (s_saObj b) (s_sblitop b) (s_sfillop b) (u16Index b) (fds b) (upd (phys b) d a) (lcm b).
Definition set_lcm (l : panel) (b : blt) :=
  Blt (s_saObj b) (s_sblitop b) (s_sfillop b) (u16Index b) (fds b) (phys b) l.

(** Static variables start as zeroes. *)
Definition zero_obj : obj := Obj 0 0 0 0 0 0.
Definition start : blt :=
  Blt [zero_obj; zero_obj] (BlitOp (SrcImage 0 0 0 0 0 0) (DestFb 0 0 0 0)) (FillOp 0 0 0 0 0) 0
    (λ _, 0) (λ _, 0) (Panel 0 0 0 0).

(** ** Requests *)

Inductive breq :=
| Sigaction | BOpen (d : dev) | Vscreeninfo | BMmap (d : dev) (size : Z) | GetPhysAddr (d : dev)
| BFopen (d : dev) | BFread (size : Z) | BFclose
| SetColorKey (z : Z) | EnableColorCtl | DisableColorCtl
| SetFill (f : fill_op) | SetBlit (o : blit_op) | NonPremulAlpha | Trigger | WaitDone
| LcdInt (on : bool) | CopyToLcm (size : Z) | Munmap (addr size : Z) | BClose (fd : Z).

(** Vscreeninfo: the resolution, [None] on an error; GetPhysAddr: the address
    that is stored, [None] on an error; fopen: whether there is such a file;
    fread: the number of items. *)
Definition breply (r : breq) : Type :=
  match r with
  | Vscreeninfo => option (Z * Z)
  | GetPhysAddr _ => option Z
  | BFopen _ => bool
  | LcdInt _ | CopyToLcm _ | Munmap _ _ | BClose _ | BFclose => unit
  | _ => Z
  end.

(** ** Clipping *)

(** The cases of [_DemoBitBlt_SetPosition] for one axis: an object that starts
    before the panel skips its hidden part, one that starts on it is cut at the
    end of the panel.  The offset in the object and the size. *)
Definition clip_negative (pos size : Z) : Z * Z := (s32 (u32 (Z.shiftl (u32 (- pos)) 16)), s16 (u32 (size - u32 (- pos)))).
Definition clip_positive (pos size limit : Z) : Z * Z := (0, if u32 limit <=? u32 (pos + size) then s16 (limit - pos) else s16 size).
Definition clip (pos size limit : Z) : Z * Z := if pos <? 0 then clip_negative pos size else clip_positive pos size limit.

Definition position_op (b : blt) (o : obj) (x y : Z) : blit_op :=
  let '(xoff, w) := clip x (u32Width o) (lcm_width (lcm b)) in
  let '(yoff, h) := clip y (u32Height o) (lcm_height (lcm b)) in
  let row := if y <? 0 then 0 else y * lcm_width (lcm b) * 2 in
  let col := if x <? 0 then 0 else x * 2 in
  let '(s, d) := (src (s_sblitop b), dest (s_sblitop b)) in
  BlitOp (SrcImage (u32PatternBase o) (s32 (u32 (u32Stride o * 2))) xoff yoff (src_width s) (src_height s))
         (DestFb (u32 (phys b DestMem + row + col)) (dest_stride d) w h).

Definition place (o : obj) (x y : Z) : obj := Obj (u32PatternBase o) x y (u32Width o) (u32Height o) (u32Stride o).
Definition crop (o : obj) (w h : Z) : obj := Obj (u32PatternBase o) (i32X o) (i32Y o) w h (u32Stride o).
Definition with_base (o : obj) (a : Z) : obj := Obj a (i32X o) (i32Y o) (u32Width o) (u32Height o) (u32Stride o).
Definition with_stride (o : obj) (z : Z) : obj := Obj (u32PatternBase o) (i32X o) (i32Y o) (u32Width o) (u32Height o) z.

Section program.
Context {D : Type} `{Driver breq breply D}.
Notation P := (prog blt breq D).

(** [update i f]: an assignment to fields of [s_saObj[i]]. *)
Definition update (i : Z) (f : obj → obj) : P unit :=
  b ← get;
  o ← lift (rd (s_saObj b) i);
  objs ← lift (wr (s_saObj b) i (f o));
  modify (set_objs objs).

Definition object (i : Z) : P obj := b ← get; lift (rd (s_saObj b) i).

Definition SetPosition (i x y : Z) : P Z :=
  o ← object i;
  _ ← update i (λ o, place o x y);
  _ ← modify (λ b, set_op (position_op b o x y) b);
  mret 0.

Definition SetCrop (i w h : Z) : P unit :=
  _ ← update i (λ o, crop o w h);
  modify (λ b, let s := src (s_sblitop b) in
    set_op (BlitOp (SrcImage (u32SrcImageAddr s) (src_stride s) (src_xoffset s) (src_yoffset s) (s16 w) (s16 h))
                   (dest (s_sblitop b))) b).

Definition Config (addr w h : Z) : P unit :=
  modify (λ b,
    set_fill (FillOp 255 addr (w * 2) w h)
      (set_op (BlitOp (src (s_sblitop b)) (DestFb addr (w * 2) w h)) b)).

(** ** Drawing a frame *)

(** One object; only messages depend on the results of the requests. *)
Definition draw_object (i : Z) : P unit :=
  o ← object i;
  r ← SetPosition i (i32X o) (i32Y o);
  if r <? 0 then mret tt else
  o ← object i;
  _ ← SetCrop i (u32Width o) (u32Height o);
  b ← get;
  _ ⇐ SetBlit (s_sblitop b); _ ⇐ NonPremulAlpha; _ ⇐ Trigger; _ ⇐ WaitDone; mret tt.

Definition Flush : P unit :=
  b ← get;
  _ ⇐ SetFill (s_sfillop b); _ ⇐ Trigger; _ ⇐ WaitDone;
  _ ← draw_object 0;
  _ ← draw_object 1;
  b ← get;
  _ ⇐ LcdInt false; _ ⇐ CopyToLcm (lcm_buffer_size (lcm b)); _ ⇐ LcdInt true; mret tt.

(** ** Set-up and clean-up *)

Definition app_close : P unit :=
  b ← get;
  _ ⇐ Munmap (fds b DestMem) (dest_map_size (lcm b)); _ ⇐ Munmap (fds b BGMem) BGMAP_SIZE;
  _ ⇐ Munmap (fds b SPMem) SPMAP_SIZE; _ ⇐ Munmap (fds b Lcm) (lcm_buffer_size (lcm b));
  _ ⇐ BClose (fds b Blitter); _ ⇐ BClose (fds b DestMem); _ ⇐ BClose (fds b BGMem);
  _ ⇐ BClose (fds b SPMem); _ ⇐ BClose (fds b Lcm); mret tt.

(** The second signal is only registered after the first. *)
Definition InitSystem : P bool :=
  r ⇐ Sigaction;
  if negb ((r : Z) =? 0) then mret false else
  r ⇐ Sigaction;
  if negb ((r : Z) =? 0) then mret false else mret true.

Definition open_device (d : dev) : P bool :=
  fd ⇐ BOpen d;
  _ ← modify (set_fd d fd);
  mret (negb ((fd : Z) <=? 0)).

Definition InitBitBlt : P bool :=
  ok ← open_device Blitter;
  if negb ok then mret false else _ ← modify (set_index 0); mret true.

(** [None]: the program ends. *)
Definition InitLCM : P (option bool) :=
  ok ← open_device Lcm;
  if negb ok then mret (Some false) else
  r ⇐ Vscreeninfo;
  match r with
  | None => b ← get; _ ⇐ BClose (fds b Lcm); mret None
  | Some (w, h) =>
      _ ← modify (λ b, set_lcm (Panel (s32 w) (s32 h) (s32 (s32 w * s32 h * 2)) (dest_map_size (lcm b))) b);
      mret (Some true)
  end.

(** Maps the memory behind a descriptor; -1 is MAP_FAILED.  The result of the
    query for the physical address is not looked at: an error leaves the address
    that was there, which is zero. *)
Definition map_memory (d : dev) (size : Z) : P bool :=
  p ⇐ BMmap d size;
  if (p : Z) =? -1 then mret false else
  a ⇐ GetPhysAddr d;
  _ ← modify (match a with Some a => set_phys d a | None => λ b, b end); mret true.

Definition SetDestBuffer : P bool :=
  ok ← open_device DestMem;
  if negb ok then mret false else
  b ← get;
  let l := lcm b in
  let size := s32 (lcm_width l * lcm_height l * 2) in
  _ ← modify (set_lcm (Panel (lcm_width l) (lcm_height l) (lcm_buffer_size l) size));
  map_memory DestMem size.

(** A picture that is not there is read all the same. *)
Definition load_picture (d : dev) (size : Z) : P bool :=
  f ⇐ BFopen d;
  if negb f then fault NullDeref else
  n ⇐ BFread size;
  _ ⇐ BFclose;
  mret (negb ((n : Z) <=? 0)).

Definition SetSrcBuffer (i : Z) (d : dev) (size stride : Z) : P bool :=
  ok ← open_device d;
  if negb ok then mret false else
  ok ← map_memory d size;
  if negb ok then mret false else
  ok ← load_picture d size;
  if negb ok then mret false else
  b ← get;
  _ ← update i (λ o, with_stride (with_base o (phys b d)) stride);
  mret true.

Definition SetSrcBGBuffer : P bool := SetSrcBuffer 0 BGMem BGMAP_SIZE 480.
Definition SetSrcSPBuffer : P bool := SetSrcBuffer 1 SPMem SPMAP_SIZE 736.

Definition SetLCMBuffer : P bool :=
  b ← get;
  p ⇐ BMmap Lcm (lcm_buffer_size (lcm b));
  mret (negb ((p : Z) =? -1)).

Definition SetColorKey_ (key : Z) : P bool := r ⇐ SetColorKey key; mret (negb ((r : Z) <? 0)).
Definition EnableColorKey (on : bool) : P bool :=
  if on then r ⇐ EnableColorCtl; mret (negb ((r : Z) <? 0))
  else r ⇐ DisableColorCtl; mret (negb ((r : Z) <? 0)).

(** ** The main program *)

(** The sprite: the offset of each picture in the pattern, in pixels, and its
    width. *)
Definition frames : list (Z * Z) :=
  [(0, 96); (96, 96); (96 + 96, 112); (96 + 96 + 112, 112); (96 + 96 + 112 + 112, 112);
   (96 + 96 + 112 + 112 + 112, 112); (96 + 96 + 112 + 112 + 112 + 112, 96)].

Definition next_sprite : P unit :=
  b ← get;
  let i := u16Index b in
  _ ← modify (set_index (u16 (i + 1)));
  match frames !! Z.to_nat i with
  | Some (k, w) =>
      _ ← update 1 (λ o, with_base o (u32 (phys b SPMem + k * 2)));
      _ ← (if i =? 6 then modify (set_index 0) else mret tt);
      SetCrop 1 w 160
  | None => mret tt
  end.

(** A turn of the loop; [false]: it ends. *)
Definition turn : P bool :=
  o ← object 0;
  _ ← update 0 (λ o, place o (i32X o) (i32Y o - 1));
  ok ← (if i32Y o <? -250
        then ok ← EnableColorKey true;
             if negb ok then mret false else _ ← update 0 (λ o, place o (i32X o) 150); mret true
        else mret true);
  if negb ok then mret false else
  o ← object 1;
  _ ← update 1 (λ o, place o (i32X o - 1) (i32Y o));
  ok ← (if i32X o <? 0
        then ok ← EnableColorKey false;
             if negb ok then mret false else _ ← update 1 (λ o, place o 300 (i32Y o)); mret true
        else mret true);
  if negb ok then mret false else
  _ ← next_sprite;
  _ ← Flush;
  mret true.

(** The loop runs until a request fails; [n] is the number of turns that are
    looked at. *)
Fixpoint main_loop (n : nat) : P bool :=
  match n with
  | O => mret true
  | S n => ok ← turn; if negb ok then mret false else main_loop n
  end.

(** Everything before the loop, with the exit codes of the program. *)
Definition set_up : P (option Z) :=
  ok ← InitSystem; if negb ok then mret (Some 1) else
  ok ← InitBitBlt; if negb ok then mret (Some 1) else
  ok ← InitLCM;
  match ok with None => mret (Some (-1)) | Some ok =>
  if negb ok then mret (Some 1) else
  ok ← SetDestBuffer; if negb ok then mret (Some 1) else
  ok ← SetSrcBGBuffer; if negb ok then mret (Some 1) else
  ok ← SetSrcSPBuffer; if negb ok then mret (Some 1) else
  ok ← SetLCMBuffer; if negb ok then mret (Some 1) else
  ok ← SetColorKey_ 0xF81F; if negb ok then mret (Some 1) else
  b ← get;
  _ ← Config (phys b DestMem) (s16 (lcm_width (lcm b))) (s16 (lcm_height (lcm b)));
  _ ← SetPosition 0 0 0;
  _ ← SetPosition 1 200 100;
  _ ← SetCrop 0 480 272;
  mret None
  end.

(** [Some]: the exit code; [None] when the loop is still running, or has ended,
    in which case the clean-up was made. *)
Definition main (n : nat) : P (option Z) :=
  r ← set_up;
  match r with
  | Some z => mret (Some z)
  | None => running ← main_loop n; if negb running then _ ← app_close; mret None else mret None
  end.
End program.

(** ** Clipping is intersection *)

(** The part of an object that is on the panel: where it starts on the panel,
    its offset in the object, its length. *)
Definition shown_start (pos : Z) : Z := Z.max 0 pos.
Definition shown_offset (pos : Z) : Z := shown_start pos - pos.
Definition shown_length (pos size limit : Z) : Z := Z.min limit (pos + size) - shown_start pos.

Lemma clip_shown pos size limit :
  0 <= size < 32768 → 0 < limit < 32768 → - size <= pos < limit → (pos < 0 → pos + size <= limit) →
  clip pos size limit = (shown_offset pos * 65536, shown_length pos size limit).
Proof.
  intros Hs Hl Hp Hneg. unfold clip, clip_negative, clip_positive, shown_offset, shown_length, shown_start.
  destruct (Z.ltb_spec pos 0) as [H0|H0].
  - rewrite (u32_id (- pos)) by (unfold is_u32; lia). rewrite Z.shiftl_mul_pow2 by lia. change (2 ^ 16) with 65536.
    rewrite (u32_id (- pos * 65536)), s32_id by (unfold is_u32, is_s32; lia).
    rewrite u32_id, s16_id by (unfold is_u32; lia). f_equal; lia.
  - rewrite (u32_id limit), (u32_id (pos + size)) by (unfold is_u32; lia). f_equal; [lia|].
    destruct (Z.leb_spec limit (pos + size)); rewrite s16_id by lia; lia.
Qed.

(** The address of a pixel of the destination buffer. *)
Definition pixel_address (b : blt) (x y : Z) : Z := phys b DestMem + (y * lcm_width (lcm b) + x) * 2.

Lemma position_op_shown b o x y :
  0 <= u32Width o < 32768 → 0 <= u32Height o < 32768 → 0 < lcm_width (lcm b) < 32768 → 0 < lcm_height (lcm b) < 32768 →
  - u32Width o <= x < lcm_width (lcm b) → (x < 0 → x + u32Width o <= lcm_width (lcm b)) →
  - u32Height o <= y < lcm_height (lcm b) → (y < 0 → y + u32Height o <= lcm_height (lcm b)) →
  let r := position_op b o x y in
  dest_width (dest r) = shown_length x (u32Width o) (lcm_width (lcm b)) ∧
  dest_height (dest r) = shown_length y (u32Height o) (lcm_height (lcm b)) ∧
  src_xoffset (src r) = shown_offset x * 65536 ∧ src_yoffset (src r) = shown_offset y * 65536 ∧
  u32FrameBufAddr (dest r) = u32 (pixel_address b (shown_start x) (shown_start y)) ∧
  dest_stride (dest r) = dest_stride (dest (s_sblitop b)) ∧
  u32SrcImageAddr (src r) = u32PatternBase o ∧ src_stride (src r) = s32 (u32 (u32Stride o * 2)).
Proof.
  intros Hw Hh Hlw Hlh Hx Hx0 Hy Hy0. unfold position_op.
  rewrite (clip_shown x), (clip_shown y) by done. cbn [dest src dest_width dest_height src_xoffset src_yoffset
    u32FrameBufAddr dest_stride u32SrcImageAddr src_stride]. split_and!; try done.
  f_equal. unfold pixel_address, shown_start. destruct (Z.ltb_spec x 0), (Z.ltb_spec y 0);
    rewrite ?(Z.max_l 0 x), ?(Z.max_r 0 x), ?(Z.max_l 0 y), ?(Z.max_r 0 y) by lia; lia.
Qed.

(** ** The board *)

(** What the demo relies on without looking: the memory device answers the query
    for a physical address, always with the same one, and the two pictures are
    there.  The frame buffer, when it answers, has one resolution.  Every other
    answer is arbitrary. *)
Class Board (D : Type) `{Driver breq breply D} := {
  width : Z; height : Z; address : dev → Z;
  board_screen (d : D) p : (respond d Vscreeninfo).2 = Some p → p = (width, height);
  board_address (d : D) m : (respond d (GetPhysAddr m)).2 = Some (address m);
  board_files (d : D) m : (respond d (BFopen m)).2 = true
}.

(** The panel is wider than the right-most position of the sprite and as high as
    the background, and the buffers are in the address space. *)
Definition panel_fits `{Board D} : Prop :=
  300 < width < 32768 ∧ 271 <= height < 32768 ∧
  (∀ m, 0 <= address m) ∧ address DestMem + width * height * 2 <= 4294967296 ∧
  address BGMem + BGMAP_SIZE <= 4294967296 ∧ address SPMem + SPMAP_SIZE <= 4294967296.

Definition rows_of (m : dev) : Z * Z := match m with BGMem => (480, 272) | SPMem => (736, 160) | _ => (0, 0) end.

(** A blit reads [w] times [h] pixels inside a picture and writes them inside
    the panel. *)
Definition inside `{Board D} (r : breq) : Prop :=
  match r with
  | SetBlit o =>
      let '(w, h) := (dest_width (dest o), dest_height (dest o)) in
      0 < w ∧ 0 < h ∧
      (∃ x y, u32FrameBufAddr (dest o) = address DestMem + (y * width + x) * 2 ∧ dest_stride (dest o) = width * 2 ∧
         0 <= x ∧ x + w <= width ∧ 0 <= y ∧ y + h <= height) ∧
      (∃ m k x y, u32SrcImageAddr (src o) = address m + k * 2 ∧ src_stride (src o) = (rows_of m).1 * 2 ∧
         src_xoffset (src o) = x * 65536 ∧ src_yoffset (src o) = y * 65536 ∧
         0 <= k ∧ 0 <= x ∧ k + x + w <= (rows_of m).1 ∧ 0 <= y ∧ y + h <= (rows_of m).2)
  | _ => True
  end.

Section board.
Context {D : Type} `{Board D} (Hfit : panel_fits).
Implicit Types w : world blt breq D.

(** The state of the demo between two frames. *)
Definition background (o : obj) : Prop :=
  u32PatternBase o = address BGMem ∧ u32Stride o = 480 ∧ u32Width o = 480 ∧ u32Height o = 272 ∧
  i32X o = 0 ∧ -251 <= i32Y o <= 150.
Definition sprite_at (o : obj) : Prop := u32Stride o = 736 ∧ -1 <= i32X o <= 300 ∧ i32Y o = 100.
Definition sprite_shown (o : obj) : Prop :=
  sprite_at o ∧ u32Height o = 160 ∧ ∃ k wd, (k, wd) ∈ frames ∧ u32PatternBase o = address SPMem + k * 2 ∧ u32Width o = wd.

Definition board_state (b : blt) : Prop :=
  phys b DestMem = address DestMem ∧ phys b SPMem = address SPMem ∧
  lcm_width (lcm b) = width ∧ lcm_height (lcm b) = height ∧ dest_stride (dest (s_sblitop b)) = width * 2.

Definition scene (sp : obj → Prop) (b : blt) : Prop :=
  board_state b ∧ (∃ o0 o1, s_saObj b = [o0; o1] ∧ background o0 ∧ sp o1) ∧ 0 <= u16Index b <= 6.

Definition all_inside w : Prop := Forall inside (trace w).

Lemma frames_in_pattern k wd : (k, wd) ∈ frames → 0 <= k ∧ 96 <= wd <= 112 ∧ k + wd <= 736.
Proof.
  unfold frames. rewrite !elem_of_cons, elem_of_nil. intros Hk.
  repeat destruct Hk as [[= -> ->]|Hk]; lia.
Qed.

Lemma runs_object i o w (Q : obj → world blt breq D → Prop) : rd (s_saObj (vars w)) i = Ok o → Q o w → runs (object i) w Q.
Proof. intros E HQ. unfold object. apply runs_get. by eapply runs_lift. Qed.

Lemma runs_update i f o w (Q : unit → world blt breq D → Prop) : rd (s_saObj (vars w)) i = Ok o →
  Q tt (with_vars w (set_objs (<[Z.to_nat i := f o]> (s_saObj (vars w))) (vars w))) → runs (update i f) w Q.
Proof.
  intros E HQ. unfold update. apply runs_get, runs_bind. eapply runs_lift; [done|]. apply runs_bind.
  apply rd_Ok in E as [Hi E]. apply lookup_lt_Some in E. eapply runs_lift; [apply wr_Ok; lia|]. by apply runs_modify.
Qed.

Lemma place_id o : place o (i32X o) (i32Y o) = o. Proof. by destruct o. Qed.
Lemma crop_id o : crop o (u32Width o) (u32Height o) = o. Proof. by destruct o. Qed.

(** The operation that is given to the driver for an object. *)
Definition object_op (b : blt) (o : obj) : blit_op :=
  let p := position_op b o (i32X o) (i32Y o) in
  BlitOp (SrcImage (u32SrcImageAddr (src p)) (src_stride (src p)) (src_xoffset (src p)) (src_yoffset (src p))
                   (s16 (u32Width o)) (s16 (u32Height o))) (dest p).

Lemma draw_object_runs i o w (Q : unit → world blt breq D → Prop) : rd (s_saObj (vars w)) i = Ok o →
  (∀ w', vars w' = set_op (object_op (vars w) o) (vars w) →
         trace w' = trace w ++ [SetBlit (object_op (vars w) o); NonPremulAlpha; Trigger; WaitDone] → Q tt w') →
  runs (draw_object i) w Q.
Proof.
  intros E HQ. unfold draw_object. apply runs_bind, (runs_object _ o); [done|]. unfold SetPosition.
  apply runs_bind, runs_bind, (runs_object _ o); [done|]. apply runs_bind, (runs_update _ _ o); [done|].
  rewrite place_id. apply rd_Ok in E as [Hi E]. rewrite list_insert_id by done.
  apply runs_bind, runs_modify, runs_ret. change (0 <? 0) with false. cbn iota.
  apply runs_bind, (runs_object _ o); [by apply rd_Ok|]. unfold SetCrop.
  apply runs_bind, runs_bind, (runs_update _ _ o); [by apply rd_Ok|]. rewrite crop_id.
  change (s_saObj (vars (with_vars _ _))) with (s_saObj (vars w)). rewrite list_insert_id by done.
  apply runs_modify, runs_get. do 4 apply runs_request. apply runs_ret. apply HQ.
  - done.
  - cbn [after trace with_vars]. by rewrite <- !app_assoc.
Qed.

Lemma object_op_inside b o (m : dev) k :
  board_state b → 0 < u32Width o → 0 < u32Height o → u32PatternBase o = address m + k * 2 → u32Stride o = (rows_of m).1 →
  0 <= k → k + u32Width o <= (rows_of m).1 → u32Height o <= (rows_of m).2 →
  - u32Width o < i32X o < width → (i32X o < 0 → i32X o + u32Width o <= width) →
  - u32Height o < i32Y o < height → (i32Y o < 0 → i32Y o + u32Height o <= height) →
  inside (SetBlit (object_op b o)).
Proof.
  intros (HD & HS & Hw & Hh & Hst) Hw0 Hh0 Hb Hstr Hk Hkw Hr Hx Hx0 Hy Hy0.
  destruct Hfit as (Hfw & Hfh & Ha & HDa & _). assert ((rows_of m).1 <= 736 ∧ (rows_of m).2 <= 272) as [] by (destruct m; cbn; lia).
  destruct (position_op_shown b o (i32X o) (i32Y o)) as (E1 & E2 & E3 & E4 & E5 & E6 & E7 & E8); rewrite ?Hw, ?Hh; try lia.
  pose proof (Ha DestMem).
  unfold inside, object_op. cbn [dest src u32SrcImageAddr src_stride src_xoffset src_yoffset].
  rewrite E1, E2, E3, E4, E5, E6, E7, E8, Hw, Hh, Hst, Hb, Hstr. unfold shown_length, shown_offset, shown_start.
  split; [lia|]. split; [lia|]. split.
  - exists (Z.max 0 (i32X o)), (Z.max 0 (i32Y o)). split_and!; try lia. unfold pixel_address. rewrite HD, Hw. apply u32_id. unfold is_u32.
    assert (0 <= Z.max 0 (i32Y o) * width + Z.max 0 (i32X o) < width * height); [|lia]. nia.
  - exists m, k, (Z.max 0 (i32X o) - i32X o), (Z.max 0 (i32Y o) - i32Y o). split_and!; try done; try lia.
    rewrite u32_id, s32_id; unfold is_u32, is_s32; lia.
Qed.

Lemma inside_objects b o0 o1 : board_state b → background o0 → sprite_shown o1 →
  inside (SetBlit (object_op b o0)) ∧ inside (SetBlit (object_op (set_op (object_op b o0) b) o1)).
Proof.
  intros Hb (E1 & E2 & E3 & E4 & E5 & E6) ((F1 & F2 & F3) & F4 & k & wd & Hf & F5 & F6).
  pose proof Hfit as (? & ? & _). split.
  - apply (object_op_inside b o0 BGMem 0); rewrite ?E1, ?E2, ?E3, ?E4, ?E5; try done; cbn; lia.
  - apply frames_in_pattern in Hf. subst wd.
    assert (board_state (set_op (object_op b o0) b)) as Hb'.
    { destruct Hb as (HD & HS & Hw & Hh & Hst). split_and!; try done. cbn. unfold object_op, position_op.
      by destruct (clip _ _ _), (clip _ _ _). }
    apply (object_op_inside _ o1 SPMem k Hb'); rewrite ?F1, ?F3, ?F4, ?F5; try done; cbn; lia.
Qed.

Lemma scene_set_op (sp : obj → Prop) b op : scene sp b → dest_stride (dest op) = dest_stride (dest (s_sblitop b)) → scene sp (set_op op b).
Proof. intros [(HD & HS & Hw & Hh & Hst) Hs] E. split; [|done]. split_and!; try done. cbn. by rewrite E. Qed.

Lemma position_op_stride b o x y : dest_stride (dest (position_op b o x y)) = dest_stride (dest (s_sblitop b)).
Proof. unfold position_op. by destruct (clip _ _ _), (clip _ _ _). Qed.
Lemma object_op_stride b o : dest_stride (dest (object_op b o)) = dest_stride (dest (s_sblitop b)).
Proof. apply position_op_stride. Qed.

Lemma all_inside_other w r w' : all_inside w → trace w' = trace w ++ r → Forall inside r → all_inside w'.
Proof. unfold all_inside. intros H1 -> H2. by apply Forall_app. Qed.

(** A frame: both blits stay inside. *)
Lemma Flush_runs w (Q : unit → world blt breq D → Prop) : scene sprite_shown (vars w) → all_inside w →
  (∀ w', scene sprite_shown (vars w') → all_inside w' → Q tt w') → runs Flush w Q.
Proof.
  intros Hs Hi HQ. unfold Flush. apply runs_get. do 3 apply runs_request. set (w1 := after _ WaitDone).
  assert (all_inside w1) as Hi1.
  { eapply (all_inside_other w [SetFill _; Trigger; WaitDone]); [done| |by repeat constructor].
    unfold w1. cbn [after trace]. by rewrite <- !app_assoc. }
  change (vars w) with (vars w1) in Hs. pose proof Hs as (Hb & (o0 & o1 & Eo & Hbg & Hsp) & Hix).
  destruct (inside_objects (vars w1) o0 o1 Hb Hbg Hsp) as [Hin0 Hin1].
  apply runs_bind, (draw_object_runs 0 o0); [by rewrite Eo|]. intros w2 E2 T2.
  apply runs_bind, (draw_object_runs 1 o1); [by rewrite E2; cbn [set_op s_saObj]; rewrite Eo|]. intros w3 E3 T3.
  apply runs_get. do 3 apply runs_request. apply runs_ret. apply HQ.
  - cbn [after vars]. rewrite E3, E2. do 2 (apply scene_set_op; [|apply object_op_stride]). done.
  - rewrite E2 in T3. eapply (all_inside_other w1); [done| |].
    + cbn [after trace]. rewrite T3, T2, <- !app_assoc. reflexivity.
    + cbn [app]. by repeat (apply Forall_cons; split; [first [exact Hin0|exact Hin1|exact I]|]).
Qed.

(** The next picture of the sprite. *)
Lemma next_sprite_runs w (Q : unit → world blt breq D → Prop) : scene sprite_at (vars w) →
  (∀ w', scene sprite_shown (vars w') → trace w' = trace w → Q tt w') → runs next_sprite w Q.
Proof.
  intros (Hb & (o0 & o1 & Eo & Hbg & Hsp) & Hix) HQ. pose proof Hb as (HD & HS & Hw & Hh & Hst).
  pose proof Hfit as (_ & _ & Ha & _ & _ & HaS). unfold next_sprite. apply runs_get, runs_bind, runs_modify.
  assert (Z.to_nat (u16Index (vars w)) < length frames)%nat as Hlt by (cbn; lia).
  destruct (lookup_lt_is_Some_2 _ _ Hlt) as [[k wd] Ef]. rewrite Ef. pose proof (list_elem_of_lookup_2 _ _ _ Ef) as Hin.
  pose proof (frames_in_pattern _ _ Hin) as Hk. rewrite HS.
  apply runs_bind, (runs_update 1 _ o1); [cbn [with_vars vars set_index s_saObj]; by rewrite Eo|].
  cbn [with_vars vars set_index s_saObj]. rewrite Eo. change (<[Z.to_nat 1:=?x]> [o0; o1]) with [o0; x].
  set (b2 := set_objs _ _). set (o2 := with_base _ _) in b2. apply runs_bind.
  assert (∀ b w', s_saObj b = [o0; o2] → board_state b → 0 <= u16Index b <= 6 → vars w' = b → trace w' = trace w →
            runs (SetCrop 1 wd 160) w' Q) as Hcrop.
  { intros b w' Eb Hb' Hi Ev Et. unfold SetCrop. apply runs_bind, (runs_update 1 _ o2); [by rewrite Ev, Eb|]. rewrite Ev, Eb.
    apply runs_modify, HQ; [|done]. cbn [with_vars vars set_objs s_sblitop]. apply scene_set_op; [|done].
    refine (conj Hb' (conj _ Hi)). exists o0, (crop o2 wd 160). refine (conj eq_refl (conj Hbg (conj Hsp (conj eq_refl _)))).
    exists k, wd. split_and!; [done| |done]. cbn. apply u32_id. pose proof (Ha SPMem). unfold is_u32, SPMAP_SIZE in *. lia. }
  destruct (Z.eqb_spec (u16Index (vars w)) 6) as [E6|E6].
  - apply runs_modify. eapply Hcrop; [..|reflexivity|done]; try done.
  - apply runs_ret. eapply Hcrop; [..|reflexivity|done]; try done. cbn. rewrite u16_id by (unfold is_u16; lia). lia.
Qed.

Lemma EnableColorKey_runs on w (Q : bool → world blt breq D → Prop) :
  (∀ ok w', vars w' = vars w → (all_inside w → all_inside w') → Q ok w') → runs (EnableColorKey on) w Q.
Proof.
  intros HQ. unfold EnableColorKey. destruct on; apply runs_request, runs_ret, HQ; try done; intros Hi;
    (eapply all_inside_other; [exact Hi|done|by repeat constructor]).
Qed.

(** Moving one of the objects, with the reset at the end of its way. *)
Lemma scene_objs (sp : obj → Prop) b o0 o1 : board_state b → 0 <= u16Index b <= 6 → s_saObj b = [o0; o1] → background o0 → sp o1 → scene sp b.
Proof. intros Hb Hi E E0 E1. refine (conj Hb (conj _ Hi)). by exists o0, o1. Qed.

Lemma turn_runs w (Q : bool → world blt breq D → Prop) : scene sprite_at (vars w) → all_inside w →
  (∀ ok w', scene sprite_at (vars w') → all_inside w' → Q ok w') →
  (∀ ok w', board_state (vars w') → all_inside w' → ok = false → Q ok w') → runs turn w Q.
Proof.
  intros (Hb & (o0 & o1 & Eo & Hbg & Hsp) & Hix) Hi HQ HQf. unfold turn.
  apply runs_bind, (runs_object 0 o0); [by rewrite Eo|]. apply runs_bind, (runs_update 0 _ o0); [by rewrite Eo|].
  rewrite Eo. change (<[Z.to_nat 0:=?x]> [o0; o1]) with [x; o1]. set (o0' := place _ _ _). set (w1 := with_vars _ _).
  assert (board_state (vars w1)) as Hb1 by done.
  assert (∀ w', (∃ o, s_saObj (vars w') = [o; o1] ∧ background o) → board_state (vars w') → u16Index (vars w') = u16Index (vars w) → all_inside w' →
    runs (o ← object 1; _ ← update 1 (λ o, place o (i32X o - 1) (i32Y o));
          ok ← (if i32X o <? 0
                then ok ← EnableColorKey false;
                     if negb ok then mret false else _ ← update 1 (λ o, place o 300 (i32Y o)); mret true
                else mret true);
          if negb ok then mret false else _ ← next_sprite; _ ← Flush; mret true) w' Q) as Hrest.
  { clear w1 Hb1. intros w2 (o & Eo2 & Hbg2) Hb2 Hix2 Hi2.
    apply runs_bind, (runs_object 1 o1); [by rewrite Eo2|]. apply runs_bind, (runs_update 1 _ o1); [by rewrite Eo2|].
    rewrite Eo2. change (<[Z.to_nat 1:=?x]> [o; o1]) with [o; x]. set (o1' := place _ _ _). set (w3 := with_vars _ _).
    assert (∀ w', scene sprite_at (vars w') → all_inside w' → runs (_ ← next_sprite; _ ← Flush; mret true) w' Q) as Hdraw.
    { intros w4 Hs4 Hi4. apply runs_bind, next_sprite_runs; [done|]. intros w5 Hs5 T5. apply runs_bind, Flush_runs; [done| |].
      - unfold all_inside. by rewrite T5.
      - intros w6 (Hb6 & (p0 & p1 & Ep & Hp0 & Hp1 & _) & Hix6) Hi6. apply runs_ret, HQ; [|done]. by eapply scene_objs. }
    destruct Hsp as (F1 & F2 & F3). apply runs_bind. destruct (Z.ltb_spec (i32X o1) 0) as [Hx|Hx].
    - apply runs_bind, EnableColorKey_runs. intros ok w4 E4 I4. destruct ok; cbn [negb].
      + apply runs_bind, (runs_update 1 _ o1'); [by rewrite E4|]. rewrite E4. apply runs_ret. cbn [negb].
        apply Hdraw; [|by apply I4]. apply (scene_objs _ _ o (place o1' 300 (i32Y o1'))); [done|cbn; lia|done|done|]. split_and!; cbn; lia.
      + apply runs_ret. cbn [negb]. apply runs_ret, HQf; [by rewrite E4|by apply I4|done].
    - apply runs_ret. cbn [negb]. apply Hdraw; [|done]. apply (scene_objs _ _ o o1'); [done|cbn; lia|done|done|]. split_and!; cbn; lia. }
  destruct Hbg as (G1 & G2 & G3 & G4 & G5 & G6). apply runs_bind. destruct (Z.ltb_spec (i32Y o0) (-250)) as [Hy|Hy].
  - apply runs_bind, EnableColorKey_runs. intros ok w4 E4 I4. destruct ok; cbn [negb].
    + apply runs_bind, (runs_update 0 _ o0'); [by rewrite E4|]. rewrite E4. apply runs_ret. cbn [negb].
      apply Hrest; [|done..|by apply I4]. exists (place o0' (i32X o0') 150). split; [done|]. split_and!; cbn; lia.
    + apply runs_ret. cbn [negb]. apply runs_ret, HQf; [by rewrite E4|by apply I4|done].
  - apply runs_ret. cbn [negb]. apply Hrest; [|done..]. exists o0'. split; [done|]. split_and!; cbn; lia.
Qed.

Lemma main_loop_runs n : ∀ w, scene sprite_at (vars w) → all_inside w →
  runs (main_loop n) w (λ _ w', all_inside w').
Proof.
  induction n as [|n IH]; intros w Hs Hi; cbn [main_loop]; [by apply runs_ret|].
  apply runs_bind, turn_runs; try done.
  - intros ok w1 Hs1 Hi1. destruct ok; cbn [negb]; [by apply IH|by apply runs_ret].
  - intros ok w1 _ Hi1 ->. by apply runs_ret.
Qed.

(** *** Set-up *)

Lemma all_inside_after w r : all_inside w → inside r → all_inside (after w r).
Proof. intros Hw Hr. eapply all_inside_other; [done|done|]. by repeat constructor. Qed.

Lemma open_device_runs d w (Q : bool → world blt breq D → Prop) : all_inside w →
  (∀ ok fd w', vars w' = set_fd d fd (vars w) → all_inside w' → Q ok w') → runs (open_device d) w Q.
Proof.
  intros Hi HQ. unfold open_device. apply runs_request, runs_bind, runs_modify, runs_ret. eapply HQ; [done|].
  by apply (all_inside_after w (BOpen d)).
Qed.

Lemma map_memory_runs d size w (Q : bool → world blt breq D → Prop) : all_inside w →
  (∀ w', all_inside w' → Q false w') → (∀ w', vars w' = set_phys d (address d) (vars w) → all_inside w' → Q true w') →
  runs (map_memory d size) w Q.
Proof.
  intros Hi Hf Ht. unfold map_memory. apply runs_request. pose proof (all_inside_after w (BMmap d size) Hi I) as Hi1.
  destruct (_ =? -1); [by apply runs_ret, Hf|]. apply runs_request, runs_bind, runs_modify, runs_ret, Ht.
  - unfold answer. by rewrite board_address.
  - by apply (all_inside_after _ (GetPhysAddr d) Hi1).
Qed.

Lemma load_picture_runs d size w (Q : bool → world blt breq D → Prop) : all_inside w →
  (∀ ok w', vars w' = vars w → all_inside w' → Q ok w') → runs (load_picture d size) w Q.
Proof.
  intros Hi HQ. unfold load_picture. apply runs_request. unfold answer at 1. rewrite board_files. cbn [negb].
  do 2 apply runs_request. apply runs_ret, HQ; [done|].
  exact (all_inside_after _ BFclose (all_inside_after _ (BFread size) (all_inside_after w (BFopen d) Hi I) I) I).
Qed.

Lemma SetSrcBuffer_runs i d size stride o w (Q : bool → world blt breq D → Prop) : all_inside w → rd (s_saObj (vars w)) i = Ok o →
  (∀ w', all_inside w' → Q false w') →
  (∀ fd w', vars w' = set_objs (<[Z.to_nat i := with_stride (with_base o (address d)) stride]> (s_saObj (vars w)))
                        (set_phys d (address d) (set_fd d fd (vars w))) → all_inside w' → Q true w') →
  runs (SetSrcBuffer i d size stride) w Q.
Proof.
  intros Hi Eo Hf Ht. unfold SetSrcBuffer. apply runs_bind, open_device_runs; [done|]. intros ok fd w1 E1 Hi1.
  destruct ok; cbn [negb]; [|by apply runs_ret, Hf]. apply runs_bind, map_memory_runs; [done| |].
  { intros w2 Hi2. by apply runs_ret, Hf. }
  intros w2 E2 Hi2. cbn [negb]. apply runs_bind, load_picture_runs; [done|]. intros ok w3 E3 Hi3.
  destruct ok; cbn [negb]; [|by apply runs_ret, Hf]. apply runs_get, runs_bind.
  rewrite E1 in E2. rewrite E2 in E3. apply (runs_update _ _ o); [by rewrite E3|]. apply runs_ret, (Ht fd); [|done].
  cbn [with_vars vars]. rewrite E3. cbn [set_objs set_phys set_fd phys s_saObj]. unfold upd at 1. by rewrite decide_True.
Qed.

Lemma InitLCM_runs w (Q : option bool → world blt breq D → Prop) : all_inside w →
  (∀ r w', r ≠ Some true → all_inside w' → Q r w') →
  (∀ fd size w', vars w' = set_lcm (Panel width height size (dest_map_size (lcm (vars w)))) (set_fd Lcm fd (vars w)) →
     all_inside w' → Q (Some true) w') →
  runs InitLCM w Q.
Proof.
  intros Hi Hf Ht. unfold InitLCM. apply runs_bind, open_device_runs; [done|]. intros ok fd w1 E1 Hi1.
  destruct ok; cbn [negb]; [|by apply runs_ret, Hf]. apply runs_request. destruct (answer w1 Vscreeninfo) as [[a c]|] eqn:Es.
  2:{ apply runs_get, runs_request, runs_ret, Hf; [done|]. exact (all_inside_after _ (BClose _) (all_inside_after _ Vscreeninfo Hi1 I) I). }
  unfold answer in Es. apply board_screen in Es as [= -> ->].
  pose proof Hfit as (? & ? & _). apply runs_bind, runs_modify, runs_ret. eapply Ht.
  - cbn [with_vars vars after]. rewrite E1. rewrite (s32_id width), (s32_id height) by (unfold is_s32; lia). done.
  - exact (all_inside_after _ Vscreeninfo Hi1 I).
Qed.

Lemma SetDestBuffer_runs w (Q : bool → world blt breq D → Prop) : all_inside w →
  (∀ w', all_inside w' → Q false w') →
  (∀ fd size w', vars w' = set_phys DestMem (address DestMem)
       (set_lcm (Panel (lcm_width (lcm (vars w))) (lcm_height (lcm (vars w))) (lcm_buffer_size (lcm (vars w))) size) (set_fd DestMem fd (vars w))) →
     all_inside w' → Q true w') →
  runs SetDestBuffer w Q.
Proof.
  intros Hi Hf Ht. unfold SetDestBuffer. apply runs_bind, open_device_runs; [done|]. intros ok fd w1 E1 Hi1.
  destruct ok; cbn [negb]; [|by apply runs_ret, Hf]. apply runs_get, runs_bind, runs_modify, map_memory_runs; [done|done|].
  intros w2 E2 Hi2. eapply Ht; [|done]. rewrite E2. cbn [with_vars vars]. rewrite E1. reflexivity.
Qed.

(** The last steps of the set-up. *)
Lemma configure_runs w o0 o1 (Q : option Z → world blt breq D → Prop) : all_inside w →
  phys (vars w) DestMem = address DestMem → phys (vars w) SPMem = address SPMem →
  lcm_width (lcm (vars w)) = width → lcm_height (lcm (vars w)) = height → s_saObj (vars w) = [o0; o1] →
  u32PatternBase o0 = address BGMem → u32Stride o0 = 480 → u32Stride o1 = 736 → u16Index (vars w) = 0 →
  (∀ w', scene sprite_at (vars w') → all_inside w' → Q None w') →
  runs (b ← get;
        _ ← Config (phys b DestMem) (s16 (lcm_width (lcm b))) (s16 (lcm_height (lcm b)));
        _ ← SetPosition 0 0 0; _ ← SetPosition 1 200 100; _ ← SetCrop 0 480 272; mret None) w Q.
Proof.
  intros Hi HD HS Hw Hh Eo B0 S0 S1 Hix HQ. pose proof Hfit as (Hfw & Hfh & _).
  apply runs_get. rewrite HD, Hw, Hh, !s16_id by lia. unfold Config, SetPosition, SetCrop.
  apply runs_bind, runs_modify. apply runs_bind, runs_bind, (runs_object 0 o0); [cbn; by rewrite Eo|].
  apply runs_bind, (runs_update 0 _ o0); [cbn; by rewrite Eo|]. apply runs_bind, runs_modify, runs_ret.
  apply runs_bind, runs_bind, (runs_object 1 o1); [cbn; by rewrite Eo|].
  apply runs_bind, (runs_update 1 _ o1); [cbn; by rewrite Eo|]. apply runs_bind, runs_modify, runs_ret.
  apply runs_bind, runs_bind, (runs_update 0 _ (place o0 0 0)); [cbn; by rewrite Eo|]. apply runs_modify, runs_ret, HQ; [|done].
  cbn [with_vars vars set_objs set_op set_fill s_saObj s_sblitop phys lcm u16Index]. rewrite Eo.
  apply (scene_objs _ _ (crop (place o0 0 0) 480 272) (place o1 200 100)); [|cbn; lia|done|split_and!; cbn; lia|split_and!; cbn; lia].
  refine (conj HD (conj HS (conj Hw (conj Hh _)))). cbn [set_op set_objs s_sblitop dest dest_stride].
  by rewrite position_op_stride; cbn [set_op set_objs s_sblitop]; rewrite position_op_stride.
Qed.

Lemma set_up_runs (d : D) (Q : option Z → world blt breq D → Prop) :
  (∀ z w', all_inside w' → Q (Some z) w') → (∀ w', scene sprite_at (vars w') → all_inside w' → Q None w') →
  runs set_up (World start d []) Q.
Proof.
  intros Hs HQ. unfold set_up. set (w0 := World start d []). assert (all_inside w0) as Hi0 by constructor.
  apply runs_bind. apply (runs_mono _ _ (λ _ w', vars w' = start ∧ all_inside w')).
  { unfold InitSystem. apply runs_request. pose proof (all_inside_after w0 Sigaction Hi0 I) as Hi1.
    destruct (negb _); [by apply runs_ret|]. apply runs_request.
    pose proof (all_inside_after _ Sigaction Hi1 I) as Hi2. destruct (negb _); by apply runs_ret. }
  intros ok w1 [E1 Hi1]. destruct ok; cbn [negb]; [|by apply runs_ret, Hs]. unfold InitBitBlt.
  apply runs_bind, runs_bind, open_device_runs; [done|]. intros ok fd w2 E2 Hi2. rewrite E1 in E2.
  destruct ok; cbn [negb]; [|by apply runs_ret, runs_ret, Hs]. apply runs_bind, runs_modify, runs_ret. cbn [negb].
  apply runs_bind, InitLCM_runs; [done|intros [[]|] w3 Hr Hi3; cbn [negb]; done || by apply runs_ret, Hs|]. intros fd3 size3 w3 E3 Hi3. cbn [negb].
  cbn [with_vars vars] in E3. rewrite E2 in E3.
  apply runs_bind, SetDestBuffer_runs; [done|intros w4 Hi4; by apply runs_ret, Hs|]. intros fd4 size4 w4 E4 Hi4. cbn [negb].
  rewrite E3 in E4. apply runs_bind. unfold SetSrcBGBuffer. apply (SetSrcBuffer_runs _ _ _ _ zero_obj); [done|by rewrite E4| |].
  { intros w5 Hi5. by apply runs_ret, Hs. }
  intros fd5 w5 E5 Hi5. cbn [negb]. rewrite E4 in E5. apply runs_bind. unfold SetSrcSPBuffer.
  apply (SetSrcBuffer_runs _ _ _ _ zero_obj); [done|by rewrite E5| |].
  { intros w6 Hi6. by apply runs_ret, Hs. }
  intros fd6 w6 E6 Hi6. cbn [negb]. rewrite E5 in E6. unfold SetLCMBuffer. apply runs_bind, runs_get, runs_request, runs_ret.
  destruct (negb (negb _)); [apply runs_ret, Hs; by apply (all_inside_after _ (BMmap _ _))|].
  unfold SetColorKey_. apply runs_bind, runs_request, runs_ret.
  pose proof (all_inside_after _ (SetColorKey 0xF81F) (all_inside_after w6 (BMmap Lcm (lcm_buffer_size (lcm (vars w6)))) Hi6 I) I) as Hi8.
  destruct (negb (negb _)); [by apply runs_ret, Hs|].
  eapply configure_runs; [exact Hi8|..|exact HQ]; cbn [after vars]; rewrite ?E6; reflexivity.
Qed.
End board.

(** C34: On a board that has the two pictures and whose memory device tells its
    physical addresses, with a panel wide enough for the sprite and as high as the
    background, the demo never fails a bounds check, whatever the other requests
    answer, and every blit that it orders, in any number of turns, reads inside
    the picture it shows and writes inside the destination buffer, within the
    lines of the panel. *)
Theorem blits_stay_inside {D : Type} `{Board D} (d : D) n :
  panel_fits → ∃ r w', main n (World start d []) = Ok (r, w') ∧ Forall inside (trace w').
Proof.
  intros Hfit. unfold main. apply runs_bind, set_up_runs; [done|intros z w1 Hi1; by apply runs_ret|].
  intros w1 Hs1 Hi1. apply runs_bind. eapply runs_mono; [by apply main_loop_runs|]. cbv beta. intros ok w2 Hi2.
  destruct ok; cbn [negb]; [by apply runs_ret|]. apply runs_bind. unfold app_close. apply runs_get.
  do 9 apply runs_request. do 2 apply runs_ret. do 9 (apply all_inside_after; [|exact I]). done.
Qed.

(** ** A board that answers every request *)

Record demo_board := DemoBoard { screen_w : Z; screen_h : Z }.
Definition demo_address (m : dev) : Z := match m with DestMem => 0x1000000 | BGMem => 0x1100000 | SPMem => 0x1200000 | _ => 0 end.

#[export] Instance demo_driver : Driver breq breply demo_board := λ d r,
  (d, match r return breply r with
      | Vscreeninfo => Some (screen_w d, screen_h d)
      | GetPhysAddr m => Some (demo_address m)
      | BOpen _ => 3
      | BFopen _ => true
      | BFread _ => 1
      | LcdInt _ | CopyToLcm _ | Munmap _ _ | BClose _ | BFclose => tt
      | Sigaction | BMmap _ _ | SetColorKey _ | EnableColorCtl | DisableColorCtl
      | SetFill _ | SetBlit _ | NonPremulAlpha | Trigger | WaitDone => 0
      end).

(** The same with a panel of 480 times 272. *)
Definition n32905_board := unit.
#[export] Instance n32905_driver : Driver breq breply n32905_board := λ d r, (d, (demo_driver (DemoBoard 480 272) r).2).
#[export] Program Instance n32905 : Board n32905_board := {| width := 480; height := 272; address := demo_address |}.
Solve All Obligations with done || by intros ? ? [= <-].

Lemma blits_stay_inside_witness :
  ∃ r w', main (D := n32905_board) 9 (World start tt []) = Ok (r, w') ∧ Forall inside (trace w').
Proof.
  apply (blits_stay_inside (D := n32905_board) tt 9).
  unfold panel_fits. cbn [width height address n32905 demo_address]. split_and!; try (by cbv; split); try done.
  intros []; done.
Defined.

(** On a panel of 320 times 240 the background, once it has moved up, is drawn
    beyond the end of the destination buffer: an object that starts above the
    panel is not cut at its lower end. *)
Definition last_byte (o : blit_op) : Z :=
  u32FrameBufAddr (dest o) + (dest_height (dest o) - 1) * dest_stride (dest o) + dest_width (dest o) * 2.

Example low_panel_overrun :
  match main 1 (World start (DemoBoard 320 240) []) with
  | Ok (_, w') =>
      existsb (λ r, match r with
                    | SetBlit o => demo_address DestMem + dest_map_size (lcm (vars w')) <? last_byte o
                    | _ => false
                    end) (trace w') = true
  | Crash _ => False
  end.
Proof. by vm_compute. Qed.

(** A memory device that does not tell its addresses: the demo draws all the
    same, into the memory from address zero on. *)
Record mute_board := MuteBoard {}.
#[export] Instance mute_driver : Driver breq breply mute_board := λ d r,
  (d, match r return breply r with GetPhysAddr _ => None | r => (demo_driver (DemoBoard 480 272) r).2 end).

Example unknown_address_is_drawn_to :
  match main 1 (World start MuteBoard []) with
  | Ok (_, w') => existsb (λ r, match r with SetBlit o => u32FrameBufAddr (dest o) =? 0 | _ => false end) (trace w') = true
  | Crash _ => False
  end.
Proof. by vm_compute. Qed.

(** The clean-up unmaps the descriptors instead of the addresses. *)
Lemma app_close_unmaps_descriptors {D} `{Driver breq breply D} (w : world blt breq D) :
  ∃ w', app_close w = Ok (tt, w') ∧ trace w' = trace w ++
    [Munmap (fds (vars w) DestMem) (dest_map_size (lcm (vars w))); Munmap (fds (vars w) BGMem) BGMAP_SIZE;
     Munmap (fds (vars w) SPMem) SPMAP_SIZE; Munmap (fds (vars w) Lcm) (lcm_buffer_size (lcm (vars w)))] ++
    (BClose ∘ fds (vars w) <$> [Blitter; DestMem; BGMem; SPMem; Lcm]).
Proof. eexists. split; [done|]. cbn. by rewrite <- !app_assoc. Qed.
