(* ===== verification/Rtc.v ===== *)
(** * Rtc: the real-time clock demo

    Models src/rtc/rtc.c: setting the clock from words that are typed in, the two
    alarms, the periodic tick and the menu. *)
From S2P Require Import Prelude LibC Device Runs.
Local Open Scope cmodel_scope.
Local Open Scope Z_scope.

(** ** Data *)

(** struct rtc_time, the fields that are used. *)
Record rtc_time := RtcTime { tm_year : Z; tm_mon : Z; tm_mday : Z; tm_hour : Z; tm_min : Z; tm_sec : Z }.

(** The ioctl requests come with the answer of the driver; [SetWkAlarm] carries
    the enabled flag.  [Scanf] gives the words that are typed in; [AlarmFunc] and
    [TickFunc] are the calls of the two functions. *)
Inductive rtcreq :=
| ROpen (path : string) | RClose (fd : Z) | RSignal | RGetchar | Scanf
| RdTime | SetTime (t : rtc_time) | AlmSet (t : rtc_time) | AlmRead
| WkAlmSet (enabled : Z) (t : rtc_time) | WkAlmRead | AieOn | AieOff
| TickOn | TickSet (n : Z) | TickRead | TickOff | WaitIrq | AlarmFunc | TickFunc.

Definition rtcreply (r : rtcreq) : Type :=
  match r with
  | RdTime | AlmRead | WkAlmRead => Z * rtc_time
  | Scanf => list (list Z)
  | RClose _ | RSignal | AlarmFunc | TickFunc => unit
  | _ => Z
  end.

(** The static arrays of [setup_time] with their sizes, and [fd_all]. *)
Record rtc := Rtc { words : list (list Z); fd_all : Z }.
Definition word_sizes : list Z := [5; 4; 4; 4; 4; 4].

(** [%s] stores a word and its final zero; the words that are not typed in keep
    what they were. *)
Fixpoint store_words (sizes : list Z) (old new : list (list Z)) : result (list (list Z)) :=
  match sizes, old, new with
  | n :: sizes, _ :: old, w :: new =>
      if n <? Z.of_nat (length w) + 1 then Crash OutOfBounds else ws ← store_words sizes old new; Ok (w :: ws)
  | _, old, _ => Ok old
  end.

(** The seconds are moved on, with one carry. *)
Definition later (t : rtc_time) (sec : Z) : rtc_time :=
  let s := tm_sec t + sec in
  if 60 <? s then RtcTime (tm_year t) (tm_mon t) (tm_mday t) (tm_hour t) (tm_min t + 1) (s - 60)
  else RtcTime (tm_year t) (tm_mon t) (tm_mday t) (tm_hour t) (tm_min t) s.

Section program.
Context {D : Type} `{Driver rtcreq rtcreply D}.
Notation P := (prog rtc rtcreq D).

Definition setup_time : P unit :=
  new ⇐ Scanf;
  t ← get;
  ws ← lift (store_words word_sizes (words t) new);
  _ ← modify (λ t, Rtc ws (fd_all t));
  let num i := atoi (ws !!! i) in
  _ ⇐ SetTime (RtcTime (num 0%nat - 1900) (num 1%nat - 1) (num 2%nat) (num 3%nat) (num 4%nat) (num 5%nat));
  mret tt.

Definition read_time : P unit := _ ⇐ RdTime; mret tt.

(** Waits for the interrupt, calls the function and switches it off. *)
Definition await (func : P unit) : P unit :=
  r ⇐ AieOn;
  if (r : Z) <? 0 then mret tt else
  r ⇐ WaitIrq;
  if negb (0 <? (r : Z)) then mret tt else
  _ ← func;
  _ ⇐ AieOff; mret tt.

Definition alarm_func : P unit := _ ⇐ AlarmFunc; mret tt.
Definition tick_func : P unit := _ ⇐ TickFunc; mret tt.

Definition setup_wkalarm (sec : Z) (func : P unit) : P unit :=
  r ⇐ RdTime;
  if r.1 <? 0 then mret tt else
  r ⇐ WkAlmSet 1 (later r.2 sec);
  if (r : Z) <? 0 then mret tt else
  r ⇐ WkAlmRead;
  if r.1 <? 0 then mret tt else
  await func.

Definition setup_alarm (sec : Z) (func : P unit) : P unit :=
  r ⇐ RdTime;
  if r.1 <? 0 then mret tt else
  r ⇐ AlmSet (later r.2 sec);
  if (r : Z) <? 0 then mret tt else
  r ⇐ AlmRead;
  if r.1 <? 0 then mret tt else
  await func.

(** The ticks that are left; [false] after a failed wait. *)
Fixpoint ticks (icount : nat) (func : P unit) : P bool :=
  match icount with
  | O => mret true
  | S icount =>
      r ⇐ WaitIrq;
      if 0 <? (r : Z) then _ ← func; ticks icount func else mret false
  end.

Definition setup_tick (tick : Z) (func : P unit) : P unit :=
  r ⇐ TickOn;
  if (r : Z) <? 0 then mret tt else
  r ⇐ TickSet tick;
  if (r : Z) <? 0 then mret tt else
  r ⇐ TickRead;
  if (r : Z) <? 0 then mret tt else
  ok ← ticks 10 func;
  if negb ok then mret tt else _ ⇐ TickOff; mret tt.

Definition ctrl_c_signal : P unit :=
  _ ⇐ AieOff; _ ⇐ TickOff; t ← get; _ ⇐ RClose (fd_all t); mret tt.

(** One command of the menu; [true]: the end. *)
Definition command (select : Z) : P bool :=
  if select =? 0x31 then _ ← read_time; mret false
  else if select =? 0x32 then _ ← setup_time; mret false
  else if select =? 0x33 then _ ← setup_wkalarm 5 alarm_func; mret false
  else if select =? 0x34 then _ ← setup_alarm 3 alarm_func; mret false
  else if select =? 0x35 then _ ← setup_tick 0 tick_func; mret false
  else mret ((select =? 0x58) || (select =? 0x78)).

Fixpoint menu (fuel : nat) : P unit :=
  match fuel with
  | O => fault OutOfFuel
  | S fuel => select ⇐ RGetchar; done ← command (u32 (select : Z)); if negb done then menu fuel else mret tt
  end.

Definition open_rtc : P Z :=
  fd ⇐ ROpen "/dev/rtc";
  if negb ((fd : Z) <? 0) then mret (fd : Z) else
  fd ⇐ ROpen "/dev/rtc0";
  if negb ((fd : Z) <? 0) then mret (fd : Z) else
  fd ⇐ ROpen "/dev/misc/rtc"; mret (fd : Z).

(** When there is no device [main] ends without a value. *)
Definition main (fuel : nat) : P Z :=
  fd ← open_rtc;
  if fd <? 0 then fault NoValue else
  _ ← modify (λ t, Rtc (words t) fd);
  _ ⇐ RSignal; _ ⇐ RSignal;
  _ ← menu fuel;
  _ ⇐ RClose fd; mret 0.
End program.

(** ** The time of the alarm *)

Definition valid_time (t : rtc_time) : Prop := 0 <= tm_hour t < 24 ∧ 0 <= tm_min t < 60 ∧ 0 <= tm_sec t < 60.
Definition seconds (t : rtc_time) : Z := tm_hour t * 3600 + tm_min t * 60 + tm_sec t.

(** The two cases that the carry misses. *)
Definition carry_missed (t : rtc_time) (sec : Z) : Prop :=
  tm_sec t + sec = 60 ∨ 60 < tm_sec t + sec ∧ tm_min t = 59.

Lemma later_seconds t sec : seconds (later t sec) = seconds t + sec.
Proof. unfold seconds, later. destruct (Z.ltb_spec 60 (tm_sec t + sec)); cbn; lia. Qed.

Lemma later_valid t sec : valid_time t → 0 <= sec <= 60 → valid_time (later t sec) ↔ ¬ carry_missed t sec.
Proof.
  unfold valid_time, carry_missed, later. intros Ht Hs. destruct (Z.ltb_spec 60 (tm_sec t + sec)); cbn; lia.
Qed.

(** ** The course of an alarm *)

Section alarm.
Context {D : Type} `{Driver rtcreq rtcreply D}.
Implicit Types w : world rtc rtcreq D.

(** The requests made are the first ones of [rs]. *)
Definition makes (w w' : world rtc rtcreq D) (rs : list rtcreq) : Prop :=
  vars w' = vars w ∧ ∃ n, trace w' = trace w ++ take n rs.

Lemma makes_none w rs : makes w w rs.
Proof. split; [done|]. exists 0%nat. by rewrite take_0, app_nil_r. Qed.

Lemma makes_cons w r w' rs : makes (after w r) w' rs → makes w w' (r :: rs).
Proof. intros [Ev [n E]]. split; [done|]. exists (S n). rewrite E. cbn [after trace take]. by rewrite <- app_assoc. Qed.

Lemma runs_makes_request {A} r (k : rtcreply r → prog rtc rtcreq D A) w rs :
  runs (k (answer w r)) (after w r) (λ _ w', makes (after w r) w' rs) → runs (request r k) w (λ _ w', makes w w' (r :: rs)).
Proof. intros Hk. apply runs_request. eapply runs_mono; [exact Hk|]. intros a w'. apply makes_cons. Qed.

Lemma runs_makes_ret w rs : runs (mret tt) w (λ _ w', makes w w' rs).
Proof. apply runs_ret, makes_none. Qed.

Lemma await_makes w : runs (await alarm_func) w (λ _ w', makes w w' [AieOn; WaitIrq; AlarmFunc; AieOff]).
Proof.
  unfold await. apply runs_makes_request. destruct (_ <? 0); [apply runs_makes_ret|].
  apply runs_makes_request. destruct (negb _); [apply runs_makes_ret|].
  unfold alarm_func. apply runs_bind, runs_request, runs_ret, runs_request, runs_ret. split; [done|]. exists 2%nat. cbn. by rewrite <- app_assoc.
Qed.

(** Whatever the driver answers, the second alarm ends after the first requests
    of its course, in order: the alarm is set [sec] seconds after the time that
    was read.  The fields that are set are a valid time unless the seconds
    become exactly 60 or the minute 60. *)
Theorem alarm_is_later sec w : 0 <= sec <= 60 → valid_time (answer w RdTime).2 →
  ∃ w' alarm, setup_alarm sec alarm_func w = Ok (tt, w') ∧
    makes w w' [RdTime; AlmSet alarm; AlmRead; AieOn; WaitIrq; AlarmFunc; AieOff] ∧
    seconds alarm = seconds (answer w RdTime).2 + sec ∧
    (valid_time alarm ↔ ¬ carry_missed (answer w RdTime).2 sec).
Proof.
  intros Hs Hv. set (t := (answer w RdTime).2) in *.
  assert (runs (setup_alarm sec alarm_func) w
            (λ _ w', makes w w' [RdTime; AlmSet (later t sec); AlmRead; AieOn; WaitIrq; AlarmFunc; AieOff])) as ([] & w' & E & Hm).
  { unfold setup_alarm. apply runs_makes_request. fold t. destruct (_ <? 0); [apply runs_makes_ret|].
    apply runs_makes_request. destruct (_ <? 0); [apply runs_makes_ret|].
    apply runs_makes_request. destruct (_ <? 0); [apply runs_makes_ret|]. apply await_makes. }
  exists w', (later t sec). split_and!; [done|done|apply later_seconds|]. by apply later_valid.
Qed.
End alarm.

(** ** The menu *)

(** Keys that are typed in; the words for the clock are short enough. *)
Class Keys (D : Type) `{Driver rtcreq rtcreply D} := {
  keys : D → list Z;
  key_read (d : D) k r : keys d = k :: r → (respond d RGetchar).2 = k ∧ keys (respond d RGetchar).1 = r;
  key_kept (d : D) r : match r with RGetchar => True | _ => keys (respond d r).1 = keys d end;
  short_words (d : D) : Forall2 (λ n w, Z.of_nat (length w) < n) word_sizes (respond d Scanf).2
}.

Section menu.
Context {D : Type} `{Keys D}.
Implicit Types w : world rtc rtcreq D.

(** A part of the program that leaves the keys alone and opens or closes
    nothing. *)
Definition plain {A} (m : prog rtc rtcreq D A) : Prop :=
  ∀ w, length (words (vars w)) = 6%nat →
    runs m w (λ _ w', keys (driver w') = keys (driver w) ∧ length (words (vars w')) = 6%nat ∧ fd_all (vars w') = fd_all (vars w) ∧
      ∃ rs, trace w' = trace w ++ rs ∧ Forall (λ r, ∀ fd, r ≠ RClose fd) rs).

Lemma quiet_ret {A} (a : A) : plain (mret a).
Proof. intros w Hl. apply runs_ret. split_and!; try done. exists []. by rewrite app_nil_r. Qed.

Lemma quiet_bind {A B} (m : prog rtc rtcreq D A) (k : A → prog rtc rtcreq D B) : plain m → (∀ a, plain (k a)) → plain (m ≫= k).
Proof.
  intros Hm Hk w Hl. apply runs_bind. eapply runs_mono; [by apply Hm|]. cbv beta. intros a w1 (E1 & L1 & F1 & rs1 & T1 & N1).
  eapply runs_mono; [by apply Hk|]. cbv beta. intros b w2 (E2 & L2 & F2 & rs2 & T2 & N2).
  split_and!; [by rewrite E2|done|by rewrite F2|]. exists (rs1 ++ rs2). rewrite T2, T1, app_assoc. split; [done|]. by apply Forall_app.
Qed.

Lemma plain_request {A} r (k : rtcreply r → prog rtc rtcreq D A) : r ≠ RGetchar → (∀ fd, r ≠ RClose fd) → (∀ a, plain (k a)) → plain (request r k).
Proof.
  intros Hr Hc Hk w Hl. apply runs_request. eapply runs_mono; [by apply Hk|]. cbv beta. intros b w2 (E2 & L2 & F2 & rs2 & T2 & N2).
  split_and!; [|done|by rewrite F2|].
  - rewrite E2. pose proof (key_kept (driver w) r) as Hkk. by destruct r.
  - exists (r :: rs2). rewrite T2. cbn [after trace]. rewrite <- app_assoc. split; [done|]. by constructor.
Qed.

Lemma plain_if {A} (b : bool) (m n : prog rtc rtcreq D A) : plain m → plain n → plain (if b then m else n).
Proof. by destruct b. Qed.
End menu.

Create HintDb plain.
#[export] Hint Resolve quiet_ret quiet_bind plain_request plain_if : plain.
Ltac plain_step := first
  [ apply quiet_ret | apply plain_if | apply quiet_bind; [|intros ?] | apply plain_request; [done|done|intros ?] ].
Ltac plainly := repeat plain_step.

Section commands.
Context {D : Type} `{Keys D}.
Implicit Types w : world rtc rtcreq D.

Lemma store_words_ok (sizes : list Z) (old new : list (list Z)) :
  Forall2 (λ n v, Z.of_nat (length v) < n) sizes new → length old = length sizes → store_words sizes old new = Ok new.
Proof.
  intros Hn. revert old. induction Hn as [|n v sizes new Hw _ IH]; intros [|o old] Hl; try done.
  cbn [store_words]. rewrite (proj2 (Z.ltb_ge _ _)) by lia. cbn in Hl. rewrite IH by lia. done.
Qed.

Lemma plain_setup_time : plain setup_time.
Proof.
  intros w Hl. unfold setup_time. apply runs_request, runs_get. cbn [after vars].
  pose proof (short_words (driver w)) as Hw. fold (answer w Scanf) in Hw. apply runs_bind. eapply runs_lift; [by apply store_words_ok|].
  apply runs_bind, runs_modify, runs_request, runs_ret. cbn [after with_vars vars words fd_all driver trace]. split_and!.
  - pose proof (key_kept (driver w) Scanf) as H1. cbn iota in H1. rewrite <- H1. apply (key_kept _ (SetTime _)).
  - by apply Forall2_length in Hw.
  - done.
  - eexists [Scanf; SetTime _]. rewrite <- app_assoc. split; [done|]. by repeat constructor.
Qed.

Lemma plain_ticks n : plain (ticks n tick_func).
Proof. induction n; cbn [ticks]; unfold tick_func; plainly. done. Qed.

Lemma plain_command k : plain (command k).
Proof.
  unfold command, read_time, setup_wkalarm, setup_alarm, setup_tick, await, alarm_func.
  repeat first [apply plain_setup_time|apply plain_ticks|progress plain_step].
Qed.

Definition ends (k : Z) : bool := (u32 k =? 0x58) || (u32 k =? 0x78).

Lemma command_result k w : length (words (vars w)) = 6%nat → ∃ w', command (u32 k) w = Ok (ends k, w').
Proof.
  intros Hl. destruct (plain_command (u32 k) w Hl) as (b & w' & E & _). exists w'. rewrite E. do 2 f_equal. clear -E.
  unfold command, ends in *. revert E. generalize (u32 k). intros c E.
  assert (∀ m : prog rtc rtcreq D unit, (_ ← m; mret false) w = Ok (b, w') → b = false) as Hf.
  { intros m Em. rewrite bind_run in Em. destruct (m w) as [[]|]; [by injection Em as <- _|done]. }
  destruct (Z.eqb_spec c 0x31) as [Ec|_]; [apply Hf in E; by rewrite E, Ec|]. destruct (Z.eqb_spec c 0x32) as [Ec|_]; [apply Hf in E; by rewrite E, Ec|].
  destruct (Z.eqb_spec c 0x33) as [Ec|_]; [apply Hf in E; by rewrite E, Ec|]. destruct (Z.eqb_spec c 0x34) as [Ec|_]; [apply Hf in E; by rewrite E, Ec|].
  destruct (Z.eqb_spec c 0x35) as [Ec|_]; [apply Hf in E; by rewrite E, Ec|]. by injection E as <- _.
Qed.
End commands.

Section main.
Context {D : Type} `{Keys D}.
Implicit Types w : world rtc rtcreq D.

Definition quiet_requests (rs : list rtcreq) : Prop := Forall (λ r, ∀ fd, r ≠ RClose fd) rs.

Lemma menu_runs ks : ∀ w k rest (Q : unit → world rtc rtcreq D → Prop), length (words (vars w)) = 6%nat →
  keys (driver w) = ks ++ k :: rest → Forall (λ c, ends c = false) ks → ends k = true →
  (∀ w' rs, keys (driver w') = rest → trace w' = trace w ++ rs → quiet_requests rs → Q tt w') →
  runs (menu (S (length ks))) w Q.
Proof.
  induction ks as [|c ks IH]; intros w k rest Q Hl Ek Hks Hk HQ; cbn [menu length app] in *.
  - destruct (key_read (driver w) k rest Ek) as [Ha Hr]. apply runs_request. unfold answer. rewrite Ha.
    set (w1 := after w RGetchar). destruct (plain_command (u32 k) w1 Hl) as (b & w2 & E & K2 & _ & _ & rs & T2 & N2).
    destruct (command_result k w1 Hl) as (w2' & E'). rewrite E in E'. injection E' as -> <-.
    apply runs_bind. exists (ends k), w2. split; [done|]. rewrite Hk. cbn [negb]. apply runs_ret.
    apply (HQ _ (RGetchar :: rs)); [by rewrite K2|rewrite T2; cbn; by rewrite <- app_assoc|by apply Forall_cons].
  - apply Forall_cons in Hks as [Hc Hks]. destruct (key_read (driver w) c _ Ek) as [Ha Hr]. apply runs_request. unfold answer. rewrite Ha.
    set (w1 := after w RGetchar). destruct (plain_command (u32 c) w1 Hl) as (b & w2 & E & K2 & L2 & _ & rs & T2 & N2).
    destruct (command_result c w1 Hl) as (w2' & E'). rewrite E in E'. injection E' as -> <-.
    apply runs_bind. exists (ends c), w2. split; [done|]. rewrite Hc. cbn [negb].
    apply (IH w2 k rest); [done|rewrite K2; exact Hr|done..|]. intros w' rs' Er Et Hq.
    apply (HQ _ (RGetchar :: rs ++ rs')); [done| |apply Forall_cons; split; [done|by apply Forall_app]].
    rewrite Et, T2. unfold w1. cbn [after trace app]. by rewrite <- !app_assoc.
Qed.
End main.

(** The menu serves every key that is typed in, whatever the clock answers,
    until the key for the end; then the program closes the device, once, and
    returns 0.  The only thing it needs is that the words for the clock fit
    into their arrays. *)
Theorem menu_ends_at_x {D} `{Keys D} (w : world rtc rtcreq D) ks k rest :
  length (words (vars w)) = 6%nat → keys (driver w) = ks ++ k :: rest → Forall (λ c, ends c = false) ks → ends k = true →
  0 <= answer w (ROpen "/dev/rtc") →
  ∃ w' rs, main (S (length ks)) w = Ok (0, w') ∧ keys (driver w') = rest ∧
    trace w' = trace w ++ rs ++ [RClose (answer w (ROpen "/dev/rtc"))] ∧ quiet_requests rs.
Proof.
  intros Hl Ek Hks Hk Hfd. set (fd := answer w (ROpen "/dev/rtc")) in *.
  assert (runs (main (S (length ks))) w (λ z w', z = 0 ∧ keys (driver w') = rest ∧
            ∃ rs, trace w' = trace w ++ rs ++ [RClose fd] ∧ quiet_requests rs)) as (z & w' & E & -> & Er & rs & Et & Hq);
    [|by exists w', rs].
  unfold main, open_rtc. apply runs_bind, runs_request. fold fd. rewrite (proj2 (Z.ltb_ge fd 0)) by done. cbn [negb]. apply runs_ret.
  rewrite (proj2 (Z.ltb_ge fd 0)) by done. apply runs_bind, runs_modify. do 2 apply runs_request.
  apply runs_bind. eapply menu_runs; [done| |done|done|].
  { cbn [after with_vars driver]. rewrite (key_kept _ RSignal), (key_kept _ RSignal), (key_kept _ (ROpen _)). exact Ek. }
  intros w2 rs Er Et Hq. apply runs_request, runs_ret. split_and!; [done| |].
  - cbn [after driver]. by rewrite (key_kept _ (RClose fd)).
  - exists (ROpen "/dev/rtc" :: RSignal :: RSignal :: rs). split.
    + cbn [after trace]. rewrite Et. cbn [after with_vars trace]. by rewrite <- !app_assoc.
    + by repeat (apply Forall_cons; split; [done|]).
Qed.

(** ** A clock *)

Record clock := Clock { typed : list Z; now : rtc_time }.

#[export] Instance clock_driver : Driver rtcreq rtcreply clock := λ d r,
  match r return clock * rtcreply r with
  | RGetchar => match typed d with [] => (d, -1) | k :: ks => (Clock ks (now d), k) end
  | Scanf => (d, [lit "2024"; lit "2"; lit "29"; lit "23"; lit "59"; lit "58"])
  | RdTime => (d, (0, now d))
  | SetTime t => (Clock (typed d) t, 0)
  | AlmRead | WkAlmRead => (d, (0, now d))
  | WaitIrq => (d, 4)
  | RClose _ | RSignal | AlarmFunc | TickFunc => (d, tt)
  | ROpen _ | AlmSet _ | WkAlmSet _ _ | AieOn | AieOff | TickOn | TickSet _ | TickRead | TickOff => (d, 0)
  end.

#[export] Instance clock_keys : Keys clock.
Proof.
  refine {| keys := typed |}.
  - intros [ks t] k r E. cbn in *. by rewrite E.
  - by intros d [].
  - intros d. cbn. by repeat constructor.
Defined.

Definition demo_clock (ks : list Z) : world rtc rtcreq clock :=
  World (Rtc (replicate 6 []) 0) (Clock ks (RtcTime 124 1 29 23 58 30)) [].

Lemma alarm_is_later_witness :
  ∃ w' alarm, setup_alarm 3 alarm_func (demo_clock []) = Ok (tt, w') ∧ seconds alarm = seconds (RtcTime 124 1 29 23 58 30) + 3.
Proof.
  destruct (alarm_is_later 3 (demo_clock [])) as (w' & alarm & E & _ & Hs & _).
  - done.
  - unfold valid_time. cbn. lia.
  - by exists w', alarm.
Defined.

(** At 57 seconds the alarm three seconds later is set to second 60; at the end
    of an hour the minute becomes 60. *)
Example alarm_at_second_60 : later (RtcTime 124 1 29 23 58 57) 3 = RtcTime 124 1 29 23 58 60 ∧
  later (RtcTime 124 1 29 22 59 58) 3 = RtcTime 124 1 29 22 60 1.
Proof. done. Qed.

Lemma menu_ends_at_x_witness :
  ∃ w' rs, main 4 (demo_clock [0x31; 0x32; 0x35; 0x58; 0x31]) = Ok (0, w') ∧ typed (driver w') = [0x31] ∧
    trace w' = rs ++ [RClose 0].
Proof.
  destruct (menu_ends_at_x (demo_clock [0x31; 0x32; 0x35; 0x58; 0x31]) [0x31; 0x32; 0x35] 0x58 [0x31]) as (w' & rs & E & Er & Et & _).
  - done.
  - reflexivity.
  - by repeat constructor.
  - done.
  - done.
  - by exists w', rs.
Defined.

(** At the end of the input getchar returns -1, which is no command: the menu
    runs for ever. *)
Lemma menu_without_input n : ∀ w : world rtc rtcreq clock, typed (driver w) = [] → menu n w = Crash OutOfFuel.
Proof.
  induction n as [|n IH]; intros w Hk; cbn [menu]; [done|]. rewrite request_run. unfold answer. cbn [respond clock_driver]. rewrite Hk.
  cbn [snd]. change (command (u32 (-1))) with (mret false : prog rtc rtcreq clock bool). apply IH. cbn. by rewrite Hk.
Qed.

(** A word that is too long for its array is stored all the same. *)
Example long_word_overruns : store_words word_sizes (replicate 6 []) [lit "02024"] = Crash OutOfBounds.
Proof. done. Qed.
