(* ===== verification/OssAudio.v ===== *)
(** * OssAudio: the audio demo for the OSS interface

    Models src/audio_oss2alsa/audio_oss2alsa_demo.c: recording from the codec and
    from the converter on the chip, playback in fragments, and the menu that
    records and plays the recording.  The sound devices, the files and the
    terminal are a [Driver]. *)
From stdpp Require Import gmap.
From S2P Require Import Prelude LibC Bytes Device Runs.
Local Open Scope cmodel_scope.
Local Open Scope Z_scope.

(** ** Data *)

Inductive omode := O_RDONLY | O_WRONLY | O_RDWR | O_WRONLY_CREAT | O_WRONLY_CREAT_TRUNC.

Definition AFMT_S16_LE : Z := 0x10.
Definition SOUND_MIXER_PCM : Z := 4.
Definition SOUND_MIXER_MIC : Z := 7.
Definition SOUND_MASK_MIC : Z := Z.shiftl 1 SOUND_MIXER_MIC.

(** The calls of the program.  [AFopen] answers with the bytes that the file
    will deliver; the ioctl requests that change their argument answer with the
    status and the value after it; [AScan] is scanf("%d"), which may store
    nothing; [AMalloc] answers with the contents of the new block. *)
Inductive areq :=
| AOpen (path : list Z) (mode : omode) | AClose (fd : Z)
| AFopen (path : list Z) (mode : list Z) | AFwrite (data : list Z) | AFclose | AMalloc (n : Z) | AFree
| ASetFmt (fd v : Z) | ASpeed (fd v : Z) | AChannels (fd v : Z) | ASetFragment (fd v : Z) | AGetBlkSize (fd : Z)
| AMixerWrite (fd control v : Z) | ARecSrc (fd v : Z) | ANonBlock (fd : Z)
| AGetOSpace (fd : Z) | AGetODelay (fd : Z) | ASelect (fd : Z)
| ARead (fd n : Z) | AWrite (fd : Z) (data : list Z)
| AUsleep (n : Z) | ASleep (n : Z) | AScan | AGetchar.

Definition areply (r : areq) : Type :=
  match r with
  | AOpen _ _ | ASetFmt _ _ | AMixerWrite _ _ _ | ARecSrc _ _ | AWrite _ _ => Z
  | ASpeed _ _ | AChannels _ _ => Z * Z
  | AGetBlkSize _ | AGetOSpace _ | AGetODelay _ | AScan => option Z
  | AFopen _ _ | AMalloc _ | ARead _ _ => option (list Z)
  | ASelect _ => bool
  | _ => unit
  end.

(** The static variables; [applicbuf] is the buffer of the converter's
    recording, in bytes. *)
Record oss := Oss { p_dsp : Z; p_mixer : Z; r_dsp : Z; r_mixer : Z; rec_volume : Z; applicbuf : list Z }.
Definition set_p_dsp v s := Oss v (p_mixer s) (r_dsp s) (r_mixer s) (rec_volume s) (applicbuf s).
Definition set_p_mixer v s := Oss (p_dsp s) v (r_dsp s) (r_mixer s) (rec_volume s) (applicbuf s).
Definition set_r_dsp v s := Oss (p_dsp s) (p_mixer s) v (r_mixer s) (rec_volume s) (applicbuf s).
Definition set_r_mixer v s := Oss (p_dsp s) (p_mixer s) (r_dsp s) v (rec_volume s) (applicbuf s).
Definition set_rec_volume v s := Oss (p_dsp s) (p_mixer s) (r_dsp s) (r_mixer s) v (applicbuf s).
Definition set_applicbuf v s := Oss (p_dsp s) (p_mixer s) (r_dsp s) (r_mixer s) (rec_volume s) v.

Definition pcmfiles : list (list Z) :=
  [lit "./8k.pcm"; lit "./11.025k.pcm"; lit "./16k.pcm"; lit "./22.05k.pcm"; lit "./24k.pcm"; lit "./32k.pcm"; lit "./44.1k.pcm"; lit "./48k.pcm"].
Definition samplerate : list Z := [8000; 11025; 16000; 22050; 24000; 32000; 44100; 48000].
Definition rec_pcm : list Z := lit "./rec.pcm".

(** An open file that is read: the bytes that are left and feof(). *)
Record rfile := RFile { unread : list Z; at_end : bool }.

Section program.
Context {D : Type} `{Driver areq areply D}.
Notation P := (prog oss areq D).

(** ** Playback *)

Definition close_audio_play_device : P unit :=
  s ← get;
  _ ⇐ AClose (p_dsp s);
  _ ⇐ AClose (p_mixer s);
  mret tt.

(** It returns nothing when both are open; no caller looks at the result. *)
Definition open_audio_play_device : P unit :=
  fd ⇐ AOpen (lit "/dev/dsp") O_WRONLY;
  _ ← modify (set_p_dsp fd);
  if (fd : Z) <? 0 then mret tt else
  fd ⇐ AOpen (lit "/dev/mixer") O_RDWR;
  modify (set_p_mixer fd).

(** fread(buffer, 1, frag, fd) into a block that may be NULL. *)
Definition read_fragment (buffer : option (list Z)) (frag : Z) (f : rfile) : P (option (list Z) * rfile) :=
  let n := Z.to_nat (u32 frag) in
  let chunk := take n (unread f) in
  let f := RFile (drop n (unread f)) (at_end f || (Nat.ltb (length chunk) n)) in
  match chunk, buffer with
  | [], _ => mret (buffer, f)
  | _, None => fault NullDeref
  | _, Some b => b ← lift (blit b 0 chunk); mret (Some b, f)
  end.

(** The bytes that write() takes from the buffer. *)
Definition from_buffer (buffer : option (list Z)) (n : Z) : P (list Z) :=
  match buffer with
  | None => fault NullDeref
  | Some b => if u32 n <=? Z.of_nat (length b) then mret (take (Z.to_nat (u32 n)) b) else fault OutOfBounds
  end.

Fixpoint wait_space (fuel : nat) (frag : Z) : P unit :=
  match fuel with
  | O => fault OutOfFuel
  | S fuel =>
      s ← get;
      bytes ⇐ AGetOSpace (p_dsp s);
      _ ⇐ AUsleep 100;
      match bytes with
      | None => fault NoValue
      | Some bytes => if bytes <? frag then wait_space fuel frag else mret tt
      end
  end.

(** One turn of the loops of [play_pcm] and [play_pcm_single]; [naps] tells
    whether the turn ends with a pause. *)
Definition play_turn (poll : nat) (naps : bool) (frag : Z) (buffer : option (list Z)) (f : rfile) : P (option (list Z) * rfile) :=
  _ ← wait_space poll frag;
  s ← get;
  ready ⇐ ASelect (p_dsp s);
  r ← (if ready : bool then
         data ← from_buffer buffer frag;
         _ ⇐ AWrite (p_dsp s) data;
         read_fragment buffer frag f
       else mret (buffer, f));
  if naps then _ ⇐ AUsleep 100; mret r else mret r.

Fixpoint play_loop (fuel poll : nat) (naps : bool) (frag : Z) (buffer : option (list Z)) (f : rfile) : P unit :=
  if at_end f then mret tt else
  match fuel with
  | O => fault OutOfFuel
  | S fuel =>
      r ← play_turn poll naps frag buffer f;
      play_loop fuel poll naps frag r.1 r.2
  end.

(** The wait for the data that the device still holds. *)
Definition play_rest (sample_rate channels : Z) : P unit :=
  s ← get;
  bytes ⇐ AGetODelay (p_dsp s);
  match bytes with
  | None => fault NoValue
  | Some bytes =>
      let d := s32 (sample_rate * 2 * channels) in
      if d =? 0 then fault DivByZero else
      _ ⇐ ASleep (Z.quot bytes d); mret tt
  end.

Definition play_pcm (fuel poll : nat) (file : list Z) (rate : Z) : P unit :=
  _ ← open_audio_play_device;
  fd ⇐ AFopen file (lit "r+");
  match fd with
  | None => mret tt
  | Some contents =>
      s ← get;
      _ ⇐ ASetFmt (p_dsp s) AFMT_S16_LE;
      _ ⇐ AMixerWrite (p_mixer s) SOUND_MIXER_PCM 0x5A5A;
      sp ⇐ ASpeed (p_dsp s) rate;
      ch ⇐ AChannels (p_dsp s) 2;
      _ ⇐ AGetBlkSize (p_dsp s);
      let sample_rate := sp.2 : Z in
      let frag := if sample_rate <? 96000 then 0x2000c else 0x2000d in
      _ ⇐ ASetFragment (p_dsp s) frag;
      bs ⇐ AGetBlkSize (p_dsp s);
      let frag := default frag bs in
      buffer ⇐ AMalloc frag;
      r ← read_fragment buffer frag (RFile contents false);
      _ ← play_loop fuel poll false frag r.1 r.2;
      _ ← play_rest sample_rate ch.2;
      _ ← close_audio_play_device;
      _ ⇐ AFclose;
      _ ⇐ AFree;
      mret tt
  end.

Definition play_pcm_single (fuel poll : nat) (file : list Z) (rate : Z) : P unit :=
  _ ← open_audio_play_device;
  fd ⇐ AFopen file (lit "r+");
  match fd with
  | None => mret tt
  | Some contents =>
      s ← get;
      _ ⇐ ASetFmt (p_dsp s) AFMT_S16_LE;
      _ ⇐ AMixerWrite (p_mixer s) SOUND_MIXER_PCM 0x5050;
      sp ⇐ ASpeed (p_dsp s) rate;
      ch ⇐ AChannels (p_dsp s) 1;
      bs ⇐ AGetBlkSize (p_dsp s);
      match bs with
      | None => fault NoValue
      | Some frag =>
          buffer ⇐ AMalloc frag;
          r ← read_fragment buffer frag (RFile contents false);
          _ ← play_loop fuel poll true frag r.1 r.2;
          _ ← play_rest sp.2 ch.2;
          _ ⇐ AFclose;
          _ ⇐ AFree;
          close_audio_play_device
      end
  end.

(** ** Recording *)

(** read(fd, buf, count) into an array. *)
Definition read_into (fd count : Z) (buf : list Z) : P (list Z) :=
  l ⇐ ARead fd (u32 count);
  match l with None => mret buf | Some l => lift (blit buf 0 l) end.

(** The copy loop of [record_to_pcm] and [record_to_pcm_adc], from [total]
    to [totalbyte]. *)
Fixpoint record_loop (fuel : nat) (audio music total totalbyte : Z) (buf : list Z) : P (list Z) :=
  if total =? totalbyte then mret buf else
  match fuel with
  | O => fault OutOfFuel
  | S fuel =>
      let left := s32 (totalbyte - total) in
      let count := if 2048 <=? left then 2048 else left in
      buf ← read_into audio count buf;
      data ← from_buffer (Some buf) count;
      _ ⇐ AWrite music data;
      record_loop fuel audio music (s32 (total + count)) totalbyte buf
  end.

(** [stack] is what the local array [applicbuf] holds before it is used. *)
Definition record_to_pcm (fuel : nat) (stack file : list Z) (rate loop : Z) : P unit :=
  fd ⇐ AOpen (lit "/dev/dsp") O_RDONLY;
  _ ← modify (set_r_dsp fd);
  if (fd : Z) <? 0 then mret tt else
  fd ⇐ AOpen (lit "/dev/mixer") O_RDWR;
  _ ← modify (set_r_mixer fd);
  if (fd : Z) <? 0 then mret tt else
  fd ⇐ AOpen file O_WRONLY_CREAT;
  if (fd : Z) =? -1 then mret tt else
  s ← get;
  r ⇐ ASetFmt (r_dsp s) AFMT_S16_LE;
  if (r : Z) =? -1 then mret tt else
  ch ⇐ AChannels (r_dsp s) 2;
  if ch.1 =? -1 then mret tt else
  sp ⇐ ASpeed (r_dsp s) rate;
  if sp.1 =? -1 then mret tt else
  _ ⇐ AMixerWrite (r_mixer s) SOUND_MIXER_MIC (rec_volume s);
  _ ⇐ AMixerWrite (r_mixer s) SOUND_MIXER_MIC (rec_volume s);
  r ⇐ ARecSrc (r_mixer s) SOUND_MASK_MIC;
  if (r : Z) =? -1 then mret tt else
  let totalbyte := s32 (s32 (s32 (s32 (sp.2 * ch.2) * 2) * loop) * 2) in
  let totalword := Z.quot totalbyte 2 in
  _ ← record_loop fuel (r_dsp s) fd 0 totalword stack;
  _ ⇐ AClose (r_dsp s);
  _ ⇐ AClose (r_mixer s);
  _ ⇐ AClose fd;
  mret tt.

Definition record_to_pcm_adc (fuel : nat) (rate seconds : Z) : P unit :=
  let channels := 1 in
  let totalbyte := s32 (s32 (s32 (rate * channels) * 2) * seconds) in
  audio_fd ⇐ AOpen (lit "/dev/dsp1") O_RDONLY;
  if (audio_fd : Z) =? -1 then mret tt else
  mixer_fd ⇐ AOpen (lit "/dev/mixer1") O_WRONLY;
  if (mixer_fd : Z) =? -1 then mret tt else
  r ⇐ ASetFmt audio_fd AFMT_S16_LE;
  if (r : Z) =? -1 then mret tt else
  sp ⇐ ASpeed audio_fd rate;
  if sp.1 =? -1 then mret tt else
  mixer_fd ⇐ AOpen (lit "/dev/mixer1") O_WRONLY;
  if (mixer_fd : Z) =? -1 then mret tt else
  s ← get;
  _ ⇐ AMixerWrite mixer_fd SOUND_MIXER_PCM (rec_volume s);
  music_fd ⇐ AOpen rec_pcm O_WRONLY_CREAT_TRUNC;
  if (music_fd : Z) =? -1 then mret tt else
  buf ← record_loop fuel audio_fd music_fd 0 totalbyte (applicbuf s);
  _ ← modify (set_applicbuf buf);
  _ ⇐ AClose mixer_fd;
  _ ⇐ AClose audio_fd;
  _ ⇐ AClose music_fd;
  mret tt.

Definition close_audio_rec_device : P unit :=
  s ← get;
  _ ⇐ AClose (r_dsp s);
  _ ⇐ AClose (r_mixer s);
  mret tt.

Definition open_audio_rec_device : P unit :=
  fd ⇐ AOpen (lit "/dev/dsp1") O_RDONLY;
  _ ← modify (set_r_dsp fd);
  if (fd : Z) <? 0 then mret tt else
  fd ⇐ AOpen (lit "/dev/mixer1") O_RDWR;
  modify (set_r_mixer fd).

(** Reads until something arrives; the buffer keeps its old bytes behind it. *)
Fixpoint read_some (poll : nat) (frag : Z) (buffer : option (list Z)) : P (option (list Z)) :=
  match poll with
  | O => fault OutOfFuel
  | S poll =>
      s ← get;
      l ⇐ ARead (r_dsp s) (u32 frag);
      match l, buffer with
      | None, _ | Some [], _ => read_some poll frag buffer
      | Some l, None => fault NullDeref
      | Some l, Some b => b ← lift (blit b 0 l); mret (Some b)
      end
  end.

Fixpoint fragments_loop (n poll : nat) (frag : Z) (buffer : option (list Z)) : P unit :=
  match n with
  | O => mret tt
  | S n =>
      buffer ← read_some poll frag buffer;
      data ← from_buffer buffer frag;
      _ ⇐ AFwrite data;
      fragments_loop n poll frag buffer
  end.

(** pow(2, 12) is exact, and so is the division of an int by it. *)
Definition record_to_pcm_single (poll : nat) (file : list Z) (rate loop : Z) : P unit :=
  _ ← open_audio_rec_device;
  fd ⇐ AFopen file (lit "w+");
  match fd with
  | None => mret tt
  | Some _ =>
      s ← get;
      _ ⇐ AMixerWrite (r_mixer s) SOUND_MIXER_MIC (rec_volume s);
      sp ⇐ ASpeed (r_dsp s) rate;
      if sp.1 <? 0 then _ ⇐ AFclose; mret tt else
      _ ⇐ AChannels (r_dsp s) 1;
      _ ⇐ AGetBlkSize (r_dsp s);
      _ ⇐ ANonBlock (r_dsp s);
      _ ⇐ ASetFragment (r_dsp s) 0x2000c;
      bs ⇐ AGetBlkSize (r_dsp s);
      let frag := default 0x2000c bs in
      let loop := Z.quot (s32 (s32 (loop * 2) * sp.2)) 4096 in
      buffer ⇐ AMalloc frag;
      _ ← fragments_loop (Z.to_nat loop) poll frag buffer;
      _ ← close_audio_rec_device;
      _ ⇐ AFclose;
      _ ⇐ AFree;
      mret tt
  end.

(** ** The menu *)

(** The locals of [main] that are read from the terminal, which keep their
    values from turn to turn. *)
Record menu := Menu { m_i : option Z; m_loop : option Z; m_sr : option Z }.

Definition value (v : option Z) : P Z := match v with None => fault NoValue | Some z => mret z end.
Definition scan (old : option Z) : P (option Z) := v ⇐ AScan; mret (match v with None => old | v => v end).

(** The record volume, the same for both channels. *)
Definition both_channels (v : Z) : Z :=
  let v := if 100 <? v then 100 else v in Z.lor (s32 (Z.shiftl v 8)) v.

Definition ask_recording (m : menu) : P (menu * Z * Z) :=
  loop ← scan (m_loop m);
  sr ← scan (m_sr m);
  v ← get;
  v ← scan (Some (rec_volume v));
  v ← value v;
  _ ← modify (set_rec_volume (both_channels v));
  l ← value loop;
  r ← value sr;
  mret (Menu (m_i m) loop sr, l, r).

Fixpoint play_all (n fuel poll : nat) (i : Z) : P unit :=
  match n with
  | O => mret tt
  | S n =>
      file ← lift (rd pcmfiles i);
      rate ← lift (rd samplerate i);
      _ ← play_pcm fuel poll file rate;
      play_all n fuel poll (i + 1)
  end.

(** One turn of the menu; [None] ends the program. *)
Definition main_turn (fuel poll : nat) (stack : list Z) (m : menu) : P (option menu) :=
  i ← scan (m_i m);
  v ← value i;
  if (v <? 1) || (3 <? v) then mret None else
  if v =? 1 then
    _ ← play_all 9 fuel poll 0;
    mret (Some (Menu (Some 9) (m_loop m) (m_sr m)))
  else if v =? 2 then
    q ← ask_recording (Menu i (m_loop m) (m_sr m));
    _ ← record_to_pcm fuel stack rec_pcm q.2 q.1.2;
    _ ⇐ AGetchar;
    _ ← play_pcm fuel poll rec_pcm q.2;
    mret (Some q.1.1)
  else
    q ← ask_recording (Menu i (m_loop m) (m_sr m));
    _ ← record_to_pcm_adc fuel q.2 q.1.2;
    _ ⇐ AGetchar;
    _ ← play_pcm_single fuel poll rec_pcm q.2;
    mret (Some q.1.1).

Fixpoint main_loop (turns fuel poll : nat) (stack : list Z) (m : menu) : P Z :=
  match turns with
  | O => fault OutOfFuel
  | S turns =>
      r ← main_turn fuel poll stack m;
      match r with None => mret 0 | Some m => main_loop turns fuel poll stack m end
  end.

Definition main (turns fuel poll : nat) (stack : list Z) : P Z := main_loop turns fuel poll stack (Menu None None None).
End program.

(** ** A sound card

    What the devices and the recording's file hold, as far as the program can
    tell: the open descriptors with their paths, the file ./rec.pcm with the
    position of its descriptor, the bytes that were played, how many bytes were
    recorded so far and the numbers that will be typed in. *)
Record card := Card { fds : gmap Z (list Z); file : list Z; fpos : nat; played : list Z; clock : nat; typed : list Z }.
Definition dsp : list Z := lit "/dev/dsp".

Definition write_file (data : list Z) (c : card) : card :=
  Card (fds c) (take (fpos c) (file c) ++ data ++ drop (fpos c + length data) (file c)) (fpos c + length data) (played c) (clock c) (typed c).
Definition play (data : list Z) (c : card) : card := Card (fds c) (file c) (fpos c) (played c ++ data) (clock c) (typed c).
Definition listen (n : nat) (c : card) : card := Card (fds c) (file c) (fpos c) (played c) (clock c + n) (typed c).
Definition set_fds (m : gmap Z (list Z)) (c : card) : card := Card m (file c) (fpos c) (played c) (clock c) (typed c).
Definition type_in (c : card) : card := Card (fds c) (file c) (fpos c) (played c) (clock c) (tail (typed c)).
Definition open_file (path : list Z) (mode : omode) (c : card) : card :=
  if bool_decide (path = rec_pcm) then
    Card (fds c) (match mode with O_WRONLY_CREAT_TRUNC => [] | _ => file c end) 0 (played c) (clock c) (typed c)
  else c.

(** What a request does to it. *)
Definition effect (c : card) (r : areq) : areply r → card :=
  match r with
  | AOpen p m => λ fd, if (fd : Z) <? 0 then c else open_file p m (set_fds (<[(fd : Z) := p]> (fds c)) c)
  | AClose fd => λ _, set_fds (delete fd (fds c)) c
  | ARead _ _ => λ l, listen (length (default [] l)) c
  | AWrite fd data => λ _,
      match fds c !! fd with
      | Some p => if bool_decide (p = dsp) then play data c else if bool_decide (p = rec_pcm) then write_file data c else c
      | None => c
      end
  | AScan => λ _, type_in c
  | _ => λ _, c
  end.

(** A card that works: descriptors are fresh, the settings are accepted, the
    recording delivers what was asked for, and the playback buffer has room for
    a block after at most [patience] pauses. *)
Class SoundCard (D : Type) `{Driver areq areply D} := {
  card_of : D → card;
  sound : nat → Z;
  rate_of : Z → Z;
  block : Z;
  patience : nat;
  busy : D → nat;
  card_after (d : D) r : card_of (respond d r).1 = effect (card_of d) r (respond d r).2;
  open_fresh (d : D) p m : 0 <= (respond d (AOpen p m)).2 ∧ fds (card_of d) !! (respond d (AOpen p m)).2 = None;
  fmt_set (d : D) fd v : (respond d (ASetFmt fd v)).2 = 0;
  recsrc_set (d : D) fd v : (respond d (ARecSrc fd v)).2 = 0;
  speed_set (d : D) fd v : (respond d (ASpeed fd v)).2 = (0, rate_of v);
  channels_set (d : D) fd v : (respond d (AChannels fd v)).2 = (0, v);
  rate_fits v : 0 < v → 0 < rate_of v < 200000;
  block_fits : 0 < block < 2 ^ 31;
  block_told (d : D) fd : (respond d (AGetBlkSize fd)).2 = Some block;
  memory_left (d : D) n : 0 < n → ∃ b, (respond d (AMalloc n)).2 = Some b ∧ length b = Z.to_nat n;
  fopen_recording (d : D) m : (respond d (AFopen rec_pcm m)).2 = Some (file (card_of d));
  read_full (d : D) fd n : 0 <= n <= 2048 → (respond d (ARead fd n)).2 = Some (sound <$> seq (clock (card_of d)) (Z.to_nat n));
  busy_patience (d : D) : (busy d <= patience)%nat;
  ospace_tells (d : D) fd : ∃ bytes, (respond d (AGetOSpace fd)).2 = Some bytes ∧ (block <= bytes ↔ busy d = 0%nat);
  ospace_busy (d : D) fd : busy (respond d (AGetOSpace fd)).1 = busy d;
  pause_busy (d : D) n : busy (respond d (AUsleep n)).1 = pred (busy d);
  ready_told (d : D) fd : busy d = 0%nat → (respond d (ASelect fd)).2 = true;
  delay_told (d : D) fd : ∃ bytes, (respond d (AGetODelay fd)).2 = Some bytes;
  scan_typed (d : D) : (respond d AScan).2 = head (typed (card_of d))
}.

(** The whole blocks of [n] bytes at the start of [l]. *)
Definition whole (n : nat) (l : list Z) : list Z := take (length l / n * n) l.

Lemma whole_short n l : (length l < n)%nat → whole n l = [].
Proof. intros. unfold whole. by rewrite Nat.div_small, take_0. Qed.

Lemma whole_step n l : (0 < n <= length l)%nat → whole n l = take n l ++ whole n (drop n l).
Proof.
  intros. unfold whole. rewrite length_drop. replace (length l) with (1 * n + (length l - n))%nat at 1 by lia.
  rewrite Nat.div_add_l, Nat.mul_add_distr_r, Nat.mul_1_l by lia. by rewrite take_take_drop.
Qed.

Section playing.
Context {D : Type} `{Hcard : SoundCard D}.
Implicit Types w : world oss areq D.

Definition obs w : card := card_of (driver w).

Lemma heard_after w r : obs (after w r) = effect (obs w) r (answer w r).
Proof. apply card_after. Qed.

Lemma obs_with w s : obs (with_vars w s) = obs w.
Proof. done. Qed.

Definition frag_len : nat := Z.to_nat block.

Lemma frag_pos : (0 < frag_len)%nat.
Proof. unfold frag_len. pose proof block_fits. lia. Qed.

Lemma u32_block : Z.to_nat (u32 block) = frag_len.
Proof. unfold frag_len. pose proof block_fits. rewrite u32_id; [done|unfold is_u32; lia]. Qed.

(** The wait ends within the patience of the device. *)
Lemma wait_space_runs (Q : unit → world oss areq D → Prop) : ∀ poll w, (busy (driver w) < poll)%nat →
  (∀ w', vars w' = vars w → obs w' = obs w → busy (driver w') = 0%nat → Q tt w') → runs (wait_space poll block) w Q.
Proof.
  induction poll as [|poll IH]; intros w Hb HQ; [lia|]. cbn [wait_space].
  apply runs_get, runs_request, runs_request. unfold answer.
  destruct (ospace_tells (driver w) (p_dsp (vars w))) as (bytes & -> & Hs).
  set (w1 := after (after w _) _).
  assert (busy (driver w1) = pred (busy (driver w))) as Eb by (unfold w1; cbn [after driver]; by rewrite pause_busy, ospace_busy).
  assert (obs w1 = obs w) as Eo by (unfold w1; by rewrite !heard_after).
  destruct (Z.ltb_spec bytes block).
  - apply IH; [lia|]. intros w' Ev Eo' Eb'. apply HQ; [done|by rewrite Eo'|done].
  - apply runs_ret, HQ; [done|done|]. rewrite Eb, (proj1 Hs); [done|lia].
Qed.

(** A buffer with the next fragment in it, or the end of the file. *)
Definition fragment_read (contents : list Z) (buffer : list Z) (f : rfile) : Prop :=
  length buffer = frag_len ∧
  if (frag_len <=? length contents)%nat then buffer = take frag_len contents ∧ unread f = drop frag_len contents ∧ at_end f = false
  else at_end f = true.

Lemma read_fragment_runs b contents w (Q : option (list Z) * rfile → world oss areq D → Prop) : length b = frag_len →
  (∀ buffer f, fragment_read contents buffer f → Q (Some buffer, f) w) →
  runs (read_fragment (Some b) block (RFile contents false)) w Q.
Proof.
  intros Hb HQ. unfold read_fragment. rewrite u32_block. cbn [unread at_end orb]. pose proof frag_pos.
  assert (Hstored : ∃ b', blit b 0 (take frag_len contents) = Ok b' ∧ length b' = frag_len ∧
    ((frag_len <= length contents)%nat → b' = take frag_len contents)).
  { exists (take frag_len contents ++ drop (length (take frag_len contents)) b). split_and!.
    - apply blit_start. rewrite length_take. lia.
    - rewrite length_app, length_drop, length_take. lia.
    - intros. rewrite drop_ge, app_nil_r by (rewrite length_take; lia). done. }
  destruct Hstored as (b' & E & Hl & Hfull).
  assert (HQ' : ∀ buffer, length buffer = frag_len → ((frag_len <= length contents)%nat → buffer = take frag_len contents) →
    Q (Some buffer, RFile (drop frag_len contents) (Nat.ltb (length (take frag_len contents)) frag_len)) w).
  { intros buffer Hlen Hbuf. apply HQ. split; [done|]. rewrite length_take. destruct (Nat.leb_spec frag_len (length contents)).
    - split_and!; [auto|done|]. apply Nat.ltb_ge. lia.
    - apply Nat.ltb_lt. lia. }
  destruct (take frag_len contents) as [|z l] eqn:Et.
  - apply runs_ret. apply HQ'; [done|]. intros. apply (f_equal length) in Et. rewrite length_take in Et. cbn in Et. lia.
  - eapply runs_bind, runs_lift; [exact E|]. apply runs_ret, HQ'; done.
Qed.

(** Playing until the end of the file: every whole fragment is played. *)
Lemma play_loop_runs poll naps (Q : unit → world oss areq D → Prop) : (patience < poll)%nat → ∀ fuel contents buffer f w,
  (length contents < fuel * frag_len)%nat → fragment_read contents buffer f → fds (obs w) !! p_dsp (vars w) = Some dsp →
  (∀ w', vars w' = vars w → obs w' = play (whole frag_len contents) (obs w) → Q tt w') →
  runs (play_loop fuel poll naps block (Some buffer) f) w Q.
Proof.
  intros Hp. pose proof frag_pos. induction fuel as [|fuel IH]; intros contents buffer f w Hf [Hl Hfr] Hd HQ; [lia|].
  cbn [play_loop]. destruct (Nat.leb_spec frag_len (length contents)) as [Hle|Hlt].
  2:{ rewrite Hfr. apply runs_ret, HQ; [done|]. rewrite whole_short by done. unfold play. rewrite app_nil_r. by destruct (obs w). }
  destruct Hfr as (-> & Eu & Ea). destruct f as [u e]. cbn [unread at_end] in *. subst u e. unfold play_turn. apply runs_bind, runs_bind, wait_space_runs.
  { pose proof (busy_patience (driver w)). lia. }
  intros w1 Ev1 Eo1 Eb1. apply runs_get, runs_request. unfold answer. rewrite ready_told by done.
  set (w2 := after w1 _). assert (obs w2 = obs w) as Eo2 by (unfold w2; by rewrite heard_after).
  apply runs_bind, runs_bind. unfold from_buffer. rewrite u32_block.
  rewrite (proj2 (Z.leb_le _ _)) by (rewrite Hl; pose proof u32_block; pose proof (u32_range block) as [? _]; lia).
  apply runs_ret. rewrite take_ge by lia. apply runs_request. rewrite Ev1. set (w3 := after w2 _).
  assert (obs w3 = play (take frag_len contents) (obs w)) as Eo3.
  { unfold w3. rewrite heard_after, Eo2. cbn [effect]. by rewrite Hd, bool_decide_eq_true_2. }
  assert (Hend : ∀ buffer f, fragment_read (drop frag_len contents) buffer f →
    runs (if naps then _ ⇐ AUsleep 100; mret (Some buffer, f) else mret (Some buffer, f)) w3 (λ m w', runs (play_loop fuel poll naps block m.1 m.2) w' Q)).
  { intros buffer f' Hf'.
    assert (Hrec : ∀ w4, vars w4 = vars w → obs w4 = play (take frag_len contents) (obs w) →
      runs (play_loop fuel poll naps block (Some buffer) f') w4 Q).
    { intros w4 Ev4 Eo4. apply (IH (drop frag_len contents)); [rewrite length_drop; lia|done|by rewrite Eo4, Ev4|].
      intros w' Ev Eo. apply HQ; [by rewrite Ev|]. rewrite Eo, Eo4, (whole_step _ contents) by lia. unfold play. cbn. by rewrite app_assoc. }
    destruct naps; [apply runs_request|]; apply runs_ret, Hrec; try done. by rewrite heard_after. }
  apply read_fragment_runs; [rewrite length_take; lia|]. intros buffer f' Hf'. 
by apply Hend.
Qed.

(** ** A whole playback *)

(** Tables of descriptors that differ by fresh ones which are closed again. *)
Ltac descriptors :=
  cbn [fds set_fds] in *; apply map_eq; intros ?; repeat rewrite ?lookup_delete, ?lookup_insert in *;
  repeat case_decide; subst; congruence.

Lemma set_fds_same c : set_fds (fds c) c = c.
Proof. by destruct c. Qed.

Lemma open_runs {A} path mode (k : Z → prog oss areq D A) w Q : path ≠ rec_pcm →
  (∀ fd w1, 0 <= fd → fds (obs w) !! fd = None → vars w1 = vars w → obs w1 = set_fds (<[fd := path]> (fds (obs w))) (obs w) → runs (k fd) w1 Q) →
  runs (request (AOpen path mode) k) w Q.
Proof.
  intros Hp HQ. apply runs_request. destruct (open_fresh (driver w) path mode) as [H0 H1]. apply HQ; [done|done|done|].
  rewrite heard_after. cbn [effect]. rewrite (proj2 (Z.ltb_ge _ _)) by exact H0. unfold open_file. by rewrite bool_decide_eq_false_2.
Qed.

Lemma open_recording_runs {A} mode (k : Z → prog oss areq D A) w Q :
  (∀ fd w1, 0 <= fd → fds (obs w) !! fd = None → vars w1 = vars w →
    obs w1 = open_file rec_pcm mode (set_fds (<[fd := rec_pcm]> (fds (obs w))) (obs w)) → runs (k fd) w1 Q) →
  runs (request (AOpen rec_pcm mode) k) w Q.
Proof.
  intros HQ. apply runs_request. destruct (open_fresh (driver w) rec_pcm mode) as [H0 H1]. apply HQ; [done|done|done|].
  rewrite heard_after. cbn [effect]. by rewrite (proj2 (Z.ltb_ge _ _)) by exact H0.
Qed.

(** A request without an effect on the card. *)
Lemma quiet_runs {A} r (k : areply r → prog oss areq D A) w Q : (∀ c a, effect c r a = c) →
  (∀ w1, vars w1 = vars w → obs w1 = obs w → runs (k (answer w r)) w1 Q) → runs (request r k) w Q.
Proof. intros Hr HQ. apply runs_request, HQ; [done|]. by rewrite heard_after. Qed.

Definition mixer : list Z := lit "/dev/mixer".

(** The two descriptors of the playback, which its clean-up closes. *)
Record playing w w' : Prop := Playing {
  pl_dsp : fds (obs w') !! p_dsp (vars w') = Some dsp;
  pl_closed : delete (p_mixer (vars w')) (delete (p_dsp (vars w')) (fds (obs w'))) = fds (obs w);
  pl_obs : set_fds (fds (obs w)) (obs w') = obs w;
  pl_vars : vars w' = set_p_mixer (p_mixer (vars w')) (set_p_dsp (p_dsp (vars w')) (vars w)) }.

Lemma open_play_runs w (Q : unit → world oss areq D → Prop) : (∀ w', playing w w' → Q tt w') → runs open_audio_play_device w Q.
Proof.
  intros HQ. unfold open_audio_play_device. apply open_runs; [done|]. intros fd1 w1 P1 F1 V1 E1.
  apply runs_bind, runs_modify. rewrite (proj2 (Z.ltb_ge _ _)) by exact P1. apply open_runs; [done|]. intros fd2 w2 P2 F2 V2 E2.
  apply runs_modify, HQ. rewrite obs_with, E1 in F2. rewrite obs_with, E1 in E2.
  split; rewrite ?obs_with, ?E2, ?V2, ?vars_with, ?V1; cbn [p_dsp p_mixer set_p_mixer set_p_dsp vars with_vars].
  - cbn [fds set_fds] in *. rewrite lookup_insert_ne; [by rewrite lookup_insert_eq|]. intros ->. by rewrite lookup_insert_eq in F2.
  - descriptors.
  - by destruct (obs w).
  - done.
Qed.

Lemma pl_file w w1 : playing w w1 → file (obs w1) = file (obs w).
Proof. intros [_ _ Ho _]. exact (f_equal file Ho). Qed.

Lemma close_play_runs w (Q : unit → world oss areq D → Prop) :
  (∀ w', vars w' = vars w → obs w' = set_fds (delete (p_mixer (vars w)) (delete (p_dsp (vars w)) (fds (obs w)))) (obs w) → Q tt w') →
  runs close_audio_play_device w Q.
Proof.
  intros HQ. unfold close_audio_play_device. apply runs_get, runs_request, runs_request, runs_ret, HQ; [done|].
  by rewrite !heard_after.
Qed.

Lemma play_rest_runs rate channels w (Q : unit → world oss areq D → Prop) : 0 < rate < 200000 → 0 < channels <= 2 →
  (∀ w', vars w' = vars w → obs w' = obs w → Q tt w') → runs (play_rest rate channels) w Q.
Proof.
  intros Hr Hc HQ. unfold play_rest. apply runs_get, runs_request. unfold answer.
  destruct (delay_told (driver w) (p_dsp (vars w))) as (bytes & ->). rewrite s32_id by (unfold is_s32; nia).
  destruct (Z.eqb_spec (rate * 2 * channels) 0); [nia|]. apply runs_request, runs_ret, HQ; [done|]. by rewrite !heard_after.
Qed.

(** What a playback of the recording leaves. *)
Definition played_recording w w' : Prop :=
  obs w' = play (whole frag_len (file (obs w))) (obs w) ∧
  ∃ d m, vars w' = set_p_mixer m (set_p_dsp d (vars w)).

Lemma playing_ends w w1 w2 : playing w w1 → vars w2 = vars w1 →
  obs w2 = set_fds (delete (p_mixer (vars w1)) (delete (p_dsp (vars w1)) (fds (obs w1)))) (play (whole frag_len (file (obs w))) (obs w1)) →
  played_recording w w2.
Proof.
  intros [_ Hc Ho Ev] Ev2 Eo2. split; [|rewrite Ev2, Ev; eauto].
  rewrite Eo2, Hc. transitivity (play (whole frag_len (file (obs w))) (set_fds (fds (obs w)) (obs w1))); [done|by rewrite Ho].
Qed.

(** The part that both playbacks share. *)
Lemma play_file_runs w1 fuel poll naps contents rate channels (k : prog oss areq D unit) (Q : unit → world oss areq D → Prop) : (patience < poll)%nat →
  (length contents < fuel * frag_len)%nat → fds (obs w1) !! p_dsp (vars w1) = Some dsp → 0 < rate < 200000 → 0 < channels <= 2 →
  (∀ w', vars w' = vars w1 → obs w' = play (whole frag_len contents) (obs w1) → runs k w' Q) →
  runs (buffer ⇐ AMalloc block;
    r ← read_fragment buffer block (RFile contents false);
    _ ← play_loop fuel poll naps block r.1 r.2;
    _ ← play_rest rate channels;
    k) w1 Q.
Proof.
  intros Hp Hf Hd Hr Hc HQ. apply runs_request. unfold answer.
  destruct (memory_left (driver w1) block) as (b & -> & Hb); [pose proof block_fits; lia|].
  apply runs_bind, read_fragment_runs; [done|]. intros buffer f Hfr. apply runs_bind.
  apply (play_loop_runs poll naps _ Hp fuel contents); [done|done|by rewrite heard_after|]. intros w2 Ev2 Eo2.
  apply runs_bind, play_rest_runs; [done|done|]. intros w3 Ev3 Eo3. apply HQ; [by rewrite Ev3, Ev2|]. rewrite Eo3, Eo2. by rewrite heard_after.
Qed.

Lemma play_pcm_runs fuel poll rate w (Q : unit → world oss areq D → Prop) : (patience < poll)%nat → 0 < rate →
  (length (file (obs w)) < fuel * frag_len)%nat → (∀ w', played_recording w w' → Q tt w') →
  runs (play_pcm fuel poll rec_pcm rate) w Q.
Proof.
  intros Hp Hr Hf HQ. unfold play_pcm. apply runs_bind, open_play_runs. intros w1 Hw1.
  assert (file (obs w1) = file (obs w)) as Ef by by apply pl_file.
  apply runs_request. unfold answer. rewrite fopen_recording. apply runs_get. do 4 apply runs_request. unfold answer.
  rewrite speed_set, channels_set. cbn [snd]. do 3 apply runs_request. unfold answer. rewrite block_told. cbn [default from_option].
  match goal with |- runs _ ?w2 _ => set (w2' := w2) end. assert (obs w2' = obs w1) as Eo2 by (unfold w2'; by rewrite !heard_after).
  apply play_file_runs; [done|by change (card_of (driver w1)) with (obs w1); rewrite Ef|rewrite Eo2; exact (pl_dsp _ _ Hw1)|by apply rate_fits|lia|].
  intros w3 Ev3 Eo3. apply runs_bind, close_play_runs. intros w4 Ev4 Eo4. apply runs_request, runs_request, runs_ret, HQ.
  apply (playing_ends w w1); [done|by etransitivity; [exact Ev4|exact Ev3]|]. rewrite !heard_after. cbn [effect].
  rewrite Eo4, Eo3, Ev3, Eo2. change (card_of (driver w1)) with (obs w1). by rewrite Ef.
Qed.

Lemma play_pcm_single_runs fuel poll rate w (Q : unit → world oss areq D → Prop) : (patience < poll)%nat → 0 < rate →
  (length (file (obs w)) < fuel * frag_len)%nat → (∀ w', played_recording w w' → Q tt w') →
  runs (play_pcm_single fuel poll rec_pcm rate) w Q.
Proof.
  intros Hp Hr Hf HQ. unfold play_pcm_single. apply runs_bind, open_play_runs. intros w1 Hw1.
  assert (file (obs w1) = file (obs w)) as Ef by by apply pl_file.
  apply runs_request. unfold answer. rewrite fopen_recording. apply runs_get. do 4 apply runs_request. unfold answer.
  rewrite speed_set, channels_set. cbn [snd]. apply runs_request. unfold answer. rewrite block_told.
  match goal with |- runs _ ?w2 _ => set (w2' := w2) end. assert (obs w2' = obs w1) as Eo2 by (unfold w2'; by rewrite !heard_after).
  apply play_file_runs; [done|by change (card_of (driver w1)) with (obs w1); rewrite Ef|rewrite Eo2; exact (pl_dsp _ _ Hw1)|by apply rate_fits|lia|].
  intros w3 Ev3 Eo3. apply runs_request, runs_request, close_play_runs. intros w4 Ev4 Eo4. apply HQ.
  apply (playing_ends w w1); [done|by etransitivity; [exact Ev4|exact Ev3]|].
  rewrite Eo4, !heard_after. cbn [effect]. cbn [vars after]. rewrite Eo3, Ev3, Eo2. change (card_of (driver w1)) with (obs w1). by rewrite Ef.
Qed.

(** ** A whole recording *)

(** Writing in two pieces is writing at once. *)
Lemma write_file_app d1 d2 n c : (fpos c <= length (file c))%nat →
  write_file d2 (listen n (write_file d1 c)) = write_file (d1 ++ d2) (listen n c).
Proof.
  intros Hp. unfold write_file, listen. cbn [fds file fpos played clock typed]. rewrite length_app, Nat.add_assoc. f_equal.
  rewrite (app_assoc (take _ _) d1). set (h := take (fpos c) (file c) ++ d1).
  assert (length h = (fpos c + length d1)%nat) as Hh by (unfold h; rewrite length_app, length_take; lia).
  rewrite take_app_le, take_ge by lia. rewrite drop_app_ge by lia. rewrite drop_drop. unfold h. rewrite <- !app_assoc.
  do 4 f_equal. fold h. lia.
Qed.

(** [n] more bytes of the sound are stored at the position of the file. *)
Definition store_sound (n : nat) (c : card) : card := write_file (sound <$> seq (clock c) n) (listen n c).

Lemma store_sound_0 c : store_sound 0 c = c.
Proof.
  unfold store_sound, write_file, listen. cbn. rewrite !Nat.add_0_r, take_drop. by destruct c.
Qed.

Lemma store_sound_add n m c : (fpos c <= length (file c))%nat → store_sound m (store_sound n c) = store_sound (n + m) c.
Proof.
  intros Hp. unfold store_sound. rewrite (write_file_app _ _ m (listen n c)) by exact Hp.
  rewrite seq_app, fmap_app. unfold listen. cbn [clock fds file fpos played typed write_file]. by rewrite Nat.add_assoc.
Qed.

Lemma fpos_store_sound n c : (fpos c <= length (file c))%nat → (fpos (store_sound n c) <= length (file (store_sound n c)))%nat.
Proof.
  intros. unfold store_sound, write_file, listen. cbn [file fpos]. rewrite !length_app, length_take, length_fmap, length_seq. lia.
Qed.

Lemma read_piece_runs audio music count buf w (Q : list Z → world oss areq D → Prop) : 0 <= count <= 2048 → length buf = 4096%nat →
  fds (obs w) !! music = Some rec_pcm →
  (∀ b w', length b = 4096%nat → vars w' = vars w → obs w' = store_sound (Z.to_nat count) (obs w) → Q b w') →
  runs (b ← read_into audio count buf; data ← from_buffer (Some b) count; _ ⇐ AWrite music data; mret b) w Q.
Proof.
  intros Hc Hl Hm HQ. assert (is_u32 count) as Hu by (unfold is_u32; lia).
  unfold read_into. apply runs_bind, runs_request. unfold answer. rewrite (u32_id count) by done.
  rewrite read_full by done. set (l := sound <$> _). set (w1 := after w _).
  assert (length l = Z.to_nat count) as Hll by (unfold l; by rewrite length_fmap, length_seq).
  eapply runs_lift; [apply blit_start; lia|]. apply runs_bind. cbn [from_buffer]. rewrite (u32_id count) by done.
  rewrite (proj2 (Z.leb_le _ _)) by (rewrite length_app, length_drop; lia). apply runs_ret.
  rewrite take_app_le by lia. rewrite take_ge by lia.
  assert (obs w1 = listen (Z.to_nat count) (obs w)) as Eo1.
  { unfold w1. rewrite heard_after. unfold answer. rewrite read_full by done. cbn [effect default from_option]. fold l. by rewrite <- Hll. }
  apply runs_request, runs_ret, HQ; [rewrite length_app, length_drop; lia|done|].
  rewrite heard_after, Eo1. cbn [effect]. change (fds (listen _ ?c)) with (fds c). rewrite Hm.
  by rewrite bool_decide_eq_false_2, bool_decide_eq_true_2.
Qed.

Lemma record_loop_runs audio music N (Q : list Z → world oss areq D → Prop) : Z.of_nat N < 2 ^ 31 → ∀ fuel t buf w,
  (t <= N)%nat → (N - t <= fuel * 2048)%nat → length buf = 4096%nat → fds (obs w) !! music = Some rec_pcm →
  (fpos (obs w) <= length (file (obs w)))%nat →
  (∀ b w', length b = 4096%nat → vars w' = vars w → obs w' = store_sound (N - t) (obs w) → Q b w') →
  runs (record_loop fuel audio music (Z.of_nat t) (Z.of_nat N) buf) w Q.
Proof.
  intros HN. induction fuel as [|fuel IH]; intros t buf w Ht Hf Hl Hm Hp HQ; cbn [record_loop].
  { rewrite (proj2 (Z.eqb_eq _ _)) by lia. apply runs_ret, HQ; [done|done|]. by replace (N - t)%nat with 0%nat by lia; rewrite store_sound_0. }
  destruct (Z.eqb_spec (Z.of_nat t) (Z.of_nat N)) as [E|E].
  { apply runs_ret, HQ; [done|done|]. by replace (N - t)%nat with 0%nat by lia; rewrite store_sound_0. }
  rewrite (s32_id (Z.of_nat N - Z.of_nat t)) by (unfold is_s32; lia). set (count := if 2048 <=? _ then _ else _).
  assert (Hc : count = Z.min 2048 (Z.of_nat N - Z.of_nat t)) by (unfold count; destruct (Z.leb_spec 2048 (Z.of_nat N - Z.of_nat t)); lia).
  clearbody count. rewrite s32_id by (unfold is_s32; lia).
  assert (Hpiece : runs (b ← read_into audio count buf; data ← from_buffer (Some b) count; _ ⇐ AWrite music data; mret b) w
    (λ b w', runs (record_loop fuel audio music (Z.of_nat t + count) (Z.of_nat N) b) w' Q)).
  { apply read_piece_runs; [lia|done|done|]. intros b w' Hb Ev Eo. replace (Z.of_nat t + count) with (Z.of_nat (t + Z.to_nat count)) by lia.
    apply IH; [lia|lia|done|by rewrite Eo|by rewrite Eo; apply fpos_store_sound|]. intros b' w'' Hb' Ev' Eo'.
    apply HQ; [done|by rewrite Ev'|]. rewrite Eo', Eo, store_sound_add by done. f_equal. lia. }
  destruct Hpiece as (b & w' & E1 & b' & w'' & E2 & H2). exists b', w''. split; [|done]. revert E1.
  rewrite !bind_run. destruct (read_into audio count buf w) as [[b1 w1]|]; [|done].
  rewrite !bind_run. destruct (from_buffer (Some b1) count w1) as [[data w2]|]; [|done]. rewrite !request_run, mret_run. by intros [= -> ->].
Qed.

Lemma fds_open_file path mode c : fds (open_file path mode c) = fds c.
Proof. unfold open_file. by destruct (bool_decide _). Qed.

Lemma fpos_open_file mode c : fpos (open_file rec_pcm mode c) = 0%nat.
Proof. unfold open_file. by rewrite bool_decide_eq_true_2. Qed.

(** What the program says after a recording of [n] bytes. *)
Definition recorded (n : nat) (mode : omode) (c : card) : card := store_sound n (open_file rec_pcm mode c).

Lemma recorded_file n mode c : file (recorded n mode c) =
  (sound <$> seq (clock c) n) ++ drop n (match mode with O_WRONLY_CREAT_TRUNC => [] | _ => file c end).
Proof.
  unfold recorded, store_sound, write_file, listen, open_file. rewrite bool_decide_eq_true_2 by done. cbn [fpos file clock].
  rewrite take_0. cbn [app Nat.add]. by rewrite length_fmap, length_seq.
Qed.

Definition record_bytes (rate loop : Z) : Z := rate_of rate * 4 * loop.

Lemma record_to_pcm_runs fuel stack rate loop w (Q : unit → world oss areq D → Prop) :
  length stack = 4096%nat → 0 < rate → 0 <= loop → 2 * record_bytes rate loop < 2 ^ 31 → record_bytes rate loop <= Z.of_nat fuel * 2048 →
  (∀ w', rec_volume (vars w') = rec_volume (vars w) → applicbuf (vars w') = applicbuf (vars w) →
    obs w' = recorded (Z.to_nat (record_bytes rate loop)) O_WRONLY_CREAT (obs w) → Q tt w') →
  runs (record_to_pcm fuel stack rec_pcm rate loop) w Q.
Proof.
  unfold record_bytes. intros Hl Hr H0 Hb Hf HQ. pose proof (rate_fits rate Hr) as Hrate. unfold record_to_pcm.
  apply open_runs; [done|]. intros fd1 w1 P1 F1 V1 E1. apply runs_bind, runs_modify. rewrite (proj2 (Z.ltb_ge _ _)) by exact P1.
  apply open_runs; [done|]. intros fd2 w2 P2 F2 V2 E2. apply runs_bind, runs_modify. rewrite (proj2 (Z.ltb_ge _ _)) by exact P2.
  apply open_recording_runs. intros fd3 w3 P3 F3 V3 E3. destruct (Z.eqb_spec fd3 (-1)) as [E|_]; [lia|]. apply runs_get.
  rewrite V3, vars_with, V2, vars_with, V1. cbn [set_r_mixer set_r_dsp r_dsp r_mixer rec_volume].
  rewrite obs_with, E1 in F2, E2. rewrite obs_with, E2 in F3, E3.
  apply runs_request. unfold answer. rewrite fmt_set. cbn [Z.eqb]. apply runs_request. unfold answer. rewrite channels_set. cbn [Z.eqb fst snd].
  apply runs_request. unfold answer. rewrite speed_set. cbn [Z.eqb fst snd]. do 3 apply runs_request. unfold answer. rewrite recsrc_set. cbn [Z.eqb].
  match goal with |- runs _ ?w4 _ => set (w4' := w4) end. assert (obs w4' = obs w3) as E4 by (unfold w4'; by rewrite !heard_after).
  set (n := rate_of rate * 4 * loop) in *. replace (Z.quot _ 2) with (Z.of_nat (Z.to_nat n)).
  2:{ unfold n in *. rewrite !(s32_id (rate_of rate * 2)), (s32_id (rate_of rate * 2 * 2)), (s32_id (rate_of rate * 2 * 2 * loop)), s32_id by (unfold is_s32; nia).
      rewrite Z.quot_mul by lia. nia. }
  apply runs_bind. refine (record_loop_runs fd1 fd3 (Z.to_nat n) _ _ fuel 0%nat stack w4' _ _ Hl _ _ _); [lia|lia|lia| | |].
  - rewrite E4, E3, fds_open_file. cbn [fds set_fds]. by rewrite lookup_insert_eq.
  - rewrite E4, E3, fpos_open_file. lia.
  - intros b w5 Hlb Ev5 Eo5. assert (vars w5 = vars w3) as Ev by (rewrite Ev5; done).
    rewrite V3, vars_with, V2, vars_with, V1 in Ev. do 3 apply runs_request. apply runs_ret, HQ; [by rewrite !vars_after, Ev..|].
    rewrite !heard_after. cbn [effect]. rewrite Eo5, E4, E3, Nat.sub_0_r.
    transitivity (set_fds (delete fd3 (delete fd2 (delete fd1 (<[fd3 := rec_pcm]> (<[fd2 := mixer]> (<[fd1 := dsp]> (fds (obs w))))))))
      (recorded (Z.to_nat n) O_WRONLY_CREAT (obs w))); [done|].
    replace (delete fd3 _) with (fds (obs w)); [done|]. symmetry. clear -F1 F2 F3. descriptors.
Qed.

Definition adc_bytes (rate seconds : Z) : Z := rate * 2 * seconds.

(** The descriptor that the first open of the mixer returned stays open. *)
Lemma record_to_pcm_adc_runs fuel rate seconds w (Q : unit → world oss areq D → Prop) :
  length (applicbuf (vars w)) = 4096%nat → 0 < rate < 2 ^ 30 → 0 <= seconds → adc_bytes rate seconds < 2 ^ 31 → adc_bytes rate seconds <= Z.of_nat fuel * 2048 →
  (∀ fd w', rec_volume (vars w') = rec_volume (vars w) → length (applicbuf (vars w')) = 4096%nat → fds (obs w) !! fd = None →
    obs w' = set_fds (<[fd := lit "/dev/mixer1"]> (fds (obs w))) (recorded (Z.to_nat (adc_bytes rate seconds)) O_WRONLY_CREAT_TRUNC (obs w)) → Q tt w') →
  runs (record_to_pcm_adc fuel rate seconds) w Q.
Proof.
  unfold adc_bytes. intros Hl Hr H0 Hb Hf HQ. unfold record_to_pcm_adc. set (mixer1 := lit "/dev/mixer1") in *. set (dsp1 := lit "/dev/dsp1").
  set (n := rate * 2 * seconds) in *. replace (s32 _) with (Z.of_nat (Z.to_nat n)).
  2:{ unfold n in *. rewrite Z.mul_1_r, !(s32_id rate), (s32_id (rate * 2)), s32_id by (unfold is_s32; nia). nia. }
  apply open_runs; [done|]. intros fd1 w1 P1 F1 V1 E1. destruct (Z.eqb_spec fd1 (-1)) as [E|_]; [lia|].
  apply open_runs; [done|]. intros fd2 w2 P2 F2 V2 E2. destruct (Z.eqb_spec fd2 (-1)) as [E|_]; [lia|].
  apply quiet_runs; [done|]. intros w3 V3 E3. unfold answer. rewrite fmt_set. cbn [Z.eqb].
  apply quiet_runs; [done|]. intros w4 V4 E4. unfold answer. rewrite speed_set. cbn [Z.eqb fst].
  apply open_runs; [done|]. intros fd3 w5 P5 F5 V5 E5. destruct (Z.eqb_spec fd3 (-1)) as [E|_]; [lia|]. apply runs_get.
  apply quiet_runs; [done|]. intros w6 V6 E6. apply open_recording_runs. intros fd4 w7 P7 F7 V7 E7.
  destruct (Z.eqb_spec fd4 (-1)) as [E|_]; [lia|].
  rewrite E1 in F2, E2. rewrite E4, E3, E2 in F5, E5. rewrite E6, E5 in F7, E7. rewrite V5, V4, V3, V2, V1 in *. rewrite V6 in V7.
  apply runs_bind. refine (record_loop_runs fd1 fd4 (Z.to_nat n) _ _ fuel 0%nat _ w7 _ _ Hl _ _ _); [lia|lia|lia| | |].
  - rewrite E7, fds_open_file. cbn [fds set_fds]. by rewrite lookup_insert_eq.
  - rewrite E7, fpos_open_file. lia.
  - intros b w8 Hlb Ev8 Eo8. apply runs_bind, runs_modify. do 3 apply runs_request.
    apply runs_ret, (HQ fd2); [rewrite !vars_after, vars_with, Ev8, V7; done|done| |].
    + cbn [fds set_fds] in F2. rewrite lookup_insert in F2. by case_decide.
    + rewrite !heard_after, obs_with. cbn [effect]. rewrite Eo8, E7, Nat.sub_0_r.
      transitivity (set_fds (delete fd4 (delete fd1 (delete fd3 (<[fd4 := rec_pcm]> (<[fd3 := mixer1]> (<[fd2 := mixer1]> (<[fd1 := dsp1]> (fds (obs w)))))))))
        (recorded (Z.to_nat n) O_WRONLY_CREAT_TRUNC (obs w))); [done|]. f_equal. clear -F1 F2 F5 F7. descriptors.
Qed.

(** ** The menu *)

Lemma scan_runs old v rest w (Q : option Z → world oss areq D → Prop) : typed (obs w) = v :: rest →
  (∀ w', vars w' = vars w → obs w' = type_in (obs w) → Q (Some v) w') → runs (scan old) w Q.
Proof.
  intros Ht HQ. unfold scan. apply runs_request. unfold answer. rewrite scan_typed.
  change (card_of (driver w)) with (obs w). rewrite Ht. cbn [head]. apply runs_ret, HQ; [done|]. by rewrite heard_after.
Qed.

Definition set_typed (l : list Z) (c : card) : card := Card (fds c) (file c) (fpos c) (played c) (clock c) l.

Lemma ask_recording_runs m secs rate vol rest w (Q : menu * Z * Z → world oss areq D → Prop) : typed (obs w) = secs :: rate :: vol :: rest →
  (∀ w', vars w' = set_rec_volume (both_channels vol) (vars w) → obs w' = set_typed rest (obs w) →
    Q (Menu (m_i m) (Some secs) (Some rate), secs, rate) w') → runs (ask_recording m) w Q.
Proof.
  intros Ht HQ. unfold ask_recording. apply runs_bind, (scan_runs _ secs (rate :: vol :: rest)); [done|]. intros w1 V1 E1.
  apply runs_bind, (scan_runs _ rate (vol :: rest)); [by rewrite E1; cbn; rewrite Ht|]. intros w2 V2 E2. apply runs_get.
  apply runs_bind, (scan_runs _ vol rest); [by rewrite E2, E1; cbn; rewrite Ht|]. intros w3 V3 E3. cbn [value].
  apply runs_bind, runs_ret, runs_bind, runs_modify, runs_bind, runs_ret, runs_bind, runs_ret, runs_ret, HQ.
  - by rewrite vars_with, V3, V2, V1.
  - rewrite obs_with, E3, E2, E1. unfold type_in, set_typed. cbn. by rewrite Ht.
Qed.

(** What the card holds after a recording of [n] bytes, of which [new] is the
    new contents of the file, and its playback. *)
Definition recorded_and_played (m : gmap Z (list Z)) (new : list Z) (n : nat) (rest : list Z) (c : card) : card :=
  Card m new n (played c ++ whole frag_len new) (clock c + n) rest.

Definition enough (n : Z) (old : list Z) (fuel poll : nat) : Prop :=
  (patience < poll)%nat ∧ n <= Z.of_nat fuel * 2048 ∧ (Z.to_nat n + length old < fuel * frag_len)%nat.

(** C35: Recording and playing from the menu: with the codec (choice 2) the
    program records rate * 4 bytes a second for as many seconds as were typed
    in, sets the volume of both channels, stores the bytes in the order in which
    they were recorded and plays them fragment by fragment, leaving out a last
    partial fragment, and closes what it opened.  The file is not truncated:
    behind the recording, what is left of a longer one before it stays and is
    played too. *)
Theorem menu_records_and_plays fuel poll stack m secs rate vol rest w :
  length stack = 4096%nat → typed (obs w) = 2 :: secs :: rate :: vol :: rest → 0 < rate → 0 <= secs →
  2 * record_bytes rate secs < 2 ^ 31 → enough (record_bytes rate secs) (file (obs w)) fuel poll →
  let n := Z.to_nat (record_bytes rate secs) in
  let new := (sound <$> seq (clock (obs w)) n) ++ drop n (file (obs w)) in
  runs (main_turn fuel poll stack m) w (λ r w',
    r = Some (Menu (Some 2) (Some secs) (Some rate)) ∧ rec_volume (vars w') = both_channels vol ∧
    obs w' = recorded_and_played (fds (obs w)) new n rest (obs w)).
Proof.
  intros Hl Ht Hr H0 Hb (Hp & Hf & Hf2) n new. unfold main_turn.
  apply runs_bind, (scan_runs _ 2 (secs :: rate :: vol :: rest)); [done|]. intros w1 V1 E1. cbn [value].
  apply runs_bind, runs_ret. cbn [Z.ltb Z.eqb Z.compare orb Pos.compare Pos.compare_cont Pos.eqb].
  apply runs_bind, (ask_recording_runs _ secs rate vol rest); [by rewrite E1; cbn; rewrite Ht|]. intros w2 V2 E2. cbn [fst snd].
  assert (obs w2 = set_typed rest (obs w)) as E2' by (rewrite E2, E1; done).
  apply runs_bind, record_to_pcm_runs; [done..|]. intros w3 V3 _ E3. fold n in E3. apply quiet_runs; [done|]. intros w4 V4 E4.
  assert (file (obs w4) = new) as Efile by (rewrite E4, E3, recorded_file, E2'; done).
  apply runs_bind, play_pcm_runs; [done|done| |].
  { rewrite Efile. unfold new. rewrite length_app, length_drop, length_fmap, length_seq. unfold n in *. lia. }
  intros w5 (E5 & d & mx & V5). apply runs_ret. split; [done|]. split.
  - rewrite V5, V4. cbn [rec_volume set_p_mixer set_p_dsp]. rewrite V3, V2. done.
  - rewrite E5, Efile, E4, E3, E2'. unfold recorded_and_played, new, recorded, store_sound, open_file, write_file, listen, play, set_typed.
    rewrite bool_decide_eq_true_2 by done. cbn [fds file fpos played clock typed]. rewrite take_0, length_fmap, length_seq. done.
Qed.

(** The same with the converter on the chip (choice 3): rate * 2 bytes a second,
    the file holds exactly the recording -- and a descriptor of the mixer stays
    open. *)
Theorem menu_records_adc_and_plays fuel poll stack m secs rate vol rest w :
  length (applicbuf (vars w)) = 4096%nat → typed (obs w) = 3 :: secs :: rate :: vol :: rest → 0 < rate < 2 ^ 30 → 0 <= secs →
  adc_bytes rate secs < 2 ^ 31 → enough (adc_bytes rate secs) [] fuel poll →
  let n := Z.to_nat (adc_bytes rate secs) in
  runs (main_turn fuel poll stack m) w (λ r w',
    r = Some (Menu (Some 3) (Some secs) (Some rate)) ∧ rec_volume (vars w') = both_channels vol ∧
    ∃ fd, fds (obs w) !! fd = None ∧
      obs w' = recorded_and_played (<[fd := lit "/dev/mixer1"]> (fds (obs w))) (sound <$> seq (clock (obs w)) n) n rest (obs w)).
Proof.
  intros Hl Ht Hr H0 Hb (Hp & Hf & Hf2) n. unfold main_turn.
  apply runs_bind, (scan_runs _ 3 (secs :: rate :: vol :: rest)); [done|]. intros w1 V1 E1. cbn [value].
  apply runs_bind, runs_ret. cbn [Z.ltb Z.eqb Z.compare orb Pos.compare Pos.compare_cont Pos.eqb].
  apply runs_bind, (ask_recording_runs _ secs rate vol rest); [by rewrite E1; cbn; rewrite Ht|]. intros w2 V2 E2. cbn [fst snd].
  assert (obs w2 = set_typed rest (obs w)) as E2' by (rewrite E2, E1; done).
  apply runs_bind, record_to_pcm_adc_runs; [by rewrite V2, V1|done..|]. intros fd w3 V3 _ F3 E3. fold n in E3. apply quiet_runs; [done|]. intros w4 V4 E4.
  assert (file (obs w4) = sound <$> seq (clock (obs w)) n) as Efile.
  { rewrite E4, E3. change (file (set_fds ?m ?c)) with (file c). rewrite recorded_file, E2'. by rewrite drop_nil, app_nil_r. }
  apply runs_bind, play_pcm_single_runs; [done|lia| |].
  { rewrite Efile. rewrite length_fmap, length_seq. cbn [length] in Hf2. unfold n in *. lia. }
  intros w5 (E5 & d & mx & V5). apply runs_ret. split; [done|]. split.
  - rewrite V5, V4. cbn [rec_volume set_p_mixer set_p_dsp]. rewrite V3, V2. done.
  - exists fd. rewrite E2' in F3. split; [done|]. rewrite E5, Efile, E4, E3, E2'.
    unfold recorded_and_played, recorded, store_sound, open_file, write_file, listen, play, set_typed, set_fds.
    rewrite bool_decide_eq_true_2 by done. cbn [fds file fpos played clock typed]. rewrite take_0, length_fmap, length_seq, drop_nil, app_nil_r. done.
Qed.
End playing.

(** The volume of both channels is the one typed in, at most 100. *)
Lemma both_channels_pair v : 0 <= v → both_channels v = Z.min v 100 * 257.
Proof.
  intros. unfold both_channels. destruct (Z.ltb_spec 100 v); [by replace (Z.min v 100) with 100 by lia|].
  rewrite Z.shiftl_mul_pow2, s32_id by (unfold is_s32; lia). rewrite <- Z.shiftl_mul_pow2, lor_shiftl by lia. lia.
Qed.

(** ** Limits *)

Section limits.
Context {D : Type} `{Driver areq areply D}.
Implicit Types w : world oss areq D.

(** The loop over the files runs nine times over tables of eight: whatever the
    devices answer, choice 1 never comes back to the menu. *)
Lemma play_all_overruns fuel poll w r : play_all 9 fuel poll 0 w ≠ Ok r.
Proof.
  assert (Hstep : ∀ n i w r, play_all (S n) fuel poll i w = Ok r → ∃ w', play_all n fuel poll (i + 1) w' = Ok r).
  { intros n i w1 r1. cbn [play_all]. rewrite !bind_run. unfold lift at 1. destruct (rd pcmfiles i); [|done].
    rewrite bind_run. unfold lift at 1. destruct (rd samplerate i); [|done]. rewrite bind_run.
    destruct (play_pcm fuel poll a a0 w1) as [[? w2]|]; [|done]. eauto. }
  assert (Hn : ∀ n w, play_all (n + 1) fuel poll (Z.of_nat (8 - n)) w = Ok r → (n <= 8)%nat → False).
  { induction n as [|n IH]; intros w1 E Hn; [done|]. apply Hstep in E as [w' E].
    apply (IH w'); [|lia]. by replace (Z.of_nat (8 - n)) with (Z.of_nat (8 - S n) + 1) by lia. }
  intros E. by apply (Hn 8%nat w).
Qed.

(** A negative time asks the device for a block that does not fit the buffer and
    then sends what lies behind it to the file. *)
Lemma negative_time_overruns fuel audio music total buf w r : -2147481600 <= total < 0 → length buf = 4096%nat →
  record_loop (S fuel) audio music 0 total buf w ≠ Ok r.
Proof.
  intros Ht Hl. cbn [record_loop]. destruct (Z.eqb_spec 0 total); [lia|]. rewrite Z.sub_0_r, (s32_id total) by (unfold is_s32; lia).
  destruct (Z.leb_spec 2048 total); [lia|]. rewrite bind_run. unfold read_into at 1. rewrite request_run.
  assert (Hfrom : ∀ b w1, length b = 4096%nat → from_buffer (Some b) total w1 = Crash OutOfBounds).
  { intros b w1 Hb. cbn [from_buffer]. rewrite (proj2 (Z.leb_gt _ _)); [done|]. unfold u32. rewrite <- (Z_mod_plus_full total 1), Z.mod_small by lia. lia. }
  unfold answer. destruct (respond (driver w) _).2 as [l|].
  - unfold lift. destruct (blit buf 0 l) as [b|] eqn:E; [|done]. rewrite bind_run, Hfrom; [done|]. by rewrite (length_blit _ _ _ _ E).
  - rewrite mret_run, bind_run, Hfrom; done.
Qed.

(** A file that is missing leaves both descriptors open: nothing is closed. *)
Lemma missing_file_leaks fuel poll file rate w w' : (∀ d, (respond d (AFopen file (lit "r+"))).2 = None) →
  play_pcm fuel poll file rate w = Ok (tt, w') → Forall (λ r, match r with AClose _ => False | _ => True end) (trace w) →
  Forall (λ r, match r with AClose _ => False | _ => True end) (trace w').
Proof.
  intros Hf. unfold play_pcm, open_audio_play_device. rewrite bind_run, request_run, bind_run. cbn [modify].
  destruct (_ <? 0); [rewrite mret_run|rewrite request_run; cbn [modify]]; rewrite request_run; unfold answer; rewrite Hf;
    intros [= <-] Ht; cbn [trace after with_vars]; rewrite ?Forall_app; repeat split; try done; by repeat constructor.
Qed.
End limits.

(** ** Witnesses *)

(** A card with blocks of eight bytes, which is busy after every write until the
    next pause. *)
Definition next_fd (m : gmap Z (list Z)) : Z := map_fold (λ k _ a, Z.max (k + 1) a) 0 m.

Lemma next_fd_fresh m : 0 <= next_fd m ∧ m !! next_fd m = None.
Proof.
  assert (0 <= next_fd m ∧ ∀ k v, m !! k = Some v → k < next_fd m) as [H0 Hk].
  { unfold next_fd. apply (map_fold_weak_ind (λ r m, 0 <= r ∧ ∀ k v, m !! k = Some v → k < r)).
    - split; [lia|]. intros k v Hv. by rewrite lookup_empty in Hv.
    - intros i v m' r Hi [Hr IH]. split; [lia|]. intros k v'. rewrite lookup_insert. case_decide; [intros; lia|].
      intros Hv. specialize (IH k v' Hv). lia. }
  split; [done|]. destruct (m !! next_fd m) eqn:E; [|done]. specialize (Hk _ _ E). lia.
Qed.

Definition demo_answer (c : card) (full : bool) (r : areq) : areply r :=
  match r with
  | AOpen _ _ => next_fd (fds c)
  | AFopen p _ => if bool_decide (p = rec_pcm) then Some (file c) else None
  | AMalloc n => Some (replicate (Z.to_nat n) 0)
  | ASpeed _ v => (0, Z.min v 100000)
  | AChannels _ v => (0, v)
  | AGetBlkSize _ => Some 8
  | AGetOSpace _ => Some (if full then 0 else 8)
  | AGetODelay _ => Some 0
  | ARead _ n => Some ((λ i, Z.of_nat i mod 256) <$> seq (clock c) (Z.to_nat n))
  | AScan => head (typed c)
  | ASelect _ => negb full
  | ASetFmt _ _ | AMixerWrite _ _ _ | ARecSrc _ _ | AWrite _ _ => 0
  | _ => tt
  end.

#[export] Instance demo_card_driver : Driver areq areply (card * bool) := λ d r,
  (effect d.1 r (demo_answer d.1 d.2 r), match r with AWrite _ _ => true | AUsleep _ => false | _ => d.2 end, demo_answer d.1 d.2 r).

#[export] Instance demo_card : SoundCard (card * bool).
Proof.
  refine {| card_of := fst; sound := λ i, Z.of_nat i mod 256; rate_of := λ v, Z.min v 100000; block := 8; patience := 1; busy := λ d, if d.2 : bool then 1%nat else 0%nat |}.
  - done.
  - intros d p m. apply next_fd_fresh.
  - done.
  - done.
  - done.
  - done.
  - lia.
  - lia.
  - done.
  - intros d n Hn. eexists. split; [done|]. by rewrite length_replicate.
  - intros d m. cbn. by rewrite bool_decide_eq_true_2.
  - done.
  - intros [c []]; cbn; lia.
  - intros [c []] fd; eexists; (split; [done|]); cbn; lia.
  - done.
  - intros [c []] n; done.
  - intros [c []] fd; done.
  - intros d fd. by eexists.
  - done.
Defined.

(** One second of recording at two samples a second; ten bytes of an older
    recording stay in the file.  Two of three blocks are played. *)
Definition demo_world (choice : Z) : world oss areq (card * bool) :=
  World (Oss 0 0 0 0 0 (replicate (Z.to_nat 4096) 0)) (Card ∅ (Z.of_nat <$> seq 100 18) 0 [] 5 [choice; 1; 2; 80; 0], false) [].

Lemma menu_records_and_plays_witness : ∃ r w',
  main_turn (Z.to_nat 100) 2 (replicate (Z.to_nat 4096) 0) (Menu None None None) (demo_world 2) = Ok (r, w') ∧
  r = Some (Menu (Some 2) (Some 1) (Some 2)) ∧
  obs w' = Card ∅ ([5; 6; 7; 8; 9; 10; 11; 12] ++ (Z.of_nat <$> seq 108 10)) 8 ([5; 6; 7; 8; 9; 10; 11; 12] ++ (Z.of_nat <$> seq 108 8)) 13 [0].
Proof.
  destruct (menu_records_and_plays (Z.to_nat 100) 2 (replicate (Z.to_nat 4096) 0) (Menu None None None) 1 2 80 [0] (demo_world 2))
    as (r & w' & E & Er & _ & Eo); [by rewrite length_replicate|done|lia|lia|by vm_compute|by (unfold enough; vm_compute; repeat split; (done || lia))|].
  exists r, w'. split; [exact E|]. split; [exact Er|]. rewrite Eo. by vm_compute.
Defined.
