(* ===== verification/IjgScale.v ===== *)
(** * IjgScale: the choice of the scale in the IJG hardware JPEG demo

    Models the loop _FIT_ of [decompress] in src/libjpeg_HW/ijg_jpeg_demo.c, with
    the single-precision arithmetic it uses. *)
From S2P Require Import Prelude.
Local Open Scope cmodel_scope.
Local Open Scope Z_scope.

(** ** Single precision, for positive numbers in the range of the loop

    A float is a number of 24 bits and a power of two; an operation rounds the
    exact quotient to the nearest one, ties to even (IEEE 754). *)
Record float := Float { mant : Z; expo : Z }.

Definition round_near (n d : Z) : Z :=
  let '(q, r) := (n / d, n mod d) in
  if 2 * r <? d then q else if d <? 2 * r then q + 1 else if Z.even q then q else q + 1.

(** [n / d] is at least 2^k and below 2^(k + 1). *)
Definition magnitude (n d : Z) : Z :=
  let k := Z.log2 n - Z.log2 d in
  if (if 0 <=? k then d * 2 ^ k <=? n else d <=? n * 2 ^ (- k)) then k else k - 1.

Definition round32 (n d : Z) : float :=
  if n =? 0 then Float 0 0 else
  let e := magnitude n d - 23 in
  Float (if 0 <=? e then round_near n (d * 2 ^ e) else round_near (n * 2 ^ (- e)) d) e.

(** (float)a / (float)b of two ints, f * (float)a, and the conversion to an
    unsigned short. *)
Definition fdiv (a b : Z) : float := round32 a b.
Definition fmul (a : Z) (f : float) : float :=
  if 0 <=? expo f then round32 (a * mant f * 2 ^ expo f) 1 else round32 (a * mant f) (2 ^ (- expo f)).
Definition trunc (f : float) : Z := u16 (if 0 <=? expo f then mant f * 2 ^ expo f else Z.shiftr (mant f) (- expo f)).

(** ** The loop *)

Definition scaled (size denom : Z) : Z := trunc (fmul size (fdiv 4 denom)).

Section fit.
Context (xres yres w h : Z).

Definition too_large (w2 h2 : Z) : bool := (xres <? w2) || (yres <? h2).

(** From [w2] and [h2], the sizes of the last try; the result is scale_num,
    scale_denom. *)
Fixpoint fit_loop (fuel : nat) (scale_flag : bool) (w2 h2 scale_denom : Z) : result (Z * Z) :=
  if too_large w2 h2 then
    match fuel with
    | O => Crash OutOfFuel
    | S fuel => fit_loop fuel true (scaled w scale_denom) (scaled h scale_denom) (scale_denom + 1)
    end
  else if scale_flag then Ok (4, scale_denom - 1) else Ok (1, 1).

(** Enough for every picture and every panel, as is proved below. *)
Definition fit_fuel : nat := S (Z.to_nat (2 ^ 18)).
Definition fit : result (Z * Z) := fit_loop fit_fuel false w h 8.
End fit.

(** ** Rounding never goes beyond a power of two *)

Lemma round_near_le n d q : 0 < d → n <= q * d → round_near n d <= q.
Proof.
  intros Hd Hn. unfold round_near. pose proof (Z.div_mod n d). pose proof (Z.mod_pos_bound n d Hd).
  assert (n / d <= q) by (apply Z.div_le_upper_bound; lia).
  repeat case_match; zcmp; nia.
Qed.

Lemma round_near_nonneg n d : 0 < d → 0 <= n → 0 <= round_near n d.
Proof. intros Hd Hn. unfold round_near. pose proof (Z.div_pos n d Hn Hd). repeat case_match; lia. Qed.

Lemma magnitude_le n d j : 0 < n → 0 < d → 0 <= j → n * 2 ^ j <= d → magnitude n d <= - j.
Proof.
  intros Hn Hd Hj Hle. destruct (Z.log2_spec n Hn) as [Ln _], (Z.log2_spec d Hd) as [_ Ld].
  assert (2 ^ (Z.log2 n + j) < 2 ^ Z.succ (Z.log2 d)) as Hp.
  { rewrite Z.pow_add_r by (pose proof (Z.log2_nonneg n); lia). nia. }
  apply Z.pow_lt_mono_r_iff in Hp; [|lia|pose proof (Z.log2_nonneg d); lia]. unfold magnitude. repeat case_match; lia.
Qed.

(** [n / d <= 2^(magnitude + 1)], when that is at most 1. *)
Lemma magnitude_ge n d : 0 < n → 0 < d → magnitude n d + 1 <= 0 → n * 2 ^ (- magnitude n d - 1) <= d.
Proof.
  intros Hn Hd. destruct (Z.log2_spec n Hn) as [_ Ln], (Z.log2_spec d Hd) as [Ld _]. unfold magnitude.
  set (k := Z.log2 n - Z.log2 d). pose proof (Z.log2_nonneg n). pose proof (Z.log2_nonneg d).
  assert (k + 1 <= 0 → n * 2 ^ (- k - 1) <= d) as Hk.
  { intros Hk. assert (2 ^ Z.log2 d = 2 ^ Z.succ (Z.log2 n) * 2 ^ (- k - 1)) as E by (rewrite <- Z.pow_add_r by lia; f_equal; lia).
    assert (0 < 2 ^ (- k - 1)) by (apply Z.pow_pos_nonneg; lia). nia. }
  destruct (Z.leb_spec 0 k).
  - destruct (Z.leb_spec (d * 2 ^ k) n); [auto|]. intros Hm. replace k with 0 in * by lia. cbn. lia.
  - destruct (Z.leb_spec d (n * 2 ^ (- k))); [auto|]. intros Hm. replace (- (k - 1) - 1) with (- k) by lia. lia.
Qed.

(** A quotient that is at most 2^-j is rounded to at most that. *)
Lemma round32_le n d j : 0 < n → 0 < d → 0 <= j → n * 2 ^ j <= d →
  0 <= mant (round32 n d) ∧ expo (round32 n d) < 0 ∧ mant (round32 n d) * 2 ^ j <= 2 ^ (- expo (round32 n d)).
Proof.
  intros Hn Hd Hj Hle. pose proof (magnitude_le n d j Hn Hd Hj Hle) as Hm. unfold round32.
  destruct (Z.eqb_spec n 0); [lia|]. set (m := magnitude n d) in *. cbn [mant expo]. destruct (Z.leb_spec 0 (m - 23)); [lia|].
  replace (- (m - 23)) with (23 - m) by lia. assert (0 < 2 ^ j) by (apply Z.pow_pos_nonneg; lia).
  assert (0 < 2 ^ (23 - m)) by (apply Z.pow_pos_nonneg; lia). split; [apply round_near_nonneg; [done|apply Z.mul_nonneg_nonneg; lia]|]. split; [lia|].
  destruct (Z.eq_dec m (- j)) as [->|Hne].
  - replace (23 - - j) with (23 + j) in * by lia. rewrite Z.pow_add_r in * by lia.
    apply Z.mul_le_mono_nonneg_r; [lia|]. apply round_near_le; [done|].
    replace (n * (2 ^ 23 * 2 ^ j)) with (2 ^ 23 * (n * 2 ^ j)) by lia. apply Z.mul_le_mono_nonneg_l; lia.
  - pose proof (magnitude_ge n d Hn Hd) as Hge. fold m in Hge. specialize (Hge ltac:(lia)).
    assert (2 ^ (23 - m) = 2 ^ 24 * 2 ^ (- m - 1)) as E by (rewrite <- Z.pow_add_r by lia; f_equal; lia).
    assert (round_near (n * 2 ^ (23 - m)) d <= 2 ^ 24).
    { apply round_near_le; [done|]. rewrite E. replace (n * (2 ^ 24 * 2 ^ (- m - 1))) with (2 ^ 24 * (n * 2 ^ (- m - 1))) by lia.
      apply Z.mul_le_mono_nonneg_l; lia. }
    assert (2 ^ (23 - m) = 2 ^ (23 - m - j) * 2 ^ j) as E2 by (rewrite <- Z.pow_add_r by lia; f_equal; lia).
    assert (2 ^ 24 <= 2 ^ (23 - m - j)) by (apply Z.pow_le_mono_r; lia). etransitivity; [apply Z.mul_le_mono_nonneg_r; [lia|etransitivity; eassumption]|lia].
Qed.

Lemma round32_0 d : round32 0 d = Float 0 0.
Proof. done. Qed.

(** A denominator of 2^18 leaves at most one pixel of any size. *)
Lemma scaled_small size denom : 0 <= size < 65536 → 2 ^ 18 <= denom → 0 <= scaled size denom <= 1.
Proof.
  intros Hs Hd. unfold scaled, fdiv. destruct (round32_le 4 denom 16) as (M0 & E0 & Le); [lia|lia|lia|change (2 ^ 16) with 65536; lia|].
  unfold fmul. destruct (Z.leb_spec 0 (expo (round32 4 denom))); [lia|]. set (f := round32 4 denom) in *.
  assert (0 < 2 ^ (- expo f)) by (apply Z.pow_pos_nonneg; lia).
  destruct (Z.eq_dec (size * mant f) 0) as [->|Hne]; [rewrite round32_0; by vm_compute|].
  destruct (round32_le (size * mant f) (2 ^ (- expo f)) 0) as (M1 & E1 & Le1); [nia|lia|lia|rewrite Z.mul_1_r; nia|].
  unfold trunc. destruct (Z.leb_spec 0 (expo (round32 (size * mant f) (2 ^ (- expo f))))); [lia|].
  set (g := round32 (size * mant f) (2 ^ (- expo f))) in *. rewrite Z.pow_0_r, Z.mul_1_r in Le1. assert (0 < 2 ^ (- expo g)) by (apply Z.pow_pos_nonneg; lia).
  rewrite Z.shiftr_div_pow2 by lia. assert (0 <= mant g / 2 ^ (- expo g) <= 1).
  { split; [apply Z.div_pos; lia|]. apply Z.div_le_upper_bound; lia. }
  rewrite u16_id; [lia|unfold is_u16; lia].
Qed.

(** ** The loop finds the first scale that fits *)

Section fitting.
Context (xres yres w h : Z) (Hx : 1 <= xres) (Hy : 1 <= yres) (Hw : 0 <= w < 65536) (Hh : 0 <= h < 65536).

Definition fits (denom : Z) : Prop := scaled w denom <= xres ∧ scaled h denom <= yres.

Lemma too_large_false w2 h2 : too_large xres yres w2 h2 = false ↔ w2 <= xres ∧ h2 <= yres.
Proof. unfold too_large. rewrite orb_false_iff, !Z.ltb_ge. done. Qed.

Lemma fits_in_the_end denom : 2 ^ 18 <= denom → fits denom.
Proof. intros Hd. unfold fits. pose proof (scaled_small w denom Hw Hd). pose proof (scaled_small h denom Hh Hd). lia. Qed.

(** The first denominator from [denom] on that fits. *)
Definition first_fit (denom d : Z) : Prop := denom <= d ∧ fits d ∧ ∀ d', denom <= d' < d → ¬ fits d'.

Lemma fit_loop_finds : ∀ fuel denom, 8 <= denom → 2 ^ 18 <= denom + Z.of_nat fuel →
  ∃ d, fit_loop xres yres w h fuel true (scaled w denom) (scaled h denom) (denom + 1) = Ok (4, d) ∧ first_fit denom d.
Proof.
  induction fuel as [|fuel IH]; intros denom H8 Hf; cbn [fit_loop].
  - destruct (fits_in_the_end denom) as [F1 F2]; [lia|]. rewrite (proj2 (too_large_false _ _)) by done.
    exists denom. replace (denom + 1 - 1) with denom by lia. split; [done|]. split; [lia|]. split; [done|]. intros; lia.
  - destruct (too_large xres yres _ _) eqn:E.
    + destruct (IH (denom + 1)) as (d & -> & Hd1 & Hd2 & Hd3); [lia|lia|]. exists d. split; [done|]. split; [lia|]. split; [done|].
      intros d' Hd'. destruct (Z.eq_dec d' denom) as [->|]; [|apply Hd3; lia]. intros F. apply too_large_false in F. congruence.
    + exists denom. replace (denom + 1 - 1) with denom by lia. split; [done|]. split; [lia|]. split; [by apply too_large_false|]. intros; lia.
Qed.
End fitting.

(** What the loop leaves. *)
Definition fit_result (xres yres w h : Z) (r : result (Z * Z)) : Prop :=
  (w <= xres ∧ h <= yres ∧ r = Ok (1, 1)) ∨
  (¬ (w <= xres ∧ h <= yres) ∧ ∃ d, r = Ok (4, d) ∧ first_fit xres yres w h 8 d).

Lemma fit_spec xres yres w h : 1 <= xres → 1 <= yres → 0 <= w < 65536 → 0 <= h < 65536 → fit_result xres yres w h (fit xres yres w h).
Proof.
  intros Hx Hy Hw Hh. unfold fit, fit_fuel. generalize (Z2Nat.id (2 ^ 18) ltac:(lia)). generalize (Z.to_nat (2 ^ 18)). intros fuel Hfuel. cbn [fit_loop].
  destruct (too_large xres yres w h) eqn:E.
  - right. split; [intros F; apply too_large_false in F; congruence|]. apply fit_loop_finds; try done; lia.
  - left. apply too_large_false in E as [? ?]. done.
Qed.

(** C37: The scaling of the decoder ends for every picture and every panel: a
    picture that fits is left alone, and for a larger one the loop finds the
    smallest denominator from 8 on for which four parts of it, computed in
    single precision as the code does, fit the panel. *)
Theorem fit_ends xres yres w h : 1 <= xres → 1 <= yres → 0 <= w < 65536 → 0 <= h < 65536 →
  (w <= xres ∧ h <= yres ∧ fit xres yres w h = Ok (1, 1)) ∨
  (¬ (w <= xres ∧ h <= yres) ∧ ∃ d, fit xres yres w h = Ok (4, d) ∧ first_fit xres yres w h 8 d).
Proof. apply fit_spec. Qed.

(** A picture of 5 megapixels on the panel of the board. *)
Lemma fit_ends_witness : fit 480 272 2592 1944 = Ok (4, 29) ∧ first_fit 480 272 2592 1944 8 29.
Proof.
  destruct (fit_ends 480 272 2592 1944) as [(H1 & _)|(_ & d & E & Hd)]; [lia..|].
  assert (fit 480 272 2592 1944 = Ok (4, 29)) as E' by (by vm_compute). rewrite E' in E. injection E as <-. by split.
Defined.

