(* ===== verification/IjgPixels.v ===== *)
(** * IjgPixels: pixel formats and rendering of the IJG hardware JPEG demo

    Models the loops of [decompress] in src/libjpeg_HW/ijg_jpeg_demo.c that
    convert the decoded picture to the format of the panel, some of them in
    place, and the copy of the picture to the frame buffer. *)
From S2P Require Import Prelude Bytes.
Local Open Scope cmodel_scope.
Local Open Scope Z_scope.

(** ** The loops *)

(** Stores some bytes one after the other. *)
Fixpoint puts (buf : list Z) (off : Z) (vs : list Z) : result (list Z) :=
  match vs with
  | [] => Ok buf
  | v :: vs => buf ← wr buf off v; puts buf (off + 1) vs
  end.

(** for (i = 0; i < n; ++i): the pixel that [px] makes of what it reads -- from
    the buffer itself, when the conversion is in place -- goes to i * size. *)
Fixpoint pixel_loop (size : Z) (px : list Z → Z → result (list Z)) (n : nat) (i : Z) (buf : list Z) : result (list Z) :=
  match n with
  | O => Ok buf
  | S n => p ← px buf i; buf ← puts buf (i * size) p; pixel_loop size px n (i + 1) buf
  end.

(** RGB565 as an unsigned short, and its two bytes. *)
Definition rgb565 (r g b : Z) : Z :=
  u16 (Z.lor (Z.lor (Z.shiftl (Z.shiftr r 3) 11) (Z.shiftl (Z.shiftr g 2) 5)) (Z.shiftr b 3)).
Definition two_bytes (rgb : Z) : list Z := [Z.land rgb 0x00FF; Z.shiftr (Z.land rgb 0xFF00) 8].

(** What the loops make of the bytes of one pixel, by the number of components
    of the picture and the depth of the panel. *)
Definition from_rgb565 (px : list Z) : list Z :=
  match px with
  | [lo; hi] =>
      let v := lo + 256 * hi in
      [u8 (Z.shiftl (Z.land v 0x001F) 3); u8 (Z.shiftl (Z.shiftr (Z.land v 0x07E0) 5) 2); u8 (Z.shiftl (Z.shiftr (Z.land v 0xF800) 11) 3); 0]
  | _ => []
  end.
Definition rgb_to_16 (px : list Z) : list Z := match px with [r; g; b] => two_bytes (rgb565 r g b) | _ => [] end.
Definition rgb_to_32 (px : list Z) : list Z := match px with [r; g; b] => [b; g; r; 0] | _ => [] end.
Definition bgra_to_16 (px : list Z) : list Z := match px with [b; g; r; a] => two_bytes (rgb565 r g b) | _ => [] end.
Definition gray_to_16 (px : list Z) : list Z := match px with [y] => two_bytes (rgb565 y y y) | _ => [] end.
Definition gray_to_32 (px : list Z) : list Z := match px with [y] => [y; y; y; y] | _ => [] end.

(** The bytes [c * i] to [c * i + c - 1]. *)
Fixpoint gets (buf : list Z) (off : Z) (n : nat) : result (list Z) :=
  match n with
  | O => Ok []
  | S n => v ← rd buf off; vs ← gets buf (off + 1) n; Ok (v :: vs)
  end.

(** A loop that reads from another buffer, and one that works in place. *)
Definition from_other (src : list Z) (c : nat) (f : list Z → list Z) : list Z → Z → result (list Z) :=
  λ _ i, p ← gets src (i * Z.of_nat c) c; Ok (f p).
Definition in_place (c : nat) (f : list Z → list Z) : list Z → Z → result (list Z) :=
  λ buf i, p ← gets buf (i * Z.of_nat c) c; Ok (f p).

(** The copy to the frame buffer, line by line; [to] and [from] are the steps of
    the two pointers. *)
Fixpoint render_loop (n : nat) (fb : list Z) (dst to : Z) (pic : list Z) (src from width : Z) : result (list Z) :=
  match n with
  | O => Ok fb
  | S n =>
      if src + width <=? Z.of_nat (length pic) then
        fb ← blit fb dst (sub_bytes pic src width);
        render_loop n fb (dst + to) to pic (src + from) from width
      else Crash OutOfBounds
  end.

(** ** Reading and writing a pixel *)

Lemma gets_lookup buf : ∀ n (off : nat), (off + n <= length buf)%nat → gets buf (Z.of_nat off) n = Ok (take n (drop off buf)).
Proof.
  induction n as [|n IH]; intros off Hn; cbn [gets]; [by rewrite take_0|].
  destruct (lookup_lt_is_Some_2 buf off) as [v Hv]; [lia|].
  rewrite (proj2 (rd_Ok buf (Z.of_nat off) v)) by (rewrite Nat2Z.id; split; [lia|done]). cbn [mbind result_bind].
  replace (Z.of_nat off + 1) with (Z.of_nat (S off)) by lia. rewrite IH by lia. cbn [mbind result_bind].
  by rewrite (drop_S _ _ _ Hv).
Qed.

Lemma puts_spec vs : ∀ buf (off : nat), (off + length vs <= length buf)%nat →
  puts buf (Z.of_nat off) vs = Ok (take off buf ++ vs ++ drop (off + length vs) buf).
Proof.
  induction vs as [|v vs IH]; intros buf off Hn; cbn [puts length] in *; [cbn [app]; by rewrite Nat.add_0_r, take_drop|].
  rewrite wr_Ok by lia. rewrite Nat2Z.id. cbn [mbind result_bind]. replace (Z.of_nat off + 1) with (Z.of_nat (S off)) by lia.
  rewrite IH by (rewrite length_insert; lia). f_equal. rewrite take_insert_snoc by lia. rewrite <- app_assoc. cbn [app]. do 3 f_equal.
  rewrite insert_drop_lt by lia. f_equal. lia.
Qed.

(** ** The loops on a list of pixels

    A picture is the concatenation of its pixels. *)
Definition pixels (c : nat) (l : list (list Z)) : Prop := Forall (λ p, length p = c) l.

Lemma mjoin_cons (p : list Z) l : mjoin (p :: l) = p ++ mjoin l.
Proof. done. Qed.

Lemma length_pixels c l : pixels c l → length (mjoin l) = (length l * c)%nat.
Proof. induction 1 as [|p l Hp _ IH]; [done|]. rewrite mjoin_cons, length_app, IH, Hp. cbn [length]. lia. Qed.

Lemma pixels_drop c l i : pixels c l → pixels c (drop i l).
Proof. apply Forall_drop. Qed.

Lemma drop_pixels c l i : pixels c l → drop (i * c) (mjoin l) = mjoin (drop i l).
Proof.
  intros Hl. revert i. induction Hl as [|p l Hp _ IH]; intros i; [by rewrite (drop_nil i); change (mjoin (@nil (list Z))) with (@nil Z); rewrite drop_nil|].
  destruct i as [|i]; [done|]. cbn [drop]. rewrite mjoin_cons, drop_app_ge by (rewrite Hp; lia). rewrite Hp, <- IH. f_equal. lia.
Qed.

Lemma get_pixel c l i p : pixels c l → l !! i = Some p → take c (drop (i * c) (mjoin l)) = p.
Proof.
  intros Hl Hi. rewrite (drop_pixels c) by done. rewrite (drop_S _ _ _ Hi), mjoin_cons.
  assert (length p = c) as Hp by exact (Forall_lookup_1 _ _ _ _ Hl Hi). rewrite take_app_le by lia. by rewrite take_ge by lia.
Qed.

Section conversion.
Context (f : list Z → list Z) (c size : nat) (Hf : ∀ p, length p = c → length (f p) = size).

Lemma from_other_get l i p b : pixels c l → l !! i = Some p → from_other (mjoin l) c f b (Z.of_nat i) = Ok (f p).
Proof.
  intros Hl Hp. assert (length p = c) as Hpc by exact (Forall_lookup_1 _ _ _ _ Hl Hp). apply lookup_lt_Some in Hp as Hi.
  unfold from_other. rewrite <- Nat2Z.inj_mul, gets_lookup by (rewrite (length_pixels c) by done; nia). by rewrite (get_pixel c l i p).
Qed.

Lemma in_place_get l i p b : pixels c l → l !! i = Some p → length b = (length l * c)%nat → drop (i * c) b = mjoin (drop i l) →
  in_place c f b (Z.of_nat i) = Ok (f p).
Proof.
  intros Hl Hp Hb Hd. assert (length p = c) as Hpc by exact (Forall_lookup_1 _ _ _ _ Hl Hp). apply lookup_lt_Some in Hp as Hi.
  unfold in_place. rewrite <- Nat2Z.inj_mul, gets_lookup by nia. rewrite Hd, (drop_S _ _ _ Hp), mjoin_cons.
  rewrite take_app_le by lia. by rewrite take_ge by lia.
Qed.

(** From one buffer to another. *)
Lemma other_loop l buf : pixels c l → (length l * size <= length buf)%nat → ∀ n (i : nat), (i + n = length l)%nat →
  ∀ b, length b = length buf → take (i * size) b = mjoin (f <$> take i l) → drop (length l * size) b = drop (length l * size) buf →
  pixel_loop (Z.of_nat size) (from_other (mjoin l) c f) n (Z.of_nat i) b = Ok (mjoin (f <$> l) ++ drop (length l * size) buf).
Proof.
  intros Hl Hlen. induction n as [|n IH]; intros i Hi b Hb Ht Hd; cbn [pixel_loop].
  { rewrite <- (take_drop (length l * size) b), Hd. replace i with (length l) in Ht by lia. rewrite Ht. by rewrite take_ge. }
  destruct (lookup_lt_is_Some_2 l i) as [p Hp]; [lia|]. assert (length p = c) as Hpc by exact (Forall_lookup_1 _ _ _ _ Hl Hp).
  rewrite (from_other_get l i p) by done. rewrite <- Nat2Z.inj_mul. cbn [mbind result_bind]. pose proof (Hf p Hpc) as Hfp.
  rewrite puts_spec by (rewrite Hfp; nia). cbn [mbind result_bind].
  replace (Z.of_nat i + 1) with (Z.of_nat (S i)) by lia. rewrite Ht. set (done := mjoin (f <$> take i l)).
  assert (length done = (i * size)%nat) as Hdl by (unfold done; rewrite <- Ht, length_take; nia).
  apply IH; [lia| | |].
  - rewrite !length_app, length_drop, Hdl, Hfp. nia.
  - rewrite app_assoc, take_app_le by (rewrite length_app; lia). rewrite take_ge by (rewrite length_app; lia).
    unfold done. rewrite (take_S_r _ _ _ Hp), fmap_app, join_app. cbn [fmap list_fmap]. by rewrite mjoin_cons, app_nil_r.
  - rewrite app_assoc, drop_app_ge by (rewrite length_app; nia). rewrite drop_drop, <- Hd. f_equal. rewrite length_app. nia.
Qed.

(** In place, when the pixels shrink: what is read has not been overwritten. *)
Lemma in_place_loop l : pixels c l → (size <= c)%nat → ∀ n (i : nat), (i + n = length l)%nat →
  ∀ b, length b = (length l * c)%nat → take (i * size) b = mjoin (f <$> take i l) → drop (i * c) b = mjoin (drop i l) →
  ∃ rest, pixel_loop (Z.of_nat size) (in_place c f) n (Z.of_nat i) b = Ok (mjoin (f <$> l) ++ rest) ∧ length rest = (length l * (c - size))%nat.
Proof.
  intros Hl Hsc. induction n as [|n IH]; intros i Hi b Hb Ht Hd; cbn [pixel_loop].
  { exists (drop (length l * size) b). replace i with (length l) in Ht by lia. rewrite (take_ge l) in Ht by lia.
    split; [by rewrite <- Ht, take_drop|]. rewrite length_drop. nia. }
  destruct (lookup_lt_is_Some_2 l i) as [p Hp]; [lia|]. assert (length p = c) as Hpc by exact (Forall_lookup_1 _ _ _ _ Hl Hp).
  rewrite (in_place_get l i p) by done. rewrite <- Nat2Z.inj_mul. cbn [mbind result_bind]. pose proof (Hf p Hpc) as Hfp.
  rewrite puts_spec by (rewrite Hfp; nia). cbn [mbind result_bind].
  replace (Z.of_nat i + 1) with (Z.of_nat (S i)) by lia. rewrite Ht. set (done := mjoin (f <$> take i l)).
  assert (length done = (i * size)%nat) as Hdl by (unfold done; rewrite <- Ht, length_take; nia).
  apply IH; [lia| | |].
  - rewrite !length_app, length_drop, Hdl, Hfp. nia.
  - rewrite app_assoc, take_app_le by (rewrite length_app; lia). rewrite take_ge by (rewrite length_app; lia).
    unfold done. rewrite (take_S_r _ _ _ Hp), fmap_app, join_app. cbn [fmap list_fmap]. by rewrite mjoin_cons, app_nil_r.
  - rewrite app_assoc, drop_app_ge by (rewrite length_app; nia). rewrite drop_drop.
    transitivity (drop c (drop (i * c) b)).
    { rewrite drop_drop. f_equal. rewrite length_app. nia. }
    rewrite Hd, (drop_S _ _ _ Hp), mjoin_cons, drop_app_ge by lia. by rewrite Hpc, Nat.sub_diag.
Qed.

Lemma from_other_runs l buf : pixels c l → length buf = (length l * size)%nat →
  pixel_loop (Z.of_nat size) (from_other (mjoin l) c f) (length l) 0 buf = Ok (mjoin (f <$> l)).
Proof.
  intros Hl Hb. change 0 with (Z.of_nat 0). rewrite (other_loop l buf Hl) with (b := buf); try done; [|lia].
  by rewrite drop_ge, app_nil_r by lia.
Qed.

Lemma in_place_runs l : pixels c l → (size <= c)%nat →
  ∃ rest, pixel_loop (Z.of_nat size) (in_place c f) (length l) 0 (mjoin l) = Ok (mjoin (f <$> l) ++ rest) ∧ length rest = (length l * (c - size))%nat.
Proof. intros Hl Hsc. change 0 with (Z.of_nat 0). apply in_place_loop; try done. by apply length_pixels. Qed.
End conversion.

(** ** Rendering

    A line of the screen: the start of a row of the picture, and black behind it. *)
Definition line (L : nat) (rows : list (list Z)) (y : nat) : list Z :=
  let r := take L (rows !!! y) in r ++ replicate (L - length r) 0.
Definition shown (L yres : nat) (rows : list (list Z)) : list Z := mjoin (line L rows <$> seq 0 yres).

Lemma length_line L rows y : length (line L rows y) = L.
Proof. unfold line. rewrite length_app, length_replicate, length_take. lia. Qed.

Lemma length_lines L rows l : length (mjoin (line L rows <$> l)) = (length l * L)%nat.
Proof.
  rewrite (length_pixels L); [by rewrite length_fmap|]. apply Forall_fmap, Forall_true. intros y. apply length_line.
Qed.

Lemma line_black L rows y : (length rows <= y)%nat → line L rows y = replicate L 0.
Proof.
  intros Hy. unfold line. rewrite list_lookup_total_alt, lookup_ge_None_2 by done.
  change (default inhabitant (@None (list Z))) with (@nil Z). rewrite take_nil. cbn [length app]. by rewrite Nat.sub_0_r.
Qed.

Lemma black_lines L rows : ∀ n y, (length rows <= y)%nat → mjoin (line L rows <$> seq y n) = replicate (n * L) 0.
Proof.
  induction n as [|n IH]; intros y Hy; [done|]. cbn [seq]. rewrite fmap_cons, mjoin_cons, IH, line_black by lia.
  rewrite <- replicate_add. f_equal.
Qed.

Section rendering.
Context (L rw yres : nat) (rows : list (list Z)) (Hrows : pixels rw rows).

Lemma line_row y r : rows !! y = Some r → take (Nat.min L rw) r ++ replicate (L - Nat.min L rw) 0 = line L rows y.
Proof.
  intros Hy. unfold line. rewrite (list_lookup_total_correct _ _ _ Hy). assert (length r = rw) as Hr by exact (Forall_lookup_1 _ _ _ _ Hrows Hy).
  rewrite length_take, Hr. f_equal. destruct (Nat.leb_spec L rw); [by rewrite Nat.min_l|]. rewrite Nat.min_r by lia. by rewrite !take_ge by lia.
Qed.

Lemma render_rows rest : ∀ n (i : nat), (i + n <= length rows)%nat → (i + n <= yres)%nat →
  render_loop n (mjoin (line L rows <$> seq 0 i) ++ replicate ((yres - i) * L) 0) (Z.of_nat (i * L)) (Z.of_nat L)
    (mjoin rows ++ rest) (Z.of_nat (i * rw)) (Z.of_nat rw) (Z.of_nat (Nat.min L rw))
  = Ok (mjoin (line L rows <$> seq 0 (i + n)) ++ replicate ((yres - (i + n)) * L) 0).
Proof.
  induction n as [|n IH]; intros i Hi Hy; cbn [render_loop]; [by rewrite Nat.add_0_r|].
  destruct (lookup_lt_is_Some_2 rows i) as [r Hr]; [lia|].
  assert (length r = rw) as Hrl by exact (Forall_lookup_1 _ _ _ _ Hrows Hr).
  rewrite (proj2 (Z.leb_le _ _)) by (rewrite length_app, (length_pixels rw) by done; nia).
  replace (sub_bytes _ _ _) with (take (Nat.min L rw) r).
  2:{ unfold sub_bytes. rewrite !Nat2Z.id, drop_app_le by (rewrite (length_pixels rw) by done; nia).
      rewrite (drop_pixels rw), (drop_S _ _ _ Hr), mjoin_cons by done. rewrite <- app_assoc, take_app_le by lia. done. }
  unfold blit. rewrite (proj2 (Z.leb_le 0 _)) by lia. rewrite (proj2 (Z.leb_le _ _)).
  2:{ rewrite length_app, length_replicate, length_lines, length_seq, length_take. nia. }
  cbn [andb mbind result_bind]. rewrite Nat2Z.id, take_app_le, take_ge by (rewrite length_lines, length_seq; lia).
  rewrite drop_app_ge by (rewrite length_lines, length_seq; lia). rewrite length_lines, length_seq, length_take, Hrl.
  replace (i * L + Nat.min (Nat.min L rw) rw - i * L)%nat with (Nat.min L rw) by lia.
  rewrite drop_replicate. replace ((yres - i) * L - Nat.min L rw)%nat with ((L - Nat.min L rw) + (yres - S i) * L)%nat by nia.
  rewrite replicate_add, (app_assoc (take _ r)), (line_row i r Hr).
  specialize (IH (S i)). replace (i + S n)%nat with (S i + n)%nat by lia. rewrite <- IH by lia. f_equal; [|lia..].
  rewrite seq_S, fmap_app, join_app. cbn [fmap list_fmap Nat.add]. rewrite mjoin_cons. cbn [mjoin list_join]. by rewrite app_nil_r, <- app_assoc.
Qed.

(** A cleared screen shows the picture, cut at its right and lower edge. *)
Lemma render_shown rest :
  render_loop (Nat.min (length rows) yres) (replicate (yres * L) 0) 0 (Z.of_nat L) (mjoin rows ++ rest) 0 (Z.of_nat rw) (Z.of_nat (Nat.min L rw))
  = Ok (shown L yres rows).
Proof.
  pose proof (render_rows rest (Nat.min (length rows) yres) 0) as E. cbn [seq fmap list_fmap Nat.add Nat.mul] in E.
  rewrite Nat.sub_0_r in E. change (Z.of_nat 0) with 0 in E. change (mjoin [] ++ ?l) with l in E. rewrite E by lia. f_equal. unfold shown.
  replace (seq 0 yres) with (seq 0 (Nat.min (length rows) yres + (yres - Nat.min (length rows) yres))) by (f_equal; lia).
  rewrite seq_app, fmap_app, join_app. f_equal. destruct (Nat.leb_spec yres (length rows)).
  - rewrite Nat.min_r by lia. by rewrite Nat.sub_diag.
  - rewrite black_lines; [done|]. lia.
Qed.

(** A picture of the size of the screen is copied at once. *)
Lemma shown_whole : rw = L → length rows = yres → shown L yres rows = mjoin rows.
Proof.
  intros HL Hn. unfold shown. f_equal. apply list_eq. intros y. rewrite list_lookup_fmap. destruct (rows !! y) as [r|] eqn:Hy.
  - rewrite lookup_seq_lt by (rewrite <- Hn; by eapply lookup_lt_Some). cbn. f_equal. rewrite <- (line_row y r Hy).
    assert (length r = rw) as Hr by exact (Forall_lookup_1 _ _ _ _ Hrows Hy).
    rewrite take_ge by lia. replace (L - Nat.min L rw)%nat with 0%nat by lia. by rewrite app_nil_r.
  - apply lookup_ge_None in Hy. rewrite lookup_seq_ge by lia. done.
Qed.
End rendering.
