(* ===== verification/IjgDemo.v ===== *)
(** * IjgDemo: the IJG hardware JPEG demo

    Models src/libjpeg_HW/ijg_jpeg_demo.c: opening the panel, decoding a picture
    to the frame buffer, encoding a raw picture.  The modified libjpeg, which is
    not in the repository, and the devices are a [Driver]; the pixel loops are
    in [IjgPixels], the scaling in [IjgScale]. *)
From S2P Require Import Prelude LibC Bytes Device Runs IjgScale IjgPixels.
Local Open Scope cmodel_scope.
Local Open Scope Z_scope.

(** ** Data *)

(** S_DEMO_LCM; [pLCMBuffer] is the mapped frame buffer. *)
Record S_DEMO_LCM := Lcm {
  lcm_fd : Z; pLCMBuffer : list Z; fb_xres : Z; fb_yres : Z; bits_per_pixel : Z; line_length : Z; u8bytes_per_pixel : Z }.
Definition set_fd fd l := Lcm fd (pLCMBuffer l) (fb_xres l) (fb_yres l) (bits_per_pixel l) (line_length l) (u8bytes_per_pixel l).
Definition set_fb b l := Lcm (lcm_fd l) b (fb_xres l) (fb_yres l) (bits_per_pixel l) (line_length l) (u8bytes_per_pixel l).
Definition set_vinfo (v : Z * Z * Z) l := let '(xres, yres, bpp) := v in Lcm (lcm_fd l) (pLCMBuffer l) xres yres bpp (line_length l) (u8 (Z.quot bpp 8)).
Definition set_finfo ll l := Lcm (lcm_fd l) (pLCMBuffer l) (fb_xres l) (fb_yres l) (bits_per_pixel l) ll (u8bytes_per_pixel l).

(** The calls of the program; those of the library that can end in its error
    handler answer with [None] or [false] then. *)
Inductive ireq :=
| IOpenLcm | IVScreenInfo | IFScreenInfo | IClose | IMmap (len : Z)
| IFopen (name mode : list Z) | IFread (n : Z) | IFwrite (data : list Z) | IFclose
| IMalloc (n : Z) | IFree
| IReadHeader | ICalcDimensions | IStartDecompress (scale_num scale_denom : Z) | IReadScanline | IFinishDecompress | IDestroy
| ISetQuality (q : Z) | IStartCompress (width height : Z) | IWriteScanline (row : list Z) | IFinishCompress
| IWaitVsync | IFbLock | IFbUnlock.

Definition ireply (r : ireq) : Type :=
  match r with
  | IOpenLcm => Z
  | IVScreenInfo => option (Z * Z * Z)
  | IFScreenInfo => option Z
  | IMmap _ | IMalloc _ | IReadScanline => option (list Z)
  | IFread _ => list Z
  | IFopen _ _ | IReadHeader | IFinishDecompress | IStartCompress _ _ | IWriteScanline _ | IFinishCompress => bool
  | ICalcDimensions => Z * Z
  | IStartDecompress _ _ => option (Z * Z * Z)
  | _ => unit
  end.

Section program.
Context {D : Type} `{Driver ireq ireply D}.
Notation P := (prog S_DEMO_LCM ireq D).

Definition InitLCM : P Z :=
  fd ⇐ IOpenLcm;
  _ ← modify (set_fd fd);
  if (fd : Z) <=? 0 then mret 0 else
  v ⇐ IVScreenInfo;
  match v with
  | None => _ ⇐ IClose; mret 0
  | Some v =>
      _ ← modify (set_vinfo v);
      f ⇐ IFScreenInfo;
      match f with
      | None => _ ⇐ IClose; mret 0
      | Some ll => _ ← modify (set_finfo ll); mret 1
      end
  end.

Definition _DemoLCM_SetLCMBuffer : P Z :=
  l ← get;
  m ⇐ IMmap (u32 (line_length l * fb_yres l));
  match m with
  | None => mret 0
  | Some b => _ ← modify (set_fb b); mret 1
  end.

(** The library's error handler. *)
Definition my_error_exit {A} : P (may_exit A) := _ ⇐ IDestroy; exits 0.

(** malloc: a block that could not be had is used by the next statement. *)
Definition malloc (n : Z) : P (list Z) :=
  b ⇐ IMalloc n;
  match b with None => fault NullDeref | Some b => mret b end.

(** memcpy to the start of a block from the start of another one. *)
Definition memcpy (dst src : list Z) (n : Z) : P (list Z) :=
  if n <=? Z.of_nat (length src) then lift (blit dst 0 (take (Z.to_nat n) src)) else fault OutOfBounds.

(** The rows of the picture, one after the other. *)
Fixpoint scanlines (n : nat) (off row_stride : Z) (frame : list Z) : P (may_exit (list Z)) :=
  match n with
  | O => go frame
  | S n =>
      row ⇐ IReadScanline;
      match row with
      | None => my_error_exit
      | Some row =>
          frame ← lift (blit frame off (take (Z.to_nat row_stride) row));
          scanlines n (off + row_stride) row_stride frame
      end
  end.

(** Conversions that go through a second block, which becomes the frame. *)
Definition through (width height : Z) (size : Z) (px : list Z → list Z → Z → result (list Z)) (frame : list Z) : P (list Z) :=
  l ← get;
  let n := u32 (width * height) in
  let bytes := u32 (n * u8bytes_per_pixel l) in
  tmp ← malloc bytes;
  tmp ← lift (pixel_loop size (px frame) (Z.to_nat n) 0 tmp);
  _ ⇐ IFree;
  frame ← malloc bytes;
  frame ← memcpy frame tmp bytes;
  _ ⇐ IFree;
  mret frame.

(** The format of the panel, from the number of components of the picture. *)
Definition convert (width height components : Z) (frame : list Z) : P (list Z) :=
  l ← get;
  let n := Z.to_nat (u32 (width * height)) in
  let depth := bits_per_pixel l in
  if components =? 2 then
    if depth =? 32 then through width height 4 (λ src, from_other src 2 from_rgb565) frame else mret frame
  else if components =? 3 then
    if depth =? 16 then lift (pixel_loop 2 (in_place 3 rgb_to_16) n 0 frame)
    else through width height 4 (λ src, from_other src 3 rgb_to_32) frame
  else if components =? 4 then
    if depth =? 16 then lift (pixel_loop 2 (in_place 4 bgra_to_16) n 0 frame) else mret frame
  else if components =? 1 then
    tmp ← malloc (u32 (width * height));
    tmp ← memcpy tmp frame (u32 (width * height));
    _ ⇐ IFree;
    frame ← malloc (u32 (u32 (width * height) * u8bytes_per_pixel l));
    frame ← lift (if depth =? 16 then pixel_loop 2 (from_other tmp 1 gray_to_16) n 0 frame
                  else pixel_loop 4 (from_other tmp 1 gray_to_32) n 0 frame);
    _ ⇐ IFree;
    mret frame
  else mret frame.

(** The copy to the frame buffer. *)
Definition render (width height : Z) (frame : list Z) : P unit :=
  l ← get;
  let bytes := u8bytes_per_pixel l in
  let '(display_offset, display_width) :=
    if fb_xres l <? width then (s32 (u32 (width - fb_xres l) * bytes), s32 (line_length l)) else (0, s32 (width * bytes)) in
  let display_height := if fb_yres l <? height then fb_yres l else height in
  fb ← (if (width =? fb_xres l) && (height =? fb_yres l) then
          memcpy (pLCMBuffer l) frame (u32 (fb_xres l * fb_yres l * bytes))
        else lift (render_loop (Z.to_nat display_height) (pLCMBuffer l) 0 (u32 (fb_xres l * bytes))
                     frame 0 (display_width + display_offset) display_width));
  modify (set_fb fb).

(** The scale, [enableScaleDown] being an int of the command line. *)
Definition choose_scale (enableScaleDown : Z) : P (Z * Z) :=
  if enableScaleDown =? 0 then mret (1, 1) else
  l ← get;
  d ⇐ ICalcDimensions;
  lift (fit (fb_xres l) (fb_yres l) (u16 d.1) (u16 d.2)).

Definition clear_screen : P unit :=
  l ← get;
  let n := u32 (line_length l * fb_yres l) in
  if n <=? Z.of_nat (length (pLCMBuffer l)) then
    modify (set_fb (replicate (Z.to_nat n) 0 ++ drop (Z.to_nat n) (pLCMBuffer l)))
  else fault OutOfBounds.

Definition decompress (jpeg_filename : list Z) (enableScaleDown : Z) : P (may_exit unit) :=
  ok ⇐ IFopen jpeg_filename (lit "rb");
  if negb ok then exits 1 else
  ok ⇐ IReadHeader;
  if negb ok then my_error_exit else
  s ← choose_scale enableScaleDown;
  out ⇐ IStartDecompress s.1 s.2;
  match out with
  | None => my_error_exit
  | Some (width, height, components) =>
      let row_stride := s32 (u32 (width * components)) in
      frame ← malloc (u32 (u32 (width * height) * components));
      then_ (scanlines (Z.to_nat height) 0 row_stride frame) (λ frame,
      ok ⇐ IFinishDecompress;
      if negb ok then my_error_exit else
      _ ⇐ IDestroy;
      _ ⇐ IFclose;
      ok ⇐ IFopen (lit "t.bin") (lit "wb");
      if negb ok then exits 1 else
      _ ⇐ IFwrite (take (Z.to_nat (u32 (u32 (width * height) * components))) frame);
      _ ⇐ IFclose;
      _ ⇐ IWaitVsync;
      _ ⇐ IFbLock;
      _ ← clear_screen;
      frame ← convert width height components frame;
      _ ← render width height frame;
      _ ⇐ IFbUnlock;
      _ ⇐ IFree;
      go tt)
  end.

(** ** Encoding *)

Fixpoint write_rows (n : nat) (next row_stride : Z) (image : list Z) : P (may_exit unit) :=
  match n with
  | O => go tt
  | S n =>
      let off := u32 (next * row_stride) in
      if off + row_stride <=? Z.of_nat (length image) then
        ok ⇐ IWriteScanline (sub_bytes image off row_stride);
        if negb ok then my_error_exit else write_rows n (next + 1) row_stride image
      else fault OutOfBounds
  end.

Definition compress (jpeg_filename : list Z) (quality : Z) (raw_filename : list Z) (image_width image_height : Z) : P (may_exit unit) :=
  let size := s32 (s32 (image_width * image_height) * 2) in
  image ← malloc (u32 size);
  ok ⇐ IFopen raw_filename (lit "rb");
  if negb ok then exits 1 else
  data ⇐ IFread (u32 size);
  image ← lift (blit image 0 data);
  _ ⇐ IFclose;
  ok ⇐ IFopen jpeg_filename (lit "wb");
  if negb ok then exits 1 else
  _ ⇐ ISetQuality quality;
  ok ⇐ IStartCompress (u32 image_width) (u32 image_height);
  if negb ok then my_error_exit else
  then_ (write_rows (Z.to_nat (u32 image_height)) 0 (s32 (image_width * 2)) image) (λ _,
  ok ⇐ IFinishCompress;
  if negb ok then my_error_exit else
  _ ⇐ IFclose;
  _ ⇐ IFree;
  _ ⇐ IDestroy;
  go tt).

(** [args] are the arguments with the name of the program first; the result is
    the exit status. *)
Definition main (args : list (list Z)) : P Z :=
  ok ← InitLCM;
  if (ok : Z) =? 0 then mret 1 else
  ok ← _DemoLCM_SetLCMBuffer;
  if (ok : Z) =? 0 then mret 1 else
  r ← match args with
      | [_; file; scale] => decompress file (atoi scale)
      | [_; file; quality; raw; width; height] =>
          then_ (compress file (atoi quality) raw (atoi width) (atoi height)) (λ _, decompress file 0)
      | _ => go tt
      end;
  match r with inl _ => mret 0 | inr status => mret status end.
End program.

(** ** A library that decodes

    What the library and the disk hold: the rows that are still to be read, and
    the contents of the file that was written last. *)
Record desk := Desk { rows_left : list (list (list Z)); saved : list Z }.

(** A library without errors: [pic n d] are the rows of pixels of the picture at
    the scale n / d, each pixel with [comps] bytes. *)
Class IjgLibrary (D : Type) `{Driver ireq ireply D} := {
  desk_of : D → desk;
  comps : nat;
  full_size : Z * Z;
  pic_width : Z → Z → nat;
  pic : Z → Z → list (list (list Z));
  desk_after (d : D) r : desk_of (respond d r).1 =
    match r with
    | IStartDecompress n m => Desk (pic n m) (saved (desk_of d))
    | IReadScanline => Desk (tail (rows_left (desk_of d))) (saved (desk_of d))
    | IFwrite data => Desk (rows_left (desk_of d)) data
    | _ => desk_of d
    end;
  files_open (d : D) f m : (respond d (IFopen f m)).2 = true;
  header_read (d : D) : (respond d IReadHeader).2 = true;
  size_told (d : D) : (respond d ICalcDimensions).2 = full_size;
  started (d : D) n m : (respond d (IStartDecompress n m)).2 = Some (Z.of_nat (pic_width n m), Z.of_nat (length (pic n m)), Z.of_nat comps);
  scanline_read (d : D) : (respond d IReadScanline).2 = match rows_left (desk_of d) with row :: _ => Some (mjoin row) | [] => None end;
  finished (d : D) : (respond d IFinishDecompress).2 = true;
  memory_left (d : D) n : 0 <= n → ∃ b, (respond d (IMalloc n)).2 = Some b ∧ length b = Z.to_nat n;
  comps_known : (1 <= comps <= 4)%nat;
  pic_rows n m : Forall (λ row, length row = pic_width n m ∧ pixels comps row) (pic n m);
  pic_some n m : (0 < length (pic n m))%nat;
  pic_small n m : Z.of_nat (length (pic n m) * pic_width n m * 4) < 2 ^ 31
}.

(** The pixel on the panel, for its depth in bits. *)
Definition on_panel (c : nat) (depth : Z) : list Z → list Z :=
  match c with
  | 1%nat => if depth =? 16 then gray_to_16 else gray_to_32
  | 2%nat => if depth =? 32 then from_rgb565 else id
  | 3%nat => if depth =? 16 then rgb_to_16 else rgb_to_32
  | _ => if depth =? 16 then bgra_to_16 else id
  end.

(** A panel of 16 or 32 bits whose lines have no gaps. *)
Record panel_ok (l : S_DEMO_LCM) : Prop := PanelOk {
  ok_depth : bits_per_pixel l = 16 ∨ bits_per_pixel l = 32;
  ok_bytes : u8bytes_per_pixel l = Z.quot (bits_per_pixel l) 8;
  ok_line : line_length l = fb_xres l * u8bytes_per_pixel l;
  ok_size : 1 <= fb_xres l ∧ 1 <= fb_yres l ∧ line_length l * fb_yres l < 2 ^ 31;
  ok_mapped : Z.of_nat (length (pLCMBuffer l)) = line_length l * fb_yres l }.

Lemma on_panel_size c l p : (1 <= c <= 4)%nat → panel_ok l → length p = c →
  length (on_panel c (bits_per_pixel l) p) = Z.to_nat (u8bytes_per_pixel l).
Proof.
  intros Hc [Hd Hb _ _ _] Hp. rewrite Hb. destruct Hd as [-> | ->];
    (destruct p as [|a [|b [|e [|g [|]]]]]; cbn in Hp; [lia|..|cbn in Hp; lia]; subst c; reflexivity).
Qed.

Section decoding.
Context {D : Type} `{Hlib : IjgLibrary D}.
Implicit Types w : world S_DEMO_LCM ireq D.

Definition obs w : desk := desk_of (driver w).

Lemma obs_after w r : obs (after w r) =
  match r with
  | IStartDecompress n m => Desk (pic n m) (saved (obs w))
  | IReadScanline => Desk (tail (rows_left (obs w))) (saved (obs w))
  | IFwrite data => Desk (rows_left (obs w)) data
  | _ => obs w
  end.
Proof. apply desk_after. Qed.

Lemma malloc_runs n w (Q : list Z → world S_DEMO_LCM ireq D → Prop) : 0 <= n →
  (∀ b w', length b = Z.to_nat n → vars w' = vars w → obs w' = obs w → Q b w') → runs (malloc n) w Q.
Proof.
  intros Hn HQ. unfold malloc. apply runs_request. unfold answer. destruct (memory_left (driver w) n Hn) as (b & -> & Hb).
  apply runs_ret, HQ; [done|done|]. by rewrite obs_after.
Qed.

Lemma memcpy_runs dst src n w (Q : list Z → world S_DEMO_LCM ireq D → Prop) : 0 <= n → (Z.to_nat n <= length src)%nat → (Z.to_nat n <= length dst)%nat →
  Q (take (Z.to_nat n) src ++ drop (Z.to_nat n) dst) w → runs (memcpy dst src n) w Q.
Proof.
  intros Hn Hs Hd HQ. unfold memcpy. rewrite (proj2 (Z.leb_le _ _)) by lia.
  eapply runs_lift; [apply blit_start; rewrite length_take; lia|]. rewrite length_take, Nat.min_l by lia. done.
Qed.

(** The rows fill the frame from its start. *)
Lemma scanlines_runs rw : ∀ (rows : list (list (list Z))) done rest w (Q : may_exit (list Z) → world S_DEMO_LCM ireq D → Prop),
  Forall (λ row, length (mjoin row) = rw) rows → length rest = (length rows * rw)%nat → rows_left (obs w) = rows →
  (∀ w', vars w' = vars w → saved (obs w') = saved (obs w) → Q (inl (done ++ mjoin (mjoin <$> rows))) w') →
  runs (scanlines (length rows) (Z.of_nat (length done)) (Z.of_nat rw) (done ++ rest)) w Q.
Proof.
  induction rows as [|row rows IH]; intros done rest w Q Hrw Hl Hobs HQ; cbn [scanlines length].
  { apply runs_ret. destruct rest; [|cbn in Hl; lia]. by apply HQ. }
  apply Forall_cons in Hrw as [Hr Hrw]. apply runs_request. unfold answer. rewrite scanline_read.
  change (desk_of (driver w)) with (obs w). rewrite Hobs.
  rewrite (take_ge (mjoin row)) by lia. set (w1 := after w _).
  assert (blit (done ++ rest) (Z.of_nat (length done)) (mjoin row) = Ok ((done ++ mjoin row) ++ drop rw rest)) as ->.
  { unfold blit. rewrite !(proj2 (Z.leb_le _ _)) by (rewrite ?length_app; cbn in Hl; lia). cbn [andb]. rewrite Nat2Z.id, take_app_length.
    rewrite drop_app_ge by lia. rewrite <- app_assoc. do 4 f_equal. lia. }
  apply runs_bind. eapply runs_lift; [done|]. rewrite <- Nat2Z.inj_add, <- Hr, <- length_app, Hr.
  apply IH; [done|rewrite length_drop, Hl; cbn; lia|by unfold w1; rewrite obs_after; cbn; rewrite Hobs|].
  intros w' Ev Es. rewrite <- app_assoc, <- mjoin_cons. apply HQ; [done|]. rewrite Es. unfold w1. by rewrite obs_after.
Qed.

(** A conversion through a second block. *)
Lemma through_runs c size f (pxs : list (list Z)) width height w (Q : list Z → world S_DEMO_LCM ireq D → Prop) :
  (∀ p, length p = c → length (f p) = size) → pixels c pxs → Z.of_nat (length pxs) = width * height → Z.of_nat (length pxs * size) < 2 ^ 31 → (0 < size)%nat →
  u8bytes_per_pixel (vars w) = Z.of_nat size →
  (∀ w', vars w' = vars w → obs w' = obs w → Q (mjoin (f <$> pxs)) w') →
  runs (through width height (Z.of_nat size) (λ src, from_other src c f) (mjoin pxs)) w Q.
Proof.
  intros Hf Hp Hn Hs H0 Hb HQ. unfold through. apply runs_get. rewrite Hb, <- Hn. rewrite (u32_id (Z.of_nat (length pxs))) by (unfold is_u32; nia).
  rewrite <- Nat2Z.inj_mul, u32_id by (unfold is_u32; lia). apply runs_bind, malloc_runs; [lia|]. intros tmp w1 Ht V1 E1. rewrite Nat2Z.id in *.
  apply runs_bind. eapply runs_lift; [by apply from_other_runs|]. apply runs_request. apply runs_bind, malloc_runs; [lia|].
  intros frame w2 Hfr V2 E2. assert (length (mjoin (f <$> pxs)) = (length pxs * size)%nat) as Hl.
  { rewrite (length_pixels size), length_fmap; [done|]. apply Forall_fmap. eapply Forall_impl; [exact Hp|]. exact Hf. }
  apply runs_bind, memcpy_runs; [lia|rewrite Hl; lia|lia|]. rewrite Nat2Z.id in *. rewrite take_ge by lia. rewrite drop_ge, app_nil_r by lia.
  apply runs_request, runs_ret, HQ; [by rewrite vars_after, V2, vars_after, V1|]. by rewrite obs_after, E2, obs_after, E1.
Qed.

Section formats.
Context (pxs : list (list Z)) (width height : Z) (w : world S_DEMO_LCM ireq D).
Context (Hn : Z.of_nat (length pxs) = width * height) (Hs : Z.of_nat (length pxs * 4) < 2 ^ 31).

(** A frame that starts with the converted pixels; the rest of the program's
    state and the library are as before. *)
Definition converts (f : list Z → list Z) (m : prog S_DEMO_LCM ireq D (list Z)) : Prop :=
  ∀ Q : list Z → world S_DEMO_LCM ireq D → Prop,
    (∀ rest w', vars w' = vars w → obs w' = obs w → Q (mjoin (f <$> pxs) ++ rest) w') → runs m w Q.

Lemma pixel_count : Z.to_nat (u32 (width * height)) = length pxs.
Proof. rewrite <- Hn, u32_id by (unfold is_u32; lia). lia. Qed.

Lemma same_converts : converts id (mret (mjoin pxs)).
Proof. intros Q HQ. apply runs_ret. specialize (HQ [] w). rewrite list_fmap_id, app_nil_r in HQ. auto. Qed.

Lemma in_place_converts c f : pixels c pxs → (∀ p, length p = c → length (f p) = 2%nat) → (2 <= c)%nat →
  converts f (lift (pixel_loop 2 (in_place c f) (Z.to_nat (u32 (width * height))) 0 (mjoin pxs))).
Proof.
  intros Hp Hf Hc Q HQ. rewrite pixel_count. destruct (in_place_runs f c 2 Hf pxs Hp Hc) as (rest & E & _).
  eapply runs_lift; [exact E|]. by apply HQ.
Qed.

Lemma through_converts c f size : pixels c pxs → (∀ p, length p = c → length (f p) = size) → (0 < size <= 4)%nat →
  u8bytes_per_pixel (vars w) = Z.of_nat size → converts f (through width height (Z.of_nat size) (λ src, from_other src c f) (mjoin pxs)).
Proof.
  intros Hp Hf Hsize Hb Q HQ. apply through_runs; try done; [nia|lia|]. intros w' V E. specialize (HQ [] w' V E). by rewrite app_nil_r in HQ.
Qed.

Lemma gray_converts f size : pixels 1 pxs → (∀ p, length p = 1%nat → length (f p) = size) → (0 < size <= 4)%nat →
  u8bytes_per_pixel (vars w) = Z.of_nat size →
  converts f (tmp ← malloc (u32 (width * height));
    tmp ← memcpy tmp (mjoin pxs) (u32 (width * height));
    _ ⇐ IFree;
    frame ← malloc (u32 (u32 (width * height) * u8bytes_per_pixel (vars w)));
    frame ← lift (pixel_loop (Z.of_nat size) (from_other tmp 1 f) (Z.to_nat (u32 (width * height))) 0 frame);
    _ ⇐ IFree;
    mret frame).
Proof.
  intros Hp Hf Hsize Hb Q HQ. pose proof pixel_count as Hc. pose proof (u32_range (width * height)) as Hr.
  assert (length (mjoin pxs) = length pxs) as Hl by (rewrite (length_pixels 1) by done; lia).
  apply runs_bind, malloc_runs; [apply Hr|]. intros tmp w1 Ht V1 E1. apply runs_bind, memcpy_runs; [apply Hr|lia|lia|].
  rewrite Hc in *. rewrite take_ge by lia. rewrite drop_ge, app_nil_r by lia. apply runs_request.
  rewrite Hb. assert (u32 (width * height) = Z.of_nat (length pxs)) as -> by (destruct Hr; lia). rewrite <- Nat2Z.inj_mul, u32_id by (unfold is_u32; nia).
  apply runs_bind, malloc_runs; [lia|]. rewrite Nat2Z.id. intros frame w2 Hfr V2 E2. apply runs_bind. eapply runs_lift; [by apply from_other_runs|].
  apply runs_request, runs_ret. specialize (HQ [] (after w2 IFree)). rewrite app_nil_r in HQ. apply HQ.
  - by rewrite vars_after, V2, vars_after, V1.
  - by rewrite obs_after, E2, obs_after, E1.
Qed.

(** Decides the tests of [convert] for given components and depth. *)
Ltac choose_format :=
  cbn [on_panel] in *; change (16 =? 32) with false in *; change (16 =? 16) with true in *; change (32 =? 32) with true in *; change (32 =? 16) with false in *;
  repeat match goal with |- context [Z.of_nat ?n =? ?m] => let b := eval vm_compute in (Z.of_nat n =? m) in change (Z.of_nat n =? m) with b end;
  cbv iota in *.

(** Every format of the picture on both kinds of panel. *)
Lemma convert_runs : panel_ok (vars w) → pixels comps pxs →
  converts (on_panel comps (bits_per_pixel (vars w))) (convert width height (Z.of_nat comps) (mjoin pxs)).
Proof.
  intros Hok Hp Q HQ. unfold convert. apply runs_get. pose proof (λ p, on_panel_size comps (vars w) p comps_known Hok) as Hsize.
  pose proof comps_known as Hc. destruct (ok_depth _ Hok) as [Ed|Ed]; pose proof (ok_bytes _ Hok) as Eb; rewrite Ed in *; rewrite Eb in Hsize.
  - destruct comps as [|[|[|[|[|]]]]]; [lia|..|lia]; choose_format.
    + apply (gray_converts gray_to_16 2); done || lia.
    + by apply same_converts.
    + apply in_place_converts; done || lia.
    + apply in_place_converts; done || lia.
  - destruct comps as [|[|[|[|[|]]]]]; [lia|..|lia]; choose_format.
    + apply (gray_converts gray_to_32 4); done || lia.
    + apply (through_converts 2 from_rgb565 4); done || lia.
    + apply (through_converts 3 rgb_to_32 4); done || lia.
    + by apply same_converts.
Qed.
End formats.

(** Rendering on a screen that was cleared. *)
Lemma render_runs (rows : list (list Z)) rw width rest w (Q : unit → world S_DEMO_LCM ireq D → Prop) : panel_ok (vars w) →
  pLCMBuffer (vars w) = replicate (Z.to_nat (fb_yres (vars w)) * Z.to_nat (line_length (vars w))) 0 →
  pixels rw rows → Z.of_nat rw = width * u8bytes_per_pixel (vars w) → Z.of_nat rw < 2 ^ 31 → 0 <= width →
  (∀ w', vars w' = set_fb (shown (Z.to_nat (line_length (vars w))) (Z.to_nat (fb_yres (vars w))) rows) (vars w) → obs w' = obs w → Q tt w') →
  runs (render width (Z.of_nat (length rows)) (mjoin rows ++ rest)) w Q.
Proof.
  intros Hok Hfb Hp Hrw Hs H0 HQ. destruct Hok as [Hd Hb Hl (Hx & Hy & Hsize) _]. set (l := vars w) in *.
  assert (u8bytes_per_pixel l = 2 ∨ u8bytes_per_pixel l = 4) as Hbytes by (rewrite Hb; destruct Hd as [-> | ->]; [left|right]; done).
  set (b := u8bytes_per_pixel l) in *. set (L := Z.to_nat (line_length l)) in *. set (Y := Z.to_nat (fb_yres l)) in *.
  assert (Z.of_nat L = fb_xres l * b) as EL by (unfold L; nia). assert (Z.of_nat Y = fb_yres l) as EY by (unfold Y; lia).
  unfold render. apply runs_get. fold l b. destruct (_ && _) eqn:Esame.
  - zcmp. assert (rw = L) as Er by nia. assert (length rows = Y) as Eh by lia.
    assert (u32 (fb_xres l * fb_yres l * b) = Z.of_nat (Y * L)) as -> by (rewrite u32_id by (unfold is_u32; nia); nia).
    destruct (if fb_xres l <? width then _ else _). rewrite Hfb. apply runs_bind, memcpy_runs; rewrite ?Nat2Z.id; [lia| | |].
    + rewrite length_app, (length_pixels rw) by done. subst rw. rewrite Eh. lia.
    + rewrite length_replicate. lia.
    + apply runs_modify. rewrite drop_ge, app_nil_r by (rewrite length_replicate; lia).
      rewrite take_app_le, take_ge by (rewrite (length_pixels rw) by done; subst rw; rewrite Eh; lia).
      rewrite <- (shown_whole L rw Y rows Hp Er Eh). by apply HQ.
  - assert (Hw : (if fb_xres l <? width then (s32 (u32 (width - fb_xres l) * b), s32 (line_length l)) else (0, s32 (width * b)))
      = (Z.of_nat rw - Z.of_nat (Nat.min L rw), Z.of_nat (Nat.min L rw))).
    { destruct (Z.ltb_spec (fb_xres l) width).
      - rewrite u32_id by (unfold is_u32; nia). rewrite !s32_id by (unfold is_s32; nia). f_equal; nia.
      - rewrite s32_id by (unfold is_s32; nia). f_equal; nia. }
    rewrite Hw. replace (Z.of_nat (Nat.min L rw) + (Z.of_nat rw - Z.of_nat (Nat.min L rw))) with (Z.of_nat rw) by lia.
    replace (Z.to_nat (if fb_yres l <? Z.of_nat (length rows) then fb_yres l else Z.of_nat (length rows))) with (Nat.min (length rows) Y)
      by (destruct (Z.ltb_spec (fb_yres l) (Z.of_nat (length rows))); lia).
    rewrite (u32_id (fb_xres l * b)) by (unfold is_u32; nia). rewrite <- EL, Hfb.
    apply runs_bind. eapply runs_lift; [by apply render_shown|]. apply runs_modify. by apply HQ.
Qed.

(** ** The picture on the screen *)

Lemma mjoin_rows {A} (f : A → list Z) (rows : list (list A)) : mjoin (f <$> mjoin rows) = mjoin ((λ row, mjoin (f <$> row)) <$> rows).
Proof.
  induction rows as [|row rows IH]; [done|]. change (mjoin (row :: rows)) with (row ++ mjoin rows).
  rewrite fmap_app, join_app, IH. done.
Qed.

Lemma mjoin_mjoin (rows : list (list (list Z))) : mjoin ((λ row, mjoin row) <$> rows) = mjoin (mjoin rows).
Proof.
  induction rows as [|row rows IH]; [done|]. change (mjoin (row :: rows)) with (row ++ mjoin rows).
  rewrite fmap_cons, mjoin_cons, IH, join_app. done.
Qed.

Lemma pixels_rows n m : pixels comps (mjoin (pic n m)) ∧ length (mjoin (pic n m)) = (length (pic n m) * pic_width n m)%nat.
Proof.
  pose proof (pic_rows n m) as Hr. induction Hr as [|row rows [Hw Hp] _ [IHp IHl]]; [split; [constructor|done]|].
  change (mjoin (row :: rows)) with (row ++ mjoin rows). split; [by apply Forall_app|]. rewrite length_app, IHl, Hw. cbn. lia.
Qed.

(** A row of the picture as the panel wants it. *)
Definition screen_row (l : S_DEMO_LCM) (row : list (list Z)) : list Z := mjoin (on_panel comps (bits_per_pixel l) <$> row).

Lemma screen_rows l n m : panel_ok l → pixels (pic_width n m * Z.to_nat (u8bytes_per_pixel l)) (screen_row l <$> pic n m).
Proof.
  intros Hok. apply Forall_fmap. eapply Forall_impl; [exact (pic_rows n m)|]. intros row [Hw Hp]. unfold screen_row, compose.
  rewrite (length_pixels (Z.to_nat (u8bytes_per_pixel l))), length_fmap, Hw; [done|]. apply Forall_fmap.
  eapply Forall_impl; [exact Hp|]. intros p Hlen. by apply on_panel_size; [apply comps_known|..].
Qed.

(** The scale for an argument [enable] of the command line. *)
Definition scale_chosen (l : S_DEMO_LCM) (enable n m : Z) : Prop :=
  if enable =? 0 then (n, m) = (1, 1)
  else fit_result (fb_xres l) (fb_yres l) (u16 (full_size.1)) (u16 (full_size.2)) (Ok (n, m)).

Lemma choose_scale_runs enable w (Q : Z * Z → world S_DEMO_LCM ireq D → Prop) : panel_ok (vars w) →
  (∀ n m w', vars w' = vars w → scale_chosen (vars w) enable n m → Q (n, m) w') → runs (choose_scale enable) w Q.
Proof.
  intros Hok HQ. unfold choose_scale. unfold scale_chosen in HQ. destruct (enable =? 0); [by apply runs_ret, HQ|].
  apply runs_get, runs_request. unfold answer. rewrite size_told. destruct (ok_size _ Hok) as (Hx & Hy & _).
  pose proof (fit_spec (fb_xres (vars w)) (fb_yres (vars w)) (u16 (full_size.1)) (u16 (full_size.2)) Hx Hy (u16_range _) (u16_range _)) as Hfit.
  assert (∃ n m, fit (fb_xres (vars w)) (fb_yres (vars w)) (u16 (full_size.1)) (u16 (full_size.2)) = Ok (n, m)) as (n & m & E).
  { destruct Hfit as [(_ & _ & E)|(_ & d & E & _)]; eauto. }
  rewrite E in Hfit. eapply runs_lift; [exact E|]. by apply HQ.
Qed.

Lemma clear_screen_runs w (Q : unit → world S_DEMO_LCM ireq D → Prop) : panel_ok (vars w) →
  Q tt (with_vars w (set_fb (replicate (Z.to_nat (fb_yres (vars w)) * Z.to_nat (line_length (vars w))) 0) (vars w))) → runs clear_screen w Q.
Proof.
  intros [Hd Hb Hl (Hx & Hy & Hsize) Hm] HQ. unfold clear_screen. apply runs_get.
  assert (0 <= line_length (vars w)) by (rewrite Hl, Hb; destruct Hd as [-> | ->]; [change (Z.quot 16 8) with 2|change (Z.quot 32 8) with 4]; lia).
  rewrite u32_id by (unfold is_u32; nia). rewrite (proj2 (Z.leb_le _ _)) by lia. apply runs_modify.
  rewrite drop_ge, app_nil_r by lia. by replace (Z.to_nat (line_length (vars w) * fb_yres (vars w))) with (Z.to_nat (fb_yres (vars w)) * Z.to_nat (line_length (vars w)))%nat by nia.
Qed.

(** The last part of the decoder: the decoded bytes are brought to the screen. *)
Lemma show_runs n m w (Q : may_exit unit → world S_DEMO_LCM ireq D → Prop) : panel_ok (vars w) →
  (∀ w', pLCMBuffer (vars w') = shown (Z.to_nat (line_length (vars w))) (Z.to_nat (fb_yres (vars w))) (screen_row (vars w) <$> pic n m) →
    obs w' = obs w → Q (inl tt) w') →
  runs (_ ← clear_screen;
    frame ← convert (Z.of_nat (pic_width n m)) (Z.of_nat (length (pic n m))) (Z.of_nat comps) (mjoin (mjoin (pic n m)));
    _ ← render (Z.of_nat (pic_width n m)) (Z.of_nat (length (pic n m))) frame;
    _ ⇐ IFbUnlock; _ ⇐ IFree; go tt) w Q.
Proof.
  set (l := vars w). intros Hok HQ. apply runs_bind, clear_screen_runs; [done|]. fold l. set (black := replicate _ 0). set (l' := set_fb black l).
  assert (panel_ok l') as Hok'.
  { destruct Hok as [Hd Hb Hl Hsz Hm]. split; try done. unfold l', black. cbn [pLCMBuffer set_fb]. rewrite length_replicate.
    change (line_length (set_fb _ ?l0)) with (line_length l0). change (fb_yres (set_fb _ ?l0)) with (fb_yres l0). nia. }
  destruct (pixels_rows n m) as [Hp Hlen]. pose proof (pic_small n m) as Hs. pose proof (pic_some n m) as H1.
  apply runs_bind, (convert_runs (mjoin (pic n m))); [rewrite Hlen; nia|rewrite Hlen; nia|done|done|]. intros rest w5 V5 E5. rewrite vars_with in V5 |- *.
  rewrite mjoin_rows. change (λ row, mjoin (on_panel comps (bits_per_pixel l') <$> row)) with (screen_row l).
  apply runs_bind. replace (Z.of_nat (length (pic n m))) with (Z.of_nat (length (screen_row l <$> pic n m))) by (by rewrite length_fmap).
  assert (u8bytes_per_pixel l = 2 ∨ u8bytes_per_pixel l = 4) as Hb by (rewrite (ok_bytes _ Hok); destruct (ok_depth _ Hok) as [-> | ->]; [left|right]; done).
  apply (render_runs _ (pic_width n m * Z.to_nat (u8bytes_per_pixel l))); rewrite ?V5; [done|done|by apply screen_rows| | |lia|].
  { rewrite Nat2Z.inj_mul, Z2Nat.id by lia. done. }
  { rewrite Nat2Z.inj_mul, Z2Nat.id by lia. destruct Hb as [E|E]; rewrite E; nia. }
  intros w6 V6 E6. do 2 apply runs_request. apply runs_ret, HQ; rewrite ?vars_after, ?obs_after; [by rewrite V6|by rewrite E6, E5].
Qed.

(** C36: Decoding shows the picture and ends: at the scale that was asked for,
    every pixel of the picture that lies on the panel is converted from the
    format of the library -- gray, RGB565, RGB or BGRA -- to the depth of the
    panel and stands in its place of the frame buffer, the rest of which is
    black; the decoded bytes are also written to a file. *)
Theorem picture_on_screen file enable w : panel_ok (vars w) →
  runs (decompress file enable) w (λ r w', r = inl tt ∧ ∃ n m, scale_chosen (vars w) enable n m ∧
    pLCMBuffer (vars w') = shown (Z.to_nat (line_length (vars w))) (Z.to_nat (fb_yres (vars w))) (screen_row (vars w) <$> pic n m) ∧
    saved (obs w') = mjoin (mjoin (pic n m))).
Proof.
  intros Hok. unfold decompress. apply runs_request. unfold answer. rewrite files_open. cbn [negb]. apply runs_request. unfold answer. rewrite header_read. cbn [negb].
  apply runs_bind, choose_scale_runs; [done|]. intros n m w1 V1 Hscale. rewrite !vars_after in V1, Hscale.
  apply runs_request. unfold answer. rewrite started. cbn [fst snd].
  destruct (pixels_rows n m) as [Hp Hlen]. pose proof (pic_small n m) as Hs. pose proof (pic_some n m) as H1. pose proof comps_known as Hc.
  rewrite <- !Nat2Z.inj_mul. rewrite (u32_id (Z.of_nat (pic_width n m * length (pic n m)))) by (unfold is_u32; nia).
  rewrite <- Nat2Z.inj_mul, u32_id by (unfold is_u32; nia). rewrite u32_id, s32_id by (unfold is_u32, is_s32; nia).
  rewrite Nat2Z.id. apply runs_bind, malloc_runs; [lia|]. intros frame w2 Hfr V2 E2. rewrite Nat2Z.id in Hfr.
  unfold then_. apply runs_bind. apply (scanlines_runs (pic_width n m * comps) (pic n m) [] frame); [|rewrite Hfr; lia|by rewrite E2, obs_after|].
  { eapply Forall_impl; [exact (pic_rows n m)|]. intros row [Hr1 Hr2]. by rewrite (length_pixels comps), Hr1. }
  intros w3 V3 _. cbn [app]. rewrite Nat2Z.id, mjoin_mjoin.
  apply runs_request. unfold answer. rewrite finished. cbn [negb]. do 2 apply runs_request. apply runs_request. unfold answer. rewrite files_open. cbn [negb].
  apply runs_request. rewrite take_ge by (rewrite (length_pixels comps) by done; rewrite Hlen; lia).
  do 3 apply runs_request. match goal with |- runs _ ?w0 _ => set (w4 := w0) end.
  assert (vars w4 = vars w) as V4 by (unfold w4; rewrite !vars_after, V3, V2, !vars_after, V1; done).
  assert (saved (obs w4) = mjoin (mjoin (pic n m))) as S4 by (unfold w4; rewrite !obs_after; done). clearbody w4.
  apply show_runs; [by rewrite V4|]. intros w5 F5 E5. split; [done|]. exists n, m. rewrite V4 in F5. split; [done|]. split; [done|]. by rewrite E5.
Qed.
End decoding.

(** ** Encoding a raw picture *)

(** A library that encodes, and a raw file of the right size. *)
Class IjgEncoder (D : Type) `{Driver ireq ireply D} := {
  raw : Z → list Z;
  raw_read (d : D) n : (respond d (IFread n)).2 = raw n;
  raw_whole n : 0 <= n → length (raw n) = Z.to_nat n;
  enc_files_open (d : D) f m : (respond d (IFopen f m)).2 = true;
  enc_started (d : D) x y : (respond d (IStartCompress x y)).2 = true;
  enc_row_taken (d : D) row : (respond d (IWriteScanline row)).2 = true;
  enc_finished (d : D) : (respond d IFinishCompress).2 = true;
  enc_memory (d : D) n : 0 <= n → ∃ b, (respond d (IMalloc n)).2 = Some b ∧ length b = Z.to_nat n
}.

Section encoding.
Context {D : Type} `{Henc : IjgEncoder D}.
Implicit Types w : world S_DEMO_LCM ireq D.

(** The rows that are still to be handed over are at the end of the block. *)
Lemma write_rows_runs stride : ∀ (rows : list (list Z)) front next w (Q : may_exit unit → world S_DEMO_LCM ireq D → Prop),
  pixels stride rows → length front = (next * stride)%nat → Z.of_nat (length front + length rows * stride) < 2 ^ 31 → Z.of_nat stride < 2 ^ 31 →
  (∀ w', vars w' = vars w → trace w' = trace w ++ (IWriteScanline <$> rows) → Q (inl tt) w') →
  runs (write_rows (length rows) (Z.of_nat next) (Z.of_nat stride) (front ++ mjoin rows)) w Q.
Proof.
  induction rows as [|row rows IH]; intros front next w Q Hp Hf Hs Hst HQ; cbn [write_rows length].
  { apply runs_ret, HQ; [done|]. by rewrite app_nil_r. }
  apply Forall_cons in Hp as [Hr Hp]. cbn [length] in Hs. rewrite <- Nat2Z.inj_mul, <- Hf, u32_id by (unfold is_u32; lia).
  rewrite (proj2 (Z.leb_le _ _)) by (rewrite length_app, mjoin_cons, length_app, Hr; lia).
  unfold sub_bytes. rewrite !Nat2Z.id, drop_app_length, mjoin_cons, take_app_le, take_ge by lia.
  apply runs_request. unfold answer. rewrite enc_row_taken. cbn [negb]. rewrite app_assoc.
  replace (Z.of_nat next + 1) with (Z.of_nat (S next)) by lia.
  apply IH; [done|rewrite length_app, Hr; lia|rewrite length_app, Hr; lia|done|]. intros w' V T. apply HQ; [done|].
  rewrite T, trace_after, <- app_assoc. done.
Qed.

(** The rows of a block: [n] pieces of [k] bytes. *)
Fixpoint pieces (n k : nat) (l : list Z) : list (list Z) :=
  match n with O => [] | S n => take k l :: pieces n k (drop k l) end.

Lemma pieces_spec n k : ∀ l, length l = (n * k)%nat → pixels k (pieces n k l) ∧ mjoin (pieces n k l) = l ∧ length (pieces n k l) = n.
Proof.
  induction n as [|n IH]; intros l Hl; cbn [pieces].
  - destruct l; [|done]. split; [constructor|done].
  - destruct (IH (drop k l)) as (Hp & Hj & Hn); [rewrite length_drop; lia|]. split; [constructor; [rewrite length_take; lia|done]|].
    split; [by rewrite mjoin_cons, Hj, take_drop|]. cbn. by rewrite Hn.
Qed.

(** Encoding hands the raw picture to the library row by row, in order and
    complete, between the start and the end of the compression. *)
Theorem rows_are_compressed jpeg quality raw_name width height w :
  0 < width → 0 < height → width * height * 2 < 2 ^ 31 →
  let size := width * height * 2 in
  runs (compress jpeg quality raw_name width height) w (λ r w', r = inl tt ∧ vars w' = vars w ∧ ∃ rows,
    mjoin rows = raw size ∧ Z.of_nat (length rows) = height ∧ Forall (λ row, Z.of_nat (length row) = width * 2) rows ∧
    trace w' = trace w ++ [IMalloc size; IFopen raw_name (lit "rb"); IFread size; IFclose; IFopen jpeg (lit "wb"); ISetQuality quality; IStartCompress width height]
      ++ (IWriteScanline <$> rows) ++ [IFinishCompress; IFclose; IFree; IDestroy]).
Proof.
  intros Hw Hh Hs size. unfold compress. rewrite (s32_id (width * height)), s32_id by (unfold is_s32; nia). fold size.
  rewrite u32_id by (unfold is_u32; nia). apply runs_bind. unfold malloc. apply runs_request. unfold answer.
  destruct (enc_memory (driver w) size) as (b & -> & Hb); [nia|]. apply runs_ret. apply runs_request. unfold answer. rewrite enc_files_open. cbn [negb].
  apply runs_request. unfold answer. rewrite raw_read. apply runs_bind. pose proof (raw_whole size ltac:(nia)) as Hraw.
  eapply runs_lift; [apply blit_start; lia|]. rewrite drop_ge, app_nil_r by lia. apply runs_request, runs_request. unfold answer. rewrite enc_files_open. cbn [negb].
  apply runs_request, runs_request. unfold answer. rewrite enc_started. cbn [negb]. rewrite (u32_id width), (u32_id height) by (unfold is_u32; nia).
  rewrite (s32_id (width * 2)) by (unfold is_s32; nia).
  destruct (pieces_spec (Z.to_nat height) (Z.to_nat (width * 2)) (raw size)) as (Hp & Hj & Hn); [rewrite Hraw; unfold size; nia|].
  set (rows := pieces _ _ _) in *. unfold then_. apply runs_bind.
  pose proof (write_rows_runs (Z.to_nat (width * 2)) rows [] 0) as Hrows. cbn [app length] in Hrows. rewrite Hj, Hn, Z2Nat.id in Hrows by lia.
  apply Hrows; [done|done|unfold size in *; nia|nia|]. intros w1 V1 T1.
  apply runs_request. unfold answer. rewrite enc_finished. cbn [negb]. do 3 apply runs_request. apply runs_ret.
  split; [done|]. split; [by rewrite !vars_after, V1|]. exists rows. split; [done|]. split; [lia|]. split.
  - eapply Forall_impl; [exact Hp|]. cbn. intros row Hr. lia.
  - rewrite !trace_after, T1, !trace_after. rewrite <- !app_assoc. done.
Qed.
End encoding.

(** ** Limits and witnesses *)

(** A picture of two rows of three pixels on a panel; the frame buffer holds
    something else before. *)
Definition demo_rows : list (list (list Z)) := [[[255; 0; 0]; [0; 255; 0]; [0; 0; 255]]; [[8; 8; 8]; [16; 16; 16]; [255; 255; 255]]].

Definition demo_answer (d : desk) (r : ireq) : ireply r :=
  match r with
  | IOpenLcm => 3
  | IVScreenInfo => Some (2, 3, 16)
  | IFScreenInfo => Some 4
  | IMmap n | IMalloc n => Some (replicate (Z.to_nat n) 7)
  | IReadScanline => match rows_left d with row :: _ => Some (mjoin row) | [] => None end
  | IFread n => replicate (Z.to_nat n) 1
  | IFopen _ _ | IReadHeader | IFinishDecompress | IStartCompress _ _ | IWriteScanline _ | IFinishCompress => true
  | ICalcDimensions => (3, 2)
  | IStartDecompress _ _ => Some (3, 2, 3)
  | _ => tt
  end.

#[export] Instance demo_library : Driver ireq ireply desk := λ d r,
  (match r with
   | IStartDecompress n m => Desk demo_rows (saved d)
   | IReadScanline => Desk (tail (rows_left d)) (saved d)
   | IFwrite data => Desk (rows_left d) data
   | _ => d
   end, demo_answer d r).

#[export] Instance demo_decodes : IjgLibrary desk.
Proof.
  refine {| desk_of := id; comps := 3; full_size := (3, 2); pic_width := λ _ _, 3%nat; pic := λ _ _, demo_rows |}; try done.
  - intros d n Hn. eexists. split; [done|]. by rewrite length_replicate.
  - lia.
  - intros _ _. repeat (constructor; [split; [done|by repeat constructor]|]). constructor.
  - cbn. lia.
Defined.

Definition demo_panel (bpp line_length : Z) : S_DEMO_LCM :=
  Lcm 3 (replicate (Z.to_nat (line_length * 3)) 7) 2 3 bpp line_length (bpp / 8).

(** The third pixel of each row does not fit the panel, its last row stays
    black. *)
Lemma picture_on_screen_witness : ∃ w',
  decompress (lit "a.jpg") 0 (World (demo_panel 16 4) (Desk [] []) []) = Ok (inl tt, w') ∧
  pLCMBuffer (vars w') = [0; 248; 224; 7;  65; 8; 130; 16;  0; 0; 0; 0] ∧ saved (obs w') = mjoin (mjoin demo_rows).
Proof.
  destruct (picture_on_screen (lit "a.jpg") 0 (World (demo_panel 16 4) (Desk [] []) [])) as (r & w' & E & -> & n & m & _ & Hfb & Hs).
  - split; [by left|done|done|by vm_compute|done].
  - exists w'. split; [exact E|]. split; [|exact Hs]. rewrite Hfb. by vm_compute.
Defined.

(** When the lines of the panel have gaps, the steps are wrong: the second row is
    drawn over the gap of the first one, and is taken from the wrong place of the
    picture, one pixel too far and then beyond its end. *)
Lemma gap_is_ignored : ∃ w', decompress (lit "a.jpg") 0 (World (demo_panel 16 6) (Desk [] []) []) = Ok (inl tt, w') ∧
  take 12 (pLCMBuffer (vars w')) = [0; 248; 224; 7;  130; 16; 255; 255; 16; 16; 0; 0].
Proof. eexists. split; [vm_compute; reflexivity|]. vm_compute. reflexivity. Qed.

(** On a panel of 24 bits the fourth byte of the last pixel is stored behind the
    block. *)
Lemma panel_of_24_bits_overruns : decompress (lit "a.jpg") 0 (World (demo_panel 24 6) (Desk [] []) []) = Crash OutOfBounds.
Proof. by vm_compute. Qed.

(** A raw file that is too short is compressed with what the block happened to
    hold. *)
Lemma short_raw_file {D} `{Driver ireq ireply D} jpeg q raw_name (w : world S_DEMO_LCM ireq D) :
  (∀ d n, (respond d (IFread n)).2 = []) → (∀ d n, (respond d (IMalloc n)).2 = Some (replicate (Z.to_nat n) 7)) →
  (∀ d f m, (respond d (IFopen f m)).2 = true) → (∀ d x y, (respond d (IStartCompress x y)).2 = true) →
  (∀ d row, (respond d (IWriteScanline row)).2 = true) → (∀ d, (respond d IFinishCompress).2 = true) →
  ∃ w', compress jpeg q raw_name 1 1 w = Ok (inl tt, w') ∧ IWriteScanline [7; 7] ∈ trace w'.
Proof.
  intros Hread Hm Hopen Hstart Hwrite Hfin.
  assert (runs (compress jpeg q raw_name 1 1) w (λ r w', r = inl tt ∧ IWriteScanline [7; 7] ∈ trace w')) as (r & w' & E & -> & Ht); [|eauto].
  unfold compress, malloc. apply runs_bind, runs_request. unfold answer. rewrite Hm. apply runs_ret, runs_request. unfold answer. rewrite Hopen. cbn [negb].
  apply runs_request. unfold answer. rewrite Hread. apply runs_bind. eapply runs_lift; [done|]. apply runs_request, runs_request. unfold answer. rewrite Hopen. cbn [negb].
  apply runs_request, runs_request. unfold answer. rewrite Hstart. cbn [negb]. unfold then_. apply runs_bind.
  change (Z.to_nat (u32 1)) with 1%nat. cbn [write_rows]. apply runs_request. unfold answer. rewrite Hwrite. cbn [negb]. apply runs_ret.
  apply runs_request. unfold answer. rewrite Hfin. cbn [negb]. do 3 apply runs_request. apply runs_ret. split; [done|].
  rewrite !trace_after. do 4 (apply elem_of_app; left). apply elem_of_app. right. by left.
Qed.
