(* ===== verification/Osd.v ===== *)
(** * Osd: the demo of the on-screen display

    Models src/osd/osd_demo.c: a background picture in the memory of the panel,
    and an overlay above it with a battery, a signal strength and a counter,
    whose pictures come from files; in the end a second picture is stored over
    the overlay.  The display, the files and the memory are a [Driver]; what is on
    the overlay, whose memory is the second half of the mapping, is read off the
    requests, the stores into the mapping among them. *)
From S2P Require Import Prelude LibC Bytes Device Runs.
Local Open Scope cmodel_scope.
Local Open Scope Z_scope.

(** ** Data *)

Inductive OSD_Command := OSD_Close | OSD_Open | OSD_Show | OSD_Hide | OSD_Clear | OSD_Fill | OSD_FillBlock | OSD_SetTrans.

(** osd_cmd_t; a field that was never set has no value. *)
Record osd_cmd := OsdCmd { cmd : option OSD_Command; x0 : option Z; y0 : option Z; x0_size : option Z; y0_size : option Z; color : option Z }.
Definition no_cmd : osd_cmd := OsdCmd None None None None None None.
Definition set_cmd c b := OsdCmd (Some c) (x0 b) (y0 b) (x0_size b) (y0_size b) (color b).
Definition set_rect x y w h b := OsdCmd (cmd b) (Some x) (Some y) (Some w) (Some h) (color b).
Definition set_color c b := OsdCmd (cmd b) (x0 b) (y0 b) (x0_size b) (y0_size b) (Some c).

Inductive oreq :=
| OOpen | OVarInfo | OMmap (len : Z) | OCmd (c : osd_cmd) | OWrite (data : list Z) | OClose
| OStore (off : Z) (data : list Z)
| OFopen (name : list Z) | OFread (fp n : Z) | OFclose (fp : Z) | OMalloc (n : Z) | OSleep (s : Z).

(** fopen() answers with the stream, fread() with the bytes.  [OStore] is a store
    into the mapping, which the display shows. *)
Definition oreply (r : oreq) : Type :=
  match r with
  | OOpen | OWrite _ => Z
  | OVarInfo => option (Z * Z * Z)
  | OMmap _ | OFread _ _ => option (list Z)
  | OFopen _ => option Z
  | OMalloc _ => bool
  | _ => unit
  end.

(** The three sets of pictures. *)
Inductive kind := Number | Bettery | RSSI.
Definition kind_num (k : kind) : nat := match k with Number => 10 | Bettery => 4 | RSSI => 4 end.
Definition kind_size (k : kind) : Z := match k with Number => 14 * 20 * 2 | Bettery => 40 * 22 * 2 | RSSI => 30 * 20 * 2 end.
(** The place of the digit in the name of the file. *)
Definition kind_digit (k : kind) : Z := match k with Number => 8 | Bettery => 17 | RSSI => 14 end.

(** The static variables: the buffers, [None] for NULL, and the names of the
    files; the memory of the panel. *)
Record osd := Osd {
  pBufNumber : list (option (list Z)); fnNumber : list Z;
  pBufBettery : list (option (list Z)); fnBettery : list Z;
  pBufRSSI : list (option (list Z)); fnRSSI : list Z;
  pVideoBuffer : list Z; g_xres : Z; g_yres : Z }.

Definition osd_init : osd :=
  Osd (replicate 10 None) (lit "pattern/0_RGB565.bin") (replicate 4 None) (lit "pattern/battery001_RGB565.bin")
    (replicate 4 None) (lit "pattern/RSSI_00_RGB565.bin") [] 0 0.

Definition bufs (k : kind) (s : osd) := match k with Number => pBufNumber s | Bettery => pBufBettery s | RSSI => pBufRSSI s end.
Definition names (k : kind) (s : osd) := match k with Number => fnNumber s | Bettery => fnBettery s | RSSI => fnRSSI s end.
Definition set_kind (k : kind) b n (s : osd) : osd :=
  match k with
  | Number => Osd b n (pBufBettery s) (fnBettery s) (pBufRSSI s) (fnRSSI s) (pVideoBuffer s) (g_xres s) (g_yres s)
  | Bettery => Osd (pBufNumber s) (fnNumber s) b n (pBufRSSI s) (fnRSSI s) (pVideoBuffer s) (g_xres s) (g_yres s)
  | RSSI => Osd (pBufNumber s) (fnNumber s) (pBufBettery s) (fnBettery s) b n (pVideoBuffer s) (g_xres s) (g_yres s)
  end.
Definition set_screen v xres yres (s : osd) : osd :=
  Osd (pBufNumber s) (fnNumber s) (pBufBettery s) (fnBettery s) (pBufRSSI s) (fnRSSI s) v xres yres.
Definition set_video v (s : osd) : osd := set_screen v (g_xres s) (g_yres s) s.

Section program.
Context {D : Type} `{Driver oreq oreply D}.
Notation P := (prog osd oreq D).

(** ** The pictures *)

(** One picture: the file that the name says now, into a new buffer. *)
Definition load_image (k : kind) (i : Z) : P (may_exit unit) :=
  s ← get;
  fp ⇐ OFopen (names k s);
  ok ⇐ OMalloc (kind_size k);
  match fp with
  | None => exits 0
  | Some fp =>
      if negb ok then fault NullDeref else
      data ⇐ OFread fp (kind_size k);
      match data with
      | Some data =>
          b ← lift (wr (bufs k s) i (Some data));
          _ ⇐ OFclose fp;
          c ← lift (rd (names k s) (kind_digit k));
          n ← lift (wr (names k s) (kind_digit k) (u8 (c + 1)));
          _ ← modify (set_kind k b n);
          go tt
      | None => exits 0
      end
  end.

Fixpoint load_loop (k : kind) (n : nat) (i : Z) : P (may_exit unit) :=
  match n with
  | O => go tt
  | S n => then_ (load_image k i) (λ _, load_loop k n (i + 1))
  end.

Definition load_images : P (may_exit unit) :=
  then_ (load_loop Number (kind_num Number) 0) (λ _,
  then_ (load_loop Bettery (kind_num Bettery) 0) (λ _,
  load_loop RSSI (kind_num RSSI) 0)).

(** ** The overlay *)

(** The picture in equal pieces. *)
Fixpoint write_parts (n : nat) (buf : list Z) (off size : Z) : P unit :=
  match n with
  | O => mret tt
  | S n => _ ⇐ OWrite (sub_bytes buf off size); write_parts n buf (off + size) size
  end.

(** A block with its picture, sent in [parts] pieces. *)
Definition fill_block (b : osd_cmd) (x y w h : Z) (k : kind) (i : Z) (parts : nat) : P osd_cmd :=
  let b := set_rect x y w h (set_cmd OSD_FillBlock b) in
  _ ⇐ OCmd b;
  s ← get;
  p ← lift (rd (bufs k s) i);
  match p with
  | None => fault NullDeref
  | Some buf => _ ← write_parts parts buf 0 (Z.quot (kind_size k) (Z.of_nat parts)); mret b
  end.

Definition show_turn (b : osd_cmd) (i : Z) : P osd_cmd :=
  s ← get;
  b ← fill_block b (s32 (g_xres s - 40 - 20)) 30 40 22 Bettery (Z.rem (i - 1) 4) 8;
  b ← fill_block b 20 30 30 20 RSSI (Z.rem (i - 1) 4) 4;
  b ← fill_block b 20 (s32 (g_yres s - 20 - 30)) 14 20 Number (Z.quot i 10) 4;
  fill_block b 40 (s32 (g_yres s - 20 - 30)) 14 20 Number (Z.rem i 10) 4.

Fixpoint show_loop (fuel : nat) (b : osd_cmd) (i : Z) : P unit :=
  match fuel with
  | O => fault OutOfFuel
  | S fuel =>
      b ← show_turn b i;
      if 5 <? i + 1 then mret tt else
      _ ⇐ OSleep 1;
      show_loop fuel b (i + 1)
  end.
Definition show_osd : P unit := show_loop 5 no_cmd 1.

(** ** The program *)

(** The file for the size of the screen; there is none for other sizes. *)
Definition picture_for (size : Z) (a b c : string) : option (list Z) :=
  if size =? 320 * 240 * 2 then Some (lit a)
  else if size =? 640 * 480 * 2 then Some (lit b)
  else if size =? 480 * 272 * 2 then Some (lit c)
  else None.

(** fopen() and fread() into the memory of the panel at [off]; the stream is the
    one that was open before when no file fits. *)
Definition load_video (fp : option Z) (name : option (list Z)) (off size : Z) : P (may_exit Z) :=
  fp ← (match name with Some n => fp ⇐ OFopen n; mret (Some fp) | None => mret (match fp with Some f => Some (Some f) | None => None end) end);
  match fp with
  | None => fault NoValue
  | Some None => exits 0
  | Some (Some fp) =>
      data ⇐ OFread fp size;
      match data with
      | Some data =>
          _ ⇐ OStore off data;
          s ← get;
          v ← lift (blit (pVideoBuffer s) off data);
          _ ← modify (set_video v);
          go fp
      | None => exits 0
      end
  end.

(** The colour key, an empty overlay with two grey sides, which is shown. *)
Definition open_overlay : P osd_cmd :=
  s ← get;
  let b := set_color 0xffff (set_cmd OSD_SetTrans no_cmd) in
  _ ⇐ OCmd b;
  let b := set_cmd OSD_Open b in
  _ ⇐ OCmd b;
  let b := set_cmd OSD_Clear b in
  _ ⇐ OCmd b;
  let b := set_color 0xEF5B (set_rect 0 0 80 (g_yres s) (set_cmd OSD_Fill b)) in
  _ ⇐ OCmd b;
  let b := set_color 0xEF5B (set_rect (s32 (g_xres s - 80)) 0 80 (g_yres s) (set_cmd OSD_Fill b)) in
  _ ⇐ OCmd b;
  let b := set_cmd OSD_Show b in
  _ ⇐ OCmd b;
  mret b.

Definition main : P (may_exit Z) :=
  fd ⇐ OOpen;
  if (fd : Z) <? 0 then go (-1) else
  var ⇐ OVarInfo;
  match var with
  | None => _ ⇐ OClose; go (-1)
  | Some (xres, yres, bits_per_pixel) =>
      let uVideoSize := u32 (u32 (xres * yres) * bits_per_pixel) / 8 in
      _ ← modify (λ s, set_screen (pVideoBuffer s) (s32 xres) (s32 yres) s);
      m ⇐ OMmap (u32 (uVideoSize * 2));
      match m with
      | None => exits 0
      | Some mem =>
          _ ← modify (set_video mem);
          then_ (load_video None (picture_for uVideoSize "pattern/320x240.dat" "pattern/640x480.dat" "pattern/480x272.dat") 0 uVideoSize) (λ fp,
          then_ load_images (λ _,
          b ← open_overlay;
          _ ← show_osd;
          let b := set_color 0x0400 (set_cmd OSD_SetTrans b) in
          _ ⇐ OCmd b;
          _ ⇐ OFclose fp;
          then_ (load_video (Some fp) (picture_for uVideoSize "pattern/osd_320x240.dat" "pattern/osd_640x480.dat" "pattern/osd_480x272.dat") uVideoSize uVideoSize) (λ _,
          _ ⇐ OClose;
          go 0)))
      end
  end.
End program.

(** ** What is on the overlay *)

Definition rect : Type := option Z * option Z * option Z * option Z.
Definition rect_of (b : osd_cmd) : rect := (x0 b, y0 b, x0_size b, y0_size b).

(** A rectangle of one colour, a block of pixels, or bytes that were stored into
    the memory of the overlay. *)
Inductive item := Filled (r : rect) (c : option Z) | Picture (r : rect) (data : list Z) | Stored (off : Z) (data : list Z).

(** Whether it is shown, its colour key, what was drawn, the latest first, where
    its memory begins in the mapping, and what was on it each time the program
    waited or stored something over it. *)
Record overlay := Overlay { visible : bool; key : option Z; items : list item; half : Z; seen : list (list item) }.
Definition blank : overlay := Overlay false None [] 0 [].
Definition set_items l o := Overlay (visible o) (key o) l (half o) (seen o).
Definition set_visible v o := Overlay v (key o) (items o) (half o) (seen o).
Definition set_key k o := Overlay (visible o) k (items o) (half o) (seen o).
Definition set_half h o := Overlay (visible o) (key o) (items o) h (seen o).
Definition note o := Overlay (visible o) (key o) (items o) (half o) (seen o ++ [items o]).

Definition on_request (o : overlay) (r : oreq) : overlay :=
  match r with
  | OCmd b =>
      match cmd b with
      | Some OSD_Open | Some OSD_Clear => set_items [] o
      | Some OSD_Close => set_visible false (set_items [] o)
      | Some OSD_Show => set_visible true o
      | Some OSD_Hide => set_visible false o
      | Some OSD_SetTrans => set_key (color b) o
      | Some OSD_Fill => set_items (Filled (rect_of b) (color b) :: items o) o
      | Some OSD_FillBlock => set_items (Picture (rect_of b) [] :: items o) o
      | None => o
      end
  | OWrite data =>
      match items o with Picture r d :: l => set_items (Picture r (d ++ data) :: l) o | _ => o end
  | OMmap n => set_half (n / 2) o
  | OStore off data =>
      match drop (Z.to_nat (half o - off)) data with
      | [] => o
      | part => set_items (Stored (Z.max 0 (off - half o)) part :: items o) (note o)
      end
  | OSleep _ => note o
  | _ => o
  end.

(** What is not hidden by bytes that were stored over the whole overlay. *)
Fixpoint on_top (h : Z) (l : list item) : list item :=
  match l with
  | [] => []
  | it :: l => match it with
      | Stored 0 d => if Z.of_nat (length d) =? h then [it] else it :: on_top h l
      | _ => it :: on_top h l
      end
  end.

Definition screen {D} (w : world osd oreq D) : overlay := foldl on_request blank (trace w).

(** *** The names of the files *)

Definition picture_name (k : kind) (i : Z) : list Z :=
  match k with
  | Number => lit "pattern/" ++ [48 + i] ++ lit "_RGB565.bin"
  | Bettery => lit "pattern/battery00" ++ [49 + i] ++ lit "_RGB565.bin"
  | RSSI => lit "pattern/RSSI_0" ++ [48 + i] ++ lit "_RGB565.bin"
  end.

(** A board with the files of the demo. *)
Class PictureFiles (D : Type) `{Driver oreq oreply D} := {
  contents : list Z → list Z;
  stream : list Z → Z;
  file_opens (d : D) name : (respond d (OFopen name)).2 = Some (stream name);
  file_read (d : D) name n : Z.of_nat (length (contents name)) = n → (respond d (OFread (stream name) n)).2 = Some (contents name);
  malloc_ok (d : D) n : (respond d (OMalloc n)).2 = true;
  picture_size k i : 0 <= i < Z.of_nat (kind_num k) → Z.of_nat (length (contents (picture_name k i))) = kind_size k
}.

Definition picture {D} `{PictureFiles D} (k : kind) (i : Z) : list Z := contents (picture_name k i).

(** The four blocks of a turn. *)
Definition status {D} `{PictureFiles D} (xres yres i : Z) : list item :=
  [Picture (Some (xres - 60), Some 30, Some 40, Some 22) (picture Bettery ((i - 1) mod 4));
   Picture (Some 20, Some 30, Some 30, Some 20) (picture RSSI ((i - 1) mod 4));
   Picture (Some 20, Some (yres - 50), Some 14, Some 20) (picture Number (i / 10));
   Picture (Some 40, Some (yres - 50), Some 14, Some 20) (picture Number (i mod 10))].

Section showing.
Context {D : Type} `{Hfiles : PictureFiles D}.
Implicit Types w : world osd oreq D.

Lemma screen_after w r : screen (after w r) = on_request (screen w) r.
Proof. unfold screen. by rewrite trace_after, foldl_app. Qed.

(** ** Loading *)

(** The first [i] pictures of a kind are in their buffers. *)
Definition filled (k : kind) (i : Z) (s : osd) : Prop :=
  length (bufs k s) = kind_num k ∧ ∀ j, 0 <= j < i → bufs k s !! Z.to_nat j = Some (Some (picture k j)).

Lemma next_name k i : 0 <= i < 10 →
  rd (picture_name k i) (kind_digit k) = Ok ((match k with Bettery => 49 | _ => 48 end) + i) ∧
  wr (picture_name k i) (kind_digit k) (u8 ((match k with Bettery => 49 | _ => 48 end) + i + 1)) = Ok (picture_name k (i + 1)).
Proof.
  intros Hi. split; [apply rd_Ok; destruct k; done|]. rewrite u8_id by (unfold is_u8; destruct k; lia).
  rewrite wr_Ok by (destruct k; cbn; lia). rewrite <- !Z.add_assoc. by destruct k.
Qed.

Lemma bufs_set k b n s : bufs k (set_kind k b n s) = b.
Proof. by destruct k. Qed.
Lemma names_set k b n s : names k (set_kind k b n s) = n.
Proof. by destruct k. Qed.
Lemma set_kind_twice k b n b' n' s : set_kind k b' n' (set_kind k b n s) = set_kind k b' n' s.
Proof. by destruct k. Qed.

Lemma load_image_runs k i w (Q : may_exit unit → world osd oreq D → Prop) :
  0 <= i < Z.of_nat (kind_num k) → names k (vars w) = picture_name k i → filled k i (vars w) →
  (∀ w' b, vars w' = set_kind k b (picture_name k (i + 1)) (vars w) → filled k (i + 1) (vars w') → screen w' = screen w → Q (inl tt) w') →
  runs (load_image k i) w Q.
Proof.
  intros Hi Hn [Hl Hf] HQ. assert (i < 10) as H10 by (destruct k; cbn in Hi; lia). destruct (next_name k i ltac:(lia)) as [Hrd Hwr].
  unfold load_image. apply runs_get, runs_request. unfold answer. rewrite file_opens, Hn.
  apply runs_request. unfold answer. rewrite malloc_ok. cbn [negb]. apply runs_request. unfold answer. rewrite file_read by (by apply picture_size).
  apply runs_bind. eapply runs_lift; [apply wr_Ok; rewrite Hl; lia|]. apply runs_request.
  apply runs_bind. eapply runs_lift; [exact Hrd|]. apply runs_bind. eapply runs_lift; [exact Hwr|].
  apply runs_bind, runs_modify, runs_go. eapply HQ; [by rewrite vars_with| |by unfold with_vars, screen; cbn [trace after]; rewrite !foldl_app].
  rewrite vars_with. unfold filled. rewrite bufs_set. split; [by rewrite length_insert|].
  intros j Hj. destruct (decide (j = i)) as [->|Hne]; [apply list_lookup_insert_eq; lia|].
  rewrite list_lookup_insert_ne by lia. apply Hf. lia.
Qed.

Lemma load_loop_runs k n : ∀ i w (Q : may_exit unit → world osd oreq D → Prop),
  i + Z.of_nat n = Z.of_nat (kind_num k) → 0 <= i → names k (vars w) = picture_name k i → filled k i (vars w) →
  (∀ w' b m, vars w' = set_kind k b m (vars w) → filled k (Z.of_nat (kind_num k)) (vars w') → screen w' = screen w → Q (inl tt) w') →
  runs (load_loop k n i) w Q.
Proof.
  induction n as [|n IH]; intros i w Q Hi H0 Hn Hf HQ; cbn [load_loop].
  - apply runs_go. replace i with (Z.of_nat (kind_num k)) in Hf by lia. by apply (HQ w (bufs k (vars w)) (names k (vars w))); [destruct k; destruct (vars w)| |].
  - apply runs_then, load_image_runs; [lia|done|done|]. intros w1 b V1 F1 S1. exists tt. split; [done|].
    apply IH; [lia|lia|by rewrite V1, names_set|done|]. intros w2 b2 m2 V2 F2 S2. eapply HQ; [by rewrite V2, V1, set_kind_twice|done|by rewrite S2].
Qed.

(** All pictures are loaded, and nothing else has changed. *)
Definition loaded (s : osd) : Prop := ∀ k, filled k (Z.of_nat (kind_num k)) s.

Lemma load_images_runs w (Q : may_exit unit → world osd oreq D → Prop) :
  (∀ k, names k (vars w) = picture_name k 0 ∧ length (bufs k (vars w)) = kind_num k) →
  (∀ w', loaded (vars w') → pVideoBuffer (vars w') = pVideoBuffer (vars w) → g_xres (vars w') = g_xres (vars w) → g_yres (vars w') = g_yres (vars w) →
    screen w' = screen w → Q (inl tt) w') →
  runs load_images w Q.
Proof.
  intros H0 HQ. assert (∀ k s, length (bufs k s) = kind_num k → filled k 0 s) as Hfilled by (intros k s Hl; split; [done|lia]).
  unfold load_images.
  apply runs_then, load_loop_runs; [done|lia|apply H0|apply Hfilled, H0|]. intros w1 b1 n1 V1 F1 S1. exists tt. split; [done|].
  apply runs_then, load_loop_runs; [done|lia|rewrite V1; apply (H0 Bettery)|apply Hfilled; rewrite V1; apply (H0 Bettery)|]. intros w2 b2 n2 V2 F2 S2. exists tt. split; [done|].
  apply load_loop_runs; [done|lia|rewrite V2, V1; apply (H0 RSSI)|apply Hfilled; rewrite V2, V1; apply (H0 RSSI)|]. intros w3 b3 n3 V3 F3 S3.
  apply HQ; [|by rewrite V3, V2, V1..|congruence].
  rewrite V1 in F1. rewrite V2, V1 in F2. intros []; rewrite V3, V2, V1; [exact F1|exact F2|]. by rewrite V3, V2, V1 in F3.
Qed.

(** ** Showing *)

Lemma write_parts_runs buf size r o n : ∀ off w (Q : unit → world osd oreq D → Prop),
  0 <= off → 0 <= size → screen w = set_items (Picture r (take (Z.to_nat off) buf) :: items o) o →
  (∀ w', vars w' = vars w → screen w' = set_items (Picture r (take (Z.to_nat (off + Z.of_nat n * size)) buf) :: items o) o → Q tt w') →
  runs (write_parts n buf off size) w Q.
Proof.
  induction n as [|n IH]; intros off w Q Ho Hsz Hs HQ; cbn [write_parts].
  - apply runs_ret, HQ; [done|]. by rewrite Hs, Z.add_0_r.
  - apply runs_request, IH; [lia|done| |].
    + rewrite screen_after, Hs. cbn [on_request items set_items]. unfold sub_bytes. rewrite take_take_drop. by rewrite Z2Nat.inj_add by lia.
    + intros w' V S. apply HQ; [done|]. rewrite S. replace (off + size + Z.of_nat n * size) with (off + Z.of_nat (Datatypes.S n) * size) by lia. done.
Qed.

Lemma fill_block_runs b x y bw bh k i parts w (Q : osd_cmd → world osd oreq D → Prop) :
  loaded (vars w) → 0 <= i < Z.of_nat (kind_num k) → Z.of_nat parts * Z.quot (kind_size k) (Z.of_nat parts) = kind_size k → (0 < parts)%nat →
  (∀ w', vars w' = vars w → screen w' = set_items (Picture (Some x, Some y, Some bw, Some bh) (picture k i) :: items (screen w)) (screen w) →
    Q (set_rect x y bw bh (set_cmd OSD_FillBlock b)) w') →
  runs (fill_block b x y bw bh k i parts) w Q.
Proof.
  intros Hl Hi Hp H0 HQ. unfold fill_block. apply runs_request, runs_get, runs_bind. destruct (Hl k) as [_ Hf].
  eapply runs_lift; [apply rd_Ok; split; [lia|by apply Hf]|].
  apply runs_bind. eapply (write_parts_runs _ _ (Some x, Some y, Some bw, Some bh) (screen w)); [lia| | |].
  - apply Z.quot_pos; [by destruct k|lia].
  - by rewrite screen_after.
  - intros w' V S. apply runs_ret, HQ; [by rewrite V|]. rewrite S, Z.add_0_l, Hp.
    pose proof (picture_size k i Hi) as Hsz. rewrite <- Hsz, Nat2Z.id. by rewrite firstn_all.
Qed.

(** The panel is big enough for the places of the blocks. *)
Definition panel_ok (s : osd) : Prop := 80 <= g_xres s < 2 ^ 31 ∧ 50 <= g_yres s < 2 ^ 31.

Lemma show_turn_runs b i w (Q : osd_cmd → world osd oreq D → Prop) :
  loaded (vars w) → panel_ok (vars w) → 1 <= i <= 9 →
  (∀ b' w', vars w' = vars w → screen w' = set_items
      (rev (status (g_xres (vars w)) (g_yres (vars w)) i) ++ items (screen w)) (screen w) → Q b' w') →
  runs (show_turn b i) w Q.
Proof.
  intros Hl [Hx Hy] Hi HQ. unfold show_turn. apply runs_get, runs_bind.
  rewrite Z.rem_mod_nonneg, Z.quot_div_nonneg, Z.rem_mod_nonneg by lia.
  assert (0 <= (i - 1) mod 4 < 4) as H4 by (apply Z.mod_pos_bound; lia).
  assert (0 <= i mod 10 < 10) as H10 by (apply Z.mod_pos_bound; lia).
  assert (0 <= i / 10 < 10) as Hd by (rewrite Z.div_small; lia).
  rewrite (s32_id (g_xres (vars w) - 40 - 20)), (s32_id (g_yres (vars w) - 20 - 30)) by (unfold is_s32; lia).
  apply fill_block_runs; [done|done|done|lia|]. intros w1 V1 S1.
  apply runs_bind, fill_block_runs; [by rewrite V1|done|done|lia|]. intros w2 V2 S2.
  apply runs_bind, fill_block_runs; [by rewrite V2, V1|done|done|lia|]. intros w3 V3 S3.
  apply fill_block_runs; [by rewrite V3, V2, V1|done|done|lia|]. intros w4 V4 S4.
  apply HQ; [congruence|]. rewrite S4, S3, S2, S1. cbn [set_items visible key items half seen status rev app].
  by replace (g_yres (vars w) - 20 - 30) with (g_yres (vars w) - 50) by lia; replace (g_xres (vars w) - 40 - 20) with (g_xres (vars w) - 60) by lia.
Qed.

(** What is on the overlay after the turns from [i] to [j], above [l]. *)
Definition turns_on (xres yres i j : Z) (l : list item) : list item := rev (mjoin (status xres yres <$> seqZ i (j + 1 - i))) ++ l.

Lemma turns_on_next xres yres i j l : i <= j → turns_on xres yres i j l = turns_on xres yres (i + 1) j (turns_on xres yres i i l).
Proof.
  intros Hj. unfold turns_on. replace (i + 1 - i) with 1 by lia. change (seqZ i 1) with [i].
  assert (seqZ i (j + 1 - i) = i :: seqZ (i + 1) (j + 1 - (i + 1))) as -> by (rewrite seqZ_cons by lia; repeat f_equal; lia).
  rewrite !fmap_cons. change (mjoin (?a :: ?l)) with (a ++ mjoin l). cbn [fmap list_fmap]. change (mjoin []) with (@nil item).
  by rewrite app_nil_r, rev_app_distr, <- app_assoc.
Qed.

(** The turns from [i] to the fifth; between them the program waits. *)
Definition after_turns (xres yres i : Z) (o : overlay) : overlay :=
  Overlay (visible o) (key o) (turns_on xres yres i 5 (items o)) (half o)
    (seen o ++ ((λ j, turns_on xres yres i j (items o)) <$> seqZ i (5 - i))).

Lemma show_loop_runs fuel : ∀ b i w (Q : unit → world osd oreq D → Prop),
  loaded (vars w) → panel_ok (vars w) → 1 <= i → i + Z.of_nat fuel = 6 → (0 < fuel)%nat →
  (∀ w', vars w' = vars w → screen w' = after_turns (g_xres (vars w)) (g_yres (vars w)) i (screen w) → Q tt w') →
  runs (show_loop fuel b i) w Q.
Proof.
  induction fuel as [|fuel IH]; intros b i w Q Hl Hp Hi Hf Hpos HQ; [lia|]. cbn [show_loop].
  apply runs_bind, show_turn_runs; [done|done|lia|]. intros b' w1 V1 S1. destruct (Z.ltb_spec 5 (i + 1)) as [H5|H5].
  - apply runs_ret, HQ; [done|]. assert (i = 5) as -> by lia. rewrite S1. unfold after_turns. cbn. by rewrite app_nil_r.
  - apply runs_request, IH; [by rewrite vars_after, V1|by rewrite vars_after, V1|lia|lia|lia|].
    intros w2 V2 S2. rewrite vars_after, V1 in *. apply HQ; [done|]. rewrite S2, !screen_after, S1. unfold after_turns.
    cbn [on_request note set_items visible key items half seen].
    assert (rev (status (g_xres (vars w)) (g_yres (vars w)) i) ++ items (screen w) = turns_on (g_xres (vars w)) (g_yres (vars w)) i i (items (screen w))) as ->.
    { unfold turns_on. replace (i + 1 - i) with 1 by lia. by change (seqZ i 1) with [i]. }
    rewrite (seqZ_cons i (5 - i)) by lia. rewrite fmap_cons, <- app_assoc. f_equal; [by rewrite <- turns_on_next by lia|]. f_equal. cbn [app]. f_equal.
    replace (Z.pred (5 - i)) with (5 - (i + 1)) by lia. replace (Z.succ i) with (i + 1) by lia.
    apply list_fmap_ext. intros k j Hj. apply lookup_seqZ in Hj. by rewrite <- turns_on_next by lia.
Qed.
End showing.

(** ** The program *)

Definition background_for (size : Z) : option (list Z) := picture_for size "pattern/320x240.dat" "pattern/640x480.dat" "pattern/480x272.dat".
Definition second_for (size : Z) : option (list Z) := picture_for size "pattern/osd_320x240.dat" "pattern/osd_640x480.dat" "pattern/osd_480x272.dat".

(** A panel of 16 bits per pixel in one of the three sizes, and its pictures. *)
Class Panel (D : Type) `{PictureFiles D} := {
  resolution : Z * Z;
  background : list Z;
  second : list Z;
  resolution_known : resolution ∈ [(320, 240); (640, 480); (480, 272)];
  panel_opens (d : D) : 0 <= (respond d OOpen).2;
  panel_info (d : D) : (respond d OVarInfo).2 = Some (resolution.1, resolution.2, 16);
  panel_memory (d : D) n : 0 <= n → ∃ m, (respond d (OMmap n)).2 = Some m ∧ Z.of_nat (length m) = n;
  background_found : ∃ name, background_for (resolution.1 * resolution.2 * 2) = Some name ∧ contents name = background;
  background_size : Z.of_nat (length background) = resolution.1 * resolution.2 * 2;
  second_found : ∃ name, second_for (resolution.1 * resolution.2 * 2) = Some name ∧ contents name = second;
  second_size : Z.of_nat (length second) = resolution.1 * resolution.2 * 2
}.

Section whole.
Context {D : Type} `{Hpanel : Panel D}.
Implicit Types w : world osd oreq D.

Lemma load_video_runs fp name off size w (Q : may_exit Z → world osd oreq D → Prop) :
  Z.of_nat (length (contents name)) = size → 0 <= off → off + size <= Z.of_nat (length (pVideoBuffer (vars w))) →
  (∀ w' v, blit (pVideoBuffer (vars w)) off (contents name) = Ok v → vars w' = set_video v (vars w) →
     screen w' = on_request (screen w) (OStore off (contents name)) → Q (inl (stream name)) w') →
  runs (load_video fp (Some name) off size) w Q.
Proof.
  intros Hs Ho Hl HQ. unfold load_video. apply runs_bind, runs_request. unfold answer. rewrite file_opens. apply runs_ret.
  apply runs_request. unfold answer. rewrite file_read by done. apply runs_request, runs_get, runs_bind.
  destruct (blit_Ok (pVideoBuffer (vars w)) off (contents name)) as (v & E & _); [lia|lia|].
  eapply runs_lift; [exact E|]. apply runs_bind, runs_modify, runs_go. eapply HQ; [exact E|done|].
  unfold screen. cbn [with_vars after trace]. by rewrite !foldl_app.
Qed.

(** The two grey sides, the right one last. *)
Definition sides (xres yres : Z) : list item :=
  [Filled (Some (xres - 80), Some 0, Some 80, Some yres) (Some 0xEF5B); Filled (Some 0, Some 0, Some 80, Some yres) (Some 0xEF5B)].

Lemma open_overlay_runs w (Q : osd_cmd → world osd oreq D → Prop) :
  panel_ok (vars w) →
  (∀ b w', vars w' = vars w → screen w' = Overlay true (Some 0xffff) (sides (g_xres (vars w)) (g_yres (vars w))) (half (screen w)) (seen (screen w)) → Q b w') →
  runs open_overlay w Q.
Proof.
  intros [Hx Hy] HQ. unfold open_overlay. apply runs_get. do 6 apply runs_request. apply runs_ret, HQ; [done|].
  rewrite !screen_after. unfold sides. cbn [on_request set_items set_visible set_key cmd set_cmd set_color set_rect rect_of x0 y0 x0_size y0_size color visible key items half seen].
  by rewrite s32_id by (unfold is_s32; lia).
Qed.

Lemma resolution_bounds : 80 <= resolution.1 <= 640 ∧ 50 <= resolution.2 <= 480.
Proof.
  pose proof resolution_known as Hk. destruct resolution as [xres yres]. rewrite !elem_of_cons in Hk. cbn [fst snd].
  destruct Hk as [[= -> ->]|[[= -> ->]|[[= -> ->]|Hk]]]; [lia..|by apply elem_of_nil in Hk].
Qed.

(** Stores into the first half and over the whole second half. *)
Lemma store_before o data : Z.of_nat (length data) <= half o → on_request o (OStore 0 data) = o.
Proof. intros Hl. cbn [on_request]. by rewrite drop_ge by lia. Qed.

Lemma store_over o data : data ≠ [] → on_request o (OStore (half o) data) = set_items (Stored 0 data :: items o) (note o).
Proof.
  intros Hd. cbn [on_request]. rewrite Z.sub_diag. change (drop (Z.to_nat 0) data) with data. destruct data; [done|]. done.
Qed.

(** What was on the overlay in the turn [j]. *)
Definition shown_in (xres yres j : Z) : list item := turns_on xres yres 1 j (sides xres yres).

Definition half_size : Z := resolution.1 * resolution.2 * 2.
Definition last_overlay : overlay :=
  Overlay true (Some 0x0400) (Stored 0 second :: shown_in resolution.1 resolution.2 5) half_size (shown_in resolution.1 resolution.2 <$> seqZ 1 5).

Lemma main_runs w : vars w = osd_init → screen w = blank →
  runs main w (λ r w', r = inl 0 ∧ screen w' = last_overlay ∧ pVideoBuffer (vars w') = background ++ second).
Proof.
  intros Hv Hblank. pose proof resolution_bounds as [Hx Hy].
  pose proof background_size as Hbs. pose proof second_size as Hss. destruct background_found as (bg & Ebg & Hbg). destruct second_found as (sc & Esc & Hsc).
  unfold last_overlay, half_size, main. apply runs_request. unfold answer at 1. rewrite (proj2 (Z.ltb_ge _ _)) by apply panel_opens.
  apply runs_request. unfold answer. rewrite panel_info. destruct resolution as [xres yres] eqn:Er. cbn [fst snd] in *.
  assert (u32 (u32 (xres * yres) * 16) / 8 = xres * yres * 2) as ->.
  { rewrite (u32_id (xres * yres)), u32_id by (unfold is_u32; nia). replace (xres * yres * 16) with (xres * yres * 2 * 8) by lia. by rewrite Z.div_mul. }
  set (size := xres * yres * 2) in *. assert (8000 <= size <= 614400) as Hsize by (unfold size; nia).
  apply runs_bind, runs_modify, runs_request. unfold answer.
  match goal with |- context [respond ?d (OMmap ?n)] => destruct (panel_memory d n) as (m & -> & Hm) end; [apply u32_range|].
  rewrite u32_id in Hm |- * by (unfold is_u32; lia). rewrite !s32_id by (unfold is_s32; lia). apply runs_bind, runs_modify.
  set (w0 := with_vars _ _). assert (screen w0 = set_half size blank) as S0.
  { unfold w0. change (screen (with_vars ?a ?b)) with (screen a). rewrite screen_after. change (screen (with_vars ?a ?b)) with (screen a).
    rewrite !screen_after, Hblank. cbn [on_request]. by rewrite Z.div_mul. }
  change (picture_for size "pattern/320x240.dat" _ _) with (background_for size). rewrite Ebg.
  apply runs_then, load_video_runs; [by rewrite Hbg|lia|cbn [w0 vars with_vars set_video set_screen pVideoBuffer]; lia|].
  intros w1 v1 B1 V1 S1. eexists. split; [done|]. cbn [w0 vars with_vars after set_video set_screen pVideoBuffer] in B1, V1. rewrite Hv in V1.
  rewrite S0, store_before in S1 by (rewrite Hbg; cbn; lia).
  rewrite Hbg, blit_start in B1 by lia. injection B1 as B1. apply runs_then, load_images_runs; [intros k; rewrite V1; by destruct k|].
  intros w2 L2 P2 X2 Y2 S2. exists tt. split; [done|]. rewrite V1 in P2, X2, Y2. cbn in P2, X2, Y2.
  assert (panel_ok (vars w2)) as Hp by (unfold panel_ok; rewrite X2, Y2; lia).
  apply runs_bind, open_overlay_runs; [done|]. intros b w3 V3 S3.
  apply runs_bind, show_loop_runs; [by rewrite V3|by rewrite V3|lia|lia|lia|]. intros w4 V4 S4.
  do 2 apply runs_request. change (picture_for size "pattern/osd_320x240.dat" _ _) with (second_for size). rewrite Esc.
  assert (pVideoBuffer (vars w4) = background ++ drop (length background) m) as P4 by (by rewrite V4, V3, P2, B1).
  rewrite V3, X2, Y2, S3, S2, S1, X2, Y2 in S4.
  apply runs_then, load_video_runs; [by rewrite Hsc|lia|rewrite !vars_after, P4, length_app, length_drop; lia|].
  intros w5 v5 B5 V5 S5. eexists. split; [done|]. apply runs_request, runs_go. split; [done|]. split.
  - rewrite screen_after, S5, !screen_after, S4, Hsc. change (on_request ?o OClose) with o. set (o := on_request _ (OFclose _)).
    assert (second ≠ []) as Hne by (intros E; rewrite E in Hss; cbn in Hss; lia).
    assert (on_request o (OStore size second) = set_items (Stored 0 second :: items o) (note o)) as -> by exact (store_over o second Hne).
    cbn [o on_request cmd set_cmd set_color color set_key set_items note after_turns visible key items half seen blank set_half].
    reflexivity.
  - rewrite vars_after, V5. cbn [pVideoBuffer set_video set_screen]. rewrite !vars_after, P4, Hsc, <- Hbs in B5.
    apply blit_inv in B5 as (_ & _ & ->). rewrite Nat2Z.id, take_app_length, drop_app_ge, drop_drop by lia.
    rewrite (drop_ge _ (_ + _)) by lia. by rewrite app_nil_r.
Qed.
End whole.

(** ** Claims *)

(** C39: With the files of the demo and a panel of 16 bits in one of the three
    sizes, the program shows five times the status on the overlay: each time it
    waits, and at last before it stores the second picture, the overlay holds the
    two grey sides and, for each turn so far, the battery, the signal strength and
    the two digits of the turn, each block with exactly the bytes of its file.
    It ends with success, with its background in the memory of the panel and
    nothing of the status left to see: the second picture is stored over the
    whole overlay, which is shown with its last colour key. *)
Theorem overlay_shows_status {D} `{Panel D} (d : D) :
  runs main (World osd_init d []) (λ r w', r = inl 0 ∧
    seen (screen w') = (λ j, rev (mjoin (status resolution.1 resolution.2 <$> seqZ 1 j)) ++ sides resolution.1 resolution.2) <$> seqZ 1 5 ∧
    on_top (resolution.1 * resolution.2 * 2) (items (screen w')) = [Stored 0 second] ∧ visible (screen w') = true ∧ key (screen w') = Some 0x0400 ∧
    pVideoBuffer (vars w') = background ++ second).
Proof.
  eapply runs_mono; [by apply main_runs|]. intros r w' (-> & -> & ->). split; [done|]. unfold last_overlay. cbn [seen half items visible key].
  split_and!; [|cbn [on_top]; by rewrite second_size, Z.eqb_refl|done..].
  apply list_fmap_ext. intros k j _. unfold shown_in, turns_on. by replace (j + 1 - 1) with j by lia.
Qed.

(** A block inside the panel, with as many bytes as it has pixels. *)
Definition fits (xres yres : Z) (it : item) : Prop :=
  match it with
  | Picture (Some x, Some y, Some bw, Some bh) d => 0 <= x ∧ x + bw <= xres ∧ 0 <= y ∧ y + bh <= yres ∧ Z.of_nat (length d) = bw * bh * 2
  | _ => False
  end.

(** The blocks of a turn lie inside every panel that is wide enough for the
    battery, and hold a picture of their size. *)
Theorem blocks_fit {D} `{PictureFiles D} xres yres i : 60 <= xres → 52 <= yres → 1 <= i < 100 → Forall (fits xres yres) (status xres yres i).
Proof.
  intros Hx Hy Hi. assert (0 <= (i - 1) mod 4 < 4) as H4 by (apply Z.mod_pos_bound; lia).
  assert (0 <= i mod 10 < 10) as H10 by (apply Z.mod_pos_bound; lia). assert (0 <= i / 10 < 10) as Hd by (split; [apply Z.div_pos; lia|apply Z.div_lt_upper_bound; lia]).
  unfold status, picture.
  do 4 (apply Forall_cons_2; [cbn [fits]; rewrite picture_size by done; cbn [kind_size]; lia|]). apply Forall_nil_2.
Qed.

(** ** Limits *)

(** On a panel of another size no file is opened, and a stream that was never
    set is read. *)
Lemma other_panels_have_no_picture {D} `{Driver oreq oreply D} (w : world osd oreq D) xres yres bits fd mem :
  answer w OOpen = fd → 0 <= fd → answer (after w OOpen) OVarInfo = Some (xres, yres, bits) →
  (∀ d, (respond d (OMmap (u32 (u32 (u32 (xres * yres) * bits) / 8 * 2)))).2 = Some mem) →
  background_for (u32 (u32 (xres * yres) * bits) / 8) = None → main w = Crash NoValue.
Proof.
  intros E1 Hfd E2 Hm Hn. unfold main. rewrite request_run, E1, (proj2 (Z.ltb_ge _ _)) by done. rewrite request_run, E2.
  rewrite modify_run, request_run. unfold answer. rewrite Hm, modify_run. unfold background_for in Hn. by rewrite Hn.
Qed.

Lemma panel_800x480_has_none : background_for (u32 (u32 (800 * 480) * 16) / 8) = None.
Proof. reflexivity. Qed.

(** When a picture is missing, the program ends with the status of success. *)
Lemma missing_picture_is_success {D} `{Driver oreq oreply D} k i (w : world osd oreq D) :
  answer w (OFopen (names k (vars w))) = None → ∃ w', load_image k i w = Ok (inr 0, w').
Proof. intros E. unfold load_image. rewrite get_run, request_run, E. by eexists. Qed.

(** ** Witnesses *)

(** The tenth letter of a name tells the files apart. *)
Definition demo_contents (name : list Z) : list Z :=
  replicate (Z.to_nat (match name !! 9%nat with Some 95 => 560 | Some 97 => 1760 | Some 83 => 1200 | _ => 153600 end)) 7.

Definition demo_osd (d : unit) (r : oreq) : unit * oreply r :=
  (tt, match r return oreply r with
       | OOpen => 3
       | OWrite _ => 0
       | OVarInfo => Some (320, 240, 16)
       | OMmap n => Some (replicate (Z.to_nat n) 0)
       | OFopen name => Some (match name !! 9%nat with Some c => c | None => 0 end)
       | OFread fp n => Some (replicate (Z.to_nat n) 7)
       | OMalloc _ => true
       | OCmd _ | OStore _ _ | OClose | OFclose _ | OSleep _ => tt
       end).

#[export] Instance demo_osd_driver : Driver oreq oreply unit := demo_osd.
#[export] Instance demo_osd_files : PictureFiles unit.
Proof.
  refine {| contents := demo_contents; stream := λ name, match name !! 9%nat with Some c => c | None => 0 end |}; try done.
  - intros d name n <-. cbn [respond demo_osd_driver demo_osd snd]. f_equal. unfold demo_contents. by rewrite length_replicate, Nat2Z.id.
  - intros [] i _; unfold demo_contents; rewrite length_replicate; reflexivity.
Defined.
#[export] Instance demo_osd_panel : Panel unit.
Proof.
  refine {| resolution := (320, 240); background := demo_contents (lit "pattern/320x240.dat"); second := demo_contents (lit "pattern/osd_320x240.dat") |}.
  - by left.
  - intros d. discriminate.
  - intros d. reflexivity.
  - intros d n Hn. eexists. split; [reflexivity|]. rewrite length_replicate. lia.
  - eexists. split; reflexivity.
  - unfold demo_contents. rewrite length_replicate, Z2Nat.id by discriminate. reflexivity.
  - eexists. split; reflexivity.
  - unfold demo_contents. rewrite length_replicate, Z2Nat.id by discriminate. reflexivity.
Defined.

Lemma overlay_shows_status_witness :
  runs main (World osd_init tt []) (λ r w', r = inl 0 ∧ (length <$> seen (screen w')) = [6; 10; 14; 18; 22]%nat ∧
    on_top 153600 (items (screen w')) = [Stored 0 (demo_contents (lit "pattern/osd_320x240.dat"))]).
Proof.
  eapply runs_mono; [apply (overlay_shows_status tt)|].
  intros r w' (Hr & Hs & Ht & _). rewrite Hs. split; [exact Hr|]. split; [reflexivity|]. exact Ht.
Defined.

Lemma blocks_fit_witness : Forall (fits 320 240) (status 320 240 5).
Proof. apply blocks_fit; lia. Defined.
