(* ===== verification/Sysfs.v ===== *)
(** * Sysfs: programs that work on files of attributes

    The requests of the programs that set up hardware through small text files
    (src/gpio/gpio.c, src/msensor/bma220.c), and the promise of the directory
    they work on: an attribute that is written reads back as its text. *)
From S2P Require Import Prelude LibC Bytes Device Runs.
Local Open Scope cmodel_scope.
Local Open Scope Z_scope.

(** ** Requests *)

(** The controls of the motion sensor (src/msensor/bma220.h). *)
Inductive bma_ioctl :=
| BMA220_IOCTL_EVENT_CTRL | BMA220_IOCTL_CALIBRATION | BMA220_SOFT_RESET | BMA220_SET_SUSPEND | BMA220_SET_RANGE | BMA220_GET_RANGE
| BMA220_SET_BANDWIDTH | BMA220_GET_BANDWIDTH | BMA220_RESET_INTERRUPT | BMA220_SET_OFFSET_RESET | BMA220_GET_CHIP_ID
| BMA220_GET_SLEEP_EN | BMA220_GET_SLEEP_DUR.

(** [FIoctl] carries the first byte of the buffer, and answers with it; [FPoll]
    with the result of poll() and whether the file has something urgent;
    [FAppend] opens a file for appending, prints to it and closes it. *)
Inductive fsreq :=
| FOpen (path : list Z) | FRead (fd n : Z) | FWrite (fd : Z) (data : list Z) | FClose (fd : Z)
| FSeek (fd : Z) | FPoll (fd : Z) | FIoctl (fd : Z) (c : bma_ioctl) (arg : Z) | FAppend (path data : list Z)
| FScanf | FSleep (us : Z).

(** read() answers with its result and the bytes. *)
Definition fsreply (r : fsreq) : Type :=
  match r with
  | FOpen _ | FWrite _ _ | FSeek _ => Z
  | FRead _ _ | FIoctl _ _ _ => Z * list Z
  | FPoll _ => Z * bool
  | FAppend _ _ => bool
  | FScanf => option Z
  | FClose _ | FSleep _ => unit
  end.

(** ** The promise *)

(** The text that an attribute keeps of what is written to it. *)
Definition kept (data : list Z) : list Z := cstr data ++ [10].

(** Attributes by their path, and the files that are open. *)
Class Sysfs (D : Type) `{Driver fsreq fsreply D} := {
  attr : D → list Z → option (list Z);
  file_of : D → Z → option (list Z);
  open_attr (d : D) p v : attr d p = Some v → let d' := (respond d (FOpen p)).1 in let fd := (respond d (FOpen p)).2 in
    0 <= fd ∧ file_of d' fd = Some p;
  read_attr (d : D) fd n p v : file_of d fd = Some p → attr d p = Some v → 0 <= n →
    (respond d (FRead fd n)).2 = (Z.of_nat (length (take (Z.to_nat n) v)), take (Z.to_nat n) v);
  write_attr (d : D) fd p v data : file_of d fd = Some p → attr d p = Some v →
    0 <= (respond d (FWrite fd data)).2 ∧
    ∀ q, attr (respond d (FWrite fd data)).1 q = if decide (q = p) then Some (kept data) else attr d q;
  other_attr (d : D) r q : (∀ fd data, r ≠ FWrite fd data) → attr (respond d r).1 q = attr d q
}.

Section attributes.
Context {S D : Type} `{Hsys : Sysfs D}.
Implicit Types w : world S fsreq D.

Definition attrs w : list Z → option (list Z) := attr (driver w).
Definition opened w (fd : Z) (p : list Z) : Prop := file_of (driver w) fd = Some p.

Lemma attrs_after w r q : (∀ fd data, r ≠ FWrite fd data) → attrs (after w r) q = attrs w q.
Proof. apply other_attr. Qed.

Lemma runs_open {A} p v (m : Z → prog S fsreq D A) w (Q : A → world S fsreq D → Prop) :
  attrs w p = Some v →
  (∀ fd w1, 0 <= fd → opened w1 fd p → (∀ q, attrs w1 q = attrs w q) → vars w1 = vars w → runs (m fd) w1 Q) →
  runs (request (FOpen p) m) w Q.
Proof.
  intros Hp Hm. apply runs_request. unfold answer. destruct (open_attr (driver w) p v Hp) as [H1 H2].
  apply Hm; [done|done| |done]. intros q. by apply attrs_after.
Qed.

Lemma runs_read {A} fd n p v (m : Z * list Z → prog S fsreq D A) w (Q : A → world S fsreq D → Prop) :
  opened w fd p → attrs w p = Some v → 0 <= n →
  (∀ w1, (∀ q, attrs w1 q = attrs w q) → vars w1 = vars w → runs (m (Z.of_nat (length (take (Z.to_nat n) v)), take (Z.to_nat n) v)) w1 Q) →
  runs (request (FRead fd n) m) w Q.
Proof.
  intros Ho Hp Hn Hm. apply runs_request. unfold answer. rewrite (read_attr (driver w) fd n p v Ho Hp Hn).
  apply Hm; [|done]. intros q. by apply attrs_after.
Qed.

Lemma runs_write {A} fd data p v (m : Z → prog S fsreq D A) w (Q : A → world S fsreq D → Prop) :
  opened w fd p → attrs w p = Some v →
  (∀ n w1, 0 <= n → (∀ q, attrs w1 q = if decide (q = p) then Some (kept data) else attrs w q) → vars w1 = vars w → runs (m n) w1 Q) →
  runs (request (FWrite fd data) m) w Q.
Proof.
  intros Ho Hp Hm. apply runs_request. destruct (write_attr (driver w) fd p v data Ho Hp) as [H1 H2]. by apply Hm.
Qed.
End attributes.

(** A directory of attributes in memory: the files of the demonstrations. *)
Record demo_dir := DemoDir { dd_files : list (list Z * list Z); dd_open : list Z }.

Fixpoint look (p : list Z) (l : list (list Z * list Z)) : option (list Z) :=
  match l with (q, v) :: l => if decide (p = q) then Some v else look p l | [] => None end.

Definition demo_dir_respond (d : demo_dir) (r : fsreq) : demo_dir * fsreply r :=
  match r return demo_dir * fsreply r with
  | FOpen p => match look p (dd_files d) with Some _ => (DemoDir (dd_files d) p, 3) | None => (d, -1) end
  | FRead _ n =>
      let v := take (Z.to_nat n) (default [] (look (dd_open d) (dd_files d))) in
      (d, (Z.of_nat (length v), v))
  | FWrite _ data => (DemoDir ((dd_open d, kept data) :: dd_files d) (dd_open d), Z.of_nat (length data))
  | FClose _ | FSleep _ => (d, tt)
  | FSeek _ => (d, 0)
  | FPoll _ => (d, (0, false))
  | FIoctl _ _ a => (d, (0, [a]))
  | FAppend _ _ => (d, true)
  | FScanf => (d, Some 1)
  end.

#[export] Instance demo_dir_driver : Driver fsreq fsreply demo_dir := demo_dir_respond.
#[export] Instance demo_dir_sysfs : Sysfs demo_dir.
Proof.
  refine {| attr := λ d p, look p (dd_files d); file_of := λ d fd, if fd =? 3 then Some (dd_open d) else None |}.
  - intros d p v E. unfold respond, demo_dir_driver. cbn [demo_dir_respond]. by rewrite E.
  - intros d fd n p v Ho E Hn. destruct (fd =? 3); [|done]. injection Ho as <-. unfold respond, demo_dir_driver. cbn [demo_dir_respond fst snd]. by rewrite E.
  - intros d fd p v data Ho E. destruct (fd =? 3); [|done]. injection Ho as <-. split; [unfold respond, demo_dir_driver; cbn [demo_dir_respond snd]; lia|]. done.
  - intros d [] q Hr; try done; unfold respond, demo_dir_driver; cbn [demo_dir_respond]; [by destruct (look path (dd_files d))|by destruct (Hr fd data)].
Defined.

(** ** Reading decimal numbers back *)

Lemma cstr_whole s : Forall (λ c, c ≠ 0) s → cstr s = s.
Proof. induction 1 as [|c s Hc _ IH]; [done|]. cbn. rewrite (proj2 (Z.eqb_neq c 0)) by done. by rewrite IH. Qed.

Lemma print_d_text v : 0 <= v → Forall (λ c, c ≠ 0) (print_d v) ∧ (length (print_d v) <= 12)%nat.
Proof.
  intros Hv. unfold print_d. rewrite (proj2 (Z.ltb_ge _ _)) by lia. split; [|apply print_u_length].
  eapply Forall_impl; [apply (print_u_chars 10 v); lia|]. cbn. lia.
Qed.

Lemma signed_magnitude_print n rest : 0 <= n <= ULONG_MAX →
  match rest with [] => True | c :: _ => digit_in 10 c = None end →
  signed_magnitude 10 (print_u 10 n ++ rest) = (false, n).
Proof.
  unfold ULONG_MAX. intros Hn Hr. unfold signed_magnitude, print_u. change (10 =? 0) with false. cbn match.
  pose proof (digits_val_print 12 10 ltac:(lia) n 0 rest ltac:(cbn; lia)) as Hv.
  assert (∀ acc, digits_val 10 acc rest = acc) as Hend by (intros acc; destruct rest as [|c r]; [done|cbn; by rewrite Hr]).
  rewrite Hend in Hv. destruct (print_digits_head 11 10 n [] ltac:(lia) ltac:(lia)) as (d & s & E & Hd).
  rewrite E in Hv |- *. unfold digit_char in Hv |- *.
  destruct (Z.ltb_spec d 10); [|lia]. cbn [app skip_space] in *. unfold isspace.
  destruct (Z.eqb_spec (48 + d) 32); [lia|]. destruct (Z.leb_spec (48 + d) 13); [lia|].
  rewrite andb_false_r. cbn [orb take_sign].
  destruct (Z.eqb_spec (48 + d) 45); [lia|]. destruct (Z.eqb_spec (48 + d) 43); [lia|].
  cbn -[Z.add digits_val]. f_equal. rewrite Hv. done.
Qed.

Lemma strtoul10_print n rest : 0 <= n <= ULONG_MAX →
  match rest with [] => True | c :: _ => digit_in 10 c = None end → (strtoul 10 (print_d n ++ rest)).1 = n.
Proof.
  intros Hn Hr. unfold strtoul, print_d. rewrite (proj2 (Z.ltb_ge _ _)) by lia. rewrite signed_magnitude_print by done.
  unfold ULONG_MAX in *. destruct (Z.gtb_spec n 4294967295); [lia|]. cbn. apply u32_id. unfold is_u32. lia.
Qed.
