(* ===== verification/Gpio.v ===== *)
(** * Gpio: the GPIO demo

    Models src/gpio/gpio.c: the functions that work on the files of a pin, and
    the three tests of the main program, whose loops have no end and are
    unrolled for a number of turns. *)
From S2P Require Import Prelude LibC Bytes Device Runs Sysfs.
Local Open Scope cmodel_scope.
Local Open Scope Z_scope.

Definition MAX_BUF : Z := 64.
Definition SYSFS_GPIO_DIR : list Z := lit "/sys/class/gpio".

(** [snprintf(buf, sizeof(buf), SYSFS_GPIO_DIR "/gpio%d" leaf, gpio)]: what does
    not fit is cut off, and the unsigned number is printed as a signed one. *)
Definition gpio_path (gpio : Z) (leaf : string) : list Z :=
  take (Z.to_nat (MAX_BUF - 1)) (SYSFS_GPIO_DIR ++ lit "/gpio" ++ print_d (s32 gpio) ++ lit leaf).

Section program.
Context {D : Type} `{Driver fsreq fsreply D}.
Notation P := (prog unit fsreq D).

Definition gpio_export (gpio : Z) : P Z :=
  fd ⇐ FOpen (SYSFS_GPIO_DIR ++ lit "/export");
  if (fd : Z) <? 0 then mret fd else
  _ ⇐ FWrite fd (print_d (s32 gpio));
  _ ⇐ FClose fd;
  mret 0.

Definition gpio_unexport (gpio : Z) : P Z :=
  fd ⇐ FOpen (SYSFS_GPIO_DIR ++ lit "/unexport");
  if (fd : Z) <? 0 then mret fd else
  _ ⇐ FWrite fd (print_d (s32 gpio));
  _ ⇐ FClose fd;
  mret 0.

(** The texts are written with their final zero. *)
Definition gpio_set_dir (gpio out_flag : Z) : P Z :=
  fd ⇐ FOpen (gpio_path gpio "/direction");
  if (fd : Z) <? 0 then mret fd else
  _ ⇐ FWrite fd ((if negb (out_flag =? 0) then lit "out" else lit "in") ++ [0]);
  _ ⇐ FClose fd;
  mret 0.

Definition gpio_set_value (gpio value : Z) : P Z :=
  fd ⇐ FOpen (gpio_path gpio "/value");
  if (fd : Z) <? 0 then mret fd else
  _ ⇐ FWrite fd ((if negb (value =? 0) then lit "1" else lit "0") ++ [0]);
  _ ⇐ FClose fd;
  mret 0.

(** The result and the value of the caller's variable, which is only set when
    the file could be opened; nothing says whether it could be read. *)
Definition gpio_get_value (gpio : Z) (value : option Z) : P (Z * option Z) :=
  fd ⇐ FOpen (gpio_path gpio "/value");
  if (fd : Z) <? 0 then mret (fd, value) else
  r ⇐ FRead fd 1;
  match r.2 with
  | ch :: _ => _ ⇐ FClose fd; mret (0, Some (if negb (ch =? 48) then 1 else 0))
  | [] => fault NoValue
  end.

Definition gpio_set_edge (gpio : Z) (edge : list Z) : P Z :=
  fd ⇐ FOpen (gpio_path gpio "/edge");
  if (fd : Z) <? 0 then mret fd else
  _ ⇐ FWrite fd (edge ++ [0]);
  _ ⇐ FClose fd;
  mret 0.

Definition gpio_fd_open (gpio : Z) : P Z := fd ⇐ FOpen (gpio_path gpio "/value"); mret (fd : Z).
Definition gpio_fd_close (fd : Z) : P unit := _ ⇐ FClose fd; mret tt.

(** ** The main program *)

Fixpoint output_turns (n : nat) (gpio toggle : Z) : P unit :=
  match n with
  | O => mret tt
  | S n =>
      let toggle := if toggle =? 0 then 1 else 0 in
      _ ← gpio_set_value gpio (if negb (toggle =? 0) then 1 else 0);
      _ ⇐ FSleep 500000;
      output_turns n gpio toggle
  end.

(** The values that are printed. *)
Fixpoint input_turns (n : nat) (gpio : Z) (value : option Z) : P (list Z) :=
  match n with
  | O => mret []
  | S n =>
      r ← gpio_get_value gpio value;
      match r.2 with
      | None => fault NoValue
      | Some v => _ ⇐ FSleep 500000; vs ← input_turns n gpio (Some v); mret (v :: vs)
      end
  end.

(** [Some] is the value that main returns. *)
Fixpoint irq_turns (n : nat) (gpio_fd : Z) : P (option Z) :=
  match n with
  | O => mret None
  | S n =>
      rc ⇐ FSeek gpio_fd;
      if (rc : Z) =? -1 then mret (Some (-1)) else
      r ⇐ FPoll gpio_fd;
      if r.1 <? 0 then mret (Some (-1)) else
      _ ← (if r.2 : bool then _ ⇐ FRead gpio_fd MAX_BUF; mret tt else mret tt);
      irq_turns n gpio_fd
  end.

Definition main (n : nat) : P (option Z) :=
  let gpio := 32 in
  i ⇐ FScanf;
  match i with
  | None => fault NoValue
  | Some i =>
      if i =? 1 then
        _ ← gpio_export gpio; _ ← gpio_set_dir gpio 1; _ ← output_turns n gpio 0; mret None
      else if i =? 2 then
        _ ← gpio_export gpio; _ ← gpio_set_dir gpio 0; _ ← input_turns n gpio None; mret None
      else if i =? 3 then
        _ ← gpio_export gpio; _ ← gpio_set_dir gpio 0; _ ← gpio_set_edge gpio (lit "rising");
        fd ← gpio_fd_open gpio;
        _ ⇐ FRead fd MAX_BUF;
        irq_turns n fd
      else mret (Some 0)
  end.
End program.

(** ** Paths *)

Lemma print_u_length_10 n : 0 <= n <= 2147483648 → (length (print_u 10 n) <= 10)%nat.
Proof.
  intros Hn. pose proof (print_0d_len 10 n ltac:(lia) ltac:(lia)) as Hl. unfold print_0d in Hl.
  rewrite (proj2 (Z.ltb_ge _ _)) in Hl by lia. rewrite length_app in Hl. lia.
Qed.

(** No path is cut off. *)
Theorem gpio_path_whole gpio leaf : (length (lit leaf) <= 32)%nat →
  gpio_path gpio leaf = SYSFS_GPIO_DIR ++ lit "/gpio" ++ print_d (s32 gpio) ++ lit leaf.
Proof.
  intros Hl. unfold gpio_path. rewrite take_ge; [done|]. rewrite !length_app.
  change (length SYSFS_GPIO_DIR) with 15%nat. change (length (lit "/gpio")) with 5%nat.
  assert (length (print_d (s32 gpio)) <= 11)%nat.
  { pose proof (s32_range gpio) as Hr. unfold is_s32 in Hr. unfold print_d. destruct (Z.ltb_spec (s32 gpio) 0); cbn [length];
      [pose proof (print_u_length_10 (- s32 gpio))|pose proof (print_u_length_10 (s32 gpio))]; lia. }
  change (Z.to_nat (MAX_BUF - 1)) with 63%nat. lia.
Qed.

(** Different pins have different files. *)
Theorem gpio_paths_differ g h : 0 <= g <= LONG_MAX → 0 <= h <= LONG_MAX → gpio_path g "/value" = gpio_path h "/value" → g = h.
Proof.
  unfold LONG_MAX. intros Hg Hh. rewrite !gpio_path_whole by (cbn; lia). rewrite !s32_id by (unfold is_s32; lia).
  intros E. apply app_inv_head, app_inv_head, app_inv_tail in E.
  rewrite <- (atoi_print_d g), <- (atoi_print_d h) by (unfold LONG_MAX; lia). by rewrite E.
Qed.

(** ** Setting and reading *)

Section values.
Context {D : Type} `{Hsys : Sysfs D}.
Implicit Types w : world unit fsreq D.

(** What the file of a pin holds for a level. *)
Definition level_text (v : Z) : list Z := (if negb (v =? 0) then lit "1" else lit "0") ++ [10].

Lemma gpio_set_value_runs gpio value v0 w (Q : Z → world unit fsreq D → Prop) :
  attrs w (gpio_path gpio "/value") = Some v0 →
  (∀ w', (∀ q, attrs w' q = if decide (q = gpio_path gpio "/value") then Some (level_text value) else attrs w q) → Q 0 w') →
  runs (gpio_set_value gpio value) w Q.
Proof.
  intros Hp HQ. unfold gpio_set_value. eapply runs_open; [exact Hp|]. intros fd w1 Hfd Ho Ha _.
  rewrite (proj2 (Z.ltb_ge _ _)) by lia. eapply runs_write; [exact Ho|by rewrite Ha|]. intros n w2 _ Ha2 _.
  apply runs_request, runs_ret, HQ. intros q. rewrite attrs_after, Ha2, Ha by done. unfold level_text, kept. by destruct (value =? 0).
Qed.

Lemma gpio_get_value_runs gpio old c l w (Q : Z * option Z → world unit fsreq D → Prop) :
  attrs w (gpio_path gpio "/value") = Some (c :: l) →
  (∀ w', (∀ q, attrs w' q = attrs w q) → Q (0, Some (if negb (c =? 48) then 1 else 0)) w') →
  runs (gpio_get_value gpio old) w Q.
Proof.
  intros Hp HQ. unfold gpio_get_value. eapply runs_open; [exact Hp|]. intros fd w1 Hfd Ho Ha _.
  rewrite (proj2 (Z.ltb_ge _ _)) by lia. eapply runs_read; [exact Ho|by rewrite Ha|lia|]. intros w2 Ha2 _.
  cbn [Z.to_nat Pos.to_nat Pos.iter_op Nat.add take firstn snd]. apply runs_request, runs_ret, HQ. intros q. by rewrite attrs_after, Ha2, Ha by done.
Qed.

Lemma output_turns_runs gpio n : ∀ toggle v0 w (Q : unit → world unit fsreq D → Prop),
  attrs w (gpio_path gpio "/value") = Some v0 → (toggle = 0 ∨ toggle = 1) →
  (∀ w', (∀ q, q ≠ gpio_path gpio "/value" → attrs w' q = attrs w q) →
    attrs w' (gpio_path gpio "/value") = Some (if decide (n = 0%nat) then v0 else level_text (if Nat.even n then toggle else 1 - toggle)) → Q tt w') →
  runs (output_turns n gpio toggle) w Q.
Proof.
  induction n as [|n IH]; intros toggle v0 w Q Hp Ht HQ; cbn [output_turns].
  - apply runs_ret, HQ; [done|]. by rewrite decide_True.
  - assert ((if toggle =? 0 then 1 else 0) = 1 - toggle) as -> by (destruct Ht as [-> | ->]; done).
    apply runs_bind. eapply gpio_set_value_runs; [exact Hp|]. intros w1 Ha. apply runs_request.
    eapply (IH _ (level_text (1 - toggle))); [|lia|].
    + rewrite attrs_after, Ha, decide_True by done. by destruct Ht as [-> | ->].
    + intros w' Ho Hv. apply HQ.
      * intros q Hq. by rewrite Ho, attrs_after, Ha, decide_False by done.
      * rewrite Hv. f_equal. destruct n as [|n]; [done|]. rewrite !decide_False by done. rewrite (Nat.even_succ (S n)), <- Nat.negb_even.
        destruct (Nat.even (S n)); cbn [negb]; f_equal; lia.
Qed.
End values.

(** ** Claims *)

(** What is written to a pin is read back: after gpio_set_value of any value
    gpio_get_value reports success and 1 exactly if the value was not 0, and the
    files of all other pins are as they were. *)
Theorem gpio_value_read_back {D} `{Sysfs D} gpio value old v0 (w : world unit fsreq D) :
  attrs w (gpio_path gpio "/value") = Some v0 →
  runs (_ ← gpio_set_value gpio value; gpio_get_value gpio old) w (λ r w',
    r = (0, Some (if value =? 0 then 0 else 1)) ∧
    ∀ other, 0 <= gpio <= LONG_MAX → 0 <= other <= LONG_MAX → other ≠ gpio → attrs w' (gpio_path other "/value") = attrs w (gpio_path other "/value")).
Proof.
  intros Hp. apply runs_bind. eapply gpio_set_value_runs; [exact Hp|]. intros w1 Ha.
  eapply (gpio_get_value_runs _ _ (if value =? 0 then 48 else 49) [10]); [rewrite Ha, decide_True by done; unfold level_text; by destruct (value =? 0)|].
  intros w2 Ha2.
  split; [by destruct (value =? 0)|]. intros other Hg Ho Hne. rewrite Ha2, Ha, decide_False; [done|]. intros E. by apply gpio_paths_differ in E.
Qed.

(** The output test: after [n] turns the pin is high exactly if [n] is odd. *)
Theorem output_toggles {D} `{Sysfs D} gpio n v0 (w : world unit fsreq D) : (0 < n)%nat →
  attrs w (gpio_path gpio "/value") = Some v0 →
  runs (output_turns n gpio 0) w (λ _ w', attrs w' (gpio_path gpio "/value") = Some (level_text (if Nat.odd n then 1 else 0))).
Proof.
  intros Hn Hp. eapply output_turns_runs; [exact Hp|by left|]. intros w' _ Hv. rewrite Hv, decide_False by lia. rewrite <- Nat.negb_even.
  by destruct (Nat.even n).
Qed.

(** ** Limits *)

(** When the file cannot be read, the value is taken from a variable that was
    never set. *)
Lemma unreadable_pin_has_a_value {D} `{Driver fsreq fsreply D} gpio old (w : world unit fsreq D) fd ret :
  answer w (FOpen (gpio_path gpio "/value")) = fd → 0 <= fd →
  answer (after w (FOpen (gpio_path gpio "/value"))) (FRead fd 1) = (ret, []) → gpio_get_value gpio old w = Crash NoValue.
Proof. intros E1 Hfd E2. unfold gpio_get_value. rewrite request_run, E1, (proj2 (Z.ltb_ge fd 0)) by lia. by rewrite request_run, E2. Qed.

(** A missing pin is reported with a value that was never set. *)
Lemma missing_pin_has_a_value {D} `{Driver fsreq fsreply D} gpio n (w : world unit fsreq D) :
  answer w (FOpen (gpio_path gpio "/value")) < 0 → input_turns (S n) gpio None w = Crash NoValue.
Proof.
  intros E. cbn [input_turns]. rewrite bind_run. unfold gpio_get_value. rewrite request_run, (proj2 (Z.ltb_lt _ _)) by exact E. done.
Qed.

(** The number of a pin above 2^31 is printed with a sign. *)
Lemma big_pin_is_negative : gpio_path 4294967295 "/value" = lit "/sys/class/gpio/gpio-1/value".
Proof. reflexivity. Qed.

(** ** Witnesses *)

Definition two_pins : world unit fsreq demo_dir :=
  World tt (DemoDir [(gpio_path 32 "/value", lit "0" ++ [10]); (gpio_path 33 "/value", lit "1" ++ [10])] []) [].

Lemma gpio_value_read_back_witness :
  runs (_ ← gpio_set_value 32 7; gpio_get_value 32 None) two_pins (λ r w', r = (0, Some 1) ∧ attrs w' (gpio_path 33 "/value") = Some (lit "1" ++ [10])).
Proof.
  eapply runs_mono; [apply (gpio_value_read_back 32 7 None (lit "0" ++ [10])); reflexivity|].
  intros r w' [Hr Ho]. split; [exact Hr|]. rewrite (Ho 33); [reflexivity|unfold LONG_MAX; lia|unfold LONG_MAX; lia|discriminate].
Defined.

Lemma output_toggles_witness :
  runs (output_turns 3 32 0) two_pins (λ _ w', attrs w' (gpio_path 32 "/value") = Some (lit "1" ++ [10])).
Proof.
  eapply runs_mono; [apply (output_toggles 32 3 (lit "0" ++ [10])); [lia|reflexivity]|]. intros r w' Hr. exact Hr.
Defined.

Lemma gpio_path_whole_witness : gpio_path 159 "/direction" = lit "/sys/class/gpio/gpio159/direction".
Proof. rewrite gpio_path_whole by (cbn; lia). reflexivity. Defined.
