(* ===== verification/Bma220.v ===== *)
(** * Bma220: access to the motion sensor

    Models src/msensor/bma220.c and the menu of src/msensor/msensor_demo.c: the
    controls of the device, the attributes of the input device, and the log of
    its samples.  The loops without end are unrolled for a number of turns. *)
From S2P Require Import Prelude LibC Bytes Scan Device Runs Tslib TsInput Sysfs.
Local Open Scope cmodel_scope.
Local Open Scope Z_scope.

(** ** Data *)

Definition BMA_DEVICE : list Z := lit "/dev/bma220".
Definition BMA_DELAY_SYS : list Z := lit "/sys/class/input/input2/delay".
Definition BMA_ENABLE_SYS : list Z := lit "/sys/class/input/input2/enable".
Definition BMA_DATA_SYS : list Z := lit "/sys/class/input/input2/data".
Definition BMA_EVENT : list Z := lit "/dev/input/event2".
Definition LOG_FILE_NAME : list Z := lit "./msensor.log".
Definition ABS_Z : Z := 2.

(** The last position and the number of the next line. *)
Record axes := Axes { ax : Z; ay : Z; az : Z; index : Z }.

(** [%wd] *)
Definition pad (w : nat) (s : list Z) : list Z := replicate (w - length s) 32 ++ s.

(** One line of the log. *)
Definition log_line (a : axes) (sec usec : Z) : list Z :=
  pad 10 (print_d (ax a)) ++ [32] ++ pad 10 (print_d (ay a)) ++ [32] ++ pad 10 (print_d (az a)) ++ [32] ++
  pad 10 (print_d sec) ++ [46] ++ print_0d 6 usec ++ [32] ++ pad 6 (print_d (index a)) ++ [10].

Definition after_line (delay enable : Z) : list Z :=
  [10] ++ lit "bma220_input_process after:delay=" ++ print_d delay ++ lit " enable=" ++ print_d enable ++ [10].

(** The words of struct timeval in an event. *)
Definition ev_sec (b : list Z) : Z := s32 (le_val (sub_bytes b 0 4)).
Definition ev_usec (b : list Z) : Z := s32 (le_val (sub_bytes b 4 4)).

Section program.
Context {D : Type} `{Driver fsreq fsreply D}.
Notation P := (prog unit fsreq D).

(** ** The misc device *)

(** One control; the buffer goes on with what the driver left in it. *)
Definition control (fd : Z) (c : bma_ioctl) (arg : Z) : P Z :=
  r ⇐ FIoctl fd c arg; mret (match r.2 with b :: _ => b | [] => arg end).

Fixpoint acc_turns (n : nat) (fd : Z) : P unit :=
  match n with
  | O => mret tt
  | S n => _ ⇐ FRead fd 3; _ ⇐ FSleep (200 * 1000); acc_turns n fd
  end.

Definition bma220_dev_process (n : nat) : P Z :=
  fd ⇐ FOpen BMA_DEVICE;
  if (fd : Z) <? 0 then mret (-1) else
  b ← control fd BMA220_IOCTL_EVENT_CTRL 0;
  b ← control fd BMA220_IOCTL_CALIBRATION b;
  _ ← control fd BMA220_SOFT_RESET b;
  _ ← control fd BMA220_SET_SUSPEND 1;
  _ ← control fd BMA220_SET_RANGE 0;
  _ ← control fd BMA220_GET_RANGE 0xff;
  _ ← control fd BMA220_SET_BANDWIDTH 2;
  b ← control fd BMA220_GET_BANDWIDTH 0xff;
  b ← control fd BMA220_RESET_INTERRUPT b;
  _ ← control fd BMA220_SET_OFFSET_RESET b;
  _ ← control fd BMA220_GET_CHIP_ID 0xff;
  _ ← control fd BMA220_GET_SLEEP_EN 0xff;
  _ ← control fd BMA220_GET_SLEEP_DUR 0xff;
  _ ← acc_turns n fd;
  mret 0.

(** ** The attributes *)

Definition get_number (path : list Z) : P Z :=
  fd ⇐ FOpen path;
  if (fd : Z) <? 0 then mret (-1) else
  r ⇐ FRead fd 16;
  if r.1 <? 0 then _ ⇐ FClose fd; mret (-1) else
  _ ⇐ FClose fd;
  mret (s32 (strtoul 10 (cstr (r.2 ++ [0]))).1).
Definition set_number (path : list Z) (v : Z) : P Z :=
  fd ⇐ FOpen path;
  if (fd : Z) <? 0 then mret (-1) else
  n ⇐ FWrite fd (print_d v);
  if (n : Z) <? 0 then _ ⇐ FClose fd; mret (-1) else
  _ ⇐ FClose fd;
  mret 0.

Definition bma220_get_delay : P Z := get_number BMA_DELAY_SYS.
Definition bma220_set_delay : Z → P Z := set_number BMA_DELAY_SYS.
Definition bma220_get_enable : P Z := get_number BMA_ENABLE_SYS.
Definition bma220_set_enable : Z → P Z := set_number BMA_ENABLE_SYS.

(** The three numbers, and 0 on success; a file of 64 bytes leaves no room for
    the end of the string. *)
Definition bma220_get_data (xyz : list Z) : P (Z * list Z) :=
  fd ⇐ FOpen BMA_DATA_SYS;
  if (fd : Z) <? 0 then mret (-1, xyz) else
  r ⇐ FRead fd 64;
  if r.1 <? 0 then _ ⇐ FClose fd; mret (-1, xyz) else
  _ ⇐ FClose fd;
  if forallb (λ c, negb (c =? 0)) r.2 && (64 <=? Z.of_nat (length r.2)) then fault OutOfBounds else
  mret (0, scan_ints xyz (cstr (r.2 ++ [0]))).

(** ** Events *)

(** The event; what was read before when nothing is read. *)
Definition next_event (fd : Z) (data : option (list Z)) : P (list Z) :=
  r ⇐ FRead fd event_size;
  match (if Z.of_nat (length r.2) =? event_size then Some r.2 else data) with
  | Some b => mret b
  | None => fault NoValue
  end.

Fixpoint show_turns (n : nat) (fd : Z) (data : option (list Z)) : P unit :=
  match n with
  | O => mret tt
  | S n => b ← next_event fd data; show_turns n fd (Some b)
  end.

Definition bma220_input_process (n : nat) : P Z :=
  _ ← bma220_get_delay;
  _ ← bma220_get_enable;
  _ ← bma220_set_delay 100;
  _ ← bma220_set_enable 1;
  _ ← bma220_get_delay;
  _ ← bma220_get_enable;
  r ← bma220_get_data [0; 0; 0];
  fd ⇐ FOpen BMA_EVENT;
  if (fd : Z) <? 0 then mret (-1) else
  _ ← show_turns n fd None;
  mret 0.

(** [None] is the value of a function that ends without one. *)
Definition put_stream (buf : list Z) : P (option Z) :=
  ok ⇐ FAppend LOG_FILE_NAME buf;
  mret (if ok : bool then Some 1 else None).

(** sprintf() into an array of 512, and the line to the file. *)
Definition put_line (l : list Z) : P unit :=
  if 512 <=? Z.of_nat (length l) then fault OutOfBounds else
  _ ← put_stream l;
  mret tt.

Definition set_axis (ev : input_event) (a : axes) : axes :=
  if ev_code ev =? ABS_X then Axes (ev_value ev) (ay a) (az a) (index a)
  else if ev_code ev =? ABS_Y then Axes (ax a) (ev_value ev) (az a) (index a)
  else if ev_code ev =? ABS_Z then Axes (ax a) (ay a) (ev_value ev) (index a)
  else a.

Definition log_event (b : list Z) (a : axes) : P axes :=
  let ev := event_of b in
  if ev_type ev =? EV_ABS then mret (set_axis ev a)
  else if ev_type ev =? EV_SYN then
    _ ← put_line (log_line a (ev_sec b) (ev_usec b));
    mret (Axes (ax a) (ay a) (az a) (s32 (index a + 1)))
  else mret a.

Fixpoint log_turns (n : nat) (fd : Z) (data : option (list Z)) (a : axes) : P axes :=
  match n with
  | O => mret a
  | S n =>
      b ← next_event fd data;
      a ← log_event b a;
      log_turns n fd (Some b) a
  end.

(** [argv] is the text of the first argument. *)
Definition bma220_put_file (n : nat) (argv : option (list Z)) : P Z :=
  _ ← bma220_get_delay;
  _ ← bma220_get_enable;
  _ ← bma220_set_delay (match argv with Some s => s32 (strtoul 10 s).1 | None => 100 end);
  _ ← bma220_set_enable 1;
  delay ← bma220_get_delay;
  enable ← bma220_get_enable;
  _ ← put_line (after_line delay enable);
  r ← bma220_get_data [0; 0; 0];
  fd ⇐ FOpen BMA_EVENT;
  if (fd : Z) <? 0 then mret (-1) else
  match r.2 with
  | [x; y; z] => _ ← log_turns n fd None (Axes x y z 0); mret 0
  | _ => mret 0
  end.
End program.

(** The menu: what the letter starts. *)
Inductive choice := Misc | Input | PutFile | Detect | Quit | Unknown.
Definition menu_choice (select : Z) : choice :=
  if select =? 49 then Misc else if select =? 50 then Input else if select =? 51 then PutFile
  else if select =? 52 then Detect else if select =? 113 then Quit else Unknown.

(** ** Attributes *)

Lemma kept_number v : 0 <= v <= LONG_MAX →
  s32 (strtoul 10 (cstr (take 16 (kept (print_d v)) ++ [0]))).1 = v.
Proof.
  intros Hv. destruct (print_d_text v (proj1 Hv)) as [Ht Hl]. unfold kept. rewrite (cstr_whole (print_d v)) by done.
  rewrite take_ge by (rewrite length_app; cbn; lia). rewrite cstr_app_nul by (apply Forall_app; split; [done|by repeat constructor]).
  unfold LONG_MAX in Hv. rewrite strtoul10_print by (unfold ULONG_MAX; lia || done). apply s32_id. unfold is_s32. lia.
Qed.

Section attributes.
Context {D : Type} `{Hsys : Sysfs D}.
Implicit Types w : world unit fsreq D.

Lemma set_number_runs p v v0 w (Q : Z → world unit fsreq D → Prop) : attrs w p = Some v0 →
  (∀ w', (∀ q, attrs w' q = if decide (q = p) then Some (kept (print_d v)) else attrs w q) → Q 0 w') →
  runs (set_number p v) w Q.
Proof.
  intros Hp HQ. unfold set_number. eapply runs_open; [exact Hp|]. intros fd w1 Hfd Ho Ha _.
  rewrite (proj2 (Z.ltb_ge _ _)) by lia. eapply runs_write; [exact Ho|by rewrite Ha|]. intros n w2 Hn Ha2 _.
  rewrite (proj2 (Z.ltb_ge _ _)) by lia. apply runs_request, runs_ret, HQ. intros q. by rewrite attrs_after, Ha2, Ha by done.
Qed.

Lemma get_number_runs p v w (Q : Z → world unit fsreq D → Prop) : attrs w p = Some v →
  (∀ w', (∀ q, attrs w' q = attrs w q) → Q (s32 (strtoul 10 (cstr (take 16 v ++ [0]))).1) w') →
  runs (get_number p) w Q.
Proof.
  intros Hp HQ. unfold get_number. eapply runs_open; [exact Hp|]. intros fd w1 Hfd Ho Ha _.
  rewrite (proj2 (Z.ltb_ge _ _)) by lia. eapply runs_read; [exact Ho|by rewrite Ha|lia|]. intros w2 Ha2 _.
  cbn [fst snd]. rewrite (proj2 (Z.ltb_ge _ _)) by lia. apply runs_request, runs_ret, HQ. intros q. by rewrite attrs_after, Ha2, Ha by done.
Qed.
End attributes.

(** ** The log *)

(** The value that an axis had last. *)
Definition latest (code init : Z) (evs : list (list Z)) : Z :=
  default init (last (omap (λ b, if (ev_type (event_of b) =? EV_ABS) && (ev_code (event_of b) =? code) then Some (ev_value (event_of b)) else None) evs)).
Definition is_sync (b : list Z) : bool := ev_type (event_of b) =? EV_SYN.
Definition syncs (evs : list (list Z)) : Z := Z.of_nat (length (filter (λ b, is_sync b = true) evs)).

(** The axes after some events. *)
Definition axes_after (a : axes) (evs : list (list Z)) : axes :=
  Axes (latest ABS_X (ax a) evs) (latest ABS_Y (ay a) evs) (latest ABS_Z (az a) evs) (s32 (index a + syncs evs)).

(** One line for each synchronisation, with what the axes were then. *)
Definition line_at (a : axes) (evs : list (list Z)) (k : nat) : list Z :=
  match evs !! k with
  | Some b => if is_sync b then log_line (axes_after a (take k evs)) (ev_sec b) (ev_usec b) else []
  | None => []
  end.
Definition log_of (a : axes) (evs : list (list Z)) : list Z := mjoin (line_at a evs <$> seq 0 (length evs)).

(** A sensor with events waiting, and the log. *)
Class SensorEvents (D : Type) `{Driver fsreq fsreply D} := {
  event_fd : Z;
  waiting : D → list (list Z);
  logged : D → list Z;
  event_read (d : D) b q : waiting d = b :: q → length b = 16%nat →
    (respond d (FRead event_fd event_size)).2 = (16, b) ∧ waiting (respond d (FRead event_fd event_size)).1 = q ∧
    logged (respond d (FRead event_fd event_size)).1 = logged d;
  log_append (d : D) t : (respond d (FAppend LOG_FILE_NAME t)).2 = true ∧ waiting (respond d (FAppend LOG_FILE_NAME t)).1 = waiting d ∧
    logged (respond d (FAppend LOG_FILE_NAME t)).1 = logged d ++ t
}.

Lemma latest_snoc code init evs b : latest code init (evs ++ [b]) =
  if (ev_type (event_of b) =? EV_ABS) && (ev_code (event_of b) =? code) then ev_value (event_of b) else latest code init evs.
Proof.
  unfold latest. rewrite omap_app. cbn [omap list_omap]. destruct (_ && _); [by rewrite last_snoc|by rewrite app_nil_r].
Qed.

Lemma syncs_snoc evs b : syncs (evs ++ [b]) = syncs evs + (if is_sync b then 1 else 0).
Proof.
  unfold syncs. rewrite filter_app, length_app, Nat2Z.inj_add. f_equal. rewrite filter_cons, filter_nil. destruct (is_sync b); done.
Qed.

Lemma s32_add_s32 a b : s32 (s32 a + b) = s32 (a + b).
Proof.
  unfold s32. replace ((a + 2147483648) mod 4294967296 - 2147483648 + b + 2147483648) with ((a + 2147483648) mod 4294967296 + b) by lia.
  rewrite Zplus_mod_idemp_l. do 2 f_equal. lia.
Qed.

Lemma log_of_snoc a evs b :
  log_of a (evs ++ [b]) = log_of a evs ++ (if is_sync b then log_line (axes_after a evs) (ev_sec b) (ev_usec b) else []).
Proof.
  unfold log_of. rewrite length_app, Nat.add_1_r, seq_S, fmap_app, join_app. apply (f_equal2 (@app Z)).
  - apply (f_equal mjoin). apply list_fmap_ext. intros i k Hk. apply lookup_seq in Hk as [-> Hi]. cbn [Nat.add]. unfold line_at.
    rewrite lookup_app_l by lia. by rewrite take_app_le by lia.
  - cbn [fmap list_fmap mjoin list_join Nat.add]. rewrite app_nil_r. unfold line_at. rewrite list_lookup_middle by done. by rewrite take_app_length.
Qed.

(** What one event does to the axes. *)
Lemma axes_after_snoc a evs b : axes_after a (evs ++ [b]) =
  let a' := axes_after a evs in
  if ev_type (event_of b) =? EV_ABS then set_axis (event_of b) a'
  else if is_sync b then Axes (ax a') (ay a') (az a') (s32 (index a' + 1)) else a'.
Proof.
  unfold axes_after. rewrite !latest_snoc, syncs_snoc. unfold is_sync, set_axis, EV_ABS, EV_SYN, ABS_X, ABS_Y, ABS_Z. cbn [ax ay az index].
  destruct (Z.eqb_spec (ev_type (event_of b)) 3) as [E|E]; cbn [andb].
  - rewrite E. cbn [Z.eqb]. rewrite Z.add_0_r.
    destruct (Z.eqb_spec (ev_code (event_of b)) 0) as [E0|]; [rewrite E0; done|].
    destruct (Z.eqb_spec (ev_code (event_of b)) 1) as [E1|]; [rewrite E1; done|].
    by destruct (Z.eqb_spec (ev_code (event_of b)) 2).
  - destruct (ev_type (event_of b) =? 0); [|by rewrite Z.add_0_r]. rewrite s32_add_s32. by rewrite Z.add_assoc.
Qed.

(** A line fits its array. *)
Lemma print_d_short n : is_s32 n → (length (print_d n) <= 13)%nat.
Proof. intros Hn. unfold print_d. destruct (n <? 0); cbn [length]; [pose proof (print_u_length 10 (- n))|pose proof (print_u_length 10 n)]; lia. Qed.

Lemma pad_short w s : (length s <= 13)%nat → (w <= 13)%nat → (length (pad w s) <= 13)%nat.
Proof. intros. unfold pad. rewrite length_app, length_replicate. lia. Qed.

Lemma log_line_short a sec usec : is_s32 (ax a) → is_s32 (ay a) → is_s32 (az a) → is_s32 (index a) → is_s32 sec → is_s32 usec →
  (length (log_line a sec usec) <= 100)%nat.
Proof.
  intros Hx Hy Hz Hi Hs Hu. unfold log_line. rewrite !length_app. cbn [length].
  assert (length (print_0d 6 usec) <= 13)%nat.
  { unfold print_0d. destruct (usec <? 0); cbn [length]; rewrite ?length_app, ?length_replicate;
      [pose proof (print_u_length 10 (- usec))|pose proof (print_u_length 10 usec)]; lia. }
  pose proof (pad_short 10 _ (print_d_short _ Hx) ltac:(lia)). pose proof (pad_short 10 _ (print_d_short _ Hy) ltac:(lia)).
  pose proof (pad_short 10 _ (print_d_short _ Hz) ltac:(lia)). pose proof (pad_short 10 _ (print_d_short _ Hs) ltac:(lia)).
  pose proof (pad_short 6 _ (print_d_short _ Hi) ltac:(lia)). lia.
Qed.

Lemma latest_s32 code init evs : is_s32 init → is_s32 (latest code init evs).
Proof.
  intros Hi. induction evs as [|b evs IH] using rev_ind; [done|]. rewrite latest_snoc. destruct (_ && _); [apply s32_range|done].
Qed.

Section logging.
Context {D : Type} `{Hsensor : SensorEvents D}.
Implicit Types w : world unit fsreq D.

Definition in_s32 (a : axes) : Prop := is_s32 (ax a) ∧ is_s32 (ay a) ∧ is_s32 (az a).

Lemma log_event_runs b a w (Q : axes → world unit fsreq D → Prop) : in_s32 a → is_s32 (index a) →
  (∀ w', waiting (driver w') = waiting (driver w) →
    logged (driver w') = logged (driver w) ++ (if is_sync b then log_line a (ev_sec b) (ev_usec b) else []) →
    Q (if ev_type (event_of b) =? EV_ABS then set_axis (event_of b) a
       else if is_sync b then Axes (ax a) (ay a) (az a) (s32 (index a + 1)) else a) w') →
  runs (log_event b a) w Q.
Proof.
  intros (Hx & Hy & Hz) Hi HQ. unfold log_event, is_sync in *. destruct (Z.eqb_spec (ev_type (event_of b)) EV_ABS) as [E|E].
  { apply runs_ret, HQ; [done|]. rewrite E. by rewrite app_nil_r. }
  destruct (ev_type (event_of b) =? EV_SYN); [|apply runs_ret, HQ; [done|by rewrite app_nil_r]].
  apply runs_bind. unfold put_line. pose proof (log_line_short a (ev_sec b) (ev_usec b) Hx Hy Hz Hi (s32_range _) (s32_range _)).
  rewrite (proj2 (Z.leb_gt _ _)) by lia. destruct (log_append (driver w) (log_line a (ev_sec b) (ev_usec b))) as (E1 & E2 & E3).
  apply runs_bind, runs_request. unfold answer. rewrite E1. do 2 apply runs_ret. apply runs_ret, HQ; [exact E2|exact E3].
Qed.

Lemma log_turns_runs a l0 rest evs : ∀ front data w (Q : axes → world unit fsreq D → Prop), in_s32 a →
  waiting (driver w) = evs ++ rest → Forall (λ b, length b = 16%nat) evs → logged (driver w) = l0 ++ log_of a front →
  (∀ w', waiting (driver w') = rest → logged (driver w') = l0 ++ log_of a (front ++ evs) → Q (axes_after a (front ++ evs)) w') →
  runs (log_turns (length evs) event_fd data (axes_after a front)) w Q.
Proof.
  induction evs as [|b evs IH]; intros front data w Q Ha Hw Hb Hl HQ; cbn [length log_turns].
  { apply runs_ret. rewrite app_nil_r in HQ. by apply HQ. }
  apply Forall_cons in Hb as [Hb1 Hb]. destruct (event_read (driver w) b (evs ++ rest) Hw Hb1) as (E1 & E2 & E3).
  apply runs_bind, runs_request. unfold answer. rewrite E1. cbn [snd]. rewrite Hb1. change (Z.of_nat 16 =? event_size) with true.
  apply runs_ret, runs_bind. destruct Ha as (Hx & Hy & Hz).
  apply log_event_runs; [split_and!; by apply latest_s32|apply s32_range|]. intros w2 W2 L2. cbn [driver after] in W2, L2.
  pose proof (axes_after_snoc a front b) as Es. cbv zeta in Es. rewrite <- Es.
  apply IH; [done|by rewrite W2|done|rewrite L2, E3, Hl, log_of_snoc; by rewrite app_assoc|].
  intros w3 W3 L3. rewrite <- app_assoc in L3 |- *. by apply HQ.
Qed.
End logging.

(** ** Claims *)

(** C40: The log of the motion sensor: from any events the program writes, for the
    k-th synchronisation and nothing else, one line with the position that the
    events before it left on the three axes, its time and the number k, and no
    line overruns its array. *)
Theorem log_lists_positions {D} `{SensorEvents D} a evs rest data (w : world unit fsreq D) :
  is_s32 (ax a) → is_s32 (ay a) → is_s32 (az a) → is_s32 (index a) →
  waiting (driver w) = evs ++ rest → Forall (λ b, length b = 16%nat) evs →
  runs (log_turns (length evs) event_fd data a) w (λ a' w',
    a' = axes_after a evs ∧ waiting (driver w') = rest ∧ logged (driver w') = logged (driver w) ++ log_of a evs).
Proof.
  intros Hx Hy Hz Hi Hw Hb. replace a with (axes_after a []) at 1 by (destruct a; unfold axes_after; cbn in *; by rewrite Z.add_0_r, s32_id).
  apply (log_turns_runs a (logged (driver w)) rest evs []); [done|done|done|by rewrite app_nil_r|]. done.
Qed.

(** A delay that is set is read back, and so is the enable flag, and neither
    changes the other. *)
Theorem settings_read_back {D} `{Sysfs D} delay enable v0 v1 (w : world unit fsreq D) :
  0 <= delay <= LONG_MAX → 0 <= enable <= LONG_MAX → attrs w BMA_DELAY_SYS = Some v0 → attrs w BMA_ENABLE_SYS = Some v1 →
  runs (_ ← bma220_set_delay delay; _ ← bma220_set_enable enable; d ← bma220_get_delay; e ← bma220_get_enable; mret (d, e)) w
    (λ r _, r = (delay, enable)).
Proof.
  intros Hd He Hv0 Hv1. assert (BMA_ENABLE_SYS ≠ BMA_DELAY_SYS) as Hne by discriminate.
  apply runs_bind. eapply set_number_runs; [exact Hv0|]. intros w1 A1.
  apply runs_bind. eapply set_number_runs; [by rewrite A1, decide_False|]. intros w2 A2.
  apply runs_bind. eapply get_number_runs; [rewrite A2, decide_False, A1, decide_True by done; reflexivity|]. intros w3 A3.
  apply runs_bind. eapply get_number_runs; [rewrite A3, A2, decide_True by done; reflexivity|]. intros w4 A4.
  apply runs_ret. by rewrite !kept_number.
Qed.

(** ** Limits *)

(** Data that was read is never printed: success is 0, and the callers ask for
    more. *)
Lemma data_is_never_positive {D} `{Driver fsreq fsreply D} xyz (w w' : world unit fsreq D) r :
  bma220_get_data xyz w = Ok (r, w') → r.1 <= 0.
Proof.
  unfold bma220_get_data. rewrite request_run. case_match; [intros [= <- <-]; cbn; lia|]. rewrite request_run.
  case_match; [rewrite request_run; intros [= <- <-]; cbn; lia|]. rewrite request_run. case_match; [done|]. intros [= <- <-]. cbn. lia.
Qed.

(** When no event can be read, the last one is served again: a synchronisation
    fills the log. *)
Lemma lost_sensor_fills_log {D} `{Driver fsreq fsreply D} fd b (w : world unit fsreq D) :
  answer w (FRead fd event_size) = (-1, []) → next_event fd (Some b) w = Ok (b, after w (FRead fd event_size)).
Proof. intros E. unfold next_event. rewrite request_run, E. done. Qed.

(** put_stream has no value when the log cannot be opened. *)
Lemma unopened_log_has_no_result {D} `{Driver fsreq fsreply D} t (w : world unit fsreq D) :
  answer w (FAppend LOG_FILE_NAME t) = false → put_stream t w = Ok (None, after w (FAppend LOG_FILE_NAME t)).
Proof. intros E. unfold put_stream. by rewrite request_run, E. Qed.

(** The end of the input is a letter like any other: the menu goes on for ever;
    the capital Q that it offers is not one of its letters. *)
Lemma menu_offers_no_end : menu_choice 255 = Unknown ∧ menu_choice 81 = Unknown ∧ menu_choice 88 = Unknown.
Proof. done. Qed.

(** ** Witnesses *)

Record demo_sensor := DemoSensor { ds_waiting : list (list Z); ds_log : list Z }.
Definition demo_sensor_respond (d : demo_sensor) (r : fsreq) : demo_sensor * fsreply r :=
  match r return demo_sensor * fsreply r with
  | FOpen _ | FSeek _ => (d, 3)
  | FWrite _ data => (d, Z.of_nat (length data))
  | FRead _ _ => match ds_waiting d with b :: q => (DemoSensor q (ds_log d), (16, b)) | [] => (d, (-1, [])) end
  | FAppend _ t => (DemoSensor (ds_waiting d) (ds_log d ++ t), true)
  | FIoctl _ _ a => (d, (0, [a]))
  | FPoll _ => (d, (0, false))
  | FScanf => (d, None)
  | FClose _ | FSleep _ => (d, tt)
  end.

#[export] Instance demo_sensor_driver : Driver fsreq fsreply demo_sensor := demo_sensor_respond.
#[export] Instance demo_sensor_events : SensorEvents demo_sensor.
Proof.
  refine {| event_fd := 3; waiting := ds_waiting; logged := ds_log |}.
  - intros [q0 l] b q E Hb. cbn in E. subst. done.
  - done.
Defined.

Definition demo_event (type code value : Z) : list Z := [1; 0; 0; 0; 2; 0; 0; 0; type; 0; code; 0; value; 0; 0; 0].
Definition demo_events : list (list Z) := [demo_event 3 0 5; demo_event 3 2 9; demo_event 0 0 0; demo_event 3 0 6; demo_event 0 0 0].
Definition demo_log : world unit fsreq demo_sensor := World tt (DemoSensor demo_events []) [].

Lemma log_lists_positions_witness :
  runs (log_turns (length demo_events) event_fd None (Axes 0 0 0 0)) demo_log (λ a _, a = Axes 6 0 9 2) ∧
  log_of (Axes 0 0 0 0) demo_events =
    lit "         5          0          9          1.000002      0" ++ [10] ++ lit "         6          0          9          1.000002      1" ++ [10].
Proof.
  split; [|vm_compute; reflexivity].
  eapply runs_mono; [apply (log_lists_positions (Axes 0 0 0 0) demo_events [] None demo_log)|].
  1-4: cbn; unfold is_s32; lia.
  - reflexivity.
  - repeat constructor.
  - intros a w' [Ha _]. rewrite Ha. vm_compute. reflexivity.
Defined.

Definition demo_attrs : world unit fsreq demo_dir :=
  World tt (DemoDir [(BMA_DELAY_SYS, lit "200" ++ [10]); (BMA_ENABLE_SYS, lit "0" ++ [10])] []) [].

Lemma settings_read_back_witness :
  runs (_ ← bma220_set_delay 100; _ ← bma220_set_enable 1; d ← bma220_get_delay; e ← bma220_get_enable; mret (d, e)) demo_attrs
    (λ r _, r = (100, 1)).
Proof. apply (settings_read_back 100 1 (lit "200" ++ [10]) (lit "0" ++ [10])); [unfold LONG_MAX; lia|unfold LONG_MAX; lia|reflexivity|reflexivity]. Defined.
