(* ===== verification/Demos.v ===== *)
(** * Demos: the requests of the small demos of single devices

    The programs in [Lcm], [Backlight], [Watchdog], [Keypad], [DevMem], [TsDemo]
    and [Lvd] share one type of requests.  A control is named by its macro. *)
From S2P Require Import Prelude LibC Bytes Device Runs Tslib TsInput.
Local Open Scope Z_scope.

Inductive dreq :=
| DOpen (path : list Z) | DClose (fd : Z) | DIoctl (fd : Z) (control : string) (arg : Z)
| DEvent (fd : Z) | DRead (fd n : Z) | DName (fd : Z) | DBits (fd n : Z) | DVarInfo (fd : Z)
| DMmap (fd n : Z) | DMunmap (addr n : Z) | DFill (addr v n : Z) | DFetch (addr n : Z)
| DFopen (name : list Z) | DFread (fp addr n : Z) | DGetchar | DSleep (us : Z) | DPrint (what : string) (values : list Z).

(** A control answers with the value that it stores, or not at all when it
    fails; so do the other requests of a device.  The read of an event delivers
    one event or none. *)
Definition dreply (r : dreq) : Type :=
  match r with
  | DOpen _ | DGetchar => Z
  | DIoctl _ _ _ => option Z
  | DEvent _ => option input_event
  | DRead _ _ => list Z
  | DName _ | DBits _ _ => option (list Z)
  | DVarInfo _ => option (Z * Z * Z)
  | DMmap _ _ | DFopen _ => option Z
  | DFetch _ _ => list Z
  | DFread _ _ _ => bool
  | _ => unit
  end.

(** What a variable holds after a request that may have stored something. *)
Definition newer {A} (stored old : option A) : option A := match stored with Some v => Some v | None => old end.

(** A device with events waiting; afterwards a read delivers nothing. *)
Class Events (D : Type) `{Driver dreq dreply D} := {
  coming : D → list input_event;
  coming_next (d : D) fd : (respond d (DEvent fd)).2 = head (coming d) ∧ coming (respond d (DEvent fd)).1 = tail (coming d);
  coming_kept (d : D) r : (∀ fd, r ≠ DEvent fd) → coming (respond d r).1 = coming d
}.

Lemma coming_event {D} `{Events D} (w : world unit dreq D) fd e es : coming (driver w) = e :: es →
  answer w (DEvent fd) = Some e ∧ coming (driver (after w (DEvent fd))) = es.
Proof. intros E. destruct (coming_next (driver w) fd) as [E1 E2]. rewrite E in E1, E2. by split. Qed.
Lemma coming_other {D} `{Events D} (w : world unit dreq D) r : (∀ fd, r ≠ DEvent fd) → coming (driver (after w r)) = coming (driver w).
Proof. apply coming_kept. Qed.

(** An instance: a list of events, and a failure of everything else. *)
#[export] Instance event_list : Driver dreq dreply (list input_event) := λ es r,
  match r with
  | DEvent _ => (tail es, head es)
  | DOpen _ => (es, 3) | DGetchar => (es, -1)
  | DRead _ _ => (es, []) | DFetch _ _ => (es, []) | DFread _ _ _ => (es, false)
  | DIoctl _ _ _ => (es, None) | DName _ => (es, None) | DBits _ _ => (es, None)
  | DVarInfo _ => (es, None) | DMmap _ _ => (es, None) | DFopen _ => (es, None)
  | DClose _ | DMunmap _ _ | DFill _ _ _ | DSleep _ | DPrint _ _ => (es, tt)
  end.
#[export] Instance event_list_ok : Events (list input_event).
Proof. refine {| coming := λ es, es |}; [done|]. intros d r Hr. destruct r; try done. by destruct (Hr fd). Defined.
