(* ===== verification/Lcm.v ===== *)
(** * Lcm: the menu of the panel

    Models src/lcm/lcm_demo.c: a picture into the memory of the frame buffer,
    then a menu whose letters are controls of the panel. *)
From S2P Require Import Prelude LibC Bytes Device Runs Tslib TsInput Demos.
Local Open Scope cmodel_scope.
Local Open Scope Z_scope.

Definition DISPLAY_MODE_RGB565 : Z := 1.
Definition DISPLAY_MODE_CBYCRY : Z := 4.

(** The control of a letter, and its argument. *)
Definition control_of (select : Z) : option (string * Z) :=
  if select =? 0x31 then Some ("VIDEO_DISPLAY_ON"%string, 0)
  else if select =? 0x32 then Some ("VIDEO_DISPLAY_OFF"%string, 0)
  else if select =? 0x38 then Some ("VIDEO_DISPLAY_LCD"%string, 0)
  else if select =? 0x39 then Some ("VIDEO_DISPLAY_TV"%string, 0)
  else if select =? 97 then Some ("VIDEO_FORMAT_CHANGE"%string, DISPLAY_MODE_RGB565)
  else if select =? 98 then Some ("VIDEO_FORMAT_CHANGE"%string, DISPLAY_MODE_CBYCRY)
  else if select =? 99 then Some ("VIDEO_TV_SYSTEM"%string, 0)
  else if select =? 100 then Some ("VIDEO_TV_SYSTEM"%string, 1)
  else None.
Definition is_exit (select : Z) : bool := (select =? 0x58) || (select =? 0x78).

Section program.
Context {D : Type} `{Driver dreq dreply D}.
Notation P := (prog unit dreq D).

Definition do_control (fd select : Z) : P unit :=
  match control_of select with Some (control, arg) => _ ⇐ DIoctl fd control arg; mret tt | None => mret tt end.

Fixpoint menu (fuel : nat) (fd : Z) : P unit :=
  match fuel with
  | O => fault OutOfFuel
  | S fuel =>
      c ⇐ DGetchar;
      _ ⇐ DGetchar;
      let select := u32 c in
      if is_exit select then mret tt else
      _ ← do_control fd select;
      if negb (select =? 0xFF) then menu fuel fd else mret tt
  end.

(** The file for a size; the stream is not set for another one. *)
Definition picture_for (size : Z) : option (list Z) :=
  if size =? 320 * 240 * 2 then Some (lit "320x240.dat")
  else if size =? 640 * 480 * 2 then Some (lit "640x480.dat")
  else if size =? 480 * 272 * 2 then Some (lit "480x272.dat")
  else if size =? 800 * 480 * 2 then Some (lit "800x480.dat")
  else None.

Definition video_size (info : Z * Z * Z) : Z := u32 (u32 (info.1.1 * info.1.2) * info.2) / 8.

Definition main (fuel : nat) : P (may_exit Z) :=
  fd ⇐ DOpen (lit "/dev/fb0");
  if (fd : Z) =? -1 then go (-1) else
  info ⇐ DVarInfo fd;
  match info with
  | None => _ ⇐ DClose fd; go (-1)
  | Some info =>
      _ ⇐ DIoctl fd "LCD_ENABLE_INT" 0;
      let uVideoSize := video_size info in
      pVideoBuffer ⇐ DMmap fd uVideoSize;
      match pVideoBuffer with
      | None => exits 0
      | Some pVideoBuffer =>
          match picture_for uVideoSize with
          | None => fault NoValue
          | Some name =>
              fp ⇐ DFopen name;
              match fp with
              | None => exits 0
              | Some fp =>
                  ok ⇐ DFread fp pVideoBuffer uVideoSize;
                  if negb (ok : bool) then exits 0 else
                  _ ← menu fuel fd;
                  _ ⇐ DClose fd;
                  go 0
              end
          end
      end
  end.
End program.

(** ** Somebody types lines of one letter; -1 at the end *)

Class Typing (D : Type) `{Driver dreq dreply D} := {
  typed : D → list Z;
  typed_next (d : D) : (respond d DGetchar).2 = default (-1) (head (typed d)) ∧ typed (respond d DGetchar).1 = tail (typed d);
  typed_kept (d : D) r : r ≠ DGetchar → typed (respond d r).1 = typed d
}.

(** The panel of a size, with its picture. *)
Class PanelBoard (D : Type) `{Typing D} (info : Z * Z * Z) := {
  fb_opens (d : D) p : (respond d (DOpen p)).2 ≠ -1;
  fb_info (d : D) fd : (respond d (DVarInfo fd)).2 = Some info;
  fb_maps (d : D) fd n : is_Some (respond d (DMmap fd n)).2;
  picture_opens (d : D) name : is_Some (respond d (DFopen name)).2;
  picture_reads (d : D) fp addr n : (respond d (DFread fp addr n)).2 = true
}.

(** The requests of a turn of the menu, and of all of it. *)
Definition turn_requests (fd c : Z) : list dreq :=
  [DGetchar; DGetchar] ++ match control_of c with Some (control, arg) => [DIoctl fd control arg] | None => [] end.
Definition menu_requests (fd : Z) (cs : list Z) : list dreq := mjoin (turn_requests fd <$> cs) ++ [DGetchar; DGetchar].

(** What is typed: a line per letter, the letter that leaves, and a rest. *)
Definition typing_of (cs : list Z) (x : Z) (rest : list Z) : list Z := mjoin ((λ c, [c; 10]) <$> cs) ++ x :: 10 :: rest.
Definition is_letter (c : Z) : Prop := 0 <= c < 255 ∧ is_exit c = false.

Section menu.
Context {D : Type} `{Typing D}.
Implicit Types w : world unit dreq D.

(** Reading a line of one letter. *)
Lemma getchar_line w c rest : typed (driver w) = c :: 10 :: rest →
  answer w DGetchar = c ∧ typed (driver (after (after w DGetchar) DGetchar)) = rest.
Proof.
  intros Ht. destruct (typed_next (driver w)) as [E1 T1]. destruct (typed_next (driver (after w DGetchar))) as [_ T2].
  rewrite Ht in E1, T1. split; [exact E1|]. cbn [after driver] in T2 |- *. by rewrite T2, T1.
Qed.

Lemma do_control_runs fd c w (Q : unit → world unit dreq D → Prop) :
  (∀ w', typed (driver w') = typed (driver w) → trace w' = trace w ++ drop 2 (turn_requests fd c) → Q tt w') → runs (do_control fd c) w Q.
Proof.
  intros HQ. unfold do_control. unfold turn_requests in HQ. destruct (control_of c) as [[control arg]|].
  - apply runs_request, runs_ret, HQ; [by apply typed_kept|done].
  - apply runs_ret, HQ; [done|by rewrite app_nil_r].
Qed.

Lemma turn_split fd c : turn_requests fd c = [DGetchar] ++ [DGetchar] ++ drop 2 (turn_requests fd c).
Proof. done. Qed.

Lemma lcm_menu_runs fd cs x rest : ∀ fuel w, Forall is_letter cs → is_exit x = true → (length cs < fuel)%nat →
  typed (driver w) = typing_of cs x rest →
  runs (menu fuel fd) w (λ _ w', typed (driver w') = rest ∧ trace w' = trace w ++ menu_requests fd cs).
Proof.
  induction cs as [|c cs IH]; intros [|fuel] w Hcs Hx Hf Ht; cbn [length] in Hf; try lia; cbn [menu].
  all: destruct (getchar_line w _ _ Ht) as [E1 T2]; apply runs_request, runs_request; rewrite E1.
  - assert (u32 x = x) as -> by (apply orb_true_iff in Hx as [Hx|Hx]; apply Z.eqb_eq in Hx; by subst).
    rewrite Hx. apply runs_ret. split; [exact T2|]. by rewrite !trace_after, <- app_assoc.
  - apply Forall_cons in Hcs as [[Hc Hcx] Hcs]. rewrite u32_id by (unfold is_u32; lia). rewrite Hcx. apply runs_bind.
    apply do_control_runs. intros w3 T3 L3. rewrite (proj2 (Z.eqb_neq c 255)) by lia. cbn [negb].
    eapply runs_mono; [apply IH; [done|done|lia|by rewrite T3]|]. intros [] w4 [T4 L4]. split; [done|].
    rewrite L4, L3, !trace_after. unfold menu_requests. cbn [fmap list_fmap mjoin list_join]. rewrite (turn_split fd c). by rewrite <- !app_assoc.
Qed.

(** The loop compares with 0xFF, but the end of the input is 0xFFFFFFFF: the
    menu never ends. *)
Lemma end_of_input_never_ends fd fuel : ∀ w, typed (driver w) = [] → menu fuel fd w = Crash OutOfFuel.
Proof.
  induction fuel as [|fuel IH]; intros w Ht; [done|]. cbn [menu]. rewrite !request_run.
  destruct (typed_next (driver w)) as [E1 T1]. destruct (typed_next (driver (after w DGetchar))) as [_ T2]. cbn [after driver] in T2. rewrite T1, Ht in T2.
  assert (answer w DGetchar = -1) as -> by (unfold answer; by rewrite E1, Ht).
  change (u32 (-1)) with 4294967295. cbn. apply IH. exact T2.
Qed.
End menu.

(** With a panel of a size that has a picture, the program reads the picture
    into the frame buffer, issues exactly the controls of the letters that are
    typed, in their order, and ends at the letter x, the panel closed. *)
Theorem lcm_serves_letters {D} `{PanelBoard D info} cs x rest fuel name (w : world unit dreq D) :
  picture_for (video_size info) = Some name → Forall is_letter cs → is_exit x = true → (length cs < fuel)%nat →
  typed (driver w) = typing_of cs x rest →
  runs (main fuel) w (λ r w', r = inl 0 ∧ typed (driver w') = rest ∧ ∃ fd addr fp, trace w' = trace w ++
    [DOpen (lit "/dev/fb0"); DVarInfo fd; DIoctl fd "LCD_ENABLE_INT" 0; DMmap fd (video_size info); DFopen name; DFread fp addr (video_size info)] ++
    menu_requests fd cs ++ [DClose fd]).
Proof.
  intros Hp Hcs Hx Hf Ht. unfold main. apply runs_request. set (fd := answer w _).
  rewrite (proj2 (Z.eqb_neq fd (-1))) by apply fb_opens. apply runs_request. unfold answer at 1. rewrite fb_info.
  do 2 apply runs_request. destruct (fb_maps (driver (after (after (after w (DOpen (lit "/dev/fb0"))) (DVarInfo fd)) (DIoctl fd "LCD_ENABLE_INT" 0))) fd (video_size info)) as [addr Ea].
  unfold answer at 1. rewrite Ea, Hp. apply runs_request. unfold answer at 1. edestruct picture_opens as [fp Efp]. erewrite Efp.
  apply runs_request. unfold answer at 1. rewrite picture_reads. cbn [negb]. apply runs_bind.
  eapply runs_mono; [eapply lcm_menu_runs; [done..|]|].
  - cbn [after driver]. by rewrite !typed_kept by discriminate.
  - intros [] w' [Hr L]. apply runs_request, runs_go. split; [done|]. split; [cbn [after driver]; by rewrite typed_kept by discriminate|].
    exists fd, addr, fp. rewrite trace_after, L, !trace_after. by rewrite <- !app_assoc.
Qed.

(** ** Limits *)

(** A panel of another size: the stream that is read was never set. *)
Lemma other_panel_has_no_picture {D} `{PanelBoard D info} fuel (w : world unit dreq D) :
  picture_for (video_size info) = None → main fuel w = Crash NoValue.
Proof.
  intros Hp. unfold main. rewrite request_run. set (fd := answer w _). rewrite (proj2 (Z.eqb_neq fd (-1))) by apply fb_opens.
  rewrite request_run. unfold answer at 1. rewrite fb_info, !request_run. unfold answer at 1. edestruct fb_maps as [addr ->]. by rewrite Hp.
Qed.

(** ** Witnesses *)

Definition keyboard : Type := list Z.
#[export] Instance keyboard_driver : Driver dreq dreply keyboard := λ d r,
  match r with
  | DGetchar => (tail d, default (-1) (head d))
  | DOpen _ => (d, 3) | DVarInfo _ => (d, Some (320, 240, 16)) | DMmap _ _ => (d, Some 4096) | DFopen _ => (d, Some 7) | DFread _ _ _ => (d, true)
  | DEvent _ => (d, None) | DRead _ _ => (d, []) | DFetch _ _ => (d, [])
  | DIoctl _ _ _ => (d, None) | DName _ => (d, None) | DBits _ _ => (d, None)
  | DClose _ | DMunmap _ _ | DFill _ _ _ | DSleep _ | DPrint _ _ => (d, tt)
  end.
#[export] Instance keyboard_typing : Typing keyboard.
Proof. refine {| typed := λ d, d |}; [done|]. by intros d []. Defined.
#[export] Instance keyboard_board : PanelBoard keyboard (320, 240, 16).
Proof. split; intros; cbn; try done; by eexists. Defined.

Lemma lcm_serves_letters_witness :
  runs (main 3) (World tt (lit "1" ++ [10] ++ lit "d" ++ [10] ++ lit "x" ++ [10]) [])
    (λ r w', r = inl 0 ∧ ∃ fd, [DIoctl fd "VIDEO_DISPLAY_ON" 0; DIoctl fd "VIDEO_TV_SYSTEM" 1] `sublist_of` trace w').
Proof.
  eapply runs_mono; [apply (lcm_serves_letters [49; 100] 120 [] 3 (lit "320x240.dat")); [reflexivity| |reflexivity|cbn; lia|reflexivity]|].
  - repeat constructor; cbn; lia.
  - intros r w' (Hr & _ & fd & addr & fp & E). split; [exact Hr|]. exists fd. rewrite E. cbn. repeat constructor.
Defined.
