(* ===== verification/Backlight.v ===== *)
(** * Backlight: keys that change the brightness of the panel

    Models src/backlight/backlight_demo.c; its loop has no end and is unrolled
    for a number of turns. *)
From S2P Require Import Prelude LibC Bytes Device Runs Tslib TsInput Demos.
Local Open Scope cmodel_scope.
Local Open Scope Z_scope.

Definition KPD_DEV : list Z := lit "/dev/input/event1".
Definition FB_DEV : list Z := lit "/dev/fb0".

(** The lines before the control: the new brightness, when the event asks for
    one. *)
Definition adjust (brightness : Z) (data : input_event) : option Z :=
  if (ev_type data =? 0) || (ev_value data <=? 0) then None else
  match (if ev_code data =? 174 then Some (brightness - 100) else if ev_code data =? 175 then Some (brightness + 100) else None) with
  | None => None
  | Some brightness =>
      let brightness := if brightness <=? 0 then 1 else brightness in
      Some (if 2000 <? brightness then 2000 else brightness)
  end.

Section program.
Context {D : Type} `{Driver dreq dreply D}.
Notation P := (prog unit dreq D).

Fixpoint turns (n : nat) (kpd_fd fb_fd : Z) (data : option input_event) (brightness : Z) : P Z :=
  match n with
  | O => mret brightness
  | S n =>
      r ⇐ DEvent kpd_fd;
      match newer r data with
      | None => fault NoValue
      | Some data =>
          match adjust brightness data with
          | None => turns n kpd_fd fb_fd (Some data) brightness
          | Some brightness =>
              _ ⇐ DIoctl fb_fd "IOCTL_LCD_BRIGHTNESS" brightness;
              _ ⇐ DSleep 100000;
              turns n kpd_fd fb_fd (Some data) brightness
          end
      end
  end.

(** The value main returns, or the brightness at the end of the turns. *)
Definition main (n : nat) : P (Z + Z) :=
  kpd_fd ⇐ DOpen KPD_DEV;
  if (kpd_fd : Z) <? 0 then mret (inl (-1)) else
  fb_fd ⇐ DOpen FB_DEV;
  if (fb_fd : Z) <? 0 then mret (inl (-1)) else
  b ← turns n kpd_fd fb_fd None 2000;
  mret (inr b).
End program.

(** ** What it means to do: a level between the limits *)

(** The level after an event, and the levels that are set. *)
Definition level (b : Z) (e : input_event) : Z := default b (adjust b e).
Fixpoint levels (b : Z) (es : list input_event) : list Z :=
  match es with
  | [] => []
  | e :: es => match adjust b e with Some b' => b' :: levels b' es | None => levels b es end
  end.

(** The levels that the requests set. *)
Definition level_set (r : dreq) : option Z :=
  match r with DIoctl _ c v => if String.eqb c "IOCTL_LCD_BRIGHTNESS" then Some v else None | _ => None end.

Lemma adjust_range b e b' : adjust b e = Some b' → 1 <= b' <= 2000.
Proof.
  unfold adjust. intros E. destruct (_ || _); [done|]. destruct (if ev_code e =? 174 then _ else _) as [b1|]; [|done]. injection E as <-.
  destruct (Z.leb_spec b1 0); [|destruct (Z.ltb_spec 2000 b1)]; cbn; lia.
Qed.

(** A pressed key moves the level by a step of 100, within the limits. *)
Lemma adjust_is_clamp b e : 1 <= b <= 2000 → ev_type e ≠ 0 → 0 < ev_value e →
  adjust b e = if ev_code e =? 174 then Some (Z.max 1 (b - 100)) else if ev_code e =? 175 then Some (Z.min 2000 (b + 100)) else None.
Proof.
  intros Hb Ht Hv. unfold adjust. rewrite (proj2 (Z.eqb_neq _ _)), (proj2 (Z.leb_gt _ _)) by lia. cbn [orb].
  destruct (ev_code e =? 174); [|destruct (ev_code e =? 175); [|done]]; f_equal.
  - destruct (Z.leb_spec (b - 100) 0); [cbn; lia|]. rewrite (proj2 (Z.ltb_ge _ _)) by lia. lia.
  - rewrite (proj2 (Z.leb_gt _ _)) by lia. destruct (Z.ltb_spec 2000 (b + 100)); lia.
Qed.

Lemma levels_range es : ∀ b, Forall (λ l, 1 <= l <= 2000) (levels b es).
Proof.
  induction es as [|e es IH]; intros b; cbn [levels]; [constructor|]. destruct (adjust b e) as [b'|] eqn:E; [|apply IH].
  constructor; [by eapply adjust_range|apply IH].
Qed.

Lemma level_range es : ∀ b, 1 <= b <= 2000 → 1 <= foldl level b es <= 2000.
Proof.
  induction es as [|e es IH]; intros b Hb; cbn [foldl]; [done|]. apply IH. unfold level.
  destruct (adjust b e) as [b'|] eqn:E; [by eapply adjust_range|done].
Qed.

Section levels.
Context {D : Type} `{Events D}.
Implicit Types w : world unit dreq D.

Lemma turns_runs kpd fb es rest : ∀ data b w, coming (driver w) = es ++ rest →
  runs (turns (length es) kpd fb data b) w (λ b' w', b' = foldl level b es ∧ coming (driver w') = rest ∧
    omap level_set (trace w') = omap level_set (trace w) ++ levels b es).
Proof.
  induction es as [|e es IH]; intros data b w Hc; cbn [length turns levels foldl].
  - apply runs_ret. by rewrite app_nil_r.
  - destruct (coming_event w kpd e (es ++ rest)) as [E C1]; [done|]. apply runs_request. rewrite E. cbn [newer].
    unfold level at 2. destruct (adjust b e) as [b'|] eqn:Ea; cbn [default].
    + do 2 apply runs_request. eapply runs_mono; [apply IH; by rewrite !coming_other by discriminate|].
      intros a w' (-> & C2 & L). do 2 (split; [done|]). rewrite L, !trace_after, !omap_app. cbn. by rewrite !app_nil_r, <- app_assoc.
    + eapply runs_mono; [apply IH, C1|]. intros a w' (-> & C2 & L). do 2 (split; [done|]).
      rewrite L, trace_after, omap_app. cbn. by rewrite app_nil_r.
Qed.
End levels.

(** With both devices there, the program sets exactly the levels of the keys
    that come, in their order; every level lies in 1..2000. *)
Theorem backlight_follows_keys {D} `{Events D} es rest (w : world unit dreq D) :
  (∀ (d : D) p, 0 <= (respond d (DOpen p)).2) → trace w = [] → coming (driver w) = es ++ rest →
  runs (main (length es)) w (λ r w', r = inr (foldl level 2000 es) ∧ 1 <= foldl level 2000 es <= 2000 ∧
    omap level_set (trace w') = levels 2000 es ∧ Forall (λ l, 1 <= l <= 2000) (levels 2000 es)).
Proof.
  intros Ho Hl Hc. unfold main. apply runs_request. rewrite (proj2 (Z.ltb_ge _ _)) by apply Ho.
  apply runs_request. rewrite (proj2 (Z.ltb_ge _ _)) by apply Ho. apply runs_bind.
  eapply runs_mono; [eapply turns_runs; by rewrite !coming_other by discriminate|].
  intros b w' (-> & _ & L). apply runs_ret. split; [done|]. split; [apply level_range; lia|]. split; [|apply levels_range].
  rewrite L, !trace_after, Hl. done.
Qed.

(** ** Limits *)

(** When the keypad is gone its last event is served again for ever: after a
    key the panel goes on to the limit. *)
Lemma lost_keypad_repeats {D} `{Events D} n kpd fb e b (w : world unit dreq D) : coming (driver w) = [] →
  runs (turns n kpd fb (Some e) b) w (λ b' _, b' = foldl level b (replicate n e)).
Proof.
  revert b w. induction n as [|n IH]; intros b w Hc; cbn [turns replicate foldl]; [by apply runs_ret|].
  apply runs_request. destruct (coming_next (driver w) kpd) as [E C]. rewrite Hc in E, C. unfold answer. rewrite E. cbn [newer head].
  unfold level at 2. destruct (adjust b e) as [b'|]; cbn [default].
  - do 2 apply runs_request. apply IH. by rewrite !coming_other by discriminate.
  - by apply IH.
Qed.

(** Down and up again are not the same levels: the lowest one is 1. *)
Lemma lowest_level_shifts :
  levels 200 [Event 0 1 174 1; Event 0 1 174 1] = [100; 1] ∧ level 1 (Event 0 1 175 1) = 101.
Proof. done. Qed.

(** ** Witnesses *)

Lemma backlight_follows_keys_witness :
  runs (main 4) (World tt [Event 0 1 174 1; Event 0 0 0 0; Event 0 1 175 1; Event 0 1 175 1] [])
    (λ r w', r = inr 2000 ∧ omap level_set (trace w') = [1900; 2000; 2000]).
Proof.
  eapply runs_mono; [apply (backlight_follows_keys [Event 0 1 174 1; Event 0 0 0 0; Event 0 1 175 1; Event 0 1 175 1] []);
    [intros d p; cbn; lia|reflexivity|reflexivity]|].
  intros r w' (-> & _ & L & _). split; [reflexivity|exact L].
Defined.
