(* ===== verification/Watchdog.v ===== *)
(** * Watchdog: the watchdog demo

    Models src/watchdog/wdt_demo.c: the interval is set, the watchdog is fed
    twice and then no more, and the time that is left is polled until the board
    is reset.  The last loop has no end and is unrolled for a number of turns. *)
From S2P Require Import Prelude LibC Bytes Device Runs Tslib TsInput Demos.
Local Open Scope cmodel_scope.
Local Open Scope Z_scope.

Definition second : Z := 1000000.

Section program.
Context {D : Type} `{Driver dreq dreply D}.
Notation P := (prog unit dreq D).

(** A control that stores into a variable of the program. *)
Definition store (fd : Z) (control : string) (arg : Z) (v : option Z) : P (option Z) :=
  r ⇐ DIoctl fd control arg; mret (newer r v).

Fixpoint keep_alive (fuel : nat) (fd i : Z) (timeval : option Z) : P (option Z) :=
  match fuel with
  | O => fault OutOfFuel
  | S fuel =>
      if i <? 2 then
        _ ⇐ DIoctl fd "WDIOC_KEEPALIVE" 0;
        timeval ← store fd "WDIOC_GETTIMELEFT" 0 timeval;
        _ ⇐ DSleep second;
        timeval ← store fd "WDIOC_GETTIMELEFT" 0 timeval;
        _ ⇐ DSleep (2 * second);
        timeval ← store fd "WDIOC_GETTIMELEFT" 0 timeval;
        keep_alive fuel fd (i + 1) timeval
      else _ ⇐ DSleep (2 * second); mret timeval
  end.

Fixpoint polls (n : nat) (fd : Z) (timeval : option Z) : P unit :=
  match n with
  | O => mret tt
  | S n =>
      timeval ← store fd "WDIOC_GETTIMELEFT" 0 timeval;
      match timeval with
      | None => fault NoValue
      | Some t => _ ⇐ DSleep (if 10 <? t then 100000 else 10000); polls n fd (Some t)
      end
  end.

Definition main (n : nat) : P (may_exit unit) :=
  fd ⇐ DOpen (lit "/dev/watchdog");
  if (fd : Z) =? -1 then exits 1 else
  bootstatus ← store fd "WDIOC_GETBOOTSTATUS" 0 None;
  interval ← store fd "WDIOC_GETTIMEOUT" 0 None;
  new_interval ← store fd "WDIOC_SETTIMEOUT" 7 (Some 7);
  interval ← store fd "WDIOC_GETTIMEOUT" 0 interval;
  match interval with
  | None => fault NoValue
  | Some _ =>
      timeval ← keep_alive 3 fd 0 None;
      _ ⇐ DSleep second;
      _ ← polls n fd timeval;
      go tt
  end.
End program.

(** ** What it requests *)

Definition setup_requests (fd : Z) : list dreq :=
  [DOpen (lit "/dev/watchdog"); DIoctl fd "WDIOC_GETBOOTSTATUS" 0; DIoctl fd "WDIOC_GETTIMEOUT" 0; DIoctl fd "WDIOC_SETTIMEOUT" 7;
   DIoctl fd "WDIOC_GETTIMEOUT" 0].
Definition feed_requests (fd : Z) : list dreq :=
  let left := DIoctl fd "WDIOC_GETTIMELEFT" 0 in
  [DIoctl fd "WDIOC_KEEPALIVE" 0; left; DSleep second; left; DSleep (2 * second); left].
Definition is_poll (fd : Z) (r : dreq) : Prop := r = DIoctl fd "WDIOC_GETTIMELEFT" 0 ∨ r = DSleep 100000 ∨ r = DSleep 10000.

(** How long a piece of the run sleeps. *)
Definition slept (l : list dreq) : Z := foldr (λ r s, match r with DSleep us => us + s | _ => s end) 0 l.

(** A watchdog that is there and answers. *)
Class Dog (D : Type) `{Driver dreq dreply D} := {
  dog_opens (d : D) p : (respond d (DOpen p)).2 ≠ -1;
  dog_answers (d : D) fd control arg : is_Some (respond d (DIoctl fd control arg)).2
}.

Section requests.
Context {D : Type} `{Dog D}.
Implicit Types w : world unit dreq D.

Lemma store_runs fd control arg v w (Q : option Z → world unit dreq D → Prop) :
  (∀ t, Q (Some t) (after w (DIoctl fd control arg))) → runs (store fd control arg v) w Q.
Proof.
  intros HQ. unfold store. apply runs_request, runs_ret. unfold answer. destruct (dog_answers (driver w) fd control arg) as [t E]. rewrite E. apply HQ.
Qed.

Lemma polls_runs fd n : ∀ v w, runs (polls n fd v) w (λ _ w', ∃ l, trace w' = trace w ++ l ∧ Forall (is_poll fd) l ∧ length l = (2 * n)%nat).
Proof.
  induction n as [|n IH]; intros v w; cbn [polls].
  - apply runs_ret. exists []. by rewrite app_nil_r.
  - apply runs_bind, store_runs. intros t. apply runs_request. eapply runs_mono; [apply IH|].
    intros [] w' (l & L & Hl & Hlen). eexists ([_; _] ++ l). rewrite L, !trace_after. split; [by rewrite <- !app_assoc|].
    split; [|cbn [app length]; lia]. constructor; [by left|]. constructor; [|exact Hl]. right. destruct (10 <? t); tauto.
Qed.

Lemma keep_alive_runs fd w (Q : option Z → world unit dreq D → Prop) :
  (∀ t w', trace w' = trace w ++ feed_requests fd ++ feed_requests fd ++ [DSleep (2 * second)] → Q (Some t) w') → runs (keep_alive 3 fd 0 None) w Q.
Proof.
  intros HQ. cbn. do 2 (apply runs_request, runs_bind, store_runs; intros ?; apply runs_request, runs_bind, store_runs; intros ?;
    apply runs_request, runs_bind, store_runs; intros ?).
  apply runs_request, runs_ret, HQ. rewrite !trace_after. by rewrite <- !app_assoc.
Qed.
End requests.

(** The watchdog is fed exactly twice, and after that only asked for the time
    that is left: whatever the number of polls, nothing feeds it again. *)
Theorem watchdog_is_starved {D} `{Dog D} n (w : world unit dreq D) :
  runs (main n) w (λ r w', r = inl tt ∧ ∃ fd l, Forall (is_poll fd) l ∧ length l = (2 * n)%nat ∧
    trace w' = trace w ++ setup_requests fd ++ feed_requests fd ++ feed_requests fd ++ [DSleep (2 * second); DSleep second] ++ l).
Proof.
  unfold main. apply runs_request. set (fd := answer w _). rewrite (proj2 (Z.eqb_neq fd (-1))) by apply dog_opens.
  do 4 (apply runs_bind, store_runs; intros ?). apply runs_bind, keep_alive_runs. intros last w1 L1. apply runs_request, runs_bind.
  eapply runs_mono; [apply polls_runs|]. intros [] w2 (l & L2 & Hl & Hlen). apply runs_go. split; [done|]. exists fd, l. split_and!; [done|done|].
  rewrite L2, trace_after, L1, !trace_after. by rewrite <- !app_assoc.
Qed.

(** ** Limits *)

(** The text announces a feed every 5 seconds; the loop sleeps 3 of them.  After
    the last feed it has slept 6 seconds of the 7 when the polls begin. *)
Lemma feeds_are_three_seconds_apart fd : slept (feed_requests fd) = 3 * second ∧
  slept (feed_requests fd ++ [DSleep (2 * second); DSleep second]) = 6 * second.
Proof. done. Qed.

(** A watchdog that does not tell its interval: a variable that was never set is
    printed. *)
Lemma silent_watchdog_has_no_interval {D} `{Driver dreq dreply D} n (w : world unit dreq D) :
  answer w (DOpen (lit "/dev/watchdog")) ≠ -1 → (∀ (d : D) fd, (respond d (DIoctl fd "WDIOC_GETTIMEOUT" 0)).2 = None) → main n w = Crash NoValue.
Proof.
  intros Ho Hn. unfold main. rewrite request_run. set (fd := answer w _). rewrite (proj2 (Z.eqb_neq fd (-1))) by exact Ho.
  unfold store. rewrite !bind_run, !request_run, !mret_run, !bind_run, !request_run, !mret_run, !bind_run, !request_run, !mret_run, !bind_run, !request_run.
  unfold answer. rewrite !Hn. done.
Qed.

(** ** Witnesses *)

Definition demo_dog : Type := Z.
#[export] Instance demo_dog_driver : Driver dreq dreply demo_dog := λ d r,
  match r with
  | DIoctl _ _ _ => (d - 1, Some d)
  | DOpen _ => (d, 3) | DGetchar => (d, -1)
  | DEvent _ => (d, None) | DRead _ _ => (d, []) | DFetch _ _ => (d, []) | DFread _ _ _ => (d, false)
  | DName _ => (d, None) | DBits _ _ => (d, None) | DVarInfo _ => (d, None) | DMmap _ _ => (d, None) | DFopen _ => (d, None)
  | DClose _ | DMunmap _ _ | DFill _ _ _ | DSleep _ | DPrint _ _ => (d, tt)
  end.
#[export] Instance demo_dog_ok : Dog demo_dog.
Proof. split; intros; cbn; [lia|by eexists]. Defined.

Lemma watchdog_is_starved_witness :
  runs (main 5) (World tt (700 : demo_dog) []) (λ r w', r = inl tt ∧ (length (trace w') = 29)%nat).
Proof.
  eapply runs_mono; [apply (watchdog_is_starved 5)|]. intros r w' (-> & fd & l & _ & Hl & ->). split; [reflexivity|].
  rewrite !length_app, Hl. reflexivity.
Defined.
