(* ===== verification/Keypad.v ===== *)
(** * Keypad: the search for the keypad and its events

    Models src/keypad/kpd_demo.c; the loop over the events has no end and is
    unrolled for a number of turns. *)
From S2P Require Import Prelude LibC Bytes Device Runs Tslib TsInput Demos.
Local Open Scope cmodel_scope.
Local Open Scope Z_scope.

Definition RETRY_NUM : nat := 4.
Definition EV_MAX : Z := 31.

(** [char device[]], with its final zero. *)
Definition device_init : list Z := lit "/dev/input/event0" ++ [0].
(** [device[16]++] *)
Definition next_device (device : list Z) : result (list Z) := c ← rd device 16; wr device 16 (u8 (c + 1)).

(** [array[bit/8] & (1<<(bit%8))] *)
Definition test_bit (bit : Z) (array : list Z) : result bool :=
  b ← rd array (bit / 8); Ok (negb (Z.land b (Z.shiftl 1 (bit mod 8)) =? 0)).

(** The event types that are listed. *)
Fixpoint types_loop (n : nat) (yalv : Z) (evtype_bitmask : list Z) : result (list Z) :=
  match n with
  | O => Ok []
  | S n =>
      b ← test_bit yalv evtype_bitmask;
      l ← types_loop n (yalv + 1) evtype_bitmask;
      Ok (if b : bool then yalv :: l else l)
  end.
Definition event_types (evtype_bitmask : list Z) : result (list Z) := types_loop (Z.to_nat EV_MAX) 0 evtype_bitmask.

Section program.
Context {D : Type} `{Driver dreq dreply D}.
Notation P := (prog unit dreq D).

(** The loop over the devices: the descriptor of the keypad, if there is one. *)
Fixpoint search (n : nat) (device : list Z) : P (option Z) :=
  match n with
  | O => mret None
  | S n =>
      fd ⇐ DOpen (cstr device);
      if (fd : Z) <? 0 then mret None else
      devname ⇐ DName fd;
      if match devname with Some name => strstr (cstr name) (lit "Keypad") | None => false end then mret (Some fd) else
      _ ⇐ DClose fd;
      device ← lift (next_device device);
      search n device
  end.

(** The descriptor, or the failure (-1). *)
Definition init_device : P (option Z) :=
  result ← search RETRY_NUM device_init;
  match result with
  | None => mret None
  | Some fd =>
      bits ⇐ DBits fd (EV_MAX / 8 + 1);
      match bits with
      | None => fault NoValue
      | Some bits => types ← lift (event_types bits); _ ⇐ DPrint "Event type" types; mret (Some fd)
      end
  end.

Fixpoint turns (n : nat) (fd : Z) (data : option input_event) : P unit :=
  match n with
  | O => mret tt
  | S n =>
      r ⇐ DEvent fd;
      match newer r data with
      | None => fault NoValue
      | Some data =>
          if ev_type data =? 0 then turns n fd (Some data) else
          _ ⇐ DPrint (if ev_value data =? 0 then "up" else "down") [ev_time data; ev_type data; ev_code data; ev_value data];
          turns n fd (Some data)
      end
  end.

Definition main (n : nat) : P Z :=
  r ← init_device;
  match r with None => mret (-1) | Some fd => _ ← turns n fd None; mret 0 end.
End program.

(** ** Devices *)

(** The path of a device. *)
Definition event_path (i : nat) : list Z := lit "/dev/input/event" ++ [48 + Z.of_nat i].

Lemma device_is_path : cstr device_init = event_path 0.
Proof. done. Qed.

(** The array of the name after some turns. *)
Definition device_at (i : nat) : list Z := event_path i ++ [0].
Lemma next_device_at i : (i < 9)%nat → next_device (device_at i) = Ok (device_at (S i)) ∧ cstr (device_at i) = event_path i.
Proof. intros Hi. do 9 (destruct i as [|i]; [by vm_compute|]). lia. Qed.

Lemma types_loop_spec bits : length bits = 4%nat → ∀ n yalv, 0 <= yalv → yalv + Z.of_nat n <= 32 →
  ∃ l, types_loop n yalv bits = Ok l ∧ ∀ y, y ∈ l ↔ yalv <= y < yalv + Z.of_nat n ∧ test_bit y bits = Ok true.
Proof.
  intros Hb. induction n as [|n IH]; intros yalv Hy Hn; cbn [types_loop].
  - exists []. split; [done|]. intros y. rewrite elem_of_nil. lia.
  - destruct (IH (yalv + 1)) as (l & E & Hl); [lia|lia|].
    destruct (rd_is_ok bits (yalv / 8)) as [v Ev].
    { rewrite Hb. pose proof (Z.div_pos yalv 8). pose proof (Z.div_lt_upper_bound yalv 8 4). lia. }
    assert (∃ b, test_bit yalv bits = Ok b) as [b Eb] by (unfold test_bit; rewrite Ev; by eexists).
    rewrite Eb, E. cbn [mbind result_bind]. eexists. split; [reflexivity|]. intros y.
    assert ((if b then yalv :: l else l) = (if b then [yalv] else []) ++ l) as -> by (by destruct b).
    rewrite elem_of_app, Hl. destruct (decide (y = yalv)) as [->|Hne].
    + rewrite Eb. destruct b; [rewrite list_elem_of_singleton|rewrite elem_of_nil]; naive_solver lia.
    + assert (y ∈ (if b then [yalv] else []) ↔ False) as -> by (destruct b; [rewrite list_elem_of_singleton|rewrite elem_of_nil]; naive_solver).
      naive_solver lia.
Qed.

(** The list holds exactly the types below EV_MAX whose bit is set. *)
Theorem event_types_exact bits : length bits = 4%nat →
  ∃ l, event_types bits = Ok l ∧ ∀ y, y ∈ l ↔ 0 <= y < 31 ∧ test_bit y bits = Ok true.
Proof. intros Hb. apply (types_loop_spec bits Hb 31 0); lia. Qed.

(** Input devices with names, and which device a descriptor is open on. *)
Class InputDevices (D : Type) `{Driver dreq dreply D} (names : list (list Z)) := {
  open_on : D → Z → option nat;
  device_opens (d : D) i : (i < length names)%nat → let r := respond d (DOpen (event_path i)) in
    0 <= r.2 ∧ open_on d r.2 = None ∧ ∀ fd, open_on r.1 fd = if decide (fd = r.2) then Some i else open_on d fd;
  device_missing (d : D) i : (length names <= i)%nat → let r := respond d (DOpen (event_path i)) in r.2 < 0 ∧ ∀ fd, open_on r.1 fd = open_on d fd;
  device_named (d : D) fd i : open_on d fd = Some i → (respond d (DName fd)).2 = names !! i;
  device_closes (d : D) fd g : open_on (respond d (DClose fd)).1 g = if decide (g = fd) then None else open_on d g;
  device_bits (d : D) fd n : ∃ bits, (respond d (DBits fd n)).2 = Some bits ∧ length bits = Z.to_nat n;
  device_kept (d : D) r : (∀ p, r ≠ DOpen p) → (∀ fd, r ≠ DClose fd) → ∀ fd, open_on (respond d r).1 fd = open_on d fd
}.

(** The first device with the name, among those that are looked at. *)
Definition is_keypad (name : list Z) : bool := strstr (cstr name) (lit "Keypad").
Fixpoint first_keypad (n i : nat) (names : list (list Z)) : option nat :=
  match n, names with
  | S n, name :: names => if is_keypad name then Some i else first_keypad n (S i) names
  | _, _ => None
  end.

Section search.
Context {D : Type} (names : list (list Z)) `{InputDevices D names}.
Implicit Types w : world unit dreq D.
Notation opened w := (open_on (driver w)).

(** What is open afterwards: one more descriptor on the keypad, if any. *)
Definition found w (k : option nat) (r : option Z) w' : Prop :=
  match k with
  | Some k => ∃ fd, r = Some fd ∧ opened w fd = None ∧ ∀ g, opened w' g = if decide (g = fd) then Some k else opened w g
  | None => r = None ∧ ∀ g, opened w' g = opened w g
  end.

Lemma search_runs n : ∀ i w, (i + n <= 8)%nat → (i <= length names)%nat →
  runs (search n (device_at i)) w (λ r w', found w (first_keypad n i (drop i names)) r w').
Proof.
  induction n as [|n IH]; intros i w Hi Hl; cbn [search first_keypad].
  { apply runs_ret. by destruct (drop i names). }
  destruct (next_device_at i) as [En ->]; [lia|]. destruct (drop i names) as [|name more] eqn:Ed.
  - assert (length names <= i)%nat as Hge by (apply (f_equal length) in Ed; rewrite length_drop in Ed; cbn in Ed; lia).
    destruct (device_missing (driver w) i Hge) as [Hneg Hk]. apply runs_request. rewrite (proj2 (Z.ltb_lt _ _)) by exact Hneg.
    apply runs_ret. by split.
  - assert (names !! i = Some name) as Hname by (rewrite <- (Nat.add_0_r i), <- lookup_drop, Ed; done).
    destruct (device_opens (driver w) i) as (Hpos & Hnew & Hopen); [by eapply lookup_lt_Some|].
    apply runs_request. set (fd := answer w _). change (opened w fd = None) in Hnew. rewrite (proj2 (Z.ltb_ge fd 0)) by exact Hpos.
    apply runs_request. unfold answer at 1. rewrite (device_named _ fd i), Hname.
    2:{ cbn [after driver]. rewrite Hopen. by rewrite decide_True. }
    change (strstr (cstr name) (lit "Keypad")) with (is_keypad name). destruct (is_keypad name).
    + apply runs_ret. exists fd. split; [done|]. split; [exact Hnew|]. intros g. cbn [after driver]. rewrite device_kept by done. by rewrite Hopen.
    + apply runs_request, runs_bind. eapply runs_lift; [exact En|]. eapply runs_mono; [apply IH; [lia|by eapply lookup_lt_Some]|].
      assert (drop (S i) names = more) as ->.
      { rewrite <- (drop_drop names 1 i), Ed || (replace (S i) with (i + 1)%nat by lia; rewrite <- drop_drop, Ed). done. }
      assert (∀ g, opened (after (after (after w (DOpen (event_path i))) (DName fd)) (DClose fd)) g = opened w g) as Hsame.
      { intros g. cbn [after driver]. rewrite device_closes, device_kept by done. rewrite Hopen.
        destruct (decide (g = fd)) as [->|Hg]; [by rewrite Hnew|]. by rewrite decide_False. }
      intros r w'. unfold found. destruct (first_keypad n (S i) more) as [k|].
      * intros (fd' & -> & Ho & Hg). exists fd'. split; [done|]. rewrite <- Hsame. split; [done|]. intros g. rewrite Hg. by rewrite Hsame.
      * intros [-> Hg]. split; [done|]. intros g. by rewrite Hg.
Qed.
End search.

(** The search ends with the first of the four devices that is named Keypad, a
    descriptor open on it, and every other descriptor as it was; without such a
    device nothing more is open than before. *)
Theorem keypad_is_found {D} (names : list (list Z)) `{InputDevices D names} (w : world unit dreq D) :
  runs init_device w (λ r w', found names w (first_keypad RETRY_NUM 0 names) r w').
Proof.
  unfold init_device. apply runs_bind. eapply runs_mono; [apply (search_runs names RETRY_NUM 0 w); [unfold RETRY_NUM; lia|lia]|].
  rewrite drop_0. intros r w1 Hf. destruct r as [fd|]; [|by apply runs_ret].
  apply runs_request. unfold answer at 1. destruct (device_bits (driver w1) fd (EV_MAX / 8 + 1)) as (bits & E & Hl). rewrite E.
  destruct (event_types_exact bits) as (l & El & _); [exact Hl|]. apply runs_bind. eapply runs_lift; [exact El|].
  apply runs_request, runs_ret. revert Hf. unfold found. destruct (first_keypad _ _ _) as [k|].
  - intros (fd' & Hr & Ho & Hg). exists fd'. do 2 (split; [done|]). intros g. cbn [after driver]. rewrite !device_kept by done. apply Hg.
  - intros [? _]. done.
Qed.

(** The events that are shown: all but the synchronisations, in their order. *)
Definition shown (r : dreq) : option (string * list Z) := match r with DPrint what values => Some (what, values) | _ => None end.
Definition show_event (e : input_event) : option (string * list Z) :=
  if ev_type e =? 0 then None else Some (if ev_value e =? 0 then "up"%string else "down"%string, [ev_time e; ev_type e; ev_code e; ev_value e]).

Theorem events_are_shown {D} `{Events D} fd es rest : ∀ data (w : world unit dreq D), coming (driver w) = es ++ rest →
  runs (turns (length es) fd data) w (λ _ w', coming (driver w') = rest ∧ omap shown (trace w') = omap shown (trace w) ++ omap show_event es).
Proof.
  induction es as [|e es IH]; intros data w Hc; cbn [length turns omap list_omap].
  - apply runs_ret. by rewrite app_nil_r.
  - destruct (coming_event w fd e (es ++ rest)) as [E C1]; [done|]. apply runs_request. rewrite E. cbn [newer]. unfold show_event at 1. destruct (ev_type e =? 0).
    + eapply runs_mono; [apply IH, C1|]. intros _ w' [C2 L]. split; [done|]. rewrite L, trace_after, omap_app. cbn. by rewrite app_nil_r.
    + apply runs_request. eapply runs_mono; [apply IH; by rewrite coming_other by discriminate|]. intros _ w' [C2 L]. split; [done|].
      rewrite L, !trace_after, !omap_app. cbn. by rewrite app_nil_r, <- app_assoc.
Qed.

(** ** Limits *)

(** Only the first four devices are looked at, and none after a gap. *)
Lemma fifth_keypad_is_missed : first_keypad RETRY_NUM 0 [lit "a"; lit "b"; lit "c"; lit "d"; lit "W55FA93 Keypad"] = None.
Proof. done. Qed.

(** ** Witnesses: a descriptor is a place in a list *)

Local Notation demo_inputs := (list (option nat)).
Definition demo_names : list (list Z) := [lit "Touchscreen"; lit "W55FA93 Keypad"].
Definition device_of (p : list Z) : nat := Z.to_nat (default 0 (last p) - 48).
Definition demo_open (d : list (option nat)) (fd : Z) : option nat := if 0 <=? fd then d !! Z.to_nat fd ≫= id else None.

#[export] Instance demo_inputs_driver : Driver dreq dreply demo_inputs := λ d r,
  match r with
  | DOpen p => if Nat.ltb (device_of p) (length demo_names) then (d ++ [Some (device_of p)], Z.of_nat (length d)) else (d, -1)
  | DClose fd => (if 0 <=? fd then <[Z.to_nat fd := None]> d else d, tt)
  | DName fd => (d, demo_open d fd ≫= λ i, demo_names !! i)
  | DBits _ n => (d, Some (replicate (Z.to_nat n) 3))
  | DEvent _ => (d, None) | DGetchar => (d, -1)
  | DRead _ _ => (d, []) | DFetch _ _ => (d, []) | DFread _ _ _ => (d, false)
  | DIoctl _ _ _ => (d, None) | DVarInfo _ => (d, None) | DMmap _ _ => (d, None) | DFopen _ => (d, None)
  | DMunmap _ _ | DFill _ _ _ | DSleep _ | DPrint _ _ => (d, tt)
  end.

Lemma device_of_path i : device_of (event_path i) = i.
Proof. unfold device_of, event_path. rewrite last_snoc. cbn [from_option id]. lia. Qed.

#[export] Instance demo_inputs_ok : InputDevices demo_inputs demo_names.
Proof.
  refine {| open_on := demo_open |}.
  - intros d i Hi. unfold respond, demo_inputs_driver. rewrite device_of_path. rewrite (proj2 (Nat.ltb_lt _ _)) by exact Hi. cbn [fst snd].
    split; [lia|]. unfold demo_open. split.
    + rewrite (proj2 (Z.leb_le _ _)) by lia. rewrite Nat2Z.id. by rewrite lookup_ge_None_2.
    + intros fd. destruct (Z.leb_spec 0 fd); [|by rewrite decide_False by lia]. destruct (decide (fd = Z.of_nat (length d))) as [->|Hne].
      * rewrite Nat2Z.id, lookup_app_r, Nat.sub_diag by lia. done.
      * destruct (decide (Z.to_nat fd < length d)%nat); [by rewrite lookup_app_l|].
        rewrite lookup_app_r, (lookup_ge_None_2 d) by lia. rewrite lookup_ge_None_2; [done|cbn; lia].
  - intros d i Hi. unfold respond, demo_inputs_driver. rewrite device_of_path. rewrite (proj2 (Nat.ltb_ge _ _)) by exact Hi. done.
  - intros d fd i E. cbn. by rewrite E.
  - intros d fd g. unfold respond, demo_inputs_driver, demo_open. cbn [fst]. destruct (Z.leb_spec 0 g), (Z.leb_spec 0 fd); try by rewrite ?decide_False by lia.
    + destruct (decide (g = fd)) as [->|Hne].
      * destruct (decide (Z.to_nat fd < length d)%nat); [by rewrite list_lookup_insert_eq|]. rewrite list_insert_ge, lookup_ge_None_2 by lia. done.
      * by rewrite list_lookup_insert_ne by lia.
    + by destruct (decide (g = fd)).
  - intros d fd n. eexists. split; [reflexivity|]. apply length_replicate.
  - intros d r Ho Hc fd. destruct r; try done. by destruct (Ho path). by destruct (Hc fd0).
Defined.

Lemma keypad_is_found_witness :
  runs init_device (World tt ([] : demo_inputs) []) (λ r w', ∃ fd, r = Some fd ∧ demo_open (driver w') fd = Some 1%nat).
Proof.
  eapply runs_mono; [apply (keypad_is_found demo_names)|]. intros r w' (fd & -> & _ & Hg). exists fd. split; [reflexivity|].
  specialize (Hg fd). cbn [open_on demo_inputs_ok] in Hg. rewrite Hg. by rewrite decide_True.
Defined.

Lemma event_types_exact_witness : ∃ l, event_types [11; 0; 0; 0] = Ok l ∧ 3 ∈ l.
Proof.
  destruct (event_types_exact [11; 0; 0; 0]) as (l & E & Hl); [reflexivity|]. exists l. split; [exact E|]. apply Hl. split; [lia|reflexivity].
Defined.

Lemma events_are_shown_witness :
  runs (turns 2 3 None) (World tt [Event 5 1 30 1; Event 5 0 0 0] []) (λ _ w', omap shown (trace w') = [("down"%string, [5; 1; 30; 1])]).
Proof. eapply runs_mono; [apply (events_are_shown 3 [Event 5 1 30 1; Event 5 0 0 0] []); reflexivity|]. intros r w' [_ L]. exact L. Defined.
