(* ===== verification/DevMem.v ===== *)
(** * DevMem: the test of the reserved memory

    Models src/devMem/devMem_demo.c: the memory device is opened and mapped as
    often as the command line says, filled and compared, and given back. *)
From S2P Require Import Prelude LibC Bytes Device Runs Tslib TsInput Demos.
Local Open Scope cmodel_scope.
Local Open Scope Z_scope.

Definition MAP_SIZE : Z := 480 * 272 * 4.
Definition LIST_SIZE : nat := 100.

(** The arrays of main: descriptors and addresses, not set at first. *)
Record lists := Lists { fdlist : list (option Z); stAddressList : list (option Z) }.
Definition no_lists : lists := Lists (replicate LIST_SIZE None) (replicate LIST_SIZE None).
Definition set_fd (i fd : Z) (s : lists) : result lists := l ← wr (fdlist s) i (Some fd); Ok (Lists l (stAddressList s)).
Definition set_address (i a : Z) (s : lists) : result lists := l ← wr (stAddressList s) i (Some a); Ok (Lists (fdlist s) l).

(** What was set in a place of an array. *)
Definition known (l : list (option Z)) (i : Z) : result Z := v ← rd l i; match v with Some v => Ok v | None => Crash NoValue end.

Section program.
Context {D : Type} `{Driver dreq dreply D}.
Notation P := (prog unit dreq D).

(** [if (!fd)]: a failure is -1. *)
Definition __openDev : P (may_exit Z) :=
  fd ⇐ DOpen (lit "/dev/devmem");
  if (fd : Z) =? 0 then exits 1 else go (fd : Z).

Definition __testmmap (fd : Z) : P (may_exit Z) :=
  _ ⇐ DSleep 200000;
  devFrameBuffer ⇐ DMmap fd MAP_SIZE;
  match devFrameBuffer with
  | None => exits 4
  | Some devFrameBuffer =>
      _ ⇐ DFill devFrameBuffer 0x5A MAP_SIZE;
      bytes ⇐ DFetch devFrameBuffer MAP_SIZE;
      if negb (forallb (λ b, b =? 0x5A) bytes) then exits 1 else
      physAddr ⇐ DIoctl fd "DEVMEM_GET_PHYSADDR" 0;
      virAddr ⇐ DIoctl fd "DEVMEM_GET_VIRADDR" 0;
      _ ⇐ DSleep 200000;
      match physAddr, virAddr with Some _, Some _ => go devFrameBuffer | _, _ => fault NoValue end
  end.

Definition __closeDev (fd stAddress : Z) : P unit :=
  _ ⇐ DMunmap stAddress MAP_SIZE;
  _ ⇐ DClose fd;
  mret tt.

(** The three loops; [n] turns from [i] on. *)
Fixpoint open_loop (n : nat) (i : Z) (s : lists) : P (may_exit lists) :=
  match n with
  | O => go s
  | S n =>
      then_ __openDev (λ fd,
      s ← lift (set_fd i fd s);
      then_ (__testmmap fd) (λ a,
      s ← lift (set_address i a s);
      open_loop n (i + 1) s))
  end.

Fixpoint close_loop (n : nat) (i : Z) (s : lists) : P unit :=
  match n with
  | O => mret tt
  | S n =>
      fd ← lift (known (fdlist s) i);
      a ← lift (known (stAddressList s) i);
      _ ← __closeDev fd a;
      close_loop n (i + 1) s
  end.

Fixpoint area_loop (n : nat) (i : Z) (s : lists) : P (may_exit lists) :=
  match n with
  | O => go s
  | S n =>
      then_ __openDev (λ fd,
      s ← lift (set_fd i fd s);
      replyStatus ⇐ DIoctl fd "DEVMEM_GET_RES_AREA" 0;
      match replyStatus with
      | None => fault NoValue
      | Some _ =>
          then_ (__testmmap fd) (λ a,
          s ← lift (set_address i a s);
          _ ← __closeDev fd a;
          area_loop n (i + 1) s)
      end)
  end.

(** [argv[1]], when it is given. *)
Definition main (argv1 : option (list Z)) : P (may_exit unit) :=
  let openCnt := match argv1 with Some a => atoi a | None => 1 end in
  then_ (open_loop (Z.to_nat openCnt) 0 no_lists) (λ s,
  _ ← close_loop (Z.to_nat openCnt) 0 s;
  _ ⇐ DSleep 200000;
  then_ (area_loop (Z.to_nat openCnt) 0 s) (λ _, go tt)).
End program.

(** ** A memory that holds what is filled in *)

Class ReservedMemory (D : Type) `{Driver dreq dreply D} := {
  mem_opens (d : D) p : 0 < (respond d (DOpen p)).2;
  mem_maps (d : D) fd n : is_Some (respond d (DMmap fd n)).2;
  mem_holds (d : D) a v n : (respond (respond d (DFill a v n)).1 (DFetch a n)).2 = replicate (Z.to_nat n) v;
  mem_answers (d : D) fd control arg : is_Some (respond d (DIoctl fd control arg)).2
}.

(** The requests for one descriptor [p.1] at an address [p.2]. *)
Definition map_requests (p : Z * Z) : list dreq :=
  [DSleep 200000; DMmap p.1 MAP_SIZE; DFill p.2 0x5A MAP_SIZE; DFetch p.2 MAP_SIZE;
   DIoctl p.1 "DEVMEM_GET_PHYSADDR" 0; DIoctl p.1 "DEVMEM_GET_VIRADDR" 0; DSleep 200000].
Definition open_requests (p : Z * Z) : list dreq := DOpen (lit "/dev/devmem") :: map_requests p.
Definition close_requests (p : Z * Z) : list dreq := [DMunmap p.2 MAP_SIZE; DClose p.1].
Definition area_requests (p : Z * Z) : list dreq :=
  [DOpen (lit "/dev/devmem"); DIoctl p.1 "DEVMEM_GET_RES_AREA" 0] ++ map_requests p ++ close_requests p.

Lemma forallb_replicate n v : forallb (λ b, b =? v) (replicate n v) = true.
Proof. induction n as [|n IH]; [done|]. cbn. by rewrite Z.eqb_refl. Qed.

(** The arrays after the first [length ps] turns. *)
Definition holds (i : Z) (ps : list (Z * Z)) (s : lists) : Prop :=
  length (fdlist s) = LIST_SIZE ∧ length (stAddressList s) = LIST_SIZE ∧
  ∀ j p, ps !! j = Some p → known (fdlist s) (i + Z.of_nat j) = Ok p.1 ∧ known (stAddressList s) (i + Z.of_nat j) = Ok p.2.

Lemma known_wr l i v l' j : wr l i (Some v) = Ok l' → known l' j = if decide (j = i) then Ok v else known l j.
Proof.
  intros E. apply wr_inv in E as [Hi ->]. unfold known, rd. destruct (Z.leb_spec 0 j); [|by rewrite decide_False by lia].
  destruct (decide (j = i)) as [->|Hne].
  - by rewrite list_lookup_insert_eq by lia.
  - by rewrite list_lookup_insert_ne by lia.
Qed.

Lemma set_fd_ok i fd s : 0 <= i < Z.of_nat (length (fdlist s)) → ∃ s', set_fd i fd s = Ok s' ∧
  length (fdlist s') = length (fdlist s) ∧ stAddressList s' = stAddressList s ∧
  ∀ j, known (fdlist s') j = if decide (j = i) then Ok fd else known (fdlist s) j.
Proof.
  intros Hi. unfold set_fd. pose proof (wr_Ok (fdlist s) i (Some fd) Hi) as E. rewrite E. eexists. split; [reflexivity|].
  cbn. split_and!; [apply length_insert|done|]. intros j. by apply known_wr.
Qed.
Lemma set_address_ok i a s : 0 <= i < Z.of_nat (length (stAddressList s)) → ∃ s', set_address i a s = Ok s' ∧
  length (stAddressList s') = length (stAddressList s) ∧ fdlist s' = fdlist s ∧
  ∀ j, known (stAddressList s') j = if decide (j = i) then Ok a else known (stAddressList s) j.
Proof.
  intros Hi. unfold set_address. pose proof (wr_Ok (stAddressList s) i (Some a) Hi) as E. rewrite E. eexists. split; [reflexivity|].
  cbn. split_and!; [apply length_insert|done|]. intros j. by apply known_wr.
Qed.

Section memory.
Context {D : Type} `{ReservedMemory D}.
Implicit Types w : world unit dreq D.

Definition full (s : lists) : Prop := length (fdlist s) = LIST_SIZE ∧ length (stAddressList s) = LIST_SIZE.

Lemma memory_opens_run w (Q : may_exit Z → world unit dreq D → Prop) :
  (∀ fd, Q (inl fd) (after w (DOpen (lit "/dev/devmem")))) → runs __openDev w Q.
Proof.
  intros HQ. unfold __openDev. apply runs_request. unfold answer. pose proof (mem_opens (driver w) (lit "/dev/devmem")).
  rewrite (proj2 (Z.eqb_neq _ _)) by lia. apply runs_go, HQ.
Qed.

Lemma testmmap_runs fd w (Q : may_exit Z → world unit dreq D → Prop) :
  (∀ a w', trace w' = trace w ++ map_requests (fd, a) → Q (inl a) w') → runs (__testmmap fd) w Q.
Proof.
  intros HQ. unfold __testmmap. do 2 apply runs_request. unfold answer at 1. edestruct mem_maps as [a ->].
  do 2 apply runs_request. unfold answer at 1. cbn [after driver]. rewrite mem_holds, forallb_replicate. cbn [negb].
  do 3 apply runs_request. unfold answer. edestruct mem_answers as [pa ->]. edestruct mem_answers as [va ->].
  apply runs_go, HQ. rewrite !trace_after. by rewrite <- !app_assoc.
Qed.

Lemma close_runs fd a w (Q : unit → world unit dreq D → Prop) :
  (∀ w', trace w' = trace w ++ close_requests (fd, a) → Q tt w') → runs (__closeDev fd a) w Q.
Proof. intros HQ. unfold __closeDev. do 2 apply runs_request. apply runs_ret, HQ. rewrite !trace_after. by rewrite <- app_assoc. Qed.

(** One turn of the first loop sets its place of both arrays. *)
Lemma set_both_ok i fd s : full s → 0 <= i < 100 → ∃ s1, set_fd i fd s = Ok s1 ∧
  ∀ a, ∃ s2, set_address i a s1 = Ok s2 ∧ full s2 ∧
    (∀ j, known (fdlist s2) j = if decide (j = i) then Ok fd else known (fdlist s) j) ∧
    (∀ j, known (stAddressList s2) j = if decide (j = i) then Ok a else known (stAddressList s) j).
Proof.
  intros [Hf Ha] Hi. destruct (set_fd_ok i fd s) as (s1 & E1 & L1 & A1 & K1); [rewrite Hf; unfold LIST_SIZE; lia|].
  exists s1. split; [done|]. intros a. destruct (set_address_ok i a s1) as (s2 & E2 & L2 & A2 & K2); [rewrite A1, Ha; unfold LIST_SIZE; lia|].
  exists s2. split; [done|]. unfold full. rewrite A2, L2, L1, A1. split_and!; [done|done|exact K1|]. intros j. by rewrite K2, A1.
Qed.

Lemma open_loop_runs n : ∀ i s w, full s → 0 <= i → i + Z.of_nat n <= 100 →
  runs (open_loop n i s) w (λ r w', ∃ s' ps, r = inl s' ∧ length ps = n ∧ trace w' = trace w ++ mjoin (open_requests <$> ps) ∧ holds i ps s' ∧
    ∀ j, j < i → known (fdlist s') j = known (fdlist s) j ∧ known (stAddressList s') j = known (stAddressList s) j).
Proof.
  induction n as [|n IH]; intros i s w Hs Hi Hn; cbn [open_loop].
  { apply runs_go. exists s, []. cbn. rewrite app_nil_r. split_and!; try done. split_and!; [apply Hs|apply Hs|done]. }
  apply runs_then, memory_opens_run. intros fd. eexists. split; [reflexivity|].
  destruct (set_both_ok i fd s) as (s1 & E1 & Hs1); [done|lia|]. apply runs_bind. eapply runs_lift; [exact E1|].
  apply runs_then, testmmap_runs. intros a w1 L1. eexists. split; [reflexivity|]. destruct (Hs1 a) as (s2 & E2 & F2 & K2 & A2).
  apply runs_bind. eapply runs_lift; [exact E2|]. eapply runs_mono; [apply IH; [done|lia|lia]|].
  intros r w2 (s' & ps & -> & Hl & L2 & (Hf & Ha & Hh) & Hkept). exists s', ((fd, a) :: ps). split_and!; [done|cbn; lia| | |].
  - rewrite L2, L1, trace_after. cbn [fmap list_fmap mjoin list_join open_requests]. by rewrite <- !app_assoc.
  - split_and!; [done|done|]. intros [|j] p E.
    + injection E as <-. replace (i + Z.of_nat 0) with i by lia. destruct (Hkept i) as [-> ->]; [lia|]. rewrite K2, A2, !decide_True by done. done.
    + replace (i + Z.of_nat (S j)) with (i + 1 + Z.of_nat j) by lia. by apply Hh.
  - intros j Hj. destruct (Hkept j) as [-> ->]; [lia|]. rewrite K2, A2, !decide_False by lia. done.
Qed.

Lemma close_loop_runs ps : ∀ i s w, holds i ps s →
  runs (close_loop (length ps) i s) w (λ _ w', trace w' = trace w ++ mjoin (close_requests <$> ps)).
Proof.
  induction ps as [|[fd a] ps IH]; intros i s w (Hf & Ha & Hh); cbn [length close_loop].
  { apply runs_ret. by rewrite app_nil_r. }
  destruct (Hh 0%nat (fd, a)) as [E1 E2]; [done|]. replace (i + Z.of_nat 0) with i in E1, E2 by lia.
  apply runs_bind. eapply runs_lift; [exact E1|]. apply runs_bind. eapply runs_lift; [exact E2|].
  apply runs_bind, close_runs. intros w1 L1. eapply runs_mono; [apply IH|].
  - split_and!; [done|done|]. intros j p E. replace (i + 1 + Z.of_nat j) with (i + Z.of_nat (S j)) by lia. by apply Hh.
  - intros [] w2 L2. rewrite L2, L1. cbn [fmap list_fmap mjoin list_join]. by rewrite <- !app_assoc.
Qed.

Lemma area_loop_runs n : ∀ i s w, full s → 0 <= i → i + Z.of_nat n <= 100 →
  runs (area_loop n i s) w (λ r w', ∃ s' ps, r = inl s' ∧ length ps = n ∧ trace w' = trace w ++ mjoin (area_requests <$> ps)).
Proof.
  induction n as [|n IH]; intros i s w Hs Hi Hn; cbn [area_loop].
  { apply runs_go. exists s, []. cbn. by rewrite app_nil_r. }
  apply runs_then, memory_opens_run. intros fd. eexists. split; [reflexivity|].
  destruct (set_both_ok i fd s) as (s1 & E1 & Hs1); [done|lia|]. apply runs_bind. eapply runs_lift; [exact E1|].
  apply runs_request. unfold answer. edestruct mem_answers as [st ->].
  apply runs_then, testmmap_runs. intros a w1 L1. eexists. split; [reflexivity|]. destruct (Hs1 a) as (s2 & E2 & F2 & _).
  apply runs_bind. eapply runs_lift; [exact E2|]. apply runs_bind, close_runs. intros w2 L2.
  eapply runs_mono; [apply IH; [done|lia|lia]|]. intros r w3 (s' & ps & -> & Hl & L3). exists s', ((fd, a) :: ps). split_and!; [done|cbn; lia|].
  rewrite L3, L2, L1, !trace_after. cbn [fmap list_fmap mjoin list_join]. unfold area_requests. by rewrite <- !app_assoc.
Qed.

(** Place 100 of the arrays is not theirs. *)
Lemma open_loop_overflows n : ∀ i s w, full s → 0 <= i <= 100 → 100 < i + Z.of_nat n → open_loop n i s w = Crash OutOfBounds.
Proof.
  induction n as [|n IH]; intros i s w Hs Hi Hn; [lia|]. cbn [open_loop]. unfold then_ at 1. rewrite bind_run.
  destruct (memory_opens_run w (λ r _, ∃ fd, r = inl fd)) as (r & w1 & E & fd & ->); [intros fd; by exists fd|]. rewrite E, lift_run.
  destruct (decide (i = 100)) as [->|Hne].
  { unfold set_fd. rewrite wr_crash; [done|]. destruct Hs as [-> _]. unfold LIST_SIZE. lia. }
  destruct (set_both_ok i fd s) as (s1 & E1 & Hs1); [done|lia|]. rewrite E1. unfold then_ at 1. rewrite bind_run.
  destruct (testmmap_runs fd w1 (λ r _, ∃ a, r = inl a)) as (r & w2 & Et & a & ->); [intros a ? _; by exists a|]. rewrite Et, lift_run.
  destruct (Hs1 a) as (s2 & E2 & F2 & _). rewrite E2. apply IH; [done|lia|lia].
Qed.
End memory.

(** With a memory that holds what is filled in, the program ends after as many
    tests as the command line asks for, up to 100; in both rounds every
    descriptor that it opened is unmapped at its own address and closed. *)
Theorem memory_is_given_back {D} `{ReservedMemory D} arg (w : world unit dreq D) : 0 <= atoi arg <= 100 →
  runs (main (Some arg)) w (λ r w', r = inl tt ∧ ∃ ps qs, length ps = Z.to_nat (atoi arg) ∧ length qs = Z.to_nat (atoi arg) ∧
    trace w' = trace w ++ mjoin (open_requests <$> ps) ++ mjoin (close_requests <$> ps) ++ [DSleep 200000] ++ mjoin (area_requests <$> qs)).
Proof.
  intros Hn. assert (full no_lists) as Hno by done. unfold main. apply runs_then. eapply runs_mono; [apply open_loop_runs; [done|lia|lia]|].
  intros r w1 (s & ps & -> & Hl & L1 & Hh & _). exists s. split; [done|]. rewrite <- Hl at 1.
  apply runs_bind. eapply runs_mono; [apply close_loop_runs, Hh|]. intros [] w2 L2. apply runs_request, runs_then.
  eapply runs_mono; [apply area_loop_runs; [split; apply Hh|lia|lia]|]. intros r w3 (s' & qs & -> & Hlq & L3). exists s'. split; [done|].
  apply runs_go. split; [done|]. exists ps, qs. split_and!; [done|done|]. rewrite L3, trace_after, L2, L1. by rewrite <- !app_assoc.
Qed.

(** ** Limits *)

(** The number of the command line is not compared with the size of the arrays. *)
Theorem many_tests_overrun {D} `{ReservedMemory D} arg (w : world unit dreq D) : 100 < atoi arg → main (Some arg) w = Crash OutOfBounds.
Proof.
  intros Hn. unfold main, then_. rewrite bind_run. rewrite open_loop_overflows; [done|done|lia|lia].
Qed.

(** A device that cannot be opened is not noticed: its descriptor is -1. *)
Lemma missing_device_is_used {D} `{Driver dreq dreply D} (w : world unit dreq D) : answer w (DOpen (lit "/dev/devmem")) = -1 →
  __openDev w = Ok (inl (-1), after w (DOpen (lit "/dev/devmem"))).
Proof. intros E. unfold __openDev. by rewrite request_run, E. Qed.

(** ** Witnesses *)

(** The memory: what was filled in last. *)
Definition demo_memory : Type := Z.
#[export] Instance demo_memory_driver : Driver dreq dreply demo_memory := λ d r,
  match r with
  | DFill _ v _ => (v, tt) | DFetch _ n => (d, replicate (Z.to_nat n) d)
  | DOpen _ => (d, 3) | DMmap _ _ => (d, Some 4096) | DIoctl _ _ _ => (d, Some 0)
  | DEvent _ => (d, None) | DGetchar => (d, -1) | DRead _ _ => (d, []) | DFread _ _ _ => (d, false)
  | DName _ => (d, None) | DBits _ _ => (d, None) | DVarInfo _ => (d, None) | DFopen _ => (d, None)
  | DClose _ | DMunmap _ _ | DSleep _ | DPrint _ _ => (d, tt)
  end.
#[export] Instance demo_memory_ok : ReservedMemory demo_memory.
Proof. split; intros; cbn [respond demo_memory_driver fst snd]; try done; try lia; by eexists. Defined.

Lemma memory_is_given_back_witness :
  runs (main (Some (lit "2"))) (World tt (0 : demo_memory) []) (λ r w', r = inl tt ∧ (length (trace w') = 43)%nat).
Proof.
  eapply runs_mono; [apply (memory_is_given_back (lit "2")); split; discriminate|]. intros r w' (-> & ps & qs & Hp & Hq & ->). split; [reflexivity|].
  destruct ps as [|p1 [|p2 [|]]]; try discriminate Hp. destruct qs as [|q1 [|q2 [|]]]; try discriminate Hq. reflexivity.
Defined.

Lemma many_tests_overrun_witness : main (Some (lit "101")) (World tt (0 : demo_memory) []) = Crash OutOfBounds.
Proof. apply (many_tests_overrun (lit "101")). reflexivity. Defined.
