(* ===== verification/TsDemo.v ===== *)
(** * TsDemo: the touch screen demo

    Models src/touchscreen/ts_demo.c, which shows the coordinates and the
    pressure of the events; its loop has no end and is unrolled for a number of
    turns. *)
From S2P Require Import Prelude LibC Bytes Device Runs Tslib TsInput Demos.
Local Open Scope cmodel_scope.
Local Open Scope Z_scope.

Definition TS_DEV : list Z := lit "/dev/input/event0".

(** What is shown of an event. *)
Definition label (data : input_event) : option string :=
  if ev_type data =? EV_ABS then
    if ev_code data =? ABS_X then Some "ABS_X"%string
    else if ev_code data =? ABS_Y then Some "ABS_Y"%string
    else if ev_code data =? ABS_PRESSURE then Some "ABS_P"%string else None
  else None.

Section program.
Context {D : Type} `{Driver dreq dreply D}.
Notation P := (prog unit dreq D).

(** The descriptor, or the failure (-1). *)
Definition init_device : P (option Z) :=
  ts_fd ⇐ DOpen TS_DEV;
  if (ts_fd : Z) <? 0 then mret None else mret (Some (ts_fd : Z)).

Fixpoint turns (n : nat) (ts_fd : Z) (data : option input_event) : P unit :=
  match n with
  | O => mret tt
  | S n =>
      r ⇐ DEvent ts_fd;
      match newer r data with
      | None => fault NoValue
      | Some data =>
          match label data with
          | Some what => _ ⇐ DPrint what [ev_value data]; turns n ts_fd (Some data)
          | None => turns n ts_fd (Some data)
          end
      end
  end.

Definition main (n : nat) : P Z :=
  r ← init_device;
  match r with None => mret (-1) | Some ts_fd => _ ← turns n ts_fd None; mret 0 end.
End program.

Definition shown (r : dreq) : option (string * Z) := match r with DPrint what [v] => Some (what, v) | _ => None end.
Definition show_event (e : input_event) : option (string * Z) := (λ what, (what, ev_value e)) <$> label e.

Lemma touch_turns_run {D} `{Events D} fd es rest : ∀ data (w : world unit dreq D), coming (driver w) = es ++ rest →
  runs (turns (length es) fd data) w (λ _ w', omap shown (trace w') = omap shown (trace w) ++ omap show_event es).
Proof.
  induction es as [|e es IH]; intros data w Hc; cbn [length turns omap list_omap].
  - apply runs_ret. by rewrite app_nil_r.
  - destruct (coming_event w fd e (es ++ rest)) as [E C1]; [done|]. apply runs_request. rewrite E. cbn [newer]. unfold show_event at 1. destruct (label e) as [what|].
    + apply runs_request. eapply runs_mono; [apply IH; by rewrite coming_other by discriminate|]. intros [] w' L.
      rewrite L, !trace_after, !omap_app. cbn. by rewrite app_nil_r, <- app_assoc.
    + eapply runs_mono; [apply IH, C1|]. intros [] w' L. rewrite L, trace_after, omap_app. cbn. by rewrite app_nil_r.
Qed.

(** The demo shows every coordinate and pressure that the screen reports, in
    their order, and nothing else. *)
Theorem touches_are_shown {D} `{Events D} es rest (w : world unit dreq D) : 0 <= answer w (DOpen TS_DEV) → trace w = [] →
  coming (driver w) = es ++ rest →
  runs (main (length es)) w (λ r w', r = 0 ∧ omap shown (trace w') = omap show_event es).
Proof.
  intros Ho Hl Hc. unfold main, init_device. apply runs_bind, runs_request. rewrite (proj2 (Z.ltb_ge _ _)) by exact Ho. apply runs_ret, runs_bind.
  eapply runs_mono; [eapply touch_turns_run; by rewrite coming_other by discriminate|]. intros [] w' L. apply runs_ret. split; [done|].
  rewrite L, trace_after, Hl. done.
Qed.

Lemma touches_are_shown_witness :
  runs (main 3) (World tt [Event 1 3 0 512; Event 1 3 24 90; Event 1 0 0 0] []) (λ _ w', omap shown (trace w') = [("ABS_X"%string, 512); ("ABS_P"%string, 90)]).
Proof.
  eapply runs_mono; [apply (touches_are_shown [Event 1 3 0 512; Event 1 3 24 90; Event 1 0 0 0] []); [cbn; lia|reflexivity|reflexivity]|].
  intros r w' [_ L]. exact L.
Defined.
