(* ===== verification/Lvd.v ===== *)
(** * Lvd: the voltage of the supply

    Models src/lvd/lvd_demo.c, which reads the converter once in a second; its
    loop is unrolled for a number of turns. *)
From Stdlib Require Import SpecFloat QArith Qabs.
From S2P Require Import Prelude LibC Bytes Device Runs Tslib TsInput Demos Floats.
Local Open Scope cmodel_scope.
Local Open Scope Z_scope.

Definition TS_DEV : list Z := lit "/dev/input/event0".
Definition ADCSYS_FILE : list Z := lit "/sys/devices/platform/w55fa93-adc/adc".
Definition BUF_SIZE : nat := 8.

(** The two constants in double precision. *)
Definition double_1024 : spec_float := S754_finite false 4503599627370496 (-42).
Definition double_9_9 : spec_float := S754_finite false 5573204538870989 (-49).

(** [(float)(buf[3]*256 + buf[2])/1024.0*9.9] *)
Definition voltage (buf : list Z) : result spec_float :=
  high ← rd buf 3;
  low ← rd buf 2;
  Ok (SFmul 53 1024 (SFdiv 53 1024 (to_f64 (f32_of_Z (high * 256 + low))) double_1024) double_9_9).

Section program.
Context {D : Type} `{Driver dreq dreply D}.
Notation P := (prog unit dreq D).

(** The bytes that read() stores at the front of the cleared buffer. *)
Definition stored (bytes : list Z) : list Z := take BUF_SIZE bytes ++ replicate (BUF_SIZE - length bytes) 0.

(** The voltages that are shown, and the value of main when it returns. *)
Fixpoint turns (n : nat) : P (list spec_float * option Z) :=
  match n with
  | O => mret ([], None)
  | S n =>
      adcfd ⇐ DOpen ADCSYS_FILE;
      if (adcfd : Z) <? 0 then mret ([], Some (-1)) else
      bytes ⇐ DRead adcfd (Z.of_nat BUF_SIZE);
      v ← lift (voltage (stored bytes));
      _ ⇐ DClose adcfd;
      _ ⇐ DSleep 1000000;
      r ← turns n;
      mret (v :: r.1, r.2)
  end.

Definition main (n : nat) : P (list spec_float * option Z) :=
  tsfd ⇐ DOpen TS_DEV;
  if (tsfd : Z) <? 0 then mret ([], Some (-1)) else
  _ ⇐ DSleep 1;
  turns n.
End program.

(** ** The value *)

(** A finite number as a rational one. *)
Definition q_of (f : spec_float) : Q :=
  match f with
  | S754_finite s m e => (if s then Qopp else λ q, q) (if 0 <=? e then inject_Z (Zpos m * 2 ^ e) else Zpos m # Z.to_pos (2 ^ (- e)))
  | _ => 0%Q
  end.

(** Full scale, 1024 counts, is 9.9 volts. *)
Definition volts (counts : Z) : Q := Qmake (counts * 99) 10240.

Definition close_enough (counts : Z) : bool :=
  match voltage [0; 0; counts mod 256; counts / 256] with
  | Ok f => Qle_bool (Qabs (q_of f - volts counts)) (1 # 1000000000000)
  | Crash _ => false
  end.

Lemma all_close : forallb close_enough (seqZ 0 1024) = true.
Proof. vm_compute. reflexivity. Qed.

Lemma voltage_close x y counts : 0 <= counts < 1024 →
  ∃ f, voltage (stored [x; y; counts mod 256; counts / 256]) = Ok f ∧ (Qabs (q_of f - volts counts) <= 1 # 1000000000000)%Q.
Proof.
  intros Hc. pose proof all_close as Hall. apply forallb_forall with (x := counts) in Hall.
  2:{ apply list_elem_of_In, elem_of_seqZ. lia. }
  unfold close_enough in Hall. change (voltage (stored [x; y; counts mod 256; counts / 256])) with (voltage [0; 0; counts mod 256; counts / 256]).
  destruct (voltage [0; 0; counts mod 256; counts / 256]) as [f|]; [|done]. exists f. split; [done|]. by apply Qle_bool_iff.
Qed.

(** A converter of ten bits with readings to come, and a directory that opens. *)
Class Converter (D : Type) `{Driver dreq dreply D} := {
  readings : D → list Z;
  converter_opens (d : D) p : 0 <= (respond d (DOpen p)).2;
  reading_next (d : D) fd n c cs : readings d = c :: cs → readings (respond d (DRead fd n)).1 = cs ∧
    ∃ x y, (respond d (DRead fd n)).2 = [x; y; c mod 256; c / 256];
  readings_kept (d : D) r : (∀ fd n, r ≠ DRead fd n) → readings (respond d r).1 = readings d
}.

(** A voltage that is shown and the count it stands for. *)
Definition shows (f : spec_float) (counts : Z) : Prop := (Qabs (q_of f - volts counts) <= 1 # 1000000000000)%Q.

Lemma reading_turns_run {D} `{Converter D} cs rest : ∀ w : world unit dreq D, readings (driver w) = cs ++ rest → Forall (λ c, 0 <= c < 1024) cs →
  runs (turns (length cs)) w (λ r _, Forall2 shows r.1 cs ∧ r.2 = None).
Proof.
  induction cs as [|c cs IH]; intros w Hr Hcs; cbn [length turns]; [by apply runs_ret|].
  apply Forall_cons in Hcs as [Hc Hcs]. apply runs_request. rewrite (proj2 (Z.ltb_ge _ _)) by apply converter_opens.
  set (w1 := after w _). set (fd := answer w _).
  assert (readings (driver w1) = c :: cs ++ rest) as Hr1 by (cbn [after driver w1]; by rewrite readings_kept by discriminate).
  destruct (reading_next (driver w1) fd (Z.of_nat BUF_SIZE) _ _ Hr1) as (Hn & x & y & E). apply runs_request.
  unfold answer at 1. rewrite E. destruct (voltage_close x y c Hc) as (f & Ef & Hf). apply runs_bind. eapply runs_lift; [exact Ef|].
  do 2 apply runs_request. apply runs_bind. eapply runs_mono; [apply IH; [|done]|].
  - cbn [after driver]. by rewrite !readings_kept by discriminate.
  - intros [vs o] w2 [Hv Ho]. apply runs_ret. by split; [constructor|].
Qed.

(** With the converter there, the program goes on and shows for every reading
    its part of 9.9 volts, to a millionth of a millionth. *)
Theorem voltages_are_shown {D} `{Converter D} cs rest (w : world unit dreq D) : readings (driver w) = cs ++ rest → Forall (λ c, 0 <= c < 1024) cs →
  runs (main (length cs)) w (λ r _, Forall2 shows r.1 cs ∧ r.2 = None).
Proof.
  intros Hr Hcs. unfold main. apply runs_request. rewrite (proj2 (Z.ltb_ge _ _)) by apply converter_opens. apply runs_request.
  eapply reading_turns_run; [|done]. cbn [after driver]. by rewrite !readings_kept by discriminate.
Qed.

(** ** Limits *)

(** What read() returns is not looked at: without a reading 0 volts are shown. *)
Lemma failed_read_is_no_voltage : voltage (stored []) = Ok (S754_zero false).
Proof. reflexivity. Qed.

(** ** Witnesses *)

Definition demo_adc : Type := list Z.
#[export] Instance demo_adc_driver : Driver dreq dreply demo_adc := λ d r,
  match r with
  | DRead _ _ => match d with c :: d => (d, [0; 0; c mod 256; c / 256]) | [] => ([], []) end
  | DOpen _ => (d, 3) | DGetchar => (d, -1)
  | DEvent _ => (d, None) | DFetch _ _ => (d, []) | DFread _ _ _ => (d, false) | DIoctl _ _ _ => (d, None)
  | DName _ => (d, None) | DBits _ _ => (d, None) | DVarInfo _ => (d, None) | DMmap _ _ => (d, None) | DFopen _ => (d, None)
  | DClose _ | DMunmap _ _ | DFill _ _ _ | DSleep _ | DPrint _ _ => (d, tt)
  end.
#[export] Instance demo_adc_ok : Converter demo_adc.
Proof.
  refine {| readings := λ d : demo_adc, d |}.
  - intros d p. cbn. lia.
  - intros d fd n c cs ->. split; [done|]. by exists 0, 0.
  - intros d r Hr. destruct r; try done. by destruct (Hr fd n).
Defined.

Lemma voltages_are_shown_witness :
  runs (main 2) (World tt ([512; 1023] : demo_adc) []) (λ r _, Forall2 shows r.1 [512; 1023]).
Proof.
  eapply runs_mono; [apply (voltages_are_shown [512; 1023] []); [reflexivity|repeat constructor; lia]|]. intros r w' [Hr _]. exact Hr.
Defined.
