(* ===== verification/Spidev.v ===== *)
(** * Spidev: the test of an SPI device

    Models src/spidev/spidev_test.c: the command line, as getopt_long delivers
    it, becomes the settings of the device, which are written, read back and
    used for one transfer. *)
From S2P Require Import Prelude LibC Bytes Device Runs.
Local Open Scope cmodel_scope.
Local Open Scope Z_scope.

(** ** Settings: the static variables *)

Record settings := Settings { device : list Z; mode : Z; bits : Z; speed : Z; delay : Z }.
Definition default_settings : settings := Settings (lit "/dev/spidev0.0") 0 8 500000 0.
Definition set_device v s := Settings v (mode s) (bits s) (speed s) (delay s).
Definition set_mode v s := Settings (device s) v (bits s) (speed s) (delay s).
Definition set_bits v s := Settings (device s) (mode s) v (speed s) (delay s).
Definition set_speed v s := Settings (device s) (mode s) (bits s) v (delay s).
Definition set_delay v s := Settings (device s) (mode s) (bits s) (speed s) v.

(** The items of the command line. *)
Inductive opt :=
| OptDevice (arg : list Z) | OptSpeed (arg : list Z) | OptDelay (arg : list Z) | OptBpw (arg : list Z)
| OptLoop | OptCpha | OptCpol | OptLsb | OptCsHigh | Opt3wire | OptNoCs | OptReady | OptBad.

Definition SPI_CPHA : Z := 0x01.
Definition SPI_CPOL : Z := 0x02.
Definition SPI_CS_HIGH : Z := 0x04.
Definition SPI_LSB_FIRST : Z := 0x08.
Definition SPI_3WIRE : Z := 0x10.
Definition SPI_LOOP : Z := 0x20.
Definition SPI_NO_CS : Z := 0x40.
Definition SPI_READY : Z := 0x80.

Definition add_mode (m : Z) (s : settings) : settings := set_mode (Z.lor (mode s) m) s.

(** The loop over the items; [None] is the exit in print_usage(). *)
Fixpoint parse_opts (items : list opt) (s : settings) : option settings :=
  match items with
  | [] => Some s
  | c :: items =>
      match c with
      | OptDevice optarg => parse_opts items (set_device optarg s)
      | OptSpeed optarg => parse_opts items (set_speed (u32 (atoi optarg)) s)
      | OptDelay optarg => parse_opts items (set_delay (u16 (atoi optarg)) s)
      | OptBpw optarg => parse_opts items (set_bits (u8 (atoi optarg)) s)
      | OptLoop => parse_opts items (add_mode SPI_LOOP s)
      | OptCpha => parse_opts items (add_mode SPI_CPHA s)
      | OptCpol => parse_opts items (add_mode SPI_CPOL s)
      | OptLsb => parse_opts items (add_mode SPI_LSB_FIRST s)
      | OptCsHigh => parse_opts items (add_mode SPI_CS_HIGH s)
      | Opt3wire => parse_opts items (add_mode SPI_3WIRE s)
      | OptNoCs => parse_opts items (add_mode SPI_NO_CS s)
      | OptReady => parse_opts items (add_mode SPI_READY s)
      | OptBad => None
      end
  end.

(** ** Requests *)

(** struct spi_ioc_transfer, with the bytes of its buffer. *)
Record spi_ioc_transfer := Transfer { tx_buf : list Z; tr_delay_usecs : Z; tr_speed_hz : Z; tr_bits_per_word : Z }.

Inductive sreq :=
| SOpen (path : list Z) | SClose (fd : Z)
| SWrMode (fd v : Z) | SRdMode (fd : Z) | SWrBits (fd v : Z) | SRdBits (fd : Z) | SWrSpeed (fd v : Z) | SRdSpeed (fd : Z)
| SMessage (fd : Z) (tr : spi_ioc_transfer) | SShow (rx : list Z).

(** The answer of ioctl(), and for the reading ones what they store. *)
Definition sreply (r : sreq) : Type :=
  match r with
  | SOpen _ | SWrMode _ _ | SWrBits _ _ | SWrSpeed _ _ => Z
  | SRdMode _ | SRdBits _ | SRdSpeed _ => Z * Z
  | SMessage _ _ => Z * list Z
  | SClose _ | SShow _ => unit
  end.

Definition tx : list Z :=
  replicate 6 0xFF ++ [0x40; 0x00; 0x00; 0x00; 0x00; 0x95] ++ replicate 18 0xFF ++ [0xDE; 0xAD; 0xBE; 0xEF; 0xBA; 0xAD; 0xF0; 0x0D].

Section program.
Context {D : Type} `{Driver sreq sreply D}.
Notation P := (prog settings sreq D).

Definition pabort {A} : P A := fault Aborted.

Definition transfer (fd : Z) : P unit :=
  s ← get;
  r ⇐ SMessage fd (Transfer tx (delay s) (speed s) (bits s));
  if r.1 <? 1 then pabort else
  _ ⇐ SShow r.2;
  mret tt.

(** The settings are written and read back, each into its own variable. *)
Definition set_up (fd : Z) : P Z :=
  s ← get;
  ret ⇐ SWrMode fd (mode s);
  if (ret : Z) =? -1 then pabort else
  r ⇐ SRdMode fd;
  if r.1 =? -1 then pabort else
  _ ← modify (set_mode (u8 r.2));
  s ← get;
  ret ⇐ SWrBits fd (bits s);
  if (ret : Z) =? -1 then pabort else
  r ⇐ SRdBits fd;
  if r.1 =? -1 then pabort else
  _ ← modify (set_bits (u8 r.2));
  s ← get;
  ret ⇐ SWrSpeed fd (speed s);
  if (ret : Z) =? -1 then pabort else
  r ⇐ SRdSpeed fd;
  if r.1 =? -1 then pabort else
  _ ← modify (set_speed (u32 r.2));
  mret r.1.

Definition main (items : list opt) : P (may_exit Z) :=
  s ← get;
  match parse_opts items s with
  | None => exits 1
  | Some s =>
      _ ← modify (λ _, s);
      fd ⇐ SOpen (device s);
      if (fd : Z) <? 0 then pabort else
      ret ← set_up fd;
      _ ← transfer fd;
      _ ⇐ SClose fd;
      go ret
  end.
End program.

(** ** What the command line means *)

(** The bit of a flag, and the values of the other options. *)
Definition flag_bit (c : opt) : option Z :=
  match c with
  | OptCpha => Some 0 | OptCpol => Some 1 | OptCsHigh => Some 2 | OptLsb => Some 3
  | Opt3wire => Some 4 | OptLoop => Some 5 | OptNoCs => Some 6 | OptReady => Some 7 | _ => None
  end.
Definition device_given (c : opt) := match c with OptDevice a => Some a | _ => None end.
Definition speed_given (c : opt) := match c with OptSpeed a => Some (u32 (atoi a)) | _ => None end.
Definition delay_given (c : opt) := match c with OptDelay a => Some (u16 (atoi a)) | _ => None end.
Definition bits_given (c : opt) := match c with OptBpw a => Some (u8 (atoi a)) | _ => None end.
(** The last value that is given, or else the one before. *)
Definition last_given {A} (f : opt → option A) (items : list opt) (old : A) : A := default old (last (omap f items)).

Lemma last_given_cons {A} (f : opt → option A) c items old : last_given f (c :: items) old = last_given f items (default old (f c)).
Proof.
  unfold last_given. cbn [omap list_omap]. destruct (f c) as [v|]; [|done]. rewrite last_cons. by destruct (last (omap f items)).
Qed.

Lemma lor_flag m b k : 0 <= b → Z.testbit (Z.lor m (2 ^ b)) k = (k =? b) || Z.testbit m k.
Proof.
  intros Hb. rewrite Z.lor_spec, orb_comm. f_equal. destruct (Z.eqb_spec k b) as [->|Hne]; [by apply Z.pow2_bits_true|].
  by apply Z.pow2_bits_false.
Qed.

(** The settings after the command line: a bit of the mode is set exactly when
    its flag is given (or was set before); of every other option the last
    one counts. *)
Theorem options_meaning items : ∀ s, OptBad ∉ items → ∃ s', parse_opts items s = Some s' ∧
  device s' = last_given device_given items (device s) ∧ bits s' = last_given bits_given items (bits s) ∧
  speed s' = last_given speed_given items (speed s) ∧ delay s' = last_given delay_given items (delay s) ∧
  ∀ k, Z.testbit (mode s') k = true ↔ Z.testbit (mode s) k = true ∨ ∃ c, c ∈ items ∧ flag_bit c = Some k.
Proof.
  induction items as [|c items IH]; intros s Hb.
  { exists s. cbn. split_and!; try done. intros k. split; [by left|]. intros [?|(c & Hc & _)]; [done|]. by apply not_elem_of_nil in Hc. }
  apply not_elem_of_cons in Hb as [Hc Hb].
  assert (∃ s1, parse_opts (c :: items) s = parse_opts items s1 ∧ device s1 = default (device s) (device_given c) ∧ bits s1 = default (bits s) (bits_given c) ∧
    speed s1 = default (speed s) (speed_given c) ∧ delay s1 = default (delay s) (delay_given c) ∧
    ∀ k, Z.testbit (mode s1) k = true ↔ Z.testbit (mode s) k = true ∨ flag_bit c = Some k) as (s1 & E & E1 & E2 & E3 & E4 & Hm).
  { destruct c; cbn [parse_opts]; try done; eexists; (split; [reflexivity|]); split_and!; try done; intros k; try by (split; [by left|by intros [?|?]]).
    all: cbn [add_mode set_mode mode]; match goal with |- context [Z.lor _ ?m] => let b := eval vm_compute in (Z.log2 m) in change m with (2 ^ b) end.
    all: rewrite lor_flag, orb_true_iff, Z.eqb_eq by lia; cbn [flag_bit]; naive_solver. }
  destruct (IH s1 Hb) as (s' & E' & F1 & F2 & F3 & F4 & Hm'). exists s'. rewrite E, !last_given_cons, <- E1, <- E2, <- E3, <- E4.
  split_and!; try done. intros k. rewrite Hm', Hm. setoid_rewrite elem_of_cons. naive_solver.
Qed.

(** The settings have the width of their variables. *)
Definition in_width (s : settings) : Prop := is_u8 (mode s) ∧ is_u8 (bits s) ∧ is_u32 (speed s).

Lemma parse_in_width items : ∀ s s', in_width s → parse_opts items s = Some s' → in_width s'.
Proof.
  induction items as [|c items IH]; intros s s' (Hm & Hb & Hs) E; [by simplify_eq/=|].
  destruct c; cbn [parse_opts] in E; try done; (eapply IH; [|exact E]); 
    (split; [|split]); cbn [mode bits speed add_mode set_device set_mode set_bits set_speed set_delay]; first [done|apply u8_range|apply u32_range|apply lor_u8; [done|by vm_compute]].
Qed.

(** ** A device that keeps its settings, its output connected with its input *)

Class LoopDevice (D : Type) `{Driver sreq sreply D} := {
  loop_opens (d : D) p : 0 <= (respond d (SOpen p)).2;
  mode_written (d : D) fd v : (respond d (SWrMode fd v)).2 = 0 ∧ (respond (respond d (SWrMode fd v)).1 (SRdMode fd)).2 = (0, v);
  bits_written (d : D) fd v : (respond d (SWrBits fd v)).2 = 0 ∧ (respond (respond d (SWrBits fd v)).1 (SRdBits fd)).2 = (0, v);
  speed_written (d : D) fd v : (respond d (SWrSpeed fd v)).2 = 0 ∧ (respond (respond d (SWrSpeed fd v)).1 (SRdSpeed fd)).2 = (0, v);
  loops_back (d : D) fd tr : 1 <= (respond d (SMessage fd tr)).2.1 ∧ (respond d (SMessage fd tr)).2.2 = tx_buf tr
}.

Definition setup_requests (fd : Z) (s : settings) : list sreq :=
  [SWrMode fd (mode s); SRdMode fd; SWrBits fd (bits s); SRdBits fd; SWrSpeed fd (speed s); SRdSpeed fd].

Section answers.
Context {D : Type} `{LoopDevice D}.
Implicit Types w : world settings sreq D.
Lemma mode_answers w fd v : answer w (SWrMode fd v) = 0 ∧ answer (after w (SWrMode fd v)) (SRdMode fd) = (0, v).
Proof. apply mode_written. Qed.
Lemma bits_answers w fd v : answer w (SWrBits fd v) = 0 ∧ answer (after w (SWrBits fd v)) (SRdBits fd) = (0, v).
Proof. apply bits_written. Qed.
Lemma speed_answers w fd v : answer w (SWrSpeed fd v) = 0 ∧ answer (after w (SWrSpeed fd v)) (SRdSpeed fd) = (0, v).
Proof. apply speed_written. Qed.
End answers.

Lemma settings_set_up {D} `{LoopDevice D} fd (w : world settings sreq D) : in_width (vars w) →
  runs (set_up fd) w (λ ret w', ret = 0 ∧ vars w' = vars w ∧ trace w' = trace w ++ setup_requests fd (vars w)).
Proof.
  intros (Hm & Hb & Hs). unfold set_up. apply runs_get, runs_request. destruct (mode_answers w fd (mode (vars w))) as [-> E2].
  apply runs_request. rewrite E2. cbn [fst snd Z.eqb]. rewrite u8_id by exact Hm. apply runs_bind, runs_modify, runs_get, runs_request.
  edestruct bits_answers as [-> E4]. apply runs_request. rewrite E4. cbn [fst snd Z.eqb]. cbn [with_vars vars after set_mode bits]. rewrite u8_id by exact Hb.
  apply runs_bind, runs_modify, runs_get, runs_request.
  edestruct speed_answers as [-> E6]. apply runs_request. rewrite E6. cbn [fst snd Z.eqb]. cbn [with_vars vars after set_bits speed set_mode mode]. rewrite u32_id by exact Hs.
  apply runs_bind, runs_modify, runs_ret. cbn [with_vars vars after trace]. split; [done|]. split; [by destruct (vars w)|].
  cbn. by rewrite <- !app_assoc.
Qed.

(** With the output connected to the input, the program sets the device up as
    the command line says, makes its transfer with these settings and shows
    exactly the bytes that it sent. *)
Theorem loop_shows_what_is_sent {D} `{LoopDevice D} items s (w : world settings sreq D) :
  vars w = default_settings → parse_opts items default_settings = Some s →
  runs (main items) w (λ r w', r = inl 0 ∧ ∃ fd, trace w' = trace w ++ SOpen (device s) :: setup_requests fd s ++
    [SMessage fd (Transfer tx (delay s) (speed s) (bits s)); SShow tx; SClose fd]).
Proof.
  intros Hv Hp. assert (in_width s) as Hw by (eapply parse_in_width; [|exact Hp]; repeat split; cbn; lia).
  unfold main. apply runs_get. rewrite Hv, Hp. apply runs_bind, runs_modify, runs_request. rewrite (proj2 (Z.ltb_ge _ _)) by apply loop_opens.
  set (fd := answer _ _). apply runs_bind. eapply runs_mono; [by apply settings_set_up|]. intros ret w1 (-> & Hv1 & L1). cbn [after with_vars vars trace] in Hv1, L1.
  apply runs_bind. unfold transfer. apply runs_get, runs_request. rewrite Hv1.
  destruct (loops_back (driver w1) fd (Transfer tx (delay s) (speed s) (bits s))) as [H1 H2]. unfold answer. rewrite (proj2 (Z.ltb_ge _ _)) by exact H1. rewrite H2.
  apply runs_request, runs_ret, runs_request, runs_go. split; [done|]. exists fd. rewrite !trace_after, L1. cbn. by rewrite <- !app_assoc.
Qed.

(** ** Limits *)

(** The width of a word and the delay are cut to their variables. *)
Lemma wide_words_are_cut : parse_opts [OptBpw (lit "264"); OptDelay (lit "65546")] default_settings = Some (Settings (lit "/dev/spidev0.0") 0 8 500000 10).
Proof. reflexivity. Qed.

(** ** Witnesses *)

Record demo_spi := DemoSpi { d_mode : Z; d_bits : Z; d_speed : Z }.
#[export] Instance demo_spi_driver : Driver sreq sreply demo_spi := λ d r,
  match r with
  | SOpen _ => (d, 3) | SClose _ => (d, tt) | SShow _ => (d, tt)
  | SWrMode _ v => (DemoSpi v (d_bits d) (d_speed d), 0) | SRdMode _ => (d, (0, d_mode d))
  | SWrBits _ v => (DemoSpi (d_mode d) v (d_speed d), 0) | SRdBits _ => (d, (0, d_bits d))
  | SWrSpeed _ v => (DemoSpi (d_mode d) (d_bits d) v, 0) | SRdSpeed _ => (d, (0, d_speed d))
  | SMessage _ tr => (d, (38, tx_buf tr))
  end.
#[export] Instance demo_spi_ok : LoopDevice demo_spi.
Proof. split; intros; try (split; reflexivity); cbn; try lia. split; [lia|reflexivity]. Defined.

Definition demo_line : list opt := [OptCpol; OptSpeed (lit "1000000"); OptLoop; OptCpha; OptCpol].

Lemma loop_shows_what_is_sent_witness :
  runs (main demo_line) (World default_settings (DemoSpi 0 0 0) []) (λ r w', r = inl 0 ∧ ∃ fd, In (SWrMode fd 35) (trace w') ∧ In (SShow tx) (trace w')).
Proof.
  eapply runs_mono; [apply (loop_shows_what_is_sent demo_line (Settings (lit "/dev/spidev0.0") 35 8 1000000 0)); reflexivity|].
  intros r w' (-> & fd & ->). split; [reflexivity|]. exists fd. split; cbn; tauto.
Defined.

Lemma options_meaning_witness : ∃ s, parse_opts demo_line default_settings = Some s ∧ speed s = 1000000 ∧ Z.testbit (mode s) 5 = true.
Proof.
  destruct (options_meaning demo_line default_settings) as (s & E & _ & _ & Hs & _ & Hm); [by repeat (apply not_elem_of_cons; split; [discriminate|]); apply not_elem_of_nil|].
  exists s. split; [exact E|]. split; [rewrite Hs; reflexivity|]. apply Hm. right. exists OptLoop. split; [by right; right; left|reflexivity].
Defined.
