(* ===== verification/Webcam.v ===== *)
(** * Webcam: the webcam demo

    Models src/webcam_demo: cam_lib.c (the capture device and its queue of
    buffers), JpegDec.c (decoding a frame to the screen) and webcam.c with the
    exit handler of fb_lib.c (the main program).  The devices are a [Driver].

    A buffer of the queue belongs either to the driver or to the program; its
    contents are there only while the program has it, so that a use of the
    memory of a buffer that was given back is a fault.  In the mode with a memory
    pool the driver fills a buffer at a physical address, which comes with its
    contents; the program and the engine find them only at that address. *)
From stdpp Require Import functions.
From S2P Require Import Prelude LibC Bytes Device JpegHeader Exif.
Local Open Scope cmodel_scope.
Local Open Scope Z_scope.

(** ** Data *)

(** The fields of jpeg_param_t that the demo sets; each is a __u32. *)
Inductive field :=
| vaddr_src | paddr_src | vaddr_dst | paddr_dst | src_bufsize | dst_bufsize | dec_stride | decopw_en | windec_en
| decode_output_format | encode | scale | scaled_width | scaled_height | decInWait_buffer_size | buffersize | buffercount.

#[export] Instance field_eq_dec : EqDecision field.
Proof. solve_decision. Defined.

Definition jpeg_param_t : Type := field → Z.
Definition assign (l : list (field * Z)) (p : jpeg_param_t) : jpeg_param_t :=
  foldl (λ p a, <[a.1 := u32 a.2]> p) p l.

(** What the program reads of a struct v4l2_buffer. *)
Record v4l2_buffer := V4l2Buffer { index : Z; bytesused : Z; length_ : Z; m_offset : Z }.

(** A struct buffer of cam_lib.c, with the place of the frame in the physical
    memory and the contents from there on, while the program has the buffer. *)
Record buffer := Buffer { start : Z; blength : Z; data : option (Z * list Z) }.

(** A pointer to memory of the heap. *)
Inductive heap (A : Type) := Null | Live (a : A) | Freed.
Arguments Null {A}.
Arguments Live {A} a.
Arguments Freed {A}.

(** [*p] and [free(p)]. *)
Definition deref {A} (p : heap A) : result A :=
  match p with Null => Crash NullDeref | Live a => Ok a | Freed => Crash OutOfBounds end.
Definition free {A} (p : heap A) : result (heap A) :=
  match p with Null => Ok Null | Live _ => Ok Freed | Freed => Crash OutOfBounds end.

(** The global variables of type int, unsigned int and long. *)
Inductive gvar :=
| BUFFER_COUNT | enable_preview | user_memorypool_enable | image_width | image_height
| jpeg_buffer_size | jpeg_buffer_paddress | jpeg_buffer_vaddress | bitstream_paddress | bitstream_vaddress
| fd_keypad | fd_jpeg | fb_fd | cam_fd | screensize | fb_paddress | fb_addr | xres | yres | pJpegBuffer.

#[export] Instance gvar_eq_dec : EqDecision gvar.
Proof. solve_decision. Defined.

(** [bitstream] is the engine's memory, mapped at [jpeg_buffer_vaddress]; [fb] the
    mapped frame buffer, [None] when it is not mapped; [files] what was written to
    the files that were created, each with its name. *)
Record webcam := Webcam {
  ints : gvar → Z;
  jpeg_param : jpeg_param_t;
  buffers : heap (list buffer);
  bitstream : list Z;
  fb : option (list Z);
  backupVideoBuffer : heap (list Z);
  device : list Z;
  device_keypad : list Z;
  files : list (list Z * list Z);
}.

Definition set_int (x : gvar) (z : Z) (s : webcam) : webcam :=
  Webcam (<[x := z]> (ints s)) (jpeg_param s) (buffers s) (bitstream s) (fb s) (backupVideoBuffer s) (device s) (device_keypad s) (files s).
Definition set_param (p : jpeg_param_t) (s : webcam) : webcam :=
  Webcam (ints s) p (buffers s) (bitstream s) (fb s) (backupVideoBuffer s) (device s) (device_keypad s) (files s).
Definition set_buffers (b : heap (list buffer)) (s : webcam) : webcam :=
  Webcam (ints s) (jpeg_param s) b (bitstream s) (fb s) (backupVideoBuffer s) (device s) (device_keypad s) (files s).
Definition set_bitstream (m : list Z) (s : webcam) : webcam :=
  Webcam (ints s) (jpeg_param s) (buffers s) m (fb s) (backupVideoBuffer s) (device s) (device_keypad s) (files s).
Definition set_fb (m : option (list Z)) (s : webcam) : webcam :=
  Webcam (ints s) (jpeg_param s) (buffers s) (bitstream s) m (backupVideoBuffer s) (device s) (device_keypad s) (files s).
Definition set_backup (m : heap (list Z)) (s : webcam) : webcam :=
  Webcam (ints s) (jpeg_param s) (buffers s) (bitstream s) (fb s) m (device s) (device_keypad s) (files s).
Definition set_device (d : list Z) (s : webcam) : webcam :=
  Webcam (ints s) (jpeg_param s) (buffers s) (bitstream s) (fb s) (backupVideoBuffer s) d (device_keypad s) (files s).
Definition set_device_keypad (d : list Z) (s : webcam) : webcam :=
  Webcam (ints s) (jpeg_param s) (buffers s) (bitstream s) (fb s) (backupVideoBuffer s) (device s) d (files s).
Definition add_file (name bytes : list Z) (s : webcam) : webcam :=
  Webcam (ints s) (jpeg_param s) (buffers s) (bitstream s) (fb s) (backupVideoBuffer s) (device s) (device_keypad s) (files s ++ [(name, bytes)]).

Inductive wreq :=
| Open (path : list Z) | OpenDir (path : list Z) | Close (fd : Z)
| EVIOCGNAME (fd : Z) | EVIOCGBIT (fd : Z)
| Scanf
| JPEG_GET_JPEG_BUFFER | JPEG_GET_JPEG_BUFFER_PADDR | MmapJpeg (len : Z)
| FBIOGET_FSCREENINFO | FBIOGET_VSCREENINFO | MmapFb (len : Z) | MunmapFb (picture : list Z)
| Malloc (len : Z) | IOCTL_LCD_GET_DMA_BASE
| MmapFrame (len offset : Z) | Munmap (addr len : Z)
| VIDIOC_S_USER_MEMORY_POOL_ENABLE (enable : Z) | VIDIOC_S_MEMORY_POOL_PADDR (addr : Z)
| VIDIOC_QUERYCAP | VIDIOC_CROPCAP | VIDIOC_S_CROP | VIDIOC_S_FMT (width height : Z) | VIDIOC_G_FMT
| VIDIOC_REQBUFS (count : Z) | VIDIOC_QUERYBUF (i : Z)
| VIDIOC_QBUF (i : Z) | VIDIOC_DQBUF | VIDIOC_STREAMON | VIDIOC_STREAMOFF
| JPEG_S_PARAM (p : jpeg_param_t) | JPEG_TRIGGER (at_vaddr at_paddr : option (list Z)) | ReadJpeg
| ReadKey (fd : Z) | Localtime
| CreateFile (path : list Z) (len : Z).

(** Answers.  QUERYCAP: the result, whether errno is EINVAL, and the two
    capabilities; REQBUFS: the result and whether errno is EINVAL; DQBUF: the
    buffer, the physical address at which the driver filled it and what is there;
    the engine is given what it finds at the two addresses of its parameters, and
    leaves its picture in the frame buffer; a key event is its type and value; a
    new file, for a number of bytes, is given by its descriptor and the results
    of the writes. *)
Definition wreply (r : wreq) : Type :=
  match r with
  | OpenDir _ | Malloc _ => bool
  | Close _ | EVIOCGBIT _ | MunmapFb _ | Munmap _ _ => unit
  | EVIOCGNAME _ => option (list Z)
  | Scanf => option Z
  | MmapJpeg _ => option (Z * list Z)
  | MmapFb _ => option (Z * list Z)
  | FBIOGET_FSCREENINFO => option Z
  | FBIOGET_VSCREENINFO => option (Z * Z)
  | IOCTL_LCD_GET_DMA_BASE => option Z
  | MmapFrame _ _ => option Z
  | VIDIOC_QUERYCAP => Z * bool * (bool * bool)
  | VIDIOC_REQBUFS _ => Z * bool
  | VIDIOC_QUERYBUF _ => option v4l2_buffer
  | VIDIOC_DQBUF => option (v4l2_buffer * (Z * list Z))
  | ReadJpeg => list Z
  | ReadKey _ => option (Z * Z)
  | Localtime => tm
  | CreateFile _ _ => Z * list Z
  | _ => Z
  end.

Definition ERR_NO_DEV : Z := 1.
Definition ERR_NO_VIDEO : Z := 2.
Definition ERR_NO_SUPPORT : Z := 3.
Definition ERR_NO_FMT : Z := 4.
Definition ERR_OUT_OF_MEM : Z := 5.
Definition ERR_UNKNOWN : Z := 6.
Definition BUFFER_SIZE_OTHER_USE : Z := 0 * 1024.
Definition BUFFER_SIZE_WEBCAM_BITSTREAM : Z := 200 * 1024.
Definition RETRY_NUM : nat := 4.
Definition DRVJPEG_DEC_PRIMARY_PACKET_RGB565 : Z := 0x006021.

Section program.
Context {D : Type} `{Driver wreq wreply D}.
Notation P := (prog webcam wreq D).

Definition int (x : gvar) : P Z := s ← get; mret (ints s x).
Definition put (x : gvar) (z : Z) : P unit := modify (set_int x z).

(** ** cam_lib.c *)

(** The address and the length of buffer [i] are stored; its contents are the
    driver's. *)
Definition store_buffer (i addr len : Z) : P unit :=
  s ← get;
  l ← lift (deref (buffers s));
  l ← lift (wr l i (Buffer addr len None));
  modify (set_buffers (Live l)).

(** The loop over the buffers, [n] of which are left. *)
Fixpoint query_loop (n : nat) (i : Z) : P Z :=
  match n with
  | O => mret 0
  | S n =>
      r ⇐ VIDIOC_QUERYBUF i;
      match r with
      | None => mret (- ERR_UNKNOWN)
      | Some buf =>
          pool ← int user_memorypool_enable;
          if negb (pool =? 0) then
            base ← int bitstream_vaddress;
            _ ← store_buffer i (u32 (base + length_ buf * i)) (length_ buf);
            query_loop n (i + 1)
          else
            addr ⇐ MmapFrame (length_ buf) (m_offset buf);
            match addr with
            | None => _ ← store_buffer i ULONG_MAX (length_ buf); mret (- ERR_UNKNOWN)
            | Some addr => _ ← store_buffer i addr (length_ buf); query_loop n (i + 1)
            end
      end
  end.

Definition preview_memory : P unit :=
  p ← int enable_preview;
  if p =? 0 then mret tt else
  pa ← int jpeg_buffer_paddress;
  va ← int jpeg_buffer_vaddress;
  _ ← put bitstream_paddress (u32 (pa + BUFFER_SIZE_OTHER_USE));
  _ ← put bitstream_vaddress (u32 (va + BUFFER_SIZE_OTHER_USE));
  pool ← int user_memorypool_enable;
  _ ⇐ VIDIOC_S_USER_MEMORY_POOL_ENABLE pool;
  if negb (pool =? 0) then _ ⇐ VIDIOC_S_MEMORY_POOL_PADDR (u32 (pa + BUFFER_SIZE_OTHER_USE)); mret tt else mret tt.

Definition init_mmap : P Z :=
  _ ← preview_memory;
  n ← int BUFFER_COUNT;
  r ⇐ VIDIOC_REQBUFS n;
  if r.1 =? -1 then mret (if (r.2 : bool) then - ERR_NO_SUPPORT else - ERR_UNKNOWN) else
  ok ⇐ Malloc (n * 8);
  if negb ok then _ ← modify (set_buffers Null); mret (- ERR_OUT_OF_MEM) else
  _ ← modify (set_buffers (Live (replicate (Z.to_nat n) (Buffer 0 0 None))));
  query_loop (Z.to_nat n) 0.

Definition stop_capturing : P unit := _ ⇐ VIDIOC_STREAMOFF; mret tt.

(** A buffer that is queued belongs to the driver. *)
Definition give_back (i : Z) (l : list buffer) : list buffer :=
  alter (λ b, Buffer (start b) (blength b) None) (Z.to_nat i) l.

(** The request to queue buffer [i]; [false] is a failure. *)
Definition queue (i : Z) : P bool :=
  r ⇐ VIDIOC_QBUF i;
  if r =? -1 then mret false else
  s ← get;
  _ ← modify (set_buffers (match buffers s with Live l => Live (give_back i l) | p => p end));
  mret true.

Fixpoint queue_loop (n : nat) (i : Z) : P bool :=
  match n with
  | O => mret true
  | S n => ok ← queue i; if (ok : bool) then queue_loop n (i + 1) else mret false
  end.

Definition start_capturing : P Z :=
  n ← int BUFFER_COUNT;
  ok ← queue_loop (Z.to_nat n) 0;
  if negb ok then mret (- ERR_UNKNOWN) else
  r ⇐ VIDIOC_STREAMON;
  mret (if r =? -1 then - ERR_UNKNOWN else 0).

Definition cam_start : P Z :=
  q ⇐ VIDIOC_QUERYCAP;
  if q.1.1 =? -1 then mret (if (q.1.2 : bool) then - ERR_NO_DEV else - ERR_NO_VIDEO) else
  if negb q.2.1 then mret (- ERR_NO_VIDEO) else
  if negb q.2.2 then mret (- ERR_NO_SUPPORT) else
  c ⇐ VIDIOC_CROPCAP;
  _ ← (if c =? 0 then _ ⇐ VIDIOC_S_CROP; mret tt else mret tt);
  w ← int image_width;
  h ← int image_height;
  r ⇐ VIDIOC_S_FMT (u32 w) (u32 h);
  if r =? -1 then mret (- ERR_NO_FMT) else
  r ⇐ VIDIOC_G_FMT;
  if r =? -1 then mret (- ERR_NO_FMT) else
  ret ← init_mmap;
  if ret <? 0 then mret ret else start_capturing.

(** The physical address behind an address in the mapping of the engine's
    memory. *)
Definition to_phys (s : webcam) (v : Z) : Z := u32 (v - ints s jpeg_buffer_vaddress + ints s jpeg_buffer_paddress).

(** Buffer [i] and what the program finds at its start: a mapping of its own, or,
    in the mode with a pool, the engine's memory, where the frame is only if the
    driver has put it there. *)
Definition frame_memory (i : Z) : P (buffer * list Z) :=
  s ← get;
  l ← lift (deref (buffers s));
  b ← lift (rd l i);
  match data b with
  | None => fault NoValue
  | Some (place, m) =>
      if (ints s user_memorypool_enable =? 0) || (to_phys s (start b) =? place) then mret (b, m) else fault NoValue
  end.

(** What the engine finds at the physical address [p]: the frame of a buffer that
    the program has, or what is in the engine's own memory. *)
Definition frame_at (p : Z) (l : list buffer) : option (list Z) :=
  head (omap (λ b, match data b with Some (q, m) => if q =? p then Some m else None | None => None end) l).
Definition engine_finds (s : webcam) (p : Z) : option (list Z) :=
  if negb (ints s user_memorypool_enable =? 0) then
    match buffers s with Live l => frame_at p l | _ => None end
  else
    let off := u32 (p - ints s jpeg_buffer_paddress) in
    if off <=? Z.of_nat (length (bitstream s)) then Some (drop (Z.to_nat off) (bitstream s)) else None.

(** The first [len] bytes of a memory. *)
Definition first_bytes (m : list Z) (len : Z) : result (list Z) :=
  if (0 <=? len) && (len <=? Z.of_nat (length m)) then Ok (take (Z.to_nat len) m) else Crash OutOfBounds.

(** *** JpegDec.c *)

Definition decode_param (s : webcam) (vsrc psrc : Z) : jpeg_param_t :=
  assign [(encode, 0); (src_bufsize, 100*1024); (dst_bufsize, 640*480*2); (decInWait_buffer_size, 0);
          (decopw_en, 0); (windec_en, 0); (scale, 1); (scaled_width, ints s xres); (scaled_height, ints s yres);
          (dec_stride, ints s xres); (buffersize, 0); (buffercount, 1);
          (decode_output_format, DRVJPEG_DEC_PRIMARY_PACKET_RGB565);
          (paddr_dst, ints s fb_paddress); (vaddr_dst, ints s fb_addr);
          (vaddr_src, vsrc); (paddr_src, psrc)] (λ _, 0).

(** The parameters name the buffer in the pool, or the engine's memory after a
    copy of the frame to it; the engine writes the frame buffer.  Its failures are
    not reported. *)
Definition jpegDec (buf : v4l2_buffer) : P Z :=
  s ← get;
  _ ← (if negb (ints s user_memorypool_enable =? 0) then
         l ← lift (deref (buffers s));
         b ← lift (rd l (index buf));
         modify (set_param (decode_param s (start b) (ints s bitstream_paddress + index buf * length_ buf)))
       else
         b ← frame_memory (index buf);
         frame ← lift (first_bytes b.2 (bytesused buf));
         m ← lift (blit (bitstream s) (u32 (ints s bitstream_vaddress - ints s jpeg_buffer_vaddress)) frame);
         _ ← modify (set_bitstream m);
         modify (set_param (decode_param s (ints s bitstream_vaddress) (ints s bitstream_paddress))));
  s ← get;
  r ⇐ JPEG_S_PARAM (jpeg_param s);
  if r <? 0 then mret 0 else
  r ⇐ JPEG_TRIGGER (engine_finds s (to_phys s (jpeg_param s vaddr_src))) (engine_finds s (jpeg_param s paddr_src));
  if r <? 0 then mret 0 else
  picture ⇐ ReadJpeg;
  _ ← modify (set_fb (Some picture));
  mret 0.

(** *** Reading a frame *)

Definition jpegfilename (t : tm) : list Z :=
  lit "./" ++ print_d (1900 + tm_year t) ++ print_0d 2 (tm_mon t + 1) ++ print_0d 2 (tm_mday t) ++
  print_0d 2 (tm_hour t) ++ print_0d 2 (tm_min t) ++ print_0d 2 (tm_sec t) ++ lit ".jpg".

(** A key was released. *)
Definition released (e : Z * Z) : bool := negb (e.1 =? 0) && (e.2 =? 0).

(** Saving the frame.  The message after a failure prints the error number as
    a string: it reads memory at an address that is no pointer. *)
Definition save_frame (buf : v4l2_buffer) : P unit :=
  t ⇐ Localtime;
  b ← frame_memory (index buf);
  frame ← lift (first_bytes b.2 (bytesused buf));
  f ⇐ CreateFile (jpegfilename t) (s32 (bytesused buf));
  r ← lift (JpegHeader.Write2File f.1 f.2 frame (s32 (bytesused buf)));
  _ ← modify (if f.1 <? 0 then id else add_file (jpegfilename t) r.1);
  if r.2 <? 0 then fault OutOfBounds else mret tt.

(** The buffer that is dequeued is the program's. *)
Definition take_over (buf : v4l2_buffer) (m : Z * list Z) : P unit :=
  s ← get;
  modify (set_buffers (match buffers s with
    | Live l => Live (alter (λ b, Buffer (start b) (blength b) (Some m)) (Z.to_nat (index buf)) l)
    | p => p end)).

(** [stale] is what the local variable holds when no event is read: the keypad
    does not block. *)
Definition cam_read (stale : Z * Z) : P Z :=
  r ⇐ VIDIOC_DQBUF;
  match r with
  | None => mret (- ERR_UNKNOWN)
  | Some (buf, m) =>
      n ← int BUFFER_COUNT;
      if negb (index buf <? u32 n) then fault Aborted else
      _ ← take_over buf m;
      p ← int enable_preview;
      _ ← (if p =? 0 then mret 0 else jpegDec buf);
      fd ← int fd_keypad;
      e ⇐ ReadKey fd;
      _ ← (if released (default stale e) then save_frame buf else mret tt);
      ok ← queue (index buf);
      mret (if (ok : bool) then 1 else - ERR_UNKNOWN)
  end.

(** The loop of [cam_stop] over the buffers. *)
Fixpoint unmap_loop (n : nat) (i : Z) : P unit :=
  match n with
  | O => mret tt
  | S n =>
      s ← get;
      l ← lift (deref (buffers s));
      b ← lift (rd l i);
      _ ⇐ Munmap (start b) (blength b);
      unmap_loop n (i + 1)
  end.

Definition cam_stop : P unit :=
  _ ← stop_capturing;
  pool ← int user_memorypool_enable;
  n ← int BUFFER_COUNT;
  _ ← (if pool =? 0 then unmap_loop (Z.to_nat n) 0 else mret tt);
  s ← get;
  l ← lift (free (buffers s));
  modify (set_buffers l).

Definition cam_close (fd : Z) : P unit := _ ⇐ Close fd; mret tt.

(** ** webcam.c *)

(** The character at [i] of a device name is counted up. *)
Definition bump (i : Z) (name : list Z) : result (list Z) := c ← rd name i; wr name i (u8 (c + 1)).

(** The attempts that are left to find the keypad. *)
Fixpoint keypad_loop (n : nat) : P bool :=
  match n with
  | O => mret false
  | S n =>
      s ← get;
      fd ⇐ Open (device_keypad s);
      _ ← put fd_keypad fd;
      if fd <? 0 then mret false else
      name ⇐ EVIOCGNAME fd;
      if match name with Some name => strstr (cstr name) (lit "Keypad") | None => false end then mret true else
      _ ⇐ Close fd;
      d ← lift (bump 16 (device_keypad s));
      _ ← modify (set_device_keypad d);
      keypad_loop n
  end.

Definition init_keypad_device : P Z :=
  found ← keypad_loop RETRY_NUM;
  if negb found then mret (-1) else
  fd ← int fd_keypad;
  _ ⇐ EVIOCGBIT fd;
  mret 0.

(** [scanf("%d", &x)]: what is no number leaves the variable. *)
Definition scan (x : gvar) (conv : Z → Z) : P unit :=
  v ⇐ Scanf;
  match v with Some v => put x (conv v) | None => mret tt end.

Definition ask_modes : P unit :=
  _ ← scan enable_preview u32;
  p ← int enable_preview;
  if p =? 0 then mret tt else scan user_memorypool_enable u32.

(** At most [n] attempts to open the device; [x] holds the last result. *)
Fixpoint open_retry (n : nat) (x : gvar) : P unit :=
  match n with
  | O => mret tt
  | S n =>
      s ← get;
      fd ⇐ Open (device s);
      _ ← put x fd;
      if fd <? 0 then open_retry n x else mret tt
  end.

Definition next_device : P unit :=
  s ← get; d ← lift (bump 10 (device s)); modify (set_device d).

(** The largest number of frames beside the bitstream in the engine's memory. *)
Definition pool_limit (s : webcam) : Z :=
  u32 (ints s jpeg_buffer_size - BUFFER_SIZE_OTHER_USE - BUFFER_SIZE_WEBCAM_BITSTREAM) /
  (ints s image_width * ints s image_height * 2).

(** The loop around [input_again]. *)
Fixpoint ask_count (fuel : nat) (jpeg_v4l2_buffer_num : Z) : P unit :=
  match fuel with
  | O => fault OutOfFuel
  | S fuel =>
      _ ← scan BUFFER_COUNT s32;
      s ← get;
      if ints s BUFFER_COUNT <=? 0 then ask_count fuel jpeg_v4l2_buffer_num else
      if negb (ints s user_memorypool_enable =? 0) && (jpeg_v4l2_buffer_num <? ints s BUFFER_COUNT)
      then ask_count fuel jpeg_v4l2_buffer_num
      else mret tt
  end.

(** The picture of the frame buffer is put back. *)
Definition restore_screen : P unit :=
  s ← get;
  if ints s screensize =? 0 then mret tt else
  b ← lift (deref (backupVideoBuffer s));
  match fb s with
  | None => fault OutOfBounds
  | Some m => m ← lift (blit m 0 b); modify (set_fb (Some m))
  end.

(** What the label [out] and the exit handler share. *)
Definition clean_up : P unit :=
  _ ← restore_screen;
  s ← get;
  _ ⇐ MunmapFb (default [] (fb s));
  _ ← modify (set_fb None);
  _ ⇐ Close (ints s fb_fd);
  _ ← cam_stop;
  _ ← cam_close (ints s cam_fd);
  s ← get;
  l ← lift (free (backupVideoBuffer s));
  _ ← modify (set_backup l);
  _ ← (if ints s pJpegBuffer =? 0 then mret tt
       else _ ⇐ Munmap (ints s pJpegBuffer) (ints s jpeg_buffer_size); mret tt);
  _ ⇐ Close (ints s fd_jpeg);
  mret tt.

(** How the program ends: with a result, in the loop without an end after the
    label [out], or by the exit handler. *)
Inductive ending := Returns (r : Z) | Spins | Exits (status : Z).

Definition out : P ending := _ ← clean_up; mret Spins.
Definition myExitHandler : P ending := _ ← clean_up; mret (Exits (-9)).

(** [stale i] is what the local variable holds in the i-th call. *)
Fixpoint read_loop (fuel : nat) (stale : nat → Z * Z) : P unit :=
  match fuel with
  | O => fault OutOfFuel
  | S fuel =>
      ret ← cam_read (stale O);
      if ret <? 0 then mret tt else read_loop fuel (λ i, stale (S i))
  end.

(** The frame buffer: [inl] is an early return. *)
Definition open_screen : P (Z + unit) :=
  fd ⇐ Open (lit "/dev/fb0");
  _ ← put fb_fd fd;
  if fd <? 0 then mret (inl 1) else
  line ⇐ FBIOGET_FSCREENINFO;
  match line with
  | None => mret (inl 1)
  | Some line =>
      v ⇐ FBIOGET_VSCREENINFO;
      match v with
      | None => mret (inl 1)
      | Some (x, y) =>
          _ ← put xres x;
          _ ← put yres y;
          let size := s32 (u32 (y * line * 2)) in
          _ ← put screensize size;
          m ⇐ MmapFb (u32 size);
          match m with
          | None => _ ← put fb_addr ULONG_MAX; mret (inl 1)
          | Some (addr, picture) =>
              _ ← put fb_addr addr;
              _ ← modify (set_fb (Some picture));
              ok ⇐ Malloc (u32 size);
              _ ← (if (ok : bool) then
                     b ← lift (first_bytes picture size); modify (set_backup (Live b))
                   else if size =? 0 then mret tt else fault NullDeref);
              base ⇐ IOCTL_LCD_GET_DMA_BASE;
              match base with
              | None => _ ⇐ Close fd; mret (inl (-1))
              | Some base => _ ← put fb_paddress base; mret (inr tt)
              end
          end
      end
  end.

(** The camera is open. *)
Definition run_camera (fuel : nat) (stale : nat → Z * Z) : P ending :=
  ret ← cam_start;
  if ret <? 0 then out else
  _ ← read_loop fuel stale;
  out.

(** After the screen was set up: the number of buffers and the camera. *)
Definition serve (fuel : nat) (stale : nat → Z * Z) : P ending :=
  s ← get;
  _ ← ask_count fuel (if ints s user_memorypool_enable =? 0 then 0 else s32 (pool_limit s));
  _ ← next_device;
  _ ← open_retry RETRY_NUM cam_fd;
  fd ← int cam_fd;
  if fd <? 0 then mret (Returns (-1)) else run_camera fuel stale.

Definition main (fuel : nat) (stale : nat → Z * Z) : P ending :=
  r ← init_keypad_device;
  if r <? 0 then mret (Returns (-1)) else
  _ ← ask_modes;
  dir ⇐ OpenDir (lit "/sys/class/video4linux/video1/");
  _ ← (if (dir : bool) then next_device else mret tt);
  _ ← open_retry RETRY_NUM fd_jpeg;
  fd ← int fd_jpeg;
  if fd <? 0 then mret (Returns (-1)) else
  size ⇐ JPEG_GET_JPEG_BUFFER;
  _ ← put jpeg_buffer_size size;
  m ⇐ MmapJpeg size;
  match m with
  | None => _ ← put pJpegBuffer ULONG_MAX; out
  | Some (addr, memory) =>
      _ ← put pJpegBuffer addr;
      pa ⇐ JPEG_GET_JPEG_BUFFER_PADDR;
      _ ← put jpeg_buffer_paddress pa;
      _ ← put jpeg_buffer_vaddress addr;
      _ ← modify (set_bitstream memory);
      r ← open_screen;
      match r with
      | inl r => mret (Returns r)
      | inr _ => serve fuel stale
      end
  end.
End program.

(** ** A camera that cooperates

    The driver keeps a queue of at most [buffer_max] buffers ([held], the oldest
    first) and fills them in order; [shot d i] is the i-th frame from now on and
    [key d i] the i-th answer of the keypad from now on.  [pool] is whether the
    memory pool is in use, and the physical address that it was given: the frames
    are then put there, one buffer after the other. *)
Class Camera (D : Type) `{Driver wreq wreply D} := {
  held : D → list Z;
  shot : D → nat → list Z;
  key : D → nat → option (Z * Z);
  pool : D → bool * Z;
  buffer_max : Z;
  frame_len : Z;
  frame_len_is : is_u32 frame_len ∧ frame_len < 2147483648;
  shot_fits (d : D) i : Z.of_nat (length (shot d i)) <= frame_len;
  queues (d : D) i : 0 <= i < buffer_max → i ∉ held d →
    (respond d (VIDIOC_QBUF i)).2 ≠ -1 ∧ held (respond d (VIDIOC_QBUF i)).1 = held d ++ [i];
  dequeues (d : D) i q : held d = i :: q → ∃ off place m,
    (respond d VIDIOC_DQBUF).2 = Some (V4l2Buffer i (Z.of_nat (length (shot d 0%nat))) frame_len off, (place, shot d 0%nat ++ m)) ∧
    ((pool d).1 = true → place = u32 ((pool d).2 + frame_len * i)) ∧
    held (respond d VIDIOC_DQBUF).1 = q;
  key_is (d : D) fd : (respond d (ReadKey fd)).2 = key d 0%nat;
  held_after (d : D) r : match r with
    | VIDIOC_QBUF _ | VIDIOC_DQBUF => True
    | VIDIOC_REQBUFS _ | VIDIOC_STREAMOFF => held (respond d r).1 = []
    | _ => held (respond d r).1 = held d end;
  shot_after (d : D) r i : shot (respond d r).1 i = match r with VIDIOC_DQBUF => shot d (S i) | _ => shot d i end;
  key_after (d : D) r i : key (respond d r).1 i = match r with ReadKey _ => key d (S i) | _ => key d i end;
  pool_after (d : D) r : pool (respond d r).1 = match r with
    | VIDIOC_S_USER_MEMORY_POOL_ENABLE e => (negb (e =? 0), (pool d).2)
    | VIDIOC_S_MEMORY_POOL_PADDR a => ((pool d).1, a)
    | _ => pool d end;
  file_saved (d : D) path len : 0 <= len → 0 <= (respond d (CreateFile path len)).2.1 ∧
    full_writes len (respond d (CreateFile path len)).2.2;
  engine_set (d : D) p : 0 <= (respond d (JPEG_S_PARAM p)).2;
  engine_starts (d : D) a b : 0 <= (respond d (JPEG_TRIGGER a b)).2;
  capable (d : D) : (respond d VIDIOC_QUERYCAP).2.1.1 ≠ -1 ∧ (respond d VIDIOC_QUERYCAP).2.2 = (true, true);
  format_set (d : D) w h : (respond d (VIDIOC_S_FMT w h)).2 ≠ -1 ∧ (respond d VIDIOC_G_FMT).2 ≠ -1;
  buffers_granted (d : D) n : n <= buffer_max → (respond d (VIDIOC_REQBUFS n)).2.1 ≠ -1;
  table_allocated (d : D) n : (respond d (Malloc n)).2 = true;
  buffer_known (d : D) i : ∃ used off, (respond d (VIDIOC_QUERYBUF i)).2 = Some (V4l2Buffer i used frame_len off);
  frame_mapped (d : D) off : is_Some (respond d (MmapFrame frame_len off)).2;
  stream_on (d : D) : (respond d VIDIOC_STREAMON).2 ≠ -1
}.

(** What the engine found, in a list of requests. *)
Definition engine_inputs (t : list wreq) : list (option (list Z) * option (list Z)) :=
  omap (λ r, match r with JPEG_TRIGGER a b => Some (a, b) | _ => None end) t.
Lemma engine_inputs_app t t' : engine_inputs (t ++ t') = engine_inputs t ++ engine_inputs t'.
Proof. apply omap_app. Qed.
#[local] Hint Rewrite engine_inputs_app app_nil_r : webcam.

Lemma first_bytes_prefix l m : first_bytes (l ++ m) (Z.of_nat (length l)) = Ok l.
Proof.
  unfold first_bytes. rewrite length_app, !(proj2 (Z.leb_le _ _)) by lia. cbn [andb].
  by rewrite Nat2Z.id, take_app_length.
Qed.

Section serving.
Context {D : Type} `{Hcam : Camera D}.
Implicit Types w : world webcam wreq D.

(** What stays as it is while a frame is served. *)
Record steady w w' : Prop := Steady {
  st_ints : ints (vars w') = ints (vars w);
  st_buffers : buffers (vars w') = buffers (vars w);
  st_backup : backupVideoBuffer (vars w') = backupVideoBuffer (vars w);
  st_memory : length (bitstream (vars w')) = length (bitstream (vars w));
  st_held : held (driver w') = held (driver w);
  st_shot : ∀ i, shot (driver w') i = shot (driver w) i;
  st_key : ∀ i, key (driver w') i = key (driver w) i;
  st_pool : pool (driver w') = pool (driver w)
}.

Lemma steady_refl w : steady w w.
Proof. by constructor. Qed.
Lemma steady_trans w1 w2 w3 : steady w1 w2 → steady w2 w3 → steady w1 w3.
Proof. intros [] []. constructor; intros; congruence. Qed.

(** A request that is not about the queue, the pool or the keypad. *)
Lemma steady_after w r :
  match r with
  | VIDIOC_QBUF _ | VIDIOC_DQBUF | VIDIOC_REQBUFS _ | VIDIOC_STREAMOFF | ReadKey _
  | VIDIOC_S_USER_MEMORY_POOL_ENABLE _ | VIDIOC_S_MEMORY_POOL_PADDR _ => False
  | _ => True end →
  steady w (Device.after w r).
Proof.
  intros Hr. constructor; try done; cbn [Device.after driver].
  - pose proof (held_after (driver w) r). by destruct r.
  - intros i. rewrite shot_after. by destruct r.
  - intros i. rewrite key_after. by destruct r.
  - rewrite pool_after. by destruct r.
Qed.

(** The addresses of the engine's memory are known where they are used, and with
    a pool the driver was told to use it from there on. *)
Definition addressed w : Prop :=
  (ints (vars w) enable_preview ≠ 0 →
     ints (vars w) bitstream_vaddress = u32 (ints (vars w) jpeg_buffer_vaddress) ∧
     ints (vars w) bitstream_paddress = u32 (ints (vars w) jpeg_buffer_paddress)) ∧
  (ints (vars w) user_memorypool_enable ≠ 0 →
     ints (vars w) enable_preview ≠ 0 ∧ pool (driver w) = (true, ints (vars w) bitstream_paddress)).

Definition at_offset (base i : Z) : Z := u32 (base + frame_len * i).

(** The program has buffer [i] with a frame, and no other. *)
Record in_hand w (i : Z) (frame : list Z) (l : list buffer) (b : buffer) (place : Z) (m : list Z) : Prop := InHand {
  ih_table : buffers (vars w) = Live l ∧ 0 <= i ∧ l !! Z.to_nat i = Some b;
  ih_data : data b = Some (place, frame ++ m);
  ih_others : ∀ j b', l !! j = Some b' → j ≠ Z.to_nat i → data b' = None;
  ih_place : ints (vars w) user_memorypool_enable ≠ 0 →
    start b = at_offset (ints (vars w) bitstream_vaddress) i ∧ place = at_offset (ints (vars w) bitstream_paddress) i;
  ih_addressed : addressed w;
  ih_fits : ints (vars w) user_memorypool_enable = 0 → (length frame <= length (bitstream (vars w)))%nat
}.

Lemma in_hand_steady w w' i frame l b place m : in_hand w i frame l b place m → steady w w' → in_hand w' i frame l b place m.
Proof.
  intros [H1 H2 H3 H4 H5 H6] S. constructor; rewrite ?(st_ints _ _ S), ?(st_buffers _ _ S), ?(st_memory _ _ S); try done.
  unfold addressed. by rewrite (st_ints _ _ S), (st_pool _ _ S).
Qed.

(** Offsets from one base are offsets from the other. *)
Lemma to_phys_offset s i : ints s bitstream_vaddress = u32 (ints s jpeg_buffer_vaddress) →
  ints s bitstream_paddress = u32 (ints s jpeg_buffer_paddress) →
  to_phys s (at_offset (ints s bitstream_vaddress) i) = at_offset (ints s bitstream_paddress) i.
Proof.
  intros -> ->. unfold to_phys, at_offset. rewrite !u32_add_l. set (a := ints s jpeg_buffer_vaddress).
  replace (u32 (a + frame_len * i) - a + ints s jpeg_buffer_paddress) with (u32 (a + frame_len * i) + (ints s jpeg_buffer_paddress - a)) by lia.
  rewrite u32_add_l. f_equal. lia.
Qed.
Lemma to_phys_base s : ints s bitstream_vaddress = u32 (ints s jpeg_buffer_vaddress) →
  to_phys s (ints s bitstream_vaddress) = u32 (ints s jpeg_buffer_paddress).
Proof.
  intros ->. unfold to_phys. set (a := ints s jpeg_buffer_vaddress).
  replace (u32 a - a + ints s jpeg_buffer_paddress) with (u32 a + (ints s jpeg_buffer_paddress - a)) by lia.
  rewrite u32_add_l. f_equal. lia.
Qed.

Lemma frame_memory_run w i frame l b place m : in_hand w i frame l b place m →
  frame_memory i w = Ok ((b, frame ++ m), w).
Proof.
  intros [(Hl & Hi & Hb) Hd _ Hp [Ha Hpool] _]. unfold frame_memory. rewrite get_run, Hl. cbn [deref]. rewrite lift_run.
  rewrite (proj2 (rd_Ok l i b)) by done. rewrite lift_run, Hd.
  destruct (Z.eqb_spec (ints (vars w) user_memorypool_enable) 0) as [E|E]; cbn [orb]; [done|].
  destruct (Hp E) as [-> ->], (Hpool E) as [Hpre _], (Ha Hpre) as [H1 H2]. by rewrite to_phys_offset, Z.eqb_refl.
Qed.

Lemma frame_at_run l j b p m : l !! j = Some b → data b = Some (p, m) → (∀ j' b', l !! j' = Some b' → j' ≠ j → data b' = None) →
  frame_at p l = Some m.
Proof.
  unfold frame_at. revert j. induction l as [|c l IH]; intros [|j] Hb Hd Ho; try done; cbn in Hb; cbn [omap list_omap].
  - injection Hb as ->. rewrite Hd, Z.eqb_refl. done.
  - rewrite (Ho 0%nat c) by done. apply (IH j); [done|done|]. intros j' b' Hb' Hne. apply (Ho (S j')); [done|lia].
Qed.

Lemma steady_modify w f :
  ints (f (vars w)) = ints (vars w) → buffers (f (vars w)) = buffers (vars w) →
  backupVideoBuffer (f (vars w)) = backupVideoBuffer (vars w) →
  length (bitstream (f (vars w))) = length (bitstream (vars w)) → steady w (with_vars w (f (vars w))).
Proof. intros. by constructor. Qed.

(** The state in which the engine is started. *)
Lemma decode_param_addresses s v p : decode_param s v p vaddr_src = u32 v ∧ decode_param s v p paddr_src = u32 p.
Proof. done. Qed.

(** From setting the parameters on. *)
Lemma engine_run w :
  let s := vars w in
  let found := (engine_finds s (to_phys s (jpeg_param s vaddr_src)), engine_finds s (jpeg_param s paddr_src)) in
  ∃ w', (s ← get; r ⇐ JPEG_S_PARAM (jpeg_param s); if r <? 0 then mret 0 else
         r ⇐ JPEG_TRIGGER (engine_finds s (to_phys s (jpeg_param s vaddr_src))) (engine_finds s (jpeg_param s paddr_src));
         if r <? 0 then mret 0 else
         picture ⇐ ReadJpeg; _ ← modify (set_fb (Some picture)); mret 0) w = Ok (0, w') ∧
    steady w w' ∧ files (vars w') = files (vars w) ∧ engine_inputs (trace w') = engine_inputs (trace w) ++ [found].
Proof.
  cbv zeta. rewrite get_run, request_run. unfold Device.answer. rewrite (proj2 (Z.ltb_ge _ _)) by apply engine_set.
  rewrite request_run. unfold Device.answer. rewrite (proj2 (Z.ltb_ge _ _)) by apply engine_starts.
  rewrite request_run, modify_run, mret_run. eexists. split; [done|]. split.
  - eapply steady_trans; [|by apply steady_modify].
    eapply steady_trans; [|by apply steady_after]. eapply steady_trans; [|by apply steady_after]. by apply steady_after.
  - cbn [with_vars trace Device.after]. autorewrite with webcam. done.
Qed.

(** What the engine is given for a frame: at both addresses it begins there. *)
Definition is_shown (frame : list Z) (input : option (list Z) * option (list Z)) : Prop :=
  ∃ a b, input = (Some a, Some b) ∧ take (length frame) a = frame ∧ take (length frame) b = frame.

Lemma jpegDec_run w i frame l b place m off : in_hand w i frame l b place m → ints (vars w) enable_preview ≠ 0 →
  ∃ w' input, jpegDec (V4l2Buffer i (Z.of_nat (length frame)) frame_len off) w = Ok (0, w') ∧ steady w w' ∧
    files (vars w') = files (vars w) ∧ engine_inputs (trace w') = engine_inputs (trace w) ++ [input] ∧ is_shown frame input.
Proof.
  intros Hh Hpre. pose proof Hh as [(Hl & Hi & Hb) Hd Ho Hp [Ha Hpool] Hfit]. destruct (Ha Hpre) as [Hv Hpa].
  unfold jpegDec. cbn [index bytesused length_]. rewrite get_run, bind_run.
  destruct (Z.eqb_spec (ints (vars w) user_memorypool_enable) 0) as [E|E]; cbn [negb].
  - specialize (Hfit E). rewrite bind_run, (frame_memory_run _ _ _ _ _ _ _ Hh). cbn [fst snd]. rewrite first_bytes_prefix, lift_run.
    assert (u32 (ints (vars w) bitstream_vaddress - ints (vars w) jpeg_buffer_vaddress) = 0) as ->.
    { rewrite Hv. unfold Z.sub. rewrite u32_add_l, Z.add_opp_diag_r. done. }
    set (mem := frame ++ drop (length frame) (bitstream (vars w))).
    assert (blit (bitstream (vars w)) 0 frame = Ok mem) as ->.
    { unfold blit, mem. cbn [Z.leb Z.compare Z.to_nat take]. rewrite (proj2 (Z.leb_le _ _)) by lia. done. }
    rewrite lift_run, modify_run. unfold modify at 1. set (w1 := with_vars (with_vars w _) _). destruct (engine_run w1) as (w' & E' & S & F & I).
    assert (engine_finds (vars w1) (u32 (ints (vars w) jpeg_buffer_paddress)) = Some mem) as Hf.
    { unfold engine_finds. cbn [w1 vars with_vars set_param set_bitstream ints bitstream]. rewrite E. cbn [Z.eqb negb]. unfold Z.sub.
      rewrite u32_add_l, Z.add_opp_diag_r. change (u32 0) with 0. rewrite (proj2 (Z.leb_le _ _)) by lia. done. }
    eexists w', _. split; [exact E'|]. split; [|split; [exact F|split; [exact I|]]].
    + eapply steady_trans; [|exact S]. constructor; try done. cbn. unfold mem. rewrite length_app, length_drop. lia.
    + exists mem, mem. unfold mem. rewrite take_app_length. split; [|done]. fold mem. f_equal.
      * rewrite <- Hf. f_equal. change (to_phys (vars w) (u32 (ints (vars w) bitstream_vaddress)) = u32 (ints (vars w) jpeg_buffer_paddress)).
        rewrite Hv, u32_u32, <- Hv. by apply to_phys_base.
      * rewrite <- Hf. f_equal. change (u32 (ints (vars w) bitstream_paddress) = u32 (ints (vars w) jpeg_buffer_paddress)). by rewrite Hpa, u32_u32.
  - destruct (Hp E) as [Hst Hpl]. rewrite Hl. cbn [deref]. rewrite lift_run, (proj2 (rd_Ok l i b)) by done. rewrite lift_run. unfold modify at 1.
    set (w1 := with_vars w _). destruct (engine_run w1) as (w' & E' & S & F & I).
    assert (engine_finds (vars w1) place = Some (frame ++ m)) as Hf.
    { unfold engine_finds. cbn [w1 vars with_vars set_param ints buffers]. rewrite (proj2 (Z.eqb_neq _ _)) by exact E. cbn [negb]. rewrite Hl.
      by eapply frame_at_run. }
    eexists w', _. split; [exact E'|]. split; [|split; [exact F|split; [exact I|]]].
    + eapply steady_trans; [|exact S]. by constructor.
    + exists (frame ++ m), (frame ++ m). rewrite take_app_length. split; [|done]. f_equal.
      * rewrite <- Hf. f_equal. change (to_phys (vars w) (u32 (start b)) = place). rewrite Hst, Hpl. unfold at_offset at 1. rewrite u32_u32. by apply to_phys_offset.
      * rewrite <- Hf. f_equal. change (u32 (ints (vars w) bitstream_paddress + i * frame_len) = place). rewrite Hpl. unfold at_offset. f_equal. lia.
Qed.

Lemma save_frame_run w i frame l b place m off : in_hand w i frame l b place m → Z.of_nat (length frame) < 2147483648 →
  ∃ w' t, save_frame (V4l2Buffer i (Z.of_nat (length frame)) frame_len off) w = Ok (tt, w') ∧ steady w w' ∧
    files (vars w') = files (vars w) ++ [(jpegfilename t, frame)] ∧ engine_inputs (trace w') = engine_inputs (trace w).
Proof.
  intros Hh Hs. unfold save_frame. cbn [index bytesused]. rewrite request_run.
  set (t := Device.answer w Localtime). set (w1 := Device.after w Localtime).
  assert (in_hand w1 i frame l b place m) as Hh1 by (eapply in_hand_steady; [exact Hh|by apply steady_after]).
  rewrite bind_run, (frame_memory_run _ _ _ _ _ _ _ Hh1). cbn [fst snd]. rewrite s32_id by (unfold is_s32; lia).
  rewrite first_bytes_prefix, lift_run, request_run. destruct (file_saved (driver w1) (jpegfilename t) (Z.of_nat (length frame))) as [H0 Hw]; [lia|].
  fold (Device.answer w1 (CreateFile (jpegfilename t) (Z.of_nat (length frame)))) in H0, Hw.
  set (f := Device.answer w1 (CreateFile (jpegfilename t) (Z.of_nat (length frame)))) in *.
  unfold JpegHeader.Write2File. rewrite (proj2 (Z.ltb_ge f.1 0)) by done.
  pose proof (write_loop_full f.2 frame (Z.of_nat (length frame)) 0) as E.
  change (take (Z.to_nat 0) frame) with (@nil Z) in E. rewrite E; [|lia|unfold is_s32; lia|done|by rewrite Z.sub_0_r].
  rewrite lift_run, modify_run. cbn [fst snd Z.ltb Z.compare]. rewrite mret_run.
  eexists _, t. split; [done|]. split; [|split].
  - eapply steady_trans; [by apply (steady_after w Localtime)|]. eapply steady_trans; [by apply (steady_after w1 (CreateFile (jpegfilename t) (Z.of_nat (length frame))))|]. by constructor.
  - done.
  - cbn [w1 trace Device.after with_vars]. autorewrite with webcam. done.
Qed.

(** *** One frame *)

Lemma give_back_taken (l : list buffer) i m : Forall (λ b, data b = None) l →
  give_back i (alter (λ b, Buffer (start b) (blength b) (Some m)) (Z.to_nat i) l) = l.
Proof.
  intros Hl. unfold give_back. apply list_eq. intros j. destruct (decide (j = Z.to_nat i)) as [->|Hne].
  - rewrite !list_lookup_alter_eq. destruct (l !! Z.to_nat i) as [b|] eqn:E; [|done]. cbn.
    pose proof (Forall_lookup_1 _ _ _ _ Hl E) as Hb. destruct b. cbn in *. by subst.
  - by rewrite !list_lookup_alter_ne.
Qed.

(** An entry of the table whose buffer is known and belongs to the driver. *)
Definition known w (j : nat) (b : buffer) : Prop :=
  data b = None ∧ blength b = frame_len ∧
  (ints (vars w) user_memorypool_enable ≠ 0 → start b = at_offset (ints (vars w) bitstream_vaddress) (Z.of_nat j)).

(** The buffers belong to the driver; [BUFFER_COUNT] is their number. *)
Definition lent w (l : list buffer) : Prop :=
  buffers (vars w) = Live l ∧ (∀ j b, l !! j = Some b → known w j b) ∧ Z.of_nat (length l) = ints (vars w) BUFFER_COUNT ∧
  Z.of_nat (length l) <= buffer_max ∧ Z.of_nat (length l) < 2147483648 ∧ addressed w ∧
  (ints (vars w) user_memorypool_enable = 0 → frame_len <= Z.of_nat (length (bitstream (vars w)))).

Lemma known_none w l : (∀ j b, l !! j = Some b → known w j b) → Forall (λ b, data b = None) l.
Proof. intros K. apply Forall_lookup. intros j b Hb. by apply (K j). Qed.

(** The event a call acts on. *)
Definition event w (stale : Z * Z) (i : nat) : Z * Z := default stale (key (driver w) i).

(** A file with a frame, under the name of a time. *)
Definition is_saved (frame : list Z) (f : list Z * list Z) : Prop := f.2 = frame ∧ ∃ t, f.1 = jpegfilename t.

(** The parts of a call that look at the frame: with buffer [i] in hand. *)
Lemma decode_run w i frame l b place m off : in_hand w i frame l b place m →
  ∃ w' inputs, (if ints (vars w) enable_preview =? 0 then mret 0
          else jpegDec (V4l2Buffer i (Z.of_nat (length frame)) frame_len off)) w = Ok (0, w') ∧
    steady w w' ∧ files (vars w') = files (vars w) ∧ engine_inputs (trace w') = engine_inputs (trace w) ++ inputs ∧
    Forall2 is_shown (if ints (vars w) enable_preview =? 0 then [] else [frame]) inputs.
Proof.
  intros Hh. destruct (Z.eqb_spec (ints (vars w) enable_preview) 0) as [E|E].
  - exists w, []. rewrite app_nil_r. split_and!; [done|apply steady_refl|done|done|constructor].
  - destruct (jpegDec_run w i frame l b place m off Hh E) as (w' & input & E' & S & F & I & T).
    exists w', [input]. split_and!; try done. by constructor.
Qed.

Lemma save_chosen_run w i frame l b place m off (e : Z * Z) : in_hand w i frame l b place m → Z.of_nat (length frame) < 2147483648 →
  ∃ w' fs, (if released e then save_frame (V4l2Buffer i (Z.of_nat (length frame)) frame_len off) else mret tt) w = Ok (tt, w') ∧
    steady w w' ∧ files (vars w') = files (vars w) ++ fs ∧ engine_inputs (trace w') = engine_inputs (trace w) ∧
    Forall2 is_saved (if released e then [frame] else []) fs.
Proof.
  intros Hh Hs. destruct (released e).
  - destruct (save_frame_run w i frame l b place m off Hh Hs) as (w' & t & E & S & F & I).
    exists w', [(jpegfilename t, frame)]. split_and!; try done. constructor; [|done]. split; [done|by exists t].
  - exists w, []. rewrite app_nil_r. split_and!; [done|apply steady_refl|done|done|constructor].
Qed.

(** What a call of [cam_read] does to the world. *)
Record served w w' (q : list Z) (e : Z * Z) : Prop := Served {
  sv_ints : ints (vars w') = ints (vars w);
  sv_buffers : buffers (vars w') = buffers (vars w);
  sv_backup : backupVideoBuffer (vars w') = backupVideoBuffer (vars w);
  sv_memory : length (bitstream (vars w')) = length (bitstream (vars w));
  sv_held : held (driver w') = q;
  sv_shot : ∀ j, shot (driver w') j = shot (driver w) (S j);
  sv_key : ∀ j, key (driver w') j = key (driver w) (S j);
  sv_pool : pool (driver w') = pool (driver w);
  sv_saved : ∃ fs, files (vars w') = files (vars w) ++ fs ∧
    Forall2 is_saved (if released e then [shot (driver w) 0%nat] else []) fs;
  sv_shown : ∃ inputs, engine_inputs (trace w') = engine_inputs (trace w) ++ inputs ∧
    Forall2 is_shown (if ints (vars w) enable_preview =? 0 then [] else [shot (driver w) 0%nat]) inputs
}.

Lemma cam_read_run stale w l i q :
  lent w l → held (driver w) = i :: q → i ∉ q → 0 <= i < Z.of_nat (length l) →
  ∃ w', cam_read stale w = Ok (1, w') ∧ served w w' (q ++ [i]) (event w stale 0).
Proof.
  intros (Hl & K & Hn & Hmax & Hs & Hadr & Hmem) Hq Hi Hr. pose proof (known_none _ _ K) as Hnone. unfold cam_read. rewrite request_run.
  destruct (dequeues _ _ _ Hq) as (off & place & m & Ea & Hpl & Eh). unfold Device.answer. rewrite Ea.
  set (frame := shot (driver w) 0%nat) in *. set (w1 := Device.after w VIDIOC_DQBUF).
  pose proof (shot_fits (driver w) 0%nat : Z.of_nat (length frame) <= frame_len) as Hfit.
  destruct frame_len_is as [[_ _] Hf31].
  assert (∀ j, shot (driver w1) j = shot (driver w) (S j)) as S1 by (intros; apply (shot_after _ VIDIOC_DQBUF)).
  assert (∀ j, key (driver w1) j = key (driver w) j) as K1 by (intros; apply (key_after _ VIDIOC_DQBUF)).
  assert (pool (driver w1) = pool (driver w)) as P1 by apply (pool_after _ VIDIOC_DQBUF).
  unfold int. rewrite bind_run, get_run, mret_run. cbn [vars w1 Device.after index]. rewrite <- Hn.
  rewrite u32_id by (unfold is_u32; lia). rewrite (proj2 (Z.ltb_lt _ _)) by lia. cbn [negb].
  destruct (lookup_lt_is_Some_2 l (Z.to_nat i)) as [b Hb]; [lia|].
  unfold take_over. rewrite bind_run, get_run. cbn [vars w1 Device.after index]. rewrite Hl.
  set (l' := alter (λ b, Buffer (start b) (blength b) (Some (place, frame ++ m))) (Z.to_nat i) l).
  set (b' := Buffer (start b) (blength b) (Some (place, frame ++ m))).
  unfold modify at 1. set (w2 := with_vars w1 _). rewrite bind_run, get_run, mret_run.
  change (ints (vars w1)) with (ints (vars w2)).
  assert (in_hand w2 i frame l' b' place m) as Hh2.
  { constructor.
    - split; [done|]. split; [lia|]. unfold l'. by rewrite list_lookup_alter_eq, Hb.
    - done.
    - intros j c Hc Hne. unfold l' in Hc. rewrite list_lookup_alter_ne in Hc by done. by apply (K j).
    - intros E. destruct (K _ _ Hb) as (_ & _ & Hst). cbn [b' start]. rewrite (Hst E), Z2Nat.id by lia.
      destruct Hadr as [_ Hp]. destruct (Hp E) as [_ Ep]. rewrite Ep in Hpl. split; [done|by apply Hpl].
    - unfold addressed. change (pool (driver w2)) with (pool (driver w1)). by rewrite P1.
    - intros E. specialize (Hmem E). change (bitstream (vars w2)) with (bitstream (vars w)). lia. }
  destruct (decode_run w2 i frame l' b' place m off Hh2) as (w3 & inputs & E3 & T3 & F3 & I3 & V3).
  rewrite bind_run, E3, bind_run, get_run, mret_run, request_run. unfold Device.answer. rewrite key_is.
  rewrite (st_key _ _ T3). change (key (driver w2) 0) with (key (driver w1) 0). rewrite K1. fold (event w stale 0).
  set (w4 := Device.after w3 _).
  assert (in_hand w4 i frame l' b' place m) as Hh4.
  { pose proof (in_hand_steady _ _ _ _ _ _ _ _ Hh2 T3) as [G1 G2 G3 G4 G5 G6]. constructor; try done.
    assert (pool (driver w4) = pool (driver w3)) as P4 by apply (pool_after _ (ReadKey _)). unfold addressed. by rewrite P4. }
  destruct (save_chosen_run w4 i frame l' b' place m off (event w stale 0) Hh4) as (w5 & fs & E5 & T5 & F5 & I5 & V5); [lia|].
  rewrite bind_run, E5. unfold queue. rewrite bind_run, request_run. unfold Device.answer.
  assert (held (driver w5) = q) as H5.
  { rewrite (st_held _ _ T5). unfold w4. cbn [Device.after driver].
    rewrite (held_after _ (ReadKey _)), (st_held _ _ T3). exact Eh. }
  destruct (queues (driver w5) i) as [Eq Hh]; [lia|by rewrite H5|].
  rewrite (proj2 (Z.eqb_neq _ _)) by done. rewrite get_run, modify_run, !mret_run. cbn [vars Device.after].
  rewrite (st_buffers _ _ T5). change (buffers (vars w4)) with (buffers (vars w3)). rewrite (st_buffers _ _ T3).
  change (buffers (vars w2)) with (Live l'). unfold l'. rewrite give_back_taken by done.
  eexists. split; [done|]. constructor; cbn [with_vars vars set_buffers ints buffers backupVideoBuffer bitstream files driver trace Device.after].
  - rewrite (st_ints _ _ T5). exact (st_ints _ _ T3).
  - by rewrite Hl.
  - rewrite (st_backup _ _ T5). exact (st_backup _ _ T3).
  - rewrite (st_memory _ _ T5). exact (st_memory _ _ T3).
  - by rewrite Hh, H5.
  - intros j. rewrite shot_after, (st_shot _ _ T5). unfold w4. cbn [Device.after driver].
    rewrite shot_after, (st_shot _ _ T3). apply S1.
  - intros j. rewrite key_after, (st_key _ _ T5). unfold w4. cbn [Device.after driver].
    rewrite key_after, (st_key _ _ T3). apply K1.
  - rewrite pool_after, (st_pool _ _ T5). unfold w4. cbn [Device.after driver]. rewrite pool_after, (st_pool _ _ T3). exact P1.
  - exists fs. split; [|exact V5]. rewrite F5. change (files (vars w4)) with (files (vars w3)). by rewrite F3.
  - exists inputs. split; [|exact V3]. rewrite engine_inputs_app, I5. unfold w4. cbn [trace Device.after].
    rewrite engine_inputs_app, I3. cbn [trace w2 with_vars w1 Device.after]. autorewrite with webcam. done.
Qed.

(** *** The loop *)

(** The queue after [n] buffers were taken from its head and given back. *)
Fixpoint turned (n : nat) (q : list Z) : list Z :=
  match n with O => q | S n => turned n (drop 1 q ++ take 1 q) end.

(** The frames among the next [n] at which a key release is seen. *)
Definition chosen w (stale : nat → Z * Z) (n : nat) : list (list Z) :=
  map (shot (driver w)) (filter (λ i, released (event w (stale i) i) = true) (seq 0 n)).
Definition shown w (n : nat) : list (list Z) :=
  if ints (vars w) enable_preview =? 0 then [] else map (shot (driver w)) (seq 0 n).

(** From [w] to [w'] the next [n] frames were served. *)
Record served_all (n : nat) (stale : nat → Z * Z) w w' : Prop := ServedAll {
  sa_buffers : buffers (vars w') = buffers (vars w);
  sa_backup : backupVideoBuffer (vars w') = backupVideoBuffer (vars w);
  sa_held : held (driver w') = turned n (held (driver w));
  sa_saved : ∃ fs, files (vars w') = files (vars w) ++ fs ∧ Forall2 is_saved (chosen w stale n) fs;
  sa_shown : ∃ inputs, engine_inputs (trace w') = engine_inputs (trace w) ++ inputs ∧ Forall2 is_shown (shown w n) inputs
}.

Lemma lent_served w w' l q e : lent w l → served w w' q e → lent w' l.
Proof.
  intros (Hl & K & Hn & Hmax & Hs & Hadr & Hmem) Sv. unfold lent, known, addressed.
  rewrite (sv_buffers _ _ _ _ Sv), (sv_ints _ _ _ _ Sv), (sv_memory _ _ _ _ Sv), (sv_pool _ _ _ _ Sv). done.
Qed.

Lemma seq_S (f : nat → bool) n :
  filter (λ i, f i = true) (seq 0 (S n)) =
  (if f 0%nat then [0%nat] else []) ++ map S (filter (λ i, f (S i) = true) (seq 0 n)).
Proof.
  cbn [seq]. rewrite filter_cons. rewrite <- seq_shift.
  assert (∀ l, filter (λ i, f i = true) (map S l) = map S (filter (λ i, f (S i) = true) l)) as ->.
  { induction l as [|x l IH]; [done|]. cbn [map]. rewrite !filter_cons, IH. by destruct (f (S x)). }
  by destruct (f 0%nat).
Qed.

Lemma served_all_S n stale w w1 w' q :
  served w w1 q (event w (stale 0%nat) 0) → held (driver w1) = drop 1 (held (driver w)) ++ take 1 (held (driver w)) →
  served_all n (λ i, stale (S i)) w1 w' → served_all (S n) stale w w'.
Proof.
  intros Sv Hh A. constructor.
  - rewrite (sa_buffers _ _ _ _ A). apply (sv_buffers _ _ _ _ Sv).
  - rewrite (sa_backup _ _ _ _ A). apply (sv_backup _ _ _ _ Sv).
  - rewrite (sa_held _ _ _ _ A), Hh. done.
  - destruct (sa_saved _ _ _ _ A) as (fs & -> & F), (sv_saved _ _ _ _ Sv) as (fs0 & -> & F0).
    exists (fs0 ++ fs). split; [by rewrite app_assoc|]. unfold chosen.
    rewrite (seq_S (λ i, released (event w (stale i) i))), map_app, map_map. apply Forall2_app; [by destruct (released _)|].
    replace (map _ _) with (chosen w1 (λ i, stale (S i)) n); [done|]. unfold chosen, event.
    rewrite (map_ext (shot (driver w1)) (λ i, shot (driver w) (S i))) by apply (sv_shot _ _ _ _ Sv). f_equal.
    apply list_filter_iff. intros i. by rewrite (sv_key _ _ _ _ Sv).
  - destruct (sa_shown _ _ _ _ A) as (fs & -> & F), (sv_shown _ _ _ _ Sv) as (fs0 & -> & F0).
    exists (fs0 ++ fs). split; [by rewrite app_assoc|]. unfold shown in *. rewrite (sv_ints _ _ _ _ Sv) in F.
    destruct (_ =? 0); [by change [] with ([] ++ [] : list (list Z)); apply Forall2_app|].
    cbn [seq map]. rewrite <- seq_shift, map_map.
    change (?x :: ?l) with ([x] ++ l). apply Forall2_app; [done|].
    by rewrite (map_ext (shot (driver w1)) (λ i, shot (driver w) (S i))) in F by apply (sv_shot _ _ _ _ Sv).
Qed.

Lemma frames_run n : ∀ stale w l, lent w l → l ≠ [] → held (driver w) ≡ₚ seqZ 0 (Z.of_nat (length l)) →
  ∃ w', (∀ m, read_loop (n + m) stale w = read_loop m (λ i, stale (n + i)%nat) w') ∧ served_all n stale w w'.
Proof.
  induction n as [|n IH]; intros stale w l Hlent Hne Hq.
  - exists w. split; [done|]. constructor; try done; [exists []|exists []]; rewrite app_nil_r; (split; [done|]);
      unfold shown; [constructor|by destruct (_ =? 0)].
  - destruct (held (driver w)) as [|i q] eqn:Eq.
    { apply Permutation_nil_l in Hq. destruct l; [done|]. apply (f_equal length) in Hq. rewrite length_seqZ in Hq. cbn in Hq. lia. }
    assert (NoDup (i :: q)) as Hnd by (rewrite Hq; apply NoDup_seqZ). apply NoDup_cons in Hnd as [Hi _].
    assert (i ∈ seqZ 0 (Z.of_nat (length l))) as Hr by (rewrite <- Hq; left). apply elem_of_seqZ in Hr.
    destruct (cam_read_run (stale 0%nat) w l i q) as (w1 & E & Sv); [done|done|done|lia|].
    destruct (IH (λ i, stale (S i)) w1 l) as (w' & EL & A); [by eapply lent_served|done| |].
    { rewrite (sv_held _ _ _ _ Sv), <- Hq. symmetry. apply Permutation_cons_append. }
    exists w'. split; [|eapply served_all_S; [exact Sv| |exact A]; rewrite (sv_held _ _ _ _ Sv), Eq; cbn; by rewrite drop_0].
    intros m. cbn [Nat.add read_loop]. rewrite bind_run, E. cbn [Z.ltb Z.compare]. by rewrite EL.
Qed.

(** *** Starting the camera *)

(** What the start of the camera keeps. *)
Record prepares w w' : Prop := Prepares {
  pr_ints : ∀ x, x ≠ bitstream_paddress → x ≠ bitstream_vaddress → ints (vars w') x = ints (vars w) x;
  pr_backup : backupVideoBuffer (vars w') = backupVideoBuffer (vars w);
  pr_memory : bitstream (vars w') = bitstream (vars w);
  pr_shot : ∀ i, shot (driver w') i = shot (driver w) i;
  pr_key : ∀ i, key (driver w') i = key (driver w) i;
  pr_saved : files (vars w') = files (vars w);
  pr_inputs : engine_inputs (trace w') = engine_inputs (trace w)
}.

Lemma prepares_refl w : prepares w w.
Proof. by constructor. Qed.
Lemma prepares_trans w1 w2 w3 : prepares w1 w2 → prepares w2 w3 → prepares w1 w3.
Proof.
  intros A B. constructor; [intros; by rewrite (pr_ints _ _ B), (pr_ints _ _ A)|..]; destruct A, B; congruence.
Qed.
Lemma prepares_after w r :
  match r with VIDIOC_DQBUF | ReadKey _ | CreateFile _ _ | JPEG_TRIGGER _ _ => False | _ => True end →
  prepares w (Device.after w r).
Proof.
  intros Hr. constructor; try done; cbn [Device.after driver trace].
  - intros i. rewrite shot_after. by destruct r.
  - intros i. rewrite key_after. by destruct r.
  - rewrite engine_inputs_app. destruct r; try done; apply app_nil_r.
Qed.
Lemma prepares_buffers w p : prepares w (with_vars w (set_buffers p (vars w))).
Proof. by constructor. Qed.
Lemma prepares_address w x z : x = bitstream_paddress ∨ x = bitstream_vaddress → prepares w (with_vars w (set_int x z (vars w))).
Proof. intros Hx. constructor; try done. intros y H1 H2. cbn. apply fn_lookup_insert_ne. naive_solver. Qed.

Lemma store_buffer_run w l i addr len : buffers (vars w) = Live l → (i < length l)%nat →
  store_buffer (Z.of_nat i) addr len w =
    Ok (tt, with_vars w (set_buffers (Live (<[i := Buffer addr len None]> l)) (vars w))).
Proof.
  intros Hl Hi. unfold store_buffer. rewrite get_run, Hl. cbn [deref]. rewrite lift_run.
  rewrite wr_Ok by lia. by rewrite lift_run, Nat2Z.id.
Qed.

Lemma query_loop_run n : ∀ (i : nat) w l, buffers (vars w) = Live l → length l = (i + n)%nat →
  (∀ j b, (j < i)%nat → l !! j = Some b → known w j b) →
  ∃ w' l', query_loop n (Z.of_nat i) w = Ok (0, w') ∧ prepares w w' ∧ ints (vars w') = ints (vars w) ∧
    held (driver w') = held (driver w) ∧ pool (driver w') = pool (driver w) ∧ buffers (vars w') = Live l' ∧ length l' = (i + n)%nat ∧
    ∀ j b, l' !! j = Some b → known w j b.
Proof.
  induction n as [|n IH]; intros i w l Hl Hlen Hk; cbn [query_loop].
  - exists w, l. split_and!; try done. intros j b Hb. apply Hk; [|done].
    apply lookup_lt_Some in Hb. lia.
  - rewrite request_run. unfold Device.answer. destruct (buffer_known (driver w) (Z.of_nat i)) as (used & off & ->).
    unfold int. rewrite bind_run, get_run, mret_run. cbn [length_ m_offset].
    set (w1 := Device.after w _).
    assert (∀ addr w2, prepares w w2 → vars w2 = vars w → held (driver w2) = held (driver w) → pool (driver w2) = pool (driver w) →
      (ints (vars w) user_memorypool_enable ≠ 0 → addr = at_offset (ints (vars w) bitstream_vaddress) (Z.of_nat i)) →
      ∃ w' l', (_ ← store_buffer (Z.of_nat i) addr frame_len; query_loop n (Z.of_nat i + 1)) w2 = Ok (0, w') ∧
        prepares w w' ∧ ints (vars w') = ints (vars w) ∧ held (driver w') = held (driver w) ∧ pool (driver w') = pool (driver w) ∧
        buffers (vars w') = Live l' ∧ length l' = (i + S n)%nat ∧ ∀ j b, l' !! j = Some b → known w j b) as Hnext.
    { intros addr w2 P2 V2 H2 Hp2 Ha. rewrite bind_run, (store_buffer_run w2 l) by (rewrite ?V2; first [done|lia]).
      set (l2 := <[i := Buffer addr frame_len None]> l). set (w3 := with_vars w2 _).
      replace (Z.of_nat i + 1) with (Z.of_nat (S i)) by lia.
      destruct (IH (S i) w3 l2) as (w' & l' & E & P & I & Hh & Hp & B & L & K).
      - done.
      - unfold l2. rewrite length_insert. lia.
      - intros j b Hj Hb. unfold known. change (ints (vars w3)) with (ints (vars w2)). rewrite V2.
        destruct (decide (j = i)) as [->|Hne].
        + unfold l2 in Hb. rewrite list_lookup_insert_eq in Hb by lia. by injection Hb as <-.
        + unfold l2 in Hb. rewrite list_lookup_insert_ne in Hb by done. apply Hk; [lia|done].
      - assert (ints (vars w3) = ints (vars w)) as I3 by (change (ints (vars w3)) with (ints (vars w2)); by rewrite V2).
        exists w', l'. split_and!; try done; [| | | |lia|].
        + eapply prepares_trans; [exact P2|]. eapply prepares_trans; [|exact P]. apply prepares_buffers.
        + by rewrite I.
        + by rewrite Hh.
        + by rewrite Hp.
        + intros j b Hb. specialize (K j b Hb). unfold known in *. by rewrite I3 in K. }
    destruct (Z.eqb_spec (ints (vars w1) user_memorypool_enable) 0) as [E|E]; cbn [negb].
    + rewrite request_run. unfold Device.answer. destruct (frame_mapped (driver w1) off) as [addr ->].
      apply Hnext; try done; [| |].
      * eapply prepares_trans; by apply prepares_after.
      * cbn [Device.after driver]. rewrite (held_after _ (MmapFrame _ _)). apply (held_after _ (VIDIOC_QUERYBUF _)).
      * cbn [Device.after driver]. rewrite (pool_after _ (MmapFrame _ _)). apply (pool_after _ (VIDIOC_QUERYBUF _)).
    + rewrite bind_run, get_run, mret_run.
      apply Hnext; try done; [by apply prepares_after|apply (held_after _ (VIDIOC_QUERYBUF _))|apply (pool_after _ (VIDIOC_QUERYBUF _))].
Qed.

Lemma give_back_none (l : list buffer) i : Forall (λ b, data b = None) l → give_back i l = l.
Proof.
  intros Hl. unfold give_back. apply list_eq. intros j. rewrite list_lookup_alter. case_decide as Hj; [subst|done].
  destruct (l !! Z.to_nat i) as [b|] eqn:E; [|done]. cbn. pose proof (Forall_lookup_1 _ _ _ _ Hl E) as Hb.
  destruct b. cbn in *. by subst.
Qed.

Lemma queue_loop_run n : ∀ (i : nat) w l, buffers (vars w) = Live l → Forall (λ b, data b = None) l →
  held (driver w) = seqZ 0 (Z.of_nat i) → Z.of_nat (i + n) <= buffer_max →
  ∃ w', queue_loop n (Z.of_nat i) w = Ok (true, w') ∧ prepares w w' ∧ ints (vars w') = ints (vars w) ∧
    buffers (vars w') = Live l ∧ held (driver w') = seqZ 0 (Z.of_nat (i + n)) ∧ pool (driver w') = pool (driver w).
Proof.
  induction n as [|n IH]; intros i w l Hl Hn Hh Hm; cbn [queue_loop].
  - exists w. rewrite Nat.add_0_r. by split_and!.
  - unfold queue. rewrite bind_run, request_run. unfold Device.answer.
    destruct (queues (driver w) (Z.of_nat i)) as [Eq Eh]; [lia|rewrite Hh, elem_of_seqZ; lia|].
    rewrite (proj2 (Z.eqb_neq _ _)) by done. rewrite get_run, modify_run, mret_run. cbn [vars Device.after]. rewrite Hl.
    rewrite give_back_none by done. set (w1 := with_vars _ _).
    replace (Z.of_nat i + 1) with (Z.of_nat (S i)) by lia.
    destruct (IH (S i) w1 l) as (w' & E & P & I & B & H' & Hp); [done|done| |lia|].
    + cbn [w1 with_vars driver Device.after]. rewrite Eh, Hh. replace (Z.of_nat (S i)) with (Z.of_nat i + 1) by lia.
      rewrite seqZ_app by lia. by cbn.
    + exists w'. split_and!; try done; [|by rewrite H', Nat.add_succ_r|rewrite Hp; apply (pool_after _ (VIDIOC_QBUF _))].
      eapply prepares_trans; [by apply (prepares_after w (VIDIOC_QBUF (Z.of_nat i)))|].
      eapply prepares_trans; [apply (prepares_buffers _ (Live l))|exact P].
Qed.

(** A program that returns, keeping what the start of the camera keeps, with [Q]. *)
Definition gets {A} w (m : prog webcam wreq D A) (Q : A → world webcam wreq D → Prop) : Prop :=
  ∃ a w', m w = Ok (a, w') ∧ prepares w w' ∧ Q a w'.

Lemma gets_ret {A} w (a : A) (Q : A → world webcam wreq D → Prop) : Q a w → gets w (mret a) Q.
Proof. intros HQ. exists a, w. split; [done|]. split; [apply prepares_refl|done]. Qed.
Lemma gets_from {A} w w1 m (Q : A → world webcam wreq D → Prop) : prepares w w1 → gets w1 m Q → ∃ a w', m w1 = Ok (a, w') ∧ prepares w w' ∧ Q a w'.
Proof. intros P (a & w' & E & P' & HQ). exists a, w'. split; [done|]. split; [by eapply prepares_trans|done]. Qed.
Lemma gets_request {A} w r k (Q : A → world webcam wreq D → Prop) :
  match r with VIDIOC_DQBUF | ReadKey _ | CreateFile _ _ | JPEG_TRIGGER _ _ => False | _ => True end →
  gets (Device.after w r) (k (Device.answer w r)) Q → gets w (request r k) Q.
Proof. intros Hr G. unfold gets. rewrite request_run. eapply gets_from; [|exact G]. by apply prepares_after. Qed.
Lemma gets_bind {A B} w m (k : A → prog webcam wreq D B) Q1 (Q : B → world webcam wreq D → Prop) :
  gets w m Q1 → (∀ a w1, prepares w w1 → Q1 a w1 → gets w1 (k a) Q) → gets w (m ≫= k) Q.
Proof.
  intros (a & w1 & E & P & H1) HQ. unfold gets. rewrite bind_run, E. eapply gets_from; [exact P|]. by apply HQ.
Qed.
Lemma gets_int {A} w x (k : Z → prog webcam wreq D A) Q : gets w (k (ints (vars w) x)) Q → gets w (int x ≫= k) Q.
Proof. done. Qed.

(** The engine's memory can be addressed once it is prepared. *)
Lemma preview_memory_gets w : (ints (vars w) user_memorypool_enable ≠ 0 → ints (vars w) enable_preview ≠ 0) →
  gets w preview_memory (λ _ w', prepares w w' ∧ addressed w').
Proof.
  intros Hpp. unfold preview_memory. apply gets_int. destruct (Z.eqb_spec (ints (vars w) enable_preview) 0) as [E|E].
  { apply gets_ret. split; [apply prepares_refl|]. split; [done|]. intros Hp. by specialize (Hpp Hp). }
  apply gets_int, gets_int. eapply (gets_bind _ _ _ (λ _ w', w' = with_vars w (set_int bitstream_paddress _ (vars w)))).
  { eexists _, _. split; [done|]. split; [apply prepares_address; by left|done]. }
  intros ? w1 P1 ->. set (w1 := with_vars w _) in *. eapply (gets_bind _ _ _ (λ _ w', w' = with_vars w1 (set_int bitstream_vaddress _ (vars w1)))).
  { eexists _, _. split; [done|]. split; [apply prepares_address; by right|done]. }
  intros ? w2 P2 ->. set (w2 := with_vars w1 _) in *. apply gets_int, gets_request; [done|]. set (w3 := Device.after w2 _).
  assert (prepares w w3) as P3 by (eapply prepares_trans; [exact P1|eapply prepares_trans; [exact P2|by apply prepares_after]]).
  assert (ints (vars w3) bitstream_vaddress = u32 (ints (vars w3) jpeg_buffer_vaddress) ∧
          ints (vars w3) bitstream_paddress = u32 (ints (vars w3) jpeg_buffer_paddress)) as Ha3.
  { cbn. rewrite !fn_lookup_insert, !fn_lookup_insert_ne by done. rewrite fn_lookup_insert. unfold BUFFER_SIZE_OTHER_USE. cbn [Z.mul]. by rewrite !Z.add_0_r. }
  assert (pool (driver w3) = (negb (ints (vars w2) user_memorypool_enable =? 0), (pool (driver w2)).2)) as Hp3 by apply (pool_after _ (VIDIOC_S_USER_MEMORY_POOL_ENABLE _)).
  destruct (Z.eqb_spec (ints (vars w2) user_memorypool_enable) 0) as [Ep|Ep]; cbn [negb] in *.
  - apply gets_ret. split; [done|]. split; [done|]. intros Hp. exfalso. apply Hp. exact Ep.
  - apply gets_request; [done|]. apply gets_ret. set (w4 := Device.after w3 _). split; [eapply prepares_trans; [exact P3|by apply prepares_after]|].
    split; [done|]. intros _. split; [exact E|]. unfold w4. cbn [Device.after driver]. rewrite (pool_after _ (VIDIOC_S_MEMORY_POOL_PADDR _)), Hp3. cbn [fst].
    reflexivity.
Qed.

(** The table and the queue once the camera runs. *)
Definition running w (n : Z) : Prop :=
  ∃ l, lent w l ∧ Z.of_nat (length l) = n ∧ held (driver w) = seqZ 0 n.

Lemma init_mmap_gets w : 0 < ints (vars w) BUFFER_COUNT <= buffer_max →
  (ints (vars w) user_memorypool_enable ≠ 0 → ints (vars w) enable_preview ≠ 0) →
  gets w init_mmap (λ r w', r = 0 ∧ held (driver w') = [] ∧ addressed w' ∧ ∃ l, buffers (vars w') = Live l ∧
    Z.of_nat (length l) = ints (vars w) BUFFER_COUNT ∧ ∀ j b, l !! j = Some b → known w' j b).
Proof.
  intros Hn Hpp. unfold init_mmap. eapply gets_bind; [by apply preview_memory_gets|].
  intros ? w1 _ [P1 A1]. apply gets_int. rewrite (pr_ints _ _ P1) by done. apply gets_request; [done|].
  unfold Device.answer. rewrite (proj2 (Z.eqb_neq _ _)) by (apply buffers_granted; lia).
  set (n := ints (vars w) BUFFER_COUNT) in *. set (w2 := Device.after w1 _).
  apply gets_request; [done|]. unfold Device.answer. rewrite table_allocated. cbn [negb].
  set (w3 := Device.after w2 _). eapply (gets_bind _ _ _ (λ _ w4, w4 = with_vars w3 (set_buffers (Live (replicate (Z.to_nat n) (Buffer 0 0 None))) (vars w3)))).
  { eexists _, _. split; [done|]. split; [apply prepares_buffers|done]. }
  intros ? w4 _ ->. set (w4 := with_vars w3 _).
  destruct (query_loop_run (Z.to_nat n) 0 w4 (replicate (Z.to_nat n) (Buffer 0 0 None))) as (w5 & l & E & P & I & Hh & Hp & B & L & K);
    [done|by rewrite length_replicate|intros; lia|].
  exists 0, w5. split; [exact E|]. split; [exact P|]. split; [done|]. split; [|split].
  - rewrite Hh. unfold w4, w3. cbn [with_vars driver Device.after]. rewrite (held_after _ (Malloc _)).
    apply (held_after _ (VIDIOC_REQBUFS _)).
  - assert (pool (driver w5) = pool (driver w1)) as Ep.
    { rewrite Hp. unfold w4, w3. cbn [with_vars driver Device.after]. rewrite (pool_after _ (Malloc _)). apply (pool_after _ (VIDIOC_REQBUFS _)). }
    unfold addressed. by rewrite I, Ep.
  - exists l. split; [done|]. split; [lia|]. intros j b Hb. unfold known. rewrite I. by apply K.
Qed.

Lemma cam_start_gets w : 0 < ints (vars w) BUFFER_COUNT <= buffer_max → ints (vars w) BUFFER_COUNT < 2147483648 →
  (ints (vars w) user_memorypool_enable = 0 → frame_len <= Z.of_nat (length (bitstream (vars w)))) →
  (ints (vars w) user_memorypool_enable ≠ 0 → ints (vars w) enable_preview ≠ 0) →
  gets w cam_start (λ r w', r = 0 ∧ running w' (ints (vars w) BUFFER_COUNT)).
Proof.
  intros Hn Hs Hm Hpp. unfold cam_start. apply gets_request; [done|]. unfold Device.answer.
  destruct (capable (driver w)) as [Hc ->]. rewrite (proj2 (Z.eqb_neq _ _)) by done. cbn [fst snd negb].
  apply gets_request; [done|]. set (w1 := Device.after _ VIDIOC_CROPCAP).
  eapply (gets_bind _ _ _ (λ _ w', vars w' = vars w)).
  { destruct (_ =? 0); [apply gets_request; [done|]|]; by apply gets_ret. }
  intros ? w2 _ V2. apply gets_int, gets_int, gets_request; [done|].
  destruct (format_set (driver w2) (u32 (ints (vars w2) image_width)) (u32 (ints (vars w2) image_height))) as [Hf _].
  unfold Device.answer. rewrite (proj2 (Z.eqb_neq _ _)) by done. set (w3 := Device.after w2 _).
  apply gets_request; [done|]. destruct (format_set (driver w3) 0 0) as [_ Hg].
  unfold Device.answer. rewrite (proj2 (Z.eqb_neq _ _)) by done. set (w4 := Device.after w3 _).
  assert (vars w4 = vars w) as V4 by exact V2. rewrite <- V4 in Hn, Hs, Hm, Hpp |- *. clearbody w4. clear - Hn Hs Hm Hpp.
  eapply gets_bind; [by apply init_mmap_gets|]. intros r w5 P5 (-> & Hh & A & l & B & L & K). cbn [Z.ltb Z.compare].
  pose proof (known_none _ _ K) as Hnone.
  unfold start_capturing. apply gets_int. rewrite (pr_ints _ _ P5) by done.
  destruct (queue_loop_run (Z.to_nat (ints (vars w4) BUFFER_COUNT)) 0 w5 l) as (w6 & E6 & P6 & I6 & B6 & H6 & Hp6); [done|done|by rewrite Hh|lia|].
  eapply (gets_bind _ _ _ (λ ok w', ok = true ∧ w' = w6)); [by exists true, w6|]. intros ? ? _ [-> ->]. cbn [negb].
  apply gets_request; [done|]. unfold Device.answer. rewrite (proj2 (Z.eqb_neq _ _)) by apply stream_on.
  apply gets_ret. split; [done|]. exists l. change (vars (Device.after w6 VIDIOC_STREAMON)) with (vars w6).
  unfold lent, known, addressed. cbn [vars Device.after driver].
  rewrite B6, I6, (held_after _ VIDIOC_STREAMON), H6, (pool_after _ VIDIOC_STREAMON), Hp6, (pr_memory _ _ P6), (pr_memory _ _ P5).
  destruct A as [A1 A2]. rewrite Nat.add_0_l, Z2Nat.id by lia. split_and!; try done; try lia.
  - by rewrite (pr_ints _ _ P5).
  - intros Hp. apply Hm. by rewrite <- (pr_ints _ _ P5).
Qed.
End serving.

(** ** Ending, whatever the driver answers *)

Section ending.
Context {D : Type} `{Driver wreq wreply D}.
Implicit Types w : world webcam wreq D.

(** The screen can be put back: the backup [b] fits into the frame buffer [m]. *)
Definition screen_saved w (b m : list Z) : Prop :=
  backupVideoBuffer (vars w) = Live b ∧ fb (vars w) = Some m ∧ (length b <= length m)%nat ∧ ints (vars w) screensize ≠ 0.

Lemma restore_screen_run w b m : screen_saved w b m →
  restore_screen w = Ok (tt, with_vars w (set_fb (Some (b ++ drop (length b) m)) (vars w))).
Proof.
  intros (Hb & Hm & Hlen & Hs). unfold restore_screen. rewrite get_run, (proj2 (Z.eqb_neq _ _)), Hb by done.
  cbn [deref]. rewrite lift_run, Hm. unfold blit. cbn [Z.leb Z.compare Z.to_nat take].
  rewrite (proj2 (Z.leb_le _ _)) by lia. by rewrite lift_run.
Qed.

Lemma unmap_loop_run n : ∀ (i : nat) w l, buffers (vars w) = Live l → (i + n = length l)%nat →
  ∃ w', unmap_loop n (Z.of_nat i) w = Ok (tt, w') ∧ vars w' = vars w ∧
    trace w' = trace w ++ map (λ b, Munmap (start b) (blength b)) (drop i l).
Proof.
  induction n as [|n IH]; intros i w l Hl Hlen; cbn [unmap_loop].
  - exists w. rewrite drop_ge by lia. by rewrite app_nil_r.
  - rewrite get_run, Hl. cbn [deref]. rewrite lift_run. destruct (lookup_lt_is_Some_2 l i) as [b Hb]; [lia|].
    rewrite (proj2 (rd_Ok l (Z.of_nat i) b)) by (rewrite Nat2Z.id; split; [lia|done]). rewrite lift_run, request_run.
    replace (Z.of_nat i + 1) with (Z.of_nat (S i)) by lia.
    destruct (IH (S i) (Device.after w (Munmap (start b) (blength b))) l) as (w' & E & V & T); [done|lia|].
    exists w'. split; [done|]. split; [done|]. rewrite T. cbn [Device.after trace].
    by rewrite (drop_S l b i Hb), <- app_assoc.
Qed.

(** What is given back, in order, with the screen as it was found. *)
Definition handed_back w (l : list buffer) (b m : list Z) : list wreq :=
  [MunmapFb (b ++ drop (length b) m); Close (ints (vars w) fb_fd); VIDIOC_STREAMOFF] ++
  (if ints (vars w) user_memorypool_enable =? 0 then map (λ b, Munmap (start b) (blength b)) l else []) ++
  [Close (ints (vars w) cam_fd)] ++
  (if ints (vars w) pJpegBuffer =? 0 then [] else [Munmap (ints (vars w) pJpegBuffer) (ints (vars w) jpeg_buffer_size)]) ++
  [Close (ints (vars w) fd_jpeg)].

Lemma cam_stop_run w l : buffers (vars w) = Live l → ints (vars w) BUFFER_COUNT = Z.of_nat (length l) →
  ∃ w', cam_stop w = Ok (tt, w') ∧ vars w' = set_buffers Freed (vars w) ∧ trace w' = trace w ++ [VIDIOC_STREAMOFF] ++
    (if ints (vars w) user_memorypool_enable =? 0 then map (λ b, Munmap (start b) (blength b)) l else []).
Proof.
  intros Hl Hn. unfold cam_stop, stop_capturing, int. rewrite bind_run, request_run, mret_run.
  set (w1 := Device.after w VIDIOC_STREAMOFF). rewrite bind_run, get_run, mret_run, bind_run, get_run, mret_run, bind_run.
  change (ints (vars w1)) with (ints (vars w)). rewrite Hn, Nat2Z.id.
  assert (∃ w2, (if ints (vars w) user_memorypool_enable =? 0 then unmap_loop (length l) 0 else mret ()) w1 = Ok (tt, w2) ∧
    vars w2 = vars w ∧ trace w2 = trace w1 ++
      (if ints (vars w) user_memorypool_enable =? 0 then map (λ b, Munmap (start b) (blength b)) l else [])) as (w2 & -> & V & T).
  { destruct (_ =? 0); [|exists w1; by rewrite app_nil_r].
    destruct (unmap_loop_run (length l) 0 w1 l) as (w2 & E & V & T); [done..|]. rewrite drop_0 in T. by exists w2. }
  rewrite get_run, V, Hl. cbn [free]. rewrite lift_run. eexists. split; [done|]. cbn [with_vars vars trace].
  split; [by rewrite V|]. rewrite T. cbn [w1 Device.after trace]. by rewrite <- app_assoc.
Qed.

Lemma clean_up_run w l b m : screen_saved w b m → buffers (vars w) = Live l →
  ints (vars w) BUFFER_COUNT = Z.of_nat (length l) →
  ∃ w', clean_up w = Ok (tt, w') ∧ trace w' = trace w ++ handed_back w l b m ∧
    vars w' = set_backup Freed (set_buffers Freed (set_fb None (vars w))).
Proof.
  intros Hs Hl Hn. unfold clean_up. rewrite bind_run, (restore_screen_run _ _ _ Hs), get_run, request_run, modify_run, request_run.
  cbn [with_vars vars set_fb fb default ints]. set (w1 := Device.after _ (Close _)).
  destruct (cam_stop_run w1 l) as (w2 & E2 & V2 & T2); [done|done|].
  rewrite bind_run, E2. unfold cam_close. rewrite bind_run, request_run, mret_run, get_run. cbn [vars Device.after].
  rewrite V2. cbn [w1 Device.after with_vars vars set_buffers set_fb backupVideoBuffer ints].
  destruct Hs as (Hb & _). rewrite Hb. cbn [free]. rewrite lift_run, modify_run. unfold handed_back.
  destruct (ints (vars w) pJpegBuffer =? 0); rewrite bind_run, ?request_run, mret_run, request_run, mret_run;
    (eexists; split; [done|]; split;
      [cbn [Device.after trace with_vars]; rewrite T2; cbn [w1 Device.after trace with_vars vars set_fb]; by rewrite <- !app_assoc|
       cbn [Device.after vars with_vars]; by rewrite V2]).
Qed.

(** The exit handler puts the screen back as it was found and gives everything
    back that the program holds, each once and in order.  It works once only: when
    an error has led to the label [out] the program has done the same before it
    spins, and an interrupt, the only way to end it, then makes it fault. *)
Theorem handler_cleans_up_once w l b m :
  screen_saved w b m → buffers (vars w) = Live l → ints (vars w) BUFFER_COUNT = Z.of_nat (length l) →
  (∃ w', myExitHandler w = Ok (Exits (-9), w') ∧ trace w' = trace w ++ handed_back w l b m) ∧
  (∃ w', out w = Ok (Spins, w') ∧ trace w' = trace w ++ handed_back w l b m ∧ myExitHandler w' = Crash OutOfBounds).
Proof.
  intros Hs Hl Hn. destruct (clean_up_run w l b m Hs Hl Hn) as (w' & E & T & V).
  split; exists w'; unfold myExitHandler, out; rewrite bind_run, E; [done|].
  split; [done|]. split; [done|]. unfold clean_up, restore_screen. rewrite bind_run, bind_run, get_run, V.
  cbn [set_backup set_buffers set_fb ints backupVideoBuffer deref].
  rewrite (proj2 (Z.eqb_neq _ _)) by apply Hs. done.
Qed.

(** *** A start that fails early *)

(** The codes of the failures before the table of buffers is in memory. *)
Definition early (r : Z) : Prop := - ERR_OUT_OF_MEM <= r < 0.

Definition untouched w w' : Prop :=
  buffers (vars w') = buffers (vars w) ∧ backupVideoBuffer (vars w') = backupVideoBuffer (vars w) ∧
  fb (vars w') = fb (vars w) ∧
  ∀ x, x ≠ bitstream_paddress → x ≠ bitstream_vaddress → ints (vars w') x = ints (vars w) x.
Definition leaves {A} (m : prog webcam wreq D A) (Q : A → Prop) : Prop :=
  ∀ w a w', m w = Ok (a, w') → buffers (vars w) = Null → Q a → untouched w w'.
Definition anything {A} (a : A) : Prop := True.
(** The program returns no early code. *)
Definition never_early (m : prog webcam wreq D Z) : Prop := ∀ w r w', m w = Ok (r, w') → ¬ early r.

Lemma untouched_refl w : untouched w w.
Proof. done. Qed.
Lemma untouched_trans w1 w2 w3 : untouched w1 w2 → untouched w2 w3 → untouched w1 w3.
Proof.
  intros (A1 & A2 & A3 & A4) (B1 & B2 & B3 & B4). unfold untouched.
  split_and!; [congruence|congruence|congruence|]. intros x Hx Hy. by rewrite B4, A4.
Qed.
Lemma leaves_ret {A} (a : A) Q : leaves (mret a) Q.
Proof. intros w a' w' E _ _. injection E as <- <-. apply untouched_refl. Qed.
Lemma leaves_request {A} r (k : wreply r → prog webcam wreq D A) Q : (∀ a, leaves (k a) Q) → leaves (request r k) Q.
Proof. intros Hk w a w' E Hn HQ. rewrite request_run in E. exact (Hk _ _ _ _ E Hn HQ). Qed.
Lemma leaves_bind {A B} (m : prog webcam wreq D A) (k : A → prog webcam wreq D B) Q :
  leaves m anything → (∀ a, leaves (k a) Q) → leaves (m ≫= k) Q.
Proof.
  intros Hm Hk w b w' E Hn HQ. rewrite bind_run in E. destruct (m w) as [[a w1]|] eqn:E1; [|done].
  pose proof (Hm _ _ _ E1 Hn I) as U. eapply untouched_trans; [exact U|].
  apply (Hk _ _ _ _ E); [|done]. by destruct U as (-> & _).
Qed.
Lemma leaves_int {A} x (k : Z → prog webcam wreq D A) Q : (∀ a, leaves (k a) Q) → leaves (int x ≫= k) Q.
Proof. intros Hk w b w' E Hn HQ. exact (Hk _ _ _ _ E Hn HQ). Qed.
Lemma leaves_address x z Q : x = bitstream_paddress ∨ x = bitstream_vaddress → leaves (put x z) Q.
Proof.
  intros Hx w a w' E _ _. injection E as _ <-. split_and!; try done.
  intros y H1 H2. cbn. apply fn_lookup_insert_ne. naive_solver.
Qed.
Lemma leaves_null Q : leaves (modify (set_buffers Null)) Q.
Proof. intros w a w' E Hn _. injection E as _ <-. by split_and!. Qed.
Lemma leaves_never (m : prog webcam wreq D Z) : never_early m → leaves m early.
Proof. intros Hm w r w' E _ Hr. by destruct (Hm _ _ _ E). Qed.

Lemma never_early_ret r : ¬ early r → never_early (mret r).
Proof. intros Hr w r' w' E. by injection E as <- _. Qed.
Lemma never_early_request r k : (∀ a, never_early (k a)) → never_early (request r k).
Proof. intros Hk w r' w' E. exact (Hk _ _ _ _ E). Qed.
Lemma never_early_bind {A} (m : prog webcam wreq D A) k : (∀ a, never_early (k a)) → never_early (m ≫= k).
Proof. intros Hk w r' w' E. rewrite bind_run in E. destruct (m w) as [[a w1]|]; [exact (Hk _ _ _ _ E)|done]. Qed.
End ending.

Create HintDb leaves.
#[export] Hint Resolve leaves_ret leaves_null never_early_ret : leaves.
Ltac leaves := repeat first
  [ progress cbn [negb] | apply leaves_int; intros ? | apply leaves_address; by auto | solve [auto with leaves]
  | apply leaves_request; intros ? | apply leaves_bind; [|intros ?] | case_match ].
Ltac never_early := repeat first
  [ apply never_early_ret; unfold early, ERR_OUT_OF_MEM, ERR_UNKNOWN; lia
  | apply never_early_request; intros ? | apply never_early_bind; intros ? | case_match ].

Section failing.
Context {D : Type} `{Driver wreq wreply D}.
Implicit Types w : world webcam wreq D.

Lemma query_loop_never n : ∀ i, never_early (query_loop n i).
Proof. induction n as [|n IH]; intros i; cbn [query_loop]; never_early; apply IH. Qed.
Lemma start_capturing_never : never_early start_capturing.
Proof. unfold start_capturing. never_early. Qed.
Lemma table_never n : never_early (_ ← modify (set_buffers (Live (replicate n (Buffer 0 0 None)))); query_loop n 0).
Proof. apply never_early_bind. intros _. apply query_loop_never. Qed.

#[local] Hint Resolve leaves_never table_never start_capturing_never : leaves.

Lemma preview_memory_leaves : leaves preview_memory anything.
Proof. unfold preview_memory. leaves. Qed.
Lemma init_mmap_leaves : leaves init_mmap early.
Proof.
  unfold init_mmap. apply leaves_bind; [apply preview_memory_leaves|intros _]. leaves.
Qed.

Lemma start_leaves : leaves (ret ← init_mmap; if ret <? 0 then mret ret else start_capturing) early.
Proof.
  intros w r w' E Hn Hr. rewrite bind_run in E.
  destruct (init_mmap w) as [[ret w1]|] eqn:E1; [|done]. destruct (Z.ltb_spec ret 0).
  - injection E as <- <-. by apply (init_mmap_leaves _ _ _ E1).
  - by destruct (start_capturing_never _ _ _ E).
Qed.
#[local] Hint Resolve start_leaves : leaves.

Lemma cam_start_leaves : leaves cam_start early.
Proof. unfold cam_start. leaves. Qed.

(** An error before the table of buffers is in memory (no such device, no
    capture device, no streaming, the format refused, no buffers, no memory)
    makes the program fault in normal mode instead of ending: the clean-up
    goes through the table, which is a NULL pointer.  This holds for every
    driver, and only the screen was put back by then. *)
Theorem failed_start_faults fuel stale w b m r w' :
  cam_start w = Ok (r, w') → early r →
  screen_saved w b m → buffers (vars w) = Null → ints (vars w) user_memorypool_enable = 0 → 0 < ints (vars w) BUFFER_COUNT →
  run_camera fuel stale w = Crash NullDeref.
Proof.
  intros E Hr Hs Hn Hp Hc. destruct (cam_start_leaves _ _ _ E Hn Hr) as (U1 & U2 & U3 & U4).
  unfold run_camera. rewrite bind_run, E. destruct Hr as [_ Hr]. rewrite (proj2 (Z.ltb_lt _ _)) by done.
  assert (screen_saved w' b m) as Hs' by (unfold screen_saved in *; rewrite U2, U3, U4 by done; exact Hs).
  unfold out, clean_up. rewrite bind_run, bind_run, (restore_screen_run _ _ _ Hs'), get_run, request_run, modify_run, request_run.
  unfold cam_stop, stop_capturing, int. rewrite bind_run, bind_run, request_run, mret_run.
  rewrite bind_run, get_run, mret_run, bind_run, get_run, mret_run.
  cbn [Device.after vars with_vars set_fb ints]. rewrite !U4, Hp by done. cbn [Z.eqb].
  rewrite bind_run. destruct (Z.to_nat (ints (vars w) BUFFER_COUNT)) eqn:En; [lia|]. cbn [unmap_loop].
  rewrite get_run. cbn [Device.after vars with_vars set_fb buffers]. by rewrite U1, Hn.
Qed.
End failing.

(** ** Serving frames *)

Section session.
Context {D : Type} `{Hcam : Camera D}.
Implicit Types w : world webcam wreq D.

(** C38: With a camera that cooperates the demo serves every frame, in rotation.
    After the start the driver has all buffers; after [n] further frames it has
    them all again, turned by [n].  The bytes that were written to files are
    exactly the frames at which a key was released, whole and in order, each
    under the name of a time; and with the preview the JPEG engine was started for
    every frame with parameters whose two addresses, virtual and physical, are
    those of memory that begins with the frame.  The use of a buffer that was
    given back would be a fault, and there is none.  In the mode with a memory
    pool the driver fills the buffers in the engine's memory, one after the
    other. *)
Theorem webcam_serves_frames n stale w :
  let N := ints (vars w) BUFFER_COUNT in
  0 < N <= buffer_max → N < 2147483648 →
  (ints (vars w) user_memorypool_enable = 0 → frame_len <= Z.of_nat (length (bitstream (vars w)))) →
  (ints (vars w) user_memorypool_enable ≠ 0 → ints (vars w) enable_preview ≠ 0) →
  ∃ w0 w', cam_start w = Ok (0, w0) ∧ held (driver w0) = seqZ 0 N ∧
    (∃ l, buffers (vars w0) = Live l ∧ Z.of_nat (length l) = N ∧ ∀ j b, l !! j = Some b → known w0 j b) ∧
    (∀ m, read_loop (n + m) stale w0 = read_loop m (λ i, stale (n + i)%nat) w') ∧
    held (driver w') = turned n (seqZ 0 N) ∧ buffers (vars w') = buffers (vars w0) ∧
    (∃ fs, files (vars w') = files (vars w) ++ fs ∧ Forall2 is_saved (chosen w stale n) fs) ∧
    (∃ inputs, engine_inputs (trace w') = engine_inputs (trace w) ++ inputs ∧ Forall2 is_shown (shown w n) inputs).
Proof.
  intros N Hn Hs Hm Hpp. destruct (cam_start_gets w Hn Hs Hm Hpp) as (r & w0 & E & P & -> & l & Hl & Hlen & Hh).
  destruct (frames_run n stale w0 l) as (w' & EL & A); [done|intros ->; cbn in Hlen; lia|by rewrite Hh, Hlen|].
  exists w0, w'. split; [done|]. split; [done|]. split; [exists l; split; [apply Hl|split; [done|apply Hl]]|]. split; [done|].
  split; [by rewrite (sa_held _ _ _ _ A), Hh|]. split; [apply (sa_buffers _ _ _ _ A)|].
  destruct (sa_saved _ _ _ _ A) as (fs & F & V), (sa_shown _ _ _ _ A) as (inputs & I & V').
  rewrite (pr_saved _ _ P) in F. rewrite (pr_inputs _ _ P) in I. split; [exists fs|exists inputs]; (split; [done|]).
  - unfold chosen, event in *. rewrite (map_ext _ _ (pr_shot _ _ P)) in V.
    assert (filter (λ i, released (default (stale i) (key (driver w0) i)) = true) (seq 0 n) =
      filter (λ i, released (default (stale i) (key (driver w) i)) = true) (seq 0 n)) as <-; [|done].
    apply list_filter_iff. intros i. by rewrite (pr_key _ _ P).
  - unfold shown in *. by rewrite (pr_ints _ _ P), (map_ext _ _ (pr_shot _ _ P)) in V' by done.
Qed.
End session.

(** The event of a key stays in the variable when nothing new is read, so that a
    single release can be seen at the next frame again. *)
Lemma stale_event_is_seen_again {D} `{Camera D} (w : world webcam wreq D) e :
  key (driver w) 0%nat = Some e → key (driver w) 1%nat = None → released e = true →
  chosen w (λ _, e) 2 = [shot (driver w) 0%nat; shot (driver w) 1%nat].
Proof. intros E0 E1 He. unfold chosen, event. cbn [seq]. rewrite !filter_cons, E0, E1. cbn. by rewrite He. Qed.

(** ** Witnesses *)

(** A camera with up to 4 buffers of 8 bytes whose i-th frame is [i; i + 1; i + 2],
    with a memory pool, and a keypad on which the second call finds a released
    key. *)
Definition sample_shot (i : nat) : list Z := [Z.of_nat i; Z.of_nat i + 1; Z.of_nat i + 2].
Definition sample_key (i : nat) : option (Z * Z) := if (i =? 1)%nat then Some (1, 0) else None.

Record sample_cam := SampleCam { s_held : list Z; s_shots : nat; s_keys : nat; s_pool : bool * Z }.

Definition sample_driver : Driver wreq wreply sample_cam := λ d r,
  (match r with
   | VIDIOC_QBUF i => SampleCam (s_held d ++ [i]) (s_shots d) (s_keys d) (s_pool d)
   | VIDIOC_DQBUF => SampleCam (drop 1 (s_held d)) (S (s_shots d)) (s_keys d) (s_pool d)
   | VIDIOC_REQBUFS _ | VIDIOC_STREAMOFF => SampleCam [] (s_shots d) (s_keys d) (s_pool d)
   | ReadKey _ => SampleCam (s_held d) (s_shots d) (S (s_keys d)) (s_pool d)
   | VIDIOC_S_USER_MEMORY_POOL_ENABLE e => SampleCam (s_held d) (s_shots d) (s_keys d) (negb (e =? 0), (s_pool d).2)
   | VIDIOC_S_MEMORY_POOL_PADDR a => SampleCam (s_held d) (s_shots d) (s_keys d) ((s_pool d).1, a)
   | _ => d
   end,
   match r return wreply r with
   | OpenDir _ | Malloc _ => true
   | Close _ | EVIOCGBIT _ | MunmapFb _ | Munmap _ _ => tt
   | EVIOCGNAME _ => None
   | Scanf => None
   | MmapJpeg _ | MmapFb _ => None
   | FBIOGET_FSCREENINFO | IOCTL_LCD_GET_DMA_BASE => None
   | FBIOGET_VSCREENINFO => None
   | MmapFrame _ off => Some (0x40000000 + off)
   | VIDIOC_QUERYCAP => (0, false, (true, true))
   | VIDIOC_REQBUFS _ => (0, false)
   | VIDIOC_QUERYBUF i => Some (V4l2Buffer i 0 8 (8 * i))
   | VIDIOC_DQBUF => match s_held d with
       | [] => None
       | i :: _ => Some (V4l2Buffer i 3 8 (8 * i), (u32 ((s_pool d).2 + 8 * i), sample_shot (s_shots d) ++ [0; 0; 0; 0; 0]))
       end
   | ReadJpeg => []
   | ReadKey _ => sample_key (s_keys d)
   | Localtime => Tm 112 1 29 12 30 5
   | CreateFile _ len => (7, if len =? 0 then [] else [len])
   | _ => 0
   end).

Lemma sample_camera : @Camera sample_cam sample_driver.
Proof.
  refine (Build_Camera _ sample_driver s_held (λ d i, sample_shot (s_shots d + i)) (λ d i, sample_key (s_keys d + i))
    s_pool 4 8 _ _ _ _ _ _ _ _ _ _ _ _ _ _ _ _ _ _ _); try (intros; reflexivity).
  - done.
  - done.
  - done.
  - intros [h s k p] i q E. cbn in *. subst h. exists (8 * i), (u32 (p.2 + 8 * i)), [0; 0; 0; 0; 0]. by rewrite Nat.add_0_r.
  - intros d fd. cbn. by rewrite Nat.add_0_r.
  - by intros d [].
  - intros d r j. destruct r; try done; cbn; f_equal; lia.
  - intros d r j. destruct r; try done; cbn; f_equal; lia.
  - by intros [] [].
  - intros d path len Hlen. cbn. split; [done|]. destruct (Z.eqb_spec len 0) as [->|E]; cbn; lia.
  - done.
  - done.
  - by intros d.
  - intros d i. by exists 0, (8 * i).
  - intros. by eexists.
  - done.
Defined.

(** Two buffers, no preview; the screen of four bytes was saved and then drawn over. *)
Definition sample_ints (count preview pooled : Z) (x : gvar) : Z :=
  match x with
  | BUFFER_COUNT => count | enable_preview => preview | user_memorypool_enable => pooled | screensize => 4
  | image_width => 640 | image_height => 480 | fb_fd => 4 | fd_jpeg => 3 | cam_fd => 5 | pJpegBuffer => 0x1000
  | jpeg_buffer_size => 16 | jpeg_buffer_vaddress => 0x1000 | jpeg_buffer_paddress => 0x200000
  | _ => 0
  end.
Definition sample_state (count preview pooled : Z) (l : heap (list buffer)) : webcam :=
  Webcam (sample_ints count preview pooled) (λ _, 0) l (replicate 16 0) (Some [9; 9; 9; 9]) (Live [1; 2; 3; 4])
    (lit "/dev/video1") (lit "/dev/input/event0") [].
Definition no_frames : sample_cam := SampleCam [] 0 0 (false, 0).

Lemma webcam_serves_frames_witness :
  let start pooled := World (sample_state 2 1 pooled Null) no_frames [] in
  let serves pooled := ∃ w0 w', @cam_start _ sample_driver (start pooled) = Ok (0, w0) ∧
    (∀ m, @read_loop _ sample_driver (3 + m) (λ _, (0, 0)) w0 = @read_loop _ sample_driver m (λ _, (0, 0)) w') ∧
    s_held (driver w') = [1; 0] ∧
    (∃ f, files (vars w') = [f] ∧ f.2 = [1; 2; 3]) ∧
    (∃ a b c, engine_inputs (trace w') = [a; b; c] ∧ is_shown [0; 1; 2] a ∧ is_shown [1; 2; 3] b ∧ is_shown [2; 3; 4] c) in
  serves 0 ∧ serves 1.
Proof.
  intros start serves.
  assert (∀ pooled, (pooled = 0 → 8 <= 16) → serves pooled) as Hall; [|split; apply Hall; done].
  intros pooled Hp. pose proof (@webcam_serves_frames _ _ sample_camera 3 (λ _, (0, 0)) (start pooled)) as T.
  destruct T as (w0 & w' & E & _ & _ & EL & Hh & _ & (fs & F & V) & (inputs & I & V')); [by vm_compute|by vm_compute|by vm_compute|done|].
  exists w0, w'. split; [exact E|]. split; [exact EL|]. split; [exact Hh|].
  change (chosen _ _ _) with [[1; 2; 3]] in V. change (shown (start pooled) 3) with [[0; 1; 2]; [1; 2; 3]; [2; 3; 4]] in V'.
  split.
  - inversion V as [|? f ? fs' [Hf _] V1]; subst. inversion V1; subst. by exists f.
  - inversion V' as [|? a ? ? Ha V1]; subst. inversion V1 as [|? b ? ? Hb V2]; subst.
    inversion V2 as [|? c ? ? Hc V3]; subst. inversion V3; subst. by exists a, b, c.
Defined.

Lemma handler_cleans_up_once_witness :
  let l := [Buffer 0x40000000 8 None; Buffer 0x40000008 8 None] in
  let w := World (sample_state 2 0 0 (Live l)) (SampleCam [0; 1] 5 5 (false, 0)) [] in
  (∃ w', @myExitHandler _ sample_driver w = Ok (Exits (-9), w') ∧
     trace w' = [MunmapFb [1; 2; 3; 4]; Close 4; VIDIOC_STREAMOFF; Munmap 0x40000000 8; Munmap 0x40000008 8;
                 Close 5; Munmap 0x1000 16; Close 3]) ∧
  (∃ w', @out _ sample_driver w = Ok (Spins, w') ∧ @myExitHandler _ sample_driver w' = Crash OutOfBounds).
Proof.
  intros l w.
  destruct (@handler_cleans_up_once _ sample_driver w l [1; 2; 3; 4] [9; 9; 9; 9]) as [(w1 & E1 & T1) (w2 & E2 & _ & C2)];
    [by split_and!|done|done|].
  split; [exists w1|exists w2]; done.
Defined.

(** A driver for a device that is no video device. *)
Definition dead_driver : Driver wreq wreply sample_cam := λ d r,
  ((sample_driver d r).1,
   match r return wreply r → wreply r with VIDIOC_QUERYCAP => λ _, (-1, true, (false, false)) | _ => λ a, a end
     (sample_driver d r).2).

Lemma failed_start_faults_witness :
  let w := World (sample_state 2 0 0 Null) no_frames [] in
  @run_camera _ dead_driver 7 (λ _, (0, 0)) w = Crash NullDeref.
Proof.
  intros w. apply (@failed_start_faults _ dead_driver 7 (λ _, (0, 0)) w [1; 2; 3; 4] [9; 9; 9; 9] (-1)
    (World (sample_state 2 0 0 Null) no_frames [VIDIOC_QUERYCAP])); done.
Defined.
